(* ===== verification/_CoqProject ===== *)
-Q . S2P
Prelude.v
DataBuffer.v
Util.v
DataEntry.v
BasePacket.v
KvPackets.v
ConfPackets.v
KeyPackets.v
HashPackets.v
ListPackets.v
SetPackets.v
ZsetPackets.v
PacketFactory.v
PacketStream.v
MemPool.v
MdbItem.v
MemCache.v
Dll.v
SlabLists.v
SlabPages.v
SlabAlloc.v
SlabFree.v
SlabEvict.v
CacheHashMap.v
EngineState.v
MdbManager.v
Engine.v
EngineInit.v
EngineRun.v
TableBuilder.v
TableStrategies.v
TableRebuild.v
TableTheorems.v
TableManager.v
ConfTable.v
GroupInfo.v
Migration.v
MigrationTheorems.v
Rebuild.v
PacketCodes.v
CopyPackets.v
Storage.v
TairManager.v
TairService.v
DupSync.v
DupSyncTheorems.v
RequestProcessor.v
TairServer.v
Replication.v
Answers.v
WaitObject.v
ServerList.v
Client.v
ClientTheorems.v
Cluster.v
ClusterTheorems.v
AcknowledgedPut.v
ClientErrors.v
FdbFile.v
FdbItems.v
FdbBucket.v
FdbTree.v
FdbLayout.v
FdbSteps.v
FdbTiles.v
FdbSpace.v
FdbLink.v
FdbUnlink.v
FdbEngine.v
FdbPut.v
FdbOpen.v
FdbLost.v
FdbTheorems.v
FdbScan.v
FdbScanTheorems.v
FdbManager.v
FdbCache.v
FdbManagerTheorems.v
