(* ===== verification/Prelude.v ===== *)
(** * Tair (DistributedCache): a verification library

    Tair is a distributed key/value cache.  A client sends packets to data
    servers, which keep keys and values in a storage engine; a config server
    decides which data server holds which part ("bucket") of the keys, and
    moves buckets between servers when servers come and go.  This library
    models the C++ code of seven parts of the system as functions of Rocq and
    proves what each part promises, and what they promise together.  Paths are relative to
    src/DistributedCache/tair_rdb_release_20121009/src, except those that start
    with tbnet, which are in src/DistributedCache/tb-common-utils/tbnet/src.

    ** The parts and their files

    The wire.  [DataBuffer] is tbnet's byte buffer (tbnet databuffer.h),
    [DataEntry] the keys and values with their metadata (common/data_entry.hpp,
    item_data_info.hpp), [Util] the hash functions and string utilities
    (common/hash.hpp, util.hpp), [BasePacket] the macros of
    packets/base_packet.hpp and the interfaces of packets: [Packet] (a pair of
    encode and decode that invert each other), [Codec] and [Family].
    [KvPackets], [KeyPackets], [ConfPackets], [ListPackets], [HashPackets],
    [SetPackets] and [ZsetPackets] are the packet types of packets/ by the data
    they carry, [PacketFactory] the table from codes to types
    (packet_factory.cpp), and [PacketStream] the framing and its reassembly at
    the receiver (packets/packet_streamer.cpp, tbnet tcpconnection.cpp and
    connection.cpp).

    The memory engine (storage/mdb).  [MemPool] hands out pages (mem_pool.cpp),
    [MdbItem] is an item and its packed 64-bit id (mem_cache.hpp), [MemCache]
    the slab managers and the shared state of the engine (mem_cache.cpp),
    [Dll] the theory of doubly linked lists its lists are instances of,
    [SlabLists] the lists of a slab manager, [CacheHashMap] the hash table
    (cache_hashmap.cpp), and [MdbManager] the engine's operations on all of
    these (mdb_manager.cpp).  The invariants are layered the same way:
    [SlabPages] (the page lists of a slab), [SlabAlloc] (a slab: pages, item
    lists, free lists, counters; taking an item), [SlabFree] (giving one back),
    [SlabEvict] (evicting, and [alloc_item] as a whole), [EngineState] (all
    slabs and the hash table together, and the map from keys to entries they
    stand for), [Engine] (put, get and remove preserve it and act on that map),
    [EngineInit] (the start-up establishes it) and [EngineRun] (whole runs).

    The disk engine (storage/fdb).  [FdbFile] is a file behind a growing mapping
    (file_op.cpp, mmap_file.hpp) and the pool of free extents
    (free_blocks_manager.cpp), [FdbItems] the records and data of a bucket, the
    nodes of its search trees and the opening of its two files
    (fdb_item_manager.cpp), [FdbBucket] put, get and remove (fdb_bucket.cpp).
    [FdbTree] is the theory of the search trees as trees, [FdbLayout] how they
    lie in the two files, [FdbSteps] single reads and writes, [FdbTiles] and
    [FdbSpace] the extents, which cover the data file without a gap or an
    overlap, [FdbLink] and [FdbUnlink] adding and removing a node, [FdbEngine]
    the map a bucket stands for with get and remove, [FdbPut] put, [FdbOpen] the
    opening, [FdbLost] a put that cannot read, and [FdbTheorems] whole runs.
    [FdbScan] is the scan of a data file (data_file_reader.cpp) and
    [FdbScanTheorems] what it gives.  [FdbManager] is the engine with its open
    buckets and the cache in front of them (fdb_manager.cpp), over any engine of
    the class [storage_manager] for a cache; [FdbCache] shows that bucket and cache
    together are one map, against the laws [KeyValueLaws] and [CacheLaws], which
    the memory engine keeps, and [FdbManagerTheorems] has whole runs and the
    three ways in which the cache goes wrong.

    The routing table (configserver, dataserver).  [TableBuilder] is the base
    class of the builders (table_builder.cpp), [TableStrategies] its two
    subclasses (table_builder1.cpp, table_builder2.cpp), [TableRebuild] their
    invariants and [TableTheorems] their properties; [TableManager] is the
    table as a data server keeps it (dataserver/table_manager.cpp).

    The config server's groups.  [ConfTable] is the file with the three tables
    of a group (conf_server_table_manager.cpp), [GroupInfo] a group
    (group_info.cpp), [Migration] and [MigrationTheorems] the protocol that
    moves buckets, between a [GroupInfo.group] and the [TableManager]s, and
    [Rebuild] the whole of [group_info::rebuild], from the live servers to the
    tables and the migration it starts.

    The data server.  [Storage] is the interface of the storage engines
    (storage/storage_manager.hpp) as a type class, with the memory engine behind
    it and the laws of a store [KeyValueLaws] that the memory engine keeps;
    [TairManager] the operations of a data server in front of an engine
    (dataserver/tair_manager.cpp), [TairService] what they promise to clients.
    [CopyPackets] are the copies of requests (the copy constructors of packets/),
    [DupSync] the duplication of writes to the slaves of a bucket
    (dataserver/dup_sync_manager.cpp), [DupSyncTheorems] when its clients are
    answered, and [PacketCodes] the packet codes they look at.
    [RequestProcessor] has one handler per request
    (dataserver/request_processor.cpp), [TairServer] the dispatch of packets to
    them (dataserver/tair_server.cpp); [Replication] follows a put through all
    of these at the master and its slaves, [Answers] counts the answers of every
    handler.

    The client library (client/tair_client_api_impl.cpp).  [WaitObject] is what
    a waiting request is woken by (common/wait_object.hpp), [ServerList] the
    tables and lists of servers in the packets of the config servers,
    [Client] the operations: [tair_client] is the state of a
    [tair_client_impl], [network] the class of what it sends with and what
    arrives while it waits.  [ClientTheorems] says what a question comes to over
    any network.  [Cluster] is one such network: data servers run by
    [TairServer] and [DupSync], packets in flight, and a schedule by which they
    are delivered, overtake each other or are lost, requests are given up,
    clocks go on and servers crash; [ClusterTheorems] follows a put and a get through it,
    [AcknowledgedPut] draws the conclusions for the client, and [ClientErrors]
    has the answers the client cannot deal with.

    [Prelude] holds what the files share: machine integers, the outcome and
    state monads, lists indexed by [Z], counting, and the automation.

    ** How the code is translated

    A definition has the name of the C++ function or member it models (with a
    prefix where C++ distinguishes classes).  An integer is a [Z] kept in its
    range by [u8] .. [u64], [s8] .. [s64] where the C++ type may wrap around.
    A method of an object is a function of the object's record; where many
    objects share memory (the engine) it is a state transformer [stM S A],
    whose result is an [outcome]: a value, [Fail] for [return false], [Abort]
    for a failed [assert], [Overrun] for memory used outside its bounds,
    [Diverge] for fuel used up.  A reader of the wire returns what C++ does:
    [Got], [Rejected] ([return false]), [Asserted] or [Overran].  What another
    file promises is used through an interface where the code has one: the
    class [Packet] (the virtual encode and decode) and the class [Strategy]
    with its laws [StrategyLaws] (the virtual functions of a table builder).
    zlib's compress and uncompress, the probe of a server's port, the clock and
    the socket are arguments of the definitions that use them; the clock a memory
    engine reads is part of its state, and a schedule of [Cluster] sets it.  The
    sizes of a [DataBuffer] do not wrap around in the definitions the packets are
    encoded with; [DataBuffer.expand_int] has the code's [int]s, and
    [DataBuffer.expand_int_agrees] shows that the two are the same up to 128
    megabytes of data.

    Loops that C++ bounds are structural recursions.  The others have fuel, and
    the theorems that need their result show the fuel to be enough: one turn
    more than the items of the engine for a hash chain, one more than the pages
    for the scan of the page bitmap, two more than the bytes of the stream for
    the receiving loops, and for the gotos of [alloc_item] the fuel
    [SlabLists.alloc_item_order] gives, one more than the index file has records
    for the walks down a tree, three more than three times the bytes of the file
    for the turns of a scan.  [MdbManager.walk_chain] and
    [MdbManager.clear_list] have one turn more than there are items and
    [TableManager.init_done_loop] one more than there are words; the loop
    behind [MdbManager.keep_area_quota] need not end in C++, and its model says
    [Diverge] then.

    ** What is proved

    The memory engine as a whole: started on enough memory it runs every
    sequence of put, get and remove without a failed assertion, as a map from
    keys to entries that may drop an entry to make room (C1).

    The system from end to end, over a network that loses and reorders packets,
    with servers that crash and clocks that go on, for buckets with a slave or
    two: a put that the client is told has succeeded is on all the copies that
    are up and, until its time to live is over, is what a later get returns
    (C2), and a put that nothing disturbs succeeds
    (C3); client and servers agree on who has a key
    (C4).  Where the client goes wrong: silence is a
    success (C11), a server that starts up and a server
    that has none of the keys bring it down
    (C12, C13).

    The wire: a [DataBuffer] is a queue of bytes, with the code's [int]s for its
    sizes, up to 128 megabytes (C14);
    entries come back as sent (C16).
    Packets sent back to back arrive once, in order and as sent, in whatever
    pieces the bytes arrive (C17); whatever arrives, what is
    delivered has the type its header names (C15).  A
    malformed packet keeps the receiver busy for ever
    (C18).

    The parts of the memory engine: the page pool implements a set of pages
    (C19), item ids name items (C20), the slab lists are
    least-recently-used lists
    (C21), the
    hash table implements a finite map (C22), and a scan
    gives what is in a bucket, each item once, when none is past its time
    (C23).

    The disk engine: while reads and writes succeed a bucket is a map from keys
    to entries, also over closing and opening its files
    (C33); a failed read makes the next put throw a tree of
    entries away (C35).  With its cache the engine is such a
    map, too (C34), but for a put that overtakes a get, an entry
    that is read in its last second and a bucket that is closed and comes back
    (C36, C37, C38).
    A scan of a data file gives the entries that are to be moved
    (C39), if the file is not too large
    (C40).

    The data server: over any engine that keeps the laws, a put is read back
    (C5) and counters count (C6);
    a put that is answered with success is on the master and the slaves it waits
    for (C7); no request but one is answered twice
    (C8); a duplicated write is answered once, when its slaves have answered
    (C9), and never with one copy of the data
    (C10).

    The routing table: a rebuilt table is safe (C24),
    balanced (C25) or spread over racks
    (C26); a data server derives its
    work from the table as it should
    (C27).

    The groups: a migration stays orderly whatever messages arrive
    (C28), completes (C29), and both sides
    agree on the work (C30); [rebuild] starts such a
    migration (C31); a guard is off by one
    (C32).

    ** What is not modelled

    The threads and sockets of tbsys and tbnet beyond the receiving side of a
    connection; two packet types (response_get_server_table, the admin packet
    3000); server_conf_thread,
    which calls the operations of a group on a timer and on packets; the data
    server's heartbeat, update log and migration threads;
    the client's command line tool, its C interface and its threads; the storage engines kdb (with the vendored Kyoto Cabinet)
    and rdb (with the vendored redis); the locks of the disk engine and the
    names of its files; opening shared memory and the two
    maintenance threads of the memory engine; the parsing of configuration
    files; statistics, logging and the tools.  Whole modules of the first kind
    are I/O around the modelled code, the vendored ones are not this program's,
    and the others are left for a later extension.  PROJECT.json lists every
    part with its state. *)

From Stdlib Require Export ZArith Lia.
From stdpp Require Export base list gmap numbers functions.

#[export] Set Default Goal Selector "!".
Open Scope Z_scope.

(** ** Machine integers

    A w-bit integer is a [Z]; [u8] .. [u64] are the conversions C++ performs
    when a value is stored in an unsigned type, [s8] .. [s64] those to a
    (two's complement) signed type. *)

Definition wrap (w z : Z) : Z := z mod 2 ^ w.
Definition swrap (w z : Z) : Z := (z + 2 ^ (w - 1)) mod 2 ^ w - 2 ^ (w - 1).

Abbreviation u8 := (wrap 8).
Abbreviation u16 := (wrap 16).
Abbreviation u32 := (wrap 32).
Abbreviation u64 := (wrap 64).
Abbreviation s8 := (swrap 8).
Abbreviation s32 := (swrap 32).
Abbreviation s64 := (swrap 64).

(** [in_u w z]: the value is representable in the unsigned type of width [w];
    [in_s w z]: in the signed one. *)
Definition in_u (w z : Z) : Prop := 0 <= z < 2 ^ w.
Definition in_s (w z : Z) : Prop := - 2 ^ (w - 1) <= z < 2 ^ (w - 1).

#[export] Instance in_u_dec w z : Decision (in_u w z).
Proof. unfold in_u. apply _. Defined.
#[export] Instance in_s_dec w z : Decision (in_s w z).
Proof. unfold in_s. apply _. Defined.

(** ** Outcomes of C++ code

    [Ret a]: the code ran to its end with value [a].  [Fail]: the enclosing
    function executed [return false].  [Abort]: an [assert] failed.
    [Overrun]: the code used memory outside the bytes that hold data, which
    C++ leaves undefined.  [Diverge]: a loop was still running when the fuel
    of its model was used up. *)
Inductive outcome (A : Type) : Type :=
| Ret (a : A)
| Fail
| Abort
| Overrun
| Diverge.
Arguments Ret {A} a.
Arguments Fail {A}.
Arguments Abort {A}.
Arguments Overrun {A}.
Arguments Diverge {A}.

Definition obind {A B} (m : outcome A) (f : A -> outcome B) : outcome B :=
  match m with
  | Ret a => f a
  | Fail => Fail
  | Abort => Abort
  | Overrun => Overrun
  | Diverge => Diverge
  end.

(** [assert(b); k] *)
Definition oassert {A} (b : bool) (k : outcome A) : outcome A :=
  if b then k else Abort.

Declare Scope outcome_scope.
Delimit Scope outcome_scope with outcome.
Notation "'let!' p ':=' m 'in' k" := (obind m (fun p => k))
  (at level 10, p pattern, m at level 100, k at level 200,
   format "'[v' 'let!'  p  ':='  m  'in' '/' k ']'") : outcome_scope.
Notation "'assert!' b 'in' k" := (oassert b k)
  (at level 10, b at level 100, k at level 200,
   format "'[v' 'assert!'  b  'in' '/' k ']'") : outcome_scope.
Open Scope outcome_scope.

(** Code that also updates a state [S]: [let* p := m in k] is sequencing,
    [need*] an [assert]. *)
Definition stM (S A : Type) : Type := S -> outcome (A * S).
Definition sret {S A} (a : A) : stM S A := fun s => Ret (a, s).
Definition sbind {S A B} (m : stM S A) (k : A -> stM S B) : stM S B := fun s =>
  let! (a, s) := m s in k a s.
Definition sget {S} : stM S S := fun s => Ret (s, s).
Definition smodify {S} (f : S -> S) : stM S unit := fun s => Ret (tt, f s).
Definition slift {S A} (m : outcome A) : stM S A := fun s => let! a := m in Ret (a, s).
Definition sassert {S A} (b : bool) (k : stM S A) : stM S A := fun s =>
  if b then k s else Abort.

Declare Scope state_scope.
Delimit Scope state_scope with state.
Notation "'let*' p ':=' m 'in' k" := (sbind m (fun p => k))
  (at level 10, p pattern, m at level 100, k at level 200,
   format "'[v' 'let*'  p  ':='  m  'in' '/' k ']'") : state_scope.
Notation "'need*' b 'in' k" := (sassert b k)
  (at level 10, b at level 100, k at level 200,
   format "'[v' 'need*'  b  'in' '/' k ']'") : state_scope.
Open Scope state_scope.

#[export] Instance outcome_eq_dec {A} `{EqDecision A} : EqDecision (outcome A).
Proof. solve_decision. Defined.

(** ** Tactics and hint databases *)

Create HintDb tair.
Create Rewrite HintDb wrap.
Create Rewrite HintDb tair.

(** Case analysis on the boolean comparison a goal or hypothesis branches on,
    with the comparison turned into a proposition. *)
Ltac zcase :=
  match goal with
  | |- context [?a <? ?b] => destruct (Z.ltb_spec a b)
  | |- context [?a <=? ?b] => destruct (Z.leb_spec a b)
  | |- context [?a =? ?b] => destruct (Z.eqb_spec a b)
  | H : context [?a <? ?b] |- _ => destruct (Z.ltb_spec a b)
  | H : context [?a <=? ?b] |- _ => destruct (Z.leb_spec a b)
  | H : context [?a =? ?b] |- _ => destruct (Z.eqb_spec a b)
  end.

Ltac zsolve := repeat (zcase; try lia; try done).

(** Inversion of a successful bind. *)
Lemma obind_Ret_inv {A B} (m : outcome A) (f : A -> outcome B) b :
  obind m f = Ret b -> exists a, m = Ret a /\ f a = Ret b.
Proof. destruct m; simpl; intros; try discriminate; eauto. Qed.

Lemma oassert_Ret_inv {A} b (k : outcome A) a :
  oassert b k = Ret a -> b = true /\ k = Ret a.
Proof. destruct b; simpl; [auto | discriminate]. Qed.

Ltac outinv :=
  repeat match goal with
  | H : obind _ _ = Ret _ |- _ =>
      apply obind_Ret_inv in H as (? & ? & ?)
  | H : oassert _ _ = Ret _ |- _ =>
      apply oassert_Ret_inv in H as (? & ?)
  | H : Ret _ = Ret _ |- _ => injection H as ?; subst
  | H : Fail = Ret _ |- _ => discriminate H
  | H : Abort = Ret _ |- _ => discriminate H
  | H : Overrun = Ret _ |- _ => discriminate H
  | H : Diverge = Ret _ |- _ => discriminate H
  end.

(** Running state code: the first step returns, so go on after it. *)
Lemma sbind_run {S A B} (m : stM S A) (k : A -> stM S B) s a s' :
  m s = Ret (a, s') -> sbind m k s = k a s'.
Proof. unfold sbind. by intros ->. Qed.

Lemma slift_run {S A} (o : outcome A) a (s : S) : o = Ret a -> slift o s = Ret (a, s).
Proof. by intros ->. Qed.

(** One step of a program whose result is known. *)
Ltac step_with H := rewrite (sbind_run _ _ _ _ _ H); cbv beta iota zeta.

(** Sequencing is associative, and a result is passed on. *)
Lemma sbind_assoc {S A B C} (m : stM S A) (k : A -> stM S B) (h : B -> stM S C) s :
  sbind (sbind m k) h s = sbind m (fun a => sbind (k a) h) s.
Proof. unfold sbind. by destruct (m s) as [[a s']| | | |]. Qed.

Lemma sbind_ext {S A B} (m : stM S A) (k k' : A -> stM S B) s :
  (forall a s', m s = Ret (a, s') -> k a s' = k' a s') -> sbind m k s = sbind m k' s.
Proof. unfold sbind. destruct (m s) as [[a s']| | | |]; simpl; auto. Qed.

Lemma sbind_ret {S A B} (a : A) (k : A -> stM S B) s : sbind (sret a) k s = k a s.
Proof. done. Qed.

Lemma sassert_run {S A} b (k : stM S A) s : b = true -> sassert b k s = k s.
Proof. by intros ->. Qed.

(** ** Wrap-around *)

Lemma wrap_bound w z : 0 <= w -> in_u w (wrap w z).
Proof. intros. apply Z.mod_pos_bound. lia. Qed.

Lemma wrap_id w z : in_u w z -> wrap w z = z.
Proof. unfold in_u, wrap. intros. by apply Z.mod_small. Qed.

Lemma wrap_wrap w z : wrap w (wrap w z) = wrap w z.
Proof. unfold wrap. apply Zmod_mod. Qed.

Lemma swrap_bound w z : 0 < w -> in_s w (swrap w z).
Proof.
  intros. unfold in_s, swrap.
  replace (2 ^ w) with (2 ^ (w - 1) * 2)
    by (rewrite Z.mul_comm, <- Z.pow_succ_r by lia; f_equal; lia).
  pose proof (Z.mod_pos_bound (z + 2 ^ (w - 1)) (2 ^ (w - 1) * 2)).
  assert (0 < 2 ^ (w - 1)) by lia. lia.
Qed.

Lemma swrap_id w z : 0 < w -> in_s w z -> swrap w z = z.
Proof.
  intros Hw. unfold in_s, swrap. intros.
  replace (2 ^ w) with (2 ^ (w - 1) * 2)
    by (rewrite Z.mul_comm, <- Z.pow_succ_r by lia; f_equal; lia).
  rewrite Z.mod_small; lia.
Qed.

(** Storing an [int] in an unsigned wire field and reading it back into an
    [int] is the identity. *)
Lemma swrap_wrap w z : swrap w (wrap w z) = swrap w z.
Proof. unfold swrap, wrap. by rewrite Zplus_mod_idemp_l. Qed.

Lemma wrap_swrap w z : wrap w (swrap w z) = wrap w z.
Proof.
  unfold swrap, wrap.
  by rewrite Zminus_mod_idemp_l, Z.add_simpl_r.
Qed.

#[export] Hint Rewrite wrap_wrap swrap_wrap wrap_swrap : wrap.
#[export] Hint Resolve wrap_bound swrap_bound : tair.

(** ** Bytes

    A byte is a [Z] in [0, 256); [bytes l] says every element is one. *)
Definition byte (z : Z) : Prop := in_u 8 z.
Definition bytes (l : list Z) : Prop := Forall byte l.

#[export] Instance byte_dec z : Decision (byte z).
Proof. unfold byte. apply _. Defined.
#[export] Instance bytes_dec l : Decision (bytes l).
Proof. unfold bytes. apply _. Defined.

(** Closed decidable goals by evaluation. *)
Ltac by_decide := apply (bool_decide_unpack _); vm_compute; exact I.

(** Big-endian split of the low [n] bytes of [z], and its inverse. *)
Fixpoint be_split (n : nat) (z : Z) : list Z :=
  match n with
  | O => []
  | S n' => u8 (Z.shiftr z (8 * Z.of_nat n')) :: be_split n' z
  end.

Fixpoint be_combine_acc (acc : Z) (l : list Z) : Z :=
  match l with
  | [] => acc
  | b :: l' => be_combine_acc (Z.lor (Z.shiftl acc 8) b) l'
  end.

Lemma length_be_split n z : length (be_split n z) = n.
Proof. induction n; simpl; congruence. Qed.

Lemma bytes_be_split n z : bytes (be_split n z).
Proof.
  induction n; simpl; constructor; [|done]. apply wrap_bound. lia.
Qed.

(** A value shifted past the width of another one does not overlap it. *)
Lemma land_shiftl_low w a b : 0 <= w -> in_u w b -> Z.land (Z.shiftl a w) b = 0.
Proof.
  intros Hw Hb. apply Z.bits_inj'. intros n Hn. rewrite Z.land_spec, Z.bits_0.
  destruct (Z.lt_ge_cases n w).
  { rewrite Z.shiftl_spec_low by lia. done. }
  apply andb_false_intro2. rewrite <- (wrap_id w b Hb). unfold wrap.
  apply Z.mod_pow2_bits_high. lia.
Qed.

Lemma lor_shiftl_add w a b :
  0 <= w -> in_u w b -> Z.lor (Z.shiftl a w) b = a * 2 ^ w + b.
Proof.
  intros Hw Hb. pose proof (Z.add_lor_land (Z.shiftl a w) b) as E.
  rewrite (land_shiftl_low w a b Hw Hb) in E.
  rewrite Z.shiftl_mul_pow2 in * by lia. lia.
Qed.

Lemma shiftl_lor_u8 acc b : byte b -> Z.lor (Z.shiftl acc 8) b = acc * 256 + b.
Proof. intros Hb. by rewrite lor_shiftl_add. Qed.

Lemma be_combine_split n acc z :
  be_combine_acc acc (be_split n z) = acc * 2 ^ (8 * Z.of_nat n) + z mod 2 ^ (8 * Z.of_nat n).
Proof.
  revert acc. induction n as [|n IH]; intros acc.
  { simpl. rewrite Z.mod_1_r. lia. }
  cbn [be_split be_combine_acc].
  rewrite shiftl_lor_u8 by (apply wrap_bound; lia). rewrite IH.
  unfold wrap. rewrite Z.shiftr_div_pow2 by lia.
  replace (8 * Z.of_nat (S n)) with (8 * Z.of_nat n + 8) by lia.
  rewrite Z.pow_add_r by lia.
  set (P := 2 ^ (8 * Z.of_nat n)). assert (0 < P) by (subst P; lia).
  change (2 ^ 8) with 256.
  rewrite (Z.rem_mul_r z P 256) by lia. ring.
Qed.

#[export] Hint Rewrite length_be_split : tair.
#[export] Hint Resolve bytes_be_split : tair.

(** ** Counting

    [count P n]: how many numbers below [n] satisfy [P]. *)
Fixpoint count (P : Z -> bool) (n : nat) : Z :=
  match n with
  | O => 0
  | S n' => count P n' + Z.b2z (P (Z.of_nat n'))
  end.

Lemma count_ext P Q n :
  (forall i, 0 <= i < Z.of_nat n -> P i = Q i) -> count P n = count Q n.
Proof.
  induction n as [|n IH]; intros H; simpl; [done|].
  rewrite IH by (intros; apply H; lia). by rewrite (H (Z.of_nat n)) by lia.
Qed.

Lemma count_bounds P n : 0 <= count P n <= Z.of_nat n.
Proof. induction n; simpl; [lia|]. destruct (P (Z.of_nat n)); simpl; lia. Qed.

(** Changing the predicate at one number. *)
Lemma count_update P Q n i :
  0 <= i < Z.of_nat n -> (forall j, j <> i -> P j = Q j) ->
  count Q n = count P n - Z.b2z (P i) + Z.b2z (Q i).
Proof.
  intros Hi HPQ. induction n as [|n IH]; [lia|]. cbn [count].
  destruct (decide (i = Z.of_nat n)) as [->|Hne].
  - rewrite (count_ext P Q n) by (intros; apply HPQ; lia). lia.
  - rewrite IH, (HPQ (Z.of_nat n)) by lia. lia.
Qed.

Lemma count_pos P n : 0 < count P n -> exists i, 0 <= i < Z.of_nat n /\ P i = true.
Proof.
  induction n as [|n IH]; simpl; [lia|]. intros H.
  destruct (P (Z.of_nat n)) eqn:E; [exists (Z.of_nat n); split; [lia|done]|].
  destruct IH as (i & Hi & Ei); [simpl in H; lia|]. exists i. split; [lia|done].
Qed.

Lemma count_range P n a b :
  0 <= a <= b -> b <= Z.of_nat n -> (forall i, P i = true <-> a <= i < b) -> count P n = b - a.
Proof.
  intros Ha Hb HP. assert (forall n, count P n = Z.max 0 (Z.min b (Z.of_nat n) - a)) as ->; [|lia].
  clear n Hb. intros n. induction n as [|n IH]; [simpl; lia|]. cbn [count]. rewrite IH.
  destruct (P (Z.of_nat n)) eqn:E; cbn [Z.b2z].
  - apply HP in E. lia.
  - assert (~ (a <= Z.of_nat n < b)) by (rewrite <- HP; congruence). lia.
Qed.

(** ** Arrays of integers

    [at_ t i] is the read [t[i]]; [set_at t i x] the write; outside the array
    both are [Overrun].  [in_stride t x n i step] is the loop that looks for [x]
    in [t[i]], [t[i + step]], and so on, [n] times. *)
Definition at_ (t : list Z) (i : Z) : outcome Z :=
  if i <? 0 then Overrun else match t !! Z.to_nat i with Some x => Ret x | None => Overrun end.
Definition set_at (t : list Z) (i x : Z) : outcome (list Z) :=
  if (i <? 0) || (Z.of_nat (length t) <=? i) then Overrun else Ret (<[Z.to_nat i := x]> t).
Fixpoint in_stride (t : list Z) (x : Z) (n : nat) (i step : Z) : outcome bool :=
  match n with
  | O => Ret false
  | S n' =>
      let! y := at_ t i in
      if x =? y then Ret true else in_stride t x n' (i + step) step
  end.

Definition cell (t : list Z) (i : Z) : Z := default 0 (t !! Z.to_nat i).

Lemma at_cell t i : 0 <= i < Z.of_nat (length t) -> at_ t i = Ret (cell t i).
Proof.
  intros Hi. unfold at_, cell. destruct (Z.ltb_spec i 0); [lia|].
  destruct (lookup_lt_is_Some_2 t (Z.to_nat i)) as [x ->]; [lia|done].
Qed.

Lemma set_at_run t i x : 0 <= i < Z.of_nat (length t) -> set_at t i x = Ret (<[Z.to_nat i := x]> t).
Proof.
  intros Hi. unfold set_at. rewrite (proj2 (Z.ltb_ge i 0)), (proj2 (Z.leb_gt _ _)) by lia. done.
Qed.

Lemma cell_insert t i j x :
  0 <= i < Z.of_nat (length t) -> 0 <= j -> cell (<[Z.to_nat i := x]> t) j = if decide (i = j) then x else cell t j.
Proof.
  intros Hi Hj. unfold cell. case_decide as D; [subst; by rewrite list_lookup_insert_eq by lia|].
  by rewrite list_lookup_insert_ne by lia.
Qed.

Lemma cells_elem t x : (exists j, 0 <= j < Z.of_nat (length t) /\ x = cell t j) <-> x ∈ t.
Proof.
  split.
  - intros (j & Hj & ->). unfold cell. destruct (lookup_lt_is_Some_2 t (Z.to_nat j)) as [y E]; [lia|].
    rewrite E. by eapply list_elem_of_lookup_2.
  - intros [i E]%list_elem_of_lookup. pose proof (lookup_lt_Some _ _ _ E). exists (Z.of_nat i).
    split; [lia|]. unfold cell. by rewrite Nat2Z.id, E.
Qed.

Lemma cells_eq t t' :
  length t = length t' -> (forall j, 0 <= j < Z.of_nat (length t) -> cell t j = cell t' j) -> t = t'.
Proof.
  intros Hl Hc. apply list_eq. intros i. destruct (decide (i < length t)%nat) as [Hi|Hi].
  - specialize (Hc (Z.of_nat i) ltac:(lia)). unfold cell in Hc. rewrite Nat2Z.id in Hc.
    destruct (lookup_lt_is_Some_2 t i) as [x E]; [done|]. destruct (lookup_lt_is_Some_2 t' i) as [y E']; [lia|].
    rewrite E, E' in *. simpl in Hc. by subst.
  - rewrite !lookup_ge_None_2 by lia. done.
Qed.

Lemma in_stride_spec t x n i step :
  0 <= i -> 0 < step -> i + (Z.of_nat n - 1) * step < Z.of_nat (length t) ->
  in_stride t x n i step = Ret (bool_decide (x ∈ map (fun k => cell t (i + k * step)) (seqZ 0 (Z.of_nat n)))).
Proof.
  intros Hi Hs. revert i Hi. induction n as [|n IH]; intros i Hi Hlen; [done|].
  cbn [in_stride]. rewrite at_cell by nia. cbn [obind]. rewrite (seqZ_cons 0) by lia. cbn [map].
  replace (i + 0 * step) with i by lia. replace (Z.pred (Z.of_nat (S n))) with (Z.of_nat n) by lia.
  destruct (Z.eqb_spec x (cell t i)) as [->|E].
  - rewrite bool_decide_true; [done|by left].
  - rewrite IH by (lia || nia). f_equal. apply bool_decide_ext. rewrite elem_of_cons.
    rewrite !list_elem_of_fmap. split.
    + intros (k & -> & Hk%elem_of_seqZ). right. exists (Z.succ k). split; [f_equal; lia|]. apply elem_of_seqZ. lia.
    + intros [?|(k & -> & Hk%elem_of_seqZ)]; [done|]. exists (Z.pred k). split; [f_equal; lia|]. apply elem_of_seqZ. lia.
Qed.
