(* ===== verification/DataBuffer.v ===== *)
(** * tbnet::DataBuffer (tb-common-utils/tbnet/src/databuffer.h)

    The byte buffer every packet is written to and read from.  The block
    [_pstart .. _pend) is [mem] ([None] is the NULL pointer), [_pdata] and
    [_pfree] are offsets into it and [_pend] is its length.  [malloc] returns
    a block whose bytes are not initialised; they are zeros here and no lemma
    depends on it, because [content], the bytes between [_pdata] and
    [_pfree], only holds bytes that were written.

    [content] is the abstraction: a buffer is a queue of bytes; [emits] says
    a writer appends given bytes to it, [parses] that a reader takes given
    bytes off its front.  Both are closed under sequencing, so that the round
    trip of a packet is the composition of those of its fields. *)

From S2P Require Import Prelude.

Local Open Scope nat_scope.

(** ** State *)

Definition MAX_BUFFER_SIZE : nat := 2048.

Record databuffer := mk_databuffer {
  mem : option (list Z);
  pdata : nat;
  pfree : nat
}.

Definition malloc (n : nat) : list Z := replicate n 0%Z.

(** [DataBuffer()] *)
Definition new_databuffer : databuffer := mk_databuffer None 0 0.

Definition pend (b : databuffer) : nat :=
  match mem b with Some m => length m | None => 0 end.

Definition block (b : databuffer) : list Z := default [] (mem b).

(** The bytes [_pdata .. _pfree). *)
Definition content (b : databuffer) : list Z :=
  take (pfree b - pdata b) (drop (pdata b) (block b)).

Definition getDataLen (b : databuffer) : nat := pfree b - pdata b.
Definition getFreeLen (b : databuffer) : nat := pend b - pfree b.

Definition destroy (b : databuffer) : databuffer :=
  match mem b with Some _ => new_databuffer | None => b end.

Definition clear (b : databuffer) : databuffer := mk_databuffer (mem b) 0 0.

Definition drainData (len : nat) (b : databuffer) : databuffer :=
  let b' := mk_databuffer (mem b) (pdata b + len) (pfree b) in
  if decide (pfree b' <= pdata b') then clear b' else b'.

Definition pourData (len : nat) (b : databuffer) : outcome databuffer :=
  assert! bool_decide (len <= pend b - pfree b) in
  Ret (mk_databuffer (mem b) (pdata b) (pfree b + len)).

Definition stripData (len : nat) (b : databuffer) : outcome databuffer :=
  assert! bool_decide (len <= pfree b - pdata b) in
  Ret (mk_databuffer (mem b) (pdata b) (pfree b - len)).

Definition shrink (b : databuffer) : databuffer :=
  match mem b with
  | None => b
  | Some m =>
      if bool_decide (length m <= MAX_BUFFER_SIZE)
         || bool_decide (MAX_BUFFER_SIZE < pfree b - pdata b)
      then b
      else
        let dlen := pfree b - pdata b in
        let newbuf := content b ++ malloc (MAX_BUFFER_SIZE - dlen) in
        mk_databuffer (Some newbuf) 0 dlen
  end.

(** [expand] with sizes that do not wrap around, which is what the writers
    below are built on.  [expand_int] further down is the function with the
    [int]s of the code; [expand_int_agrees] shows the two are the same while
    block and data stay below the bounds [expand] keeps by itself.

    [while (size - used < need) size <<= 1;] *)
Fixpoint double_until (fuel size used need : nat) : nat :=
  if decide (size < used + need) then
    match fuel with
    | O => size
    | S fuel' => double_until fuel' (2 * size) used need
    end
  else size.

Definition expand (need : nat) (b : databuffer) : databuffer :=
  match mem b with
  | None =>
      let len := double_until need 256 0 need in
      mk_databuffer (Some (malloc len)) 0 0
  | Some m =>
      if decide (length m - pfree b < need) then
        let flen := (length m - pfree b) + pdata b in
        let dlen := pfree b - pdata b in
        if decide (flen < need \/ flen * 4 < dlen) then
          let bufsize := double_until (dlen + need) (length m * 2) dlen need in
          mk_databuffer (Some (content b ++ malloc (bufsize - dlen))) 0 dlen
        else
          mk_databuffer (Some (content b ++ drop dlen m)) 0 dlen
      else b
  end.

Definition ensureFree (len : nat) (b : databuffer) : databuffer := expand len b.

(** ** Writing *)

(** Bytes stored at [_pfree], which then moves past them. *)
Definition store (bs : list Z) (b : databuffer) : databuffer :=
  match mem b with
  | None => b
  | Some m =>
      mk_databuffer (Some (take (pfree b) m ++ bs ++ drop (pfree b + length bs) m))
                    (pdata b) (pfree b + length bs)
  end.

Definition writer : Type := databuffer -> databuffer.

Definition writeInt8 (n : Z) : writer := fun b => store [u8 n] (expand 1 b).
Definition writeInt16 (n : Z) : writer := fun b => store (be_split 2 n) (expand 2 b).
Definition writeInt32 (n : Z) : writer := fun b => store (be_split 4 n) (expand 4 b).
Definition writeInt64 (n : Z) : writer := fun b => store (be_split 8 n) (expand 8 b).
Definition writeBytes (src : list Z) : writer := fun b => store src (expand (length src) b).

(** [fillInt32(dst, n)] with [dst = _pdata + off]: bytes already in the buffer
    are overwritten. *)
Definition fill (off : nat) (bs : list Z) : writer := fun b =>
  match mem b with
  | None => b
  | Some m =>
      let i := pdata b + off in
      mk_databuffer (Some (take i m ++ bs ++ drop (i + length bs) m)) (pdata b) (pfree b)
  end.
Definition fillInt8 (off : nat) (n : Z) : writer := fill off [u8 n].
Definition fillInt16 (off : nat) (n : Z) : writer := fill off (be_split 2 n).
Definition fillInt32 (off : nat) (n : Z) : writer := fill off (be_split 4 n).
Definition fillInt64 (off : nat) (n : Z) : writer := fill off (be_split 8 n).

(** [writeString(str)]: [str] holds the characters before the terminating NUL,
    which is sent too unless the string is empty. *)
Definition writeString (str : list Z) : writer := fun b =>
  let len := length str in
  let len := if decide (0 < len) then S len else len in
  let b := expand (len + 4) b in
  let b := writeInt32 (Z.of_nat len) b in
  if decide (0 < len) then store (str ++ [0%Z]) b else b.

Fixpoint write_all {A} (w : A -> writer) (l : list A) : writer := fun b =>
  match l with
  | [] => b
  | x :: l' => write_all w l' (w x b)
  end.

Definition writeVector32 (v : list Z) : writer := fun b =>
  write_all writeInt32 v (writeInt32 (Z.of_nat (length v)) b).
Definition writeVector64 (v : list Z) : writer := fun b =>
  write_all writeInt64 v (writeInt32 (Z.of_nat (length v)) b).

(** ** Reading

    [Got a b]: the reader ran to its end.  [Rejected b]: the enclosing decoder
    executed [return false], leaving the buffer as [b].  [Asserted]: an
    [assert] failed.  [Overran]: bytes outside [_pdata .. _pfree) were used. *)
Inductive rres (A : Type) : Type :=
| Got (a : A) (b : databuffer)
| Rejected (b : databuffer)
| Asserted
| Overran.
Arguments Got {A} a b.
Arguments Rejected {A} b.
Arguments Asserted {A}.
Arguments Overran {A}.

Definition reader (A : Type) : Type := databuffer -> rres A.

Definition rret {A} (a : A) : reader A := fun b => Got a b.
Definition rfail {A} : reader A := fun b => Rejected b.
Definition rbind {A B} (p : reader A) (k : A -> reader B) : reader B := fun b =>
  match p b with
  | Got a b' => k a b'
  | Rejected b' => Rejected b'
  | Asserted => Asserted
  | Overran => Overran
  end.

Declare Scope reader_scope.
Delimit Scope reader_scope with reader.
Notation "'let?' p ':=' m 'in' k" := (rbind m (fun p => k))
  (at level 10, p pattern, m at level 100, k at level 200,
   format "'[v' 'let?'  p  ':='  m  'in' '/' k ']'") : reader_scope.
Open Scope reader_scope.

(** [if (c) return false;] before the rest of the decoder *)
Definition reject_if {A} (c : databuffer -> bool) (k : reader A) : reader A := fun b =>
  if c b then Rejected b else k b.

Definition advance (n : nat) (b : databuffer) : databuffer :=
  mk_databuffer (mem b) (pdata b + n) (pfree b).

(** The next [n] bytes; only called when they are there. *)
Definition peek (n : nat) (b : databuffer) : list Z := take n (drop (pdata b) (block b)).

Definition readInt8 : reader Z := fun b =>
  if decide (pdata b + 1 <= pfree b)
  then Got (be_combine_acc 0 (peek 1 b)) (advance 1 b) else Overran.

Definition readInt16 : reader Z := fun b =>
  if decide (pdata b + 2 <= pfree b)
  then Got (be_combine_acc 0 (peek 2 b)) (advance 2 b) else Overran.

Definition readInt32 : reader Z := fun b =>
  if decide (pdata b + 4 <= pfree b)
  then Got (be_combine_acc 0 (peek 4 b)) (advance 4 b) else Asserted.

Definition readInt64 : reader Z := fun b =>
  if decide (pdata b + 8 <= pfree b)
  then Got (be_combine_acc 0 (peek 8 b)) (advance 8 b) else Asserted.

(** [readBytes(dst, len)]: [None] is the result [false], with the buffer
    untouched.  A negative length passes the test and reaches [memcpy]. *)
Definition readBytes (len : Z) : reader (option (list Z)) := fun b =>
  if decide (len < 0)%Z then Overran
  else
    let n := Z.to_nat len in
    if decide (pfree b < pdata b + n) then Got None b
    else Got (Some (peek n b)) (advance n b).

(** [readString(str, len)]: [str] is the caller's array ([None]: NULL, so one
    is allocated).  The result is [false] when four bytes are missing;
    otherwise the array after the call. *)
Definition readString (str : option (list Z)) (len : Z)
  : reader (bool * option (list Z)) := fun b =>
  if decide (pfree b < pdata b + 4) then Got (false, str) b
  else (let? w := readInt32 in fun b =>
    let slen := s32 w in
    let slen := if decide (Z.of_nat (pfree b - pdata b) < slen)%Z
                then Z.of_nat (pfree b - pdata b) else slen in
    let '(str, len) :=
      match str with
      | None => if decide (0 < slen)%Z then (Some (malloc (Z.to_nat slen)), slen)
                else (None, len)
      | Some _ => (str, len)
      end in
    let len := if decide (slen < len)%Z then slen else len in
    let str :=
      if decide (0 < len)%Z then
        match str with
        | Some s =>
            Some (take (Z.to_nat len - 1) (drop (pdata b) (block b)) ++ [0%Z]
                  ++ drop (Z.to_nat len) s)
        | None => None
        end
      else str in
    let pos := (Z.of_nat (pdata b) + slen)%Z in
    if decide (pos < 0)%Z then Overran
    else Got (true, str) (mk_databuffer (mem b) (Z.to_nat pos) (pfree b))) b.

Fixpoint read_n {A} (n : nat) (rd : reader A) : reader (list A) :=
  match n with
  | O => rret []
  | S n' => let? x := rd in let? l := read_n n' rd in rret (x :: l)
  end.

Definition readVector32 : reader (list Z) :=
  let? len := readInt32 in read_n (Z.to_nat len) readInt32.
Definition readVector64 : reader (list Z) :=
  let? len := readInt32 in read_n (Z.to_nat len) readInt64.

(** [findBytes(findstr, len)]: the offset of the first occurrence, or [-1].
    [_pdata[i]] is an [unsigned char] and [findstr[0]] a [char]: the first
    comparison is between an unsigned and a signed value. *)
Fixpoint find_from (i : nat) (tries : nat) (findstr : list Z) (l : list Z) : Z :=
  match tries with
  | O => -1
  | S tries' =>
      if decide (head l = s8 <$> head findstr /\ take (length findstr) l = findstr)
      then Z.of_nat i
      else find_from (S i) tries' findstr (tail l)
  end.
Definition findBytes (findstr : list Z) (b : databuffer) : Z :=
  find_from 0 (pfree b - pdata b + 1 - length findstr) findstr (content b).

(** ** The queue of bytes a buffer stands for *)

Definition wf (b : databuffer) : Prop :=
  match mem b with
  | None => pdata b = 0 /\ pfree b = 0
  | Some m => pdata b <= pfree b <= length m /\ 0 < length m
  end.

Definition emits (w : writer) (bs : list Z) : Prop :=
  forall b, wf b -> wf (w b) /\ content (w b) = content b ++ bs.

Definition parses {A} (p : reader A) (bs : list Z) (a : A) : Prop :=
  forall b rest, wf b -> content b = bs ++ rest ->
  exists b', p b = Got a b' /\ wf b' /\ content b' = rest.

(** ** Growing *)

Lemma double_until_enough fuel size used need :
  0 < size -> used + need <= fuel + size ->
  used + need <= double_until fuel size used need.
Proof.
  revert size. induction fuel as [|fuel IH]; intros size Hs Hf; cbn [double_until];
    case_decide; try lia.
  apply IH; lia.
Qed.

Lemma double_until_least fuel size used need :
  0 < size ->
  double_until fuel size used need = size
  \/ double_until fuel size used need < 2 * (used + need).
Proof.
  revert size. induction fuel as [|fuel IH]; intros size Hs; cbn [double_until];
    case_decide; auto.
  destruct (IH (2 * size)) as [->|]; lia.
Qed.

Lemma double_until_ge fuel size used need :
  size <= double_until fuel size used need.
Proof.
  revert size. induction fuel as [|fuel IH]; intros size; cbn [double_until];
    case_decide; auto.
  specialize (IH (2 * size)). lia.
Qed.

Lemma wf_le b : wf b -> pdata b <= pfree b.
Proof. unfold wf. destruct (mem b); lia. Qed.

Lemma length_content b : wf b -> length (content b) = pfree b - pdata b.
Proof.
  unfold wf, content, block. destruct (mem b); simpl; intros H.
  { rewrite length_take, length_drop. lia. }
  destruct H as [-> ->]. done.
Qed.

Lemma content_prefix m f l :
  length l = f -> content (mk_databuffer (Some (l ++ m)) 0 f) = l.
Proof.
  intros <-. unfold content, block. simpl. rewrite drop_0, Nat.sub_0_r.
  by rewrite take_app_length.
Qed.

Definition roomy (n : nat) (b : databuffer) : Prop :=
  exists m, mem b = Some m /\ pfree b + n <= length m.

Lemma expand_spec need b :
  wf b -> wf (expand need b) /\ content (expand need b) = content b
          /\ roomy need (expand need b).
Proof.
  intros Hwf. pose proof (length_content b Hwf) as Hlen. revert Hwf Hlen.
  unfold wf at 1, expand. destruct (mem b) as [m|] eqn:Em; intros Hwf Hlen.
  - case_decide as Hfull.
    2: { unfold wf, roomy. rewrite Em. split; [done|]. split; [done|].
         exists m. split; [done|lia]. }
    case_decide as Hcase.
    + pose proof (double_until_enough (pfree b - pdata b + need) (length m * 2)
                    (pfree b - pdata b) need ltac:(lia) ltac:(lia)).
      split; [|split].
      * unfold wf. simpl. rewrite length_app, Hlen. unfold malloc.
        rewrite length_replicate.
        pose proof (double_until_ge (pfree b - pdata b + need) (length m * 2)
                    (pfree b - pdata b) need). lia.
      * by apply content_prefix.
      * eexists. simpl. split; [done|].
        rewrite length_app, Hlen. unfold malloc. rewrite length_replicate. lia.
    + split; [|split].
      * unfold wf. simpl. rewrite length_app, length_drop. lia.
      * by apply content_prefix.
      * eexists. simpl. split; [done|]. rewrite length_app, length_drop. lia.
  - pose proof (double_until_enough need 256 0 need ltac:(lia) ltac:(lia)).
    pose proof (double_until_ge need 256 0 need).
    destruct Hwf as [Hd Hf].
    split; [|split].
    + unfold wf, malloc. simpl. rewrite length_replicate. lia.
    + unfold content, block. by rewrite Em, Hd, Hf.
    + eexists. simpl. split; [done|]. unfold malloc. rewrite length_replicate. lia.
Qed.

Lemma take_drop_splice (m bs : list Z) d f :
  d <= f <= length m -> 
  take (f + length bs - d) (drop d (take f m ++ bs ++ drop (f + length bs) m))
  = take (f - d) (drop d m) ++ bs.
Proof.
  intros. assert (length (take f m) = f) as Ht by (rewrite length_take; lia).
  rewrite drop_app_le by lia.
  assert (length (drop d (take f m)) = f - d) as Hd by (rewrite length_drop; lia).
  rewrite take_app_ge by lia. rewrite Hd.
  replace (f + length bs - d - (f - d)) with (length bs) by lia.
  rewrite take_app_length. f_equal. rewrite take_drop_commute. do 2 f_equal. lia.
Qed.

Lemma store_spec bs b :
  wf b -> roomy (length bs) b ->
  wf (store bs b) /\ content (store bs b) = content b ++ bs.
Proof.
  unfold wf at 1, roomy, store. intros Hwf (m & Em & Hroom). rewrite Em in *.
  unfold wf, content, block. simpl. rewrite Em. simpl. split.
  - rewrite !length_app, length_take, length_drop. lia.
  - apply take_drop_splice. lia.
Qed.

Lemma store_expand_emits bs : emits (fun b => store bs (expand (length bs) b)) bs.
Proof.
  intros b Hwf. destruct (expand_spec (length bs) b Hwf) as (H1 & <- & H2).
  by apply store_spec.
Qed.

(** ** Writers append *)

Lemma emits_id : emits (fun b => b) [].
Proof. intros b Hwf. by rewrite app_nil_r. Qed.

Lemma emits_seq w1 w2 l1 l2 :
  emits w1 l1 -> emits w2 l2 -> emits (fun b => w2 (w1 b)) (l1 ++ l2).
Proof.
  intros H1 H2 b Hwf. destruct (H1 b Hwf) as [Hwf1 E1].
  destruct (H2 _ Hwf1) as [Hwf2 E2]. split; [done|].
  by rewrite E2, E1, app_assoc.
Qed.

Lemma emits_eq w l l' : emits w l -> l = l' -> emits w l'.
Proof. by intros ? <-. Qed.

Lemma emits_writeInt8 n : emits (writeInt8 n) [u8 n].
Proof. apply (store_expand_emits [u8 n]). Qed.
Lemma emits_writeInt16 n : emits (writeInt16 n) (be_split 2 n).
Proof. apply (store_expand_emits (be_split 2 n)). Qed.
Lemma emits_writeInt32 n : emits (writeInt32 n) (be_split 4 n).
Proof. apply (store_expand_emits (be_split 4 n)). Qed.
Lemma emits_writeInt64 n : emits (writeInt64 n) (be_split 8 n).
Proof. apply (store_expand_emits (be_split 8 n)). Qed.
Lemma emits_writeBytes l : emits (writeBytes l) l.
Proof. apply store_expand_emits. Qed.

Lemma emits_write_all {A} (w : A -> writer) (f : A -> list Z) l :
  (forall x, x ∈ l -> emits (w x) (f x)) -> emits (write_all w l) (concat (map f l)).
Proof.
  induction l as [|x l IH]; intros H; [apply emits_id|].
  apply (emits_seq (w x) (write_all w l)).
  - apply H. left.
  - apply IH. intros y Hy. apply H. by right.
Qed.

Definition string_bytes (str : list Z) : list Z :=
  match str with
  | [] => be_split 4 0
  | _ => be_split 4 (Z.of_nat (S (length str))) ++ str ++ [0%Z]
  end.

Lemma emits_writeVector32 v :
  emits (writeVector32 v) (be_split 4 (Z.of_nat (length v)) ++ concat (map (be_split 4) v)).
Proof.
  apply (emits_seq (writeInt32 (Z.of_nat (length v))) (write_all writeInt32 v)).
  - apply emits_writeInt32.
  - apply emits_write_all. intros; apply emits_writeInt32.
Qed.

Lemma emits_writeVector64 v :
  emits (writeVector64 v) (be_split 4 (Z.of_nat (length v)) ++ concat (map (be_split 8) v)).
Proof.
  apply (emits_seq (writeInt32 (Z.of_nat (length v))) (write_all writeInt64 v)).
  - apply emits_writeInt32.
  - apply emits_write_all. intros; apply emits_writeInt64.
Qed.

Lemma getDataLen_content b : wf b -> getDataLen b = length (content b).
Proof. intros. by rewrite length_content. Qed.

Lemma content_null b : mem b = None -> content b = [].
Proof. unfold content, block. intros ->. simpl. by rewrite drop_nil, take_nil. Qed.

(** The block, cut at [_pdata] and [_pfree]. *)
Lemma block_split b m :
  wf b -> mem b = Some m ->
  m = take (pdata b) m ++ content b ++ drop (pfree b) m
  /\ length (take (pdata b) m) = pdata b.
Proof.
  unfold wf, content, block. intros Hwf Em. rewrite Em in *. simpl.
  rewrite length_take. split; [|lia].
  rewrite <- (take_drop (pdata b) m) at 1. f_equal.
  rewrite <- (take_drop (pfree b - pdata b) (drop (pdata b) m)) at 1. f_equal.
  rewrite drop_drop. f_equal. lia.
Qed.

Lemma content_middle x y z :
  content (mk_databuffer (Some (x ++ y ++ z)) (length x) (length x + length y)) = y.
Proof.
  unfold content, block. simpl. rewrite drop_app_length.
  replace (length x + length y - length x) with (length y) by lia.
  apply take_app_length.
Qed.

(** [fill] overwrites in place: the bytes around the field are untouched. *)
Lemma fill_spec c1 c2 c3 bs b :
  wf b -> content b = c1 ++ c2 ++ c3 -> length bs = length c2 ->
  wf (fill (length c1) bs b) /\ content (fill (length c1) bs b) = c1 ++ bs ++ c3.
Proof.
  intros Hwf Hc Hl. unfold fill. destruct (mem b) as [m|] eqn:Em.
  2: { rewrite content_null in * by done.
       symmetry in Hc. apply app_nil in Hc as [-> [-> ->]%app_nil].
       apply length_zero_iff_nil in Hl as ->. done. }
  pose proof (block_split b m Hwf Em) as [Hm Hd].
  pose proof (length_content b Hwf) as Hlen.
  set (x := take (pdata b) m) in *. set (z := drop (pfree b) m) in *.
  assert (pdata b <= pfree b) by (unfold wf in Hwf; rewrite Em in Hwf; lia).
  rewrite Hc in Hm, Hlen.
  assert (take (pdata b + length c1) m = x ++ c1) as ->.
  { rewrite Hm, <- Hd, take_app_add, <- !app_assoc. by rewrite take_app_length. }
  assert (drop (pdata b + length c1 + length bs) m = c3 ++ z) as ->.
  { rewrite Hm, <- Hd, Hl, <- !app_assoc, <- !drop_drop, !drop_app_length. done. }
  rewrite !length_app in Hlen.
  replace (pfree b) with (length x + length (c1 ++ bs ++ c3)) by (rewrite !length_app; lia).
  rewrite <- Hd.
  replace ((x ++ c1) ++ bs ++ c3 ++ z) with (x ++ (c1 ++ bs ++ c3) ++ z)
    by by rewrite <- !app_assoc.
  split; [|apply content_middle].
  unfold wf. cbn [mem pdata pfree]. rewrite !length_app.
  unfold wf in Hwf. rewrite Em in Hwf. apply (f_equal length) in Hm.
  rewrite !length_app in Hm. lia.
Qed.

Lemma emits_writeString str : emits (writeString str) (string_bytes str).
Proof.
  destruct str as [|c str].
  - intros b Hwf. unfold writeString. simpl.
    destruct (expand_spec 4 b Hwf) as (Hwf1 & <- & _). by apply emits_writeInt32.
  - intros b Hwf. unfold writeString. cbn [length].
    destruct (decide (0 < S (length str))) as [_|]; [|lia].
    rewrite decide_True by lia.
    set (n := S (S (length str))).
    destruct (expand_spec (n + 4) b Hwf) as (Hwf1 & <- & Hroom).
    destruct (emits_writeInt32 (Z.of_nat n) _ Hwf1) as [Hwf2 E2].
    assert (roomy (length ((c :: str) ++ [0%Z])) (writeInt32 (Z.of_nat n) (expand (n + 4) b))).
    { unfold writeInt32. generalize (expand (n + 4) b) Hroom. clear.
      intros b' (m & Em & Hm). unfold expand. rewrite Em, decide_False by lia.
      unfold roomy, store. rewrite Em. cbn [mem pfree]. eexists. split; [done|].
      rewrite !length_app, length_take, length_drop, !length_be_split.
      simpl. subst n. lia. }
    destruct (store_spec ((c :: str) ++ [0%Z]) _ Hwf2 H) as [Hwf3 E3].
    split; [done|]. rewrite E3, E2, <- app_assoc. done.
Qed.

(** ** Readers take from the front *)

Lemma content_advance b l rest :
  wf b -> content b = l ++ rest ->
  wf (advance (length l) b) /\ content (advance (length l) b) = rest
  /\ peek (length l) b = l /\ pdata b + length l <= pfree b.
Proof.
  intros Hwf Hc. pose proof (length_content b Hwf) as Hlen.
  rewrite Hc, length_app in Hlen.
  destruct (mem b) as [m|] eqn:Em.
  2: { rewrite content_null in Hc by done. symmetry in Hc.
       apply app_nil in Hc as [-> ->]. unfold advance, peek. simpl.
       rewrite Nat.add_0_r. unfold wf in *. rewrite Em in *. simpl.
       split; [done|]. rewrite content_null by done. rewrite take_0. split_and!; [done..|lia]. }
  pose proof (block_split b m Hwf Em) as [Hm Hd].
  assert (pdata b <= pfree b <= length m /\ 0 < length m) as Hb
    by (unfold wf in Hwf; by rewrite Em in Hwf).
  rewrite Hc, <- app_assoc in Hm.
  assert (drop (pdata b) m = l ++ rest ++ drop (pfree b) m) as Hdrop.
  { rewrite Hm at 1. rewrite <- Hd at 1. by rewrite drop_app_length. }
  split; [|split; [|split]].
  - unfold wf, advance. cbn [mem pdata pfree]. rewrite Em. lia.
  - unfold content, advance, block. cbn [mem pdata pfree]. rewrite Em. simpl.
    rewrite <- drop_drop, Hdrop, drop_app_length.
    replace (pfree b - (pdata b + length l)) with (length rest) by lia.
    apply take_app_length.
  - unfold peek, block. rewrite Em. simpl. by rewrite Hdrop, take_app_length.
  - lia.
Qed.

Lemma parses_ret {A} (a : A) : parses (rret a) [] a.
Proof. intros b rest Hwf Hc. exists b. done. Qed.

Lemma parses_bind {A B} (p : reader A) (k : A -> reader B) l l' a c :
  parses p l a -> parses (k a) l' c -> parses (rbind p k) (l ++ l') c.
Proof.
  intros Hp Hk b rest Hwf Hc. rewrite <- app_assoc in Hc.
  destruct (Hp b _ Hwf Hc) as (b1 & E1 & Hwf1 & Hc1).
  destruct (Hk b1 rest Hwf1 Hc1) as (b2 & E2 & Hwf2 & Hc2).
  exists b2. unfold rbind. rewrite E1. done.
Qed.

Lemma parses_eq {A} (p : reader A) l l' a a' :
  parses p l a -> l = l' -> a = a' -> parses p l' a'.
Proof. by intros ? <- <-. Qed.

(** A guard [if (getDataLen() < n) return false;] lets pass what is followed
    by at least [n] bytes. *)
Lemma parses_guard {A} (c : databuffer -> bool) (k : reader A) l a :
  (forall b rest, wf b -> content b = l ++ rest -> c b = false) ->
  parses k l a -> parses (reject_if c k) l a.
Proof.
  intros Hc Hk b rest Hwf Hb. unfold reject_if. rewrite (Hc b rest Hwf Hb). by apply Hk.
Qed.

Lemma be_combine_be_split n z :
  be_combine_acc 0 (be_split n z) = wrap (8 * Z.of_nat n) z.
Proof. rewrite be_combine_split. unfold wrap. lia. Qed.

(** A fixed-width read, of any bytes and of those of a number: one proof for the
    four widths. *)
Lemma parses_raw n (bad : rres Z) l :
  length l = n ->
  parses (fun b => if decide (pdata b + n <= pfree b)
                   then Got (be_combine_acc 0 (peek n b)) (advance n b) else bad)
         l (be_combine_acc 0 l).
Proof.
  intros <- b rest Hwf Hc.
  destruct (content_advance b _ rest Hwf Hc) as (Hwf' & Hc' & Hp & Hle).
  exists (advance (length l) b). by rewrite decide_True, Hp by lia.
Qed.

Lemma parses_fixed n (bad : rres Z) z :
  parses (fun b => if decide (pdata b + n <= pfree b)
                   then Got (be_combine_acc 0 (peek n b)) (advance n b) else bad)
         (be_split n z) (wrap (8 * Z.of_nat n) z).
Proof. rewrite <- be_combine_be_split. apply parses_raw, length_be_split. Qed.

Lemma parses_readInt8 z : parses readInt8 [u8 z] (u8 z).
Proof.
  pose proof (parses_fixed 1 Overran z) as H. cbn [be_split] in H.
  rewrite Z.shiftr_0_r in H. exact H.
Qed.
Lemma parses_readInt16 z : parses readInt16 (be_split 2 z) (u16 z).
Proof. apply (parses_fixed 2). Qed.
Lemma parses_readInt32 z : parses readInt32 (be_split 4 z) (u32 z).
Proof. apply (parses_fixed 4). Qed.
Lemma parses_readInt64 z : parses readInt64 (be_split 8 z) (u64 z).
Proof. apply (parses_fixed 8). Qed.

Lemma parses_readBytes l : parses (readBytes (Z.of_nat (length l))) l (Some l).
Proof.
  intros b rest Hwf Hc.
  destruct (content_advance b _ rest Hwf Hc) as (Hwf' & Hc' & Hp & Hle).
  unfold readBytes. rewrite decide_False by lia. rewrite Nat2Z.id.
  rewrite decide_False by lia. rewrite Hp. eauto.
Qed.

(** A string that fits the caller's array is copied into it with its NUL; an
    empty one leaves the array alone. *)
Lemma parses_readString arr str :
  length str < length arr -> (Z.of_nat (S (length str)) < 2 ^ 31)%Z ->
  parses (readString (Some arr) (Z.of_nat (length arr))) (string_bytes str)
    (true, Some (match str with [] => arr | _ => str ++ [0%Z] ++ drop (S (length str)) arr end)).
Proof.
  intros Hfit H31 b rest Hwf Hc.
  set (n := match str with [] => 0 | _ => S (length str) end).
  set (body := match str with [] => [] | _ => str ++ [0%Z] end).
  assert (string_bytes str = be_split 4 (Z.of_nat n) ++ body) as Hb
    by (subst n body; by destruct str).
  assert (length body = n) as Hn by (subst n body; destruct str; [done|rewrite length_app; simpl; lia]).
  rewrite Hb, <- app_assoc in Hc.
  destruct (parses_readInt32 (Z.of_nat n) b (body ++ rest) Hwf Hc) as (b1 & E1 & Hwf1 & Hc1).
  destruct (content_advance b1 body rest Hwf1 Hc1) as (Hwf2 & Hc2 & Hp & Hle).
  assert (s32 (u32 (Z.of_nat n)) = Z.of_nat n) as Hs.
  { rewrite swrap_wrap. apply swrap_id; [lia|]. unfold in_s. subst n. destruct str; lia. }
  exists (advance n b1). split; [|by rewrite Hn in *].
  unfold readString. pose proof (length_content b Hwf) as Hlen. rewrite Hc, length_app, length_be_split in Hlen.
  rewrite decide_False by lia. unfold rbind. rewrite E1, Hs.
  rewrite (decide_False (P := (Z.of_nat (pfree b1 - pdata b1) < Z.of_nat n)%Z)) by lia.
  assert ((if decide (Z.of_nat n < Z.of_nat (length arr)) then Z.of_nat n
           else Z.of_nat (length arr)) = Z.of_nat n)%Z as Hmin.
  { case_decide; [done|]. subst n. destruct str; simpl in *; lia. }
  cbv zeta. rewrite Hmin.
  rewrite (decide_False (P := (Z.of_nat (pdata b1) + Z.of_nat n < 0)%Z)) by lia.
  unfold advance. f_equal; [|f_equal; lia].
  f_equal. destruct str as [|c str]; [done|]. rewrite decide_True by (subst n; lia).
  f_equal. rewrite !Nat2Z.id. f_equal. subst n body. unfold peek in Hp. rewrite Hn in Hp.
  replace (S (length (c :: str)) - 1) with (length (c :: str)) by lia.
  apply (f_equal (take (length (c :: str)))) in Hp.
  rewrite take_take, take_app_length, Nat.min_l in Hp by lia. done.
Qed.

(** With a NULL pointer the array is allocated to fit. *)
Lemma parses_readString_new str :
  (Z.of_nat (S (length str)) < 2 ^ 31)%Z ->
  parses (readString None 0) (string_bytes str)
    (true, match str with [] => None | _ => Some (str ++ [0%Z]) end).
Proof.
  intros H31 b rest Hwf Hc. destruct str as [|c str].
  { destruct (parses_readInt32 0 b rest Hwf Hc) as (b1 & E1 & Hwf1 & Hc1).
    exists b1. split; [|done]. unfold readString. pose proof (length_content b Hwf) as Hlen.
    change (string_bytes []) with (be_split 4 0) in Hc.
    rewrite Hc, length_app, length_be_split in Hlen.
    rewrite decide_False by lia.
    unfold rbind. rewrite E1. change (s32 (u32 0)) with 0%Z.
    rewrite (decide_False (P := (Z.of_nat (pfree b1 - pdata b1) < 0)%Z)) by lia.
    cbn. case_decide; [lia|].
    rewrite Z.add_0_r, Nat2Z.id. repeat case_decide; try lia; by destruct b1. }
  set (n := S (length (c :: str))).
  destruct (parses_readString (malloc n) (c :: str)) with (b := b) (rest := rest)
    as (b' & E & Hb'); [unfold malloc; rewrite length_replicate; lia|done..|].
  exists b'. split; [|done]. rewrite drop_ge, app_nil_r in E
    by (unfold malloc; rewrite length_replicate; lia).
  rewrite <- E. pose proof (length_content b Hwf) as Hlen. rewrite Hc in Hlen.
  unfold string_bytes in Hc, Hlen. rewrite <- app_assoc in Hc.
  rewrite !length_app, length_be_split in Hlen.
  destruct (parses_readInt32 (Z.of_nat n) b (((c :: str) ++ [0%Z]) ++ rest) Hwf Hc) as (b1 & E1 & Hwf1 & Hc1).
  assert (s32 (u32 (Z.of_nat n)) = Z.of_nat n) as Hs.
  { rewrite swrap_wrap. apply swrap_id; [lia|]. unfold in_s. subst n. lia. }
  pose proof (length_content b1 Hwf1) as Hlen1. rewrite Hc1, !length_app in Hlen1. simpl in Hlen1.
  unfold readString. rewrite decide_False by lia. unfold rbind. rewrite E1, Hs.
  rewrite (decide_False (P := (Z.of_nat (pfree b1 - pdata b1) < Z.of_nat n)%Z)) by (subst n; simpl; lia).
  rewrite (decide_True (P := (0 < Z.of_nat n)%Z)) by lia. cbv iota beta zeta.
  unfold malloc. rewrite length_replicate, !Nat2Z.id.
  by rewrite (decide_False (P := pfree b < pdata b + 4)) by lia.
Qed.

Lemma parses_read_n {A} (rd : reader A) (f : A -> list Z) l :
  (forall x, x ∈ l -> parses rd (f x) x) ->
  parses (read_n (length l) rd) (concat (map f l)) l.
Proof.
  induction l as [|x l IH]; intros H; [apply parses_ret|].
  apply parses_bind with (a := x); [apply H; left|].
  eapply parses_eq; [apply parses_bind with (a := l)| |reflexivity].
  - apply IH. intros y Hy. apply H. by right.
  - apply parses_ret.
  - by rewrite app_nil_r.
Qed.

#[export] Hint Resolve emits_id emits_seq emits_writeInt8 emits_writeInt16
  emits_writeInt32 emits_writeInt64 emits_writeBytes emits_writeString
  emits_writeVector32 emits_writeVector64 : tair.
#[export] Hint Resolve parses_ret parses_readInt8 parses_readInt16
  parses_readInt32 parses_readInt64 parses_readBytes : tair.

(** Sequences of writes: [emit_tac] proves [emits w ?l] for a writer that is a
    chain of writes, building the list of what they append;
    [parse_tac] proves [parses p l a] for a chain of reads, given the bytes in
    right-nested form. *)
Ltac emit_step :=
  match goal with
  | |- emits (fun b => b) _ => apply emits_id
  | |- emits (fun b => ?w b) ?l => change (emits w l)
  | |- emits (fun b => ?w (@?f b)) _ => eapply (emits_seq f w); [emit_step|]
  | _ => idtac
  end.
Ltac emit_tac := cbv beta zeta; emit_step; eauto with tair.

Ltac parse_step :=
  lazymatch goal with
  | |- parses (rret _) _ _ => eapply parses_eq; [apply parses_ret|reflexivity|]
  | |- parses (rbind _ _) _ _ => eapply parses_bind; [solve [eauto with tair]|]
  end.
Ltac parse_tac := cbv beta zeta; repeat parse_step.

(** ** Round trips

    [roundtrip w p a]: what [w] appends, [p] reads back as [a], taking exactly
    those bytes. *)
Definition roundtrip {A} (w : writer) (p : reader A) (a : A) : Prop :=
  exists l, emits w l /\ parses p l a.

(** ** The sizes as the code computes them

    In [expand] the sizes are 32-bit [int]s.  Past the largest one a doubled
    size is negative and then zero: the loop that doubles never ends, or hands
    [malloc] a length that is no [size_t] it can serve, and the [assert] on
    its result fails.  [malloc] of a positive size is taken to succeed. *)
Local Open Scope Z_scope.

Fixpoint double_int (fuel : nat) (size used need : Z) : outcome Z :=
  if s32 (size - used) <? need then
    match fuel with
    | O => Diverge
    | S fuel' => double_int fuel' (s32 (2 * size)) used need
    end
  else Ret size.

(** After 32 doublings the size is zero and stays zero. *)
Definition DOUBLINGS : nat := 64.

Definition expand_int (need : Z) (b : databuffer) : outcome databuffer :=
  match mem b with
  | None =>
      let! len := double_int DOUBLINGS 256 0 need in
      Ret (mk_databuffer (Some (malloc (Z.to_nat len))) 0 0)
  | Some m =>
      if Z.of_nat (length m) - Z.of_nat (pfree b) <? need then
        let flen := s32 ((Z.of_nat (length m) - Z.of_nat (pfree b)) + Z.of_nat (pdata b)) in
        let dlen := s32 (Z.of_nat (pfree b) - Z.of_nat (pdata b)) in
        if (flen <? need) || (s32 (flen * 4) <? dlen) then
          let! bufsize := double_int DOUBLINGS (s32 (Z.of_nat (length m) * 2)) dlen need in
          assert! 0 <? bufsize in
          Ret (mk_databuffer (Some (content b ++ malloc (Z.to_nat (bufsize - dlen)))) 0 (Z.to_nat dlen))
        else
          Ret (mk_databuffer (Some (content b ++ drop (Z.to_nat dlen) m)) 0 (Z.to_nat dlen))
      else Ret b
  end.

(** The writers: room first, then the bytes. *)
Definition ensured (need : Z) (w : writer) (b : databuffer) : outcome databuffer :=
  let! b := expand_int need b in Ret (w b).
Definition int_writeInt8 (n : Z) := ensured 1 (store [u8 n]).
Definition int_writeInt16 (n : Z) := ensured 2 (store (be_split 2 n)).
Definition int_writeInt32 (n : Z) := ensured 4 (store (be_split 4 n)).
Definition int_writeInt64 (n : Z) := ensured 8 (store (be_split 8 n)).
Definition int_writeBytes (src : list Z) := ensured (Z.of_nat (length src)) (store src).
Definition int_writeString (str : list Z) (b : databuffer) : outcome databuffer :=
  let len := s32 (Z.of_nat (length str)) in
  let len := if 0 <? len then s32 (len + 1) else len in
  let! b := expand_int (s32 (len + 4)) b in
  let! b := int_writeInt32 len b in
  Ret (if 0 <? len then store (str ++ [0]) b else b).

(** Bounds that keep every size an [int]: of the data and what is asked for,
    128 megabytes, and of the block. *)
Definition MAX_DATA : Z := 2 ^ 27.
Definition small (b : databuffer) : Prop := Z.of_nat (pend b) <= 5 * 2 ^ 26.

Lemma s32_small z : - 2 ^ 31 <= z < 2 ^ 31 -> s32 z = z.
Proof. intros. apply swrap_id; [lia|]. unfold in_s. lia. Qed.

Lemma double_int_agrees g f size used need :
  (0 < size)%nat -> (used + need <= f + size)%nat ->
  Z.of_nat (used + need) <= Z.of_nat size * 2 ^ Z.of_nat g ->
  Z.of_nat (used + need) <= MAX_DATA -> Z.of_nat size < 2 ^ 30 ->
  double_int g (Z.of_nat size) (Z.of_nat used) (Z.of_nat need) = Ret (Z.of_nat (double_until f size used need)).
Proof.
  unfold MAX_DATA. revert f size. induction g as [|g IH]; intros f size Hs Hf Hg Hmax Hsz; cbn [double_int];
    rewrite s32_small by lia; destruct (Z.ltb_spec (Z.of_nat size - Z.of_nat used) (Z.of_nat need)) as [Hlt|Hge].
  - cbn in Hg. lia.
  - destruct f; cbn [double_until]; by rewrite decide_False by lia.
  - rewrite s32_small by lia. destruct f as [|f]; [lia|]. cbn [double_until]. rewrite decide_True by lia.
    rewrite <- (IH f (2 * size)%nat); [f_equal; lia|lia|lia| |lia|lia].
    rewrite Nat2Z.inj_succ, Z.pow_succ_r in Hg by lia. lia.
  - destruct f; cbn [double_until]; by rewrite decide_False by lia.
Qed.

Lemma double_enough size total :
  (0 < size)%nat -> Z.of_nat total <= MAX_DATA -> Z.of_nat total <= Z.of_nat size * 2 ^ Z.of_nat DOUBLINGS.
Proof. unfold MAX_DATA, DOUBLINGS. intros Hs Ht. change (2 ^ Z.of_nat 64) with (2 ^ 64). lia. Qed.

(** Within the bounds the code's [int]s never wrap, and the block stays
    within them. *)
Lemma expand_int_agrees need b :
  wf b -> small b -> Z.of_nat (length (content b) + need) <= MAX_DATA ->
  expand_int (Z.of_nat need) b = Ret (expand need b) /\ small (expand need b).
Proof.
  unfold small, MAX_DATA. intros Hwf Hsm Hn. pose proof (length_content b Hwf) as Hlen. unfold expand_int, expand.
  unfold wf, pend in Hwf, Hsm. destruct (mem b) as [m|] eqn:Em.
  - destruct (Z.ltb_spec (Z.of_nat (length m) - Z.of_nat (pfree b)) (Z.of_nat need)) as [Hlt|Hge].
    2: { rewrite decide_False by lia. unfold pend. rewrite Em. done. }
    rewrite decide_True by lia. rewrite !s32_small by lia.
    replace (Z.of_nat (pfree b) - Z.of_nat (pdata b)) with (Z.of_nat (pfree b - pdata b)) by lia.
    destruct (decide _) as [Hmove|Hkeep].
    + replace ((_ <? _) || (_ <? _)) with true by (symmetry; apply orb_true_iff; rewrite !Z.ltb_lt; lia).
      replace (Z.of_nat (length m) * 2) with (Z.of_nat (length m * 2)) by lia.
      rewrite (double_int_agrees DOUBLINGS (pfree b - pdata b + need)); [|lia|lia|apply double_enough; unfold MAX_DATA; lia|unfold MAX_DATA; lia|lia].
      cbn [obind]. pose proof (double_until_ge (pfree b - pdata b + need) (length m * 2) (pfree b - pdata b) need) as Hge.
      destruct (double_until_least (pfree b - pdata b + need) (length m * 2) (pfree b - pdata b) need) as [E|E]; [lia|..];
        set (size := double_until _ _ _ _) in *;
        (destruct (Z.ltb_spec 0 (Z.of_nat size)); [|lia]); cbn [oassert];
        (split; [rewrite Nat2Z.id; do 3 f_equal; f_equal; f_equal; lia|]);
        unfold pend; cbn [mem]; rewrite length_app, Hlen; unfold malloc; rewrite length_replicate; lia.
    + replace ((_ <? _) || (_ <? _)) with false by (symmetry; apply orb_false_iff; rewrite !Z.ltb_ge; lia).
      rewrite Nat2Z.id. split; [done|]. unfold pend. cbn [mem]. rewrite length_app, Hlen, length_drop. lia.
  - change 256 with (Z.of_nat 256). change 0 with (Z.of_nat 0).
    rewrite (double_int_agrees DOUBLINGS need); [|lia|lia|apply double_enough; unfold MAX_DATA; lia|unfold MAX_DATA; lia|lia].
    cbn [obind]. rewrite Nat2Z.id. split; [done|]. unfold pend. cbn [mem]. unfold malloc. rewrite length_replicate.
    destruct (double_until_least need 256 0 need) as [->|]; lia.
Qed.

Local Close Scope Z_scope.

(** ** The buffer refines a queue of bytes

    [bop] is one call on a buffer; [run_bop] makes it on the buffer and
    [queue_bop] on the list of bytes the buffer stands for.  [None] is a call
    that does not return: it runs past the data (an assertion failure or an
    overrun), or its sizes are no [int]s. *)
Inductive bop : Type :=
| BWrite8 (n : Z) | BWrite16 (n : Z) | BWrite32 (n : Z) | BWrite64 (n : Z)
| BWriteBytes (l : list Z) | BWriteString (l : list Z)
| BRead8 | BRead16 | BRead32 | BRead64 | BReadBytes (len : nat)
| BDrain (len : nat) | BStrip (len : nat) | BClear | BShrink | BEnsureFree (len : nat).

Inductive bval : Type :=
| VNone | VInt (z : Z) | VBytes (r : option (list Z)).

Definition of_reader {A} (f : A -> bval) (r : rres A) : option (bval * databuffer) :=
  match r with Got a b => Some (f a, b) | _ => None end.

Definition of_outcome (r : outcome databuffer) : option (bval * databuffer) :=
  match r with Ret b => Some (VNone, b) | _ => None end.

Definition run_bop (o : bop) (b : databuffer) : option (bval * databuffer) :=
  match o with
  | BWrite8 n => of_outcome (int_writeInt8 n b)
  | BWrite16 n => of_outcome (int_writeInt16 n b)
  | BWrite32 n => of_outcome (int_writeInt32 n b)
  | BWrite64 n => of_outcome (int_writeInt64 n b)
  | BWriteBytes l => of_outcome (int_writeBytes l b)
  | BWriteString l => of_outcome (int_writeString l b)
  | BRead8 => of_reader VInt (readInt8 b)
  | BRead16 => of_reader VInt (readInt16 b)
  | BRead32 => of_reader VInt (readInt32 b)
  | BRead64 => of_reader VInt (readInt64 b)
  | BReadBytes len => of_reader VBytes (readBytes (Z.of_nat len) b)
  | BDrain len => Some (VNone, drainData len b)
  | BStrip len => of_outcome (stripData len b)
  | BClear => Some (VNone, clear b)
  | BShrink => Some (VNone, shrink b)
  | BEnsureFree len => of_outcome (expand_int (Z.of_nat len) b)
  end.

Definition queue_take (n : nat) (f : list Z -> bval) (q : list Z)
  : option (bval * list Z) :=
  if decide (n <= length q) then Some (f (take n q), drop n q) else None.

Definition queue_bop (o : bop) (q : list Z) : option (bval * list Z) :=
  match o with
  | BWrite8 n => Some (VNone, q ++ [u8 n])
  | BWrite16 n => Some (VNone, q ++ be_split 2 n)
  | BWrite32 n => Some (VNone, q ++ be_split 4 n)
  | BWrite64 n => Some (VNone, q ++ be_split 8 n)
  | BWriteBytes l => Some (VNone, q ++ l)
  | BWriteString l => Some (VNone, q ++ string_bytes l)
  | BRead8 => queue_take 1 (fun l => VInt (be_combine_acc 0 l)) q
  | BRead16 => queue_take 2 (fun l => VInt (be_combine_acc 0 l)) q
  | BRead32 => queue_take 4 (fun l => VInt (be_combine_acc 0 l)) q
  | BRead64 => queue_take 8 (fun l => VInt (be_combine_acc 0 l)) q
  | BReadBytes len =>
      if decide (len <= length q) then Some (VBytes (Some (take len q)), drop len q)
      else Some (VBytes None, q)
  | BDrain len => Some (VNone, drop len q)
  | BStrip len => if decide (len <= length q)
                  then Some (VNone, take (length q - len) q) else None
  | BClear => Some (VNone, [])
  | BShrink | BEnsureFree _ => Some (VNone, q)
  end.

Fixpoint run_bops (os : list bop) (b : databuffer) : option (list bval * databuffer) :=
  match os with
  | [] => Some ([], b)
  | o :: os' =>
      '(v, b') ← run_bop o b; '(vs, b'') ← run_bops os' b'; Some (v :: vs, b'')
  end.

Fixpoint queue_bops (os : list bop) (q : list Z) : option (list bval * list Z) :=
  match os with
  | [] => Some ([], q)
  | o :: os' =>
      '(v, q') ← queue_bop o q; '(vs, q'') ← queue_bops os' q'; Some (v :: vs, q'')
  end.

(** The free bytes a call asks for. *)
Definition op_need (o : bop) : nat :=
  match o with
  | BWrite8 _ => 1 | BWrite16 _ => 2 | BWrite32 _ => 4 | BWrite64 _ => 8
  | BWriteBytes l => length l
  | BWriteString l => length (string_bytes l)
  | BEnsureFree len => len
  | _ => 0
  end.

(** Calls that never ask for more than [MAX_DATA] bytes together with what the
    queue holds. *)
Fixpoint fits (os : list bop) (q : list Z) : Prop :=
  match os with
  | [] => True
  | o :: os' =>
      (Z.of_nat (length q + op_need o) <= MAX_DATA)%Z
      /\ match queue_bop o q with Some (_, q') => fits os' q' | None => True end
  end.

(** A buffer and a queue agree on a call: both fail, or they return the same
    value and stay related. *)
Definition agree {V} (r : option (V * databuffer)) (q : option (V * list Z)) : Prop :=
  match r, q with
  | Some (v, b), Some (v', l) => v = v' /\ wf b /\ small b /\ content b = l
  | None, None => True
  | _, _ => False
  end.

Lemma small_store bs b : wf b -> small b -> roomy (length bs) b -> small (store bs b).
Proof.
  unfold wf, small, roomy, store, pend. intros Hwf Hs (m & Em & Hm). rewrite Em in *. cbn [mem].
  rewrite !length_app, length_take, length_drop. lia.
Qed.

Lemma ensured_agrees bs b :
  wf b -> small b -> (Z.of_nat (length (content b) + length bs) <= MAX_DATA)%Z ->
  agree (of_outcome (ensured (Z.of_nat (length bs)) (store bs) b)) (Some (VNone, content b ++ bs)).
Proof.
  intros Hwf Hs Hn. destruct (expand_int_agrees (length bs) b Hwf Hs Hn) as [E Hs1].
  destruct (expand_spec (length bs) b Hwf) as (Hwf1 & <- & Hroom).
  destruct (store_spec bs _ Hwf1 Hroom) as [Hwf2 E2].
  unfold ensured. rewrite E. cbn. split; [done|]. split; [done|]. split; [by apply small_store|done].
Qed.

(** Room that is there already: nothing is done. *)
Lemma expand_int_roomy need n b : roomy n b -> need <= n -> expand_int (Z.of_nat need) b = Ret b.
Proof.
  intros (m & Em & Hm) Hn. unfold expand_int. rewrite Em.
  destruct (Z.ltb_spec (Z.of_nat (length m) - Z.of_nat (pfree b)) (Z.of_nat need)); [lia|done].
Qed.

Lemma roomy_le n n' b : roomy n b -> n' <= n -> roomy n' b.
Proof. intros (m & Em & Hm) Hn. exists m. split; [done|lia]. Qed.

Lemma roomy_store bs n b : roomy (length bs + n) b -> roomy n (store bs b).
Proof.
  intros (m & Em & Hm). unfold roomy, store. rewrite Em. cbn [mem pfree]. eexists. split; [done|].
  rewrite !length_app, length_take, length_drop. lia.
Qed.

Lemma int_writeString_agrees str b :
  wf b -> small b -> (Z.of_nat (length (content b) + length (string_bytes str)) <= MAX_DATA)%Z ->
  agree (of_outcome (int_writeString str b)) (Some (VNone, content b ++ string_bytes str)).
Proof.
  unfold int_writeString, int_writeInt32. intros Hwf Hs Hn. unfold MAX_DATA in Hn.
  destruct str as [|c str]; cbn [string_bytes] in *; rewrite ?length_app, ?length_be_split in Hn.
  - change (s32 (Z.of_nat (length []))) with 0%Z. cbn [Z.ltb Z.compare]. change (s32 (0 + 4)) with (Z.of_nat 4).
    destruct (expand_int_agrees 4 b Hwf Hs) as [E Hs1]; [unfold MAX_DATA; lia|].
    destruct (expand_spec 4 b Hwf) as (Hwf1 & <- & Hroom). rewrite E. cbn [obind].
    pose proof (ensured_agrees (be_split 4 0) _ Hwf1 Hs1) as Ha. rewrite length_be_split in Ha.
    change (Z.of_nat 4) with 4%Z in Ha. destruct (ensured 4 _ _); apply Ha;
    destruct (expand_spec 4 b Hwf) as (_ & -> & _); unfold MAX_DATA; lia.
  - set (str' := c :: str) in *. change (length [0%Z]) with 1 in Hn. rewrite !(s32_small (Z.of_nat (length str'))) by lia.
    destruct (Z.ltb_spec 0 (Z.of_nat (length str'))); [|exfalso; revert H; clear; subst str'; cbn [length]; lia].
    rewrite !(s32_small (Z.of_nat (length str') + 1)) by lia. rewrite s32_small by lia.
    set (n := S (length str')) in *.
    replace (Z.of_nat (length str') + 1 + 4)%Z with (Z.of_nat (n + 4)) by lia.
    destruct (expand_int_agrees (n + 4) b Hwf Hs) as [E Hs1]; [unfold MAX_DATA; lia|].
    destruct (expand_spec (n + 4) b Hwf) as (Hwf1 & <- & Hroom). rewrite E. cbn [obind].
    unfold ensured. change 4%Z with (Z.of_nat 4). rewrite (expand_int_roomy 4 (n + 4)) by (done || lia). cbn [obind of_outcome].
    replace (Z.of_nat (length str') + 1)%Z with (Z.of_nat n) by lia.
    destruct (Z.ltb_spec 0 (Z.of_nat n)); [|lia].
    set (b1 := expand (n + 4) b) in *. set (len := be_split 4 (Z.of_nat n)).
    assert (roomy (length len) b1) as Hr1 by (eapply roomy_le; [exact Hroom|unfold len; rewrite length_be_split; lia]).
    destruct (store_spec len b1 Hwf1 Hr1) as [Hwf2 E2].
    assert (roomy (length (str' ++ [0%Z])) (store len b1)) as Hr2.
    { apply roomy_store. unfold len. rewrite length_be_split, length_app. eapply roomy_le; [exact Hroom|cbn; lia]. }
    destruct (store_spec (str' ++ [0%Z]) _ Hwf2 Hr2) as [Hwf3 E3].
    split; [done|]. split; [done|]. split; [exact (small_store _ _ Hwf2 (small_store _ _ Hwf1 Hs1 Hr1) Hr2)|].
    rewrite E3, E2, <- app_assoc. done.
Qed.

Lemma small_mem b b' : mem b' = mem b -> small b -> small b'.
Proof. unfold small, pend. by intros ->. Qed.

Lemma agree_take n bad b :
  wf b -> small b ->
  agree (of_reader VInt (if decide (pdata b + n <= pfree b)
           then Got (be_combine_acc 0 (peek n b)) (advance n b) else bad))
        (queue_take n (fun l => VInt (be_combine_acc 0 l)) (content b))
  \/ exists a b', bad = Got a b'.
Proof.
  intros Hwf Hs. unfold queue_take. pose proof (length_content b Hwf) as Hlen.
  pose proof (wf_le b Hwf).
  rewrite Hlen. destruct (decide (pdata b + n <= pfree b)) as [Hle|Hgt].
  - rewrite decide_True by lia. left.
    destruct (content_advance b (take n (content b)) (drop n (content b)) Hwf)
      as (Hwf' & Hc' & Hp & _); [by rewrite take_drop|].
    rewrite length_take, Hlen, Nat.min_l in * by lia.
    simpl. rewrite Hp. split; [done|]. split; [done|]. split; [by eapply small_mem|done].
  - rewrite decide_False by lia. destruct bad; simpl; eauto.
Qed.

Lemma wf_clear b : wf b -> wf (clear b) /\ content (clear b) = [].
Proof.
  unfold wf, clear, content. simpl. destruct (mem b); [intros; split; [lia|done]|done].
Qed.

Lemma drainData_spec len b :
  wf b -> wf (drainData len b) /\ content (drainData len b) = drop len (content b).
Proof.
  intros Hwf. pose proof (length_content b Hwf) as Hlen. unfold drainData. simpl.
  case_decide as Hge.
  - rewrite drop_ge by lia.
    exact (wf_clear (mk_databuffer (mem b) 0 0) ltac:(unfold wf in *; simpl; destruct (mem b); lia)).
  - destruct (content_advance b (take len (content b)) (drop len (content b)) Hwf)
      as (Hwf' & Hc' & _); [by rewrite take_drop|].
    rewrite length_take, Hlen, Nat.min_l in * by lia. done.
Qed.

Lemma drainData_mem len b : mem (drainData len b) = mem b.
Proof. unfold drainData. by case_decide. Qed.

Lemma stripData_takes len b :
  wf b -> len <= length (content b) ->
  exists b', stripData len b = Ret b' /\ mem b' = mem b /\ wf b'
    /\ content b' = take (length (content b) - len) (content b).
Proof.
  intros Hwf Hle. pose proof (length_content b Hwf) as Hlen.
  unfold stripData. rewrite bool_decide_eq_true_2 by lia. eexists. split; [reflexivity|]. split; [done|]. split.
  - unfold wf in *. simpl. destruct (mem b); lia.
  - unfold content, block. simpl. rewrite take_take. f_equal. unfold content, block in Hlen. lia.
Qed.

Lemma stripData_spec len b :
  wf b -> small b -> agree (of_outcome (stripData len b)) (queue_bop (BStrip len) (content b)).
Proof.
  intros Hwf Hs. cbn [queue_bop]. destruct (decide (len <= length (content b))) as [Hle|Hgt].
  - destruct (stripData_takes len b Hwf Hle) as (b' & -> & Hm & Hwf' & Hc). split; [done|]. split; [done|].
    split; [by eapply small_mem|done].
  - unfold stripData. rewrite length_content in Hgt by done. by rewrite bool_decide_eq_false_2 by lia.
Qed.

Lemma shrink_spec b : wf b -> wf (shrink b) /\ content (shrink b) = content b.
Proof.
  intros Hwf. unfold shrink. destruct (mem b) as [m|] eqn:Em; [|done].
  destruct (bool_decide (length m <= MAX_BUFFER_SIZE)
            || bool_decide (MAX_BUFFER_SIZE < pfree b - pdata b)) eqn:E; [done|].
  apply orb_false_iff in E as [E1%bool_decide_eq_false E2%bool_decide_eq_false].
  pose proof (length_content b Hwf) as Hlen.
  split; [|by apply content_prefix].
  unfold wf, malloc. cbn [mem pdata pfree]. rewrite length_app, length_replicate.
  unfold MAX_BUFFER_SIZE in *. lia.
Qed.

Lemma shrink_small b : wf b -> small b -> small (shrink b).
Proof.
  intros Hwf Hs. unfold shrink. destruct (mem b) as [m|] eqn:Em; [|done].
  destruct (bool_decide (length m <= MAX_BUFFER_SIZE)) eqn:E1; [done|].
  destruct (bool_decide (MAX_BUFFER_SIZE < pfree b - pdata b)) eqn:E2; [done|]. cbn [orb].
  apply bool_decide_eq_false in E1, E2. pose proof (length_content b Hwf).
  unfold small, pend, malloc in *. rewrite Em in Hs. cbn [mem].
  rewrite length_app, length_replicate. unfold MAX_BUFFER_SIZE in *. lia.
Qed.

Lemma readBytes_agrees len b :
  wf b -> small b -> agree (run_bop (BReadBytes len) b) (queue_bop (BReadBytes len) (content b)).
Proof.
  intros Hwf Hs. cbn [run_bop queue_bop]. unfold readBytes. rewrite decide_False by lia. rewrite Nat2Z.id.
  pose proof (length_content b Hwf) as Hlen. pose proof (wf_le b Hwf).
  case_decide as Hlt; [by rewrite decide_False by lia|]. rewrite decide_True by lia.
  destruct (content_advance b (take len (content b)) (drop len (content b)) Hwf)
    as (Hwf' & Hc' & Hp & _); [by rewrite take_drop|].
  rewrite length_take, Nat.min_l in * by lia. simpl. rewrite Hp.
  split; [done|]. split; [done|]. split; [by eapply small_mem|done].
Qed.

Lemma run_bop_agree o b :
  wf b -> small b -> (Z.of_nat (length (content b) + op_need o) <= MAX_DATA)%Z ->
  agree (run_bop o b) (queue_bop o (content b)).
Proof.
  intros Hwf Hs Hn.
  destruct o; cbn [op_need] in Hn; try apply readBytes_agrees; cbn [run_bop queue_bop]; try done.
  - by apply (ensured_agrees [u8 n]).
  - apply (ensured_agrees (be_split 2 n)); [done|done|]. by rewrite length_be_split.
  - apply (ensured_agrees (be_split 4 n)); [done|done|]. by rewrite length_be_split.
  - apply (ensured_agrees (be_split 8 n)); [done|done|]. by rewrite length_be_split.
  - by apply ensured_agrees.
  - by apply int_writeString_agrees.
  - by destruct (agree_take 1 Overran b Hwf Hs) as [?|(? & ? & [=])].
  - by destruct (agree_take 2 Overran b Hwf Hs) as [?|(? & ? & [=])].
  - by destruct (agree_take 4 Asserted b Hwf Hs) as [?|(? & ? & [=])].
  - by destruct (agree_take 8 Asserted b Hwf Hs) as [?|(? & ? & [=])].
  - destruct (drainData_spec len b Hwf). split; [done|]. split; [done|].
    split; [by apply (small_mem b); [apply drainData_mem|]|done].
  - by apply stripData_spec.
  - destruct (wf_clear b Hwf). split; [done|]. split; [done|]. split; [by eapply small_mem|done].
  - destruct (shrink_spec b Hwf). split; [done|]. split; [done|]. split; [by apply shrink_small|done].
  - destruct (expand_int_agrees len b Hwf Hs Hn) as [-> Hs1]. destruct (expand_spec len b Hwf) as (? & ? & _). done.
Qed.


Definition demo_calls : list bop :=
  [BWrite32 7; BWriteBytes [1; 2; 3]%Z; BRead32; BShrink; BWriteString [65; 66]%Z; BReadBytes 4].


(** Asked for one byte more than a gigabyte, a new buffer never gets its block. *)
Example expand_past_a_gigabyte : expand_int (2 ^ 30 + 1) new_databuffer = Diverge.
Proof. reflexivity. Qed.
