(* ===== verification/Util.v ===== *)
(** * Hash functions and string utilities (common/hash.hpp, common/util.hpp,
      and the hash of storage/mdb/cache_hashmap.cpp)

    [mur_mur_hash2] places a key in a bucket of the distribution table; the
    in-memory engine has a second copy of the same algorithm for its own hash
    table, [cache_hash_map_hash].  The two read the last bytes of the key
    differently, as signed and as unsigned characters. *)

From S2P Require Import Prelude.

(** ** MurmurHash2 *)

Definition mm_m : Z := 0x5bd1e995.
Definition mm_r : Z := 24.

(** [k *= m; k ^= k >> r; k *= m;] *)
Definition mm_mix (k : Z) : Z :=
  let k := u32 (k * mm_m) in
  let k := Z.lxor k (Z.shiftr k mm_r) in
  u32 (k * mm_m).

(** [*(unsigned int * ) data] on a little-endian machine *)
Definition le32 (a b c d : Z) : Z :=
  Z.lor a (Z.lor (Z.shiftl b 8) (Z.lor (Z.shiftl c 16) (Z.shiftl d 24))).

(** The [while(len >= 4)] loop: the state [h] after the whole words of the
    key, and the bytes that are left. *)
Fixpoint mm_words (h : Z) (data : list Z) : Z * list Z :=
  match data with
  | a :: b :: c :: d :: rest =>
      mm_words (Z.lxor (u32 (h * mm_m)) (mm_mix (le32 a b c d))) rest
  | _ => (h, data)
  end.

(** [h ^= h >> 13; h *= m; h ^= h >> 15;] *)
Definition mm_final (h : Z) : Z :=
  let h := Z.lxor h (Z.shiftr h 13) in
  let h := u32 (h * mm_m) in
  Z.lxor h (Z.shiftr h 15).

(** The fall-through [switch(len)] on the last bytes, each first converted by
    [ch] (to [int8_t], or kept an [unsigned char]) and then to [unsigned]. *)
Definition mm_tail (ch : Z -> Z) (h : Z) (data : list Z) : Z :=
  match data with
  | [b0; b1; b2] =>
      let h := Z.lxor h (u32 (Z.shiftl (ch b2) 16)) in
      let h := Z.lxor h (u32 (Z.shiftl (ch b1) 8)) in
      u32 (Z.lxor h (u32 (ch b0)) * mm_m)
  | [b0; b1] =>
      let h := Z.lxor h (u32 (Z.shiftl (ch b1) 8)) in
      u32 (Z.lxor h (u32 (ch b0)) * mm_m)
  | [b0] => u32 (Z.lxor h (u32 (ch b0)) * mm_m)
  | _ => h
  end.

Definition mur_mur_hash2 (key : list Z) (seed : Z) : Z :=
  let h := Z.lxor seed (u32 (Z.of_nat (length key))) in
  let '(h, data) := mm_words h key in
  mm_final (mm_tail s8 h data).

Definition mhash1 (key : list Z) : Z := mur_mur_hash2 key 134217689.
Definition mhash2 (key : list Z) : Z := mur_mur_hash2 key 97.
Definition mur_mur_hash (key : list Z) : Z := mur_mur_hash2 key 97.

(** [cache_hash_map::hash]: [const unsigned char *data] in the tail. *)
Definition cache_hash_map_hash (key : list Z) : Z :=
  let h := Z.lxor 97 (u32 (Z.of_nat (length key))) in
  let '(h, data) := mm_words h key in
  mm_final (mm_tail (fun b => b) h data).

(** ** Strings: a C string is the list of its characters before the NUL. *)

Definition chr_backslash : Z := 92.
Definition chr_minus : Z := 45.
Definition chr_0 : Z := 48.
Definition chr_9 : Z := 57.
Definition chr_A : Z := 65.
Definition chr_Z : Z := 90.
Definition chr_a : Z := 97.

(** One digit of [sprintf("%02X")]. *)
Definition hex_digit (n : Z) : Z := if n <? 10 then chr_0 + n else chr_A + (n - 10).

(** [conv_show_string(str, size, ret, msize)]: the characters put in [ret]. *)
Fixpoint conv_show_loop (str : list Z) (index msize : Z) : list Z :=
  match str with
  | [] => []
  | c :: str' =>
      if index <? msize - 4
      then [chr_backslash; hex_digit (c / 16); hex_digit (c mod 16)]
           ++ conv_show_loop str' (index + 3) msize
      else []
  end.
Definition conv_show_string (str : list Z) (msize : option Z) : list Z :=
  let msize := default (Z.of_nat (length str) * 3 + 5) msize in
  conv_show_loop str 0 msize.

Definition tolower_if_upper (c : Z) : Z :=
  if (chr_A <=? c) && (c <=? chr_Z) then c + 32 else c.
Definition hex_value (c : Z) : Z :=
  if (chr_0 <=? c) && (c <=? chr_9) then c - chr_0 else c - chr_a + 10.

(** [conv_raw_string(str, result, size)]: the bytes put in [result]; their
    number is what [*size] becomes. *)
Fixpoint conv_raw_loop (p : list Z) (index size : Z) : list Z :=
  match p with
  | [] => []
  | c :: p' =>
      if index <? size - 1 then
        if c =? chr_backslash then
          match p' with
          | c1 :: c2 :: p'' =>
              let value := hex_value (tolower_if_upper c1) * 16
                           + hex_value (tolower_if_upper c2) in
              Z.land value 0xff :: conv_raw_loop p'' (index + 1) size
          | _ => []
          end
        else c :: conv_raw_loop p' (index + 1) size
      else []
  end.
Definition conv_raw_string (str : list Z) (size : Z) : list Z := conv_raw_loop str 0 size.

(** [get_time_range(time_range, start, end)]: [None] is the result [false]
    (both outputs are then -1). *)
Definition is_digit (c : Z) : bool := (chr_0 <=? c) && (c <=? chr_9).

Fixpoint scan_number (number : Z) (s : list Z) : Z * list Z :=
  match s with
  | c :: s' => if is_digit c then scan_number (number * 10 + (c - chr_0)) s' else (number, s)
  | [] => (number, [])
  end.

Definition get_time_range (time_range : list Z) : option (Z * Z) :=
  if decide (head time_range = Some chr_minus) then None
  else
    let '(number, s) := scan_number 0 time_range in
    if 24 <? number then None
    else
      match s with
      | c :: s' =>
          if c =? chr_minus then
            let '(number', s'') := scan_number 0 s' in
            if decide (length s'' = length s') then None
            else if (24 <? number') || negb (bool_decide (s'' = [])) then None
            else Some (number, number')
          else None
      | [] => None
      end.

(** ** Lemmas *)

Lemma testbit_high w z n : 0 <= w <= n -> in_u w z -> Z.testbit z n = false.
Proof.
  intros Hn Hz. rewrite <- (wrap_id w z Hz). unfold wrap. by apply Z.mod_pow2_bits_high.
Qed.

Lemma lxor_in_u w a b : 0 <= w -> in_u w a -> in_u w b -> in_u w (Z.lxor a b).
Proof.
  intros Hw Ha Hb. replace (Z.lxor a b) with (wrap w (Z.lxor a b)); [by apply wrap_bound|].
  apply Z.bits_inj'. intros n Hn. unfold wrap. destruct (Z.lt_ge_cases n w).
  - by rewrite Z.mod_pow2_bits_low by lia.
  - rewrite Z.mod_pow2_bits_high by lia.
    by rewrite Z.lxor_spec, !(testbit_high w) by (try done; lia).
Qed.

Lemma shiftr_in_u w a k : 0 <= k -> in_u w a -> in_u w (Z.shiftr a k).
Proof.
  unfold in_u. intros Hk Ha. rewrite Z.shiftr_div_pow2 by done.
  assert (0 < 2 ^ k) by lia. split; [apply Z.div_pos; lia|].
  eapply Z.le_lt_trans; [|apply Ha]. apply Z.div_le_upper_bound; nia.
Qed.

Lemma mm_final_bound h : in_u 32 h -> in_u 32 (mm_final h).
Proof.
  intros Hh. unfold mm_final.
  assert (in_u 32 (u32 (Z.lxor h (Z.shiftr h 13) * mm_m))) by (apply wrap_bound; lia).
  apply lxor_in_u; [lia|done|]. by apply shiftr_in_u.
Qed.

Lemma mm_words_bound h data : in_u 32 h -> in_u 32 (mm_words h data).1.
Proof.
  remember (length data) as n eqn:Hn. revert h data Hn.
  induction (lt_wf n) as [n _ IH]. intros h data -> Hh.
  destruct data as [|a [|b [|c [|d rest]]]]; simpl; try done.
  eapply IH; [|reflexivity|]; [simpl; lia|].
  apply lxor_in_u; [lia|..]; apply wrap_bound; lia.
Qed.

(** The bytes after the last whole word. *)
Definition tail_bytes (data : list Z) : list Z :=
  drop (4 * (length data / 4)) data.

Lemma mm_words_tail h data : (mm_words h data).2 = tail_bytes data.
Proof.
  remember (length data) as n eqn:Hn. revert h data Hn.
  induction (lt_wf n) as [n _ IH]. intros h data ->.
  destruct data as [|a [|b [|c [|d rest]]]]; try done.
  cbn [mm_words].
  rewrite (IH (length rest) ltac:(simpl; lia) _ rest eq_refl). unfold tail_bytes.
  cbn [length].
  replace (S (S (S (S (length rest)))) / 4)%nat with (S (length rest / 4)).
  2: { replace (S (S (S (S (length rest))))) with (length rest + 1 * 4)%nat by lia.
       rewrite Nat.div_add by lia. lia. }
  replace (4 * S (length rest / 4))%nat with (S (S (S (S (4 * (length rest / 4)))))) by lia.
  done.
Qed.

Lemma mm_tail_bound ch h data : in_u 32 h -> in_u 32 (mm_tail ch h data).
Proof.
  intros Hh. unfold mm_tail.
  destruct data as [|? [|? [|? [|? ?]]]]; try done; apply wrap_bound; lia.
Qed.

Lemma seed_bound seed n : in_u 32 seed -> in_u 32 (Z.lxor seed (u32 n)).
Proof. intros. apply lxor_in_u; [lia|done|]. apply wrap_bound. lia. Qed.

(** ASCII tail bytes are the same as signed and as unsigned characters. *)
Lemma mm_tail_ascii h data :
  Forall (fun b => 0 <= b < 128) data -> mm_tail s8 h data = mm_tail (fun b => b) h data.
Proof.
  intros Hf.
  assert (forall b, 0 <= b < 128 -> s8 b = b) as Hs.
  { intros. apply swrap_id; [lia|]. unfold in_s. simpl. lia. }
  unfold mm_tail. destruct data as [|b0 [|b1 [|b2 [|? ?]]]]; try done;
    repeat match goal with H : Forall _ (_ :: _) |- _ => inv H end;
    by rewrite ?Hs.
Qed.

Lemma hex_value_digit n : 0 <= n < 16 -> hex_value (tolower_if_upper (hex_digit n)) = n.
Proof.
  intros Hn.
  assert (n ∈ seqZ 0 16) as Hin by (apply elem_of_seqZ; lia).
  assert (Forall (fun n => hex_value (tolower_if_upper (hex_digit n)) = n) (seqZ 0 16))
    as Hall by by_decide.
  exact (proj1 (list.Forall_forall _ _) Hall n Hin).
Qed.

Lemma conv_raw_show_loop s index index' size msize :
  bytes s ->
  index' + 3 * Z.of_nat (length s) <= msize - 4 + 2 ->
  index + Z.of_nat (length s) <= size - 1 ->
  conv_raw_loop (conv_show_loop s index' msize) index size = s.
Proof.
  intros Hb. revert index index'. induction Hb as [|c s Hc Hb IH]; intros index index' H1 H2;
    [done|].
  cbn [length] in *. cbn [conv_show_loop].
  destruct (Z.ltb_spec index' (msize - 4)) as [_|]; [|lia]. cbn [conv_raw_loop app].
  destruct (Z.ltb_spec index (size - 1)) as [_|]; [|lia].
  rewrite (Z.eqb_refl chr_backslash), IH by lia.
  unfold byte, in_u in Hc. change (2 ^ 8) with 256 in Hc.
  rewrite !hex_value_digit;
    [|apply Z.mod_pos_bound; lia|split; [apply Z.div_pos|apply Z.div_lt_upper_bound]; lia].
  change 0xff with (Z.ones 8). rewrite Z.land_ones by lia.
  rewrite Z.mul_comm, <- Z.div_mod by lia. by rewrite Z.mod_small.
Qed.

(** The value of a string of digits, as [scan_number] computes it. *)
Definition digits_value (acc : Z) (ds : list Z) : Z :=
  foldl (fun n c => n * 10 + (c - chr_0)) acc ds.

Lemma scan_number_spec number s n r :
  scan_number number s = (n, r) <->
  exists ds, s = ds ++ r /\ Forall (fun c => is_digit c = true) ds
             /\ n = digits_value number ds
             /\ (forall c, head r = Some c -> is_digit c = false).
Proof.
  revert number. induction s as [|c s IH]; intros number; simpl.
  - split.
    + intros [= <- <-]. exists []. done.
    + intros (ds & E & _ & Hn & _). symmetry in E. apply app_nil in E as [-> ->]. by subst.
  - destruct (is_digit c) eqn:Ec.
    + rewrite IH. split.
      * intros (ds & -> & Hds & Hn & Hr). exists (c :: ds). split_and!; [done| |done|done].
        by constructor.
      * intros ([|c' ds] & E & Hds & Hn & Hr); simpl in *.
        { subst r. specialize (Hr c eq_refl). congruence. }
        injection E as -> ->. inv Hds. by exists ds.
    + split.
      * intros [= <- <-]. exists []. split_and!; [done|done|done|].
        simpl. by intros c' [= <-].
      * intros ([|c' ds] & E & Hds & Hn & Hr); simpl in *; [by subst|].
        injection E as -> ->. inv Hds. congruence.
Qed.

(** ** Properties *)

(** the two copies of MurmurHash2, the one that places a key in a bucket
    and the one of the in-memory hash table, compute the same 32-bit value
    for every key whose last [len mod 4] bytes are below 128. *)
Theorem cache_hash_agrees key :
  Forall (fun b => 0 <= b < 128) (tail_bytes key) ->
  cache_hash_map_hash key = mur_mur_hash key /\ in_u 32 (mur_mur_hash key).
Proof.
  intros Ht. unfold cache_hash_map_hash, mur_mur_hash, mur_mur_hash2.
  set (h := Z.lxor 97 _).
  assert (in_u 32 h) as Hh by (apply seed_bound; unfold in_u; lia).
  pose proof (mm_words_bound h key Hh) as Hb.
  pose proof (mm_words_tail h key) as E.
  destruct (mm_words h key) as [h' data]; simpl in *. subst data.
  rewrite mm_tail_ascii by done. split; [done|].
  by apply mm_final_bound, mm_tail_bound.
Qed.

Lemma cache_hash_agrees_witness :
  cache_hash_map_hash [1; 0; 107; 101; 121] = mur_mur_hash [1; 0; 107; 101; 121]
  /\ in_u 32 (mur_mur_hash [1; 0; 107; 101; 121]).
Proof. apply (cache_hash_agrees [1; 0; 107; 101; 121]). repeat constructor; lia. Defined.

(** The agreement does not extend to other keys: bytes of 128 and above in the
    last partial word are sign-extended by one copy only. *)
Example hash_tail_differs : cache_hash_map_hash [200] <> mur_mur_hash [200].
Proof. vm_compute. discriminate. Qed.

(** [conv_raw_string] undoes [conv_show_string]: a binary key printed as
    backslash-escaped hexadecimal is read back unchanged, for every byte
    string and any result buffer with room for it and its terminator. *)
Theorem conv_raw_show s size :
  bytes s -> Z.of_nat (length s) < size ->
  conv_raw_string (conv_show_string s None) size = s.
Proof.
  intros Hb Hs. unfold conv_raw_string, conv_show_string. simpl.
  apply conv_raw_show_loop; [done|lia|lia].
Qed.

Lemma conv_raw_show_witness :
  conv_raw_string (conv_show_string [0; 92; 171; 255] None) 5 = [0; 92; 171; 255].
Proof.
  apply conv_raw_show; [|simpl; lia].
  repeat constructor; unfold byte, in_u; simpl; lia.
Defined.

(** [get_time_range] accepts exactly the strings [<digits>-<digits>] whose
    two numbers are at most 24, and returns those numbers. *)
Theorem get_time_range_spec s a b :
  get_time_range s = Some (a, b) <->
  exists ds1 ds2,
    s = ds1 ++ chr_minus :: ds2 /\ ds1 <> [] /\ ds2 <> []
    /\ Forall (fun c => is_digit c = true) ds1 /\ Forall (fun c => is_digit c = true) ds2
    /\ a = digits_value 0 ds1 /\ b = digits_value 0 ds2 /\ a <= 24 /\ b <= 24.
Proof.
  unfold get_time_range. split.
  - case_decide as Hh; [done|]. destruct (scan_number 0 s) as [n r] eqn:E1.
    destruct (Z.ltb_spec 24 n) as [|Hn]; [done|].
    destruct r as [|c s']; [done|]. destruct (Z.eqb_spec c chr_minus) as [->|]; [|done].
    destruct (scan_number 0 s') as [n' r'] eqn:E2.
    case_decide as Hl; [done|].
    destruct (Z.ltb_spec 24 n') as [|Hn']; [done|]. simpl.
    case_bool_decide as Hr; [|done]. simpl. intros [= <- <-]. subst r'.
    apply scan_number_spec in E1 as (ds1 & -> & Hd1 & -> & _).
    apply scan_number_spec in E2 as (ds2 & -> & Hd2 & -> & _).
    rewrite app_nil_r in *. exists ds1, ds2. split_and!; try done.
    + by intros ->.
    + by intros ->.
  - intros (ds1 & ds2 & -> & Hne1 & Hne2 & Hd1 & Hd2 & -> & -> & Ha & Hb).
    rewrite decide_False.
    2: { destruct ds1; [done|]. simpl. intros [= ->]. by inv Hd1. }
    assert (scan_number 0 (ds1 ++ chr_minus :: ds2)
            = (digits_value 0 ds1, chr_minus :: ds2)) as ->.
    { apply scan_number_spec. exists ds1. split_and!; [done..|]. by intros c [= <-]. }
    destruct (Z.ltb_spec 24 (digits_value 0 ds1)); [lia|]. rewrite Z.eqb_refl.
    assert (scan_number 0 ds2 = (digits_value 0 ds2, [])) as ->.
    { apply scan_number_spec. exists ds2. rewrite app_nil_r. done. }
    rewrite decide_False by (destruct ds2; done).
    destruct (Z.ltb_spec 24 (digits_value 0 ds2)); [lia|]. done.
Qed.
