(* ===== verification/DataEntry.v ===== *)
(** * item_meta_info and data_entry (common/item_data_info.hpp,
      common/data_entry.hpp)

    A [data_entry] is a key or a value: a byte string with the flags and the
    metadata that travel with it.  [data] is [None] for the NULL pointer; a
    byte read through [char *] is converted with [s8], because plain [char]
    is signed. *)

From S2P Require Import Prelude DataBuffer Util.

(** ** Metadata *)

Record item_meta_info := mk_item_meta_info {
  magic : Z; checksum : Z; keysize : Z; mversion : Z; padsize : Z;
  valsize : Z; flag : Z; cdate : Z; mdate : Z; edate : Z
}.

Definition zero_meta : item_meta_info := mk_item_meta_info 0 0 0 0 0 0 0 0 0 0.

(** Every field holds a value of its declared width. *)
Definition meta_ok (m : item_meta_info) : Prop :=
  in_u 16 (magic m) /\ in_u 16 (checksum m) /\ in_u 16 (keysize m)
  /\ in_u 16 (mversion m) /\ in_u 32 (padsize m) /\ in_u 24 (valsize m)
  /\ in_u 8 (flag m) /\ in_u 32 (cdate m) /\ in_u 32 (mdate m) /\ in_u 32 (edate m).

#[export] Instance meta_ok_dec m : Decision (meta_ok m).
Proof. unfold meta_ok. apply _. Defined.

(** [item_meta_info::encode] *)
Definition meta_encode (m : item_meta_info) : writer := fun output =>
  let output := writeInt16 (magic m) output in
  let output := writeInt16 (checksum m) output in
  let output := writeInt16 (keysize m) output in
  let output := writeInt16 (mversion m) output in
  let output := writeInt32 (padsize m) output in
  let output := writeInt32 (valsize m) output in
  let output := writeInt8 (flag m) output in
  let output := writeInt32 (cdate m) output in
  let output := writeInt32 (mdate m) output in
  writeInt32 (edate m) output.

(** [item_meta_info::decode] *)
Definition meta_decode : reader item_meta_info :=
  let? magic := readInt16 in
  let? checksum := readInt16 in
  let? keysize := readInt16 in
  let? version := readInt16 in
  let? padsize := readInt32 in
  let? valsize := readInt32 in
  let? flag := readInt8 in
  let? cdate := readInt32 in
  let? mdate := readInt32 in
  let? edate := readInt32 in
  rret (mk_item_meta_info magic checksum keysize version padsize
          (Z.land valsize 0xFFFFFF) flag cdate mdate edate).

(** The bytes of the structure in memory (little-endian; [valsize] and [flag]
    share one 32-bit word), as [memcpy] moves them. *)
Definition le_split (n : nat) (z : Z) : list Z := rev (be_split n z).
Definition le_combine (l : list Z) : Z := be_combine_acc 0 (rev l).
Definition sizeof_item_meta_info : Z := 28.

Definition meta_raw (m : item_meta_info) : list Z :=
  le_split 2 (magic m) ++ le_split 2 (checksum m) ++ le_split 2 (keysize m)
  ++ le_split 2 (mversion m) ++ le_split 4 (padsize m)
  ++ le_split 4 (Z.lor (Z.shiftl (flag m) 24) (valsize m))
  ++ le_split 4 (cdate m) ++ le_split 4 (mdate m) ++ le_split 4 (edate m).

Definition raw_field (off n : nat) (l : list Z) : Z := le_combine (take n (drop off l)).

Definition meta_of_raw (l : list Z) : item_meta_info :=
  let word := raw_field 12 4 l in
  mk_item_meta_info (raw_field 0 2 l) (raw_field 2 2 l) (raw_field 4 2 l)
    (raw_field 6 2 l) (raw_field 8 4 l) (Z.land word 0xFFFFFF) (Z.shiftr word 24)
    (raw_field 16 4 l) (raw_field 20 4 l) (raw_field 24 4 l).

(** ** Entries *)

Record data_entry := mk_data_entry {
  size : Z;
  data : option (list Z);
  alloc : bool;
  hashcode : Z;
  has_merged : bool;
  has_meta_merged : bool;
  area : Z;
  server_flag : Z;
  data_meta : item_meta_info
}.

(** [data_entry()], through [init()] *)
Definition new_data_entry : data_entry :=
  mk_data_entry 0 None false 0 false false 0 0 zero_meta.

(** [free_data()]: besides the bytes it resets the hash code, the merged flag
    and the area. *)
Definition free_data (e : data_entry) : data_entry :=
  mk_data_entry 0 None false 0 false (has_meta_merged e) 0 (server_flag e) (data_meta e).

(** [set_data(new_data, new_size, alloc)] *)
Definition set_data (new_data : option (list Z)) (new_size : Z) (do_alloc : bool)
    (e : data_entry) : data_entry :=
  let e := free_data e in
  if do_alloc then
    if 0 <? new_size then
      let d := match new_data with
               | Some l => take (Z.to_nat new_size) l
               | None => replicate (Z.to_nat new_size) 0
               end in
      mk_data_entry new_size (Some d) true (hashcode e) (has_merged e)
        (has_meta_merged e) (area e) (server_flag e) (data_meta e)
    else e
  else
    mk_data_entry new_size new_data (alloc e) (hashcode e) (has_merged e)
      (has_meta_merged e) (area e) (server_flag e) (data_meta e).

(** [set_alloced_data(data, size)] *)
Definition set_alloced_data (d : list Z) (n : Z) (e : data_entry) : data_entry :=
  let e := free_data e in
  mk_data_entry n (Some d) true (hashcode e) (has_merged e)
    (has_meta_merged e) (area e) (server_flag e) (data_meta e).

(** The fields copied after [set_data] by the copy constructor, [operator=]
    and [clone]. *)
Definition copy_fields (entry e : data_entry) : data_entry :=
  mk_data_entry (size e) (data e) (alloc e) 0 (has_merged entry)
    (has_meta_merged entry) (area entry) (server_flag entry) (data_meta entry).

(** [data_entry(const data_entry&)] and [operator=] on distinct objects *)
Definition assign_data_entry (entry e : data_entry) : data_entry :=
  copy_fields entry (set_data (data entry) (size entry) (alloc entry) e).

(** [clone(entry)] *)
Definition clone (entry e : data_entry) : data_entry :=
  copy_fields entry (set_data (data entry) (size entry) true e).

(** [data_entry(data, size, alloc)] *)
Definition data_entry_of (l : list Z) : data_entry :=
  set_data (Some l) (Z.of_nat (length l)) true new_data_entry.

Definition get_data (e : data_entry) : list Z := default [] (data e).
Definition get_size (e : data_entry) : Z := size e.
Definition get_version (e : data_entry) : Z := mversion (data_meta e).
Definition is_alloc (e : data_entry) : bool := alloc e.
Definition encoded_size (e : data_entry) : Z := 40 + get_size e.

Definition set_meta (m : item_meta_info) (e : data_entry) : data_entry :=
  mk_data_entry (size e) (data e) (alloc e) (hashcode e) (has_merged e)
    (has_meta_merged e) (area e) (server_flag e) m.

Definition set_version (version : Z) (e : data_entry) : data_entry :=
  let m := data_meta e in
  set_meta (mk_item_meta_info (magic m) (checksum m) (keysize m) (u16 version)
              (padsize m) (valsize m) (flag m) (cdate m) (mdate m) (edate m)) e.

(** [get_hashcode()]: computed once and kept. *)
Definition get_hashcode (e : data_entry) : Z * data_entry :=
  match data e with
  | Some l =>
      if (hashcode e =? 0) && (0 <? size e) then
        let h := Z.lor (Z.shiftl (mhash1 l) 32) (mhash2 l) in
        (h, mk_data_entry (size e) (data e) (alloc e) h (has_merged e)
              (has_meta_merged e) (area e) (server_flag e) (data_meta e))
      else (hashcode e, e)
  | None => (hashcode e, e)
  end.

(** [memcmp(a, b, n)] as the sign of its result *)
Fixpoint memcmp (a b : list Z) (n : nat) : comparison :=
  match n, a, b with
  | S n', x :: a', y :: b' =>
      match x ?= y with Eq => memcmp a' b' n' | c => c end
  | _, _, _ => Eq
  end.

(** [operator<] *)
Definition entry_lt (a b : data_entry) : bool :=
  match data a, data b with
  | Some la, Some lb =>
      if (size a =? 0) || (size b =? 0) then false
      else
        match memcmp la lb (Z.to_nat (Z.min (size a) (size b))) with
        | Lt => true
        | Gt => false
        | Eq => size a <? size b
        end
  | _, _ => false
  end.

(** [operator==]; [same_ptr] is the test [data == entry.data] *)
Definition entry_eq (same_ptr : bool) (a b : data_entry) : bool :=
  if negb (size b =? size a) then false
  else if negb (eqb (has_merged a) (has_merged b)) then false
  else if negb (has_merged a) && negb (area a =? area b) then false
  else if same_ptr then true
  else
    match data a, data b with
    | Some la, Some lb =>
        match memcmp la lb (Z.to_nat (size a)) with Eq => true | _ => false end
    | _, _ => false
    end.

(** [merge_area(area)] *)
Definition merge_area (a : Z) (e : data_entry) : data_entry :=
  if has_merged e then e
  else if 0 <? size e then
    let new_data := [Z.land a 0xFF; Z.land (Z.shiftr a 8) 0xFF] ++ get_data e in
    let e := set_data (Some new_data) (size e + 2) true e in
    mk_data_entry (size e) (data e) (alloc e) (hashcode e) true
      (has_meta_merged e) (u32 a) (server_flag e) (data_meta e)
  else e.

(** [decode_area()]: the area and the entry without its prefix. *)
Definition decode_area (e : data_entry) : outcome (Z * data_entry) :=
  if has_merged e then
    assert! 2 <? size e in
    let d := get_data e in
    let target_area := s8 (nth 1 d 0) in
    let target_area := Z.shiftl target_area 8 in
    let target_area := Z.lor target_area (s8 (nth 0 d 0)) in
    let e := set_data (Some (drop 2 d)) (size e - 2) true e in
    Ret (target_area,
         mk_data_entry (size e) (data e) (alloc e) (hashcode e) false
           (has_meta_merged e) (u32 target_area) (server_flag e) (data_meta e))
  else Ret (s32 (area e), e).

(** [merge_meta()] *)
Definition merge_meta (e : data_entry) : data_entry :=
  if has_meta_merged e then e
  else if 0 <? size e then
    let new_data := meta_raw (data_meta e) ++ get_data e in
    let e := set_alloced_data new_data (size e + sizeof_item_meta_info) e in
    mk_data_entry (size e) (data e) (alloc e) (hashcode e) (has_merged e)
      true (area e) (server_flag e) (data_meta e)
  else e.

(** [decode_meta(force_decode)] *)
Definition decode_meta (force_decode : bool) (e : data_entry) : outcome data_entry :=
  if has_meta_merged e || force_decode then
    assert! sizeof_item_meta_info <? size e in
    let d := get_data e in
    let e' := set_alloced_data (drop 28 d) (size e - sizeof_item_meta_info) e in
    Ret (mk_data_entry (size e') (data e') (alloc e') (hashcode e') (has_merged e')
           false (area e') (server_flag e') (meta_of_raw d))
  else Ret e.

(** [data_entry::encode] *)
Definition entry_encode (e : data_entry) : writer := fun output =>
  let output := writeInt8 (Z.b2z (has_merged e)) output in
  let output := writeInt32 (area e) output in
  let output := writeInt16 (server_flag e) output in
  let output := meta_encode (data_meta e) output in
  let output := writeInt32 (get_size e) output in
  if 0 <? get_size e then writeBytes (get_data e) output else output.

(** [data_entry::decode] into the entry [e].  The local variable [area] hides
    the member: [area = area] assigns it to itself, so the member keeps the
    value [free_data] gave it.  A failed [readBytes] is not noticed and leaves
    the zeros of [set_data(NULL, size)]. *)
Definition entry_decode (e : data_entry) : reader data_entry :=
  let e := free_data e in
  let? temp_merged := readInt8 in
  let? _ := readInt32 in
  let? flag := readInt16 in
  let? meta := meta_decode in
  let e := set_meta meta e in
  let? sz := readInt32 in
  let sz := s32 sz in
  let finish (e : data_entry) : data_entry :=
    mk_data_entry (size e) (data e) (alloc e) (hashcode e) (negb (temp_merged =? 0))
      (has_meta_merged e) (area e) flag (data_meta e) in
  if 0 <? sz then
    let e := set_data None sz true e in
    let? r := readBytes sz in
    match r with
    | Some l => rret (finish (mk_data_entry (size e) (Some l) (alloc e) (hashcode e)
                        (has_merged e) (has_meta_merged e) (area e) (server_flag e)
                        (data_meta e)))
    | None => rret (finish e)
    end
  else rret (finish e).

(** ** value_entry *)
Record value_entry := mk_value_entry {
  d_entry : data_entry; ventry_version : Z; ventry_expire : Z
}.
Definition value_entry_encode (v : value_entry) : writer := fun output =>
  let output := entry_encode (d_entry v) output in
  let output := writeInt16 (ventry_version v) output in
  writeInt32 (ventry_expire v) output.
Definition value_entry_decode (v : value_entry) : reader value_entry :=
  let? d := entry_decode (d_entry v) in
  let? version := readInt16 in
  let? expire := readInt32 in
  rret (mk_value_entry d version (s32 expire)).
Definition value_entry_get_size (v : value_entry) : Z := get_size (d_entry v) + 2 + 4.

(** An entry as the rest of the program builds it: [size] is the number of
    bytes, which are bytes, and every field is in range. *)
Definition entry_ok (e : data_entry) : Prop :=
  size e = Z.of_nat (length (get_data e)) /\ size e < 2 ^ 31 /\ bytes (get_data e)
  /\ in_u 32 (area e) /\ in_u 16 (server_flag e) /\ meta_ok (data_meta e).

#[export] Instance entry_ok_dec e : Decision (entry_ok e).
Proof. unfold entry_ok. apply _. Defined.

(** ** Wire form *)

Definition meta_bytes (m : item_meta_info) : list Z :=
  be_split 2 (magic m) ++ be_split 2 (checksum m) ++ be_split 2 (keysize m)
  ++ be_split 2 (mversion m) ++ be_split 4 (padsize m) ++ be_split 4 (valsize m)
  ++ [u8 (flag m)] ++ be_split 4 (cdate m) ++ be_split 4 (mdate m)
  ++ be_split 4 (edate m) ++ [].

Lemma emits_meta m : emits (meta_encode m) (meta_bytes m).
Proof.
  unfold meta_encode. eapply emits_eq; [emit_tac|].
  unfold meta_bytes. by rewrite app_nil_r, <- !app_assoc.
Qed.

Lemma land_ones24 z : in_u 24 z -> Z.land z 0xFFFFFF = z.
Proof.
  intros Hz. change 0xFFFFFF with (Z.ones 24). rewrite Z.land_ones by lia.
  by apply wrap_id.
Qed.

Lemma parses_meta m : meta_ok m -> parses meta_decode (meta_bytes m) m.
Proof.
  intros Hok. unfold meta_decode, meta_bytes. parse_tac.
  destruct Hok as (?&?&?&?&?&Hv&?&?&?&?). destruct m; simpl in *.
  rewrite !wrap_id by first [done | unfold in_u in *; lia].
  by rewrite land_ones24.
Qed.

(** What is on the wire for an entry. *)
Definition entry_bytes (e : data_entry) : list Z :=
  [u8 (Z.b2z (has_merged e))] ++ be_split 4 (area e) ++ be_split 2 (server_flag e)
  ++ meta_bytes (data_meta e) ++ be_split 4 (size e)
  ++ (if 0 <? size e then get_data e else []) ++ [].

Lemma emits_entry e : emits (entry_encode e) (entry_bytes e).
Proof.
  unfold entry_encode, entry_bytes, get_size.
  pose proof emits_meta. destruct (0 <? size e).
  - eapply emits_eq; [emit_tac|]. by rewrite app_nil_r, <- !app_assoc.
  - eapply emits_eq; [emit_tac|]. by rewrite !app_nil_r, <- !app_assoc.
Qed.

(** The entry the receiver [e0] holds after decoding what [e] was sent as: the
    bytes, the merged flag, the server flag and the metadata of [e]; its area
    is 0, whatever it was. *)
Definition received (e e0 : data_entry) : data_entry :=
  mk_data_entry (size e) (if 0 <? size e then Some (get_data e) else None)
    (0 <? size e) 0 (has_merged e) (has_meta_merged e0) 0 (server_flag e) (data_meta e).

Lemma entry_size_s32 e : entry_ok e -> s32 (u32 (size e)) = size e.
Proof.
  intros (Hs & Hlt & _). rewrite swrap_wrap. apply swrap_id; [lia|].
  unfold in_s. lia.
Qed.

Lemma parses_entry e e0 : entry_ok e -> parses (entry_decode e0) (entry_bytes e) (received e e0).
Proof.
  intros Hok. pose proof (entry_size_s32 e Hok) as Hsz.
  destruct Hok as (Hs & Hlt & Hb & Ha & Hf & Hm).
  pose proof (parses_meta (data_meta e) Hm) as Hpm.
  unfold entry_decode, entry_bytes. do 5 parse_step. rewrite Hsz.
  assert ((u8 (Z.b2z (has_merged e)) =? 0) = negb (has_merged e)) as Hmg
    by by destruct (has_merged e).
  assert (u16 (server_flag e) = server_flag e) as Hsf by by apply wrap_id.
  unfold received. destruct (Z.ltb_spec 0 (size e)) as [Hpos|Hneg].
  - eapply parses_bind.
    { rewrite Hs. apply parses_readBytes. }
    simpl. destruct (Z.ltb_spec 0 (size e)); [|lia]. parse_tac. simpl.
    by rewrite Hmg, negb_involutive, Hsf.
  - parse_tac. simpl. rewrite Hmg, negb_involutive, Hsf.
    f_equal. lia.
Qed.

#[export] Hint Resolve emits_meta emits_entry : tair.

(** ** Area and metadata prefixes *)

Lemma land_ff z : Z.land z 0xFF = z mod 256.
Proof. change 0xFF with (Z.ones 8). by rewrite Z.land_ones. Qed.

Lemma s8_small b : 0 <= b < 128 -> s8 b = b.
Proof. intros. apply swrap_id; [lia|]. unfold in_s. simpl. lia. Qed.

Lemma s8_large b : 128 <= b < 256 -> s8 b = b - 256.
Proof.
  intros. unfold swrap. change (2 ^ (8 - 1)) with 128. change (2 ^ 8) with 256.
  rewrite <- (Z.mod_unique (b + 128) 256 1 (b - 128)); lia.
Qed.

Lemma get_data_mk n l al h hm hmm a sf m :
  get_data (mk_data_entry n (Some l) al h hm hmm a sf m) = l.
Proof. done. Qed.

(** [set_data] with a buffer of exactly the given size. *)
Lemma set_data_whole l e :
  l <> [] ->
  set_data (Some l) (Z.of_nat (length l)) true e =
  mk_data_entry (Z.of_nat (length l)) (Some l) true 0 false (has_meta_merged e) 0
    (server_flag e) (data_meta e).
Proof.
  intros Hl. unfold set_data. destruct (Z.ltb_spec 0 (Z.of_nat (length l))).
  - by rewrite Nat2Z.id, firstn_all.
  - destruct l; [done|simpl in *; lia].
Qed.

Lemma le_split_combine n z : le_combine (le_split n z) = wrap (8 * Z.of_nat n) z.
Proof. unfold le_combine, le_split. by rewrite rev_involutive, be_combine_be_split. Qed.

Lemma length_le_split n z : length (le_split n z) = n.
Proof. unfold le_split. by rewrite length_rev, length_be_split. Qed.

(** Reading a field: skip the chunks before it, then take it. *)
Lemma raw_field_skip off k n z l :
  (k <= off)%nat -> raw_field off n (le_split k z ++ l) = raw_field (off - k) n l.
Proof.
  intros. unfold raw_field. rewrite drop_app_ge by (rewrite length_le_split; lia).
  by rewrite length_le_split.
Qed.

Lemma raw_field_here n z l : raw_field 0 n (le_split n z ++ l) = wrap (8 * Z.of_nat n) z.
Proof.
  unfold raw_field. rewrite drop_0, <- (length_le_split n z) at 1.
  by rewrite take_app_length, le_split_combine.
Qed.

Lemma meta_raw_roundtrip m rest : meta_ok m -> meta_of_raw (meta_raw m ++ rest) = m.
Proof.
  intros (H1&H2&H3&H4&H5&Hv&Hf&H8&H9&H10).
  assert (Z.lor (Z.shiftl (flag m) 24) (valsize m) = flag m * 2 ^ 24 + valsize m) as Hw
    by (apply lor_shiftl_add; [lia|done]).
  assert (in_u 32 (flag m * 2 ^ 24 + valsize m)) as Hwb by (unfold in_u in *; lia).
  unfold meta_of_raw, meta_raw. rewrite <- !app_assoc, Hw.
  repeat match goal with
  | |- context [raw_field (S ?o) ?n (le_split ?k ?z ++ ?l)] =>
      rewrite (raw_field_skip (S o) k n z l) by lia; simpl Nat.sub
  end. rewrite !raw_field_here.
  rewrite !wrap_id by done.
  change 0xFFFFFF with (Z.ones 24). rewrite Z.land_ones, Z.shiftr_div_pow2 by lia.
  rewrite (Z.add_comm (flag m * 2 ^ 24)), Z.mod_add, Z.div_add by lia.
  unfold in_u in Hv. rewrite Z.mod_small, Z.div_small by done. by destruct m.
Qed.

Lemma length_meta_raw m : length (meta_raw m) = 28%nat.
Proof. unfold meta_raw. by rewrite !length_app, !length_le_split. Qed.

(** ** Order of entries *)

Lemma memcmp_refl l n : memcmp l l n = Eq.
Proof.
  revert l. induction n as [|n IH]; intros [|x l]; simpl; try done.
  by rewrite Z.compare_refl.
Qed.

(** The lexicographic order the comparison computes. *)
Fixpoint lex_lt (a b : list Z) : Prop :=
  match a, b with
  | _, [] => False
  | [], _ :: _ => True
  | x :: a', y :: b' => x < y \/ (x = y /\ lex_lt a' b')
  end.

Lemma memcmp_lex a b :
  match memcmp a b (Nat.min (length a) (length b)) with
  | Lt => True
  | Gt => False
  | Eq => (length a < length b)%nat
  end <-> lex_lt a b.
Proof.
  revert b. induction a as [|x a IH]; intros [|y b]; simpl; try lia.
  specialize (IH b). destruct (Z.compare_spec x y).
  - subst. transitivity (lex_lt a b); [|intuition lia].
    rewrite <- IH. destruct (memcmp a b _); lia.
  - lia.
  - lia.
Qed.

Lemma entry_lt_lex a b :
  size a = Z.of_nat (length (get_data a)) -> size b = Z.of_nat (length (get_data b)) ->
  get_data a <> [] -> get_data b <> [] ->
  entry_lt a b = true <-> lex_lt (get_data a) (get_data b).
Proof.
  unfold entry_lt, get_data. intros Ha Hb Hna Hnb.
  destruct (data a) as [la|], (data b) as [lb|]; simpl in *; try done.
  rewrite Ha, Hb, <- memcmp_lex, <- Nat2Z.inj_min, Nat2Z.id.
  destruct (Z.eqb_spec (Z.of_nat (length la)) 0);
    [destruct la; [done|simpl in *; lia]|].
  destruct (Z.eqb_spec (Z.of_nat (length lb)) 0);
    [destruct lb; [done|simpl in *; lia]|]. simpl.
  destruct (memcmp la lb _); [|done|done].
  rewrite Z.ltb_lt. lia.
Qed.

Lemma lex_lt_irrefl a : ~ lex_lt a a.
Proof. induction a as [|x a IH]; simpl; [auto|]. intros [?|[_ ?]]; [lia|auto]. Qed.

Lemma lex_lt_trans a b c : lex_lt a b -> lex_lt b c -> lex_lt a c.
Proof.
  revert b c. induction a as [|x a IH]; intros [|y b] [|z c]; simpl; try tauto.
  intros [?|[-> ?]] [?|[-> ?]]; [left; lia|left; lia|left; lia|right; eauto].
Qed.

Lemma lex_lt_total a b : lex_lt a b \/ a = b \/ lex_lt b a.
Proof.
  revert b. induction a as [|x a IH]; intros [|y b]; simpl; auto.
  destruct (Z.lt_trichotomy x y) as [?|[->|?]]; [auto| |auto].
  destruct (IH b) as [?|[->|?]]; auto.
Qed.

(** ** Properties *)

(** C16: a [data_entry] sent and received: what [encode] appends to any buffer,
    [decode] takes off any buffer that holds it first, into an entry with the
    size, the bytes, [has_merged], the server flag and the metadata of the one
    sent.  The rest is not sent: the area and the hash code are 0 in the
    receiver, [has_meta_merged] is what it was there, and the bytes are memory
    of its own. *)
Theorem entry_roundtrip e e0 :
  entry_ok e -> roundtrip (entry_encode e) (entry_decode e0) (received e e0).
Proof.
  intros Hok. exists (entry_bytes e). split; [apply emits_entry|by apply parses_entry].
Qed.

Definition sample_entry : data_entry := merge_area 3 (data_entry_of [107; 101; 121]).

Lemma entry_roundtrip_witness :
  area sample_entry = 3 /\
  roundtrip (entry_encode sample_entry) (entry_decode new_data_entry)
            (received sample_entry new_data_entry).
Proof.
  split; [reflexivity|]. apply entry_roundtrip.
  by_decide.
Defined.

(** the two-byte area prefix of a key.  [decode_area] after [merge_area]
    always restores the bytes of the key, and restores the area exactly when
    its low byte is below 128 (the bytes are read as signed characters). *)
Theorem decode_area_merge_area a e :
  0 <= a < 1024 -> has_merged e = false -> 0 < size e ->
  size e = Z.of_nat (length (get_data e)) ->
  exists a' e',
    decode_area (merge_area a e) = Ret (a', e')
    /\ get_data e' = get_data e /\ size e' = size e /\ has_merged e' = false
    /\ (a' = a <-> a mod 256 < 128).
Proof.
  intros Ha Hm Hpos Hs. unfold merge_area. rewrite Hm, land_ff, land_ff.
  destruct (Z.ltb_spec 0 (size e)); [|lia].
  assert (get_data e <> []) by (destruct (get_data e); [simpl in *; lia|done]).
  replace (size e + 2)
    with (Z.of_nat (length ([a mod 256; (Z.shiftr a 8) mod 256] ++ get_data e)))
    by (simpl; lia).
  rewrite set_data_whole by done. unfold decode_area. cbn [has_merged size].
  destruct (Z.ltb_spec 2 (Z.of_nat (length ([a mod 256; (Z.shiftr a 8) mod 256] ++ get_data e))));
    [|simpl in *; lia].
  cbn [oassert data alloc hashcode has_meta_merged area server_flag data_meta].
  rewrite get_data_mk. cbn [nth drop app].
  eexists _, _. split; [reflexivity|].
  replace (Z.of_nat _ - 2) with (Z.of_nat (length (get_data e))) by (simpl; lia).
  rewrite set_data_whole by done. cbn [size data has_merged]. rewrite get_data_mk.
  split_and!; try done.
  rewrite Z.shiftr_div_pow2 by lia. change (2 ^ 8) with 256.
  rewrite (Z.mod_small (a / 256))
    by (split; [apply Z.div_pos|apply Z.div_lt_upper_bound]; lia).
  assert (0 <= a / 256 < 4) by (split; [apply Z.div_pos|apply Z.div_lt_upper_bound]; lia).
  rewrite (s8_small (a / 256)) by lia.
  pose proof (Z.mod_pos_bound a 256 ltac:(lia)). pose proof (Z.div_mod a 256 ltac:(lia)).
  split.
  - intros Heq. destruct (Z.lt_ge_cases (a mod 256) 128) as [?|Hge]; [done|exfalso].
    rewrite (s8_large (a mod 256)) in Heq by lia.
    assert (Z.lor (Z.shiftl (a / 256) 8) (a mod 256 - 256) < 0); [|lia].
    apply Z.lor_neg. right. lia.
  - intros Hlt. rewrite (s8_small (a mod 256)) by lia.
    rewrite shiftl_lor_u8 by (unfold byte, in_u; lia). lia.
Qed.

Lemma decode_area_merge_area_witness :
  exists a' e', decode_area (merge_area 200 (data_entry_of [107])) = Ret (a', e')
    /\ get_data e' = [107] /\ size e' = 1 /\ has_merged e' = false
    /\ (a' = 200 <-> 200 mod 256 < 128).
Proof. apply (decode_area_merge_area 200 (data_entry_of [107])); vm_compute; try done. Defined.

(** [decode_meta] undoes [merge_meta]: the metadata structure copied in
    front of the value comes back field for field, and the value's bytes are
    the original ones; the area and the merged flag are lost on the way. *)
Theorem decode_meta_merge_meta e :
  has_meta_merged e = false -> 0 < size e ->
  size e = Z.of_nat (length (get_data e)) -> meta_ok (data_meta e) ->
  decode_meta false (merge_meta e) =
    Ret (mk_data_entry (size e) (Some (get_data e)) true 0 false false 0
           (server_flag e) (data_meta e)).
Proof.
  intros Hm Hpos Hs Hok. unfold merge_meta. rewrite Hm.
  destruct (Z.ltb_spec 0 (size e)); [|lia].
  unfold decode_meta, set_alloced_data, sizeof_item_meta_info.
  cbn [has_meta_merged orb size data alloc hashcode has_merged area server_flag data_meta].
  destruct (Z.ltb_spec 28 (size e + 28)); [|lia]. cbn [oassert].
  rewrite get_data_mk, meta_raw_roundtrip by done.
  pose proof (length_meta_raw (data_meta e)) as Hl.
  replace (drop 28 (meta_raw (data_meta e) ++ get_data e)) with (get_data e)
    by (rewrite <- Hl, drop_app_length; done).
  simpl. do 2 f_equal. lia.
Qed.

Lemma decode_meta_merge_meta_witness :
  exists r, decode_meta false (merge_meta (data_entry_of [5; 6])) = Ret r /\ get_data r = [5; 6].
Proof.
  eexists. split; [apply decode_meta_merge_meta|]; try (vm_compute; done).
Defined.

(** the order used by the key sets ([tair_dataentry_set]) is a strict
    total order on non-empty keys, namely the lexicographic order of their
    bytes: exactly one of [a < b], equal bytes, [b < a] holds, and it is
    transitive. *)
Theorem entry_lt_strict_total a b c :
  (forall e, e ∈ [a; b; c] ->
     size e = Z.of_nat (length (get_data e)) /\ get_data e <> []) ->
  entry_lt a a = false
  /\ (entry_lt a b = true \/ get_data a = get_data b \/ entry_lt b a = true)
  /\ (get_data a = get_data b -> entry_lt a b = false)
  /\ (entry_lt a b = true -> entry_lt b c = true -> entry_lt a c = true).
Proof.
  intros H.
  assert (forall x y, x ∈ [a; b; c] -> y ∈ [a; b; c] ->
            entry_lt x y = true <-> lex_lt (get_data x) (get_data y)) as Hlex.
  { intros x y Hx Hy. destruct (H x Hx), (H y Hy). by apply entry_lt_lex. }
  assert (a ∈ [a; b; c]) by repeat constructor. assert (b ∈ [a; b; c]) by repeat constructor.
  assert (c ∈ [a; b; c]) by repeat constructor.
  split_and!.
  - apply not_true_is_false. rewrite Hlex by done. apply lex_lt_irrefl.
  - rewrite !Hlex by done. apply lex_lt_total.
  - intros E. apply not_true_is_false. rewrite Hlex, E by done. apply lex_lt_irrefl.
  - rewrite !Hlex by done. apply lex_lt_trans.
Qed.

Lemma entry_lt_strict_total_witness :
  entry_lt (data_entry_of [1]) (data_entry_of [1; 2]) = true
  /\ entry_lt (data_entry_of [1]) (data_entry_of [1]) = false.
Proof.
  split; [reflexivity|].
  apply (entry_lt_strict_total (data_entry_of [1]) (data_entry_of [1; 2]) (data_entry_of [3])).
  intros e He. repeat (apply elem_of_cons in He as [->|He]); [by split..|by apply elem_of_nil in He].
Defined.

(** An empty key is not ordered with respect to any other one, so that a set
    holding it takes every other key for a duplicate of it. *)
Example empty_key_incomparable :
  entry_lt new_data_entry (data_entry_of [1]) = false
  /\ entry_lt (data_entry_of [1]) new_data_entry = false.
Proof. split; reflexivity. Qed.
