(* ===== verification/BasePacket.v ===== *)
(** * base_packet (packets/base_packet.hpp)

    The macros with which the packets write and read their fields, and the
    interface [Packet] every packet type implements: encode, decode, and the
    law that what was encoded is decoded back.  The stream layer is proved
    against this interface only. *)

From S2P Require Import Prelude DataBuffer DataEntry.

(** ** Writing macros *)

(** [CREATE_HEADER] *)
Definition CREATE_HEADER (server_flag area : Z) : writer := fun output =>
  writeInt16 area (writeInt8 server_flag output).

(** [PUT_DATAENTRY_TO_BUFFER] (and [PUT_PDATAENTRY_TO_BUFFER]) *)
Definition PUT_DATAENTRY (key : data_entry) : writer := fun output =>
  writeBytes (get_data key) (writeInt32 (get_size key) output).

(** [PUT_DATAVECTOR_TO_BUFFER] *)
Definition PUT_DATAVECTOR (values : list data_entry) : writer := fun output =>
  write_all PUT_DATAENTRY values (writeInt32 (Z.of_nat (length values)) output).

(** [PUT_DOUBLE_TO_BUFFER]: a [double] is the number its 64 bits stand for;
    [memcpy] copies them in the byte order of the host, the low byte first. *)
Definition PUT_DOUBLE (score : Z) : writer := writeBytes (le_split 8 score).

(** [RESPONSE_VALUES_MAXSIZE], and the guard of a packet's encode that returns
    false before it writes anything *)
Definition RESPONSE_VALUES_MAXSIZE : Z := 32767.

(** ** Reading macros: [return false] when too few bytes are left *)

Definition too_few (n : Z) (input : databuffer) : bool :=
  Z.of_nat (getDataLen input) <? n.

Definition GETKEY_INT16 : reader Z := reject_if (too_few 2) readInt16.
Definition GETKEY_INT32 : reader Z := reject_if (too_few 4) readInt32.
Definition GETKEY_INT64 : reader Z := reject_if (too_few 8) readInt64.

(** [GETKEY_FROM_DOUBLE]; the result of [readBytes] is not looked at, and the
    bytes are there. *)
Definition GETKEY_DOUBLE : reader Z := reject_if (too_few 8) (
  let? r := readBytes 8 in
  rret (le_combine (default [] r))).

(** [GETKEY_FROM_DATAENTRY] into the entry [key] (and [GETKEY_FROM_PDATAENTRY]
    into a new one) *)
Definition GETKEY_DATAENTRY (key : data_entry) : reader data_entry :=
  reject_if (too_few 4) (
    let? w := readInt32 in
    let len := s32 w in
    reject_if (fun input => (len <? 0) || too_few len input) (
      let key := set_data None len true key in
      let? r := readBytes len in
      match r with
      | None => rfail
      | Some l =>
          rret (mk_data_entry (size key) (if 0 <? len then Some l else None) (alloc key)
                  (hashcode key) (has_merged key) (has_meta_merged key) (area key)
                  (server_flag key) (data_meta key))
      end)).

(** The loop of [GETKEY_FROM_DATAVECTOR]: empty entries are skipped; a length
    is not checked to be non-negative before [readBytes]. *)
Fixpoint getkey_datavector_loop (n : nat) : reader (list data_entry) :=
  match n with
  | O => rret []
  | S n' =>
      reject_if (too_few 4) (
        let? w := readInt32 in
        let dlen := s32 w in
        if dlen =? 0 then getkey_datavector_loop n'
        else
          let entry := set_data None dlen true new_data_entry in
          let? r := readBytes dlen in
          match r with
          | None => rfail
          | Some l =>
              let entry := mk_data_entry (size entry) (Some l) (alloc entry)
                             (hashcode entry) (has_merged entry) (has_meta_merged entry)
                             (area entry) (server_flag entry) (data_meta entry) in
              let? rest := getkey_datavector_loop n' in
              rret (entry :: rest)
          end)
  end.

(** [GETKEY_FROM_DATAVECTOR] *)
Definition GETKEY_DATAVECTOR : reader (list data_entry) :=
  reject_if (too_few 4) (
    let? w := readInt32 in
    getkey_datavector_loop (Z.to_nat (s32 w))).

(** [if (header->_dataLen < n) return false;] *)
Definition datalen_check {A} (n dataLen : Z) (k : reader A) : reader A :=
  reject_if (fun _ => dataLen <? n) k.

(** [HEADER_VERIFY]: the server flag and the area *)
Definition HEADER_VERIFY (dataLen : Z) : reader (Z * Z) :=
  datalen_check 3 dataLen (
    let? server_flag := readInt8 in
    let? area := readInt16 in
    rret (server_flag, area)).

(** ** What the macros put on the wire *)

Definition plain_bytes (e : data_entry) : list Z :=
  be_split 4 (size e) ++ get_data e.

Definition vector_bytes (values : list data_entry) : list Z :=
  be_split 4 (Z.of_nat (length values)) ++ concat (map plain_bytes values).

(** The entry a receiver gets for one sent with [PUT_DATAENTRY]: the bytes,
    and nothing else. *)
Definition plain (e : data_entry) : data_entry := data_entry_of (get_data e).

(** An entry sent by the macros: its size is the number of its bytes. *)
Definition plain_ok (e : data_entry) : Prop :=
  size e = Z.of_nat (length (get_data e)) /\ size e < 2 ^ 31.

#[export] Instance plain_ok_dec e : Decision (plain_ok e).
Proof. unfold plain_ok. apply _. Defined.

Definition vector_ok (values : list data_entry) : Prop :=
  Forall (fun e => plain_ok e /\ 0 < size e) values /\ Z.of_nat (length values) < 2 ^ 31.

#[export] Instance vector_ok_dec v : Decision (vector_ok v).
Proof. unfold vector_ok. apply _. Defined.

Lemma emits_CREATE_HEADER sf a : emits (CREATE_HEADER sf a) ([u8 sf] ++ be_split 2 a).
Proof. unfold CREATE_HEADER. emit_tac. Qed.

Lemma emits_PUT_DATAENTRY e : emits (PUT_DATAENTRY e) (plain_bytes e).
Proof. unfold PUT_DATAENTRY. emit_tac. Qed.

Lemma emits_PUT_DATAVECTOR v : emits (PUT_DATAVECTOR v) (vector_bytes v).
Proof.
  unfold PUT_DATAVECTOR.
  apply (emits_seq (writeInt32 (Z.of_nat (length v))) (write_all PUT_DATAENTRY v));
    [apply emits_writeInt32|].
  apply emits_write_all. intros; apply emits_PUT_DATAENTRY.
Qed.

(** Guards pass when the bytes are there. *)
Lemma too_few_false n b l rest :
  wf b -> content b = l ++ rest -> n <= Z.of_nat (length l) -> too_few n b = false.
Proof.
  intros Hwf Hc Hn. unfold too_few. rewrite (getDataLen_content b Hwf), Hc, length_app.
  apply Z.ltb_ge. lia.
Qed.

Lemma parses_too_few {A} n (k : reader A) l a :
  n <= Z.of_nat (length l) -> parses k l a -> parses (reject_if (too_few n) k) l a.
Proof. intros Hn. apply parses_guard. intros b rest Hwf Hc. by eapply too_few_false. Qed.

Lemma parses_datalen {A} n dataLen (k : reader A) l a :
  n <= dataLen -> parses k l a -> parses (datalen_check n dataLen k) l a.
Proof. intros Hn. apply parses_guard. intros. by apply Z.ltb_ge. Qed.

Lemma parses_GETKEY_INT16 z : parses GETKEY_INT16 (be_split 2 z) (u16 z).
Proof. apply parses_too_few; [by rewrite length_be_split|auto with tair]. Qed.
Lemma parses_GETKEY_INT32 z : parses GETKEY_INT32 (be_split 4 z) (u32 z).
Proof. apply parses_too_few; [by rewrite length_be_split|auto with tair]. Qed.
Lemma parses_GETKEY_INT64 z : parses GETKEY_INT64 (be_split 8 z) (u64 z).
Proof. apply parses_too_few; [by rewrite length_be_split|auto with tair]. Qed.

Lemma parses_HEADER_VERIFY dataLen sf a :
  3 <= dataLen -> parses (HEADER_VERIFY dataLen) ([u8 sf] ++ be_split 2 a) (u8 sf, u16 a).
Proof.
  intros Hd. apply parses_datalen; [done|].
  eapply parses_eq; [parse_tac; reflexivity|by rewrite app_nil_r|done].
Qed.

Lemma s32_u32 z : in_s 32 z -> s32 (u32 z) = z.
Proof. intros. rewrite swrap_wrap. apply swrap_id; [lia|done]. Qed.
Lemma s64_u64 z : in_s 64 z -> s64 (u64 z) = z.
Proof. intros. rewrite swrap_wrap. apply swrap_id; [lia|done]. Qed.

Lemma plain_size e : plain_ok e -> s32 (u32 (size e)) = size e.
Proof. intros [Hs Hl]. apply s32_u32. unfold in_s. lia. Qed.

Lemma data_entry_of_mk l :
  data_entry_of l =
  mk_data_entry (Z.of_nat (length l)) (if 0 <? Z.of_nat (length l) then Some l else None)
    (0 <? Z.of_nat (length l)) 0 false false 0 0 zero_meta.
Proof.
  unfold data_entry_of, set_data. destruct (Z.ltb_spec 0 (Z.of_nat (length l))).
  - by rewrite Nat2Z.id, firstn_all.
  - destruct l; [done|simpl in *; lia].
Qed.

(** The entry the reading macros make of the bytes. *)
Lemma plain_of_read e :
  size e = Z.of_nat (length (get_data e)) ->
  let key := set_data None (size e) true new_data_entry in
  mk_data_entry (size key) (if 0 <? size e then Some (get_data e) else None) (alloc key)
    (hashcode key) (has_merged key) (has_meta_merged key) (area key)
    (server_flag key) (data_meta key) = plain e.
Proof.
  intros Hs. unfold plain. rewrite data_entry_of_mk. unfold set_data. rewrite <- Hs.
  destruct (Z.ltb_spec 0 (size e)); simpl; [done|]. f_equal. lia.
Qed.

Lemma parses_GETKEY_DATAENTRY e :
  plain_ok e -> parses (GETKEY_DATAENTRY new_data_entry) (plain_bytes e) (plain e).
Proof.
  intros Hok. pose proof (plain_size e Hok) as Hsz. destruct Hok as [Hs Hl].
  unfold GETKEY_DATAENTRY, plain_bytes. apply parses_too_few.
  { rewrite length_app, length_be_split. lia. }
  eapply parses_bind; [auto with tair|]. cbv zeta beta. rewrite Hsz.
  apply parses_guard.
  { intros b rest Hwf Hc. rewrite (too_few_false _ _ _ _ Hwf Hc) by lia.
    rewrite orb_false_r. apply Z.ltb_ge. lia. }
  eapply parses_eq; [eapply parses_bind; [rewrite Hs; apply parses_readBytes|]
                    |by rewrite app_nil_r|reflexivity].
  simpl. eapply parses_eq; [apply parses_ret|done|]. by apply plain_of_read.
Qed.

Lemma parses_datavector_loop v :
  Forall (fun e => plain_ok e /\ 0 < size e) v ->
  parses (getkey_datavector_loop (length v)) (concat (map plain_bytes v)) (map plain v).
Proof.
  induction 1 as [|e v [Hok Hpos] Hv IH]; [apply parses_ret|].
  cbn [length getkey_datavector_loop map concat].
  pose proof (plain_size e Hok) as Hsz. destruct Hok as [Hs Hl].
  apply parses_too_few.
  { unfold plain_bytes. rewrite !length_app, length_be_split. lia. }
  unfold plain_bytes at 1. rewrite <- app_assoc.
  eapply parses_bind; [auto with tair|]. cbv zeta beta. rewrite Hsz.
  destruct (Z.eqb_spec (size e) 0); [lia|].
  eapply parses_bind; [rewrite Hs at 1; apply parses_readBytes|]. cbv zeta beta.
  eapply parses_eq; [eapply parses_bind; [exact IH|apply parses_ret]|by rewrite app_nil_r|].
  f_equal. unfold plain. rewrite data_entry_of_mk. unfold set_data. rewrite <- Hs.
  by destruct (Z.ltb_spec 0 (size e)); [|lia].
Qed.

Lemma parses_GETKEY_DATAVECTOR v :
  vector_ok v -> parses GETKEY_DATAVECTOR (vector_bytes v) (map plain v).
Proof.
  intros [Hv Hl]. unfold GETKEY_DATAVECTOR, vector_bytes. apply parses_too_few.
  { rewrite length_app, length_be_split. lia. }
  eapply parses_bind; [auto with tair|]. cbv beta.
  rewrite s32_u32 by (unfold in_s; lia). rewrite Nat2Z.id. by apply parses_datavector_loop.
Qed.

Lemma emits_PUT_DOUBLE z : emits (PUT_DOUBLE z) (le_split 8 z).
Proof. apply emits_writeBytes. Qed.

Lemma parses_GETKEY_DOUBLE z : parses GETKEY_DOUBLE (le_split 8 z) (u64 z).
Proof.
  unfold GETKEY_DOUBLE. apply parses_too_few; [by rewrite length_le_split|].
  eapply parses_eq; [eapply parses_bind|apply app_nil_r|].
  - pose proof (parses_readBytes (le_split 8 z)) as H. rewrite length_le_split in H. exact H.
  - apply parses_ret.
  - apply le_split_combine.
Qed.

#[export] Hint Resolve emits_PUT_DOUBLE parses_GETKEY_DOUBLE : tair.
#[export] Hint Resolve emits_CREATE_HEADER emits_PUT_DATAENTRY emits_PUT_DATAVECTOR : tair.
#[export] Hint Resolve parses_GETKEY_INT16 parses_GETKEY_INT32 parses_GETKEY_INT64
  parses_GETKEY_DATAENTRY parses_GETKEY_DATAVECTOR : tair.

(** ** The interface of a packet type

    [p_encode] returns [None] when it asserts, and otherwise the boolean
    result with the buffer; [p_decode] is given [header->_dataLen] and builds
    the packet the factory's new object becomes.  [p_ok] is what the sender
    must respect, [p_received] what the receiver sees.  The law also covers a
    [_dataLen] larger than the packet's own bytes, because a derived packet
    calls the decoder of its base with the header of the whole. *)
Definition encoder : Type := databuffer -> option (bool * databuffer).

Definition always (w : writer) : encoder := fun b => Some (true, w b).

(** [if (c) return false;] at the start of an encode, [assert(0)] in place of a
    decode *)
Definition refuse_if (c : bool) (e : encoder) : encoder :=
  if c then fun output => Some (false, output) else e.
Definition decode_asserts {A} : reader A := fun _ => Asserted.

Class Packet (P : Type) := {
  p_encode : P -> encoder;
  p_decode : Z -> reader P;
  p_ok : P -> Prop;
  p_received : P -> P;
  p_roundtrip : forall p, p_ok p ->
    exists w l, p_encode p = always w /\ emits w l
      /\ forall dataLen, Z.of_nat (length l) <= dataLen ->
         parses (p_decode dataLen) l (p_received p)
}.

(** The interface of a packet type that may be incomplete: some requests have no
    encode, because only other clients send them, and some responses no decode.
    [c_wire] is the packet as bytes, [c_sends] says this code can write them,
    [c_reads] that it can read them. *)
Class Codec (P : Type) := {
  c_encode : P -> encoder;
  c_decode : Z -> reader P;
  c_wire : P -> list Z;
  c_sends : P -> Prop;
  c_reads : P -> Prop;
  c_received : P -> P;
  c_emits : forall p, c_sends p -> exists w, c_encode p = always w /\ emits w (c_wire p);
  c_parses : forall p dataLen, c_reads p -> Z.of_nat (length (c_wire p)) <= dataLen ->
    parses (c_decode dataLen) (c_wire p) (c_received p)
}.

(** The bytes an encode writes. *)
Definition encoded_bytes (e : encoder) : list Z :=
  match e new_databuffer with Some (_, b) => content b | None => [] end.

Lemma encoded_bytes_spec e w l : e = always w -> emits w l -> encoded_bytes e = l.
Proof.
  intros -> Hw. unfold encoded_bytes, always.
  destruct (Hw new_databuffer) as [_ Hc]; [by split|]. exact Hc.
Qed.

#[export] Program Instance codec_of_packet {P} `{Packet P} : Codec P | 10 := {
  c_encode := p_encode; c_decode := p_decode;
  c_wire p := encoded_bytes (p_encode p);
  c_sends := p_ok; c_reads := p_ok; c_received := p_received
}.
Next Obligation.
  intros P HP p Hok. destruct (p_roundtrip p Hok) as (w & l & E & Hw & _).
  exists w. by rewrite (encoded_bytes_spec _ _ _ E Hw).
Qed.
Next Obligation.
  intros P HP p dataLen Hok. cbv beta. destruct (p_roundtrip p Hok) as (w & l & E & Hw & Hr).
  rewrite (encoded_bytes_spec _ _ _ E Hw). apply Hr.
Qed.

(** ** The packets of one switch

    A new object of a class of packets [F] has a type with the virtual functions
    of that type; a packet is an object with its members filled in, and has a
    packet code.  [create] is the factory's switch.  The law: the factory gives
    a code an object of the type whose packets carry it. *)
Record object (F : Type) := mk_object {
  ob_type : Type; ob_codec : Codec ob_type; ob_make : ob_type -> F
}.
Arguments mk_object {F ob_type} {ob_codec} _.
Arguments ob_type {F} _.
Arguments ob_codec {F} _.
Arguments ob_make {F} _ _.
#[export] Existing Instance ob_codec.

Record opened (F : Type) := mk_opened {
  o_code : Z; o_object : object F; o_packet : ob_type o_object
}.
Arguments mk_opened {F} _ _ _.
Arguments o_code {F} _.
Arguments o_object {F} _.
Arguments o_packet {F} _.

Definition packet_of {F P} `{Codec P} (code : Z) (make : P -> F) (p : P) : opened F :=
  mk_opened code (mk_object make) p.

Class Family (F : Type) := {
  open_packet : F -> opened F;
  create : Z -> option (object F);
  create_open : forall p, in_s 32 (o_code (open_packet p))
    /\ create (o_code (open_packet p)) = Some (o_object (open_packet p));
  make_open : forall p, ob_make (o_object (open_packet p)) (o_packet (open_packet p)) = p
}.

(** The packets of one switch among those of another *)
Definition lift_object {F G} (f : F -> G) (ob : object F) : object G :=
  mk_object (fun p => f (ob_make ob p)).
Definition lift_opened {F G} (f : F -> G) (o : opened F) : opened G :=
  mk_opened (o_code o) (lift_object f (o_object o)) (o_packet o).

Definition rmap {A B} (f : A -> B) (rd : reader A) : reader B := let? a := rd in rret (f a).

(** The virtual functions *)
Definition decode_into {F} (ob : object F) (dataLen : Z) : reader F :=
  rmap (ob_make ob) (c_decode dataLen).

Section family.
Context {F : Type} `{Family F}.

Definition pcode_of (p : F) : Z := o_code (open_packet p).
Definition encode_of (p : F) : encoder := c_encode (o_packet (open_packet p)).
Definition wire_of (p : F) : list Z := c_wire (o_packet (open_packet p)).
Definition sends_of (p : F) : Prop := c_sends (o_packet (open_packet p)).
Definition reads_of (p : F) : Prop := c_reads (o_packet (open_packet p)).
Definition received_of (p : F) : F :=
  ob_make (o_object (open_packet p)) (c_received (o_packet (open_packet p))).

Lemma emits_packet p : sends_of p -> exists w, encode_of p = always w /\ emits w (wire_of p).
Proof. apply c_emits. Qed.

Lemma parses_rmap {A B} (f : A -> B) rd l a : parses rd l a -> parses (rmap f rd) l (f a).
Proof.
  intros Hp b rest Hwf Hc. destruct (Hp b rest Hwf Hc) as (b' & E & Hb').
  exists b'. split; [|done]. unfold rmap, rbind. by rewrite E.
Qed.

(** The factory gives every packet the decoder that undoes its encode. *)
Lemma parses_packet p :
  reads_of p ->
  exists ob, create (pcode_of p) = Some ob
    /\ parses (decode_into ob (Z.of_nat (length (wire_of p)))) (wire_of p) (received_of p).
Proof.
  intros Hr. exists (o_object (open_packet p)). split; [apply create_open|].
  exact (parses_rmap _ _ _ _ (c_parses _ _ Hr (Z.le_refl _))).
Qed.
End family.

(** ** Automation for packets *)

Lemma parses_header_bind {A} dataLen sf a (k : Z * Z -> reader A) l c :
  3 <= dataLen -> parses (k (u8 sf, u16 a)) l c ->
  parses (rbind (HEADER_VERIFY dataLen) k) ([u8 sf] ++ be_split 2 a ++ l) c.
Proof.
  intros Hd Hk. rewrite app_assoc.
  eapply parses_bind; [by apply parses_HEADER_VERIFY|done].
Qed.

Lemma parses_nil_r {A} (p : reader A) l a : parses p (l ++ []) a -> parses p l a.
Proof. by rewrite app_nil_r. Qed.

Lemma parses_new_entry e :
  entry_ok e -> parses (entry_decode new_data_entry) (entry_bytes e) (received e new_data_entry).
Proof. apply parses_entry. Qed.
#[export] Hint Resolve parses_new_entry : tair.

(** Lengths of encoded packets: [len_tac] proves a lower bound on one. *)
Lemma length_entry_bytes_ge e : (39 <= length (entry_bytes e))%nat.
Proof.
  unfold entry_bytes, meta_bytes. rewrite !length_app, !length_be_split. simpl. lia.
Qed.

Lemma length_plain_bytes_ge e : (4 <= length (plain_bytes e))%nat.
Proof. unfold plain_bytes. rewrite length_app, length_be_split. lia. Qed.

Ltac len_tac :=
  rewrite ?length_app, ?length_be_split;
  repeat match goal with
  | |- context [length (plain_bytes ?e)] =>
      generalize (length_plain_bytes_ge e); generalize (length (plain_bytes e)); intros ? ?
  | |- context [length (entry_bytes ?e)] =>
      generalize (length_entry_bytes_ge e); generalize (length (entry_bytes e)); intros ? ?
  end;
  cbn [length Nat.add]; rewrite ?Nat2Z.inj_add, ?Nat2Z.inj_succ; lia.

Ltac datalen_tac :=
  match goal with
  | H : Z.of_nat (length _) <= ?d |- _ <= ?d => etrans; [|exact H]; clear H; len_tac
  end.

(** [packet_parse] runs a decoder over right-nested bytes. *)
Ltac packet_step :=
  lazymatch goal with
  | |- parses (datalen_check _ _ _) _ _ => apply parses_datalen; [datalen_tac|]
  | |- parses (rbind (HEADER_VERIFY _) _) _ _ => apply parses_header_bind; [datalen_tac|]
  | _ => parse_step
  end; cbv beta iota zeta.
Ltac packet_parse := cbv beta zeta; repeat packet_step.

(** [packet_tac] proves [p_roundtrip]: the bytes are those [emit_tac] finds,
    and the decoder is run over them; what is left are the equality of the
    decoded packet and the expected one, and conditions on field values. *)
Ltac packet_start :=
  eexists _, _; split; [reflexivity|]; split; [emit_tac|]; intros dataLen HdataLen;
  cbv beta; apply parses_nil_r; rewrite <- ?app_assoc.

(** Fields in range come back unchanged. *)
Ltac fields :=
  repeat match goal with
  | H : in_s 32 ?z |- context [s32 (u32 ?z)] => rewrite (s32_u32 z H)
  | H : in_s 64 ?z |- context [s64 (u64 ?z)] => rewrite (s64_u64 z H)
  | H : in_u ?w ?z |- context [wrap ?w ?z] => rewrite (wrap_id w z H)
  end.

(** Packets whose members are read and written one by one. *)
Ltac plain_packet_start :=
  intros p Hok; cbv beta in Hok;
  repeat match goal with H : _ /\ _ |- _ => destruct H end.
Ltac decode_fields :=
  match goal with |- parses (?f _) _ _ => unfold f end; packet_parse; fields.
Ltac plain_packet := plain_packet_start; packet_start; decode_fields.

(** ... with a bound on the number of values *)
Lemma refuse_if_false c e : c = false -> refuse_if c e = e.
Proof. by intros ->. Qed.

Ltac values_packet :=
  plain_packet_start;
  match goal with |- exists _ _, ?f _ = _ /\ _ => unfold f end;
  rewrite refuse_if_false by (by apply Z.ltb_ge);
  packet_start; decode_fields.

(** Packets only other clients write, and those only other clients read. *)
Ltac plain_received :=
  intros p dataLen Hok HdataLen; cbv beta in Hok;
  repeat match goal with H : _ /\ _ |- _ => destruct H end;
  cbv beta in *; apply parses_nil_r; rewrite <- ?app_assoc; decode_fields.

Ltac plain_sent :=
  intros p Hok; cbv beta in Hok |- *;
  match goal with |- exists _, ?f _ = _ /\ _ => unfold f end;
  rewrite ?refuse_if_false by (by apply Z.ltb_ge);
  eexists; split; [reflexivity|];
  eapply emits_eq; [emit_tac|by rewrite <- ?app_assoc].

Ltac never := intros; contradiction.
