(* ===== verification/KvPackets.v ===== *)
(** * The key/value packets (packets/put_packet.hpp, get_packet.hpp,
      remove_packet.hpp, response_return_packet.hpp, ping_packet.hpp,
      inc_dec_packet.hpp, remove_area_packet.hpp, migrate_finish_packet.hpp,
      duplicate_packet.hpp)

    Each packet is a record of the members its encode and decode touch, with
    one definition for each of the two and an instance of [Packet] that
    carries its round trip. *)

From S2P Require Import Prelude DataBuffer DataEntry BasePacket.

Definition HAS_HASH_CODE : Z := 0x80.

(** ** request_put, request_putnx *)

Record request_put := mk_request_put {
  put_server_flag : Z; put_area : Z; put_version : Z; put_expired : Z;
  put_hash_code : Z; put_key : data_entry; put_data : data_entry
}.

Definition request_put_encode (p : request_put) : encoder := always (fun output =>
  let output := writeInt8 (put_server_flag p) output in
  let output := writeInt16 (put_area p) output in
  let output := writeInt16 (put_version p) output in
  let output := writeInt32 (put_expired p) output in
  let output := entry_encode (put_key p) output in
  entry_encode (put_data p) output).

Definition request_put_decode (dataLen : Z) : reader request_put :=
  let? (server_flag, area) := HEADER_VERIFY dataLen in
  let? version := GETKEY_INT16 in
  let? expired := GETKEY_INT32 in
  let? key := entry_decode new_data_entry in
  let? data := entry_decode new_data_entry in
  let key := set_version version key in
  if negb (Z.land server_flag HAS_HASH_CODE =? 0) then
    let? hash_code := GETKEY_INT32 in
    rret (mk_request_put (Z.land server_flag (Z.lnot HAS_HASH_CODE)) area version
            (s32 expired) hash_code key data)
  else rret (mk_request_put server_flag area version (s32 expired) (-1) key data).

(** ** request_get, request_remove

    [key_list] is a [std::set] ordered by [operator<]: a list kept sorted by
    [set_insert], which drops an element equivalent to one it holds. *)
Fixpoint set_insert (x : data_entry) (l : list data_entry) : list data_entry :=
  match l with
  | [] => [x]
  | y :: l' =>
      if entry_lt x y then x :: l
      else if entry_lt y x then y :: set_insert x l' else l
  end.

Record request_get := mk_request_get {
  get_server_flag : Z; get_area : Z; get_key_count : Z;
  get_key : option data_entry; get_key_list : option (list data_entry)
}.

Definition request_get_encode (p : request_get) : encoder := always (fun output =>
  let output := writeInt8 (get_server_flag p) output in
  let output := writeInt16 (get_area p) output in
  let output := writeInt32 (get_key_count p) output in
  match get_key_list p, get_key p with
  | Some key_list, _ => write_all entry_encode key_list output
  | None, Some key => entry_encode key output
  | None, None => output
  end).

(** The [for] loop of [decode]: decode an entry, insert it in the set. *)
Fixpoint decode_key_list (n : nat) (acc : list data_entry) : reader (list data_entry) :=
  match n with
  | O => rret acc
  | S n' =>
      let? entry := entry_decode new_data_entry in
      decode_key_list n' (set_insert entry acc)
  end.

Definition request_get_decode (dataLen : Z) : reader request_get :=
  datalen_check 7 dataLen (
    let? server_flag := readInt8 in
    let? area := readInt16 in
    let? key_count := readInt32 in
    if key_count =? 1 then
      let? key := entry_decode new_data_entry in
      rret (mk_request_get server_flag area key_count (Some key) None)
    else if 1 <? key_count then
      let? key_list := decode_key_list (Z.to_nat key_count) [] in
      rret (mk_request_get server_flag area key_count None (Some key_list))
    else rret (mk_request_get server_flag area key_count None None)).

(** [add_key(str_key, str_size)] *)
Definition request_get_add_key (str_key : list Z) (p : request_get) : outcome request_get :=
  assert! Z.of_nat (length str_key) <=? 2000 in
  if get_key_count p =? 0 then
    Ret (mk_request_get (get_server_flag p) (get_area p) 1
           (Some (data_entry_of str_key)) (get_key_list p))
  else
    let '(key, key_list) :=
      match get_key_list p with
      | Some l => (get_key p, l)
      | None => (None, match get_key p with Some k => set_insert k [] | None => [] end)
      end in
    let key_list' := set_insert (data_entry_of str_key) key_list in
    let count := if decide (length key_list' = length key_list)
                 then get_key_count p else u32 (get_key_count p + 1) in
    Ret (mk_request_get (get_server_flag p) (get_area p) count key (Some key_list')).

(** ** Copies sent to the other servers of a bucket

    [request_put_dup], [request_putnx_dup] and [request_remove_dup] derive
    from the request and add the identity of the copy.  The put packets ignore
    the result of the base's encode, the remove packet passes a failure on. *)
Record dup (P : Type) := mk_dup { dup_base : P; dup_id : Z; dup_bucket : Z }.
Arguments mk_dup {P} _ _ _.
Arguments dup_base {P} _.
Arguments dup_id {P} _.
Arguments dup_bucket {P} _.

(** The [_dup] packets but [request_remove_dup] do not look at the result of the
    base's encode. *)
Definition dup_encode {P} (encode : P -> encoder) (p : dup P) : encoder := fun output =>
  match encode (dup_base p) output with
  | Some (_, output) =>
      let output := writeInt32 (dup_id p) output in
      Some (true, writeInt32 (dup_bucket p) output)
  | None => None
  end.
Definition dup_decode {P} (decode : Z -> reader P) (dataLen : Z) : reader (dup P) :=
  let? r := decode dataLen in
  let? packet_id := readInt32 in
  let? bucket_id := readInt32 in
  rret (mk_dup r packet_id (s32 bucket_id)).

Definition request_put_dup_encode : dup request_put -> encoder := dup_encode request_put_encode.
Definition request_put_dup_decode : Z -> reader (dup request_put) := dup_decode request_put_decode.

Definition request_remove_dup_encode (p : dup request_get) : encoder := fun output =>
  match request_get_encode (dup_base p) output with
  | Some (true, output) =>
      let output := writeInt32 (dup_id p) output in
      Some (true, writeInt32 (dup_bucket p) output)
  | r => r
  end.
Definition request_remove_dup_decode : Z -> reader (dup request_get) :=
  dup_decode request_get_decode.

(** ** response_get

    [key_data_map] is the map's pairs in iteration order.  The number of
    proxied keys is computed and dropped ([proxyed_key_list->size();]), so 0 is
    always sent. *)
Record response_get := mk_response_get {
  rget_config_version : Z; rget_code : Z; rget_key_count : Z;
  rget_single : option (data_entry * data_entry);
  rget_map : option (list (data_entry * data_entry));
  rget_proxyed : option (list data_entry)
}.

Definition encode_pair (kd : data_entry * data_entry) : writer := fun output =>
  entry_encode kd.2 (entry_encode kd.1 output).

Definition response_get_encode (p : response_get) : encoder := always (fun output =>
  let output := writeInt32 (rget_config_version p) output in
  let output := writeInt32 (rget_code p) output in
  let output := writeInt32 (rget_key_count p) output in
  match rget_map p, rget_single p with
  | Some key_data_map, _ =>
      let output := write_all encode_pair key_data_map output in
      let pkc := 0 in
      writeInt32 pkc output
  | None, Some kd => encode_pair kd output
  | None, None => output
  end).

Definition decode_pair : reader (data_entry * data_entry) :=
  let? key := entry_decode new_data_entry in
  let? data := entry_decode new_data_entry in
  rret (key, data).

Definition response_get_decode (dataLen : Z) : reader response_get :=
  datalen_check 8 dataLen (
    let? config_version := readInt32 in
    let? code := readInt32 in
    let? key_count := readInt32 in
    if 1 <? key_count then
      let? key_data_map := read_n (Z.to_nat key_count) decode_pair in
      let? pkc := readInt32 in
      if 0 <? s32 pkc then
        let? proxyed := decode_key_list (Z.to_nat (s32 pkc)) [] in
        rret (mk_response_get config_version (s32 code) key_count None
                (Some key_data_map) (Some proxyed))
      else rret (mk_response_get config_version (s32 code) key_count None
                   (Some key_data_map) None)
    else if key_count =? 1 then
      let? kd := decode_pair in
      rret (mk_response_get config_version (s32 code) key_count (Some kd) None None)
    else rret (mk_response_get config_version (s32 code) key_count None None None)).

(** ** response_return: [msg] is the text in the [char msg[128]] member. *)
Record response_return := mk_response_return {
  ret_config_version : Z; ret_code : Z; ret_msg : list Z
}.

Definition response_return_encode (p : response_return) : encoder := always (fun output =>
  let output := writeInt32 (ret_config_version p) output in
  let output := writeInt32 (ret_code p) output in
  writeString (ret_msg p) output).

(** The characters of a [char] array before its first NUL. *)
Fixpoint cstr (l : list Z) : list Z :=
  match l with
  | [] => []
  | c :: l' => if c =? 0 then [] else c :: cstr l'
  end.

(** [msg] is 128 NULs' worth of array in a new object (its first byte is set to
    NUL, the others are never read before they are written). *)
Definition response_return_decode (dataLen : Z) : reader response_return :=
  datalen_check 12 dataLen (
    let? config_version := readInt32 in
    let? code := readInt32 in
    let? (_, msg) := readString (Some (replicate 128 0)) 128 in
    rret (mk_response_return config_version (s32 code) (cstr (default [] msg)))).

(** ** request_ping, response_inc_dec (which inherits it) *)
Record request_ping := mk_request_ping { ping_config_version : Z; ping_value : Z }.
Definition request_ping_encode (p : request_ping) : encoder := always (fun output =>
  let output := writeInt32 (ping_config_version p) output in
  writeInt32 (ping_value p) output).
Definition request_ping_decode (dataLen : Z) : reader request_ping :=
  datalen_check 8 dataLen (
    let? config_version := readInt32 in
    let? value := readInt32 in
    rret (mk_request_ping config_version (s32 value))).

(** ** request_inc_dec *)
Record request_inc_dec := mk_request_inc_dec {
  inc_server_flag : Z; inc_area : Z; inc_add_count : Z; inc_init_value : Z;
  inc_expired : Z; inc_key : data_entry
}.
Definition request_inc_dec_encode (p : request_inc_dec) : encoder := always (fun output =>
  let output := writeInt8 (inc_server_flag p) output in
  let output := writeInt16 (inc_area p) output in
  let output := writeInt32 (inc_add_count p) output in
  let output := writeInt32 (inc_init_value p) output in
  let output := writeInt32 (inc_expired p) output in
  entry_encode (inc_key p) output).
Definition request_inc_dec_decode (dataLen : Z) : reader request_inc_dec :=
  datalen_check 13 dataLen (
    let? server_flag := readInt8 in
    let? area := readInt16 in
    let? add_count := readInt32 in
    let? init_value := readInt32 in
    let? expired := readInt32 in
    let? key := entry_decode new_data_entry in
    rret (mk_request_inc_dec server_flag area (s32 add_count) (s32 init_value)
            (s32 expired) key)).

(** ** request_remove_area *)
Record request_remove_area := mk_request_remove_area { rarea_area : Z }.
Definition request_remove_area_encode (p : request_remove_area) : encoder :=
  always (writeInt32 (rarea_area p)).
Definition request_remove_area_decode (dataLen : Z) : reader request_remove_area :=
  datalen_check 4 dataLen (
    let? area := readInt32 in rret (mk_request_remove_area (s32 area))).

(** ** request_migrate_finish *)
Record request_migrate_finish := mk_request_migrate_finish {
  mig_version : Z; mig_server_id : Z; mig_bucket_no : Z
}.
Definition request_migrate_finish_encode (p : request_migrate_finish) : encoder :=
  always (fun output =>
    let output := writeInt32 (mig_version p) output in
    let output := writeInt64 (mig_server_id p) output in
    writeInt32 (mig_bucket_no p) output).
Definition request_migrate_finish_decode (dataLen : Z) : reader request_migrate_finish :=
  datalen_check 8 dataLen (
    let? version := readInt32 in
    let? server_id := readInt64 in
    let? bucket_no := readInt32 in
    rret (mk_request_migrate_finish version server_id (s32 bucket_no))).

(** ** request_duplicate, response_duplicate *)
Record request_duplicate := mk_request_duplicate {
  dup_server_flag : Z; dup_area : Z; dup_key : data_entry; dup_data : data_entry;
  dup_packet_id : Z; dup_bucket_number : Z
}.
Definition request_duplicate_encode (p : request_duplicate) : encoder := always (fun output =>
  let output := writeInt8 (dup_server_flag p) output in
  let output := writeInt16 (dup_area p) output in
  let output := entry_encode (dup_key p) output in
  let output := entry_encode (dup_data p) output in
  let output := writeInt32 (dup_packet_id p) output in
  writeInt32 (dup_bucket_number p) output).
Definition request_duplicate_decode (dataLen : Z) : reader request_duplicate :=
  datalen_check 15 dataLen (
    let? server_flag := readInt8 in
    let? area := readInt16 in
    let? key := entry_decode new_data_entry in
    let? data := entry_decode new_data_entry in
    let? packet_id := readInt32 in
    let? bucket_number := readInt32 in
    rret (mk_request_duplicate server_flag area key data packet_id (s32 bucket_number))).

Record response_duplicate := mk_response_duplicate {
  rspd_packet_id : Z; rspd_server_id : Z; rspd_bucket_id : Z;
  rspd_ret_number : Z; rspd_list_size : Z
}.
Definition response_duplicate_encode (p : response_duplicate) : encoder := always (fun output =>
  let output := writeInt32 (rspd_packet_id p) output in
  let output := writeInt64 (rspd_server_id p) output in
  let output := writeInt32 (rspd_bucket_id p) output in
  let output := writeInt32 (rspd_ret_number p) output in
  writeInt32 (rspd_list_size p) output).
Definition response_duplicate_decode (dataLen : Z) : reader response_duplicate :=
  let? packet_id := readInt32 in
  let? server_id := readInt64 in
  let? bucket_id := readInt32 in
  let? ret_number := readInt32 in
  let? list_size := readInt32 in
  rret (mk_response_duplicate packet_id server_id (s32 bucket_id) (s32 ret_number)
          (s32 list_size)).

(** ** Round trips *)

Abbreviation recv e := (received e new_data_entry).

Definition request_put_ok (p : request_put) : Prop :=
  in_u 7 (put_server_flag p) /\ in_u 16 (put_area p) /\ in_u 16 (put_version p)
  /\ in_s 32 (put_expired p) /\ entry_ok (put_key p) /\ entry_ok (put_data p).

Definition request_put_received (p : request_put) : request_put :=
  mk_request_put (put_server_flag p) (put_area p) (put_version p) (put_expired p) (-1)
    (set_version (put_version p) (recv (put_key p))) (recv (put_data p)).

Lemma no_hash_code z : in_u 7 z -> u8 z = z /\ Z.land z HAS_HASH_CODE = 0.
Proof.
  intros Hz. split; [apply wrap_id; unfold in_u in *; lia|].
  rewrite Z.land_comm. apply (land_shiftl_low 7 1 z); [lia|done].
Qed.

#[export] Program Instance packet_request_put : Packet request_put := {
  p_encode := request_put_encode; p_decode := request_put_decode;
  p_ok := request_put_ok; p_received := request_put_received
}.
Next Obligation.
  intros p (Hs & Ha & Hv & He & Hk & Hd). destruct (no_hash_code _ Hs) as [Es El].
  packet_start. unfold request_put_decode. packet_parse. rewrite Es, El. cbn [negb Z.eqb].
  packet_parse. unfold request_put_received. fields. done.
Qed.

(** *** Sets of keys *)

(** A [std::set] of non-empty keys, in iteration order: strictly ascending. *)
Fixpoint ascending (l : list data_entry) : Prop :=
  match l with
  | [] => True
  | x :: l' => Forall (fun y => entry_lt x y = true) l' /\ ascending l'
  end.

#[export] Instance ascending_dec l : Decision (ascending l).
Proof. induction l; simpl; apply _. Defined.

Definition key_ok (e : data_entry) : Prop := entry_ok e /\ 0 < size e.
#[export] Instance key_ok_dec e : Decision (key_ok e).
Proof. unfold key_ok. apply _. Defined.

Definition set_ok (l : list data_entry) : Prop :=
  Forall key_ok l /\ ascending l.

Lemma key_ok_lex a b :
  key_ok a -> key_ok b -> entry_lt a b = true <-> lex_lt (get_data a) (get_data b).
Proof.
  intros [(Ha & _) Ha'] [(Hb & _) Hb']. apply entry_lt_lex; [done|done|..];
    intros E; [rewrite E in Ha|rewrite E in Hb]; simpl in *; lia.
Qed.

Lemma get_data_recv e : key_ok e -> get_data (recv e) = get_data e.
Proof. intros [_ Hpos]. unfold received. destruct (Z.ltb_spec 0 (size e)); [done|lia]. Qed.

Lemma key_ok_recv e : key_ok e -> key_ok (recv e).
Proof.
  intros H. pose proof (get_data_recv e H) as Hg. destruct H as [(Hs & Hl & Hb & Ha & Hr) Hp].
  split; [|done]. unfold entry_ok. rewrite Hg. simpl.
  assert (in_u 32 0) by (unfold in_u; lia). tauto.
Qed.

Lemma recv_lt a b : key_ok a -> key_ok b -> entry_lt (recv a) (recv b) = entry_lt a b.
Proof.
  intros Ha Hb. apply eq_true_iff_eq.
  rewrite !key_ok_lex by auto using key_ok_recv. by rewrite !get_data_recv.
Qed.

Lemma entry_lt_asym a b : key_ok a -> key_ok b -> entry_lt a b = true -> entry_lt b a = false.
Proof.
  intros Ha Hb H. apply not_true_iff_false. intros H'.
  rewrite key_ok_lex in H, H' by done.
  by apply (lex_lt_irrefl (get_data a)), (lex_lt_trans _ (get_data b)).
Qed.

(** A key above every element goes to the end of the set. *)
Lemma set_insert_last x l :
  key_ok x -> Forall key_ok l -> Forall (fun y => entry_lt y x = true) l ->
  set_insert x l = l ++ [x].
Proof.
  intros Hx Hl. induction Hl as [|y l Hy Hl IH]; intros Hlt; [done|]. simpl.
  inversion Hlt; subst. rewrite entry_lt_asym by done.
  destruct (entry_lt y x); [|done]. by rewrite IH.
Qed.

Lemma parses_decode_key_list l acc :
  Forall key_ok l -> Forall key_ok acc -> ascending l ->
  Forall (fun x => Forall (fun y => entry_lt x (recv y) = true) l) acc ->
  parses (decode_key_list (length l) acc) (concat (map entry_bytes l)) (acc ++ map (fun e => recv e) l).
Proof.
  intros Hl. revert acc. induction Hl as [|x l Hx Hl IH]; intros acc Hacc Hasc Hlt.
  { simpl. rewrite app_nil_r. apply parses_ret. }
  cbn [length decode_key_list map concat].
  eapply parses_bind; [apply parses_new_entry, Hx|].
  destruct Hasc as [Hxl Hasc].
  rewrite set_insert_last; [|by apply key_ok_recv|done|].
  2: { eapply list.Forall_impl; [exact Hlt|]. intros y Hy. by inversion Hy; subst. }
  eapply parses_eq; [apply IH|done|by rewrite <- app_assoc].
  - apply Forall_app. split; [done|]. constructor; [by apply key_ok_recv|done].
  - done.
  - apply Forall_app. split.
    + eapply list.Forall_impl; [exact Hlt|]. intros y Hy. by inversion Hy.
    + constructor; [|done]. rewrite list.Forall_forall in Hxl, Hl |- *. intros y Hy.
      specialize (Hxl y Hy). specialize (Hl y Hy).
      by rewrite recv_lt.
Qed.

(** Decoding a set sent in order rebuilds it. *)
Lemma parses_key_set l :
  set_ok l -> parses (decode_key_list (length l) []) (concat (map entry_bytes l)) (map (fun e => recv e) l).
Proof. intros [Hl Ha]. by apply (parses_decode_key_list l []). Qed.

Definition request_get_ok (p : request_get) : Prop :=
  in_u 8 (get_server_flag p) /\ in_u 16 (get_area p) /\ in_u 32 (get_key_count p)
  /\ match get_key_list p, get_key p with
     | Some l, None => get_key_count p = Z.of_nat (length l) /\ 1 <= get_key_count p /\ set_ok l
     | None, Some k => get_key_count p = 1 /\ entry_ok k
     | None, None => get_key_count p = 0
     | Some _, Some _ => False
     end.

(** The keys that are sent, and what they are decoded to: a count of 1 stands
    for the single key, also when it was sent as a set of one ([add_key] twice
    with the same key). *)
Definition request_get_sent (p : request_get) : list data_entry :=
  match get_key_list p with Some l => l | None => option_list (get_key p) end.

Definition request_get_received (p : request_get) : request_get :=
  let keys := map (fun e => recv e) (request_get_sent p) in
  if get_key_count p =? 1 then mk_request_get (get_server_flag p) (get_area p) (get_key_count p) (head keys) None
  else if 1 <? get_key_count p then mk_request_get (get_server_flag p) (get_area p) (get_key_count p) None (Some keys)
  else mk_request_get (get_server_flag p) (get_area p) (get_key_count p) None None.

Lemma emits_key_set l : emits (write_all entry_encode l) (concat (map entry_bytes l)).
Proof. apply emits_write_all. intros. apply emits_entry. Qed.
#[export] Hint Resolve emits_key_set parses_key_set : tair.

#[export] Program Instance packet_request_get : Packet request_get := {
  p_encode := request_get_encode; p_decode := request_get_decode;
  p_ok := request_get_ok; p_received := request_get_received
}.
Next Obligation.
  intros p (Hs & Ha & Hc & Hk). unfold request_get_received, request_get_sent, request_get_encode.
  destruct (get_key_list p) as [l|], (get_key p) as [k|]; [done|..];
    packet_start; (apply parses_datalen; [datalen_tac|]); do 3 parse_step; cbv beta; fields.
  - destruct Hk as (Hn & Hgt & Hl). destruct (Z.eqb_spec (get_key_count p) 1) as [E1|].
    + destruct l as [|k [|? ?]]; cbn [length] in Hn; [lia| |lia]. destruct Hl as [Hl _].
      apply Forall_inv in Hl as [Hko _]. cbn [map head concat]. rewrite app_nil_r. parse_tac. done.
    + destruct (Z.ltb_spec 1 (get_key_count p)); [|lia].
      replace (Z.to_nat (get_key_count p)) with (length l) by lia.
      parse_tac. done.
  - destruct Hk as (-> & Hk). cbn [Z.eqb Pos.eqb option_list map head]. parse_tac. done.
  - rewrite Hk in *. cbn [Z.eqb Z.ltb Z.compare]. parse_tac. done.
Qed.

(** *** Copies *)

Definition dup_ok {P} `{Packet P} (p : dup P) : Prop :=
  p_ok (dup_base p) /\ in_u 32 (dup_id p) /\ in_s 32 (dup_bucket p).
Definition dup_received {P} `{Packet P} (p : dup P) : dup P :=
  mk_dup (p_received (dup_base p)) (dup_id p) (dup_bucket p).

(** What the two identifiers add to the round trip of the base. *)
Lemma dup_roundtrip {P} `{Packet P} (p : dup P) (enc : dup P -> encoder) :
  (forall w, p_encode (dup_base p) = always w ->
     enc p = always (fun output => writeInt32 (dup_bucket p) (writeInt32 (dup_id p) (w output)))) ->
  dup_ok p ->
  exists w l, enc p = always w /\ emits w l
    /\ forall dataLen, Z.of_nat (length l) <= dataLen ->
       parses (dup_decode p_decode dataLen) l (dup_received p).
Proof.
  intros Henc (Hok & Hi & Hb). destruct (p_roundtrip _ Hok) as (w & l & E & Hw & Hr).
  eexists _, _. split; [by apply Henc|]. split; [emit_tac|]. intros d Hd.
  rewrite <- ?app_assoc. apply parses_nil_r. rewrite <- ?app_assoc.
  eapply parses_bind; [apply Hr; rewrite ?length_app in Hd; lia|].
  parse_tac. unfold dup_received. by fields.
Qed.

Lemma dup_encode_always {P} `{Packet P} (p : dup P) w :
  p_encode (dup_base p) = always w ->
  dup_encode p_encode p
  = always (fun output => writeInt32 (dup_bucket p) (writeInt32 (dup_id p) (w output))).
Proof. unfold dup_encode. by intros ->. Qed.

Lemma dup_packet {P} `{Packet P} (p : dup P) :
  dup_ok p ->
  exists w l, dup_encode p_encode p = always w /\ emits w l
    /\ forall dataLen, Z.of_nat (length l) <= dataLen ->
       parses (dup_decode p_decode dataLen) l (dup_received p).
Proof. intros Hok. apply dup_roundtrip; [apply dup_encode_always|done]. Qed.

(** Copies of packets whose encode asserts: encoding one asserts too. *)
Definition dup_wire {P} `{Codec P} (p : dup P) : list Z :=
  c_wire (dup_base p) ++ be_split 4 (dup_id p) ++ be_split 4 (dup_bucket p).
Definition dup_reads {P} `{Codec P} (p : dup P) : Prop :=
  c_reads (dup_base p) /\ in_u 32 (dup_id p) /\ in_s 32 (dup_bucket p).
Definition dup_read {P} `{Codec P} (p : dup P) : dup P :=
  mk_dup (c_received (dup_base p)) (dup_id p) (dup_bucket p).

Lemma dup_parses {P} `{Codec P} (p : dup P) dataLen :
  dup_reads p -> Z.of_nat (length (dup_wire p)) <= dataLen ->
  parses (dup_decode c_decode dataLen) (dup_wire p) (dup_read p).
Proof.
  intros (Hr & Hi & Hb) Hd. unfold dup_wire in *. rewrite length_app in Hd.
  eapply parses_bind; [apply c_parses; [done|lia]|]. apply parses_nil_r. rewrite <- app_assoc.
  parse_tac. unfold dup_read. by fields.
Qed.

#[export] Program Instance packet_request_put_dup : Packet (dup request_put) := {
  p_encode := request_put_dup_encode; p_decode := request_put_dup_decode;
  p_ok := dup_ok; p_received := dup_received
}.
Next Obligation. exact dup_packet. Qed.

#[export] Program Instance packet_request_remove_dup : Packet (dup request_get) := {
  p_encode := request_remove_dup_encode; p_decode := request_remove_dup_decode;
  p_ok := dup_ok; p_received := dup_received
}.
Next Obligation.
  intros p Hok. refine (dup_roundtrip p request_remove_dup_encode _ Hok).
  intros w E. unfold request_remove_dup_encode.
  change request_get_encode with (p_encode (P := request_get)). by rewrite E.
Qed.

(** *** response_get *)

Definition pair_bytes (kd : data_entry * data_entry) : list Z :=
  entry_bytes kd.1 ++ entry_bytes kd.2.
Definition pair_ok (kd : data_entry * data_entry) : Prop := entry_ok kd.1 /\ entry_ok kd.2.
Definition pair_recv (kd : data_entry * data_entry) : data_entry * data_entry :=
  (recv kd.1, recv kd.2).

Lemma emits_encode_pair kd : emits (encode_pair kd) (pair_bytes kd).
Proof. unfold encode_pair. emit_tac. Qed.

Lemma parses_decode_pair kd : pair_ok kd -> parses decode_pair (pair_bytes kd) (pair_recv kd).
Proof.
  intros [Hk Hd]. apply parses_nil_r. unfold decode_pair, pair_bytes. rewrite <- app_assoc. by parse_tac.
Qed.

Lemma parses_read_map {A} (rd : reader A) (f : A -> list Z) (g : A -> A) l :
  Forall (fun x => parses rd (f x) (g x)) l ->
  parses (read_n (length l) rd) (concat (map f l)) (map g l).
Proof.
  induction 1 as [|x l Hx Hl IH]; [apply parses_ret|].
  eapply parses_bind; [exact Hx|]. apply parses_nil_r.
  eapply parses_bind; [exact IH|]. apply parses_ret.
Qed.

Lemma emits_pairs l : emits (write_all encode_pair l) (concat (map pair_bytes l)).
Proof. apply emits_write_all. intros. apply emits_encode_pair. Qed.

Lemma parses_pairs l :
  Forall pair_ok l ->
  parses (read_n (length l) decode_pair) (concat (map pair_bytes l)) (map pair_recv l).
Proof.
  intros Hl. apply parses_read_map. eapply list.Forall_impl; [exact Hl|].
  apply parses_decode_pair.
Qed.
#[export] Hint Resolve emits_encode_pair parses_decode_pair emits_pairs parses_pairs : tair.

Definition response_get_ok (p : response_get) : Prop :=
  in_u 32 (rget_config_version p) /\ in_s 32 (rget_code p) /\ in_u 32 (rget_key_count p)
  /\ match rget_map p, rget_single p with
     | Some l, None =>
         rget_key_count p = Z.of_nat (length l) /\ 1 < rget_key_count p /\ Forall pair_ok l
     | None, Some kd => rget_key_count p = 1 /\ pair_ok kd
     | None, None => rget_key_count p = 0
     | Some _, Some _ => False
     end.

(** The receiver never gets the proxied keys. *)
Definition response_get_received (p : response_get) : response_get :=
  mk_response_get (rget_config_version p) (rget_code p) (rget_key_count p)
    (pair_recv <$> rget_single p) (map pair_recv <$> rget_map p) None.

#[export] Program Instance packet_response_get : Packet response_get := {
  p_encode := response_get_encode; p_decode := response_get_decode;
  p_ok := response_get_ok; p_received := response_get_received
}.
Next Obligation.
  intros p (Hv & Hco & Hc & Hk). unfold response_get_received, response_get_encode.
  destruct (rget_map p) as [l|], (rget_single p) as [kd|]; [done|..];
    packet_start; (apply parses_datalen; [datalen_tac|]); do 3 parse_step; cbv beta; fields.
  - destruct Hk as (Hn & Hgt & Hl). destruct (Z.ltb_spec 1 (rget_key_count p)); [|lia].
    replace (Z.to_nat (rget_key_count p)) with (length l) by lia.
    do 2 parse_step. change (0 <? s32 (u32 0)) with false. cbv iota. by parse_tac.
  - destruct Hk as (-> & Hk). cbn [Z.eqb Pos.eqb Z.ltb Z.compare Pos.compare Pos.compare_cont].
    by parse_tac.
  - rewrite Hk in *. cbn [Z.eqb Z.ltb Z.compare]. by parse_tac.
Qed.

(** *** response_return *)

Definition text (l : list Z) : Prop := Forall (fun c => c <> 0) l.

Lemma cstr_text l rest : text l -> cstr (l ++ 0 :: rest) = l.
Proof.
  induction 1 as [|c l Hc Hl IH]; [done|]. simpl.
  destruct (Z.eqb_spec c 0); [done|by rewrite IH].
Qed.

Definition response_return_ok (p : response_return) : Prop :=
  in_u 32 (ret_config_version p) /\ in_s 32 (ret_code p)
  /\ text (ret_msg p) /\ (length (ret_msg p) < 128)%nat.

#[export] Program Instance packet_response_return : Packet response_return := {
  p_encode := response_return_encode; p_decode := response_return_decode;
  p_ok := response_return_ok; p_received p := p
}.
Next Obligation.
  intros p (Hv & Hc & Ht & Hl). packet_start.
  apply parses_datalen.
  { etrans; [|exact HdataLen]. destruct (ret_msg p); unfold string_bytes; len_tac. }
  do 2 parse_step. eapply parses_bind.
  { apply (parses_readString (replicate 128 0)); [by rewrite length_replicate|lia]. }
  cbv beta iota. parse_tac. fields. destruct p as [v c msg]. cbn [ret_config_version ret_code ret_msg] in *.
  f_equal. destruct msg as [|m msg]; [done|]. by apply cstr_text.
Qed.

(** *** Packets of plain fields *)

#[export] Program Instance packet_request_ping : Packet request_ping := {
  p_encode := request_ping_encode; p_decode := request_ping_decode;
  p_ok p := in_u 32 (ping_config_version p) /\ in_s 32 (ping_value p);
  p_received p := p
}.
Next Obligation. plain_packet. by destruct p. Qed.

#[export] Program Instance packet_request_inc_dec : Packet request_inc_dec := {
  p_encode := request_inc_dec_encode; p_decode := request_inc_dec_decode;
  p_ok p := in_u 8 (inc_server_flag p) /\ in_u 16 (inc_area p) /\ in_s 32 (inc_add_count p)
            /\ in_s 32 (inc_init_value p) /\ in_s 32 (inc_expired p) /\ entry_ok (inc_key p);
  p_received p := mk_request_inc_dec (inc_server_flag p) (inc_area p) (inc_add_count p)
                    (inc_init_value p) (inc_expired p) (recv (inc_key p))
}.
Next Obligation. plain_packet. done. Qed.

#[export] Program Instance packet_request_remove_area : Packet request_remove_area := {
  p_encode := request_remove_area_encode; p_decode := request_remove_area_decode;
  p_ok p := in_s 32 (rarea_area p); p_received p := p
}.
Next Obligation. plain_packet. by destruct p. Qed.

#[export] Program Instance packet_request_migrate_finish : Packet request_migrate_finish := {
  p_encode := request_migrate_finish_encode; p_decode := request_migrate_finish_decode;
  p_ok p := in_u 32 (mig_version p) /\ in_u 64 (mig_server_id p) /\ in_s 32 (mig_bucket_no p);
  p_received p := p
}.
Next Obligation. plain_packet. by destruct p. Qed.

#[export] Program Instance packet_request_duplicate : Packet request_duplicate := {
  p_encode := request_duplicate_encode; p_decode := request_duplicate_decode;
  p_ok p := in_u 8 (dup_server_flag p) /\ in_u 16 (dup_area p) /\ entry_ok (dup_key p)
            /\ entry_ok (dup_data p) /\ in_u 32 (dup_packet_id p)
            /\ in_s 32 (dup_bucket_number p);
  p_received p := mk_request_duplicate (dup_server_flag p) (dup_area p) (recv (dup_key p))
                    (recv (dup_data p)) (dup_packet_id p) (dup_bucket_number p)
}.
Next Obligation. plain_packet. done. Qed.

#[export] Program Instance packet_response_duplicate : Packet response_duplicate := {
  p_encode := response_duplicate_encode; p_decode := response_duplicate_decode;
  p_ok p := in_u 32 (rspd_packet_id p) /\ in_u 64 (rspd_server_id p)
            /\ in_s 32 (rspd_bucket_id p) /\ in_s 32 (rspd_ret_number p)
            /\ in_s 32 (rspd_list_size p);
  p_received p := p
}.
Next Obligation. plain_packet. by destruct p. Qed.
