(* ===== verification/ConfPackets.v ===== *)
(** * The packets of the config servers (packets/conf_heartbeat_packet.hpp,
      data_server_ctrl_packet.hpp, get_migrate_machine.hpp, get_group_packet.hpp,
      group_names_packet.hpp, query_info_packet.hpp, op_cmd_packet.hpp,
      heartbeat_packet.hpp, dump_packet.hpp, server_hash_table_packet.hpp)

    What data servers, clients and config servers tell each other about groups
    and tables.  A [char] array used as a C string is the list of its characters
    before the first NUL; a [std::string] is the list of its characters and is
    sent as a C string. *)

From stdpp Require Import sorting.
From S2P Require Import Prelude DataBuffer DataEntry BasePacket KvPackets.

(** ** Strings read from the wire *)

(** [char *s = NULL; input->readString(s, 0);] ([None]: [s] is still NULL) *)
Definition read_new_string : reader (option (list Z)) :=
  let? (_, s) := readString None 0 in
  rret (cstr <$> s).

(** [input->readString(p, len)] into an array of that length, and the array's
    last character set to NUL: the array's new bytes. *)
Definition read_array (arr : list Z) : reader (list Z) :=
  let? (_, s) := readString (Some arr) (Z.of_nat (length arr)) in
  rret (<[(length arr - 1)%nat := 0]> (default arr s)).

(** [std::map<string, string>]: its pairs by ascending key *)
#[export] Instance lex_lt_dec a b : Decision (lex_lt a b).
Proof. revert b. induction a; intros [|]; simpl; apply _. Defined.

Fixpoint smap_set (k v : list Z) (m : list (list Z * list Z)) : list (list Z * list Z) :=
  match m with
  | [] => [(k, v)]
  | (k', v') :: m' =>
      if decide (k = k') then (k, v) :: m'
      else if decide (lex_lt k k') then (k, v) :: m
      else (k', v') :: smap_set k v m'
  end.

(** [std::set] with an order [lt]: its elements in ascending order *)
Fixpoint ordered_insert {A} (lt : A -> A -> bool) (x : A) (l : list A) : list A :=
  match l with
  | [] => [x]
  | y :: l' => if lt x y then x :: l else if lt y x then y :: ordered_insert lt x l' else l
  end.

(** ** Plain packets *)

Record request_conf_heartbeart := mk_request_conf_heartbeart {
  conf_heartbeart_server_id : Z; conf_heartbeart_loop_count : Z
}.
Definition request_conf_heartbeart_encode (p : request_conf_heartbeart) : encoder :=
  always (fun output =>
    let output := writeInt64 (conf_heartbeart_server_id p) output in
    writeInt32 (conf_heartbeart_loop_count p) output).
Definition request_conf_heartbeart_decode (dataLen : Z) : reader request_conf_heartbeart :=
  datalen_check 12 dataLen (
    let? server_id := readInt64 in
    let? loop_count := readInt32 in
    rret (mk_request_conf_heartbeart server_id loop_count)).

Record request_data_server_ctrl := mk_request_data_server_ctrl {
  data_server_ctrl_server_id : Z; data_server_ctrl_cmd : Z
}.
Definition request_data_server_ctrl_encode (p : request_data_server_ctrl) : encoder :=
  always (fun output =>
    let output := writeInt64 (data_server_ctrl_server_id p) output in
    writeInt16 (data_server_ctrl_cmd p) output).
Definition request_data_server_ctrl_decode (dataLen : Z) : reader request_data_server_ctrl :=
  datalen_check 10 dataLen (
    let? server_id := readInt64 in
    let? cmd := readInt16 in
    rret (mk_request_data_server_ctrl server_id cmd)).

Record request_get_migrate_machine := mk_request_get_migrate_machine {
  get_migrate_machine_server_id : Z
}.
Definition request_get_migrate_machine_encode (p : request_get_migrate_machine) : encoder :=
  always (writeInt64 (get_migrate_machine_server_id p)).
Definition request_get_migrate_machine_decode (dataLen : Z) : reader request_get_migrate_machine :=
  datalen_check 8 dataLen (
    let? server_id := readInt64 in
    rret (mk_request_get_migrate_machine server_id)).

(** ** response_get_migrate_machine: server ids and numbers of buckets *)
Record response_get_migrate_machine := mk_response_get_migrate_machine {
  rmigrate_machine_vec_ms : list (Z * Z)
}.
Definition put_machine (ms : Z * Z) : writer := fun output => writeInt32 ms.2 (writeInt64 ms.1 output).
Definition get_machine : reader (Z * Z) :=
  let? server_id := readInt64 in
  let? count := readInt32 in
  rret (server_id, count).
Definition response_get_migrate_machine_encode (p : response_get_migrate_machine) : encoder :=
  always (fun output =>
    let output := writeInt32 (Z.of_nat (length (rmigrate_machine_vec_ms p))) output in
    write_all put_machine (rmigrate_machine_vec_ms p) output).
Definition response_get_migrate_machine_decode (dataLen : Z) : reader response_get_migrate_machine :=
  datalen_check 4 dataLen (
    let? size := readInt32 in
    let? vec_ms := read_n (Z.to_nat (s32 size)) get_machine in
    rret (mk_response_get_migrate_machine vec_ms)).

(** ** request_get_group, and request_get_server_table, which inherits it *)
Record request_get_group := mk_request_get_group {
  get_group_config_version : Z; get_group_group_name : list Z
}.
Definition request_get_group_encode (p : request_get_group) : encoder :=
  always (fun output =>
    let output := writeInt32 (get_group_config_version p) output in
    writeString (get_group_group_name p) output).
(** The first byte of a new object's [group_name] is NUL; the others are not
    read before they are written. *)
Definition request_get_group_decode (dataLen : Z) : reader request_get_group :=
  datalen_check 8 dataLen (
    let? config_version := readInt32 in
    let? (_, group_name) := readString (Some (replicate 64 0)) 64 in
    rret (mk_request_get_group config_version (cstr (default [] group_name)))).

(** ** server_hash_table_packet

    [hash_table_data] is [None] when nothing was allocated: [set_hash_table]
    ignores tables of more than [TAIR_MAX_DATA_SIZE] bytes, but keeps their size. *)
Definition TAIR_MAX_DATA_SIZE : Z := 1000000.
Record server_hash_table_packet := mk_server_hash_table_packet {
  hash_table_size : Z; hash_table_data : option (list Z)
}.
Definition new_server_hash_table : server_hash_table_packet := mk_server_hash_table_packet 0 None.

(** [set_hash_table(data, size)]; [None] is NULL: the block's bytes are not set. *)
Definition set_hash_table (data : option (list Z)) (size_h : Z) : server_hash_table_packet :=
  mk_server_hash_table_packet size_h
    (if (0 <? size_h) && (size_h <=? TAIR_MAX_DATA_SIZE)
     then Some (take (Z.to_nat size_h) (default (malloc (Z.to_nat size_h)) data))
     else None).

Definition put_hash_table (t : server_hash_table_packet) : writer := fun output =>
  let output := writeInt32 (hash_table_size t) output in
  match hash_table_data t with
  | Some data => if 0 <? hash_table_size t then writeBytes data output else output
  | None => output
  end.

(** [input->readBytes(hash_table_data, hash_table_size)] with its guard; the
    result of [readBytes] is not looked at. *)
Definition fill_hash_table (t : server_hash_table_packet) : reader server_hash_table_packet :=
  match hash_table_data t with
  | Some data =>
      if 0 <? hash_table_size t then
        let? r := readBytes (hash_table_size t) in
        rret (mk_server_hash_table_packet (hash_table_size t) (Some (default data r)))
      else rret t
  | None => rret t
  end.

(** ** response_get_group *)
Record response_get_group := mk_response_get_group {
  rget_group_bucket_count : Z; rget_group_copy_count : Z; rget_group_config_version : Z;
  rget_group_config_map : list (list Z * list Z);
  rget_group_hash_table : server_hash_table_packet;
  rget_group_available_server_ids : list Z
}.
Definition put_pair (kv : list Z * list Z) : writer := fun output =>
  writeString kv.2 (writeString kv.1 output).
Definition response_get_group_encode (p : response_get_group) : encoder :=
  always (fun output =>
    let output := writeInt32 (rget_group_bucket_count p) output in
    let output := writeInt32 (rget_group_copy_count p) output in
    let output := writeInt32 (rget_group_config_version p) output in
    let output := writeInt32 (Z.of_nat (length (rget_group_config_map p))) output in
    let output := write_all put_pair (rget_group_config_map p) output in
    let output := put_hash_table (rget_group_hash_table p) output in
    writeVector64 (rget_group_available_server_ids p) output).

(** The loop over the configuration: [key] and [value] are arrays outside the
    loop, so that an empty string leaves what the last one put there. *)
Fixpoint read_config (n : nat) (key value : list Z) (config_map : list (list Z * list Z))
    : reader (list (list Z * list Z)) :=
  match n with
  | O => rret config_map
  | S n' =>
      let? key := read_array key in
      let? value := read_array value in
      read_config n' key value (smap_set (cstr key) (cstr value) config_map)
  end.
Definition response_get_group_decode (dataLen : Z) : reader response_get_group :=
  datalen_check 12 dataLen (
    let? bucket_count := readInt32 in
    let? copy_count := readInt32 in
    let? config_version := readInt32 in
    let? size := readInt32 in
    let? config_map := read_config (Z.to_nat (s32 size)) (replicate 64 0) (replicate 1024 0) [] in
    reject_if (too_few (4 + hash_table_size new_server_hash_table)) (
      let? size_h := readInt32 in
      let? table := fill_hash_table (set_hash_table None (s32 size_h)) in
      let? size := readInt32 in
      let? ids := read_n (Z.to_nat (s32 size)) readInt64 in
      rret (mk_response_get_group bucket_count copy_count config_version config_map table
              (foldl (fun l id => ordered_insert Z.ltb id l) [] ids)))).

(** ** response_group_names; request_group_names inherits request_ping *)
Record response_group_names := mk_response_group_names {
  group_names_status : Z; group_names_list : list (list Z)
}.
Definition response_group_names_encode (p : response_group_names) : encoder :=
  always (fun output =>
    let output := writeInt32 (group_names_status p) output in
    let output := writeInt32 (Z.of_nat (length (group_names_list p))) output in
    write_all writeString (group_names_list p) output).
Fixpoint read_names (n : nat) (group_name : list Z) : reader (list (list Z)) :=
  match n with
  | O => rret []
  | S n' =>
      let? group_name := read_array group_name in
      let? names := read_names n' group_name in
      rret (cstr group_name :: names)
  end.
Definition response_group_names_decode (dataLen : Z) : reader response_group_names :=
  datalen_check 8 dataLen (
    let? status := readInt32 in
    let? count := readInt32 in
    let? names := read_names (Z.to_nat (s32 count)) (replicate 64 0) in
    rret (mk_response_group_names (s32 status) names)).

(** ** request_query_info, response_query_info *)
Record request_query_info := mk_request_query_info {
  query_info_query_type : Z; query_info_group_name : list Z; query_info_server_id : Z
}.
Definition request_query_info_encode (p : request_query_info) : encoder :=
  always (fun output =>
    let output := writeInt32 (query_info_query_type p) output in
    let output := writeString (query_info_group_name p) output in
    writeInt64 (query_info_server_id p) output).
Definition request_query_info_decode (dataLen : Z) : reader request_query_info :=
  datalen_check 12 dataLen (
    let? query_type := readInt32 in
    let? str := read_new_string in
    let? server_id := readInt64 in
    rret (mk_request_query_info query_type (default [] str) server_id)).

Record response_query_info := mk_response_query_info {
  rquery_info_map_k_v : list (list Z * list Z)
}.
Definition response_query_info_encode (p : response_query_info) : encoder :=
  always (fun output =>
    let output := writeInt32 (Z.of_nat (length (rquery_info_map_k_v p))) output in
    write_all put_pair (rquery_info_map_k_v p) output).
Definition read_pair : reader (list Z * list Z) :=
  let? key := read_new_string in
  let? value := read_new_string in
  rret (default [] key, default [] value).
Definition response_query_info_decode (dataLen : Z) : reader response_query_info :=
  datalen_check 4 dataLen (
    let? size := readInt32 in
    let? pairs := read_n (Z.to_nat size) read_pair in
    rret (mk_response_query_info (foldl (fun m kv => smap_set kv.1 kv.2 m) [] pairs))).

(** ** request_op_cmd, response_op_cmd *)
Record request_op_cmd := mk_request_op_cmd { op_cmd_cmd : Z; op_cmd_params : list (list Z) }.
Definition request_op_cmd_encode (p : request_op_cmd) : encoder :=
  always (fun output =>
    let output := writeInt32 (op_cmd_cmd p) output in
    let output := writeInt32 (Z.of_nat (length (op_cmd_params p))) output in
    write_all writeString (op_cmd_params p) output).
(** [params.push_back(tmp)] makes a [std::string] of a NULL pointer when the
    string sent was empty, which C++ leaves undefined. *)
Definition read_param : reader (list Z) :=
  let? tmp := read_new_string in
  match tmp with
  | Some s => rret s
  | None => fun _ => Overran
  end.
Definition request_op_cmd_decode (dataLen : Z) : reader request_op_cmd :=
  let? cmd := readInt32 in
  let? param_count := readInt32 in
  let? params := read_n (Z.to_nat (s32 param_count)) read_param in
  rret (mk_request_op_cmd (s32 cmd) params).

Record response_op_cmd := mk_response_op_cmd { rop_cmd_code : Z; rop_cmd_infos : list (list Z) }.
Definition response_op_cmd_encode (p : response_op_cmd) : encoder :=
  always (fun output =>
    let output := writeInt32 (rop_cmd_code p) output in
    let output := writeInt32 (Z.of_nat (length (rop_cmd_infos p))) output in
    write_all writeString (rop_cmd_infos p) output).
Definition response_op_cmd_decode (dataLen : Z) : reader response_op_cmd :=
  let? code := readInt32 in
  let? w := readInt32 in
  let ninfo := s32 w in
  if ninfo <? 0 then rfail
  else
    let? infos := read_n (Z.to_nat ninfo) read_param in
    rret (mk_response_op_cmd (s32 code) infos).

(** ** request_heartbeat *)
Record request_heartbeat := mk_request_heartbeat {
  heartbeat_server_flag : Z; heartbeat_server_id : Z; heartbeat_loop_count : Z;
  heartbeat_config_version : Z; heartbeat_status : Z; heartbeat_pull_migrated_info : Z;
  heartbeat_vec_bucket_no : list Z; heartbeat_plugins_version : Z;
  heartbeat_area_capacity_version : Z; heartbeat_vec_area_capacity_info : list (Z * Z);
  heartbeat_stat_info_size : Z; heartbeat_stat_info : list Z
}.
Definition put_capacity (ac : Z * Z) : writer := fun output => writeInt64 ac.2 (writeInt32 ac.1 output).
Definition get_capacity : reader (Z * Z) :=
  let? area := readInt32 in
  let? capacity := readInt64 in
  rret (area, capacity).
(** The compressed statistics: [stat_info_size] bytes at [stat_info] *)
Definition put_stat_info (stat_info_size : Z) (stat_info : list Z) : writer := fun output =>
  if 0 <? stat_info_size then writeBytes (take (Z.to_nat stat_info_size) stat_info) output else output.
Definition get_stat_info (stat_info_size : Z) : reader (list Z) :=
  if 0 <? stat_info_size then
    let? r := readBytes stat_info_size in
    rret (default (malloc (Z.to_nat stat_info_size)) r)
  else rret [].
Definition request_heartbeat_encode (p : request_heartbeat) : encoder :=
  always (fun output =>
    let output := writeInt8 (heartbeat_server_flag p) output in
    let output := writeInt64 (heartbeat_server_id p) output in
    let output := writeInt32 (heartbeat_loop_count p) output in
    let output := writeInt32 (heartbeat_config_version p) output in
    let output := writeInt32 (heartbeat_status p) output in
    let output := writeInt8 (heartbeat_pull_migrated_info p) output in
    let output := writeVector32 (heartbeat_vec_bucket_no p) output in
    let output := writeInt32 (heartbeat_plugins_version p) output in
    let output := writeInt32 (heartbeat_area_capacity_version p) output in
    let output := writeInt32 (Z.of_nat (length (heartbeat_vec_area_capacity_info p))) output in
    let output := write_all put_capacity (heartbeat_vec_area_capacity_info p) output in
    let output := writeInt32 (heartbeat_stat_info_size p) output in
    put_stat_info (heartbeat_stat_info_size p) (heartbeat_stat_info p) output).
Definition request_heartbeat_decode (dataLen : Z) : reader request_heartbeat :=
  datalen_check 12 dataLen (
    let? server_flag := readInt8 in
    let? server_id := readInt64 in
    let? loop_count := readInt32 in
    let? config_version := readInt32 in
    let? status := readInt32 in
    let? pull_migrated_info := readInt8 in
    let? size := readInt32 in
    let? vec_bucket_no := read_n (Z.to_nat size) readInt32 in
    let? plugins_version := readInt32 in
    let? area_capacity_version := readInt32 in
    let? capacityInfoSize := readInt32 in
    let? vec_area_capacity_info := read_n (Z.to_nat capacityInfoSize) get_capacity in
    let? w := readInt32 in
    let stat_info_size := s32 w in
    let? stat_info := get_stat_info stat_info_size in
    rret (mk_request_heartbeat server_flag server_id loop_count config_version status
            pull_migrated_info vec_bucket_no plugins_version area_capacity_version
            vec_area_capacity_info stat_info_size stat_info)).

(** ** response_heartbeat *)
Definition TAIR_MAX_FILENAME_LEN : Z := 256.
Record response_heartbeat := mk_response_heartbeat {
  rheartbeat_client_version : Z; rheartbeat_server_version : Z;
  rheartbeat_bucket_count : Z; rheartbeat_copy_count : Z;
  rheartbeat_down_slave_config_server : Z; rheartbeat_data_need_move : Z;
  rheartbeat_hash_table : server_hash_table_packet; rheartbeat_group_name : list Z;
  rheartbeat_plugins_flag : Z; rheartbeat_plugins_version : Z;
  rheartbeat_plugins_dll_names : list (list Z); rheartbeat_area_capacity_version : Z;
  rheartbeat_vec_area_capacity_info : list (Z * Z); rheartbeat_migrated_info : list Z
}.
Definition put_plugin (name : list Z) : writer := fun output =>
  let len := Z.min (Z.of_nat (length name)) (TAIR_MAX_FILENAME_LEN - 1) in
  writeBytes (take (Z.to_nat len) name) (writeInt32 len output).
Definition put_plugins (plugins_flag : Z) (names : list (list Z)) : writer := fun output =>
  if 0 <? plugins_flag then write_all put_plugin names output else output.
(** [char dll_name[TAIR_MAX_FILENAME_LEN]]: a longer name, or one whose bytes
    are not there, uses memory that holds no data. *)
Definition get_plugin : reader (list Z) :=
  let? len := readInt32 in
  if TAIR_MAX_FILENAME_LEN - 1 <? len then fun _ => Overran
  else
    let? r := readBytes len in
    match r with
    | Some name => rret (cstr name)
    | None => fun _ => Overran
    end.

(** [migrated_info.size() % (copy_count + 1)] in [uint32_t]; a division by zero
    kills the process, as the [assert] does. *)
Definition whole_columns (copy_count : Z) (size : nat) : bool :=
  negb (u32 (copy_count + 1) =? 0) && (Z.of_nat size mod u32 (copy_count + 1) =? 0).

(** Everything before the words of [migrated_info] *)
Definition put_response_heartbeat (p : response_heartbeat) : writer := fun output =>
  let output := writeInt32 (rheartbeat_client_version p) output in
  let output := writeInt32 (rheartbeat_server_version p) output in
  let output := writeInt32 (rheartbeat_bucket_count p) output in
  let output := writeInt32 (rheartbeat_copy_count p) output in
  let output := writeInt64 (rheartbeat_down_slave_config_server p) output in
  let output := writeInt32 (rheartbeat_data_need_move p) output in
  let output := put_hash_table (rheartbeat_hash_table p) output in
  let output := writeBytes (rheartbeat_group_name p) output in
  let output := writeInt32 (rheartbeat_plugins_flag p) output in
  let output := writeInt32 (rheartbeat_plugins_version p) output in
  let output := put_plugins (rheartbeat_plugins_flag p) (rheartbeat_plugins_dll_names p) output in
  let output := writeInt32 (rheartbeat_area_capacity_version p) output in
  let output := writeInt32 (Z.of_nat (length (rheartbeat_vec_area_capacity_info p))) output in
  let output := write_all put_capacity (rheartbeat_vec_area_capacity_info p) output in
  writeInt32 (Z.of_nat (length (rheartbeat_migrated_info p))) output.
Definition response_heartbeat_encode (p : response_heartbeat) : encoder := fun output =>
  let output := put_response_heartbeat p output in
  match rheartbeat_migrated_info p with
  | [] => Some (true, output)
  | migrated_info =>
      if whole_columns (rheartbeat_copy_count p) (length migrated_info)
      then Some (true, write_all writeInt64 migrated_info output)
      else None
  end.

Definition response_heartbeat_decode (dataLen : Z) : reader response_heartbeat :=
  datalen_check 20 dataLen (
    let? client_version := readInt32 in
    let? server_version := readInt32 in
    let? bucket_count := readInt32 in
    let? copy_count := readInt32 in
    let? down_slave_config_server := readInt64 in
    let? data_need_move := readInt32 in
    let? w := readInt32 in
    let table := set_hash_table None (s32 w) in
    reject_if (too_few (hash_table_size table)) (
      let? table := fill_hash_table table in
      let? r := readBytes 64 in
      let group_name := <[63%nat := 0]> (default (malloc 64) r) in
      let? w := readInt32 in
      let plugins_flag := s32 w in
      let? plugins_version := readInt32 in
      let? plugins_dll_names := read_n (Z.to_nat plugins_flag) get_plugin in
      let? area_capacity_version := readInt32 in
      let? capacityInfoSize := readInt32 in
      let? vec_area_capacity_info := read_n (Z.to_nat capacityInfoSize) get_capacity in
      let? size := readInt32 in
      if whole_columns copy_count 0 then
        let? migrated_info := read_n (Z.to_nat (s32 size)) readInt64 in
        rret (mk_response_heartbeat client_version server_version bucket_count copy_count
                down_slave_config_server (s32 data_need_move) table group_name plugins_flag
                plugins_version plugins_dll_names area_capacity_version
                vec_area_capacity_info migrated_info)
      else decode_asserts)).

(** ** request_dump *)
Record dump_meta_info := mk_dump_meta_info { start_time : Z; end_time : Z; dump_area : Z }.
Definition dump_meta_info_lt (a b : dump_meta_info) : bool :=
  if start_time a <? start_time b then true
  else if start_time b <? start_time a then false
  else if end_time a <? end_time b then true
  else if end_time b <? end_time a then false
  else dump_area a <? dump_area b.
Record request_dump := mk_request_dump { dump_info_set : list dump_meta_info }.
Definition put_dump_info (info : dump_meta_info) : writer := fun output =>
  writeInt32 (dump_area info) (writeInt32 (end_time info) (writeInt32 (start_time info) output)).
Definition get_dump_info : reader dump_meta_info :=
  let? start_time := readInt32 in
  let? end_time := readInt32 in
  let? area := readInt32 in
  rret (mk_dump_meta_info start_time end_time (s32 area)).
Definition request_dump_encode (p : request_dump) : encoder :=
  always (fun output =>
    let output := writeInt32 (Z.of_nat (length (dump_info_set p))) output in
    write_all put_dump_info (dump_info_set p) output).
Definition request_dump_decode (dataLen : Z) : reader request_dump :=
  let? size := readInt32 in
  let? infos := read_n (Z.to_nat (s32 size)) get_dump_info in
  rret (mk_request_dump (foldl (fun l info => ordered_insert dump_meta_info_lt info l) [] infos)).

(** ** Round trips *)

(** *** Strings *)

(** A string that can be sent: no NUL inside, and its length is an [int]. *)
Definition string_ok (s : list Z) : Prop := text s /\ Z.of_nat (S (length s)) < 2 ^ 31.

Lemma parses_new_string s :
  string_ok s ->
  parses read_new_string (string_bytes s) (match s with [] => None | _ => Some s end).
Proof.
  intros [Ht Hl]. apply parses_nil_r. unfold read_new_string.
  eapply parses_bind; [by apply parses_readString_new|]. cbv beta iota.
  eapply parses_eq; [apply parses_ret|done|].
  destruct s as [|c s]; [done|]. cbn [fmap option_fmap option_map]. by rewrite cstr_text.
Qed.

(** A string that fits an array, and is not empty, is what the array holds then. *)
Definition fits (n : nat) (s : list Z) : Prop :=
  text s /\ s <> [] /\ (length s < n)%nat.

Lemma parses_array arr s :
  Z.of_nat (length arr) < 2 ^ 31 -> fits (length arr) s ->
  exists arr', parses (read_array arr) (string_bytes s) arr'
    /\ length arr' = length arr /\ cstr arr' = s.
Proof.
  intros Harr (Ht & Hne & Hl).
  set (arr1 := s ++ [0] ++ drop (S (length s)) arr).
  assert (length arr1 = length arr) as Hlen
    by (unfold arr1; rewrite !length_app, length_drop; simpl; lia).
  exists (<[(length arr - 1)%nat := 0]> arr1). split.
  { apply parses_nil_r. unfold read_array.
    eapply parses_bind; [apply parses_readString; [done|lia]|]. cbv beta iota.
    eapply parses_eq; [apply parses_ret|done|]. by destruct s. }
  split; [by rewrite length_insert|].
  unfold arr1. destruct (decide (length arr - 1 = length s)%nat) as [->|Hn].
  - replace (length s) with (length s + 0)%nat at 1 by lia. rewrite insert_app_r.
    simpl. by apply cstr_text.
  - rewrite insert_app_r_alt by lia.
    destruct (length arr - 1 - length s)%nat as [|k] eqn:Ek; [lia|]. simpl. by apply cstr_text.
Qed.

(** *** Ordered maps and sets *)

Lemma smap_set_last k v m :
  Forall (fun kv => lex_lt kv.1 k) m -> smap_set k v m = m ++ [(k, v)].
Proof.
  induction 1 as [|[k' v'] m Hlt Hm IH]; [done|]. simpl in *.
  destruct (decide (k = k')) as [->|_]; [by destruct (lex_lt_irrefl k')|].
  destruct (decide (lex_lt k k')) as [H|_].
  - exfalso. by eapply lex_lt_irrefl, lex_lt_trans.
  - by rewrite IH.
Qed.

Definition key_lt (a b : list Z * list Z) : Prop := lex_lt a.1 b.1.

Lemma sorted_before {A} (R : A -> A -> Prop) l x l' :
  StronglySorted R (l ++ x :: l') -> Forall (fun y => R y x) l /\ StronglySorted R ((l ++ [x]) ++ l').
Proof.
  intros H. rewrite <- app_assoc. split; [|done].
  induction l as [|y l IH]; [done|]. inversion H as [|? ? Hs Hf]; subst.
  constructor; [|by apply IH]. rewrite list.Forall_app in Hf. destruct Hf as [_ Hf]. by inversion Hf.
Qed.

Lemma fold_smap m l :
  StronglySorted key_lt (m ++ l) ->
  foldl (fun m kv => smap_set kv.1 kv.2 m) m l = m ++ l.
Proof.
  revert m. induction l as [|[k v] l IH]; intros m Hs; [by rewrite app_nil_r|].
  destruct (sorted_before key_lt m (k, v) l Hs) as [Hb Hs']. simpl.
  rewrite smap_set_last by exact Hb. rewrite IH by done. by rewrite <- app_assoc.
Qed.

Section ordered.
Context {A} (lt : A -> A -> bool).
Hypothesis lt_asym : forall x y, lt x y = true -> lt y x = false.

Lemma ordered_insert_last x l :
  Forall (fun y => lt y x = true) l -> ordered_insert lt x l = l ++ [x].
Proof.
  induction 1 as [|y l Hy Hl IH]; [done|]. simpl. by rewrite (lt_asym y x Hy), Hy, IH.
Qed.

Lemma fold_ordered m l :
  StronglySorted (fun x y => lt x y = true) (m ++ l) ->
  foldl (fun m x => ordered_insert lt x m) m l = m ++ l.
Proof.
  revert m. induction l as [|x l IH]; intros m Hs; [by rewrite app_nil_r|].
  destruct (sorted_before _ m x l Hs) as [Hb Hs']. simpl.
  rewrite ordered_insert_last by exact Hb. rewrite IH by done. by rewrite <- app_assoc.
Qed.
End ordered.

(** *** Lists of pairs and of strings *)

Definition machine_bytes (ms : Z * Z) : list Z := be_split 8 ms.1 ++ be_split 4 ms.2.
Definition machine_ok (ms : Z * Z) : Prop := in_u 64 ms.1 /\ in_u 32 ms.2.
Definition capacity_bytes (ac : Z * Z) : list Z := be_split 4 ac.1 ++ be_split 8 ac.2.
Definition capacity_ok (ac : Z * Z) : Prop := in_u 32 ac.1 /\ in_u 64 ac.2.
Definition pair_text (kv : list Z * list Z) : list Z := string_bytes kv.1 ++ string_bytes kv.2.
Definition plugin_bytes (name : list Z) : list Z := be_split 4 (Z.of_nat (length name)) ++ name.
Definition plugin_ok (name : list Z) : Prop := text name /\ Z.of_nat (length name) < TAIR_MAX_FILENAME_LEN.
Definition dump_info_bytes (d : dump_meta_info) : list Z :=
  be_split 4 (start_time d) ++ be_split 4 (end_time d) ++ be_split 4 (dump_area d).
Definition dump_info_ok (d : dump_meta_info) : Prop :=
  in_u 32 (start_time d) /\ in_u 32 (end_time d) /\ in_s 32 (dump_area d).

Lemma emits_machines l : emits (write_all put_machine l) (concat (map machine_bytes l)).
Proof. apply emits_write_all. intros x _. unfold put_machine, machine_bytes. emit_tac. Qed.
Lemma emits_capacities l : emits (write_all put_capacity l) (concat (map capacity_bytes l)).
Proof. apply emits_write_all. intros x _. unfold put_capacity, capacity_bytes. emit_tac. Qed.
Lemma emits_pair_list l : emits (write_all put_pair l) (concat (map pair_text l)).
Proof. apply emits_write_all. intros x _. unfold put_pair, pair_text. emit_tac. Qed.
Lemma emits_strings l : emits (write_all writeString l) (concat (map string_bytes l)).
Proof. apply emits_write_all. intros x _. apply emits_writeString. Qed.
Lemma emits_dump_infos l : emits (write_all put_dump_info l) (concat (map dump_info_bytes l)).
Proof.
  apply emits_write_all. intros x _. unfold put_dump_info, dump_info_bytes.
  eapply emits_eq; [emit_tac|by rewrite <- app_assoc].
Qed.
Lemma emits_plugins l :
  Forall plugin_ok l -> emits (write_all put_plugin l) (concat (map plugin_bytes l)).
Proof.
  intros Hl. apply emits_write_all. intros x Hx.
  apply (proj1 (list.Forall_forall _ _) Hl) in Hx as [_ Hx]. unfold put_plugin, plugin_bytes. cbv zeta.
  rewrite Z.min_l by lia. rewrite Nat2Z.id, firstn_all. emit_tac.
Qed.

Lemma parses_map_id {A} (rd : reader A) (f : A -> list Z) l :
  Forall (fun x => parses rd (f x) x) l -> parses (read_n (length l) rd) (concat (map f l)) l.
Proof. intros Hl. eapply parses_eq; [by apply (parses_read_map rd f (fun x => x))|done|apply map_id]. Qed.

Lemma parses_machines l :
  Forall machine_ok l -> parses (read_n (length l) get_machine) (concat (map machine_bytes l)) l.
Proof.
  intros Hl. apply parses_map_id. eapply list.Forall_impl; [exact Hl|]. intros [i c] [Hi Hc].
  apply parses_nil_r. unfold get_machine, machine_bytes. rewrite <- app_assoc. parse_tac.
  simpl in *. by fields.
Qed.
Lemma parses_capacities l :
  Forall capacity_ok l -> parses (read_n (length l) get_capacity) (concat (map capacity_bytes l)) l.
Proof.
  intros Hl. apply parses_map_id. eapply list.Forall_impl; [exact Hl|]. intros [i c] [Hi Hc].
  apply parses_nil_r. unfold get_capacity, capacity_bytes. rewrite <- app_assoc. parse_tac.
  simpl in *. by fields.
Qed.
Lemma parses_dump_infos l :
  Forall dump_info_ok l -> parses (read_n (length l) get_dump_info) (concat (map dump_info_bytes l)) l.
Proof.
  intros Hl. apply parses_map_id. eapply list.Forall_impl; [exact Hl|]. intros d (Hs & He & Ha).
  apply parses_nil_r. unfold get_dump_info, dump_info_bytes. rewrite <- !app_assoc. parse_tac.
  fields. by destruct d.
Qed.
Lemma parses_ints32 l :
  Forall (in_u 32) l -> parses (read_n (length l) readInt32) (concat (map (be_split 4) l)) l.
Proof.
  intros Hl. apply parses_map_id. eapply list.Forall_impl; [exact Hl|]. intros z Hz.
  eapply parses_eq; [apply parses_readInt32|done|]. by fields.
Qed.
Lemma parses_ints64 l :
  Forall (in_u 64) l -> parses (read_n (length l) readInt64) (concat (map (be_split 8) l)) l.
Proof.
  intros Hl. apply parses_map_id. eapply list.Forall_impl; [exact Hl|]. intros z Hz.
  eapply parses_eq; [apply parses_readInt64|done|]. by fields.
Qed.
Lemma parses_pairs_text l :
  Forall (fun kv => string_ok kv.1 /\ string_ok kv.2) l ->
  parses (read_n (length l) read_pair) (concat (map pair_text l)) l.
Proof.
  intros Hl. apply parses_map_id. eapply list.Forall_impl; [exact Hl|]. intros [k v] [Hk Hv].
  apply parses_nil_r. unfold read_pair, pair_text. rewrite <- app_assoc. simpl in *.
  eapply parses_bind; [by apply parses_new_string|]. eapply parses_bind; [by apply parses_new_string|].
  parse_tac. by destruct k, v.
Qed.
Lemma parses_params l :
  Forall (fun s => string_ok s /\ s <> []) l ->
  parses (read_n (length l) read_param) (concat (map string_bytes l)) l.
Proof.
  intros Hl. apply parses_map_id. eapply list.Forall_impl; [exact Hl|]. intros s [Hs Hne].
  apply parses_nil_r. unfold read_param.
  eapply parses_bind; [by apply parses_new_string|]. destruct s; [done|]. apply parses_ret.
Qed.
Lemma parses_plugins l :
  Forall plugin_ok l ->
  parses (read_n (length l) get_plugin) (concat (map plugin_bytes l)) l.
Proof.
  intros Hl. apply parses_map_id. eapply list.Forall_impl; [exact Hl|]. intros s [Ht Hs].
  unfold TAIR_MAX_FILENAME_LEN in Hs.
  apply parses_nil_r. unfold get_plugin, plugin_bytes. rewrite <- app_assoc. parse_step. cbv beta.
  rewrite wrap_id by (unfold in_u; lia). rewrite (proj2 (Z.ltb_ge _ _)) by (unfold TAIR_MAX_FILENAME_LEN; lia).
  eapply parses_bind; [apply parses_readBytes|]. eapply parses_eq; [apply parses_ret|done|].
  rewrite <- (cstr_text s [] Ht) at 2. clear. induction s as [|c s IH]; [done|]. simpl.
  destruct (c =? 0); [done|]. by f_equal.
Qed.

#[export] Hint Resolve emits_machines emits_capacities emits_pair_list emits_strings
  emits_dump_infos emits_plugins parses_machines parses_capacities parses_dump_infos
  parses_ints32 parses_ints64 parses_pairs_text parses_params parses_plugins
  parses_new_string : tair.

(** The number of elements of a list that was sent. *)
Definition count_ok {A} (l : list A) : Prop := Z.of_nat (length l) < 2 ^ 31.
Lemma count_s32 {A} (l : list A) :
  count_ok l -> Z.to_nat (s32 (u32 (Z.of_nat (length l)))) = length l.
Proof. intros H. rewrite s32_u32 by (unfold count_ok, in_s in *; lia). lia. Qed.
Lemma count_u32 {A} (l : list A) :
  count_ok l -> Z.to_nat (u32 (Z.of_nat (length l))) = length l.
Proof. intros H. rewrite wrap_id by (unfold count_ok, in_u in *; lia). lia. Qed.

(** Like [packet_parse], with the counts of lists. *)
Ltac counts := rewrite ?count_s32, ?count_u32 by assumption.
Ltac list_parse := cbv beta zeta; repeat (packet_step; counts).
Ltac list_packet :=
  plain_packet_start; packet_start; match goal with |- parses (?f _) _ _ => unfold f end;
  list_parse.

(** *** The packets *)

#[export] Program Instance packet_request_conf_heartbeart : Packet request_conf_heartbeart := {
  p_encode := request_conf_heartbeart_encode; p_decode := request_conf_heartbeart_decode;
  p_ok p := in_u 64 (conf_heartbeart_server_id p) /\ in_u 32 (conf_heartbeart_loop_count p);
  p_received p := p
}.
Next Obligation. plain_packet. by destruct p. Qed.

#[export] Program Instance packet_request_data_server_ctrl : Packet request_data_server_ctrl := {
  p_encode := request_data_server_ctrl_encode; p_decode := request_data_server_ctrl_decode;
  p_ok p := in_u 64 (data_server_ctrl_server_id p) /\ in_u 16 (data_server_ctrl_cmd p);
  p_received p := p
}.
Next Obligation. plain_packet. by destruct p. Qed.

#[export] Program Instance packet_request_get_migrate_machine : Packet request_get_migrate_machine := {
  p_encode := request_get_migrate_machine_encode; p_decode := request_get_migrate_machine_decode;
  p_ok p := in_u 64 (get_migrate_machine_server_id p);
  p_received p := p
}.
Next Obligation. plain_packet. by destruct p. Qed.

#[export] Program Instance packet_response_get_migrate_machine : Packet response_get_migrate_machine := {
  p_encode := response_get_migrate_machine_encode; p_decode := response_get_migrate_machine_decode;
  p_ok p := count_ok (rmigrate_machine_vec_ms p) /\ Forall machine_ok (rmigrate_machine_vec_ms p);
  p_received p := p
}.
Next Obligation. list_packet. by destruct p. Qed.

Definition array_text (n : nat) (s : list Z) : Prop := text s /\ (length s < n)%nat.

(** A C string read into a new object's array. *)
Lemma parses_name n s :
  Z.of_nat n < 2 ^ 31 -> array_text n s ->
  parses (let? (_, p) := readString (Some (replicate n 0)) (Z.of_nat n) in rret (cstr (default [] p)))
    (string_bytes s) s.
Proof.
  intros Hn [Ht Hl]. apply parses_nil_r. eapply parses_bind.
  { pose proof (parses_readString (replicate n 0) s) as H. rewrite length_replicate in H. apply H; lia. }
  cbv beta iota. eapply parses_eq; [apply parses_ret|done|].
  destruct s as [|c s]; [|by apply cstr_text]. by destruct n.
Qed.

#[export] Program Instance packet_request_get_group : Packet request_get_group := {
  p_encode := request_get_group_encode; p_decode := request_get_group_decode;
  p_ok p := in_u 32 (get_group_config_version p) /\ array_text 64 (get_group_group_name p);
  p_received p := p
}.
Next Obligation.
  intros p (Hv & Ht & Hl). packet_start. apply parses_datalen.
  { etrans; [|exact HdataLen]. destruct (get_group_group_name p); unfold string_bytes; len_tac. }
  parse_step. eapply parses_bind.
  { apply (parses_readString (replicate 64 0)); [by rewrite length_replicate|lia]. }
  cbv beta iota. parse_tac. fields. destruct p as [v name]. cbn [get_group_config_version get_group_group_name] in *.
  f_equal. destruct name; [done|]. by apply cstr_text.
Qed.

(** The table of a packet: one that was allocated, or none. *)
Definition hash_table_ok (t : server_hash_table_packet) : Prop :=
  match hash_table_data t with
  | Some data => hash_table_size t = Z.of_nat (length data) /\ 0 < hash_table_size t <= TAIR_MAX_DATA_SIZE
  | None => hash_table_size t = 0
  end.
Definition hash_table_bytes (t : server_hash_table_packet) : list Z :=
  be_split 4 (hash_table_size t) ++ default [] (hash_table_data t).

Lemma emits_hash_table t : hash_table_ok t -> emits (put_hash_table t) (hash_table_bytes t).
Proof.
  unfold hash_table_ok, put_hash_table, hash_table_bytes.
  destruct (hash_table_data t) as [data|]; cbn [default from_option].
  - intros [_ H]. rewrite (proj2 (Z.ltb_lt _ _)) by lia. emit_tac.
  - intros _. eapply emits_eq; [emit_tac|by rewrite app_nil_r].
Qed.

Lemma set_hash_table_size t :
  hash_table_ok t ->
  s32 (u32 (hash_table_size t)) = hash_table_size t
  /\ hash_table_size (set_hash_table None (hash_table_size t)) = hash_table_size t.
Proof.
  unfold hash_table_ok, set_hash_table, TAIR_MAX_DATA_SIZE. intros H. split; [|done].
  apply s32_u32. unfold in_s. destruct (hash_table_data t); lia.
Qed.

Lemma hash_table_length t :
  hash_table_ok t -> hash_table_size t = Z.of_nat (length (default [] (hash_table_data t))).
Proof. unfold hash_table_ok. by destruct (hash_table_data t); [intros [-> _]|intros ->]. Qed.

Lemma parses_hash_table t :
  hash_table_ok t ->
  parses (fill_hash_table (set_hash_table None (hash_table_size t))) (default [] (hash_table_data t)) t.
Proof.
  unfold hash_table_ok, set_hash_table, fill_hash_table. destruct t as [n data]. simpl.
  destruct data as [data|]; simpl.
  - intros [-> H]. rewrite (proj2 (Z.ltb_lt _ _)), (proj2 (Z.leb_le _ _)) by lia. cbn [andb].
    apply parses_nil_r. eapply parses_bind; [apply parses_readBytes|]. apply parses_ret.
  - intros ->. simpl. apply parses_ret.
Qed.
#[export] Hint Resolve emits_hash_table parses_hash_table : tair.

(** The configuration as it is sent: by ascending key, every string present and
    fitting its array. *)
Definition config_ok (m : list (list Z * list Z)) : Prop :=
  count_ok m /\ StronglySorted key_lt m /\ Forall (fun kv => fits 64 kv.1 /\ fits 1024 kv.2) m.

Lemma parses_config l key value m :
  length key = 64%nat -> length value = 1024%nat ->
  Forall (fun kv => fits 64 kv.1 /\ fits 1024 kv.2) l ->
  parses (read_config (length l) key value m) (concat (map pair_text l))
    (foldl (fun m kv => smap_set kv.1 kv.2 m) m l).
Proof.
  intros Hk Hv Hl. revert key value m Hk Hv.
  induction Hl as [|[k v] l [Hfk Hfv] Hl IH]; intros key value m Hk Hv; [apply parses_ret|].
  cbn [length read_config map concat foldl fst snd] in *. unfold pair_text at 1. simpl. rewrite <- app_assoc.
  destruct (parses_array key k) as (key' & Hpk & Hk' & Ek); [lia|by rewrite Hk|].
  destruct (parses_array value v) as (value' & Hpv & Hv' & Ev); [lia|by rewrite Hv|].
  eapply parses_bind; [exact Hpk|]. eapply parses_bind; [exact Hpv|]. rewrite Ek, Ev.
  apply IH; congruence.
Qed.

Lemma parses_config_map m :
  config_ok m ->
  parses (read_config (length m) (replicate 64 0) (replicate 1024 0) []) (concat (map pair_text m)) m.
Proof.
  intros (_ & Hs & Hf). eapply parses_eq; [by apply parses_config; rewrite ?length_replicate|done|].
  by apply fold_smap.
Qed.
#[export] Hint Resolve parses_config_map : tair.

Lemma id_order l : StronglySorted Z.lt l -> foldl (fun l id => ordered_insert Z.ltb id l) [] l = l.
Proof.
  intros H. apply (fold_ordered Z.ltb).
  - intros x y. rewrite Z.ltb_lt, Z.ltb_ge. lia.
  - induction H as [|x l Hs IH Hf]; constructor; [done|].
    eapply list.Forall_impl; [exact Hf|]. intros y. by apply Z.ltb_lt.
Qed.

#[export] Program Instance packet_response_get_group : Packet response_get_group := {
  p_encode := response_get_group_encode; p_decode := response_get_group_decode;
  p_ok p := in_u 32 (rget_group_bucket_count p) /\ in_u 32 (rget_group_copy_count p)
    /\ in_u 32 (rget_group_config_version p) /\ config_ok (rget_group_config_map p)
    /\ hash_table_ok (rget_group_hash_table p)
    /\ count_ok (rget_group_available_server_ids p)
    /\ Forall (in_u 64) (rget_group_available_server_ids p)
    /\ StronglySorted Z.lt (rget_group_available_server_ids p);
  p_received p := p
}.
Next Obligation.
  plain_packet_start. destruct (set_hash_table_size (rget_group_hash_table p)) as [Hs _]; [done|].
  assert (count_ok (rget_group_config_map p)) by (match goal with H : config_ok _ |- _ => apply H end). packet_start.
  match goal with |- parses (?f _) _ _ => unfold f end.
  cbv beta zeta; repeat (packet_step; counts). unfold hash_table_bytes. rewrite <- ?app_assoc.
  apply parses_too_few.
  { change (hash_table_size new_server_hash_table) with 0. len_tac. }
  packet_step. rewrite Hs. repeat (packet_step; counts). rewrite id_order by done. fields. by destruct p.
Qed.

Lemma parses_names l arr :
  length arr = 64%nat -> Forall (fits 64) l ->
  parses (read_names (length l) arr) (concat (map string_bytes l)) l.
Proof.
  intros Ha Hl. revert arr Ha. induction Hl as [|s l Hs Hl IH]; intros arr Ha; [apply parses_ret|].
  cbn [length read_names map concat].
  destruct (parses_array arr s) as (arr' & Hp & Ha' & E); [lia|by rewrite Ha|].
  eapply parses_bind; [exact Hp|]. apply parses_nil_r.
  eapply parses_bind; [apply IH; congruence|]. rewrite E. apply parses_ret.
Qed.

(** An empty group name would be received as the one before it. *)
#[export] Program Instance packet_response_group_names : Packet response_group_names := {
  p_encode := response_group_names_encode; p_decode := response_group_names_decode;
  p_ok p := in_s 32 (group_names_status p) /\ count_ok (group_names_list p)
    /\ Forall (fits 64) (group_names_list p);
  p_received p := p
}.
Next Obligation.
  list_packet. eapply parses_bind; [by apply parses_names|]. parse_tac. fields. by destruct p.
Qed.

#[export] Program Instance packet_request_query_info : Packet request_query_info := {
  p_encode := request_query_info_encode; p_decode := request_query_info_decode;
  p_ok p := in_u 32 (query_info_query_type p) /\ string_ok (query_info_group_name p)
    /\ in_u 64 (query_info_server_id p);
  p_received p := p
}.
Next Obligation.
  list_packet. fields. destruct p as [t name i]. simpl. by destruct name.
Qed.

#[export] Program Instance packet_response_query_info : Packet response_query_info := {
  p_encode := response_query_info_encode; p_decode := response_query_info_decode;
  p_ok p := count_ok (rquery_info_map_k_v p) /\ StronglySorted key_lt (rquery_info_map_k_v p)
    /\ Forall (fun kv => string_ok kv.1 /\ string_ok kv.2) (rquery_info_map_k_v p);
  p_received p := p
}.
Next Obligation. list_packet. rewrite fold_smap by done. by destruct p. Qed.

#[export] Program Instance packet_request_op_cmd : Packet request_op_cmd := {
  p_encode := request_op_cmd_encode; p_decode := request_op_cmd_decode;
  p_ok p := in_s 32 (op_cmd_cmd p) /\ count_ok (op_cmd_params p)
    /\ Forall (fun s => string_ok s /\ s <> []) (op_cmd_params p);
  p_received p := p
}.
Next Obligation. list_packet. fields. by destruct p. Qed.

#[export] Program Instance packet_response_op_cmd : Packet response_op_cmd := {
  p_encode := response_op_cmd_encode; p_decode := response_op_cmd_decode;
  p_ok p := in_s 32 (rop_cmd_code p) /\ count_ok (rop_cmd_infos p)
    /\ Forall (fun s => string_ok s /\ s <> []) (rop_cmd_infos p);
  p_received p := p
}.
Next Obligation.
  list_packet. rewrite (s32_u32 (Z.of_nat _)) by (unfold count_ok, in_s in *; lia).
  rewrite (proj2 (Z.ltb_ge _ _)) by lia. cbv iota.
  list_parse. fields. by destruct p.
Qed.

(** The statistics block of a heartbeat, if there is one. *)
Lemma emits_stat_info n block :
  n = Z.of_nat (length block) -> emits (put_stat_info n block) block.
Proof.
  intros ->. unfold put_stat_info. rewrite Nat2Z.id, firstn_all.
  destruct block; [apply emits_id|]. apply emits_writeBytes.
Qed.

Lemma parses_stat_info n block :
  n = Z.of_nat (length block) -> parses (get_stat_info n) block block.
Proof.
  intros ->. unfold get_stat_info. destruct block; [apply parses_ret|]. apply parses_nil_r.
  eapply parses_bind; [apply parses_readBytes|apply parses_ret].
Qed.
#[export] Hint Resolve emits_stat_info parses_stat_info : tair.

Definition request_heartbeat_ok (p : request_heartbeat) : Prop :=
  in_u 8 (heartbeat_server_flag p) /\ in_u 64 (heartbeat_server_id p)
  /\ in_u 32 (heartbeat_loop_count p) /\ in_u 32 (heartbeat_config_version p)
  /\ in_u 32 (heartbeat_status p) /\ in_u 8 (heartbeat_pull_migrated_info p)
  /\ count_ok (heartbeat_vec_bucket_no p) /\ Forall (in_u 32) (heartbeat_vec_bucket_no p)
  /\ in_u 32 (heartbeat_plugins_version p) /\ in_u 32 (heartbeat_area_capacity_version p)
  /\ count_ok (heartbeat_vec_area_capacity_info p)
  /\ Forall capacity_ok (heartbeat_vec_area_capacity_info p)
  /\ count_ok (heartbeat_stat_info p)
  /\ heartbeat_stat_info_size p = Z.of_nat (length (heartbeat_stat_info p)).

#[export] Program Instance packet_request_heartbeat : Packet request_heartbeat := {
  p_encode := request_heartbeat_encode; p_decode := request_heartbeat_decode;
  p_ok := request_heartbeat_ok; p_received p := p
}.
Next Obligation.
  unfold request_heartbeat_ok. plain_packet_start.
  assert (s32 (u32 (heartbeat_stat_info_size p)) = heartbeat_stat_info_size p) as Es
    by (apply s32_u32; unfold count_ok, in_s in *; lia).
  packet_start. match goal with |- parses (?f _) _ _ => unfold f end.
  list_parse. rewrite Es. list_parse. fields. by destruct p.
Qed.

Lemma emits_plugin_list n l :
  n = Z.of_nat (length l) -> Forall plugin_ok l ->
  emits (put_plugins n l) (concat (map plugin_bytes l)).
Proof.
  intros -> Hl. unfold put_plugins. destruct l; [apply emits_id|]. by apply emits_plugins.
Qed.
#[export] Hint Resolve emits_plugin_list : tair.

(** A heartbeat's answer that arrives as it was sent, but for the last byte of
    the group name: [plugins_flag] is the number of plugins and [migrated_info]
    holds whole columns. *)
Definition response_heartbeat_ok (p : response_heartbeat) : Prop :=
  in_u 32 (rheartbeat_client_version p) /\ in_u 32 (rheartbeat_server_version p)
  /\ in_u 32 (rheartbeat_bucket_count p) /\ in_u 32 (rheartbeat_copy_count p)
  /\ in_u 64 (rheartbeat_down_slave_config_server p) /\ in_s 32 (rheartbeat_data_need_move p)
  /\ hash_table_ok (rheartbeat_hash_table p) /\ length (rheartbeat_group_name p) = 64%nat
  /\ count_ok (rheartbeat_plugins_dll_names p)
  /\ rheartbeat_plugins_flag p = Z.of_nat (length (rheartbeat_plugins_dll_names p))
  /\ in_u 32 (rheartbeat_plugins_version p) /\ Forall plugin_ok (rheartbeat_plugins_dll_names p)
  /\ in_u 32 (rheartbeat_area_capacity_version p)
  /\ count_ok (rheartbeat_vec_area_capacity_info p)
  /\ Forall capacity_ok (rheartbeat_vec_area_capacity_info p)
  /\ count_ok (rheartbeat_migrated_info p) /\ Forall (in_u 64) (rheartbeat_migrated_info p)
  /\ whole_columns (rheartbeat_copy_count p) (length (rheartbeat_migrated_info p)) = true.

Definition response_heartbeat_received (p : response_heartbeat) : response_heartbeat :=
  mk_response_heartbeat (rheartbeat_client_version p) (rheartbeat_server_version p)
    (rheartbeat_bucket_count p) (rheartbeat_copy_count p) (rheartbeat_down_slave_config_server p)
    (rheartbeat_data_need_move p) (rheartbeat_hash_table p)
    (<[63%nat := 0]> (rheartbeat_group_name p)) (rheartbeat_plugins_flag p)
    (rheartbeat_plugins_version p) (rheartbeat_plugins_dll_names p)
    (rheartbeat_area_capacity_version p) (rheartbeat_vec_area_capacity_info p)
    (rheartbeat_migrated_info p).

Lemma response_heartbeat_always p :
  whole_columns (rheartbeat_copy_count p) (length (rheartbeat_migrated_info p)) = true ->
  response_heartbeat_encode p
  = always (fun output =>
      write_all writeInt64 (rheartbeat_migrated_info p) (put_response_heartbeat p output)).
Proof.
  intros H. unfold response_heartbeat_encode, always.
  destruct (rheartbeat_migrated_info p); [done|]. by rewrite H.
Qed.

Lemma emits_ints64 l : emits (write_all writeInt64 l) (concat (map (be_split 8) l)).
Proof. apply emits_write_all. intros. apply emits_writeInt64. Qed.
#[export] Hint Resolve emits_ints64 : tair.

Lemma parses_group_name l :
  length l = 64%nat -> parses (readBytes 64) l (Some l).
Proof. intros H. pose proof (parses_readBytes l) as Hp. by rewrite H in Hp. Qed.
#[export] Hint Resolve parses_group_name : tair.

#[export] Program Instance packet_response_heartbeat : Packet response_heartbeat := {
  p_encode := response_heartbeat_encode; p_decode := response_heartbeat_decode;
  p_ok := response_heartbeat_ok; p_received := response_heartbeat_received
}.
Next Obligation.
  unfold response_heartbeat_ok. plain_packet_start.
  destruct (set_hash_table_size (rheartbeat_hash_table p)) as [Hs _]; [done|].
  assert (s32 (u32 (rheartbeat_plugins_flag p)) = rheartbeat_plugins_flag p) as Ef
    by (apply s32_u32; unfold count_ok, in_s in *; lia).
  assert (whole_columns (rheartbeat_copy_count p) 0 = true) as Hw.
  { match goal with E : whole_columns _ _ = true |- _ => unfold whole_columns in *;
      apply andb_prop in E as [-> _] end. by rewrite Zmod_0_l. }
  rewrite response_heartbeat_always by done. unfold put_response_heartbeat.
  packet_start. match goal with |- parses (?f _) _ _ => unfold f end.
  list_parse. unfold hash_table_bytes. rewrite <- ?app_assoc. list_parse. rewrite Hs.
  apply parses_too_few.
  { rewrite length_app, Nat2Z.inj_add, <- hash_table_length by done. simpl. lia. }
  repeat (packet_step; rewrite ?Ef). match goal with E : rheartbeat_plugins_flag p = _ |- _ =>
    rewrite E, Nat2Z.id at 1 end.
  list_parse. rewrite wrap_id by done. rewrite Hw. cbv iota. list_parse.
  unfold response_heartbeat_received. fields. simpl. congruence.
Qed.

#[export] Program Instance packet_request_dump : Packet request_dump := {
  p_encode := request_dump_encode; p_decode := request_dump_decode;
  p_ok p := count_ok (dump_info_set p) /\ Forall dump_info_ok (dump_info_set p)
    /\ StronglySorted (fun a b => dump_meta_info_lt a b = true) (dump_info_set p);
  p_received p := p
}.
Next Obligation.
  list_packet. rewrite fold_ordered; [by destruct p| |done].
  intros a b. unfold dump_meta_info_lt. by zsolve.
Qed.
