(* ===== verification/KeyPackets.v ===== *)
(** * Packets about whole keys (packets/*_packet.hpp)

    Time to live, type and existence of a key, the filters, and the packets that
    clear, dump or load an area. [request_addfilter], [request_dump_area] and
    [request_load_area] are written without a server flag and read with one, so
    they are instances of [Codec] that cannot be read.

    One section per file: expire, expireat, persist, ttl, type, exists, info,
    lazy_remove_area, dump_area, load_area, addfilter. *)

From S2P Require Import Prelude DataBuffer DataEntry BasePacket KvPackets.

(** ** expire_packet.hpp *)

Record request_expire := mk_request_expire {
  expire_server_flag : Z; expire_area : Z; expire_expiretime : Z; expire_key : data_entry
}.
Definition request_expire_encode (p : request_expire) : encoder :=
  always (fun output =>
    let output := CREATE_HEADER (expire_server_flag p) (expire_area p) output in
    let output := writeInt32 (expire_expiretime p) output in
    PUT_DATAENTRY (expire_key p) output).
Definition request_expire_decode (dataLen : Z) : reader request_expire :=
  let? (server_flag, area) := HEADER_VERIFY dataLen in
  let? expiretime := GETKEY_INT32 in
  let? key := GETKEY_DATAENTRY new_data_entry in
  rret (mk_request_expire server_flag area (s32 expiretime) key).

Record response_expire := mk_response_expire { rexpire_config_version : Z; rexpire_code : Z }.
Definition response_expire_encode (p : response_expire) : encoder :=
  always (fun output =>
    let output := writeInt32 (rexpire_config_version p) output in
    writeInt32 (rexpire_code p) output).
Definition response_expire_decode (dataLen : Z) : reader response_expire := decode_asserts.

(** ** expireat_packet.hpp *)

Record request_expireat := mk_request_expireat {
  expireat_server_flag : Z; expireat_area : Z; expireat_expiretime : Z;
  expireat_key : data_entry
}.
Definition request_expireat_encode (p : request_expireat) : encoder := fun _ => None.
Definition request_expireat_decode (dataLen : Z) : reader request_expireat :=
  let? (server_flag, area) := HEADER_VERIFY dataLen in
  let? expiretime := GETKEY_INT32 in
  let? key := GETKEY_DATAENTRY new_data_entry in
  rret (mk_request_expireat server_flag area (s32 expiretime) key).

Record response_expireat := mk_response_expireat {
  rexpireat_config_version : Z; rexpireat_code : Z
}.
Definition response_expireat_encode (p : response_expireat) : encoder :=
  always (fun output =>
    let output := writeInt32 (rexpireat_config_version p) output in
    writeInt32 (rexpireat_code p) output).
Definition response_expireat_decode (dataLen : Z) : reader response_expireat := decode_asserts.

(** ** persist_packet.hpp *)

Record request_persist := mk_request_persist {
  persist_server_flag : Z; persist_area : Z; persist_key : data_entry
}.
Definition request_persist_encode (p : request_persist) : encoder := fun _ => None.
Definition request_persist_decode (dataLen : Z) : reader request_persist :=
  let? (server_flag, area) := HEADER_VERIFY dataLen in
  let? key := GETKEY_DATAENTRY new_data_entry in
  rret (mk_request_persist server_flag area key).

Record response_persist := mk_response_persist {
  rpersist_config_version : Z; rpersist_code : Z
}.
Definition response_persist_encode (p : response_persist) : encoder :=
  always (fun output =>
    let output := writeInt32 (rpersist_config_version p) output in
    writeInt32 (rpersist_code p) output).
Definition response_persist_decode (dataLen : Z) : reader response_persist := decode_asserts.

(** ** ttl_packet.hpp *)

Record request_ttl := mk_request_ttl {
  ttl_server_flag : Z; ttl_area : Z; ttl_key : data_entry
}.
Definition request_ttl_encode (p : request_ttl) : encoder := fun _ => None.
Definition request_ttl_decode (dataLen : Z) : reader request_ttl :=
  let? (server_flag, area) := HEADER_VERIFY dataLen in
  let? key := GETKEY_DATAENTRY new_data_entry in
  rret (mk_request_ttl server_flag area key).

Record response_ttl := mk_response_ttl {
  rttl_config_version : Z; rttl_code : Z; rttl_retnum : Z
}.
Definition response_ttl_encode (p : response_ttl) : encoder :=
  always (fun output =>
    let output := writeInt32 (rttl_config_version p) output in
    let output := writeInt32 (rttl_code p) output in
    writeInt64 (rttl_retnum p) output).
Definition response_ttl_decode (dataLen : Z) : reader response_ttl := decode_asserts.

(** ** type_packet.hpp *)

Record request_type := mk_request_type {
  type_server_flag : Z; type_area : Z; type_key : data_entry
}.
Definition request_type_encode (p : request_type) : encoder := fun _ => None.
Definition request_type_decode (dataLen : Z) : reader request_type :=
  let? (server_flag, area) := HEADER_VERIFY dataLen in
  let? key := GETKEY_DATAENTRY new_data_entry in
  rret (mk_request_type server_flag area key).

Record response_type := mk_response_type {
  rtype_config_version : Z; rtype_code : Z; rtype_retnum : Z
}.
Definition response_type_encode (p : response_type) : encoder :=
  always (fun output =>
    let output := writeInt32 (rtype_config_version p) output in
    let output := writeInt32 (rtype_code p) output in
    writeInt64 (rtype_retnum p) output).
Definition response_type_decode (dataLen : Z) : reader response_type := decode_asserts.

(** ** exists_packet.hpp *)

Record request_exists := mk_request_exists {
  exists_server_flag : Z; exists_area : Z; exists_key : data_entry
}.
Definition request_exists_encode (p : request_exists) : encoder :=
  always (fun output =>
    let output := CREATE_HEADER (exists_server_flag p) (exists_area p) output in
    PUT_DATAENTRY (exists_key p) output).
Definition request_exists_decode (dataLen : Z) : reader request_exists :=
  let? (server_flag, area) := HEADER_VERIFY dataLen in
  let? key := GETKEY_DATAENTRY new_data_entry in
  rret (mk_request_exists server_flag area key).

(** ** info_packet.hpp *)

Record request_info := mk_request_info { info_server_flag : Z }.
Definition request_info_encode (p : request_info) : encoder :=
  always (writeInt8 (info_server_flag p)).
Definition request_info_decode (dataLen : Z) : reader request_info :=
  datalen_check 1 dataLen (
    let? server_flag := readInt8 in
    rret (mk_request_info server_flag)).

Record response_info := mk_response_info {
  rinfo_config_version : Z; rinfo_code : Z; rinfo_info : data_entry
}.
Definition response_info_encode (p : response_info) : encoder :=
  always (fun output =>
    let output := writeInt32 (rinfo_config_version p) output in
    let output := writeInt32 (rinfo_code p) output in
    PUT_DATAENTRY (rinfo_info p) output).
Definition response_info_decode (dataLen : Z) : reader response_info :=
  let? config_version := GETKEY_INT32 in
  let? code := GETKEY_INT32 in
  let? info := GETKEY_DATAENTRY new_data_entry in
  rret (mk_response_info config_version (s32 code) info).

(** ** lazy_remove_area_packet.hpp *)

Record request_lazy_remove_area := mk_request_lazy_remove_area { lazy_remove_area_area : Z }.
Definition request_lazy_remove_area_encode (p : request_lazy_remove_area) : encoder :=
  always (writeInt32 (lazy_remove_area_area p)).
Definition request_lazy_remove_area_decode (dataLen : Z) : reader request_lazy_remove_area :=
  datalen_check 4 dataLen (
    let? area := readInt32 in
    rret (mk_request_lazy_remove_area (s32 area))).

(** ** dump_area_packet.hpp *)

Record request_dump_area := mk_request_dump_area {
  dump_area_server_flag : Z; dump_area_area : Z
}.
Definition request_dump_area_encode (p : request_dump_area) : encoder :=
  always (writeInt32 (dump_area_area p)).
Definition request_dump_area_decode (dataLen : Z) : reader request_dump_area :=
  let? (server_flag, area) := HEADER_VERIFY dataLen in
  rret (mk_request_dump_area server_flag area).

(** ** load_area_packet.hpp *)

Record request_load_area := mk_request_load_area {
  load_area_server_flag : Z; load_area_area : Z
}.
Definition request_load_area_encode (p : request_load_area) : encoder :=
  always (writeInt32 (load_area_area p)).
Definition request_load_area_decode (dataLen : Z) : reader request_load_area :=
  let? (server_flag, area) := HEADER_VERIFY dataLen in
  rret (mk_request_load_area server_flag area).

(** ** addfilter_packet.hpp *)

Record request_addfilter := mk_request_addfilter {
  addfilter_server_flag : Z; addfilter_area : Z; addfilter_key : data_entry;
  addfilter_field : data_entry; addfilter_value : data_entry
}.
Definition request_addfilter_encode (p : request_addfilter) : encoder :=
  always (fun output =>
    let output := writeInt32 (addfilter_area p) output in
    let output := PUT_DATAENTRY (addfilter_key p) output in
    let output := PUT_DATAENTRY (addfilter_field p) output in
    PUT_DATAENTRY (addfilter_value p) output).
Definition request_addfilter_decode (dataLen : Z) : reader request_addfilter :=
  let? (server_flag, area) := HEADER_VERIFY dataLen in
  let? key := GETKEY_DATAENTRY new_data_entry in
  let? field := GETKEY_DATAENTRY new_data_entry in
  let? value := GETKEY_DATAENTRY new_data_entry in
  rret (mk_request_addfilter server_flag area key field value).

(** ** Round trips *)

#[export] Program Instance packet_request_expire : Packet request_expire := {
  p_encode := request_expire_encode; p_decode := request_expire_decode;
  p_ok p := in_u 8 (expire_server_flag p) /\ in_u 16 (expire_area p)
    /\ in_s 32 (expire_expiretime p) /\ plain_ok (expire_key p);
  p_received p := 
    mk_request_expire
      (expire_server_flag p) (expire_area p) (expire_expiretime p) (plain (expire_key p))
}.
Next Obligation. plain_packet. done. Qed.

#[export] Program Instance codec_response_expire : Codec response_expire := {
  c_encode := response_expire_encode; c_decode := response_expire_decode;
  c_wire p := be_split 4 (rexpire_config_version p) ++ be_split 4 (rexpire_code p);
  c_sends p := True;
  c_reads p := False;
  c_received p := p
}.
Next Obligation. plain_sent. Qed.
Next Obligation. never. Qed.

#[export] Program Instance codec_request_expireat : Codec request_expireat := {
  c_encode := request_expireat_encode; c_decode := request_expireat_decode;
  c_wire p := [u8 (expireat_server_flag p)] ++ be_split 2 (expireat_area p)
    ++ be_split 4 (expireat_expiretime p) ++ plain_bytes (expireat_key p);
  c_sends p := False;
  c_reads p := in_u 8 (expireat_server_flag p) /\ in_u 16 (expireat_area p)
    /\ in_s 32 (expireat_expiretime p) /\ plain_ok (expireat_key p);
  c_received p := 
    mk_request_expireat
      (expireat_server_flag p) (expireat_area p) (expireat_expiretime p)
      (plain (expireat_key p))
}.
Next Obligation. never. Qed.
Next Obligation. plain_received. done. Qed.

#[export] Program Instance codec_response_expireat : Codec response_expireat := {
  c_encode := response_expireat_encode; c_decode := response_expireat_decode;
  c_wire p := be_split 4 (rexpireat_config_version p) ++ be_split 4 (rexpireat_code p);
  c_sends p := True;
  c_reads p := False;
  c_received p := p
}.
Next Obligation. plain_sent. Qed.
Next Obligation. never. Qed.

#[export] Program Instance codec_request_persist : Codec request_persist := {
  c_encode := request_persist_encode; c_decode := request_persist_decode;
  c_wire p := [u8 (persist_server_flag p)] ++ be_split 2 (persist_area p)
    ++ plain_bytes (persist_key p);
  c_sends p := False;
  c_reads p := in_u 8 (persist_server_flag p) /\ in_u 16 (persist_area p) /\ plain_ok (persist_key p);
  c_received p := 
    mk_request_persist
      (persist_server_flag p) (persist_area p) (plain (persist_key p))
}.
Next Obligation. never. Qed.
Next Obligation. plain_received. done. Qed.

#[export] Program Instance codec_response_persist : Codec response_persist := {
  c_encode := response_persist_encode; c_decode := response_persist_decode;
  c_wire p := be_split 4 (rpersist_config_version p) ++ be_split 4 (rpersist_code p);
  c_sends p := True;
  c_reads p := False;
  c_received p := p
}.
Next Obligation. plain_sent. Qed.
Next Obligation. never. Qed.

#[export] Program Instance codec_request_ttl : Codec request_ttl := {
  c_encode := request_ttl_encode; c_decode := request_ttl_decode;
  c_wire p := [u8 (ttl_server_flag p)] ++ be_split 2 (ttl_area p) ++ plain_bytes (ttl_key p);
  c_sends p := False;
  c_reads p := in_u 8 (ttl_server_flag p) /\ in_u 16 (ttl_area p) /\ plain_ok (ttl_key p);
  c_received p := mk_request_ttl (ttl_server_flag p) (ttl_area p) (plain (ttl_key p))
}.
Next Obligation. never. Qed.
Next Obligation. plain_received. done. Qed.

#[export] Program Instance codec_response_ttl : Codec response_ttl := {
  c_encode := response_ttl_encode; c_decode := response_ttl_decode;
  c_wire p := be_split 4 (rttl_config_version p) ++ be_split 4 (rttl_code p)
    ++ be_split 8 (rttl_retnum p);
  c_sends p := True;
  c_reads p := False;
  c_received p := p
}.
Next Obligation. plain_sent. Qed.
Next Obligation. never. Qed.

#[export] Program Instance codec_request_type : Codec request_type := {
  c_encode := request_type_encode; c_decode := request_type_decode;
  c_wire p := [u8 (type_server_flag p)] ++ be_split 2 (type_area p) ++ plain_bytes (type_key p);
  c_sends p := False;
  c_reads p := in_u 8 (type_server_flag p) /\ in_u 16 (type_area p) /\ plain_ok (type_key p);
  c_received p := mk_request_type (type_server_flag p) (type_area p) (plain (type_key p))
}.
Next Obligation. never. Qed.
Next Obligation. plain_received. done. Qed.

#[export] Program Instance codec_response_type : Codec response_type := {
  c_encode := response_type_encode; c_decode := response_type_decode;
  c_wire p := be_split 4 (rtype_config_version p) ++ be_split 4 (rtype_code p)
    ++ be_split 8 (rtype_retnum p);
  c_sends p := True;
  c_reads p := False;
  c_received p := p
}.
Next Obligation. plain_sent. Qed.
Next Obligation. never. Qed.

#[export] Program Instance packet_request_exists : Packet request_exists := {
  p_encode := request_exists_encode; p_decode := request_exists_decode;
  p_ok p := in_u 8 (exists_server_flag p) /\ in_u 16 (exists_area p) /\ plain_ok (exists_key p);
  p_received p := 
    mk_request_exists
      (exists_server_flag p) (exists_area p) (plain (exists_key p))
}.
Next Obligation. plain_packet. done. Qed.

#[export] Program Instance packet_request_info : Packet request_info := {
  p_encode := request_info_encode; p_decode := request_info_decode;
  p_ok p := in_u 8 (info_server_flag p);
  p_received p := p
}.
Next Obligation. plain_packet. by destruct p. Qed.

#[export] Program Instance packet_response_info : Packet response_info := {
  p_encode := response_info_encode; p_decode := response_info_decode;
  p_ok p := in_u 32 (rinfo_config_version p) /\ in_s 32 (rinfo_code p) /\ plain_ok (rinfo_info p);
  p_received p := 
    mk_response_info
      (rinfo_config_version p) (rinfo_code p) (plain (rinfo_info p))
}.
Next Obligation. plain_packet. done. Qed.

#[export] Program Instance packet_request_lazy_remove_area : Packet request_lazy_remove_area := {
  p_encode := request_lazy_remove_area_encode; p_decode := request_lazy_remove_area_decode;
  p_ok p := in_s 32 (lazy_remove_area_area p);
  p_received p := p
}.
Next Obligation. plain_packet. by destruct p. Qed.

#[export] Program Instance codec_request_dump_area : Codec request_dump_area := {
  c_encode := request_dump_area_encode; c_decode := request_dump_area_decode;
  c_wire p := be_split 4 (dump_area_area p);
  c_sends p := True;
  c_reads p := False;
  c_received p := p
}.
Next Obligation. plain_sent. Qed.
Next Obligation. never. Qed.

#[export] Program Instance codec_request_load_area : Codec request_load_area := {
  c_encode := request_load_area_encode; c_decode := request_load_area_decode;
  c_wire p := be_split 4 (load_area_area p);
  c_sends p := True;
  c_reads p := False;
  c_received p := p
}.
Next Obligation. plain_sent. Qed.
Next Obligation. never. Qed.

#[export] Program Instance codec_request_addfilter : Codec request_addfilter := {
  c_encode := request_addfilter_encode; c_decode := request_addfilter_decode;
  c_wire p := be_split 4 (addfilter_area p) ++ plain_bytes (addfilter_key p)
    ++ plain_bytes (addfilter_field p) ++ plain_bytes (addfilter_value p);
  c_sends p := True;
  c_reads p := False;
  c_received p := p
}.
Next Obligation. plain_sent. Qed.
Next Obligation. never. Qed.
