(* ===== verification/HashPackets.v ===== *)
(** * The hash packets (packets/*_packet.hpp)

    Reads and writes of the fields of a hash, and the copies of the writes.

    One section per file: hgetall, hincrby, hmset, hset, hsetnx, hget, hmget, hdel,
    hvals, hkeys, hlen, hexists. *)

From S2P Require Import Prelude DataBuffer DataEntry BasePacket KvPackets.

(** The entry [request_hkeys] and [request_hvals] read by hand: a negative length
    is not rejected. *)
Definition read_unchecked_entry : reader data_entry :=
  reject_if (too_few 4) (
    let? w := readInt32 in
    let klen := s32 w in
    reject_if (too_few klen) (
      let key := set_data None klen true new_data_entry in
      let? r := readBytes klen in
      match r with
      | None => rfail
      | Some l =>
          rret (mk_data_entry (size key) (if 0 <? klen then Some l else None) (alloc key)
                  (hashcode key) (has_merged key) (has_meta_merged key) (area key)
                  (server_flag key) (data_meta key))
      end)).

(** ** hgetall_packet.hpp *)

Record request_hgetall := mk_request_hgetall {
  hgetall_server_flag : Z; hgetall_area : Z; hgetall_key : data_entry
}.
Definition request_hgetall_encode (p : request_hgetall) : encoder :=
  always (fun output =>
    let output := CREATE_HEADER (hgetall_server_flag p) (hgetall_area p) output in
    PUT_DATAENTRY (hgetall_key p) output).
Definition request_hgetall_decode (dataLen : Z) : reader request_hgetall :=
  let? (server_flag, area) := HEADER_VERIFY dataLen in
  let? key := GETKEY_DATAENTRY new_data_entry in
  rret (mk_request_hgetall server_flag area key).

Record response_hgetall := mk_response_hgetall {
  rhgetall_config_version : Z; rhgetall_version : Z; rhgetall_code : Z;
  rhgetall_values : list data_entry
}.
Definition response_hgetall_encode (p : response_hgetall) : encoder :=
  refuse_if (RESPONSE_VALUES_MAXSIZE <? Z.of_nat (length (rhgetall_values p)))
   (always (fun output =>
    let output := writeInt32 (rhgetall_config_version p) output in
    let output := writeInt16 (rhgetall_version p) output in
    let output := writeInt32 (rhgetall_code p) output in
    PUT_DATAVECTOR (rhgetall_values p) output)).
Definition response_hgetall_decode (dataLen : Z) : reader response_hgetall :=
  let? config_version := GETKEY_INT32 in
  let? version := GETKEY_INT16 in
  let? code := GETKEY_INT32 in
  let? values := GETKEY_DATAVECTOR in
  let values := map (set_version version) values in
  rret (mk_response_hgetall config_version version (s32 code) values).

(** ** hincrby_packet.hpp *)

Record request_hincrby := mk_request_hincrby {
  hincrby_server_flag : Z; hincrby_area : Z; hincrby_version : Z; hincrby_expire : Z;
  hincrby_key : data_entry; hincrby_field : data_entry; hincrby_value : Z
}.
Definition request_hincrby_encode (p : request_hincrby) : encoder :=
  always (fun output =>
    let output := CREATE_HEADER (hincrby_server_flag p) (hincrby_area p) output in
    let output := writeInt16 (hincrby_version p) output in
    let output := writeInt32 (hincrby_expire p) output in
    let output := PUT_DATAENTRY (hincrby_key p) output in
    let output := PUT_DATAENTRY (hincrby_field p) output in
    writeInt64 (hincrby_value p) output).
Definition request_hincrby_decode (dataLen : Z) : reader request_hincrby :=
  let? (server_flag, area) := HEADER_VERIFY dataLen in
  let? version := GETKEY_INT16 in
  let? expire := GETKEY_INT32 in
  let? key := GETKEY_DATAENTRY new_data_entry in
  let? field := GETKEY_DATAENTRY new_data_entry in
  let? value := GETKEY_INT64 in
  let key := set_version version key in
  rret (mk_request_hincrby server_flag area version (s32 expire) key field (s64 value)).

Record response_hincrby := mk_response_hincrby {
  rhincrby_config_version : Z; rhincrby_code : Z; rhincrby_retnum : Z
}.
Definition response_hincrby_encode (p : response_hincrby) : encoder :=
  always (fun output =>
    let output := writeInt32 (rhincrby_config_version p) output in
    let output := writeInt32 (rhincrby_code p) output in
    writeInt64 (rhincrby_retnum p) output).
Definition response_hincrby_decode (dataLen : Z) : reader response_hincrby :=
  let? config_version := GETKEY_INT32 in
  let? code := GETKEY_INT32 in
  let? retnum := GETKEY_INT64 in
  rret (mk_response_hincrby config_version (s32 code) (s64 retnum)).

(** ** hmset_packet.hpp *)

Record request_hmset := mk_request_hmset {
  hmset_server_flag : Z; hmset_area : Z; hmset_version : Z; hmset_expire : Z;
  hmset_key : data_entry; hmset_field_values : list data_entry
}.
Definition request_hmset_encode (p : request_hmset) : encoder :=
  always (fun output =>
    let output := CREATE_HEADER (hmset_server_flag p) (hmset_area p) output in
    let output := writeInt16 (hmset_version p) output in
    let output := writeInt32 (hmset_expire p) output in
    let output := PUT_DATAENTRY (hmset_key p) output in
    PUT_DATAVECTOR (hmset_field_values p) output).
Definition request_hmset_decode (dataLen : Z) : reader request_hmset :=
  let? (server_flag, area) := HEADER_VERIFY dataLen in
  let? version := GETKEY_INT16 in
  let? expire := GETKEY_INT32 in
  let? key := GETKEY_DATAENTRY new_data_entry in
  let? field_values := GETKEY_DATAVECTOR in
  let key := set_version version key in
  rret (mk_request_hmset server_flag area version (s32 expire) key field_values).

Record response_hmset := mk_response_hmset {
  rhmset_config_version : Z; rhmset_code : Z; rhmset_retvalue : Z
}.
Definition response_hmset_encode (p : response_hmset) : encoder :=
  always (fun output =>
    let output := writeInt32 (rhmset_config_version p) output in
    let output := writeInt32 (rhmset_code p) output in
    writeInt32 (rhmset_retvalue p) output).
Definition response_hmset_decode (dataLen : Z) : reader response_hmset :=
  let? config_version := GETKEY_INT32 in
  let? code := GETKEY_INT32 in
  let? retvalue := GETKEY_INT32 in
  rret (mk_response_hmset config_version (s32 code) (s32 retvalue)).

Definition request_hmset_dup_encode : dup request_hmset -> encoder :=
  dup_encode request_hmset_encode.
Definition request_hmset_dup_decode : Z -> reader (dup request_hmset) :=
  dup_decode request_hmset_decode.

(** ** hset_packet.hpp *)

Record request_hset := mk_request_hset {
  hset_server_flag : Z; hset_area : Z; hset_version : Z; hset_expire : Z;
  hset_key : data_entry; hset_field : data_entry; hset_value : data_entry
}.
Definition request_hset_encode (p : request_hset) : encoder :=
  always (fun output =>
    let output := CREATE_HEADER (hset_server_flag p) (hset_area p) output in
    let output := writeInt16 (hset_version p) output in
    let output := writeInt32 (hset_expire p) output in
    let output := PUT_DATAENTRY (hset_key p) output in
    let output := PUT_DATAENTRY (hset_field p) output in
    PUT_DATAENTRY (hset_value p) output).
Definition request_hset_decode (dataLen : Z) : reader request_hset :=
  let? (server_flag, area) := HEADER_VERIFY dataLen in
  let? version := GETKEY_INT16 in
  let? expire := GETKEY_INT32 in
  let? key := GETKEY_DATAENTRY new_data_entry in
  let? field := GETKEY_DATAENTRY new_data_entry in
  let? value := GETKEY_DATAENTRY new_data_entry in
  let key := set_version version key in
  rret (mk_request_hset server_flag area version (s32 expire) key field value).

Record response_hset := mk_response_hset { rhset_config_version : Z; rhset_code : Z }.
Definition response_hset_encode (p : response_hset) : encoder :=
  always (fun output =>
    let output := writeInt32 (rhset_config_version p) output in
    writeInt32 (rhset_code p) output).
Definition response_hset_decode (dataLen : Z) : reader response_hset :=
  let? config_version := GETKEY_INT32 in
  let? code := GETKEY_INT32 in
  rret (mk_response_hset config_version (s32 code)).

Definition request_hset_dup_encode : dup request_hset -> encoder :=
  dup_encode request_hset_encode.
Definition request_hset_dup_decode : Z -> reader (dup request_hset) :=
  dup_decode request_hset_decode.

(** ** hsetnx_packet.hpp *)

Record request_hsetnx := mk_request_hsetnx {
  hsetnx_server_flag : Z; hsetnx_area : Z; hsetnx_version : Z; hsetnx_expire : Z;
  hsetnx_key : data_entry; hsetnx_field : data_entry; hsetnx_value : data_entry
}.
Definition request_hsetnx_encode (p : request_hsetnx) : encoder := fun _ => None.
Definition request_hsetnx_decode (dataLen : Z) : reader request_hsetnx :=
  let? (server_flag, area) := HEADER_VERIFY dataLen in
  let? version := GETKEY_INT16 in
  let? expire := GETKEY_INT32 in
  let? key := GETKEY_DATAENTRY new_data_entry in
  let? field := GETKEY_DATAENTRY new_data_entry in
  let? value := GETKEY_DATAENTRY new_data_entry in
  let key := set_version version key in
  rret (mk_request_hsetnx server_flag area version (s32 expire) key field value).

Record response_hsetnx := mk_response_hsetnx { rhsetnx_config_version : Z; rhsetnx_code : Z }.
Definition response_hsetnx_encode (p : response_hsetnx) : encoder :=
  always (fun output =>
    let output := writeInt32 (rhsetnx_config_version p) output in
    writeInt32 (rhsetnx_code p) output).
Definition response_hsetnx_decode (dataLen : Z) : reader response_hsetnx := decode_asserts.

Definition request_hsetnx_dup_encode : dup request_hsetnx -> encoder :=
  dup_encode request_hsetnx_encode.
Definition request_hsetnx_dup_decode : Z -> reader (dup request_hsetnx) :=
  dup_decode request_hsetnx_decode.

(** ** hget_packet.hpp *)

Record request_hget := mk_request_hget {
  hget_server_flag : Z; hget_area : Z; hget_key : data_entry; hget_field : data_entry
}.
Definition request_hget_encode (p : request_hget) : encoder :=
  always (fun output =>
    let output := CREATE_HEADER (hget_server_flag p) (hget_area p) output in
    let output := PUT_DATAENTRY (hget_key p) output in
    PUT_DATAENTRY (hget_field p) output).
Definition request_hget_decode (dataLen : Z) : reader request_hget :=
  let? (server_flag, area) := HEADER_VERIFY dataLen in
  let? key := GETKEY_DATAENTRY new_data_entry in
  let? field := GETKEY_DATAENTRY new_data_entry in
  rret (mk_request_hget server_flag area key field).

Record response_hget := mk_response_hget {
  rhget_config_version : Z; rhget_version : Z; rhget_code : Z; rhget_value : data_entry
}.
Definition response_hget_encode (p : response_hget) : encoder :=
  always (fun output =>
    let output := writeInt32 (rhget_config_version p) output in
    let output := writeInt16 (rhget_version p) output in
    let output := writeInt32 (rhget_code p) output in
    PUT_DATAENTRY (rhget_value p) output).
Definition response_hget_decode (dataLen : Z) : reader response_hget :=
  let? config_version := GETKEY_INT32 in
  let? version := GETKEY_INT16 in
  let? code := GETKEY_INT32 in
  let? value := GETKEY_DATAENTRY new_data_entry in
  let value := set_version version value in
  rret (mk_response_hget config_version version (s32 code) value).

(** ** hmget_packet.hpp *)

Record request_hmget := mk_request_hmget {
  hmget_server_flag : Z; hmget_area : Z; hmget_key : data_entry;
  hmget_fields : list data_entry
}.
Definition request_hmget_encode (p : request_hmget) : encoder :=
  always (fun output =>
    let output := CREATE_HEADER (hmget_server_flag p) (hmget_area p) output in
    let output := PUT_DATAENTRY (hmget_key p) output in
    PUT_DATAVECTOR (hmget_fields p) output).
Definition request_hmget_decode (dataLen : Z) : reader request_hmget :=
  let? (server_flag, area) := HEADER_VERIFY dataLen in
  let? key := GETKEY_DATAENTRY new_data_entry in
  let? fields := GETKEY_DATAVECTOR in
  rret (mk_request_hmget server_flag area key fields).

Record response_hmget := mk_response_hmget {
  rhmget_config_version : Z; rhmget_version : Z; rhmget_code : Z;
  rhmget_values : list data_entry
}.
Definition response_hmget_encode (p : response_hmget) : encoder :=
  always (fun output =>
    let output := writeInt32 (rhmget_config_version p) output in
    let output := writeInt16 (rhmget_version p) output in
    let output := writeInt32 (rhmget_code p) output in
    PUT_DATAVECTOR (rhmget_values p) output).
Definition response_hmget_decode (dataLen : Z) : reader response_hmget :=
  let? config_version := GETKEY_INT32 in
  let? version := GETKEY_INT16 in
  let? code := GETKEY_INT32 in
  let? values := GETKEY_DATAVECTOR in
  let values := map (set_version version) values in
  rret (mk_response_hmget config_version version (s32 code) values).

(** ** hdel_packet.hpp *)

Record request_hdel := mk_request_hdel {
  hdel_server_flag : Z; hdel_area : Z; hdel_version : Z; hdel_expire : Z;
  hdel_key : data_entry; hdel_field : data_entry
}.
Definition request_hdel_encode (p : request_hdel) : encoder :=
  always (fun output =>
    let output := CREATE_HEADER (hdel_server_flag p) (hdel_area p) output in
    let output := writeInt16 (hdel_version p) output in
    let output := writeInt32 (hdel_expire p) output in
    let output := PUT_DATAENTRY (hdel_key p) output in
    PUT_DATAENTRY (hdel_field p) output).
Definition request_hdel_decode (dataLen : Z) : reader request_hdel :=
  let? (server_flag, area) := HEADER_VERIFY dataLen in
  let? version := GETKEY_INT16 in
  let? expire := GETKEY_INT32 in
  let? key := GETKEY_DATAENTRY new_data_entry in
  let? field := GETKEY_DATAENTRY new_data_entry in
  let key := set_version version key in
  rret (mk_request_hdel server_flag area version (s32 expire) key field).

Record response_hdel := mk_response_hdel { rhdel_config_version : Z; rhdel_code : Z }.
Definition response_hdel_encode (p : response_hdel) : encoder :=
  always (fun output =>
    let output := writeInt32 (rhdel_config_version p) output in
    writeInt32 (rhdel_code p) output).
Definition response_hdel_decode (dataLen : Z) : reader response_hdel :=
  let? config_version := GETKEY_INT32 in
  let? code := GETKEY_INT32 in
  rret (mk_response_hdel config_version (s32 code)).

Definition request_hdel_dup_encode : dup request_hdel -> encoder :=
  dup_encode request_hdel_encode.
Definition request_hdel_dup_decode : Z -> reader (dup request_hdel) :=
  dup_decode request_hdel_decode.

(** ** hvals_packet.hpp *)

Record request_hvals := mk_request_hvals { hvals_server_flag : Z; hvals_area : Z; hvals_key : data_entry }.
Definition request_hvals_encode (p : request_hvals) : encoder := fun _ => None.
Definition request_hvals_decode (dataLen : Z) : reader request_hvals :=
  datalen_check 7 dataLen (
    let? server_flag := readInt8 in
    let? area := readInt16 in
    let? key := read_unchecked_entry in
    rret (mk_request_hvals server_flag area key)).

Record response_hvals := mk_response_hvals {
  rhvals_config_version : Z; rhvals_version : Z; rhvals_code : Z;
  rhvals_values : list data_entry
}.
Definition response_hvals_encode (p : response_hvals) : encoder :=
  refuse_if (RESPONSE_VALUES_MAXSIZE <? Z.of_nat (length (rhvals_values p))) (always (fun output =>
    let output := writeInt32 (rhvals_config_version p) output in
    let output := writeInt16 (rhvals_version p) output in
    let output := writeInt32 (rhvals_code p) output in
    PUT_DATAVECTOR (rhvals_values p) output)).
Definition response_hvals_decode (dataLen : Z) : reader response_hvals := rfail.

(** ** hkeys_packet.hpp *)

Record request_hkeys := mk_request_hkeys { hkeys_server_flag : Z; hkeys_area : Z; hkeys_key : data_entry }.
Definition request_hkeys_encode (p : request_hkeys) : encoder := fun _ => None.
Definition request_hkeys_decode (dataLen : Z) : reader request_hkeys :=
  datalen_check 7 dataLen (
    let? server_flag := readInt8 in
    let? area := readInt16 in
    let? key := read_unchecked_entry in
    rret (mk_request_hkeys server_flag area key)).

Record response_hkeys := mk_response_hkeys {
  rhkeys_config_version : Z; rhkeys_version : Z; rhkeys_code : Z;
  rhkeys_keys : list data_entry
}.
Definition response_hkeys_encode (p : response_hkeys) : encoder :=
  refuse_if (RESPONSE_VALUES_MAXSIZE <? Z.of_nat (length (rhkeys_keys p))) (always (fun output =>
    let output := writeInt32 (rhkeys_config_version p) output in
    let output := writeInt16 (rhkeys_version p) output in
    let output := writeInt32 (rhkeys_code p) output in
    PUT_DATAVECTOR (rhkeys_keys p) output)).
Definition response_hkeys_decode (dataLen : Z) : reader response_hkeys := rfail.

(** ** hlen_packet.hpp *)

Record request_hlen := mk_request_hlen {
  hlen_server_flag : Z; hlen_area : Z; hlen_key : data_entry
}.
Definition request_hlen_encode (p : request_hlen) : encoder := fun _ => None.
Definition request_hlen_decode (dataLen : Z) : reader request_hlen :=
  let? (server_flag, area) := HEADER_VERIFY dataLen in
  let? key := GETKEY_DATAENTRY new_data_entry in
  rret (mk_request_hlen server_flag area key).

Record response_hlen := mk_response_hlen {
  rhlen_config_version : Z; rhlen_code : Z; rhlen_retnum : Z
}.
Definition response_hlen_encode (p : response_hlen) : encoder :=
  always (fun output =>
    let output := writeInt32 (rhlen_config_version p) output in
    let output := writeInt32 (rhlen_code p) output in
    writeInt64 (rhlen_retnum p) output).
Definition response_hlen_decode (dataLen : Z) : reader response_hlen := decode_asserts.

(** ** hexists_packet.hpp *)

Record request_hexists := mk_request_hexists {
  hexists_server_flag : Z; hexists_area : Z; hexists_key : data_entry;
  hexists_field : data_entry
}.
Definition request_hexists_encode (p : request_hexists) : encoder :=
  always (fun output =>
    let output := CREATE_HEADER (hexists_server_flag p) (hexists_area p) output in
    let output := PUT_DATAENTRY (hexists_key p) output in
    PUT_DATAENTRY (hexists_field p) output).
Definition request_hexists_decode (dataLen : Z) : reader request_hexists :=
  let? (server_flag, area) := HEADER_VERIFY dataLen in
  let? key := GETKEY_DATAENTRY new_data_entry in
  let? field := GETKEY_DATAENTRY new_data_entry in
  rret (mk_request_hexists server_flag area key field).

(** ** Round trips *)

Lemma parses_read_unchecked e :
  plain_ok e -> parses read_unchecked_entry (plain_bytes e) (plain e).
Proof.
  intros Hok. pose proof (plain_size e Hok) as Hsz. destruct Hok as [Hs Hl].
  unfold read_unchecked_entry, plain_bytes. apply parses_too_few.
  { rewrite length_app, length_be_split. lia. }
  eapply parses_bind; [auto with tair|]. cbv zeta beta. rewrite Hsz.
  apply parses_too_few; [lia|].
  eapply parses_eq; [eapply parses_bind; [rewrite Hs; apply parses_readBytes|]
                    |by rewrite app_nil_r|reflexivity].
  simpl. eapply parses_eq; [apply parses_ret|done|]. by apply plain_of_read.
Qed.
#[export] Hint Resolve parses_read_unchecked : tair.

#[export] Program Instance packet_request_hgetall : Packet request_hgetall := {
  p_encode := request_hgetall_encode; p_decode := request_hgetall_decode;
  p_ok p := in_u 8 (hgetall_server_flag p) /\ in_u 16 (hgetall_area p) /\ plain_ok (hgetall_key p);
  p_received p := 
    mk_request_hgetall
      (hgetall_server_flag p) (hgetall_area p) (plain (hgetall_key p))
}.
Next Obligation. plain_packet. done. Qed.

#[export] Program Instance packet_response_hgetall : Packet response_hgetall := {
  p_encode := response_hgetall_encode; p_decode := response_hgetall_decode;
  p_ok p := in_u 32 (rhgetall_config_version p) /\ in_u 16 (rhgetall_version p)
    /\ in_s 32 (rhgetall_code p) /\ vector_ok (rhgetall_values p)
    /\ Z.of_nat (length (rhgetall_values p)) <= RESPONSE_VALUES_MAXSIZE;
  p_received p := 
    mk_response_hgetall
      (rhgetall_config_version p) (rhgetall_version p) (rhgetall_code p)
      (map (set_version (rhgetall_version p)) (map plain (rhgetall_values p)))
}.
Next Obligation. values_packet. done. Qed.

#[export] Program Instance packet_request_hincrby : Packet request_hincrby := {
  p_encode := request_hincrby_encode; p_decode := request_hincrby_decode;
  p_ok p := in_u 8 (hincrby_server_flag p) /\ in_u 16 (hincrby_area p)
    /\ in_u 16 (hincrby_version p) /\ in_s 32 (hincrby_expire p)
    /\ plain_ok (hincrby_key p) /\ plain_ok (hincrby_field p) /\ in_s 64 (hincrby_value p);
  p_received p := 
    mk_request_hincrby
      (hincrby_server_flag p) (hincrby_area p) (hincrby_version p) (hincrby_expire p)
      (set_version (hincrby_version p) (plain (hincrby_key p))) (plain (hincrby_field p))
      (hincrby_value p)
}.
Next Obligation. plain_packet. done. Qed.

#[export] Program Instance packet_response_hincrby : Packet response_hincrby := {
  p_encode := response_hincrby_encode; p_decode := response_hincrby_decode;
  p_ok p := in_u 32 (rhincrby_config_version p) /\ in_s 32 (rhincrby_code p)
    /\ in_s 64 (rhincrby_retnum p);
  p_received p := p
}.
Next Obligation. plain_packet. by destruct p. Qed.

#[export] Program Instance packet_request_hmset : Packet request_hmset := {
  p_encode := request_hmset_encode; p_decode := request_hmset_decode;
  p_ok p := in_u 8 (hmset_server_flag p) /\ in_u 16 (hmset_area p) /\ in_u 16 (hmset_version p)
    /\ in_s 32 (hmset_expire p) /\ plain_ok (hmset_key p)
    /\ vector_ok (hmset_field_values p);
  p_received p := 
    mk_request_hmset
      (hmset_server_flag p) (hmset_area p) (hmset_version p) (hmset_expire p)
      (set_version (hmset_version p) (plain (hmset_key p)))
      (map plain (hmset_field_values p))
}.
Next Obligation. plain_packet. done. Qed.

#[export] Program Instance packet_response_hmset : Packet response_hmset := {
  p_encode := response_hmset_encode; p_decode := response_hmset_decode;
  p_ok p := in_u 32 (rhmset_config_version p) /\ in_s 32 (rhmset_code p)
    /\ in_s 32 (rhmset_retvalue p);
  p_received p := p
}.
Next Obligation. plain_packet. by destruct p. Qed.

#[export] Program Instance packet_request_hmset_dup : Packet (dup request_hmset) := {
  p_encode := request_hmset_dup_encode; p_decode := request_hmset_dup_decode;
  p_ok := dup_ok; p_received := dup_received
}.
Next Obligation. exact dup_packet. Qed.

#[export] Program Instance packet_request_hset : Packet request_hset := {
  p_encode := request_hset_encode; p_decode := request_hset_decode;
  p_ok p := in_u 8 (hset_server_flag p) /\ in_u 16 (hset_area p) /\ in_u 16 (hset_version p)
    /\ in_s 32 (hset_expire p) /\ plain_ok (hset_key p) /\ plain_ok (hset_field p)
    /\ plain_ok (hset_value p);
  p_received p := 
    mk_request_hset
      (hset_server_flag p) (hset_area p) (hset_version p) (hset_expire p)
      (set_version (hset_version p) (plain (hset_key p))) (plain (hset_field p))
      (plain (hset_value p))
}.
Next Obligation. plain_packet. done. Qed.

#[export] Program Instance packet_response_hset : Packet response_hset := {
  p_encode := response_hset_encode; p_decode := response_hset_decode;
  p_ok p := in_u 32 (rhset_config_version p) /\ in_s 32 (rhset_code p);
  p_received p := p
}.
Next Obligation. plain_packet. by destruct p. Qed.

#[export] Program Instance packet_request_hset_dup : Packet (dup request_hset) := {
  p_encode := request_hset_dup_encode; p_decode := request_hset_dup_decode;
  p_ok := dup_ok; p_received := dup_received
}.
Next Obligation. exact dup_packet. Qed.

#[export] Program Instance codec_request_hsetnx : Codec request_hsetnx := {
  c_encode := request_hsetnx_encode; c_decode := request_hsetnx_decode;
  c_wire p := [u8 (hsetnx_server_flag p)] ++ be_split 2 (hsetnx_area p)
    ++ be_split 2 (hsetnx_version p) ++ be_split 4 (hsetnx_expire p)
    ++ plain_bytes (hsetnx_key p) ++ plain_bytes (hsetnx_field p)
    ++ plain_bytes (hsetnx_value p);
  c_sends p := False;
  c_reads p := in_u 8 (hsetnx_server_flag p) /\ in_u 16 (hsetnx_area p) /\ in_u 16 (hsetnx_version p)
    /\ in_s 32 (hsetnx_expire p) /\ plain_ok (hsetnx_key p) /\ plain_ok (hsetnx_field p)
    /\ plain_ok (hsetnx_value p);
  c_received p := 
    mk_request_hsetnx
      (hsetnx_server_flag p) (hsetnx_area p) (hsetnx_version p) (hsetnx_expire p)
      (set_version (hsetnx_version p) (plain (hsetnx_key p))) (plain (hsetnx_field p))
      (plain (hsetnx_value p))
}.
Next Obligation. never. Qed.
Next Obligation. plain_received. done. Qed.

#[export] Program Instance codec_response_hsetnx : Codec response_hsetnx := {
  c_encode := response_hsetnx_encode; c_decode := response_hsetnx_decode;
  c_wire p := be_split 4 (rhsetnx_config_version p) ++ be_split 4 (rhsetnx_code p);
  c_sends p := True;
  c_reads p := False;
  c_received p := p
}.
Next Obligation. plain_sent. Qed.
Next Obligation. never. Qed.

#[export] Program Instance codec_request_hsetnx_dup : Codec (dup request_hsetnx) := {
  c_encode := request_hsetnx_dup_encode; c_decode := request_hsetnx_dup_decode;
  c_wire := dup_wire; c_sends p := False;
  c_reads := dup_reads; c_received := dup_read
}.
Next Obligation. never. Qed.
Next Obligation. exact dup_parses. Qed.

#[export] Program Instance packet_request_hget : Packet request_hget := {
  p_encode := request_hget_encode; p_decode := request_hget_decode;
  p_ok p := in_u 8 (hget_server_flag p) /\ in_u 16 (hget_area p) /\ plain_ok (hget_key p)
    /\ plain_ok (hget_field p);
  p_received p := 
    mk_request_hget
      (hget_server_flag p) (hget_area p) (plain (hget_key p)) (plain (hget_field p))
}.
Next Obligation. plain_packet. done. Qed.

#[export] Program Instance packet_response_hget : Packet response_hget := {
  p_encode := response_hget_encode; p_decode := response_hget_decode;
  p_ok p := in_u 32 (rhget_config_version p) /\ in_u 16 (rhget_version p)
    /\ in_s 32 (rhget_code p) /\ plain_ok (rhget_value p);
  p_received p := 
    mk_response_hget
      (rhget_config_version p) (rhget_version p) (rhget_code p)
      (set_version (rhget_version p) (plain (rhget_value p)))
}.
Next Obligation. plain_packet. done. Qed.

#[export] Program Instance packet_request_hmget : Packet request_hmget := {
  p_encode := request_hmget_encode; p_decode := request_hmget_decode;
  p_ok p := in_u 8 (hmget_server_flag p) /\ in_u 16 (hmget_area p) /\ plain_ok (hmget_key p)
    /\ vector_ok (hmget_fields p);
  p_received p := 
    mk_request_hmget
      (hmget_server_flag p) (hmget_area p) (plain (hmget_key p))
      (map plain (hmget_fields p))
}.
Next Obligation. plain_packet. done. Qed.

#[export] Program Instance packet_response_hmget : Packet response_hmget := {
  p_encode := response_hmget_encode; p_decode := response_hmget_decode;
  p_ok p := in_u 32 (rhmget_config_version p) /\ in_u 16 (rhmget_version p)
    /\ in_s 32 (rhmget_code p) /\ vector_ok (rhmget_values p);
  p_received p := 
    mk_response_hmget
      (rhmget_config_version p) (rhmget_version p) (rhmget_code p)
      (map (set_version (rhmget_version p)) (map plain (rhmget_values p)))
}.
Next Obligation. plain_packet. done. Qed.

#[export] Program Instance packet_request_hdel : Packet request_hdel := {
  p_encode := request_hdel_encode; p_decode := request_hdel_decode;
  p_ok p := in_u 8 (hdel_server_flag p) /\ in_u 16 (hdel_area p) /\ in_u 16 (hdel_version p)
    /\ in_s 32 (hdel_expire p) /\ plain_ok (hdel_key p) /\ plain_ok (hdel_field p);
  p_received p := 
    mk_request_hdel
      (hdel_server_flag p) (hdel_area p) (hdel_version p) (hdel_expire p)
      (set_version (hdel_version p) (plain (hdel_key p))) (plain (hdel_field p))
}.
Next Obligation. plain_packet. done. Qed.

#[export] Program Instance packet_response_hdel : Packet response_hdel := {
  p_encode := response_hdel_encode; p_decode := response_hdel_decode;
  p_ok p := in_u 32 (rhdel_config_version p) /\ in_s 32 (rhdel_code p);
  p_received p := p
}.
Next Obligation. plain_packet. by destruct p. Qed.

#[export] Program Instance packet_request_hdel_dup : Packet (dup request_hdel) := {
  p_encode := request_hdel_dup_encode; p_decode := request_hdel_dup_decode;
  p_ok := dup_ok; p_received := dup_received
}.
Next Obligation. exact dup_packet. Qed.

#[export] Program Instance codec_request_hvals : Codec request_hvals := {
  c_encode := request_hvals_encode; c_decode := request_hvals_decode;
  c_wire p := [u8 (hvals_server_flag p)] ++ be_split 2 (hvals_area p) ++ plain_bytes (hvals_key p);
  c_sends p := False;
  c_reads p := in_u 8 (hvals_server_flag p) /\ in_u 16 (hvals_area p) /\ plain_ok (hvals_key p);
  c_received p := mk_request_hvals (hvals_server_flag p) (hvals_area p) (plain (hvals_key p))
}.
Next Obligation. never. Qed.
Next Obligation. plain_received. done. Qed.

#[export] Program Instance codec_response_hvals : Codec response_hvals := {
  c_encode := response_hvals_encode; c_decode := response_hvals_decode;
  c_wire p := be_split 4 (rhvals_config_version p) ++ be_split 2 (rhvals_version p)
    ++ be_split 4 (rhvals_code p) ++ vector_bytes (rhvals_values p);
  c_sends p := Z.of_nat (length (rhvals_values p)) <= RESPONSE_VALUES_MAXSIZE;
  c_reads p := False;
  c_received p := p
}.
Next Obligation. plain_sent. Qed.
Next Obligation. never. Qed.

#[export] Program Instance codec_request_hkeys : Codec request_hkeys := {
  c_encode := request_hkeys_encode; c_decode := request_hkeys_decode;
  c_wire p := [u8 (hkeys_server_flag p)] ++ be_split 2 (hkeys_area p) ++ plain_bytes (hkeys_key p);
  c_sends p := False;
  c_reads p := in_u 8 (hkeys_server_flag p) /\ in_u 16 (hkeys_area p) /\ plain_ok (hkeys_key p);
  c_received p := mk_request_hkeys (hkeys_server_flag p) (hkeys_area p) (plain (hkeys_key p))
}.
Next Obligation. never. Qed.
Next Obligation. plain_received. done. Qed.

#[export] Program Instance codec_response_hkeys : Codec response_hkeys := {
  c_encode := response_hkeys_encode; c_decode := response_hkeys_decode;
  c_wire p := be_split 4 (rhkeys_config_version p) ++ be_split 2 (rhkeys_version p)
    ++ be_split 4 (rhkeys_code p) ++ vector_bytes (rhkeys_keys p);
  c_sends p := Z.of_nat (length (rhkeys_keys p)) <= RESPONSE_VALUES_MAXSIZE;
  c_reads p := False;
  c_received p := p
}.
Next Obligation. plain_sent. Qed.
Next Obligation. never. Qed.

#[export] Program Instance codec_request_hlen : Codec request_hlen := {
  c_encode := request_hlen_encode; c_decode := request_hlen_decode;
  c_wire p := [u8 (hlen_server_flag p)] ++ be_split 2 (hlen_area p) ++ plain_bytes (hlen_key p);
  c_sends p := False;
  c_reads p := in_u 8 (hlen_server_flag p) /\ in_u 16 (hlen_area p) /\ plain_ok (hlen_key p);
  c_received p := mk_request_hlen (hlen_server_flag p) (hlen_area p) (plain (hlen_key p))
}.
Next Obligation. never. Qed.
Next Obligation. plain_received. done. Qed.

#[export] Program Instance codec_response_hlen : Codec response_hlen := {
  c_encode := response_hlen_encode; c_decode := response_hlen_decode;
  c_wire p := be_split 4 (rhlen_config_version p) ++ be_split 4 (rhlen_code p)
    ++ be_split 8 (rhlen_retnum p);
  c_sends p := True;
  c_reads p := False;
  c_received p := p
}.
Next Obligation. plain_sent. Qed.
Next Obligation. never. Qed.

#[export] Program Instance packet_request_hexists : Packet request_hexists := {
  p_encode := request_hexists_encode; p_decode := request_hexists_decode;
  p_ok p := in_u 8 (hexists_server_flag p) /\ in_u 16 (hexists_area p) /\ plain_ok (hexists_key p)
    /\ plain_ok (hexists_field p);
  p_received p := 
    mk_request_hexists
      (hexists_server_flag p) (hexists_area p) (plain (hexists_key p))
      (plain (hexists_field p))
}.
Next Obligation. plain_packet. done. Qed.
