(* ===== verification/ListPackets.v ===== *)
(** * The list packets (packets/*_packet.hpp)

    Pushes, pops and reads of lists, and the copies of the writes.

    One section per file: lrpop, lrpush, lindex, llen, ltrim, lrange, lrem, lset. *)

From S2P Require Import Prelude DataBuffer DataEntry BasePacket KvPackets.

(** ** Copies of pushes and pops

    [request_lrpush_dup] and [request_lrpop_dup] carry the packet code of the
    request they copy ([old_pcode]) as well; [conv] is the conversion to its
    type. *)
Record old_dup (P : Type) := mk_old_dup { od_base : P; od_pcode : Z; od_id : Z; od_bucket : Z }.
Arguments mk_old_dup {P} _ _ _ _.
Arguments od_base {P} _.
Arguments od_pcode {P} _.
Arguments od_id {P} _.
Arguments od_bucket {P} _.

Definition old_dup_encode {P} (encode : P -> encoder) (p : old_dup P) : encoder := fun output =>
  match encode (od_base p) output with
  | Some (_, output) =>
      let output := writeInt32 (od_pcode p) output in
      let output := writeInt32 (od_id p) output in
      Some (true, writeInt32 (od_bucket p) output)
  | None => None
  end.
Definition old_dup_decode {P} (conv : Z -> Z) (decode : Z -> reader P) (dataLen : Z)
    : reader (old_dup P) :=
  let? r := decode dataLen in
  let? old_pcode := readInt32 in
  let? packet_id := readInt32 in
  let? bucket_id := readInt32 in
  rret (mk_old_dup r (conv old_pcode) packet_id (s32 bucket_id)).

(** ** lrpop_packet.hpp *)

Record request_lrpop := mk_request_lrpop {
  lrpop_server_flag : Z; lrpop_area : Z; lrpop_version : Z; lrpop_expire : Z;
  lrpop_count : Z; lrpop_key : data_entry
}.
Definition request_lrpop_encode (p : request_lrpop) : encoder :=
  always (fun output =>
    let output := writeInt8 (lrpop_server_flag p) output in
    let output := writeInt16 (lrpop_area p) output in
    let output := writeInt16 (lrpop_version p) output in
    let output := writeInt32 (lrpop_expire p) output in
    let output := writeInt32 (lrpop_count p) output in
    PUT_DATAENTRY (lrpop_key p) output).
Definition request_lrpop_decode (dataLen : Z) : reader request_lrpop :=
  let? (server_flag, area) := HEADER_VERIFY dataLen in
  let? version := GETKEY_INT16 in
  let? expire := GETKEY_INT32 in
  let? count := GETKEY_INT32 in
  let? key := GETKEY_DATAENTRY new_data_entry in
  let key := set_version version key in
  rret (mk_request_lrpop server_flag area version (s32 expire) (s32 count) key).

Definition request_lrpop_dup_encode : old_dup request_lrpop -> encoder :=
  old_dup_encode request_lrpop_encode.
Definition request_lrpop_dup_decode : Z -> reader (old_dup request_lrpop) :=
  old_dup_decode s32 request_lrpop_decode.

Record response_lrpop := mk_response_lrpop {
  rlrpop_config_version : Z; rlrpop_version : Z; rlrpop_code : Z;
  rlrpop_values : list data_entry
}.
Definition response_lrpop_encode (p : response_lrpop) : encoder :=
  refuse_if (RESPONSE_VALUES_MAXSIZE <? Z.of_nat (length (rlrpop_values p))) (always (fun output =>
    let output := writeInt32 (rlrpop_config_version p) output in
    let output := writeInt16 (rlrpop_version p) output in
    let output := writeInt32 (rlrpop_code p) output in
    PUT_DATAVECTOR (rlrpop_values p) output)).
Definition response_lrpop_decode (dataLen : Z) : reader response_lrpop :=
  let? config_version := GETKEY_INT32 in
  let? version := GETKEY_INT16 in
  let? code := GETKEY_INT32 in
  let? values := GETKEY_DATAVECTOR in
  rret (mk_response_lrpop config_version version (s32 code) values).

(** ** lrpush_packet.hpp *)

Record request_lrpush := mk_request_lrpush {
  lrpush_server_flag : Z; lrpush_area : Z; lrpush_version : Z; lrpush_expire : Z;
  lrpush_key : data_entry; lrpush_values : list data_entry
}.
Definition request_lrpush_encode (p : request_lrpush) : encoder :=
  always (fun output =>
    let output := writeInt8 (lrpush_server_flag p) output in
    let output := writeInt16 (lrpush_area p) output in
    let output := writeInt16 (lrpush_version p) output in
    let output := writeInt32 (lrpush_expire p) output in
    let output := PUT_DATAENTRY (lrpush_key p) output in
    PUT_DATAVECTOR (lrpush_values p) output).
Definition request_lrpush_decode (dataLen : Z) : reader request_lrpush :=
  let? (server_flag, area) := HEADER_VERIFY dataLen in
  let? version := GETKEY_INT16 in
  let? expire := GETKEY_INT32 in
  let? key := GETKEY_DATAENTRY new_data_entry in
  let? values := GETKEY_DATAVECTOR in
  let key := set_version version key in
  rret (mk_request_lrpush server_flag area version (s32 expire) key values).

Definition request_lrpush_dup_encode : old_dup request_lrpush -> encoder :=
  old_dup_encode request_lrpush_encode.
Definition request_lrpush_dup_decode : Z -> reader (old_dup request_lrpush) :=
  old_dup_decode (fun old_pcode => old_pcode) request_lrpush_decode.

Record request_lrpush_limit := mk_request_lrpush_limit {
  lrpush_limit_server_flag : Z; lrpush_limit_area : Z; lrpush_limit_version : Z;
  lrpush_limit_expire : Z; lrpush_limit_max_count : Z; lrpush_limit_key : data_entry;
  lrpush_limit_values : list data_entry
}.
Definition request_lrpush_limit_encode (p : request_lrpush_limit) : encoder :=
  always (fun output =>
    let output := writeInt8 (lrpush_limit_server_flag p) output in
    let output := writeInt16 (lrpush_limit_area p) output in
    let output := writeInt16 (lrpush_limit_version p) output in
    let output := writeInt32 (lrpush_limit_expire p) output in
    let output := writeInt32 (lrpush_limit_max_count p) output in
    let output := PUT_DATAENTRY (lrpush_limit_key p) output in
    PUT_DATAVECTOR (lrpush_limit_values p) output).
Definition request_lrpush_limit_decode (dataLen : Z) : reader request_lrpush_limit :=
  let? (server_flag, area) := HEADER_VERIFY dataLen in
  let? version := GETKEY_INT16 in
  let? expire := GETKEY_INT32 in
  let? max_count := GETKEY_INT32 in
  let? key := GETKEY_DATAENTRY new_data_entry in
  let? values := GETKEY_DATAVECTOR in
  let key := set_version version key in
  rret (mk_request_lrpush_limit
          server_flag area version (s32 expire) (s32 max_count) key values).

Record response_lrpush := mk_response_lrpush {
  rlrpush_config_version : Z; rlrpush_code : Z; rlrpush_pushed_num : Z;
  rlrpush_list_len : Z
}.
Definition response_lrpush_encode (p : response_lrpush) : encoder :=
  always (fun output =>
    let output := writeInt32 (rlrpush_config_version p) output in
    let output := writeInt32 (rlrpush_code p) output in
    let output := writeInt32 (rlrpush_pushed_num p) output in
    writeInt32 (rlrpush_list_len p) output).
Definition response_lrpush_decode (dataLen : Z) : reader response_lrpush :=
  let? config_version := GETKEY_INT32 in
  let? code := GETKEY_INT32 in
  let? pushed_num := GETKEY_INT32 in
  let? list_len := GETKEY_INT32 in
  rret (mk_response_lrpush config_version (s32 code) pushed_num list_len).

(** [request_lrpush_limit] declares [area], [version], [expire], [key] and
    [values] again, which hides the members of its base [request_lrpush];
    those keep what the constructor puts in them.  [request_lrpush_limit_dup]
    calls the encode and decode of [request_lrpush], which see the hidden
    members only. *)
Definition hidden_lrpush (p : request_lrpush_limit) : request_lrpush :=
  mk_request_lrpush (lrpush_limit_server_flag p) 0 0 0 new_data_entry [].
Definition request_lrpush_limit_dup_encode : old_dup request_lrpush_limit -> encoder :=
  old_dup_encode (fun p => request_lrpush_encode (hidden_lrpush p)).
Definition request_lrpush_limit_dup_decode : Z -> reader (old_dup request_lrpush) :=
  old_dup_decode s32 request_lrpush_decode.

(** ** lindex_packet.hpp *)

Record request_lindex := mk_request_lindex {
  lindex_server_flag : Z; lindex_area : Z; lindex_index : Z; lindex_key : data_entry
}.
Definition request_lindex_encode (p : request_lindex) : encoder :=
  always (fun output =>
    let output := writeInt8 (lindex_server_flag p) output in
    let output := writeInt16 (lindex_area p) output in
    let output := writeInt32 (lindex_index p) output in
    PUT_DATAENTRY (lindex_key p) output).
Definition request_lindex_decode (dataLen : Z) : reader request_lindex :=
  let? (server_flag, area) := HEADER_VERIFY dataLen in
  let? index := GETKEY_INT32 in
  let? key := GETKEY_DATAENTRY new_data_entry in
  rret (mk_request_lindex server_flag area (s32 index) key).

Record response_lindex := mk_response_lindex {
  rlindex_config_version : Z; rlindex_version : Z; rlindex_code : Z;
  rlindex_value : data_entry
}.
Definition response_lindex_encode (p : response_lindex) : encoder :=
  always (fun output =>
    let output := writeInt32 (rlindex_config_version p) output in
    let output := writeInt16 (rlindex_version p) output in
    let output := writeInt32 (rlindex_code p) output in
    PUT_DATAENTRY (rlindex_value p) output).
Definition response_lindex_decode (dataLen : Z) : reader response_lindex :=
  let? config_version := GETKEY_INT32 in
  let? version := GETKEY_INT16 in
  let? code := GETKEY_INT32 in
  let? value := GETKEY_DATAENTRY new_data_entry in
  rret (mk_response_lindex config_version version (s32 code) value).

(** ** llen_packet.hpp *)

Record request_llen := mk_request_llen {
  llen_server_flag : Z; llen_area : Z; llen_key : data_entry
}.
Definition request_llen_encode (p : request_llen) : encoder :=
  always (fun output =>
    let output := writeInt8 (llen_server_flag p) output in
    let output := writeInt16 (llen_area p) output in
    PUT_DATAENTRY (llen_key p) output).
Definition request_llen_decode (dataLen : Z) : reader request_llen :=
  let? (server_flag, area) := HEADER_VERIFY dataLen in
  let? key := GETKEY_DATAENTRY new_data_entry in
  rret (mk_request_llen server_flag area key).

Record response_llen := mk_response_llen {
  rllen_config_version : Z; rllen_code : Z; rllen_retnum : Z
}.
Definition response_llen_encode (p : response_llen) : encoder :=
  always (fun output =>
    let output := writeInt32 (rllen_config_version p) output in
    let output := writeInt32 (rllen_code p) output in
    writeInt64 (rllen_retnum p) output).
Definition response_llen_decode (dataLen : Z) : reader response_llen :=
  let? config_version := GETKEY_INT32 in
  let? code := GETKEY_INT32 in
  let? retnum := GETKEY_INT64 in
  rret (mk_response_llen config_version (s32 code) (s64 retnum)).

(** ** ltrim_packet.hpp *)

Record request_ltrim := mk_request_ltrim {
  ltrim_server_flag : Z; ltrim_area : Z; ltrim_version : Z; ltrim_expire : Z;
  ltrim_start : Z; ltrim_end : Z; ltrim_key : data_entry
}.
Definition request_ltrim_encode (p : request_ltrim) : encoder :=
  always (fun output =>
    let output := CREATE_HEADER (ltrim_server_flag p) (ltrim_area p) output in
    let output := writeInt16 (ltrim_version p) output in
    let output := writeInt32 (ltrim_expire p) output in
    let output := writeInt32 (ltrim_start p) output in
    let output := writeInt32 (ltrim_end p) output in
    PUT_DATAENTRY (ltrim_key p) output).
Definition request_ltrim_decode (dataLen : Z) : reader request_ltrim :=
  let? (server_flag, area) := HEADER_VERIFY dataLen in
  let? version := GETKEY_INT16 in
  let? expire := GETKEY_INT32 in
  let? start := GETKEY_INT32 in
  let? end_ := GETKEY_INT32 in
  let? key := GETKEY_DATAENTRY new_data_entry in
  let key := set_version version key in
  rret (mk_request_ltrim server_flag area version (s32 expire) (s32 start) (s32 end_) key).

Definition request_ltrim_dup_encode : dup request_ltrim -> encoder :=
  dup_encode request_ltrim_encode.
Definition request_ltrim_dup_decode : Z -> reader (dup request_ltrim) :=
  dup_decode request_ltrim_decode.

Record response_ltrim := mk_response_ltrim { rltrim_config_version : Z; rltrim_code : Z }.
Definition response_ltrim_encode (p : response_ltrim) : encoder :=
  always (fun output =>
    let output := writeInt32 (rltrim_config_version p) output in
    writeInt32 (rltrim_code p) output).
Definition response_ltrim_decode (dataLen : Z) : reader response_ltrim :=
  let? config_version := GETKEY_INT32 in
  let? code := GETKEY_INT32 in
  rret (mk_response_ltrim config_version (s32 code)).

(** ** lrange_packet.hpp *)

Record request_lrange := mk_request_lrange {
  lrange_server_flag : Z; lrange_area : Z; lrange_start : Z; lrange_end : Z;
  lrange_key : data_entry
}.
Definition request_lrange_encode (p : request_lrange) : encoder :=
  always (fun output =>
    let output := CREATE_HEADER (lrange_server_flag p) (lrange_area p) output in
    let output := writeInt32 (lrange_start p) output in
    let output := writeInt32 (lrange_end p) output in
    PUT_DATAENTRY (lrange_key p) output).
Definition request_lrange_decode (dataLen : Z) : reader request_lrange :=
  let? (server_flag, area) := HEADER_VERIFY dataLen in
  let? start := GETKEY_INT32 in
  let? end_ := GETKEY_INT32 in
  let? key := GETKEY_DATAENTRY new_data_entry in
  rret (mk_request_lrange server_flag area (s32 start) (s32 end_) key).

Record response_lrange := mk_response_lrange {
  rlrange_config_version : Z; rlrange_version : Z; rlrange_code : Z;
  rlrange_values : list data_entry
}.
Definition response_lrange_encode (p : response_lrange) : encoder :=
  refuse_if (RESPONSE_VALUES_MAXSIZE <? Z.of_nat (length (rlrange_values p))) (always (fun output =>
    let output := writeInt32 (rlrange_config_version p) output in
    let output := writeInt16 (rlrange_version p) output in
    let output := writeInt32 (rlrange_code p) output in
    PUT_DATAVECTOR (rlrange_values p) output)).
Definition response_lrange_decode (dataLen : Z) : reader response_lrange :=
  let? config_version := GETKEY_INT32 in
  let? version := GETKEY_INT16 in
  let? code := GETKEY_INT32 in
  let? values := GETKEY_DATAVECTOR in
  rret (mk_response_lrange config_version version (s32 code) values).

(** ** lrem_packet.hpp *)

Record request_lrem := mk_request_lrem {
  lrem_server_flag : Z; lrem_area : Z; lrem_version : Z; lrem_expire : Z; lrem_count : Z;
  lrem_key : data_entry; lrem_value : data_entry
}.
Definition request_lrem_encode (p : request_lrem) : encoder :=
  always (fun output =>
    let output := CREATE_HEADER (lrem_server_flag p) (lrem_area p) output in
    let output := writeInt16 (lrem_version p) output in
    let output := writeInt32 (lrem_expire p) output in
    let output := writeInt32 (lrem_count p) output in
    let output := PUT_DATAENTRY (lrem_key p) output in
    PUT_DATAENTRY (lrem_value p) output).
Definition request_lrem_decode (dataLen : Z) : reader request_lrem :=
  let? (server_flag, area) := HEADER_VERIFY dataLen in
  let? version := GETKEY_INT16 in
  let? expire := GETKEY_INT32 in
  let? count := GETKEY_INT32 in
  let? key := GETKEY_DATAENTRY new_data_entry in
  let? value := GETKEY_DATAENTRY new_data_entry in
  let key := set_version version key in
  rret (mk_request_lrem server_flag area version (s32 expire) (s32 count) key value).

Definition request_lrem_dup_encode : dup request_lrem -> encoder :=
  dup_encode request_lrem_encode.
Definition request_lrem_dup_decode : Z -> reader (dup request_lrem) :=
  dup_decode request_lrem_decode.

Record response_lrem := mk_response_lrem {
  rlrem_config_version : Z; rlrem_code : Z; rlrem_retnum : Z
}.
Definition response_lrem_encode (p : response_lrem) : encoder :=
  always (fun output =>
    let output := writeInt32 (rlrem_config_version p) output in
    let output := writeInt32 (rlrem_code p) output in
    writeInt64 (rlrem_retnum p) output).
Definition response_lrem_decode (dataLen : Z) : reader response_lrem :=
  let? config_version := GETKEY_INT32 in
  let? code := GETKEY_INT32 in
  let? retnum := GETKEY_INT64 in
  rfail.

(** ** lset_packet.hpp *)

Record request_lset := mk_request_lset {
  lset_server_flag : Z; lset_area : Z; lset_version : Z; lset_expire : Z; lset_index : Z;
  lset_key : data_entry; lset_value : data_entry
}.
Definition request_lset_encode (p : request_lset) : encoder :=
  always (fun output =>
    let output := CREATE_HEADER (lset_server_flag p) (lset_area p) output in
    let output := writeInt16 (lset_version p) output in
    let output := writeInt32 (lset_expire p) output in
    let output := writeInt32 (lset_index p) output in
    let output := PUT_DATAENTRY (lset_key p) output in
    PUT_DATAENTRY (lset_value p) output).
Definition request_lset_decode (dataLen : Z) : reader request_lset :=
  let? (server_flag, area) := HEADER_VERIFY dataLen in
  let? version := GETKEY_INT16 in
  let? expire := GETKEY_INT32 in
  let? index := GETKEY_INT32 in
  let? key := GETKEY_DATAENTRY new_data_entry in
  let? value := GETKEY_DATAENTRY new_data_entry in
  let key := set_version version key in
  rret (mk_request_lset server_flag area version (s32 expire) (s32 index) key value).

Definition request_lset_dup_encode : dup request_lset -> encoder :=
  dup_encode request_lset_encode.
Definition request_lset_dup_decode : Z -> reader (dup request_lset) :=
  dup_decode request_lset_decode.

(** ** Round trips *)

Definition old_dup_ok {P} `{Packet P} (p : old_dup P) : Prop :=
  p_ok (od_base p) /\ in_u 31 (od_pcode p) /\ in_u 32 (od_id p) /\ in_s 32 (od_bucket p).
Definition old_dup_received {P} `{Packet P} (p : old_dup P) : old_dup P :=
  mk_old_dup (p_received (od_base p)) (od_pcode p) (od_id p) (od_bucket p).

Lemma old_dup_packet {P} `{Packet P} conv (p : old_dup P) :
  (forall z, in_u 31 z -> conv (u32 z) = z) -> old_dup_ok p ->
  exists w l, old_dup_encode p_encode p = always w /\ emits w l
    /\ forall dataLen, Z.of_nat (length l) <= dataLen ->
       parses (old_dup_decode conv p_decode dataLen) l (old_dup_received p).
Proof.
  intros Hconv (Hok & Hc & Hi & Hb). destruct (p_roundtrip _ Hok) as (w & l & E & Hw & Hr).
  unfold old_dup_encode. rewrite E. eexists _, _. split; [reflexivity|]. split; [emit_tac|].
  intros d Hd. rewrite <- ?app_assoc. apply parses_nil_r. rewrite <- ?app_assoc.
  eapply parses_bind; [apply Hr; rewrite ?length_app in Hd; lia|].
  parse_tac. unfold old_dup_received. rewrite Hconv by done. by fields.
Qed.

Lemma code_s32 z : in_u 31 z -> s32 (u32 z) = z.
Proof. unfold in_u. intros. apply s32_u32. unfold in_s. lia. Qed.
Lemma code_u32 z : in_u 31 z -> u32 z = z.
Proof. unfold in_u. intros. apply wrap_id. unfold in_u. lia. Qed.
#[export] Hint Resolve code_s32 code_u32 : tair.

#[export] Program Instance packet_request_lrpop : Packet request_lrpop := {
  p_encode := request_lrpop_encode; p_decode := request_lrpop_decode;
  p_ok p := in_u 8 (lrpop_server_flag p) /\ in_u 16 (lrpop_area p) /\ in_u 16 (lrpop_version p)
    /\ in_s 32 (lrpop_expire p) /\ in_s 32 (lrpop_count p) /\ plain_ok (lrpop_key p);
  p_received p := 
    mk_request_lrpop
      (lrpop_server_flag p) (lrpop_area p) (lrpop_version p) (lrpop_expire p)
      (lrpop_count p) (set_version (lrpop_version p) (plain (lrpop_key p)))
}.
Next Obligation. plain_packet. done. Qed.

#[export] Program Instance packet_request_lrpop_dup : Packet (old_dup request_lrpop) := {
  p_encode := request_lrpop_dup_encode; p_decode := request_lrpop_dup_decode;
  p_ok := old_dup_ok; p_received := old_dup_received
}.
Next Obligation. intros p Hok. exact (old_dup_packet s32 p code_s32 Hok). Qed.

#[export] Program Instance packet_response_lrpop : Packet response_lrpop := {
  p_encode := response_lrpop_encode; p_decode := response_lrpop_decode;
  p_ok p := in_u 32 (rlrpop_config_version p) /\ in_u 16 (rlrpop_version p)
    /\ in_s 32 (rlrpop_code p) /\ vector_ok (rlrpop_values p)
    /\ Z.of_nat (length (rlrpop_values p)) <= RESPONSE_VALUES_MAXSIZE;
  p_received p := 
    mk_response_lrpop
      (rlrpop_config_version p) (rlrpop_version p) (rlrpop_code p)
      (map plain (rlrpop_values p))
}.
Next Obligation. values_packet. done. Qed.

#[export] Program Instance packet_request_lrpush : Packet request_lrpush := {
  p_encode := request_lrpush_encode; p_decode := request_lrpush_decode;
  p_ok p := in_u 8 (lrpush_server_flag p) /\ in_u 16 (lrpush_area p) /\ in_u 16 (lrpush_version p)
    /\ in_s 32 (lrpush_expire p) /\ plain_ok (lrpush_key p) /\ vector_ok (lrpush_values p);
  p_received p := 
    mk_request_lrpush
      (lrpush_server_flag p) (lrpush_area p) (lrpush_version p) (lrpush_expire p)
      (set_version (lrpush_version p) (plain (lrpush_key p)))
      (map plain (lrpush_values p))
}.
Next Obligation. plain_packet. done. Qed.

#[export] Program Instance packet_request_lrpush_dup : Packet (old_dup request_lrpush) := {
  p_encode := request_lrpush_dup_encode; p_decode := request_lrpush_dup_decode;
  p_ok := old_dup_ok; p_received := old_dup_received
}.
Next Obligation. intros p Hok. exact (old_dup_packet (fun z => z) p code_u32 Hok). Qed.

#[export] Program Instance packet_request_lrpush_limit : Packet request_lrpush_limit := {
  p_encode := request_lrpush_limit_encode; p_decode := request_lrpush_limit_decode;
  p_ok p := in_u 8 (lrpush_limit_server_flag p) /\ in_u 16 (lrpush_limit_area p)
    /\ in_u 16 (lrpush_limit_version p) /\ in_s 32 (lrpush_limit_expire p)
    /\ in_s 32 (lrpush_limit_max_count p) /\ plain_ok (lrpush_limit_key p)
    /\ vector_ok (lrpush_limit_values p);
  p_received p := 
    mk_request_lrpush_limit
      (lrpush_limit_server_flag p) (lrpush_limit_area p) (lrpush_limit_version p)
      (lrpush_limit_expire p) (lrpush_limit_max_count p)
      (set_version (lrpush_limit_version p) (plain (lrpush_limit_key p)))
      (map plain (lrpush_limit_values p))
}.
Next Obligation. plain_packet. done. Qed.

#[export] Program Instance packet_response_lrpush : Packet response_lrpush := {
  p_encode := response_lrpush_encode; p_decode := response_lrpush_decode;
  p_ok p := in_u 32 (rlrpush_config_version p) /\ in_s 32 (rlrpush_code p)
    /\ in_u 32 (rlrpush_pushed_num p) /\ in_u 32 (rlrpush_list_len p);
  p_received p := p
}.
Next Obligation. plain_packet. by destruct p. Qed.

#[export] Program Instance packet_request_lindex : Packet request_lindex := {
  p_encode := request_lindex_encode; p_decode := request_lindex_decode;
  p_ok p := in_u 8 (lindex_server_flag p) /\ in_u 16 (lindex_area p) /\ in_s 32 (lindex_index p)
    /\ plain_ok (lindex_key p);
  p_received p := 
    mk_request_lindex
      (lindex_server_flag p) (lindex_area p) (lindex_index p) (plain (lindex_key p))
}.
Next Obligation. plain_packet. done. Qed.

#[export] Program Instance packet_response_lindex : Packet response_lindex := {
  p_encode := response_lindex_encode; p_decode := response_lindex_decode;
  p_ok p := in_u 32 (rlindex_config_version p) /\ in_u 16 (rlindex_version p)
    /\ in_s 32 (rlindex_code p) /\ plain_ok (rlindex_value p);
  p_received p := 
    mk_response_lindex
      (rlindex_config_version p) (rlindex_version p) (rlindex_code p)
      (plain (rlindex_value p))
}.
Next Obligation. plain_packet. done. Qed.

#[export] Program Instance packet_request_llen : Packet request_llen := {
  p_encode := request_llen_encode; p_decode := request_llen_decode;
  p_ok p := in_u 8 (llen_server_flag p) /\ in_u 16 (llen_area p) /\ plain_ok (llen_key p);
  p_received p := mk_request_llen (llen_server_flag p) (llen_area p) (plain (llen_key p))
}.
Next Obligation. plain_packet. done. Qed.

#[export] Program Instance packet_response_llen : Packet response_llen := {
  p_encode := response_llen_encode; p_decode := response_llen_decode;
  p_ok p := in_u 32 (rllen_config_version p) /\ in_s 32 (rllen_code p) /\ in_s 64 (rllen_retnum p);
  p_received p := p
}.
Next Obligation. plain_packet. by destruct p. Qed.

#[export] Program Instance packet_request_ltrim : Packet request_ltrim := {
  p_encode := request_ltrim_encode; p_decode := request_ltrim_decode;
  p_ok p := in_u 8 (ltrim_server_flag p) /\ in_u 16 (ltrim_area p) /\ in_u 16 (ltrim_version p)
    /\ in_s 32 (ltrim_expire p) /\ in_s 32 (ltrim_start p) /\ in_s 32 (ltrim_end p)
    /\ plain_ok (ltrim_key p);
  p_received p := 
    mk_request_ltrim
      (ltrim_server_flag p) (ltrim_area p) (ltrim_version p) (ltrim_expire p)
      (ltrim_start p) (ltrim_end p) (set_version (ltrim_version p) (plain (ltrim_key p)))
}.
Next Obligation. plain_packet. done. Qed.

#[export] Program Instance packet_request_ltrim_dup : Packet (dup request_ltrim) := {
  p_encode := request_ltrim_dup_encode; p_decode := request_ltrim_dup_decode;
  p_ok := dup_ok; p_received := dup_received
}.
Next Obligation. exact dup_packet. Qed.

#[export] Program Instance packet_response_ltrim : Packet response_ltrim := {
  p_encode := response_ltrim_encode; p_decode := response_ltrim_decode;
  p_ok p := in_u 32 (rltrim_config_version p) /\ in_s 32 (rltrim_code p);
  p_received p := p
}.
Next Obligation. plain_packet. by destruct p. Qed.

#[export] Program Instance packet_request_lrange : Packet request_lrange := {
  p_encode := request_lrange_encode; p_decode := request_lrange_decode;
  p_ok p := in_u 8 (lrange_server_flag p) /\ in_u 16 (lrange_area p) /\ in_s 32 (lrange_start p)
    /\ in_s 32 (lrange_end p) /\ plain_ok (lrange_key p);
  p_received p := 
    mk_request_lrange
      (lrange_server_flag p) (lrange_area p) (lrange_start p) (lrange_end p)
      (plain (lrange_key p))
}.
Next Obligation. plain_packet. done. Qed.

#[export] Program Instance packet_response_lrange : Packet response_lrange := {
  p_encode := response_lrange_encode; p_decode := response_lrange_decode;
  p_ok p := in_u 32 (rlrange_config_version p) /\ in_u 16 (rlrange_version p)
    /\ in_s 32 (rlrange_code p) /\ vector_ok (rlrange_values p)
    /\ Z.of_nat (length (rlrange_values p)) <= RESPONSE_VALUES_MAXSIZE;
  p_received p := 
    mk_response_lrange
      (rlrange_config_version p) (rlrange_version p) (rlrange_code p)
      (map plain (rlrange_values p))
}.
Next Obligation. values_packet. done. Qed.

#[export] Program Instance packet_request_lrem : Packet request_lrem := {
  p_encode := request_lrem_encode; p_decode := request_lrem_decode;
  p_ok p := in_u 8 (lrem_server_flag p) /\ in_u 16 (lrem_area p) /\ in_u 16 (lrem_version p)
    /\ in_s 32 (lrem_expire p) /\ in_s 32 (lrem_count p) /\ plain_ok (lrem_key p)
    /\ plain_ok (lrem_value p);
  p_received p := 
    mk_request_lrem
      (lrem_server_flag p) (lrem_area p) (lrem_version p) (lrem_expire p) (lrem_count p)
      (set_version (lrem_version p) (plain (lrem_key p))) (plain (lrem_value p))
}.
Next Obligation. plain_packet. done. Qed.

#[export] Program Instance packet_request_lrem_dup : Packet (dup request_lrem) := {
  p_encode := request_lrem_dup_encode; p_decode := request_lrem_dup_decode;
  p_ok := dup_ok; p_received := dup_received
}.
Next Obligation. exact dup_packet. Qed.

#[export] Program Instance codec_response_lrem : Codec response_lrem := {
  c_encode := response_lrem_encode; c_decode := response_lrem_decode;
  c_wire p := be_split 4 (rlrem_config_version p) ++ be_split 4 (rlrem_code p)
    ++ be_split 8 (rlrem_retnum p);
  c_sends p := True;
  c_reads p := False;
  c_received p := p
}.
Next Obligation. plain_sent. Qed.
Next Obligation. never. Qed.

#[export] Program Instance packet_request_lset : Packet request_lset := {
  p_encode := request_lset_encode; p_decode := request_lset_decode;
  p_ok p := in_u 8 (lset_server_flag p) /\ in_u 16 (lset_area p) /\ in_u 16 (lset_version p)
    /\ in_s 32 (lset_expire p) /\ in_s 32 (lset_index p) /\ plain_ok (lset_key p)
    /\ plain_ok (lset_value p);
  p_received p := 
    mk_request_lset
      (lset_server_flag p) (lset_area p) (lset_version p) (lset_expire p) (lset_index p)
      (set_version (lset_version p) (plain (lset_key p))) (plain (lset_value p))
}.
Next Obligation. plain_packet. done. Qed.

#[export] Program Instance packet_request_lset_dup : Packet (dup request_lset) := {
  p_encode := request_lset_dup_encode; p_decode := request_lset_dup_decode;
  p_ok := dup_ok; p_received := dup_received
}.
Next Obligation. exact dup_packet. Qed.

(** The copy of a limited push carries nothing of the request: neither key nor
    values nor limit. *)
Lemma limit_dup_carries_nothing (p q : old_dup request_lrpush_limit) :
  lrpush_limit_server_flag (od_base p) = lrpush_limit_server_flag (od_base q) ->
  od_pcode p = od_pcode q -> od_id p = od_id q -> od_bucket p = od_bucket q ->
  request_lrpush_limit_dup_encode p = request_lrpush_limit_dup_encode q.
Proof.
  intros Hb Hc Hi Hu. unfold request_lrpush_limit_dup_encode, old_dup_encode, hidden_lrpush.
  by rewrite Hb, Hc, Hi, Hu.
Qed.
