(* ===== verification/SetPackets.v ===== *)
(** * The set packets (packets/*_packet.hpp)

    Reads and writes of the members of a set, and the copies of the writes.

    One section per file: scard, smembers, spop, sadd, srem. *)

From S2P Require Import Prelude DataBuffer DataEntry BasePacket KvPackets.

(** The pairs of [request_sadd_multi], in the order of [keys_values_map], a map
    by address: at the receiver the order of the pairs is up to the allocator,
    and the list is in the order they were read. *)
Definition PUT_KEY_VALUES (kv : data_entry * list data_entry) : writer := fun output =>
  PUT_DATAVECTOR kv.2 (PUT_DATAENTRY kv.1 output).
Definition GETKEY_KEY_VALUES : reader (data_entry * list data_entry) :=
  let? key := GETKEY_DATAENTRY new_data_entry in
  let? values := GETKEY_DATAVECTOR in
  rret (key, values).

(** The pairs of [response_smembers_multi] *)
Definition PUT_VERSION_VALUES (vv : Z * list data_entry) : writer := fun output =>
  PUT_DATAVECTOR vv.2 (writeInt16 vv.1 output).
Definition GETKEY_VERSION_VALUES : reader (Z * list data_entry) :=
  let? version := GETKEY_INT16 in
  let? values := GETKEY_DATAVECTOR in
  rret (version, values).

(** ** scard_packet.hpp *)

Record request_scard := mk_request_scard {
  scard_server_flag : Z; scard_area : Z; scard_key : data_entry
}.
Definition request_scard_encode (p : request_scard) : encoder := fun _ => None.
Definition request_scard_decode (dataLen : Z) : reader request_scard :=
  let? (server_flag, area) := HEADER_VERIFY dataLen in
  let? key := GETKEY_DATAENTRY new_data_entry in
  rret (mk_request_scard server_flag area key).

Record response_scard := mk_response_scard {
  rscard_config_version : Z; rscard_code : Z; rscard_retnum : Z
}.
Definition response_scard_encode (p : response_scard) : encoder :=
  always (fun output =>
    let output := writeInt32 (rscard_config_version p) output in
    let output := writeInt32 (rscard_code p) output in
    writeInt64 (rscard_retnum p) output).
Definition response_scard_decode (dataLen : Z) : reader response_scard := decode_asserts.

(** ** smembers_packet.hpp *)

Record request_smembers := mk_request_smembers {
  smembers_server_flag : Z; smembers_area : Z; smembers_key : data_entry
}.
Definition request_smembers_encode (p : request_smembers) : encoder :=
  always (fun output =>
    let output := CREATE_HEADER (smembers_server_flag p) (smembers_area p) output in
    PUT_DATAENTRY (smembers_key p) output).
Definition request_smembers_decode (dataLen : Z) : reader request_smembers :=
  let? (server_flag, area) := HEADER_VERIFY dataLen in
  let? key := GETKEY_DATAENTRY new_data_entry in
  rret (mk_request_smembers server_flag area key).

Record request_smembers_multi := mk_request_smembers_multi {
  smembers_multi_server_flag : Z; smembers_multi_area : Z;
  smembers_multi_keys : list data_entry
}.
Definition request_smembers_multi_encode (p : request_smembers_multi) : encoder :=
  always (fun output =>
    let output := CREATE_HEADER (smembers_multi_server_flag p) (smembers_multi_area p) output in
    PUT_DATAVECTOR (smembers_multi_keys p) output).
Definition request_smembers_multi_decode (dataLen : Z) : reader request_smembers_multi :=
  let? (server_flag, area) := HEADER_VERIFY dataLen in
  let? keys := GETKEY_DATAVECTOR in
  rret (mk_request_smembers_multi server_flag area keys).

Record response_smembers := mk_response_smembers {
  rsmembers_config_version : Z; rsmembers_version : Z; rsmembers_code : Z;
  rsmembers_values : list data_entry
}.
Definition response_smembers_encode (p : response_smembers) : encoder :=
  refuse_if (RESPONSE_VALUES_MAXSIZE <? Z.of_nat (length (rsmembers_values p)))
   (always (fun output =>
    let output := writeInt32 (rsmembers_config_version p) output in
    let output := writeInt16 (rsmembers_version p) output in
    let output := writeInt32 (rsmembers_code p) output in
    PUT_DATAVECTOR (rsmembers_values p) output)).
Definition response_smembers_decode (dataLen : Z) : reader response_smembers :=
  let? config_version := GETKEY_INT32 in
  let? version := GETKEY_INT16 in
  let? code := GETKEY_INT32 in
  let? values := GETKEY_DATAVECTOR in
  let values := map (set_version version) values in
  rret (mk_response_smembers config_version version code values).

Record response_smembers_multi := mk_response_smembers_multi {
  rsmembers_multi_config_version : Z; rsmembers_multi_code : Z; rsmembers_multi_value_num : Z;
  rsmembers_multi_values_version_vec : list (Z * list data_entry)
}.
Definition response_smembers_multi_encode (p : response_smembers_multi) : encoder :=
  refuse_if (RESPONSE_VALUES_MAXSIZE <? rsmembers_multi_value_num p) (always (fun output =>
    let output := writeInt32 (rsmembers_multi_config_version p) output in
    let output := writeInt32 (rsmembers_multi_code p) output in
    let output := writeInt32 (Z.of_nat (length (rsmembers_multi_values_version_vec p))) output in
    write_all PUT_VERSION_VALUES (rsmembers_multi_values_version_vec p) output)).
(** [value_num] stays 0 in the object that decodes. *)
Definition response_smembers_multi_decode (dataLen : Z) : reader response_smembers_multi :=
  let? config_version := GETKEY_INT32 in
  let? code := GETKEY_INT32 in
  let? n := GETKEY_INT32 in
  let? values_version_vec := read_n (Z.to_nat (s32 n)) GETKEY_VERSION_VALUES in
  rret (mk_response_smembers_multi config_version (s32 code) 0 values_version_vec).

(** ** spop_packet.hpp *)

Record request_spop := mk_request_spop {
  spop_server_flag : Z; spop_area : Z; spop_version : Z; spop_expire : Z;
  spop_key : data_entry
}.
Definition request_spop_encode (p : request_spop) : encoder := fun _ => None.
Definition request_spop_decode (dataLen : Z) : reader request_spop :=
  let? (server_flag, area) := HEADER_VERIFY dataLen in
  let? version := GETKEY_INT16 in
  let? expire := GETKEY_INT32 in
  let? key := GETKEY_DATAENTRY new_data_entry in
  let key := set_version version key in
  rret (mk_request_spop server_flag area version (s32 expire) key).

Definition request_spop_dup_encode : dup request_spop -> encoder :=
  dup_encode request_spop_encode.
Definition request_spop_dup_decode : Z -> reader (dup request_spop) :=
  dup_decode request_spop_decode.

Record response_spop := mk_response_spop {
  rspop_config_version : Z; rspop_version : Z; rspop_code : Z; rspop_value : data_entry
}.
Definition response_spop_encode (p : response_spop) : encoder :=
  always (fun output =>
    let output := writeInt32 (rspop_config_version p) output in
    let output := writeInt16 (rspop_version p) output in
    let output := writeInt32 (rspop_code p) output in
    PUT_DATAENTRY (rspop_value p) output).
Definition response_spop_decode (dataLen : Z) : reader response_spop := decode_asserts.

(** ** sadd_packet.hpp *)

Record request_sadd := mk_request_sadd {
  sadd_server_flag : Z; sadd_area : Z; sadd_version : Z; sadd_expire : Z;
  sadd_key : data_entry; sadd_value : data_entry
}.
Definition request_sadd_encode (p : request_sadd) : encoder :=
  always (fun output =>
    let output := CREATE_HEADER (sadd_server_flag p) (sadd_area p) output in
    let output := writeInt16 (sadd_version p) output in
    let output := writeInt32 (sadd_expire p) output in
    let output := PUT_DATAENTRY (sadd_key p) output in
    PUT_DATAENTRY (sadd_value p) output).
Definition request_sadd_decode (dataLen : Z) : reader request_sadd :=
  let? (server_flag, area) := HEADER_VERIFY dataLen in
  let? version := GETKEY_INT16 in
  let? expire := GETKEY_INT32 in
  let? key := GETKEY_DATAENTRY new_data_entry in
  let? value := GETKEY_DATAENTRY new_data_entry in
  let key := set_version version key in
  rret (mk_request_sadd server_flag area version (s32 expire) key value).

Definition request_sadd_dup_encode : dup request_sadd -> encoder :=
  dup_encode request_sadd_encode.
Definition request_sadd_dup_decode : Z -> reader (dup request_sadd) :=
  dup_decode request_sadd_decode.

Record request_sadd_multi := mk_request_sadd_multi {
  sadd_multi_server_flag : Z; sadd_multi_area : Z; sadd_multi_expire : Z;
  sadd_multi_keys_values_map : list (data_entry * list data_entry)
}.
Definition request_sadd_multi_encode (p : request_sadd_multi) : encoder :=
  always (fun output =>
    let output := CREATE_HEADER (sadd_multi_server_flag p) (sadd_multi_area p) output in
    let output := writeInt32 (sadd_multi_expire p) output in
    let output := writeInt32 (Z.of_nat (length (sadd_multi_keys_values_map p))) output in
    write_all PUT_KEY_VALUES (sadd_multi_keys_values_map p) output).
Definition request_sadd_multi_decode (dataLen : Z) : reader request_sadd_multi :=
  let? (server_flag, area) := HEADER_VERIFY dataLen in
  let? expire := GETKEY_INT32 in
  let? n := GETKEY_INT32 in
  let? keys_values_map := read_n (Z.to_nat (s32 n)) GETKEY_KEY_VALUES in
  rret (mk_request_sadd_multi server_flag area (s32 expire) keys_values_map).

Record response_sadd := mk_response_sadd { rsadd_config_version : Z; rsadd_code : Z }.
Definition response_sadd_encode (p : response_sadd) : encoder :=
  always (fun output =>
    let output := writeInt32 (rsadd_config_version p) output in
    writeInt32 (rsadd_code p) output).
Definition response_sadd_decode (dataLen : Z) : reader response_sadd :=
  let? config_version := GETKEY_INT32 in
  let? code := GETKEY_INT32 in
  rret (mk_response_sadd config_version (s32 code)).

Definition request_sadd_multi_dup_encode : dup request_sadd_multi -> encoder :=
  dup_encode request_sadd_multi_encode.
Definition request_sadd_multi_dup_decode : Z -> reader (dup request_sadd_multi) :=
  dup_decode request_sadd_multi_decode.

(** ** srem_packet.hpp *)

Record request_srem := mk_request_srem {
  srem_server_flag : Z; srem_area : Z; srem_version : Z; srem_expire : Z;
  srem_key : data_entry; srem_value : data_entry
}.
Definition request_srem_encode (p : request_srem) : encoder :=
  always (fun output =>
    let output := CREATE_HEADER (srem_server_flag p) (srem_area p) output in
    let output := writeInt16 (srem_version p) output in
    let output := writeInt32 (srem_expire p) output in
    let output := PUT_DATAENTRY (srem_key p) output in
    PUT_DATAENTRY (srem_value p) output).
Definition request_srem_decode (dataLen : Z) : reader request_srem :=
  let? (server_flag, area) := HEADER_VERIFY dataLen in
  let? version := GETKEY_INT16 in
  let? expire := GETKEY_INT32 in
  let? key := GETKEY_DATAENTRY new_data_entry in
  let? value := GETKEY_DATAENTRY new_data_entry in
  let key := set_version version key in
  rret (mk_request_srem server_flag area version (s32 expire) key value).

Definition request_srem_dup_encode : dup request_srem -> encoder :=
  dup_encode request_srem_encode.
Definition request_srem_dup_decode : Z -> reader (dup request_srem) :=
  dup_decode request_srem_decode.

Definition request_srem_multi_dup_encode : dup request_sadd_multi -> encoder :=
  dup_encode request_sadd_multi_encode.
Definition request_srem_multi_dup_decode : Z -> reader (dup request_sadd_multi) :=
  dup_decode request_sadd_multi_decode.

Record response_srem := mk_response_srem { rsrem_config_version : Z; rsrem_code : Z }.
Definition response_srem_encode (p : response_srem) : encoder :=
  always (fun output =>
    let output := writeInt32 (rsrem_config_version p) output in
    writeInt32 (rsrem_code p) output).
Definition response_srem_decode (dataLen : Z) : reader response_srem :=
  let? config_version := GETKEY_INT32 in
  let? code := GETKEY_INT32 in
  rret (mk_response_srem config_version (s32 code)).

(** ** Round trips *)

(** *** Lists of pairs *)
Definition kv_bytes (kv : data_entry * list data_entry) : list Z := plain_bytes kv.1 ++ vector_bytes kv.2.
Definition kv_ok (kv : data_entry * list data_entry) : Prop := plain_ok kv.1 /\ vector_ok kv.2.
Definition kv_received (kv : data_entry * list data_entry) : data_entry * list data_entry :=
  (plain kv.1, map plain kv.2).
Definition vv_bytes (vv : Z * list data_entry) : list Z := be_split 2 vv.1 ++ vector_bytes vv.2.
Definition vv_ok (vv : Z * list data_entry) : Prop := in_u 16 vv.1 /\ vector_ok vv.2.
Definition vv_received (vv : Z * list data_entry) : Z * list data_entry := (vv.1, map plain vv.2).

Lemma emits_kvs l : emits (write_all PUT_KEY_VALUES l) (concat (map kv_bytes l)).
Proof. apply emits_write_all. intros x _. unfold PUT_KEY_VALUES, kv_bytes. emit_tac. Qed.
Lemma emits_vvs l : emits (write_all PUT_VERSION_VALUES l) (concat (map vv_bytes l)).
Proof. apply emits_write_all. intros x _. unfold PUT_VERSION_VALUES, vv_bytes. emit_tac. Qed.

Lemma parses_kvs l :
  Forall kv_ok l ->
  parses (read_n (length l) GETKEY_KEY_VALUES) (concat (map kv_bytes l)) (map kv_received l).
Proof.
  intros Hl. apply parses_read_map. eapply list.Forall_impl; [exact Hl|]. intros kv [Hk Hv].
  apply parses_nil_r. unfold GETKEY_KEY_VALUES, kv_bytes. rewrite <- app_assoc. by parse_tac.
Qed.
Lemma parses_vvs l :
  Forall vv_ok l ->
  parses (read_n (length l) GETKEY_VERSION_VALUES) (concat (map vv_bytes l)) (map vv_received l).
Proof.
  intros Hl. apply parses_read_map. eapply list.Forall_impl; [exact Hl|]. intros vv [Hk Hv].
  apply parses_nil_r. unfold GETKEY_VERSION_VALUES, vv_bytes. rewrite <- app_assoc. parse_tac. unfold vv_received. by fields.
Qed.
#[export] Hint Resolve emits_kvs emits_vvs parses_kvs parses_vvs : tair.

#[export] Program Instance codec_request_scard : Codec request_scard := {
  c_encode := request_scard_encode; c_decode := request_scard_decode;
  c_wire p := [u8 (scard_server_flag p)] ++ be_split 2 (scard_area p) ++ plain_bytes (scard_key p);
  c_sends p := False;
  c_reads p := in_u 8 (scard_server_flag p) /\ in_u 16 (scard_area p) /\ plain_ok (scard_key p);
  c_received p := mk_request_scard (scard_server_flag p) (scard_area p) (plain (scard_key p))
}.
Next Obligation. never. Qed.
Next Obligation. plain_received. done. Qed.

#[export] Program Instance codec_response_scard : Codec response_scard := {
  c_encode := response_scard_encode; c_decode := response_scard_decode;
  c_wire p := be_split 4 (rscard_config_version p) ++ be_split 4 (rscard_code p)
    ++ be_split 8 (rscard_retnum p);
  c_sends p := True;
  c_reads p := False;
  c_received p := p
}.
Next Obligation. plain_sent. Qed.
Next Obligation. never. Qed.

#[export] Program Instance packet_request_smembers : Packet request_smembers := {
  p_encode := request_smembers_encode; p_decode := request_smembers_decode;
  p_ok p := in_u 8 (smembers_server_flag p) /\ in_u 16 (smembers_area p)
    /\ plain_ok (smembers_key p);
  p_received p := 
    mk_request_smembers
      (smembers_server_flag p) (smembers_area p) (plain (smembers_key p))
}.
Next Obligation. plain_packet. done. Qed.

#[export] Program Instance packet_request_smembers_multi : Packet request_smembers_multi := {
  p_encode := request_smembers_multi_encode; p_decode := request_smembers_multi_decode;
  p_ok p := in_u 8 (smembers_multi_server_flag p) /\ in_u 16 (smembers_multi_area p)
    /\ vector_ok (smembers_multi_keys p);
  p_received p := 
    mk_request_smembers_multi
      (smembers_multi_server_flag p) (smembers_multi_area p)
      (map plain (smembers_multi_keys p))
}.
Next Obligation. plain_packet. done. Qed.

#[export] Program Instance packet_response_smembers : Packet response_smembers := {
  p_encode := response_smembers_encode; p_decode := response_smembers_decode;
  p_ok p := in_u 32 (rsmembers_config_version p) /\ in_u 16 (rsmembers_version p)
    /\ in_u 32 (rsmembers_code p) /\ vector_ok (rsmembers_values p)
    /\ Z.of_nat (length (rsmembers_values p)) <= RESPONSE_VALUES_MAXSIZE;
  p_received p := 
    mk_response_smembers
      (rsmembers_config_version p) (rsmembers_version p) (rsmembers_code p)
      (map (set_version (rsmembers_version p)) (map plain (rsmembers_values p)))
}.
Next Obligation. values_packet. done. Qed.

#[export] Program Instance packet_response_smembers_multi : Packet response_smembers_multi := {
  p_encode := response_smembers_multi_encode; p_decode := response_smembers_multi_decode;
  p_ok p := in_u 32 (rsmembers_multi_config_version p) /\ in_s 32 (rsmembers_multi_code p)
    /\ rsmembers_multi_value_num p <= RESPONSE_VALUES_MAXSIZE
    /\ Forall vv_ok (rsmembers_multi_values_version_vec p)
    /\ in_s 32 (Z.of_nat (length (rsmembers_multi_values_version_vec p)));
  p_received p := mk_response_smembers_multi (rsmembers_multi_config_version p)
    (rsmembers_multi_code p) 0 (map vv_received (rsmembers_multi_values_version_vec p))
}.
Next Obligation. values_packet. rewrite Nat2Z.id. packet_parse. done. Qed.

#[export] Program Instance codec_request_spop : Codec request_spop := {
  c_encode := request_spop_encode; c_decode := request_spop_decode;
  c_wire p := [u8 (spop_server_flag p)] ++ be_split 2 (spop_area p) ++ be_split 2 (spop_version p)
    ++ be_split 4 (spop_expire p) ++ plain_bytes (spop_key p);
  c_sends p := False;
  c_reads p := in_u 8 (spop_server_flag p) /\ in_u 16 (spop_area p) /\ in_u 16 (spop_version p)
    /\ in_s 32 (spop_expire p) /\ plain_ok (spop_key p);
  c_received p := 
    mk_request_spop
      (spop_server_flag p) (spop_area p) (spop_version p) (spop_expire p)
      (set_version (spop_version p) (plain (spop_key p)))
}.
Next Obligation. never. Qed.
Next Obligation. plain_received. done. Qed.

#[export] Program Instance codec_request_spop_dup : Codec (dup request_spop) := {
  c_encode := request_spop_dup_encode; c_decode := request_spop_dup_decode;
  c_wire := dup_wire; c_sends p := False;
  c_reads := dup_reads; c_received := dup_read
}.
Next Obligation. never. Qed.
Next Obligation. exact dup_parses. Qed.

#[export] Program Instance codec_response_spop : Codec response_spop := {
  c_encode := response_spop_encode; c_decode := response_spop_decode;
  c_wire p := be_split 4 (rspop_config_version p) ++ be_split 2 (rspop_version p)
    ++ be_split 4 (rspop_code p) ++ plain_bytes (rspop_value p);
  c_sends p := True;
  c_reads p := False;
  c_received p := p
}.
Next Obligation. plain_sent. Qed.
Next Obligation. never. Qed.

#[export] Program Instance packet_request_sadd : Packet request_sadd := {
  p_encode := request_sadd_encode; p_decode := request_sadd_decode;
  p_ok p := in_u 8 (sadd_server_flag p) /\ in_u 16 (sadd_area p) /\ in_u 16 (sadd_version p)
    /\ in_s 32 (sadd_expire p) /\ plain_ok (sadd_key p) /\ plain_ok (sadd_value p);
  p_received p := 
    mk_request_sadd
      (sadd_server_flag p) (sadd_area p) (sadd_version p) (sadd_expire p)
      (set_version (sadd_version p) (plain (sadd_key p))) (plain (sadd_value p))
}.
Next Obligation. plain_packet. done. Qed.

#[export] Program Instance packet_request_sadd_dup : Packet (dup request_sadd) := {
  p_encode := request_sadd_dup_encode; p_decode := request_sadd_dup_decode;
  p_ok := dup_ok; p_received := dup_received
}.
Next Obligation. exact dup_packet. Qed.

#[export] Program Instance packet_request_sadd_multi : Packet request_sadd_multi := {
  p_encode := request_sadd_multi_encode; p_decode := request_sadd_multi_decode;
  p_ok p := in_u 8 (sadd_multi_server_flag p) /\ in_u 16 (sadd_multi_area p)
    /\ in_s 32 (sadd_multi_expire p) /\ Forall kv_ok (sadd_multi_keys_values_map p)
    /\ in_s 32 (Z.of_nat (length (sadd_multi_keys_values_map p)));
  p_received p := mk_request_sadd_multi (sadd_multi_server_flag p) (sadd_multi_area p)
    (sadd_multi_expire p) (map kv_received (sadd_multi_keys_values_map p))
}.
Next Obligation. plain_packet. rewrite Nat2Z.id. packet_parse. done. Qed.

#[export] Program Instance packet_response_sadd : Packet response_sadd := {
  p_encode := response_sadd_encode; p_decode := response_sadd_decode;
  p_ok p := in_u 32 (rsadd_config_version p) /\ in_s 32 (rsadd_code p);
  p_received p := p
}.
Next Obligation. plain_packet. by destruct p. Qed.

(** This also serves [request_srem_multi_dup], whose encode and decode are the
    same. *)
#[export] Program Instance packet_request_sadd_multi_dup : Packet (dup request_sadd_multi) := {
  p_encode := request_sadd_multi_dup_encode; p_decode := request_sadd_multi_dup_decode;
  p_ok := dup_ok; p_received := dup_received
}.
Next Obligation. exact dup_packet. Qed.

#[export] Program Instance packet_request_srem : Packet request_srem := {
  p_encode := request_srem_encode; p_decode := request_srem_decode;
  p_ok p := in_u 8 (srem_server_flag p) /\ in_u 16 (srem_area p) /\ in_u 16 (srem_version p)
    /\ in_s 32 (srem_expire p) /\ plain_ok (srem_key p) /\ plain_ok (srem_value p);
  p_received p := 
    mk_request_srem
      (srem_server_flag p) (srem_area p) (srem_version p) (srem_expire p)
      (set_version (srem_version p) (plain (srem_key p))) (plain (srem_value p))
}.
Next Obligation. plain_packet. done. Qed.

#[export] Program Instance packet_request_srem_dup : Packet (dup request_srem) := {
  p_encode := request_srem_dup_encode; p_decode := request_srem_dup_decode;
  p_ok := dup_ok; p_received := dup_received
}.
Next Obligation. exact dup_packet. Qed.

#[export] Program Instance packet_response_srem : Packet response_srem := {
  p_encode := response_srem_encode; p_decode := response_srem_decode;
  p_ok p := in_u 32 (rsrem_config_version p) /\ in_s 32 (rsrem_code p);
  p_received p := p
}.
Next Obligation. plain_packet. by destruct p. Qed.
