(* ===== verification/ZsetPackets.v ===== *)
(** * The sorted set packets (packets/*_packet.hpp)

    Reads and writes of the members of a sorted set and their scores, and the
    copies of the writes.  A score is the 64 bits of a [double].

    One section per file: zscore, zrange, zrevrange, zrangebyscore,
    generic_zrangebyscore, zadd, zrank, zrevrank, zcount, zincrby, zcard, zrem,
    zremrangebyscore, zremrangebyrank. *)

From S2P Require Import Prelude DataBuffer DataEntry BasePacket KvPackets.

(** Values with scores: the loop of encode writes score 0 where [scores] has no
    more elements. *)
Fixpoint PUT_SCORED (values : list data_entry) (scores : list Z) : writer := fun output =>
  match values with
  | [] => output
  | value :: values => PUT_SCORED values (tail scores) (PUT_DOUBLE (hd 0 scores) (PUT_DATAENTRY value output))
  end.
Definition GETKEY_SCORED : reader (data_entry * Z) :=
  let? value := GETKEY_DATAENTRY new_data_entry in
  let? score := GETKEY_DOUBLE in
  rret (value, score).

(** ** zscore_packet.hpp *)

Record request_zscore := mk_request_zscore {
  zscore_server_flag : Z; zscore_area : Z; zscore_key : data_entry;
  zscore_value : data_entry
}.
Definition request_zscore_encode (p : request_zscore) : encoder := fun _ => None.
Definition request_zscore_decode (dataLen : Z) : reader request_zscore :=
  let? (server_flag, area) := HEADER_VERIFY dataLen in
  let? key := GETKEY_DATAENTRY new_data_entry in
  let? value := GETKEY_DATAENTRY new_data_entry in
  rret (mk_request_zscore server_flag area key value).

Record response_zscore := mk_response_zscore {
  rzscore_config_version : Z; rzscore_code : Z; rzscore_score : Z
}.
Definition response_zscore_encode (p : response_zscore) : encoder :=
  always (fun output =>
    let output := writeInt32 (rzscore_config_version p) output in
    let output := writeInt32 (rzscore_code p) output in
    PUT_DOUBLE (rzscore_score p) output).
Definition response_zscore_decode (dataLen : Z) : reader response_zscore := decode_asserts.

(** ** zrange_packet.hpp *)

Record request_zrange := mk_request_zrange {
  zrange_server_flag : Z; zrange_area : Z; zrange_start : Z; zrange_end : Z;
  zrange_withscore : Z; zrange_key : data_entry
}.
Definition request_zrange_encode (p : request_zrange) : encoder :=
  always (fun output =>
    let output := CREATE_HEADER (zrange_server_flag p) (zrange_area p) output in
    let output := writeInt32 (zrange_start p) output in
    let output := writeInt32 (zrange_end p) output in
    let output := writeInt32 (zrange_withscore p) output in
    PUT_DATAENTRY (zrange_key p) output).
Definition request_zrange_decode (dataLen : Z) : reader request_zrange :=
  let? (server_flag, area) := HEADER_VERIFY dataLen in
  let? start := GETKEY_INT32 in
  let? end_ := GETKEY_INT32 in
  let? withscore := GETKEY_INT32 in
  let? key := GETKEY_DATAENTRY new_data_entry in
  rret (mk_request_zrange server_flag area (s32 start) (s32 end_) (s32 withscore) key).

Record response_zrange := mk_response_zrange {
  rzrange_config_version : Z; rzrange_version : Z; rzrange_code : Z;
  rzrange_values : list data_entry
}.
Definition response_zrange_encode (p : response_zrange) : encoder :=
  refuse_if (RESPONSE_VALUES_MAXSIZE <? Z.of_nat (length (rzrange_values p))) (always (fun output =>
    let output := writeInt32 (rzrange_config_version p) output in
    let output := writeInt16 (rzrange_version p) output in
    let output := writeInt32 (rzrange_code p) output in
    PUT_DATAVECTOR (rzrange_values p) output)).
Definition response_zrange_decode (dataLen : Z) : reader response_zrange :=
  let? config_version := GETKEY_INT32 in
  let? version := GETKEY_INT16 in
  let? code := GETKEY_INT32 in
  let? values := GETKEY_DATAVECTOR in
  rret (mk_response_zrange config_version version code values).

Record response_zrangewithscore := mk_response_zrangewithscore {
  rzrangewithscore_config_version : Z; rzrangewithscore_version : Z; rzrangewithscore_code : Z;
  rzrangewithscore_values : list data_entry; rzrangewithscore_scores : list Z
}.
Definition response_zrangewithscore_encode (p : response_zrangewithscore) : encoder :=
  refuse_if (RESPONSE_VALUES_MAXSIZE <? Z.of_nat (length (rzrangewithscore_values p)))
    (always (fun output =>
      let output := writeInt32 (rzrangewithscore_config_version p) output in
      let output := writeInt16 (rzrangewithscore_version p) output in
      let output := writeInt32 (rzrangewithscore_code p) output in
      let output := writeInt32 (Z.of_nat (length (rzrangewithscore_values p))) output in
      PUT_SCORED (rzrangewithscore_values p) (rzrangewithscore_scores p) output)).
Definition response_zrangewithscore_decode (dataLen : Z) : reader response_zrangewithscore :=
  let? config_version := GETKEY_INT32 in
  let? version := GETKEY_INT16 in
  let? code := GETKEY_INT32 in
  let? value_size := GETKEY_INT32 in
  let? scored := read_n (Z.to_nat value_size) GETKEY_SCORED in
  rret (mk_response_zrangewithscore config_version version (s32 code)
          (map fst scored) (map snd scored)).

(** ** zrevrange_packet.hpp *)

Record request_zrevrange := mk_request_zrevrange {
  zrevrange_server_flag : Z; zrevrange_area : Z; zrevrange_start : Z; zrevrange_end : Z;
  zrevrange_withscore : Z; zrevrange_key : data_entry
}.
Definition request_zrevrange_encode (p : request_zrevrange) : encoder := fun _ => None.
Definition request_zrevrange_decode (dataLen : Z) : reader request_zrevrange :=
  let? (server_flag, area) := HEADER_VERIFY dataLen in
  let? start := GETKEY_INT32 in
  let? end_ := GETKEY_INT32 in
  let? withscore := GETKEY_INT32 in
  let? key := GETKEY_DATAENTRY new_data_entry in
  rret (mk_request_zrevrange server_flag area (s32 start) (s32 end_) (s32 withscore) key).

Record response_zrevrange := mk_response_zrevrange {
  rzrevrange_config_version : Z; rzrevrange_version : Z; rzrevrange_code : Z;
  rzrevrange_values : list data_entry
}.
Definition response_zrevrange_encode (p : response_zrevrange) : encoder :=
  refuse_if (RESPONSE_VALUES_MAXSIZE <? Z.of_nat (length (rzrevrange_values p)))
   (always (fun output =>
    let output := writeInt32 (rzrevrange_config_version p) output in
    let output := writeInt16 (rzrevrange_version p) output in
    let output := writeInt32 (rzrevrange_code p) output in
    PUT_DATAVECTOR (rzrevrange_values p) output)).
Definition response_zrevrange_decode (dataLen : Z) : reader response_zrevrange := rfail.

Record response_zrevrangewithscore := mk_response_zrevrangewithscore {
  rzrevrangewithscore_config_version : Z; rzrevrangewithscore_version : Z; rzrevrangewithscore_code : Z;
  rzrevrangewithscore_values : list data_entry; rzrevrangewithscore_scores : list Z
}.
Definition response_zrevrangewithscore_encode (p : response_zrevrangewithscore) : encoder :=
  refuse_if (RESPONSE_VALUES_MAXSIZE <? Z.of_nat (length (rzrevrangewithscore_values p)))
    (always (fun output =>
      let output := writeInt32 (rzrevrangewithscore_config_version p) output in
      let output := writeInt16 (rzrevrangewithscore_version p) output in
      let output := writeInt32 (rzrevrangewithscore_code p) output in
      let output := writeInt32 (Z.of_nat (length (rzrevrangewithscore_values p))) output in
      PUT_SCORED (rzrevrangewithscore_values p) (rzrevrangewithscore_scores p) output)).
Definition response_zrevrangewithscore_decode (dataLen : Z) : reader response_zrevrangewithscore := rfail.

(** ** zrangebyscore_packet.hpp *)

Record request_zrangebyscore := mk_request_zrangebyscore {
  zrangebyscore_server_flag : Z; zrangebyscore_area : Z; zrangebyscore_start : Z;
  zrangebyscore_end : Z; zrangebyscore_key : data_entry
}.
Definition request_zrangebyscore_encode (p : request_zrangebyscore) : encoder :=
  always (fun output =>
    let output := CREATE_HEADER (zrangebyscore_server_flag p) (zrangebyscore_area p) output in
    let output := PUT_DOUBLE (zrangebyscore_start p) output in
    let output := PUT_DOUBLE (zrangebyscore_end p) output in
    PUT_DATAENTRY (zrangebyscore_key p) output).
Definition request_zrangebyscore_decode (dataLen : Z) : reader request_zrangebyscore :=
  let? (server_flag, area) := HEADER_VERIFY dataLen in
  let? start := GETKEY_DOUBLE in
  let? end_ := GETKEY_DOUBLE in
  let? key := GETKEY_DATAENTRY new_data_entry in
  rret (mk_request_zrangebyscore server_flag area start end_ key).

Record response_zrangebyscore := mk_response_zrangebyscore {
  rzrangebyscore_config_version : Z; rzrangebyscore_version : Z; rzrangebyscore_code : Z;
  rzrangebyscore_values : list data_entry
}.
Definition response_zrangebyscore_encode (p : response_zrangebyscore) : encoder :=
  refuse_if (RESPONSE_VALUES_MAXSIZE <? Z.of_nat (length (rzrangebyscore_values p)))
   (always (fun output =>
    let output := writeInt32 (rzrangebyscore_config_version p) output in
    let output := writeInt16 (rzrangebyscore_version p) output in
    let output := writeInt32 (rzrangebyscore_code p) output in
    PUT_DATAVECTOR (rzrangebyscore_values p) output)).
Definition response_zrangebyscore_decode (dataLen : Z) : reader response_zrangebyscore := rfail.

(** ** generic_zrangebyscore_packet.hpp *)

Record request_generic_zrangebyscore := mk_request_generic_zrangebyscore {
  generic_zrangebyscore_server_flag : Z; generic_zrangebyscore_area : Z;
  generic_zrangebyscore_start : Z; generic_zrangebyscore_end : Z;
  generic_zrangebyscore_key : data_entry; generic_zrangebyscore_reverse : Z;
  generic_zrangebyscore_limit : Z; generic_zrangebyscore_withscore : Z
}.
Definition request_generic_zrangebyscore_encode (p : request_generic_zrangebyscore) : encoder :=
  always (fun output =>
    let output := CREATE_HEADER (generic_zrangebyscore_server_flag p) (generic_zrangebyscore_area p) output in
    let output := PUT_DOUBLE (generic_zrangebyscore_start p) output in
    let output := PUT_DOUBLE (generic_zrangebyscore_end p) output in
    let output := PUT_DATAENTRY (generic_zrangebyscore_key p) output in
    let output := writeInt32 (generic_zrangebyscore_reverse p) output in
    let output := writeInt32 (generic_zrangebyscore_limit p) output in
    writeInt32 (generic_zrangebyscore_withscore p) output).
Definition request_generic_zrangebyscore_decode (dataLen : Z) : reader request_generic_zrangebyscore :=
  let? (server_flag, area) := HEADER_VERIFY dataLen in
  let? start := GETKEY_DOUBLE in
  let? end_ := GETKEY_DOUBLE in
  let? key := GETKEY_DATAENTRY new_data_entry in
  let? reverse := GETKEY_INT32 in
  let? limit := GETKEY_INT32 in
  let? withscore := GETKEY_INT32 in
  rret (mk_request_generic_zrangebyscore
          server_flag area start end_ key (s32 reverse) (s32 limit) (s32 withscore)).

Record response_generic_zrangebyscore := mk_response_generic_zrangebyscore {
  rgeneric_config_version : Z; rgeneric_version : Z; rgeneric_code : Z;
  rgeneric_values : list data_entry; rgeneric_scores : list Z
}.
Definition response_generic_zrangebyscore_encode (p : response_generic_zrangebyscore) : encoder :=
  refuse_if (RESPONSE_VALUES_MAXSIZE <? Z.of_nat (length (rgeneric_values p))) (fun output =>
    let output := writeInt32 (rgeneric_config_version p) output in
    let output := writeInt16 (rgeneric_version p) output in
    let output := writeInt32 (rgeneric_code p) output in
    let output := writeInt32 (Z.of_nat (length (rgeneric_scores p))) output in
    match rgeneric_scores p with
    | [] => Some (true, PUT_DATAVECTOR (rgeneric_values p) output)
    | scores =>
        if bool_decide (length scores = length (rgeneric_values p)) then
          let output := writeInt32 (Z.of_nat (length (rgeneric_values p))) output in
          Some (true, PUT_SCORED (rgeneric_values p) scores output)
        else None
    end).
Definition response_generic_zrangebyscore_decode (dataLen : Z)
    : reader response_generic_zrangebyscore :=
  let? config_version := GETKEY_INT32 in
  let? version := GETKEY_INT16 in
  let? code := GETKEY_INT32 in
  let? scores_size := GETKEY_INT32 in
  if scores_size =? 0 then
    let? values := GETKEY_DATAVECTOR in
    rret (mk_response_generic_zrangebyscore config_version version (s32 code) values [])
  else
    let? values_size := GETKEY_INT32 in
    let? scored := read_n (Z.to_nat values_size) GETKEY_SCORED in
    rret (mk_response_generic_zrangebyscore config_version version (s32 code)
            (map fst scored) (map snd scored)).

(** ** zadd_packet.hpp *)

Record request_zadd := mk_request_zadd {
  zadd_server_flag : Z; zadd_area : Z; zadd_version : Z; zadd_expire : Z; zadd_score : Z;
  zadd_key : data_entry; zadd_value : data_entry
}.
Definition request_zadd_encode (p : request_zadd) : encoder :=
  always (fun output =>
    let output := CREATE_HEADER (zadd_server_flag p) (zadd_area p) output in
    let output := writeInt16 (zadd_version p) output in
    let output := writeInt32 (zadd_expire p) output in
    let output := PUT_DOUBLE (zadd_score p) output in
    let output := PUT_DATAENTRY (zadd_key p) output in
    PUT_DATAENTRY (zadd_value p) output).
Definition request_zadd_decode (dataLen : Z) : reader request_zadd :=
  let? (server_flag, area) := HEADER_VERIFY dataLen in
  let? version := GETKEY_INT16 in
  let? expire := GETKEY_INT32 in
  let? score := GETKEY_DOUBLE in
  let? key := GETKEY_DATAENTRY new_data_entry in
  let? value := GETKEY_DATAENTRY new_data_entry in
  let key := set_version version key in
  rret (mk_request_zadd server_flag area version (s32 expire) score key value).

Definition request_zadd_dup_encode : dup request_zadd -> encoder :=
  dup_encode request_zadd_encode.
Definition request_zadd_dup_decode : Z -> reader (dup request_zadd) :=
  dup_decode request_zadd_decode.

Record response_zadd := mk_response_zadd { rzadd_config_version : Z; rzadd_code : Z }.
Definition response_zadd_encode (p : response_zadd) : encoder :=
  always (fun output =>
    let output := writeInt32 (rzadd_config_version p) output in
    writeInt32 (rzadd_code p) output).
Definition response_zadd_decode (dataLen : Z) : reader response_zadd :=
  let? config_version := GETKEY_INT32 in
  let? code := GETKEY_INT32 in
  rret (mk_response_zadd config_version (s32 code)).

(** ** zrank_packet.hpp *)

Record request_zrank := mk_request_zrank {
  zrank_server_flag : Z; zrank_area : Z; zrank_key : data_entry; zrank_value : data_entry
}.
Definition request_zrank_encode (p : request_zrank) : encoder := fun _ => None.
Definition request_zrank_decode (dataLen : Z) : reader request_zrank :=
  let? (server_flag, area) := HEADER_VERIFY dataLen in
  let? key := GETKEY_DATAENTRY new_data_entry in
  let? value := GETKEY_DATAENTRY new_data_entry in
  rret (mk_request_zrank server_flag area key value).

Record response_zrank := mk_response_zrank {
  rzrank_config_version : Z; rzrank_code : Z; rzrank_retnum : Z
}.
Definition response_zrank_encode (p : response_zrank) : encoder :=
  always (fun output =>
    let output := writeInt32 (rzrank_config_version p) output in
    let output := writeInt32 (rzrank_code p) output in
    writeInt64 (rzrank_retnum p) output).
Definition response_zrank_decode (dataLen : Z) : reader response_zrank := decode_asserts.

(** ** zrevrank_packet.hpp *)

Record request_zrevrank := mk_request_zrevrank {
  zrevrank_server_flag : Z; zrevrank_area : Z; zrevrank_key : data_entry;
  zrevrank_value : data_entry
}.
Definition request_zrevrank_encode (p : request_zrevrank) : encoder := fun _ => None.
Definition request_zrevrank_decode (dataLen : Z) : reader request_zrevrank :=
  let? (server_flag, area) := HEADER_VERIFY dataLen in
  let? key := GETKEY_DATAENTRY new_data_entry in
  let? value := GETKEY_DATAENTRY new_data_entry in
  rret (mk_request_zrevrank server_flag area key value).

Record response_zrevrank := mk_response_zrevrank {
  rzrevrank_config_version : Z; rzrevrank_code : Z; rzrevrank_retnum : Z
}.
Definition response_zrevrank_encode (p : response_zrevrank) : encoder :=
  always (fun output =>
    let output := writeInt32 (rzrevrank_config_version p) output in
    let output := writeInt32 (rzrevrank_code p) output in
    writeInt64 (rzrevrank_retnum p) output).
Definition response_zrevrank_decode (dataLen : Z) : reader response_zrevrank := decode_asserts.

(** ** zcount_packet.hpp *)

Record request_zcount := mk_request_zcount {
  zcount_server_flag : Z; zcount_area : Z; zcount_start : Z; zcount_end : Z;
  zcount_key : data_entry
}.
Definition request_zcount_encode (p : request_zcount) : encoder := fun _ => None.
Definition request_zcount_decode (dataLen : Z) : reader request_zcount :=
  let? (server_flag, area) := HEADER_VERIFY dataLen in
  let? start := GETKEY_DOUBLE in
  let? end_ := GETKEY_DOUBLE in
  let? key := GETKEY_DATAENTRY new_data_entry in
  rret (mk_request_zcount server_flag area start end_ key).

Record response_zcount := mk_response_zcount {
  rzcount_config_version : Z; rzcount_code : Z; rzcount_retnum : Z
}.
Definition response_zcount_encode (p : response_zcount) : encoder :=
  always (fun output =>
    let output := writeInt32 (rzcount_config_version p) output in
    let output := writeInt32 (rzcount_code p) output in
    writeInt64 (rzcount_retnum p) output).
Definition response_zcount_decode (dataLen : Z) : reader response_zcount := rfail.

(** ** zincrby_packet.hpp *)

Record request_zincrby := mk_request_zincrby {
  zincrby_server_flag : Z; zincrby_area : Z; zincrby_version : Z; zincrby_expire : Z;
  zincrby_key : data_entry; zincrby_value : data_entry; zincrby_addscore : Z
}.
Definition request_zincrby_encode (p : request_zincrby) : encoder :=
  always (fun output =>
    let output := CREATE_HEADER (zincrby_server_flag p) (zincrby_area p) output in
    let output := writeInt16 (zincrby_version p) output in
    let output := writeInt32 (zincrby_expire p) output in
    let output := PUT_DATAENTRY (zincrby_key p) output in
    let output := PUT_DATAENTRY (zincrby_value p) output in
    PUT_DOUBLE (zincrby_addscore p) output).
Definition request_zincrby_decode (dataLen : Z) : reader request_zincrby :=
  let? (server_flag, area) := HEADER_VERIFY dataLen in
  let? version := GETKEY_INT16 in
  let? expire := GETKEY_INT32 in
  let? key := GETKEY_DATAENTRY new_data_entry in
  let? value := GETKEY_DATAENTRY new_data_entry in
  let? addscore := GETKEY_DOUBLE in
  let key := set_version version key in
  rret (mk_request_zincrby server_flag area version (s32 expire) key value addscore).

Record response_zincrby := mk_response_zincrby {
  rzincrby_config_version : Z; rzincrby_code : Z; rzincrby_retnum : Z
}.
Definition response_zincrby_encode (p : response_zincrby) : encoder :=
  always (fun output =>
    let output := writeInt32 (rzincrby_config_version p) output in
    let output := writeInt32 (rzincrby_code p) output in
    PUT_DOUBLE (rzincrby_retnum p) output).
Definition response_zincrby_decode (dataLen : Z) : reader response_zincrby :=
  let? config_version := GETKEY_INT32 in
  let? code := GETKEY_INT32 in
  let? retnum := GETKEY_DOUBLE in
  rret (mk_response_zincrby config_version (s32 code) retnum).

(** ** zcard_packet.hpp *)

Record request_zcard := mk_request_zcard {
  zcard_server_flag : Z; zcard_area : Z; zcard_key : data_entry
}.
Definition request_zcard_encode (p : request_zcard) : encoder :=
  always (fun output =>
    let output := CREATE_HEADER (zcard_server_flag p) (zcard_area p) output in
    PUT_DATAENTRY (zcard_key p) output).
Definition request_zcard_decode (dataLen : Z) : reader request_zcard :=
  let? (server_flag, area) := HEADER_VERIFY dataLen in
  let? key := GETKEY_DATAENTRY new_data_entry in
  rret (mk_request_zcard server_flag area key).

Record response_zcard := mk_response_zcard {
  rzcard_config_version : Z; rzcard_code : Z; rzcard_retnum : Z
}.
Definition response_zcard_encode (p : response_zcard) : encoder :=
  always (fun output =>
    let output := writeInt32 (rzcard_config_version p) output in
    let output := writeInt32 (rzcard_code p) output in
    writeInt64 (rzcard_retnum p) output).
Definition response_zcard_decode (dataLen : Z) : reader response_zcard :=
  let? config_version := GETKEY_INT32 in
  let? code := GETKEY_INT32 in
  let? retnum := GETKEY_INT64 in
  rret (mk_response_zcard config_version (s32 code) (s64 retnum)).

(** ** zrem_packet.hpp *)

Record request_zrem := mk_request_zrem {
  zrem_server_flag : Z; zrem_area : Z; zrem_version : Z; zrem_expire : Z;
  zrem_key : data_entry; zrem_value : data_entry
}.
Definition request_zrem_encode (p : request_zrem) : encoder :=
  always (fun output =>
    let output := CREATE_HEADER (zrem_server_flag p) (zrem_area p) output in
    let output := writeInt16 (zrem_version p) output in
    let output := writeInt32 (zrem_expire p) output in
    let output := PUT_DATAENTRY (zrem_key p) output in
    PUT_DATAENTRY (zrem_value p) output).
Definition request_zrem_decode (dataLen : Z) : reader request_zrem :=
  let? (server_flag, area) := HEADER_VERIFY dataLen in
  let? version := GETKEY_INT16 in
  let? expire := GETKEY_INT32 in
  let? key := GETKEY_DATAENTRY new_data_entry in
  let? value := GETKEY_DATAENTRY new_data_entry in
  let key := set_version version key in
  rret (mk_request_zrem server_flag area version (s32 expire) key value).

Definition request_zrem_dup_encode : dup request_zrem -> encoder :=
  dup_encode request_zrem_encode.
Definition request_zrem_dup_decode : Z -> reader (dup request_zrem) :=
  dup_decode request_zrem_decode.

Record response_zrem := mk_response_zrem { rzrem_config_version : Z; rzrem_code : Z }.
Definition response_zrem_encode (p : response_zrem) : encoder :=
  always (fun output =>
    let output := writeInt32 (rzrem_config_version p) output in
    writeInt32 (rzrem_code p) output).
Definition response_zrem_decode (dataLen : Z) : reader response_zrem :=
  let? config_version := GETKEY_INT32 in
  let? code := GETKEY_INT32 in
  rret (mk_response_zrem config_version (s32 code)).

(** ** zremrangebyscore_packet.hpp *)

Record request_zremrangebyscore := mk_request_zremrangebyscore {
  zremrangebyscore_server_flag : Z; zremrangebyscore_area : Z;
  zremrangebyscore_version : Z; zremrangebyscore_expire : Z; zremrangebyscore_start : Z;
  zremrangebyscore_end : Z; zremrangebyscore_key : data_entry
}.
Definition request_zremrangebyscore_encode (p : request_zremrangebyscore) : encoder :=
  always (fun output =>
    let output := CREATE_HEADER (zremrangebyscore_server_flag p) (zremrangebyscore_area p) output in
    let output := writeInt16 (zremrangebyscore_version p) output in
    let output := writeInt32 (zremrangebyscore_expire p) output in
    let output := PUT_DOUBLE (zremrangebyscore_start p) output in
    let output := PUT_DOUBLE (zremrangebyscore_end p) output in
    PUT_DATAENTRY (zremrangebyscore_key p) output).
Definition request_zremrangebyscore_decode (dataLen : Z) : reader request_zremrangebyscore :=
  let? (server_flag, area) := HEADER_VERIFY dataLen in
  let? version := GETKEY_INT16 in
  let? expire := GETKEY_INT32 in
  let? start := GETKEY_DOUBLE in
  let? end_ := GETKEY_DOUBLE in
  let? key := GETKEY_DATAENTRY new_data_entry in
  let key := set_version version key in
  rret (mk_request_zremrangebyscore server_flag area version (s32 expire) start end_ key).

Definition request_zremrangebyscore_dup_encode : dup request_zremrangebyscore -> encoder :=
  dup_encode request_zremrangebyscore_encode.
Definition request_zremrangebyscore_dup_decode : Z -> reader (dup request_zremrangebyscore) :=
  dup_decode request_zremrangebyscore_decode.

Record response_zremrangebyscore := mk_response_zremrangebyscore {
  rzremrangebyscore_config_version : Z; rzremrangebyscore_code : Z;
  rzremrangebyscore_retnum : Z
}.
Definition response_zremrangebyscore_encode (p : response_zremrangebyscore) : encoder :=
  always (fun output =>
    let output := writeInt32 (rzremrangebyscore_config_version p) output in
    let output := writeInt32 (rzremrangebyscore_code p) output in
    writeInt64 (rzremrangebyscore_retnum p) output).
Definition response_zremrangebyscore_decode (dataLen : Z) : reader response_zremrangebyscore :=
  let? config_version := GETKEY_INT32 in
  let? code := GETKEY_INT32 in
  let? retnum := GETKEY_INT64 in
  rret (mk_response_zremrangebyscore config_version (s32 code) (s64 retnum)).

(** ** zremrangebyrank_packet.hpp *)

Record request_zremrangebyrank := mk_request_zremrangebyrank {
  zremrangebyrank_server_flag : Z; zremrangebyrank_area : Z; zremrangebyrank_version : Z;
  zremrangebyrank_expire : Z; zremrangebyrank_start : Z; zremrangebyrank_end : Z;
  zremrangebyrank_key : data_entry
}.
Definition request_zremrangebyrank_encode (p : request_zremrangebyrank) : encoder :=
  always (fun output =>
    let output := CREATE_HEADER (zremrangebyrank_server_flag p) (zremrangebyrank_area p) output in
    let output := writeInt16 (zremrangebyrank_version p) output in
    let output := writeInt32 (zremrangebyrank_expire p) output in
    let output := writeInt32 (zremrangebyrank_start p) output in
    let output := writeInt32 (zremrangebyrank_end p) output in
    PUT_DATAENTRY (zremrangebyrank_key p) output).
Definition request_zremrangebyrank_decode (dataLen : Z) : reader request_zremrangebyrank :=
  let? (server_flag, area) := HEADER_VERIFY dataLen in
  let? version := GETKEY_INT16 in
  let? expire := GETKEY_INT32 in
  let? start := GETKEY_INT32 in
  let? end_ := GETKEY_INT32 in
  let? key := GETKEY_DATAENTRY new_data_entry in
  let key := set_version version key in
  rret (mk_request_zremrangebyrank
          server_flag area version (s32 expire) (s32 start) (s32 end_) key).

Definition request_zremrangebyrank_dup_encode : dup request_zremrangebyrank -> encoder :=
  dup_encode request_zremrangebyrank_encode.
Definition request_zremrangebyrank_dup_decode : Z -> reader (dup request_zremrangebyrank) :=
  dup_decode request_zremrangebyrank_decode.

Record response_zremrangebyrank := mk_response_zremrangebyrank {
  rzremrangebyrank_config_version : Z; rzremrangebyrank_code : Z;
  rzremrangebyrank_retnum : Z
}.
Definition response_zremrangebyrank_encode (p : response_zremrangebyrank) : encoder :=
  always (fun output =>
    let output := writeInt32 (rzremrangebyrank_config_version p) output in
    let output := writeInt32 (rzremrangebyrank_code p) output in
    writeInt64 (rzremrangebyrank_retnum p) output).
Definition response_zremrangebyrank_decode (dataLen : Z) : reader response_zremrangebyrank :=
  let? config_version := GETKEY_INT32 in
  let? code := GETKEY_INT32 in
  let? retnum := GETKEY_INT64 in
  rret (mk_response_zremrangebyrank config_version (s32 code) (s64 retnum)).

(** ** Round trips *)

(** *** Values with scores *)
Definition scored_bytes (vs : data_entry * Z) : list Z := plain_bytes vs.1 ++ le_split 8 vs.2.
Definition scored_ok (vs : data_entry * Z) : Prop := plain_ok vs.1 /\ in_u 64 vs.2.

(** The pairs encode writes. *)
Fixpoint with_scores (values : list data_entry) (scores : list Z) : list (data_entry * Z) :=
  match values with
  | [] => []
  | value :: values => (value, hd 0 scores) :: with_scores values (tail scores)
  end.

Lemma length_with_scores values scores : length (with_scores values scores) = length values.
Proof. revert scores. induction values; intros; [done|]. simpl. by f_equal. Qed.

Lemma emits_scored values scores :
  emits (PUT_SCORED values scores) (concat (map scored_bytes (with_scores values scores))).
Proof.
  revert scores. induction values as [|v values IH]; intros scores; [apply emits_id|].
  cbn [PUT_SCORED with_scores map concat].
  eapply emits_eq; [apply (emits_seq (fun output => PUT_DOUBLE (hd 0 scores) (PUT_DATAENTRY v output)));
                      [emit_tac|apply IH]|done].
Qed.

Lemma parses_scored l :
  Forall scored_ok l ->
  parses (read_n (length l) GETKEY_SCORED) (concat (map scored_bytes l))
    (map (fun vs => (plain vs.1, vs.2)) l).
Proof.
  intros Hl. apply parses_read_map. eapply list.Forall_impl; [exact Hl|]. intros vs [Hv Hs].
  apply parses_nil_r. unfold GETKEY_SCORED, scored_bytes. rewrite <- app_assoc. parse_tac. by fields.
Qed.
#[export] Hint Resolve emits_scored parses_scored : tair.

Lemma map_plain_scored values scores :
  map (fun vs => plain vs.1) (with_scores values scores) = map plain values.
Proof. revert scores. induction values; intros; [done|]. simpl. by f_equal. Qed.
Lemma map_snd_scored values scores :
  length scores = length values -> map snd (with_scores values scores) = scores.
Proof.
  revert scores. induction values; intros [|s scores] Hl; try done. simpl. f_equal. auto.
Qed.

#[export] Program Instance codec_request_zscore : Codec request_zscore := {
  c_encode := request_zscore_encode; c_decode := request_zscore_decode;
  c_wire p := [u8 (zscore_server_flag p)] ++ be_split 2 (zscore_area p)
    ++ plain_bytes (zscore_key p) ++ plain_bytes (zscore_value p);
  c_sends p := False;
  c_reads p := in_u 8 (zscore_server_flag p) /\ in_u 16 (zscore_area p) /\ plain_ok (zscore_key p)
    /\ plain_ok (zscore_value p);
  c_received p := 
    mk_request_zscore
      (zscore_server_flag p) (zscore_area p) (plain (zscore_key p))
      (plain (zscore_value p))
}.
Next Obligation. never. Qed.
Next Obligation. plain_received. done. Qed.

#[export] Program Instance codec_response_zscore : Codec response_zscore := {
  c_encode := response_zscore_encode; c_decode := response_zscore_decode;
  c_wire p := be_split 4 (rzscore_config_version p) ++ be_split 4 (rzscore_code p)
    ++ le_split 8 (rzscore_score p);
  c_sends p := True;
  c_reads p := False;
  c_received p := p
}.
Next Obligation. plain_sent. Qed.
Next Obligation. never. Qed.

#[export] Program Instance packet_request_zrange : Packet request_zrange := {
  p_encode := request_zrange_encode; p_decode := request_zrange_decode;
  p_ok p := in_u 8 (zrange_server_flag p) /\ in_u 16 (zrange_area p) /\ in_s 32 (zrange_start p)
    /\ in_s 32 (zrange_end p) /\ in_s 32 (zrange_withscore p) /\ plain_ok (zrange_key p);
  p_received p := 
    mk_request_zrange
      (zrange_server_flag p) (zrange_area p) (zrange_start p) (zrange_end p)
      (zrange_withscore p) (plain (zrange_key p))
}.
Next Obligation. plain_packet. done. Qed.

#[export] Program Instance packet_response_zrange : Packet response_zrange := {
  p_encode := response_zrange_encode; p_decode := response_zrange_decode;
  p_ok p := in_u 32 (rzrange_config_version p) /\ in_u 16 (rzrange_version p)
    /\ in_u 32 (rzrange_code p) /\ vector_ok (rzrange_values p)
    /\ Z.of_nat (length (rzrange_values p)) <= RESPONSE_VALUES_MAXSIZE;
  p_received p := 
    mk_response_zrange
      (rzrange_config_version p) (rzrange_version p) (rzrange_code p)
      (map plain (rzrange_values p))
}.
Next Obligation. values_packet. done. Qed.

#[export] Program Instance packet_response_zrangewithscore : Packet response_zrangewithscore := {
  p_encode := response_zrangewithscore_encode; p_decode := response_zrangewithscore_decode;
  p_ok p := in_u 32 (rzrangewithscore_config_version p) /\ in_u 16 (rzrangewithscore_version p)
    /\ in_s 32 (rzrangewithscore_code p)
    /\ Forall scored_ok (with_scores (rzrangewithscore_values p) (rzrangewithscore_scores p))
    /\ Z.of_nat (length (rzrangewithscore_values p)) <= RESPONSE_VALUES_MAXSIZE;
  p_received p :=
    let scored := with_scores (rzrangewithscore_values p) (rzrangewithscore_scores p) in
    mk_response_zrangewithscore (rzrangewithscore_config_version p) (rzrangewithscore_version p)
      (rzrangewithscore_code p) (map (fun vs => plain vs.1) scored) (map snd scored)
}.
Next Obligation.
  values_packet. rewrite wrap_id by (unfold in_u, RESPONSE_VALUES_MAXSIZE in *; lia).
  rewrite Nat2Z.id, <- (length_with_scores (rzrangewithscore_values p) (rzrangewithscore_scores p)).
  packet_parse. by rewrite !map_map.
Qed.

#[export] Program Instance codec_request_zrevrange : Codec request_zrevrange := {
  c_encode := request_zrevrange_encode; c_decode := request_zrevrange_decode;
  c_wire p := [u8 (zrevrange_server_flag p)] ++ be_split 2 (zrevrange_area p)
    ++ be_split 4 (zrevrange_start p) ++ be_split 4 (zrevrange_end p)
    ++ be_split 4 (zrevrange_withscore p) ++ plain_bytes (zrevrange_key p);
  c_sends p := False;
  c_reads p := in_u 8 (zrevrange_server_flag p) /\ in_u 16 (zrevrange_area p)
    /\ in_s 32 (zrevrange_start p) /\ in_s 32 (zrevrange_end p)
    /\ in_s 32 (zrevrange_withscore p) /\ plain_ok (zrevrange_key p);
  c_received p := 
    mk_request_zrevrange
      (zrevrange_server_flag p) (zrevrange_area p) (zrevrange_start p) (zrevrange_end p)
      (zrevrange_withscore p) (plain (zrevrange_key p))
}.
Next Obligation. never. Qed.
Next Obligation. plain_received. done. Qed.

#[export] Program Instance codec_response_zrevrange : Codec response_zrevrange := {
  c_encode := response_zrevrange_encode; c_decode := response_zrevrange_decode;
  c_wire p := be_split 4 (rzrevrange_config_version p) ++ be_split 2 (rzrevrange_version p)
    ++ be_split 4 (rzrevrange_code p) ++ vector_bytes (rzrevrange_values p);
  c_sends p := Z.of_nat (length (rzrevrange_values p)) <= RESPONSE_VALUES_MAXSIZE;
  c_reads p := False;
  c_received p := p
}.
Next Obligation. plain_sent. Qed.
Next Obligation. never. Qed.

#[export] Program Instance codec_response_zrevrangewithscore : Codec response_zrevrangewithscore := {
  c_encode := response_zrevrangewithscore_encode; c_decode := response_zrevrangewithscore_decode;
  c_wire p := be_split 4 (rzrevrangewithscore_config_version p)
    ++ be_split 2 (rzrevrangewithscore_version p) ++ be_split 4 (rzrevrangewithscore_code p)
    ++ be_split 4 (Z.of_nat (length (rzrevrangewithscore_values p)))
    ++ concat (map scored_bytes
         (with_scores (rzrevrangewithscore_values p) (rzrevrangewithscore_scores p)));
  c_sends p := Z.of_nat (length (rzrevrangewithscore_values p)) <= RESPONSE_VALUES_MAXSIZE;
  c_reads p := False;
  c_received p := p
}.
Next Obligation. plain_sent. Qed.
Next Obligation. never. Qed.

#[export] Program Instance packet_request_zrangebyscore : Packet request_zrangebyscore := {
  p_encode := request_zrangebyscore_encode; p_decode := request_zrangebyscore_decode;
  p_ok p := in_u 8 (zrangebyscore_server_flag p) /\ in_u 16 (zrangebyscore_area p)
    /\ in_u 64 (zrangebyscore_start p) /\ in_u 64 (zrangebyscore_end p)
    /\ plain_ok (zrangebyscore_key p);
  p_received p := 
    mk_request_zrangebyscore
      (zrangebyscore_server_flag p) (zrangebyscore_area p) (zrangebyscore_start p)
      (zrangebyscore_end p) (plain (zrangebyscore_key p))
}.
Next Obligation. plain_packet. done. Qed.

#[export] Program Instance codec_response_zrangebyscore : Codec response_zrangebyscore := {
  c_encode := response_zrangebyscore_encode; c_decode := response_zrangebyscore_decode;
  c_wire p := be_split 4 (rzrangebyscore_config_version p) ++ be_split 2 (rzrangebyscore_version p)
    ++ be_split 4 (rzrangebyscore_code p) ++ vector_bytes (rzrangebyscore_values p);
  c_sends p := Z.of_nat (length (rzrangebyscore_values p)) <= RESPONSE_VALUES_MAXSIZE;
  c_reads p := False;
  c_received p := p
}.
Next Obligation. plain_sent. Qed.
Next Obligation. never. Qed.

#[export] Program Instance packet_request_generic_zrangebyscore : Packet request_generic_zrangebyscore := {
  p_encode := request_generic_zrangebyscore_encode; p_decode := request_generic_zrangebyscore_decode;
  p_ok p := in_u 8 (generic_zrangebyscore_server_flag p) /\ in_u 16 (generic_zrangebyscore_area p)
    /\ in_u 64 (generic_zrangebyscore_start p) /\ in_u 64 (generic_zrangebyscore_end p)
    /\ plain_ok (generic_zrangebyscore_key p) /\ in_s 32 (generic_zrangebyscore_reverse p)
    /\ in_s 32 (generic_zrangebyscore_limit p)
    /\ in_s 32 (generic_zrangebyscore_withscore p);
  p_received p := 
    mk_request_generic_zrangebyscore
      (generic_zrangebyscore_server_flag p) (generic_zrangebyscore_area p)
      (generic_zrangebyscore_start p) (generic_zrangebyscore_end p)
      (plain (generic_zrangebyscore_key p)) (generic_zrangebyscore_reverse p)
      (generic_zrangebyscore_limit p) (generic_zrangebyscore_withscore p)
}.
Next Obligation. plain_packet. done. Qed.

(** Sent with as many scores as values, or with no score at all. *)
Definition response_generic_zrangebyscore_ok (p : response_generic_zrangebyscore) : Prop :=
  in_u 32 (rgeneric_config_version p) /\ in_u 16 (rgeneric_version p)
    /\ in_s 32 (rgeneric_code p)
    /\ Z.of_nat (length (rgeneric_values p)) <= RESPONSE_VALUES_MAXSIZE
    /\ match rgeneric_scores p with
       | [] => vector_ok (rgeneric_values p)
       | scores => length scores = length (rgeneric_values p)
                   /\ Forall scored_ok (with_scores (rgeneric_values p) scores)
       end.

#[export] Program Instance packet_response_generic_zrangebyscore
  : Packet response_generic_zrangebyscore := {
  p_encode := response_generic_zrangebyscore_encode;
  p_decode := response_generic_zrangebyscore_decode;
  p_ok := response_generic_zrangebyscore_ok;
  p_received p := mk_response_generic_zrangebyscore (rgeneric_config_version p)
    (rgeneric_version p) (rgeneric_code p) (map plain (rgeneric_values p)) (rgeneric_scores p)
}.
Next Obligation.
  intros p (Hv & Hve & Hc & Hn & Hs). unfold response_generic_zrangebyscore_encode.
  rewrite refuse_if_false by (by apply Z.ltb_ge).
  destruct (rgeneric_scores p) as [|s scores] eqn:Es.
  { packet_start. decode_fields. change (u32 (Z.of_nat (@length Z [])) =? 0) with true.
    cbv iota. packet_parse. by fields. }
  destruct Hs as [Hl Hok].
  rewrite bool_decide_true by done. packet_start. decode_fields.
  rewrite !Hl, !wrap_id by (unfold in_u, RESPONSE_VALUES_MAXSIZE in *; lia).
  rewrite (proj2 (Z.eqb_neq _ 0)) by (rewrite <- Hl; simpl; lia). cbv iota. packet_parse.
  rewrite wrap_id by (unfold in_u, RESPONSE_VALUES_MAXSIZE in *; lia).
  rewrite Nat2Z.id, <- (length_with_scores (rgeneric_values p) (s :: scores)). packet_parse.
  rewrite !map_map, map_plain_scored by done. by rewrite map_snd_scored.
Qed.

#[export] Program Instance packet_request_zadd : Packet request_zadd := {
  p_encode := request_zadd_encode; p_decode := request_zadd_decode;
  p_ok p := in_u 8 (zadd_server_flag p) /\ in_u 16 (zadd_area p) /\ in_u 16 (zadd_version p)
    /\ in_s 32 (zadd_expire p) /\ in_u 64 (zadd_score p) /\ plain_ok (zadd_key p)
    /\ plain_ok (zadd_value p);
  p_received p := 
    mk_request_zadd
      (zadd_server_flag p) (zadd_area p) (zadd_version p) (zadd_expire p) (zadd_score p)
      (set_version (zadd_version p) (plain (zadd_key p))) (plain (zadd_value p))
}.
Next Obligation. plain_packet. done. Qed.

#[export] Program Instance packet_request_zadd_dup : Packet (dup request_zadd) := {
  p_encode := request_zadd_dup_encode; p_decode := request_zadd_dup_decode;
  p_ok := dup_ok; p_received := dup_received
}.
Next Obligation. exact dup_packet. Qed.

#[export] Program Instance packet_response_zadd : Packet response_zadd := {
  p_encode := response_zadd_encode; p_decode := response_zadd_decode;
  p_ok p := in_u 32 (rzadd_config_version p) /\ in_s 32 (rzadd_code p);
  p_received p := p
}.
Next Obligation. plain_packet. by destruct p. Qed.

#[export] Program Instance codec_request_zrank : Codec request_zrank := {
  c_encode := request_zrank_encode; c_decode := request_zrank_decode;
  c_wire p := [u8 (zrank_server_flag p)] ++ be_split 2 (zrank_area p) ++ plain_bytes (zrank_key p)
    ++ plain_bytes (zrank_value p);
  c_sends p := False;
  c_reads p := in_u 8 (zrank_server_flag p) /\ in_u 16 (zrank_area p) /\ plain_ok (zrank_key p)
    /\ plain_ok (zrank_value p);
  c_received p := 
    mk_request_zrank
      (zrank_server_flag p) (zrank_area p) (plain (zrank_key p)) (plain (zrank_value p))
}.
Next Obligation. never. Qed.
Next Obligation. plain_received. done. Qed.

#[export] Program Instance codec_response_zrank : Codec response_zrank := {
  c_encode := response_zrank_encode; c_decode := response_zrank_decode;
  c_wire p := be_split 4 (rzrank_config_version p) ++ be_split 4 (rzrank_code p)
    ++ be_split 8 (rzrank_retnum p);
  c_sends p := True;
  c_reads p := False;
  c_received p := p
}.
Next Obligation. plain_sent. Qed.
Next Obligation. never. Qed.

#[export] Program Instance codec_request_zrevrank : Codec request_zrevrank := {
  c_encode := request_zrevrank_encode; c_decode := request_zrevrank_decode;
  c_wire p := [u8 (zrevrank_server_flag p)] ++ be_split 2 (zrevrank_area p)
    ++ plain_bytes (zrevrank_key p) ++ plain_bytes (zrevrank_value p);
  c_sends p := False;
  c_reads p := in_u 8 (zrevrank_server_flag p) /\ in_u 16 (zrevrank_area p)
    /\ plain_ok (zrevrank_key p) /\ plain_ok (zrevrank_value p);
  c_received p := 
    mk_request_zrevrank
      (zrevrank_server_flag p) (zrevrank_area p) (plain (zrevrank_key p))
      (plain (zrevrank_value p))
}.
Next Obligation. never. Qed.
Next Obligation. plain_received. done. Qed.

#[export] Program Instance codec_response_zrevrank : Codec response_zrevrank := {
  c_encode := response_zrevrank_encode; c_decode := response_zrevrank_decode;
  c_wire p := be_split 4 (rzrevrank_config_version p) ++ be_split 4 (rzrevrank_code p)
    ++ be_split 8 (rzrevrank_retnum p);
  c_sends p := True;
  c_reads p := False;
  c_received p := p
}.
Next Obligation. plain_sent. Qed.
Next Obligation. never. Qed.

#[export] Program Instance codec_request_zcount : Codec request_zcount := {
  c_encode := request_zcount_encode; c_decode := request_zcount_decode;
  c_wire p := [u8 (zcount_server_flag p)] ++ be_split 2 (zcount_area p)
    ++ le_split 8 (zcount_start p) ++ le_split 8 (zcount_end p)
    ++ plain_bytes (zcount_key p);
  c_sends p := False;
  c_reads p := in_u 8 (zcount_server_flag p) /\ in_u 16 (zcount_area p) /\ in_u 64 (zcount_start p)
    /\ in_u 64 (zcount_end p) /\ plain_ok (zcount_key p);
  c_received p := 
    mk_request_zcount
      (zcount_server_flag p) (zcount_area p) (zcount_start p) (zcount_end p)
      (plain (zcount_key p))
}.
Next Obligation. never. Qed.
Next Obligation. plain_received. done. Qed.

#[export] Program Instance codec_response_zcount : Codec response_zcount := {
  c_encode := response_zcount_encode; c_decode := response_zcount_decode;
  c_wire p := be_split 4 (rzcount_config_version p) ++ be_split 4 (rzcount_code p)
    ++ be_split 8 (rzcount_retnum p);
  c_sends p := True;
  c_reads p := False;
  c_received p := p
}.
Next Obligation. plain_sent. Qed.
Next Obligation. never. Qed.

#[export] Program Instance packet_request_zincrby : Packet request_zincrby := {
  p_encode := request_zincrby_encode; p_decode := request_zincrby_decode;
  p_ok p := in_u 8 (zincrby_server_flag p) /\ in_u 16 (zincrby_area p)
    /\ in_u 16 (zincrby_version p) /\ in_s 32 (zincrby_expire p)
    /\ plain_ok (zincrby_key p) /\ plain_ok (zincrby_value p)
    /\ in_u 64 (zincrby_addscore p);
  p_received p := 
    mk_request_zincrby
      (zincrby_server_flag p) (zincrby_area p) (zincrby_version p) (zincrby_expire p)
      (set_version (zincrby_version p) (plain (zincrby_key p))) (plain (zincrby_value p))
      (zincrby_addscore p)
}.
Next Obligation. plain_packet. done. Qed.

#[export] Program Instance packet_response_zincrby : Packet response_zincrby := {
  p_encode := response_zincrby_encode; p_decode := response_zincrby_decode;
  p_ok p := in_u 32 (rzincrby_config_version p) /\ in_s 32 (rzincrby_code p)
    /\ in_u 64 (rzincrby_retnum p);
  p_received p := p
}.
Next Obligation. plain_packet. by destruct p. Qed.

#[export] Program Instance packet_request_zcard : Packet request_zcard := {
  p_encode := request_zcard_encode; p_decode := request_zcard_decode;
  p_ok p := in_u 8 (zcard_server_flag p) /\ in_u 16 (zcard_area p) /\ plain_ok (zcard_key p);
  p_received p := mk_request_zcard (zcard_server_flag p) (zcard_area p) (plain (zcard_key p))
}.
Next Obligation. plain_packet. done. Qed.

#[export] Program Instance packet_response_zcard : Packet response_zcard := {
  p_encode := response_zcard_encode; p_decode := response_zcard_decode;
  p_ok p := in_u 32 (rzcard_config_version p) /\ in_s 32 (rzcard_code p)
    /\ in_s 64 (rzcard_retnum p);
  p_received p := p
}.
Next Obligation. plain_packet. by destruct p. Qed.

#[export] Program Instance packet_request_zrem : Packet request_zrem := {
  p_encode := request_zrem_encode; p_decode := request_zrem_decode;
  p_ok p := in_u 8 (zrem_server_flag p) /\ in_u 16 (zrem_area p) /\ in_u 16 (zrem_version p)
    /\ in_s 32 (zrem_expire p) /\ plain_ok (zrem_key p) /\ plain_ok (zrem_value p);
  p_received p := 
    mk_request_zrem
      (zrem_server_flag p) (zrem_area p) (zrem_version p) (zrem_expire p)
      (set_version (zrem_version p) (plain (zrem_key p))) (plain (zrem_value p))
}.
Next Obligation. plain_packet. done. Qed.

#[export] Program Instance packet_request_zrem_dup : Packet (dup request_zrem) := {
  p_encode := request_zrem_dup_encode; p_decode := request_zrem_dup_decode;
  p_ok := dup_ok; p_received := dup_received
}.
Next Obligation. exact dup_packet. Qed.

#[export] Program Instance packet_response_zrem : Packet response_zrem := {
  p_encode := response_zrem_encode; p_decode := response_zrem_decode;
  p_ok p := in_u 32 (rzrem_config_version p) /\ in_s 32 (rzrem_code p);
  p_received p := p
}.
Next Obligation. plain_packet. by destruct p. Qed.

#[export] Program Instance packet_request_zremrangebyscore : Packet request_zremrangebyscore := {
  p_encode := request_zremrangebyscore_encode; p_decode := request_zremrangebyscore_decode;
  p_ok p := in_u 8 (zremrangebyscore_server_flag p) /\ in_u 16 (zremrangebyscore_area p)
    /\ in_u 16 (zremrangebyscore_version p) /\ in_s 32 (zremrangebyscore_expire p)
    /\ in_u 64 (zremrangebyscore_start p) /\ in_u 64 (zremrangebyscore_end p)
    /\ plain_ok (zremrangebyscore_key p);
  p_received p := 
    mk_request_zremrangebyscore
      (zremrangebyscore_server_flag p) (zremrangebyscore_area p)
      (zremrangebyscore_version p) (zremrangebyscore_expire p) (zremrangebyscore_start p)
      (zremrangebyscore_end p)
      (set_version (zremrangebyscore_version p) (plain (zremrangebyscore_key p)))
}.
Next Obligation. plain_packet. done. Qed.

#[export] Program Instance packet_request_zremrangebyscore_dup : Packet (dup request_zremrangebyscore) := {
  p_encode := request_zremrangebyscore_dup_encode; p_decode := request_zremrangebyscore_dup_decode;
  p_ok := dup_ok; p_received := dup_received
}.
Next Obligation. exact dup_packet. Qed.

#[export] Program Instance packet_response_zremrangebyscore : Packet response_zremrangebyscore := {
  p_encode := response_zremrangebyscore_encode; p_decode := response_zremrangebyscore_decode;
  p_ok p := in_u 32 (rzremrangebyscore_config_version p) /\ in_s 32 (rzremrangebyscore_code p)
    /\ in_s 64 (rzremrangebyscore_retnum p);
  p_received p := p
}.
Next Obligation. plain_packet. by destruct p. Qed.

#[export] Program Instance packet_request_zremrangebyrank : Packet request_zremrangebyrank := {
  p_encode := request_zremrangebyrank_encode; p_decode := request_zremrangebyrank_decode;
  p_ok p := in_u 8 (zremrangebyrank_server_flag p) /\ in_u 16 (zremrangebyrank_area p)
    /\ in_u 16 (zremrangebyrank_version p) /\ in_s 32 (zremrangebyrank_expire p)
    /\ in_s 32 (zremrangebyrank_start p) /\ in_s 32 (zremrangebyrank_end p)
    /\ plain_ok (zremrangebyrank_key p);
  p_received p := 
    mk_request_zremrangebyrank
      (zremrangebyrank_server_flag p) (zremrangebyrank_area p) (zremrangebyrank_version p)
      (zremrangebyrank_expire p) (zremrangebyrank_start p) (zremrangebyrank_end p)
      (set_version (zremrangebyrank_version p) (plain (zremrangebyrank_key p)))
}.
Next Obligation. plain_packet. done. Qed.

#[export] Program Instance packet_request_zremrangebyrank_dup : Packet (dup request_zremrangebyrank) := {
  p_encode := request_zremrangebyrank_dup_encode; p_decode := request_zremrangebyrank_dup_decode;
  p_ok := dup_ok; p_received := dup_received
}.
Next Obligation. exact dup_packet. Qed.

#[export] Program Instance packet_response_zremrangebyrank : Packet response_zremrangebyrank := {
  p_encode := response_zremrangebyrank_encode; p_decode := response_zremrangebyrank_decode;
  p_ok p := in_u 32 (rzremrangebyrank_config_version p) /\ in_s 32 (rzremrangebyrank_code p)
    /\ in_s 64 (rzremrangebyrank_retnum p);
  p_received p := p
}.
Next Obligation. plain_packet. by destruct p. Qed.
