(* ===== verification/PacketFactory.v ===== *)
(** * The packet factory (packets/packet_factory.cpp)

    [_createPacket]: the packet codes and the types of their packets, by the
    blocks of its switch.  A class that only inherits the encode and decode of
    another is the other's type under its own code.  The two codes that are not
    here are [TAIR_RESP_GET_SVRTAB_PACKET], whose packet is compressed, and
    3000, the packet of the administration tool. *)

From S2P Require Import Prelude DataBuffer DataEntry BasePacket KvPackets ConfPackets.
From S2P Require Import KeyPackets ListPackets HashPackets SetPackets ZsetPackets.

(** ** The packets about keys, areas, groups and servers *)

Inductive general_packet :=
| REQ_OP_CMD (p : request_op_cmd) | RESP_OP_CMD (p : response_op_cmd)
| REQ_PUT (p : request_put) | REQ_PUTNX (p : request_put) | REQ_GET (p : request_get)
| REQ_QUERY_INFO (p : request_query_info) | REQ_REMOVE (p : request_get)
| REQ_REMOVE_AREA (p : request_remove_area)
| REQ_LAZY_REMOVE_AREA (p : request_lazy_remove_area) | REQ_DUMP_AREA (p : request_dump_area)
| REQ_LOAD_AREA (p : request_load_area) | REQ_EXISTS (p : request_exists)
| REQ_HEXISTS (p : request_hexists) | REQ_PING (p : request_ping) | REQ_DUMP (p : request_dump)
| REQ_HEARTBEAT (p : request_heartbeat) | REQ_INCDEC (p : request_inc_dec)
| RESP_RETURN (p : response_return) | RESP_GET (p : response_get)
| REQ_GETSET (p : request_sadd) | RESP_GETSET (p : response_hget)
| RESP_QUERY_INFO (p : response_query_info) | RESP_HEARTBEAT (p : response_heartbeat)
| RESP_INCDEC (p : request_ping) | REQ_GET_GROUP (p : request_get_group)
| REQ_GET_SVRTAB (p : request_get_group) | REQ_CONFHB (p : request_conf_heartbeart)
| REQ_SETMASTER (p : request_ping) | REQ_GROUP_NAMES (p : request_ping)
| RESP_GET_GROUP (p : response_get_group) | RESP_GROUP_NAMES (p : response_group_names)
| RESP_DUPLICATE (p : response_duplicate) | REQ_MIG_FINISH (p : request_migrate_finish)
| REQ_DATASERVER_CTRL (p : request_data_server_ctrl)
| REQ_GET_MIGRATE_MACHINE (p : request_get_migrate_machine)
| RESP_GET_MIGRATE_MACHINE (p : response_get_migrate_machine) | REQ_EXPIRE (p : request_expire)
| RESP_EXPIRE (p : response_expire) | REQ_EXPIREAT (p : request_expireat)
| RESP_EXPIREAT (p : response_expireat) | REQ_PERSIST (p : request_persist)
| RESP_PERSIST (p : response_persist) | REQ_ADD_FILTER (p : request_addfilter)
| REQ_REMOVE_FILTER (p : request_addfilter).

(** The types' packet codes and virtual functions *)
Definition open_general (p : general_packet) : opened general_packet :=
  match p with
  | REQ_OP_CMD p => packet_of 16 REQ_OP_CMD p
  | RESP_OP_CMD p => packet_of 17 RESP_OP_CMD p
  | REQ_PUT p => packet_of 1 REQ_PUT p
  | REQ_PUTNX p => packet_of 2149 REQ_PUTNX p
  | REQ_GET p => packet_of 2 REQ_GET p
  | REQ_QUERY_INFO p => packet_of 1009 REQ_QUERY_INFO p
  | REQ_REMOVE p => packet_of 3 REQ_REMOVE p
  | REQ_REMOVE_AREA p => packet_of 4 REQ_REMOVE_AREA p
  | REQ_LAZY_REMOVE_AREA p => packet_of 2152 REQ_LAZY_REMOVE_AREA p
  | REQ_DUMP_AREA p => packet_of 2164 REQ_DUMP_AREA p
  | REQ_LOAD_AREA p => packet_of 2165 REQ_LOAD_AREA p
  | REQ_EXISTS p => packet_of 2153 REQ_EXISTS p
  | REQ_HEXISTS p => packet_of 2161 REQ_HEXISTS p
  | REQ_PING p => packet_of 6 REQ_PING p
  | REQ_DUMP p => packet_of 7 REQ_DUMP p
  | REQ_HEARTBEAT p => packet_of 9 REQ_HEARTBEAT p
  | REQ_INCDEC p => packet_of 11 REQ_INCDEC p
  | RESP_RETURN p => packet_of 101 RESP_RETURN p
  | RESP_GET p => packet_of 102 RESP_GET p
  | REQ_GETSET p => packet_of 2155 REQ_GETSET p
  | RESP_GETSET p => packet_of 2255 RESP_GETSET p
  | RESP_QUERY_INFO p => packet_of 1106 RESP_QUERY_INFO p
  | RESP_HEARTBEAT p => packet_of 104 RESP_HEARTBEAT p
  | RESP_INCDEC p => packet_of 105 RESP_INCDEC p
  | REQ_GET_GROUP p => packet_of 1002 REQ_GET_GROUP p
  | REQ_GET_SVRTAB p => packet_of 1003 REQ_GET_SVRTAB p
  | REQ_CONFHB p => packet_of 1004 REQ_CONFHB p
  | REQ_SETMASTER p => packet_of 1005 REQ_SETMASTER p
  | REQ_GROUP_NAMES p => packet_of 1006 REQ_GROUP_NAMES p
  | RESP_GET_GROUP p => packet_of 1102 RESP_GET_GROUP p
  | RESP_GROUP_NAMES p => packet_of 1104 RESP_GROUP_NAMES p
  | RESP_DUPLICATE p => packet_of 1301 RESP_DUPLICATE p
  | REQ_MIG_FINISH p => packet_of 1201 REQ_MIG_FINISH p
  | REQ_DATASERVER_CTRL p => packet_of 1500 REQ_DATASERVER_CTRL p
  | REQ_GET_MIGRATE_MACHINE p => packet_of 1501 REQ_GET_MIGRATE_MACHINE p
  | RESP_GET_MIGRATE_MACHINE p => packet_of 1302 RESP_GET_MIGRATE_MACHINE p
  | REQ_EXPIRE p => packet_of 2127 REQ_EXPIRE p
  | RESP_EXPIRE p => packet_of 2227 RESP_EXPIRE p
  | REQ_EXPIREAT p => packet_of 2131 REQ_EXPIREAT p
  | RESP_EXPIREAT p => packet_of 2231 RESP_EXPIREAT p
  | REQ_PERSIST p => packet_of 2132 REQ_PERSIST p
  | RESP_PERSIST p => packet_of 2232 RESP_PERSIST p
  | REQ_ADD_FILTER p => packet_of 2162 REQ_ADD_FILTER p
  | REQ_REMOVE_FILTER p => packet_of 2163 REQ_REMOVE_FILTER p
  end.

Definition create_general (pcode : Z) : option (object general_packet) :=
  match pcode with
  | 16 => Some (mk_object REQ_OP_CMD)
  | 17 => Some (mk_object RESP_OP_CMD)
  | 1 => Some (mk_object REQ_PUT)
  | 2149 => Some (mk_object REQ_PUTNX)
  | 2 => Some (mk_object REQ_GET)
  | 1009 => Some (mk_object REQ_QUERY_INFO)
  | 3 => Some (mk_object REQ_REMOVE)
  | 4 => Some (mk_object REQ_REMOVE_AREA)
  | 2152 => Some (mk_object REQ_LAZY_REMOVE_AREA)
  | 2164 => Some (mk_object REQ_DUMP_AREA)
  | 2165 => Some (mk_object REQ_LOAD_AREA)
  | 2153 => Some (mk_object REQ_EXISTS)
  | 2161 => Some (mk_object REQ_HEXISTS)
  | 6 => Some (mk_object REQ_PING)
  | 7 => Some (mk_object REQ_DUMP)
  | 9 => Some (mk_object REQ_HEARTBEAT)
  | 11 => Some (mk_object REQ_INCDEC)
  | 101 => Some (mk_object RESP_RETURN)
  | 102 => Some (mk_object RESP_GET)
  | 2155 => Some (mk_object REQ_GETSET)
  | 2255 => Some (mk_object RESP_GETSET)
  | 1106 => Some (mk_object RESP_QUERY_INFO)
  | 104 => Some (mk_object RESP_HEARTBEAT)
  | 105 => Some (mk_object RESP_INCDEC)
  | 1002 => Some (mk_object REQ_GET_GROUP)
  | 1003 => Some (mk_object REQ_GET_SVRTAB)
  | 1004 => Some (mk_object REQ_CONFHB)
  | 1005 => Some (mk_object REQ_SETMASTER)
  | 1006 => Some (mk_object REQ_GROUP_NAMES)
  | 1102 => Some (mk_object RESP_GET_GROUP)
  | 1104 => Some (mk_object RESP_GROUP_NAMES)
  | 1301 => Some (mk_object RESP_DUPLICATE)
  | 1201 => Some (mk_object REQ_MIG_FINISH)
  | 1500 => Some (mk_object REQ_DATASERVER_CTRL)
  | 1501 => Some (mk_object REQ_GET_MIGRATE_MACHINE)
  | 1302 => Some (mk_object RESP_GET_MIGRATE_MACHINE)
  | 2127 => Some (mk_object REQ_EXPIRE)
  | 2227 => Some (mk_object RESP_EXPIRE)
  | 2131 => Some (mk_object REQ_EXPIREAT)
  | 2231 => Some (mk_object RESP_EXPIREAT)
  | 2132 => Some (mk_object REQ_PERSIST)
  | 2232 => Some (mk_object RESP_PERSIST)
  | 2162 => Some (mk_object REQ_ADD_FILTER)
  | 2163 => Some (mk_object REQ_REMOVE_FILTER)
  | _ => None
  end.

#[export] Program Instance general_family : Family general_packet := {
  open_packet := open_general; create := create_general
}.
Next Obligation. by intros []. Qed.
Next Obligation. by intros []. Qed.

(** ** The list packets *)

Inductive list_packet :=
| REQ_LLEN (p : request_llen) | RESP_LLEN (p : response_llen) | REQ_LPOP (p : request_lrpop)
| REQ_RPOP (p : request_lrpop) | RESP_LPOP (p : response_lrpop) | RESP_RPOP (p : response_lrpop)
| REQ_LPUSH (p : request_lrpush) | REQ_RPUSH (p : request_lrpush)
| RESP_LPUSH (p : response_lrpush) | RESP_RPUSH (p : response_lrpush)
| REQ_LPUSHX (p : request_lrpush) | REQ_RPUSHX (p : request_lrpush)
| RESP_LPUSHX (p : response_lrpush) | RESP_RPUSHX (p : response_lrpush)
| REQ_LPUSH_LIMIT (p : request_lrpush_limit) | REQ_RPUSH_LIMIT (p : request_lrpush_limit)
| REQ_LPUSHX_LIMIT (p : request_lrpush_limit) | REQ_RPUSHX_LIMIT (p : request_lrpush_limit)
| REQ_LINDEX (p : request_lindex) | RESP_LINDEX (p : response_lindex)
| REQ_LTRIM (p : request_ltrim) | RESP_LTRIM (p : response_ltrim)
| REQ_LRANGE (p : request_lrange) | RESP_LRANGE (p : response_lrange)
| REQ_LREM (p : request_lrem) | RESP_LREM (p : response_lrem) | REQ_LSET (p : request_lset)
| RESP_LSET (p : response_hset).

(** The types' packet codes and virtual functions *)
Definition open_list (p : list_packet) : opened list_packet :=
  match p with
  | REQ_LLEN p => packet_of 2133 REQ_LLEN p
  | RESP_LLEN p => packet_of 2233 RESP_LLEN p
  | REQ_LPOP p => packet_of 2100 REQ_LPOP p
  | REQ_RPOP p => packet_of 2102 REQ_RPOP p
  | RESP_LPOP p => packet_of 2200 RESP_LPOP p
  | RESP_RPOP p => packet_of 2202 RESP_RPOP p
  | REQ_LPUSH p => packet_of 2101 REQ_LPUSH p
  | REQ_RPUSH p => packet_of 2103 REQ_RPUSH p
  | RESP_LPUSH p => packet_of 2201 RESP_LPUSH p
  | RESP_RPUSH p => packet_of 2203 RESP_RPUSH p
  | REQ_LPUSHX p => packet_of 2104 REQ_LPUSHX p
  | REQ_RPUSHX p => packet_of 2105 REQ_RPUSHX p
  | RESP_LPUSHX p => packet_of 2204 RESP_LPUSHX p
  | RESP_RPUSHX p => packet_of 2205 RESP_RPUSHX p
  | REQ_LPUSH_LIMIT p => packet_of 2157 REQ_LPUSH_LIMIT p
  | REQ_RPUSH_LIMIT p => packet_of 2158 REQ_RPUSH_LIMIT p
  | REQ_LPUSHX_LIMIT p => packet_of 2159 REQ_LPUSHX_LIMIT p
  | REQ_RPUSHX_LIMIT p => packet_of 2160 REQ_RPUSHX_LIMIT p
  | REQ_LINDEX p => packet_of 2106 REQ_LINDEX p
  | RESP_LINDEX p => packet_of 2206 RESP_LINDEX p
  | REQ_LTRIM p => packet_of 2128 REQ_LTRIM p
  | RESP_LTRIM p => packet_of 2228 RESP_LTRIM p
  | REQ_LRANGE p => packet_of 2130 REQ_LRANGE p
  | RESP_LRANGE p => packet_of 2230 RESP_LRANGE p
  | REQ_LREM p => packet_of 2129 REQ_LREM p
  | RESP_LREM p => packet_of 2229 RESP_LREM p
  | REQ_LSET p => packet_of 2166 REQ_LSET p
  | RESP_LSET p => packet_of 2266 RESP_LSET p
  end.

Definition create_list (pcode : Z) : option (object list_packet) :=
  match pcode with
  | 2133 => Some (mk_object REQ_LLEN)
  | 2233 => Some (mk_object RESP_LLEN)
  | 2100 => Some (mk_object REQ_LPOP)
  | 2102 => Some (mk_object REQ_RPOP)
  | 2200 => Some (mk_object RESP_LPOP)
  | 2202 => Some (mk_object RESP_RPOP)
  | 2101 => Some (mk_object REQ_LPUSH)
  | 2103 => Some (mk_object REQ_RPUSH)
  | 2201 => Some (mk_object RESP_LPUSH)
  | 2203 => Some (mk_object RESP_RPUSH)
  | 2104 => Some (mk_object REQ_LPUSHX)
  | 2105 => Some (mk_object REQ_RPUSHX)
  | 2204 => Some (mk_object RESP_LPUSHX)
  | 2205 => Some (mk_object RESP_RPUSHX)
  | 2157 => Some (mk_object REQ_LPUSH_LIMIT)
  | 2158 => Some (mk_object REQ_RPUSH_LIMIT)
  | 2159 => Some (mk_object REQ_LPUSHX_LIMIT)
  | 2160 => Some (mk_object REQ_RPUSHX_LIMIT)
  | 2106 => Some (mk_object REQ_LINDEX)
  | 2206 => Some (mk_object RESP_LINDEX)
  | 2128 => Some (mk_object REQ_LTRIM)
  | 2228 => Some (mk_object RESP_LTRIM)
  | 2130 => Some (mk_object REQ_LRANGE)
  | 2230 => Some (mk_object RESP_LRANGE)
  | 2129 => Some (mk_object REQ_LREM)
  | 2229 => Some (mk_object RESP_LREM)
  | 2166 => Some (mk_object REQ_LSET)
  | 2266 => Some (mk_object RESP_LSET)
  | _ => None
  end.

#[export] Program Instance list_family : Family list_packet := {
  open_packet := open_list; create := create_list
}.
Next Obligation. by intros []. Qed.
Next Obligation. by intros []. Qed.

(** ** The hash packets *)

Inductive hash_packet :=
| REQ_HGETALL (p : request_hgetall) | RESP_HGETALL (p : response_hgetall)
| REQ_HINCRBY (p : request_hincrby) | RESP_HINCRBY (p : response_hincrby)
| REQ_HMSET (p : request_hmset) | RESP_HMSET (p : response_hmset) | REQ_HSET (p : request_hset)
| RESP_HSET (p : response_hset) | REQ_HSETNX (p : request_hsetnx)
| RESP_HSETNX (p : response_hsetnx) | REQ_HGET (p : request_hget)
| RESP_HGET (p : response_hget) | REQ_HMGET (p : request_hmget)
| RESP_HMGET (p : response_hmget) | REQ_HDEL (p : request_hdel) | RESP_HDEL (p : response_hdel)
| REQ_HVALS (p : request_hvals) | RESP_HVALS (p : response_hvals)
| REQ_HKEYS (p : request_hkeys) | RESP_HKEYS (p : response_hkeys) | REQ_HLEN (p : request_hlen)
| RESP_HLEN (p : response_hlen).

(** The types' packet codes and virtual functions *)
Definition open_hash (p : hash_packet) : opened hash_packet :=
  match p with
  | REQ_HGETALL p => packet_of 2107 REQ_HGETALL p
  | RESP_HGETALL p => packet_of 2207 RESP_HGETALL p
  | REQ_HINCRBY p => packet_of 2108 REQ_HINCRBY p
  | RESP_HINCRBY p => packet_of 2208 RESP_HINCRBY p
  | REQ_HMSET p => packet_of 2109 REQ_HMSET p
  | RESP_HMSET p => packet_of 2209 RESP_HMSET p
  | REQ_HSET p => packet_of 2110 REQ_HSET p
  | RESP_HSET p => packet_of 2210 RESP_HSET p
  | REQ_HSETNX p => packet_of 2111 REQ_HSETNX p
  | RESP_HSETNX p => packet_of 2211 RESP_HSETNX p
  | REQ_HGET p => packet_of 2112 REQ_HGET p
  | RESP_HGET p => packet_of 2212 RESP_HGET p
  | REQ_HMGET p => packet_of 2113 REQ_HMGET p
  | RESP_HMGET p => packet_of 2213 RESP_HMGET p
  | REQ_HDEL p => packet_of 2115 REQ_HDEL p
  | RESP_HDEL p => packet_of 2215 RESP_HDEL p
  | REQ_HVALS p => packet_of 2114 REQ_HVALS p
  | RESP_HVALS p => packet_of 2214 RESP_HVALS p
  | REQ_HKEYS p => packet_of 2156 REQ_HKEYS p
  | RESP_HKEYS p => packet_of 2256 RESP_HKEYS p
  | REQ_HLEN p => packet_of 2136 REQ_HLEN p
  | RESP_HLEN p => packet_of 2236 RESP_HLEN p
  end.

Definition create_hash (pcode : Z) : option (object hash_packet) :=
  match pcode with
  | 2107 => Some (mk_object REQ_HGETALL)
  | 2207 => Some (mk_object RESP_HGETALL)
  | 2108 => Some (mk_object REQ_HINCRBY)
  | 2208 => Some (mk_object RESP_HINCRBY)
  | 2109 => Some (mk_object REQ_HMSET)
  | 2209 => Some (mk_object RESP_HMSET)
  | 2110 => Some (mk_object REQ_HSET)
  | 2210 => Some (mk_object RESP_HSET)
  | 2111 => Some (mk_object REQ_HSETNX)
  | 2211 => Some (mk_object RESP_HSETNX)
  | 2112 => Some (mk_object REQ_HGET)
  | 2212 => Some (mk_object RESP_HGET)
  | 2113 => Some (mk_object REQ_HMGET)
  | 2213 => Some (mk_object RESP_HMGET)
  | 2115 => Some (mk_object REQ_HDEL)
  | 2215 => Some (mk_object RESP_HDEL)
  | 2114 => Some (mk_object REQ_HVALS)
  | 2214 => Some (mk_object RESP_HVALS)
  | 2156 => Some (mk_object REQ_HKEYS)
  | 2256 => Some (mk_object RESP_HKEYS)
  | 2136 => Some (mk_object REQ_HLEN)
  | 2236 => Some (mk_object RESP_HLEN)
  | _ => None
  end.

#[export] Program Instance hash_family : Family hash_packet := {
  open_packet := open_hash; create := create_hash
}.
Next Obligation. by intros []. Qed.
Next Obligation. by intros []. Qed.

(** ** The set packets *)

Inductive set_packet :=
| REQ_SCARD (p : request_scard) | RESP_SCARD (p : response_scard)
| REQ_SMEMBERS (p : request_smembers) | RESP_SMEMBERS (p : response_smembers)
| REQ_SADD (p : request_sadd) | RESP_SADD (p : response_sadd) | REQ_SPOP (p : request_spop)
| RESP_SPOP (p : response_spop) | REQ_SREM (p : request_srem) | RESP_SREM (p : response_srem)
| REQ_SADDMULTI (p : request_sadd_multi) | REQ_SREMMULTI (p : request_sadd_multi)
| REQ_SMEMBERSMULTI (p : request_smembers_multi)
| RESP_SMEMBERSMULTI (p : response_smembers_multi).

(** The types' packet codes and virtual functions *)
Definition open_set (p : set_packet) : opened set_packet :=
  match p with
  | REQ_SCARD p => packet_of 2116 REQ_SCARD p
  | RESP_SCARD p => packet_of 2216 RESP_SCARD p
  | REQ_SMEMBERS p => packet_of 2117 REQ_SMEMBERS p
  | RESP_SMEMBERS p => packet_of 2217 RESP_SMEMBERS p
  | REQ_SADD p => packet_of 2118 REQ_SADD p
  | RESP_SADD p => packet_of 2218 RESP_SADD p
  | REQ_SPOP p => packet_of 2119 REQ_SPOP p
  | RESP_SPOP p => packet_of 2219 RESP_SPOP p
  | REQ_SREM p => packet_of 2145 REQ_SREM p
  | RESP_SREM p => packet_of 2245 RESP_SREM p
  | REQ_SADDMULTI p => packet_of 2146 REQ_SADDMULTI p
  | REQ_SREMMULTI p => packet_of 2147 REQ_SREMMULTI p
  | REQ_SMEMBERSMULTI p => packet_of 2148 REQ_SMEMBERSMULTI p
  | RESP_SMEMBERSMULTI p => packet_of 2248 RESP_SMEMBERSMULTI p
  end.

Definition create_set (pcode : Z) : option (object set_packet) :=
  match pcode with
  | 2116 => Some (mk_object REQ_SCARD)
  | 2216 => Some (mk_object RESP_SCARD)
  | 2117 => Some (mk_object REQ_SMEMBERS)
  | 2217 => Some (mk_object RESP_SMEMBERS)
  | 2118 => Some (mk_object REQ_SADD)
  | 2218 => Some (mk_object RESP_SADD)
  | 2119 => Some (mk_object REQ_SPOP)
  | 2219 => Some (mk_object RESP_SPOP)
  | 2145 => Some (mk_object REQ_SREM)
  | 2245 => Some (mk_object RESP_SREM)
  | 2146 => Some (mk_object REQ_SADDMULTI)
  | 2147 => Some (mk_object REQ_SREMMULTI)
  | 2148 => Some (mk_object REQ_SMEMBERSMULTI)
  | 2248 => Some (mk_object RESP_SMEMBERSMULTI)
  | _ => None
  end.

#[export] Program Instance set_family : Family set_packet := {
  open_packet := open_set; create := create_set
}.
Next Obligation. by intros []. Qed.
Next Obligation. by intros []. Qed.

(** ** The sorted set packets *)

Inductive zset_packet :=
| REQ_ZSCORE (p : request_zscore) | RESP_ZSCORE (p : response_zscore)
| REQ_ZRANGE (p : request_zrange) | RESP_ZRANGE (p : response_zrange)
| RESP_ZRANGEWITHSCORE (p : response_zrangewithscore) | REQ_ZREVRANGE (p : request_zrevrange)
| RESP_ZREVRANGE (p : response_zrevrange)
| RESP_ZREVRANGEWITHSCORE (p : response_zrevrangewithscore)
| REQ_ZRANGEBYSCORE (p : request_zrangebyscore)
| RESP_ZRANGEBYSCORE (p : response_zrangebyscore)
| REQ_GENERIC_ZRANGEBYSCORE (p : request_generic_zrangebyscore)
| RESP_GENERIC_ZRANGEBYSCORE (p : response_generic_zrangebyscore) | REQ_ZADD (p : request_zadd)
| RESP_ZADD (p : response_zadd) | REQ_ZRANK (p : request_zrank)
| RESP_ZRANK (p : response_zrank) | REQ_ZREVRANK (p : request_zrevrank)
| RESP_ZREVRANK (p : response_zrevrank) | REQ_ZCOUNT (p : request_zcount)
| RESP_ZCOUNT (p : response_zcount) | REQ_ZINCRBY (p : request_zincrby)
| RESP_ZINCRBY (p : response_zincrby) | REQ_ZCARD (p : request_zcard)
| RESP_ZCARD (p : response_zcard) | REQ_ZREM (p : request_zrem) | RESP_ZREM (p : response_zrem)
| REQ_ZREMRANGEBYRANK (p : request_zremrangebyrank)
| RESP_ZREMRANGEBYRANK (p : response_zremrangebyrank)
| REQ_ZREMRANGEBYSCORE (p : request_zremrangebyscore)
| RESP_ZREMRANGEBYSCORE (p : response_zremrangebyscore).

(** The types' packet codes and virtual functions *)
Definition open_zset (p : zset_packet) : opened zset_packet :=
  match p with
  | REQ_ZSCORE p => packet_of 2122 REQ_ZSCORE p
  | RESP_ZSCORE p => packet_of 2222 RESP_ZSCORE p
  | REQ_ZRANGE p => packet_of 2120 REQ_ZRANGE p
  | RESP_ZRANGE p => packet_of 2220 RESP_ZRANGE p
  | RESP_ZRANGEWITHSCORE p => packet_of 2243 RESP_ZRANGEWITHSCORE p
  | REQ_ZREVRANGE p => packet_of 2121 REQ_ZREVRANGE p
  | RESP_ZREVRANGE p => packet_of 2221 RESP_ZREVRANGE p
  | RESP_ZREVRANGEWITHSCORE p => packet_of 2244 RESP_ZREVRANGEWITHSCORE p
  | REQ_ZRANGEBYSCORE p => packet_of 2123 REQ_ZRANGEBYSCORE p
  | RESP_ZRANGEBYSCORE p => packet_of 2223 RESP_ZRANGEBYSCORE p
  | REQ_GENERIC_ZRANGEBYSCORE p => packet_of 2151 REQ_GENERIC_ZRANGEBYSCORE p
  | RESP_GENERIC_ZRANGEBYSCORE p => packet_of 2251 RESP_GENERIC_ZRANGEBYSCORE p
  | REQ_ZADD p => packet_of 2124 REQ_ZADD p
  | RESP_ZADD p => packet_of 2224 RESP_ZADD p
  | REQ_ZRANK p => packet_of 2125 REQ_ZRANK p
  | RESP_ZRANK p => packet_of 2225 RESP_ZRANK p
  | REQ_ZREVRANK p => packet_of 2140 REQ_ZREVRANK p
  | RESP_ZREVRANK p => packet_of 2240 RESP_ZREVRANK p
  | REQ_ZCOUNT p => packet_of 2141 REQ_ZCOUNT p
  | RESP_ZCOUNT p => packet_of 2241 RESP_ZCOUNT p
  | REQ_ZINCRBY p => packet_of 2142 REQ_ZINCRBY p
  | RESP_ZINCRBY p => packet_of 2242 RESP_ZINCRBY p
  | REQ_ZCARD p => packet_of 2126 REQ_ZCARD p
  | RESP_ZCARD p => packet_of 2226 RESP_ZCARD p
  | REQ_ZREM p => packet_of 2137 REQ_ZREM p
  | RESP_ZREM p => packet_of 2237 RESP_ZREM p
  | REQ_ZREMRANGEBYRANK p => packet_of 2138 REQ_ZREMRANGEBYRANK p
  | RESP_ZREMRANGEBYRANK p => packet_of 2238 RESP_ZREMRANGEBYRANK p
  | REQ_ZREMRANGEBYSCORE p => packet_of 2139 REQ_ZREMRANGEBYSCORE p
  | RESP_ZREMRANGEBYSCORE p => packet_of 2239 RESP_ZREMRANGEBYSCORE p
  end.

Definition create_zset (pcode : Z) : option (object zset_packet) :=
  match pcode with
  | 2122 => Some (mk_object REQ_ZSCORE)
  | 2222 => Some (mk_object RESP_ZSCORE)
  | 2120 => Some (mk_object REQ_ZRANGE)
  | 2220 => Some (mk_object RESP_ZRANGE)
  | 2243 => Some (mk_object RESP_ZRANGEWITHSCORE)
  | 2121 => Some (mk_object REQ_ZREVRANGE)
  | 2221 => Some (mk_object RESP_ZREVRANGE)
  | 2244 => Some (mk_object RESP_ZREVRANGEWITHSCORE)
  | 2123 => Some (mk_object REQ_ZRANGEBYSCORE)
  | 2223 => Some (mk_object RESP_ZRANGEBYSCORE)
  | 2151 => Some (mk_object REQ_GENERIC_ZRANGEBYSCORE)
  | 2251 => Some (mk_object RESP_GENERIC_ZRANGEBYSCORE)
  | 2124 => Some (mk_object REQ_ZADD)
  | 2224 => Some (mk_object RESP_ZADD)
  | 2125 => Some (mk_object REQ_ZRANK)
  | 2225 => Some (mk_object RESP_ZRANK)
  | 2140 => Some (mk_object REQ_ZREVRANK)
  | 2240 => Some (mk_object RESP_ZREVRANK)
  | 2141 => Some (mk_object REQ_ZCOUNT)
  | 2241 => Some (mk_object RESP_ZCOUNT)
  | 2142 => Some (mk_object REQ_ZINCRBY)
  | 2242 => Some (mk_object RESP_ZINCRBY)
  | 2126 => Some (mk_object REQ_ZCARD)
  | 2226 => Some (mk_object RESP_ZCARD)
  | 2137 => Some (mk_object REQ_ZREM)
  | 2237 => Some (mk_object RESP_ZREM)
  | 2138 => Some (mk_object REQ_ZREMRANGEBYRANK)
  | 2238 => Some (mk_object RESP_ZREMRANGEBYRANK)
  | 2139 => Some (mk_object REQ_ZREMRANGEBYSCORE)
  | 2239 => Some (mk_object RESP_ZREMRANGEBYSCORE)
  | _ => None
  end.

#[export] Program Instance zset_family : Family zset_packet := {
  open_packet := open_zset; create := create_zset
}.
Next Obligation. by intros []. Qed.
Next Obligation. by intros []. Qed.

(** ** Time to live and type *)

Inductive common_packet :=
| REQ_TTL (p : request_ttl) | RESP_TTL (p : response_ttl) | REQ_TYPE (p : request_type)
| RESP_TYPE (p : response_type).

(** The types' packet codes and virtual functions *)
Definition open_common (p : common_packet) : opened common_packet :=
  match p with
  | REQ_TTL p => packet_of 2134 REQ_TTL p
  | RESP_TTL p => packet_of 2234 RESP_TTL p
  | REQ_TYPE p => packet_of 2135 REQ_TYPE p
  | RESP_TYPE p => packet_of 2235 RESP_TYPE p
  end.

Definition create_common (pcode : Z) : option (object common_packet) :=
  match pcode with
  | 2134 => Some (mk_object REQ_TTL)
  | 2234 => Some (mk_object RESP_TTL)
  | 2135 => Some (mk_object REQ_TYPE)
  | 2235 => Some (mk_object RESP_TYPE)
  | _ => None
  end.

#[export] Program Instance common_family : Family common_packet := {
  open_packet := open_common; create := create_common
}.
Next Obligation. by intros []. Qed.
Next Obligation. by intros []. Qed.

(** ** Copies for the slaves of a bucket (the code's comment calls this block 'duplicate') *)

Inductive copy_packet :=
| REQ_PUT_DUPLICATE (p : dup request_put) | REQ_PUTNX_DUPLICATE (p : dup request_put)
| REQ_REMOVE_DUPLICATE (p : dup request_get) | REQ_LPUSH_DUPLICATE (p : old_dup request_lrpush)
| REQ_RPUSH_DUPLICATE (p : old_dup request_lrpush)
| REQ_LPUSHX_DUPLICATE (p : old_dup request_lrpush)
| REQ_RPUSHX_DUPLICATE (p : old_dup request_lrpush)
| REQ_LPOP_DUPLICATE (p : old_dup request_lrpop)
| REQ_RPOP_DUPLICATE (p : old_dup request_lrpop) | REQ_LTRIM_DUPLICATE (p : dup request_ltrim)
| REQ_LREM_DUPLICATE (p : dup request_lrem) | REQ_LSET_DUPLICATE (p : dup request_lset)
| REQ_HMSET_DUPLICATE (p : dup request_hmset) | REQ_HSET_DUPLICATE (p : dup request_hset)
| REQ_HSETNX_DUPLICATE (p : dup request_hsetnx) | REQ_HDEL_DUPLICATE (p : dup request_hdel)
| REQ_SPOP_DUPLICATE (p : dup request_spop) | REQ_SREM_DUPLICATE (p : dup request_srem)
| REQ_SADD_DUPLICATE (p : dup request_sadd)
| REQ_SADD_MULTI_DUPLICATE (p : dup request_sadd_multi)
| REQ_SREM_MULTI_DUPLICATE (p : dup request_sadd_multi)
| REQ_ZADD_DUPLICATE (p : dup request_zadd) | REQ_ZREM_DUPLICATE (p : dup request_zrem)
| REQ_ZREMRANGEBYRANK_DUPLICATE (p : dup request_zremrangebyrank)
| REQ_ZREMRANGEBYSCORE_DUPLICATE (p : dup request_zremrangebyscore).

(** The types' packet codes and virtual functions *)
Definition open_copy (p : copy_packet) : opened copy_packet :=
  match p with
  | REQ_PUT_DUPLICATE p => packet_of 4000 REQ_PUT_DUPLICATE p
  | REQ_PUTNX_DUPLICATE p => packet_of 4001 REQ_PUTNX_DUPLICATE p
  | REQ_REMOVE_DUPLICATE p => packet_of 4002 REQ_REMOVE_DUPLICATE p
  | REQ_LPUSH_DUPLICATE p => packet_of 4019 REQ_LPUSH_DUPLICATE p
  | REQ_RPUSH_DUPLICATE p => packet_of 4021 REQ_RPUSH_DUPLICATE p
  | REQ_LPUSHX_DUPLICATE p => packet_of 4020 REQ_LPUSHX_DUPLICATE p
  | REQ_RPUSHX_DUPLICATE p => packet_of 4022 REQ_RPUSHX_DUPLICATE p
  | REQ_LPOP_DUPLICATE p => packet_of 4027 REQ_LPOP_DUPLICATE p
  | REQ_RPOP_DUPLICATE p => packet_of 4028 REQ_RPOP_DUPLICATE p
  | REQ_LTRIM_DUPLICATE p => packet_of 4003 REQ_LTRIM_DUPLICATE p
  | REQ_LREM_DUPLICATE p => packet_of 4004 REQ_LREM_DUPLICATE p
  | REQ_LSET_DUPLICATE p => packet_of 4005 REQ_LSET_DUPLICATE p
  | REQ_HMSET_DUPLICATE p => packet_of 4006 REQ_HMSET_DUPLICATE p
  | REQ_HSET_DUPLICATE p => packet_of 4007 REQ_HSET_DUPLICATE p
  | REQ_HSETNX_DUPLICATE p => packet_of 4008 REQ_HSETNX_DUPLICATE p
  | REQ_HDEL_DUPLICATE p => packet_of 4009 REQ_HDEL_DUPLICATE p
  | REQ_SPOP_DUPLICATE p => packet_of 4010 REQ_SPOP_DUPLICATE p
  | REQ_SREM_DUPLICATE p => packet_of 4011 REQ_SREM_DUPLICATE p
  | REQ_SADD_DUPLICATE p => packet_of 4013 REQ_SADD_DUPLICATE p
  | REQ_SADD_MULTI_DUPLICATE p => packet_of 4014 REQ_SADD_MULTI_DUPLICATE p
  | REQ_SREM_MULTI_DUPLICATE p => packet_of 4012 REQ_SREM_MULTI_DUPLICATE p
  | REQ_ZADD_DUPLICATE p => packet_of 4015 REQ_ZADD_DUPLICATE p
  | REQ_ZREM_DUPLICATE p => packet_of 4016 REQ_ZREM_DUPLICATE p
  | REQ_ZREMRANGEBYRANK_DUPLICATE p => packet_of 4017 REQ_ZREMRANGEBYRANK_DUPLICATE p
  | REQ_ZREMRANGEBYSCORE_DUPLICATE p => packet_of 4018 REQ_ZREMRANGEBYSCORE_DUPLICATE p
  end.

Definition create_copy (pcode : Z) : option (object copy_packet) :=
  match pcode with
  | 4000 => Some (mk_object REQ_PUT_DUPLICATE)
  | 4001 => Some (mk_object REQ_PUTNX_DUPLICATE)
  | 4002 => Some (mk_object REQ_REMOVE_DUPLICATE)
  | 4019 => Some (mk_object REQ_LPUSH_DUPLICATE)
  | 4021 => Some (mk_object REQ_RPUSH_DUPLICATE)
  | 4020 => Some (mk_object REQ_LPUSHX_DUPLICATE)
  | 4022 => Some (mk_object REQ_RPUSHX_DUPLICATE)
  | 4027 => Some (mk_object REQ_LPOP_DUPLICATE)
  | 4028 => Some (mk_object REQ_RPOP_DUPLICATE)
  | 4003 => Some (mk_object REQ_LTRIM_DUPLICATE)
  | 4004 => Some (mk_object REQ_LREM_DUPLICATE)
  | 4005 => Some (mk_object REQ_LSET_DUPLICATE)
  | 4006 => Some (mk_object REQ_HMSET_DUPLICATE)
  | 4007 => Some (mk_object REQ_HSET_DUPLICATE)
  | 4008 => Some (mk_object REQ_HSETNX_DUPLICATE)
  | 4009 => Some (mk_object REQ_HDEL_DUPLICATE)
  | 4010 => Some (mk_object REQ_SPOP_DUPLICATE)
  | 4011 => Some (mk_object REQ_SREM_DUPLICATE)
  | 4013 => Some (mk_object REQ_SADD_DUPLICATE)
  | 4014 => Some (mk_object REQ_SADD_MULTI_DUPLICATE)
  | 4012 => Some (mk_object REQ_SREM_MULTI_DUPLICATE)
  | 4015 => Some (mk_object REQ_ZADD_DUPLICATE)
  | 4016 => Some (mk_object REQ_ZREM_DUPLICATE)
  | 4017 => Some (mk_object REQ_ZREMRANGEBYRANK_DUPLICATE)
  | 4018 => Some (mk_object REQ_ZREMRANGEBYSCORE_DUPLICATE)
  | _ => None
  end.

#[export] Program Instance copy_family : Family copy_packet := {
  open_packet := open_copy; create := create_copy
}.
Next Obligation. by intros []. Qed.
Next Obligation. by intros []. Qed.

(** ** All packets *)

Inductive packet :=
| General (p : general_packet) | List (p : list_packet) | Hash (p : hash_packet)
| Set_ (p : set_packet) | Zset (p : zset_packet) | Common (p : common_packet)
| Copy (p : copy_packet).

(** The first of the switch's blocks that knows the code *)
Definition or_else {F G} (f : F -> G) (ob : option (object F)) (other : option (object G))
    : option (object G) :=
  match ob with
  | Some ob => Some (lift_object f ob)
  | None => other
  end.

Definition create_packet (pcode : Z) : option (object packet) :=
  or_else General (create_general pcode)
  (or_else List (create_list pcode)
  (or_else Hash (create_hash pcode)
  (or_else Set_ (create_set pcode)
  (or_else Zset (create_zset pcode)
  (or_else Common (create_common pcode)
  (or_else Copy (create_copy pcode) None)))))).

#[export] Program Instance packet_family : Family packet := {
  open_packet p := match p with
    | General p => lift_opened General (open_packet p)
    | List p => lift_opened List (open_packet p)
    | Hash p => lift_opened Hash (open_packet p)
    | Set_ p => lift_opened Set_ (open_packet p)
    | Zset p => lift_opened Zset (open_packet p)
    | Common p => lift_opened Common (open_packet p)
    | Copy p => lift_opened Copy (open_packet p)
    end;
  create := create_packet
}.
Next Obligation. by intros [[]|[]|[]|[]|[]|[]|[]]. Qed.
Next Obligation. by intros [[]|[]|[]|[]|[]|[]|[]]. Qed.

(** ** The factory gives a code packets that carry it

    [assert(pcode == packet->getPCode())] at the end of [_createPacket]. *)
Ltac created_code :=
  intros H;
  repeat match type of H with
    | match ?c with _ => _ end = _ => is_var c; destruct c; try discriminate H
    end;
  injection H as <-; intros p; reflexivity.

Definition created {F} `{Family F} (cr : Z -> option (object F)) : Prop :=
  forall c ob, cr c = Some ob -> forall p, pcode_of (ob_make ob p) = c.

Lemma general_created : created create_general.
Proof. intros c ob. unfold create_general. created_code. Qed.

Lemma list_created : created create_list.
Proof. intros c ob. unfold create_list. created_code. Qed.

Lemma hash_created : created create_hash.
Proof. intros c ob. unfold create_hash. created_code. Qed.

Lemma set_created : created create_set.
Proof. intros c ob. unfold create_set. created_code. Qed.

Lemma zset_created : created create_zset.
Proof. intros c ob. unfold create_zset. created_code. Qed.

Lemma common_created : created create_common.
Proof. intros c ob. unfold create_common. created_code. Qed.

Lemma copy_created : created create_copy.
Proof. intros c ob. unfold create_copy. created_code. Qed.

Lemma or_else_created {F G} (f : F -> G) (cr : option (object F)) other (Q : object G -> Prop) :
  (forall ob, cr = Some ob -> Q (lift_object f ob)) ->
  (forall ob, other = Some ob -> Q ob) ->
  forall ob, or_else f cr other = Some ob -> Q ob.
Proof. intros H1 H2 ob. destruct cr; simpl; [intros [= <-]|]; auto. Qed.

Lemma packet_created : created create_packet.
Proof.
  intros c. unfold create_packet.
  do 7 (refine (or_else_created _ _ _ (fun ob => forall p, pcode_of (ob_make ob p) = c) _ _);
    [intros ob H p; cbn [ob_make ob_type ob_codec lift_object];
     first [exact (general_created c ob H p)|exact (list_created c ob H p)|exact (hash_created c ob H p)
           |exact (set_created c ob H p)|exact (zset_created c ob H p)|exact (common_created c ob H p)
           |exact (copy_created c ob H p)]|]).
  done.
Qed.
