(* ===== verification/PacketStream.v ===== *)
(** * The packet stream (packets/packet_streamer.cpp, packets/packet_factory.cpp,
      tbnet tcpconnection.cpp and connection.cpp)

    Packets are framed by a 16-byte header and sent back to back; the receiver
    cuts the byte stream into packets again, however the bytes arrive.  The
    socket is a parameter of the run: it holds the bytes in flight and, for
    each [read], how many of them have arrived. *)

From S2P Require Import Prelude DataBuffer DataEntry BasePacket KvPackets KeyPackets HashPackets.
From S2P Require Import PacketFactory.

Definition TAIR_PACKET_FLAG : Z := 0x6D426454.
Definition MAX_DATA_LEN : Z := 0x4000000.
Definition READ_WRITE_SIZE : nat := Z.to_nat 8192.

Record PacketHeader := mk_PacketHeader { chid : Z; pcode : Z; dataLen : Z }.

(** ** tair_packet_streamer *)

(** [encode]: the result, the length stored in the packet's header, and the
    buffer.  [None]: the packet's own encode asserts. *)
Definition streamer_encode (existPacketHeader : bool) (packet_flag : Z)
    (header : PacketHeader) (packet_encode : encoder) (output : databuffer)
  : option (bool * PacketHeader * databuffer) :=
  let oldLen := getDataLen output in
  let '(dataLenOffset, headerSize, output) :=
    if existPacketHeader then
      let output := writeInt32 packet_flag output in
      let output := writeInt32 (chid header) output in
      let output := writeInt32 (pcode header) output in
      let dataLenOffset := Some (getDataLen output) in
      (dataLenOffset, 16%nat, writeInt32 0 output)
    else (None, 0%nat, output) in
  match packet_encode output with
  | None => None
  | Some (false, output) =>
      match stripData (getDataLen output - oldLen) output with
      | Ret output => Some (false, header, output)
      | _ => None
      end
  | Some (true, output) =>
      let header := mk_PacketHeader (chid header) (pcode header)
                      (Z.of_nat (getDataLen output - oldLen - headerSize)) in
      match dataLenOffset with
      | Some off => Some (true, header, fillInt32 off (dataLen header) output)
      | None => Some (true, header, output)
      end
  end.

(** [getPacketInfo]: (has a header been read, is the stream broken, header). *)
Definition getPacketInfo (existPacketHeader : bool) (packet_flag : Z) (header : PacketHeader)
  : reader (bool * bool * PacketHeader) := fun input =>
  if existPacketHeader then
    if too_few 16 input then Got (false, false, header) input
    else
      (let? flag := readInt32 in
       let? chid := readInt32 in
       let? pcode := readInt32 in
       let? dataLen := readInt32 in
       let header := mk_PacketHeader chid (s32 pcode) (s32 dataLen) in
       let broken := negb (s32 flag =? packet_flag) || (s32 dataLen <? 0)
                     || (MAX_DATA_LEN <? s32 dataLen) in
       rret (true, broken, header)) input
  else if decide (getDataLen input = 0%nat) then Got (false, false, header) input
  else Got (true, false, header) input.

(** ** The receiving connection *)

(** The result of a run that may use up its fuel or hit an assertion. *)
Inductive run (A : Type) : Type := Done (a : A) | NoFuel | Crash.
Arguments Done {A} a.
Arguments NoFuel {A}.
Arguments Crash {A}.

(** What a [read] on the socket finds: [Avail n], [n] bytes have arrived (with
    0, or nothing in flight, the call fails with EAGAIN); the peer has closed;
    another error. *)
Inductive sock_event := Avail (n : nat) | Eof | Error.

Record connection := mk_connection {
  c_input : databuffer; c_gotHeader : bool; c_packetHeader : PacketHeader
}.

(** [TCPConnection::TCPConnection] *)
Definition new_connection : connection :=
  mk_connection new_databuffer false (mk_PacketHeader 0 0 0).

(** Why the outer loop of [readData] ends: the stream is broken; the last
    [read] returned data; it failed with EAGAIN; it returned 0; it failed. *)
Inductive read_end := ReadBroken | ReadMore | ReadAgain | ReadEof | ReadError.

Section connection.
Context {P : Type}.
(** [IPacketFactory::createPacket]: the decoder of a new packet object *)
Variable createPacket : Z -> option (Z -> reader P).

(** [tair_packet_streamer::decode]; [None] is the NULL packet.  Nothing skips
    the rest of a packet whose decode fails. *)
Definition streamer_decode (header : PacketHeader) : reader (option P) := fun input =>
  match createPacket (pcode header) with
  | Some decode =>
      match decode (dataLen header) input with
      | Got p input => Got (Some p) input
      | Rejected input => Got None input
      | Asserted => Asserted
      | Overran => Overran
      end
  | None => Got None (drainData (Z.to_nat (dataLen header)) input)
  end.

(** What [handlePacket] gives the server adapter: a packet with its header,
    or [ControlPacket::BadPacket]. *)
Definition delivery : Type := option (PacketHeader * P).

(** [Connection::handlePacket] of a server connection *)
Definition handlePacket (header : PacketHeader) : reader delivery :=
  let? packet := streamer_decode header in
  rret (match packet with Some p => Some (header, p) | None => None end).

(** The inner [while (1)] of [readData]: (broken, connection, deliveries). *)
Fixpoint packet_loop (fuel : nat) (c : connection) : run (bool * connection * list delivery) :=
  match fuel with
  | O => NoFuel
  | S fuel' =>
      match (if c_gotHeader c then Got (true, false, c_packetHeader c) (c_input c)
             else getPacketInfo true TAIR_PACKET_FLAG (c_packetHeader c) (c_input c)) with
      | Got (gotHeader, broken, header) input =>
          if broken then Done (true, mk_connection input gotHeader header, [])
          else if gotHeader && (dataLen header <=? Z.of_nat (getDataLen input)) then
            match handlePacket header input with
            | Got d input =>
                let header := mk_PacketHeader (chid header) (pcode header) 0 in
                match packet_loop fuel' (mk_connection input false header) with
                | Done (broken, c, out) => Done (broken, c, d :: out)
                | r => r
                end
            | _ => Crash
            end
          else Done (false, mk_connection input gotHeader header, [])
      | _ => Crash
      end
  end.

(** The kernel copies [bs] to [_input.getFree()]; [_pfree] does not move. *)
Definition recv_into (bs : list Z) (b : databuffer) : databuffer :=
  match mem b with
  | None => b
  | Some m => mk_databuffer (Some (take (pfree b) m ++ bs ++ drop (pfree b + length bs) m))
                (pdata b) (pfree b)
  end.

(** The outer loop of [readData]: why it ended, the connection, the bytes still
    in flight and the deliveries. *)

Fixpoint read_loop (fuel readCnt : nat) (evs : list sock_event) (c : connection)
    (flight : list Z) : run (read_end * connection * list Z * list delivery) :=
  match evs with
  | [] => Done (ReadAgain, c, flight, [])
  | Eof :: _ => Done (ReadEof, c, flight, [])
  | Error :: _ => Done (ReadError, c, flight, [])
  | Avail n :: evs' =>
      let n := Nat.min n (getFreeLen (c_input c)) in
      let bs := take n flight in
      let flight := drop n flight in
      match bs with
      | [] => Done (ReadAgain, c, flight, [])
      | _ =>
          match pourData (length bs) (recv_into bs (c_input c)) with
          | Ret input =>
              let freeLen := getFreeLen input in
              match packet_loop fuel (mk_connection input (c_gotHeader c) (c_packetHeader c)) with
              | Done (broken, c, out) =>
                  if broken then Done (ReadBroken, c, flight, out)
                  else if bool_decide (0 < freeLen)%nat || bool_decide (10 <= readCnt)%nat
                  then Done (ReadMore, c, flight, out)
                  else
                    let missing := dataLen (c_packetHeader c)
                                   - Z.of_nat (getDataLen (c_input c)) in
                    let input :=
                      if Z.of_nat READ_WRITE_SIZE <? missing
                      then ensureFree (Z.to_nat missing) (c_input c)
                      else ensureFree READ_WRITE_SIZE (c_input c) in
                    match read_loop fuel (S readCnt) evs'
                            (mk_connection input (c_gotHeader c) (c_packetHeader c)) flight with
                    | Done (e, c, flight, out') => Done (e, c, flight, out ++ out')
                    | r => r
                    end
              | NoFuel => NoFuel
              | Crash => Crash
              end
          | _ => Crash
          end
      end
  end.

(** [TCPConnection::readData]: (keep the connection, connection, flight,
    deliveries) *)
Definition readData (fuel : nat) (evs : list sock_event) (c : connection) (flight : list Z)
  : run (bool * connection * list Z * list delivery) :=
  let input := ensureFree READ_WRITE_SIZE (c_input c) in
  match read_loop fuel 0 evs (mk_connection input (c_gotHeader c) (c_packetHeader c)) flight with
  | Done (e, c, flight, out) =>
      let input := shrink (c_input c) in
      match e with
      | ReadBroken => Done (false, mk_connection input false (c_packetHeader c), flight, out)
      | ReadEof | ReadError =>
          Done (false, mk_connection input (c_gotHeader c) (c_packetHeader c), flight, out)
      | ReadMore | ReadAgain =>
          Done (true, mk_connection input (c_gotHeader c) (c_packetHeader c), flight, out)
      end
  | NoFuel => NoFuel
  | Crash => Crash
  end.

(** The connection through a sequence of calls of [readData], until one of
    them asks to close it. *)
Fixpoint serve (fuel : nat) (calls : list (list sock_event)) (c : connection) (flight : list Z)
  : run (bool * connection * list Z * list delivery) :=
  match calls with
  | [] => Done (true, c, flight, [])
  | evs :: calls' =>
      match readData fuel evs c flight with
      | Done (true, c, flight, out) =>
          match serve fuel calls' c flight with
          | Done (ok, c, flight, out') => Done (ok, c, flight, out ++ out')
          | r => r
          end
      | r => r
      end
  end.

(** What holds of every delivery the packet factory can make holds of all of a
    connection's. *)
Section deliveries.
Context (Q : delivery -> Prop).
Context (Hhandle : forall h input d input', handlePacket h input = Got d input' -> Q d).

Lemma packet_loop_all fuel c broken c' out :
  packet_loop fuel c = Done (broken, c', out) -> Forall Q out.
Proof.
  revert c broken c' out. induction fuel as [|fuel IH]; intros c broken c' out; [done|].
  cbn [packet_loop]. repeat case_match; try done; intros [= <- <- <-]; constructor;
    first [by eapply Hhandle|by eapply IH].
Qed.

Lemma read_loop_all fuel evs readCnt c flight e c' flight' out :
  read_loop fuel readCnt evs c flight = Done (e, c', flight', out) -> Forall Q out.
Proof.
  revert readCnt c flight e c' flight' out.
  induction evs as [|ev evs IH]; intros readCnt c flight e c' flight' out; [by intros [= <- <- <- <-]|].
  cbn [read_loop]. repeat case_match; try done; intros [= <- <- <- <-]; try constructor;
    try apply Forall_app_2; first [by eapply packet_loop_all|by eapply IH].
Qed.

Lemma serve_all fuel calls c flight ok c' flight' out :
  serve fuel calls c flight = Done (ok, c', flight', out) -> Forall Q out.
Proof.
  revert c flight ok c' flight' out. induction calls as [|evs calls IH]; intros c flight ok c' flight' out.
  { by intros [= <- <- <- <-]. }
  cbn [serve]. unfold readData.
  destruct (read_loop _ _ _ _ _) as [[[[e c1] f1] out1]| |] eqn:E; [|done..].
  apply read_loop_all in E.
  destruct e; repeat case_match; try done; intros; simplify_eq; try done;
    (apply Forall_app_2; [done|by eapply IH]).
Qed.
End deliveries.
End connection.

(** ** Frames *)

Record frame := mk_frame { f_chid : Z; f_pcode : Z; f_body : list Z }.

Definition frame_header (f : frame) : PacketHeader :=
  mk_PacketHeader (f_chid f) (f_pcode f) (Z.of_nat (length (f_body f))).

Definition head_bytes (f : frame) : list Z :=
  be_split 4 TAIR_PACKET_FLAG ++ be_split 4 (f_chid f) ++ be_split 4 (f_pcode f)
  ++ be_split 4 (Z.of_nat (length (f_body f))).
Definition frame_bytes (f : frame) : list Z := head_bytes f ++ f_body f.
Definition stream_bytes (fs : list frame) : list Z := concat (map frame_bytes fs).

Definition frame_ok (f : frame) : Prop :=
  in_u 32 (f_chid f) /\ in_s 32 (f_pcode f) /\ Z.of_nat (length (f_body f)) <= MAX_DATA_LEN.

Lemma length_head_bytes f : length (head_bytes f) = 16%nat.
Proof. unfold head_bytes. by rewrite !length_app, !length_be_split. Qed.

(** What [encode] appends is one frame, its length patched in at the end. *)
Lemma streamer_encode_spec h w l b :
  emits w l -> wf b ->
  exists b', streamer_encode true TAIR_PACKET_FLAG h (always w) b
             = Some (true, mk_PacketHeader (chid h) (pcode h) (Z.of_nat (length l)), b')
    /\ wf b' /\ content b' = content b ++ frame_bytes (mk_frame (chid h) (pcode h) l).
Proof.
  intros Hw Hwf. unfold streamer_encode, always.
  pose proof (emits_writeInt32 TAIR_PACKET_FLAG b Hwf) as [Hwf1 E1].
  pose proof (emits_writeInt32 (chid h) _ Hwf1) as [Hwf2 E2].
  pose proof (emits_writeInt32 (pcode h) _ Hwf2) as [Hwf3 E3].
  pose proof (emits_writeInt32 0 _ Hwf3) as [Hwf4 E4].
  pose proof (Hw _ Hwf4) as [Hwf5 E5].
  set (b3 := writeInt32 (pcode h) _) in *. set (b5 := w _) in *.
  assert (getDataLen b5 - getDataLen b - 16 = length l)%nat as Hlen.
  { rewrite !getDataLen_content, E5, E4, E3, E2, E1, !length_app, !length_be_split by done. lia. }
  cbv zeta. rewrite Hlen. eexists. split; [reflexivity|]. cbn [dataLen].
  rewrite (getDataLen_content b3 Hwf3).
  destruct (fill_spec (content b3) (be_split 4 0) l
              (be_split 4 (Z.of_nat (length l))) b5 Hwf5) as [Hwf' Hc'].
  - by rewrite E5, E4, <- app_assoc.
  - by rewrite !length_be_split.
  - split; [exact Hwf'|]. unfold fillInt32. rewrite Hc', E3, E2, E1.
    unfold frame_bytes, head_bytes. cbn [f_chid f_pcode f_body]. by rewrite <- !app_assoc.
Qed.

(** When the packet's encode fails after writing some bytes, the buffer holds
    what it held before. *)
Lemma streamer_encode_failure h w l b :
  emits w l -> wf b ->
  exists b', streamer_encode true TAIR_PACKET_FLAG h (fun o => Some (false, w o)) b
             = Some (false, h, b') /\ wf b' /\ content b' = content b.
Proof.
  intros Hw Hwf. unfold streamer_encode.
  assert (emits (fun b => w (writeInt32 0 (writeInt32 (pcode h) (writeInt32 (chid h)
            (writeInt32 TAIR_PACKET_FLAG b)))))
            ((((be_split 4 TAIR_PACKET_FLAG ++ be_split 4 (chid h)) ++ be_split 4 (pcode h))
              ++ be_split 4 0) ++ l)) as Hall by emit_tac.
  destruct (Hall b Hwf) as [Hwf5 E5]. cbv zeta. set (b5 := w _) in *.
  destruct (stripData_takes (getDataLen b5 - getDataLen b) b5 Hwf5) as (b' & Es & _ & Hwf' & Hc').
  { rewrite !getDataLen_content by done. lia. }
  rewrite Es. exists b'. split; [done|]. split; [done|]. rewrite Hc', !getDataLen_content by done.
  rewrite E5, !length_app. replace (_ - _)%nat with (length (content b)) by lia.
  apply take_app_length.
Qed.

Lemma parses_header f h :
  frame_ok f ->
  forall b rest, wf b -> content b = head_bytes f ++ rest ->
  exists b', getPacketInfo true TAIR_PACKET_FLAG h b = Got (true, false, frame_header f) b'
    /\ wf b' /\ content b' = rest.
Proof.
  intros (Hc & Hp & Hl) b rest Hwf Hb. unfold getPacketInfo.
  rewrite (too_few_false 16 b (head_bytes f) rest Hwf Hb) by (rewrite length_head_bytes; lia).
  unfold MAX_DATA_LEN in *. revert b rest Hwf Hb. 
  match goal with |- forall b rest, wf b -> content b = ?l ++ rest -> exists b', ?p b = Got ?a b' /\ _ =>
    change (parses p l a) end.
  apply parses_nil_r. unfold head_bytes. rewrite <- !app_assoc. parse_tac.
  rewrite (s32_u32 (Z.of_nat _)) by (unfold in_s; lia). fields.
  change (negb (s32 (u32 TAIR_PACKET_FLAG) =? TAIR_PACKET_FLAG)) with false.
  unfold frame_header, MAX_DATA_LEN. f_equal. f_equal. zsolve.
Qed.

(** ** Receiving *)

(** A prefix that has arrived entirely can be split off what has arrived. *)
Lemma split_arrived (c flight a b : list Z) :
  c ++ flight = a ++ b -> (length a <= length c)%nat ->
  exists c', c = a ++ c' /\ c' ++ flight = b.
Proof.
  intros E Hle. exists (drop (length a) c).
  assert (take (length a) c = a) as Ha.
  { apply (f_equal (take (length a))) in E. rewrite take_app_length, take_app_le in E by done. done. }
  split.
  - rewrite <- Ha at 1. by rewrite take_drop.
  - apply (f_equal (drop (length a))) in E. by rewrite drop_app_length, drop_app_le in E by done.
Qed.

Section receive.
Context {P : Type} (createPacket : Z -> option (Z -> reader P)).

(** What a frame is delivered as: the packet its body is decoded to, or
    [BadPacket] when the factory does not know its code. *)
Definition delivers (f : frame) (d : delivery (P := P)) : Prop :=
  match createPacket (f_pcode f) with
  | Some decode => exists p, parses (decode (Z.of_nat (length (f_body f)))) (f_body f) p
                     /\ d = Some (frame_header f, p)
  | None => d = None
  end.

Lemma parses_handlePacket f d :
  delivers f d -> parses (handlePacket createPacket (frame_header f)) (f_body f) d.
Proof.
  unfold delivers, handlePacket, streamer_decode. intros Hd b rest Hwf Hc. unfold rbind.
  change (pcode (frame_header f)) with (f_pcode f).
  destruct (createPacket (f_pcode f)) as [decode|].
  - destruct Hd as (p & Hp & ->). destruct (Hp b rest Hwf Hc) as (b' & E & ? & ?).
    exists b'. cbn [dataLen frame_header]. by rewrite E.
  - subst d. eexists. split; [reflexivity|]. cbn [dataLen frame_header]. rewrite Nat2Z.id.
    destruct (drainData_spec (length (f_body f)) b Hwf) as [? Hc'].
    split; [done|]. by rewrite Hc', Hc, drop_app_length.
Qed.

(** The connection stands at a frame boundary, or just after a header, of what
    is left of the stream. *)
Definition synced (c : connection) (flight : list Z) (fs : list frame) : Prop :=
  wf (c_input c) /\
  if c_gotHeader c then
    exists f fs', fs = f :: fs' /\ c_packetHeader c = frame_header f
      /\ content (c_input c) ++ flight = f_body f ++ stream_bytes fs'
  else content (c_input c) ++ flight = stream_bytes fs.

(** Nothing more can be delivered before more bytes arrive. *)
Definition drained (c : connection) : Prop :=
  if c_gotHeader c then Z.of_nat (length (content (c_input c))) < dataLen (c_packetHeader c)
  else (length (content (c_input c)) < 16)%nat.

Lemma drained_end c fs : synced c [] fs -> drained c -> fs = [] /\ content (c_input c) = [].
Proof.
  unfold synced, drained. rewrite app_nil_r. intros [_ Hs].
  destruct (c_gotHeader c).
  - destruct Hs as (f & fs' & -> & -> & ->). simpl. rewrite length_app. lia.
  - rewrite Hs. destruct fs as [|f fs]; [done|].
    unfold stream_bytes, frame_bytes. cbn [map concat]. rewrite !length_app, length_head_bytes. lia.
Qed.

(** After a header, either the body has arrived and the frame is delivered, or
    the loop stops there. *)
Lemma after_header (f : frame) d b flight fs :
  delivers f d -> wf b -> content b ++ flight = f_body f ++ stream_bytes fs ->
  (length (f_body f) <= length (content b))%nat ->
  exists b', handlePacket createPacket (frame_header f) b = Got d b'
    /\ wf b' /\ content b' ++ flight = stream_bytes fs
    /\ length (content b) = (length (f_body f) + length (content b'))%nat.
Proof.
  intros Hd Hwf Hc Hle. destruct (split_arrived _ _ _ _ Hc Hle) as (c' & Ec & Er).
  destruct (parses_handlePacket f d Hd b c' Hwf Ec) as (b' & E & Hwf' & Hc').
  exists b'. split; [done|]. split; [done|]. rewrite Hc', Ec, length_app. auto.
Qed.

(** [cuts r flight fs ds]: the loop ended with the first of the deliveries [ds]
    made, synchronised with the frames of the others. *)
Definition cuts (r : run (bool * connection * list delivery)) (flight : list Z)
    (fs : list frame) (ds : list delivery) : Prop :=
  exists c' out fs' ds', r = Done (false, c', out) /\ ds = out ++ ds' /\ fs' `suffix_of` fs
    /\ Forall frame_ok fs' /\ Forall2 delivers fs' ds' /\ synced c' flight fs' /\ drained c'.

Definition cuts_all (k : connection -> run (bool * connection * list delivery))
    (n : nat) (flight : list Z) : Prop :=
  forall c fs ds, Forall frame_ok fs -> Forall2 delivers fs ds -> synced c flight fs ->
    (length (content (c_input c)) + Nat.b2n (c_gotHeader c) < n)%nat -> cuts (k c) flight fs ds.

(** One turn of the loop with a header at hand. *)
Lemma body_cuts k n flight f fs ds b :
  cuts_all k n flight -> Forall frame_ok (f :: fs) -> Forall2 delivers (f :: fs) ds -> wf b ->
  content b ++ flight = f_body f ++ stream_bytes fs -> (length (content b) < n)%nat ->
  cuts (if true && (dataLen (frame_header f) <=? Z.of_nat (getDataLen b)) then
          match handlePacket createPacket (frame_header f) b with
          | Got d input =>
              match k (mk_connection input false
                      (mk_PacketHeader (chid (frame_header f)) (pcode (frame_header f)) 0)) with
              | Done (broken, c, out) => Done (broken, c, d :: out)
              | r => r
              end
          | _ => Crash
          end
        else Done (false, mk_connection b true (frame_header f), [])) flight (f :: fs) ds.
Proof.
  intros IH Hok Hds Hwf Hc Hn. rewrite getDataLen_content by done.
  change (dataLen (frame_header f)) with (Z.of_nat (length (f_body f))). cbn [andb].
  destruct (Z.leb_spec (Z.of_nat (length (f_body f))) (Z.of_nat (length (content b)))) as [Hle|Hgt].
  - inversion Hds as [|? d ? ds0 Hd Hds1]; subst. inversion Hok; subst.
    destruct (after_header f d b flight fs Hd Hwf Hc ltac:(lia)) as (b' & -> & Hwf' & Hc' & Hlen).
    destruct (IH (mk_connection b' false
                    (mk_PacketHeader (chid (frame_header f)) (pcode (frame_header f)) 0)) fs ds0)
      as (c' & out & fs' & ds' & -> & -> & Hsuf & ?); [done|done|by split|cbn; lia|].
    exists c', (d :: out), fs', ds'. split; [done|]. split; [done|].
    split; [by apply suffix_cons_r|done].
  - eexists _, [], (f :: fs), ds. do 5 (split; [done|]). split; [split; [done|]; by exists f, fs|]. unfold drained. cbn. lia.
Qed.

Lemma packet_loop_cuts fuel flight : cuts_all (packet_loop createPacket fuel) fuel flight.
Proof.
  induction fuel as [|fuel IH]; intros [b got h] fs ds Hok Hds [Hwf Hs] Hfuel; [lia|].
  cbn [packet_loop c_gotHeader c_packetHeader c_input] in *. destruct got.
  - destruct Hs as (f & fs0 & -> & -> & Hc). apply (body_cuts _ fuel _ f fs0); try done.
    cbn in Hfuel. lia.
  - destruct (decide (length (content b) < 16)%nat) as [Hfew|Hmany].
    + unfold getPacketInfo, too_few. rewrite getDataLen_content by done.
      destruct (Z.ltb_spec (Z.of_nat (length (content b))) 16); [|lia].
      eexists _, [], fs, ds. by repeat split.
    + destruct fs as [|f fs].
      { apply (f_equal length) in Hs. rewrite length_app in Hs. simpl in Hs. lia. }
      unfold stream_bytes, frame_bytes in Hs. cbn [map concat] in Hs. rewrite <- app_assoc in Hs.
      destruct (split_arrived _ _ _ _ Hs) as (c' & Ec & Er); [rewrite length_head_bytes; lia|].
      destruct (parses_header f h ltac:(by inversion Hok) b c' Hwf Ec) as (b' & -> & Hwf' & Hc').
      apply (body_cuts _ fuel _ f fs); try done; [by rewrite Hc'|].
      rewrite Hc'. cbn in Hfuel. rewrite Ec, length_app, length_head_bytes in Hfuel. lia.
Qed.

(** A [read] that fits the free part of the buffer appends what it read. *)
Lemma pour_recv bs b :
  wf b -> bs <> [] -> (length bs <= getFreeLen b)%nat ->
  exists b', pourData (length bs) (recv_into bs b) = Ret b' /\ wf b'
    /\ content b' = content b ++ bs.
Proof.
  intros Hwf Hne Hle. unfold getFreeLen, pend in Hle.
  destruct (mem b) as [m|] eqn:Em.
  2: { destruct bs; [done|]. simpl in Hle. lia. }
  exists (store bs b).
  assert (roomy (length bs) b) as Hroom.
  { exists m. split; [done|]. unfold wf in Hwf. rewrite Em in Hwf. lia. }
  destruct (store_spec bs b Hwf Hroom) as [Hwf' Hc']. split; [|done].
  unfold pourData, recv_into, store, pend. rewrite Em. cbn [mem pfree pdata].
  rewrite !length_app, length_take, length_drop. unfold wf in Hwf. rewrite Em in Hwf.
  by rewrite bool_decide_eq_true_2 by lia.
Qed.

(** The state between two [read]s: synchronised, with enough fuel for all the
    bytes that are left. *)
Definition receiving (fuel : nat) (c : connection) (flight : list Z) (fs : list frame)
    (ds : list (delivery (P := P))) : Prop :=
  Forall frame_ok fs /\ Forall2 delivers fs ds /\ synced c flight fs /\ drained c
  /\ (length (stream_bytes fs) + 1 < fuel)%nat.

Lemma synced_length c flight fs :
  synced c flight fs -> (length (content (c_input c)) + length flight <= length (stream_bytes fs))%nat.
Proof.
  intros [_ Hs]. rewrite <- length_app. destruct (c_gotHeader c); [|by rewrite Hs].
  destruct Hs as (f & fs' & -> & _ & ->). unfold stream_bytes, frame_bytes. cbn [map concat].
  rewrite !length_app. lia.
Qed.

Lemma stream_suffix fs fs' :
  fs' `suffix_of` fs -> (length (stream_bytes fs') <= length (stream_bytes fs))%nat.
Proof. intros [k ->]. unfold stream_bytes. rewrite map_app, concat_app, length_app. lia. Qed.

(** Making room in or shrinking the buffer does not touch the state. *)
Lemma receiving_input fuel c b flight fs ds :
  wf b -> content b = content (c_input c) -> receiving fuel c flight fs ds ->
  receiving fuel (mk_connection b (c_gotHeader c) (c_packetHeader c)) flight fs ds.
Proof.
  intros Hwf Hc (? & ? & [_ Hs] & Hd & ?). unfold receiving, synced, drained in *. cbn. by rewrite Hc.
Qed.

(** One successful [read] and the packet loop after it. *)
Lemma receive_step fuel c flight fs ds n b :
  receiving fuel c flight fs ds -> wf b ->
  content b = content (c_input c) ++ take n flight ->
  exists c' out fs' ds',
    packet_loop createPacket fuel (mk_connection b (c_gotHeader c) (c_packetHeader c))
      = Done (false, c', out) /\ ds = out ++ ds' /\ receiving fuel c' (drop n flight) fs' ds'.
Proof.
  intros (Hok & Hds & [_ Hs] & _ & Hfuel) Hwf Hc.
  assert (synced (mk_connection b (c_gotHeader c) (c_packetHeader c)) (drop n flight) fs) as Hsync.
  { split; [done|]. cbn. by rewrite Hc, <- app_assoc, take_drop. }
  pose proof (synced_length _ _ _ Hsync) as Hlen. cbn [c_input] in Hlen.
  destruct (packet_loop_cuts fuel (drop n flight) _ fs ds Hok Hds Hsync)
    as (c' & out & fs' & ds' & E & -> & Hsuf & ? & ? & ? & ?).
  { cbn. destruct (c_gotHeader c); simpl; lia. }
  exists c', out, fs', ds'. split; [done|]. split; [done|]. repeat (split; [done|]).
  apply stream_suffix in Hsuf. lia.
Qed.

Lemma read_write_size_pos : (0 < READ_WRITE_SIZE)%nat.
Proof. unfold READ_WRITE_SIZE. lia. Qed.

Lemma ensureFree_spec n b :
  wf b -> (0 < n)%nat ->
  wf (ensureFree n b) /\ content (ensureFree n b) = content b
  /\ (0 < getFreeLen (ensureFree n b))%nat.
Proof.
  intros Hwf Hn. destruct (expand_spec n b Hwf) as (? & ? & (m & Em & Hm)).
  unfold getFreeLen, pend, ensureFree. rewrite Em. split; [done|]. split; [done|]. lia.
Qed.

Definition is_avail (e : sock_event) : Prop := match e with Avail _ => True | _ => False end.

(** The first [read] of a call finds data. *)
Definition ready (evs : list sock_event) : Prop :=
  match evs with Avail (S _) :: _ => True | _ => False end.

(** Bytes in flight are only taken, and some are when the first read finds any. *)
Definition taken (evs : list sock_event) (flight flight' : list Z) : Prop :=
  (length flight' <= length flight)%nat
  /\ (ready evs -> flight <> [] -> (length flight' < length flight)%nat).

Lemma read_loop_spec fuel readCnt evs c flight fs ds :
  Forall is_avail evs -> receiving fuel c flight fs ds ->
  exists e c' flight' out fs' ds',
    read_loop createPacket fuel readCnt evs c flight = Done (e, c', flight', out)
    /\ (e = ReadMore \/ e = ReadAgain) /\ ds = out ++ ds' /\ receiving fuel c' flight' fs' ds'
    /\ ((0 < getFreeLen (c_input c))%nat -> taken evs flight flight').
Proof.
  intros Hev. revert readCnt c flight fs ds.
  induction Hev as [|[n| |] evs Hn Hev IH]; intros readCnt c flight fs ds Hrec; try done.
  { exists ReadAgain, c, flight, [], fs, ds. repeat split; auto; try done; apply Hrec. }
  cbn [read_loop]. set (n' := Nat.min n (getFreeLen (c_input c))).
  destruct (take n' flight) as [|x bs] eqn:Ebs.
  { exists ReadAgain, c, (drop n' flight), [], fs, ds. split; [done|]. split; [auto|]. split; [done|].
    pose proof (take_drop n' flight) as Et. rewrite Ebs in Et. simpl in Et. rewrite Et.
    split; [done|]. intros Hfree. split; [done|]. intros Hr Hne. destruct n; [done|].
    destruct flight; [done|]. destruct n' eqn:En; [subst n'; lia|done]. }
  rewrite <- Ebs.
  assert (length (drop n' flight) < length flight)%nat as Hless.
  { apply (f_equal length) in Ebs. rewrite length_take in Ebs. simpl in Ebs.
    rewrite length_drop. lia. }
  assert (wf (c_input c)) as Hwf by apply Hrec.
  destruct (pour_recv (take n' flight) (c_input c) Hwf) as (b & -> & Hwfb & Hcb).
  { by rewrite Ebs. }
  { rewrite length_take. subst n'. lia. }
  destruct (receive_step fuel c flight fs ds n' b Hrec Hwfb Hcb) as (c1 & out & fs1 & ds1 & -> & -> & Hrec1).
  destruct (bool_decide _ || bool_decide _).
  { exists ReadMore, c1, (drop n' flight), out, fs1, ds1. unfold taken. auto with lia. }
  assert (wf (c_input c1)) as Hwf1 by apply Hrec1.
  set (need := if Z.of_nat READ_WRITE_SIZE <? _ then _ else _).
  assert (wf need /\ content need = content (c_input c1) /\ (0 < getFreeLen need)%nat)
    as (Hwfn & Hcn & Hfree).
  { subst need. destruct (Z.ltb_spec (Z.of_nat READ_WRITE_SIZE)
      (dataLen (c_packetHeader c1) - Z.of_nat (getDataLen (c_input c1)))).
    - apply ensureFree_spec; [done|lia].
    - apply ensureFree_spec; [done|apply read_write_size_pos]. }
  destruct (IH (S readCnt) _ _ _ _ (receiving_input _ _ _ _ _ _ Hwfn Hcn Hrec1))
    as (e & c2 & flight2 & out2 & fs2 & ds2 & -> & He & -> & Hrec2 & Ht).
  exists e, c2, flight2, (out ++ out2), fs2, ds2. rewrite <- app_assoc.
  repeat (split; [done|]). intros _. destruct (Ht Hfree). unfold taken. lia.
Qed.

Lemma readData_spec fuel evs c flight fs ds :
  Forall is_avail evs -> receiving fuel c flight fs ds ->
  exists c' flight' out fs' ds',
    readData createPacket fuel evs c flight = Done (true, c', flight', out)
    /\ ds = out ++ ds' /\ receiving fuel c' flight' fs' ds' /\ taken evs flight flight'.
Proof.
  intros Hev Hrec. assert (wf (c_input c)) as Hwf by apply Hrec. unfold readData.
  destruct (ensureFree_spec READ_WRITE_SIZE (c_input c) Hwf read_write_size_pos)
    as (Hwf0 & Hc0 & Hfree).
  destruct (read_loop_spec fuel 0 evs _ _ _ _ Hev (receiving_input _ _ _ _ _ _ Hwf0 Hc0 Hrec))
    as (e & c1 & flight1 & out & fs1 & ds1 & -> & He & -> & Hrec1 & Ht).
  assert (wf (c_input c1)) as Hwf1 by apply Hrec1.
  destruct (shrink_spec (c_input c1) Hwf1) as [Hwf2 Hc2].
  eexists _, _, _, fs1, ds1. split; [by destruct He as [-> | ->]|]. split; [done|].
  split; [by apply receiving_input|by apply Ht].
Qed.

Lemma serve_spec fuel calls c flight fs ds :
  Forall (Forall is_avail) calls -> receiving fuel c flight fs ds ->
  exists c' flight' out fs' ds',
    serve createPacket fuel calls c flight = Done (true, c', flight', out)
    /\ ds = out ++ ds' /\ receiving fuel c' flight' fs' ds'
    /\ (Forall ready calls -> (length flight' <= length flight - length calls)%nat).
Proof.
  intros Hc. revert c flight fs ds. induction Hc as [|evs calls Hev Hc IH]; intros c flight fs ds Hrec.
  { exists c, flight, [], fs, ds. do 3 (split; [done|]). intros. simpl. lia. }
  cbn [serve]. destruct (readData_spec fuel evs c flight fs ds Hev Hrec)
    as (c1 & flight1 & out1 & fs1 & ds1 & -> & -> & Hrec1 & Ht & Ht').
  destruct (IH _ _ _ _ Hrec1) as (c2 & flight2 & out2 & fs2 & ds2 & -> & -> & Hrec2 & Hp).
  exists c2, flight2, (out1 ++ out2), fs2, ds2. rewrite <- app_assoc. do 3 (split; [done|]).
  intros Hr. inversion Hr as [|? ? Hr1 Hr2]; subst. specialize (Hp Hr2). simpl.
  destruct flight; [simpl in *; lia|]. specialize (Ht' Hr1 ltac:(done)). simpl in *. lia.
Qed.

(** The frames of a stream, received: in order, none twice, and all of them
    once every byte has arrived, which takes at most one call per byte. *)
Lemma serve_stream fuel calls fs ds :
  Forall (Forall is_avail) calls -> Forall frame_ok fs -> Forall2 delivers fs ds ->
  (length (stream_bytes fs) + 1 < fuel)%nat ->
  exists c flight out,
    serve createPacket fuel calls new_connection (stream_bytes fs) = Done (true, c, flight, out)
    /\ out `prefix_of` ds /\ (flight = [] -> out = ds)
    /\ (Forall ready calls -> (length (stream_bytes fs) <= length calls)%nat -> flight = []).
Proof.
  intros Hc Hok Hds Hfuel.
  assert (receiving fuel new_connection (stream_bytes fs) fs ds) as Hrec.
  { split; [done|]. split; [done|]. split; [by split|]. split; [unfold drained; cbn; lia|done]. }
  destruct (serve_spec fuel calls _ _ _ _ Hc Hrec)
    as (c & flight & out & fs' & ds' & E & -> & Hrec' & Hp).
  exists c, flight, out. split; [done|]. split; [by exists ds'|]. split.
  - intros ->. destruct Hrec' as (_ & Hds' & Hs & Hd & _).
    destruct (drained_end c fs' Hs Hd) as [-> _]. inversion Hds'. by rewrite app_nil_r.
  - intros Hr Hn. specialize (Hp Hr). destruct flight; [done|simpl in *; lia].
Qed.
End receive.

(** ** The server's packets

    The switch of the factory, and [other] for the two codes whose packets are
    not modelled. *)
Definition unmodelled_codes : list Z := [1103; 3000].

Definition createPacket (other : Z -> option (Z -> reader packet)) (pcode : Z)
  : option (Z -> reader packet) :=
  match create pcode with
  | Some ob => Some (decode_into ob)
  | None => if decide (pcode ∈ unmodelled_codes) then other pcode else None
  end.

(** The types that are modelled: a packet and the code in its header *)
Definition well_typed (d : delivery) : Prop :=
  match d with
  | Some (h, p) => pcode_of p = pcode h \/ pcode h ∈ unmodelled_codes
  | None => True
  end.

Lemma handlePacket_typed other h input d input' :
  handlePacket (createPacket other) h input = Got d input' -> well_typed d.
Proof.
  unfold handlePacket, streamer_decode, rbind, rret, createPacket.
  destruct (create (pcode h)) as [ob|] eqn:E.
  - unfold decode_into, rmap, rbind, rret. repeat case_match; intros; simplify_eq; [|done].
    left. by apply packet_created.
  - case_decide; repeat case_match; intros; simplify_eq; simpl; auto.
Qed.

(** ** End to end

    [send_all] is the loop of [TCPConnection::writeData] that encodes the
    queued packets into [_output]. *)
Fixpoint send_all (ps : list (Z * packet)) (output : databuffer) : option databuffer :=
  match ps with
  | [] => Some output
  | (chid, p) :: ps' =>
      match streamer_encode true TAIR_PACKET_FLAG (mk_PacketHeader chid (pcode_of p) 0)
              (encode_of p) output with
      | Some (_, _, output) => send_all ps' output
      | None => None
      end
  end.

(** A packet as a frame, and what arrives for it: the packet the receiver
    decodes, with the channel, code and length it was sent with. *)
Definition wire_frame (cp : Z * packet) : frame := mk_frame cp.1 (pcode_of cp.2) (wire_of cp.2).
Definition arrival (cp : Z * packet) : delivery :=
  Some (frame_header (wire_frame cp), received_of cp.2).

(** A packet the server can read: a channel id, fields in range, and at most
    64 MB; and one it can send. *)
Definition readable (cp : Z * packet) : Prop :=
  in_u 32 cp.1 /\ reads_of cp.2 /\ Z.of_nat (length (wire_of cp.2)) <= MAX_DATA_LEN.
Definition sendable (cp : Z * packet) : Prop := sends_of cp.2.

Lemma readable_frame cp : readable cp -> frame_ok (wire_frame cp).
Proof. intros (Hch & _ & Hsz). split; [done|]. split; [apply create_open|done]. Qed.

Lemma readable_delivers other cp :
  readable cp -> delivers (createPacket other) (wire_frame cp) (arrival cp).
Proof.
  intros (_ & Hr & _). destruct (parses_packet cp.2 Hr) as (ob & E & Hp).
  unfold delivers, createPacket. cbn [f_pcode f_body wire_frame]. rewrite E. by eexists.
Qed.

Lemma send_all_spec ps output :
  Forall sendable ps -> wf output ->
  exists output', send_all ps output = Some output' /\ wf output'
    /\ content output' = content output ++ stream_bytes (map wire_frame ps).
Proof.
  intros Hps. revert output. induction Hps as [|[ch p] ps Hs Hps IH]; intros output Hwf.
  { exists output. by rewrite app_nil_r. }
  cbn [send_all]. destruct (emits_packet p Hs) as (w & -> & Hw).
  destruct (streamer_encode_spec (mk_PacketHeader ch (pcode_of p) 0) w (wire_of p) output Hw Hwf)
    as (b1 & -> & Hwf1 & Hc1).
  destruct (IH b1 Hwf1) as (b2 & -> & Hwf2 & Hc2).
  exists b2. split; [done|]. split; [done|]. by rewrite Hc2, Hc1, <- app_assoc.
Qed.

(** ** Properties *)

(** C15: whatever bytes arrive and however they are cut, every packet handed to
    the server is of the type its header's code stands for: the factory's switch
    and the constructors agree, so that the server may downcast by the code. *)
Theorem deliveries_are_typed other fuel calls c flight ok c' flight' out :
  serve (createPacket other) fuel calls c flight = Done (ok, c', flight', out) ->
  Forall well_typed out.
Proof. apply serve_all, handlePacket_typed. Qed.

(** C17: packets arrive.  Let the packets of a stream be readable, whoever sent
    them (those the server itself can send, it writes as these bytes).  Received
    through any sequence of [readData] calls, whatever part of the bytes each
    read finds, they are delivered in order, each at most once, with the
    connection kept open, no assertion hit and the loops terminating; once all
    bytes have arrived every packet has been delivered, and [length bytes] calls
    that find data are enough for that. *)
Theorem stream_end_to_end other ps calls :
  Forall readable ps -> Forall (Forall is_avail) calls ->
  let bytes := stream_bytes (map wire_frame ps) in
  (Forall sendable ps ->
     exists output, send_all ps new_databuffer = Some output /\ content output = bytes)
  /\ forall fuel, (length bytes + 1 < fuel)%nat ->
     exists c flight out,
       serve (createPacket other) fuel calls new_connection bytes = Done (true, c, flight, out)
       /\ out `prefix_of` map arrival ps
       /\ (flight = [] -> out = map arrival ps)
       /\ (Forall ready calls -> (length bytes <= length calls)%nat -> flight = []).
Proof.
  intros Hps Hcalls bytes. split.
  - intros Hs. destruct (send_all_spec ps new_databuffer Hs) as (output & E & _ & Hc); [by split|].
    by exists output.
  - intros fuel Hfuel. apply serve_stream; [done| | |done].
    + apply Forall_map. eapply list.Forall_impl; [exact Hps|]. apply readable_frame.
    + clear -Hps. induction Hps; constructor; [by apply readable_delivers|done].
Qed.

(** A put, a get of the same key, and the length of a hash, which only other
    clients ask for. *)
Definition sample_packets : list (Z * packet) :=
  [(7, General (REQ_PUT (mk_request_put 0 5 1 0 (-1) (data_entry_of [107; 49]) (data_entry_of [118]))));
   (8, General (REQ_GET (mk_request_get 0 5 1 (Some (data_entry_of [107; 49])) None)));
   (9, Hash (REQ_HLEN (mk_request_hlen 0 5 (data_entry_of [104]))))].

Lemma stream_end_to_end_witness :
  Forall readable sample_packets /\
  exists c flight out,
    serve (createPacket (fun _ => None)) 300 [[Avail 20; Avail 30]; [Avail 500]]
      new_connection (stream_bytes (map wire_frame sample_packets)) = Done (true, c, flight, out)
    /\ (flight = [] -> out = map arrival sample_packets).
Proof.
  assert (Forall readable sample_packets) as Hs.
  { assert (forall cp, in_u 32 cp.1 -> reads_of cp.2 -> (Z.of_nat (length (wire_of cp.2)) <=? MAX_DATA_LEN) = true ->
                       readable cp) as Hr by (intros; split; [|split]; [done..|by apply Z.leb_le]).
    repeat apply Forall_cons_2; try apply Forall_nil_2; apply Hr;
      first [vm_compute; reflexivity | by_decide | idtac].
    all: hnf; repeat split; by_decide. }
  split; [exact Hs|].
  destruct (stream_end_to_end (fun _ => None) sample_packets [[Avail 20; Avail 30]; [Avail 500]])
    as [_ H]; [exact Hs|repeat constructor|].
  destruct (H 300%nat) as (c & flight & out & E' & _ & H' & _); [vm_compute; lia|].
  exists c, flight, out. split; [exact E'|exact H'].
Defined.

(** A failed encode leaves no trace: when a packet's encode returns false
    after having written anything, the streamer takes back the header and
    those bytes, so the stream is what it was. *)
Theorem encode_failure_restores h w l b :
  emits w l -> wf b ->
  exists b', streamer_encode true TAIR_PACKET_FLAG h (fun o => Some (false, w o)) b
             = Some (false, h, b') /\ wf b' /\ content b' = content b.
Proof. apply streamer_encode_failure. Qed.

Lemma encode_failure_restores_witness :
  exists b', streamer_encode true TAIR_PACKET_FLAG (mk_PacketHeader 1 2230 0)
               (fun o => Some (false, writeInt32 9 o)) (writeInt8 3 new_databuffer)
             = Some (false, mk_PacketHeader 1 2230 0, b')
    /\ wf b' /\ content b' = content (writeInt8 3 new_databuffer).
Proof.
  apply (encode_failure_restores (mk_PacketHeader 1 2230 0) (writeInt32 9) (be_split 4 9)).
  - apply emits_writeInt32.
  - apply emits_writeInt8. split; reflexivity.
Defined.

(** *** A packet that is read for ever *)

(** A [response_return] whose string length is -28: [readString] moves
    [_pdata] back to the first byte of the packet's header. *)
Definition rewinding_frame : frame :=
  mk_frame 1 101 (be_split 4 0 ++ be_split 4 0 ++ be_split 4 (-28)).

Definition rewinding_buffer : databuffer :=
  store (frame_bytes rewinding_frame) (ensureFree READ_WRITE_SIZE new_databuffer).

Lemma rewinding_loop other fuel h :
  packet_loop (createPacket other) fuel (mk_connection rewinding_buffer false h) = NoFuel.
Proof.
  revert h. induction fuel as [|fuel IH]; intros h; [done|]. cbn [packet_loop c_gotHeader c_input].
  set (b1 := advance 16 rewinding_buffer).
  assert (forall h', getPacketInfo true TAIR_PACKET_FLAG h' rewinding_buffer
                     = Got (true, false, frame_header rewinding_frame) b1) as ->
    by (intros; vm_compute; reflexivity).
  assert (handlePacket (createPacket other) (frame_header rewinding_frame) b1
          = Got (Some (frame_header rewinding_frame, General (RESP_RETURN (mk_response_return 0 0 []))))
              rewinding_buffer) as -> by (vm_compute; reflexivity).
  assert (true && (dataLen (frame_header rewinding_frame) <=? Z.of_nat (getDataLen b1)) = true)
    as -> by (vm_compute; reflexivity).
  by rewrite IH.
Qed.

(** C18: a received [response_return] with a negative string length is handled
    again and again: however long the loop runs it has not finished, although
    the peer sent 28 bytes only. *)
Theorem negative_string_never_ends other fuel :
  readData (createPacket other) fuel [Avail 28] new_connection (frame_bytes rewinding_frame) = NoFuel.
Proof.
  unfold readData. cbn [read_loop c_input c_gotHeader c_packetHeader new_connection].
  assert (Nat.min 28 (getFreeLen (ensureFree READ_WRITE_SIZE new_databuffer)) = 28%nat) as ->
    by (vm_compute; reflexivity).
  change (take 28 (frame_bytes rewinding_frame)) with (frame_bytes rewinding_frame).
  assert (pourData (length (frame_bytes rewinding_frame))
            (recv_into (frame_bytes rewinding_frame) (ensureFree READ_WRITE_SIZE new_databuffer))
          = Ret rewinding_buffer) as -> by (vm_compute; reflexivity).
  by rewrite rewinding_loop.
Qed.

(** *** A packet that breaks the stream *)

(** A request to dump an area is written as four bytes and read as three. *)
Definition dump_request (ch area : Z) : frame :=
  wire_frame (ch, General (REQ_DUMP_AREA (mk_request_dump_area 0 area))).

(** What the server takes it for. *)
Definition misread_dump (area : Z) : packet :=
  General (REQ_DUMP_AREA (mk_request_dump_area (u8 (Z.shiftr area 24)) (u16 (Z.shiftr area 8)))).

Lemma parses_misread_dump other ch area :
  parses (handlePacket (createPacket other) (frame_header (dump_request ch area)))
    ([u8 (Z.shiftr area 24)] ++ be_split 2 (Z.shiftr area 8))
    (Some (frame_header (dump_request ch area), misread_dump area)).
Proof.
  intros b rest Hwf Hc.
  destruct (parses_HEADER_VERIFY 4 (Z.shiftr area 24) (Z.shiftr area 8)) with (b := b) (rest := rest)
    as (b' & E & Hb'); [lia|done..|].
  exists b'. split; [|done]. unfold handlePacket, streamer_decode, rbind.
  change (createPacket other (pcode (frame_header (dump_request ch area))))
    with (Some (decode_into (F := packet) (lift_object General (mk_object REQ_DUMP_AREA)))).
  change (dataLen (frame_header (dump_request ch area))) with 4.
  unfold decode_into, rmap, rbind. cbn [c_decode codec_request_dump_area ob_codec lift_object ob_type].
  unfold request_dump_area_decode, rbind. rewrite E. done.
Qed.

(** A header whose first four bytes are not the flag breaks the stream. *)
Lemma wrong_flag_breaks h l rest b :
  length l = 4%nat -> s32 (be_combine_acc 0 l) <> TAIR_PACKET_FLAG -> (12 <= length rest)%nat ->
  wf b -> content b = l ++ rest ->
  exists h' b', getPacketInfo true TAIR_PACKET_FLAG h b = Got (true, true, h') b'.
Proof.
  intros Hl Hflag Hr Hwf Hc. unfold getPacketInfo.
  rewrite (too_few_false 16 b (l ++ rest) [] Hwf) by (rewrite ?app_nil_r, ?length_app; first [done|lia]).
  rewrite <- (take_drop 4 rest), <- (take_drop 4 (drop 4 rest)), <- (take_drop 4 (drop 4 (drop 4 rest))) in Hc.
  rewrite !app_assoc in Hc. rewrite <- !app_assoc in Hc.
  set (l1 := take 4 rest) in *. set (l2 := take 4 (drop 4 rest)) in *.
  set (l3 := take 4 (drop 4 (drop 4 rest))) in *.
  assert (length l1 = 4 /\ length l2 = 4 /\ length l3 = 4)%nat as (H1 & H2 & H3)
    by (subst l1 l2 l3; rewrite !length_take, !length_drop; lia).
  pose proof (fun l' H => parses_raw 4 Asserted l' H) as Hraw.
  match goal with |- exists h' b', ?p b = _ =>
    assert (exists h', parses p (l ++ l1 ++ l2 ++ l3 ++ []) (true, true, h')) as (h' & Hp) end.
  { eexists. eapply parses_bind; [exact (Hraw l Hl)|]. eapply parses_bind; [exact (Hraw l1 H1)|].
    eapply parses_bind; [exact (Hraw l2 H2)|]. eapply parses_bind; [exact (Hraw l3 H3)|].
    cbv zeta. rewrite (proj2 (Z.eqb_neq _ _) Hflag). apply parses_ret. }
  rewrite app_nil_r in Hp.
  destruct (Hp b (drop 4 (drop 4 (drop 4 rest))) Hwf) as (b' & E & _).
  - rewrite <- !app_assoc. exact Hc.
  - by exists h', b'.
Qed.

Lemma be_split_flag : be_split 4 TAIR_PACKET_FLAG = [0x6D; 0x42; 0x64; 0x54].
Proof. by vm_compute. Qed.

Lemma shifted_flag a :
  s32 (be_combine_acc 0 [u8 a; 0x6D; 0x42; 0x64]) <> TAIR_PACKET_FLAG.
Proof.
  pose proof (wrap_bound 8 a ltac:(lia)) as Ha. unfold in_u in Ha.
  cbn [be_combine_acc]. rewrite !shiftl_lor_u8 by (unfold byte, in_u; lia).
  unfold swrap, TAIR_PACKET_FLAG. intros E.
  match type of E with (?x mod ?m) - _ = _ => pose proof (Z.div_mod x m ltac:(lia)) end. lia.
Qed.

Lemma be_split_tail a :
  be_split 4 a = [u8 (Z.shiftr a 24)] ++ be_split 2 (Z.shiftr a 8) ++ [u8 a].
Proof. cbn [be_split app]. rewrite !Z.shiftr_shiftr, Z.shiftr_0_r by lia. done. Qed.

(** a request to dump an area breaks the connection it is sent on.  Its
    encode writes the area as four bytes, its decode reads a flag and a two-byte
    area, so the server dumps another area (the request's bits 8 to 23), the
    last byte stays in the stream, and whatever packet follows, the loop then
    finds no packet flag and [readData] closes the connection. *)
Theorem dump_request_breaks_the_stream other ch area f rest fuel b h :
  in_u 32 ch -> frame_ok f -> wf b ->
  content b = frame_bytes (dump_request ch area) ++ frame_bytes f ++ rest ->
  exists c, packet_loop (createPacket other) (S (S fuel)) (mk_connection b false h)
    = Done (true, c, [Some (frame_header (dump_request ch area), misread_dump area)]).
Proof.
  intros Hch Hf Hwf Hc. cbn [packet_loop c_gotHeader c_input c_packetHeader].
  unfold frame_bytes at 1 in Hc. rewrite <- app_assoc in Hc.
  destruct (parses_header (dump_request ch area) h) with (b := b)
    (rest := f_body (dump_request ch area) ++ frame_bytes f ++ rest)
    as (b1 & -> & Hwf1 & Hc1); [by split; [|split]|done|exact Hc|].
  change (f_body (dump_request ch area)) with (be_split 4 area) in Hc1.
  rewrite getDataLen_content, Hc1, length_app, length_be_split by done.
  change (dataLen (frame_header (dump_request ch area))) with 4.
  rewrite (proj2 (Z.leb_le 4 _)) by lia. cbn [andb].
  rewrite be_split_tail, <- !app_assoc in Hc1.
  destruct (parses_misread_dump other ch area) with (b := b1) (rest := [u8 area] ++ frame_bytes f ++ rest)
    as (b2 & -> & Hwf2 & Hc2); [done|by rewrite <- !app_assoc|].
  unfold frame_bytes, head_bytes in Hc2. rewrite be_split_flag, <- !app_assoc in Hc2.
  destruct (wrong_flag_breaks (mk_PacketHeader (chid (frame_header (dump_request ch area)))
                (pcode (frame_header (dump_request ch area))) 0)
              [u8 area; 0x6D; 0x42; 0x64]
              ([0x54] ++ be_split 4 (f_chid f) ++ be_split 4 (f_pcode f)
               ++ be_split 4 (Z.of_nat (length (f_body f))) ++ f_body f ++ rest) b2)
    as (h' & b' & ->); [done|apply shifted_flag| |done|exact Hc2|by eexists].
  rewrite !length_app, !length_be_split. simpl. lia.
Qed.

(** The dump of area 1 followed by a ping. *)
Lemma dump_request_breaks_the_stream_witness :
  exists c, packet_loop (createPacket (fun _ => None)) 2
      (mk_connection (writeBytes (frame_bytes (dump_request 1 1)
                                  ++ frame_bytes (wire_frame (2, General (REQ_PING (mk_request_ping 0 0)))))
                        new_databuffer) false (mk_PacketHeader 0 0 0))
    = Done (true, c, [Some (frame_header (dump_request 1 1), misread_dump 1)]).
Proof.
  apply (dump_request_breaks_the_stream (fun _ => None) 1 1
           (wire_frame (2, General (REQ_PING (mk_request_ping 0 0)))) [] 0 _ _).
  - by_decide.
  - split; [by_decide|]. split; by_decide.
  - by apply emits_writeBytes.
  - rewrite app_nil_r. vm_compute. reflexivity.
Defined.

(** A ping and a dump request in two pieces: two deliveries. *)
Lemma deliveries_are_typed_witness :
  match serve (createPacket (fun _ => None)) 60 [[Avail 20]; [Avail 60]] new_connection
          (frame_bytes (wire_frame (2, General (REQ_PING (mk_request_ping 0 0))))
           ++ frame_bytes (dump_request 1 1)) with
  | Done (_, _, _, out) => length out = 2%nat /\ Forall well_typed out
  | _ => False
  end.
Proof.
  assert (match serve (createPacket (fun _ => None)) 60 [[Avail 20]; [Avail 60]] new_connection
                  (frame_bytes (wire_frame (2, General (REQ_PING (mk_request_ping 0 0))))
                   ++ frame_bytes (dump_request 1 1)) with
          | Done (_, _, _, out) => length out
          | _ => 0%nat
          end = 2%nat) as Hlen by (vm_compute; reflexivity).
  destruct (serve _ _ _ _ _) as [[[[ok c] flight] out]| |] eqn:E; [|discriminate Hlen..].
  split; [exact Hlen|]. exact (deliveries_are_typed _ _ _ _ _ _ _ _ _ E).
Defined.
