(* ===== verification/MemPool.v ===== *)
(** * mem_pool (storage/mdb/mem_pool.cpp, mem_pool.hpp)

    The page allocator of the memory engine: a bitmap of pages in shared
    memory, scanned round robin.  The state is [mem_pool_impl]; addresses are
    numbers.  The scan of [alloc_page] is a loop without a bound in the code:
    its model has [total_pages + 1] turns, which is enough whenever a page is
    free. *)

From S2P Require Import Prelude.

Definition MAX_PAGES_NO : Z := 65536.
Definition BITMAP_SIZE : Z := (MAX_PAGES_NO + 7) / 8.
Definition MEM_POOL_METADATA_LEN : Z := 524288.

(** ** Bitmaps: [TEST_BIT], [SET_BIT], [CLEAR_BIT] *)

Definition TEST_BIT (bitmap : list Z) (x : Z) : outcome Z :=
  match bitmap !! Z.to_nat (x / 8) with
  | Some b => Ret (Z.land (Z.shiftr b (x mod 8)) 1)
  | None => Overrun
  end.

Definition SET_BIT (bitmap : list Z) (x : Z) : outcome (list Z) :=
  match bitmap !! Z.to_nat (x / 8) with
  | Some b => Ret (<[Z.to_nat (x / 8) := u8 (Z.lor b (Z.shiftl 1 (x mod 8)))]> bitmap)
  | None => Overrun
  end.

Definition CLEAR_BIT (bitmap : list Z) (x : Z) : outcome (list Z) :=
  match bitmap !! Z.to_nat (x / 8) with
  | Some b => Ret (<[Z.to_nat (x / 8) := u8 (Z.land b (Z.lnot (Z.shiftl 1 (x mod 8))))]> bitmap)
  | None => Overrun
  end.

(** ** State and operations *)

Record mem_pool := mk_mem_pool {
  inited : Z; page_size : Z; total_pages : Z; free_pages : Z; current_page : Z;
  page_bitmap : list Z; pool : Z
}.

(** [for(int i = 0; i < meta_pages; ++i) SET_BIT(page_bitmap, i);] *)
Fixpoint set_bits (n : nat) (i : Z) (bitmap : list Z) : outcome (list Z) :=
  match n with
  | O => Ret bitmap
  | S n' => let! bitmap := SET_BIT bitmap i in set_bits n' (i + 1) bitmap
  end.

(** [mem_pool::initialize] and [mem_pool_impl::initialize] on the bytes found in
    shared memory (a pool that was initialised before is taken over). *)
Definition mem_pool_initialize (tpool this_page_size this_total_pages meta_len : Z)
    (found : mem_pool) : outcome mem_pool :=
  assert! negb (tpool =? 0) in
  assert! 2 ^ 20 <=? this_page_size in
  assert! 0 <? this_total_pages in
  if inited found =? 1 then
    Ret (mk_mem_pool (inited found) (page_size found) (total_pages found) (free_pages found)
           (current_page found) (page_bitmap found) tpool)
  else
    let meta_pages := (meta_len + this_page_size - 1) / this_page_size in
    let! bitmap := set_bits (Z.to_nat meta_pages) 0 (replicate (Z.to_nat BITMAP_SIZE) 0) in
    let free := this_total_pages - meta_pages in
    assert! 0 <? free in
    Ret (mk_mem_pool 1 this_page_size this_total_pages free meta_pages bitmap tpool).

Definition index_to_page (p : mem_pool) (index : Z) : outcome Z :=
  assert! (0 <? index) && (index <? total_pages p) in
  Ret (u64 (pool p + u64 (index * page_size p))).

Definition page_to_index (p : mem_pool) (page : Z) : outcome Z :=
  assert! negb (page =? 0) in
  Ret (u64 (page - pool p) / page_size p).

(** The [for(;; ++current_page)] loop: the page found and [current_page] after. *)
Fixpoint find_page (fuel : nat) (bitmap : list Z) (total current : Z) : outcome (Z * Z) :=
  match fuel with
  | O => Diverge
  | S fuel' =>
      let current := if current =? total then 0 else current in
      let! bit := TEST_BIT bitmap current in
      if bit =? 0 then Ret (current, current + 1)
      else find_page fuel' bitmap total (current + 1)
  end.

(** [alloc_page(index)]: [None] when no page is free, otherwise the index and
    the address. *)
Definition alloc_page (p : mem_pool) : outcome (option (Z * Z) * mem_pool) :=
  assert! inited p =? 1 in
  if free_pages p =? 0 then Ret (None, p)
  else
    let! (index, current) :=
      find_page (S (Z.to_nat (total_pages p))) (page_bitmap p) (total_pages p) (current_page p) in
    let! bitmap := SET_BIT (page_bitmap p) index in
    let p := mk_mem_pool (inited p) (page_size p) (total_pages p) (free_pages p - 1) current
               bitmap (pool p) in
    let! page := index_to_page p index in
    Ret (Some (index, page), p).

(** [free_page(int index)] *)
Definition free_page (p : mem_pool) (index : Z) : outcome mem_pool :=
  assert! (0 <? index) && (index <? total_pages p) in
  let! bit := TEST_BIT (page_bitmap p) index in
  if bit =? 0 then Ret p
  else
    let! bitmap := CLEAR_BIT (page_bitmap p) index in
    Ret (mk_mem_pool (inited p) (page_size p) (total_pages p) (free_pages p + 1)
           (current_page p) bitmap (pool p)).

(** [free_page(const char* page)] *)
Definition free_page_addr (p : mem_pool) (page : Z) : outcome mem_pool :=
  assert! negb (page =? 0) in
  let! index := page_to_index p page in
  free_page p index.

(** ** Bits *)

(** The bit of page [i]. *)
Definition used (bitmap : list Z) (i : Z) : bool :=
  Z.testbit (bitmap !!! Z.to_nat (i / 8)) (i mod 8).

Definition in_bitmap (bitmap : list Z) (i : Z) : Prop :=
  0 <= i < 8 * Z.of_nat (length bitmap).

Lemma in_bitmap_lookup bitmap i :
  in_bitmap bitmap i ->
  bitmap !! Z.to_nat (i / 8) = Some (bitmap !!! Z.to_nat (i / 8))
  /\ 0 <= i / 8 < Z.of_nat (length bitmap) /\ 0 <= i mod 8 < 8.
Proof.
  intros Hi. unfold in_bitmap in Hi. pose proof (Z.div_mod i 8).
  pose proof (Z.mod_pos_bound i 8). split; [|lia]. apply list_lookup_lookup_total_lt. lia.
Qed.

Lemma TEST_BIT_used bitmap i :
  in_bitmap bitmap i -> TEST_BIT bitmap i = Ret (Z.b2z (used bitmap i)).
Proof.
  intros Hi. destruct (in_bitmap_lookup bitmap i Hi) as (Hl & _ & Hm).
  unfold TEST_BIT, used. rewrite Hl. f_equal.
  change 1 with (Z.ones 1). rewrite Z.land_ones by lia. change (2 ^ 1) with 2.
  by rewrite <- Z.bit0_mod, Z.shiftr_spec, Z.add_0_l by lia.
Qed.

(** Writing one byte changes only the bit that is meant to change. *)
Lemma used_update bitmap i j f (v : bool) :
  in_bitmap bitmap i -> in_bitmap bitmap j ->
  (forall k, 0 <= k < 8 -> Z.testbit (f (bitmap !!! Z.to_nat (i / 8))) k
     = if k =? i mod 8 then v else Z.testbit (bitmap !!! Z.to_nat (i / 8)) k) ->
  used (<[Z.to_nat (i / 8) := f (bitmap !!! Z.to_nat (i / 8))]> bitmap) j
  = if j =? i then v else used bitmap j.
Proof.
  intros Hi Hj Hf. destruct (in_bitmap_lookup _ _ Hi) as (_ & Hi8 & Him).
  destruct (in_bitmap_lookup _ _ Hj) as (_ & Hj8 & Hjm). unfold used.
  destruct (decide (j / 8 = i / 8)) as [E|E].
  - rewrite E, list_lookup_total_insert_eq, Hf by lia.
    pose proof (Z.div_mod i 8). pose proof (Z.div_mod j 8).
    destruct (Z.eqb_spec (j mod 8) (i mod 8)), (Z.eqb_spec j i); subst; lia || done.
  - rewrite list_lookup_total_insert_ne by lia. destruct (Z.eqb_spec j i); [congruence|done].
Qed.

Lemma testbit_u8 z k : 0 <= k < 8 -> Z.testbit (u8 z) k = Z.testbit z k.
Proof. intros. unfold wrap. apply Z.mod_pow2_bits_low; lia. Qed.

Lemma testbit_one s k : 0 <= s -> Z.testbit (Z.shiftl 1 s) k = (k =? s).
Proof.
  intros Hs. rewrite Z.shiftl_1_l. destruct (Z.eqb_spec k s) as [->|Hne].
  - by apply Z.pow2_bits_true.
  - apply Z.pow2_bits_false. lia.
Qed.

(** [SET_BIT] and [CLEAR_BIT] on a page of the bitmap. *)
Definition bit_set (bitmap bitmap' : list Z) (i : Z) (v : bool) : Prop :=
  length bitmap' = length bitmap
  /\ forall j, in_bitmap bitmap j -> used bitmap' j = if j =? i then v else used bitmap j.

Lemma SET_BIT_spec bitmap i :
  in_bitmap bitmap i -> exists bitmap', SET_BIT bitmap i = Ret bitmap' /\ bit_set bitmap bitmap' i true.
Proof.
  intros Hi. destruct (in_bitmap_lookup _ _ Hi) as (Hl & _ & Hm). unfold SET_BIT. rewrite Hl.
  eexists. split; [reflexivity|]. split; [apply length_insert|]. intros j Hj.
  apply (used_update bitmap i j (fun b => u8 (Z.lor b (Z.shiftl 1 (i mod 8)))) true Hi Hj).
  intros k Hk. rewrite testbit_u8, Z.lor_spec, testbit_one by lia.
  destruct (k =? i mod 8); [apply orb_true_r|apply orb_false_r].
Qed.

Lemma CLEAR_BIT_spec bitmap i :
  in_bitmap bitmap i -> exists bitmap', CLEAR_BIT bitmap i = Ret bitmap' /\ bit_set bitmap bitmap' i false.
Proof.
  intros Hi. destruct (in_bitmap_lookup _ _ Hi) as (Hl & _ & Hm). unfold CLEAR_BIT. rewrite Hl.
  eexists. split; [reflexivity|]. split; [apply length_insert|]. intros j Hj.
  apply (used_update bitmap i j (fun b => u8 (Z.land b (Z.lnot (Z.shiftl 1 (i mod 8))))) false Hi Hj).
  intros k Hk. rewrite testbit_u8, Z.land_spec, Z.lnot_spec, testbit_one by lia.
  destruct (k =? i mod 8); [apply andb_false_r|apply andb_true_r].
Qed.

(** ** The invariant *)

Definition unused (bitmap : list Z) (i : Z) : bool := negb (used bitmap i).

Record pool_wf (p : mem_pool) : Prop := {
  wf_inited : inited p = 1;
  wf_total : 0 < total_pages p <= 8 * Z.of_nat (length (page_bitmap p));
  wf_current : 0 <= current_page p <= total_pages p;
  wf_free : free_pages p = count (unused (page_bitmap p)) (Z.to_nat (total_pages p));
  wf_page0 : used (page_bitmap p) 0 = true;
  wf_size : 0 < page_size p;
  wf_addr : 0 < pool p /\ pool p + total_pages p * page_size p <= 2 ^ 64
}.

Lemma wf_in_bitmap p i : pool_wf p -> 0 <= i < total_pages p -> in_bitmap (page_bitmap p) i.
Proof. intros Hwf Hi. pose proof (wf_total p Hwf). unfold in_bitmap. lia. Qed.

(** The scan finds a free page when there is one. *)
Lemma find_page_from bitmap total d current target :
  0 <= current -> current + Z.of_nat d = target -> target < total ->
  (forall i, 0 <= i < total -> in_bitmap bitmap i) ->
  used bitmap target = false ->
  forall fuel, (d < fuel)%nat ->
  exists i, find_page fuel bitmap total current = Ret (i, i + 1)
    /\ current <= i <= target /\ used bitmap i = false.
Proof.
  revert current. induction d as [|d IH]; intros current Hc Ht Hlt Hin Hu fuel Hf;
    (destruct fuel as [|fuel]; [lia|]); cbn [find_page];
    (destruct (Z.eqb_spec current total); [lia|]);
    rewrite TEST_BIT_used by (apply Hin; lia); cbn [obind].
  - replace current with target by lia. rewrite Hu. exists target. repeat split; try done; lia.
  - destruct (used bitmap current) eqn:E; cbn [Z.b2z Z.eqb].
    + destruct (IH (current + 1)) with (fuel := fuel) as (i & Ei & Hi & Hui); try done; try lia.
      exists i. repeat split; try done; lia.
    + exists current. repeat split; try done; lia.
Qed.

(** Up to the end of the pool: a free page is found, or all are used and the
    scan goes on from page 0. *)
Lemma find_page_to_end bitmap total d current fuel :
  0 <= current -> current + Z.of_nat d = total -> 0 < total ->
  (forall i, 0 <= i < total -> in_bitmap bitmap i) -> (d <= fuel)%nat ->
  (exists i, find_page fuel bitmap total current = Ret (i, i + 1)
     /\ current <= i < total /\ used bitmap i = false)
  \/ find_page fuel bitmap total current = find_page (fuel - d) bitmap total 0.
Proof.
  revert current fuel. induction d as [|d IH]; intros current fuel Hc Hd Ht Hin Hf.
  { right. rewrite Nat.sub_0_r. destruct fuel; [done|]. cbn [find_page].
    destruct (Z.eqb_spec current total); [|lia]. by destruct (Z.eqb_spec 0 total); [lia|]. }
  destruct fuel as [|fuel]; [lia|]. cbn [find_page].
  destruct (Z.eqb_spec current total); [lia|]. rewrite TEST_BIT_used by (apply Hin; lia).
  cbn [obind]. destruct (used bitmap current) eqn:E; cbn [Z.b2z Z.eqb].
  - destruct (IH (current + 1) fuel) as [(i & Ei & Hi & Hu)|Ei]; try lia; try done.
    + left. exists i. repeat split; try done; lia.
    + right. by rewrite Ei.
  - left. exists current. repeat split; try done; lia.
Qed.

Lemma find_page_spec p :
  pool_wf p -> 0 < free_pages p ->
  exists i, find_page (S (Z.to_nat (total_pages p))) (page_bitmap p) (total_pages p) (current_page p)
            = Ret (i, i + 1)
    /\ 0 < i < total_pages p /\ used (page_bitmap p) i = false.
Proof.
  intros Hwf Hfree. pose proof (wf_total p Hwf) as Ht. pose proof (wf_current p Hwf) as Hc.
  rewrite (wf_free p Hwf) in Hfree. destruct (count_pos _ _ Hfree) as (t & Ht' & Hu).
  apply negb_true_iff in Hu.
  assert (forall i, 0 <= i < total_pages p -> used (page_bitmap p) i = false -> 0 < i) as H0.
  { intros i Hi Hui. destruct (decide (i = 0)) as [->|]; [|lia].
    rewrite (wf_page0 p Hwf) in Hui. done. }
  assert (forall i, 0 <= i < total_pages p -> in_bitmap (page_bitmap p) i) as Hin
    by (intros; by apply wf_in_bitmap).
  destruct (find_page_to_end (page_bitmap p) (total_pages p)
              (Z.to_nat (total_pages p - current_page p)) (current_page p)
              (S (Z.to_nat (total_pages p)))) as [(i & -> & Hi & Hui)|E]; try lia; try done.
  { exists i. split; [done|]. split; [|done]. split; [apply H0; [lia|done]|lia]. }
  destruct (decide (t < current_page p)).
  - rewrite E.
    destruct (find_page_from (page_bitmap p) (total_pages p) (Z.to_nat t) 0 t)
      with (fuel := (S (Z.to_nat (total_pages p)) - Z.to_nat (total_pages p - current_page p))%nat)
      as (i & -> & Hi & Hui); try lia; try done.
    exists i. split; [done|]. split; [|done]. split; [apply H0; [lia|done]|lia].
  - destruct (find_page_from (page_bitmap p) (total_pages p) (Z.to_nat (t - current_page p))
                (current_page p) t) with (fuel := S (Z.to_nat (total_pages p)))
      as (i & -> & Hi & Hui); try lia; try done.
    exists i. split; [done|]. split; [|done]. split; [apply H0; [lia|done]|lia].
Qed.

(** Addresses and indices of pages correspond. *)
Lemma page_address p i :
  pool_wf p -> 0 < i < total_pages p ->
  index_to_page p i = Ret (pool p + i * page_size p)
  /\ 0 < pool p + i * page_size p < 2 ^ 64.
Proof.
  intros Hwf Hi. destruct (wf_addr p Hwf) as [Ha Hb]. pose proof (wf_size p Hwf).
  assert (i * page_size p < total_pages p * page_size p) by nia.
  assert (0 < i * page_size p) by nia.
  unfold index_to_page. split; [|lia].
  destruct (Z.ltb_spec 0 i), (Z.ltb_spec i (total_pages p)); try lia. cbn [andb oassert].
  rewrite (wrap_id 64 (i * page_size p)) by (unfold in_u; lia).
  by rewrite wrap_id by (unfold in_u; lia).
Qed.

(** ** What the operations do *)

(** The pool with one bit changed is well formed when the counter follows. *)
Lemma pool_wf_bit p bitmap i v current :
  pool_wf p -> 0 < i < total_pages p -> bit_set (page_bitmap p) bitmap i v ->
  0 <= current <= total_pages p ->
  pool_wf (mk_mem_pool (inited p) (page_size p) (total_pages p)
             (free_pages p + Z.b2z (used (page_bitmap p) i) - Z.b2z v) current bitmap (pool p)).
Proof.
  intros Hwf Hi [Hlen Hbits] Hcur. pose proof (wf_total p Hwf) as Ht.
  constructor; cbn [inited page_size total_pages free_pages current_page page_bitmap pool].
  - apply Hwf.
  - by rewrite Hlen.
  - done.
  - rewrite (count_ext (unused bitmap) (fun j => if j =? i then negb v else unused (page_bitmap p) j)).
    2: { intros j Hj. unfold unused. rewrite Hbits by (apply wf_in_bitmap; [done|lia]).
         by destruct (j =? i). }
    rewrite (count_update (unused (page_bitmap p)) _ _ i).
    + rewrite Z.eqb_refl, <- (wf_free p Hwf). unfold unused.
      destruct v, (used (page_bitmap p) i); simpl; lia.
    + lia.
    + intros j Hj. by destruct (Z.eqb_spec j i).
  - rewrite Hbits by (apply wf_in_bitmap; [done|lia]).
    destruct (Z.eqb_spec 0 i); [lia|]. apply Hwf.
  - apply Hwf.
  - apply Hwf.
Qed.

(** [alloc_page] on a well formed pool. *)
Lemma alloc_page_spec p :
  pool_wf p ->
  (free_pages p = 0 /\ alloc_page p = Ret (None, p))
  \/ exists i p', alloc_page p = Ret (Some (i, pool p + i * page_size p), p')
       /\ 0 < i < total_pages p /\ used (page_bitmap p) i = false
       /\ pool_wf p' /\ bit_set (page_bitmap p) (page_bitmap p') i true
       /\ total_pages p' = total_pages p /\ page_size p' = page_size p /\ pool p' = pool p
       /\ free_pages p' = free_pages p - 1.
Proof.
  intros Hwf. unfold alloc_page. rewrite (wf_inited p Hwf). cbn [Z.eqb Pos.eqb oassert].
  pose proof (count_bounds (unused (page_bitmap p)) (Z.to_nat (total_pages p))) as Hb.
  rewrite <- (wf_free p Hwf) in Hb.
  destruct (Z.eqb_spec (free_pages p) 0) as [E|E]; [by left|right].
  destruct (find_page_spec p Hwf) as (i & -> & Hi & Hu); [lia|]. cbn [obind].
  destruct (SET_BIT_spec (page_bitmap p) i) as (bitmap & -> & Hbs); [apply wf_in_bitmap; [done|lia]|].
  cbn [obind].
  pose proof (pool_wf_bit p bitmap i true (i + 1) Hwf Hi Hbs ltac:(lia)) as Hwf'.
  rewrite Hu, (wf_inited p Hwf) in Hwf'. cbn [Z.b2z] in Hwf'. rewrite Z.add_0_r in Hwf'.
  destruct (page_address _ i Hwf' ltac:(cbn; lia)) as [-> _]. cbn [obind pool page_size].
  eexists i, _. split; [reflexivity|]. by repeat (split; [done|]).
Qed.

Lemma free_page_spec p i :
  pool_wf p -> 0 < i < total_pages p ->
  exists p', free_page p i = Ret p' /\ pool_wf p'
    /\ bit_set (page_bitmap p) (page_bitmap p') i false
    /\ total_pages p' = total_pages p /\ page_size p' = page_size p /\ pool p' = pool p
    /\ free_pages p' = free_pages p + Z.b2z (used (page_bitmap p) i).
Proof.
  intros Hwf Hi. unfold free_page.
  destruct (Z.ltb_spec 0 i), (Z.ltb_spec i (total_pages p)); try lia. cbn [andb oassert].
  rewrite TEST_BIT_used by (apply wf_in_bitmap; [done|lia]). cbn [obind].
  destruct (used (page_bitmap p) i) eqn:Hu; cbn [Z.b2z Z.eqb].
  - destruct (CLEAR_BIT_spec (page_bitmap p) i) as (bitmap & -> & Hbs); [apply wf_in_bitmap; [done|lia]|].
    cbn [obind].
    pose proof (pool_wf_bit p bitmap i false (current_page p) Hwf Hi Hbs (wf_current p Hwf)) as Hwf'.
    rewrite Hu in Hwf'. cbn [Z.b2z] in Hwf'. rewrite Z.sub_0_r in Hwf'.
    eexists. split; [reflexivity|]. by repeat (split; [done|]).
  - exists p. split; [done|]. split; [done|]. split; [split; [done|]|].
    { intros j Hj. by destruct (Z.eqb_spec j i) as [->|]. }
    repeat split; try done; lia.
Qed.

(** ** Initialisation *)

Lemma set_bits_spec n i bitmap :
  0 <= i -> i + Z.of_nat n <= 8 * Z.of_nat (length bitmap) ->
  exists bitmap', set_bits n i bitmap = Ret bitmap' /\ length bitmap' = length bitmap
    /\ forall j, in_bitmap bitmap j ->
       used bitmap' j = (i <=? j) && (j <? i + Z.of_nat n) || used bitmap j.
Proof.
  revert i bitmap. induction n as [|n IH]; intros i bitmap Hi Hn; cbn [set_bits].
  { exists bitmap. split; [done|]. split; [done|]. intros j _.
    destruct (Z.leb_spec i j), (Z.ltb_spec j (i + Z.of_nat 0)); simpl; lia || done. }
  destruct (SET_BIT_spec bitmap i) as (b1 & -> & Hl1 & H1); [unfold in_bitmap; lia|].
  cbn [obind]. destruct (IH (i + 1) b1) as (b2 & -> & Hl2 & H2); [lia|rewrite Hl1; lia|].
  exists b2. split; [done|]. split; [congruence|]. intros j Hj.
  rewrite H2, H1 by (unfold in_bitmap in *; rewrite ?Hl1; done).
  destruct (Z.leb_spec (i + 1) j), (Z.ltb_spec j (i + 1 + Z.of_nat n)), (Z.eqb_spec j i),
    (Z.leb_spec i j), (Z.ltb_spec j (i + Z.of_nat (S n))); simpl; lia || done.
Qed.

Lemma used_zeros n j : in_bitmap (replicate n 0) j -> used (replicate n 0) j = false.
Proof.
  intros Hj. destruct (in_bitmap_lookup _ _ Hj) as (_ & Hlt & _).
  rewrite length_replicate in Hlt. unfold used.
  by rewrite lookup_total_replicate_2, Z.testbit_0_l by lia.
Qed.

Definition meta_pages (page_size meta_len : Z) : Z := (meta_len + page_size - 1) / page_size.

Lemma initialize_spec tpool psize total meta_len found :
  inited found <> 1 -> 0 < tpool -> tpool + total * psize <= 2 ^ 64 -> 2 ^ 20 <= psize ->
  total <= MAX_PAGES_NO -> 0 < meta_len -> meta_pages psize meta_len < total ->
  exists p, mem_pool_initialize tpool psize total meta_len found = Ret p /\ pool_wf p
    /\ total_pages p = total /\ page_size p = psize /\ pool p = tpool
    /\ free_pages p = total - meta_pages psize meta_len
    /\ forall i, 0 <= i < total -> used (page_bitmap p) i = (i <? meta_pages psize meta_len).
Proof.
  intros Hin Hp Haddr Hps Htot Hml Hmeta. unfold mem_pool_initialize, meta_pages in *.
  set (mp := (meta_len + psize - 1) / psize) in *.
  assert (0 < mp) by (apply Z.div_str_pos; lia).
  unfold MAX_PAGES_NO in Htot.
  destruct (Z.eqb_spec tpool 0); [lia|]. destruct (Z.leb_spec (2 ^ 20) psize); [|lia].
  destruct (Z.ltb_spec 0 total); [|lia]. destruct (Z.eqb_spec (inited found) 1); [done|].
  cbn [negb oassert].
  assert (length (replicate (Z.to_nat BITMAP_SIZE) 0) = Z.to_nat BITMAP_SIZE) as Hlen
    by apply length_replicate.
  assert (Z.of_nat (Z.to_nat BITMAP_SIZE) = 8192) as Hbs by done.
  destruct (set_bits_spec (Z.to_nat mp) 0 (replicate (Z.to_nat BITMAP_SIZE) 0))
    as (bitmap & -> & Hlb & Hbits); [lia|rewrite Hlen; lia|].
  cbn [obind]. destruct (Z.ltb_spec 0 (total - mp)); [|lia]. cbn [oassert].
  assert (forall i, 0 <= i < total -> used bitmap i = (i <? mp)) as Hused.
  { intros i Hi. assert (in_bitmap (replicate (Z.to_nat BITMAP_SIZE) 0) i)
      by (unfold in_bitmap; rewrite Hlen; lia).
    rewrite Hbits, used_zeros, orb_false_r by done. destruct (Z.leb_spec 0 i); [|lia].
    simpl. f_equal. lia. }
  eexists. split; [reflexivity|].
  split; [|by repeat (split; [done|])].
  constructor; cbn [inited page_size total_pages free_pages current_page page_bitmap pool];
    try done; try lia.
  - rewrite (count_ext _ (fun i => (mp <=? i) && (i <? total))).
    + rewrite (count_range _ _ mp total); [done|lia|lia|]. intros i.
      rewrite andb_true_iff, Z.leb_le, Z.ltb_lt. lia.
    + intros i Hi. unfold unused. rewrite Hused by lia.
      destruct (Z.ltb_spec i mp), (Z.leb_spec mp i), (Z.ltb_spec i total); simpl; lia || done.
  - rewrite Hused by lia. by apply Z.ltb_lt.
Qed.

(** ** The pool as a set of pages *)

Inductive pool_op := OpAlloc | OpFree (index : Z).

Definition run_pool_op (o : pool_op) (p : mem_pool) : outcome (option (Z * Z) * mem_pool) :=
  match o with
  | OpAlloc => alloc_page p
  | OpFree i => let! p := free_page p i in Ret (None, p)
  end.

Fixpoint run_pool (os : list pool_op) (p : mem_pool) : outcome (list (option (Z * Z)) * mem_pool) :=
  match os with
  | [] => Ret ([], p)
  | o :: os' =>
      let! (r, p) := run_pool_op o p in
      let! (rs, p) := run_pool os' p in
      Ret (r :: rs, p)
  end.

(** What a pool of the pages [lo .. hi) at [base] promises: an allocation
    gives a page nobody holds, and fails only when all of them are held. *)
Inductive pool_spec (lo hi base psize : Z) : gset Z -> pool_op -> option (Z * Z) -> gset Z -> Prop :=
| spec_alloc live i :
    lo <= i < hi -> i ∉ live ->
    pool_spec lo hi base psize live OpAlloc (Some (i, base + i * psize)) ({[i]} ∪ live)
| spec_full live :
    Z.of_nat (size live) = hi - lo -> pool_spec lo hi base psize live OpAlloc None live
| spec_free live i :
    lo <= i < hi -> pool_spec lo hi base psize live (OpFree i) None (live ∖ {[i]}).

Inductive pool_specs (lo hi base psize : Z) :
  gset Z -> list pool_op -> list (option (Z * Z)) -> gset Z -> Prop :=
| specs_nil live : pool_specs lo hi base psize live [] [] live
| specs_cons live o r live' os rs live'' :
    pool_spec lo hi base psize live o r live' ->
    pool_specs lo hi base psize live' os rs live'' ->
    pool_specs lo hi base psize live (o :: os) (r :: rs) live''.

(** The pages held: those of [lo .. hi) whose bit is set. *)
Record holds (p : mem_pool) (lo : Z) (live : gset Z) : Prop := {
  holds_wf : pool_wf p;
  holds_lo : 0 < lo;
  holds_meta : forall i, 0 <= i < lo -> i < total_pages p -> used (page_bitmap p) i = true;
  holds_live : forall i, i ∈ live <-> lo <= i < total_pages p /\ used (page_bitmap p) i = true;
  holds_size : Z.of_nat (size live) + free_pages p = total_pages p - lo
}.

Definition op_in (lo hi : Z) (o : pool_op) : Prop :=
  match o with OpAlloc => True | OpFree i => lo <= i < hi end.

(** The bit of one page of [lo .. hi) changes: so does the set. *)
Lemma holds_bit p p' lo live i v :
  holds p lo live -> lo <= i < total_pages p -> pool_wf p' ->
  bit_set (page_bitmap p) (page_bitmap p') i v -> total_pages p' = total_pages p ->
  free_pages p' = free_pages p + Z.b2z (used (page_bitmap p) i) - Z.b2z v ->
  holds p' lo (if v then {[i]} ∪ live else live ∖ {[i]}).
Proof.
  intros Hh Hi Hwf' [Hlen Hbits] Ht Hf. pose proof (holds_lo _ _ _ Hh) as Hlo.
  assert (forall j, 0 <= j < total_pages p -> used (page_bitmap p') j
            = if j =? i then v else used (page_bitmap p) j) as Hb.
  { intros j Hj. apply Hbits, wf_in_bitmap; [apply Hh|done]. }
  assert (i ∈ live <-> used (page_bitmap p) i = true) as Hiu.
  { rewrite (holds_live _ _ _ Hh). split; [by intros [_ ?]|done]. }
  constructor.
  - done.
  - done.
  - intros j Hj Hjt. rewrite Hb by lia. destruct (Z.eqb_spec j i); [lia|].
    apply (holds_meta _ _ _ Hh); lia.
  - intros j. rewrite Ht. pose proof (holds_live _ _ _ Hh j) as Hl.
    destruct (decide (lo <= j < total_pages p)) as [Hj|Hj].
    + rewrite Hb by lia. destruct (Z.eqb_spec j i) as [->|], v; set_solver.
    + destruct v; [rewrite elem_of_union, elem_of_singleton|rewrite elem_of_difference]; split;
        intros; intuition (subst; lia || tauto).
  - rewrite Ht, Hf. pose proof (holds_size _ _ _ Hh) as Hs.
    destruct (decide (i ∈ live)) as [Hil|Hil].
    + rewrite (proj1 Hiu Hil). destruct v; cbn [Z.b2z].
      * replace ({[i]} ∪ live) with live by set_solver. lia.
      * assert (size live = S (size (live ∖ {[i]}))) as E; [|lia].
        rewrite (union_difference_singleton_L i live Hil) at 1.
        rewrite size_union, size_singleton by set_solver. done.
    + destruct (used (page_bitmap p) i); [tauto|]. destruct v; cbn [Z.b2z].
      * rewrite size_union, size_singleton by set_solver. lia.
      * replace (live ∖ {[i]}) with live by set_solver. lia.
Qed.

Lemma run_pool_op_spec o p lo live :
  holds p lo live -> op_in lo (total_pages p) o ->
  exists r p' live', run_pool_op o p = Ret (r, p') /\ holds p' lo live'
    /\ pool_spec lo (total_pages p) (pool p) (page_size p) live o r live'
    /\ total_pages p' = total_pages p /\ pool p' = pool p /\ page_size p' = page_size p.
Proof.
  intros Hh Ho. destruct o as [|i]; cbn [run_pool_op].
  - destruct (alloc_page_spec p (holds_wf _ _ _ Hh)) as [[Hz ->]|
      (i & p' & -> & Hi & Hu & Hwf' & Hb & Ht & Hps & Hpl & Hf)].
    + exists None, p, live. repeat (split; [done|]). split; [|done]. constructor.
      pose proof (holds_size _ _ _ Hh). lia.
    + assert (lo <= i) as Hlo.
      { destruct (decide (i < lo)); [|lia].
        rewrite (holds_meta _ _ _ Hh) in Hu by lia. done. }
      eexists _, p', _. split; [done|].
      split; [apply (holds_bit p p' lo live i true Hh); try done; [lia|rewrite Hu; simpl; lia]|].
      split; [|done]. constructor; [lia|].
      rewrite (holds_live _ _ _ Hh). rewrite Hu. intros [_ ?]. done.
  - cbn [op_in] in Ho. pose proof (holds_lo _ _ _ Hh).
    destruct (free_page_spec p i (holds_wf _ _ _ Hh) ltac:(lia))
      as (p' & -> & Hwf' & Hb & Ht & Hps & Hpl & Hf).
    cbn [obind]. exists None, p', (live ∖ {[i]}). split; [done|].
    split; [apply (holds_bit p p' lo live i false Hh); try done; simpl; lia|].
    split; [by constructor|done].
Qed.

Lemma run_pool_spec os p lo live :
  holds p lo live -> Forall (op_in lo (total_pages p)) os ->
  exists rs p' live', run_pool os p = Ret (rs, p') /\ holds p' lo live'
    /\ pool_specs lo (total_pages p) (pool p) (page_size p) live os rs live'.
Proof.
  intros Hh Hos. revert p live Hh Hos. induction os as [|o os IH]; intros p live Hh Hos.
  { exists [], p, live. split; [done|]. split; [done|]. constructor. }
  inversion Hos; subst. cbn [run_pool].
  destruct (run_pool_op_spec o p lo live Hh) as (r & p1 & live1 & -> & Hh1 & Hs1 & Ht & Hp & Hz);
    [done|]. cbn [obind].
  destruct (IH p1 live1 Hh1) as (rs & p2 & live2 & -> & Hh2 & Hs2); [by rewrite Ht|].
  cbn [obind]. rewrite Ht, Hp, Hz in Hs2. exists (r :: rs), p2, live2. split; [done|]. split; [done|].
  by econstructor.
Qed.

(** ** Properties *)

(** C19: the page allocator implements a set of pages.  From a freshly
    initialised pool, any sequence of allocations and releases (of pages
    behind the metadata) runs without failing an assertion and with the scan
    for a free page always ending; every allocation returns the index and the
    address of a page that is not held at that moment, and returns none
    exactly when all pages behind the metadata are held. *)
Theorem pool_implements_page_set tpool psize total meta_len found os :
  inited found <> 1 -> 0 < tpool -> tpool + total * psize <= 2 ^ 64 -> 2 ^ 20 <= psize ->
  total <= MAX_PAGES_NO -> 0 < meta_len -> meta_pages psize meta_len < total ->
  Forall (op_in (meta_pages psize meta_len) total) os ->
  exists p rs p' live,
    mem_pool_initialize tpool psize total meta_len found = Ret p
    /\ run_pool os p = Ret (rs, p')
    /\ pool_specs (meta_pages psize meta_len) total tpool psize ∅ os rs live.
Proof.
  intros Hin Hp Haddr Hps Htot Hml Hmeta Hos.
  destruct (initialize_spec tpool psize total meta_len found)
    as (p & -> & Hwf & Ht & Hz & Hpl & Hf & Hu); try done.
  assert (holds p (meta_pages psize meta_len) ∅) as Hh.
  { assert (0 < meta_pages psize meta_len) by (apply Z.div_str_pos; lia).
    constructor; try done.
    - intros i Hi Hit. rewrite Hu by lia. apply Z.ltb_lt; lia.
    - intros i. split; [set_solver|]. rewrite Ht. intros [Hi Hui]. rewrite Hu in Hui by lia.
      apply Z.ltb_lt in Hui. lia.
    - rewrite size_empty, Ht. lia. }
  destruct (run_pool_spec os p _ ∅ Hh) as (rs & p' & live & E & _ & Hs); [by rewrite Ht|].
  rewrite Ht, Hpl, Hz in Hs. by exists p, rs, p', live.
Qed.

Definition blank_pool : mem_pool := mk_mem_pool 0 0 0 0 0 [] 0.

Lemma pool_implements_page_set_witness :
  exists p rs p' live,
    mem_pool_initialize 4096 (2 ^ 20) 4 MEM_POOL_METADATA_LEN blank_pool = Ret p
    /\ run_pool [OpAlloc; OpAlloc; OpFree 2; OpAlloc; OpAlloc; OpAlloc] p = Ret (rs, p')
    /\ pool_specs 1 4 4096 (2 ^ 20) ∅ [OpAlloc; OpAlloc; OpFree 2; OpAlloc; OpAlloc; OpAlloc] rs live.
Proof.
  apply (pool_implements_page_set 4096 (2 ^ 20) 4 MEM_POOL_METADATA_LEN blank_pool);
    try (vm_compute; congruence); try reflexivity.
  repeat constructor; vm_compute; congruence.
Defined.

(** The index of a page and its address determine each other, so the
    address [alloc_page] returned can be given to [free_page]. *)
Theorem page_to_index_to_page p i :
  pool_wf p -> 0 < i < total_pages p ->
  exists page, index_to_page p i = Ret page /\ page_to_index p page = Ret i
    /\ free_page_addr p page = free_page p i.
Proof.
  intros Hwf Hi. destruct (page_address p i Hwf Hi) as [E Hb]. pose proof (wf_size p Hwf).
  assert (page_to_index p (pool p + i * page_size p) = Ret i) as E'.
  { unfold page_to_index. destruct (Z.eqb_spec (pool p + i * page_size p) 0); [lia|].
    cbn [negb oassert]. f_equal. rewrite Z.add_simpl_l.
    destruct (wf_addr p Hwf). assert (0 < i * page_size p) by nia.
    rewrite wrap_id by (unfold in_u; lia). apply Z.div_mul. lia. }
  eexists. split; [exact E|]. split; [done|]. unfold free_page_addr. rewrite E'.
  by destruct (Z.eqb_spec (pool p + i * page_size p) 0); [lia|].
Qed.

Lemma page_to_index_to_page_witness :
  exists p page, mem_pool_initialize 4096 (2 ^ 20) 4 MEM_POOL_METADATA_LEN blank_pool = Ret p
    /\ index_to_page p 3 = Ret page /\ page_to_index p page = Ret 3
    /\ free_page_addr p page = free_page p 3.
Proof.
  destruct (initialize_spec 4096 (2 ^ 20) 4 MEM_POOL_METADATA_LEN blank_pool)
    as (p & E & Hwf & Ht & _); [vm_compute; congruence ..|].
  destruct (page_to_index_to_page p 3 Hwf) as (page & H); [rewrite Ht; lia|].
  exists p, page. split; [exact E|exact H].
Defined.
