(* ===== verification/MdbItem.v ===== *)
(** * mdb_item (storage/mdb/mem_cache.hpp)

    An item of the memory engine and its 64-bit id, which packs the slab size
    (20 bits), the offset in the page in units of the slab size (16), the page
    number (16), the slab id (8) and four flag bits.  The macros are
    translated one by one. *)

From S2P Require Import Prelude.

Record mdb_item := mk_mdb_item {
  h_next : Z; prev : Z; next : Z; exptime : Z; key_len : Z; data_len : Z;
  version : Z; update_time : Z; item_id : Z; data : list Z
}.

(** [sizeof(mdb_item)], packed *)
Definition sizeof_mdb_item : Z := 46.

(** Assignments to the fields *)
Definition set_h_next f (s : mdb_item) : mdb_item :=
  mk_mdb_item (f (h_next s)) (prev s) (next s) (exptime s) (key_len s) (data_len s)
    (version s) (update_time s) (item_id s) (data s).
Definition set_prev f (s : mdb_item) : mdb_item :=
  mk_mdb_item (h_next s) (f (prev s)) (next s) (exptime s) (key_len s) (data_len s)
    (version s) (update_time s) (item_id s) (data s).
Definition set_next f (s : mdb_item) : mdb_item :=
  mk_mdb_item (h_next s) (prev s) (f (next s)) (exptime s) (key_len s) (data_len s)
    (version s) (update_time s) (item_id s) (data s).
Definition set_exptime f (s : mdb_item) : mdb_item :=
  mk_mdb_item (h_next s) (prev s) (next s) (f (exptime s)) (key_len s) (data_len s)
    (version s) (update_time s) (item_id s) (data s).
Definition set_key_len f (s : mdb_item) : mdb_item :=
  mk_mdb_item (h_next s) (prev s) (next s) (exptime s) (f (key_len s)) (data_len s)
    (version s) (update_time s) (item_id s) (data s).
Definition set_data_len f (s : mdb_item) : mdb_item :=
  mk_mdb_item (h_next s) (prev s) (next s) (exptime s) (key_len s) (f (data_len s))
    (version s) (update_time s) (item_id s) (data s).
Definition set_version f (s : mdb_item) : mdb_item :=
  mk_mdb_item (h_next s) (prev s) (next s) (exptime s) (key_len s) (data_len s) (f
    (version s)) (update_time s) (item_id s) (data s).
Definition set_update_time f (s : mdb_item) : mdb_item :=
  mk_mdb_item (h_next s) (prev s) (next s) (exptime s) (key_len s) (data_len s)
    (version s) (f (update_time s)) (item_id s) (data s).
Definition set_item_id f (s : mdb_item) : mdb_item :=
  mk_mdb_item (h_next s) (prev s) (next s) (exptime s) (key_len s) (data_len s)
    (version s) (update_time s) (f (item_id s)) (data s).
Definition set_data f (s : mdb_item) : mdb_item :=
  mk_mdb_item (h_next s) (prev s) (next s) (exptime s) (key_len s) (data_len s)
    (version s) (update_time s) (item_id s) (f (data s)).

#[export] Instance mdb_item_eq_dec : EqDecision mdb_item.
Proof. solve_decision. Defined.

Definition SLAB_SIZE_MASK : Z := Z.shiftl 1 20 - 1.
Definition OFFSET_MASK : Z := Z.shiftl 1 16 - 1.
Definition PAGE_ID_MASK : Z := Z.shiftl 1 16 - 1.
Definition SLAB_ID_MASK : Z := Z.shiftl 1 8 - 1.

Definition SLAB_SIZE (x : Z) : Z := Z.land x SLAB_SIZE_MASK.
Definition PAGE_OFFSET (x : Z) : Z := Z.land (Z.shiftr x 20) OFFSET_MASK.
Definition PAGE_ID (x : Z) : Z := Z.land (Z.shiftr x 36) PAGE_ID_MASK.
Definition SLAB_ID (x : Z) : Z := Z.land (Z.shiftr x 52) SLAB_ID_MASK.
Definition CLEAR_FLAGS (x : Z) : Z := Z.land x (u64 (Z.lnot (Z.shiftl 0xF 60))).
Definition ITEM_FLAGS (x : Z) : Z := Z.land (Z.shiftr x 60) 0xF.
Definition SET_ITEM_FLAGS (x v : Z) : Z := Z.lor x (u64 (Z.shiftl (Z.land v 0xF) 60)).

Definition ITEM_ID (slab_size offset page_id slab_id : Z) : Z :=
  Z.lor (Z.lor (Z.lor (u64 (Z.shiftl (Z.land slab_id SLAB_ID_MASK) 52))
                      (u64 (Z.shiftl (Z.land page_id PAGE_ID_MASK) 36)))
               (u64 (Z.shiftl (Z.land offset OFFSET_MASK) 20)))
        (Z.land slab_size SLAB_SIZE_MASK).

Definition itemid_equal (lhs rhs : Z) : bool :=
  (SLAB_ID lhs =? SLAB_ID rhs) && (PAGE_ID lhs =? PAGE_ID rhs)
  && (PAGE_OFFSET lhs =? PAGE_OFFSET rhs) && (SLAB_SIZE lhs =? SLAB_SIZE rhs).

(** Where an item is: page, slab size and offset, from which [ITEM_ADDR]
    computes its address. *)
Definition loc : Type := Z * Z * Z.
Definition loc_of (id : Z) : loc := (PAGE_ID id, SLAB_SIZE id, PAGE_OFFSET id).

(** [ITEM_ADDR(base, item_id, page_size)] without the base; 32 is
    [sizeof(page_info)]. *)
Definition sizeof_page_info : Z := 32.
Definition loc_addr (page_size : Z) (l : loc) : Z :=
  let '(page, size, off) := l in page * page_size + size * off + sizeof_page_info.

(** [ALIGN(x)] with [ALIGN_SIZE] 8 *)
Definition ALIGN (x : Z) : Z := Z.land (x + (8 - 1)) (Z.lnot (8 - 1)).

(** [ITEM_AREA], [KEY_AREA]: the area is the first two bytes of the key *)
Definition KEY_AREA (key : list Z) : Z :=
  Z.lor (Z.land (nth 0 key 0) 0xFF) (Z.land (Z.shiftl (nth 1 key 0) 8) 0xFF00).
Definition ITEM_AREA (it : mdb_item) : Z := KEY_AREA (data it).
Definition ITEM_KEY (it : mdb_item) : list Z := take (Z.to_nat (key_len it)) (data it).
Definition ITEM_DATA (it : mdb_item) : list Z :=
  take (Z.to_nat (data_len it)) (drop (Z.to_nat (key_len it)) (data it)).

(** ** Bit fields *)

(** A field of [w] bits at [s]. *)
Definition field (s w x : Z) : Z := Z.land (Z.shiftr x s) (Z.ones w).

Lemma field_testbit s w x n :
  0 <= w -> 0 <= n -> Z.testbit (field s w x) n = (n <? w) && Z.testbit x (n + s).
Proof.
  intros Hw Hn. unfold field. rewrite Z.land_spec, Z.shiftr_spec, Z.testbit_ones_nonneg by lia.
  apply andb_comm.
Qed.

(** Two numbers whose bits [s .. s+w) agree have the same field. *)
Lemma field_ext s w x y :
  0 <= w -> (forall n, 0 <= n < w -> Z.testbit x (n + s) = Z.testbit y (n + s)) ->
  field s w x = field s w y.
Proof.
  intros Hw H. apply Z.bits_inj'. intros n Hn. rewrite !field_testbit by lia.
  destruct (Z.ltb_spec n w); [|done]. simpl. apply H. lia.
Qed.

Lemma SLAB_SIZE_field x : SLAB_SIZE x = field 0 20 x.
Proof. unfold field. by rewrite Z.shiftr_0_r. Qed.
Lemma PAGE_OFFSET_field x : PAGE_OFFSET x = field 20 16 x.
Proof. done. Qed.
Lemma PAGE_ID_field x : PAGE_ID x = field 36 16 x.
Proof. done. Qed.
Lemma SLAB_ID_field x : SLAB_ID x = field 52 8 x.
Proof. done. Qed.
Lemma ITEM_FLAGS_field x : ITEM_FLAGS x = field 60 4 x.
Proof. done. Qed.

(** The bits of a value placed at [s]. *)
Lemma testbit_placed v w s n :
  0 <= w -> 0 <= s -> s + w <= 64 -> 0 <= n ->
  Z.testbit (u64 (Z.shiftl (Z.land v (Z.ones w)) s)) n
  = (s <=? n) && (n <? s + w) && Z.testbit v (n - s).
Proof.
  intros Hw Hs Hsw Hn. unfold wrap.
  destruct (Z.ltb_spec n 64).
  - rewrite Z.mod_pow2_bits_low by lia.
    destruct (Z.leb_spec s n).
    + rewrite Z.shiftl_spec, Z.land_spec, Z.testbit_ones_nonneg by lia. simpl.
      rewrite andb_comm. f_equal. lia.
    + by rewrite Z.shiftl_spec_low by lia.
  - rewrite Z.mod_pow2_bits_high by lia.
    destruct (Z.ltb_spec n (s + w)); [lia|]. by rewrite andb_false_r.
Qed.

Lemma testbit_small w v n : in_u w v -> 0 <= w <= n -> Z.testbit v n = false.
Proof.
  intros Hv Hn. rewrite <- (wrap_id w v Hv). unfold wrap. apply Z.mod_pow2_bits_high. lia.
Qed.

Lemma testbit_ITEM_ID size off page slab n :
  0 <= n ->
  Z.testbit (ITEM_ID size off page slab) n =
  if n <? 20 then Z.testbit size n else if n <? 36 then Z.testbit off (n - 20)
  else if n <? 52 then Z.testbit page (n - 36) else if n <? 60 then Z.testbit slab (n - 52)
  else false.
Proof.
  intros Hn. unfold ITEM_ID. rewrite !Z.lor_spec.
  change SLAB_ID_MASK with (Z.ones 8). change PAGE_ID_MASK with (Z.ones 16).
  change OFFSET_MASK with (Z.ones 16). change SLAB_SIZE_MASK with (Z.ones 20).
  rewrite !testbit_placed, Z.land_spec, Z.testbit_ones_nonneg by lia.
  destruct (Z.ltb_spec n 20), (Z.ltb_spec n 36), (Z.ltb_spec n 52), (Z.ltb_spec n 60),
    (Z.leb_spec 20 n), (Z.leb_spec 36 n), (Z.leb_spec 52 n); try lia;
    replace (n <? 20 + 16) with (n <? 36) by (f_equal; lia);
    replace (n <? 36 + 16) with (n <? 52) by (f_equal; lia);
    replace (n <? 52 + 8) with (n <? 60) by (f_equal; lia);
    repeat match goal with |- context [?a <? ?b] => destruct (Z.ltb_spec a b); try lia end;
    simpl; rewrite ?andb_true_r, ?andb_false_r, ?orb_false_r; done.
Qed.

(** A field is a value when its bits are those of the value. *)
Lemma field_value s w x v :
  0 <= w -> in_u w v -> (forall n, 0 <= n < w -> Z.testbit x (n + s) = Z.testbit v n) ->
  field s w x = v.
Proof.
  intros Hw Hv H. apply Z.bits_inj'. intros n Hn. rewrite field_testbit by lia.
  destruct (Z.ltb_spec n w); [by apply H|]. symmetry. apply (testbit_small w); [done|lia].
Qed.

Ltac id_field :=
  apply field_value; [lia|assumption|]; intros n Hn; rewrite testbit_ITEM_ID by lia;
  repeat match goal with |- context [?a <? ?b] => destruct (Z.ltb_spec a b); try lia end;
  try done; f_equal; lia.

Section item_id.
Context (size off page slab : Z).
Hypothesis Hsize : in_u 20 size.
Hypothesis Hoff : in_u 16 off.
Hypothesis Hpage : in_u 16 page.
Hypothesis Hslab : in_u 8 slab.

Lemma SLAB_SIZE_ITEM_ID : SLAB_SIZE (ITEM_ID size off page slab) = size.
Proof. rewrite SLAB_SIZE_field. id_field. Qed.
Lemma PAGE_OFFSET_ITEM_ID : PAGE_OFFSET (ITEM_ID size off page slab) = off.
Proof. rewrite PAGE_OFFSET_field. id_field. Qed.
Lemma PAGE_ID_ITEM_ID : PAGE_ID (ITEM_ID size off page slab) = page.
Proof. rewrite PAGE_ID_field. id_field. Qed.
Lemma SLAB_ID_ITEM_ID : SLAB_ID (ITEM_ID size off page slab) = slab.
Proof. rewrite SLAB_ID_field. id_field. Qed.
Lemma ITEM_FLAGS_ITEM_ID : ITEM_FLAGS (ITEM_ID size off page slab) = 0.
Proof.
  rewrite ITEM_FLAGS_field. apply field_value; [lia|unfold in_u; lia|]. intros n Hn.
  rewrite testbit_ITEM_ID, Z.testbit_0_l by lia.
  repeat match goal with |- context [?a <? ?b] => destruct (Z.ltb_spec a b); try lia end; done.
Qed.
End item_id.

(** Flags: the part of an id below bit 60 is untouched by the flag macros. *)
Lemma testbit_CLEAR_FLAGS x n :
  0 <= n -> Z.testbit (CLEAR_FLAGS x) n = (n <? 60) && Z.testbit x n.
Proof.
  intros Hn. unfold CLEAR_FLAGS.
  replace (u64 (Z.lnot (Z.shiftl 15 60))) with (Z.ones 60) by (vm_compute; reflexivity).
  rewrite Z.land_spec, Z.testbit_ones_nonneg by lia. apply andb_comm.
Qed.

Lemma testbit_SET_ITEM_FLAGS x v n :
  0 <= n -> Z.testbit (SET_ITEM_FLAGS x v) n
            = Z.testbit x n || ((60 <=? n) && (n <? 64) && Z.testbit v (n - 60)).
Proof.
  intros Hn. unfold SET_ITEM_FLAGS. change 0xF with (Z.ones 4).
  by rewrite Z.lor_spec, testbit_placed by lia.
Qed.

(** The ids that differ in their flags only. *)
Definition same_item (x y : Z) : Prop :=
  SLAB_ID x = SLAB_ID y /\ loc_of x = loc_of y.

#[export] Instance same_item_equiv : Equivalence same_item.
Proof. unfold same_item. split; repeat intro; intuition congruence. Qed.

Lemma itemid_equal_spec x y : itemid_equal x y = true <-> same_item x y.
Proof.
  unfold itemid_equal, same_item, loc_of. rewrite !andb_true_iff, !Z.eqb_eq.
  split; [intros [[[-> ->] ->] ->]; done|]. intros [-> [= -> -> ->]]. done.
Qed.

Lemma same_item_bits x y :
  (forall n, 0 <= n < 60 -> Z.testbit x n = Z.testbit y n) -> same_item x y.
Proof.
  intros H. unfold same_item, loc_of.
  rewrite !SLAB_ID_field, !PAGE_ID_field, !SLAB_SIZE_field, !PAGE_OFFSET_field.
  split; [|f_equal; [f_equal|]]; apply field_ext; try lia; intros; apply H; lia.
Qed.

Lemma CLEAR_FLAGS_same x : same_item (CLEAR_FLAGS x) x.
Proof.
  apply same_item_bits. intros n Hn. rewrite testbit_CLEAR_FLAGS by lia.
  by destruct (Z.ltb_spec n 60); [|lia].
Qed.

Lemma SET_ITEM_FLAGS_same x v : same_item (SET_ITEM_FLAGS x v) x.
Proof.
  apply same_item_bits. intros n Hn. rewrite testbit_SET_ITEM_FLAGS by lia.
  destruct (Z.leb_spec 60 n); [lia|]. apply orb_false_r.
Qed.

Lemma CLEAR_FLAGS_id x : in_u 60 x -> CLEAR_FLAGS x = x.
Proof.
  intros Hx. apply Z.bits_inj'. intros n Hn. rewrite testbit_CLEAR_FLAGS by lia.
  destruct (Z.ltb_spec n 60); [done|]. symmetry. apply (testbit_small 60); [done|lia].
Qed.

(** An id without flags is determined by what it packs. *)
Lemma field_bits s w x y n :
  0 <= w -> field s w x = field s w y -> s <= n < s + w -> Z.testbit x n = Z.testbit y n.
Proof.
  intros Hw E Hn. apply (f_equal (fun z => Z.testbit z (n - s))) in E.
  destruct (decide (0 <= s)).
  - rewrite !field_testbit in E by lia. destruct (Z.ltb_spec (n - s) w); [|lia].
    simpl in E. replace (n - s + s) with n in E by lia. done.
  - destruct (decide (n < 0)); [by rewrite !Z.testbit_neg_r by lia|].
    rewrite !field_testbit in E by lia. destruct (Z.ltb_spec (n - s) w); [|lia].
    simpl in E. by replace (n - s + s) with n in E by lia.
Qed.

Lemma same_item_clear x y : same_item x y -> CLEAR_FLAGS x = CLEAR_FLAGS y.
Proof.
  unfold same_item, loc_of.
  rewrite !SLAB_ID_field, !PAGE_ID_field, !SLAB_SIZE_field, !PAGE_OFFSET_field.
  intros [E1 [= E2 E3 E4]]. apply Z.bits_inj'. intros n Hn. rewrite !testbit_CLEAR_FLAGS by lia.
  destruct (Z.ltb_spec n 60); [|done]. simpl.
  destruct (decide (n < 20)); [apply (field_bits 0 20); [lia|done|lia]|].
  destruct (decide (n < 36)); [apply (field_bits 20 16); [lia|done|lia]|].
  destruct (decide (n < 52)); [apply (field_bits 36 16); [lia|done|lia]|].
  apply (field_bits 52 8); [lia|done|lia].
Qed.

Lemma ITEM_FLAGS_SET size off page slab flags :
  in_u 20 size -> in_u 16 off -> in_u 16 page -> in_u 8 slab ->
  ITEM_FLAGS (SET_ITEM_FLAGS (ITEM_ID size off page slab) flags) = flags mod 16.
Proof.
  intros Hs Ho Hp Hb. rewrite ITEM_FLAGS_field. apply field_value; [lia|by apply Z.mod_pos_bound|].
  intros n Hn. change 16 with (2 ^ 4). rewrite Z.mod_pow2_bits_low by lia.
  rewrite testbit_SET_ITEM_FLAGS, testbit_ITEM_ID by lia.
  repeat match goal with |- context [?a <? ?b] => destruct (Z.ltb_spec a b); try lia end.
  destruct (Z.leb_spec 60 (n + 60)); [|lia]. simpl. f_equal. lia.
Qed.

(** ** Properties *)

(** C20: an item id is a faithful name.  Packing slab size, offset, page and
    slab id and unpacking gives them back, with no flag set; setting flags and
    clearing them changes neither the item an id names nor its address, and
    after clearing exactly the packed id is left, which [alloc_new_item]
    asserts. *)
Theorem item_id_names_item size off page slab flags :
  in_u 20 size -> in_u 16 off -> in_u 16 page -> in_u 8 slab ->
  let id := ITEM_ID size off page slab in
  loc_of id = (page, size, off) /\ SLAB_ID id = slab /\ ITEM_FLAGS id = 0
  /\ itemid_equal (SET_ITEM_FLAGS id flags) id = true
  /\ ITEM_FLAGS (SET_ITEM_FLAGS id flags) = flags mod 16
  /\ CLEAR_FLAGS (SET_ITEM_FLAGS id flags) = id.
Proof.
  intros Hs Ho Hp Hb id. split; [|split; [|split; [|split; [|split]]]].
  - unfold loc_of, id. by rewrite PAGE_ID_ITEM_ID, SLAB_SIZE_ITEM_ID, PAGE_OFFSET_ITEM_ID.
  - by apply SLAB_ID_ITEM_ID.
  - by apply ITEM_FLAGS_ITEM_ID.
  - apply itemid_equal_spec, SET_ITEM_FLAGS_same.
  - by apply ITEM_FLAGS_SET.
  - rewrite (same_item_clear _ id) by apply SET_ITEM_FLAGS_same.
    apply Z.bits_inj'. intros n Hn. rewrite testbit_CLEAR_FLAGS by lia.
    destruct (Z.ltb_spec n 60); [done|]. unfold id. rewrite testbit_ITEM_ID by lia.
    repeat match goal with |- context [?a <? ?b] => destruct (Z.ltb_spec a b); try lia end; done.
Qed.

Lemma item_id_names_item_witness :
  let id := ITEM_ID 64 5 9 3 in
  loc_of id = (9, 64, 5) /\ SLAB_ID id = 3 /\ ITEM_FLAGS id = 0
  /\ itemid_equal (SET_ITEM_FLAGS id 2) id = true
  /\ ITEM_FLAGS (SET_ITEM_FLAGS id 2) = 2 mod 16
  /\ CLEAR_FLAGS (SET_ITEM_FLAGS id 2) = id.
Proof. apply (item_id_names_item 64 5 9 3 2); by_decide. Defined.

(** items do not overlap: two different slots, each in a page that its
    slab divides into [per_slab] items of its slab size, occupy disjoint
    address ranges within the pool, and stay inside their page. *)
Theorem items_disjoint page_size p1 s1 o1 p2 s2 o2 :
  0 < s1 -> 0 < s2 -> 0 <= p1 -> 0 <= p2 ->
  0 <= o1 < (page_size - sizeof_page_info) / s1 ->
  0 <= o2 < (page_size - sizeof_page_info) / s2 ->
  (p1 = p2 -> s1 = s2) -> (p1, s1, o1) <> (p2, s2, o2) ->
  p1 * page_size + sizeof_page_info <= loc_addr page_size (p1, s1, o1)
  /\ loc_addr page_size (p1, s1, o1) + s1 <= (p1 + 1) * page_size
  /\ (loc_addr page_size (p1, s1, o1) + s1 <= loc_addr page_size (p2, s2, o2)
      \/ loc_addr page_size (p2, s2, o2) + s2 <= loc_addr page_size (p1, s1, o1)).
Proof.
  intros Hs1 Hs2 Hp1 Hp2 Ho1 Ho2 Hsame Hne. unfold loc_addr, sizeof_page_info in *.
  assert (forall s o, 0 < s -> 0 <= o < (page_size - 32) / s ->
            0 <= s * o /\ s * o + s <= page_size - 32) as Hin.
  { intros s o Hs Ho. pose proof (Z.mul_div_le (page_size - 32) s Hs). nia. }
  destruct (Hin s1 o1 Hs1 Ho1), (Hin s2 o2 Hs2 Ho2).
  split; [lia|]. split; [lia|].
  destruct (Z.lt_trichotomy p1 p2) as [?|[->|?]]; [left; nia| |right; nia].
  rewrite (Hsame eq_refl) in *.
  destruct (Z.lt_trichotomy o1 o2) as [?|[->|?]]; [left; nia|congruence|right; nia].
Qed.

Lemma items_disjoint_witness :
  loc_addr (2 ^ 20) (3, 64, 0) + 64 <= loc_addr (2 ^ 20) (3, 64, 1)
  \/ loc_addr (2 ^ 20) (3, 64, 1) + 64 <= loc_addr (2 ^ 20) (3, 64, 0).
Proof. apply (items_disjoint (2 ^ 20) 3 64 0 3 64 1); first [done | by_decide | congruence]. Defined.
