(* ===== verification/MemCache.v ===== *)
(** * mem_cache (storage/mdb/mem_cache.cpp, mem_cache.hpp): state and slabs

    The memory engine's state in shared memory: the page pool, the headers of
    the pages in use, the items in them, the slab managers, the hash table and
    the statistics of each area.  Memory is typed: an item is looked up by its
    page, slab size and offset, and a lookup that does not hit an item of a
    page formatted for that slab size is an [Overrun].  Operations are state
    transformers; an [assert] that fails is [Abort].  [time(NULL)] is the field
    [m_now], which no operation changes. *)

From S2P Require Import Prelude MemPool MdbItem.

Definition TAIR_MAX_AREA_COUNT : Z := 1024.
Definition PARTIAL_PAGE_BUCKET : Z := 10.

(** ** State *)

(** [mem_cache::page_info] *)
Record page_info := mk_page_info {
  pi_id : Z; free_nr : Z; pi_next : Z; pi_prev : Z; free_head : Z
}.
Definition set_free_nr f (s : page_info) : page_info :=
  mk_page_info (pi_id s) (f (free_nr s)) (pi_next s) (pi_prev s) (free_head s).
Definition set_pi_next f (s : page_info) : page_info :=
  mk_page_info (pi_id s) (free_nr s) (f (pi_next s)) (pi_prev s) (free_head s).
Definition set_pi_prev f (s : page_info) : page_info :=
  mk_page_info (pi_id s) (free_nr s) (pi_next s) (f (pi_prev s)) (free_head s).
Definition set_free_head f (s : page_info) : page_info :=
  mk_page_info (pi_id s) (free_nr s) (pi_next s) (pi_prev s) (f (free_head s)).

(** [mem_cache::slab_manager]; arrays indexed by area or by bucket hold 0 where
    nothing was stored (shared memory is zero initially). *)
Record slab_manager := mk_slab_manager {
  slab_id : Z; slab_size : Z; per_slab : Z; slab_page_size : Z;
  this_item_list : gmap Z (Z * Z); item_count : gmap Z Z; evict_count : gmap Z Z;
  item_total_count : Z; evict_total_count : Z;
  full_pages_no : Z; partial_pages_no : Z; free_pages_no : Z; evict_index : Z;
  slab_free_pages : Z; full_pages : Z; partial_pages : gmap Z Z
}.
Definition set_this_item_list f (s : slab_manager) : slab_manager :=
  mk_slab_manager (slab_id s) (slab_size s) (per_slab s) (slab_page_size s) (f
    (this_item_list s)) (item_count s) (evict_count s) (item_total_count s)
    (evict_total_count s) (full_pages_no s) (partial_pages_no s) (free_pages_no s)
    (evict_index s) (slab_free_pages s) (full_pages s) (partial_pages s).
Definition set_item_count f (s : slab_manager) : slab_manager :=
  mk_slab_manager (slab_id s) (slab_size s) (per_slab s) (slab_page_size s)
    (this_item_list s) (f (item_count s)) (evict_count s) (item_total_count s)
    (evict_total_count s) (full_pages_no s) (partial_pages_no s) (free_pages_no s)
    (evict_index s) (slab_free_pages s) (full_pages s) (partial_pages s).
Definition set_evict_count f (s : slab_manager) : slab_manager :=
  mk_slab_manager (slab_id s) (slab_size s) (per_slab s) (slab_page_size s)
    (this_item_list s) (item_count s) (f (evict_count s)) (item_total_count s)
    (evict_total_count s) (full_pages_no s) (partial_pages_no s) (free_pages_no s)
    (evict_index s) (slab_free_pages s) (full_pages s) (partial_pages s).
Definition set_item_total_count f (s : slab_manager) : slab_manager :=
  mk_slab_manager (slab_id s) (slab_size s) (per_slab s) (slab_page_size s)
    (this_item_list s) (item_count s) (evict_count s) (f (item_total_count s))
    (evict_total_count s) (full_pages_no s) (partial_pages_no s) (free_pages_no s)
    (evict_index s) (slab_free_pages s) (full_pages s) (partial_pages s).
Definition set_evict_total_count f (s : slab_manager) : slab_manager :=
  mk_slab_manager (slab_id s) (slab_size s) (per_slab s) (slab_page_size s)
    (this_item_list s) (item_count s) (evict_count s) (item_total_count s) (f
    (evict_total_count s)) (full_pages_no s) (partial_pages_no s) (free_pages_no s)
    (evict_index s) (slab_free_pages s) (full_pages s) (partial_pages s).
Definition set_full_pages_no f (s : slab_manager) : slab_manager :=
  mk_slab_manager (slab_id s) (slab_size s) (per_slab s) (slab_page_size s)
    (this_item_list s) (item_count s) (evict_count s) (item_total_count s)
    (evict_total_count s) (f (full_pages_no s)) (partial_pages_no s) (free_pages_no s)
    (evict_index s) (slab_free_pages s) (full_pages s) (partial_pages s).
Definition set_partial_pages_no f (s : slab_manager) : slab_manager :=
  mk_slab_manager (slab_id s) (slab_size s) (per_slab s) (slab_page_size s)
    (this_item_list s) (item_count s) (evict_count s) (item_total_count s)
    (evict_total_count s) (full_pages_no s) (f (partial_pages_no s)) (free_pages_no s)
    (evict_index s) (slab_free_pages s) (full_pages s) (partial_pages s).
Definition set_free_pages_no f (s : slab_manager) : slab_manager :=
  mk_slab_manager (slab_id s) (slab_size s) (per_slab s) (slab_page_size s)
    (this_item_list s) (item_count s) (evict_count s) (item_total_count s)
    (evict_total_count s) (full_pages_no s) (partial_pages_no s) (f (free_pages_no s))
    (evict_index s) (slab_free_pages s) (full_pages s) (partial_pages s).
Definition set_evict_index f (s : slab_manager) : slab_manager :=
  mk_slab_manager (slab_id s) (slab_size s) (per_slab s) (slab_page_size s)
    (this_item_list s) (item_count s) (evict_count s) (item_total_count s)
    (evict_total_count s) (full_pages_no s) (partial_pages_no s) (free_pages_no s) (f
    (evict_index s)) (slab_free_pages s) (full_pages s) (partial_pages s).
Definition set_slab_free_pages f (s : slab_manager) : slab_manager :=
  mk_slab_manager (slab_id s) (slab_size s) (per_slab s) (slab_page_size s)
    (this_item_list s) (item_count s) (evict_count s) (item_total_count s)
    (evict_total_count s) (full_pages_no s) (partial_pages_no s) (free_pages_no s)
    (evict_index s) (f (slab_free_pages s)) (full_pages s) (partial_pages s).
Definition set_full_pages f (s : slab_manager) : slab_manager :=
  mk_slab_manager (slab_id s) (slab_size s) (per_slab s) (slab_page_size s)
    (this_item_list s) (item_count s) (evict_count s) (item_total_count s)
    (evict_total_count s) (full_pages_no s) (partial_pages_no s) (free_pages_no s)
    (evict_index s) (slab_free_pages s) (f (full_pages s)) (partial_pages s).
Definition set_partial_pages f (s : slab_manager) : slab_manager :=
  mk_slab_manager (slab_id s) (slab_size s) (per_slab s) (slab_page_size s)
    (this_item_list s) (item_count s) (evict_count s) (item_total_count s)
    (evict_total_count s) (full_pages_no s) (partial_pages_no s) (free_pages_no s)
    (evict_index s) (slab_free_pages s) (full_pages s) (f (partial_pages s)).

(** [mdb_area_stat] *)
Record mdb_area_stat := mk_mdb_area_stat {
  quota : Z; data_size : Z; space_usage : Z; area_item_count : Z; hit_count : Z;
  get_count : Z; put_count : Z; remove_count : Z; evict_count_stat : Z
}.
Definition set_quota f (s : mdb_area_stat) : mdb_area_stat :=
  mk_mdb_area_stat (f (quota s)) (data_size s) (space_usage s) (area_item_count s)
    (hit_count s) (get_count s) (put_count s) (remove_count s) (evict_count_stat s).
Definition set_data_size f (s : mdb_area_stat) : mdb_area_stat :=
  mk_mdb_area_stat (quota s) (f (data_size s)) (space_usage s) (area_item_count s)
    (hit_count s) (get_count s) (put_count s) (remove_count s) (evict_count_stat s).
Definition set_space_usage f (s : mdb_area_stat) : mdb_area_stat :=
  mk_mdb_area_stat (quota s) (data_size s) (f (space_usage s)) (area_item_count s)
    (hit_count s) (get_count s) (put_count s) (remove_count s) (evict_count_stat s).
Definition set_area_item_count f (s : mdb_area_stat) : mdb_area_stat :=
  mk_mdb_area_stat (quota s) (data_size s) (space_usage s) (f (area_item_count s))
    (hit_count s) (get_count s) (put_count s) (remove_count s) (evict_count_stat s).
Definition set_hit_count f (s : mdb_area_stat) : mdb_area_stat :=
  mk_mdb_area_stat (quota s) (data_size s) (space_usage s) (area_item_count s) (f
    (hit_count s)) (get_count s) (put_count s) (remove_count s) (evict_count_stat s).
Definition set_get_count f (s : mdb_area_stat) : mdb_area_stat :=
  mk_mdb_area_stat (quota s) (data_size s) (space_usage s) (area_item_count s)
    (hit_count s) (f (get_count s)) (put_count s) (remove_count s) (evict_count_stat
    s).
Definition set_put_count f (s : mdb_area_stat) : mdb_area_stat :=
  mk_mdb_area_stat (quota s) (data_size s) (space_usage s) (area_item_count s)
    (hit_count s) (get_count s) (f (put_count s)) (remove_count s) (evict_count_stat
    s).
Definition set_remove_count f (s : mdb_area_stat) : mdb_area_stat :=
  mk_mdb_area_stat (quota s) (data_size s) (space_usage s) (area_item_count s)
    (hit_count s) (get_count s) (put_count s) (f (remove_count s)) (evict_count_stat
    s).
Definition set_evict_count_stat f (s : mdb_area_stat) : mdb_area_stat :=
  mk_mdb_area_stat (quota s) (data_size s) (space_usage s) (area_item_count s)
    (hit_count s) (get_count s) (put_count s) (remove_count s) (f (evict_count_stat
    s)).
Definition zero_area_stat : mdb_area_stat := mk_mdb_area_stat 0 0 0 0 0 0 0 0 0.

(** [cache_hash_map]: [hash_manager] and the table *)
Record hash_map := mk_hash_map { bucket_size : Z; hash_item_count : Z; hashtable : gmap Z Z }.

Record mdb := mk_mdb {
  m_pool : mem_pool; m_pages : gmap Z page_info; m_items : gmap loc mdb_item;
  m_slabs : list slab_manager; m_hash : hash_map; m_stat : gmap Z mdb_area_stat; m_now : Z
}.
Definition set_m_pool f (s : mdb) : mdb :=
  mk_mdb (f (m_pool s)) (m_pages s) (m_items s) (m_slabs s) (m_hash s) (m_stat s)
    (m_now s).
Definition set_m_pages f (s : mdb) : mdb :=
  mk_mdb (m_pool s) (f (m_pages s)) (m_items s) (m_slabs s) (m_hash s) (m_stat s)
    (m_now s).
Definition set_m_items f (s : mdb) : mdb :=
  mk_mdb (m_pool s) (m_pages s) (f (m_items s)) (m_slabs s) (m_hash s) (m_stat s)
    (m_now s).
Definition set_m_slabs f (s : mdb) : mdb :=
  mk_mdb (m_pool s) (m_pages s) (m_items s) (f (m_slabs s)) (m_hash s) (m_stat s)
    (m_now s).
Definition set_m_hash f (s : mdb) : mdb :=
  mk_mdb (m_pool s) (m_pages s) (m_items s) (m_slabs s) (f (m_hash s)) (m_stat s)
    (m_now s).
Definition set_m_stat f (s : mdb) : mdb :=
  mk_mdb (m_pool s) (m_pages s) (m_items s) (m_slabs s) (m_hash s) (f (m_stat s))
    (m_now s).

(** ** Memory access *)

Definition mdbM (A : Type) : Type := stM mdb A.

(** [id_to_item(id)] *)
Definition id_to_item (id : Z) : mdbM loc := need* negb (id =? 0) in sret (loc_of id).

Definition get_item (l : loc) : mdbM mdb_item := fun s =>
  match m_items s !! l with Some it => Ret (it, s) | None => Overrun end.
Definition set_item (l : loc) (it : mdb_item) : mdbM unit :=
  smodify (set_m_items <[l := it]>).
Definition update_item_field (l : loc) (f : mdb_item -> mdb_item) : mdbM unit :=
  let* it := get_item l in set_item l (f it).

(** [PAGE_INFO(this_mem_pool->index_to_page(index))] *)
Definition get_page (index : Z) : mdbM page_info := fun s =>
  let! _ := index_to_page (m_pool s) index in
  match m_pages s !! index with Some info => Ret (info, s) | None => Overrun end.
Definition update_page (index : Z) (f : page_info -> page_info) : mdbM unit :=
  let* info := get_page index in smodify (set_m_pages <[index := f info]>).

(** The slab manager numbered [i] *)
Definition get_slab (i : Z) : mdbM slab_manager := fun s =>
  match m_slabs s !! Z.to_nat i with Some sm => Ret (sm, s) | None => Overrun end.
Definition update_slab (i : Z) (f : slab_manager -> slab_manager) : mdbM unit :=
  let* sm := get_slab i in smodify (set_m_slabs <[Z.to_nat i := f sm]>).

Definition area_get {A} (d : A) (m : gmap Z A) (i : Z) : A := default d (m !! i).
Definition area_upd {A} (d : A) (f : A -> A) (i : Z) (m : gmap Z A) : gmap Z A :=
  <[i := f (area_get d m i)]> m.

(** [area_stat[area]], an array of [TAIR_MAX_AREA_COUNT] *)
Definition get_stat (area : Z) : mdbM mdb_area_stat := fun s =>
  if (0 <=? area) && (area <? TAIR_MAX_AREA_COUNT)
  then Ret (area_get zero_area_stat (m_stat s) area, s) else Overrun.
Definition update_stat (area : Z) (f : mdb_area_stat -> mdb_area_stat) : mdbM unit :=
  let* st := get_stat area in smodify (set_m_stat <[area := f st]>).

(** ** slab_manager: lists of pages *)

Definition partial_pages_bucket_no (sm : slab_manager) : Z :=
  (per_slab sm + PARTIAL_PAGE_BUCKET - 1) / PARTIAL_PAGE_BUCKET.

(** The heads of page lists a [uint32_t &page_head] refers to. *)
Inductive page_head := FreePages | FullPages | PartialPages (bucket : Z).

Definition read_head (i : Z) (h : page_head) : mdbM Z :=
  let* sm := get_slab i in
  match h with
  | FreePages => sret (slab_free_pages sm)
  | FullPages => sret (full_pages sm)
  | PartialPages b =>
      if (0 <=? b) && (b <? partial_pages_bucket_no sm)
      then sret (area_get 0 (partial_pages sm) b) else slift Overrun
  end.

Definition write_head (i : Z) (h : page_head) (v : Z) : mdbM unit :=
  let* sm := get_slab i in
  match h with
  | FreePages => update_slab i (set_slab_free_pages (fun _ => v))
  | FullPages => update_slab i (set_full_pages (fun _ => v))
  | PartialPages b =>
      if (0 <=? b) && (b <? partial_pages_bucket_no sm)
      then update_slab i (set_partial_pages <[b := v]>) else slift Overrun
  end.

(** [link_page(info, page_head)] *)
Definition link_page (i page : Z) (h : page_head) : mdbM unit :=
  let* head := read_head i h in
  let* _ := update_page page (set_pi_prev (fun _ => 0)) in
  let* _ := update_page page (set_pi_next (fun _ => head)) in
  let* info := get_page page in
  let* _ := (if negb (pi_next info =? 0)
             then update_page (pi_next info) (set_pi_prev (fun _ => pi_id info))
             else sret tt) in
  write_head i h (pi_id info).

(** [unlink_page(info, page_head)] *)
Definition unlink_page (i page : Z) (h : page_head) : mdbM unit :=
  let* info := get_page page in
  let* head := read_head i h in
  let* _ := (if pi_id info =? head then write_head i h (pi_next info) else sret tt) in
  let* _ := (if negb (pi_next info =? 0)
             then update_page (pi_next info) (set_pi_prev (fun _ => pi_prev info)) else sret tt) in
  let* info := get_page page in
  let* _ := (if negb (pi_prev info =? 0)
             then update_page (pi_prev info) (set_pi_next (fun _ => pi_next info)) else sret tt) in
  update_page page (fun info => set_pi_prev (fun _ => 0) (set_pi_next (fun _ => 0) info)).

(** [get_partial_page_id]: the first non-empty list of partly used pages *)
Fixpoint first_partial (n : nat) (b : Z) (m : gmap Z Z) : Z :=
  match n with
  | O => 0
  | S n' => if negb (area_get 0 m b =? 0) then area_get 0 m b else first_partial n' (b + 1) m
  end.
Definition get_partial_page_id (sm : slab_manager) : Z :=
  first_partial (Z.to_nat (partial_pages_bucket_no sm)) 0 (partial_pages sm).

(** [get_the_most_free_items_of_partial_page_id]: the last non-empty one *)
Fixpoint last_partial (n : nat) (m : gmap Z Z) : Z :=
  match n with
  | O => 0
  | S n' => if negb (area_get 0 m (Z.of_nat n') =? 0) then area_get 0 m (Z.of_nat n')
            else last_partial n' m
  end.
Definition get_the_most_free_items_of_partial_page_id (sm : slab_manager) : Z :=
  last_partial (Z.to_nat (partial_pages_bucket_no sm)) (partial_pages sm).

(** [init_page(page, index)]: the page is cleared and divided into [per_slab]
    free items, chained by [h_next]. *)
Definition fresh_item (sm : slab_manager) (index i : Z) : mdb_item :=
  mk_mdb_item
    (if i + 1 =? per_slab sm then 0 else ITEM_ID (slab_size sm) (i + 1) index (slab_id sm))
    0 0 0 0 0 0 0 (ITEM_ID (slab_size sm) i index (slab_id sm))
    (replicate (Z.to_nat (slab_size sm - sizeof_mdb_item)) 0).

Fixpoint init_items (n : nat) (sm : slab_manager) (index : Z) (items : gmap loc mdb_item)
  : gmap loc mdb_item :=
  match n with
  | O => items
  | S n' => <[(index, slab_size sm, Z.of_nat n') := fresh_item sm index (Z.of_nat n')]>
              (init_items n' sm index items)
  end.

Definition init_page (i index : Z) : mdbM unit :=
  let* sm := get_slab i in
  let* _ := smodify (set_m_pages <[index := mk_page_info index (per_slab sm) 0 0
                                     (ITEM_ID (slab_size sm) 0 index (slab_id sm))]>) in
  smodify (set_m_items (fun items =>
    init_items (Z.to_nat (per_slab sm)) sm index (filter (fun kv => kv.1.1.1 <> index) items))).

(** The page pool's operations on the shared state *)
Definition pool_alloc_page : mdbM (option (Z * Z)) := fun s =>
  let! (r, p) := alloc_page (m_pool s) in Ret (r, set_m_pool (fun _ => p) s).
Definition pool_free_page (index : Z) : mdbM unit := fun s =>
  let! p := free_page (m_pool s) index in Ret (tt, set_m_pool (fun _ => p) s).

(** [pre_alloc(pages)] *)
Fixpoint pre_alloc_loop (n : nat) (i allocated : Z) : mdbM Z :=
  match n with
  | O => sret allocated
  | S n' =>
      let* r := pool_alloc_page in
      match r with
      | None => sret allocated
      | Some (index, _) =>
          let* _ := update_slab i (set_free_pages_no (fun x => x + 1)) in
          let* _ := init_page i index in
          let* _ := link_page i index FreePages in
          pre_alloc_loop n' i (allocated + 1)
      end
  end.
Definition pre_alloc (i pages : Z) : mdbM Z :=
  need* 0 <? pages in pre_alloc_loop (Z.to_nat pages) i 0.

(** ** slab_manager: lists of items *)

Definition item_list_get (sm : slab_manager) (area : Z) : Z * Z :=
  area_get (0, 0) (this_item_list sm) area.

(** [link_item(item, area)]: to the front of the area's list *)
Definition link_item (i : Z) (l : loc) (area : Z) : mdbM unit :=
  let* it := get_item l in
  need* negb (item_id it =? 0) in
  need* area <? TAIR_MAX_AREA_COUNT in
  let* sm := get_slab i in
  let '(head, tail) := item_list_get sm area in
  let* _ := update_item_field l (fun it => set_prev (fun _ => 0) (set_next (fun _ => head) it)) in
  let* it := get_item l in
  let* _ := (if negb (next it =? 0) then
               let* old_head := id_to_item (next it) in
               update_item_field old_head (set_prev (fun _ => item_id it))
             else sret tt) in
  let tail := if tail =? 0 then item_id it else tail in
  update_slab i (set_this_item_list <[area := (item_id it, tail)]>).

(** [unlink_item(item)] *)
Definition unlink_item (i : Z) (l : loc) : mdbM unit :=
  let* it := get_item l in
  need* negb (item_id it =? 0) in
  need* ITEM_AREA it <? TAIR_MAX_AREA_COUNT in
  let* sm := get_slab i in
  let '(head, tail) := item_list_get sm (ITEM_AREA it) in
  let head := if itemid_equal (item_id it) head then next it else head in
  let tail := if itemid_equal (item_id it) tail then prev it else tail in
  let* _ := update_slab i (set_this_item_list <[ITEM_AREA it := (head, tail)]>) in
  let* _ := (if negb (prev it =? 0) then
               let* p := id_to_item (prev it) in
               update_item_field p (set_next (fun _ => next it))
             else sret tt) in
  let* it := get_item l in
  if negb (next it =? 0) then
    let* n := id_to_item (next it) in
    update_item_field n (set_prev (fun _ => prev it))
  else sret tt.

(** [slab_manager::update_item(item, area)] *)
Definition slab_update_item (i : Z) (l : loc) (area : Z) : mdbM unit :=
  let* _ := unlink_item i l in link_item i l area.

(** [alloc_new_item(area)]: [None] when the pool has no page left *)
Definition alloc_new_item (i area : Z) : mdbM (option loc) :=
  let* sm := get_slab i in
  let* chosen :=
    (if 0 <? partial_pages_no sm then
       let page := get_partial_page_id sm in
       need* 0 <? page in
       let* info := get_page page in
       need* 0 <? free_nr info in
       need* negb (free_head info =? 0) in
       need* free_nr info <=? per_slab sm in
       let* _ := unlink_page i page (PartialPages (free_nr info / PARTIAL_PAGE_BUCKET)) in
       sret (Some (page, free_head info))
     else if 0 <? free_pages_no sm then
       let page := slab_free_pages sm in
       let* info := get_page page in
       need* free_nr info =? per_slab sm in
       need* negb (free_head info =? 0) in
       let* _ := unlink_page i page FreePages in
       let* _ := update_slab i (set_free_pages_no (fun x => x - 1)) in
       let* _ := update_slab i (set_partial_pages_no (fun x => x + 1)) in
       sret (Some (page, free_head info))
     else
       let* r := pool_alloc_page in
       match r with
       | None => sret None
       | Some (index, _) =>
           let* _ := init_page i index in
           let* info := get_page index in
           let* _ := update_slab i (set_partial_pages_no (fun x => x + 1)) in
           sret (Some (index, free_head info))
       end) in
  match chosen with
  | None => sret None
  | Some (page, id) =>
      let* _ := update_page page (set_free_nr (fun x => x - 1)) in
      let* info := get_page page in
      let* _ :=
        (if free_nr info =? 0 then
           let* _ := link_page i page FullPages in
           let* _ := update_slab i (set_full_pages_no (fun x => x + 1)) in
           let* _ := update_slab i (set_partial_pages_no (fun x => x - 1)) in
           update_page page (set_free_head (fun _ => 0))
         else link_page i page (PartialPages (free_nr info / PARTIAL_PAGE_BUCKET))) in
      need* 0 <? id in
      let* _ := update_slab i (set_item_total_count (fun x => u64 (x + 1))) in
      let* l := id_to_item id in
      let* it := get_item l in
      let* _ := update_page page (set_free_head (fun _ => h_next it)) in
      let* _ := link_item i l area in
      let* it := get_item l in
      let* info := get_page page in
      need* item_id it =? id in
      need* negb (negb (free_nr info =? 0) && (free_head info =? 0)) in
      need* negb (free_nr info =? 0) || (free_head info =? 0) in
      sret (Some l)
  end.

(** [free_item(item)] of the slab manager *)
Definition slab_free_item (i : Z) (l : loc) : mdbM unit :=
  let* it := get_item l in
  need* negb (item_id it =? 0) in
  let* _ := update_slab i (set_item_total_count (fun x => u64 (x - 1))) in
  let* _ := unlink_item i l in
  let page := PAGE_ID (item_id it) in
  let* info := get_page page in
  let* _ :=
    (if free_nr info =? 0 then
       let* _ := unlink_page i page FullPages in
       let* _ := update_slab i (set_full_pages_no (fun x => x - 1)) in
       update_slab i (set_partial_pages_no (fun x => x + 1))
     else
       need* negb (free_head info =? 0) in
       unlink_page i page (PartialPages (free_nr info / PARTIAL_PAGE_BUCKET))) in
  let* _ := update_item_field l (fun it => set_next (fun _ => 0) (set_prev (fun _ => 0) it)) in
  let* info := get_page page in
  let* _ := update_item_field l (set_h_next (fun _ => free_head info)) in
  let* it := get_item l in
  let* _ := update_page page (set_free_head (fun _ => item_id it)) in
  let* _ := update_page page (set_free_nr (fun x => x + 1)) in
  let* info := get_page page in
  let* sm := get_slab i in
  if free_nr info =? per_slab sm then
    let* _ := update_slab i (set_partial_pages_no (fun x => x - 1)) in
    let* sm := get_slab i in
    if free_pages_no sm + full_pages_no sm + partial_pages_no sm <=? 1 then
      let* _ := link_page i page FreePages in
      update_slab i (set_free_pages_no (fun x => x + 1))
    else pool_free_page (pi_id info)
  else link_page i page (PartialPages (free_nr info / PARTIAL_PAGE_BUCKET)).

(** ** Eviction *)

(** [enum alloc_type] *)
Definition ALLOC_NEW : Z := 0.
Definition ALLOC_EXPIRED : Z := 1.
Definition ALLOC_EVICT_SELF : Z := 2.
Definition ALLOC_EVICT_ANY : Z := 3.

Definition is_expired (now : Z) (it : mdb_item) : bool :=
  (0 <? exptime it) && (exptime it <? now).

(** [while(times-- > 0 && pos != 0)]: an expired item among the last [times]. *)
Fixpoint find_expired (times : nat) (pos : Z) : mdbM (option loc) :=
  match times with
  | O => sret None
  | S times' =>
      if pos =? 0 then sret None
      else
        let* l := id_to_item pos in
        let* it := get_item l in
        let* s := sget in
        if is_expired (u32 (m_now s)) it then sret (Some l)
        else find_expired times' (prev it)
  end.

(** [evict_self(type)]: [None] when the area has no item in this slab, else the
    item and the type *)
Definition evict_self (i area : Z) : mdbM (option (loc * Z)) :=
  let* sm := get_slab i in
  let tail := (item_list_get sm area).2 in
  if tail =? 0 then sret None
  else
    let* found := find_expired 50 tail in
    let* (l, type) :=
      match found with
      | Some l => sret (l, ALLOC_EXPIRED)
      | None =>
          let* l := id_to_item tail in
          let* it := get_item l in
          need* ITEM_AREA it =? area in
          sret (l, ALLOC_EVICT_SELF)
      end in
    let* _ := update_item_field l (set_item_id CLEAR_FLAGS) in
    let* it := get_item l in
    let* _ := slab_update_item i l (ITEM_AREA it) in
    sret (Some (l, type)).

(** The scan over the areas of [evict_any]; [n] turns are left before the
    [assert(false)]. *)
Fixpoint find_any (n : nat) (i : Z) : mdbM loc :=
  match n with
  | O => slift Abort
  | S n' =>
      let* sm := get_slab i in
      let pos := (item_list_get sm (evict_index sm)).2 in
      if negb (pos =? 0) then id_to_item pos
      else
        let next := if TAIR_MAX_AREA_COUNT <=? evict_index sm + 1 then 0 else evict_index sm + 1 in
        let* _ := update_slab i (set_evict_index (fun _ => next)) in
        find_any n' i
  end.

(** [evict_any(type)] *)
Definition evict_any (i area : Z) : mdbM (loc * Z) :=
  need* area <? TAIR_MAX_AREA_COUNT in
  let* sm := get_slab i in
  let* _ := (if TAIR_MAX_AREA_COUNT <=? evict_index sm
             then update_slab i (set_evict_index (fun _ => 0)) else sret tt) in
  let* l := find_any (S (Z.to_nat TAIR_MAX_AREA_COUNT)) i in
  let* it := get_item l in
  let* s := sget in
  let type := if is_expired (u32 (m_now s)) it then ALLOC_EXPIRED else ALLOC_EVICT_ANY in
  let* _ := update_item_field l (set_item_id CLEAR_FLAGS) in
  let* _ := slab_update_item i l area in
  sret (l, type).

(** [mdb_manager::is_quota_exceed(area)], which the slab manager calls *)
Definition is_quota_exceed (area : Z) : mdbM bool :=
  need* (0 <=? area) && (area <? TAIR_MAX_AREA_COUNT) in
  let* st := get_stat area in
  sret (quota st <=? data_size st).

(** [slab_manager::alloc_item(type)]: the labels of the [goto]s, one step at a
    label (the next label, or the item and its type), and the run. *)
Inductive alloc_label := L_ALLOC_NEW | L_EVICT_SELF | L_EVICT_ANY.

Definition count_at (f : Z -> Z) (area : Z) : gmap Z Z -> gmap Z Z :=
  area_upd 0 (fun x => u64 (f x)) area.

Definition alloc_at (i area : Z) (exceed : bool) (lb : alloc_label)
  : mdbM (alloc_label + (loc * Z)) :=
  match lb with
  | L_ALLOC_NEW =>
      let* r := alloc_new_item i area in
      match r with
      | None => sret (inl (if exceed then L_EVICT_ANY else L_EVICT_SELF))
      | Some l =>
          let* _ := update_slab i (set_item_count (count_at (fun x => x + 1) area)) in
          sret (inr (l, ALLOC_NEW))
      end
  | L_EVICT_SELF =>
      let* r := evict_self i area in
      match r with
      | None => sret (inl (if exceed then L_ALLOC_NEW else L_EVICT_ANY))
      | Some (l, type) =>
          let* _ :=
            (if (type =? ALLOC_EVICT_SELF) && negb exceed then
               let* _ := update_slab i (set_evict_total_count (fun x => u64 (x + 1))) in
               update_slab i (set_evict_count (count_at (fun x => x + 1) area))
             else sret tt) in
          sret (inr (l, type))
      end
  | L_EVICT_ANY =>
      let* (l, type) := evict_any i area in
      let* it := get_item l in
      let* _ :=
        (if type =? ALLOC_EVICT_ANY then
           let* _ := update_slab i (set_evict_total_count (fun x => u64 (x + 1))) in
           update_slab i (set_evict_count (count_at (fun x => x + 1) (ITEM_AREA it)))
         else sret tt) in
      let* _ := update_slab i (set_item_count (count_at (fun x => x - 1) (ITEM_AREA it))) in
      let* _ := update_slab i (set_item_count (count_at (fun x => x + 1) area)) in
      sret (inr (l, type))
  end.

Fixpoint alloc_run (fuel : nat) (i area : Z) (exceed : bool) (lb : alloc_label)
  : mdbM (loc * Z) :=
  match fuel with
  | O => slift Diverge
  | S fuel' =>
      let* r := alloc_at i area exceed lb in
      match r with
      | inl lb => alloc_run fuel' i area exceed lb
      | inr result => sret result
      end
  end.

Definition slab_alloc_item (i area : Z) : mdbM (loc * Z) :=
  need* area <? TAIR_MAX_AREA_COUNT in
  let* exceed := is_quota_exceed area in
  alloc_run 3 i area exceed (if exceed then L_EVICT_SELF else L_ALLOC_NEW).

(** ** mem_cache *)

(** [get_slabmng(size)]: the first slab whose items are large enough *)
Fixpoint find_slab (slabs : list slab_manager) (i : Z) (size : Z) : option Z :=
  match slabs with
  | [] => None
  | sm :: slabs' => if size <=? slab_size sm then Some i else find_slab slabs' (i + 1) size
  end.
Definition get_slabmng (size : Z) : mdbM (option Z) := fun s =>
  Ret (find_slab (m_slabs s) 0 size, s).

(** [mem_cache::alloc_item(size, type)] *)
Definition cache_alloc_item (size area : Z) : mdbM (option (loc * Z)) :=
  let* slab := get_slabmng size in
  match slab with
  | None => sret None
  | Some i => let* r := slab_alloc_item i area in sret (Some r)
  end.

(** [mem_cache::update_item(item)], [mem_cache::free_item(item)] *)
Definition cache_update_item (l : loc) : mdbM unit :=
  let* it := get_item l in
  slab_update_item (SLAB_ID (item_id it)) l (ITEM_AREA it).
Definition cache_free_item (l : loc) : mdbM unit :=
  let* it := get_item l in
  slab_free_item (SLAB_ID (item_id it)) l.

(** [get_slabs_count], [get_item_head(slab_id, area)] *)
Definition get_slabs_count (s : mdb) : Z := Z.of_nat (length (m_slabs s)).
Definition get_item_head (i area : Z) : mdbM Z :=
  let* s := sget in
  need* i <? get_slabs_count s in
  need* area <? TAIR_MAX_AREA_COUNT in
  let* sm := get_slab i in
  sret (item_list_get sm area).1.

(** [balance_slab_done] *)
Definition balance_slab_done : mdbM unit :=
  smodify (set_m_slabs (map (set_evict_total_count (fun _ => 0)))).

(** [sizeof(slab_manager)] and the room for the slab managers in shared memory *)
Definition sizeof_slab_manager : Z := 32848.
Definition MEMCACHE_META_LEN : Z := sizeof_slab_manager * 100.

(** [slab_initialize()]: the slab managers, with one page each while the pool
    has any.  [scale x] is [(int)(x * factor)], computed in floating point;
    [start] is the size of the next slab; the result is [total_size]. *)
Fixpoint slab_loop (n : nat) (scale : Z -> Z) (psize : Z) (i start total_size : Z) : mdbM Z :=
  match n with
  | O => sret total_size
  | S n' =>
      let end_ := psize - sizeof_page_info in
      if start <=? end_ then
        let start := if end_ / 2 <? start then end_ else start in
        let sm := mk_slab_manager i start (end_ / start) psize ∅ ∅ ∅ 0 0 0 0 0 0 0 0 ∅ in
        let* _ := smodify (set_m_slabs (fun slabs => slabs ++ [sm])) in
        let* _ := pre_alloc i 1 in
        let total_size := total_size + sizeof_slab_manager + partial_pages_bucket_no sm * 4 in
        slab_loop n' scale psize (i + 1) (ALIGN (scale start)) total_size
      else sret total_size
  end.
Definition slab_initialize (scale : Z -> Z) (max_slab_id base_size : Z) : mdbM unit :=
  let* s := sget in
  let base_size := if base_size <? sizeof_mdb_item + 16 then ALIGN (sizeof_mdb_item + 16)
                   else base_size in
  let psize := page_size (m_pool s) in
  need* base_size <? psize in
  let* total_size := slab_loop (Z.to_nat max_slab_id) scale psize 0 base_size 0 in
  need* total_size <? MEMCACHE_META_LEN in
  sret tt.
