(* ===== verification/Dll.v ===== *)
(** * Doubly linked lists in a store

    The memory engine keeps its items and pages in doubly linked lists whose
    links are 64-bit ids or page numbers.  Here the lists are studied once,
    for nodes of any kind: [pv] and [nx] read the two links of a node, [names
    o x] says the link [x] points to the node [o] (or nowhere).  [dseg p ls q]
    is the segment [ls] between the nodes [p] and [q]. *)

From S2P Require Import Prelude.

Section dll.
Context {K : Type} (names : option K -> Z -> Prop).

Definition links : Type := K -> option (Z * Z).

(** The first node of [ls], or what follows it. *)
Definition first (ls : list K) (q : option K) : option K :=
  match ls with [] => q | l :: _ => Some l end.

(** The last node of [ls], or what precedes it. *)
Fixpoint final (p : option K) (ls : list K) : option K :=
  match ls with [] => p | l :: ls' => final (Some l) ls' end.

Fixpoint dseg (lk : links) (p : option K) (ls : list K) (q : option K) : Prop :=
  match ls with
  | [] => True
  | l :: ls' =>
      (exists x y, lk l = Some (x, y) /\ names p x /\ names (first ls' q) y)
      /\ dseg lk (Some l) ls' q
  end.

Lemma first_app l1 l2 q : first (l1 ++ l2) q = first l1 (first l2 q).
Proof. by destruct l1. Qed.

Lemma final_app p l1 l2 : final p (l1 ++ l2) = final (final p l1) l2.
Proof. revert p. induction l1; intros; simpl; auto. Qed.

Lemma dseg_app lk p l1 l2 q :
  dseg lk p (l1 ++ l2) q <-> dseg lk p l1 (first l2 q) /\ dseg lk (final p l1) l2 q.
Proof.
  revert p. induction l1 as [|l l1 IH]; intros p; simpl; [tauto|].
  rewrite IH, first_app. tauto.
Qed.

(** Only the links of the nodes of a segment matter. *)
Lemma dseg_frame lk lk' p ls q :
  (forall l, l ∈ ls -> lk' l = lk l) -> dseg lk p ls q -> dseg lk' p ls q.
Proof.
  revert p. induction ls as [|l ls IH]; intros p H; simpl; [done|].
  intros [(x & y & E & Hx & Hy) Hs]. split.
  - exists x, y. rewrite H by left. done.
  - apply IH; [|done]. intros l' Hl'. apply H. by right.
Qed.

(** Redirecting the first node backwards, or the last one forwards. *)
Lemma dseg_set_first lk lk' p p' l ls q x' :
  NoDup (l :: ls) -> names p' x' ->
  (forall y, y ∈ ls -> lk' y = lk y) ->
  (forall x y, lk l = Some (x, y) -> lk' l = Some (x', y)) ->
  dseg lk p (l :: ls) q -> dseg lk' p' (l :: ls) q.
Proof.
  intros Hnd Hx' Hf Hl [(x & y & E & Hx & Hy) Hs]. split.
  - exists x', y. split; [by apply (Hl x)|done].
  - by apply (dseg_frame lk).
Qed.

Lemma dseg_set_last lk lk' p ls l q q' y' :
  NoDup (ls ++ [l]) -> names q' y' ->
  (forall z, z ∈ ls -> lk' z = lk z) ->
  (forall x y, lk l = Some (x, y) -> lk' l = Some (x, y')) ->
  dseg lk p (ls ++ [l]) q -> dseg lk' p (ls ++ [l]) q'.
Proof.
  intros Hnd Hy' Hf Hl. rewrite !dseg_app. simpl.
  intros [H1 [(x & y & E & Hx & Hy) _]]. split; [by apply (dseg_frame lk)|].
  split; [|done]. exists x, y'. split; [by apply (Hl x y)|done].
Qed.

(** ** Linking a node at the front *)

Lemma dseg_link lk lk' l ls zero head id :
  NoDup (l :: ls) -> names None zero -> names (first ls None) head -> names (Some l) id ->
  lk' l = Some (zero, head) ->
  (forall z, z ∈ tail ls -> lk' z = lk z) ->
  (forall f, first ls None = Some f -> forall x y, lk f = Some (x, y) -> lk' f = Some (id, y)) ->
  dseg lk None ls None -> dseg lk' None (l :: ls) None.
Proof.
  intros Hnd Hz Hh Hid Hl Hrest Hf Hs. split; [by exists zero, head|].
  destruct ls as [|f ls]; [done|]. apply (dseg_set_first lk _ None _ _ _ _ id); try done.
  - by apply list.NoDup_cons in Hnd as [_ ?].
  - by apply Hf.
Qed.

(** ** Unlinking a node *)

(** The links after [l] was taken out of [ls1 ++ l :: ls2]: its neighbours
    point to each other. *)
Definition bypass `{EqDecision K} (x y : Z) (ls1 ls2 : list K) (lk : links) : links := fun z =>
  match lk z with
  | Some (a, b) =>
      Some (if decide (first ls2 None = Some z) then x else a,
            if decide (final None ls1 = Some z) then y else b)
  | None => None
  end.

Lemma final_snoc p ls l : final p (ls ++ [l]) = Some l.
Proof. by rewrite final_app. Qed.

Lemma dseg_unlink `{EqDecision K} lk lk' ls1 l ls2 x y :
  NoDup (ls1 ++ l :: ls2) -> lk l = Some (x, y) ->
  dseg lk None (ls1 ++ l :: ls2) None ->
  (forall z, z ∈ ls1 ++ ls2 -> lk' z = bypass x y ls1 ls2 lk z) ->
  names (final None ls1) x /\ names (first ls2 None) y /\ dseg lk' None (ls1 ++ ls2) None.
Proof.
  intros Hnd El. rewrite dseg_app. simpl. intros [H1 [(x' & y' & E & Hx & Hy) H2]] Hlk.
  rewrite E in El. injection El as -> ->. split; [done|]. split; [done|].
  apply list.NoDup_app in Hnd as (Hn1 & Hdis & Hn2). apply list.NoDup_cons in Hn2 as [Hl2 Hn2].
  rewrite dseg_app. split.
  - destruct ls1 as [|l1 ls1 _] using rev_ind; [done|].
    apply (dseg_set_last lk _ None ls1 l1 (Some l) _ y); try done.
    + intros z Hz. rewrite Hlk by set_solver. unfold bypass. rewrite final_snoc.
      destruct (lk z) as [[a b]|]; [|done]. apply list.NoDup_app in Hn1 as (_ & Hd1 & _).
      rewrite decide_False by (destruct ls2; set_solver).
      rewrite decide_False by (intros [= ->]; set_solver). done.
    + intros a b Ez. rewrite Hlk by set_solver. unfold bypass. rewrite final_snoc, Ez.
      rewrite decide_False by (destruct ls2; set_solver). by rewrite decide_True.
  - destruct ls2 as [|l2 ls2]; [done|].
    apply (dseg_set_first lk _ (Some l) _ _ _ _ x); try done.
    + intros z Hz. rewrite Hlk by set_solver. unfold bypass. simpl first.
      destruct (lk z) as [[a b]|]; [|done]. apply list.NoDup_cons in Hn2 as [? _].
      rewrite decide_False by (intros [= ->]; done).
      rewrite decide_False; [done|]. destruct ls1 as [|l1 ls1 _] using rev_ind; [done|].
      rewrite final_snoc. set_solver.
    + intros a b Ez. rewrite Hlk by set_solver. unfold bypass. simpl first. rewrite Ez.
      rewrite decide_True by done. rewrite decide_False; [done|].
      destruct ls1 as [|l1 ls1 _] using rev_ind; [done|]. rewrite final_snoc. set_solver.
Qed.
End dll.
