(* ===== verification/SlabLists.v ===== *)
(** * The lists of a slab manager (storage/mdb/mem_cache.cpp)

    [link_item], [unlink_item] and [update_item] refine operations on lists of
    items, [link_page] and [unlink_page] operations on lists of pages. *)

From S2P Require Import Prelude Dll MemPool MdbItem MemCache.

(** ** Running the memory accesses *)

Lemma get_item_run l it s : m_items s !! l = Some it -> get_item l s = Ret (it, s).
Proof. unfold get_item. by intros ->. Qed.

Lemma update_item_field_run l f it s :
  m_items s !! l = Some it -> update_item_field l f s = Ret (tt, set_m_items <[l := f it]> s).
Proof. intros H. unfold update_item_field. by rewrite (sbind_run _ _ _ _ _ (get_item_run _ _ _ H)). Qed.

Lemma get_slab_run i sm s : m_slabs s !! Z.to_nat i = Some sm -> get_slab i s = Ret (sm, s).
Proof. unfold get_slab. by intros ->. Qed.

Lemma update_slab_run i f sm s :
  m_slabs s !! Z.to_nat i = Some sm ->
  update_slab i f s = Ret (tt, set_m_slabs <[Z.to_nat i := f sm]> s).
Proof. intros H. unfold update_slab. by rewrite (sbind_run _ _ _ _ _ (get_slab_run _ _ _ H)). Qed.

Lemma id_to_item_run x s : x <> 0 -> id_to_item x s = Ret (loc_of x, s).
Proof. intros H. unfold id_to_item. rewrite sassert_run; [done|]. by apply negb_true_iff, Z.eqb_neq. Qed.

(** ** Names of items *)

(** A slot that an id can name. *)
Definition loc_ok (l : loc) : Prop :=
  in_u 16 l.1.1 /\ in_u 20 l.1.2 /\ 0 < l.1.2 /\ in_u 16 l.2.

(** The id, without flags, of the item of slab [i] at [l]. *)
Definition cid (i : Z) (l : loc) : Z := ITEM_ID l.1.2 l.2 l.1.1 i.

(** [item_names i o x]: the link [x] of slab [i] points to the item at [o],
    whatever its flags, or is 0. *)
Definition item_names (i : Z) (o : option loc) (x : Z) : Prop :=
  match o with
  | None => x = 0
  | Some l => loc_ok l /\ in_u 8 i /\ CLEAR_FLAGS x = cid i l
  end.

Lemma cid_loc i l : loc_ok l -> in_u 8 i -> loc_of (cid i l) = l /\ SLAB_ID (cid i l) = i.
Proof.
  intros (Hp & Hs & _ & Ho) Hi. destruct l as [[p z] o]. unfold cid, loc_of. simpl in *.
  by rewrite PAGE_ID_ITEM_ID, SLAB_SIZE_ITEM_ID, PAGE_OFFSET_ITEM_ID, SLAB_ID_ITEM_ID.
Qed.

Lemma names_loc i l x : item_names i (Some l) x -> loc_of x = l /\ SLAB_ID x = i.
Proof.
  intros (Hl & Hi & Hc). destruct (cid_loc i l Hl Hi) as [El Ei].
  destruct (CLEAR_FLAGS_same x) as [E1 E2]. by rewrite <- E1, <- E2, Hc.
Qed.

Lemma names_nonzero i l x : item_names i (Some l) x -> x <> 0.
Proof.
  intros H ->. destruct (names_loc i l 0 H) as [<- _]. destruct H as [(_ & _ & Hs & _) _].
  vm_compute in Hs. done.
Qed.

Lemma names_clear i l x : item_names i (Some l) x -> item_names i (Some l) (CLEAR_FLAGS x).
Proof.
  intros (Hl & Hi & Hc). split; [done|]. split; [done|].
  rewrite (same_item_clear _ x) by apply CLEAR_FLAGS_same. done.
Qed.

Lemma names_flags i l x v : item_names i (Some l) x -> item_names i (Some l) (SET_ITEM_FLAGS x v).
Proof.
  intros (Hl & Hi & Hc). split; [done|]. split; [done|].
  by rewrite (same_item_clear _ x) by apply SET_ITEM_FLAGS_same.
Qed.

(** An assertion that holds. *)
Ltac need_true := rewrite sassert_run;
  [|first [assumption | apply Z.ltb_lt; lia | apply negb_true_iff, Z.eqb_neq; assumption
          | apply negb_true_iff, Z.eqb_neq; eapply names_nonzero; eassumption]].

(** Two links name the same item exactly when [itemid_equal] says so. *)
Lemma names_equal i l o x y :
  item_names i (Some l) x -> item_names i o y -> itemid_equal x y = bool_decide (o = Some l).
Proof.
  intros Hx Hy. pose proof (names_loc _ _ _ Hx) as [Ex Sx]. apply eq_true_iff_eq.
  rewrite itemid_equal_spec, bool_decide_eq_true. unfold same_item. rewrite Ex, Sx.
  destruct o as [l'|].
  - destruct (names_loc _ _ _ Hy) as [Ey Sy]. rewrite Ey, Sy.
    split; [by intros [_ ->]|by intros [= ->]].
  - simpl in Hy. subst y. split; [|done]. intros [_ E].
    destruct Hx as [(_ & _ & Hs & _) _]. rewrite E in Hs. vm_compute in Hs. done.
Qed.

(** ** Lists of items *)

Definition item_links (items : gmap loc mdb_item) : links := fun l =>
  match items !! l with Some it => Some (prev it, next it) | None => None end.

(** [item_dll i items ls head tail]: the list of slab [i] from [head] to
    [tail] holds the items [ls]. *)
Record item_dll (i : Z) (items : gmap loc mdb_item) (ls : list loc) (head tail : Z) : Prop := {
  dll_nodup : NoDup ls;
  dll_seg : dseg (item_names i) (item_links items) None ls None;
  dll_head : item_names i (first ls None) head;
  dll_tail : item_names i (final None ls) tail;
  dll_ids : forall l, l ∈ ls -> exists it, items !! l = Some it /\ item_names i (Some l) (item_id it)
}.

(** The rest of an item: everything but its two list links. *)
Definition core (it : mdb_item) : mdb_item := set_prev (fun _ => 0) (set_next (fun _ => 0) it).

(** [relinked items items' ls]: only list links of the items [ls] differ. *)
Definition relinked (items items' : gmap loc mdb_item) (ls : list loc) : Prop :=
  core <$> items' = core <$> items /\ forall l, l ∉ ls -> items' !! l = items !! l.

Lemma relinked_core items items' ls l it :
  relinked items items' ls -> items !! l = Some it ->
  exists it', items' !! l = Some it' /\ core it' = core it.
Proof.
  intros [Hc _] Hl. assert ((core <$> items') !! l = Some (core it)) as H
    by (rewrite Hc, lookup_fmap, Hl; done).
  rewrite lookup_fmap in H. destruct (items' !! l) as [it'|]; [|done].
  exists it'. split; [done|]. by apply (inj Some).
Qed.

Lemma core_id it it' : core it' = core it -> item_id it' = item_id it.
Proof. intros H. by apply (f_equal item_id) in H. Qed.

(** The core of an item holds all the table and the pages look at. *)
Lemma core_fields it it' :
  core it' = core it ->
  h_next it' = h_next it /\ key_len it' = key_len it /\ data_len it' = data_len it
  /\ data it' = data it /\ exptime it' = exptime it
  /\ version it' = version it /\ item_id it' = item_id it
  /\ update_time it' = update_time it.
Proof. intros H. destruct it, it'. injection H. intros. simpl. by subst. Qed.

Lemma core_lookup items items' l it :
  core <$> items' = core <$> (items : gmap loc mdb_item) -> items !! l = Some it ->
  exists it', items' !! l = Some it' /\ core it' = core it.
Proof.
  intros Hc Hl. assert ((core <$> items') !! l = Some (core it)) as H
    by (rewrite Hc, lookup_fmap, Hl; done).
  rewrite lookup_fmap in H. destruct (items' !! l) as [it'|]; [|done].
  exists it'. split; [done|]. by apply (inj Some).
Qed.

(** Changing the links of one item. *)
Lemma relinked_insert items l it it' ls :
  items !! l = Some it -> core it' = core it -> l ∈ ls -> relinked items (<[l := it']> items) ls.
Proof.
  intros Hl Hc Hin. split.
  - rewrite fmap_insert, Hc, <- fmap_insert. by rewrite insert_id.
  - intros l' Hl'. apply lookup_insert_ne. set_solver.
Qed.

Lemma relinked_trans items items1 items2 ls :
  relinked items items1 ls -> relinked items1 items2 ls -> relinked items items2 ls.
Proof. intros [H1 H2] [H3 H4]. split; [congruence|]. intros l Hl. rewrite H4, H2; done. Qed.

(** A list none of whose items was touched is still there. *)
Lemma item_dll_frame i items items' ls head tail :
  (forall l, l ∈ ls -> items' !! l = items !! l) ->
  item_dll i items ls head tail -> item_dll i items' ls head tail.
Proof.
  intros Hf [Hn Hs Hh Ht Hi]. constructor; try done.
  - eapply dseg_frame; [|exact Hs]. intros l Hl. unfold item_links. by rewrite Hf.
  - intros l Hl. rewrite Hf by done. by apply Hi.
Qed.

Lemma relinked_ids items items' ls0 (i : Z) l :
  relinked items items' ls0 ->
  (exists it, items !! l = Some it /\ item_names i (Some l) (item_id it)) ->
  exists it, items' !! l = Some it /\ item_names i (Some l) (item_id it).
Proof.
  intros Hr (it & Hl & Hn). destruct (relinked_core _ _ _ _ _ Hr Hl) as (it' & Hl' & Hc).
  exists it'. split; [done|]. by rewrite (core_id _ _ Hc).
Qed.

(** What an operation on the item lists of slab [i] leaves: the list of [area]
    replaced, only list links of the items [ls] changed, the rest untouched. *)
Definition lists_state (i : Z) (sm : slab_manager) (area head tail : Z)
    (items : gmap loc mdb_item) (s : mdb) : mdb :=
  set_m_slabs <[Z.to_nat i := set_this_item_list <[area := (head, tail)]> sm]>
    (set_m_items (fun _ => items) s).

Lemma first_in {K} (ls : list K) l : first ls None = Some l -> l ∈ ls.
Proof. destruct ls; [done|]. intros [= ->]. by left. Qed.

Lemma final_in {K} (ls : list K) l : final None ls = Some l -> l ∈ ls.
Proof.
  destruct ls as [|x ls _] using rev_ind; [done|]. rewrite final_snoc.
  intros [= ->]. apply elem_of_app. right. by apply list_elem_of_singleton.
Qed.

Lemma elem_of_mid {K} (l : K) ls1 ls2 : l ∈ ls1 ++ l :: ls2.
Proof. apply elem_of_app. right. by left. Qed.

Lemma elem_of_around {K} (z l : K) ls1 ls2 : z ∈ ls1 ++ ls2 -> z ∈ ls1 ++ l :: ls2.
Proof. rewrite !elem_of_app, elem_of_cons. tauto. Qed.

Lemma first_zero i (ls : list loc) head :
  item_names i (first ls None) head -> head = 0 <-> ls = [].
Proof.
  destruct ls as [|l ls]; simpl; [done|]. intros H. split; [|done].
  intros ->. by apply names_nonzero in H.
Qed.

Lemma final_zero i (ls : list loc) tail :
  item_names i (final None ls) tail -> tail = 0 <-> ls = [].
Proof.
  destruct ls as [|l ls _] using rev_ind; [done|]. rewrite final_snoc. intros H. split.
  - intros ->. by apply names_nonzero in H.
  - intros E. by destruct ls.
Qed.

Section link.
Context (i : Z) (l : loc) (area : Z) (s : mdb) (it : mdb_item) (sm : slab_manager)
  (head tail : Z) (ls : list loc).
Hypothesis Hit : m_items s !! l = Some it.
Hypothesis Hid : item_names i (Some l) (item_id it).
Hypothesis Hsm : m_slabs s !! Z.to_nat i = Some sm.
Hypothesis Harea : area < TAIR_MAX_AREA_COUNT.
Hypothesis Hlist : item_list_get sm area = (head, tail).
Hypothesis Hdll : item_dll i (m_items s) ls head tail.
Hypothesis Hnew : l ∉ ls.

Let tail' := if tail =? 0 then item_id it else tail.

(** The items after the link, given the items after the front item was redirected. *)
Lemma link_item_dll items' :
  relinked (m_items s) items' (l :: ls) ->
  item_links items' l = Some (0, head) ->
  (forall z, z ∈ List.tail ls -> items' !! z = m_items s !! z) ->
  (forall f it0, first ls None = Some f -> m_items s !! f = Some it0 ->
     items' !! f = Some (set_prev (fun _ => item_id it) it0)) ->
  item_dll i items' (l :: ls) (item_id it) tail'.
Proof.
  intros Hr Hl Hrest Hf. destruct Hdll as [Hn Hs Hh Ht Hi]. constructor.
  - by apply list.NoDup_cons.
  - apply (dseg_link _ (item_links (m_items s)) _ l ls 0 head (item_id it)); try done.
    + by apply list.NoDup_cons.
    + intros z Hz. unfold item_links. by rewrite Hrest.
    + intros f Hff x y. unfold item_links. destruct (m_items s !! f) as [it0|] eqn:E; [|done].
      intros [= <- <-]. by rewrite (Hf f it0).
  - done.
  - unfold tail'. destruct (Z.eqb_spec tail 0) as [E|E].
    + apply (final_zero i ls tail Ht) in E as ->. done.
    + destruct ls as [|z ls']; [|done]. simpl in Ht. done.
  - intros z [->|Hz]%elem_of_cons; eapply relinked_ids; try done; [by exists it|by apply Hi].
Qed.

Lemma link_item_spec :
  exists items', link_item i l area s = Ret (tt, lists_state i sm area (item_id it) tail' items' s)
    /\ item_dll i items' (l :: ls) (item_id it) tail' /\ relinked (m_items s) items' (l :: ls).
Proof.
  set (it1 := set_prev (fun _ => 0) (set_next (fun _ => head) it)).
  set (s1 := set_m_items <[l := it1]> s).
  assert (m_items s1 !! l = Some it1) as Hit1 by apply lookup_insert_eq.
  unfold link_item. step_with (get_item_run _ _ _ Hit).
  need_true.
  need_true. step_with (get_slab_run _ _ _ Hsm). rewrite Hlist.
  step_with (update_item_field_run l (fun it => set_prev (fun _ => 0) (set_next (fun _ => head) it))
               it s Hit).
  step_with (get_item_run _ _ _ Hit1). change (next it1) with head. change (item_id it1) with (item_id it).
  assert (relinked (m_items s) (m_items s1) (l :: ls)) as Hr1.
  { apply (relinked_insert _ _ it); [done|done|by left]. }
  destruct (Z.eqb_spec head 0) as [E|E]; cbn [negb].
  - apply (first_zero i ls head (dll_head _ _ _ _ _ Hdll)) in E as Els.
    rewrite (sbind_run _ _ _ tt s1) by done. cbv beta.
    rewrite (update_slab_run i _ sm) by done. exists (m_items s1). split; [done|].
    split; [|done]. apply link_item_dll; try done.
    + unfold item_links. by rewrite Hit1.
    + rewrite Els. intros z Hz. by apply elem_of_nil in Hz.
    + by rewrite Els.
  - destruct (first ls None) as [f|] eqn:Ef.
    2: { pose proof (dll_head _ _ _ _ _ Hdll) as Hh. by rewrite Ef in Hh. }
    pose proof (dll_head _ _ _ _ _ Hdll) as Hh. rewrite Ef in Hh.
    destruct (names_loc _ _ _ Hh) as [Eloc _].
    destruct (dll_ids _ _ _ _ _ Hdll f (first_in _ _ Ef)) as (it0 & Hit0 & _).
    assert (f <> l) as Hfl by (intros ->; by apply Hnew, first_in).
    assert (m_items s1 !! f = Some it0) as Hit01 by (simpl; by rewrite lookup_insert_ne).
    rewrite (sbind_run _ _ _ tt (set_m_items <[f := set_prev (fun _ => item_id it) it0]> s1)).
    2: { rewrite (sbind_run _ _ _ _ _ (id_to_item_run _ _ E)), Eloc. by apply update_item_field_run. }
    cbv beta. rewrite (update_slab_run i _ sm) by done.
    eexists. split; [reflexivity|].
    assert (relinked (m_items s) (<[f := set_prev (fun _ => item_id it) it0]> (m_items s1)) (l :: ls)) as Hr2.
    { eapply relinked_trans; [exact Hr1|]. apply (relinked_insert _ _ it0); [done|done|].
      right. by apply first_in. }
    split; [|exact Hr2]. apply link_item_dll; try done.
    + unfold item_links. simpl. rewrite lookup_insert_ne by done. by rewrite lookup_insert_eq.
    + intros z Hz. pose proof (dll_nodup _ _ _ _ _ Hdll) as Hn.
      destruct ls as [|f' ls']; [done|]. injection Ef as ->. apply list.NoDup_cons in Hn as [Hf' _].
      simpl in Hz. change (m_items s1) with (<[l := it1]> (m_items s)). rewrite !lookup_insert_ne; [done|..]; intros ->; [apply Hnew; by right|done].
    + intros f' it0' Ef' E0. rewrite Ef in Ef'. injection Ef' as <-.
      rewrite Hit0 in E0. injection E0 as <-. apply lookup_insert_eq.
Qed.
End link.

Lemma names_zero i o x : item_names i o x -> x = 0 <-> o = None.
Proof.
  destruct o as [l|]; [|done]. intros H. split; [|done]. intros ->. by apply names_nonzero in H.
Qed.

Lemma alter_as_insert {A} (f : A -> A) (k : loc) (m : gmap loc A) x :
  m !! k = Some x -> alter f k m = <[k := f x]> m.
Proof.
  intros H. apply map_eq. intros j. destruct (decide (k = j)) as [->|D].
  - by rewrite lookup_alter_eq, lookup_insert_eq, H.
  - by rewrite lookup_alter_ne, lookup_insert_ne.
Qed.

(** Updating the item a link points to, if any. *)
Lemma relink_run x f s :
  (x <> 0 -> is_Some (m_items s !! loc_of x)) ->
  (if negb (x =? 0) then let* p := id_to_item x in update_item_field p f else sret tt) s
  = Ret (tt, set_m_items (fun items => if x =? 0 then items else alter f (loc_of x) items) s).
Proof.
  intros H. destruct (Z.eqb_spec x 0) as [E|E]; cbn [negb]; [by destruct s|].
  destruct (H E) as [itx Ex]. step_with (id_to_item_run _ s E).
  rewrite (update_item_field_run _ _ itx) by done. unfold set_m_items.
  by rewrite (alter_as_insert f _ _ itx).
Qed.

(** The items after [unlink_item]: the neighbours of [it] point to each other. *)
Definition unlinked (it : mdb_item) (items : gmap loc mdb_item) : gmap loc mdb_item :=
  let items := if prev it =? 0 then items
               else alter (set_next (fun _ => next it)) (loc_of (prev it)) items in
  if next it =? 0 then items else alter (set_prev (fun _ => prev it)) (loc_of (next it)) items.

Lemma unlinked_lookup i it items po no z :
  item_names i po (prev it) -> item_names i no (next it) ->
  unlinked it items !! z =
  (fun iz => (if decide (no = Some z) then set_prev (fun _ => prev it) else (fun x => x))
             ((if decide (po = Some z) then set_next (fun _ => next it) else (fun x => x)) iz))
  <$> items !! z.
Proof.
  intros Hp Hn. unfold unlinked.
  assert ((if prev it =? 0 then items
           else alter (set_next (fun _ => next it)) (loc_of (prev it)) items) !! z
          = (if decide (po = Some z) then set_next (fun _ => next it) else (fun x => x)) <$> items !! z)
    as E1.
  { pose proof (names_zero _ _ _ Hp) as Hz. destruct (Z.eqb_spec (prev it) 0) as [E|E].
    - apply Hz in E as ->. rewrite decide_False by done. by destruct (items !! z).
    - destruct po as [p|]; [|tauto]. destruct (names_loc _ _ _ Hp) as [-> _].
      destruct (decide (p = z)) as [->|D].
      + by rewrite lookup_alter_eq, decide_True.
      + rewrite lookup_alter_ne, decide_False by congruence. by destruct (items !! z). }
  pose proof (names_zero _ _ _ Hn) as Hz. destruct (Z.eqb_spec (next it) 0) as [E|E].
  - apply Hz in E as ->. rewrite E1, (decide_False (P := None = Some z)) by done. done.
  - destruct no as [n|]; [|tauto]. destruct (names_loc _ _ _ Hn) as [-> _].
    destruct (decide (n = z)) as [->|D].
    + rewrite lookup_alter_eq, E1, (decide_True (P := Some z = Some z)) by done.
      by destruct (items !! z).
    + rewrite lookup_alter_ne, E1, (decide_False (P := Some n = Some z)) by congruence.
      by destruct (items !! z).
Qed.

Lemma unlinked_relinked i it items po no ls :
  item_names i po (prev it) -> item_names i no (next it) ->
  (forall p, po = Some p -> p ∈ ls) -> (forall n, no = Some n -> n ∈ ls) ->
  relinked items (unlinked it items) ls.
Proof.
  intros Hp Hn Hpl Hnl. split.
  - apply map_eq. intros z. rewrite !lookup_fmap, (unlinked_lookup i it items po no z Hp Hn).
    destruct (items !! z); [|done]. simpl. f_equal. by repeat case_decide.
  - intros z Hz. rewrite (unlinked_lookup i it items po no z Hp Hn).
    rewrite decide_False by (intros E; by apply Hz, Hnl).
    rewrite decide_False by (intros E; by apply Hz, Hpl). by destruct (items !! z).
Qed.

Section unlink.
Context (i : Z) (l : loc) (s : mdb) (it : mdb_item) (sm : slab_manager)
  (head tail : Z) (ls1 ls2 : list loc).
Hypothesis Hit : m_items s !! l = Some it.
Hypothesis Hsm : m_slabs s !! Z.to_nat i = Some sm.
Hypothesis Harea : ITEM_AREA it < TAIR_MAX_AREA_COUNT.
Hypothesis Hlist : item_list_get sm (ITEM_AREA it) = (head, tail).
Hypothesis Hdll : item_dll i (m_items s) (ls1 ++ l :: ls2) head tail.

Let head' := if itemid_equal (item_id it) head then next it else head.
Let tail' := if itemid_equal (item_id it) tail then prev it else tail.
Let items' := unlinked it (m_items s).

Lemma unlink_item_neighbours :
  item_names i (final None ls1) (prev it) /\ item_names i (first ls2 None) (next it)
  /\ dseg (item_names i) (item_links items') None (ls1 ++ ls2) None
  /\ item_names i (Some l) (item_id it).
Proof.
  destruct Hdll as [Hn Hs Hh Ht Hi].
  assert (item_names i (final None ls1) (prev it) /\ item_names i (first ls2 None) (next it)) as [Hp Hx].
  { apply dseg_app in Hs as [_ [(x & y & E & Hx & Hy) _]]. unfold item_links in E.
    rewrite Hit in E. injection E as <- <-. done. }
  destruct (dseg_unlink (item_names i) (item_links (m_items s)) (item_links items') ls1 l ls2
              (prev it) (next it)) as (_ & _ & Hseg); try done.
  - unfold item_links. by rewrite Hit.
  - intros z _. unfold item_links, bypass, items'.
    rewrite (unlinked_lookup i it _ _ _ z Hp Hx). destruct (m_items s !! z); [|done]. simpl.
    by repeat case_decide.
  - split; [done|]. split; [done|]. split; [done|].
    destruct (Hi l) as (it' & E & H); [by apply elem_of_mid|]. rewrite Hit in E. by injection E as <-.
Qed.

Lemma unlink_item_dll :
  item_dll i items' (ls1 ++ ls2) head' tail'
  /\ relinked (m_items s) items' (ls1 ++ ls2) /\ items' !! l = Some it.
Proof.
  destruct unlink_item_neighbours as (Hp & Hx & Hseg & Hid). destruct Hdll as [Hn Hs Hh Ht Hi].
  assert (relinked (m_items s) items' (ls1 ++ ls2)) as Hr.
  { apply (unlinked_relinked i it _ _ _ _ Hp Hx); intros z Hz; apply elem_of_app;
      [left; by apply final_in|right; by apply first_in]. }
  apply list.NoDup_app in Hn as (Hn1 & Hd & Hn2). apply list.NoDup_cons in Hn2 as [Hl Hn2].
  assert (l ∉ ls1) as Hl1 by (intros ?; by apply (Hd l); [|left]).
  split; [constructor|split; [done|]].
  - apply list.NoDup_app. split; [done|]. split; [|done]. intros z Hz Hz2. apply (Hd z); [done|by right].
  - done.
  - unfold head'. rewrite (names_equal i l _ _ _ Hid Hh). rewrite first_app in Hh |- *.
    destruct ls1 as [|z ls]; simpl in Hh |- *.
    + by rewrite bool_decide_true.
    + rewrite bool_decide_false; [done|]. intros [= ->]. apply Hl1. by left.
  - unfold tail'. rewrite (names_equal i l _ _ _ Hid Ht). rewrite !final_app. rewrite final_app in Ht.
    simpl final in Ht |- *. destruct ls2 as [|z ls _] using rev_ind.
    + simpl. by rewrite bool_decide_true.
    + rewrite final_snoc in Ht. rewrite !final_snoc, bool_decide_false; [done|].
      intros [= ->]. apply Hl, elem_of_app. right. by left.
  - intros z Hz. eapply relinked_ids; [exact Hr|]. by apply Hi, elem_of_around.
  - destruct Hr as [_ Hr]. rewrite Hr; [done|]. rewrite elem_of_app. tauto.
Qed.

Lemma unlink_item_spec :
  unlink_item i l s = Ret (tt, lists_state i sm (ITEM_AREA it) head' tail' items' s).
Proof.
  destruct unlink_item_neighbours as (Hp & Hx & Hseg & Hid).
  destruct unlink_item_dll as (_ & _ & Hl').
  unfold unlink_item. step_with (get_item_run _ _ _ Hit). need_true. need_true.
  step_with (get_slab_run _ _ _ Hsm). rewrite Hlist.
  fold head' tail'.
  step_with (update_slab_run i (set_this_item_list <[ITEM_AREA it := (head', tail')]>) sm s Hsm).
  set (s1 := set_m_slabs _ s).
  set (items1 := if prev it =? 0 then m_items s
                 else alter (set_next (fun _ => next it)) (loc_of (prev it)) (m_items s)).
  assert (forall o x, item_names i o x -> (forall z, o = Some z -> z ∈ ls1 ++ ls2) -> x <> 0 ->
            is_Some (m_items s !! loc_of x) /\ loc_of x <> l) as Hnb.
  { intros [z|] x Hz Hin Hne; [|done]. destruct (names_loc _ _ _ Hz) as [-> _].
    assert (z ∈ ls1 ++ ls2) as Hzin by by apply Hin.
    destruct (dll_ids _ _ _ _ _ Hdll z) as (itz & Ez & _); [by apply elem_of_around|].
    split; [done|]. intros ->.
    pose proof (dll_nodup _ _ _ _ _ Hdll) as Hn. apply list.NoDup_app in Hn as (_ & Hd & Hn2).
    apply list.NoDup_cons in Hn2 as [Hl _]. apply elem_of_app in Hzin as [?|?]; [|done].
    apply (Hd l); [done|by left]. }
  specialize (Hnb _ _ Hp) as Hnp. specialize (Hnb _ _ Hx) as Hnn.
  assert (forall z, final None ls1 = Some z -> z ∈ ls1 ++ ls2) as Hin1
    by (intros z Hz; apply elem_of_app; left; by apply final_in).
  assert (forall z, first ls2 None = Some z -> z ∈ ls1 ++ ls2) as Hin2
    by (intros z Hz; apply elem_of_app; right; by apply first_in).
  rewrite (sbind_run _ _ _ _ _ (relink_run (prev it) (set_next (fun _ => next it)) s1
             (fun Hne => proj1 (Hnp Hin1 Hne)))). cbv beta.
  fold items1. change (m_items s1) with (m_items s). fold items1.
  assert (items1 !! l = Some it) as Hl1.
  { subst items1. destruct (Z.eqb_spec (prev it) 0); [done|].
    rewrite lookup_alter_ne; [done|]. by apply Hnp. }
  step_with (get_item_run l it (set_m_items (fun _ => items1) s1) Hl1).
  rewrite relink_run; [done|]. intros Hne. cbn [m_items set_m_items].
  destruct (Hnn Hin2 Hne) as [[itn En] _]. subst items1.
  destruct (Z.eqb_spec (prev it) 0); [done|].
  destruct (decide (loc_of (prev it) = loc_of (next it))) as [->|D].
  - rewrite lookup_alter_eq, En. done.
  - rewrite lookup_alter_ne, En by done. done.
Qed.
End unlink.

(** ** All lists of a slab *)

(** [slab_lists i sm items lists]: the list of every area [a] of slab [i]
    holds the items [lists a], most recently used first; no item is in two
    lists. *)
Record slab_lists (i : Z) (sm : slab_manager) (items : gmap loc mdb_item)
    (lists : Z -> list loc) : Prop := {
  sl_dll : forall a, item_dll i items (lists a) (item_list_get sm a).1 (item_list_get sm a).2;
  sl_disjoint : forall a b l, l ∈ lists a -> l ∈ lists b -> a = b
}.

(** The state with the lists of slab [i] and links of items changed. *)
Definition same_but_lists (i : Z) (sm sm' : slab_manager) (s s' : mdb) : Prop :=
  (exists m, sm' = set_this_item_list (fun _ => m) sm)
  /\ m_slabs s' = <[Z.to_nat i := sm']> (m_slabs s)
  /\ m_pool s' = m_pool s /\ m_pages s' = m_pages s /\ m_hash s' = m_hash s
  /\ m_stat s' = m_stat s /\ m_now s' = m_now s
  /\ core <$> m_items s' = core <$> m_items s.

(** Items in none of the lists are untouched. *)
Definition untouched (lists : Z -> list loc) (s s' : mdb) : Prop :=
  forall z, (forall a, z ∉ lists a) -> m_items s' !! z = m_items s !! z.

(** The item [l] was put at the front of the list of [area]. *)
Definition listed (l : loc) (area : Z) (lists : Z -> list loc) : Z -> list loc :=
  <[area := l :: lists area]> lists.

Lemma item_list_get_insert sm a b ht :
  item_list_get (set_this_item_list <[a := ht]> sm) b = if decide (a = b) then ht else item_list_get sm b.
Proof.
  unfold item_list_get, area_get. cbn [this_item_list set_this_item_list].
  case_decide; subst; [by rewrite lookup_insert_eq|by rewrite lookup_insert_ne].
Qed.

Lemma filter_notin (l : loc) (ls : list loc) : l ∉ ls -> filter (.≠ l) ls = ls.
Proof.
  induction ls as [|z ls IH]; intros Hl; [done|]. apply not_elem_of_cons in Hl as [Hne Hl].
  rewrite filter_cons_True by congruence. by rewrite IH.
Qed.

Lemma lists_state_same i sm area head tail items s :
  core <$> items = core <$> m_items s ->
  same_but_lists i sm (set_this_item_list <[area := (head, tail)]> sm) s
    (lists_state i sm area head tail items s).
Proof.
  intros Hc. split; [by exists (<[area := (head, tail)]> (this_item_list sm))|].
  by repeat (split; [done|]).
Qed.

Lemma slab_link_item i l area s it sm lists :
  m_items s !! l = Some it -> item_names i (Some l) (item_id it) ->
  m_slabs s !! Z.to_nat i = Some sm -> area < TAIR_MAX_AREA_COUNT ->
  slab_lists i sm (m_items s) lists -> (forall a, l ∉ lists a) ->
  exists s' sm', link_item i l area s = Ret (tt, s') /\ same_but_lists i sm sm' s s'
    /\ slab_lists i sm' (m_items s') (listed l area lists)
    /\ untouched (listed l area lists) s s'.
Proof.
  unfold listed.
  intros Hit Hid Hsm Ha [Hd Hdis] Hnew.
  destruct (item_list_get sm area) as [head tail] eqn:Eht.
  pose proof (Hd area) as Hda. rewrite Eht in Hda. cbn [fst snd] in Hda.
  destruct (link_item_spec i l area s it sm head tail (lists area) Hit Hid Hsm Ha Eht Hda (Hnew area))
    as (items' & E & Hdll & Hr).
  eexists _, (set_this_item_list <[area := (item_id it, _)]> sm). split; [exact E|].
  split; [apply lists_state_same, Hr|]. split.
  2: { intros z Hz. apply Hr. specialize (Hz area). by rewrite fn_lookup_insert in Hz. }
  constructor; cbn [m_items lists_state set_m_items set_m_slabs].
  - intros a. rewrite item_list_get_insert. destruct (decide (area = a)) as [->|D].
    + by rewrite fn_lookup_insert.
    + rewrite fn_lookup_insert_ne by done. eapply item_dll_frame; [|apply Hd].
      intros z Hz. apply Hr. intros [->|Hz']%elem_of_cons; [by apply (Hnew a)|].
      by apply D, (Hdis _ _ z).
  - intros a b z. destruct (decide (area = a)) as [<-|Da], (decide (area = b)) as [<-|Db];
      rewrite ?fn_lookup_insert, ?fn_lookup_insert_ne by done; [done| | |apply Hdis].
    + intros [->|Hz]%elem_of_cons Hzb; [by destruct (Hnew b)|by apply (Hdis _ _ z)].
    + intros Hza [->|Hz]%elem_of_cons; [by destruct (Hnew a)|by apply (Hdis _ _ z)].
Qed.

Lemma removed_in l a b z (lists : Z -> list loc) :
  z ∈ (<[a := filter (.≠ l) (lists a)]> lists) b -> z ∈ lists b.
Proof.
  destruct (decide (a = b)) as [<-|D]; rewrite ?fn_lookup_insert, ?fn_lookup_insert_ne by done; [|done].
  by intros [_ ?]%list_elem_of_filter.
Qed.

Lemma slab_unlink_item i l s it sm lists :
  m_items s !! l = Some it -> m_slabs s !! Z.to_nat i = Some sm ->
  ITEM_AREA it < TAIR_MAX_AREA_COUNT ->
  slab_lists i sm (m_items s) lists -> l ∈ lists (ITEM_AREA it) ->
  exists s' sm', unlink_item i l s = Ret (tt, s') /\ same_but_lists i sm sm' s s'
    /\ slab_lists i sm' (m_items s') (<[ITEM_AREA it := filter (.≠ l) (lists (ITEM_AREA it))]> lists)
    /\ m_items s' !! l = Some it /\ untouched lists s s'.
Proof.
  intros Hit Hsm Ha [Hd Hdis] Hl. set (area := ITEM_AREA it) in *.
  destruct (item_list_get sm area) as [head tail] eqn:Eht.
  pose proof (Hd area) as Hda. rewrite Eht in Hda. cbn [fst snd] in Hda.
  destruct (list_elem_of_split _ _ Hl) as (ls1 & ls2 & Els).
  assert (filter (.≠ l) (lists area) = ls1 ++ ls2) as Ef.
  { pose proof (dll_nodup _ _ _ _ _ Hda) as Hn. rewrite Els in Hn |- *.
    apply list.NoDup_app in Hn as (_ & Hdj & Hn2). apply list.NoDup_cons in Hn2 as [Hn2 _].
    rewrite list.filter_app, filter_cons_False by tauto.
    rewrite !filter_notin; [done|done|]. intros Hz. apply (Hdj l); [done|by left]. }
  rewrite Els in Hda.
  pose proof (unlink_item_spec i l s it sm head tail ls1 ls2 Hit Hsm Ha Eht Hda) as E.
  destruct (unlink_item_dll i l s it head tail ls1 ls2 Hit Hda) as (Hdll & Hr & Hl').
  eexists _, (set_this_item_list <[area := (_, _)]> sm). split; [exact E|].
  split; [apply lists_state_same, Hr|].
  split; [|split; [done|]].
  2: { intros z Hz. apply Hr. intros Hz'. apply (Hz area). rewrite Els. by apply elem_of_around. }
  constructor; cbn [m_items lists_state set_m_items set_m_slabs].
  - intros a. rewrite item_list_get_insert. destruct (decide (area = a)) as [<-|D].
    + by rewrite fn_lookup_insert, Ef.
    + rewrite fn_lookup_insert_ne by done. eapply item_dll_frame; [|apply Hd].
      intros z Hz. apply Hr. intros Hz'. apply D, (Hdis _ _ z); [|done].
      rewrite Els. by apply elem_of_around.
  - assert (forall z, z ∈ filter (.≠ l) (lists area) -> z ∈ lists area) as Hsub
      by (intros z Hz; by apply list_elem_of_filter in Hz as [_ ?]).
    intros a b z. destruct (decide (area = a)) as [<-|Da], (decide (area = b)) as [<-|Db];
      rewrite ?fn_lookup_insert, ?fn_lookup_insert_ne by done; [done| | |apply Hdis]; eauto.
Qed.

Lemma same_but_lists_trans i sm sm1 sm2 s s1 s2 :
  same_but_lists i sm sm1 s s1 -> same_but_lists i sm1 sm2 s1 s2 -> same_but_lists i sm sm2 s s2.
Proof.
  intros ([m1 ->] & Hs1 & Hp1 & Hg1 & Hh1 & Ht1 & Hn1 & Hc1)
         ([m2 ->] & Hs2 & Hp2 & Hg2 & Hh2 & Ht2 & Hn2 & Hc2).
  split; [by exists m2|]. split; [by rewrite Hs2, Hs1, list_insert_insert_eq|].
  repeat (split; [congruence|]). congruence.
Qed.

Lemma same_but_lists_slab i sm sm' s s' :
  same_but_lists i sm sm' s s' -> m_slabs s !! Z.to_nat i = Some sm ->
  m_slabs s' !! Z.to_nat i = Some sm'.
Proof.
  intros (_ & Hs & _) Hsm. rewrite Hs. apply list_lookup_insert_eq. by eapply lookup_lt_Some.
Qed.

(** The lists after [l] was moved from the list of [a] to the front of [b]. *)
Definition moved (l : loc) (a b : Z) (lists : Z -> list loc) : Z -> list loc :=
  let lists' := <[a := filter (.≠ l) (lists a)]> lists in <[b := l :: lists' b]> lists'.

Lemma slab_update_item_spec i l area s it sm lists :
  m_items s !! l = Some it -> item_names i (Some l) (item_id it) ->
  m_slabs s !! Z.to_nat i = Some sm ->
  ITEM_AREA it < TAIR_MAX_AREA_COUNT -> area < TAIR_MAX_AREA_COUNT ->
  slab_lists i sm (m_items s) lists -> l ∈ lists (ITEM_AREA it) ->
  exists s' sm', slab_update_item i l area s = Ret (tt, s') /\ same_but_lists i sm sm' s s'
    /\ slab_lists i sm' (m_items s') (moved l (ITEM_AREA it) area lists)
    /\ untouched lists s s'.
Proof.
  intros Hit Hid Hsm Hia Ha Hl Hin.
  destruct (slab_unlink_item i l s it sm lists Hit Hsm Hia Hl Hin)
    as (s1 & sm1 & E1 & Hsame1 & Hl1 & Hit1 & Hout1).
  unfold slab_update_item. step_with E1.
  destruct (slab_link_item i l area s1 it sm1
              (<[ITEM_AREA it := filter (.≠ l) (lists (ITEM_AREA it))]> lists))
    as (s2 & sm2 & E2 & Hsame2 & Hl2 & Hout2); try done.
  - by eapply same_but_lists_slab.
  - intros a. destruct (decide (ITEM_AREA it = a)) as [<-|D].
    + rewrite fn_lookup_insert, list_elem_of_filter. tauto.
    + rewrite fn_lookup_insert_ne by done. intros H. by apply D, (sl_disjoint _ _ _ _ Hl _ _ l).
  - exists s2, sm2. split; [done|]. split; [by eapply same_but_lists_trans|]. split; [done|].
    intros z Hz. rewrite Hout2, Hout1; [done|done|]. intros a Ha'. unfold listed in Ha'.
    assert (z ∈ lists a \/ z = l) as [? | ->]; [|by eapply Hz|by eapply (Hz (ITEM_AREA it))].
    destruct (decide (area = a)) as [<-|D].
    + rewrite fn_lookup_insert in Ha'. apply elem_of_cons in Ha' as [->|Ha']; [by right|left].
      by apply removed_in in Ha'.
    + rewrite fn_lookup_insert_ne in Ha' by done. left. by apply removed_in in Ha'.
Qed.

(** ** Eviction *)

(** The item at a position of a list, found from the tail. *)
Lemma item_dll_last i items ls head tail :
  item_dll i items ls head tail -> tail <> 0 ->
  exists ls' l it, ls = ls' ++ [l] /\ loc_of tail = l /\ items !! l = Some it
    /\ item_names i (final None ls') (prev it).
Proof.
  intros Hd Ht. destruct ls as [|l ls' _] using rev_ind.
  { pose proof (dll_tail _ _ _ _ _ Hd). done. }
  pose proof (dll_tail _ _ _ _ _ Hd) as Hn. rewrite final_snoc in Hn.
  destruct (names_loc _ _ _ Hn) as [El _].
  pose proof (dll_seg _ _ _ _ _ Hd) as Hs. apply dseg_app in Hs as [_ [(x & y & E & Hx & _) _]].
  unfold item_links in E. destruct (items !! l) as [it|] eqn:Eit; [|done]. injection E as <- <-.
  by exists ls', l, it.
Qed.

(** [find_expired] looks at the items of the list from its end. *)
Fixpoint last_expired (times : nat) (now : Z) (items : gmap loc mdb_item) (rls : list loc) : option loc :=
  match times, rls with
  | S times', l :: rls' =>
      match items !! l with
      | Some it => if is_expired now it then Some l else last_expired times' now items rls'
      | None => None
      end
  | _, _ => None
  end.

Lemma find_expired_spec i times pos ls s :
  (forall l, l ∈ ls -> is_Some (m_items s !! l)) ->
  dseg (item_names i) (item_links (m_items s)) None ls None ->
  item_names i (final None ls) pos ->
  find_expired times pos s = Ret (last_expired times (u32 (m_now s)) (m_items s) (reverse ls), s).
Proof.
  assert (forall q, (forall l, l ∈ ls -> is_Some (m_items s !! l)) ->
    dseg (item_names i) (item_links (m_items s)) None ls q -> item_names i (final None ls) pos ->
    find_expired times pos s = Ret (last_expired times (u32 (m_now s)) (m_items s) (reverse ls), s))
    as H; [|apply H].
  revert pos ls. induction times as [|times IH]; intros pos ls q Hin Hs Hp; [done|].
  destruct ls as [|l ls _] using rev_ind.
  { simpl in Hp. subst pos. done. }
  rewrite final_snoc in Hp. cbn [find_expired].
  destruct (Z.eqb_spec pos 0) as [E|E]; [by apply names_nonzero in Hp|].
  step_with (id_to_item_run pos s E). destruct (names_loc _ _ _ Hp) as [-> _].
  apply dseg_app in Hs as [Hs1 [(x & y & Ex & Hx & _) _]]. unfold item_links in Ex.
  destruct (m_items s !! l) as [it|] eqn:Eit; [|done]. injection Ex as <- <-.
  step_with (get_item_run _ _ _ Eit). step_with (eq_refl : sget s = Ret (s, s)).
  rewrite reverse_app. simpl. rewrite Eit. destruct (is_expired (u32 (m_now s)) it); [done|].
  apply (IH _ ls (Some l)); [|done|done].
  intros z Hz. apply Hin, elem_of_app. by left.
Qed.

(** Clearing the flags of an item touches no list. *)
Lemma slab_lists_clear i sm items lists l it :
  items !! l = Some it -> slab_lists i sm items lists ->
  slab_lists i sm (<[l := set_item_id CLEAR_FLAGS it]> items) lists.
Proof.
  intros Hl [Hd Hdis]. constructor; [|done]. intros a. destruct (Hd a) as [Hn Hs Hh Ht Hi].
  constructor; try done.
  - eapply dseg_frame; [|exact Hs]. intros z _. unfold item_links.
    destruct (decide (l = z)) as [->|D]; [|by rewrite lookup_insert_ne].
    by rewrite lookup_insert_eq, Hl.
  - intros z Hz. destruct (Hi z Hz) as (itz & Ez & Hnz).
    destruct (decide (l = z)) as [->|D].
    + rewrite Hl in Ez. injection Ez as <-. rewrite lookup_insert_eq. eexists. split; [done|].
      by apply names_clear.
    + rewrite lookup_insert_ne by done. eauto.
Qed.

(** The item [evict_self] takes from a list: an expired one among the 50 least
    recently used, otherwise the least recently used one. *)
Definition victim (now : Z) (items : gmap loc mdb_item) (ls : list loc) : option (loc * Z) :=
  match last_expired 50 now items (reverse ls), reverse ls with
  | Some l, _ => Some (l, ALLOC_EXPIRED)
  | None, l :: _ => Some (l, ALLOC_EVICT_SELF)
  | None, [] => None
  end.

Lemma last_expired_in times now items rls l : last_expired times now items rls = Some l -> l ∈ rls.
Proof.
  revert rls. induction times as [|times IH]; intros [|z rls]; simpl; try done.
  destruct (items !! z) as [it|]; [|done]. destruct (is_expired now it).
  - intros [= ->]. by left.
  - intros H. right. by apply IH.
Qed.

Lemma victim_in now items ls l t : victim now items ls = Some (l, t) -> l ∈ ls.
Proof.
  unfold victim. intros H. apply elem_of_reverse.
  destruct (last_expired 50 now items (reverse ls)) as [z|] eqn:E.
  - injection H as <- <-. by eapply last_expired_in.
  - destruct (reverse ls); [done|]. injection H as <- <-. by left.
Qed.

(** Taking the item: its flags cleared, it goes to the front of its list. *)
Lemma evict_take i area s sm lists l type :
  m_slabs s !! Z.to_nat i = Some sm -> area < TAIR_MAX_AREA_COUNT ->
  slab_lists i sm (m_items s) lists ->
  (forall l it, l ∈ lists area -> m_items s !! l = Some it -> ITEM_AREA it = area) ->
  victim (u32 (m_now s)) (m_items s) (lists area) = Some (l, type) ->
  exists s' sm' it,
    (let* _ := update_item_field l (set_item_id CLEAR_FLAGS) in
     let* it := get_item l in
     let* _ := slab_update_item i l (ITEM_AREA it) in
     sret (Some (l, type))) s = Ret (Some (l, type), s')
    /\ m_items s !! l = Some it
    /\ same_but_lists i sm sm' (set_m_items <[l := set_item_id CLEAR_FLAGS it]> s) s'
    /\ slab_lists i sm' (m_items s') (moved l area area lists) /\ untouched lists s s'.
Proof.
  intros Hsm Ha Hl Harea Hv. pose proof (victim_in _ _ _ _ _ Hv) as Hin.
  destruct (dll_ids _ _ _ _ _ (sl_dll _ _ _ _ Hl area) l Hin) as (it & Eit & Hid).
  pose proof (Harea l it Hin Eit) as Eia.
  step_with (update_item_field_run l (set_item_id CLEAR_FLAGS) it s Eit).
  set (s1 := set_m_items _ s).
  assert (m_items s1 !! l = Some (set_item_id CLEAR_FLAGS it)) as Eit1 by apply lookup_insert_eq.
  step_with (get_item_run _ _ _ Eit1).
  destruct (slab_update_item_spec i l (ITEM_AREA (set_item_id CLEAR_FLAGS it)) s1
              (set_item_id CLEAR_FLAGS it) sm lists) as (s2 & sm2 & E2 & Hsame & Hl2 & Hout2);
    try done;
    try (change (ITEM_AREA (set_item_id CLEAR_FLAGS it)) with (ITEM_AREA it); by rewrite Eia).
  - by apply names_clear.
  - by apply slab_lists_clear.
  - step_with E2. exists s2, sm2, it. split; [done|]. split; [done|]. split; [done|].
    change (ITEM_AREA (set_item_id CLEAR_FLAGS it)) with (ITEM_AREA it) in Hl2.
    rewrite Eia in Hl2. split; [done|]. intros z Hz. rewrite Hout2 by done.
    cbn [m_items s1 set_m_items]. apply lookup_insert_ne. intros ->. by apply (Hz area).
Qed.

Lemma evict_self_spec i area s sm lists :
  m_slabs s !! Z.to_nat i = Some sm -> area < TAIR_MAX_AREA_COUNT ->
  slab_lists i sm (m_items s) lists ->
  (forall l it, l ∈ lists area -> m_items s !! l = Some it -> ITEM_AREA it = area) ->
  match victim (u32 (m_now s)) (m_items s) (lists area) with
  | None => evict_self i area s = Ret (None, s)
  | Some (l, type) =>
      exists s' sm' it, evict_self i area s = Ret (Some (l, type), s')
        /\ m_items s !! l = Some it
        /\ same_but_lists i sm sm' (set_m_items <[l := set_item_id CLEAR_FLAGS it]> s) s'
        /\ slab_lists i sm' (m_items s') (moved l area area lists) /\ untouched lists s s'
  end.
Proof.
  intros Hsm Ha Hl Harea. unfold evict_self. step_with (get_slab_run _ _ _ Hsm).
  destruct (sl_dll _ _ _ _ Hl area) as [Hn Hs Hh Ht Hi]. set (tail := (item_list_get sm area).2) in *.
  assert (forall l, l ∈ lists area -> is_Some (m_items s !! l)) as Hsome
    by (intros z Hz; destruct (Hi z Hz) as (? & -> & _); eauto).
  destruct (Z.eqb_spec tail 0) as [E|E].
  { apply (final_zero i _ _ Ht) in E as ->. done. }
  step_with (find_expired_spec i 50 tail (lists area) s Hsome Hs Ht).
  pose proof (fun l type => evict_take i area s sm lists l type Hsm Ha Hl Harea) as Htake.
  unfold victim in *.
  destruct (last_expired 50 _ _ (reverse (lists area))) as [l|] eqn:El.
  - rewrite (sbind_run _ _ s (l, ALLOC_EXPIRED) s) by done. by apply Htake.
  - destruct (item_dll_last i (m_items s) (lists area) _ tail (sl_dll _ _ _ _ Hl area) E)
      as (ls' & l & it & Els & Eloc & Eit & _).
    rewrite Els, reverse_app in Htake |- *. simpl in Htake |- *.
    destruct (Htake l ALLOC_EVICT_SELF) as (s' & sm' & it' & E2 & H); [done|].
    exists s', sm', it'. split; [|done].
    rewrite (sbind_run _ _ s (l, ALLOC_EVICT_SELF) s); [exact E2|].
    step_with (id_to_item_run tail s E). rewrite Eloc. step_with (get_item_run _ _ _ Eit).
    rewrite sassert_run; [done|]. apply Z.eqb_eq, (Harea l); [|done]. rewrite Els.
    apply elem_of_app. right. by left.
Qed.

(** ** alloc_item

    The order of attempts the comment in [slab_manager::alloc_item] describes:
    within the quota a new item, else one of the area's own, else any; above
    the quota one of the area's own, else a new item, else any. *)
Definition alloc_item_structured (i area : Z) : mdbM (loc * Z) :=
  let new otherwise :=
    let* r := alloc_new_item i area in
    match r with
    | Some l =>
        let* _ := update_slab i (set_item_count (count_at (fun x => x + 1) area)) in
        sret (l, ALLOC_NEW)
    | None => otherwise
    end in
  let own exceed otherwise :=
    let* r := evict_self i area in
    match r with
    | Some (l, type) =>
        let* _ :=
          (if (type =? ALLOC_EVICT_SELF) && negb exceed then
             let* _ := update_slab i (set_evict_total_count (fun x => u64 (x + 1))) in
             update_slab i (set_evict_count (count_at (fun x => x + 1) area))
           else sret tt) in
        sret (l, type)
    | None => otherwise
    end in
  let any :=
    let* (l, type) := evict_any i area in
    let* it := get_item l in
    let* _ :=
      (if type =? ALLOC_EVICT_ANY then
         let* _ := update_slab i (set_evict_total_count (fun x => u64 (x + 1))) in
         update_slab i (set_evict_count (count_at (fun x => x + 1) (ITEM_AREA it)))
       else sret tt) in
    let* _ := update_slab i (set_item_count (count_at (fun x => x - 1) (ITEM_AREA it))) in
    let* _ := update_slab i (set_item_count (count_at (fun x => x + 1) area)) in
    sret (l, type) in
  need* area <? TAIR_MAX_AREA_COUNT in
  let* exceed := is_quota_exceed area in
  if exceed then own true (new any) else new (own false any).


(** Running the labels one after the other. *)
Ltac through :=
  repeat first
    [ rewrite sbind_assoc; apply sbind_ext; intros ? ? _; cbv beta iota zeta
    | apply sbind_ext; intros ? ? _; cbv beta iota zeta
    | rewrite sbind_ret; cbv beta iota zeta ].

Lemma alloc_item_structured_eq i area s :
  slab_alloc_item i area s = alloc_item_structured i area s.
Proof.
  unfold slab_alloc_item, alloc_item_structured, sassert.
  destruct (area <? TAIR_MAX_AREA_COUNT); [|done].
  apply sbind_ext. intros exceed s0 _. destruct exceed; cbn [alloc_run alloc_at].
  - rewrite sbind_assoc. apply sbind_ext. intros [[l type]|] s1 _; [by through|].
    rewrite sbind_ret. cbn [alloc_run alloc_at]. rewrite sbind_assoc. apply sbind_ext. intros [l|] s2 _; [by through|].
    rewrite sbind_ret. cbn [alloc_run alloc_at]. rewrite sbind_assoc. apply sbind_ext. intros [l type] s3 _. by through.
  - rewrite sbind_assoc. apply sbind_ext. intros [l|] s1 _; [by through|].
    rewrite sbind_ret. cbn [alloc_run alloc_at]. rewrite sbind_assoc. apply sbind_ext. intros [[l type]|] s2 _; [by through|].
    rewrite sbind_ret. cbn [alloc_run alloc_at]. rewrite sbind_assoc. apply sbind_ext. intros [l type] s3 _. by through.
Qed.

(** ** Properties *)

(** least recently used order.  Touching an item ([update_item], called
    on every get and on eviction) takes it out of the list of its area and
    puts it at the front of the list of the given area; all other items of all
    areas keep their order, the lists stay well formed in both directions, and
    nothing but list links of listed items and list heads changes in memory. *)
Theorem update_item_moves_to_front i l area s it sm lists :
  m_items s !! l = Some it -> item_names i (Some l) (item_id it) ->
  m_slabs s !! Z.to_nat i = Some sm ->
  ITEM_AREA it < TAIR_MAX_AREA_COUNT -> area < TAIR_MAX_AREA_COUNT ->
  slab_lists i sm (m_items s) lists -> l ∈ lists (ITEM_AREA it) ->
  exists s' sm', slab_update_item i l area s = Ret (tt, s') /\ same_but_lists i sm sm' s s'
    /\ slab_lists i sm' (m_items s') (moved l (ITEM_AREA it) area lists)
    /\ untouched lists s s'.
Proof. apply slab_update_item_spec. Qed.

(** C21: eviction within an area takes the right item: an expired one if one
    of the 50 least recently used is, and the least recently used one
    otherwise; it fails exactly when the area has no item in the slab.  The
    item's flags are cleared and it becomes the most recently used one. *)
Theorem evict_self_takes_victim i area s sm lists :
  m_slabs s !! Z.to_nat i = Some sm -> area < TAIR_MAX_AREA_COUNT ->
  slab_lists i sm (m_items s) lists ->
  (forall l it, l ∈ lists area -> m_items s !! l = Some it -> ITEM_AREA it = area) ->
  match victim (u32 (m_now s)) (m_items s) (lists area) with
  | None => evict_self i area s = Ret (None, s)
  | Some (l, type) =>
      exists s' sm' it, evict_self i area s = Ret (Some (l, type), s')
        /\ m_items s !! l = Some it
        /\ same_but_lists i sm sm' (set_m_items <[l := set_item_id CLEAR_FLAGS it]> s) s'
        /\ slab_lists i sm' (m_items s') (moved l area area lists) /\ untouched lists s s'
  end.
Proof. apply evict_self_spec. Qed.

(** the [goto]s of [alloc_item] are the order of attempts documented above
    them, and end: in every state the labelled program returns what the
    structured one returns. *)
Theorem alloc_item_order i area s :
  slab_alloc_item i area s = alloc_item_structured i area s.
Proof. apply alloc_item_structured_eq. Qed.

(** *** A slab with two items of area 5, for the examples: the item at offset 1
    is the most recently used one. *)
Definition demo_loc (o : Z) : loc := (3, 1000, o).
Definition demo_id (o : Z) : Z := ITEM_ID 1000 o 3 0.
Definition demo_item (o p n exp : Z) : mdb_item :=
  mk_mdb_item 0 p n exp 3 1 1 0 (demo_id o) [5; 0; o; 118].
Definition demo_slab : slab_manager :=
  mk_slab_manager 0 1000 1048 (2 ^ 20) {[5 := (demo_id 1, demo_id 0)]} ∅ ∅ 2 0 0 1 0 0 0 0 ∅.
Definition demo_mdb (exp : Z) : mdb :=
  mk_mdb blank_pool ∅
    {[demo_loc 0 := demo_item 0 (demo_id 1) 0 0; demo_loc 1 := demo_item 1 0 (demo_id 0) exp]}
    [demo_slab] (mk_hash_map 1 0 ∅) ∅ 100.
Definition demo_lists : Z -> list loc := <[5 := [demo_loc 1; demo_loc 0]]> (fun _ => []).

Lemma demo_names o : in_u 16 o -> item_names 0 (Some (demo_loc o)) (demo_id o).
Proof.
  intros Ho. assert (loc_ok (demo_loc o) /\ in_u 8 0) as [H1 H2].
  { unfold loc_ok, in_u in *. simpl. lia. }
  split; [exact H1|]. split; [exact H2|]. change (cid 0 (demo_loc o)) with (demo_id o).
  apply CLEAR_FLAGS_id. unfold in_u.
  assert (demo_id o = 1000 + Z.shiftl o 20 + Z.shiftl 3 36) as ->; [|rewrite !Z.shiftl_mul_pow2; unfold in_u in Ho; lia].
  unfold demo_id, ITEM_ID. change (Z.land 0 SLAB_ID_MASK) with 0.
  change (u64 (Z.shiftl 0 52)) with 0. rewrite Z.lor_0_l.
  change (u64 (Z.shiftl (Z.land 3 PAGE_ID_MASK) 36)) with (Z.shiftl 3 36).
  change OFFSET_MASK with (Z.ones 16). rewrite Z.land_ones by lia.
  unfold in_u in Ho. rewrite (Z.mod_small o) by lia.
  rewrite wrap_id by (unfold in_u; rewrite Z.shiftl_mul_pow2; lia).
  change (Z.land 1000 SLAB_SIZE_MASK) with 1000.
  assert (Z.shiftl 3 36 = Z.shiftl (Z.shiftl 3 16) 20) as E by reflexivity.
  rewrite E at 1. rewrite <- Z.shiftl_lor.
  rewrite (lor_shiftl_add 20) by (unfold in_u; lia).
  rewrite (lor_shiftl_add 16 3 o) by (unfold in_u; lia).
  rewrite !Z.shiftl_mul_pow2 by lia. lia.
Qed.

Lemma demo_slab_lists exp : slab_lists 0 demo_slab (m_items (demo_mdb exp)) demo_lists.
Proof.
  pose proof (demo_names 0 ltac:(unfold in_u; lia)) as N0.
  pose proof (demo_names 1 ltac:(unfold in_u; lia)) as N1.
  constructor.
  - intros a. unfold demo_lists. destruct (decide (5 = a)) as [<-|D].
    + rewrite fn_lookup_insert. change (item_list_get demo_slab 5) with (demo_id 1, demo_id 0).
      constructor; cbn [first final fst snd]; try done.
      * by_decide.
      * split; [exists 0, (demo_id 0); by repeat split|].
        split; [exists (demo_id 1), 0; by repeat split|done].
      * intros l [->|[->|[]%elem_of_nil]%elem_of_cons]%elem_of_cons; eexists; by split.
    + rewrite fn_lookup_insert_ne by done. unfold item_list_get, area_get, demo_slab.
      cbn [this_item_list]. rewrite lookup_singleton_ne by done. constructor; try done; [constructor|].
      intros l Hl. by apply elem_of_nil in Hl.
  - intros a b l. unfold demo_lists.
    destruct (decide (5 = a)) as [<-|Da], (decide (5 = b)) as [<-|Db];
      rewrite ?fn_lookup_insert, ?fn_lookup_insert_ne by done; try done;
      intros Ha Hb; by first [apply elem_of_nil in Ha | apply elem_of_nil in Hb].
Qed.

Lemma update_item_moves_to_front_witness :
  exists s' sm', slab_update_item 0 (demo_loc 0) 5 (demo_mdb 0) = Ret (tt, s')
    /\ same_but_lists 0 demo_slab sm' (demo_mdb 0) s'
    /\ slab_lists 0 sm' (m_items s') (moved (demo_loc 0) 5 5 demo_lists)
    /\ untouched demo_lists (demo_mdb 0) s'.
Proof.
  apply (update_item_moves_to_front 0 (demo_loc 0) 5 (demo_mdb 0) (demo_item 0 (demo_id 1) 0 0)
           demo_slab demo_lists).
  - reflexivity.
  - apply demo_names. unfold in_u. lia.
  - reflexivity.
  - vm_compute. reflexivity.
  - vm_compute. reflexivity.
  - apply demo_slab_lists.
  - unfold demo_lists. rewrite fn_lookup_insert. by_decide.
Defined.

Lemma evict_self_takes_victim_witness :
  exists s' sm' it, evict_self 0 5 (demo_mdb 50) = Ret (Some (demo_loc 1, ALLOC_EXPIRED), s')
    /\ m_items (demo_mdb 50) !! demo_loc 1 = Some it
    /\ same_but_lists 0 demo_slab sm'
         (set_m_items <[demo_loc 1 := set_item_id CLEAR_FLAGS it]> (demo_mdb 50)) s'
    /\ slab_lists 0 sm' (m_items s') (moved (demo_loc 1) 5 5 demo_lists)
    /\ untouched demo_lists (demo_mdb 50) s'.
Proof.
  apply (evict_self_takes_victim 0 5 (demo_mdb 50) demo_slab demo_lists).
  - reflexivity.
  - vm_compute. reflexivity.
  - apply demo_slab_lists.
  - unfold demo_lists. rewrite fn_lookup_insert. intros l it.
    intros [->|[->|[]%elem_of_nil]%elem_of_cons]%elem_of_cons [= <-]; reflexivity.
Defined.
