(* ===== verification/SlabPages.v ===== *)
(** * The pages of a slab manager (storage/mdb/mem_cache.cpp)

    A slab manager keeps its pages in lists by the number of their free items:
    full pages, free pages, and partly used pages in ten classes.  [link_page]
    and [unlink_page] refine operations on lists of page numbers, as
    [SlabLists] shows for items. *)

From S2P Require Import Prelude Dll MemPool MdbItem MemCache SlabLists.

(** ** Running the accesses to pages *)

Lemma get_page_run p info s :
  0 < p < total_pages (m_pool s) -> m_pages s !! p = Some info -> get_page p s = Ret (info, s).
Proof.
  intros Hp E. unfold get_page, index_to_page.
  destruct (Z.ltb_spec 0 p), (Z.ltb_spec p (total_pages (m_pool s))); try lia. simpl. by rewrite E.
Qed.

Lemma update_page_run p f info s :
  0 < p < total_pages (m_pool s) -> m_pages s !! p = Some info ->
  update_page p f s = Ret (tt, set_m_pages <[p := f info]> s).
Proof. intros Hp E. unfold update_page. by step_with (get_page_run p info s Hp E). Qed.

(** The head a list of pages is reached from *)
Definition head_of (sm : slab_manager) (h : page_head) : Z :=
  match h with
  | FreePages => slab_free_pages sm
  | FullPages => full_pages sm
  | PartialPages b => area_get 0 (partial_pages sm) b
  end.
Definition set_head (h : page_head) (v : Z) (sm : slab_manager) : slab_manager :=
  match h with
  | FreePages => set_slab_free_pages (fun _ => v) sm
  | FullPages => set_full_pages (fun _ => v) sm
  | PartialPages b => set_partial_pages <[b := v]> sm
  end.
Definition head_ok (sm : slab_manager) (h : page_head) : Prop :=
  match h with PartialPages b => 0 <= b < partial_pages_bucket_no sm | _ => True end.

#[export] Instance page_head_eq_dec : EqDecision page_head.
Proof. solve_decision. Defined.

Lemma head_of_set h h' v sm :
  head_of (set_head h v sm) h' = if decide (h = h') then v else head_of sm h'.
Proof.
  destruct h, h'; try done; simpl; unfold area_get; cbn [partial_pages set_partial_pages].
  case_decide as E; [injection E as ->; by rewrite lookup_insert_eq|].
  rewrite lookup_insert_ne; [done|]. congruence.
Qed.

Lemma read_head_run i h sm s :
  m_slabs s !! Z.to_nat i = Some sm -> head_ok sm h -> read_head i h s = Ret (head_of sm h, s).
Proof.
  intros Hsm Hh. unfold read_head. step_with (get_slab_run _ _ _ Hsm). destruct h as [| |b]; try done.
  simpl in Hh. destruct (Z.leb_spec 0 b), (Z.ltb_spec b (partial_pages_bucket_no sm)); try lia. done.
Qed.

Lemma write_head_run i h v sm s :
  m_slabs s !! Z.to_nat i = Some sm -> head_ok sm h ->
  write_head i h v s = Ret (tt, set_m_slabs <[Z.to_nat i := set_head h v sm]> s).
Proof.
  intros Hsm Hh. unfold write_head. step_with (get_slab_run _ _ _ Hsm).
  destruct h as [| |b]; [by apply update_slab_run..|]. simpl in Hh.
  destruct (Z.leb_spec 0 b), (Z.ltb_spec b (partial_pages_bucket_no sm)); try lia.
  by apply update_slab_run.
Qed.

(** ** Lists of pages *)

Definition page_names (o : option Z) (x : Z) : Prop :=
  match o with None => x = 0 | Some p => 0 < p /\ x = p end.

Definition page_links (pages : gmap Z page_info) : links := fun p =>
  match pages !! p with Some info => Some (pi_prev info, pi_next info) | None => None end.

(** [page_dll pages ls head]: the list from [head] holds the pages [ls]. *)
Record page_dll (pages : gmap Z page_info) (ls : list Z) (head : Z) : Prop := {
  pd_nodup : NoDup ls;
  pd_seg : dseg page_names (page_links pages) None ls None;
  pd_head : page_names (first ls None) head
}.

(** The rest of a page's header: everything but its two list links. *)
Definition pcore (info : page_info) : page_info :=
  set_pi_prev (fun _ => 0) (set_pi_next (fun _ => 0) info).

Definition prelinked (pages pages' : gmap Z page_info) (ls : list Z) : Prop :=
  pcore <$> pages' = pcore <$> pages /\ forall p, p ∉ ls -> pages' !! p = pages !! p.

Lemma pcore_fields info info' :
  pcore info' = pcore info ->
  pi_id info' = pi_id info /\ free_nr info' = free_nr info /\ free_head info' = free_head info.
Proof. intros H. destruct info, info'. injection H. intros. simpl. by subst. Qed.

Lemma pcore_lookup pages pages' p info :
  pcore <$> pages' = pcore <$> (pages : gmap Z page_info) -> pages !! p = Some info ->
  exists info', pages' !! p = Some info' /\ pcore info' = pcore info.
Proof.
  intros Hc Hp. assert ((pcore <$> pages') !! p = Some (pcore info)) as H
    by (rewrite Hc, lookup_fmap, Hp; done).
  rewrite lookup_fmap in H. destruct (pages' !! p) as [info'|]; [|done].
  exists info'. split; [done|]. by apply (inj Some).
Qed.

Lemma prelinked_insert pages p info info' ls :
  pages !! p = Some info -> pcore info' = pcore info -> p ∈ ls -> prelinked pages (<[p := info']> pages) ls.
Proof.
  intros Hp Hc Hin. split.
  - rewrite fmap_insert, Hc, <- fmap_insert. by rewrite insert_id.
  - intros q Hq. apply lookup_insert_ne. set_solver.
Qed.

Lemma prelinked_trans pages pages1 pages2 ls :
  prelinked pages pages1 ls -> prelinked pages1 pages2 ls -> prelinked pages pages2 ls.
Proof. intros [H1 H2] [H3 H4]. split; [congruence|]. intros l Hl. rewrite H4, H2; done. Qed.

Lemma page_dll_frame pages pages' ls head :
  (forall p, p ∈ ls -> pages' !! p = pages !! p) -> page_dll pages ls head -> page_dll pages' ls head.
Proof.
  intros Hf [Hn Hs Hh]. constructor; try done.
  eapply dseg_frame; [|exact Hs]. intros p Hp. unfold page_links. by rewrite Hf.
Qed.

Lemma page_dll_in pages ls head p :
  page_dll pages ls head -> p ∈ ls -> is_Some (pages !! p).
Proof.
  intros [_ Hs _] Hp. destruct (list_elem_of_split _ _ Hp) as (l1 & l2 & ->).
  apply dseg_app in Hs as [_ [(x & y & E & _) _]]. unfold page_links in E.
  destruct (pages !! p); [by eexists|done].
Qed.

(** The state with the pages' headers and slab [i] changed. *)
Definition pages_state (i : Z) (sm : slab_manager) (pages : gmap Z page_info) (s : mdb) : mdb :=
  set_m_slabs <[Z.to_nat i := sm]> (set_m_pages (fun _ => pages) s).

Section link_page.
Context (i p : Z) (h : page_head) (s : mdb) (info : page_info) (sm : slab_manager) (ls : list Z).
Hypothesis Hsm : m_slabs s !! Z.to_nat i = Some sm.
Hypothesis Hh : head_ok sm h.
Hypothesis Hp : 0 < p < total_pages (m_pool s).
Hypothesis Einfo : m_pages s !! p = Some info.
Hypothesis Hid : pi_id info = p.
Hypothesis Hdll : page_dll (m_pages s) ls (head_of sm h).
Hypothesis Hnew : p ∉ ls.
Hypothesis Hls : forall q, q ∈ ls -> 0 < q < total_pages (m_pool s).

Lemma link_page_spec :
  exists pages', link_page i p h s = Ret (tt, pages_state i (set_head h p sm) pages' s)
    /\ page_dll pages' (p :: ls) p /\ prelinked (m_pages s) pages' (p :: ls).
Proof.
  destruct Hdll as [Hn Hs Hhd]. set (head := head_of sm h) in *.
  set (info1 := set_pi_next (fun _ => head) (set_pi_prev (fun _ => 0) info)).
  set (pages1 := <[p := info1]> (m_pages s)).
  set (s1 := set_m_pages (fun _ => pages1) s).
  assert (prelinked (m_pages s) pages1 (p :: ls)) as Hr1 by (by eapply prelinked_insert; [| |left]).
  unfold link_page. step_with (read_head_run _ _ _ _ Hsm Hh). fold head.
  step_with (update_page_run p (set_pi_prev (fun _ => 0)) info s Hp Einfo).
  step_with (update_page_run p (set_pi_next (fun _ => head)) (set_pi_prev (fun _ => 0) info)
    (set_m_pages <[p := set_pi_prev (fun _ => 0) info]> s) Hp ltac:(apply lookup_insert_eq)).
  replace (set_m_pages _ (set_m_pages _ s)) with s1
    by (unfold s1, pages1, set_m_pages; simpl; by rewrite insert_insert_eq).
  step_with (get_page_run p info1 s1 Hp ltac:(apply lookup_insert_eq)).
  change (pi_next info1) with head. change (pi_id info1) with (pi_id info). rewrite Hid.
  assert (page_links pages1 p = Some (0, head)) as El
    by (unfold page_links, pages1; by rewrite lookup_insert_eq).
  destruct (Z.eqb_spec head 0) as [E|E]; cbn [negb].
  - assert (ls = []) as Els.
    { destruct ls as [|q ls']; [done|]. simpl in Hhd. lia. }
    rewrite sbind_ret. rewrite (write_head_run _ _ _ sm) by done.
    exists pages1. split; [done|]. split; [|done]. rewrite Els. constructor; simpl.
    + repeat constructor. apply not_elem_of_nil.
    + split; [|done]. exists 0, head. done.
    + lia.
  - destruct ls as [|f ls']; [done|]. simpl in Hhd. destruct Hhd as [Hf Ef].
    assert (f <> p) as Hfp by (intros ->; apply Hnew; by left).
    destruct (page_dll_in _ _ _ f Hdll ltac:(by left)) as [infof Eff].
    assert (pages1 !! f = Some infof) as Eff1 by (unfold pages1; by rewrite lookup_insert_ne).
    rewrite Ef. step_with (update_page_run f (set_pi_prev (fun _ => p)) infof s1 (Hls f ltac:(by left)) Eff1).
    rewrite (write_head_run _ _ _ sm) by done. eexists. split; [reflexivity|].
    assert (prelinked (m_pages s) (<[f := set_pi_prev (fun _ => p) infof]> pages1) (p :: f :: ls')) as Hr2.
    { eapply prelinked_trans; [exact Hr1|]. by eapply prelinked_insert; [| |right; left]. }
    split; [|exact Hr2]. constructor.
    + by apply list.NoDup_cons.
    + apply (dseg_link _ (page_links (m_pages s)) _ p (f :: ls') 0 head p); try done; simpl.
      * by apply list.NoDup_cons.
      * lia.
      * unfold page_links. rewrite lookup_insert_ne by done. exact El.
      * intros z Hz. unfold page_links. apply list.NoDup_cons in Hn as [Hfl _].
        unfold pages1. rewrite !lookup_insert_ne; [done|intros ->; apply Hnew; by right|by intros ->].
      * intros f' [= <-] x y. unfold page_links. rewrite Eff, lookup_insert_eq. by intros [= <- <-].
    + simpl. lia.
Qed.
End link_page.

(** *** Unlinking *)

Lemma page_names_zero o x : page_names o x -> x = 0 <-> o = None.
Proof. destruct o as [p|]; simpl; [|done]. intros [Hp ->]. split; [lia|done]. Qed.

(** Updating the page a link points to, if any. *)
Lemma page_relink_run o x f s :
  page_names o x ->
  (forall q, o = Some q -> is_Some (m_pages s !! q) /\ 0 < q < total_pages (m_pool s)) ->
  (if negb (x =? 0) then update_page x f else sret tt) s
  = Ret (tt, set_m_pages (fun pages => match o with None => pages | Some q => alter f q pages end) s).
Proof.
  intros Hx H. destruct o as [q|]; simpl in Hx.
  - destruct Hx as [Hq ->]. destruct (H q eq_refl) as [[info E] Hr].
    destruct (Z.eqb_spec q 0); [lia|]. cbn [negb]. rewrite (update_page_run q f info s Hr E).
    unfold set_m_pages. do 4 f_equal. apply map_eq. intros j. destruct (decide (q = j)) as [->|D].
    + by rewrite lookup_alter_eq, lookup_insert_eq, E.
    + by rewrite lookup_alter_ne, lookup_insert_ne.
  - subst x. by destruct s.
Qed.

Section unlink_page.
Context (i p : Z) (h : page_head) (s : mdb) (info : page_info) (sm : slab_manager) (ls1 ls2 : list Z).
Hypothesis Hsm : m_slabs s !! Z.to_nat i = Some sm.
Hypothesis Hh : head_ok sm h.
Hypothesis Einfo : m_pages s !! p = Some info.
Hypothesis Hid : pi_id info = p.
Hypothesis Hdll : page_dll (m_pages s) (ls1 ++ p :: ls2) (head_of sm h).
Hypothesis Hls : forall q, q ∈ ls1 ++ p :: ls2 -> 0 < q < total_pages (m_pool s).

(** The headers after [unlink_page]. *)
Let forward (pages : gmap Z page_info) : gmap Z page_info :=
  match first ls2 None with
  | None => pages | Some q => alter (set_pi_prev (fun _ => pi_prev info)) q pages end.
Let backward (pages : gmap Z page_info) : gmap Z page_info :=
  match final None ls1 with
  | None => pages | Some q => alter (set_pi_next (fun _ => pi_next info)) q pages end.
Let cleared : page_info := set_pi_prev (fun _ => 0) (set_pi_next (fun _ => 0) info).
Let pages' : gmap Z page_info := <[p := cleared]> (backward (forward (m_pages s))).

Lemma unlink_page_neighbours :
  page_names (final None ls1) (pi_prev info) /\ page_names (first ls2 None) (pi_next info)
  /\ p ∉ ls1 ++ ls2.
Proof.
  destruct Hdll as [Hn Hs _]. apply dseg_app in Hs as [_ [(x & y & E & Hx & Hy) _]].
  unfold page_links in E. rewrite Einfo in E. injection E as <- <-. split; [done|]. split; [done|].
  apply list.NoDup_app in Hn as (_ & Hd & Hn2). apply list.NoDup_cons in Hn2 as [Hp2 _].
  intros [Hin|Hin]%elem_of_app; [|done]. apply (Hd p Hin). by left.
Qed.

Lemma unlinked_page_lookup q :
  pages' !! q = if decide (p = q) then Some cleared
    else (fun iq => (if decide (final None ls1 = Some q) then set_pi_next (fun _ => pi_next info) else (fun x => x))
                 ((if decide (first ls2 None = Some q) then set_pi_prev (fun _ => pi_prev info) else (fun x => x)) iq))
         <$> m_pages s !! q.
Proof.
  unfold pages'. case_decide as D; [subst q; by rewrite lookup_insert_eq|].
  rewrite lookup_insert_ne by done. unfold backward, forward.
  assert (forall (o : option Z) f (m : gmap Z page_info),
    match o with None => m | Some z => alter f z m end !! q
    = (if decide (o = Some q) then f else (fun x => x)) <$> m !! q) as H.
  { intros [z|] f m.
    - destruct (decide (z = q)) as [->|D'].
      + by rewrite lookup_alter_eq, decide_True.
      + rewrite lookup_alter_ne, decide_False by congruence. by destruct (m !! q).
    - rewrite decide_False by done. by destruct (m !! q). }
  rewrite !H. by destruct (m_pages s !! q).
Qed.

Lemma unlink_page_spec :
  exists sm' head', unlink_page i p h s = Ret (tt, pages_state i sm' pages' s)
    /\ (sm' = sm \/ exists v, sm' = set_head h v sm)
    /\ (forall h', head_of sm' h' = if decide (h = h') then head' else head_of sm h')
    /\ page_dll pages' (ls1 ++ ls2) head'.
Proof.
  destruct unlink_page_neighbours as (Hp & Hx & Hnotin). pose proof Hdll as [Hn Hs Hhd].
  assert (0 < p < total_pages (m_pool s)) as Hpr by (apply Hls, elem_of_mid).
  set (head := head_of sm h) in *.
  set (head' := if p =? head then pi_next info else head).
  set (sm' := if p =? head then set_head h (pi_next info) sm else sm).
  exists sm', head'.
  assert ((p =? head) = bool_decide (ls1 = [])) as Ehead.
  { destruct ls1 as [|q l1]; simpl in Hhd.
    - rewrite bool_decide_true by done. apply Z.eqb_eq. lia.
    - rewrite bool_decide_false by done. apply Z.eqb_neq. destruct Hhd as [_ ->]. intros ->. apply Hnotin. left. }
  split; [|split; [|split]].
  - unfold unlink_page. step_with (get_page_run p info s Hpr Einfo).
    step_with (read_head_run _ _ _ _ Hsm Hh). fold head. rewrite Hid.
    set (s1 := set_m_slabs <[Z.to_nat i := sm']> s).
    assert ((if p =? head then write_head i h (pi_next info) else sret tt) s = Ret (tt, s1)) as E1.
    { unfold s1, sm'. destruct (p =? head); [by apply write_head_run|].
      unfold sret, set_m_slabs. rewrite list_insert_id by done. by destruct s. }
    step_with E1.
    assert (forall o, (o = final None ls1 \/ o = first ls2 None) -> forall q, o = Some q ->
              is_Some (m_pages s !! q) /\ 0 < q < total_pages (m_pool s) /\ q <> p) as Hnb.
    { intros o Ho q ->. assert (q ∈ ls1 ++ ls2) as Hq.
      { apply elem_of_app. destruct Ho as [Ho|Ho]; [left; by apply final_in|right; by apply first_in]. }
      split; [by eapply page_dll_in; [exact Hdll|apply elem_of_around]|].
      split; [by apply Hls, elem_of_around|]. by intros ->. }
    step_with (page_relink_run (first ls2 None) (pi_next info) (set_pi_prev (fun _ => pi_prev info)) s1 Hx
      ltac:(intros q Hq; destruct (Hnb _ (or_intror eq_refl) q Hq) as (? & ? & _); done)).
    fold (forward (m_pages s1)). change (m_pages s1) with (m_pages s).
    set (s2 := set_m_pages _ s1).
    assert (m_pages s2 !! p = Some info) as Einfo2.
    { cbn [m_pages s2 set_m_pages]. destruct (first ls2 None) as [q|] eqn:Eq; [|done].
      rewrite lookup_alter_ne; [done|]. by destruct (Hnb _ (or_intror eq_refl) q eq_refl) as (_ & _ & ?). }
    step_with (get_page_run p info s2 Hpr Einfo2).
    step_with (page_relink_run (final None ls1) (pi_prev info) (set_pi_next (fun _ => pi_next info)) s2 Hp
      ltac:(intros q Hq; destruct (Hnb _ (or_introl eq_refl) q Hq) as ([iq Eq] & ? & _); split; [|done];
            cbn [m_pages s2 set_m_pages]; destruct (first ls2 None) as [z|]; [|by eexists];
            rewrite lookup_alter_is_Some; by eexists)).
    set (s3 := set_m_pages _ s2).
    assert (m_pages s3 !! p = Some info) as Einfo3.
    { cbn [m_pages s3 set_m_pages]. destruct (final None ls1) as [q|] eqn:Eq; [|done].
      rewrite lookup_alter_ne; [done|]. by destruct (Hnb _ (or_introl eq_refl) q eq_refl) as (_ & _ & ?). }
    by rewrite (update_page_run p _ info s3 Hpr Einfo3).
  - unfold sm'. destruct (p =? head); [right; by eexists|by left].
  - intros h'. unfold sm', head'. destruct (p =? head); [apply head_of_set|].
    case_decide; [by subst h'|done].
  - constructor.
    + apply list.NoDup_app in Hn as (Hn1 & Hd & Hn2). apply list.NoDup_cons in Hn2 as [_ Hn2].
      apply list.NoDup_app. split; [done|]. split; [|done]. intros z Hz Hz2. apply (Hd z Hz). by right.
    + eapply (dseg_unlink page_names (page_links (m_pages s)) _ ls1 p ls2 (pi_prev info) (pi_next info)); try done.
      * unfold page_links. by rewrite Einfo.
      * intros z Hz. unfold page_links, bypass. rewrite unlinked_page_lookup.
        rewrite decide_False by (intros ->; done). destruct (m_pages s !! z); [|done]. simpl.
        by repeat case_decide.
    + unfold head'. rewrite Ehead. destruct ls1; [done|exact Hhd].
Qed.

Lemma unlink_page_prelinked : prelinked (m_pages s) pages' (ls1 ++ p :: ls2).
Proof.
  destruct unlink_page_neighbours as (Hp & Hx & Hnotin). split.
  - apply map_eq. intros q. rewrite !lookup_fmap, unlinked_page_lookup. case_decide as D.
    + subst q. rewrite Einfo. done.
    + destruct (m_pages s !! q); [|done]. simpl. f_equal. by repeat case_decide.
  - intros q Hq. rewrite unlinked_page_lookup. rewrite decide_False by (intros ->; apply Hq, elem_of_mid).
    rewrite decide_False by (intros E; apply Hq, elem_of_app; left; by apply final_in).
    rewrite decide_False by (intros E; apply Hq, elem_of_app; right; right; by apply first_in).
    by destruct (m_pages s !! q).
Qed.
End unlink_page.

(** ** All page lists of a slab *)

(** [pages_ok pages sm w pg]: the list behind [h] holds the pages [pg h], and
    page [p] is in the list [w !! p], if in any. *)
Record pages_ok (pages : gmap Z page_info) (sm : slab_manager) (w : gmap Z page_head)
    (pg : page_head -> list Z) : Prop := {
  po_dll : forall h, page_dll pages (pg h) (head_of sm h);
  po_where : forall p h, p ∈ pg h <-> w !! p = Some h;
  po_id : forall p, is_Some (w !! p) -> exists info, pages !! p = Some info /\ pi_id info = p;
  po_head : forall p h, w !! p = Some h -> head_ok sm h
}.

(** What [pages_ok] looks at *)
Lemma pages_ok_frame pages pages' sm sm' w pg :
  (forall p, is_Some (w !! p) -> pages' !! p = pages !! p) ->
  (forall h, head_of sm' h = head_of sm h) -> per_slab sm' = per_slab sm ->
  pages_ok pages sm w pg -> pages_ok pages' sm' w pg.
Proof.
  intros Hf Hhd Hper [Hd Hw Hi Hh]. constructor.
  - intros h. rewrite Hhd. eapply page_dll_frame; [|apply Hd]. intros p Hp%Hw. by apply Hf.
  - done.
  - intros p Hp. rewrite Hf by done. by apply Hi.
  - intros p h Hp. specialize (Hh p h Hp). destruct h; try done. simpl in *.
    unfold partial_pages_bucket_no in *. by rewrite Hper.
Qed.

(** Pages of the slab are pages of the pool. *)
Definition in_pool (s : mdb) (w : gmap Z page_head) : Prop :=
  forall p, is_Some (w !! p) -> 0 < p < total_pages (m_pool s).

Lemma per_slab_set_head h v sm : per_slab (set_head h v sm) = per_slab sm.
Proof. by destruct h. Qed.

Lemma head_ok_set_head h v sm h' : head_ok (set_head h v sm) h' <-> head_ok sm h'.
Proof. destruct h' as [| |b]; try done. simpl. unfold partial_pages_bucket_no. by rewrite per_slab_set_head. Qed.

(** Taking a page out of its list. *)
Lemma take_page i p h s sm w pg :
  m_slabs s !! Z.to_nat i = Some sm -> pages_ok (m_pages s) sm w pg -> in_pool s w -> w !! p = Some h ->
  exists sm' pages', unlink_page i p h s = Ret (tt, pages_state i sm' pages' s)
    /\ (sm' = sm \/ exists v, sm' = set_head h v sm)
    /\ pages_ok pages' sm' (delete p w) (<[h := filter (.≠ p) (pg h)]> pg)
    /\ pcore <$> pages' = pcore <$> m_pages s
    /\ forall q, w !! q = None -> pages' !! q = m_pages s !! q.
Proof.
  intros Hsm Hok Hpool Hp. pose proof (po_where _ _ _ _ Hok) as Hw.
  destruct (list_elem_of_split _ _ (proj2 (Hw p h) Hp)) as (ls1 & ls2 & Els).
  pose proof (po_dll _ _ _ _ Hok h) as Hdll. rewrite Els in Hdll.
  assert (filter (.≠ p) (pg h) = ls1 ++ ls2) as Ef.
  { pose proof (pd_nodup _ _ _ Hdll) as Hn. rewrite Els.
    apply list.NoDup_app in Hn as (_ & Hd & Hn2). apply list.NoDup_cons in Hn2 as [Hp2 _].
    assert (p ∉ ls1) as Hp1 by (intros H; apply (Hd p H); left).
    rewrite list.filter_app, filter_cons_False by tauto.
    assert (forall ls : list Z, p ∉ ls -> filter (.≠ p) ls = ls) as H.
    { induction ls as [|z ls IH]; intros Hl; [done|]. apply not_elem_of_cons in Hl as [Hne Hl].
      rewrite filter_cons_True by congruence. by rewrite IH. }
    by rewrite !H. }
  destruct (po_id _ _ _ _ Hok p ltac:(by eexists)) as (info & Einfo & Hid).
  assert (forall q, q ∈ ls1 ++ p :: ls2 -> is_Some (w !! q)) as Hin
    by (intros q Hq; rewrite <- Els in Hq; apply Hw in Hq; by eexists).
  assert (forall q, q ∈ ls1 ++ p :: ls2 -> 0 < q < total_pages (m_pool s)) as Hrange
    by (intros q Hq; apply Hpool, Hin, Hq).
  pose proof (po_head _ _ _ _ Hok p h Hp) as Hh.
  destruct (unlink_page_spec i p h s info sm ls1 ls2 Hsm Hh Einfo Hid Hdll)
    as (sm' & head' & E & Hsm' & Hhd & Hdll'); [done|].
  pose proof (unlink_page_prelinked p h s info sm ls1 ls2 Einfo Hid Hdll Hrange) as [Hc Hout].
  eexists sm', _. split; [exact E|]. split; [done|]. split; [|split; [exact Hc|]].
  - assert (per_slab sm' = per_slab sm) as Hper
      by (destruct Hsm' as [->|[v ->]]; [done|apply per_slab_set_head]).
    constructor.
    + intros h'. rewrite Hhd. destruct (decide (h = h')) as [<-|D].
      * rewrite fn_lookup_insert, Ef. exact Hdll'.
      * rewrite fn_lookup_insert_ne by done. eapply page_dll_frame; [|apply Hok].
        intros q Hq. apply Hout. intros Hq'. rewrite <- Els in Hq'. apply Hw in Hq, Hq'. congruence.
    + intros q h'. rewrite lookup_delete_Some. destruct (decide (h = h')) as [<-|D].
      * rewrite fn_lookup_insert, list_elem_of_filter, Hw. split; intros [? ?]; split; congruence.
      * rewrite fn_lookup_insert_ne by done. rewrite Hw. split; [|by intros [_ ?]].
        intros Hq. split; [congruence|done].
    + intros q Hq. assert (is_Some (w !! q)) as Hq'
        by (destruct Hq as [x Hx%lookup_delete_Some]; exists x; tauto).
      destruct (po_id _ _ _ _ Hok q Hq') as (iq & Eq & Hidq).
      destruct (pcore_lookup _ _ _ _ Hc Eq) as (iq' & Eq' & Hcq). exists iq'. split; [done|].
      apply pcore_fields in Hcq as [-> _]. done.
    + intros q h' [_ Hq]%lookup_delete_Some. pose proof (po_head _ _ _ _ Hok q h' Hq) as H.
      destruct h' as [| |b]; try done. simpl in *. unfold partial_pages_bucket_no in *. by rewrite Hper.
  - intros q Hq. apply Hout. intros Hq'. destruct (Hin q Hq'). congruence.
Qed.

(** Putting a page that is in no list at the front of one. *)
Lemma put_page i p h s sm w pg info :
  m_slabs s !! Z.to_nat i = Some sm -> pages_ok (m_pages s) sm w pg -> in_pool s w ->
  w !! p = None -> head_ok sm h -> 0 < p < total_pages (m_pool s) ->
  m_pages s !! p = Some info -> pi_id info = p ->
  exists pages', link_page i p h s = Ret (tt, pages_state i (set_head h p sm) pages' s)
    /\ pages_ok pages' (set_head h p sm) (<[p := h]> w) (<[h := p :: pg h]> pg)
    /\ pcore <$> pages' = pcore <$> m_pages s
    /\ forall q, w !! q = None -> q <> p -> pages' !! q = m_pages s !! q.
Proof.
  intros Hsm Hok Hpool Hpw Hh Hp Einfo Hid. pose proof (po_where _ _ _ _ Hok) as Hw.
  assert (p ∉ pg h) as Hnew by (intros H%Hw; congruence).
  assert (forall q, q ∈ pg h -> 0 < q < total_pages (m_pool s)) as Hin
    by (intros q Hq%Hw; apply Hpool; by eexists).
  destruct (link_page_spec i p h s info sm (pg h) Hsm Hh Hp Einfo Hid (po_dll _ _ _ _ Hok h) Hnew Hin)
    as (pages' & E & Hdll' & Hc & Hout).
  exists pages'. split; [exact E|]. split; [|split; [exact Hc|]].
  - constructor.
    + intros h'. rewrite head_of_set. destruct (decide (h = h')) as [<-|D].
      * by rewrite fn_lookup_insert.
      * rewrite fn_lookup_insert_ne by done. eapply page_dll_frame; [|apply Hok].
        intros q Hq. apply Hout. intros [->|Hq']%elem_of_cons; apply Hw in Hq; [congruence|].
        apply Hw in Hq'. congruence.
    + intros q h'. rewrite lookup_insert_Some. destruct (decide (h = h')) as [<-|D].
      * rewrite fn_lookup_insert, elem_of_cons, Hw. split.
        -- intros [->|Hq]; [by left|right]. split; [congruence|done].
        -- intros [[-> _]|[_ Hq]]; [by left|by right].
      * rewrite fn_lookup_insert_ne by done. rewrite Hw. split.
        -- intros Hq. right. split; [congruence|done].
        -- intros [[-> ->]|[_ Hq]]; done.
    + intros q Hq. assert (exists iq, m_pages s !! q = Some iq /\ pi_id iq = q) as (iq & Eq & Hidq).
      { destruct (decide (q = p)) as [->|D]; [by exists info|].
        apply (po_id _ _ _ _ Hok). by rewrite lookup_insert_ne in Hq. }
      destruct (pcore_lookup _ _ _ _ Hc Eq) as (iq' & Eq' & Hcq). exists iq'. split; [done|].
      apply pcore_fields in Hcq as [-> _]. done.
    + intros q h' [[-> <-]|[_ Hq]]%lookup_insert_Some; apply head_ok_set_head; [done|].
      by apply (po_head _ _ _ _ Hok q).
  - intros q Hq Hne. apply Hout. intros [->|Hq']%elem_of_cons; [done|]. apply Hw in Hq'. congruence.
Qed.

(** ** Counting pages *)

(** Lists of partly used pages are counted together. *)
Definition same_kind (k h : page_head) : bool :=
  match k, h with
  | FreePages, FreePages | FullPages, FullPages | PartialPages _, PartialPages _ => true
  | _, _ => false
  end.
Definition kind_count (k : page_head) (w : gmap Z page_head) : Z :=
  Z.of_nat (size (filter (fun ph => same_kind k ph.2 = true) w)).

Definition counts_ok (sm : slab_manager) (w : gmap Z page_head) : Prop :=
  free_pages_no sm = kind_count FreePages w /\ full_pages_no sm = kind_count FullPages w
  /\ partial_pages_no sm = kind_count (PartialPages 0) w.

Lemma kind_count_insert k w p h :
  w !! p = None -> kind_count k (<[p := h]> w) = kind_count k w + Z.b2z (same_kind k h).
Proof.
  intros Hp. unfold kind_count. destruct (same_kind k h) eqn:E.
  - rewrite map_filter_insert_True by done. rewrite map_size_insert_None; [simpl; lia|].
    apply map_lookup_filter_None. by left.
  - rewrite map_filter_insert_not' by (simpl; intros; congruence). simpl. lia.
Qed.

Lemma kind_count_delete k w p h :
  w !! p = Some h -> kind_count k (delete p w) = kind_count k w - Z.b2z (same_kind k h).
Proof.
  intros Hp. rewrite <- (insert_delete_id w p h Hp) at 2.
  rewrite kind_count_insert by apply lookup_delete_eq. lia.
Qed.

Lemma kind_count_pos k w : 0 < kind_count k w <-> exists p h, w !! p = Some h /\ same_kind k h = true.
Proof.
  unfold kind_count. split.
  - intros H. destruct (decide (filter (fun ph => same_kind k ph.2 = true) w = ∅)) as [E|E].
    { rewrite E, map_size_empty in H. lia. }
    apply map_choose in E as (p & h & [Hp Hk]%map_lookup_filter_Some). by exists p, h.
  - intros (p & h & Hp & Hk). assert (filter (fun ph => same_kind k ph.2 = true) w !! p = Some h) as H
      by by apply map_lookup_filter_Some.
    pose proof (map_size_ne_0_lookup_2 _ p ltac:(by exists h)). lia.
Qed.

Lemma kind_count_nonneg k w : 0 <= kind_count k w.
Proof. unfold kind_count. lia. Qed.

Lemma kind_count_all w :
  kind_count FreePages w + kind_count FullPages w + kind_count (PartialPages 0) w = Z.of_nat (size w).
Proof.
  induction w as [|p h w Hp IH] using map_ind; [done|].
  rewrite !kind_count_insert, map_size_insert_None by done. destruct h; simpl; lia.
Qed.
