(* ===== verification/SlabAlloc.v ===== *)
(** * Allocation and release of items (storage/mdb/mem_cache.cpp)

    The invariant of a slab manager, [slab_ok]: its pages are in the lists their
    numbers of free items say, every slot of its pages is either in the free
    chain of its page or in the list of exactly one area, and the counters
    count.  [alloc_new_item], [free_item], [update_item] and the evictions
    preserve it, fail no assertion, and change nothing outside the slab's pages. *)

From S2P Require Import Prelude Dll MemPool MdbItem MemCache SlabLists SlabPages.

(** ** The invariant *)

Record slab_shape (i : Z) (sm : slab_manager) : Prop := {
  sh_id : slab_id sm = i;
  sh_range : in_u 8 i;
  sh_size : sizeof_mdb_item <= slab_size sm < 2 ^ 20;
  sh_per : 0 < per_slab sm <= 2 ^ 16;
  sh_evict : 0 <= evict_index sm
}.

(** What the lists and chains of a slab hold: the list of every page, the pages
    of every list, the free items of every page, the items of every area. *)
Record slab_view := mk_slab_view {
  sv_where : gmap Z page_head; sv_pages : page_head -> list Z;
  sv_free : Z -> list loc; sv_lists : Z -> list loc
}.

(** The places for items in the pages [w]. *)
Definition slot (sm : slab_manager) (w : gmap Z page_head) (l : loc) : Prop :=
  is_Some (w !! l.1.1) /\ l.1.2 = slab_size sm /\ 0 <= l.2 < per_slab sm.

(** The free items of a page, chained by [h_next] from its header. *)
Fixpoint fchain (i : Z) (items : gmap loc mdb_item) (head : Z) (ls : list loc) : Prop :=
  match ls with
  | [] => head = 0
  | l :: ls' => head = cid i l /\ exists it, items !! l = Some it /\ item_id it = head
                  /\ fchain i items (h_next it) ls'
  end.

(** The list a page with [n] free items belongs to. *)
Definition place (sm : slab_manager) (n : Z) : page_head :=
  if n =? 0 then FullPages else if n =? per_slab sm then FreePages
  else PartialPages (n / PARTIAL_PAGE_BUCKET).

Record items_ok (items : gmap loc mdb_item) (pages : gmap Z page_info) (i : Z) (sm : slab_manager)
    (w : gmap Z page_head) (fr : Z -> list loc) (ls : Z -> list loc) : Prop := {
  io_lists : slab_lists i sm items ls;
  io_area : forall a l, l ∈ ls a -> 0 <= a < TAIR_MAX_AREA_COUNT;
  io_slot : forall l, slot sm w l -> exists it, items !! l = Some it
              /\ Z.of_nat (length (data it)) = slab_size sm - sizeof_mdb_item
              /\ item_names i (Some l) (item_id it);
  io_live : forall a l, l ∈ ls a -> slot sm w l /\ l ∉ fr l.1.1;
  io_page : forall p h, w !! p = Some h -> exists info, pages !! p = Some info
              /\ fchain i items (free_head info) (fr p) /\ NoDup (fr p)
              /\ free_nr info = Z.of_nat (length (fr p)) /\ h = place sm (free_nr info);
  io_free : forall p l, is_Some (w !! p) -> l ∈ fr p -> slot sm w l /\ l.1.1 = p;
  io_cover : forall l, slot sm w l -> l ∈ fr l.1.1 \/ exists a, l ∈ ls a
}.

(** A slab and its pages in the pool: it has at least one. *)
Record slab_ok (s : mdb) (i : Z) (sm : slab_manager) (v : slab_view) : Prop := {
  so_slab : m_slabs s !! Z.to_nat i = Some sm;
  so_shape : slab_shape i sm;
  so_pages : pages_ok (m_pages s) sm (sv_where v) (sv_pages v);
  so_counts : counts_ok sm (sv_where v);
  so_items : items_ok (m_items s) (m_pages s) i sm (sv_where v) (sv_free v) (sv_lists v);
  so_pool : in_pool s (sv_where v);
  so_some : sv_where v <> ∅
}.

(** ** What the parts depend on *)

Lemma loc_ok_slot i s sm w l :
  slab_shape i sm -> in_pool s w -> total_pages (m_pool s) <= 2 ^ 16 -> slot sm w l -> loc_ok l.
Proof.
  intros [_ _ Hsz Hper _] Hpool Ht (Hw & Hs & Ho). pose proof (Hpool _ Hw).
  unfold sizeof_mdb_item in Hsz. unfold loc_ok, in_u. rewrite Hs. lia.
Qed.

Lemma fchain_frame i items items' head ls :
  (forall l it, l ∈ ls -> items !! l = Some it ->
     exists it', items' !! l = Some it' /\ h_next it' = h_next it /\ item_id it' = item_id it) ->
  fchain i items head ls -> fchain i items' head ls.
Proof.
  revert head. induction ls as [|l ls IH]; intros head Hf; [done|].
  intros (Hh & it & Eit & Hid & Hc). split; [done|].
  destruct (Hf l it) as (it' & E' & Hn & Hi); [by left|done|].
  exists it'. split; [done|]. rewrite Hi, Hn. split; [done|]. apply IH; [|done].
  intros z itz Hz. apply Hf. by right.
Qed.

Lemma fchain_core i items items' head ls :
  core <$> items' = core <$> items -> fchain i items head ls -> fchain i items' head ls.
Proof.
  intros Hc. apply fchain_frame. intros l it _ Eit.
  destruct (core_lookup _ _ _ _ Hc Eit) as (it' & E' & Hcc).
  apply core_fields in Hcc as (Hn & _ & _ & _ & _ & _ & Hi & _). by exists it'.
Qed.

Lemma slab_lists_sm i sm sm' items ls :
  this_item_list sm' = this_item_list sm -> slab_lists i sm items ls -> slab_lists i sm' items ls.
Proof.
  intros E [Hd Hdis]. constructor; [|done]. intros a. specialize (Hd a).
  unfold item_list_get in *. by rewrite E.
Qed.

(** The headers matter through their free chains only. *)
Lemma items_ok_pages items pages pages' i sm w fr ls :
  pcore <$> pages' = pcore <$> pages -> items_ok items pages i sm w fr ls ->
  items_ok items pages' i sm w fr ls.
Proof.
  intros Hc [H1 H2 H3 H4 H5 H6 H7]. constructor; try done. intros p h Hp.
  destruct (H5 p h Hp) as (info & Einfo & Hch & Hn & Hnr & Hpl).
  destruct (pcore_lookup _ _ _ _ Hc Einfo) as (info' & E' & Hcc).
  apply pcore_fields in Hcc as (_ & Hf & Hfh). exists info'. rewrite Hf, Hfh. done.
Qed.

Definition same_slots (sm sm' : slab_manager) : Prop :=
  this_item_list sm' = this_item_list sm /\ slab_size sm' = slab_size sm /\ per_slab sm' = per_slab sm
  /\ evict_index sm' = evict_index sm.

Lemma items_ok_sm items pages i sm sm' w fr ls :
  same_slots sm sm' -> items_ok items pages i sm w fr ls -> items_ok items pages i sm' w fr ls.
Proof.
  intros (El & Es & Ep & _) [H1 H2 H3 H4 H5 H6 H7]. unfold slot, place in *. rewrite <- Es, <- Ep in *.
  constructor; try done; unfold slot, place; try done. by eapply slab_lists_sm.
Qed.

Lemma shape_same i sm sm' :
  slab_id sm' = slab_id sm -> slab_size sm' = slab_size sm -> per_slab sm' = per_slab sm ->
  evict_index sm' = evict_index sm -> slab_shape i sm -> slab_shape i sm'.
Proof. intros E1 E2 E3 E4 [H1 H2 H3 H4 H5]. constructor; congruence. Qed.

Definition same_shape (sm sm' : slab_manager) : Prop :=
  slab_id sm' = slab_id sm /\ slab_size sm' = slab_size sm /\ per_slab sm' = per_slab sm
  /\ evict_index sm' = evict_index sm.

(** An id without flags. *)
Lemma cid_nonzero i l : loc_ok l -> in_u 8 i -> cid i l <> 0.
Proof.
  intros Hl Hi E. destruct (cid_loc i l Hl Hi) as [Hloc _]. rewrite E in Hloc.
  destruct Hl as (_ & _ & Hs & _). rewrite <- Hloc in Hs. vm_compute in Hs. done.
Qed.

Lemma CLEAR_FLAGS_cid i l : CLEAR_FLAGS (cid i l) = cid i l.
Proof.
  apply Z.bits_inj'. intros n Hn. rewrite testbit_CLEAR_FLAGS by lia.
  destruct (Z.ltb_spec n 60); [done|]. unfold cid. rewrite testbit_ITEM_ID by lia.
  repeat match goal with |- context [?a <? ?b] => destruct (Z.ltb_spec a b); try lia end.
Qed.

Lemma cid_names i l : loc_ok l -> in_u 8 i -> item_names i (Some l) (cid i l).
Proof. intros Hl Hi. split; [done|]. split; [done|]. apply CLEAR_FLAGS_cid. Qed.

Lemma cid_pos i l : loc_ok l -> in_u 8 i -> 0 < cid i l.
Proof.
  intros Hl Hi. pose proof (cid_nonzero i l Hl Hi). assert (0 <= cid i l); [|lia].
  rewrite <- CLEAR_FLAGS_cid. unfold CLEAR_FLAGS. apply Z.land_nonneg. right.
  apply wrap_bound. lia.
Qed.

(** The slots of a page. *)
Definition page_slots (sm : slab_manager) (p : Z) : list loc :=
  map (fun o => (p, slab_size sm, Z.of_nat o)) (seq 0 (Z.to_nat (per_slab sm))).

Lemma elem_of_page_slots sm p l :
  l ∈ page_slots sm p <-> l.1.1 = p /\ l.1.2 = slab_size sm /\ 0 <= l.2 < per_slab sm.
Proof.
  unfold page_slots. rewrite list_elem_of_fmap. split.
  - intros (o & -> & Ho%elem_of_seq). simpl. lia.
  - destruct l as [[p' z] o]. simpl. intros (-> & -> & Ho). exists (Z.to_nat o).
    split; [rewrite Z2Nat.id by lia; done|]. apply elem_of_seq. lia.
Qed.

Lemma length_page_slots sm p : 0 < per_slab sm -> Z.of_nat (length (page_slots sm p)) = per_slab sm.
Proof. intros H. unfold page_slots. rewrite length_map, length_seq. lia. Qed.

Section free_list.
Context (items : gmap loc mdb_item) (pages : gmap Z page_info) (i : Z) (sm : slab_manager)
  (w : gmap Z page_head) (fr : Z -> list loc) (ls : Z -> list loc) (p : Z).
Hypothesis Hper : 0 < per_slab sm.
Hypothesis Hok : items_ok items pages i sm w fr ls.
Hypothesis Hp : is_Some (w !! p).

Lemma free_submseteq : fr p ⊆+ page_slots sm p.
Proof.
  destruct Hp as [h Eh]. destruct (io_page _ _ _ _ _ _ _ Hok p h Eh) as (info & _ & _ & Hn & _).
  apply NoDup_submseteq; [done|]. intros l Hl. destruct (io_free _ _ _ _ _ _ _ Hok p l Hp Hl) as [(_ & Hs & Ho) Hlp].
  by apply elem_of_page_slots.
Qed.

(** A page has at most as many free items as slots, and if it has as many,
    none of its items is in use. *)
Lemma free_count : Z.of_nat (length (fr p)) <= per_slab sm.
Proof.
  pose proof (submseteq_length _ _ free_submseteq) as H.
  pose proof (length_page_slots sm p Hper). lia.
Qed.

Lemma all_free a l : Z.of_nat (length (fr p)) = per_slab sm -> l ∈ ls a -> l.1.1 <> p.
Proof.
  intros Hn Hl Hlp. destruct (io_live _ _ _ _ _ _ _ Hok a l Hl) as [(_ & Hs & Ho) Hnot].
  apply Hnot. rewrite Hlp. pose proof (length_page_slots sm p Hper).
  rewrite (submseteq_length_Permutation _ _ free_submseteq) by lia.
  by apply elem_of_page_slots.
Qed.
End free_list.

Lemma place_head_ok sm n : 0 <= n <= per_slab sm -> head_ok sm (place sm n).
Proof.
  intros Hn. unfold place. destruct (Z.eqb_spec n 0); [done|]. destruct (Z.eqb_spec n (per_slab sm)); [done|].
  simpl. unfold partial_pages_bucket_no, PARTIAL_PAGE_BUCKET.
  pose proof (Z.div_mod (per_slab sm + 10 - 1) 10). pose proof (Z.mod_pos_bound (per_slab sm + 10 - 1) 10).
  split; [apply Z.div_pos; lia|]. apply Z.div_lt_upper_bound; lia.
Qed.

Lemma place_ext sm sm' n : per_slab sm' = per_slab sm -> place sm' n = place sm n.
Proof. intros E. unfold place. by rewrite E. Qed.

(** ** Steps of the programs *)

Lemma update_slab_some i f sm s :
  m_slabs s !! Z.to_nat i = Some sm ->
  exists s', update_slab i f s = Ret (tt, s') /\ s' = set_m_slabs <[Z.to_nat i := f sm]> s
    /\ m_slabs s' !! Z.to_nat i = Some (f sm).
Proof.
  intros H. eexists. split; [by apply update_slab_run|]. split; [done|].
  cbn [m_slabs set_m_slabs]. apply list_lookup_insert_eq. by eapply lookup_lt_Some.
Qed.

(** What an operation of slab [i] leaves of the other slabs and the rest of
    memory, when its pages were [w] and are [w']. *)
Record slab_frame (i : Z) (w w' : gmap Z page_head) (s s' : mdb) : Prop := {
  sf_slabs : exists sm', m_slabs s' = <[Z.to_nat i := sm']> (m_slabs s);
  sf_hash : m_hash s' = m_hash s;
  sf_stat : m_stat s' = m_stat s;
  sf_now : m_now s' = m_now s;
  sf_total : total_pages (m_pool s') = total_pages (m_pool s);
  sf_items : forall l, w !! l.1.1 = None -> w' !! l.1.1 = None -> m_items s' !! l = m_items s !! l;
  sf_pages : forall p, w !! p = None -> w' !! p = None -> m_pages s' !! p = m_pages s !! p
}.

Lemma slab_frame_trans i w1 w2 w3 s1 s2 s3 :
  (forall p, w1 !! p = None -> w3 !! p = None -> w2 !! p = None) ->
  slab_frame i w1 w2 s1 s2 -> slab_frame i w2 w3 s2 s3 -> slab_frame i w1 w3 s1 s3.
Proof.
  intros Hw [[m1 H1] H2 H3 H4 H5 H6 H7] [[m2 G1] G2 G3 G4 G5 G6 G7].
  constructor; try congruence.
  - exists m2. rewrite G1, H1. by rewrite list_insert_insert_eq.
  - intros l Ha Hb. rewrite G6, H6; auto.
  - intros p Ha Hb. rewrite G7, H7; auto.
Qed.

(** ** alloc_new_item: taking an item of a page *)

(** The end of [alloc_new_item]: the first free item of page [page] is taken. *)
Definition take_item (i area page id : Z) : mdbM (option loc) :=
  let* _ := update_page page (set_free_nr (fun x => x - 1)) in
  let* info := get_page page in
  let* _ :=
    (if free_nr info =? 0 then
       let* _ := link_page i page FullPages in
       let* _ := update_slab i (set_full_pages_no (fun x => x + 1)) in
       let* _ := update_slab i (set_partial_pages_no (fun x => x - 1)) in
       update_page page (set_free_head (fun _ => 0))
     else link_page i page (PartialPages (free_nr info / PARTIAL_PAGE_BUCKET))) in
  need* 0 <? id in
  let* _ := update_slab i (set_item_total_count (fun x => u64 (x + 1))) in
  let* l := id_to_item id in
  let* it := get_item l in
  let* _ := update_page page (set_free_head (fun _ => h_next it)) in
  let* _ := link_item i l area in
  let* it := get_item l in
  let* info := get_page page in
  need* item_id it =? id in
  need* negb (negb (free_nr info =? 0) && (free_head info =? 0)) in
  need* negb (free_nr info =? 0) || (free_head info =? 0) in
  sret (Some l).

(** A page out of its list, still counted as partly used. *)
Record page_taken (s : mdb) (i p : Z) (h : page_head) (sm : slab_manager) (w : gmap Z page_head)
    (pg : page_head -> list Z) (fr ls : Z -> list loc) : Prop := {
  pt_slab : m_slabs s !! Z.to_nat i = Some sm;
  pt_shape : slab_shape i sm;
  pt_pages : pages_ok (m_pages s) sm w pg;
  pt_pool : in_pool s w;
  pt_out : w !! p = None;
  pt_range : 0 < p < total_pages (m_pool s);
  pt_id : exists info, m_pages s !! p = Some info /\ pi_id info = p;
  pt_items : items_ok (m_items s) (m_pages s) i sm (<[p := h]> w) fr ls;
  pt_free : free_pages_no sm = kind_count FreePages w;
  pt_full : full_pages_no sm = kind_count FullPages w;
  pt_partial : partial_pages_no sm = kind_count (PartialPages 0) w + 1
}.

(** Moving the page in hand to the list of its number of free items. *)
Definition relist (i page : Z) : mdbM unit :=
  let* _ := update_page page (set_free_nr (fun x => x - 1)) in
  let* info := get_page page in
  if free_nr info =? 0 then
    let* _ := link_page i page FullPages in
    let* _ := update_slab i (set_full_pages_no (fun x => x + 1)) in
    let* _ := update_slab i (set_partial_pages_no (fun x => x - 1)) in
    update_page page (set_free_head (fun _ => 0))
  else link_page i page (PartialPages (free_nr info / PARTIAL_PAGE_BUCKET)).

Lemma place_before sm n :
  0 <= n < per_slab sm ->
  place sm n = if n =? 0 then FullPages else PartialPages (n / PARTIAL_PAGE_BUCKET).
Proof. intros Hn. unfold place. destruct (Z.eqb_spec n 0), (Z.eqb_spec n (per_slab sm)); lia || done. Qed.

Lemma relist_run s i p h sm w pg fr ls n info :
  page_taken s i p h sm w pg fr ls -> m_pages s !! p = Some info ->
  free_nr info = Z.of_nat (S n) -> Z.of_nat (S n) <= per_slab sm ->
  exists sm' pages' pg' info',
    relist i p s = Ret (tt, pages_state i sm' pages' s)
    /\ same_slots sm sm' /\ slab_id sm' = slab_id sm
    /\ pages_ok pages' sm' (<[p := place sm (Z.of_nat n)]> w) pg'
    /\ counts_ok sm' (<[p := place sm (Z.of_nat n)]> w)
    /\ pages' !! p = Some info' /\ pi_id info' = p /\ free_nr info' = Z.of_nat n
    /\ pcore <$> delete p pages' = pcore <$> delete p (m_pages s)
    /\ (forall q, w !! q = None -> q <> p -> pages' !! q = m_pages s !! q).
Proof.
  intros [Hsm Hsh Hpg Hpool Hout Hp (info0 & E0 & Hid) _ Hfree Hfull Hpart] Einfo Hn Hper.
  rewrite Einfo in E0. injection E0 as <-.
  set (info1 := set_free_nr (fun x => x - 1) info). set (s1 := set_m_pages <[p := info1]> s).
  assert (free_nr info1 = Z.of_nat n) as Hn1 by (unfold info1; cbn [free_nr set_free_nr]; lia).
  assert (m_pages s1 !! p = Some info1) as E1 by apply lookup_insert_eq.
  assert (forall q, q <> p -> m_pages s1 !! q = m_pages s !! q) as Hs1
    by (intros q Hq; cbn [m_pages s1 set_m_pages]; by rewrite lookup_insert_ne).
  assert (pages_ok (m_pages s1) sm w pg) as Hpg1.
  { eapply pages_ok_frame; [| | |exact Hpg]; try done. intros q Hq. apply Hs1. intros ->.
    destruct Hq. congruence. }
  assert (pcore <$> delete p (m_pages s1) = pcore <$> delete p (m_pages s)) as Hc1
    by (cbn [m_pages s1 set_m_pages]; by rewrite delete_insert_eq).
  unfold relist. step_with (update_page_run p (set_free_nr (fun x => x - 1)) info s Hp Einfo). fold info1 s1.
  step_with (get_page_run p info1 s1 Hp E1). rewrite Hn1.
  rewrite (place_before sm (Z.of_nat n)) by lia.
  assert (head_ok sm (place sm (Z.of_nat n))) as Hh by (apply place_head_ok; lia).
  rewrite (place_before sm (Z.of_nat n)) in Hh by lia.
  destruct (Z.eqb_spec (Z.of_nat n) 0) as [Z0|Z0].
  - destruct (put_page i p FullPages s1 sm w pg info1 Hsm Hpg1 Hpool Hout Hh Hp E1 Hid)
      as (pages2 & E2 & Hpg2 & Hc2 & Ho2).
    step_with E2. set (sm2 := set_head FullPages p sm) in *.
    set (s2 := pages_state i sm2 pages2 s1).
    assert (m_slabs s2 !! Z.to_nat i = Some sm2) as Hsm2
      by (apply list_lookup_insert_eq; by eapply lookup_lt_Some).
    destruct (update_slab_some i (set_full_pages_no (fun x => x + 1)) sm2 s2 Hsm2) as (s3 & E3 & Es3 & Hsm3).
    step_with E3.
    destruct (update_slab_some i (set_partial_pages_no (fun x => x - 1)) _ s3 Hsm3) as (s4 & E4 & Es4 & Hsm4).
    step_with E4. set (sm4 := set_partial_pages_no _ _) in *.
    destruct (pcore_lookup _ _ p info1 Hc2 E1) as (info2 & Ei2 & Hcc). apply pcore_fields in Hcc as (Hid2 & Hn2 & _).
    assert (m_pages s4 = pages2) as Hp4 by (rewrite Es4, Es3; done).
    rewrite (update_page_run p _ info2) by (rewrite ?Hp4; rewrite ?Es4, ?Es3; done).
    set (info' := set_free_head (fun _ => 0) info2).
    exists sm4, (<[p := info']> pages2), (<[FullPages := p :: pg FullPages]> pg), info'.
    split.
    { unfold pages_state, set_m_pages. rewrite Hp4, Es4, Es3. unfold s2, s1, pages_state, set_m_slabs, set_m_pages. simpl.
      do 3 f_equal. by rewrite !list_insert_insert_eq. }
    split; [done|]. split; [done|]. split.
    { destruct Hpg2 as [P1 P2 P3 P4]. constructor.
      - intros h'. specialize (P1 h'). destruct P1 as [Q1 Q2 Q3]. constructor; [done| |exact Q3].
        eapply dseg_frame; [|exact Q2]. intros q _. unfold page_links.
        destruct (decide (p = q)) as [<-|D]; [by rewrite lookup_insert_eq, Ei2|by rewrite lookup_insert_ne].
      - exact P2.
      - intros q Hq. destruct (decide (p = q)) as [<-|D]; [rewrite lookup_insert_eq; exists info'; split; [done|]|].
        + cbn. by rewrite Hid2.
        + rewrite lookup_insert_ne by done. by apply P3.
      - exact P4. }
    split.
    { unfold counts_ok. rewrite !kind_count_insert by done. cbn. rewrite Hfree, Hfull, Hpart. lia. }
    split; [apply lookup_insert_eq|]. split; [cbn; by rewrite Hid2|]. split; [cbn; by rewrite Hn2|].
    split; [rewrite delete_insert_eq, <- Hc1, !fmap_delete; by rewrite Hc2|].
    intros q Hq Hne. rewrite lookup_insert_ne by done. by rewrite Ho2, Hs1.
  - destruct (put_page i p (PartialPages (Z.of_nat n / PARTIAL_PAGE_BUCKET)) s1 sm w pg info1
                Hsm Hpg1 Hpool Hout Hh Hp E1 Hid) as (pages2 & E2 & Hpg2 & Hc2 & Ho2).
    destruct (pcore_lookup _ _ p info1 Hc2 E1) as (info2 & Ei2 & Hcc). apply pcore_fields in Hcc as (Hid2 & Hn2 & _).
    eexists _, pages2, _, info2. split; [exact E2|]. split; [done|]. split; [done|]. split; [exact Hpg2|].
    split.
    { unfold counts_ok. rewrite !kind_count_insert by done. cbn. rewrite Hfree, Hfull, Hpart. lia. }
    split; [done|]. split; [by rewrite Hid2|]. split; [by rewrite Hn2|].
    split; [rewrite <- Hc1, !fmap_delete; by rewrite Hc2|].
    intros q Hq Hne. by rewrite Ho2, Hs1.
Qed.

(** The rest of [take_item]: the item leaves the free chain and goes to the
    front of the area's list. *)
Definition take_item_rest (i area page id : Z) : mdbM (option loc) :=
  need* 0 <? id in
  let* _ := update_slab i (set_item_total_count (fun x => u64 (x + 1))) in
  let* l := id_to_item id in
  let* it := get_item l in
  let* _ := update_page page (set_free_head (fun _ => h_next it)) in
  let* _ := link_item i l area in
  let* it := get_item l in
  let* info := get_page page in
  need* item_id it =? id in
  need* negb (negb (free_nr info =? 0) && (free_head info =? 0)) in
  need* negb (free_nr info =? 0) || (free_head info =? 0) in
  sret (Some l).

Lemma take_item_split i area page id s :
  take_item i area page id s = sbind (relist i page) (fun _ => take_item_rest i area page id) s.
Proof.
  unfold take_item, relist. rewrite sbind_assoc. apply sbind_ext. intros _ s1 _.
  rewrite sbind_assoc. apply sbind_ext. intros info s2 _. destruct (free_nr info =? 0); done.
Qed.

(** A free item leaves its page's chain for the list of an area. *)
Lemma items_ok_take items items' pages pages' i sm sm' w w' fr ls p l fl h area info it :
  items_ok items pages i sm (<[p := h]> w) fr ls -> w !! p = None -> fr p = l :: fl ->
  slab_size sm' = slab_size sm -> per_slab sm' = per_slab sm ->
  core <$> items' = core <$> items -> items !! l = Some it -> fchain i items (h_next it) fl ->
  slab_lists i sm' items' (<[area := l :: ls area]> ls) -> 0 <= area < TAIR_MAX_AREA_COUNT ->
  w' = <[p := place sm (Z.of_nat (length fl))]> w ->
  pages' !! p = Some info -> free_nr info = Z.of_nat (length fl) -> free_head info = h_next it ->
  pcore <$> delete p pages' = pcore <$> delete p pages ->
  items_ok items' pages' i sm' w' (<[p := fl]> fr) (<[area := l :: ls area]> ls).
Proof.
  intros Hok Hout Hfr Es Ep Hcore Hit Hfl Hl' Ha -> Einfo Hnr Hhd Hpc.
  pose proof Hok as [H1 H2 H3 H4 H5 H6 H7].
  assert (forall z, slot sm' (<[p := place sm (Z.of_nat (length fl))]> w) z <-> slot sm (<[p := h]> w) z) as Hslot.
  { intros z. unfold slot. rewrite Es, Ep. rewrite !lookup_insert_is_Some. tauto. }
  assert (is_Some (<[p := h]> w !! p)) as Hpw by (rewrite lookup_insert_eq; by eexists).
  destruct (H5 p h ltac:(apply lookup_insert_eq)) as (_ & _ & _ & Hnd & _ & _).
  rewrite Hfr in Hnd. apply list.NoDup_cons in Hnd as [Hlfl Hnfl].
  destruct (H6 p l Hpw ltac:(rewrite Hfr; by left)) as [Hslotl Hlp].
  assert (forall a z, z ∈ (<[area := l :: ls area]> ls) a -> z = l /\ a = area \/ z ∈ ls a) as Hin.
  { intros a z. destruct (decide (area = a)) as [<-|D];
      rewrite ?fn_lookup_insert, ?fn_lookup_insert_ne by done; [|by right].
    intros [->|Hz]%elem_of_cons; [by left|by right]. }
  constructor.
  - done.
  - intros a z [[_ ->]|Hz]%Hin; [done|by apply (H2 a z)].
  - intros z Hz%Hslot. destruct (H3 z Hz) as (itz & Ez & Hlen & Hid).
    destruct (core_lookup _ _ _ _ Hcore Ez) as (it' & E' & Hc). apply core_fields in Hc as (_ & _ & _ & Hd & _ & _ & Hi & _).
    exists it'. rewrite Hd, Hi, Es. done.
  - intros a z Hz. rewrite Hslot. apply Hin in Hz as [[-> _]|Hz].
    + split; [done|]. by rewrite Hlp, fn_lookup_insert.
    + destruct (H4 a z Hz) as [Hs Hn]. split; [done|]. destruct (decide (p = z.1.1)) as [E|D].
      * rewrite <- E, fn_lookup_insert. rewrite <- E, Hfr in Hn. intros Hz'. apply Hn. by right.
      * by rewrite fn_lookup_insert_ne.
  - intros q hq. destruct (decide (p = q)) as [<-|D].
    + rewrite lookup_insert_eq. intros [= <-]. exists info. rewrite fn_lookup_insert.
      split; [done|]. rewrite Hhd. split; [by eapply fchain_core|]. split; [done|]. split; [done|].
      rewrite Hnr. symmetry. by apply place_ext.
    + rewrite lookup_insert_ne by done. intros Hq.
      destruct (H5 q hq ltac:(by rewrite lookup_insert_ne)) as (iq & Eq & Hch & Hn & Hnq & Hpl).
      destruct (pcore_lookup (delete p pages) (delete p pages') q iq Hpc) as (iq' & Eq' & Hcq).
      { by rewrite lookup_delete_ne. }
      rewrite lookup_delete_ne in Eq' by done. apply pcore_fields in Hcq as (_ & Hf & Hfh).
      exists iq'. rewrite Hf, Hfh, fn_lookup_insert_ne by done. split; [done|].
      split; [by eapply fchain_core|]. split; [done|]. split; [done|]. rewrite Hpl. symmetry. by apply place_ext.
  - intros q z Hq. rewrite Hslot. destruct (decide (p = q)) as [<-|D].
    + rewrite fn_lookup_insert. intros Hz. apply H6; [done|]. rewrite Hfr. by right.
    + rewrite fn_lookup_insert_ne by done. intros Hz. apply H6; [|done].
      rewrite lookup_insert_ne in Hq |- * by done. done.
  - intros z Hz%Hslot. destruct (H7 z Hz) as [Hf|[a Ha']].
    + destruct (decide (p = z.1.1)) as [E|D].
      * rewrite <- E, fn_lookup_insert. rewrite <- E, Hfr in Hf.
        apply elem_of_cons in Hf as [->|Hf]; [right|by left]. exists area.
        rewrite fn_lookup_insert. by left.
      * rewrite fn_lookup_insert_ne by done. by left.
    + right. exists a. destruct (decide (area = a)) as [<-|D];
        rewrite ?fn_lookup_insert, ?fn_lookup_insert_ne by done; [by right|done].
Qed.

(** The pool's pages have 16-bit numbers. *)
Definition small_pool (s : mdb) : Prop := total_pages (m_pool s) <= 2 ^ 16.

Lemma slab_frame_pages i sm' pages' (w w' : gmap Z page_head) s :
  (forall q, w !! q = None -> w' !! q = None -> pages' !! q = m_pages s !! q) ->
  slab_frame i w w' s (pages_state i sm' pages' s).
Proof. intros H. constructor; try done. by exists sm'. Qed.

Lemma take_item_run s i p h sm w pg fr ls l fl area info :
  page_taken s i p h sm w pg fr ls -> small_pool s -> m_pages s !! p = Some info ->
  fr p = l :: fl -> 0 <= area < TAIR_MAX_AREA_COUNT ->
  exists s' sm' v', take_item i area p (free_head info) s = Ret (Some l, s')
    /\ slab_ok s' i sm' v' /\ sv_lists v' = listed l area ls
    /\ (forall q, is_Some (sv_where v' !! q) <-> q = p \/ is_Some (w !! q))
    /\ same_shape sm sm'
    /\ slab_frame i (<[p := h]> w) (sv_where v') s s' /\ core <$> m_items s' = core <$> m_items s
    /\ m_pool s' = m_pool s
    /\ exists it, m_items s' !! l = Some it /\ item_id it = cid i l.
Proof.
  intros Hpt Hsmall Einfo Hfr Ha. pose proof Hpt as [Hsm Hsh Hpg Hpool Hout Hp _ Hit _ _ _].
  assert (is_Some (<[p := h]> w !! p)) as Hpw by (rewrite lookup_insert_eq; by eexists).
  assert (in_pool s (<[p := h]> w)) as Hpool2
    by (intros q Hq; destruct (decide (p = q)) as [<-|D]; [done|rewrite lookup_insert_ne in Hq by done; by apply Hpool]).
  destruct (io_page _ _ _ _ _ _ _ Hit p h ltac:(apply lookup_insert_eq)) as (info0 & E0 & Hch & Hnd & Hnr & _).
  rewrite Einfo in E0. injection E0 as <-. rewrite Hfr in Hch, Hnd, Hnr.
  pose proof (free_count _ _ _ _ _ _ _ p ltac:(apply (sh_per _ _ Hsh)) Hit Hpw) as Hcount. rewrite Hfr in Hcount.
  destruct Hch as (Hhd & it & Eit & Hid & Hch).
  destruct (io_free _ _ _ _ _ _ _ Hit p l Hpw ltac:(rewrite Hfr; by left)) as [Hslot Hlp].
  pose proof (loc_ok_slot i s sm _ l Hsh Hpool2 Hsmall Hslot) as Hlok. pose proof (sh_range _ _ Hsh) as Hi.
  destruct (relist_run s i p h sm w pg fr ls (length fl) info Hpt Einfo ltac:(simpl in Hnr; lia) ltac:(simpl in Hcount; lia))
    as (sm1 & pages1 & pg1 & info1 & E1 & Hslots & Hsid & Hpg1 & Hcnt1 & Ei1 & Hid1 & Hnr1 & Hpc1 & Ho1).
  set (w1 := <[p := place sm (Z.of_nat (length fl))]> w) in *.
  set (s1 := pages_state i sm1 pages1 s) in *.
  assert (m_slabs s1 !! Z.to_nat i = Some sm1) as Hsm1
    by (apply list_lookup_insert_eq; by eapply lookup_lt_Some).
  set (sm2 := set_item_total_count (fun x => u64 (x + 1)) sm1).
  set (s2 := set_m_slabs <[Z.to_nat i := sm2]> s1).
  pose proof (update_slab_run i (set_item_total_count (fun x => u64 (x + 1))) sm1 s1 Hsm1) as E2. fold sm2 s2 in E2.
  assert (m_slabs s2 !! Z.to_nat i = Some sm2) as Hsm2
    by (apply list_lookup_insert_eq; by eapply lookup_lt_Some).
  set (info3 := set_free_head (fun _ => h_next it) info1).
  set (pages3 := <[p := info3]> pages1).
  set (s3 := set_m_pages (fun _ => pages3) s2).
  destruct (slab_link_item i l area s3 it sm2 ls) as (s4 & sm4 & E4 & Hsame & Hl4 & Hout4).
  { exact Eit. }
  { rewrite Hid, Hhd. by apply cid_names. }
  { exact Hsm2. }
  { lia. }
  { eapply slab_lists_sm; [|exact (io_lists _ _ _ _ _ _ _ Hit)].
    destruct Hslots as (El & _). exact El. }
  { intros a Hla. destruct (io_live _ _ _ _ _ _ _ Hit a l Hla) as [_ Hn]. apply Hn. rewrite Hlp, Hfr. by left. }
  pose proof (same_but_lists_slab _ _ _ _ _ Hsame Hsm2) as Hsm4.
  destruct Hsame as ([ml Hsm4eq] & Hslabs4 & Hpool4 & Hpages4 & Hhash4 & Hstat4 & Hnow4 & Hcore4).
  assert (m_items s3 = m_items s) as Hi3 by done. rewrite Hi3 in Hcore4.
  assert (m_pages s4 = pages3) as Hp4 by (rewrite Hpages4; done).
  destruct (core_lookup _ _ l it Hcore4 Eit) as (it4 & Eit4 & Hcc).
  assert (item_id it4 = cid i l) as Hid4 by (rewrite (core_id _ _ Hcc), Hid; exact Hhd).
  assert (m_pages s4 !! p = Some info3) as Ei4 by (rewrite Hp4; apply lookup_insert_eq).
  assert (total_pages (m_pool s4) = total_pages (m_pool s)) as Ht4 by (by rewrite Hpool4).
  assert (same_shape sm sm4) as (Eid4 & Esz4 & Ep4 & Eev4).
  { rewrite Hsm4eq. destruct Hslots as (_ & G2 & G3 & G4). by repeat split. }
  exists s4, sm4, (mk_slab_view w1 pg1 (<[p := fl]> fr) (listed l area ls)). cbn [sv_where sv_lists].
  split.
  { rewrite take_item_split. step_with E1. unfold take_item_rest.
    rewrite sassert_run by (rewrite Hhd; apply Z.ltb_lt; by apply cid_pos).
    step_with E2. rewrite Hhd. step_with (id_to_item_run (cid i l) s2 (cid_nonzero i l Hlok Hi)).
    destruct (cid_loc i l Hlok Hi) as [-> _].
    step_with (get_item_run l it s2 Eit).
    assert (update_page p (set_free_head (fun _ => h_next it)) s2 = Ret (tt, s3)) as E3.
    { by rewrite (update_page_run p _ info1). }
    step_with E3. step_with E4. step_with (get_item_run l it4 s4 Eit4).
    step_with (get_page_run p info3 s4 ltac:(rewrite Ht4; exact Hp) Ei4).
    rewrite sassert_run by (apply Z.eqb_eq; exact Hid4).
    assert (free_nr info3 = Z.of_nat (length fl)) as -> by exact Hnr1.
    change (free_head info3) with (h_next it).
    assert ((Z.of_nat (length fl) =? 0) = (h_next it =? 0)) as ->; [|by destruct (h_next it =? 0)].
    destruct fl as [|l2 fl2]; simpl in Hch; [by rewrite Hch|]. destruct Hch as (-> & _).
    assert (cid i l2 <> 0) as Hne; [|destruct (Z.eqb_spec (cid i l2) 0); [done|by apply Z.eqb_neq]].
    apply cid_nonzero; [|done]. apply (loc_ok_slot i s sm _ l2 Hsh Hpool2 Hsmall).
    apply (io_free _ _ _ _ _ _ _ Hit p l2 Hpw). rewrite Hfr. right. by left. }
  split; [constructor; cbn [sv_where sv_pages sv_free sv_lists]|].
  - exact Hsm4.
  - by eapply shape_same; [exact Eid4|exact Esz4|exact Ep4|exact Eev4|].
  - rewrite Hp4, Hsm4eq. destruct Hpg1 as [P1 P2 P3 P4]. constructor.
    + intros h'. destruct (P1 h') as [Q1 Q2 Q3]. constructor; [done| |by destruct h'].
      eapply dseg_frame; [|exact Q2]. intros q _. unfold page_links, pages3.
      destruct (decide (p = q)) as [<-|D]; [by rewrite lookup_insert_eq, Ei1|by rewrite lookup_insert_ne].
    + exact P2.
    + intros q Hq. unfold pages3. destruct (decide (p = q)) as [<-|D]; [|rewrite lookup_insert_ne by done; by apply P3].
      rewrite lookup_insert_eq. exists info3. done.
    + intros q hq Hq. specialize (P4 q hq Hq). by destruct hq.
  - rewrite Hsm4eq. exact Hcnt1.
  - eapply (items_ok_take (m_items s) _ (m_pages s) _ i sm); try done.
    rewrite Hp4. unfold pages3. by rewrite delete_insert_eq.
  - intros q Hq. rewrite Ht4. apply Hpool2. unfold w1 in Hq. rewrite lookup_insert_is_Some in Hq |- *. done.
  - unfold w1. apply insert_non_empty.
  - split; [done|]. split; [intros q; unfold w1; rewrite lookup_insert_is_Some; destruct (decide (p = q)); naive_solver|].
    split; [done|]. split; [|split; [done|split; [by rewrite Hpool4|by exists it4]]].
    constructor.
    + exists sm4. rewrite Hslabs4. unfold s3. unfold s2, s1, pages_state. cbn.
      by rewrite !list_insert_insert_eq.
    + by rewrite Hhash4.
    + by rewrite Hstat4.
    + by rewrite Hnow4.
    + exact Ht4.
    + intros z Hz _. rewrite Hout4; [by rewrite Hi3|]. intros a Hza.
      assert (slot sm (<[p := h]> w) z) as [Hs _]; [|destruct Hs; congruence].
      unfold listed in Hza. destruct (decide (area = a)) as [<-|D].
      * rewrite fn_lookup_insert in Hza. apply elem_of_cons in Hza as [->|Hza]; [done|].
        by apply (io_live _ _ _ _ _ _ _ Hit area).
      * rewrite fn_lookup_insert_ne in Hza by done. by apply (io_live _ _ _ _ _ _ _ Hit a).
    + intros q Hq _. rewrite lookup_insert_None in Hq. destruct Hq as [Hq D]. rewrite Hp4. unfold pages3.
      rewrite lookup_insert_ne by done. by apply Ho1.
Qed.

(** ** alloc_new_item: choosing a page *)

Definition choose_page (i : Z) : mdbM (option (Z * Z)) :=
  let* sm := get_slab i in
  if 0 <? partial_pages_no sm then
    let page := get_partial_page_id sm in
    need* 0 <? page in
    let* info := get_page page in
    need* 0 <? free_nr info in
    need* negb (free_head info =? 0) in
    need* free_nr info <=? per_slab sm in
    let* _ := unlink_page i page (PartialPages (free_nr info / PARTIAL_PAGE_BUCKET)) in
    sret (Some (page, free_head info))
  else if 0 <? free_pages_no sm then
    let page := slab_free_pages sm in
    let* info := get_page page in
    need* free_nr info =? per_slab sm in
    need* negb (free_head info =? 0) in
    let* _ := unlink_page i page FreePages in
    let* _ := update_slab i (set_free_pages_no (fun x => x - 1)) in
    let* _ := update_slab i (set_partial_pages_no (fun x => x + 1)) in
    sret (Some (page, free_head info))
  else
    let* r := pool_alloc_page in
    match r with
    | None => sret None
    | Some (index, _) =>
        let* _ := init_page i index in
        let* info := get_page index in
        let* _ := update_slab i (set_partial_pages_no (fun x => x + 1)) in
        sret (Some (index, free_head info))
    end.

Lemma alloc_new_item_split i area s :
  alloc_new_item i area s =
  (let* chosen := choose_page i in
   match chosen with
   | None => sret None
   | Some (page, id) => take_item i area page id
   end) s.
Proof. unfold alloc_new_item, choose_page. rewrite sbind_assoc. reflexivity. Qed.

Lemma first_partial_spec n b m :
  (exists c, b <= c < b + Z.of_nat n /\ area_get 0 m c <> 0) ->
  exists c, b <= c < b + Z.of_nat n /\ first_partial n b m = area_get 0 m c /\ area_get 0 m c <> 0.
Proof.
  revert b. induction n as [|n IH]; intros b (c & Hc & Hne); [lia|]. cbn [first_partial].
  destruct (Z.eqb_spec (area_get 0 m b) 0) as [E|E]; cbn [negb].
  - destruct (IH (b + 1)) as (c' & Hc' & H); [|exists c'; split; [lia|done]].
    exists c. split; [|done]. assert (c <> b) by congruence. lia.
  - exists b. split; [lia|done].
Qed.

(** A list of pages that is not empty starts with one of its pages. *)
Lemma head_page pages sm w pg p h :
  pages_ok pages sm w pg -> w !! p = Some h ->
  0 < head_of sm h /\ w !! head_of sm h = Some h.
Proof.
  intros Hok Hp. apply (po_where _ _ _ _ Hok) in Hp. destruct (po_dll _ _ _ _ Hok h) as [_ _ Hh].
  destruct (pg h) as [|q ls] eqn:E; [by apply elem_of_nil in Hp|]. simpl in Hh. destruct Hh as [Hq ->].
  split; [done|]. apply (po_where _ _ _ _ Hok). rewrite E. by left.
Qed.

(** A listed page taken out of its list. *)
Lemma take_listed_page s i sm v p h info :
  slab_ok s i sm v -> sv_where v !! p = Some h -> m_pages s !! p = Some info ->
  exists sm' pages' pg' info', unlink_page i p h s = Ret (tt, pages_state i sm' pages' s)
    /\ same_slots sm sm' /\ slab_id sm' = slab_id sm
    /\ free_pages_no sm' = free_pages_no sm /\ full_pages_no sm' = full_pages_no sm
    /\ partial_pages_no sm' = partial_pages_no sm
    /\ pages_ok pages' sm' (delete p (sv_where v)) pg'
    /\ items_ok (m_items s) pages' i sm' (sv_where v) (sv_free v) (sv_lists v)
    /\ pages' !! p = Some info' /\ pi_id info' = p /\ free_nr info' = free_nr info
    /\ free_head info' = free_head info
    /\ forall q, sv_where v !! q = None -> pages' !! q = m_pages s !! q.
Proof.
  intros [Hsm Hsh Hpg Hcnt Hit Hpool _] Hp Einfo.
  destruct (take_page i p h s sm (sv_where v) (sv_pages v) Hsm Hpg Hpool Hp)
    as (sm' & pages' & E & Hsm' & Hpg' & Hc & Ho).
  assert (same_slots sm sm' /\ slab_id sm' = slab_id sm /\ free_pages_no sm' = free_pages_no sm
          /\ full_pages_no sm' = full_pages_no sm /\ partial_pages_no sm' = partial_pages_no sm)
    as (Hss & H1 & H2 & H3 & H4).
  { destruct Hsm' as [->|[x ->]]; [done|]. destruct h; done. }
  destruct (pcore_lookup _ _ _ _ Hc Einfo) as (info' & E' & Hcc). apply pcore_fields in Hcc as (Hid & Hn & Hh).
  destruct (po_id _ _ _ _ Hpg p ltac:(by eexists)) as (i0 & E0 & Hid0). rewrite Einfo in E0. injection E0 as <-.
  exists sm', pages', (<[h := filter (.≠ p) (sv_pages v h)]> (sv_pages v)), info'.
  repeat (split; [done|]). split; [|split; [done|split; [congruence|done]]].
  eapply items_ok_pages; [exact Hc|]. by eapply items_ok_sm.
Qed.

(** ** A new page *)

Lemma init_items_lookup n sm index items l :
  init_items n sm index items !! l =
  if decide (l.1.1 = index /\ l.1.2 = slab_size sm /\ 0 <= l.2 < Z.of_nat n)
  then Some (fresh_item sm index l.2) else items !! l.
Proof.
  induction n as [|n IH]; cbn [init_items].
  { rewrite decide_False by lia. done. }
  destruct (decide ((index, slab_size sm, Z.of_nat n) = l)) as [<-|D].
  - rewrite lookup_insert_eq, decide_True; [done|]. simpl. lia.
  - rewrite lookup_insert_ne by done. rewrite IH.
    assert ((l.1.1 = index /\ l.1.2 = slab_size sm /\ 0 <= l.2 < Z.of_nat n)
            <-> (l.1.1 = index /\ l.1.2 = slab_size sm /\ 0 <= l.2 < Z.of_nat (S n))) as H.
    { split; [intros (? & ? & ?); split; [done|]; split; [done|]; lia|].
      intros (H1 & H2 & H3). split; [done|]. split; [done|].
      assert (l.2 <> Z.of_nat n); [|lia]. intros E. apply D. destruct l as [[p z] o]. simpl in *. by subst. }
    by repeat case_decide; try tauto.
Qed.

Section new_page.
Context (s : mdb) (i : Z) (sm : slab_manager) (w : gmap Z page_head) (fr ls : Z -> list loc) (p : Z).
Hypothesis Hsh : slab_shape i sm.
Hypothesis Hit : items_ok (m_items s) (m_pages s) i sm w fr ls.
Hypothesis Hw : w !! p = None.

Definition new_info : page_info :=
  mk_page_info p (per_slab sm) 0 0 (ITEM_ID (slab_size sm) 0 p (slab_id sm)).
Definition new_pages : gmap Z page_info := <[p := new_info]> (m_pages s).
Definition new_items : gmap loc mdb_item :=
  init_items (Z.to_nat (per_slab sm)) sm p (filter (fun kv => kv.1.1.1 <> p) (m_items s)).

Lemma init_page_run :
  m_slabs s !! Z.to_nat i = Some sm ->
  init_page i p s = Ret (tt, set_m_items (fun _ => new_items) (set_m_pages (fun _ => new_pages) s)).
Proof. intros Hsm. unfold init_page. by step_with (get_slab_run _ _ _ Hsm). Qed.

Lemma new_items_lookup l :
  new_items !! l = if decide (l.1.1 = p) then
      (if decide (l.1.2 = slab_size sm /\ 0 <= l.2 < per_slab sm) then Some (fresh_item sm p l.2) else None)
    else m_items s !! l.
Proof.
  unfold new_items. rewrite init_items_lookup. destruct (sh_per _ _ Hsh).
  rewrite Z2Nat.id by lia. repeat case_decide; try tauto; try lia.
  - apply map_lookup_filter_None. right. intros x Hx. simpl. tauto.
  - destruct (m_items s !! l) eqn:E.
    + by apply map_lookup_filter_Some.
    + apply map_lookup_filter_None. by left.
Qed.

Lemma fresh_chain k o :
  0 <= o -> o + Z.of_nat k = per_slab sm ->
  fchain i new_items (if decide (k = 0%nat) then 0 else ITEM_ID (slab_size sm) o p (slab_id sm))
    (map (fun j => (p, slab_size sm, Z.of_nat j)) (seq (Z.to_nat o) k)).
Proof.
  revert o. induction k as [|k IH]; intros o Ho Hk; [done|]. cbn [seq map fchain].
  rewrite decide_False by done. unfold cid. cbn [fst snd]. rewrite Z2Nat.id by lia.
  split; [by rewrite (sh_id _ _ Hsh)|].
  exists (fresh_item sm p o). rewrite new_items_lookup. cbn [fst snd].
  rewrite decide_True by done. rewrite decide_True by (split; [done|lia]). split; [done|]. split; [done|].
  specialize (IH (o + 1) ltac:(lia) ltac:(lia)). cbn [h_next fresh_item].
  replace (S (Z.to_nat o)) with (Z.to_nat (o + 1)) by lia.
  destruct (Z.eqb_spec (o + 1) (per_slab sm)) as [E|E].
  - assert (k = 0%nat) as -> by lia. exact IH.
  - rewrite decide_False in IH by lia. exact IH.
Qed.

Lemma items_ok_new :
  0 < p < 2 ^ 16 ->
  items_ok new_items new_pages i sm (<[p := FreePages]> w) (<[p := page_slots sm p]> fr) ls.
Proof.
  intros Hp. destruct Hsh as [Hid Hi Hsz Hper _]. pose proof Hit as [H1 H2 H3 H4 H5 H6 H7].
  assert (forall z, z.1.1 <> p -> new_items !! z = m_items s !! z) as Hsame.
  { intros z Hz. rewrite new_items_lookup. by rewrite decide_False. }
  assert (forall a z, z ∈ ls a -> z.1.1 <> p) as Hls.
  { intros a z Hz E. destruct (H4 a z Hz) as [(Hs & _) _]. rewrite E in Hs. destruct Hs. congruence. }
  assert (forall z, slot sm (<[p := FreePages]> w) z <-> z ∈ page_slots sm p \/ slot sm w z) as Hslot.
  { intros z. rewrite elem_of_page_slots. unfold slot. rewrite lookup_insert_is_Some.
    destruct (decide (p = z.1.1)) as [E|D]; [|naive_solver].
    assert (w !! z.1.1 = None) as Hn by congruence. rewrite Hn.
    split; [naive_solver|]. intros [(_ & ? & ?)|([? ?] & _)]; [|done]. split; [by left|done]. }
  constructor.
  - destruct H1 as [Hd Hdis]. constructor; [|done]. intros a. eapply item_dll_frame; [|apply Hd].
    intros z Hz. by apply Hsame, (Hls a).
  - done.
  - intros z [Hz|Hz]%Hslot.
    + apply elem_of_page_slots in Hz as (E & Es & Ho). rewrite new_items_lookup.
      rewrite !decide_True by done. eexists. split; [done|]. cbn [data fresh_item item_id].
      rewrite length_replicate. split; [lia|]. rewrite Hid.
      replace (ITEM_ID (slab_size sm) z.2 p i) with (cid i z) by (unfold cid; by rewrite E, Es).
      apply cid_names; [|done].
      unfold loc_ok, in_u, sizeof_mdb_item in *. lia.
    + assert (z.1.1 <> p) by (intros E; destruct Hz as [[x Hx] _]; congruence).
      rewrite Hsame by done. by apply H3.
  - intros a z Hz. destruct (H4 a z Hz) as [Hs Hn]. rewrite Hslot. split; [by right|].
    rewrite fn_lookup_insert_ne; [done|]. intros E. by apply (Hls a z Hz).
  - intros q h. destruct (decide (p = q)) as [<-|D].
    + rewrite lookup_insert_eq. intros [= <-]. exists new_info. unfold new_pages.
      rewrite lookup_insert_eq, fn_lookup_insert. split; [done|]. cbn [free_head free_nr new_info].
      split; [|split; [|split]].
      * pose proof (fresh_chain (Z.to_nat (per_slab sm)) 0 ltac:(lia) ltac:(lia)) as Hc.
        rewrite decide_False in Hc by lia. exact Hc.
      * unfold page_slots. apply NoDup_fmap_2; [|apply NoDup_seq]. intros a b [= E]. lia.
      * rewrite length_page_slots by lia. done.
      * unfold place. destruct (Z.eqb_spec (per_slab sm) 0), (Z.eqb_spec (per_slab sm) (per_slab sm)); lia || done.
    + rewrite lookup_insert_ne by done. intros Hq. destruct (H5 q h Hq) as (info & E & Hc & Hr).
      exists info. unfold new_pages. rewrite lookup_insert_ne, fn_lookup_insert_ne by done.
      split; [done|]. split; [|done]. eapply fchain_frame; [|exact Hc]. intros z itz Hz Ez.
      exists itz. rewrite Hsame; [done|]. destruct (H6 q z ltac:(by eexists) Hz) as [_ <-]. congruence.
  - intros q z Hq. destruct (decide (p = q)) as [<-|D].
    + rewrite fn_lookup_insert. intros Hz. rewrite Hslot. split; [by left|]. by apply elem_of_page_slots in Hz as [? _].
    + rewrite fn_lookup_insert_ne by done. intros Hz. rewrite lookup_insert_ne in Hq by done.
      destruct (H6 q z Hq Hz) as [Hs E]. rewrite Hslot. split; [by right|done].
  - intros z [Hz|Hz]%Hslot.
    + left. pose proof Hz as (-> & _)%elem_of_page_slots. by rewrite fn_lookup_insert.
    + rewrite fn_lookup_insert_ne; [by apply H7|]. intros E. destruct Hz as [[x Hx] _]. congruence.
Qed.
End new_page.

(** ** What allocation leaves of the pool and of the items in use *)

(** The slab's pages are taken from the pool. *)
Record owns (s : mdb) (w : gmap Z page_head) : Prop := {
  ow_wf : pool_wf (m_pool s);
  ow_small : small_pool s;
  ow_used : forall p, is_Some (w !! p) -> used (page_bitmap (m_pool s)) p = true
}.

(** Pages come from the pool's unused ones, and no other page is affected. *)
Record pool_step (w w' : gmap Z page_head) (s s' : mdb) : Prop := {
  ps_owns : owns s' w';
  ps_same : forall p, 0 < p < total_pages (m_pool s) -> (is_Some (w !! p) <-> is_Some (w' !! p)) ->
              used (page_bitmap (m_pool s')) p = used (page_bitmap (m_pool s)) p;
  ps_new : forall p, w !! p = None -> is_Some (w' !! p) -> used (page_bitmap (m_pool s)) p = false
}.

(** The items at the places [P] keep everything but their list links. *)
Definition core_kept (P : loc -> Prop) (s s' : mdb) : Prop :=
  forall l, P l -> core <$> m_items s' !! l = core <$> m_items s !! l.

Lemma core_kept_all P s s' : core <$> m_items s' = core <$> m_items s -> core_kept P s s'.
Proof. intros H l _. by rewrite <- !lookup_fmap, H. Qed.

Lemma core_kept_trans P s s1 s2 : core_kept P s s1 -> core_kept P s1 s2 -> core_kept P s s2.
Proof. intros H1 H2 l Hl. by rewrite H2, H1. Qed.

Lemma pool_step_same w w' s s' :
  owns s w -> m_pool s' = m_pool s -> (forall p, is_Some (w' !! p) -> is_Some (w !! p)) ->
  pool_step w w' s s'.
Proof.
  intros [H1 H2 H3] Hp Hw. constructor.
  - constructor; unfold small_pool; rewrite ?Hp; try done. intros p Hp'. by apply H3, Hw.
  - intros p _ _. by rewrite Hp.
  - intros p Hn Hs%Hw. rewrite Hn in Hs. by destruct Hs.
Qed.

Lemma pool_step_after w w' w'' s s1 s2 :
  pool_step w w' s s1 -> m_pool s2 = m_pool s1 -> (forall p, is_Some (w'' !! p) <-> is_Some (w' !! p)) ->
  pool_step w w'' s s2.
Proof.
  intros [[H1 H2 H3] H4 H5] Hp Hw. constructor.
  - constructor; unfold small_pool; rewrite ?Hp; try done. intros p Hp'. by apply H3, Hw.
  - intros p Hr Hs. rewrite Hp. apply H4; [done|]. by rewrite <- Hw.
  - intros p Hn Hs. apply H5; [done|]. by apply Hw.
Qed.

(** *** The three ways to a page *)

(** What [choose_page] gives. *)
Record page_chosen (s s1 : mdb) (i p id : Z) (sm : slab_manager) (v : slab_view) (h : page_head)
    (sm1 : slab_manager) (w1 : gmap Z page_head) (fr1 : Z -> list loc) : Prop := {
  pc_taken : exists pg1, page_taken s1 i p h sm1 w1 pg1 fr1 (sv_lists v);
  pc_info : exists info, m_pages s1 !! p = Some info /\ free_head info = id;
  pc_some : fr1 p <> [];
  pc_shape : same_shape sm sm1;
  pc_where : forall q, is_Some (<[p := h]> w1 !! q) <-> q = p \/ is_Some (sv_where v !! q);
  pc_frame : slab_frame i (sv_where v) (<[p := h]> w1) s s1;
  pc_core : core_kept (slot sm (sv_where v)) s s1;
  pc_pool : pool_step (sv_where v) (<[p := h]> w1) s s1
}.

Lemma some_not_nil {A} (l : list A) : 0 < Z.of_nat (length l) -> l <> [].
Proof. intros H ->. simpl in H. lia. Qed.

(** The page's header, when it is listed. *)
Lemma listed_page_info s i sm v p h :
  slab_ok s i sm v -> small_pool s -> sv_where v !! p = Some h ->
  exists info, m_pages s !! p = Some info /\ h = place sm (free_nr info)
    /\ free_nr info = Z.of_nat (length (sv_free v p)) /\ 0 <= free_nr info <= per_slab sm
    /\ (0 < free_nr info -> free_head info <> 0) /\ 0 < p < total_pages (m_pool s).
Proof.
  intros Hok Hsmall Hp. pose proof Hok as [Hsm Hsh Hpg Hcnt Hit Hpool Hsome].
  destruct (io_page _ _ _ _ _ _ _ Hit p h Hp) as (info & E & Hch & Hnd & Hnr & Hpl).
  pose proof (free_count _ _ _ _ _ _ _ p ltac:(apply (sh_per _ _ Hsh)) Hit ltac:(by eexists)) as Hc.
  exists info. split; [done|]. split; [done|]. split; [done|]. split; [lia|].
  split; [|apply Hpool; by eexists]. intros Hpos.
  pose proof (io_free _ _ _ _ _ _ _ Hit p) as Hf.
  destruct (sv_free v p) as [|l fl]; [simpl in Hnr; lia|]. destruct Hch as (-> & _).
  apply cid_nonzero; [|apply Hsh]. eapply loc_ok_slot; [exact Hsh|exact Hpool|exact Hsmall|].
  apply (Hf l); [by eexists|by left].
Qed.

(** A page out of one of the lists of pages with free items. *)
Lemma chosen_listed s i sm v p h info :
  slab_ok s i sm v -> owns s (sv_where v) -> sv_where v !! p = Some h -> m_pages s !! p = Some info ->
  h <> FullPages ->
  exists s1 sm1 fr1,
    (let* _ := unlink_page i p h in
     if same_kind FreePages h then
       let* _ := update_slab i (set_free_pages_no (fun x => x - 1)) in
       update_slab i (set_partial_pages_no (fun x => x + 1))
     else sret tt) s = Ret (tt, s1)
    /\ page_chosen s s1 i p (free_head info) sm v h sm1 (delete p (sv_where v)) fr1.
Proof.
  intros Hok Hown Hp Einfo Hfull. pose proof Hok as [Hsm Hsh Hpg Hcnt Hit Hpool Hsome].
  destruct (listed_page_info s i sm v p h Hok (ow_small _ _ Hown) Hp)
    as (info0 & E0 & Hpl & Hnr & Hrange & Hhd & Hpr). rewrite Einfo in E0. injection E0 as <-.
  destruct (take_listed_page s i sm v p h info Hok Hp Einfo)
    as (sm' & pages' & pg' & info' & E & Hss & Hid & Hf & Hfl & Hpt & Hpg' & Hit' & Einfo' & Hpid & Hnr' & Hhd' & Hout).
  set (s0 := pages_state i sm' pages' s) in *.
  assert (m_slabs s0 !! Z.to_nat i = Some sm') as Hsm0
    by (apply list_lookup_insert_eq; by eapply lookup_lt_Some).
  set (sm1 := if same_kind FreePages h
              then set_partial_pages_no (fun x => x + 1) (set_free_pages_no (fun x => x - 1) sm') else sm').
  set (s1 := set_m_slabs <[Z.to_nat i := sm1]> s0).
  exists s1, sm1, (sv_free v). split.
  { step_with E. fold s0. unfold s1, sm1. destruct (same_kind FreePages h).
    - destruct (update_slab_some i (set_free_pages_no (fun x => x - 1)) sm' s0 Hsm0) as (s2 & E2 & Es2 & Hsm2).
      step_with E2. rewrite (update_slab_run i _ _ s2 Hsm2), Es2. do 2 f_equal.
      unfold set_m_slabs. cbn. by rewrite list_insert_insert_eq.
    - unfold set_m_slabs. rewrite list_insert_id by done. by destruct s0. }
  destruct Hss as (Hl & Hsz & Hper & Hev).
  assert (same_slots sm' sm1) as Hss1 by (unfold sm1; by destruct (same_kind FreePages h)).
  destruct Hss1 as (Hl1 & Hsz1 & Hper1 & Hev1).
  assert (same_shape sm sm1) as Hshape.
  { split; [|split; [|split]; congruence]. rewrite <- Hid. unfold sm1. by destruct (same_kind FreePages h). }
  assert (<[p := h]> (delete p (sv_where v)) = sv_where v) as Ew by by apply insert_delete_id.
  assert (kind_count FreePages (delete p (sv_where v)) = kind_count FreePages (sv_where v) - Z.b2z (same_kind FreePages h)
    /\ kind_count FullPages (delete p (sv_where v)) = kind_count FullPages (sv_where v) - Z.b2z (same_kind FullPages h)
    /\ kind_count (PartialPages 0) (delete p (sv_where v))
       = kind_count (PartialPages 0) (sv_where v) - Z.b2z (same_kind (PartialPages 0) h)) as (K1 & K2 & K3)
    by (repeat split; by apply kind_count_delete).
  destruct Hcnt as (C1 & C2 & C3).
  constructor.
  - exists pg'. constructor.
    + apply list_lookup_insert_eq. by eapply lookup_lt_Some.
    + by eapply shape_same; [apply Hshape..|].
    + eapply (pages_ok_frame (m_pages s0)); [done| | |exact Hpg'].
      * intros h'. unfold sm1. by destruct (same_kind FreePages h), h'.
      * done.
    + intros q Hq. apply Hpool. destruct Hq as [x Hx%lookup_delete_Some]. exists x. tauto.
    + apply lookup_delete_eq.
    + done.
    + by exists info'.
    + rewrite Ew. by eapply items_ok_sm; [|exact Hit'].
    + rewrite K1. unfold sm1. destruct h; cbn; lia || done.
    + rewrite K2. unfold sm1. destruct h; cbn; lia || done.
    + rewrite K3. unfold sm1. destruct h; cbn; lia || done.
  - by exists info'.
  - apply some_not_nil. rewrite <- Hnr. assert (free_nr info <> 0); [|lia]. intros Z0.
    apply Hfull. rewrite Hpl. unfold place. by rewrite Z0.
  - done.
  - intros q. rewrite Ew. split; [by right|]. intros [->|?]; [by eexists|done].
  - rewrite Ew. unfold s1, s0. assert (forall t, set_m_slabs <[Z.to_nat i := sm1]> (pages_state i sm' pages' t)
      = pages_state i sm1 pages' t) as -> by (intros t; unfold pages_state, set_m_slabs; cbn; by rewrite list_insert_insert_eq).
    apply slab_frame_pages. auto.
  - by apply core_kept_all.
  - rewrite Ew. by apply pool_step_same.
Qed.

Lemma head_of_head pages sm w pg h :
  pages_ok pages sm w pg -> head_of sm h <> 0 -> w !! head_of sm h = Some h.
Proof.
  intros Hok Hne. destruct (po_dll _ _ _ _ Hok h) as [_ _ Hh].
  destruct (pg h) as [|q ls] eqn:E; [done|]. simpl in Hh. destruct Hh as [_ ->].
  apply (po_where _ _ _ _ Hok). rewrite E. by left.
Qed.

(** The first page with a free item, of those partly in use. *)
Lemma partial_page s i sm v :
  slab_ok s i sm v -> 0 < partial_pages_no sm ->
  exists b, 0 < get_partial_page_id sm
    /\ sv_where v !! get_partial_page_id sm = Some (PartialPages b).
Proof.
  intros [Hsm Hsh Hpg (C1 & C2 & C3) Hit Hpool _] Hpos.
  rewrite C3 in Hpos. apply kind_count_pos in Hpos as (p & h & Hp & Hk). destruct h as [| |b]; try done.
  pose proof (po_head _ _ _ _ Hpg p _ Hp) as Hb. simpl in Hb.
  destruct (head_page _ _ _ _ _ _ Hpg Hp) as [Hh Hw]. simpl in Hh.
  destruct (first_partial_spec (Z.to_nat (partial_pages_bucket_no sm)) 0 (partial_pages sm)) as (c & Hc & E & Hne).
  { exists b. split; [lia|]. lia. }
  unfold get_partial_page_id. rewrite E. exists c.
  pose proof (head_of_head _ _ _ _ (PartialPages c) Hpg Hne) as Hwc. split; [|exact Hwc].
  by destruct (head_page _ _ _ _ _ _ Hpg Hwc) as [? _].
Qed.

(** A page from the pool. *)
Lemma chosen_new s i sm v p pl :
  slab_ok s i sm v -> owns s (sv_where v) ->
  0 < p < total_pages (m_pool s) -> used (page_bitmap (m_pool s)) p = false ->
  pool_wf pl -> bit_set (page_bitmap (m_pool s)) (page_bitmap pl) p true ->
  total_pages pl = total_pages (m_pool s) ->
  exists s1 sm1 fr1 id,
    (let* _ := init_page i p in
     let* info := get_page p in
     let* _ := update_slab i (set_partial_pages_no (fun x => x + 1)) in
     sret (Some (p, free_head info))) (set_m_pool (fun _ => pl) s) = Ret (Some (p, id), s1)
    /\ page_chosen s s1 i p id sm v FreePages sm1 (sv_where v) fr1.
Proof.
  intros Hok [Hwf Hsmall Hused] Hp Hunused Hwf' [_ Hbits] Htot.
  pose proof Hok as [Hsm Hsh Hpg Hcnt Hit Hpool Hsome]. unfold small_pool in Hsmall.
  set (s0 := set_m_pool (fun _ => pl) s).
  assert (sv_where v !! p = None) as Hout.
  { destruct (sv_where v !! p) eqn:E; [|done]. rewrite Hused in Hunused; [done|by eexists]. }
  set (sm1 := set_partial_pages_no (fun x => x + 1) sm).
  set (s1 := set_m_items (fun _ => new_items s0 sm p) (set_m_pages (fun _ => new_pages s0 sm p) s0)).
  assert (m_pages s1 !! p = Some (new_info sm p)) as Einfo by apply lookup_insert_eq.
  exists (set_m_slabs <[Z.to_nat i := sm1]> s1), sm1, (<[p := page_slots sm p]> (sv_free v)), (free_head (new_info sm p)).
  split.
  { step_with (init_page_run s0 i sm p Hsm). fold s1.
    step_with (get_page_run p (new_info sm p) s1 ltac:(cbn; lia) Einfo).
    by step_with (update_slab_run i (set_partial_pages_no (fun x => x + 1)) sm s1 Hsm). }
  assert (forall q, is_Some (<[p := FreePages]> (sv_where v) !! q) <-> q = p \/ is_Some (sv_where v !! q)) as Hin
    by (intros q; rewrite lookup_insert_is_Some; destruct (decide (p = q)); naive_solver).
  assert (forall q, 0 <= q < total_pages (m_pool s) -> used (page_bitmap pl) q
            = if q =? p then true else used (page_bitmap (m_pool s)) q) as Hb.
  { intros q Hq. apply Hbits. by apply wf_in_bitmap. }
  pose proof (sh_per _ _ Hsh) as Hper. destruct Hcnt as (C1 & C2 & C3).
  constructor.
  - exists (sv_pages v). constructor.
    + apply list_lookup_insert_eq. by eapply lookup_lt_Some.
    + by eapply shape_same; [..|exact Hsh].
    + eapply (pages_ok_frame (m_pages s)); [| | |exact Hpg]; [|by intros []|done].
      intros q Hq. cbn. unfold new_pages. rewrite lookup_insert_ne; [done|]. intros ->.
      rewrite Hout in Hq. by destruct Hq.
    + intros q Hq. cbn. rewrite Htot. by apply Hpool.
    + done.
    + cbn. by rewrite Htot.
    + by exists (new_info sm p).
    + eapply (items_ok_sm _ _ _ sm); [done|].
      apply (items_ok_new s0 i sm (sv_where v) (sv_free v) (sv_lists v) p Hsh Hit Hout). lia.
    + done.
    + done.
    + cbn. lia.
  - by exists (new_info sm p).
  - rewrite fn_lookup_insert. apply some_not_nil. rewrite length_page_slots; lia.
  - done.
  - done.
  - constructor; try done.
    + by exists sm1.
    + intros l Hl Hl'. cbn. rewrite (new_items_lookup s0 i) by done. rewrite decide_False; [done|].
      intros E. rewrite E, lookup_insert_eq in Hl'. done.
    + intros q _ Hq. cbn. unfold new_pages. rewrite lookup_insert_ne; [done|]. intros ->.
      by rewrite lookup_insert_eq in Hq.
  - intros l (Hl & _). cbn. rewrite (new_items_lookup s0 i) by done. rewrite decide_False; [done|].
    intros E. rewrite E, Hout in Hl. by destruct Hl.
  - constructor; cbn.
    + constructor; cbn; [done|unfold small_pool; cbn; lia|].
      intros q Hq%Hin. rewrite Hb.
      * destruct (Z.eqb_spec q p); [done|]. apply Hused. naive_solver.
      * destruct Hq as [->|Hq]; [lia|]. specialize (Hpool q Hq). lia.
    + intros q Hq Hs. rewrite Hb by lia. destruct (Z.eqb_spec q p) as [->|]; [|done].
      exfalso. rewrite Hin, Hout in Hs. destruct Hs as [_ Hs]. destruct Hs; [by left|]. done.
    + intros q Hq [->|Hs]%Hin; [done|]. rewrite Hq in Hs. by destruct Hs.
Qed.

(** [choose_page] finds a page with a free item, or all pages are full and the
    pool is empty. *)
Lemma choose_page_spec s i sm v :
  slab_ok s i sm v -> owns s (sv_where v) ->
  (choose_page i s = Ret (None, s) /\ forall p h, sv_where v !! p = Some h -> h = FullPages)
  \/ exists s1 p id h sm1 w1 fr1,
       choose_page i s = Ret (Some (p, id), s1) /\ page_chosen s s1 i p id sm v h sm1 w1 fr1.
Proof.
  intros Hok Hown. pose proof Hok as [Hsm Hsh Hpg (C1 & C2 & C3) Hit Hpool Hsome].
  unfold choose_page. step_with (get_slab_run _ _ _ Hsm).
  destruct (Z.ltb_spec 0 (partial_pages_no sm)) as [Hpt|Hpt]; [right|].
  { destruct (partial_page s i sm v Hok Hpt) as (b & Hpos & Hp).
    destruct (listed_page_info s i sm v _ _ Hok (ow_small _ _ Hown) Hp)
      as (info & Einfo & Hpl & Hnr & Hrange & Hhd & Hpr).
    assert (free_nr info <> 0 /\ b = free_nr info / PARTIAL_PAGE_BUCKET) as [Hn0 ->].
    { unfold place in Hpl. destruct (Z.eqb_spec (free_nr info) 0); [done|].
      destruct (free_nr info =? per_slab sm); [done|]. by injection Hpl. }
    destruct (chosen_listed s i sm v _ _ info Hok Hown Hp Einfo ltac:(done)) as (s1 & sm1 & fr1 & E & Hc).
    exists s1, (get_partial_page_id sm), (free_head info). do 4 eexists. split; [|exact Hc].
    rewrite sassert_run by by apply Z.ltb_lt. step_with (get_page_run _ _ _ Hpr Einfo).
    rewrite sassert_run by (apply Z.ltb_lt; lia).
    rewrite sassert_run by (apply negb_true_iff, Z.eqb_neq, Hhd; lia).
    rewrite sassert_run by (apply Z.leb_le; lia).
    cbn [same_kind] in E. etransitivity; [|exact (sbind_run _ (fun _ => sret _) _ _ _ E)].
    by rewrite sbind_assoc. }
  destruct (Z.ltb_spec 0 (free_pages_no sm)) as [Hfr|Hfr]; [right|].
  { rewrite C1 in Hfr. apply kind_count_pos in Hfr as (p0 & h0 & Hp0 & Hk). destruct h0; try done.
    destruct (head_page _ _ _ _ _ _ Hpg Hp0) as [_ Hp]. cbn [head_of] in Hp.
    destruct (listed_page_info s i sm v _ _ Hok (ow_small _ _ Hown) Hp)
      as (info & Einfo & Hpl & Hnr & Hrange & Hhd & Hpr). pose proof (sh_per _ _ Hsh).
    assert (free_nr info = per_slab sm) as Hfull.
    { unfold place in Hpl. destruct (Z.eqb_spec (free_nr info) 0); [done|].
      by destruct (Z.eqb_spec (free_nr info) (per_slab sm)). }
    destruct (chosen_listed s i sm v _ _ info Hok Hown Hp Einfo ltac:(done)) as (s1 & sm1 & fr1 & E & Hc).
    exists s1, (slab_free_pages sm), (free_head info). do 4 eexists. split; [|exact Hc].
    step_with (get_page_run _ _ _ Hpr Einfo).
    rewrite sassert_run by by apply Z.eqb_eq.
    rewrite sassert_run by (apply negb_true_iff, Z.eqb_neq, Hhd; lia).
    cbn [same_kind] in E. etransitivity; [|exact (sbind_run _ (fun _ => sret _) _ _ _ E)].
    rewrite sbind_assoc. apply sbind_ext. intros _ s2 _. by rewrite sbind_assoc. }
  unfold pool_alloc_page. destruct (alloc_page_spec (m_pool s) (ow_wf _ _ Hown))
    as [[_ E]|(p & pl & E & Hp & Hu & Hwf' & Hb & Ht & _)].
  - left. split.
    + unfold sbind at 1. rewrite E. cbn. unfold sret. by destruct s.
    + intros p h Hp. pose proof (kind_count_nonneg FreePages (sv_where v)).
      pose proof (kind_count_nonneg (PartialPages 0) (sv_where v)).
      assert (~ 0 < kind_count FreePages (sv_where v)) as N1 by lia.
      assert (~ 0 < kind_count (PartialPages 0) (sv_where v)) as N2 by lia.
      rewrite kind_count_pos in N1, N2. destruct h; [exfalso; apply N1; by exists p, FreePages|done|].
      exfalso. apply N2. by exists p, (PartialPages bucket).
  - right. destruct (chosen_new s i sm v p pl Hok Hown Hp Hu Hwf' Hb Ht) as (s1 & sm1 & fr1 & id & E1 & Hc).
    exists s1, p, id, FreePages, sm1, (sv_where v), fr1. split; [|exact Hc].
    unfold sbind at 1. rewrite E. exact E1.
Qed.

(** ** alloc_new_item as a whole *)

(** An operation of slab [i]: its invariant holds again, with the view [v'],
    and everything that is not the slab's is as it was. *)
Record slab_step (i : Z) (s s' : mdb) (sm : slab_manager) (v : slab_view)
    (sm' : slab_manager) (v' : slab_view) : Prop := {
  ss_ok : slab_ok s' i sm' v';
  ss_shape : slab_id sm' = slab_id sm /\ slab_size sm' = slab_size sm /\ per_slab sm' = per_slab sm;
  ss_frame : slab_frame i (sv_where v) (sv_where v') s s';
  ss_pool : pool_step (sv_where v) (sv_where v') s s'
}.

Definition in_use (v : slab_view) (l : loc) : Prop := exists a, l ∈ sv_lists v a.

Lemma in_use_slot s i sm v l : slab_ok s i sm v -> in_use v l -> slot sm (sv_where v) l.
Proof. intros Hok [a Ha]. by apply (io_live _ _ _ _ _ _ _ (so_items _ _ _ _ Hok) a l). Qed.

Lemma in_use_loc s i sm v l : slab_ok s i sm v -> small_pool s -> in_use v l -> loc_ok l.
Proof.
  intros Hok Hsmall Hl. pose proof Hok as [_ Hsh _ _ _ Hpool _].
  eapply loc_ok_slot; [exact Hsh|exact Hpool|exact Hsmall|by eapply in_use_slot].
Qed.

Lemma alloc_new_item_spec s i sm v area :
  slab_ok s i sm v -> owns s (sv_where v) -> 0 <= area < TAIR_MAX_AREA_COUNT ->
  (alloc_new_item i area s = Ret (None, s) /\ forall p h, sv_where v !! p = Some h -> h = FullPages)
  \/ exists l s' sm' v', alloc_new_item i area s = Ret (Some l, s')
       /\ slab_step i s s' sm v sm' v' /\ sv_lists v' = listed l area (sv_lists v)
       /\ (forall a, l ∉ sv_lists v a) /\ core_kept (slot sm (sv_where v)) s s'
       /\ exists it, m_items s' !! l = Some it /\ item_id it = cid i l.
Proof.
  intros Hok Hown Ha. rewrite alloc_new_item_split.
  destruct (choose_page_spec s i sm v Hok Hown) as [[E Hfull]|(s1 & p & id & h & sm1 & w1 & fr1 & E & Hc)].
  { left. split; [by step_with E|done]. }
  right. destruct Hc as [(pg1 & Ht) (info & Einfo & Hid) Hne Hsh1 Hw1 Hf1 Hc1 Hp1].
  destruct (fr1 p) as [|l fl] eqn:Efr; [done|]. pose proof (ow_small _ _ (ps_owns _ _ _ _ Hp1)) as Hsmall1.
  destruct (take_item_run s1 i p h sm1 w1 pg1 fr1 (sv_lists v) l fl area info Ht Hsmall1 Einfo Efr Ha)
    as (s' & sm' & v' & E2 & Hok' & Hl' & Hw' & Hs2 & Hf2 & Hc2 & Hpool2 & it & Eit & Hcid).
  assert (forall q, is_Some (sv_where v' !! q) <-> is_Some (<[p := h]> w1 !! q)) as Hw2.
  { intros q. rewrite Hw', lookup_insert_is_Some. destruct (decide (p = q)); naive_solver. }
  exists l, s', sm', v'. split; [by step_with E; rewrite <- Hid|].
  split; [constructor; [done|unfold same_shape in *; intuition congruence| |]|].
  - eapply slab_frame_trans; [|exact Hf1|exact Hf2]. intros q _ Hq.
    apply eq_None_not_Some. rewrite <- Hw2. by apply eq_None_not_Some.
  - by eapply pool_step_after.
  - split; [done|]. split; [|split; [|by exists it]].
    + intros a Hla. pose proof (pt_items _ _ _ _ _ _ _ _ _ Ht) as Hit1.
      destruct (io_live _ _ _ _ _ _ _ Hit1 a l Hla) as [_ Hn]. apply Hn.
      destruct (io_free _ _ _ _ _ _ _ Hit1 p l) as [_ ->];
        [rewrite lookup_insert_eq; by eexists|rewrite Efr; by left|]. rewrite Efr. by left.
    + eapply core_kept_trans; [exact Hc1|]. by apply core_kept_all.
Qed.
