(* ===== verification/SlabFree.v ===== *)
(** * Release and eviction of items (storage/mdb/mem_cache.cpp)

    [slab_manager::free_item], [update_item], [evict_self], [evict_any] and
    [alloc_item] preserve the invariant of [SlabAlloc]: every slot of the slab's
    pages is free or in use, and the counters count. *)

From S2P Require Import Prelude Dll MemPool MdbItem MemCache SlabLists SlabPages SlabAlloc.

(** ** free_item *)

(** The end of [free_item]: the page in hand goes to the list of its number of
    free items, or, when all are free and the slab has other pages, back to the
    pool. *)
Definition relist_freed (i page : Z) : mdbM unit :=
  let* info := get_page page in
  let* sm := get_slab i in
  if free_nr info =? per_slab sm then
    let* _ := update_slab i (set_partial_pages_no (fun x => x - 1)) in
    let* sm := get_slab i in
    if free_pages_no sm + full_pages_no sm + partial_pages_no sm <=? 1 then
      let* _ := link_page i page FreePages in
      update_slab i (set_free_pages_no (fun x => x + 1))
    else pool_free_page (pi_id info)
  else link_page i page (PartialPages (free_nr info / PARTIAL_PAGE_BUCKET)).

(** What is left of the memory by an operation on a page in hand. *)
Record page_moved (i p : Z) (w w' : gmap Z page_head) (s s' : mdb) (sm sm' : slab_manager) : Prop := {
  pm_slab : m_slabs s' = <[Z.to_nat i := sm']> (m_slabs s);
  pm_slots : same_slots sm sm' /\ slab_id sm' = slab_id sm;
  pm_items : m_items s' = m_items s;
  pm_pages : pcore <$> m_pages s' = pcore <$> m_pages s;
  pm_others : forall q, w !! q = None -> q <> p -> m_pages s' !! q = m_pages s !! q;
  pm_rest : m_hash s' = m_hash s /\ m_stat s' = m_stat s /\ m_now s' = m_now s
            /\ total_pages (m_pool s') = total_pages (m_pool s);
  pm_ok : exists pg', pages_ok (m_pages s') sm' w' pg';
  pm_counts : counts_ok sm' w'
}.

Lemma relist_freed_run s i p sm w pg info n h :
  m_slabs s !! Z.to_nat i = Some sm -> pages_ok (m_pages s) sm w pg -> in_pool s w ->
  w !! p = None -> 0 < p < total_pages (m_pool s) -> owns s (<[p := h]> w) ->
  m_pages s !! p = Some info -> pi_id info = p -> free_nr info = n -> 0 < n <= per_slab sm ->
  free_pages_no sm = kind_count FreePages w -> full_pages_no sm = kind_count FullPages w ->
  partial_pages_no sm = kind_count (PartialPages 0) w + 1 ->
  exists s' sm' w', relist_freed i p s = Ret (tt, s') /\ page_moved i p w w' s s' sm sm'
    /\ pool_step (<[p := h]> w) w' s s'
    /\ (w' = <[p := place sm n]> w \/ (n = per_slab sm /\ w' = w /\ w <> ∅)).
Proof.
  intros Hsm Hpg Hpool Hout Hp Hown Einfo Hid Hn Hper C1 C2 C3.
  assert (forall q h', is_Some (<[p := h']> w !! q) <-> q = p \/ is_Some (w !! q)) as Hin
    by (intros q h'; rewrite lookup_insert_is_Some; destruct (decide (p = q)); naive_solver).
  unfold relist_freed. step_with (get_page_run p info s Hp Einfo). step_with (get_slab_run i sm s Hsm).
  rewrite Hn.
  destruct (Z.eqb_spec n (per_slab sm)) as [E|E].
  - destruct (update_slab_some i (set_partial_pages_no (fun x => x - 1)) sm s Hsm) as (s1 & E1 & Es1 & Hsm1).
    step_with E1. set (sm1 := set_partial_pages_no _ sm) in *. step_with (get_slab_run i sm1 s1 Hsm1).
    assert (free_pages_no sm1 + full_pages_no sm1 + partial_pages_no sm1 = Z.of_nat (size w)) as ->.
    { rewrite <- (kind_count_all w). unfold sm1. cbn. lia. }
    destruct (Z.leb_spec (Z.of_nat (size w)) 1) as [Hs|Hs].
    + subst s1. destruct (put_page i p FreePages _ sm1 w pg info Hsm1) as (pages' & E2 & Hpg' & Hc' & Ho');
        try done.
      { eapply (pages_ok_frame (m_pages s)); [..|exact Hpg]; done. }
      step_with E2. set (sm2 := set_head FreePages p sm1) in *. set (s2 := pages_state i sm2 pages' (set_m_slabs <[Z.to_nat i := sm1]> s)).
      assert (m_slabs s2 !! Z.to_nat i = Some sm2) as Hsm2
        by (apply list_lookup_insert_eq; by eapply lookup_lt_Some).
      destruct (update_slab_some i (set_free_pages_no (fun x => x + 1)) sm2 s2 Hsm2) as (s3 & E3 & Es3 & Hsm3).
      exists s3, (set_free_pages_no (fun x => x + 1) sm2), (<[p := FreePages]> w). split; [exact E3|].
      split; [|split].
      * rewrite Es3. unfold s2. constructor; cbn; try done.
        -- by rewrite !list_insert_insert_eq.
        -- exists (<[FreePages := p :: pg FreePages]> pg).
           eapply (pages_ok_frame pages'); [..|exact Hpg']; done.
        -- unfold counts_ok. rewrite !kind_count_insert by done. cbn. lia.
      * apply pool_step_same; [done|by rewrite Es3|]. intros q. by rewrite !Hin.
      * left. unfold place. destruct (Z.eqb_spec n 0); [lia|]. by destruct (Z.eqb_spec n (per_slab sm)).
    + rewrite Hid. unfold pool_free_page.
      destruct (free_page_spec (m_pool s) p (ow_wf _ _ Hown) Hp) as (pl & E2 & Hwf' & [_ Hb] & Ht & _).
      exists (set_m_pool (fun _ => pl) s1), sm1, w. rewrite Es1. cbn [m_pool set_m_slabs]. rewrite E2.
      split; [done|]. split; [|split; [|right]].
      * constructor; cbn; try done; [exists pg; eapply (pages_ok_frame (m_pages s)); [..|exact Hpg]; done|].
        unfold counts_ok, sm1. cbn. lia.
      * pose proof (ow_small _ _ Hown) as Hsmall. unfold small_pool in Hsmall.
        assert (forall q, 0 <= q < total_pages (m_pool s) -> used (page_bitmap pl) q
            = if q =? p then false else used (page_bitmap (m_pool s)) q) as Hb'.
        { intros q Hq. apply Hb. apply wf_in_bitmap; [apply Hown|done]. }
        constructor; cbn.
        -- constructor; cbn; [done|unfold small_pool; cbn; lia|]. intros q Hq. rewrite Hb' by (specialize (Hpool q Hq); lia).
           destruct (Z.eqb_spec q p) as [->|]; [rewrite Hout in Hq; by destruct Hq|].
           apply Hown. rewrite Hin. by right.
        -- intros q Hq Hs'. rewrite Hb' by lia. destruct (Z.eqb_spec q p) as [->|]; [|done].
           rewrite Hin, Hout in Hs'. destruct Hs' as [Hs' _]. destruct Hs'; [by left|done].
        -- intros q Hq Hs'. destruct (proj1 (eq_None_not_Some _) Hq). rewrite Hin. by right.
      * split; [done|]. split; [done|]. intros ->. rewrite map_size_empty in Hs. lia.
  - assert (place sm n = PartialPages (n / PARTIAL_PAGE_BUCKET)) as Epl.
    { unfold place. destruct (Z.eqb_spec n 0); [lia|]. by destruct (Z.eqb_spec n (per_slab sm)). }
    assert (head_ok sm (PartialPages (n / PARTIAL_PAGE_BUCKET))) as Hh
      by (rewrite <- Epl; apply place_head_ok; lia).
    destruct (put_page i p _ s sm w pg info Hsm Hpg Hpool Hout Hh Hp Einfo Hid) as (pages' & E2 & Hpg' & Hc' & Ho').
    eexists _, _, (<[p := place sm n]> w). split; [exact E2|]. split; [|split; [|by left]].
    + constructor; try done.
      * eexists. rewrite Epl. exact Hpg'.
      * unfold counts_ok. rewrite Epl, !kind_count_insert by done. cbn. lia.
    + apply pool_step_same; [done|done|]. intros q. by rewrite !Hin.
Qed.

Lemma core_at_lookup (items items' : gmap loc mdb_item) l it :
  core <$> items' !! l = core <$> items !! l -> items !! l = Some it ->
  exists it', items' !! l = Some it' /\ core it' = core it.
Proof.
  intros Hc Eit. rewrite Eit in Hc. destruct (items' !! l) as [it'|]; [|done].
  exists it'. split; [done|]. by apply (inj Some).
Qed.

Lemma fchain_items i items items' head ls :
  (forall z, z ∈ ls -> core <$> items' !! z = core <$> items !! z) ->
  fchain i items head ls -> fchain i items' head ls.
Proof.
  intros Hc. apply fchain_frame. intros z itz Hz Ez.
  destruct (core_at_lookup _ _ _ _ (Hc z Hz) Ez) as (it' & E' & Hcc).
  apply core_fields in Hcc as (Hn & _ & _ & _ & _ & _ & Hi & _). by exists it'.
Qed.

(** An item in use goes to the front of the free chain of its page. *)
Lemma items_ok_give items items' pages pages' i sm sm' w fr ls l area info info' it it' h :
  items_ok items pages i sm w fr ls -> items !! l = Some it -> l ∈ ls area -> w !! l.1.1 = Some h ->
  pages !! l.1.1 = Some info -> slab_size sm' = slab_size sm -> per_slab sm' = per_slab sm ->
  slab_lists i sm' items' (<[area := filter (.≠ l) (ls area)]> ls) ->
  (forall z, z <> l -> core <$> items' !! z = core <$> items !! z) ->
  items' !! l = Some it' -> item_id it' = cid i l -> data it' = data it -> h_next it' = free_head info ->
  item_names i (Some l) (cid i l) ->
  pages' !! l.1.1 = Some info' -> free_nr info' = free_nr info + 1 -> free_head info' = cid i l ->
  pcore <$> delete l.1.1 pages' = pcore <$> delete l.1.1 pages ->
  items_ok items' pages' i sm' (<[l.1.1 := place sm (free_nr info + 1)]> w)
    (<[l.1.1 := l :: fr l.1.1]> fr) (<[area := filter (.≠ l) (ls area)]> ls).
Proof.
  intros Hok Eit Hl Hw Einfo Es Ep Hlists Hcore Eit' Hid Hdata Hnext Hname Einfo' Hnr Hhd Hpc.
  set (p := l.1.1) in *. pose proof Hok as [H1 H2 H3 H4 H5 H6 H7].
  assert (forall z, slot sm' (<[p := place sm (free_nr info + 1)]> w) z <-> slot sm w z) as Hslot.
  { intros z. unfold slot. rewrite Es, Ep, lookup_insert_is_Some.
    destruct (decide (p = z.1.1)) as [<-|D]; [|naive_solver]. rewrite Hw. naive_solver. }
  assert (forall a z, z ∈ (<[area := filter (.≠ l) (ls area)]> ls) a <-> z <> l /\ z ∈ ls a) as Hin.
  { intros a z. destruct (decide (area = a)) as [<-|D].
    - rewrite fn_lookup_insert. by rewrite list_elem_of_filter.
    - rewrite fn_lookup_insert_ne by done. split; [|tauto]. intros Hz. split; [|done]. intros ->.
      by apply D, (sl_disjoint _ _ _ _ H1 area a l). }
  destruct (H4 area l Hl) as [Hsl Hfl]. fold p in Hfl.
  destruct (H5 p h Hw) as (info0 & E0 & Hch & Hnd & Hlen & _). rewrite Einfo in E0. injection E0 as <-.
  assert (forall z, z ∈ fr p -> z <> l) as Hne by (by intros z Hz ->).
  constructor.
  - done.
  - intros a z [_ Hz]%Hin. by apply (H2 a z).
  - intros z Hz%Hslot. destruct (H3 z Hz) as (itz & Ez & Hlz & Hiz).
    destruct (decide (z = l)) as [->|D].
    + exists it'. assert (Some it = Some itz) as [= <-] by (rewrite <- Eit; exact Ez). rewrite Hdata, Es, Hid. done.
    + destruct (core_at_lookup _ _ _ _ (Hcore z D) Ez) as (iz & Eiz & Hc). apply core_fields in Hc as (_ & _ & _ & Hd & _ & _ & Hi & _).
      exists iz. by rewrite Hd, Hi, Es.
  - intros a z [Hne' Hz]%Hin. rewrite Hslot. destruct (H4 a z Hz) as [Hs Hf]. split; [done|].
    destruct (decide (p = z.1.1)) as [E|D]; [|by rewrite fn_lookup_insert_ne].
    rewrite <- E, fn_lookup_insert. rewrite <- E in Hf. by intros [->|?]%elem_of_cons.
  - intros q hq. destruct (decide (p = q)) as [<-|D].
    + rewrite lookup_insert_eq, fn_lookup_insert. intros [= <-]. exists info'. split; [done|].
      split; [|split; [by apply list.NoDup_cons|split; [rewrite Hnr, Hlen; simpl; lia|]]].
      * rewrite Hhd. split; [done|]. exists it'. split; [done|]. split; [done|]. rewrite Hnext.
        eapply fchain_items; [|exact Hch]. intros z Hz. by apply Hcore, Hne.
      * rewrite Hnr. symmetry. by apply place_ext.
    + rewrite lookup_insert_ne, fn_lookup_insert_ne by done. intros Hq.
      destruct (H5 q hq Hq) as (iq & Eq & Hcq & Hnq & Hlq & Hpq).
      destruct (pcore_lookup (delete p pages) (delete p pages') q iq Hpc) as (iq' & Eq' & Hcc).
      { by rewrite lookup_delete_ne. }
      rewrite lookup_delete_ne in Eq' by done. apply pcore_fields in Hcc as (_ & Hf & Hfh).
      exists iq'. split; [done|]. split; [|split; [done|split; [congruence|]]].
      * rewrite Hfh. eapply fchain_items; [|exact Hcq]. intros z Hz. apply Hcore. intros ->.
        destruct (H6 q l ltac:(by eexists) Hz) as [_ E]. done.
      * rewrite Hf, Hpq. symmetry. by apply place_ext.
  - intros q z Hq. rewrite Hslot. assert (is_Some (w !! q)) as Hq'.
    { rewrite lookup_insert_is_Some in Hq. destruct Hq as [<-|[_ ?]]; [by eexists|done]. }
    destruct (decide (p = q)) as [<-|D].
    + rewrite fn_lookup_insert. intros [->|Hz]%elem_of_cons; [done|by apply H6].
    + rewrite fn_lookup_insert_ne by done. by apply H6.
  - intros z Hz%Hslot. destruct (decide (z = l)) as [->|D].
    + left. fold p. rewrite fn_lookup_insert. by left.
    + destruct (H7 z Hz) as [Hf|[a Hz']].
      * left. destruct (decide (p = z.1.1)) as [E|D'].
        -- rewrite <- E, fn_lookup_insert. rewrite <- E in Hf. by right.
        -- by rewrite fn_lookup_insert_ne.
      * right. exists a. by apply Hin.
Qed.

(** A page none of whose items is in use is not needed. *)
Lemma items_ok_drop items pages i sm w fr ls p h :
  0 < per_slab sm -> items_ok items pages i sm w fr ls -> w !! p = Some h ->
  Z.of_nat (length (fr p)) = per_slab sm -> items_ok items pages i sm (delete p w) fr ls.
Proof.
  intros Hper Hok Hp Hn. pose proof Hok as [H1 H2 H3 H4 H5 H6 H7].
  assert (forall z, slot sm (delete p w) z <-> slot sm w z /\ z.1.1 <> p) as Hslot.
  { intros z. unfold slot. rewrite lookup_delete_is_Some. intuition congruence. }
  constructor; try done.
  - intros z [Hz _]%Hslot. by apply H3.
  - intros a z Hz. rewrite Hslot. destruct (H4 a z Hz) as [Hs Hf]. split; [|done]. split; [done|].
    by eapply (all_free _ _ _ _ _ _ _ p Hper Hok ltac:(by eexists) a z).
  - intros q hq [_ Hq]%lookup_delete_Some. by apply H5.
  - intros q z Hq Hz. apply lookup_delete_is_Some in Hq as [Hne Hq].
    destruct (H6 q z Hq Hz) as [Hs E]. rewrite Hslot, E. by split.
  - intros z [Hz _]%Hslot. by apply H7.
Qed.

(** The page of the item leaves its list. *)
Definition page_out (i page : Z) : mdbM unit :=
  let* info := get_page page in
  if free_nr info =? 0 then
    let* _ := unlink_page i page FullPages in
    let* _ := update_slab i (set_full_pages_no (fun x => x - 1)) in
    update_slab i (set_partial_pages_no (fun x => x + 1))
  else
    need* negb (free_head info =? 0) in
    unlink_page i page (PartialPages (free_nr info / PARTIAL_PAGE_BUCKET)).

(** The item goes to the front of the page's free chain. *)
Definition push_free (l : loc) (page : Z) : mdbM unit :=
  let* _ := update_item_field l (fun it => set_next (fun _ => 0) (set_prev (fun _ => 0) it)) in
  let* info := get_page page in
  let* _ := update_item_field l (set_h_next (fun _ => free_head info)) in
  let* it := get_item l in
  let* _ := update_page page (set_free_head (fun _ => item_id it)) in
  update_page page (set_free_nr (fun x => x + 1)).

Lemma slab_free_item_split i l s :
  slab_free_item i l s =
  (let* it := get_item l in
   need* negb (item_id it =? 0) in
   let* _ := update_slab i (set_item_total_count (fun x => u64 (x - 1))) in
   let* _ := unlink_item i l in
   let* _ := page_out i (PAGE_ID (item_id it)) in
   let* _ := push_free l (PAGE_ID (item_id it)) in
   relist_freed i (PAGE_ID (item_id it))) s.
Proof.
  unfold slab_free_item, page_out, push_free, relist_freed. apply sbind_ext. intros it s0 _.
  unfold sassert. destruct (negb (item_id it =? 0)); [|done].
  apply sbind_ext. intros _ s1 _. apply sbind_ext. intros _ s2 _.
  rewrite sbind_assoc. apply sbind_ext. intros info s3 _. apply sbind_ext. intros _ s4 _.
  by through.
Qed.

Lemma page_out_run s i p sm w pg info h :
  m_slabs s !! Z.to_nat i = Some sm -> pages_ok (m_pages s) sm w pg -> in_pool s w ->
  w !! p = Some h -> m_pages s !! p = Some info -> h = place sm (free_nr info) ->
  free_nr info <> per_slab sm -> (free_nr info <> 0 -> free_head info <> 0) -> counts_ok sm w ->
  exists sm' pages' info' pg', page_out i p s = Ret (tt, pages_state i sm' pages' s)
    /\ same_slots sm sm' /\ slab_id sm' = slab_id sm
    /\ pages_ok pages' sm' (delete p w) pg'
    /\ pages' !! p = Some info' /\ pcore info' = pcore info /\ pcore <$> pages' = pcore <$> m_pages s
    /\ (forall q, w !! q = None -> pages' !! q = m_pages s !! q)
    /\ free_pages_no sm' = kind_count FreePages (delete p w)
    /\ full_pages_no sm' = kind_count FullPages (delete p w)
    /\ partial_pages_no sm' = kind_count (PartialPages 0) (delete p w) + 1.
Proof.
  intros Hsm Hpg Hpool Hp Einfo Hh Hn Hhd (C1 & C2 & C3).
  destruct (take_page i p h s sm w pg Hsm Hpg Hpool Hp) as (sm1 & pages' & E & Hsm1 & Hpg' & Hc & Ho).
  assert (same_slots sm sm1 /\ slab_id sm1 = slab_id sm /\ free_pages_no sm1 = free_pages_no sm
          /\ full_pages_no sm1 = full_pages_no sm /\ partial_pages_no sm1 = partial_pages_no sm)
    as (Hss & F0 & F1 & F2 & F3).
  { destruct Hsm1 as [->|[x ->]]; [done|]. destruct h; done. }
  destruct (pcore_lookup _ _ _ _ Hc Einfo) as (info' & E' & Hcc).
  pose proof (kind_count_delete FreePages w p h Hp) as K1. pose proof (kind_count_delete FullPages w p h Hp) as K2.
  pose proof (kind_count_delete (PartialPages 0) w p h Hp) as K3.
  unfold page_out. step_with (get_page_run p info s (Hpool p ltac:(by eexists)) Einfo).
  unfold place in Hh. destruct (Z.eqb_spec (free_nr info) 0) as [Z0|Z0]; subst h.
  - step_with E. set (s1 := pages_state i sm1 pages' s).
    assert (m_slabs s1 !! Z.to_nat i = Some sm1) as Hsm'
      by (apply list_lookup_insert_eq; by eapply lookup_lt_Some).
    destruct (update_slab_some i (set_full_pages_no (fun x => x - 1)) sm1 s1 Hsm') as (s2 & E2 & Es2 & Hsm2).
    step_with E2. rewrite (update_slab_run i _ _ s2 Hsm2), Es2.
    eexists (set_partial_pages_no (fun x => x + 1) (set_full_pages_no (fun x => x - 1) sm1)), pages', info', _.
    split. { unfold s1, pages_state, set_m_slabs. cbn. by rewrite !list_insert_insert_eq. }
    split; [done|]. split; [done|]. split.
    { eapply (pages_ok_frame pages'); [..|exact Hpg']; done. }
    split; [done|]. split; [done|]. split; [done|]. split; [done|]. cbn in *. lia.
  - rewrite sassert_run by by apply negb_true_iff, Z.eqb_neq, Hhd.
    destruct (Z.eqb_spec (free_nr info) (per_slab sm)); [done|]. rewrite E.
    eexists sm1, pages', info', _. split; [done|]. split; [done|]. split; [done|]. split; [exact Hpg'|].
    split; [done|]. split; [done|]. split; [done|]. split; [done|]. cbn in *. lia.
Qed.

Lemma push_free_run s l p it info :
  m_items s !! l = Some it -> 0 < p < total_pages (m_pool s) -> m_pages s !! p = Some info ->
  push_free l p s = Ret (tt,
    set_m_pages <[p := set_free_nr (fun x => x + 1) (set_free_head (fun _ => item_id it) info)]>
      (set_m_items <[l := set_h_next (fun _ => free_head info)
                            (set_next (fun _ => 0) (set_prev (fun _ => 0) it))]> s)).
Proof.
  intros Eit Hp Einfo. unfold push_free.
  set (f := fun it => set_next (fun _ => 0) (set_prev (fun _ => 0) it)).
  step_with (update_item_field_run l f it s Eit). set (s1 := set_m_items _ s).
  step_with (get_page_run p info s1 Hp Einfo).
  assert (m_items s1 !! l = Some (f it)) as E1 by apply lookup_insert_eq.
  step_with (update_item_field_run l (set_h_next (fun _ => free_head info)) (f it) s1 E1).
  set (s2 := set_m_items _ s1).
  step_with (get_item_run l (set_h_next (fun _ => free_head info) (f it)) s2 ltac:(apply lookup_insert_eq)).
  step_with (update_page_run p (set_free_head (fun _ => item_id it)) info s2 Hp Einfo).
  rewrite (update_page_run p _ (set_free_head (fun _ => item_id it) info)); [|done|apply lookup_insert_eq].
  do 2 f_equal. unfold s2, s1, f, set_m_pages, set_m_items. cbn. by rewrite !insert_insert_eq.
Qed.

Lemma PAGE_ID_loc x l : loc_of x = l -> PAGE_ID x = l.1.1.
Proof. by intros <-. Qed.

(** The item leaves the list of its area: the steps up to [page_out]. *)
Lemma free_unlink_run s i sm v l it :
  slab_ok s i sm v -> small_pool s -> m_items s !! l = Some it -> ITEM_AREA it < TAIR_MAX_AREA_COUNT ->
  l ∈ sv_lists v (ITEM_AREA it) ->
  exists s1 sm1, (let* _ := update_slab i (set_item_total_count (fun x => u64 (x - 1))) in
                  unlink_item i l) s = Ret (tt, s1)
    /\ same_but_lists i (set_item_total_count (fun x => u64 (x - 1)) sm) sm1
         (set_m_slabs <[Z.to_nat i := set_item_total_count (fun x => u64 (x - 1)) sm]> s) s1
    /\ slab_lists i sm1 (m_items s1)
         (<[ITEM_AREA it := filter (.≠ l) (sv_lists v (ITEM_AREA it))]> (sv_lists v))
    /\ m_items s1 !! l = Some it /\ untouched (sv_lists v) s s1
    /\ m_slabs s1 !! Z.to_nat i = Some sm1.
Proof.
  intros [Hsm Hsh Hpg Hcnt Hit Hpool _] Hsmall Eit Ha Hl.
  destruct (update_slab_some i (set_item_total_count (fun x => u64 (x - 1))) sm s Hsm) as (s0 & E0 & Es0 & Hsm0).
  set (sm0 := set_item_total_count _ sm) in *.
  destruct (slab_unlink_item i l s0 it sm0 (sv_lists v)) as (s1 & sm1 & E1 & Hsame & Hl1 & Eit1 & Hout1);
    try done; [by rewrite Es0| |].
  { rewrite Es0. eapply slab_lists_sm; [|exact (io_lists _ _ _ _ _ _ _ Hit)]. done. }
  exists s1, sm1. split; [by step_with E0|]. rewrite Es0 in Hsame, Hout1. split; [done|]. split; [done|].
  split; [done|]. split; [done|]. by eapply same_but_lists_slab; [rewrite <- Es0 in Hsame|].
Qed.

Definition unlisted (l : loc) (area : Z) (lists : Z -> list loc) : Z -> list loc :=
  <[area := filter (.≠ l) (lists area)]> lists.

Lemma slab_lists_frame i sm items items' lists :
  (forall a z, z ∈ lists a -> items' !! z = items !! z) ->
  slab_lists i sm items lists -> slab_lists i sm items' lists.
Proof.
  intros Hf [Hd Hdis]. constructor; [|done]. intros a. eapply item_dll_frame; [|apply Hd].
  intros z Hz. by eapply Hf.
Qed.

(** What [free_item] leaves, before and after the page is put in its list. *)
Record item_freed (s s' : mdb) (i : Z) (l : loc) (it : mdb_item) (sm : slab_manager) (v : slab_view)
    (sm' : slab_manager) (w' : gmap Z page_head) : Prop := {
  fd_slab : m_slabs s' = <[Z.to_nat i := sm']> (m_slabs s);
  fd_shape : same_shape sm sm';
  fd_rest : m_hash s' = m_hash s /\ m_stat s' = m_stat s /\ m_now s' = m_now s
            /\ total_pages (m_pool s') = total_pages (m_pool s);
  fd_lists : slab_lists i sm' (m_items s') (unlisted l (ITEM_AREA it) (sv_lists v));
  fd_core : core_kept (fun z => z <> l) s s';
  fd_out : forall z, z <> l -> (forall a, z ∉ sv_lists v a) -> m_items s' !! z = m_items s !! z;
  fd_item : exists it' info info', m_items s' !! l = Some it' /\ item_id it' = item_id it /\ data it' = data it
    /\ m_pages s !! l.1.1 = Some info /\ h_next it' = free_head info
    /\ m_pages s' !! l.1.1 = Some info' /\ free_nr info' = free_nr info + 1 /\ free_head info' = item_id it
    /\ (w' = <[l.1.1 := place sm (free_nr info + 1)]> (sv_where v)
        \/ (free_nr info + 1 = per_slab sm /\ w' = delete l.1.1 (sv_where v) /\ w' <> ∅));
  fd_pages : pcore <$> delete l.1.1 (m_pages s') = pcore <$> delete l.1.1 (m_pages s);
  fd_others : forall q, sv_where v !! q = None -> m_pages s' !! q = m_pages s !! q;
  fd_ok : exists pg', pages_ok (m_pages s') sm' w' pg';
  fd_counts : counts_ok sm' w';
  fd_pool : pool_step (sv_where v) w' s s'
}.

Lemma slab_free_item_run s i sm v l it :
  slab_ok s i sm v -> owns s (sv_where v) -> m_items s !! l = Some it -> item_id it = cid i l ->
  ITEM_AREA it < TAIR_MAX_AREA_COUNT -> l ∈ sv_lists v (ITEM_AREA it) ->
  exists s' sm' w', slab_free_item i l s = Ret (tt, s') /\ item_freed s s' i l it sm v sm' w'.
Proof.
  intros Hok Hown Eit Hid Ha Hl. pose proof (ow_small _ _ Hown) as Hsmall.
  pose proof Hok as [Hsm Hsh Hpg Hcnt Hit Hpool Hsome]. set (w := sv_where v) in *.
  pose proof (in_use_slot s i sm v l Hok ltac:(by eexists)) as Hslot.
  pose proof (in_use_loc s i sm v l Hok Hsmall ltac:(by eexists)) as Hlok.
  pose proof (sh_range _ _ Hsh) as Hi. set (p := l.1.1).
  destruct Hslot as ((h & Hp) & _). fold w p in Hp.
  destruct (listed_page_info s i sm v p h Hok Hsmall Hp) as (info & Einfo & Hpl & Hnr & Hrange & Hhd & Hpr).
  assert (free_nr info <> per_slab sm) as Hnfull.
  { intros E. apply (all_free _ _ _ _ _ _ _ p ltac:(apply (sh_per _ _ Hsh)) Hit ltac:(by eexists) (ITEM_AREA it) l);
      [lia|done|done]. }
  destruct (free_unlink_run s i sm v l it Hok Hsmall Eit Ha Hl)
    as (s1 & sm1 & E1 & Hsame & Hl1 & Eit1 & Hout1 & Hsm1).
  destruct Hsame as ([ml Esm1] & Hslabs1 & Hpool1 & Hpages1 & Hhash1 & Hstat1 & Hnow1 & Hcore1).
  cbn [m_slabs set_m_slabs m_pool m_pages m_hash m_stat m_now m_items] in *.
  destruct (page_out_run s1 i p sm1 w (sv_pages v) info h) as
    (sm2 & pages2 & info2 & pg2 & E2 & Hss2 & Hid2 & Hpg2 & Einfo2 & Hcc2 & Hpc2 & Ho2 & F1 & F2 & F3);
    try first [done | by rewrite ?Esm1, ?Hpages1].
  { rewrite Hpages1, Esm1. eapply (pages_ok_frame (m_pages s)); [..|exact Hpg]; try done. }
  { intros q Hq. rewrite Hpool1. by apply Hpool. }
  { intros. apply Hhd. lia. }
  set (s2 := pages_state i sm2 pages2 s1) in *.
  apply pcore_fields in Hcc2 as (Hpid2 & Hnr2 & Hhd2).
  pose proof (push_free_run s2 l p it info2 Eit1 ltac:(cbn; by rewrite Hpool1) Einfo2) as E3.
  set (s3 := set_m_pages _ _) in E3. set (info3 := set_free_nr _ _) in s3.
  destruct (po_id _ _ _ _ Hpg p ltac:(by eexists)) as (info0 & E0 & Hpid). rewrite Einfo in E0. injection E0 as <-.
  destruct Hss2 as (Hlist2 & Z2 & Z3 & Z4).
  assert (same_shape sm sm2) as (Y1 & Y2 & Y3 & Y4) by (unfold same_shape; rewrite Z2, Z3, Z4, Hid2, Esm1; done).
  assert (<[p := h]> (delete p w) = w) as Ew by by apply insert_delete_id.
  destruct (relist_freed_run s3 i p sm2 (delete p w) pg2 info3 (free_nr info + 1) h)
    as (s4 & sm4 & w4 & E4 & [M1 M2 M3 M4 M5 M6 M7 M8] & Hps & Hw4).
  { apply list_lookup_insert_eq. by eapply lookup_lt_Some. }
  { eapply (pages_ok_frame pages2); [..|exact Hpg2]; try done. intros q [D _]%lookup_delete_is_Some.
    cbn. by rewrite lookup_insert_ne. }
  { intros q [_ Hq]%lookup_delete_is_Some. cbn. rewrite Hpool1. by apply Hpool. }
  { apply lookup_delete_eq. }
  { cbn. by rewrite Hpool1. }
  { rewrite Ew. destruct Hown as [O1 O2 O3]. constructor; unfold small_pool; cbn; by rewrite Hpool1. }
  { apply lookup_insert_eq. }
  { cbn. by rewrite Hpid2. }
  { cbn. by rewrite Hnr2. }
  { lia. }
  { done. }
  { done. }
  { done. }
  destruct M2 as ((N1 & N2 & N3 & N5) & N4). destruct M6 as (M61 & M62 & M63 & M64).
  assert (m_items s4 = <[l := set_h_next (fun _ => free_head info2)
            (set_next (fun _ => 0) (set_prev (fun _ => 0) it))]> (m_items s1)) as Eitems by (by rewrite M3).
  exists s4, sm4, w4. split.
  { rewrite slab_free_item_split. step_with (get_item_run _ _ _ Eit).
    rewrite sassert_run by (apply negb_true_iff, Z.eqb_neq; rewrite Hid; by apply cid_nonzero).
    rewrite <- sbind_assoc. step_with E1. destruct (cid_loc i l Hlok Hi) as [Eloc _].
    rewrite Hid, (PAGE_ID_loc _ _ Eloc). fold p. step_with E2. step_with E3. exact E4. }
  rewrite Ew in Hps. constructor; fold w p.
  - rewrite M1. cbn. rewrite Hslabs1. by rewrite !list_insert_insert_eq.
  - unfold same_shape. rewrite N2, N3, N4, N5. done.
  - rewrite M61, M62, M63, M64. cbn. by rewrite Hpool1.
  - eapply (slab_lists_sm i sm1); [by rewrite N1, Hlist2|].
    eapply slab_lists_frame; [|exact Hl1]. intros a z Hz. rewrite Eitems. apply lookup_insert_ne. intros <-.
    unfold unlisted in Hz. destruct (decide (ITEM_AREA it = a)) as [<-|D].
    + rewrite fn_lookup_insert, list_elem_of_filter in Hz. by destruct Hz.
    + rewrite fn_lookup_insert_ne in Hz by done. by apply D, (sl_disjoint _ _ _ _ (io_lists _ _ _ _ _ _ _ Hit) _ _ l).
  - intros z Hz. rewrite Eitems, lookup_insert_ne by done. rewrite <- !lookup_fmap. by rewrite Hcore1.
  - intros z Hz Hn. rewrite Eitems, lookup_insert_ne by done. by apply Hout1.
  - destruct (pcore_lookup _ _ p info3 M4 ltac:(apply lookup_insert_eq)) as (info4 & E5 & Hc5).
    apply pcore_fields in Hc5 as (_ & Hn5 & Hh5).
    eexists _, info, info4. split; [rewrite Eitems; apply lookup_insert_eq|]. split; [done|]. split; [done|].
    split; [done|]. split; [exact Hhd2|]. split; [exact E5|]. split; [by rewrite Hn5; cbn; rewrite Hnr2|].
    split; [by rewrite Hh5|]. destruct Hw4 as [-> | (H1 & -> & H2)]; [left|right].
    + rewrite insert_delete_eq. f_equal. by apply place_ext.
    + by rewrite <- Y3.
  - rewrite fmap_delete, M4, <- fmap_delete. cbn. rewrite delete_insert_eq, !fmap_delete, Hpc2. by rewrite Hpages1.
  - intros q Hq. assert (q <> p) as D by congruence. rewrite M5; [|rewrite lookup_delete_ne by done; done|done].
    cbn. rewrite lookup_insert_ne by done. rewrite Ho2 by done. by rewrite Hpages1.
  - done.
  - done.
  - destruct Hps as [P1 P2 P3]. constructor; [done| |]; cbn in *; by rewrite Hpool1 in *.
Qed.

Lemma slab_free_item_spec s i sm v l it :
  slab_ok s i sm v -> owns s (sv_where v) -> m_items s !! l = Some it -> item_id it = cid i l ->
  ITEM_AREA it < TAIR_MAX_AREA_COUNT -> l ∈ sv_lists v (ITEM_AREA it) ->
  exists s' sm' v', slab_free_item i l s = Ret (tt, s')
    /\ slab_step i s s' sm v sm' v' /\ sv_lists v' = unlisted l (ITEM_AREA it) (sv_lists v)
    /\ core_kept (fun z => z <> l) s s' /\ is_Some (m_items s' !! l).
Proof.
  intros Hok Hown Eit Hid Ha Hl.
  destruct (slab_free_item_run s i sm v l it Hok Hown Eit Hid Ha Hl) as (s' & sm' & w' & E & Hfd).
  pose proof (in_use_slot s i sm v l Hok ltac:(by eexists)) as Hslot.
  pose proof (in_use_loc s i sm v l Hok (ow_small _ _ Hown) ltac:(by eexists)) as Hlok.
  destruct Hok as [Hsm Hsh Hpg Hcnt Hit Hpool Hsome]. destruct Hslot as ((h & Hp) & _).
  destruct Hfd as [F1 (Y1 & Y2 & Y3 & Y4) (R1 & R2 & R3 & R4) F4 F5 F6 F7 F8 F9 [pg' F10] F11 F12].
  destruct F7 as (it' & info & info' & Eit' & Hid' & Hd' & Einfo & Hn & Einfo' & Hnr & Hhd & Hw').
  assert (items_ok (m_items s') (m_pages s') i sm' (<[l.1.1 := place sm (free_nr info + 1)]> (sv_where v))
            (<[l.1.1 := l :: sv_free v l.1.1]> (sv_free v)) (unlisted l (ITEM_AREA it) (sv_lists v))) as Hit'.
  { eapply (items_ok_give (m_items s) (m_items s') (m_pages s)); try done; rewrite <- Hid; [congruence|..|done].
    rewrite Hid. by apply cid_names; [|apply Hsh]. }
  assert (forall q, is_Some (w' !! q) -> is_Some (sv_where v !! q)) as Hsub.
  { intros q. destruct Hw' as [-> | (_ & -> & _)].
    - rewrite lookup_insert_is_Some. intros [<- | [_ ?]]; [by eexists|done].
    - rewrite lookup_delete_is_Some. tauto. }
  exists s', sm', (mk_slab_view w' pg' (<[l.1.1 := l :: sv_free v l.1.1]> (sv_free v))
                     (unlisted l (ITEM_AREA it) (sv_lists v))).
  split; [done|]. split; [|by rewrite Eit']. constructor; [constructor|done| |exact F12]; cbn [sv_where sv_pages sv_free sv_lists].
  - rewrite F1. apply list_lookup_insert_eq. by eapply lookup_lt_Some.
  - by eapply shape_same; [exact Y1|exact Y2|exact Y3|exact Y4|].
  - exact F10.
  - exact F11.
  - destruct Hw' as [-> | (Hfull & -> & _)]; [exact Hit'|].
    rewrite <- (delete_insert_eq (sv_where v) l.1.1 (place sm (free_nr info + 1))).
    eapply items_ok_drop; [rewrite Y3; apply Hsh|exact Hit'|apply lookup_insert_eq|].
    rewrite fn_lookup_insert, Y3, <- Hfull. cbn [length].
    destruct (io_page _ _ _ _ _ _ _ Hit _ h Hp) as (i0 & E0 & _ & _ & Hi0 & _).
    assert (Some i0 = Some info) as [= ->] by congruence. rewrite Hi0. lia.
  - intros q Hq. rewrite R4. by apply Hpool, Hsub.
  - destruct Hw' as [-> | (_ & _ & ?)]; [apply insert_non_empty|done].
  - constructor; try done; [by exists sm'| |].
    + intros z Hz _. apply F6.
      * intros ->. congruence.
      * intros a Hza. destruct (io_live _ _ _ _ _ _ _ Hit a z Hza) as [[[x Hx] _] _]. congruence.
    + intros q Hq _. by apply F9.
Qed.
