(* ===== verification/SlabEvict.v ===== *)
(** * Eviction and allocation as a whole (storage/mdb/mem_cache.cpp)

    [update_item], [evict_self] and [evict_any] move an item in use from one
    area's list to the front of another; [alloc_item] takes a free item or
    evicts one, and always succeeds: a slab whose pages are all full has an
    item in use, and the scan of [evict_any] reaches its area. *)

From S2P Require Import Prelude Dll MemPool MdbItem MemCache SlabLists SlabPages SlabAlloc SlabFree.

(** ** Changes that keep the invariant *)

(** What a slab needs of an item in use: its list links, its room, its name. *)
Definition links_kept (items items' : gmap loc mdb_item) (l : loc) : Prop :=
  forall it, items !! l = Some it -> exists it', items' !! l = Some it'
    /\ prev it' = prev it /\ next it' = next it /\ length (data it') = length (data it)
    /\ CLEAR_FLAGS (item_id it') = CLEAR_FLAGS (item_id it).

Lemma links_kept_refl items items' l : items' !! l = items !! l -> links_kept items items' l.
Proof. intros E it Hit. exists it. by rewrite E. Qed.

Lemma links_kept_names i o x y : CLEAR_FLAGS y = CLEAR_FLAGS x -> item_names i o x -> o <> None -> item_names i o y.
Proof. destruct o as [l|]; [|done]. intros E (Hl & Hi & Hc) _. split; [done|]. split; [done|congruence]. Qed.

Lemma slab_lists_kept i sm items items' lists :
  (forall a l, l ∈ lists a -> links_kept items items' l) ->
  slab_lists i sm items lists -> slab_lists i sm items' lists.
Proof.
  intros Hk [Hd Hdis]. constructor; [|done]. intros a. destruct (Hd a) as [Hn Hs Hh Ht Hi].
  assert (forall l, l ∈ lists a -> exists it it', items !! l = Some it /\ items' !! l = Some it'
    /\ prev it' = prev it /\ next it' = next it /\ item_names i (Some l) (item_id it')) as H.
  { intros l Hl. destruct (Hi l Hl) as (it & Eit & Hnm). destruct (Hk a l Hl it Eit) as (it' & E' & Hp & Hx & _ & Hc).
    exists it, it'. repeat (split; [done|]). by eapply links_kept_names. }
  constructor; try done.
  - eapply dseg_frame; [|exact Hs]. intros l Hl. destruct (H l Hl) as (it & it' & E & E' & Hp & Hx & _).
    unfold item_links. by rewrite E, E', Hp, Hx.
  - intros l Hl. destruct (H l Hl) as (it & it' & _ & E' & _ & _ & Hn'). by exists it'.
Qed.

(** What a slab needs of a free item: its place in the free chain, its room. *)
Definition chain_kept (items items' : gmap loc mdb_item) (l : loc) : Prop :=
  forall it, items !! l = Some it -> exists it', items' !! l = Some it'
    /\ h_next it' = h_next it /\ item_id it' = item_id it /\ length (data it') = length (data it).

Lemma chain_kept_refl items items' l : items' !! l = items !! l -> chain_kept items items' l.
Proof. intros E it Hit. exists it. by rewrite E. Qed.

(** The invariant depends on the items of the slab's pages only: their bytes
    and names, the chains of the free ones and the lists of those in use. *)
Lemma slab_ok_live s s' i sm v :
  slab_ok s i sm v -> m_slabs s' !! Z.to_nat i = m_slabs s !! Z.to_nat i ->
  (forall p, is_Some (sv_where v !! p) -> m_pages s' !! p = m_pages s !! p) ->
  total_pages (m_pool s') = total_pages (m_pool s) ->
  (forall l, in_use v l -> links_kept (m_items s) (m_items s') l) ->
  (forall l, slot sm (sv_where v) l -> ~ in_use v l -> chain_kept (m_items s) (m_items s') l) ->
  slab_ok s' i sm v.
Proof.
  intros [Hsm Hsh Hpg Hcnt Hit Hpool Hsome] Es Ep Et Hlive Hfree.
  pose proof Hit as [H1 H2 H3 H4 H5 H6 H7].
  assert (forall p l, is_Some (sv_where v !! p) -> l ∈ sv_free v p -> chain_kept (m_items s) (m_items s') l) as Hfr.
  { intros p l Hp Hl. destruct (H6 p l Hp Hl) as [Hs E]. apply Hfree; [done|]. intros [a Ha].
    destruct (H4 a l Ha) as [_ Hn]. by rewrite E in Hn. }
  constructor; try done.
  - by rewrite Es.
  - eapply pages_ok_frame; [..|exact Hpg]; done.
  - constructor; try done.
    + eapply slab_lists_kept; [|exact H1]. intros a l Hl. apply Hlive. by exists a.
    + intros l Hl. destruct (H3 l Hl) as (it & Eit & Hlen & Hn). destruct (H7 l Hl) as [Hf|Hu].
      * destruct (Hfr l.1.1 l ltac:(apply Hl) Hf it Eit) as (it' & E' & _ & Hi & Hd). exists it'. by rewrite Hd, Hi.
      * destruct (Hlive l Hu it Eit) as (it' & E' & _ & _ & Hd & Hc). exists it'. split; [done|].
        split; [by rewrite Hd|]. by eapply links_kept_names.
    + intros p h Hp. destruct (H5 p h Hp) as (info & Einfo & Hch & Hr). exists info.
      rewrite Ep by by eexists. split; [done|]. split; [|done].
      eapply fchain_frame; [|exact Hch]. intros l it Hl Eit.
      destruct (Hfr p l ltac:(by eexists) Hl it Eit) as (it' & E' & Hn & Hi & _). by exists it'.
  - intros q Hq. rewrite Et. by apply Hpool.
Qed.

(** Counters of items are not part of the invariant. *)
Record same_tables (sm sm' : slab_manager) : Prop := {
  st_shape : slab_id sm' = slab_id sm /\ slab_size sm' = slab_size sm /\ per_slab sm' = per_slab sm
             /\ (0 <= evict_index sm -> 0 <= evict_index sm');
  st_list : this_item_list sm' = this_item_list sm;
  st_heads : forall h, head_of sm' h = head_of sm h;
  st_counts : free_pages_no sm' = free_pages_no sm /\ full_pages_no sm' = full_pages_no sm
              /\ partial_pages_no sm' = partial_pages_no sm
}.

Lemma slab_ok_tables s i sm sm' v :
  slab_ok s i sm v -> same_tables sm sm' -> slab_ok (set_m_slabs <[Z.to_nat i := sm']> s) i sm' v.
Proof.
  intros [Hsm Hsh Hpg (C1 & C2 & C3) Hit Hpool Hsome] [(E1 & E2 & E3 & E4) Hl Hh (D1 & D2 & D3)].
  constructor; try done.
  - apply list_lookup_insert_eq. by eapply lookup_lt_Some.
  - destruct Hsh. constructor; [congruence..|auto].
  - by eapply pages_ok_frame; [..|exact Hpg].
  - unfold counts_ok. by rewrite D1, D2, D3.
  - destruct Hit as [H1 H2 H3 H4 H5 H6 H7]. unfold slot, place in *. rewrite <- E2, <- E3 in *.
    constructor; try done; unfold slot, place; try done. by eapply slab_lists_sm.
Qed.

(** The lists of a slab with the invariant, after items moved between them. *)
Lemma slab_ok_moved s s' i sm sm' v lists' :
  slab_ok s i sm v -> same_but_lists i sm sm' s s' -> slab_lists i sm' (m_items s') lists' ->
  (forall l, in_use v l <-> exists a, l ∈ lists' a) ->
  (forall a l, l ∈ lists' a -> 0 <= a < TAIR_MAX_AREA_COUNT) ->
  slab_ok s' i sm' (mk_slab_view (sv_where v) (sv_pages v) (sv_free v) lists').
Proof.
  intros [Hsm Hsh Hpg Hcnt Hit Hpool Hsome] Hsame Hlists Hin Ha.
  pose proof (same_but_lists_slab _ _ _ _ _ Hsame Hsm) as Hsm'.
  destruct Hsame as ([ml ->] & Hs & Hp & Hg & Hh & Ht & Hn & Hc).
  destruct Hit as [H1 H2 H3 H4 H5 H6 H7].
  constructor; cbn [sv_where sv_pages sv_free sv_lists]; try done.
  - by eapply shape_same; [..|exact Hsh].
  - rewrite Hg. by eapply pages_ok_frame; [..|exact Hpg].
  - rewrite Hg. constructor; try done.
    + intros l Hl. destruct (H3 l Hl) as (it & Eit & Hlen & Hid).
      destruct (core_lookup _ _ _ _ Hc Eit) as (it' & E' & Hcc).
      apply core_fields in Hcc as (_ & _ & _ & Hd & _ & _ & Hi & _). exists it'. by rewrite Hd, Hi.
    + intros a l Hl. destruct (proj2 (Hin l) (ex_intro _ a Hl)) as [b Hb]. by apply (H4 b l).
    + intros p h Hw. destruct (H5 p h Hw) as (info & E & Hch & Hr). exists info. split; [done|].
      split; [by eapply fchain_core|done].
    + intros l Hl. destruct (H7 l Hl) as [Hf|Hu]; [by left|right]. by apply Hin.
  - intros q Hq. rewrite Hp. by apply Hpool.
Qed.

(** ** Steps one after the other *)

Lemma pool_step_trans w1 w2 w3 s1 s2 s3 :
  (forall p, (is_Some (w1 !! p) <-> is_Some (w3 !! p)) -> (is_Some (w1 !! p) <-> is_Some (w2 !! p))) ->
  in_pool s3 w3 -> total_pages (m_pool s3) = total_pages (m_pool s2) ->
  total_pages (m_pool s2) = total_pages (m_pool s1) ->
  pool_step w1 w2 s1 s2 -> pool_step w2 w3 s2 s3 -> pool_step w1 w3 s1 s3.
Proof.
  intros Hw Hin Ht3 Ht2 [A1 A2 A3] [B1 B2 B3]. constructor; [done| |].
  - intros p Hp Hs. pose proof (Hw p Hs). rewrite B2, A2; try done; [lia|tauto].
  - intros p Hp Hs. destruct (w2 !! p) as [h|] eqn:E2; [apply A3; [done|by eexists]|].
    pose proof (Hin p Hs). rewrite <- (A2 p); [by apply B3|lia|]. rewrite Hp, E2. done.
Qed.

Lemma slab_step_trans i s1 s2 s3 sm1 sm2 sm3 v1 v2 v3 :
  (forall p, (is_Some (sv_where v1 !! p) <-> is_Some (sv_where v3 !! p)) ->
             (is_Some (sv_where v1 !! p) <-> is_Some (sv_where v2 !! p))) ->
  slab_step i s1 s2 sm1 v1 sm2 v2 -> slab_step i s2 s3 sm2 v2 sm3 v3 -> slab_step i s1 s3 sm1 v1 sm3 v3.
Proof.
  intros Hw [A1 A2 A3 A4] [B1 B2 B3 B4]. constructor; [done| | |].
  - intuition congruence.
  - eapply slab_frame_trans; [|exact A3|exact B3]. intros p H1 H3.
    apply eq_None_not_Some. rewrite <- Hw; rewrite H1, ?H3; [|done]. by intros [].
  - eapply pool_step_trans; [exact Hw|apply B1|apply B3|apply A3|exact A4|exact B4].
Qed.

(** *** Steps that change no page *)

Definition with_lists (v : slab_view) (lists : Z -> list loc) : slab_view :=
  mk_slab_view (sv_where v) (sv_pages v) (sv_free v) lists.

Lemma with_lists_same v : with_lists v (sv_lists v) = v.
Proof. by destruct v. Qed.

Lemma slab_step_still i s s' sm v sm' lists' :
  owns s (sv_where v) -> slab_ok s' i sm' (with_lists v lists') ->
  slab_id sm' = slab_id sm /\ slab_size sm' = slab_size sm /\ per_slab sm' = per_slab sm ->
  m_slabs s' = <[Z.to_nat i := sm']> (m_slabs s) -> m_hash s' = m_hash s -> m_stat s' = m_stat s ->
  m_now s' = m_now s -> m_pool s' = m_pool s -> m_pages s' = m_pages s ->
  (forall l, sv_where v !! l.1.1 = None -> m_items s' !! l = m_items s !! l) ->
  slab_step i s s' sm v sm' (with_lists v lists').
Proof.
  intros Hown Hok Hsh Hs Hh Ht Hn Hp Hg Hi. constructor; cbn [sv_where with_lists]; try done.
  - constructor; try done; [by exists sm'|by rewrite Hp|by intros l ? _; apply Hi|by intros p _ _; rewrite Hg].
  - by apply pool_step_same.
Qed.

Lemma moved_in_use l a b lists z :
  l ∈ lists a -> (exists c, z ∈ moved l a b lists c) <-> exists c, z ∈ lists c.
Proof.
  intros Hl. unfold moved. split.
  - intros [c Hc]. destruct (decide (b = c)) as [<-|D].
    + rewrite fn_lookup_insert in Hc. apply elem_of_cons in Hc as [->|Hc]; [by exists a|].
      exists b. by apply removed_in in Hc.
    + rewrite fn_lookup_insert_ne in Hc by done. exists c. by apply removed_in in Hc.
  - intros [c Hc]. destruct (decide (z = l)) as [->|D].
    { exists b. rewrite fn_lookup_insert. by left. }
    assert (z ∈ (<[a := filter (.≠ l) (lists a)]> lists) c) as Hc'.
    { destruct (decide (a = c)) as [<-|]; [rewrite fn_lookup_insert; by apply list_elem_of_filter|].
      by rewrite fn_lookup_insert_ne. }
    exists c. destruct (decide (b = c)) as [<-|]; [rewrite fn_lookup_insert; by right|by rewrite fn_lookup_insert_ne].
Qed.

Lemma moved_area l a b lists c z : z ∈ moved l a b lists c -> z = l /\ c = b \/ z ∈ lists c.
Proof.
  unfold moved. destruct (decide (b = c)) as [<-|D].
  - rewrite fn_lookup_insert. intros [->|Hz]%elem_of_cons; [by left|right]. by apply removed_in in Hz.
  - rewrite fn_lookup_insert_ne by done. intros Hz. right. by apply removed_in in Hz.
Qed.

(** A move between lists is a step of the slab. *)
Lemma moved_step s s' i sm sm' v l a b :
  slab_ok s i sm v -> owns s (sv_where v) -> l ∈ sv_lists v a -> 0 <= b < TAIR_MAX_AREA_COUNT ->
  same_but_lists i sm sm' s s' -> slab_lists i sm' (m_items s') (moved l a b (sv_lists v)) ->
  untouched (sv_lists v) s s' ->
  slab_step i s s' sm v sm' (with_lists v (moved l a b (sv_lists v))).
Proof.
  intros Hok Hown Hl Hb Hsame Hlists Hout. apply slab_step_still; try done.
  - eapply slab_ok_moved; try done.
    + intros z. by rewrite moved_in_use.
    + intros c z [[_ ->]|Hz]%moved_area; [done|]. by apply (io_area _ _ _ _ _ _ _ (so_items _ _ _ _ Hok) c z).
  - by destruct Hsame as ([ml ->] & _).
  - apply Hsame.
  - apply Hsame.
  - apply Hsame.
  - apply Hsame.
  - apply Hsame.
  - apply Hsame.
  - intros z Hz. apply Hout. intros c Hc. pose proof (in_use_slot s i sm v z Hok ltac:(by exists c)) as [[x Hx] _].
    congruence.
Qed.

(** An item in use is rewritten in place. *)
Lemma rewrite_step s i sm v l it it' :
  slab_ok s i sm v -> owns s (sv_where v) -> in_use v l -> m_items s !! l = Some it ->
  prev it' = prev it -> next it' = next it -> length (data it') = length (data it) ->
  CLEAR_FLAGS (item_id it') = CLEAR_FLAGS (item_id it) ->
  slab_step i s (set_m_items <[l := it']> s) sm v sm v.
Proof.
  intros Hok Hown Hu Eit Hp Hn Hd Hc. rewrite <- (with_lists_same v) at 2. apply slab_step_still; try done.
  - rewrite with_lists_same. eapply slab_ok_live; try done.
    + intros z Hz. cbn. destruct (decide (l = z)) as [<-|D].
      * intros it0 E0. rewrite Eit in E0. injection E0 as <-. exists it'. by rewrite lookup_insert_eq.
      * apply links_kept_refl. by rewrite lookup_insert_ne.
    + intros z _ Hz. apply chain_kept_refl. cbn. apply lookup_insert_ne. by intros ->.
  - cbn. symmetry. apply list_insert_id, Hok.
  - intros z Hz. cbn. apply lookup_insert_ne. intros <-.
    pose proof (in_use_slot s i sm v l Hok Hu) as [[x Hx] _]. congruence.
Qed.

(** Counters of items are updated. *)
Lemma tables_step s i sm sm' v :
  slab_ok s i sm v -> owns s (sv_where v) -> same_tables sm sm' ->
  slab_step i s (set_m_slabs <[Z.to_nat i := sm']> s) sm v sm' v.
Proof.
  intros Hok Hown Ht. rewrite <- (with_lists_same v) at 2. apply slab_step_still; try done.
  - rewrite with_lists_same. by eapply slab_ok_tables.
  - destruct Ht as [(E1 & E2 & E3 & _) _ _ _]. done.
Qed.

(** ** Eviction *)

(** The item [l] of the list of area [a] was taken for area [b]: its flags are
    cleared, it leads the list of [b], and no other item changed. *)
Record evicted (i : Z) (s s' : mdb) (sm : slab_manager) (v : slab_view) (sm' : slab_manager)
    (l : loc) (a b : Z) : Prop := {
  ev_step : slab_step i s s' sm v sm' (with_lists v (moved l a b (sv_lists v)));
  ev_in : l ∈ sv_lists v a;
  ev_item : exists it it', m_items s !! l = Some it /\ m_items s' !! l = Some it'
            /\ core it' = core (set_item_id CLEAR_FLAGS it);
  ev_core : core_kept (fun z => z <> l) s s'
}.

(** The items of the list of an area have keys of that area. *)
Definition areas_ok (items : gmap loc mdb_item) (lists : Z -> list loc) : Prop :=
  forall a l it, l ∈ lists a -> items !! l = Some it -> ITEM_AREA it = a.

Lemma CLEAR_FLAGS_idem x : CLEAR_FLAGS (CLEAR_FLAGS x) = CLEAR_FLAGS x.
Proof. apply same_item_clear, CLEAR_FLAGS_same. Qed.

(** Taking the item at [l]: what [evict_self] and [evict_any] end with. *)
Lemma evicted_take i s s' sm v sm' l a b it :
  slab_ok s i sm v -> owns s (sv_where v) -> l ∈ sv_lists v a -> m_items s !! l = Some it ->
  0 <= b < TAIR_MAX_AREA_COUNT ->
  same_but_lists i sm sm' (set_m_items <[l := set_item_id CLEAR_FLAGS it]> s) s' ->
  slab_lists i sm' (m_items s') (moved l a b (sv_lists v)) ->
  untouched (sv_lists v) (set_m_items <[l := set_item_id CLEAR_FLAGS it]> s) s' ->
  evicted i s s' sm v sm' l a b.
Proof.
  intros Hok Hown Hl Eit Hb Hsame Hlists Hout. set (s1 := set_m_items _ s) in *.
  pose proof (rewrite_step s i sm v l it (set_item_id CLEAR_FLAGS it) Hok Hown ltac:(by exists a) Eit
                eq_refl eq_refl eq_refl (CLEAR_FLAGS_idem _)) as H1. fold s1 in H1.
  pose proof (moved_step s1 s' i sm sm' v l a b (ss_ok _ _ _ _ _ _ _ H1) (ps_owns _ _ _ _ (ss_pool _ _ _ _ _ _ _ H1))
                Hl Hb Hsame Hlists Hout) as H2.
  destruct Hsame as (_ & _ & _ & _ & _ & _ & _ & Hc).
  constructor; [by eapply slab_step_trans; [|exact H1|exact H2]|done| |].
  - destruct (core_lookup _ _ l (set_item_id CLEAR_FLAGS it) Hc ltac:(apply lookup_insert_eq)) as (it' & E' & Hcc).
    by exists it, it'.
  - intros z Hz. rewrite <- !lookup_fmap, Hc, !lookup_fmap. cbn. by rewrite lookup_insert_ne.
Qed.

Lemma evict_self_ok i area s sm v :
  slab_ok s i sm v -> owns s (sv_where v) -> 0 <= area < TAIR_MAX_AREA_COUNT ->
  areas_ok (m_items s) (sv_lists v) ->
  (evict_self i area s = Ret (None, s) /\ sv_lists v area = [])
  \/ exists l type s' sm', evict_self i area s = Ret (Some (l, type), s')
       /\ evicted i s s' sm v sm' l area area /\ (type = ALLOC_EXPIRED \/ type = ALLOC_EVICT_SELF).
Proof.
  intros Hok Hown Ha Har. pose proof Hok as [Hsm Hsh Hpg Hcnt Hit Hpool Hsome].
  pose proof (evict_self_spec i area s sm (sv_lists v) Hsm ltac:(lia) (io_lists _ _ _ _ _ _ _ Hit)
                (fun l it => Har area l it)) as H.
  destruct (victim _ _ _) as [[l type]|] eqn:Ev.
  - right. destruct H as (s' & sm' & it & E & Eit & Hsame & Hl & Hout). exists l, type, s', sm'.
    split; [done|]. split.
    + eapply evicted_take; try done; [by eapply victim_in|]. intros z Hz. rewrite Hout by done. cbn.
      rewrite lookup_insert_ne; [done|]. intros <-. apply (Hz area). by eapply victim_in.
    + unfold victim in Ev. destruct (last_expired _ _ _ _); [injection Ev as <- <-; by left|].
      destruct (reverse _); [done|]. injection Ev as <- <-. by right.
  - left. split; [done|]. unfold victim in Ev. destruct (last_expired _ _ _ _); [done|].
    destruct (reverse (sv_lists v area)) eqn:Er; [|done]. apply (f_equal reverse) in Er. by rewrite reverse_involutive in Er.
Qed.

Lemma set_evict_index_tables x sm : 0 <= x -> same_tables sm (set_evict_index (fun _ => x) sm).
Proof. intros Hx. constructor; [by repeat split|done|by intros []|done]. Qed.

(** The scan over the areas reaches one that has an item. *)
Lemma find_any_spec n i s sm v d :
  slab_ok s i sm v -> owns s (sv_where v) -> evict_index sm < TAIR_MAX_AREA_COUNT ->
  sv_lists v ((evict_index sm + Z.of_nat d) mod TAIR_MAX_AREA_COUNT) <> [] -> (d < n)%nat ->
  exists s' sm' l a, find_any n i s = Ret (l, s') /\ l ∈ sv_lists v a
    /\ slab_step i s s' sm v sm' v /\ m_items s' = m_items s.
Proof.
  revert s sm d. induction n as [|n IH]; intros s sm d Hok Hown Hidx Hne Hd; [lia|]. cbn [find_any].
  pose proof (so_slab _ _ _ _ Hok) as Hsm. step_with (get_slab_run i sm s Hsm).
  pose proof (sh_evict _ _ (so_shape _ _ _ _ Hok)) as H0.
  pose proof (sl_dll _ _ _ _ (io_lists _ _ _ _ _ _ _ (so_items _ _ _ _ Hok)) (evict_index sm)) as Hdll.
  set (pos := (item_list_get sm (evict_index sm)).2) in *.
  destruct (Z.eqb_spec pos 0) as [E|E]; cbn [negb].
  - apply (final_zero i _ _ (dll_tail _ _ _ _ _ Hdll)) in E.
    set (idx := if _ <=? _ then 0 else _).
    assert (idx = (evict_index sm + 1) mod TAIR_MAX_AREA_COUNT) as Eidx.
    { unfold idx. destruct (Z.leb_spec TAIR_MAX_AREA_COUNT (evict_index sm + 1)).
      - replace (evict_index sm + 1) with TAIR_MAX_AREA_COUNT by lia. done.
      - symmetry. apply Z.mod_small. lia. }
    destruct d as [|d].
    { rewrite Z.add_0_r, Z.mod_small in Hne by lia. done. }
    assert (0 <= idx < TAIR_MAX_AREA_COUNT) as Hi by (rewrite Eidx; by apply Z.mod_pos_bound).
    step_with (update_slab_run i (set_evict_index (fun _ => idx)) sm s Hsm).
    pose proof (tables_step s i sm _ v Hok Hown (set_evict_index_tables idx sm ltac:(lia))) as H1.
    destruct (IH _ _ d (ss_ok _ _ _ _ _ _ _ H1) (ps_owns _ _ _ _ (ss_pool _ _ _ _ _ _ _ H1)))
      as (s' & sm' & l & a & E' & Hl & H2 & Hi2); cbn [evict_index set_evict_index].
    + lia.
    + rewrite Eidx, Z.add_mod_idemp_l by done. by replace (evict_index sm + 1 + Z.of_nat d) with
        (evict_index sm + Z.of_nat (S d)) by lia.
    + lia.
    + exists s', sm', l, a. split; [done|]. split; [done|]. split; [|done].
      by eapply slab_step_trans; [|exact H1|exact H2].
  - destruct (item_dll_last i (m_items s) _ _ pos Hdll E) as (ls' & l & it & Els & Eloc & Eit & _).
    exists s, sm, l, (evict_index sm). rewrite (id_to_item_run pos s E), Eloc. split; [done|].
    split; [rewrite Els; apply elem_of_app; right; by left|]. split; [|done].
    pose proof (in_use_slot s i sm v l Hok ltac:(exists (evict_index sm); rewrite Els; apply elem_of_app; right; by left)).
    rewrite <- (with_lists_same v) at 2. apply slab_step_still; try done; [by rewrite with_lists_same|].
    symmetry. by apply list_insert_id.
Qed.

(** A slab whose pages are all full has an item in use. *)
Lemma full_slab_in_use s i sm v :
  slab_ok s i sm v -> small_pool s -> (forall p h, sv_where v !! p = Some h -> h = FullPages) ->
  exists l, in_use v l.
Proof.
  intros Hok Hsmall Hfull. destruct (map_choose _ (so_some _ _ _ _ Hok)) as (p & h & Hp).
  destruct (listed_page_info s i sm v p h Hok Hsmall Hp) as (info & _ & Hpl & Hnr & Hr & _).
  assert (free_nr info = 0) as Hz.
  { rewrite (Hfull p h Hp) in Hpl. unfold place in Hpl. destruct (Z.eqb_spec (free_nr info) 0); [done|].
    by destruct (free_nr info =? per_slab sm). }
  exists (p, slab_size sm, 0).
  destruct (io_cover _ _ _ _ _ _ _ (so_items _ _ _ _ Hok) (p, slab_size sm, 0)) as [Hf|Hu]; [| |done].
  - split; [by eexists|]. split; [done|]. pose proof (sh_per _ _ (so_shape _ _ _ _ Hok)). simpl. lia.
  - simpl in Hf. destruct (sv_free v p); [by apply elem_of_nil in Hf|simpl in Hnr; lia].
Qed.

(** A step that changes no list, before an eviction. *)
Lemma evicted_after i s s1 s' sm v sm1 sm' l a b :
  slab_step i s s1 sm v sm1 v -> m_items s1 = m_items s -> evicted i s1 s' sm1 v sm' l a b ->
  evicted i s s' sm v sm' l a b.
Proof.
  intros H1 Hi [E1 E2 (it & it' & E3) E4]. constructor; [by eapply slab_step_trans; [|exact H1|exact E1]|done| |].
  - rewrite Hi in E3. by exists it, it'.
  - intros z Hz. rewrite <- Hi. by apply E4.
Qed.

Lemma evict_any_ok i area s sm v :
  slab_ok s i sm v -> owns s (sv_where v) -> 0 <= area < TAIR_MAX_AREA_COUNT ->
  areas_ok (m_items s) (sv_lists v) -> (exists l, in_use v l) ->
  exists l type a s' sm', evict_any i area s = Ret ((l, type), s')
    /\ evicted i s s' sm v sm' l a area /\ (type = ALLOC_EXPIRED \/ type = ALLOC_EVICT_ANY).
Proof.
  intros Hok Hown Ha Har (l0 & a0 & Hl0). unfold evict_any.
  rewrite sassert_run by (apply Z.ltb_lt; lia). step_with (get_slab_run i sm s (so_slab _ _ _ _ Hok)).
  pose proof (io_area _ _ _ _ _ _ _ (so_items _ _ _ _ Hok) a0 l0 Hl0) as Ha0.
  assert (exists s1 sm1, (if TAIR_MAX_AREA_COUNT <=? evict_index sm then update_slab i (set_evict_index (fun _ => 0))
      else sret tt) s = Ret (tt, s1) /\ slab_step i s s1 sm v sm1 v /\ m_items s1 = m_items s
      /\ evict_index sm1 < TAIR_MAX_AREA_COUNT) as (s1 & sm1 & E1 & H1 & Hi1 & Hx1).
  { destruct (Z.leb_spec TAIR_MAX_AREA_COUNT (evict_index sm)).
    - eexists _, _. split; [apply (update_slab_run i _ sm), Hok|].
      split; [apply tables_step; [done|done|by apply set_evict_index_tables]|done].
    - exists s, sm. split; [done|]. split; [|done]. rewrite <- (with_lists_same v) at 2.
      apply slab_step_still; try done; [by rewrite with_lists_same|]. symmetry. apply list_insert_id, Hok. }
  step_with E1. pose proof (ss_ok _ _ _ _ _ _ _ H1) as Hok1. pose proof (sh_evict _ _ (so_shape _ _ _ _ Hok1)).
  destruct (find_any_spec (S (Z.to_nat TAIR_MAX_AREA_COUNT)) i s1 sm1 v
              (Z.to_nat ((a0 - evict_index sm1) mod TAIR_MAX_AREA_COUNT)) Hok1
              (ps_owns _ _ _ _ (ss_pool _ _ _ _ _ _ _ H1)) Hx1) as (s2 & sm2 & l & a & E2 & Hl & H2 & Hi2).
  { pose proof (Z.mod_pos_bound (a0 - evict_index sm1) TAIR_MAX_AREA_COUNT ltac:(done)).
    rewrite Z2Nat.id, Z.add_mod_idemp_r by (done || lia).
    replace (evict_index sm1 + (a0 - evict_index sm1)) with a0 by lia. rewrite Z.mod_small by done.
    intros E. rewrite E in Hl0. by apply elem_of_nil in Hl0. }
  { pose proof (Z.mod_pos_bound (a0 - evict_index sm1) TAIR_MAX_AREA_COUNT ltac:(done)). lia. }
  step_with E2. pose proof (ss_ok _ _ _ _ _ _ _ H2) as Hok2.
  assert (m_items s2 = m_items s) as His by congruence.
  pose proof (io_lists _ _ _ _ _ _ _ (so_items _ _ _ _ Hok2)) as Hl2.
  destruct (dll_ids _ _ _ _ _ (sl_dll _ _ _ _ Hl2 a) l Hl) as (it & Eit & Hid).
  assert (ITEM_AREA it = a) as Eia by (apply (Har a l it Hl); by rewrite <- His).
  pose proof (io_area _ _ _ _ _ _ _ (so_items _ _ _ _ Hok2) a l Hl) as Haa.
  step_with (get_item_run l it s2 Eit). step_with (eq_refl : sget s2 = Ret (s2, s2)).
  set (type := if is_expired _ it then _ else _).
  step_with (update_item_field_run l (set_item_id CLEAR_FLAGS) it s2 Eit). set (s3 := set_m_items _ s2).
  destruct (slab_update_item_spec i l area s3 (set_item_id CLEAR_FLAGS it) sm2 (sv_lists v))
    as (s4 & sm4 & E4 & Hsame & Hl4 & Hout4); try done.
  - apply lookup_insert_eq.
  - by apply names_clear.
  - by apply Hok2.
  - change (ITEM_AREA (set_item_id CLEAR_FLAGS it)) with (ITEM_AREA it). lia.
  - lia.
  - by apply slab_lists_clear.
  - change (ITEM_AREA (set_item_id CLEAR_FLAGS it)) with (ITEM_AREA it). by rewrite Eia.
  - step_with E4. exists l, type, a, s4, sm4. split; [done|].
    split; [|unfold type; destruct (is_expired _ it); auto].
    eapply evicted_after; [exact H1|exact Hi1|]. eapply evicted_after; [exact H2|congruence|].
    change (ITEM_AREA (set_item_id CLEAR_FLAGS it)) with (ITEM_AREA it) in Hl4. rewrite Eia in Hl4.
    eapply evicted_take; try done. apply (ss_pool _ _ _ _ _ _ _ H2).
Qed.

(** ** alloc_item *)

(** What [alloc_item] gives: a free item, or one evicted from some area. *)
Inductive allocated (i : Z) (s s' : mdb) (sm : slab_manager) (v : slab_view) (sm' : slab_manager)
    (l : loc) (area : Z) : Z -> Prop :=
| allocated_new v' it :
    slab_step i s s' sm v sm' v' -> sv_lists v' = listed l area (sv_lists v) ->
    (forall a, l ∉ sv_lists v a) -> core_kept (slot sm (sv_where v)) s s' ->
    m_items s' !! l = Some it -> item_id it = cid i l ->
    allocated i s s' sm v sm' l area ALLOC_NEW
| allocated_evicted a type :
    evicted i s s' sm v sm' l a area ->
    type = ALLOC_EXPIRED \/ type = ALLOC_EVICT_SELF \/ type = ALLOC_EVICT_ANY ->
    allocated i s s' sm v sm' l area type.

(** Updating the counters of items. *)
Definition counts_items (f : slab_manager -> slab_manager) : Prop := forall sm, same_tables sm (f sm).

Lemma same_tables_counts sm sm' :
  slab_id sm' = slab_id sm -> slab_size sm' = slab_size sm -> per_slab sm' = per_slab sm ->
  evict_index sm' = evict_index sm -> this_item_list sm' = this_item_list sm ->
  (slab_free_pages sm', full_pages sm', partial_pages sm') = (slab_free_pages sm, full_pages sm, partial_pages sm) ->
  free_pages_no sm' = free_pages_no sm -> full_pages_no sm' = full_pages_no sm ->
  partial_pages_no sm' = partial_pages_no sm -> same_tables sm sm'.
Proof.
  intros E1 E2 E3 E4 E5 [= F1 F2 F3] G1 G2 G3. constructor; [|done| |done].
  - repeat split; try done. by rewrite E4.
  - intros []; simpl; by rewrite ?F1, ?F2, ?F3.
Qed.

Lemma allocated_counts i s s' sm v sm' l area type f :
  counts_items f -> allocated i s s' sm v sm' l area type ->
  exists s'', update_slab i f s' = Ret (tt, s'') /\ allocated i s s'' sm v (f sm') l area type
    /\ m_items s'' = m_items s'.
Proof.
  intros Hf Hal. eexists. assert (exists v', slab_step i s s' sm v sm' v') as (v' & Hst)
    by (destruct Hal as [v' it H|a type H _]; [by exists v'|eexists; apply H]).
  split; [apply (update_slab_run i f sm'), (ss_ok _ _ _ _ _ _ _ Hst)|]. split; [|done].
  assert (forall w, slab_step i s s' sm v sm' w -> slab_step i s (set_m_slabs <[Z.to_nat i := f sm']> s') sm v (f sm') w) as H2.
  { intros w [W1 W2 W3 W4]. eapply slab_step_trans; [|by constructor|apply tables_step; [done|apply W4|apply Hf]]. done. }
  destruct Hal as [v2 it H|a type [] ?].
  - apply (allocated_new _ _ _ _ _ _ _ _ v2 it); [by apply H2|done..].
  - apply (allocated_evicted _ _ _ _ _ _ _ _ a); [|done]. constructor; [by apply H2|done..].
Qed.

Ltac tables := intros ?; apply same_tables_counts; done.

Lemma is_quota_exceed_run area s :
  0 <= area < TAIR_MAX_AREA_COUNT -> exists b, is_quota_exceed area s = Ret (b, s).
Proof.
  intros Ha. unfold is_quota_exceed, get_stat, sassert, sbind.
  destruct (Z.leb_spec 0 area), (Z.ltb_spec area TAIR_MAX_AREA_COUNT); try lia. cbn. by eexists.
Qed.

Section alloc_item.
Context (i area : Z) (s : mdb) (sm : slab_manager) (v : slab_view).
Hypothesis Hok : slab_ok s i sm v.
Hypothesis Hown : owns s (sv_where v).
Hypothesis Ha : 0 <= area < TAIR_MAX_AREA_COUNT.
Hypothesis Har : areas_ok (m_items s) (sv_lists v).

(** [m] gives an item of the slab. *)
Definition gives_item (m : mdbM (loc * Z)) : Prop :=
  exists l type s' sm', m s = Ret ((l, type), s') /\ allocated i s s' sm v sm' l area type.

(** Counting evictions. *)
Lemma count_evictions s1 sm1 l type a (b : bool) :
  allocated i s s1 sm v sm1 l area type ->
  exists s2 sm2, (if b then
      let* _ := update_slab i (set_evict_total_count (fun x => u64 (x + 1))) in
      update_slab i (set_evict_count (count_at (fun x => x + 1) a)) else sret tt) s1 = Ret (tt, s2)
    /\ allocated i s s2 sm v sm2 l area type.
Proof.
  intros H1. destruct b; [|by exists s1, sm1].
  eapply (allocated_counts _ _ _ _ _ _ _ _ _ (set_evict_total_count (fun x => u64 (x + 1)))) in H1
    as (s2 & E2 & H2 & _); [|tables]. step_with E2.
  eapply (allocated_counts _ _ _ _ _ _ _ _ _ (set_evict_count (count_at (fun x => x + 1) a))) in H2
    as (s3 & E3 & H3 & _); [|tables]. by eexists _, _.
Qed.

Lemma alloc_any_gives :
  (exists l, in_use v l) ->
  gives_item (let* (l, type) := evict_any i area in
    let* it := get_item l in
    let* _ :=
      (if type =? ALLOC_EVICT_ANY then
         let* _ := update_slab i (set_evict_total_count (fun x => u64 (x + 1))) in
         update_slab i (set_evict_count (count_at (fun x => x + 1) (ITEM_AREA it)))
       else sret tt) in
    let* _ := update_slab i (set_item_count (count_at (fun x => x - 1) (ITEM_AREA it))) in
    let* _ := update_slab i (set_item_count (count_at (fun x => x + 1) area)) in
    sret (l, type)).
Proof.
  intros Hu. destruct (evict_any_ok i area s sm v Hok Hown Ha Har Hu) as (l & type & a & s1 & sm1 & E1 & Hev & Ht).
  unfold gives_item. step_with E1. destruct (ev_item _ _ _ _ _ _ _ _ _ Hev) as (_ & it & _ & Eit & _).
  step_with (get_item_run l it s1 Eit).
  assert (allocated i s s1 sm v sm1 l area type) as H1 by (apply (allocated_evicted _ _ _ _ _ _ _ _ a); [done|tauto]).
  destruct (count_evictions s1 sm1 l type (ITEM_AREA it) (type =? ALLOC_EVICT_ANY) H1) as (s2 & sm2 & E2 & H2).
  step_with E2.
  eapply (allocated_counts _ _ _ _ _ _ _ _ _ (set_item_count (count_at (fun x => x - 1) (ITEM_AREA it)))) in H2
    as (s3 & E3 & H3 & _); [|tables]. step_with E3.
  eapply (allocated_counts _ _ _ _ _ _ _ _ _ (set_item_count (count_at (fun x => x + 1) area))) in H3
    as (s4 & E4 & H4 & _); [|tables]. step_with E4. by eexists _, _, _, _.
Qed.

(** A new item, else [otherwise], which is only tried when every page is full. *)
Lemma alloc_new_gives otherwise :
  ((exists l, in_use v l) -> gives_item otherwise) ->
  gives_item (let* r := alloc_new_item i area in
    match r with
    | Some l =>
        let* _ := update_slab i (set_item_count (count_at (fun x => x + 1) area)) in
        sret (l, ALLOC_NEW)
    | None => otherwise
    end).
Proof.
  intros Hother. unfold gives_item.
  destruct (alloc_new_item_spec s i sm v area Hok Hown Ha)
    as [[E Hfull]|(l & s1 & sm1 & v1 & E & Hst & Hl & Hnew & Hc & it & Eit & Hid)]; step_with E.
  - apply Hother. eapply full_slab_in_use; [exact Hok|apply Hown|done].
  - assert (allocated i s s1 sm v sm1 l area ALLOC_NEW) as H1 by (by apply (allocated_new _ _ _ _ _ _ _ _ v1 it)).
    eapply (allocated_counts _ _ _ _ _ _ _ _ _ (set_item_count (count_at (fun x => x + 1) area))) in H1
      as (s2 & E2 & H2 & _); [|tables]. step_with E2. by eexists _, _, _, _.
Qed.

(** One of the area's own items, else [otherwise]. *)
Lemma alloc_own_gives exceed otherwise :
  gives_item otherwise ->
  gives_item (let* r := evict_self i area in
    match r with
    | Some (l, type) =>
        let* _ :=
          (if (type =? ALLOC_EVICT_SELF) && negb exceed then
             let* _ := update_slab i (set_evict_total_count (fun x => u64 (x + 1))) in
             update_slab i (set_evict_count (count_at (fun x => x + 1) area))
           else sret tt) in
        sret (l, type)
    | None => otherwise
    end).
Proof.
  intros Hother. unfold gives_item.
  destruct (evict_self_ok i area s sm v Hok Hown Ha Har) as [[E _]|(l & type & s1 & sm1 & E & Hev & Ht)];
    step_with E; [done|].
  assert (allocated i s s1 sm v sm1 l area type) as H1
    by (apply (allocated_evicted _ _ _ _ _ _ _ _ area); [done|tauto]).
  destruct (count_evictions s1 sm1 l type area ((type =? ALLOC_EVICT_SELF) && negb exceed) H1) as (s2 & sm2 & E2 & H2).
  step_with E2. by eexists _, _, _, _.
Qed.

(** [alloc_item] always gives an item of the slab. *)
Lemma slab_alloc_item_ok : gives_item (slab_alloc_item i area).
Proof.
  unfold gives_item. rewrite alloc_item_structured_eq. unfold alloc_item_structured.
  rewrite sassert_run by (apply Z.ltb_lt; lia).
  destruct (is_quota_exceed_run area s Ha) as ([] & Eq); step_with Eq.
  - apply alloc_own_gives, alloc_new_gives, alloc_any_gives.
  - apply alloc_new_gives. intros Hu. by apply alloc_own_gives, alloc_any_gives.
Qed.
End alloc_item.
