(* ===== verification/CacheHashMap.v ===== *)
(** * cache_hash_map (storage/mdb/cache_hashmap.cpp, cache_hashmap.hpp)

    The hash table of the memory engine: buckets of items chained by [h_next].
    It implements a finite map from keys (area and key bytes) to items.  The
    walk along a chain has no bound in the code; its model has one turn more
    than there are items, which is enough for every chain without a cycle. *)

From S2P Require Import Prelude Util Dll MemPool MdbItem MemCache SlabLists.

(** ** Operations *)

Definition get_bucket_index (h : hash_map) (key : list Z) : Z :=
  Z.land (cache_hash_map_hash key) (bucket_size h - 1).

(** [memcmp(key, ITEM_KEY(prev), key_len) == 0] with equal key lengths *)
Definition key_matches (key : list Z) (it : mdb_item) : bool :=
  (key_len it =? Z.of_nat (length key)) && bool_decide (take (length key) (data it) = key).

(** [__find(head, key, key_len, pprev)]: the item found and the one before it *)
Fixpoint find_in_chain (fuel : nat) (pos : Z) (key : list Z) (pprev : option loc)
  : mdbM (option loc * option loc) :=
  match fuel with
  | O => slift Diverge
  | S fuel' =>
      if pos =? 0 then sret (None, pprev)
      else
        let* l := id_to_item pos in
        let* it := get_item l in
        if key_matches key it then sret (Some l, pprev)
        else find_in_chain fuel' (h_next it) key (Some l)
  end.
Definition __find (head : Z) (key : list Z) : mdbM (option loc * option loc) :=
  let* s := sget in find_in_chain (S (size (m_items s))) head key None.

Definition read_bucket (idx : Z) : mdbM Z := fun s =>
  if (0 <=? idx) && (idx <? bucket_size (m_hash s))
  then Ret (area_get 0 (hashtable (m_hash s)) idx, s) else Overrun.
Definition write_bucket (idx v : Z) : mdbM unit := fun s =>
  if (0 <=? idx) && (idx <? bucket_size (m_hash s))
  then Ret (tt, set_m_hash (fun h => mk_hash_map (bucket_size h) (hash_item_count h)
                                       (<[idx := v]> (hashtable h))) s)
  else Overrun.
Definition add_hash_count (d : Z) : mdbM unit :=
  smodify (set_m_hash (fun h => mk_hash_map (bucket_size h) (hash_item_count h + d) (hashtable h))).

(** [insert(item)] *)
Definition hash_insert (l : loc) : mdbM unit :=
  let* it := get_item l in
  let* s := sget in
  let idx := get_bucket_index (m_hash s) (ITEM_KEY it) in
  let* head := read_bucket idx in
  let* _ := update_item_field l (set_h_next (fun _ => head)) in
  let* _ := write_bucket idx (item_id it) in
  add_hash_count 1.

(** [remove(item)] *)
Definition hash_remove (l : loc) : mdbM bool :=
  let* it := get_item l in
  let* s := sget in
  let idx := get_bucket_index (m_hash s) (ITEM_KEY it) in
  let* pos := read_bucket idx in
  let* (found, pprev) := __find pos (ITEM_KEY it) in
  match found with
  | None => sret false
  | Some f =>
      let* _ := add_hash_count (-1) in
      let* fit := get_item f in
      let* _ := match pprev with
                | Some p => update_item_field p (set_h_next (fun _ => h_next fit))
                | None => write_bucket idx (h_next fit)
                end in
      let* _ := update_item_field f (set_h_next (fun _ => 0)) in
      sret true
  end.

(** [find(key, key_len)] *)
Definition hash_find (key : list Z) : mdbM (option loc) :=
  need* negb (Z.of_nat (length key) =? 0) in
  let* s := sget in
  let* pos := read_bucket (get_bucket_index (m_hash s) key) in
  let* (found, _) := __find pos key in
  sret found.

(** ** Chains *)

Fixpoint hchain (items : gmap loc mdb_item) (head : Z) (ls : list loc) : Prop :=
  match ls with
  | [] => head = 0
  | l :: ls' => head <> 0 /\ loc_of head = l
                /\ exists it, items !! l = Some it /\ hchain items (h_next it) ls'
  end.

(** A chain only depends on the [h_next] fields of its items. *)
Lemma hchain_frame items items' head ls :
  (forall l it, l ∈ ls -> items !! l = Some it ->
     exists it', items' !! l = Some it' /\ h_next it' = h_next it) ->
  hchain items head ls -> hchain items' head ls.
Proof.
  revert head. induction ls as [|l ls IH]; intros head Hf; [done|].
  intros (Hne & Hl & it & Eit & Hc). split; [done|]. split; [done|].
  destruct (Hf l it) as (it' & E' & Hh); [by left|done|].
  exists it'. split; [done|]. rewrite Hh. apply IH; [|done].
  intros z itz Hz. apply Hf. by right.
Qed.

Lemma hchain_lookup items head ls l : hchain items head ls -> l ∈ ls -> is_Some (items !! l).
Proof.
  revert head. induction ls as [|z ls IH]; intros head; [by intros _ ?%elem_of_nil|].
  intros (_ & _ & it & Eit & Hc) [->|Hl]%elem_of_cons; [by eexists|]. by eapply IH.
Qed.

(** The number of different items in the store bounds a chain. *)
Lemma chain_length items (ls : list loc) :
  NoDup ls -> (forall l, l ∈ ls -> is_Some (items !! l)) ->
  (length ls <= size (items : gmap loc mdb_item))%nat.
Proof.
  intros Hn Hin. rewrite <- size_dom, <- (size_list_to_set (C := gset loc) ls Hn).
  apply subseteq_size. intros l Hl%elem_of_list_to_set. apply elem_of_dom. by apply Hin.
Qed.

(** What the walk finds: the first item with the key, and the one before it. *)
Fixpoint scan (items : gmap loc mdb_item) (key : list Z) (pprev : option loc) (ls : list loc)
  : option loc * option loc :=
  match ls with
  | [] => (None, pprev)
  | l :: ls' =>
      match items !! l with
      | Some it => if key_matches key it then (Some l, pprev) else scan items key (Some l) ls'
      | None => (None, pprev)
      end
  end.

Lemma find_in_chain_spec fuel pos key pprev s ls :
  hchain (m_items s) pos ls -> (length ls < fuel)%nat ->
  find_in_chain fuel pos key pprev s = Ret (scan (m_items s) key pprev ls, s).
Proof.
  revert fuel pos pprev. induction ls as [|l ls IH]; intros [|fuel] pos pprev Hc Hf; try (simpl in Hf; lia).
  - simpl in Hc. by subst pos.
  - destruct Hc as (Hne & Hl & it & Eit & Hc). cbn [find_in_chain scan].
    destruct (Z.eqb_spec pos 0); [done|]. step_with (id_to_item_run pos s Hne). rewrite Hl.
    step_with (get_item_run _ _ _ Eit). rewrite Eit. destruct (key_matches key it); [done|].
    apply IH; [done|simpl in Hf; lia].
Qed.

Lemma __find_spec pos key s ls :
  hchain (m_items s) pos ls -> NoDup ls ->
  __find pos key s = Ret (scan (m_items s) key None ls, s).
Proof.
  intros Hc Hn. unfold __find. step_with (eq_refl : sget s = Ret (s, s)).
  apply find_in_chain_spec; [done|].
  pose proof (chain_length (m_items s) ls Hn ltac:(intros; by eapply hchain_lookup)). lia.
Qed.

(** ** The map a hash table stands for *)

(** The key of an item fits its bytes. *)
Definition item_key_ok (it : mdb_item) : Prop := Z.of_nat (length (ITEM_KEY it)) = key_len it.

Lemma key_matches_spec key it : item_key_ok it -> key_matches key it = bool_decide (ITEM_KEY it = key).
Proof.
  intros Hk. unfold item_key_ok in Hk. apply eq_true_iff_eq. unfold key_matches.
  rewrite andb_true_iff, Z.eqb_eq, !bool_decide_eq_true. unfold ITEM_KEY in *.
  split.
  - intros [E1 E2]. rewrite E1, Nat2Z.id. done.
  - intros E. rewrite E in Hk. split; [done|]. rewrite <- E at 2. f_equal. lia.
Qed.

Section rep.
Context (s : mdb) (m : gmap (list Z) loc) (chains : Z -> list loc).

Abbreviation bucket := (get_bucket_index (m_hash s)).
Abbreviation head_of b := (area_get 0 (hashtable (m_hash s)) b).

(** [hash_rep]: the table of [s] stands for [m], with bucket [b] holding the
    items [chains b]. *)
Record hash_rep : Prop := {
  hr_size : 0 < bucket_size (m_hash s);
  hr_chain : forall b, 0 <= b < bucket_size (m_hash s) -> hchain (m_items s) (head_of b) (chains b);
  hr_nodup : forall b, NoDup (chains b);
  hr_item : forall b l, l ∈ chains b -> exists it, m_items s !! l = Some it /\ item_key_ok it
              /\ bucket (ITEM_KEY it) = b /\ m !! ITEM_KEY it = Some l;
  hr_map : forall k l, m !! k = Some l -> exists it, m_items s !! l = Some it
              /\ ITEM_KEY it = k /\ l ∈ chains (bucket k);
  hr_count : hash_item_count (m_hash s) = Z.of_nat (size m)
}.

Hypothesis Hrep : hash_rep.

Lemma bucket_range key : 0 <= bucket key < bucket_size (m_hash s).
Proof.
  unfold get_bucket_index. pose proof (hr_size Hrep).
  assert (0 <= Z.land (cache_hash_map_hash key) (bucket_size (m_hash s) - 1)) as H1
    by (apply Z.land_nonneg; lia).
  split; [done|].
  assert (forall a b, 0 <= b -> 0 <= Z.land a b -> Z.land a b <= b) as Hle; [|specialize
    (Hle (cache_hash_map_hash key) (bucket_size (m_hash s) - 1)); lia].
  intros a b Hb Hab. apply Z.ldiff_le; [done|]. apply Z.bits_inj'. intros n Hn.
  rewrite Z.ldiff_spec, Z.land_spec, Z.bits_0. destruct (Z.testbit a n), (Z.testbit b n); done.
Qed.

Lemma read_bucket_run key : read_bucket (bucket key) s = Ret (head_of (bucket key), s).
Proof.
  unfold read_bucket. pose proof (bucket_range key).
  destruct (Z.leb_spec 0 (bucket key)), (Z.ltb_spec (bucket key) (bucket_size (m_hash s))); try lia. done.
Qed.

Lemma write_bucket_run key v :
  write_bucket (bucket key) v s =
  Ret (tt, set_m_hash (fun h => mk_hash_map (bucket_size h) (hash_item_count h)
                                  (<[bucket key := v]> (hashtable h))) s).
Proof.
  unfold write_bucket. pose proof (bucket_range key).
  destruct (Z.leb_spec 0 (bucket key)), (Z.ltb_spec (bucket key) (bucket_size (m_hash s))); try lia. done.
Qed.

(** Items of a chain have different keys. *)
Lemma chain_same_key b l1 l2 it1 it2 :
  l1 ∈ chains b -> l2 ∈ chains b -> m_items s !! l1 = Some it1 -> m_items s !! l2 = Some it2 ->
  ITEM_KEY it1 = ITEM_KEY it2 -> l1 = l2.
Proof.
  intros H1 H2 E1 E2 Ek. destruct (hr_item Hrep b l1 H1) as (i1 & F1 & _ & _ & M1).
  destruct (hr_item Hrep b l2 H2) as (i2 & F2 & _ & _ & M2). congruence.
Qed.

(** Walking the part [ls] of a chain. *)
Lemma scan_spec key p ls :
  (forall l, l ∈ ls -> l ∈ chains (bucket key)) ->
  match m !! key with
  | Some l => forall ls1 ls2, ls = ls1 ++ l :: ls2 -> NoDup ls ->
                scan (m_items s) key p ls = (Some l, final p ls1)
  | None => (scan (m_items s) key p ls).1 = None
  end.
Proof.
  intros Hin. destruct (m !! key) as [l|] eqn:Em.
  - destruct (hr_map Hrep key l Em) as (it & Eit & Ek & _).
    intros ls1. revert p ls Hin. induction ls1 as [|z ls1 IH]; intros p ls Hin ls2 -> Hn; simpl.
    + destruct (hr_item Hrep _ l (Hin l (elem_of_mid l [] ls2))) as (it' & E' & Hok & _).
      rewrite Eit in E' |- *. injection E' as <-. rewrite key_matches_spec by done.
      by rewrite bool_decide_true.
    + assert (z ∈ chains (bucket key)) as Hz by (apply Hin; by left).
      destruct (hr_item Hrep _ z Hz) as (itz & Ez & Hok & Hb & Hmz). rewrite Ez.
      rewrite key_matches_spec by done. apply list.NoDup_cons in Hn as [Hzn Hn].
      rewrite bool_decide_false.
      * eapply IH; [|done|done]. intros y Hy. apply Hin. by right.
      * intros E. rewrite E, Em in Hmz. injection Hmz as ->. apply Hzn, elem_of_mid.
  - revert p. induction ls as [|z ls IH]; intros p; [done|]. simpl.
    destruct (hr_item Hrep _ z (Hin z ltac:(by left))) as (itz & Ez & Hok & Hb & Hmz).
    rewrite Ez, key_matches_spec by done. rewrite bool_decide_false by congruence.
    apply IH. intros y Hy. apply Hin. by right.
Qed.

Lemma find_key key :
  __find (head_of (bucket key)) key s = Ret (scan (m_items s) key None (chains (bucket key)), s).
Proof. apply __find_spec; [apply (hr_chain Hrep), bucket_range|apply Hrep]. Qed.

Lemma hash_find_spec key :
  key <> [] -> hash_find key s = Ret (m !! key, s).
Proof.
  intros Hk. unfold hash_find.
  rewrite sassert_run by (apply negb_true_iff, Z.eqb_neq; destruct key; simpl; [done|lia]).
  step_with (eq_refl : sget s = Ret (s, s)). step_with (read_bucket_run key).
  step_with (find_key key). pose proof (scan_spec key None (chains (bucket key)) ltac:(done)) as Hs.
  destruct (m !! key) as [l|] eqn:Em.
  - destruct (hr_map Hrep key l Em) as (it & _ & _ & Hl).
    destruct (list_elem_of_split _ _ Hl) as (ls1 & ls2 & E). rewrite (Hs ls1 ls2 E (hr_nodup Hrep _)). done.
  - destruct (scan _ _ _ _) as [f p]. simpl in Hs. by subst f.
Qed.
End rep.

(** ** insert and remove *)

(** Everything but the chain link. *)
Definition hcore (it : mdb_item) : mdb_item := set_h_next (fun _ => 0) it.

(** What an operation on the table changes: the table and chain links. *)
Definition same_but_chains (s s' : mdb) : Prop :=
  hcore <$> m_items s' = hcore <$> m_items s
  /\ m_pool s' = m_pool s /\ m_pages s' = m_pages s /\ m_slabs s' = m_slabs s
  /\ m_stat s' = m_stat s /\ m_now s' = m_now s
  /\ bucket_size (m_hash s') = bucket_size (m_hash s).

Lemma same_but_chains_bucket s s' key :
  same_but_chains s s' -> get_bucket_index (m_hash s') key = get_bucket_index (m_hash s) key.
Proof. intros (_ & _ & _ & _ & _ & _ & E). unfold get_bucket_index. by rewrite E. Qed.

Lemma hcore_lookup items items' l it :
  hcore <$> items' = hcore <$> (items : gmap loc mdb_item) -> items !! l = Some it ->
  exists it', items' !! l = Some it' /\ hcore it' = hcore it.
Proof.
  intros Hc Hl. assert ((hcore <$> items') !! l = Some (hcore it)) as H
    by (rewrite Hc, lookup_fmap, Hl; done).
  rewrite lookup_fmap in H. destruct (items' !! l) as [it'|]; [|done].
  exists it'. split; [done|]. by apply (inj Some).
Qed.

Lemma hcore_key it it' :
  hcore it' = hcore it -> ITEM_KEY it' = ITEM_KEY it /\ key_len it' = key_len it
                          /\ item_id it' = item_id it.
Proof.
  intros H. unfold ITEM_KEY. pose proof (f_equal key_len H) as H1. pose proof (f_equal data H) as H2.
  pose proof (f_equal item_id H) as H3. simpl in *. by rewrite H1, H2.
Qed.

Lemma hcore_insert items l it v :
  items !! l = Some it -> hcore <$> <[l := set_h_next (fun _ => v) it]> items
                          = hcore <$> (items : gmap loc mdb_item).
Proof. intros H. rewrite fmap_insert. change (hcore (set_h_next _ it)) with (hcore it).
  rewrite <- fmap_insert. by rewrite insert_id. Qed.

(** Items that are in the table, seen through a change of chain links. *)
Lemma hr_item_same (s s' : mdb) b l it :
  same_but_chains s s' -> m_items s !! l = Some it -> item_key_ok it ->
  get_bucket_index (m_hash s) (ITEM_KEY it) = b ->
  forall m' : gmap (list Z) loc, m' !! ITEM_KEY it = Some l ->
  exists it', m_items s' !! l = Some it' /\ item_key_ok it'
    /\ get_bucket_index (m_hash s') (ITEM_KEY it') = b /\ m' !! ITEM_KEY it' = Some l.
Proof.
  intros Hs Eit Hok Hb m' Hm'. pose proof Hs as [Hc _].
  destruct (hcore_lookup _ _ _ _ Hc Eit) as (it' & E' & Hcc).
  destruct (hcore_key _ _ Hcc) as (Ek & El & _). exists it'. split; [done|].
  unfold item_key_ok. rewrite Ek, El. split; [done|].
  split; [|done]. by rewrite (same_but_chains_bucket s s').
Qed.

Lemma hr_map_same (s s' : mdb) (m : gmap (list Z) loc) chains k l :
  same_but_chains s s' -> hash_rep s m chains -> m !! k = Some l ->
  exists it', m_items s' !! l = Some it' /\ ITEM_KEY it' = k
    /\ l ∈ chains (get_bucket_index (m_hash s') k).
Proof.
  intros Hs Hrep Hm. destruct (hr_map _ _ _ Hrep k l Hm) as (it & Eit & Ek & Hl). pose proof Hs as [Hc _].
  destruct (hcore_lookup _ _ _ _ Hc Eit) as (it' & E' & Hcc).
  destruct (hcore_key _ _ Hcc) as (Ek' & _). exists it'. split; [done|].
  rewrite Ek', (same_but_chains_bucket s s') by done. done.
Qed.

Lemma hash_insert_spec s m chains l it :
  hash_rep s m chains -> m_items s !! l = Some it -> item_key_ok it ->
  item_id it <> 0 -> loc_of (item_id it) = l -> m !! ITEM_KEY it = None ->
  exists s' chains', hash_insert l s = Ret (tt, s') /\ same_but_chains s s'
    /\ hash_rep s' (<[ITEM_KEY it := l]> m) chains'
    /\ forall z, z <> l -> m_items s' !! z = m_items s !! z.
Proof.
  intros Hrep Eit Hok Hid Hloc Hnew. set (k := ITEM_KEY it) in *.
  set (b := get_bucket_index (m_hash s) k).
  set (head := area_get 0 (hashtable (m_hash s)) b).
  assert (forall c, l ∉ chains c) as Hl.
  { intros c Hc. destruct (hr_item _ _ _ Hrep c l Hc) as (it' & E' & _ & _ & Hm).
    rewrite Eit in E'. injection E' as <-. fold k in Hm. congruence. }
  set (items' := <[l := set_h_next (fun _ => head) it]> (m_items s)).
  set (s' := mk_mdb (m_pool s) (m_pages s) items' (m_slabs s)
    (mk_hash_map (bucket_size (m_hash s)) (hash_item_count (m_hash s) + 1)
       (<[b := item_id it]> (hashtable (m_hash s)))) (m_stat s) (m_now s)).
  assert (hash_insert l s = Ret (tt, s')) as E.
  { unfold hash_insert. step_with (get_item_run _ _ _ Eit). step_with (eq_refl : sget s = Ret (s, s)).
    step_with (read_bucket_run _ _ _ Hrep k).
    step_with (update_item_field_run l (set_h_next (fun _ => head)) it s Eit).
    set (s1 := set_m_items _ s). assert (write_bucket b (item_id it) s1 = Ret (tt,
      set_m_hash (fun h => mk_hash_map (bucket_size h) (hash_item_count h)
                             (<[b := item_id it]> (hashtable h))) s1)) as Ew.
    { pose proof (write_bucket_run _ _ _ Hrep k (item_id it)) as Hw. unfold write_bucket in *.
      change (m_hash s1) with (m_hash s). fold b in Hw.
      destruct ((0 <=? b) && (b <? bucket_size (m_hash s))); [done|discriminate]. }
    step_with Ew. done. }
  assert (same_but_chains s s') as Hsame by (split; [by apply hcore_insert|done]).
  exists s', (<[b := l :: chains b]> chains). split; [done|]. split; [done|]. split.
  2: { intros z Hz. by apply lookup_insert_ne. }
  constructor; cbn [m_hash m_items s' bucket_size hash_item_count hashtable].
  - apply Hrep.
  - intros c Hc. unfold area_get. destruct (decide (b = c)) as [<-|D].
    + rewrite lookup_insert_eq, fn_lookup_insert. split; [done|]. split; [done|].
      eexists. split; [apply lookup_insert_eq|]. eapply hchain_frame; [|by apply Hrep].
      intros z itz Hz Ez. exists itz. split; [|done]. unfold items'. rewrite lookup_insert_ne; [done|].
      intros ->. by apply (Hl b).
    + rewrite lookup_insert_ne, fn_lookup_insert_ne by done. eapply hchain_frame; [|by apply Hrep].
      intros z itz Hz Ez. exists itz. split; [|done]. unfold items'. rewrite lookup_insert_ne; [done|].
      intros ->. by apply (Hl c).
  - intros c. destruct (decide (b = c)) as [<-|D];
      rewrite ?fn_lookup_insert, ?fn_lookup_insert_ne by done; [|apply Hrep].
    apply list.NoDup_cons. split; [done|apply Hrep].
  - intros c z Hz. assert (z = l /\ c = b \/ z ∈ chains c) as [[-> ->]|Hzc].
    { destruct (decide (b = c)) as [<-|D]; [rewrite fn_lookup_insert in Hz|
        rewrite fn_lookup_insert_ne in Hz by done; auto].
      apply elem_of_cons in Hz as [->|Hz]; auto. }
    + eapply (hr_item_same s s'); [done|exact Eit|done|done|apply lookup_insert_eq].
    + destruct (hr_item _ _ _ Hrep c z Hzc) as (itz & Ez & Hokz & Hbz & Hmz).
      eapply (hr_item_same s s'); [done|exact Ez|done|done|].
      rewrite lookup_insert_ne; [done|]. intros E'. rewrite <- E' in Hmz. by rewrite Hnew in Hmz.
  - intros k' z. destruct (decide (k = k')) as [<-|D].
    + rewrite lookup_insert_eq. intros [= <-]. eexists. split; [apply lookup_insert_eq|].
      split; [done|]. rewrite (same_but_chains_bucket s s') by done. fold b.
      rewrite fn_lookup_insert. by left.
    + rewrite lookup_insert_ne by done. intros Hm.
      destruct (hr_map_same s s' m chains k' z Hsame Hrep Hm) as (it' & E' & Ek' & Hc').
      exists it'. split; [done|]. split; [done|].
      destruct (decide (b = get_bucket_index (m_hash s') k')) as [Eb|Db].
      * rewrite Eb, fn_lookup_insert. by right.
      * by rewrite fn_lookup_insert_ne.
  - rewrite map_size_insert_None, (hr_count _ _ _ Hrep) by done. lia.
Qed.

(** Taking an item out of the middle of a chain. *)
Lemma hchain_bypass items head ls0 p l ls2 itp it :
  NoDup (ls0 ++ p :: l :: ls2) -> items !! p = Some itp -> items !! l = Some it ->
  hchain items head (ls0 ++ p :: l :: ls2) ->
  hchain (<[p := set_h_next (fun _ => h_next it) itp]> items) head (ls0 ++ p :: ls2).
Proof.
  intros Hn Ep El. revert head. induction ls0 as [|z ls0 IH]; intros head; simpl in *.
  - intros (Hne & Hl & itp' & Ep' & (_ & _ & it' & El' & Hc)). split; [done|]. split; [done|].
    eexists. split; [apply lookup_insert_eq|]. rewrite El in El'. injection El' as <-.
    eapply hchain_frame; [|exact Hc]. intros y ity Hy Ey. exists ity. split; [|done].
    rewrite lookup_insert_ne; [done|]. intros ->. apply list.NoDup_cons in Hn as [Hn _].
    apply Hn. by right.
  - apply list.NoDup_cons in Hn as [Hz Hn]. intros (Hne & Hl & itz & Ez & Hc).
    split; [done|]. split; [done|]. exists itz. split; [|by apply IH].
    rewrite lookup_insert_ne; [done|]. intros ->. apply Hz, elem_of_mid.
Qed.

(** What [remove] leaves of chain [b] and of the items. *)
Lemma remove_chain s m chains k l it :
  hash_rep s m chains -> m !! k = Some l -> m_items s !! l = Some it ->
  let b := get_bucket_index (m_hash s) k in
  exists ls1 ls2 table' items1,
    chains b = ls1 ++ l :: ls2
    /\ (scan (m_items s) k None (chains b)) = (Some l, final None ls1)
    /\ (forall s1, m_items s1 = m_items s -> bucket_size (m_hash s1) = bucket_size (m_hash s) ->
        match final None ls1 with
        | Some p => update_item_field p (set_h_next (fun _ => h_next it))
        | None => write_bucket b (h_next it)
        end s1 = Ret (tt, set_m_items (fun _ => items1)
                   (set_m_hash (fun h => mk_hash_map (bucket_size h) (hash_item_count h)
                       (if final None ls1 is None then <[b := h_next it]> (hashtable h)
                        else hashtable h)) s1)))
    /\ table' = (if final None ls1 is None then <[b := h_next it]> (hashtable (m_hash s))
                 else hashtable (m_hash s))
    /\ hchain items1 (area_get 0 table' b) (ls1 ++ ls2)
    /\ items1 !! l = Some it
    /\ hcore <$> items1 = hcore <$> m_items s
    /\ forall z, z ∉ ls1 -> items1 !! z = m_items s !! z.
Proof.
  intros Hrep Hm Eit b. destruct (hr_map _ _ _ Hrep k l Hm) as (it' & _ & _ & Hl). fold b in Hl.
  destruct (list_elem_of_split _ _ Hl) as (ls1 & ls2 & E). pose proof (hr_nodup _ _ _ Hrep b) as Hn.
  pose proof (bucket_range s m chains Hrep k) as Hb. fold b in Hb.
  pose proof (hr_chain _ _ _ Hrep b Hb) as Hc.
  pose proof (scan_spec s m chains Hrep k None (chains b) ltac:(done)) as Hs. rewrite Hm in Hs.
  specialize (Hs ls1 ls2 E Hn). rewrite E in Hn, Hc.
  destruct ls1 as [|p ls0 _] using rev_ind.
  - exists [], ls2, (<[b := h_next it]> (hashtable (m_hash s))), (m_items s).
    split; [done|]. split; [done|]. split.
    { intros s1 Hi1 Hb1. simpl. unfold write_bucket. rewrite Hb1.
      destruct (Z.leb_spec 0 b), (Z.ltb_spec b (bucket_size (m_hash s))); try lia.
      unfold set_m_items. simpl. rewrite <- Hi1. done. }
    split; [done|]. split; [|done]. unfold area_get. rewrite lookup_insert_eq. simpl.
    destruct Hc as (_ & _ & it0 & E0 & Hc). rewrite Eit in E0. by injection E0 as <-.
  - rewrite final_snoc in Hs. rewrite <- app_assoc in Hn, Hc. simpl in Hn, Hc.
    destruct (hchain_lookup _ _ _ p Hc (elem_of_mid p ls0 _)) as [itp Ep].
    assert (p <> l) as Hpl.
    { intros ->. apply list.NoDup_app in Hn as (_ & _ & Hn). apply list.NoDup_cons in Hn as [Hn _].
      apply Hn. by left. }
    exists (ls0 ++ [p]), ls2, (hashtable (m_hash s)), (<[p := set_h_next (fun _ => h_next it) itp]> (m_items s)).
    rewrite final_snoc. split; [done|]. split; [done|]. split.
    { intros s1 Hi1 Hb1. rewrite (update_item_field_run p _ itp) by by rewrite Hi1.
      unfold set_m_items, set_m_hash. simpl. rewrite Hi1. by destruct (m_hash s1). }
    split; [done|]. split; [rewrite <- app_assoc; by eapply hchain_bypass|].
    split; [by rewrite lookup_insert_ne|]. split; [by apply hcore_insert|].
    intros z Hz. rewrite lookup_insert_ne; [done|]. intros ->. apply Hz, elem_of_app. right. by left.
Qed.

Lemma hash_remove_none s m chains l it :
  hash_rep s m chains -> m_items s !! l = Some it -> m !! ITEM_KEY it = None ->
  hash_remove l s = Ret (false, s).
Proof.
  intros Hrep Eit Hm. unfold hash_remove. step_with (get_item_run _ _ _ Eit).
  step_with (eq_refl : sget s = Ret (s, s)). step_with (read_bucket_run _ _ _ Hrep (ITEM_KEY it)).
  step_with (find_key _ _ _ Hrep (ITEM_KEY it)).
  pose proof (scan_spec s m chains Hrep (ITEM_KEY it) None (chains _) ltac:(done)) as Hs.
  rewrite Hm in Hs. destruct (scan _ _ _ _) as [f p]. simpl in Hs. by subst f.
Qed.

Lemma hash_remove_spec s m chains l it :
  hash_rep s m chains -> m_items s !! l = Some it -> m !! ITEM_KEY it = Some l ->
  exists s' chains', hash_remove l s = Ret (true, s') /\ same_but_chains s s'
    /\ hash_rep s' (delete (ITEM_KEY it) m) chains'
    /\ forall z, (forall k, m !! k <> Some z) -> m_items s' !! z = m_items s !! z.
Proof.
  intros Hrep Eit Hm. set (k := ITEM_KEY it) in *. set (b := get_bucket_index (m_hash s) k).
  destruct (remove_chain s m chains k l it Hrep Hm Eit)
    as (ls1 & ls2 & table' & items1 & E & Hscan & Hrun & Et & Hc & El1 & Hcore & Hout). fold b in E, Hscan, Hrun, Et, Hc.
  pose proof (hr_nodup _ _ _ Hrep b) as Hn. rewrite E in Hn.
  apply list.NoDup_app in Hn as (Hn1 & Hd & Hn2). apply list.NoDup_cons in Hn2 as [Hl2 Hn2].
  assert (l ∉ ls1 ++ ls2) as Hl.
  { intros [H|H]%elem_of_app; [|done]. apply (Hd l); [done|by left]. }
  set (items' := <[l := set_h_next (fun _ => 0) it]> items1).
  set (s' := mk_mdb (m_pool s) (m_pages s) items' (m_slabs s)
    (mk_hash_map (bucket_size (m_hash s)) (hash_item_count (m_hash s) + -1) table') (m_stat s) (m_now s)).
  assert (hash_remove l s = Ret (true, s')) as Erun.
  { unfold hash_remove. step_with (get_item_run _ _ _ Eit). step_with (eq_refl : sget s = Ret (s, s)).
    step_with (read_bucket_run _ _ _ Hrep k). fold k. step_with (find_key _ _ _ Hrep k).
    fold b. rewrite Hscan. cbv iota beta.
    step_with (eq_refl : add_hash_count (-1) s = Ret (tt, set_m_hash (fun h =>
      mk_hash_map (bucket_size h) (hash_item_count h + -1) (hashtable h)) s)).
    set (s1 := set_m_hash _ s). step_with (get_item_run l it s1 Eit).
    rewrite (sbind_run _ _ _ _ _ (Hrun s1 eq_refl eq_refl)). cbv beta.
    step_with (update_item_field_run l (set_h_next (fun _ => 0)) it (set_m_items (fun _ => items1)
      (set_m_hash (fun h => mk_hash_map (bucket_size h) (hash_item_count h)
         (if final None ls1 is None then <[b := h_next it]> (hashtable h) else hashtable h)) s1)) El1).
    subst s'. rewrite Et. done. }
  assert (same_but_chains s s') as Hsame.
  { split; [|done]. cbn [m_items s']. unfold items'. by rewrite hcore_insert. }
  exists s', (<[b := ls1 ++ ls2]> chains). split; [done|]. split; [done|].
  apply and_comm. split.
  { intros z Hz. cbn [m_items s']. unfold items'. rewrite lookup_insert_ne by (intros <-; by apply (Hz k)).
    apply Hout. intros Hz1. destruct (hr_item _ _ _ Hrep b z) as (itz & _ & _ & _ & Hmz);
      [rewrite E; apply elem_of_app; by left|]. by apply (Hz (ITEM_KEY itz)). }
  assert (forall c z, z ∈ (<[b := ls1 ++ ls2]> chains) c -> z ∈ chains c /\ z <> l) as Hin.
  { intros c z Hz. destruct (decide (b = c)) as [<-|D].
    - rewrite fn_lookup_insert in Hz. split; [rewrite E; by apply elem_of_around|].
      intros ->. done.
    - rewrite fn_lookup_insert_ne in Hz by done. split; [done|]. intros ->.
      destruct (hr_item _ _ _ Hrep c l Hz) as (it' & E' & _ & Hb & _). rewrite Eit in E'.
      injection E' as <-. by apply D. }
  constructor; cbn [m_hash m_items s' bucket_size hash_item_count hashtable].
  - apply Hrep.
  - intros c Hcr. destruct (decide (b = c)) as [<-|D].
    + rewrite fn_lookup_insert. eapply hchain_frame; [|exact Hc]. intros z itz Hz Ez. exists itz.
      split; [|done]. unfold items'. rewrite lookup_insert_ne; [done|]. intros ->. done.
    + rewrite fn_lookup_insert_ne by done.
      replace (area_get 0 table' c) with (area_get 0 (hashtable (m_hash s)) c).
      2: { unfold area_get. rewrite Et. destruct (final None ls1); [done|]. by rewrite lookup_insert_ne. }
      eapply hchain_frame; [|by apply Hrep]. intros z itz Hz Ez. exists itz. split; [|done].
      destruct (Hin c z) as [_ Hzl]; [by rewrite fn_lookup_insert_ne|].
      unfold items'. rewrite lookup_insert_ne, Hout; [done| |done].
      intros Hz1. destruct (hr_item _ _ _ Hrep c z Hz) as (it1 & E1 & _ & Hb1 & _).
      destruct (hr_item _ _ _ Hrep b z) as (it2 & E2 & _ & Hb2 & _);
        [rewrite E; apply elem_of_app; by left|]. apply D. congruence.
  - intros c. destruct (decide (b = c)) as [<-|D];
      rewrite ?fn_lookup_insert, ?fn_lookup_insert_ne by done; [|apply Hrep].
    apply list.NoDup_app. split; [done|]. split; [|done]. intros z Hz Hz2. apply (Hd z); [done|by right].
  - intros c z Hz. destruct (Hin c z Hz) as [Hzc Hne].
    destruct (hr_item _ _ _ Hrep c z Hzc) as (itz & Ez & Hokz & Hbz & Hmz).
    eapply (hr_item_same s s'); [done|exact Ez|done|done|].
    rewrite lookup_delete_ne; [done|]. intros E'. apply Hne. rewrite <- E', Hm in Hmz. by injection Hmz.
  - intros k' z. rewrite lookup_delete_Some. intros [D Hmz].
    destruct (hr_map_same s s' m chains k' z Hsame Hrep Hmz) as (it' & E' & Ek' & Hc').
    exists it'. split; [done|]. split; [done|].
    match goal with |- _ ∈ _ ?x => change x with (get_bucket_index (m_hash s') k') end.
    destruct (decide (b = get_bucket_index (m_hash s') k')) as [Eb|Db].
    + rewrite <- Eb in Hc' |- *. rewrite fn_lookup_insert. rewrite E in Hc'.
      apply elem_of_app in Hc' as [?|[->|?]%elem_of_cons]; [by apply elem_of_app; left| |by apply elem_of_app; right].
      exfalso. destruct (hr_map _ _ _ Hrep k' l Hmz) as (it2 & E2 & Ek2 & _).
      rewrite Eit in E2. injection E2 as <-. by apply D.
    + by rewrite fn_lookup_insert_ne.
  - rewrite map_size_delete_Some, (hr_count _ _ _ Hrep) by done.
    pose proof (map_size_ne_0_lookup_2 m k ltac:(by exists l)). lia.
Qed.

(** ** The pages of the table

    The constructor takes the pages of the table from the pool one by one and
    then uses the memory from the first one on as an array: it relies on the
    pages being consecutive. *)
Fixpoint alloc_pages (n : nat) (p : mem_pool) : outcome (list Z * mem_pool) :=
  match n with
  | O => Ret ([], p)
  | S n' =>
      let! (r, p) := alloc_page p in
      match r with
      | None => Abort
      | Some (index, _) => let! (rest, p) := alloc_pages n' p in Ret (index :: rest, p)
      end
  end.

(** [1 << bucket_shift], a 32-bit [int]: negative for a shift of 31. *)
Definition hash_bucket_size (bucket_shift : Z) : Z := s32 (Z.shiftl 1 bucket_shift).

(** The bytes of the table, a [size_t], and its pages, an [int] again. *)
Definition hash_memory_bytes (bucket_shift : Z) : Z := u64 (hash_bucket_size bucket_shift * 8).
Definition hash_table_pages (bucket_shift psize : Z) : Z :=
  s32 (u64 (hash_memory_bytes bucket_shift + psize - 1) / psize).

(** [cache_hash_map(pool, bucket_shift)] on shared memory that holds no table:
    the first page, the others, and the table, cleared by a [memset] that has
    to stay inside the pool.  C++ leaves a shift by the width of an [int] or
    more undefined. *)
Definition new_hash_map (bucket_shift : Z) (p : mem_pool) : outcome (list Z * hash_map * mem_pool) :=
  if (0 <=? bucket_shift) && (bucket_shift <? 32) then
    let! (pages, p) := alloc_pages (S (Z.to_nat (hash_table_pages bucket_shift (page_size p) - 1))) p in
    let start_page := hd 0 pages in
    if start_page * page_size p + hash_memory_bytes bucket_shift <=? total_pages p * page_size p
    then Ret (pages, mk_hash_map (hash_bucket_size bucket_shift) 0 ∅, p)
    else Overrun
  else Overrun.

Lemma hash_bucket_size_in_range bucket_shift :
  0 <= bucket_shift < 31 -> hash_bucket_size bucket_shift = 2 ^ bucket_shift /\ 0 < 2 ^ bucket_shift <= 2 ^ 30.
Proof.
  intros Hs. assert (2 ^ bucket_shift <= 2 ^ 30) by (apply Z.pow_le_mono_r; lia).
  assert (0 < 2 ^ bucket_shift) by lia.
  unfold hash_bucket_size. rewrite Z.shiftl_1_l, swrap_id by (unfold in_s; lia). lia.
Qed.

Lemma hash_table_pages_in_range bucket_shift psize :
  0 <= bucket_shift < 31 -> 2 ^ 20 <= psize < 2 ^ 63 ->
  hash_memory_bytes bucket_shift = 2 ^ bucket_shift * 8 /\
  0 < hash_table_pages bucket_shift psize /\ 2 ^ bucket_shift * 8 <= hash_table_pages bucket_shift psize * psize.
Proof.
  intros Hs Hp. destruct (hash_bucket_size_in_range bucket_shift Hs) as [E Hb].
  unfold hash_table_pages, hash_memory_bytes. rewrite E, (wrap_id 64 (2 ^ bucket_shift * 8)) by (unfold in_u; lia).
  rewrite wrap_id by (unfold in_u; lia). set (n := 2 ^ bucket_shift * 8 + psize - 1).
  assert (n / psize < 2 ^ 31) by (apply Z.div_lt_upper_bound; lia).
  assert (0 < n / psize) by (apply Z.div_str_pos; lia).
  rewrite swrap_id by (unfold in_s; lia). pose proof (Z.div_mod n psize). pose proof (Z.mod_pos_bound n psize). lia.
Qed.

(** A pool whose used pages are those below [current_page]. *)
Definition fresh_from (p : mem_pool) : Prop :=
  pool_wf p /\ 0 < current_page p
  /\ forall i, 0 <= i < total_pages p -> used (page_bitmap p) i = (i <? current_page p).

Lemma fresh_free p : fresh_from p -> free_pages p = total_pages p - current_page p.
Proof.
  intros (Hwf & Hpos & Hu). pose proof (wf_total p Hwf). pose proof (wf_current p Hwf). rewrite (wf_free p Hwf).
  rewrite (count_ext _ (fun i => (current_page p <=? i) && (i <? total_pages p))).
  - apply count_range; [lia|lia|]. intros i. rewrite andb_true_iff, Z.leb_le, Z.ltb_lt. lia.
  - intros i Hi. unfold unused. rewrite Hu by lia.
    destruct (Z.ltb_spec i (current_page p)), (Z.leb_spec (current_page p) i),
      (Z.ltb_spec i (total_pages p)); simpl; lia || done.
Qed.

Lemma alloc_page_fresh p :
  fresh_from p -> current_page p < total_pages p ->
  exists p', alloc_page p = Ret (Some (current_page p, pool p + current_page p * page_size p), p')
    /\ fresh_from p' /\ current_page p' = current_page p + 1 /\ total_pages p' = total_pages p
    /\ page_size p' = page_size p.
Proof.
  intros Hfr Hlt. pose proof (fresh_free p Hfr) as Hf. destruct Hfr as (Hwf & Hpos & Hu).
  pose proof (wf_total p Hwf) as Ht.
  assert (used (page_bitmap p) (current_page p) = false) as Huc by (rewrite Hu by lia; apply Z.ltb_irrefl).
  unfold alloc_page. rewrite (wf_inited p Hwf). cbn [Z.eqb Pos.eqb oassert].
  destruct (Z.eqb_spec (free_pages p) 0); [lia|]. cbn [find_page].
  destruct (Z.eqb_spec (current_page p) (total_pages p)); [lia|].
  rewrite TEST_BIT_used by (apply wf_in_bitmap; [done|lia]). rewrite Huc. cbn [obind Z.b2z Z.eqb].
  destruct (SET_BIT_spec (page_bitmap p) (current_page p)) as (bitmap & -> & Hbs);
    [apply wf_in_bitmap; [done|lia]|]. cbn [obind].
  pose proof (pool_wf_bit p bitmap (current_page p) true (current_page p + 1) Hwf ltac:(lia) Hbs ltac:(lia))
    as Hwf'. rewrite Huc, (wf_inited p Hwf) in Hwf'. cbn [Z.b2z] in Hwf'. rewrite Z.add_0_r in Hwf'.
  destruct (page_address _ (current_page p) Hwf' ltac:(cbn; lia)) as [-> _]. cbn [obind pool page_size].
  eexists. split; [reflexivity|].
  split; [split; [done|]; cbn [current_page page_bitmap total_pages]; split; [lia|]|done].
  intros i Hi. destruct Hbs as [_ Hb]. rewrite Hb, Hu by (try (apply wf_in_bitmap; [done|]); lia).
  destruct (Z.eqb_spec i (current_page p)), (Z.ltb_spec i (current_page p)),
    (Z.ltb_spec i (current_page p + 1)); lia || done.
Qed.

Lemma alloc_pages_fresh n p :
  fresh_from p -> current_page p + Z.of_nat n <= total_pages p ->
  exists p', alloc_pages n p = Ret (map (fun k => current_page p + Z.of_nat k) (seq 0 n), p')
    /\ fresh_from p' /\ current_page p' = current_page p + Z.of_nat n
    /\ total_pages p' = total_pages p /\ page_size p' = page_size p.
Proof.
  revert p. induction n as [|n IH]; intros p Hf Hn.
  { exists p. split; [done|]. split; [done|]. repeat split; lia. }
  cbn [alloc_pages]. destruct (alloc_page_fresh p Hf ltac:(lia)) as (p1 & -> & Hf1 & Hc1 & Ht1 & Hp1).
  cbn [obind]. destruct (IH p1 Hf1 ltac:(lia)) as (p2 & -> & Hf2 & Hc2 & Ht2 & Hp2).
  cbn [obind]. exists p2. split; [|split; [done|]; split; [lia|]; split; congruence].
  do 2 f_equal. cbn [seq map]. f_equal; [lia|]. rewrite <- seq_shift, map_map. apply map_ext.
  intros k. rewrite Hc1. lia.
Qed.

(** The table built on a freshly initialised pool. *)
Lemma fresh_hash_map tpool psize total meta_len found bucket_shift :
  inited found <> 1 -> 0 < tpool -> tpool + total * psize <= 2 ^ 64 -> 2 ^ 20 <= psize < 2 ^ 31 ->
  total <= MAX_PAGES_NO -> 0 < meta_len -> 0 <= bucket_shift < 31 ->
  meta_pages psize meta_len + hash_table_pages bucket_shift psize < total ->
  exists p p', mem_pool_initialize tpool psize total meta_len found = Ret p
    /\ new_hash_map bucket_shift p
        = Ret (map (fun k => meta_pages psize meta_len + Z.of_nat k) (seq 0 (Z.to_nat (hash_table_pages bucket_shift psize))),
               mk_hash_map (2 ^ bucket_shift) 0 ∅, p')
    /\ fresh_from p' /\ current_page p' = meta_pages psize meta_len + hash_table_pages bucket_shift psize
    /\ total_pages p' = total /\ page_size p' = psize.
Proof.
  intros Hin Hp Haddr Hps Htot Hml Hbs Hfit.
  destruct (hash_bucket_size_in_range bucket_shift Hbs) as [Ebs Hbs2].
  assert (0 < meta_pages psize meta_len) as Hmeta by (apply Z.div_str_pos; lia).
  destruct (hash_table_pages_in_range bucket_shift psize Hbs ltac:(lia)) as (Eby & Hpos & Hcover).
  destruct (initialize_spec tpool psize total meta_len found)
    as (p & Hinit & Hwf & Ht & Hz & Hpl & Hf & Hu); try done; [lia..|].
  assert (current_page p = meta_pages psize meta_len) as Hcur.
  { clear -Hinit Hin. unfold mem_pool_initialize in Hinit. outinv.
    destruct (Z.eqb_spec (inited found) 1); [done|]. outinv. done. }
  assert (fresh_from p) as Hfresh.
  { split; [done|]. rewrite Hcur. split; [done|]. by rewrite Ht. }
  destruct (alloc_pages_fresh (Z.to_nat (hash_table_pages bucket_shift psize)) p Hfresh)
    as (p' & E & Hf' & Hc' & Ht' & Hp'); [rewrite Hcur, Ht; lia|].
  exists p, p'. split; [done|]. unfold new_hash_map. rewrite Hz.
  replace (S (Z.to_nat (hash_table_pages bucket_shift psize - 1)))
    with (Z.to_nat (hash_table_pages bucket_shift psize)) by lia.
  rewrite E. cbn [obind]. rewrite Hcur, Eby, Ebs, Ht', Hp', Ht, Hz.
  rewrite (proj2 (Z.leb_le 0 bucket_shift)), (proj2 (Z.ltb_lt bucket_shift 32)) by lia. cbn [andb].
  replace (hd 0 _) with (meta_pages psize meta_len)
    by (destruct (Z.to_nat (hash_table_pages bucket_shift psize)) eqn:?; [lia|cbn; lia]).
  destruct (Z.leb_spec (meta_pages psize meta_len * psize + 2 ^ bucket_shift * 8) (total * psize)); [|nia].
  split; [done|]. split; [done|]. split; [rewrite Hc', Hcur; lia|]. split; congruence.
Qed.

(** ** Properties *)

(** C22: the hash table implements a finite map from keys to items.  When a
    table stands for [m]: looking up a key gives [m]'s answer and changes
    nothing; inserting an item whose key is not in [m] makes the table stand
    for [m] extended by it; removing an item takes exactly it out, or reports
    that its key is not there.  Every walk along a chain ends, and only chain
    links change in memory. *)
Theorem hash_table_implements_map s m chains :
  hash_rep s m chains ->
  (forall key, key <> [] -> hash_find key s = Ret (m !! key, s))
  /\ (forall l it, m_items s !! l = Some it -> item_key_ok it -> item_id it <> 0 ->
        loc_of (item_id it) = l -> m !! ITEM_KEY it = None ->
        exists s' chains', hash_insert l s = Ret (tt, s') /\ same_but_chains s s'
          /\ hash_rep s' (<[ITEM_KEY it := l]> m) chains')
  /\ (forall l it, m_items s !! l = Some it -> m !! ITEM_KEY it = Some l ->
        exists s' chains', hash_remove l s = Ret (true, s') /\ same_but_chains s s'
          /\ hash_rep s' (delete (ITEM_KEY it) m) chains')
  /\ (forall l it, m_items s !! l = Some it -> m !! ITEM_KEY it = None ->
        hash_remove l s = Ret (false, s)).
Proof.
  intros Hrep. split; [|split; [|split]].
  - intros key. by apply (hash_find_spec s m chains).
  - intros l it Eit Hok Hid Hl Hm.
    destruct (hash_insert_spec s m chains l it Hrep Eit Hok Hid Hl Hm) as (s' & c' & ? & ? & ? & _). by exists s', c'.
  - intros l it Eit Hm.
    destruct (hash_remove_spec s m chains l it Hrep Eit Hm) as (s' & c' & ? & ? & ? & _). by exists s', c'.
  - intros l it. by apply (hash_remove_none s m chains).
Qed.

Lemma demo_hash_rep : hash_rep (demo_mdb 0) ∅ (fun _ => []).
Proof.
  constructor; try done.
  - intros b. constructor.
  - intros b l Hl. by apply elem_of_nil in Hl.
Qed.

Lemma hash_table_implements_map_witness :
  exists s' chains', hash_insert (demo_loc 1) (demo_mdb 0) = Ret (tt, s')
    /\ same_but_chains (demo_mdb 0) s'
    /\ hash_rep s' (<[[5; 0; 1] := demo_loc 1]> ∅) chains'.
Proof.
  destruct (hash_table_implements_map (demo_mdb 0) ∅ (fun _ => []) demo_hash_rep) as (_ & H & _).
  apply (H (demo_loc 1) (demo_item 1 0 (demo_id 0) 0)); first [reflexivity | vm_compute; congruence].
Defined.

(** the pages of the hash table are consecutive.  On a freshly
    initialised pool with enough pages the table's pages are the ones right
    behind the metadata, in order, so the table is one array; they are taken
    from the pool. *)
Theorem hash_table_contiguous tpool psize total meta_len found bucket_shift :
  inited found <> 1 -> 0 < tpool -> tpool + total * psize <= 2 ^ 64 -> 2 ^ 20 <= psize < 2 ^ 31 ->
  total <= MAX_PAGES_NO -> 0 < meta_len -> 0 <= bucket_shift < 31 ->
  meta_pages psize meta_len + hash_table_pages bucket_shift psize < total ->
  exists p pages h p',
    mem_pool_initialize tpool psize total meta_len found = Ret p
    /\ new_hash_map bucket_shift p = Ret (pages, h, p')
    /\ pages = map (fun k => meta_pages psize meta_len + Z.of_nat k)
                 (seq 0 (Z.to_nat (hash_table_pages bucket_shift psize)))
    /\ pool_wf p' /\ bucket_size h * 8 <= Z.of_nat (length pages) * psize.
Proof.
  intros Hin Hp Haddr Hps Htot Hml Hbs Hfit.
  destruct (fresh_hash_map tpool psize total meta_len found bucket_shift) as (p & p' & Hi & Hn & [Hwf _] & _); try done.
  exists p. eexists _, _, p'. split; [exact Hi|]. split; [exact Hn|]. split; [done|]. split; [done|].
  cbn [bucket_size]. rewrite length_map, length_seq.
  destruct (hash_table_pages_in_range bucket_shift psize); lia.
Qed.

Lemma hash_table_contiguous_witness :
  exists p pages h p',
    mem_pool_initialize 4096 (2 ^ 20) 64 MEM_POOL_METADATA_LEN blank_pool = Ret p
    /\ new_hash_map 20 p = Ret (pages, h, p')
    /\ pages = map (fun k => 1 + Z.of_nat k) (seq 0 8)
    /\ pool_wf p' /\ bucket_size h * 8 <= Z.of_nat (length pages) * 2 ^ 20.
Proof.
  apply (hash_table_contiguous 4096 (2 ^ 20) 64 MEM_POOL_METADATA_LEN blank_pool 20);
    first [lia | split; vm_compute; congruence | vm_compute; congruence].
Defined.
