(* ===== verification/EngineState.v ===== *)
(** * The state of the memory engine as a whole (storage/mdb)

    The invariant [cache_ok] ties the parts together: every slab keeps its own
    invariant, no page belongs to two slabs, pages of slabs are taken from the
    pool, and the items in use are exactly the items of the hash table.  The
    abstract state is the map from keys to what a client gets back. *)

From S2P Require Import Prelude Util Dll MemPool MdbItem MemCache SlabLists SlabPages SlabAlloc SlabFree SlabEvict CacheHashMap.

(** ** All slabs *)

Definition slab_at (s : mdb) (i : Z) (sm : slab_manager) : Prop :=
  0 <= i /\ m_slabs s !! Z.to_nat i = Some sm.

Record slabs_ok (s : mdb) (vs : Z -> slab_view) : Prop := {
  sk_wf : pool_wf (m_pool s);
  sk_small : small_pool s;
  sk_slab : forall i sm, slab_at s i sm -> slab_ok s i sm (vs i);
  sk_used : forall i sm p, slab_at s i sm -> is_Some (sv_where (vs i) !! p) ->
              used (page_bitmap (m_pool s)) p = true;
  sk_disjoint : forall i j smi smj p, slab_at s i smi -> slab_at s j smj ->
                  is_Some (sv_where (vs i) !! p) -> is_Some (sv_where (vs j) !! p) -> i = j
}.

Lemma slabs_owns s vs i sm : slabs_ok s vs -> slab_at s i sm -> owns s (sv_where (vs i)).
Proof. intros [H1 H2 _ H4 _] Hi. constructor; [done|done|]. intros p. by eapply H4. Qed.

(** An item in use, of whichever slab. *)
Definition live (s : mdb) (vs : Z -> slab_view) (l : loc) : Prop :=
  exists i sm, slab_at s i sm /\ in_use (vs i) l.

Lemma live_slab s vs i j smi smj l :
  slabs_ok s vs -> slab_at s i smi -> slab_at s j smj -> in_use (vs i) l -> in_use (vs j) l -> i = j.
Proof.
  intros Hok Hi Hj Hl1 Hl2.
  apply (sk_disjoint _ _ Hok i j smi smj l.1.1 Hi Hj); eapply in_use_slot; try done; by apply (sk_slab _ _ Hok).
Qed.

(** The state after a step of slab [i]. *)
Section step.
Context (s s' : mdb) (vs : Z -> slab_view) (i : Z) (sm sm' : slab_manager) (v' : slab_view).
Hypothesis Hok : slabs_ok s vs.
Hypothesis Hi : slab_at s i sm.
Hypothesis Hst : slab_step i s s' sm (vs i) sm' v'.

Lemma step_at_self : slab_at s' i sm'.
Proof. split; [apply Hi|]. apply Hst. Qed.

Lemma step_at_other j smj : j <> i -> slab_at s' j smj <-> slab_at s j smj.
Proof.
  intros D. destruct (sf_slabs _ _ _ _ _ (ss_frame _ _ _ _ _ _ _ Hst)) as [x Hx].
  unfold slab_at. rewrite Hx. split; intros [H0 Hl]; split; try done.
  - rewrite list_lookup_insert_ne in Hl; [done|]. destruct Hi. lia.
  - rewrite list_lookup_insert_ne; [done|]. destruct Hi. lia.
Qed.

(** Pages of other slabs are not touched. *)
Lemma step_foreign j smj p :
  j <> i -> slab_at s j smj -> is_Some (sv_where (vs j) !! p) -> sv_where (vs i) !! p = None /\ sv_where v' !! p = None.
Proof.
  intros D Hj Hp. assert (sv_where (vs i) !! p = None) as Hn.
  { apply eq_None_not_Some. intros Hp'. apply D. by eapply (sk_disjoint _ _ Hok j i). }
  split; [done|]. apply eq_None_not_Some. intros Hp'.
  pose proof (ps_new _ _ _ _ (ss_pool _ _ _ _ _ _ _ Hst) p Hn Hp') as Hu.
  by rewrite (sk_used _ _ Hok j smj) in Hu.
Qed.

Lemma step_other j smj : j <> i -> slab_at s j smj -> slab_ok s' j smj (vs j).
Proof.
  intros D Hj. pose proof (sk_slab _ _ Hok j smj Hj) as Hokj.
  destruct (ss_frame _ _ _ _ _ _ _ Hst) as [_ _ _ _ Ft Fi Fp].
  assert (forall l, slot smj (sv_where (vs j)) l -> m_items s' !! l = m_items s !! l) as Hsame.
  { intros l [Hl _]. destruct (step_foreign j smj _ D Hj Hl) as [H1 H2]. by apply Fi. }
  eapply slab_ok_live; [exact Hokj| | |done| |].
  - destruct (proj2 (step_at_other j smj D) Hj) as [_ ->]. symmetry. apply Hj.
  - intros p Hp. destruct (step_foreign j smj p D Hj Hp) as [H1 H2]. by apply Fp.
  - intros l Hl. apply links_kept_refl, Hsame. by eapply in_use_slot.
  - intros l Hl _. by apply chain_kept_refl, Hsame.
Qed.

Lemma slabs_step : slabs_ok s' (<[i := v']> vs).
Proof.
  destruct Hst as [Hok' _ Hf [Hown Hsame Hnew]]. destruct Hown as [O1 O2 O3].
  assert (forall j, i <> j -> (<[i := v']> vs) j = vs j) as Hvj by (intros; by apply fn_lookup_insert_ne).
  constructor; try done.
  - intros j smj Hj. destruct (decide (i = j)) as [<-|D].
    + rewrite fn_lookup_insert. destruct Hj as [_ Hj]. rewrite (so_slab _ _ _ _ Hok') in Hj.
      by injection Hj as <-.
    + rewrite Hvj by done. apply step_other; [done|]. apply step_at_other; [done|exact Hj].
  - intros j smj p Hj. destruct (decide (i = j)) as [<-|D].
    + rewrite fn_lookup_insert. apply O3.
    + rewrite Hvj by done. apply step_at_other in Hj; [|done]. intros Hp.
      destruct (step_foreign j smj p ltac:(done) Hj Hp) as [H1 H2].
      rewrite Hsame; [by eapply (sk_used _ _ Hok)| |by rewrite H1, H2].
      by apply (so_pool _ _ _ _ (sk_slab _ _ Hok j smj Hj)).
  - assert (forall j smj p, j <> i -> slab_at s' j smj -> is_Some (sv_where v' !! p) ->
              is_Some (sv_where (vs j) !! p) -> False) as Hx.
    { intros j smj p D Hj Hp Hpj. apply step_at_other in Hj; [|done].
      destruct (step_foreign j smj p D Hj Hpj) as [_ H2]. rewrite H2 in Hp. by destruct Hp. }
    intros j k smj smk p Hj Hk. destruct (decide (i = j)) as [<-|Dj], (decide (i = k)) as [<-|Dk];
      rewrite ?fn_lookup_insert, ?Hvj by done; [done| | |].
    + intros H1 H2. exfalso. by eapply (Hx k smk p).
    + intros H1 H2. exfalso. by eapply (Hx j smj p).
    + apply step_at_other in Hj; [|done]. apply step_at_other in Hk; [|done]. by eapply (sk_disjoint _ _ Hok).
Qed.

(** What is in use after the step, elsewhere and in the slab. *)
Lemma live_step l :
  live s' (<[i := v']> vs) l <-> in_use v' l \/ exists j smj, j <> i /\ slab_at s j smj /\ in_use (vs j) l.
Proof.
  split.
  - intros (j & smj & Hj & Hl). destruct (decide (i = j)) as [<-|D].
    + left. by rewrite fn_lookup_insert in Hl.
    + right. rewrite fn_lookup_insert_ne in Hl by done. apply step_at_other in Hj; [|done]. by exists j, smj.
  - intros [Hl|(j & smj & D & Hj & Hl)].
    + exists i, sm'. split; [apply step_at_self|by rewrite fn_lookup_insert].
    + exists j, smj. split; [by apply step_at_other|by rewrite fn_lookup_insert_ne].
Qed.

(** An item in use elsewhere keeps its bytes. *)
Lemma step_foreign_item j smj l :
  j <> i -> slab_at s j smj -> in_use (vs j) l -> m_items s' !! l = m_items s !! l.
Proof.
  intros D Hj Hl. destruct (ss_frame _ _ _ _ _ _ _ Hst) as [_ _ _ _ _ Fi _].
  destruct (in_use_slot _ _ _ _ _ (sk_slab _ _ Hok j smj Hj) Hl) as [Hp _].
  destruct (step_foreign j smj _ D Hj Hp). by apply Fi.
Qed.
End step.

(** Items rewritten without a slab's doing: bytes and links of those in use, or
    of free ones but for their chain. *)
Lemma slabs_live s s' vs :
  slabs_ok s vs -> m_slabs s' = m_slabs s -> m_pages s' = m_pages s -> m_pool s' = m_pool s ->
  (forall l, live s vs l -> links_kept (m_items s) (m_items s') l) ->
  (forall l, ~ live s vs l -> chain_kept (m_items s) (m_items s') l) -> slabs_ok s' vs.
Proof.
  intros [H1 H2 H3 H4 H5] Es Ep Eq Hl Hf.
  assert (forall i sm, slab_at s' i sm <-> slab_at s i sm) as Hat by (intros; unfold slab_at; by rewrite Es).
  constructor.
  - by rewrite Eq.
  - unfold small_pool. by rewrite Eq.
  - intros i sm Hi%Hat. eapply slab_ok_live; [by apply H3|by rewrite Es|by intros; rewrite Ep|by rewrite Eq| |].
    + intros l Hu. apply Hl. by exists i, sm.
    + intros l Hsl Hn. apply Hf. intros (j & smj & Hj & Hu).
      assert (j = i) as ->; [|done]. apply (H5 j i smj sm l.1.1 Hj Hi); [|apply Hsl].
      by eapply in_use_slot; [apply H3|].
  - intros i sm p Hi%Hat. rewrite Eq. by eapply H4.
  - intros i j smi smj p Hi%Hat Hj%Hat. by eapply H5.
Qed.

(** ** The items in use and the table *)

(** What a client sees of an item. *)
Record entry := mk_entry { e_value : list Z; e_version : Z; e_exptime : Z; e_flags : Z; e_time : Z }.
Definition entry_of (it : mdb_item) : entry :=
  mk_entry (ITEM_DATA it) (version it) (exptime it) (ITEM_FLAGS (item_id it)) (update_time it).

(** The store the table [m] stands for. *)
Definition content (s : mdb) (m : gmap (list Z) loc) : gmap (list Z) entry :=
  omap (fun l => entry_of <$> m_items s !! l) m.

Lemma content_lookup s m k : content s m !! k = l ← m !! k; entry_of <$> m_items s !! l.
Proof. unfold content. by rewrite lookup_omap. Qed.

(** Key and value fit the item's bytes; the fields hold what their widths allow. *)
Definition item_fits (it : mdb_item) : Prop :=
  2 <= key_len it /\ 0 <= data_len it /\ key_len it + data_len it <= Z.of_nat (length (data it))
  /\ in_u 16 (version it) /\ 0 <= ITEM_AREA it < TAIR_MAX_AREA_COUNT.

(** [cache_ok s m vs pend]: the slabs are in order and their items in use are
    those of the table, in the lists of their areas; the item [pend], if any, is
    being written. *)
Record cache_ok (s : mdb) (m : gmap (list Z) loc) (vs : Z -> slab_view) (pend : option loc) : Prop := {
  ck_slabs : slabs_ok s vs;
  ck_hash : exists chains, hash_rep s m chains;
  ck_live : forall k l it, m !! k = Some l -> pend <> Some l -> m_items s !! l = Some it ->
              item_fits it /\ exists i sm, slab_at s i sm /\ l ∈ sv_lists (vs i) (ITEM_AREA it);
  ck_map : forall i sm a l, slab_at s i sm -> l ∈ sv_lists (vs i) a -> pend <> Some l ->
             exists it, m_items s !! l = Some it /\ ITEM_AREA it = a /\ m !! ITEM_KEY it = Some l
}.

(** The table depends on the chains, keys and bytes of its items only. *)
Lemma hash_rep_frame s s' m chains :
  hash_rep s m chains -> m_hash s' = m_hash s ->
  (forall k l it, m !! k = Some l -> m_items s !! l = Some it -> exists it', m_items s' !! l = Some it'
     /\ h_next it' = h_next it /\ key_len it' = key_len it /\ data it' = data it) ->
  hash_rep s' m chains.
Proof.
  intros [H1 H2 H3 H4 H5 H6] Eh Hf.
  assert (forall b l, l ∈ chains b -> exists it it', m_items s !! l = Some it /\ m_items s' !! l = Some it'
    /\ item_key_ok it' /\ get_bucket_index (m_hash s) (ITEM_KEY it') = b /\ m !! ITEM_KEY it' = Some l
    /\ h_next it' = h_next it) as Hc.
  { intros b l Hl. destruct (H4 b l Hl) as (it & Eit & Hok & Hb & Hm).
    destruct (Hf _ l it Hm Eit) as (it' & E' & Hn & Hk & Hd). exists it, it'.
    unfold item_key_ok, ITEM_KEY in *. rewrite Hk, Hd. done. }
  constructor; rewrite ?Eh; try done.
  - intros b Hb. eapply hchain_frame; [|by apply H2]. intros l it Hl Eit.
    destruct (Hc b l Hl) as (it0 & it' & E0 & E' & _ & _ & _ & Hn). rewrite Eit in E0. injection E0 as <-. by exists it'.
  - intros b l Hl. destruct (Hc b l Hl) as (it & it' & _ & E' & Hr). exists it'. tauto.
  - intros k l Hm. destruct (H5 k l Hm) as (it & Eit & Hk & Hl).
    destruct (Hf k l it Hm Eit) as (it' & E' & _ & Hkl & Hd). exists it'. unfold ITEM_KEY in *. by rewrite Hkl, Hd.
Qed.

Section facts.
Context (s : mdb) (m : gmap (list Z) loc) (vs : Z -> slab_view) (pend : option loc).
Hypothesis Hck : cache_ok s m vs pend.

(** The item behind a key. *)
Lemma ck_item k l : m !! k = Some l -> exists it, m_items s !! l = Some it /\ ITEM_KEY it = k.
Proof.
  intros Hm. destruct (ck_hash _ _ _ _ Hck) as [chains Hr].
  destruct (hr_map _ _ _ Hr k l Hm) as (it & Eit & Hk & _). by exists it.
Qed.

Lemma ck_inj k k' l : m !! k = Some l -> m !! k' = Some l -> k = k'.
Proof.
  intros H1 H2. destruct (ck_item k l H1) as (it & E1 & <-). destruct (ck_item k' l H2) as (it' & E2 & <-). congruence.
Qed.

(** Where an item of the table lives. *)
Lemma ck_where k l it :
  m !! k = Some l -> pend <> Some l -> m_items s !! l = Some it ->
  exists i sm, slab_at s i sm /\ slab_ok s i sm (vs i) /\ owns s (sv_where (vs i))
    /\ l ∈ sv_lists (vs i) (ITEM_AREA it) /\ item_names i (Some l) (item_id it)
    /\ 0 <= ITEM_AREA it < TAIR_MAX_AREA_COUNT.
Proof.
  intros Hm Hp Eit. destruct (ck_live _ _ _ _ Hck k l it Hm Hp Eit) as (Hfit & i & sm & Hi & Hl).
  pose proof (sk_slab _ _ (ck_slabs _ _ _ _ Hck) i sm Hi) as Hok. exists i, sm. split; [done|]. split; [done|].
  split; [by eapply slabs_owns; [apply Hck|]|]. split; [done|]. split; [|apply Hfit].
  destruct (io_slot _ _ _ _ _ _ _ (so_items _ _ _ _ Hok) l) as (it' & E' & _ & Hn); [by eapply in_use_slot; [|eexists]|].
  rewrite Eit in E'. by injection E' as <-.
Qed.

(** With no item in hand, the lists of a slab hold items of their areas. *)
Lemma ck_areas i sm : pend = None -> slab_at s i sm -> areas_ok (m_items s) (sv_lists (vs i)).
Proof.
  intros Hp Hi a l it Hl Eit. destruct (ck_map _ _ _ _ Hck i sm a l Hi Hl) as (it' & E' & Ha & _); [by rewrite Hp|].
  rewrite Eit in E'. by injection E' as <-.
Qed.
End facts.

(** ** What operations leave alone *)

(** The clock and the sizes of the slabs' items never change. *)
Record engine_frame (s s' : mdb) : Prop := {
  ef_now : m_now s' = m_now s;
  ef_sizes : map slab_size (m_slabs s') = map slab_size (m_slabs s)
}.

Lemma engine_frame_refl s : engine_frame s s.
Proof. done. Qed.
Lemma engine_frame_trans s1 s2 s3 : engine_frame s1 s2 -> engine_frame s2 s3 -> engine_frame s1 s3.
Proof. intros [H1 H2] [H3 H4]. constructor; congruence. Qed.

(** The entries of the keys of [m] look the same. *)
Definition entries_kept (m : gmap (list Z) loc) (s s' : mdb) : Prop :=
  forall k l, m !! k = Some l -> entry_of <$> m_items s' !! l = entry_of <$> m_items s !! l.

Lemma entries_kept_refl m s : entries_kept m s s.
Proof. done. Qed.
Lemma entries_kept_trans m s1 s2 s3 : entries_kept m s1 s2 -> entries_kept m s2 s3 -> entries_kept m s1 s3.
Proof. intros H1 H2 k l Hm. by rewrite (H2 k l Hm), (H1 k l Hm). Qed.
Lemma entries_kept_sub m m' s s' : m' ⊆ m -> entries_kept m s s' -> entries_kept m' s s'.
Proof. intros Hs H k l Hm. apply (H k). by eapply lookup_weaken. Qed.
Lemma content_kept m s s' : entries_kept m s s' -> content s' m = content s m.
Proof.
  intros H. apply map_eq. intros k. rewrite !content_lookup. destruct (m !! k) as [l|] eqn:E; [|done].
  simpl. by apply (H k).
Qed.

Lemma hcore_fields it it' :
  hcore it' = hcore it ->
  prev it' = prev it /\ next it' = next it /\ key_len it' = key_len it /\ data_len it' = data_len it
  /\ data it' = data it /\ exptime it' = exptime it /\ version it' = version it
  /\ item_id it' = item_id it /\ update_time it' = update_time it.
Proof. intros H. destruct it, it'. injection H. intros. simpl. by subst. Qed.

Lemma hcore_entry it it' : hcore it' = hcore it -> entry_of it' = entry_of it /\ (item_fits it -> item_fits it').
Proof.
  intros H. apply hcore_fields in H as (_ & _ & E1 & E2 & E3 & E4 & E5 & E6 & E7).
  unfold entry_of, item_fits, ITEM_DATA, ITEM_AREA. by rewrite E1, E2, E3, E4, E5, E6, E7.
Qed.

Lemma core_entry it it' : core it' = core it -> entry_of it' = entry_of it /\ (item_fits it -> item_fits it').
Proof.
  intros H. apply core_fields in H as (_ & E1 & E2 & E3 & E4 & E5 & E6 & E7).
  unfold entry_of, item_fits, ITEM_DATA, ITEM_AREA. by rewrite E1, E2, E3, E4, E5, E6, E7.
Qed.

(** *** Statistics *)
Lemma cache_ok_stat f s m vs p : cache_ok s m vs p -> cache_ok (set_m_stat f s) m vs p.
Proof.
  intros [H1 [chains H2] H3 H4]. constructor; try done.
  - destruct H1 as [A1 A2 A3 A4 A5]. constructor; try done. intros i sm Hi.
    eapply slab_ok_live; [by apply A3|done..| |]; intros; [by apply links_kept_refl|by apply chain_kept_refl].
  - exists chains. eapply hash_rep_frame; [exact H2|done|]. intros k l it _ Eit. by exists it.
Qed.

(** *** Taking an item out of the table *)
Lemma unhash_ok s m vs p l it :
  cache_ok s m vs p -> p = None \/ p = Some l -> live s vs l ->
  m_items s !! l = Some it -> m !! ITEM_KEY it = Some l ->
  exists s' it', hash_remove l s = Ret (true, s') /\ cache_ok s' (delete (ITEM_KEY it) m) vs (Some l)
    /\ engine_frame s s' /\ m_stat s' = m_stat s /\ m_slabs s' = m_slabs s
    /\ entries_kept (delete (ITEM_KEY it) m) s s'
    /\ m_items s' !! l = Some it' /\ hcore it' = hcore it.
Proof.
  intros Hck Hp Hlive Eit Hm. destruct (ck_hash _ _ _ _ Hck) as [chains Hr].
  destruct (hash_remove_spec s m chains l it Hr Eit Hm) as (s' & chains' & E & Hsame & Hr' & Hout).
  pose proof Hsame as (Hc & Hpool & Hpages & Hslabs & Hstat & Hnow & _).
  destruct (hcore_lookup _ _ _ _ Hc Eit) as (it' & E' & Hcc).
  assert (forall i sm, slab_at s' i sm <-> slab_at s i sm) as Hat by (intros; unfold slab_at; by rewrite Hslabs).
  assert (forall k z, m !! k = Some z -> live s vs z) as Hml.
  { intros k z Hz. destruct (decide (z = l)) as [->|D]; [done|].
    destruct (ck_item _ _ _ _ Hck k z Hz) as (itz & Ez & _).
    destruct (ck_live _ _ _ _ Hck k z itz Hz) as (_ & i & sm & Hi & Hl); [destruct Hp as [-> | ->]; congruence|done|].
    exists i, sm. split; [done|]. by eexists. }
  exists s', it'. split; [done|]. split; [|split; [|split; [done|split; [done|split; [|done]]]]].
  - constructor.
    + eapply slabs_live; [apply Hck|done|done|done| |].
      * intros z _ itz Ez. destruct (hcore_lookup _ _ _ _ Hc Ez) as (itz' & Ez' & Hcz).
        apply hcore_fields in Hcz as (P & N & _ & _ & D & _ & _ & I & _). exists itz'. by rewrite P, N, D, I.
      * intros z Hz. apply chain_kept_refl, Hout. intros k Hk. by apply Hz, (Hml k).
    + by exists chains'.
    + intros k z itz' [D Hz]%lookup_delete_Some Hpz Ez'.
      destruct (ck_item _ _ _ _ Hck k z Hz) as (itz & Ez & _).
      destruct (hcore_lookup _ _ _ _ Hc Ez) as (i0 & E0 & Hcz). rewrite Ez' in E0. injection E0 as <-.
      destruct (ck_live _ _ _ _ Hck k z itz Hz) as (Hfit & i & sm & Hi & Hl); [destruct Hp as [-> | ->]; congruence|done|].
      split; [by apply (hcore_entry itz)|]. exists i, sm. split; [by apply Hat|].
      apply hcore_fields in Hcz as (_ & _ & _ & _ & Dt & _). unfold ITEM_AREA. by rewrite Dt.
    + intros i sm a z Hi%Hat Hl Hpz.
      destruct (ck_map _ _ _ _ Hck i sm a z Hi Hl) as (itz & Ez & Ha & Hmz); [destruct Hp as [-> | ->]; congruence|].
      destruct (hcore_lookup _ _ _ _ Hc Ez) as (itz' & Ez' & Hcz). exists itz'. split; [done|].
      apply hcore_fields in Hcz as (_ & _ & K & _ & Dt & _). unfold ITEM_AREA, ITEM_KEY in *. rewrite K, Dt.
      split; [done|]. rewrite lookup_delete_ne; [done|]. intros Ek. rewrite <- Ek, Hm in Hmz. congruence.
  - constructor; [done|by rewrite Hslabs].
  - intros k z [D Hz]%lookup_delete_Some. destruct (ck_item _ _ _ _ Hck k z Hz) as (itz & Ez & _).
    destruct (hcore_lookup _ _ _ _ Hc Ez) as (itz' & Ez' & Hcz). rewrite Ez, Ez'. simpl. f_equal. by apply hcore_entry.
Qed.

(** *** The item in hand *)

(** Rewriting it, when the table does not have it. *)
Lemma rewrite_pending_ok s m vs l it it' :
  cache_ok s m vs (Some l) -> live s vs l -> (forall k, m !! k <> Some l) -> m_items s !! l = Some it ->
  prev it' = prev it -> next it' = next it -> length (data it') = length (data it) ->
  CLEAR_FLAGS (item_id it') = CLEAR_FLAGS (item_id it) ->
  cache_ok (set_m_items <[l := it']> s) m vs (Some l)
  /\ entries_kept m s (set_m_items <[l := it']> s).
Proof.
  intros Hck Hlive Hout Eit Hp Hn Hd Hc.
  assert (forall z, z <> l -> m_items (set_m_items <[l := it']> s) !! z = m_items s !! z) as Hz
    by (intros z D; cbn; by rewrite lookup_insert_ne).
  assert (forall k z, m !! k = Some z -> z <> l) as Hne by (intros k z Hk ->; by apply (Hout k)).
  destruct Hck as [H1 [chains H2] H3 H4]. split; [constructor|].
  - eapply slabs_live; [exact H1|done|done|done| |].
    + intros z _. destruct (decide (z = l)) as [->|D]; [|by apply links_kept_refl, Hz].
      intros i0 E0. rewrite Eit in E0. injection E0 as <-. exists it'. cbn. by rewrite lookup_insert_eq.
    + intros z Hzl. apply chain_kept_refl, Hz. by intros ->.
  - exists chains. eapply hash_rep_frame; [exact H2|done|]. intros k z itz Hk Ez. exists itz.
    rewrite Hz; [done|by eapply Hne].
  - intros k z itz Hk Hpz Ez. rewrite Hz in Ez by by eapply Hne. by apply (H3 k).
  - intros i sm a z Hi Hzl Hpz. rewrite Hz by congruence. by apply (H4 i sm a z).
  - intros k z Hk. rewrite Hz; [done|by eapply Hne].
Qed.

(** The changes of a slab's step, seen from the table. *)
Lemma cache_ok_step s s' m vs i sm sm' v' p p' :
  cache_ok s m vs p -> slab_at s i sm -> slab_step i s s' sm (vs i) sm' v' ->
  (forall k l it, m !! k = Some l -> m_items s !! l = Some it ->
     exists it', m_items s' !! l = Some it' /\ h_next it' = h_next it /\ key_len it' = key_len it
       /\ data it' = data it) ->
  (forall k l it it', m !! k = Some l -> p' <> Some l -> m_items s !! l = Some it -> m_items s' !! l = Some it' ->
     p <> Some l /\ core it' = core it
     /\ (l ∈ sv_lists (vs i) (ITEM_AREA it) -> l ∈ sv_lists v' (ITEM_AREA it))) ->
  (forall a l, l ∈ sv_lists v' a -> p' <> Some l ->
     p <> Some l /\ l ∈ sv_lists (vs i) a /\ core <$> m_items s' !! l = core <$> m_items s !! l) ->
  (forall j smj l, j <> i -> slab_at s j smj -> in_use (vs j) l -> p = Some l -> p' = Some l) ->
  cache_ok s' m (<[i := v']> vs) p'.
Proof.
  intros Hck Hi Hst Hrep Hlive Hmap Hp. pose proof (ck_slabs _ _ _ _ Hck) as Hok.
  destruct (ck_hash _ _ _ _ Hck) as [chains Hr]. constructor.
  - by eapply slabs_step.
  - exists chains. eapply hash_rep_frame; [exact Hr|apply Hst|exact Hrep].
  - intros k l it' Hm Hpl Eit'. destruct (ck_item _ _ _ _ Hck k l Hm) as (it & Eit & _).
    destruct (Hlive k l it it' Hm Hpl Eit Eit') as (Hpl' & Hc & Hin).
    destruct (ck_live _ _ _ _ Hck k l it Hm Hpl' Eit) as (Hfit & j & smj & Hj & Hl).
    split; [by apply (core_entry it)|]. assert (ITEM_AREA it' = ITEM_AREA it) as ->
      by (apply core_fields in Hc as (_ & _ & _ & Hd & _); unfold ITEM_AREA; by rewrite Hd).
    destruct (decide (i = j)) as [<-|D].
    + exists i, sm'. split; [eapply step_at_self; [exact Hi|exact Hst]|]. rewrite fn_lookup_insert. by apply Hin.
    + exists j, smj. split; [eapply step_at_other; [exact Hi|exact Hst|by apply not_eq_sym|done]|]. by rewrite fn_lookup_insert_ne.
  - intros j smj a l Hj Hl Hpl. destruct (decide (i = j)) as [<-|D].
    + rewrite fn_lookup_insert in Hl. destruct (Hmap a l Hl Hpl) as (Hp1 & Hl1 & Hc).
      destruct (ck_map _ _ _ _ Hck i sm a l Hi Hl1 Hp1) as (it & Eit & Ha & Hm).
      rewrite Eit in Hc. destruct (m_items s' !! l) as [it'|]; [|done]. exists it'. split; [done|].
      apply (inj Some) in Hc. apply core_fields in Hc as (_ & K & _ & Dt & _).
      unfold ITEM_AREA, ITEM_KEY in *. by rewrite K, Dt.
    + rewrite fn_lookup_insert_ne in Hl by done. apply (step_at_other s s' vs i sm sm' v' Hi Hst j smj (not_eq_sym D)) in Hj.
      assert (in_use (vs j) l) as Hu by by exists a.
      rewrite (step_foreign_item s s' vs i sm sm' v' Hok Hi Hst j smj l (not_eq_sym D) Hj Hu).
      apply (ck_map _ _ _ _ Hck j smj a l Hj Hl). intros Hpe. apply Hpl. by apply (Hp j smj l (not_eq_sym D) Hj Hu).
Qed.

Lemma engine_frame_step s s' i sm v sm' v' :
  slab_at s i sm -> slab_step i s s' sm v sm' v' -> engine_frame s s'.
Proof.
  intros [Hi Hsm] Hst. destruct (ss_frame _ _ _ _ _ _ _ Hst) as [[x Hx] _ _ Fn _ _ _]. constructor; [done|].
  pose proof (so_slab _ _ _ _ (ss_ok _ _ _ _ _ _ _ Hst)) as Hsm'. rewrite Hx in Hsm' |- *.
  rewrite list_lookup_insert_eq in Hsm' by by eapply lookup_lt_Some. injection Hsm' as ->.
  apply list_eq. intros n. rewrite !list_lookup_fmap. destruct (decide (n = Z.to_nat i)) as [->|D].
  - rewrite list_lookup_insert_eq, Hsm by by eapply lookup_lt_Some. simpl.
    destruct (ss_shape _ _ _ _ _ _ _ Hst) as (_ & -> & _). done.
  - by rewrite list_lookup_insert_ne.
Qed.

(** Rewriting a free item. *)
Lemma rewrite_dead_ok s m vs l it it' :
  cache_ok s m vs None -> ~ live s vs l -> m_items s !! l = Some it ->
  h_next it' = h_next it -> item_id it' = item_id it -> length (data it') = length (data it) ->
  cache_ok (set_m_items <[l := it']> s) m vs None
  /\ entries_kept m s (set_m_items <[l := it']> s).
Proof.
  intros Hck Hdead Eit Hn Hi Hd.
  assert (forall z, z <> l -> m_items (set_m_items <[l := it']> s) !! z = m_items s !! z) as Hz
    by (intros z D; cbn; by rewrite lookup_insert_ne).
  assert (forall i sm a z, slab_at s i sm -> z ∈ sv_lists (vs i) a -> z <> l) as Hne'.
  { intros i sm a z Hat Hl ->. apply Hdead. exists i, sm. split; [done|]. by exists a. }
  assert (forall k z, m !! k = Some z -> z <> l) as Hne.
  { intros k z Hk. destruct (ck_item _ _ _ _ Hck k z Hk) as (itz & Ez & _).
    destruct (ck_live _ _ _ _ Hck k z itz Hk ltac:(done) Ez) as (_ & i & sm & Hat & Hl). by eapply Hne'. }
  destruct Hck as [H1 [chains H2] H3 H4]. split; [constructor|].
  - eapply slabs_live; [exact H1|done|done|done| |].
    + intros z Hzl. apply links_kept_refl, Hz. by intros ->.
    + intros z _. destruct (decide (z = l)) as [->|D]; [|by apply chain_kept_refl, Hz].
      intros i0 E0. rewrite Eit in E0. injection E0 as <-. exists it'. cbn. by rewrite lookup_insert_eq.
  - exists chains. eapply hash_rep_frame; [exact H2|done|]. intros k z itz Hk Ez. exists itz.
    rewrite Hz; [done|by eapply Hne].
  - intros k z itz Hk Hpz Ez. rewrite Hz in Ez by by eapply Hne. by apply (H3 k).
  - intros i sm a z Hat Hzl Hpz. rewrite Hz by by eapply Hne'. by apply (H4 i sm a z).
  - intros k z Hk. rewrite Hz; [done|by eapply Hne].
Qed.

(** *** Putting the item in hand into the table *)
Lemma hash_ok s m vs l it i sm :
  cache_ok s m vs (Some l) -> slab_at s i sm -> l ∈ sv_lists (vs i) (ITEM_AREA it) ->
  m_items s !! l = Some it -> item_fits it -> item_key_ok it -> item_id it <> 0 -> loc_of (item_id it) = l ->
  (forall k, m !! k <> Some l) -> m !! ITEM_KEY it = None ->
  exists s' it', hash_insert l s = Ret (tt, s') /\ cache_ok s' (<[ITEM_KEY it := l]> m) vs None
    /\ engine_frame s s' /\ m_stat s' = m_stat s /\ entries_kept m s s'
    /\ m_items s' !! l = Some it' /\ hcore it' = hcore it.
Proof.
  intros Hck Hi Hl Eit Hfit Hkey Hid Hloc Hout Hnew. destruct (ck_hash _ _ _ _ Hck) as [chains Hr].
  destruct (hash_insert_spec s m chains l it Hr Eit Hkey Hid Hloc Hnew) as (s' & chains' & E & Hsame & Hr' & Hz).
  pose proof Hsame as (Hc & Hpool & Hpages & Hslabs & Hstat & Hnow & _).
  destruct (hcore_lookup _ _ _ _ Hc Eit) as (it' & E' & Hcc).
  assert (forall j smj, slab_at s' j smj <-> slab_at s j smj) as Hat by (intros; unfold slab_at; by rewrite Hslabs).
  assert (live s vs l) as Hlive by (exists i, sm; split; [done|]; by eexists).
  pose proof (hcore_fields _ _ Hcc) as (Hp & Hn & Hk & _ & Hd & _ & _ & Hi' & _).
  assert (ITEM_AREA it' = ITEM_AREA it /\ ITEM_KEY it' = ITEM_KEY it) as [Ea Ek]
    by (unfold ITEM_AREA, ITEM_KEY; by rewrite Hk, Hd).
  assert (forall a, l ∈ sv_lists (vs i) a -> a = ITEM_AREA it) as Hla.
  { intros a Ha. pose proof (sk_slab _ _ (ck_slabs _ _ _ _ Hck) i sm Hi) as Hok.
    by apply (sl_disjoint _ _ _ _ (io_lists _ _ _ _ _ _ _ (so_items _ _ _ _ Hok)) a (ITEM_AREA it) l). }
  assert (forall j smj a, slab_at s j smj -> l ∈ sv_lists (vs j) a -> a = ITEM_AREA it) as Hja.
  { intros j smj a Hj Ha. assert (j = i) as ->; [|by apply Hla].
    apply (live_slab s vs j i smj sm l (ck_slabs _ _ _ _ Hck) Hj Hi); by eexists. }
  assert (forall k z, m !! k = Some z -> z <> l) as Hne by (intros k z Hk' ->; by apply (Hout k)).
  exists s', it'. split; [done|]. split; [constructor|split; [constructor; [done|by rewrite Hslabs]|split; [done|split; [|done]]]].
  - eapply slabs_live; [apply Hck|done|done|done| |].
    + intros z _ itz Ez. destruct (hcore_lookup _ _ _ _ Hc Ez) as (itz' & Ez' & Hcz).
      apply hcore_fields in Hcz as (P & N & _ & _ & D & _ & _ & I & _). exists itz'. by rewrite P, N, D, I.
    + intros z Hzl. apply chain_kept_refl, Hz. by intros ->.
  - by exists chains'.
  - intros k z itz' Hkz _ Ez'. apply lookup_insert_Some in Hkz as [[<- <-]|[_ Hkz]].
    + assert (itz' = it') as -> by congruence. rewrite Ea. split; [by apply (hcore_entry it)|].
      exists i, sm. split; [by apply Hat|done].
    + pose proof (Hne k z Hkz) as D. rewrite Hz in Ez' by done.
      destruct (ck_live _ _ _ _ Hck k z itz' Hkz ltac:(congruence) Ez') as (Hf & j & smj & Hj & Hlj).
      split; [done|]. exists j, smj. split; [by apply Hat|done].
  - intros j smj a z Hj%Hat Hlz _. destruct (decide (z = l)) as [->|D].
    + exists it'. split; [done|]. rewrite Ea, Ek. split; [by symmetry; eapply Hja|apply lookup_insert_eq].
    + rewrite Hz by done. destruct (ck_map _ _ _ _ Hck j smj a z Hj Hlz ltac:(congruence)) as (itz & Ez & Ha & Hm).
      exists itz. split; [done|]. split; [done|]. rewrite lookup_insert_ne; [done|]. intros E0. rewrite <- E0 in Hm. congruence.
  - intros k z Hkz. by rewrite Hz by by eapply Hne.
Qed.
