(* ===== verification/MdbManager.v ===== *)
(** * mdb_manager (storage/mdb/mdb_manager.cpp, mem_cache.cpp)

    The storage engine on top of the slabs and the hash table: put, get,
    remove, the scans that drop expired, foreign or whole-area items, quotas,
    and the parts of [mem_cache] that call back into the manager.  Every
    operation holds the engine's lock for its whole body (the scans, bucket by
    bucket), so an operation is one state transformer. *)

From S2P Require Import Prelude Util DataBuffer DataEntry MemPool MdbItem MemCache Dll SlabLists CacheHashMap.

Definition TAIR_RETURN_SUCCESS : Z := 0.
Definition TAIR_RETURN_DATA_NOT_EXIST : Z := -3998.
Definition TAIR_RETURN_VERSION_ERROR : Z := -3997.
Definition TAIR_RETURN_DATA_EXPIRED : Z := -3988.
Definition TAIR_ITEM_FLAG_DELETED : Z := 2.
Definition IS_DELETED (flag : Z) : bool := negb (Z.land flag TAIR_ITEM_FLAG_DELETED =? 0).

Abbreviation u12 := (wrap 12).
Abbreviation u20 := (wrap 20).
Abbreviation u24 := (wrap 24).

(** [time(NULL)] in the 32-bit variables of the engine *)
Definition crrnt_time : mdbM Z := let* s := sget in sret (u32 (m_now s)).

(** [it->exptime != 0 && it->exptime < crrnt_time] *)
Definition item_expired (now : Z) (it : mdb_item) : bool :=
  negb (exptime it =? 0) && (exptime it <? now).

(** Assignments to the metadata of an entry *)
Definition set_meta_fields (fedate fmdate fflag fkeysize fvalsize : Z -> Z) (e : data_entry)
  : data_entry :=
  let m := data_meta e in
  set_meta (mk_item_meta_info (magic m) (checksum m) (fkeysize (keysize m)) (mversion m)
              (padsize m) (fvalsize (valsize m)) (fflag (flag m)) (cdate m)
              (fmdate (mdate m)) (fedate (edate m))) e.
Definition same_field (z : Z) : Z := z.
Definition set_area (a : Z) (e : data_entry) : data_entry :=
  mk_data_entry (size e) (DataEntry.data e) (alloc e) (hashcode e) (has_merged e)
    (has_meta_merged e) a (server_flag e) (data_meta e).

(** [__remove(it)] *)
Definition __remove (l : loc) : mdbM unit :=
  let* it := get_item l in
  let area := ITEM_AREA it in
  let* _ := update_stat area (set_data_size (fun x => u64 (x - (key_len it + data_len it)))) in
  let* _ := update_stat area (set_space_usage (fun x => u64 (x - SLAB_SIZE (item_id it)))) in
  let* _ := update_stat area (set_area_item_count (fun x => u64 (x - 1))) in
  let* _ := hash_remove l in
  let* _ := update_item_field l (set_item_id CLEAR_FLAGS) in
  let* _ := cache_free_item l in
  update_item_field l (fun it =>
    set_exptime (fun _ => 0) (set_data_len (fun _ => 0) (set_key_len (fun _ => 0)
      (MdbItem.set_version (fun _ => 0) (set_update_time (fun _ => 0) it))))).

(** The bytes of key and value written over the item's *)
Definition write_item_data (key value : list Z) (l : loc) : mdbM unit :=
  let* it := get_item l in
  let key := take (Z.to_nat (key_len it)) key in
  let value := take (Z.to_nat (data_len it)) value in
  if decide (length (key ++ value) <= length (MdbItem.data it))%nat
  then update_item_field l (MdbItem.set_data (fun d => key ++ value ++ drop (length (key ++ value)) d))
  else slift Overrun.

(** The first part of [do_put]: the version the new item continues from, with
    the flag kept from the old one; [None] is the version error. *)
Definition put_replace (key : data_entry) (version_care : bool) : mdbM (option (Z * Z)) :=
  let* now := crrnt_time in
  let* found := hash_find (get_data key) in
  let version := get_version key in
  match found with
  | None => sret (Some (0, 0))
  | Some l =>
      let* it := get_item l in
      let old_flag := if IS_DELETED (item_id it) then TAIR_ITEM_FLAG_DELETED else 0 in
      if item_expired now it then
        let* _ := __remove l in sret (Some (0, old_flag))
      else if version_care && negb (version =? 0) && negb (MdbItem.version it =? version) then
        sret None
      else
        let version := if version_care then MdbItem.version it else version in
        let* _ := __remove l in sret (Some (version, old_flag))
  end.

(** What [do_put] does when the item was evicted from another key. *)
Definition put_evicted (l : loc) (type : Z) : mdbM unit :=
  if (type =? ALLOC_EXPIRED) || (type =? ALLOC_EVICT_SELF) || (type =? ALLOC_EVICT_ANY) then
    let* it := get_item l in
    let area := ITEM_AREA it in
    let* _ := update_stat area (set_data_size (fun x => u64 (x - (key_len it + data_len it)))) in
    let* _ := update_stat area (set_space_usage (fun x => u64 (x - SLAB_SIZE (item_id it)))) in
    let* _ := update_stat area (set_area_item_count (fun x => u64 (x - 1))) in
    let* _ := (if (type =? ALLOC_EVICT_ANY) || (type =? ALLOC_EVICT_SELF)
               then update_stat area (set_evict_count_stat (fun x => u64 (x + 1))) else sret tt) in
    let* _ := hash_remove l in
    sret tt
  else sret tt.

(** The second part of [do_put]: fill the item and put it in the table. *)
Definition put_fill (l : loc) (key value : data_entry) (version_care : bool)
    (version old_flag expired : Z) : mdbM data_entry :=
  let* now := crrnt_time in
  let* _ := update_item_field l (set_key_len (fun _ => u12 (get_size key))) in
  let* _ := update_item_field l (set_data_len (fun _ => u20 (get_size value))) in
  let* _ := update_item_field l (set_update_time (fun _ => now)) in
  let* _ := update_item_field l
    (MdbItem.set_version (fun _ => u16 (if version_care then version + 1 else get_version key))) in
  let* _ := (if 0 <? expired then
               update_item_field l (set_exptime (fun _ =>
                 if now <? u32 expired then u32 expired else u32 (now + expired)))
             else sret tt) in
  let* _ := update_item_field l
    (set_item_id (fun id => SET_ITEM_FLAGS id (Z.lor (flag (data_meta value)) old_flag))) in
  let* _ := write_item_data (get_data key) (get_data value) l in
  let* it := get_item l in
  let key := DataEntry.set_version (MdbItem.version it) key in
  let key := set_meta_fields (fun _ => exptime it) same_field (fun _ => u8 (ITEM_FLAGS (item_id it)))
               (fun _ => u16 (key_len it)) (fun _ => u24 (data_len it)) key in
  let* _ := hash_insert l in
  let area := ITEM_AREA it in
  let* _ := update_stat area (set_data_size (fun x => u64 (x + (data_len it + key_len it)))) in
  let* _ := update_stat area (set_space_usage (fun x => u64 (x + SLAB_SIZE (item_id it)))) in
  let* _ := update_stat area (set_area_item_count (fun x => u64 (x + 1))) in
  let* _ := update_stat area (set_put_count (fun x => u64 (x + 1))) in
  sret key.

(** [do_put(key, data, version_care, expired)]: the return code and the key *)
Definition do_put (key value : data_entry) (version_care : bool) (expired : Z)
  : mdbM (Z * data_entry) :=
  let expired := if expired <? 0 then 0 else expired in
  let total_size := get_size key + get_size value + sizeof_mdb_item in
  let key := if area key =? KEY_AREA (get_data key) then key
             else set_area (KEY_AREA (get_data key)) key in
  let* replaced := put_replace key version_care in
  match replaced with
  | None => sret (TAIR_RETURN_VERSION_ERROR, key)
  | Some (version, old_flag) =>
      let* allocated := cache_alloc_item total_size (area key) in
      match allocated with
      | None => slift Abort
      | Some (l, type) =>
          let* _ := put_evicted l type in
          let* key := put_fill l key value version_care version old_flag expired in
          sret (0, key)
      end
  end.

(** [remove_if_expired(key, item)]: whether it was, and the item if it is there *)
Definition remove_if_expired (key : data_entry) : mdbM (bool * option loc) :=
  let* found := hash_find (get_data key) in
  match found with
  | None => sret (false, None)
  | Some l =>
      let* it := get_item l in
      let* now := crrnt_time in
      if item_expired now it then
        let* _ := __remove l in sret (true, None)
      else sret (false, Some l)
  end.

(** [do_get(key, data)]: the return code, the key and the data *)
Definition do_get (key value : data_entry) : mdbM (Z * data_entry * data_entry) :=
  let* (expired, found) := remove_if_expired key in
  let* r :=
    match found with
    | Some l =>
        let* it := get_item l in
        need* area key =? ITEM_AREA it in
        let fl := u8 (ITEM_FLAGS (item_id it)) in
        let value := DataEntry.set_data (Some (ITEM_DATA it)) (data_len it) true value in
        let value := DataEntry.set_version (MdbItem.version it) value in
        let value := set_meta_fields (fun _ => exptime it) same_field (fun _ => fl)
                       (fun _ => u16 (key_len it)) (fun _ => u24 (data_len it)) value in
        let key := DataEntry.set_version (MdbItem.version it) key in
        let key := set_meta_fields (fun _ => exptime it) (fun _ => update_time it) (fun _ => fl)
                     (fun _ => u16 (key_len it)) (fun _ => u24 (data_len it)) key in
        let* _ := cache_update_item l in
        let* _ := update_stat (area key) (set_hit_count (fun x => u64 (x + 1))) in
        sret (0, key, value)
    | None =>
        sret (if expired then TAIR_RETURN_DATA_EXPIRED else TAIR_RETURN_DATA_NOT_EXIST, key, value)
    end in
  let '(_, key, _) := r in
  let* _ := update_stat (area key) (set_get_count (fun x => u64 (x + 1))) in
  sret r.

(** [remove_if_exists(key)], [do_remove(key, version_care)] *)
Definition remove_if_exists (key : data_entry) : mdbM bool :=
  let* found := hash_find (get_data key) in
  match found with
  | Some l => let* _ := __remove l in sret true
  | None => sret false
  end.
Definition do_remove (key : data_entry) (version_care : bool) : mdbM (Z * data_entry) :=
  let key := set_meta_fields same_field same_field same_field (fun _ => u16 (get_size key)) same_field key in
  let* ret := remove_if_exists key in
  let* _ := update_stat (area key) (set_remove_count (fun x => u64 (x + 1))) in
  sret (if ret then 0 else TAIR_RETURN_DATA_NOT_EXIST, key).

(** ** Quotas and statistics *)

(** [set_area_quota(area, quota)], [set_area_quota(quota_map)] with the map as
    its entries in key order, and [get_area_quota] of one area *)
Definition set_area_quota (area quota : Z) : mdbM unit :=
  need* (0 <=? area) && (area <? TAIR_MAX_AREA_COUNT) in
  update_stat area (set_quota (fun _ => quota)).
Fixpoint set_area_quota_map (quota_map : list (Z * Z)) : mdbM unit :=
  match quota_map with
  | [] => sret tt
  | (area, quota) :: rest =>
      need* area <? TAIR_MAX_AREA_COUNT in
      let* _ := update_stat area (set_quota (fun _ => quota)) in
      set_area_quota_map rest
  end.
Definition get_area_quota (area : Z) : mdbM Z :=
  need* (0 <=? area) && (area <? TAIR_MAX_AREA_COUNT) in
  let* st := get_stat area in sret (quota st).

(** [get_stats(stat)]: data size, space used and number of items of each area *)
Definition get_stats : mdbM (list (Z * Z * Z)) :=
  let* s := sget in
  sret (map (fun i => let st := area_get zero_area_stat (m_stat s) (Z.of_nat i) in
                      (data_size st, space_usage st, area_item_count st))
            (seq 0 (Z.to_nat TAIR_MAX_AREA_COUNT))).

(** ** Scans over the table *)

(** The walk along one chain; the link is read before the visit, which may
    free the item.  The chain ends when the link is 0. *)
Fixpoint walk_chain (fuel : nat) (item_head : Z) (visit : loc -> mdb_item -> mdbM unit) : mdbM unit :=
  match fuel with
  | O => slift Diverge
  | S fuel' =>
      if item_head =? 0 then sret tt
      else
        let* l := id_to_item item_head in
        let* it := get_item l in
        let* _ := visit l it in
        walk_chain fuel' (h_next it) visit
  end.

(** [for(int i = 0; i < hashmap->get_bucket_size(); ++i)] *)
Fixpoint walk_buckets (n : nat) (i : Z) (visit : loc -> mdb_item -> mdbM unit) : mdbM unit :=
  match n with
  | O => sret tt
  | S n' =>
      let* head := read_bucket i in
      let* s := sget in
      let* _ := walk_chain (S (base.size (m_items s))) head visit in
      walk_buckets n' (i + 1) visit
  end.
Definition walk_table (visit : loc -> mdb_item -> mdbM unit) : mdbM unit :=
  let* s := sget in walk_buckets (Z.to_nat (bucket_size (m_hash s))) 0 visit.

Definition reached (now : Z) (it : mdb_item) : bool :=
  negb (exptime it =? 0) && (exptime it <=? now).

Definition remove_deleted_item : mdbM unit :=
  walk_table (fun l it =>
    if negb (Z.land (ITEM_FLAGS (item_id it)) TAIR_ITEM_FLAG_DELETED =? 0) then __remove l else sret tt).

Definition remove_exprd_item : mdbM unit :=
  let* now := crrnt_time in
  walk_table (fun l it => if reached now it then __remove l else sret tt).

(** The bucket of the cluster an item's key belongs to *)
Definition server_hash (bucket_count : Z) (it : mdb_item) : Z :=
  mur_mur_hash (drop 2 (ITEM_KEY it)) mod bucket_count.

Definition close_buckets (bucket_count : Z) (buckets : list Z) : mdbM unit :=
  let* now := crrnt_time in
  walk_table (fun l it =>
    if reached now it then __remove l
    else if bool_decide (server_hash bucket_count it ∈ buckets) then __remove l
    else sret tt).

(** [item_data_info]: a header whose other fields are what [malloc] left, and
    the bytes *)
Record item_data_info := mk_item_data_info { header : item_meta_info; m_data : list Z }.
Definition item_data_of (malloced : item_meta_info) (it : mdb_item) : item_data_info :=
  mk_item_data_info
    (mk_item_meta_info (magic malloced) (checksum malloced) (u16 (key_len it)) (MdbItem.version it)
       (padsize malloced) (u24 (data_len it)) (u8 (ITEM_FLAGS (item_id it))) (cdate malloced)
       (update_time it) (exptime it))
    (take (Z.to_nat (key_len it + data_len it)) (MdbItem.data it)).

(** [md_info] *)
Record md_info := mk_md_info { hash_index : Z; db_id : Z; is_migrate : Z }.
Definition begin_scan (info : md_info) : md_info := mk_md_info 0 (db_id info) (is_migrate info).

(** The first bucket from [i] that is not empty *)
Fixpoint next_bucket (n : nat) (i : Z) : mdbM (Z * Z) :=
  match n with
  | O => sret (i, 0)
  | S n' =>
      let* head := read_bucket i in
      if head =? 0 then next_bucket n' (i + 1) else sret (i, head)
  end.

Fixpoint collect_items (fuel : nat) (item_head bucket_count db now : Z) (malloced : item_meta_info)
    (items : list item_data_info) : mdbM (list item_data_info) :=
  match fuel with
  | O => slift Diverge
  | S fuel' =>
      if item_head =? 0 then sret items
      else
        let* l := id_to_item item_head in
        let* it := get_item l in
        if reached now it then
          let* _ := __remove l in collect_items fuel' (h_next it) bucket_count db now malloced items
        else if negb (server_hash bucket_count it =? db) then
          collect_items fuel' (h_next it) bucket_count db now malloced items
        else
          collect_items fuel' (h_next it) bucket_count db now malloced (items ++ [item_data_of malloced it])
  end.

(** [get_next_items(info, list)]: whether there are more buckets, the position
    and the items *)
Definition get_next_items (bucket_count : Z) (malloced : item_meta_info) (info : md_info)
    (items : list item_data_info) : mdbM (bool * md_info * list item_data_info) :=
  let* s := sget in
  let buckets := bucket_size (m_hash s) in
  let* (i, item_head) := next_bucket (Z.to_nat (buckets - hash_index info)) (hash_index info) in
  let at_bucket i := mk_md_info (u32 i) (db_id info) (is_migrate info) in
  if item_head =? 0 then sret (false, at_bucket i, items)
  else
    let* now := crrnt_time in
    let* items := collect_items (S (base.size (m_items s))) item_head bucket_count (db_id info) now malloced items in
    sret (negb (u32 buckets <=? u32 (i + 1)), at_bucket (i + 1), items).

(** ** Pages and quotas of mem_cache *)

(** [clear_page(slab_mng, page)]: removes every item that is linked *)
Fixpoint clear_page_loop (n : nat) (i index slab_size k : Z) : mdbM unit :=
  match n with
  | O => sret tt
  | S n' =>
      let l := (index, slab_size, k) in
      let* it := get_item l in
      let* _ := (if (prev it =? 0) && (next it =? 0) then sret tt else __remove l) in
      clear_page_loop n' i index slab_size (k + 1)
  end.
Definition clear_page (i index : Z) : mdbM unit :=
  let* sm := get_slab i in
  clear_page_loop (Z.to_nat (per_slab sm)) i index (slab_size sm) 0.

(** [mem_cache::free_page(slab_id)] *)
Definition cache_free_page (i : Z) : mdbM Z :=
  let* s := sget in
  need* (0 <=? i) && (i <? get_slabs_count s) in
  let* sm := get_slab i in
  if free_pages_no sm + full_pages_no sm + partial_pages_no sm <=? 1 then sret (-1)
  else if 0 <? free_pages_no sm then
    let page := slab_free_pages sm in
    let* info := get_page page in
    need* (free_nr info =? per_slab sm) && negb (free_head info =? 0) && (free_nr info <=? per_slab sm) in
    let* _ := unlink_page i page FreePages in
    let* _ := update_slab i (set_free_pages_no (fun x => x - 1)) in
    let* _ := pool_free_page (pi_id info) in
    sret 0
  else
    let* page :=
      (if 0 <? partial_pages_no sm then
         sret (get_the_most_free_items_of_partial_page_id sm)
       else need* 0 <? full_pages_no sm in sret (full_pages sm)) in
    let* _ := get_page page in
    let* _ := clear_page i page in
    sret 0.

(** [keep_area_quota(area, exceed)]: one pass over the slabs takes the last
    item of the area from each, and the passes go on until enough bytes are
    gone.  Each pass but the last two removes an item, so there are fewer
    passes than items plus three when the loop ends. *)
Fixpoint keep_round (slabs : nat) (i area exceed_bytes : Z) (first_round : bool) : mdbM Z :=
  match slabs with
  | O => sret exceed_bytes
  | S slabs' =>
      let* sm := get_slab i in
      let '(head, tail) := item_list_get sm area in
      if (head =? 0) || (tail =? 0) then keep_round slabs' (i + 1) area exceed_bytes first_round
      else if (area_get 0 (item_count sm) area <? u32 (per_slab sm)) && first_round then
        keep_round slabs' (i + 1) area exceed_bytes first_round
      else
        let* l := id_to_item tail in
        let* it := get_item l in
        let exceed_bytes := s32 (exceed_bytes - (key_len it + data_len it)) in
        let* _ := __remove l in
        if exceed_bytes <=? 0 then sret exceed_bytes
        else keep_round slabs' (i + 1) area exceed_bytes first_round
  end.
Fixpoint keep_rounds (fuel : nat) (area exceed_bytes : Z) (first_round : bool) : mdbM unit :=
  match fuel with
  | O => slift Diverge
  | S fuel' =>
      if 0 <? exceed_bytes then
        let* s := sget in
        let* exceed_bytes := keep_round (length (m_slabs s)) 0 area exceed_bytes first_round in
        keep_rounds fuel' area exceed_bytes false
      else sret tt
  end.
Definition keep_area_quota (area exceed : Z) : mdbM unit :=
  need* (0 <=? area) && (area <? TAIR_MAX_AREA_COUNT) in
  need* 0 <? exceed in
  let* s := sget in
  keep_rounds (3 + base.size (m_items s)) area exceed true.

(** [check_quota()] *)
Fixpoint check_quota_loop (n : nat) (i : Z) : mdbM unit :=
  match n with
  | O => sret tt
  | S n' =>
      let* st := get_stat i in
      let* _ := (if (data_size st =? 0) || (data_size st <=? quota st) then sret tt
                 else keep_area_quota i (s32 (data_size st - quota st))) in
      check_quota_loop n' (i + 1)
  end.
Definition check_quota : mdbM unit := check_quota_loop (Z.to_nat TAIR_MAX_AREA_COUNT) 0.

(** ** Balancing the slabs

    [share all current mine] is [(int)(mine / (all / current))], computed in
    floating point.  A slab without items is left out. *)
Definition slab_should (sm : slab_manager) : Z := item_total_count sm + evict_total_count sm.
Definition slab_need_page (share : Z -> Z -> Z -> Z) (all current : Z) (sm : slab_manager) : Z :=
  let need_count := s32 (share all current (slab_should sm) - item_total_count sm) in
  let need_page := (Z.abs need_count + per_slab sm - 1) / per_slab sm in
  if 0 <? need_count then need_page else - need_page.
Definition calc_slab_balance_info (share : Z -> Z -> Z -> Z) : mdbM (list (Z * Z)) :=
  let* s := sget in
  let used := base.filter (fun sm => item_total_count sm <> 0) (m_slabs s) in
  let current := foldr Z.add 0 (map item_total_count used) in
  let all := foldr Z.add 0 (map slab_should used) in
  if (all =? 0) || (current =? 0) then sret []
  else
    let info := map (fun sm => (slab_id sm, slab_need_page share all current sm)) used in
    let need_alloc_page := foldr Z.add 0 (map (fun p => Z.max p.2 0) info) in
    sret (if need_alloc_page <=? free_pages (m_pool s)
          then map (fun p => (p.1, Z.max p.2 0)) info else info).

Fixpoint free_some_pages (n : nat) (slab : Z) : mdbM unit :=
  match n with
  | O => sret tt
  | S n' =>
      let* r := cache_free_page slab in
      if negb (r =? 0) then sret tt else free_some_pages n' slab
  end.
Fixpoint balance_loop (slab_info : list (Z * Z)) : mdbM unit :=
  match slab_info with
  | [] => sret tt
  | (slab, pages) :: rest =>
      let* _ := (if pages <? 0 then free_some_pages (Z.to_nat (- pages)) slab else sret tt) in
      balance_loop rest
  end.
Definition balance_slab (share : Z -> Z -> Z -> Z) : mdbM unit :=
  let* slab_info := calc_slab_balance_info share in balance_loop slab_info.

(** ** clear *)

(** The whole list of the area's items in one slab; the link is read before
    the item is removed. *)
Fixpoint clear_list (fuel : nat) (item_head : Z) : mdbM unit :=
  match fuel with
  | O => slift Diverge
  | S fuel' =>
      if item_head =? 0 then sret tt
      else
        let* l := id_to_item item_head in
        let* it := get_item l in
        let* _ := __remove l in
        clear_list fuel' (next it)
  end.
Fixpoint clear_slabs (n : nat) (i area : Z) : mdbM unit :=
  match n with
  | O => sret tt
  | S n' =>
      let* item_head := get_item_head i area in
      let* s := sget in
      let* _ := clear_list (S (base.size (m_items s))) item_head in
      clear_slabs n' (i + 1) area
  end.
Definition clear_area (area : Z) : mdbM unit :=
  need* (0 <=? area) && (area <? TAIR_MAX_AREA_COUNT) in
  let* s := sget in
  clear_slabs (Z.to_nat (get_slabs_count s)) 0 area.
Fixpoint clear_areas (n : nat) (i : Z) : mdbM unit :=
  match n with
  | O => sret tt
  | S n' => let* _ := clear_area i in clear_areas n' (i + 1)
  end.
Definition clear (share : Z -> Z -> Z -> Z) (area : Z) : mdbM unit :=
  if area =? -1 then remove_exprd_item
  else if area =? -2 then let* _ := balance_slab share in balance_slab_done
  else if area =? -3 then clear_areas (Z.to_nat TAIR_MAX_AREA_COUNT) 0
  else clear_area area.

(** ** Lemmas *)

Lemma update_stat_run a f s :
  0 <= a < TAIR_MAX_AREA_COUNT ->
  update_stat a f s = Ret (tt, set_m_stat (area_upd zero_area_stat f a) s).
Proof.
  intros Ha. unfold update_stat.
  assert (get_stat a s = Ret (area_get zero_area_stat (m_stat s) a, s)) as E.
  { unfold get_stat. destruct (Z.leb_spec 0 a), (Z.ltb_spec a TAIR_MAX_AREA_COUNT); try lia. done. }
  by step_with E.
Qed.

Lemma crrnt_time_run s : crrnt_time s = Ret (u32 (m_now s), s).
Proof. done. Qed.

(** The map a table stands for does not depend on the lists of the slabs. *)
Lemma hash_rep_core s s' m chains :
  core <$> m_items s' = core <$> m_items s -> m_hash s' = m_hash s ->
  hash_rep s m chains -> hash_rep s' m chains.
Proof.
  intros Hc Hh Hrep. constructor; rewrite ?Hh; try apply Hrep.
  - intros b Hb. eapply hchain_frame; [|by apply Hrep]. intros l it _ Eit.
    destruct (core_lookup _ _ _ _ Hc Eit) as (it' & E' & Hcc). exists it'.
    split; [done|]. by apply core_fields.
  - intros b l Hl. destruct (hr_item _ _ _ Hrep b l Hl) as (it & Eit & Hok & Hb & Hm).
    destruct (core_lookup _ _ _ _ Hc Eit) as (it' & E' & Hcc).
    destruct (core_fields _ _ Hcc) as (_ & Ek & _ & Ed & _). exists it'. split; [done|].
    unfold item_key_ok, ITEM_KEY in *. rewrite Ek, Ed. done.
  - intros k l Hm. destruct (hr_map _ _ _ Hrep k l Hm) as (it & Eit & Ek & Hl).
    destruct (core_lookup _ _ _ _ Hc Eit) as (it' & E' & Hcc).
    destruct (core_fields _ _ Hcc) as (_ & Ek' & _ & Ed & _). exists it'. split; [done|].
    unfold ITEM_KEY in *. by rewrite Ek', Ed.
Qed.

(** What [do_get] leaves in the two entries it fills from an item. *)
Definition got_value (it : mdb_item) (value : data_entry) : data_entry :=
  set_meta_fields (fun _ => exptime it) same_field (fun _ => u8 (ITEM_FLAGS (item_id it)))
    (fun _ => u16 (key_len it)) (fun _ => u24 (data_len it))
    (DataEntry.set_version (MdbItem.version it)
       (DataEntry.set_data (Some (ITEM_DATA it)) (data_len it) true value)).
Definition got_key (it : mdb_item) (key : data_entry) : data_entry :=
  set_meta_fields (fun _ => exptime it) (fun _ => update_time it) (fun _ => u8 (ITEM_FLAGS (item_id it)))
    (fun _ => u16 (key_len it)) (fun _ => u24 (data_len it))
    (DataEntry.set_version (MdbItem.version it) key).

Section get.
Context (s : mdb) (m : gmap (list Z) loc) (chains : Z -> list loc) (key value : data_entry).
Hypothesis Hrep : hash_rep s m chains.
Hypothesis Hkey : get_data key <> [].
Hypothesis Harea : 0 <= area key < TAIR_MAX_AREA_COUNT.

Lemma remove_if_expired_miss :
  m !! get_data key = None -> remove_if_expired key s = Ret ((false, None), s).
Proof.
  intros Hm. unfold remove_if_expired. step_with (hash_find_spec s m chains Hrep _ Hkey). by rewrite Hm.
Qed.

Lemma remove_if_expired_live l it :
  m !! get_data key = Some l -> m_items s !! l = Some it -> item_expired (u32 (m_now s)) it = false ->
  remove_if_expired key s = Ret ((false, Some l), s).
Proof.
  intros Hm Eit Hexp. unfold remove_if_expired. step_with (hash_find_spec s m chains Hrep _ Hkey).
  rewrite Hm. step_with (get_item_run _ _ _ Eit). step_with (crrnt_time_run s). by rewrite Hexp.
Qed.

Lemma do_get_miss :
  m !! get_data key = None ->
  do_get key value s =
  Ret ((TAIR_RETURN_DATA_NOT_EXIST, key, value),
       set_m_stat (area_upd zero_area_stat (set_get_count (fun x => u64 (x + 1))) (area key)) s).
Proof.
  intros Hm. unfold do_get. step_with (remove_if_expired_miss Hm).
  rewrite sbind_ret. step_with (update_stat_run (area key) (set_get_count (fun x => u64 (x + 1))) s Harea). done.
Qed.

Lemma do_get_hit l it i sm lists :
  m !! get_data key = Some l -> m_items s !! l = Some it ->
  item_expired (u32 (m_now s)) it = false -> area key = ITEM_AREA it ->
  item_names i (Some l) (item_id it) -> m_slabs s !! Z.to_nat i = Some sm ->
  slab_lists i sm (m_items s) lists -> l ∈ lists (area key) ->
  exists s' sm', do_get key value s = Ret ((0, got_key it key, got_value it value), s')
    /\ m_stat s' = area_upd zero_area_stat (set_get_count (fun x => u64 (x + 1))) (area key)
                     (area_upd zero_area_stat (set_hit_count (fun x => u64 (x + 1))) (area key) (m_stat s))
    /\ same_but_lists i sm sm' s (set_m_stat (fun _ => m_stat s) s')
    /\ slab_lists i sm' (m_items s') (moved l (area key) (area key) lists) /\ untouched lists s s'.
Proof.
  intros Hm Eit Hexp Ha Hid Hsm Hl Hin.
  destruct (slab_update_item_spec i l (ITEM_AREA it) s it sm lists Eit Hid Hsm)
    as (s' & sm' & E & Hsame & Hl' & Hout); [rewrite <- Ha; apply Harea|rewrite <- Ha; apply Harea|done|by rewrite <- Ha|].
  destruct (names_loc _ _ _ Hid) as [_ Ei].
  set (s1 := set_m_stat (area_upd zero_area_stat (set_hit_count (fun x => u64 (x + 1))) (area key)) s').
  exists (set_m_stat (area_upd zero_area_stat (set_get_count (fun x => u64 (x + 1))) (area key)) s1), sm'.
  split.
  { unfold do_get. step_with (remove_if_expired_live l it Hm Eit Hexp).
    erewrite (sbind_run _ _ s (0, got_key it key, got_value it value) s1).
    2: { step_with (get_item_run _ _ _ Eit). rewrite sassert_run by (by apply Z.eqb_eq).
         assert (cache_update_item l s = Ret (tt, s')) as Eu.
         { unfold cache_update_item. step_with (get_item_run _ _ _ Eit). by rewrite Ei. }
         step_with Eu. by step_with (update_stat_run (area key) (set_hit_count (fun x => u64 (x + 1))) s' Harea). }
    by step_with (update_stat_run (area key) (set_get_count (fun x => u64 (x + 1))) s1 Harea). }
  destruct Hsame as (Hs1 & Hs2 & Hs3 & Hs4 & Hs5 & Hs6 & Hs7 & Hs8).
  split; [cbn [m_stat set_m_stat s1]; by rewrite Hs6|]. split; [by repeat (split; [done|])|].
  split; [rewrite Ha; exact Hl'|exact Hout].
Qed.
End get.

(** *** Scanning *)
Section scan.
Context (s : mdb) (m : gmap (list Z) loc) (chains : Z -> list loc)
  (bucket_count db : Z) (malloced : item_meta_info).
Hypothesis Hrep : hash_rep s m chains.
Hypothesis Hsize : bucket_size (m_hash s) < 2 ^ 32.
Hypothesis Hlive : forall l it, m_items s !! l = Some it -> reached (u32 (m_now s)) it = false.

(** What a scan takes from the items of one bucket, and of [n] buckets. *)
Definition dumped (b : Z) : list item_data_info :=
  map (item_data_of malloced)
    (base.filter (fun it => server_hash bucket_count it = db) (omap (fun l => m_items s !! l) (chains b))).
Fixpoint dump_from (n : nat) (b : Z) : list item_data_info :=
  match n with O => [] | S n' => dumped b ++ dump_from n' (b + 1) end.

Lemma collect_items_spec fuel head ls acc :
  hchain (m_items s) head ls -> (length ls < fuel)%nat ->
  collect_items fuel head bucket_count db (u32 (m_now s)) malloced acc s =
  Ret (acc ++ map (item_data_of malloced)
         (base.filter (fun it => server_hash bucket_count it = db) (omap (fun l => m_items s !! l) ls)), s).
Proof.
  revert fuel head acc. induction ls as [|l ls IH]; intros [|fuel] head acc Hc Hf; try (simpl in Hf; lia).
  - simpl in Hc. subst head. cbn. by rewrite app_nil_r.
  - destruct Hc as (Hne & Hl & it & Eit & Hc). cbn [collect_items].
    destruct (Z.eqb_spec head 0); [done|]. step_with (id_to_item_run head s Hne). rewrite Hl.
    step_with (get_item_run _ _ _ Eit). rewrite (Hlive l it Eit).
    cbn [omap list_omap]. rewrite Eit. simpl in Hf.
    destruct (Z.eqb_spec (server_hash bucket_count it) db) as [Eh|Eh]; cbn [negb].
    + rewrite (filter_cons_True _ it) by done. rewrite (IH _ (h_next it)) by (done || lia). cbn [map]. by rewrite <- app_assoc.
    + rewrite (filter_cons_False _ it) by done. by rewrite (IH _ (h_next it)) by (done || lia).
Qed.

Lemma empty_bucket b :
  0 <= b < bucket_size (m_hash s) -> area_get 0 (hashtable (m_hash s)) b = 0 -> chains b = [].
Proof.
  intros Hb E. pose proof (hr_chain _ _ _ Hrep b Hb) as Hc. rewrite E in Hc.
  destruct (chains b); [done|]. by destruct Hc.
Qed.

Lemma read_bucket_at b :
  0 <= b < bucket_size (m_hash s) -> read_bucket b s = Ret (area_get 0 (hashtable (m_hash s)) b, s).
Proof.
  intros Hb. unfold read_bucket.
  destruct (Z.leb_spec 0 b), (Z.ltb_spec b (bucket_size (m_hash s))); try lia. done.
Qed.

Lemma next_bucket_spec n i :
  0 <= i -> i + Z.of_nat n = bucket_size (m_hash s) ->
  exists k, (k <= n)%nat
    /\ next_bucket n i s = Ret ((i + Z.of_nat k, if decide (k = n) then 0
                                 else area_get 0 (hashtable (m_hash s)) (i + Z.of_nat k)), s)
    /\ (k <> n -> area_get 0 (hashtable (m_hash s)) (i + Z.of_nat k) <> 0)
    /\ dump_from n i = dump_from (n - k) (i + Z.of_nat k).
Proof.
  revert i. induction n as [|n IH]; intros i Hi Hn.
  { exists 0%nat. simpl. rewrite Z.add_0_r. split; [lia|]. split; [done|]. split; [lia|done]. }
  cbn [next_bucket]. step_with (read_bucket_at i ltac:(lia)).
  destruct (Z.eqb_spec (area_get 0 (hashtable (m_hash s)) i) 0) as [E|E].
  - destruct (IH (i + 1)) as (k & Hk & Hr & Hne & Hd); [lia|lia|].
    exists (S k). split; [lia|]. replace (i + Z.of_nat (S k)) with (i + 1 + Z.of_nat k) by lia.
    split; [rewrite Hr; do 3 f_equal; repeat case_decide; lia || done|].
    split; [intros; apply Hne; lia|]. cbn [dump_from Nat.sub]. rewrite <- Hd.
    unfold dumped. by rewrite (empty_bucket i) by (done || lia).
  - exists 0%nat. rewrite Z.add_0_r. split; [lia|]. split; [done|]. split; [done|]. by rewrite Nat.sub_0_r.
Qed.

Lemma bucket_chain_length b : (length (chains b) < S (base.size (m_items s)))%nat.
Proof.
  pose proof (chain_length (m_items s) (chains b) (hr_nodup _ _ _ Hrep b)) as H.
  assert (forall l, l ∈ chains b -> is_Some (m_items s !! l)) as Hin; [|specialize (H Hin); lia].
  intros l Hl. destruct (hr_item _ _ _ Hrep b l Hl) as (it & E & _). by eexists.
Qed.

(** One call: the items of the first bucket that is not empty. *)
Lemma get_next_items_spec info acc :
  0 <= hash_index info <= bucket_size (m_hash s) -> db_id info = db ->
  exists k n', let n := Z.to_nat (bucket_size (m_hash s) - hash_index info) in
    let b := hash_index info + Z.of_nat k in
    get_next_items bucket_count malloced info acc s =
      (if decide (k = n) then Ret ((false, mk_md_info b db (is_migrate info), acc), s)
       else Ret ((negb (bucket_size (m_hash s) <=? b + 1), mk_md_info (b + 1) db (is_migrate info),
                  acc ++ dumped b), s))
    /\ (k <= n)%nat /\ n' = (n - k)%nat /\ dump_from n (hash_index info) = dump_from n' b.
Proof.
  intros Hi Hdb.
  destruct (next_bucket_spec (Z.to_nat (bucket_size (m_hash s) - hash_index info)) (hash_index info))
    as (k & Hk & Hr & Hne & Hd); [lia|lia|].
  exists k. eexists. cbv zeta. split; [|done].
  unfold get_next_items. step_with (eq_refl : sget s = Ret (s, s)). step_with Hr. rewrite Hdb.
  assert (forall z, 0 <= z <= bucket_size (m_hash s) -> u32 z = z) as Hu
    by (intros; apply wrap_id; unfold in_u; lia).
  case_decide as E; cbn [Z.eqb].
  - rewrite Hu by lia. done.
  - destruct (Z.eqb_spec (area_get 0 (hashtable (m_hash s)) (hash_index info + Z.of_nat k)) 0)
      as [E0|E0]; [by apply Hne in E0|].
    pose proof (hr_chain _ _ _ Hrep (hash_index info + Z.of_nat k) ltac:(lia)) as Hc.
    step_with (crrnt_time_run s).
    step_with (collect_items_spec (S (base.size (m_items s))) _ _ acc Hc (bucket_chain_length _)).
    rewrite !Hu by lia. done.
Qed.

(** [do { more = get_next_items(info, items) } while (more)], the way the
    migration and the dump use it *)
Fixpoint scan_loop (fuel : nat) (info : md_info) : mdbM (list item_data_info) :=
  match fuel with
  | O => slift Diverge
  | S fuel' =>
      let* (more, info, items) := get_next_items bucket_count malloced info [] in
      if more : bool then let* rest := scan_loop fuel' info in sret (items ++ rest) else sret items
  end.

Lemma scan_loop_spec fuel info :
  0 <= hash_index info <= bucket_size (m_hash s) -> db_id info = db ->
  let n := Z.to_nat (bucket_size (m_hash s) - hash_index info) in
  (n < fuel)%nat -> scan_loop fuel info s = Ret (dump_from n (hash_index info), s).
Proof.
  revert info. induction fuel as [|fuel IH]; intros info Hi Hdb n Hf; [lia|].
  destruct (get_next_items_spec info [] Hi Hdb) as (k & n' & Hr & Hk & -> & Hd). fold n in Hr, Hk, Hd.
  cbn [scan_loop]. rewrite Hd. case_decide as E.
  - step_with Hr. by replace (n - k)%nat with 0%nat by lia.
  - step_with Hr. replace (n - k)%nat with (S (n - k - 1)) by lia. cbn [dump_from app].
    destruct (Z.leb_spec (bucket_size (m_hash s)) (hash_index info + Z.of_nat k + 1)); cbn [negb].
    + replace (n - k - 1)%nat with 0%nat by lia. cbn. by rewrite app_nil_r.
    + specialize (IH (mk_md_info (hash_index info + Z.of_nat k + 1) db (is_migrate info))).
      cbn [hash_index] in IH. rewrite (sbind_run _ _ _ _ _ (IH ltac:(lia) eq_refl ltac:(lia))). unfold sret. do 4 f_equal. unfold n in *. lia.
Qed.

(** The chains of the buckets together are the items of the map, each once. *)
Definition chained (n : nat) (b : Z) : list loc := concat (map chains (seqZ b (Z.of_nat n))).

Lemma dump_from_chained n b :
  dump_from n b = map (item_data_of malloced)
    (base.filter (fun it => server_hash bucket_count it = db) (omap (fun l => m_items s !! l) (chained n b))).
Proof.
  revert b. induction n as [|n IH]; intros b; [done|]. cbn [dump_from]. rewrite IH. unfold dumped, chained.
  rewrite (seqZ_cons b) by lia. cbn [map concat]. rewrite omap_app, list.filter_app, map_app.
  replace (Z.succ b) with (b + 1) by lia. replace (Z.pred (Z.of_nat (S n))) with (Z.of_nat n) by lia. done.
Qed.

Lemma elem_of_chained n b l :
  l ∈ chained n b <-> exists c, b <= c < b + Z.of_nat n /\ l ∈ chains c.
Proof.
  unfold chained. rewrite list_elem_of_In, in_concat. setoid_rewrite in_map_iff. split.
  - intros (ls & (c & <- & Hc) & Hl). exists c. split; [|by apply list_elem_of_In].
    apply list_elem_of_In, elem_of_seqZ in Hc. lia.
  - intros (c & Hc & Hl). exists (chains c). split; [|by apply list_elem_of_In].
    exists c. split; [done|]. apply list_elem_of_In, elem_of_seqZ. lia.
Qed.

Lemma NoDup_chained n b : base.NoDup (chained n b).
Proof.
  revert b. induction n as [|n IH]; intros b; [constructor|].
  assert (chained (S n) b = chains b ++ chained n (b + 1)) as ->.
  { unfold chained. rewrite (seqZ_cons b) by lia. cbn [map concat].
    replace (Z.succ b) with (b + 1) by lia. replace (Z.pred (Z.of_nat (S n))) with (Z.of_nat n) by lia. done. }
  apply list.NoDup_app. split; [apply Hrep|]. split; [|apply IH].
  intros l Hl (c & Hc & Hl2)%elem_of_chained.
  destruct (hr_item _ _ _ Hrep b l Hl) as (it & E & _ & Eb & _), (hr_item _ _ _ Hrep c l Hl2) as (it2 & E2 & _ & Ec & _).
  rewrite E in E2. injection E2 as <-. lia.
Qed.

Lemma omap_snd (l : list (list Z * loc)) :
  omap (fun l => m_items s !! l) l.*2 = omap (fun kl => m_items s !! kl.2) l.
Proof. induction l as [|kl l IH]; [done|]. cbn. by rewrite IH. Qed.

Lemma chained_items : chained (Z.to_nat (bucket_size (m_hash s))) 0 ≡ₚ (map_to_list m).*2.
Proof.
  apply NoDup_Permutation; [apply NoDup_chained| |].
  - apply list.NoDup_fmap_2_strong; [|apply NoDup_map_to_list].
    intros [k1 l1] [k2 l2] H1%elem_of_map_to_list H2%elem_of_map_to_list. cbn. intros ->.
    destruct (hr_map _ _ _ Hrep k1 l2 H1) as (it & E & <- & _), (hr_map _ _ _ Hrep k2 l2 H2) as (it2 & E2 & <- & _).
    rewrite E in E2. by injection E2 as <-.
  - intros l. rewrite elem_of_chained, list_elem_of_fmap. split.
    + intros (c & _ & Hl). destruct (hr_item _ _ _ Hrep c l Hl) as (it & _ & _ & _ & Hm).
      exists (ITEM_KEY it, l). split; [done|]. by apply elem_of_map_to_list.
    + intros ([k l'] & -> & Hm%elem_of_map_to_list). destruct (hr_map _ _ _ Hrep k l' Hm) as (it & _ & _ & Hl).
      exists (get_bucket_index (m_hash s) k). split; [|done]. pose proof (bucket_range s m chains Hrep k). lia.
Qed.
End scan.

(** *** put *)

(** The key [do_put] works with: its area is that of its bytes. *)
Definition put_key (key : data_entry) : data_entry :=
  if area key =? KEY_AREA (get_data key) then key else set_area (KEY_AREA (get_data key)) key.

Lemma put_key_same key : get_data (put_key key) = get_data key /\ get_version (put_key key) = get_version key.
Proof. unfold put_key. by destruct (area key =? _). Qed.

Lemma put_replace_stale s m chains key l it :
  hash_rep s m chains -> get_data key <> [] -> m !! get_data key = Some l -> m_items s !! l = Some it ->
  item_expired (u32 (m_now s)) it = false ->
  get_version key <> 0 -> get_version key <> MdbItem.version it ->
  put_replace key true s = Ret (None, s).
Proof.
  intros Hrep Hk Hm Eit Hexp Hv Hne. unfold put_replace. step_with (crrnt_time_run s).
  step_with (hash_find_spec s m chains Hrep _ Hk). rewrite Hm. step_with (get_item_run _ _ _ Eit).
  rewrite Hexp. destruct (Z.eqb_spec (get_version key) 0); [done|].
  destruct (Z.eqb_spec (MdbItem.version it) (get_version key)); [by symmetry in e|]. done.
Qed.

(** *** Quotas *)
Lemma check_quota_within n i s :
  0 <= i -> i + Z.of_nat n <= TAIR_MAX_AREA_COUNT ->
  (forall a, i <= a < i + Z.of_nat n ->
     data_size (area_get zero_area_stat (m_stat s) a) <= quota (area_get zero_area_stat (m_stat s) a)) ->
  forall k, check_quota_loop (n + k) i s = check_quota_loop k (i + Z.of_nat n) s.
Proof.
  revert i. induction n as [|n IH]; intros i Hi Hn Hle k; [by rewrite Z.add_0_r|].
  cbn [check_quota_loop Nat.add].
  assert (get_stat i s = Ret (area_get zero_area_stat (m_stat s) i, s)) as E.
  { unfold get_stat. destruct (Z.leb_spec 0 i), (Z.ltb_spec i TAIR_MAX_AREA_COUNT); try lia. done. }
  step_with E. specialize (Hle i ltac:(lia)) as Hq.
  rewrite (proj2 (Z.leb_le _ _) Hq), orb_true_r, sbind_ret. rewrite IH by (try intros; try apply Hle; lia).
  f_equal. lia.
Qed.

(** ** Properties *)

(** [get] reads the map the table stands for.  A key that is not in the
    map gives DATA_NOT_EXIST and only counts.  A key whose item has not
    expired gives the item's value, version, flags and times, makes the item
    the most recently used one of its list, counts a hit, and changes neither
    the map nor any item but for its list links. *)
Theorem get_reads_the_map s m chains key value :
  hash_rep s m chains -> get_data key <> [] -> 0 <= area key < TAIR_MAX_AREA_COUNT ->
  (m !! get_data key = None ->
     do_get key value s =
     Ret ((TAIR_RETURN_DATA_NOT_EXIST, key, value),
          set_m_stat (area_upd zero_area_stat (set_get_count (fun x => u64 (x + 1))) (area key)) s))
  /\ (forall l it i sm lists,
        m !! get_data key = Some l -> m_items s !! l = Some it ->
        item_expired (u32 (m_now s)) it = false -> area key = ITEM_AREA it ->
        item_names i (Some l) (item_id it) -> m_slabs s !! Z.to_nat i = Some sm ->
        slab_lists i sm (m_items s) lists -> l ∈ lists (area key) -> in_u 16 (MdbItem.version it) ->
        exists s' sm' key' value', do_get key value s = Ret ((0, key', value'), s')
          /\ get_data value' = ITEM_DATA it /\ get_data key' = get_data key
          /\ get_version value' = MdbItem.version it /\ get_version key' = MdbItem.version it
          /\ edate (data_meta value') = exptime it /\ flag (data_meta value') = ITEM_FLAGS (item_id it)
          /\ mdate (data_meta key') = update_time it
          /\ hash_rep s' m chains /\ core <$> m_items s' = core <$> m_items s
          /\ slab_lists i sm' (m_items s') (moved l (area key) (area key) lists)
          /\ m_stat s' = area_upd zero_area_stat (set_get_count (fun x => u64 (x + 1))) (area key)
                (area_upd zero_area_stat (set_hit_count (fun x => u64 (x + 1))) (area key) (m_stat s))).
Proof.
  intros Hrep Hk Ha. split; [by apply (do_get_miss s m chains)|].
  intros l it i sm lists Hm Eit Hexp Har Hid Hsm Hl Hin Hv.
  destruct (do_get_hit s m chains key value Hrep Hk Ha l it i sm lists) as (s' & sm' & E & Hst & Hsame & Hl' & _); try done.
  exists s', sm', (got_key it key), (got_value it value). split; [done|].
  destruct Hsame as (_ & _ & _ & _ & Hh & _ & _ & Hc).
  assert (u16 (MdbItem.version it) = MdbItem.version it) as Hu by by apply wrap_id.
  split; [|split; [done|split; [exact Hu|split; [exact Hu|split; [done|split; [|split; [done|split]]]]]]].
  - unfold got_value, get_data. cbn. unfold DataEntry.set_data.
    destruct (Z.ltb_spec 0 (data_len it)); cbn; [unfold ITEM_DATA; by rewrite take_take, Nat.min_id|].
    unfold ITEM_DATA. by replace (Z.to_nat (data_len it)) with 0%nat by lia.
  - cbn. unfold ITEM_FLAGS. apply wrap_id. change 0xF with (Z.ones 4). rewrite Z.land_ones by lia.
    pose proof (Z.mod_pos_bound (Z.shiftr (item_id it) 60) (2 ^ 4)). unfold in_u. lia.
  - by apply (hash_rep_core s).
  - done.
Qed.

(** *** The state of the examples: the item at offset 1 is in the table. *)
Definition demo_full : mdb :=
  match hash_insert (demo_loc 1) (demo_mdb 0) with Ret (_, s) => s | _ => demo_mdb 0 end.
Definition demo_map : gmap (list Z) loc := {[ [5; 0; 1] := demo_loc 1 ]}.

Lemma demo_full_rep : exists chains, hash_rep demo_full demo_map chains.
Proof.
  destruct (hash_insert_spec (demo_mdb 0) ∅ (fun _ => []) (demo_loc 1) (demo_item 1 0 (demo_id 0) 0)
              demo_hash_rep) as (s' & chains' & E & _ & Hr & _); try first [reflexivity | vm_compute; congruence].
  exists chains'. unfold demo_full. rewrite E. exact Hr.
Qed.

Lemma demo_full_items : m_items demo_full = m_items (demo_mdb 0) /\ m_slabs demo_full = [demo_slab].
Proof. split; vm_compute; reflexivity. Qed.

Lemma get_reads_the_map_witness :
  exists chains s' sm' key' value',
    do_get (set_area 5 (data_entry_of [5; 0; 1])) new_data_entry demo_full = Ret ((0, key', value'), s')
    /\ get_data value' = [118] /\ hash_rep s' demo_map chains
    /\ slab_lists 0 sm' (m_items s') (moved (demo_loc 1) 5 5 demo_lists).
Proof.
  destruct demo_full_rep as [chains Hr]. exists chains. destruct demo_full_items as [Ei Es].
  destruct (get_reads_the_map demo_full demo_map chains (set_area 5 (data_entry_of [5; 0; 1])) new_data_entry Hr
              ltac:(vm_compute; congruence) ltac:(vm_compute; split; congruence)) as [_ H].
  destruct (H (demo_loc 1) (demo_item 1 0 (demo_id 0) 0) 0 demo_slab demo_lists)
    as (s' & sm' & key' & value' & E & Hd & _ & _ & _ & _ & _ & _ & Hr' & _ & Hl & _).
  - reflexivity.
  - rewrite Ei. reflexivity.
  - reflexivity.
  - reflexivity.
  - apply demo_names. unfold in_u. lia.
  - rewrite Es. reflexivity.
  - rewrite Ei. apply demo_slab_lists.
  - unfold demo_lists. change (area _) with 5. rewrite fn_lookup_insert. by_decide.
  - vm_compute. split; congruence.
  - exists s', sm', key', value'. split; [exact E|]. split; [rewrite Hd; reflexivity|]. by split.
Defined.

(** a versioned [put] is a compare-and-set.  When the key's item has not
    expired and has another version than the (non-zero) one the caller names,
    [put] answers VERSION_ERROR and changes nothing at all. *)
Theorem put_stale_version_changes_nothing s m chains key value expired l it :
  hash_rep s m chains -> get_data key <> [] -> m !! get_data key = Some l -> m_items s !! l = Some it ->
  item_expired (u32 (m_now s)) it = false ->
  get_version key <> 0 -> get_version key <> MdbItem.version it ->
  do_put key value true expired s = Ret ((TAIR_RETURN_VERSION_ERROR, put_key key), s).
Proof.
  intros Hrep Hk Hm Eit Hexp Hv Hne. unfold do_put. fold (put_key key).
  destruct (put_key_same key) as [Ed Ev].
  rewrite (sbind_run _ _ _ _ _ (put_replace_stale s m chains (put_key key) l it Hrep
    ltac:(by rewrite Ed) ltac:(by rewrite Ed) Eit Hexp ltac:(by rewrite Ev) ltac:(by rewrite Ev))). done.
Qed.

Lemma put_stale_version_changes_nothing_witness :
  do_put (DataEntry.set_version 7 (set_area 5 (data_entry_of [5; 0; 1]))) (data_entry_of [120]) true 0 demo_full
  = Ret ((TAIR_RETURN_VERSION_ERROR, DataEntry.set_version 7 (set_area 5 (data_entry_of [5; 0; 1]))), demo_full).
Proof.
  destruct demo_full_rep as [chains Hr]. destruct demo_full_items as [Ei _].
  refine (put_stale_version_changes_nothing demo_full demo_map chains
            (DataEntry.set_version 7 (set_area 5 (data_entry_of [5; 0; 1]))) (data_entry_of [120]) 0
            (demo_loc 1) (demo_item 1 0 (demo_id 0) 0) Hr _ eq_refl _ eq_refl _ _);
    try (vm_compute; congruence).
Defined.

(** The items of a map whose keys hash to the cluster bucket [db], as a scan
    hands them out *)
Definition bucket_items (s : mdb) (m : gmap (list Z) loc) (bucket_count db : Z) (malloced : item_meta_info)
    : list item_data_info :=
  map (item_data_of malloced)
    (base.filter (fun it => server_hash bucket_count it = db) (omap (fun kl => m_items s !! kl.2) (map_to_list m))).

(** C23: a scan of a table in which no item is past its time gives every item
    of the cluster bucket [db], each exactly once, and changes nothing.
    Repeating [get_next_items] from [begin_scan] until it reports no more ends,
    and the items it has yielded are, up to their order, the bytes and metadata
    of the items of the map whose keys hash to [db].  (An item past its time
    would be removed on the way.) *)
Theorem scan_yields_the_bucket s m chains bucket_count malloced info :
  hash_rep s m chains -> bucket_size (m_hash s) < 2 ^ 32 ->
  (forall l it, m_items s !! l = Some it -> reached (u32 (m_now s)) it = false) ->
  exists items,
    (forall fuel, bucket_size (m_hash s) < Z.of_nat fuel ->
       scan_loop bucket_count malloced fuel (begin_scan info) s = Ret (items, s))
    /\ items ≡ₚ bucket_items s m bucket_count (db_id info) malloced.
Proof.
  intros Hrep Hsz Hlive. pose proof (hr_size _ _ _ Hrep) as Hpos.
  exists (dump_from s chains bucket_count (db_id info) malloced (Z.to_nat (bucket_size (m_hash s))) 0). split.
  - intros fuel Hf.
    rewrite (scan_loop_spec s m chains bucket_count (db_id info) malloced Hrep Hsz Hlive fuel (begin_scan info));
      cbn [hash_index begin_scan]; [|lia|done|lia]. by rewrite Z.sub_0_r.
  - rewrite dump_from_chained. unfold bucket_items. apply Permutation_map, filter_Permutation.
    rewrite (chained_items s m chains Hrep). apply reflexive_eq, omap_snd.
Qed.

Lemma scan_yields_the_bucket_witness :
  exists items,
    (forall fuel, 1 < Z.of_nat fuel ->
       scan_loop 1 zero_meta fuel (begin_scan (mk_md_info 0 0 1)) demo_full = Ret (items, demo_full))
    /\ length items = 1%nat /\ item_data_of zero_meta (demo_item 1 0 (demo_id 0) 0) ∈ items.
Proof.
  destruct demo_full_rep as [chains Hr]. destruct demo_full_items as [Ei _].
  destruct (scan_yields_the_bucket demo_full demo_map chains 1 zero_meta (mk_md_info 0 0 1) Hr)
    as (items & Hrun & Hin).
  - vm_compute. reflexivity.
  - rewrite Ei. apply (map_Forall_insert_2 (fun _ it => reached (u32 (m_now demo_full)) it = false)); [reflexivity|].
    apply map_Forall_singleton. reflexivity.
  - exists items. split; [exact Hrun|]. split; rewrite Hin; [by vm_compute|].
    vm_compute. first [apply list_elem_of_here | apply list_elem_of_further, list_elem_of_here].
Defined.

(** an area far over its quota stops the server.  The excess is handed to
    [keep_area_quota] as a 32-bit [int], so that between 2 and 4 GiB it is
    negative there and the assertion that it is positive fails. *)
Theorem large_excess_aborts s a :
  0 <= a < TAIR_MAX_AREA_COUNT ->
  (forall b, 0 <= b < a -> data_size (area_get zero_area_stat (m_stat s) b)
                           <= quota (area_get zero_area_stat (m_stat s) b)) ->
  2 ^ 31 <= data_size (area_get zero_area_stat (m_stat s) a) - quota (area_get zero_area_stat (m_stat s) a)
    <= 2 ^ 32 ->
  0 <= quota (area_get zero_area_stat (m_stat s) a) ->
  check_quota s = Abort.
Proof.
  intros Ha Hbelow Hex Hq. unfold check_quota.
  replace (Z.to_nat TAIR_MAX_AREA_COUNT) with (Z.to_nat a + Z.to_nat (TAIR_MAX_AREA_COUNT - a))%nat by lia.
  rewrite check_quota_within by (try intros; try apply Hbelow; lia).
  rewrite Z2Nat.id, Z.add_0_l by lia.
  destruct (Z.to_nat (TAIR_MAX_AREA_COUNT - a)) as [|k] eqn:Ek; [lia|]. cbn [Z.add check_quota_loop].
  assert (get_stat a s = Ret (area_get zero_area_stat (m_stat s) a, s)) as E.
  { unfold get_stat. destruct (Z.leb_spec 0 a), (Z.ltb_spec a TAIR_MAX_AREA_COUNT); try lia. done. }
  step_with E. set (st := area_get zero_area_stat (m_stat s) a) in *.
  destruct (Z.eqb_spec (data_size st) 0), (Z.leb_spec (data_size st) (quota st)); try lia. cbn [orb].
  unfold sbind, keep_area_quota, sassert.
  destruct (Z.leb_spec 0 a), (Z.ltb_spec a TAIR_MAX_AREA_COUNT); try lia. cbn [andb].
  destruct (Z.ltb_spec 0 (s32 (data_size st - quota st))) as [Hs|Hs]; [|done]. exfalso.
  unfold swrap in Hs. set (d := data_size st - quota st) in *.
  replace (d + 2 ^ (32 - 1)) with (d - 2 ^ 31 + 1 * 2 ^ 32) in Hs by lia.
  rewrite Z_mod_plus_full, Z.mod_small in Hs by lia. lia.
Qed.

Lemma large_excess_aborts_witness :
  check_quota (set_m_stat <[3 := set_data_size (fun _ => 2 ^ 32) (set_quota (fun _ => 2 ^ 30) zero_area_stat)]>
                 (demo_mdb 0)) = Abort.
Proof.
  apply (large_excess_aborts _ 3); cbn; try lia; [split; [done|reflexivity]| |split; vm_compute; congruence|vm_compute; congruence].
  intros b Hb. unfold area_get. rewrite lookup_insert_ne by lia. done.
Defined.
