(* ===== verification/Engine.v ===== *)
(** * The memory engine is a cache (storage/mdb/mdb_manager.cpp)

    The operations of [MdbManager] preserve the invariant of [EngineState] and
    act on its abstract state: [put] stores, [get] reads, [remove] deletes, and
    making room drops at most one other key. *)

From S2P Require Import Prelude Util DataBuffer DataEntry MemPool MdbItem MemCache Dll SlabLists SlabPages SlabAlloc SlabFree SlabEvict CacheHashMap EngineState MdbManager.

(** ** __remove *)

Lemma elem_of_unlisted l a b z (lists : Z -> list loc) :
  z ∈ unlisted l a lists b <-> z ∈ lists b /\ (b = a -> z <> l).
Proof.
  unfold unlisted. destruct (decide (a = b)) as [<-|D].
  - rewrite fn_lookup_insert, list_elem_of_filter. naive_solver.
  - rewrite fn_lookup_insert_ne by done. naive_solver.
Qed.

(** The item in hand goes back to the slab. *)
Lemma free_pending_ok s m vs i sm l it :
  cache_ok s m vs (Some l) -> slab_at s i sm -> l ∈ sv_lists (vs i) (ITEM_AREA it) ->
  (forall k, m !! k <> Some l) -> m_items s !! l = Some it -> item_id it = cid i l ->
  0 <= ITEM_AREA it < TAIR_MAX_AREA_COUNT ->
  exists s' vs' it', cache_free_item l s = Ret (tt, s') /\ cache_ok s' m vs' None
    /\ engine_frame s s' /\ entries_kept m s s' /\ ~ live s' vs' l /\ m_items s' !! l = Some it'.
Proof.
  intros Hck Hi Hl Hout Eit Hid Ha. pose proof (ck_slabs _ _ _ _ Hck) as Hslabs.
  pose proof (sk_slab _ _ Hslabs i sm Hi) as Hok.
  pose proof (slabs_owns _ _ _ _ Hslabs Hi) as Hown.
  pose proof (in_use_loc s i sm (vs i) l Hok (ow_small _ _ Hown) ltac:(by eexists)) as Hloc.
  destruct (slab_free_item_spec s i sm (vs i) l it Hok Hown Eit Hid ltac:(lia) Hl)
    as (s' & sm' & v' & E & Hst & Hlists & Hcore & Hsome).
  pose proof (sl_disjoint _ _ _ _ (io_lists _ _ _ _ _ _ _ (so_items _ _ _ _ Hok))) as Hdis.
  assert (forall a z, z ∈ sv_lists v' a -> z <> l) as Hnl.
  { rewrite Hlists. intros a z [Hz Hne]%elem_of_unlisted ->. apply Hne; [|done]. by eapply Hdis. }
  assert (forall j smj, j <> i -> slab_at s j smj -> in_use (vs j) l -> False) as Hother.
  { intros j smj D Hj Hu. apply D. eapply (live_slab s vs j i); try done. by eexists. }
  assert (cache_ok s' m (<[i := v']> vs) None) as Hck'.
  { eapply cache_ok_step; [exact Hck|exact Hi|exact Hst|..].
    - intros k z itz Hk Ez. assert (z <> l) as D by (intros ->; by apply (Hout k)).
      destruct (core_at_lookup _ _ _ _ (Hcore z D) Ez) as (itz' & Ez' & Hc). exists itz'.
      apply core_fields in Hc. tauto.
    - intros k z itz itz' Hk _ Ez Ez'. assert (z <> l) as D by (intros ->; by apply (Hout k)).
      split; [congruence|]. specialize (Hcore z D). rewrite Ez, Ez' in Hcore. split; [by apply (inj Some)|].
      rewrite Hlists. intros Hz. apply elem_of_unlisted. done.
    - intros a z Hz _. pose proof (Hnl a z Hz) as D. split; [congruence|].
      rewrite Hlists in Hz. apply elem_of_unlisted in Hz as [Hz _]. split; [done|by apply Hcore].
    - intros j smj z D Hj Hu [= <-]. exfalso. by eapply (Hother j smj). }
  destruct Hsome as [it' Eit']. exists s', (<[i := v']> vs), it'.
  split.
  { unfold cache_free_item. step_with (get_item_run _ _ _ Eit). rewrite Hid.
    by destruct (cid_loc i l Hloc (sh_range _ _ (so_shape _ _ _ _ Hok))) as [_ ->]. }
  split; [done|]. split; [by eapply engine_frame_step|]. split; [|split; [|done]].
  - intros k z Hk. assert (z <> l) as D by (intros ->; by apply (Hout k)).
    destruct (ck_item _ _ _ _ Hck k z Hk) as (itz & Ez & _).
    destruct (core_at_lookup _ _ _ _ (Hcore z D) Ez) as (itz' & Ez' & Hc).
    rewrite Ez, Ez'. simpl. f_equal. by apply core_entry.
  - intros Hlv. apply (live_step s s' vs i sm sm' v' Hi Hst) in Hlv as [[a Ha']|(j & smj & D & Hj & Hu)].
    + by apply (Hnl a l).
    + by eapply Hother.
Qed.

Lemma __remove_ok s m vs k l :
  cache_ok s m vs None -> m !! k = Some l ->
  exists s' vs', __remove l s = Ret (tt, s') /\ cache_ok s' (delete k m) vs' None
    /\ engine_frame s s' /\ entries_kept (delete k m) s s'.
Proof.
  intros Hck Hm. destruct (ck_item _ _ _ _ Hck k l Hm) as (it & Eit & Ek).
  destruct (ck_where _ _ _ _ Hck k l it Hm ltac:(done) Eit) as (i & sm & Hi & Hok & Hown & Hl & Hid & Ha).
  unfold __remove. step_with (get_item_run _ _ _ Eit).
  step_with (update_stat_run (ITEM_AREA it) (set_data_size (fun x => u64 (x - (key_len it + data_len it)))) s Ha).
  set (s1 := set_m_stat _ s).
  step_with (update_stat_run (ITEM_AREA it) (set_space_usage (fun x => u64 (x - SLAB_SIZE (item_id it)))) s1 Ha).
  set (s2 := set_m_stat _ s1).
  step_with (update_stat_run (ITEM_AREA it) (set_area_item_count (fun x => u64 (x - 1))) s2 Ha).
  set (s3 := set_m_stat _ s2).
  assert (cache_ok s3 m vs None) as Hck3 by by do 3 apply cache_ok_stat.
  assert (live s3 vs l) as Hlive by (exists i, sm; split; [done|]; by eexists).
  destruct (unhash_ok s3 m vs None l it Hck3 ltac:(by left) Hlive Eit ltac:(by rewrite Ek))
    as (s4 & it4 & E4 & Hck4 & Hef4 & Hst4 & Hsl4 & Hek4 & Eit4 & Hc4). rewrite Ek in Hck4, Hek4.
  step_with E4. step_with (update_item_field_run l (set_item_id CLEAR_FLAGS) it4 s4 Eit4).
  set (it5 := set_item_id CLEAR_FLAGS it4).
  assert (forall k', delete k m !! k' <> Some l) as Hout.
  { intros k' [D Hk']%lookup_delete_Some. apply D. by eapply (ck_inj s m vs None Hck). }
  assert (live s4 vs l) as Hlive4.
  { exists i, sm. split; [unfold slab_at; rewrite Hsl4; exact Hi|]. by eexists. }
  destruct (rewrite_pending_ok s4 _ vs l it4 it5 Hck4 Hlive4 Hout Eit4 eq_refl eq_refl eq_refl (CLEAR_FLAGS_idem _))
    as [Hck5 Hek5]. set (s5 := set_m_items <[l := it5]> s4) in *.
  apply hcore_fields in Hc4 as (_ & _ & _ & _ & Hd4 & _ & _ & Hi4 & _).
  assert (ITEM_AREA it5 = ITEM_AREA it) as Ha5 by (unfold ITEM_AREA; cbn; by rewrite Hd4).
  destruct (free_pending_ok s5 _ vs i sm l it5 Hck5) as (s6 & vs6 & it6 & E6 & Hck6 & Hef6 & Hek6 & Hdead & Eit6).
  { unfold slab_at. cbn. rewrite Hsl4. exact Hi. }
  { by rewrite Ha5. }
  { done. }
  { apply lookup_insert_eq. }
  { cbn. rewrite Hi4. by destruct Hid as (_ & _ & ?). }
  { by rewrite Ha5. }
  step_with E6.
  set (f := fun it => set_exptime (fun _ => 0) (set_data_len (fun _ => 0) (set_key_len (fun _ => 0)
      (MdbItem.set_version (fun _ => 0) (set_update_time (fun _ => 0) it))))).
  rewrite (update_item_field_run l f it6 s6 Eit6).
  destruct (rewrite_dead_ok s6 _ vs6 l it6 (f it6) Hck6 Hdead Eit6 eq_refl eq_refl eq_refl) as [Hck7 Hek7].
  eexists _, vs6. split; [reflexivity|]. split; [exact Hck7|]. split.
  - destruct Hef4 as [A1 A2], Hef6 as [B1 B2]. constructor; cbn in *; congruence.
  - eapply entries_kept_trans; [|exact Hek7]. eapply entries_kept_trans; [|exact Hek6].
    eapply entries_kept_trans; [|exact Hek5]. exact Hek4.
Qed.

(** ** alloc_item *)

Lemma find_slab_spec slabs i size :
  match find_slab slabs i size with
  | Some j => exists n sm, j = i + Z.of_nat n /\ slabs !! n = Some sm /\ size <= slab_size sm
  | None => forall sm, sm ∈ slabs -> slab_size sm < size
  end.
Proof.
  revert i. induction slabs as [|sm slabs IH]; intros i; simpl.
  { intros sm Hsm. by apply elem_of_nil in Hsm. }
  destruct (Z.leb_spec size (slab_size sm)) as [H|H].
  { exists 0%nat, sm. split; [lia|done]. }
  specialize (IH (i + 1)). destruct (find_slab slabs (i + 1) size) as [j|].
  - destruct IH as (n & sm' & -> & Hn & Hs). exists (S n), sm'. split; [lia|done].
  - intros sm' [->|Hs]%elem_of_cons; [done|by apply IH].
Qed.

(** There is a slab for items of this size. *)
Definition room_for (s : mdb) (size : Z) : Prop := exists z, z ∈ map slab_size (m_slabs s) /\ size <= z.

Lemma room_for_frame s s' size : engine_frame s s' -> room_for s size -> room_for s' size.
Proof. intros [_ E] (z & Hz & Hs). exists z. by rewrite E. Qed.

Lemma elem_of_listed l area lists a z : z ∈ listed l area lists a <-> (z = l /\ a = area) \/ z ∈ lists a.
Proof.
  unfold listed. destruct (decide (area = a)) as [<-|D].
  - rewrite fn_lookup_insert, elem_of_cons. naive_solver.
  - rewrite fn_lookup_insert_ne by done. naive_solver.
Qed.

Lemma elem_of_moved l a b lists c z :
  l ∈ lists a -> (forall c, l ∈ lists c -> c = a) ->
  z ∈ moved l a b lists c <-> (z = l /\ c = b) \/ (z <> l /\ z ∈ lists c).
Proof.
  intros Hl Hdis. unfold moved.
  assert (z ∈ (<[a := filter (.≠ l) (lists a)]> lists) c <-> z <> l /\ z ∈ lists c) as H.
  { destruct (decide (a = c)) as [<-|D].
    - rewrite fn_lookup_insert, list_elem_of_filter. done.
    - rewrite fn_lookup_insert_ne by done. split; [|tauto]. intros Hz. split; [|done]. intros ->.
      by apply D; symmetry; apply Hdis. }
  destruct (decide (b = c)) as [<-|D].
  - rewrite fn_lookup_insert, elem_of_cons.
    assert (z ∈ (<[a := filter (.≠ l) (lists a)]> lists) b <-> z <> l /\ z ∈ lists b) as H' by done. naive_solver.
  - rewrite fn_lookup_insert_ne by done. rewrite H. naive_solver.
Qed.

(** The item in hand: in the slab [i], in the list of [area], with its flags clear. *)
Record in_hand (s : mdb) (vs : Z -> slab_view) (l : loc) (it : mdb_item) (i : Z) (sm : slab_manager)
    (area : Z) : Prop := {
  ih_slab : slab_at s i sm;
  ih_list : l ∈ sv_lists (vs i) area;
  ih_item : m_items s !! l = Some it;
  ih_id : item_id it = cid i l;
  ih_loc : loc_ok l /\ in_u 8 i
}.

Lemma in_hand_live s vs l it i sm area : in_hand s vs l it i sm area -> live s vs l.
Proof. intros [H1 H2 _ _ _]. exists i, sm. split; [done|]. by exists area. Qed.

(** What [alloc_item] gave, with the table still holding the key of an item
    that was evicted. *)
Record given (s s' : mdb) (m : gmap (list Z) loc) (vs' : Z -> slab_view) (l : loc) (type size area : Z)
    (it : mdb_item) (i : Z) (sm : slab_manager) : Prop := {
  gv_ok : cache_ok s' m vs' (Some l);
  gv_frame : engine_frame s s';
  gv_hand : in_hand s' vs' l it i sm area;
  gv_room : size - sizeof_mdb_item <= Z.of_nat (length (MdbItem.data it));
  gv_kept : forall k z, m !! k = Some z -> z <> l -> entry_of <$> m_items s' !! z = entry_of <$> m_items s !! z;
  gv_type : (type = ALLOC_NEW /\ forall k, m !! k <> Some l)
            \/ ((type = ALLOC_EXPIRED \/ type = ALLOC_EVICT_SELF \/ type = ALLOC_EVICT_ANY)
                /\ m !! ITEM_KEY it = Some l /\ 0 <= ITEM_AREA it < TAIR_MAX_AREA_COUNT)
}.

Section alloc.
Context (s : mdb) (m : gmap (list Z) loc) (vs : Z -> slab_view) (i : Z) (sm : slab_manager).
Hypothesis Hck : cache_ok s m vs None.
Hypothesis Hi : slab_at s i sm.

Let Hslabs := ck_slabs _ _ _ _ Hck.
Let Hok := sk_slab _ _ Hslabs i sm Hi.

(** Items of the table are left alone by a step that leaves the slab's slots alone. *)
Lemma table_core s' sm' v' k z it :
  slab_step i s s' sm (vs i) sm' v' -> m !! k = Some z -> m_items s !! z = Some it ->
  (in_use (vs i) z -> core <$> m_items s' !! z = core <$> m_items s !! z) ->
  exists it', m_items s' !! z = Some it' /\ core it' = core it.
Proof.
  intros Hst Hk Ez Hc. destruct (ck_live _ _ _ _ Hck k z it Hk ltac:(done) Ez) as (_ & j & smj & Hj & Hl).
  destruct (decide (j = i)) as [->|D].
  - eapply core_at_lookup; [|exact Ez]. apply Hc. by eexists.
  - rewrite (step_foreign_item s s' vs i sm sm' v' Hslabs Hi Hst j smj z D Hj ltac:(by eexists)). by exists it.
Qed.

Lemma hand_of_slab s' sm' v' l it area :
  slab_step i s s' sm (vs i) sm' v' -> l ∈ sv_lists v' area -> m_items s' !! l = Some it -> item_id it = cid i l ->
  in_hand s' (<[i := v']> vs) l it i sm' area
  /\ Z.of_nat (length (MdbItem.data it)) = slab_size sm - sizeof_mdb_item.
Proof.
  intros Hst Hl Eit Hid. pose proof (ss_ok _ _ _ _ _ _ _ Hst) as Hok'.
  pose proof (ow_small _ _ (ps_owns _ _ _ _ (ss_pool _ _ _ _ _ _ _ Hst))) as Hsmall.
  assert (in_use v' l) as Hu by by eexists. split; [constructor|].
  - eapply step_at_self; [exact Hi|exact Hst].
  - by rewrite fn_lookup_insert.
  - done.
  - done.
  - split; [by eapply in_use_loc|apply Hok'].
  - destruct (io_slot _ _ _ _ _ _ _ (so_items _ _ _ _ Hok') l (in_use_slot _ _ _ _ _ Hok' Hu)) as (it' & E' & Hlen & _).
    rewrite Eit in E'. injection E' as <-. rewrite Hlen. destruct (ss_shape _ _ _ _ _ _ _ Hst) as (_ & -> & _). done.
Qed.

Lemma given_new s' sm' v' l it area size :
  slab_step i s s' sm (vs i) sm' v' -> sv_lists v' = listed l area (sv_lists (vs i)) ->
  (forall a, l ∉ sv_lists (vs i) a) -> core_kept (slot sm (sv_where (vs i))) s s' ->
  m_items s' !! l = Some it -> item_id it = cid i l -> size <= slab_size sm ->
  given s s' m (<[i := v']> vs) l ALLOC_NEW size area it i sm'.
Proof.
  intros Hst Hlists Hnew Hcore Eit Hid Hsize.
  assert (forall z, in_use (vs i) z -> core <$> m_items s' !! z = core <$> m_items s !! z) as Hkept
    by (intros z Hz; apply Hcore; by eapply in_use_slot).
  assert (l ∈ sv_lists v' area) as Hl by (rewrite Hlists; apply elem_of_listed; by left).
  destruct (hand_of_slab s' sm' v' l it area Hst Hl Eit Hid) as [Hhand Hlen].
  assert (forall j smj, slab_at s j smj -> ~ in_use (vs j) l) as Hnot.
  { intros j smj Hj Hu. destruct (decide (j = i)) as [->|D]; [destruct Hu as [a Ha]; by apply (Hnew a)|].
    assert (in_use v' l) as Hu' by by exists area.
    destruct (in_use_slot _ _ _ _ _ (ss_ok _ _ _ _ _ _ _ Hst) Hu') as [Hp _].
    destruct (in_use_slot _ _ _ _ _ (sk_slab _ _ Hslabs j smj Hj) Hu) as [Hpj _].
    destruct (step_foreign s s' vs i sm sm' v' Hslabs Hi Hst j smj l.1.1 D Hj Hpj) as [_ Hn].
    rewrite Hn in Hp. by destruct Hp. }
  assert (forall k z, m !! k = Some z -> z <> l) as Hml.
  { intros k z Hk ->. destruct (ck_item _ _ _ _ Hck k l Hk) as (it0 & E0 & _).
    destruct (ck_live _ _ _ _ Hck k l it0 Hk ltac:(done) E0) as (_ & j & smj & Hj & Hlj).
    apply (Hnot j smj Hj). by eexists. }
  constructor; [|exact (engine_frame_step _ _ _ _ _ _ _ Hi Hst)|done|lia| |left; split; [done|intros k Hk; by eapply Hml]].
  - eapply cache_ok_step; [exact Hck|exact Hi|exact Hst|..].
    + intros k z itz Hk Ez. destruct (table_core s' sm' v' k z itz Hst Hk Ez (Hkept z)) as (itz' & Ez' & Hc).
      exists itz'. apply core_fields in Hc. tauto.
    + intros k z itz itz' Hk _ Ez Ez'. destruct (table_core s' sm' v' k z itz Hst Hk Ez (Hkept z)) as (i0 & E0 & Hc).
      rewrite Ez' in E0. injection E0 as <-. split; [done|]. split; [done|].
      rewrite Hlists. intros Hz. apply elem_of_listed. by right.
    + intros a z Hz Hne. split; [done|]. rewrite Hlists in Hz. apply elem_of_listed in Hz as [[-> _]|Hz]; [done|].
      split; [done|]. apply Hkept. by exists a.
    + intros; done.
  - intros k z Hk _. destruct (ck_item _ _ _ _ Hck k z Hk) as (itz & Ez & _).
    destruct (table_core s' sm' v' k z itz Hst Hk Ez (Hkept z)) as (itz' & Ez' & Hc).
    rewrite Ez, Ez'. simpl. f_equal. by apply core_entry.
Qed.

Lemma given_evicted s' sm' l a area type size :
  evicted i s s' sm (vs i) sm' l a area ->
  type = ALLOC_EXPIRED \/ type = ALLOC_EVICT_SELF \/ type = ALLOC_EVICT_ANY -> size <= slab_size sm ->
  exists it, given s s' m (<[i := with_lists (vs i) (moved l a area (sv_lists (vs i)))]> vs) l type size area it i sm'.
Proof.
  intros [Hst Hin (it0 & it & E0 & Eit & Hc0) Hcore] Htype Hsize.
  set (v' := with_lists (vs i) (moved l a area (sv_lists (vs i)))) in *.
  pose proof (sl_disjoint _ _ _ _ (io_lists _ _ _ _ _ _ _ (so_items _ _ _ _ Hok))) as Hdis.
  assert (forall z c, z ∈ sv_lists v' c <-> (z = l /\ c = area) \/ (z <> l /\ z ∈ sv_lists (vs i) c)) as Hmem.
  { intros z c. apply elem_of_moved; [done|]. intros c' Hc'. by eapply Hdis. }
  destruct (ck_map _ _ _ _ Hck i sm a l Hi Hin ltac:(done)) as (i0 & Ei0 & Ha & Hm). rewrite E0 in Ei0. injection Ei0 as <-.
  destruct (ck_where _ _ _ _ Hck _ l it0 Hm ltac:(done) E0) as (j & smj & Hj & _ & _ & Hlj & Hname & Hrange).
  assert (j = i) as -> by (apply (live_slab s vs j i smj sm l Hslabs Hj Hi); [by eexists|by eexists]).
  pose proof (core_fields _ _ Hc0) as (Hn & Hkl & Hdl & Hd & _ & _ & Hid & _).
  assert (item_id it = cid i l) as Hcid by (rewrite Hid; by destruct Hname as (_ & _ & ?)).
  assert (l ∈ sv_lists v' area) as Hl by (apply Hmem; by left).
  destruct (hand_of_slab s' sm' v' l it area Hst Hl Eit Hcid) as [Hhand Hlen]. exists it.
  constructor; [|exact (engine_frame_step _ _ _ _ _ _ _ Hi Hst)|done|lia| |right].
  - eapply cache_ok_step; [exact Hck|exact Hi|exact Hst|..].
    + intros k z itz Hk Ez. destruct (decide (z = l)) as [->|D].
      * rewrite E0 in Ez. injection Ez as <-. by exists it.
      * destruct (table_core s' sm' v' k z itz Hst Hk Ez) as (itz' & Ez' & Hc); [intros _; by apply Hcore|].
        exists itz'. apply core_fields in Hc. tauto.
    + intros k z itz itz' Hk Hne Ez Ez'. assert (z <> l) as D by congruence.
      destruct (table_core s' sm' v' k z itz Hst Hk Ez) as (i1 & E1 & Hc); [intros _; by apply Hcore|].
      rewrite Ez' in E1. injection E1 as <-. split; [done|]. split; [done|]. intros Hz. apply Hmem. by right.
    + intros c z Hz Hne. split; [done|]. apply Hmem in Hz as [[-> _]|[D Hz]]; [done|]. split; [done|by apply Hcore].
    + intros; done.
  - intros k z Hk D. destruct (ck_item _ _ _ _ Hck k z Hk) as (itz & Ez & _).
    destruct (table_core s' sm' v' k z itz Hst Hk Ez) as (itz' & Ez' & Hc); [intros _; by apply Hcore|].
    rewrite Ez, Ez'. simpl. f_equal. by apply core_entry.
  - split; [done|]. unfold ITEM_KEY, ITEM_AREA in *. cbn in Hkl, Hd. by rewrite Hkl, Hd.
Qed.
End alloc.

(** [mem_cache::alloc_item] gives an item with room for [size] bytes. *)
Lemma cache_alloc_ok s m vs size area :
  cache_ok s m vs None -> room_for s size -> 0 <= area < TAIR_MAX_AREA_COUNT ->
  exists l type s' vs' it i sm, cache_alloc_item size area s = Ret (Some (l, type), s')
    /\ given s s' m vs' l type size area it i sm.
Proof.
  intros Hck (z & (sm0 & -> & Hin)%list_elem_of_fmap & Hz) Ha. unfold cache_alloc_item, get_slabmng.
  pose proof (find_slab_spec (m_slabs s) 0 size) as Hf. unfold sbind at 1.
  destruct (find_slab (m_slabs s) 0 size) as [i|]; [|exfalso; specialize (Hf sm0 Hin); lia].
  destruct Hf as (n & sm & -> & Hsm & Hsize). simpl obind. rewrite Z.add_0_l.
  assert (slab_at s (Z.of_nat n) sm) as Hi by (split; [lia|by rewrite Nat2Z.id]).
  set (i := Z.of_nat n) in *.
  pose proof (sk_slab _ _ (ck_slabs _ _ _ _ Hck) i sm Hi) as Hok.
  destruct (slab_alloc_item_ok i area s sm (vs i) Hok (slabs_owns _ _ _ _ (ck_slabs _ _ _ _ Hck) Hi) Ha
              (ck_areas _ _ _ _ Hck i sm eq_refl Hi)) as (l & type & s' & sm' & E & Hal).
  cbv beta iota. destruct Hal as [v' it Hst Hlists Hnew Hcore Eit Hid|a type Hev Htype].
  - exists l, ALLOC_NEW, s', (<[i := v']> vs), it, i, sm'. split; [by step_with E|]. by eapply given_new.
  - destruct (given_evicted s m vs i sm Hck Hi s' sm' l a area type size Hev Htype Hsize) as (it & Hg).
    eexists l, type, s', _, it, i, sm'. split; [by step_with E|exact Hg].
Qed.

(** ** put *)

(** The evicted item leaves the table. *)
Lemma put_evicted_ok s s1 m vs l type size area it i sm :
  given s s1 m vs l type size area it i sm ->
  exists s2 m2 it2, put_evicted l type s1 = Ret (tt, s2)
    /\ cache_ok s2 m2 vs (Some l) /\ (forall k, m2 !! k <> Some l)
    /\ in_hand s2 vs l it2 i sm area /\ engine_frame s s2 /\ entries_kept m2 s s2
    /\ size - sizeof_mdb_item <= Z.of_nat (length (MdbItem.data it2))
    /\ (m2 = m \/ exists k, m !! k = Some l /\ m2 = delete k m).
Proof.
  intros [Hck Hef [H1 H2 H3 H4 H5] Hroom Hkept [[-> Hout]|(Htype & Hm & Ha)]].
  - exists s1, m, it. split; [done|]. split; [done|]. split; [done|]. split; [by constructor|].
    split; [done|]. split; [|by split; [|left]]. intros k z Hk. apply (Hkept k z Hk). intros ->. by apply (Hout k).
  - unfold put_evicted.
    assert ((type =? ALLOC_EXPIRED) || (type =? ALLOC_EVICT_SELF) || (type =? ALLOC_EVICT_ANY) = true) as ->
      by (destruct Htype as [-> | [-> | ->]]; done).
    step_with (get_item_run _ _ _ H3).
    step_with (update_stat_run (ITEM_AREA it) (set_data_size (fun x => u64 (x - (key_len it + data_len it)))) s1 Ha).
    set (s2 := set_m_stat _ s1).
    step_with (update_stat_run (ITEM_AREA it) (set_space_usage (fun x => u64 (x - SLAB_SIZE (item_id it)))) s2 Ha).
    set (s3 := set_m_stat _ s2).
    step_with (update_stat_run (ITEM_AREA it) (set_area_item_count (fun x => u64 (x - 1))) s3 Ha).
    set (s4 := set_m_stat _ s3).
    assert (exists f, (if (type =? ALLOC_EVICT_ANY) || (type =? ALLOC_EVICT_SELF)
        then update_stat (ITEM_AREA it) (set_evict_count_stat (fun x => u64 (x + 1))) else sret tt) s4
        = Ret (tt, set_m_stat f s4)) as [f Ef].
    { destruct (_ || _); [eexists; by apply update_stat_run|]. exists (fun x => x). done. }
    step_with Ef. set (s5 := set_m_stat f s4).
    assert (cache_ok s5 m vs (Some l)) as Hck5 by by do 4 apply cache_ok_stat.
    assert (live s5 vs l) as Hlive by (exists i, sm; split; [exact H1|by exists area]).
    destruct (unhash_ok s5 m vs (Some l) l it Hck5 ltac:(by right) Hlive H3 Hm)
      as (s6 & it6 & E6 & Hck6 & Hef6 & _ & Hsl6 & Hek6 & Eit6 & Hc6).
    step_with E6. exists s6, (delete (ITEM_KEY it) m), it6. split; [done|]. split; [done|].
    assert (forall k, delete (ITEM_KEY it) m !! k <> Some l) as Hout6.
    { intros k [D Hk]%lookup_delete_Some. apply D. by eapply (ck_inj s1 m vs (Some l) Hck). }
    split; [done|]. apply hcore_fields in Hc6 as (_ & _ & _ & _ & Hd6 & _ & _ & Hi6 & _). split.
    { constructor; [|done|done|congruence|done]. unfold slab_at. rewrite Hsl6. exact H1. }
    split. { destruct Hef as [A1 A2], Hef6 as [B1 B2]. constructor; cbn in *; congruence. }
    split; [|split; [by rewrite Hd6|right; by eexists]].
    intros k z Hk. rewrite (Hek6 k z Hk). apply lookup_delete_Some in Hk as [D Hk]. apply (Hkept k z Hk).
    intros ->. apply D. by eapply (ck_inj s1 m vs (Some l) Hck).
Qed.

(** A key and a value as [put] takes them. *)
Record put_ok (key value : data_entry) : Prop := {
  po_key : get_size key = Z.of_nat (length (get_data key)) /\ 2 <= get_size key < 2 ^ 12;
  po_value : get_size value = Z.of_nat (length (get_data value)) /\ get_size value < 2 ^ 20;
  po_area : 0 <= KEY_AREA (get_data key) < TAIR_MAX_AREA_COUNT
}.

(** The time an entry expires, from the seconds or the date a client names. *)
Definition put_exptime (expired now old : Z) : Z :=
  if 0 <? expired then if now <? u32 expired then u32 expired else u32 (now + expired) else old.
Definition put_version_of (key : data_entry) (version_care : bool) (version : Z) : Z :=
  u16 (if version_care then version + 1 else get_version key).

(** The item [put] writes over the item in hand. *)
Definition filled (key value : data_entry) (version_care : bool) (version old_flag expired now : Z)
    (it : mdb_item) : mdb_item :=
  mk_mdb_item (h_next it) (prev it) (next it) (put_exptime expired now (exptime it))
    (get_size key) (get_size value) (put_version_of key version_care version) now
    (SET_ITEM_FLAGS (item_id it) (Z.lor (flag (data_meta value)) old_flag))
    (get_data key ++ get_data value ++ drop (length (get_data key ++ get_data value)) (MdbItem.data it)).

Lemma update_then l f g (k : mdbM data_entry) s :
  (let* _ := update_item_field l f in let* _ := update_item_field l g in k) s
  = (let* _ := update_item_field l (fun it => g (f it)) in k) s.
Proof.
  unfold update_item_field, get_item, set_item, smodify, sbind. destruct (m_items s !! l) as [it|]; [|done].
  simpl. rewrite lookup_insert_eq. simpl. unfold set_m_items. simpl. by rewrite insert_insert_eq.
Qed.

Section put_fill.
Context (key value : data_entry) (version_care : bool) (version old_flag expired : Z).
Context (s : mdb) (l : loc) (it : mdb_item).
Hypothesis Hput : put_ok key value.
Hypothesis Eit : m_items s !! l = Some it.
Hypothesis Hroom : get_size key + get_size value <= Z.of_nat (length (MdbItem.data it)).

Let now := u32 (m_now s).
Let it' := filled key value version_care version old_flag expired now it.

Lemma filled_key : ITEM_KEY it' = get_data key.
Proof.
  destruct Hput as [[Hk _] _ _]. unfold ITEM_KEY, it', filled. cbn [key_len MdbItem.data].
  rewrite Hk, Nat2Z.id. by rewrite take_app_length.
Qed.

Lemma filled_value : ITEM_DATA it' = get_data value.
Proof.
  destruct Hput as [[Hk _] [Hv _] _]. unfold ITEM_DATA, it', filled. cbn [key_len data_len MdbItem.data].
  rewrite Hk, Hv, !Nat2Z.id. by rewrite drop_app_length, take_app_length.
Qed.

Lemma filled_area : ITEM_AREA it' = KEY_AREA (get_data key).
Proof.
  destruct Hput as [[Hk [Hk2 _]] _ _]. rewrite Hk in Hk2. unfold ITEM_AREA, KEY_AREA, it', filled. cbn [MdbItem.data].
  rewrite !app_nth1 by lia. done.
Qed.

Lemma filled_length : length (MdbItem.data it') = length (MdbItem.data it).
Proof.
  destruct Hput as [[Hk _] [Hv _] _]. unfold it', filled. cbn [MdbItem.data].
  rewrite !length_app, length_drop. lia.
Qed.

Lemma filled_fits : item_fits it'.
Proof.
  destruct Hput as [[Hk Hk2] [Hv Hv2] Ha]. unfold item_fits. rewrite filled_area.
  pose proof filled_length as Hlen. unfold it', filled in *. cbn [key_len data_len MdbItem.data MdbItem.version] in *.
  rewrite Hlen. unfold put_version_of. pose proof (wrap_bound 16). repeat split; try lia; apply wrap_bound; lia.
Qed.

(** The part of [put_fill] that writes the item. *)
Lemma put_fill_writes :
  put_fill l key value version_care version old_flag expired s =
  (let* it := get_item l in
   let key := DataEntry.set_version (MdbItem.version it) key in
   let key := set_meta_fields (fun _ => exptime it) same_field (fun _ => u8 (ITEM_FLAGS (item_id it)))
                (fun _ => u16 (key_len it)) (fun _ => u24 (data_len it)) key in
   let* _ := hash_insert l in
   let area := ITEM_AREA it in
   let* _ := update_stat area (set_data_size (fun x => u64 (x + (data_len it + key_len it)))) in
   let* _ := update_stat area (set_space_usage (fun x => u64 (x + SLAB_SIZE (item_id it)))) in
   let* _ := update_stat area (set_area_item_count (fun x => u64 (x + 1))) in
   let* _ := update_stat area (set_put_count (fun x => u64 (x + 1))) in
   sret key) (set_m_items <[l := it']> s).
Proof.
  destruct Hput as [[Hk Hk2] [Hv Hv2] Ha]. unfold put_fill. step_with (crrnt_time_run s). fold now.
  rewrite !update_then.
  set (f := fun it => MdbItem.set_version _ _). set (it1 := f it).
  step_with (update_item_field_run l f it s Eit). fold it1. set (s1 := set_m_items _ s).
  assert (m_items s1 !! l = Some it1) as E1 by apply lookup_insert_eq.
  set (it2 := set_exptime (fun _ => put_exptime expired now (exptime it)) it1).
  assert ((if 0 <? expired then update_item_field l (set_exptime (fun _ =>
             if now <? u32 expired then u32 expired else u32 (now + expired))) else sret tt) s1
          = Ret (tt, set_m_items <[l := it2]> s)) as E2.
  { unfold it2, put_exptime. destruct (0 <? expired).
    - rewrite (update_item_field_run l _ it1 s1 E1). unfold s1, set_m_items. simpl. by rewrite insert_insert_eq.
    - done. }
  step_with E2. set (s2 := set_m_items _ s). assert (m_items s2 !! l = Some it2) as Eit2 by apply lookup_insert_eq.
  set (g := fun id => SET_ITEM_FLAGS id _).
  step_with (update_item_field_run l (set_item_id g) it2 s2 Eit2).
  set (it3 := set_item_id g it2). set (s3 := set_m_items _ s2).
  assert (m_items s3 !! l = Some it3) as Eit3 by apply lookup_insert_eq.
  assert (u12 (get_size key) = get_size key /\ u20 (get_size value) = get_size value) as [U1 U2]
    by (split; apply wrap_id; unfold in_u; lia).
  assert (write_item_data (get_data key) (get_data value) l s3 = Ret (tt, set_m_items <[l := it']> s)) as E4.
  { unfold write_item_data. step_with (get_item_run l it3 s3 Eit3).
    change (key_len it3) with (u12 (get_size key)). change (data_len it3) with (u20 (get_size value)).
    rewrite U1, U2, Hk, Hv, !Nat2Z.id, !firstn_all. change (MdbItem.data it3) with (MdbItem.data it).
    rewrite decide_True by (rewrite length_app; lia). rewrite (update_item_field_run l _ it3 s3 Eit3).
    unfold s3, s2, set_m_items. simpl. rewrite !insert_insert_eq. do 4 f_equal.
    unfold it', filled, it3, it2, it1, f, MdbItem.set_data. cbn. by rewrite U1, U2. }
  by step_with E4.
Qed.
End put_fill.

(** ** The abstract store *)

Definition entry_expired (now : Z) (e : entry) : bool :=
  negb (e_exptime e =? 0) && (e_exptime e <? now).

Lemma content_insert s m k l it :
  m_items s !! l = Some it -> content s (<[k := l]> m) = <[k := entry_of it]> (content s m).
Proof.
  intros Eit. apply map_eq. intros j. rewrite content_lookup. destruct (decide (k = j)) as [<-|D].
  - rewrite !lookup_insert_eq. simpl. by rewrite Eit.
  - rewrite !lookup_insert_ne, content_lookup by done. done.
Qed.

Lemma content_delete s m k : content s (delete k m) = delete k (content s m).
Proof.
  apply map_eq. intros j. rewrite content_lookup. destruct (decide (k = j)) as [<-|D].
  - by rewrite !lookup_delete_eq.
  - by rewrite !lookup_delete_ne, content_lookup by done.
Qed.

(** The version a [put] continues from; [None] when the caller's is stale. *)
Definition put_base (now : Z) (cur : option entry) (version : Z) (version_care : bool) : option Z :=
  match cur with
  | None => Some 0
  | Some e =>
      if entry_expired now e then Some 0
      else if version_care && negb (version =? 0) && negb (e_version e =? version) then None
      else Some (if version_care then e_version e else version)
  end.

Section operations.
Context (s : mdb) (m : gmap (list Z) loc) (vs : Z -> slab_view).
Hypothesis Hck : cache_ok s m vs None.

Lemma content_item k l it : m !! k = Some l -> m_items s !! l = Some it -> content s m !! k = Some (entry_of it).
Proof. intros Hm Eit. rewrite content_lookup, Hm. simpl. by rewrite Eit. Qed.

Lemma content_none k : m !! k = None -> content s m !! k = None.
Proof. intros Hm. by rewrite content_lookup, Hm. Qed.

Lemma find_ok k : k <> [] -> hash_find k s = Ret (m !! k, s).
Proof. intros Hk. destruct (ck_hash _ _ _ _ Hck) as [chains Hr]. by apply (hash_find_spec s m chains). Qed.

(** Removing the item of a key, as part of an operation. *)
Lemma drop_ok k l :
  m !! k = Some l ->
  exists s' vs', __remove l s = Ret (tt, s') /\ cache_ok s' (delete k m) vs' None
    /\ engine_frame s s' /\ content s' (delete k m) = delete k (content s m).
Proof.
  intros Hm. destruct (__remove_ok s m vs k l Hck Hm) as (s' & vs' & E & Hck' & Hef & Hek).
  exists s', vs'. split; [done|]. split; [done|]. split; [done|].
  by rewrite (content_kept _ _ _ Hek), content_delete.
Qed.

(** What [put_replace] finds, and what it leaves. *)
Lemma put_replace_ok key version_care :
  get_data key <> [] ->
  let k := get_data key in
  let base := put_base (u32 (m_now s)) (content s m !! k) (get_version key) version_care in
  match base with
  | None => put_replace key version_care s = Ret (None, s)
  | Some v => exists s1 vs1 old_flag, put_replace key version_care s = Ret (Some (v, old_flag), s1)
      /\ (old_flag = 0 \/ old_flag = TAIR_ITEM_FLAG_DELETED)
      /\ cache_ok s1 (delete k m) vs1 None /\ engine_frame s s1
      /\ content s1 (delete k m) = delete k (content s m)
  end.
Proof.
  intros Hk k base. unfold put_replace. step_with (crrnt_time_run s). fold k.
  step_with (find_ok k Hk). subst base. destruct (m !! k) as [l|] eqn:Em.
  - destruct (ck_item _ _ _ _ Hck k l Em) as (it & Eit & _). rewrite (content_item k l it Em Eit).
    step_with (get_item_run _ _ _ Eit). unfold put_base.
    change (entry_expired (u32 (m_now s)) (entry_of it)) with (item_expired (u32 (m_now s)) it).
    cbn [e_version entry_of].
    destruct (drop_ok k l Em) as (s' & vs' & E & Hck' & Hef & Hc).
    set (old_flag := if IS_DELETED (item_id it) then TAIR_ITEM_FLAG_DELETED else 0).
    assert (old_flag = 0 \/ old_flag = TAIR_ITEM_FLAG_DELETED) as Hold
      by (unfold old_flag; destruct (IS_DELETED _); auto).
    destruct (item_expired _ it); [step_with E; by eexists _, _, _|].
    destruct (version_care && negb (get_version key =? 0) && negb (MdbItem.version it =? get_version key)); [done|].
    step_with E. by eexists _, _, _.
  - rewrite (content_none k Em). cbn [put_base].
    exists s, vs, 0. split; [done|]. split; [by left|]. rewrite delete_id, delete_id by (done || by apply content_none). done.
Qed.
End operations.

(** The second part of [put]. *)
Lemma put_fill_ok key value version_care version old_flag expired s m vs l it i sm :
  put_ok key value -> cache_ok s m vs (Some l) -> in_hand s vs l it i sm (KEY_AREA (get_data key)) ->
  (forall k, m !! k <> Some l) -> m !! get_data key = None ->
  get_size key + get_size value <= Z.of_nat (length (MdbItem.data it)) ->
  let it' := filled key value version_care version old_flag expired (u32 (m_now s)) it in
  exists s' key', put_fill l key value version_care version old_flag expired s = Ret (key', s')
    /\ cache_ok s' (<[get_data key := l]> m) vs None /\ engine_frame s s'
    /\ content s' (<[get_data key := l]> m) = <[get_data key := entry_of it']> (content s m)
    /\ get_data key' = get_data key /\ get_version key' = MdbItem.version it'.
Proof.
  intros Hput Hck Hhand Hout Hnew Hroom it'. pose proof Hhand as [Hi Hl Eit Hid [Hloc Hu8]].
  destruct (filled_fits key value version_care version old_flag expired s it Hput Hroom) as (F1 & F2 & F3 & F4 & F5).
  fold it' in F1, F2, F3, F4, F5.
  pose proof (filled_key key value version_care version old_flag expired s it Hput) as Ek. fold it' in Ek.
  pose proof (filled_area key value version_care version old_flag expired s it Hput) as Ea. fold it' in Ea.
  destruct (rewrite_pending_ok s m vs l it it' Hck) as [Hck1 Hek1]; try done.
  { by eapply in_hand_live. }
  { by apply filled_length. }
  { apply same_item_clear, SET_ITEM_FLAGS_same. }
  set (s1 := set_m_items <[l := it']> s) in *.
  assert (item_names i (Some l) (item_id it')) as Hname.
  { apply names_flags. rewrite Hid. by apply cid_names. }
  destruct (hash_ok s1 m vs l it' i sm Hck1) as (s2 & it2 & E2 & Hck2 & Hef2 & _ & Hek2 & Eit2 & Hc2); try done.
  { by rewrite Ea. }
  { apply lookup_insert_eq. }
  { unfold item_key_ok. rewrite Ek. exact (eq_sym (proj1 (po_key _ _ Hput))). }
  { by eapply names_nonzero. }
  { by apply (names_loc i l). }
  { by rewrite Ek. }
  rewrite Ek in Hck2.
  pose proof (put_fill_writes key value version_care version old_flag expired s l it Hput Eit Hroom) as Ew.
  fold it' s1 in Ew. rewrite Ew. step_with (get_item_run l it' s1 ltac:(apply lookup_insert_eq)). step_with E2.
  rewrite Ea in F5 |- *. set (a := KEY_AREA (get_data key)) in *.
  step_with (update_stat_run a (set_data_size (fun x => u64 (x + (data_len it' + key_len it')))) s2 F5).
  set (s3 := set_m_stat _ s2).
  step_with (update_stat_run a (set_space_usage (fun x => u64 (x + SLAB_SIZE (item_id it')))) s3 F5).
  set (s4 := set_m_stat _ s3).
  step_with (update_stat_run a (set_area_item_count (fun x => u64 (x + 1))) s4 F5). set (s5 := set_m_stat _ s4).
  step_with (update_stat_run a (set_put_count (fun x => u64 (x + 1))) s5 F5). set (s6 := set_m_stat _ s5).
  eexists s6, _. split; [reflexivity|]. split; [by do 4 apply cache_ok_stat|]. split.
  { destruct Hef2 as [A1 A2]. by constructor. }
  split; [|split; [done|exact (wrap_id 16 _ F4)]].
  change (content s6 (<[get_data key := l]> m)) with (content s2 (<[get_data key := l]> m)).
  rewrite (content_insert s2 m _ l it2 Eit2). f_equal; [by apply hcore_entry|].
  rewrite (content_kept m s1 s2 Hek2). by apply content_kept.
Qed.

(** What [put] stores. *)
Record stored (now : Z) (key value : data_entry) (version_care : bool) (base expired : Z) (e : entry) : Prop := {
  st_value : e_value e = get_data value;
  st_version : e_version e = put_version_of key version_care base;
  st_time : e_time e = now;
  st_flags : exists old, (old = 0 \/ old = TAIR_ITEM_FLAG_DELETED)
               /\ e_flags e = Z.lor (flag (data_meta value)) old mod 16;
  st_exptime : 0 < expired -> e_exptime e = put_exptime expired now 0
}.

(** [put] on the abstract store: nothing on a stale version, else the entry is
    stored, and at most one other key is dropped to make room. *)
Inductive put_spec (now : Z) (c : gmap (list Z) entry) (key value : data_entry) (version_care : bool)
    (expired : Z) : Z -> gmap (list Z) entry -> Prop :=
| put_stale :
    put_base now (c !! get_data key) (get_version key) version_care = None ->
    put_spec now c key value version_care expired TAIR_RETURN_VERSION_ERROR c
| put_stored base e c' :
    put_base now (c !! get_data key) (get_version key) version_care = Some base ->
    stored now key value version_care base expired e ->
    c' = c \/ (exists victim, c' = delete victim c) ->
    put_spec now c key value version_care expired TAIR_RETURN_SUCCESS (<[get_data key := e]> c').

Inductive get_spec (now : Z) (c : gmap (list Z) entry) (k : list Z) : Z -> option entry -> gmap (list Z) entry -> Prop :=
| get_miss : c !! k = None -> get_spec now c k TAIR_RETURN_DATA_NOT_EXIST None c
| get_expired e : c !! k = Some e -> entry_expired now e = true ->
    get_spec now c k TAIR_RETURN_DATA_EXPIRED None (delete k c)
| get_hit e : c !! k = Some e -> entry_expired now e = false -> get_spec now c k TAIR_RETURN_SUCCESS (Some e) c.

Inductive remove_spec (c : gmap (list Z) entry) (k : list Z) : Z -> gmap (list Z) entry -> Prop :=
| remove_hit e : c !! k = Some e -> remove_spec c k TAIR_RETURN_SUCCESS (delete k c)
| remove_miss : c !! k = None -> remove_spec c k TAIR_RETURN_DATA_NOT_EXIST c.

Lemma item_flags_u8 it : u8 (ITEM_FLAGS (item_id it)) = ITEM_FLAGS (item_id it).
Proof.
  unfold ITEM_FLAGS. apply wrap_id. change 0xF with (Z.ones 4). rewrite Z.land_ones by lia.
  pose proof (Z.mod_pos_bound (Z.shiftr (item_id it) 60) (2 ^ 4)). unfold in_u. lia.
Qed.

Lemma got_value_entry it value :
  item_fits it ->
  get_data (got_value it value) = ITEM_DATA it
  /\ get_size (got_value it value) = Z.of_nat (length (ITEM_DATA it)) /\ get_version (got_value it value) = MdbItem.version it
  /\ edate (data_meta (got_value it value)) = exptime it
  /\ flag (data_meta (got_value it value)) = ITEM_FLAGS (item_id it).
Proof.
  intros (? & ? & ? & Hv & _). split; [|split; [|split; [exact (wrap_id 16 _ Hv)|split; [done|]]]].
  - unfold got_value, get_data. cbn. unfold DataEntry.set_data.
    destruct (Z.ltb_spec 0 (data_len it)); cbn; [unfold ITEM_DATA; by rewrite take_take, Nat.min_id|].
    unfold ITEM_DATA. by replace (Z.to_nat (data_len it)) with 0%nat by lia.
  - unfold got_value, get_size. cbn. unfold ITEM_DATA, DataEntry.set_data. rewrite length_take, length_drop.
    destruct (Z.ltb_spec 0 (data_len it)); cbn; lia.
  - apply item_flags_u8.
Qed.

Section operations_ok.
Context (s : mdb) (m : gmap (list Z) loc) (vs : Z -> slab_view).
Hypothesis Hck : cache_ok s m vs None.

Lemma do_put_ok key value version_care expired :
  put_ok key value -> room_for s (get_size key + get_size value + sizeof_mdb_item) ->
  exists rc key' s' m' vs', do_put key value version_care expired s = Ret ((rc, key'), s')
    /\ cache_ok s' m' vs' None /\ engine_frame s s'
    /\ put_spec (u32 (m_now s)) (content s m) key value version_care (Z.max 0 expired) rc (content s' m')
    /\ get_data key' = get_data key
    /\ (rc = 0 -> exists e, content s' m' !! get_data key = Some e /\ get_version key' = e_version e).
Proof.
  intros Hput Hroom. pose proof Hput as [[Hk Hk2] [Hv _] Ha].
  assert (get_data key <> []) as Hne by (intros E; rewrite E in Hk; simpl in Hk; lia).
  unfold do_put. fold (put_key key). destruct (put_key_same key) as [Ed Ever].
  assert ((if expired <? 0 then 0 else expired) = Z.max 0 expired) as ->
    by (destruct (Z.ltb_spec expired 0); lia).
  assert (get_size (put_key key) = get_size key) as Es by (unfold put_key; by destruct (area key =? _)).
  assert (area (put_key key) = KEY_AREA (get_data key)) as Earea
    by (unfold put_key; destruct (Z.eqb_spec (area key) (KEY_AREA (get_data key))); done).
  assert (put_ok (put_key key) value) as Hput' by (constructor; rewrite ?Ed, ?Es; apply Hput).
  pose proof (put_replace_ok s m vs Hck (put_key key) version_care ltac:(by rewrite Ed)) as Hrep.
  cbv zeta in Hrep. rewrite Ed, Ever in Hrep.
  destruct (put_base _ _ _ _) as [base|] eqn:Ebase.
  - destruct Hrep as (s1 & vs1 & old_flag & E1 & Hold & Hck1 & Hef1 & Hc1). step_with E1.
    destruct (cache_alloc_ok s1 _ vs1 _ (area (put_key key)) Hck1 (room_for_frame _ _ _ Hef1 Hroom) ltac:(by rewrite Earea))
      as (l & type & s2 & vs2 & it & i & sm & E2 & Hg).
    step_with E2.
    destruct (put_evicted_ok s1 s2 _ vs2 l type _ _ it i sm Hg)
      as (s3 & m3 & it3 & E3 & Hck3 & Hout3 & Hhand3 & Hef3 & Hek3 & Hroom3 & Hm3).
    step_with E3.
    assert (m3 !! get_data key = None) as Hnew.
    { destruct Hm3 as [-> | (k0 & _ & ->)]; [apply lookup_delete_eq|].
      rewrite lookup_delete_None. right. apply lookup_delete_eq. }
    destruct (put_fill_ok (put_key key) value version_care base old_flag (Z.max 0 expired) s3 m3 vs2 l it3 i sm Hput' Hck3)
      as (s4 & key' & E4 & Hck4 & Hef4 & Hc4 & Hd4 & Hv4); rewrite ?Ed; try done.
    { by rewrite <- Earea. }
    { rewrite Es. unfold sizeof_mdb_item in Hroom3. lia. }
    step_with E4. rewrite Ed in Hck4, Hc4. set (it' := filled _ _ _ _ _ _ _ _) in *.
    exists 0, key', s4, (<[get_data key := l]> m3), vs2. split; [done|]. split; [done|].
    assert (m_now s3 = m_now s) as Hnow by (rewrite (ef_now _ _ Hef3); apply Hef1).
    split; [by eapply engine_frame_trans; [exact Hef1|eapply engine_frame_trans; [exact Hef3|]]|].
    split; [|split; [by rewrite Hd4|]].
    + rewrite Hc4, (content_kept m3 s1 s3 Hek3).
      assert (exists c', <[get_data key := entry_of it']> (content s1 m3) = <[get_data key := entry_of it']> c'
                /\ (c' = content s m \/ exists victim, c' = delete victim (content s m))) as (c' & -> & Hc').
      { destruct Hm3 as [-> | (k0 & _ & ->)].
        - exists (content s m). rewrite Hc1, insert_delete_eq. split; [done|by left].
        - exists (delete k0 (content s m)). rewrite content_delete, Hc1, delete_delete, insert_delete_eq.
          split; [done|right; by eexists]. }
      destruct Hhand3 as [_ _ _ Hid3 [(L1 & L2 & _ & L3) L4]].
      apply (put_stored _ _ _ _ _ _ base); [done| |done]. constructor.
      * apply filled_value. exact Hput'.
      * cbn. unfold put_version_of. by rewrite Ever.
      * cbn. by rewrite Hnow.
      * exists old_flag. split; [done|]. cbn. rewrite Hid3. unfold cid. by apply ITEM_FLAGS_SET.
      * intros Hex. cbn. unfold put_exptime. rewrite Hnow. destruct (Z.ltb_spec 0 (Z.max 0 expired)); [done|lia].
    + intros _. exists (entry_of it'). split; [|done]. rewrite Hc4. apply lookup_insert_eq.
  - step_with Hrep. eexists _, _, s, m, vs. split; [reflexivity|]. split; [done|]. split; [done|].
    split; [by apply put_stale|]. split; [done|]. done.
Qed.

Lemma do_remove_ok key version_care :
  get_data key <> [] -> 0 <= area key < TAIR_MAX_AREA_COUNT ->
  exists rc key' s' m' vs', do_remove key version_care s = Ret ((rc, key'), s')
    /\ cache_ok s' m' vs' None /\ engine_frame s s'
    /\ remove_spec (content s m) (get_data key) rc (content s' m').
Proof.
  intros Hne Ha. unfold do_remove, remove_if_exists.
  set (key' := set_meta_fields _ _ _ _ _ key). change (get_data key') with (get_data key).
  change (area key') with (area key). rewrite sbind_assoc. step_with (find_ok s m vs Hck (get_data key) Hne).
  destruct (m !! get_data key) as [l|] eqn:Em.
  - destruct (ck_item _ _ _ _ Hck _ l Em) as (it & Eit & _).
    destruct (drop_ok s m vs Hck (get_data key) l Em) as (s1 & vs1 & E & Hck1 & Hef & Hc).
    rewrite sbind_assoc. step_with E. rewrite sbind_ret.
    step_with (update_stat_run (area key) (set_remove_count (fun x => u64 (x + 1))) s1 Ha).
    eexists _, _, _, _, vs1. split; [reflexivity|]. split; [by apply cache_ok_stat|]. split; [by destruct Hef|].
    change (content _ (delete (get_data key) m)) with (content s1 (delete (get_data key) m)). rewrite Hc.
    eapply remove_hit. by eapply content_item.
  - rewrite sbind_ret. step_with (update_stat_run (area key) (set_remove_count (fun x => u64 (x + 1))) s Ha).
    eexists _, _, _, m, vs. split; [reflexivity|]. split; [by apply cache_ok_stat|]. split; [done|].
    apply remove_miss. by apply content_none.
Qed.

(** A hit makes the item the most recently used one of its list. *)
Lemma touch_ok s' l it i sm sm' :
  m !! ITEM_KEY it = Some l -> m_items s !! l = Some it -> slab_at s i sm ->
  l ∈ sv_lists (vs i) (ITEM_AREA it) -> same_but_lists i sm sm' s s' ->
  slab_lists i sm' (m_items s') (moved l (ITEM_AREA it) (ITEM_AREA it) (sv_lists (vs i))) ->
  untouched (sv_lists (vs i)) s s' ->
  exists vs', cache_ok s' m vs' None /\ engine_frame s s' /\ content s' m = content s m.
Proof.
  intros Hm Eit Hi Hl Hsame Hlists Hout. pose proof (ck_slabs _ _ _ _ Hck) as Hslabs.
  pose proof (sk_slab _ _ Hslabs i sm Hi) as Hok.
  destruct (ck_live _ _ _ _ Hck _ l it Hm ltac:(done) Eit) as ((_ & _ & _ & _ & Ha) & _).
  pose proof (moved_step s s' i sm sm' (vs i) l _ _ Hok (slabs_owns _ _ _ _ Hslabs Hi) Hl Ha Hsame Hlists Hout) as Hst.
  pose proof (sl_disjoint _ _ _ _ (io_lists _ _ _ _ _ _ _ (so_items _ _ _ _ Hok))) as Hdis.
  assert (forall a z, z ∈ moved l (ITEM_AREA it) (ITEM_AREA it) (sv_lists (vs i)) a <-> z ∈ sv_lists (vs i) a) as Hmem.
  { intros a z. rewrite elem_of_moved; [|done|by intros c Hc; eapply Hdis]. destruct (decide (z = l)) as [->|D]; [|naive_solver].
    split; [intros [[_ ->]|[? _]]; done|]. intros Hz. left. split; [done|by eapply Hdis]. }
  destruct Hsame as (_ & _ & _ & _ & _ & _ & _ & Hc).
  assert (forall z, core <$> m_items s' !! z = core <$> m_items s !! z) as Hcz by (intros z; by rewrite <- !lookup_fmap, Hc).
  eexists. split; [|split].
  - eapply cache_ok_step; [exact Hck|exact Hi|exact Hst|..].
    + intros k z itz _ Ez. destruct (core_at_lookup _ _ _ _ (Hcz z) Ez) as (itz' & Ez' & Hcc). exists itz'.
      apply core_fields in Hcc. tauto.
    + intros k z itz itz' _ _ Ez Ez'. destruct (core_at_lookup _ _ _ _ (Hcz z) Ez) as (i0 & E0 & Hcc).
      rewrite Ez' in E0. injection E0 as <-. split; [done|]. split; [done|]. apply Hmem.
    + intros a z Hz _. split; [done|]. split; [by apply Hmem|done].
    + intros; done.
  - exact (engine_frame_step _ _ _ _ _ _ _ Hi Hst).
  - apply content_kept. intros k z Hk. destruct (ck_item _ _ _ _ Hck k z Hk) as (itz & Ez & _).
    destruct (core_at_lookup _ _ _ _ (Hcz z) Ez) as (itz' & Ez' & Hcc). rewrite Ez, Ez'. simpl. f_equal.
    by apply core_entry.
Qed.

(** What a client receives. *)
Definition received_entry (value value' : data_entry) : option entry -> Prop := fun r =>
  match r with
  | None => value' = value
  | Some e => get_data value' = e_value e /\ get_size value' = Z.of_nat (length (e_value e))
              /\ get_version value' = e_version e
              /\ edate (data_meta value') = e_exptime e /\ flag (data_meta value') = e_flags e
  end.

(** What the caller's key says afterwards. *)
Definition received_key (key key' : data_entry) : option entry -> Prop := fun r =>
  match r with
  | None => key' = key
  | Some e => key' = set_meta (data_meta key') key
              /\ get_version key' = e_version e /\ flag (data_meta key') = e_flags e
  end.

Lemma got_key_entry it key :
  in_u 16 (MdbItem.version it) -> received_key key (got_key it key) (Some (entry_of it)).
Proof. intros Hv. split; [done|]. split; [exact (wrap_id 16 _ Hv)|]. exact (item_flags_u8 it). Qed.

Lemma do_get_ok key value :
  get_data key <> [] -> area key = KEY_AREA (get_data key) -> 0 <= area key < TAIR_MAX_AREA_COUNT ->
  exists rc key' value' r s' m' vs', do_get key value s = Ret ((rc, key', value'), s')
    /\ cache_ok s' m' vs' None /\ engine_frame s s'
    /\ get_spec (u32 (m_now s)) (content s m) (get_data key) rc r (content s' m')
    /\ received_entry value value' r /\ received_key key key' r.
Proof.
  intros Hne Hak Ha. destruct (ck_hash _ _ _ _ Hck) as [chains Hr].
  destruct (m !! get_data key) as [l|] eqn:Em.
  - destruct (ck_item _ _ _ _ Hck _ l Em) as (it & Eit & Ek).
    destruct (ck_where _ _ _ _ Hck _ l it Em ltac:(done) Eit) as (i & sm & Hi & Hok & Hown & Hl & Hid & Hrange).
    destruct (ck_live _ _ _ _ Hck _ l it Em ltac:(done) Eit) as ((F1 & F2 & F3 & F4 & _) & _).
    assert (ITEM_AREA it = area key) as Earea.
    { rewrite Hak, <- Ek. unfold ITEM_AREA, KEY_AREA, ITEM_KEY. rewrite !nth_lookup, !lookup_take, !decide_True by lia. done. }
    destruct (item_expired (u32 (m_now s)) it) eqn:Hexp.
    + destruct (drop_ok s m vs Hck (get_data key) l Em) as (s1 & vs1 & E & Hck1 & Hef & Hc).
      exists TAIR_RETURN_DATA_EXPIRED, key, value, None,
        (set_m_stat (area_upd zero_area_stat (set_get_count (fun x => u64 (x + 1))) (area key)) s1),
        (delete (get_data key) m), vs1.
      split.
      { unfold do_get, remove_if_expired. rewrite sbind_assoc. step_with (find_ok s m vs Hck _ Hne). rewrite Em.
        rewrite sbind_assoc. step_with (get_item_run _ _ _ Eit). rewrite sbind_assoc. step_with (crrnt_time_run s).
        rewrite Hexp. rewrite sbind_assoc. step_with E. rewrite !sbind_ret.
        by step_with (update_stat_run (area key) (set_get_count (fun x => u64 (x + 1))) s1 Ha). }
      split; [by apply cache_ok_stat|]. split; [by destruct Hef|]. split; [|done].
      change (content _ (delete (get_data key) m)) with (content s1 (delete (get_data key) m)). rewrite Hc.
      eapply get_expired; [by eapply content_item|done].
    + destruct (do_get_hit s m chains key value Hr Hne Ha l it i sm (sv_lists (vs i)))
        as (s' & sm' & E & Hst & Hsame & Hl' & Hout); try done.
      { apply Hi. }
      { apply (io_lists _ _ _ _ _ _ _ (so_items _ _ _ _ Hok)). }
      { by rewrite <- Earea. }
      rewrite <- Earea in Hl'. set (s1 := set_m_stat (fun _ => m_stat s) s') in *.
      destruct (touch_ok s1 l it i sm sm') as (vs' & Hck' & Hef & Hc); try done; [by rewrite Ek|].
      exists 0, (got_key it key), (got_value it value), (Some (entry_of it)), s', m, vs'.
      split; [done|]. replace s' with (set_m_stat (fun _ => m_stat s') s1) by by destruct s'.
      split; [by apply cache_ok_stat|]. split; [by destruct Hef|]. split.
      * change (content (set_m_stat (fun _ => m_stat s') s1) m) with (content s1 m). rewrite Hc. apply get_hit; [by eapply content_item|done].
      * split; [by apply got_value_entry|by apply got_key_entry].
  - eexists _, _, _, None, _, m, vs. split; [apply (do_get_miss s m chains key value Hr Hne Ha Em)|].
    split; [by apply cache_ok_stat|]. split; [done|]. split; [|done]. apply get_miss. by apply content_none.
Qed.
End operations_ok.
