(* ===== verification/EngineInit.v ===== *)
(** * The memory engine after start-up (storage/mdb/mem_cache.cpp)

    [slab_initialize] divides the pool among slabs of growing item sizes and
    gives each a page; the engine's invariant then holds, with an empty store. *)

From S2P Require Import Prelude Util Dll MemPool MdbItem MemCache SlabLists SlabPages SlabAlloc SlabFree SlabEvict CacheHashMap EngineState.

(** A slab manager as the constructor leaves it. *)
Definition new_slab (i start psize : Z) (per : Z) : slab_manager :=
  mk_slab_manager i start per psize ∅ ∅ ∅ 0 0 0 0 0 0 0 0 ∅.

Lemma new_slab_head i start psize per h : head_of (new_slab i start psize per) h = 0.
Proof. destruct h; [done|done|]. simpl. unfold area_get. by rewrite lookup_empty. Qed.

Lemma no_pages_ok pages i start psize per : pages_ok pages (new_slab i start psize per) ∅ (fun _ => []).
Proof.
  constructor.
  - intros h. rewrite new_slab_head. constructor; [constructor|done|done].
  - intros p h. rewrite lookup_empty. split; [by intros ?%elem_of_nil|done].
  - intros p [x Hx]. by rewrite lookup_empty in Hx.
  - intros p h Hx. by rewrite lookup_empty in Hx.
Qed.

Lemma no_items_ok items pages i start psize per :
  items_ok items pages i (new_slab i start psize per) ∅ (fun _ => []) (fun _ => []).
Proof.
  constructor.
  - constructor; [|by intros a b l ?%elem_of_nil]. intros a. unfold item_list_get, area_get.
    cbn [this_item_list new_slab]. rewrite lookup_empty. constructor; try done; [constructor|by intros l ?%elem_of_nil].
  - by intros a l ?%elem_of_nil.
  - intros l [[x Hx] _]. by rewrite lookup_empty in Hx.
  - by intros a l ?%elem_of_nil.
  - intros p h Hx. by rewrite lookup_empty in Hx.
  - intros p l [x Hx]. by rewrite lookup_empty in Hx.
  - intros l [[x Hx] _]. by rewrite lookup_empty in Hx.
Qed.

(** A slab is added, with one page of free items. *)
Section add_slab.
Context (s : mdb) (vs : Z -> slab_view) (i start psize per : Z).
Hypothesis Hslabs : slabs_ok s vs.
Hypothesis Hi : i = Z.of_nat (length (m_slabs s)).
Hypothesis Hi8 : i < 2 ^ 8.
Hypothesis Hsize : sizeof_mdb_item <= start < 2 ^ 20.
Hypothesis Hper : 0 < per <= 2 ^ 16.
Hypothesis Hfree : free_pages (m_pool s) <> 0.

Let sm := new_slab i start psize per.
Let s1 := set_m_slabs (fun slabs => slabs ++ [sm]) s.

Lemma add_slab_at : m_slabs s1 !! Z.to_nat i = Some sm.
Proof. cbn. rewrite Hi, Nat2Z.id. by rewrite lookup_app_r, Nat.sub_diag. Qed.

Lemma pre_alloc_one :
  exists s' sm' p pl, pre_alloc i 1 s1 = Ret (1, s')
    /\ 0 < p < total_pages (m_pool s) /\ used (page_bitmap (m_pool s)) p = false
    /\ pool_wf pl /\ bit_set (page_bitmap (m_pool s)) (page_bitmap pl) p true
    /\ total_pages pl = total_pages (m_pool s) /\ page_size pl = page_size (m_pool s)
    /\ free_pages pl = free_pages (m_pool s) - 1
    /\ m_slabs s' = m_slabs s ++ [sm'] /\ slab_size sm' = start /\ m_pool s' = pl
    /\ m_hash s' = m_hash s /\ m_stat s' = m_stat s /\ m_now s' = m_now s
    /\ (forall l, l.1.1 <> p -> m_items s' !! l = m_items s !! l)
    /\ (forall q, q <> p -> m_pages s' !! q = m_pages s !! q)
    /\ exists v, slab_ok s' i sm' v /\ (forall q, is_Some (sv_where v !! q) <-> q = p) /\ forall a, sv_lists v a = [].
Proof.
  pose proof (sk_small _ _ Hslabs) as Hsmall. unfold small_pool in Hsmall.
  destruct (alloc_page_spec (m_pool s) (sk_wf _ _ Hslabs)) as [[Hz _]|(p & pl & E & Hp & Hu & Hwf & Hb & Ht & Hps & _ & Hf)]; [done|].
  pose proof add_slab_at as Hsm.
  assert (slab_shape i sm) as Hsh by (constructor; cbn; unfold in_u; lia).
  set (s2 := set_m_pool (fun _ => pl) s1).
  set (sm3 := set_free_pages_no (fun x => x + 1) sm). set (s3 := set_m_slabs <[Z.to_nat i := sm3]> s2).
  assert (m_slabs s3 !! Z.to_nat i = Some sm3) as Hsm3
    by (apply list_lookup_insert_eq; by eapply lookup_lt_Some).
  assert (slab_shape i sm3) as Hsh3 by by apply (shape_same i sm).
  pose proof (init_page_run s3 i sm3 p Hsm3) as E4. set (s4 := set_m_items _ _) in E4.
  assert (items_ok (m_items s4) (m_pages s4) i sm3 {[p := FreePages]} (<[p := page_slots sm3 p]> (fun _ => []))
            (fun _ => [])) as Hit4.
  { apply (items_ok_new s3 i sm3 ∅ (fun _ => []) (fun _ => []) p Hsh3); [|done|lia].
    eapply (items_ok_sm _ _ _ sm); [done|]. apply no_items_ok. }
  destruct (put_page i p FreePages s4 sm3 ∅ (fun _ => []) (new_info sm3 p) Hsm3) as (pages5 & E5 & Hpg5 & Hc5 & Ho5).
  { eapply (pages_ok_frame (m_pages s4) _ sm); [done|by intros []|done|apply no_pages_ok]. }
  { intros q [x Hx]. by rewrite lookup_empty in Hx. }
  { done. } { done. } { cbn. lia. } { apply lookup_insert_eq. } { done. }
  set (sm5 := set_head FreePages p sm3) in *. set (s5 := pages_state i sm5 pages5 s4) in *.
  exists s5, sm5, p, pl. split.
  { assert (pool_alloc_page s1 = Ret (Some (p, pool (m_pool s) + p * page_size (m_pool s)), s2)) as E1
      by (unfold pool_alloc_page; change (m_pool s1) with (m_pool s); by rewrite E).
    unfold pre_alloc. rewrite sassert_run by done. change (Z.to_nat 1) with 1%nat. cbn [pre_alloc_loop].
    step_with E1.
    step_with (update_slab_run i (set_free_pages_no (fun x => x + 1)) sm s2 Hsm).
    step_with E4. step_with E5. done. }
  do 7 (split; [done|]). split.
  { unfold s5, pages_state, s4, s3, s2, s1. cbn. rewrite !list_insert_insert_eq.
    rewrite Hi, Nat2Z.id. by rewrite insert_app_r_alt, Nat.sub_diag by done. }
  do 5 (split; [done|]). split; [|split].
  { intros l Hl. cbn. rewrite (new_items_lookup s3 i) by done. by rewrite decide_False. }
  { intros q Hq. cbn. rewrite Ho5 by done. cbn. unfold new_pages. by rewrite lookup_insert_ne. }
  exists (mk_slab_view {[p := FreePages]} (<[FreePages := [p]]> (fun _ => []))
            (<[p := page_slots sm3 p]> (fun _ => [])) (fun _ => [])).
  split; [|split; [|done]]; cbn [sv_where sv_lists].
  2: { intros q. rewrite lookup_singleton_is_Some. done. }
  constructor; cbn [sv_where sv_pages sv_free sv_lists].
  - apply list_lookup_insert_eq. by eapply lookup_lt_Some.
  - by eapply shape_same; [..|exact Hsh3].
  - exact Hpg5.
  - unfold counts_ok. rewrite <- insert_empty, !kind_count_insert by done. by repeat split.
  - eapply items_ok_sm; [|eapply items_ok_pages; [exact Hc5|exact Hit4]]. done.
  - intros q Hq%lookup_singleton_is_Some. subst q. cbn. lia.
  - apply insert_non_empty.
Qed.
End add_slab.

(** The slabs are in order, and no item is in use. *)
Record starting (s : mdb) (vs : Z -> slab_view) : Prop := {
  st_slabs : slabs_ok s vs;
  st_empty : forall i sm a, slab_at s i sm -> sv_lists (vs i) a = []
}.

Lemma add_slab_ok s vs start per :
  starting s vs -> Z.of_nat (length (m_slabs s)) < 2 ^ 8 -> sizeof_mdb_item <= start < 2 ^ 20 ->
  0 < per <= 2 ^ 16 -> free_pages (m_pool s) <> 0 ->
  let i := Z.of_nat (length (m_slabs s)) in
  exists s' vs' sm', pre_alloc i 1 (set_m_slabs (fun slabs => slabs ++ [new_slab i start (page_size (m_pool s)) per]) s)
      = Ret (1, s')
    /\ starting s' vs' /\ m_slabs s' = m_slabs s ++ [sm'] /\ slab_size sm' = start
    /\ page_size (m_pool s') = page_size (m_pool s) /\ free_pages (m_pool s') = free_pages (m_pool s) - 1
    /\ m_hash s' = m_hash s /\ m_now s' = m_now s.
Proof.
  intros [Hsl Hempty] Hi8 Hsize Hper Hfree i.
  destruct (pre_alloc_one s vs i start (page_size (m_pool s)) per Hsl eq_refl Hi8 Hsize Hper Hfree)
    as (s' & sm' & p & pl & E & Hp & Hu & Hwf & [Hb1 Hb2] & Ht & Hps & Hf & Hs' & Hsz & Hpl & Hh & _ & Hn & Hit & Hpg & v & Hv & Hvp & Hvl).
  assert (forall j smj, slab_at s' j smj -> j <> i -> slab_at s j smj) as Hold.
  { intros j smj [Hj0 Hj] D. split; [done|]. rewrite Hs' in Hj. apply lookup_app_Some in Hj as [Hj|[Hj1 Hj2]]; [done|].
    apply list_lookup_singleton_Some in Hj2 as [Hj2 _]. lia. }
  assert (slab_at s' i sm') as Hself by (split; [lia|apply Hv]).
  assert (forall j smj q, slab_at s' j smj -> j <> i -> is_Some (sv_where (vs j) !! q) -> q <> p) as Hnp.
  { intros j smj q Hj D Hq ->. rewrite (sk_used _ _ Hsl j smj p) in Hu; [done|by apply Hold|done]. }
  exists s', (<[i := v]> vs), sm'. split; [exact E|]. split; [|repeat split; congruence].
  assert (forall j, j <> i -> (<[i := v]> vs) j = vs j) as Hvj by (intros; by apply fn_lookup_insert_ne).
  pose proof (sk_small _ _ Hsl) as Hsmall. unfold small_pool in Hsmall.
  constructor; [constructor|].
  - by rewrite Hpl.
  - unfold small_pool. by rewrite Hpl, Ht.
  - intros j smj Hj. destruct (decide (j = i)) as [->|D].
    + rewrite fn_lookup_insert. destruct Hj as [_ Hj]. rewrite (so_slab _ _ _ _ Hv) in Hj. by injection Hj as <-.
    + rewrite Hvj by done. pose proof (Hold _ _ Hj D) as Hj'. pose proof (sk_slab _ _ Hsl j smj Hj') as Hok.
      eapply slab_ok_live; [exact Hok| | |by rewrite Hpl| |].
      * destruct Hj as [_ ->], Hj' as [_ ->]. done.
      * intros q Hq. apply Hpg. by eapply Hnp.
      * intros l Hl. apply links_kept_refl, Hit. apply (Hnp j smj); [done|done|]. by eapply in_use_slot.
      * intros l Hl _. apply chain_kept_refl, Hit. apply (Hnp j smj); [done|done|]. apply Hl.
  - intros j smj q Hj Hq. rewrite Hpl. destruct (decide (j = i)) as [->|D].
    + rewrite fn_lookup_insert in Hq. apply Hvp in Hq as ->. rewrite Hb2, Z.eqb_refl; [done|].
      apply wf_in_bitmap; [apply Hsl|lia].
    + rewrite Hvj in Hq by done. pose proof (Hold _ _ Hj D) as Hj'.
      rewrite Hb2; [|apply wf_in_bitmap; [apply Hsl|]; pose proof (so_pool _ _ _ _ (sk_slab _ _ Hsl j smj Hj') q Hq); lia].
      destruct (Z.eqb_spec q p); [done|]. by apply (sk_used _ _ Hsl j smj).
  - intros j k smj smk q Hj Hk. destruct (decide (j = i)) as [->|Dj], (decide (k = i)) as [->|Dk];
      rewrite ?fn_lookup_insert, ?Hvj by done; [done| | |].
    + intros ->%Hvp Hq. by eapply (Hnp k smk p) in Hq.
    + intros Hq ->%Hvp. by eapply (Hnp j smj p) in Hq.
    + by apply (sk_disjoint _ _ Hsl j k smj smk q (Hold _ _ Hj Dj) (Hold _ _ Hk Dk)).
  - intros j smj a Hj. destruct (decide (j = i)) as [->|D].
    + by rewrite fn_lookup_insert.
    + rewrite Hvj by done. by eapply Hempty, Hold.
Qed.

(** ** All slabs *)

(** The item sizes the loop arrives at. *)
Fixpoint slab_sizes (n : nat) (scale : Z -> Z) (end_ start : Z) : list Z :=
  match n with
  | O => []
  | S n' =>
      if start <=? end_ then
        let start := if end_ / 2 <? start then end_ else start in
        start :: slab_sizes n' scale end_ (ALIGN (scale start))
      else []
  end.

Lemma ALIGN_le x : 0 <= x -> x <= ALIGN x.
Proof.
  intros Hx. unfold ALIGN. replace (Z.lnot (8 - 1)) with (Z.lnot (Z.ones 3)) by done.
  rewrite <- Z.ldiff_land, Z.ldiff_ones_r, Z.shiftl_mul_pow2, Z.shiftr_div_pow2 by lia.
  change (2 ^ 3) with 8. pose proof (Z.div_mod (x + (8 - 1)) 8). pose proof (Z.mod_pos_bound (x + (8 - 1)) 8). lia.
Qed.

(** The bytes the slab managers take of the metadata. *)
Definition slab_bytes (size : Z) : Z :=
  sizeof_slab_manager
  + partial_pages_bucket_no (new_slab 0 size (2 ^ 20) ((2 ^ 20 - sizeof_page_info) / size)) * 4.
Definition slabs_bytes (sizes : list Z) : Z := foldr (fun size n => slab_bytes size + n) 0 sizes.

Lemma slabs_bytes_cons size sizes : slabs_bytes (size :: sizes) = slab_bytes size + slabs_bytes sizes.
Proof. done. Qed.

Lemma slab_loop_ok n scale s vs start total psize :
  starting s vs -> psize = 2 ^ 20 -> page_size (m_pool s) = psize -> (forall x, 0 < x -> x <= scale x) ->
  sizeof_mdb_item + 16 <= start ->
  let i := Z.of_nat (length (m_slabs s)) in let sizes := slab_sizes n scale (psize - sizeof_page_info) start in
  i + Z.of_nat (length sizes) <= 2 ^ 8 -> Z.of_nat (length sizes) <= free_pages (m_pool s) ->
  exists s' vs' total', slab_loop n scale psize i start total s = Ret (total', s') /\ starting s' vs'
    /\ map slab_size (m_slabs s') = map slab_size (m_slabs s) ++ sizes
    /\ total' = total + slabs_bytes sizes
    /\ m_hash s' = m_hash s /\ m_now s' = m_now s.
Proof.
  intros Hst -> Hps Hsc. revert s vs start total Hst Hps.
  induction n as [|n IH]; intros s vs start total Hst Hps Hstart i sizes Hi Hfree; subst sizes; cbn [slab_sizes slab_loop] in *.
  { exists s, vs, total. split; [done|]. split; [done|]. rewrite app_nil_r.
    split; [done|]. split; [simpl; lia|done]. }
  change (2 ^ 20 - sizeof_page_info) with 1048544 in *. set (end_ := 1048544) in *. destruct (Z.leb_spec start end_) as [Hle|Hgt].
  2: { exists s, vs, total. split; [done|]. split; [done|]. rewrite app_nil_r.
    split; [done|]. split; [simpl; lia|done]. }
  set (start1 := if end_ / 2 <? start then end_ else start) in *. cbn [length] in Hi, Hfree.
  unfold sizeof_mdb_item in Hstart.
  assert (62 <= start1 <= end_) as Hs1 by (subst start1; destruct (end_ / 2 <? start); lia).
  assert (end_ < 2 ^ 20) as He by done.
  assert (0 < end_ / start1 <= 16912) as Hper.
  { split; [apply Z.div_str_pos; lia|]. etransitivity; [apply (Z.div_le_compat_l end_ 62 start1); lia|]. done. }
  destruct (add_slab_ok s vs start1 (end_ / start1) Hst ltac:(lia) ltac:(unfold sizeof_mdb_item; lia) ltac:(lia) ltac:(lia))
    as (s1 & vs1 & sm1 & E1 & Hst1 & Hs' & Hsz & Hps1 & Hf1 & Hh & Hn).
  fold i in E1. rewrite Hps in E1.
  set (sm := new_slab i start1 (2 ^ 20) (end_ / start1)) in *.
  assert (i + 1 = Z.of_nat (length (m_slabs s1))) as Hi1 by (rewrite Hs', length_app; simpl; lia).
  destruct (IH s1 vs1 (ALIGN (scale start1)) (total + sizeof_slab_manager + partial_pages_bucket_no sm * 4) Hst1)
    as (s' & vs' & total' & E & Hst' & Hm & Ht & Hh' & Hn').
  { by rewrite Hps1. }
  { pose proof (Hsc start1 ltac:(lia)). pose proof (ALIGN_le (scale start1) ltac:(lia)). unfold sizeof_mdb_item. lia. }
  { rewrite <- Hi1. lia. } { rewrite Hf1. lia. }
  rewrite <- Hi1 in E. exists s', vs', total'. split.
  { step_with (eq_refl : smodify (set_m_slabs (fun slabs => slabs ++ [sm])) s = Ret (tt, _)).
    step_with E1. exact E. }
  split; [done|]. split; [rewrite Hm, Hs', map_app, <- app_assoc; cbn [map]; by rewrite Hsz|].
  split; [|split; congruence]. rewrite Ht, slabs_bytes_cons.
  change (slab_bytes start1) with (sizeof_slab_manager + partial_pages_bucket_no sm * 4). lia.
Qed.

Lemma slab_sizes_length n scale end_ start : (length (slab_sizes n scale end_ start) <= n)%nat.
Proof.
  revert start. induction n as [|n IH]; intros start; cbn [slab_sizes]; [done|].
  destruct (start <=? end_); cbn [length]; [|lia]. pose proof (IH (ALIGN (scale (if end_ / 2 <? start then end_ else start)))). lia.
Qed.

(** [slab_initialize] on a pool with room for the first pages. *)
Definition base_of (base_size : Z) : Z :=
  if base_size <? sizeof_mdb_item + 16 then ALIGN (sizeof_mdb_item + 16) else base_size.

Lemma slab_initialize_starts scale max_slab_id base_size s :
  pool_wf (m_pool s) -> small_pool s -> m_slabs s = [] -> page_size (m_pool s) = 2 ^ 20 ->
  (forall x, 0 < x -> x <= scale x) -> base_size < 2 ^ 20 ->
  let sizes := slab_sizes (Z.to_nat max_slab_id) scale (2 ^ 20 - sizeof_page_info) (base_of base_size) in
  Z.of_nat (length sizes) <= 2 ^ 8 -> slabs_bytes sizes < MEMCACHE_META_LEN ->
  Z.of_nat (length sizes) <= free_pages (m_pool s) ->
  exists s' vs, slab_initialize scale max_slab_id base_size s = Ret (tt, s') /\ starting s' vs
    /\ map slab_size (m_slabs s') = sizes /\ m_hash s' = m_hash s /\ m_now s' = m_now s.
Proof.
  intros Hwf Hsmall Hnil Hps Hsc Hb sizes Hlen Hbytes Hfree.
  assert (forall i sm, slab_at s i sm -> False) as Hno.
  { intros i sm [_ Hi]. by rewrite Hnil in Hi. }
  assert (starting s (fun _ => mk_slab_view ∅ (fun _ => []) (fun _ => []) (fun _ => []))) as Hst.
  { constructor; [|by intros]. constructor; try done; intros i; [intros sm H| intros sm p H|intros j smi smj p H];
      by apply Hno in H. }
  assert (62 <= base_of base_size < 2 ^ 20) as Hbo.
  { unfold base_of, sizeof_mdb_item. destruct (Z.ltb_spec base_size (46 + 16)); [done|lia]. }
  destruct (slab_loop_ok (Z.to_nat max_slab_id) scale s _ (base_of base_size) 0 (2 ^ 20) Hst eq_refl Hps Hsc)
    as (s' & vs & total & E & Hst' & Hm & Ht & Hh & Hn).
  { unfold sizeof_mdb_item. lia. } { rewrite Hnil. fold sizes. cbn. lia. } { done. }
  rewrite Hnil in E, Hm. cbn [length map app] in E, Hm. fold sizes in Ht. exists s', vs. split; [|done].
  unfold slab_initialize. step_with (eq_refl : sget s = Ret (s, s)). fold (base_of base_size). rewrite Hps.
  rewrite sassert_run by (apply Z.ltb_lt; lia). step_with E. rewrite sassert_run; [done|].
  apply Z.ltb_lt. rewrite Ht. exact Hbytes.
Qed.

(** The engine's invariant, with an empty store. *)
Lemma starting_cache_ok s vs :
  starting s vs -> hash_item_count (m_hash s) = 0 -> 0 < bucket_size (m_hash s) ->
  (forall b, area_get 0 (hashtable (m_hash s)) b = 0) -> cache_ok s ∅ vs None.
Proof.
  intros [Hsl Hempty] Hc Hb Hh. constructor; [done| | |].
  - exists (fun _ => []). constructor; try done; [|by intros ?; constructor|by intros b l ?%elem_of_nil].
    intros b _. simpl. apply Hh.
  - intros k l it H. by rewrite lookup_empty in H.
  - intros i sm a l Hi Hl. rewrite (Hempty i sm a Hi) in Hl. by apply elem_of_nil in Hl.
Qed.

(** ** [mdb_manager::initialize] (storage/mdb/mdb_manager.cpp) *)

Definition TAIR_SLAB_LARGEST : Z := 100.

(** On [malloc]ed memory at [tpool], cleared; the pool, then the hash table,
    then the cache with its slabs ([mem_cache::initialize]).  The threads it
    starts are not part of the model. *)
Definition mdb_manager_initialize (tpool size psize hash_shift slab_base_size : Z) (scale : Z -> Z) (now : Z) : outcome mdb :=
  oassert (negb (tpool =? 0)) (
    let meta_len := Z.shiftl 1 20 + MEMCACHE_META_LEN in
    let! p := mem_pool_initialize tpool psize (size / psize) meta_len blank_pool in
    let! (_, hashmap, p) := new_hash_map hash_shift p in
    let slab_base_size := if 0 =? slab_base_size then sizeof_mdb_item + 16 else slab_base_size in
    oassert (0 <? slab_base_size) (
      let! (_, s) := slab_initialize scale TAIR_SLAB_LARGEST slab_base_size (mk_mdb p ∅ ∅ [] hashmap ∅ now) in
      Ret s)).

(** The item sizes of its slabs. *)
Definition engine_sizes (scale : Z -> Z) (slab_base_size : Z) : list Z :=
  slab_sizes (Z.to_nat TAIR_SLAB_LARGEST) scale (2 ^ 20 - sizeof_page_info)
    (base_of (if 0 =? slab_base_size then sizeof_mdb_item + 16 else slab_base_size)).

(** A configuration that works: pages of one megabyte as by default, at most
    [2 ^ 16] of them, a growth factor of at least one that gives few enough
    slabs, and a page for each slab behind the metadata and the hash table, whose
    number of buckets fits an [int]. *)
Record params_ok (tpool size hash_shift slab_base_size : Z) (scale : Z -> Z) : Prop := {
  pr_pool : 0 < tpool /\ tpool + size <= 2 ^ 64;
  pr_total : size / 2 ^ 20 <= MAX_PAGES_NO;
  pr_shift : 0 <= hash_shift < 31;
  pr_base : 0 <= slab_base_size < 2 ^ 20;
  pr_scale : forall x, 0 < x -> x <= scale x;
  pr_slabs : slabs_bytes (engine_sizes scale slab_base_size) < MEMCACHE_META_LEN;
  pr_room : meta_pages (2 ^ 20) (Z.shiftl 1 20 + MEMCACHE_META_LEN) + hash_table_pages hash_shift (2 ^ 20)
            + Z.max 1 (Z.of_nat (length (engine_sizes scale slab_base_size))) <= size / 2 ^ 20
}.

Lemma mdb_manager_initialize_ok tpool size hash_shift slab_base_size scale now :
  params_ok tpool size hash_shift slab_base_size scale ->
  exists s vs, mdb_manager_initialize tpool size (2 ^ 20) hash_shift slab_base_size scale now = Ret s
    /\ cache_ok s ∅ vs None /\ map slab_size (m_slabs s) = engine_sizes scale slab_base_size /\ m_now s = now.
Proof.
  intros [[Hp1 Hp2] Htot Hsh Hb Hsc Hlen Hroom]. unfold mdb_manager_initialize.
  set (meta_len := Z.shiftl 1 20 + MEMCACHE_META_LEN) in *.
  pose proof (Z.mul_div_le size (2 ^ 20) ltac:(lia)) as Hmul.
  destruct (fresh_hash_map tpool (2 ^ 20) (size / 2 ^ 20) meta_len blank_pool hash_shift)
    as (p & p' & Ei & En & Hfr & Hc & Ht & Hps); try done; try lia.
  destruct (Z.eqb_spec tpool 0) as [|_]; [lia|]. cbn [negb oassert]. rewrite Ei. cbn [obind]. rewrite En. cbn [obind].
  unfold engine_sizes in *.
  set (base := if 0 =? slab_base_size then sizeof_mdb_item + 16 else slab_base_size) in *.
  assert (0 < base < 2 ^ 20) as Hbase.
  { subst base. destruct (Z.eqb_spec 0 slab_base_size); [done|lia]. }
  destruct (Z.ltb_spec 0 base) as [_|]; [|lia]. cbn [oassert].
  set (s0 := mk_mdb _ _ _ _ _ _ _).
  destruct (slab_initialize_starts scale TAIR_SLAB_LARGEST base s0) as (s & vs & E & Hst & Hm & Hh & Hn); try done.
  - apply Hfr.
  - unfold small_pool. cbn. rewrite Ht. exact Htot.
  - lia.
  - pose proof (slab_sizes_length (Z.to_nat TAIR_SLAB_LARGEST) scale (2 ^ 20 - sizeof_page_info) (base_of base)) as Hle.
    unfold TAIR_SLAB_LARGEST in *. lia.
  - cbn [m_pool s0]. rewrite (fresh_free p' Hfr), Hc, Ht. lia.
  - rewrite E. cbn [obind]. exists s, vs. split; [done|]. split; [|split; [done|by rewrite Hn]].
    apply starting_cache_ok; try done; rewrite Hh; cbn; [done| |].
    + apply hash_bucket_size_in_range. lia.
    + intros b. unfold area_get. by rewrite lookup_empty.
Qed.
