(* ===== verification/EngineRun.v ===== *)
(** * Runs of the memory engine (storage/mdb)

    From [slab_initialize] on, every sequence of [put]s, [get]s and [remove]s
    runs without failing an assertion and as the abstract store allows; in
    particular a [get] never returns anything but what was stored last. *)

From S2P Require Import Prelude Util DataBuffer DataEntry MemPool MdbItem MemCache Dll SlabLists SlabPages SlabAlloc SlabFree SlabEvict CacheHashMap EngineState MdbManager Engine EngineInit.

(** ** Sequences of operations *)

Inductive cache_op :=
| OpPut (key value : data_entry) (version_care : bool) (expired : Z)
| OpGet (key : data_entry)
| OpRemove (key : data_entry) (version_care : bool).

Definition op_key (o : cache_op) : list Z :=
  match o with OpPut key _ _ _ | OpGet key | OpRemove key _ => get_data key end.

(** The return code, and the bytes and the version of the value of a hit. *)
Definition cache_result : Type := Z * option (list Z * Z).

Definition run_op (o : cache_op) : mdbM cache_result :=
  match o with
  | OpPut key value version_care expired =>
      let* (rc, _) := do_put key value version_care expired in sret (rc, None)
  | OpGet key =>
      let* (rc, _, value) := do_get key new_data_entry in
      sret (rc, if rc =? 0 then Some (get_data value, get_version value) else None)
  | OpRemove key version_care =>
      let* (rc, _) := do_remove key version_care in sret (rc, None)
  end.

(** The clock when an operation starts. *)
Definition set_now (now : Z) (s : mdb) : mdb :=
  mk_mdb (m_pool s) (m_pages s) (m_items s) (m_slabs s) (m_hash s) (m_stat s) now.

Fixpoint run_ops (os : list (Z * cache_op)) : mdbM (list cache_result) :=
  match os with
  | [] => sret []
  | (now, o) :: os' =>
      let* _ := smodify (set_now now) in
      let* r := run_op o in
      let* rs := run_ops os' in
      sret (r :: rs)
  end.

(** What an operation may do to the abstract store. *)
Inductive op_spec (now : Z) (c : gmap (list Z) entry) : cache_op -> cache_result -> gmap (list Z) entry -> Prop :=
| op_put key value version_care expired rc c' :
    put_spec now c key value version_care (Z.max 0 expired) rc c' ->
    op_spec now c (OpPut key value version_care expired) (rc, None) c'
| op_get key rc r c' :
    get_spec now c (get_data key) rc r c' ->
    op_spec now c (OpGet key) (rc, (fun e => (e_value e, e_version e)) <$> r) c'
| op_remove key version_care rc c' :
    remove_spec c (get_data key) rc c' ->
    op_spec now c (OpRemove key version_care) (rc, None) c'.

Inductive ops_spec : gmap (list Z) entry -> list (Z * cache_op) -> list cache_result -> gmap (list Z) entry -> Prop :=
| ops_nil c : ops_spec c [] [] c
| ops_cons c now o r c' os rs c'' :
    op_spec (u32 now) c o r c' -> ops_spec c' os rs c'' -> ops_spec c ((now, o) :: os) (r :: rs) c''.

(** Operations the engine's callers make: keys with their two bytes of area,
    and values some slab has room for. *)
Definition key_ok (key : data_entry) : Prop :=
  get_data key <> [] /\ area key = KEY_AREA (get_data key) /\ 0 <= area key < TAIR_MAX_AREA_COUNT.
Definition op_ok (sizes : list Z) (o : cache_op) : Prop :=
  match o with
  | OpPut key value _ _ =>
      put_ok key value /\ exists z, z ∈ sizes /\ get_size key + get_size value + sizeof_mdb_item <= z
  | OpGet key => key_ok key
  | OpRemove key _ => key_ok key
  end.

Lemma cache_ok_now now s m vs p : cache_ok s m vs p -> cache_ok (set_now now s) m vs p.
Proof.
  intros [H1 [chains H2] H3 H4]. constructor; try done.
  - eapply slabs_live; [exact H1|done|done|done| |]; intros; [by apply links_kept_refl|by apply chain_kept_refl].
  - exists chains. eapply hash_rep_frame; [exact H2|done|]. intros k l it _ Eit. by exists it.
Qed.

Lemma run_op_ok o s m vs :
  cache_ok s m vs None -> op_ok (map slab_size (m_slabs s)) o ->
  exists r s' m' vs', run_op o s = Ret (r, s') /\ cache_ok s' m' vs' None /\ engine_frame s s'
    /\ op_spec (u32 (m_now s)) (content s m) o r (content s' m').
Proof.
  intros Hck Ho. destruct o as [key value vc expired|key|key vc]; cbn [run_op].
  - destruct Ho as [Hput Hroom].
    destruct (do_put_ok s m vs Hck key value vc expired Hput Hroom)
      as (rc & key' & s' & m' & vs' & E & Hck' & Hef & Hsp & _).
    exists (rc, None), s', m', vs'. split; [by step_with E|]. split; [done|]. split; [done|]. by constructor.
  - destruct Ho as (Hne & Hak & Ha).
    destruct (do_get_ok s m vs Hck key new_data_entry Hne Hak Ha)
      as (rc & key' & value' & r & s' & m' & vs' & E & Hck' & Hef & Hsp & Hrec & _).
    exists (rc, (fun e => (e_value e, e_version e)) <$> r), s', m', vs'.
    split; [|split; [done|split; [done|by constructor]]]. step_with E. unfold sret. do 3 f_equal.
    destruct Hsp as [?|e ? ?|e ? ?]; try done. destruct Hrec as (-> & _ & -> & _). done.
  - destruct Ho as (Hne & _ & Ha).
    destruct (do_remove_ok s m vs Hck key vc Hne Ha) as (rc & key' & s' & m' & vs' & E & Hck' & Hef & Hsp).
    exists (rc, None), s', m', vs'. split; [by step_with E|]. split; [done|]. split; [done|]. by constructor.
Qed.

Lemma run_ops_ok os s m vs :
  cache_ok s m vs None -> Forall (fun o => op_ok (map slab_size (m_slabs s)) o.2) os ->
  exists rs s' m' vs', run_ops os s = Ret (rs, s') /\ cache_ok s' m' vs' None
    /\ ops_spec (content s m) os rs (content s' m').
Proof.
  revert s m vs. induction os as [|[now o] os IH]; intros s m vs Hck Hos.
  { exists [], s, m, vs. split; [done|]. split; [done|]. constructor. }
  apply list.Forall_cons in Hos as [Ho Hos]. cbn [run_ops].
  set (s1 := set_now now s). step_with (eq_refl : smodify (set_now now) s = Ret (tt, s1)).
  destruct (run_op_ok o s1 m vs (cache_ok_now now s m vs None Hck) Ho) as (r & s2 & m2 & vs2 & E & Hck2 & Hef & Hsp).
  step_with E. destruct (IH s2 m2 vs2 Hck2) as (rs & s3 & m3 & vs3 & E3 & Hck3 & Hsps).
  { rewrite (ef_sizes _ _ Hef). exact Hos. }
  step_with E3. exists (r :: rs), s3, m3, vs3. split; [done|]. split; [done|]. econstructor; [exact Hsp|exact Hsps].
Qed.

Lemma ops_spec_length c os rs c' : ops_spec c os rs c' -> length rs = length os.
Proof. induction 1; [done|]. cbn. by f_equal. Qed.

(** ** What a client can rely on *)

(** The last value stored under each key and not removed since. *)
Definition last_stored (last : gmap (list Z) (list Z)) (o : cache_op) (r : cache_result) : gmap (list Z) (list Z) :=
  match o with
  | OpPut key value _ _ => if r.1 =? 0 then <[get_data key := get_data value]> last else last
  | OpGet _ => last
  | OpRemove key _ => delete (get_data key) last
  end.

(** Every hit is on the last value stored. *)
Fixpoint hits_last (last : gmap (list Z) (list Z)) (os : list (Z * cache_op)) (rs : list cache_result) : Prop :=
  match os, rs with
  | (_, o) :: os', r :: rs' =>
      (match o, r.2 with
       | OpGet key, Some (v, _) => last !! get_data key = Some v
       | _, _ => True
       end) /\ hits_last (last_stored last o r) os' rs'
  | _, _ => True
  end.

Definition cached (last : gmap (list Z) (list Z)) (c : gmap (list Z) entry) : Prop :=
  forall k e, c !! k = Some e -> last !! k = Some (e_value e).

Lemma op_spec_cached now last c o r c' :
  cached last c -> op_spec now c o r c' ->
  cached (last_stored last o r) c'
  /\ (forall key v ver, o = OpGet key -> r.2 = Some (v, ver) -> last !! get_data key = Some v).
Proof.
  intros Hc Hsp. assert (forall k, cached last (delete k c)) as Hdel
    by (intros k j e [_ Hj]%lookup_delete_Some; by apply Hc).
  destruct Hsp as [key value vc expired rc c' Hp|key rc r c' Hg|key vc rc c' Hr]; (split; [|try done]).
  - destruct Hp as [|base e c' _ Hst Hc']; [done|]. cbn.
    intros j e' [[<- <-]|[D Hj]]%lookup_insert_Some.
    + rewrite lookup_insert_eq. by rewrite (st_value _ _ _ _ _ _ _ Hst).
    + rewrite lookup_insert_ne by done. destruct Hc' as [->|[victim ->]]; [by apply Hc|by apply (Hdel victim)].
  - destruct Hg as [?|e ? ?|e ? ?]; cbn; [done|apply Hdel|done].
  - intros key' v ver [= <-]. destruct Hg as [?|e ? ?|e He ?]; try done. intros [= <- <-]. by apply Hc.
  - assert (forall k, cached (delete k last) (delete k c)) as Hd2.
    { intros k j e [D Hj]%lookup_delete_Some. rewrite lookup_delete_ne by done. by apply Hc. }
    destruct Hr as [e ?|Hn]; cbn; [apply Hd2|]. intros j e Hj. rewrite lookup_delete_ne; [by apply Hc|]. congruence.
Qed.

Lemma ops_spec_hits last c os rs c' : cached last c -> ops_spec c os rs c' -> hits_last last os rs.
Proof.
  intros Hc Hs. revert last Hc. induction Hs as [|c now o r c' os rs c'' Hop Hs IH]; intros last Hc; [done|].
  destruct (op_spec_cached _ last c o r c' Hc Hop) as [Hc' Hhit]. split; [|by apply IH].
  destruct o; try done. destruct r as [rc [[v ver]|]]; [|done]. by apply (Hhit key v ver).
Qed.

(** ** The engine from start-up on *)

Lemma engine_run tpool size hash_shift slab_base_size scale now os :
  params_ok tpool size hash_shift slab_base_size scale ->
  Forall (fun o => op_ok (engine_sizes scale slab_base_size) o.2) os ->
  exists s rs s' m vs,
    mdb_manager_initialize tpool size (2 ^ 20) hash_shift slab_base_size scale now = Ret s
    /\ run_ops os s = Ret (rs, s') /\ cache_ok s' m vs None /\ ops_spec ∅ os rs (content s' m).
Proof.
  intros Hp Hos.
  destruct (mdb_manager_initialize_ok tpool size hash_shift slab_base_size scale now Hp) as (s & vs & E & Hck & Hsz & _).
  destruct (run_ops_ok os s ∅ vs Hck) as (rs & s' & m & vs' & Er & Hck' & Hsp); [by rewrite Hsz|].
  exists s, rs, s', m, vs'. split; [done|]. split; [done|]. split; [done|]. unfold content in Hsp at 1.
  by rewrite omap_empty in Hsp.
Qed.

(** C1: the memory engine is a cache.  On memory that holds the metadata, the
    hash table and a page for each slab, initialisation succeeds; from then on
    every sequence of [put], [get] and [remove], with any clock, of keys and
    values some slab has room for, runs to its end without a failed assertion
    or a read of memory that holds no item, whatever has to be evicted on the
    way.  Its answers are those of a map from keys to entries: a [put] stores
    the entry unless the version is stale and drops at most one other key, a
    [get] answers with the entry unless it is absent or expired, a [remove]
    takes the key out.  At the end slabs, item lists, page lists, bitmap and
    hash table are consistent with that map. *)
Theorem engine_is_a_cache tpool size hash_shift slab_base_size scale now os :
  params_ok tpool size hash_shift slab_base_size scale ->
  Forall (fun o => op_ok (engine_sizes scale slab_base_size) o.2) os ->
  exists s rs s' m vs,
    mdb_manager_initialize tpool size (2 ^ 20) hash_shift slab_base_size scale now = Ret s
    /\ run_ops os s = Ret (rs, s') /\ cache_ok s' m vs None /\ ops_spec ∅ os rs (content s' m).
Proof. apply engine_run. Qed.

(** a hit is never stale.  In every such run each [get] that finds its key
    returns the bytes of the last successful [put] under that key, with no
    [remove] of the key in between. *)
Theorem engine_hits_are_last tpool size hash_shift slab_base_size scale now os :
  params_ok tpool size hash_shift slab_base_size scale ->
  Forall (fun o => op_ok (engine_sizes scale slab_base_size) o.2) os ->
  exists s rs s',
    mdb_manager_initialize tpool size (2 ^ 20) hash_shift slab_base_size scale now = Ret s
    /\ run_ops os s = Ret (rs, s') /\ length rs = length os /\ hits_last ∅ os rs.
Proof.
  intros Hp Hos. destruct (engine_run tpool size hash_shift slab_base_size scale now os Hp Hos)
    as (s & rs & s' & m & vs & E & Er & _ & Hsp).
  exists s, rs, s'. split; [done|]. split; [done|]. split; [by eapply ops_spec_length|].
  eapply ops_spec_hits; [|exact Hsp]. intros k e Hk. by rewrite lookup_empty in Hk.
Qed.

(** *** A run *)
Definition demo_scale (x : Z) : Z := x * 11 / 10.
Definition demo_key : data_entry := merge_area 1 (data_entry_of [107]).
Definition demo_ops : list (Z * cache_op) :=
  [(10, OpPut demo_key (data_entry_of [7; 8]) false 0); (11, OpGet demo_key);
   (12, OpRemove demo_key false); (13, OpGet demo_key)].

Lemma demo_params : params_ok 4096 (200 * 2 ^ 20) 10 64 demo_scale.
Proof.
  constructor; [by vm_compute..| |by vm_compute|by vm_compute]. intros x Hx. unfold demo_scale. apply Z.div_le_lower_bound; lia.
Qed.

Lemma demo_ops_ok : Forall (fun o => op_ok (engine_sizes demo_scale 64) o.2) demo_ops.
Proof.
  assert (key_ok demo_key) as Hk by (split; [done|by vm_compute]).
  repeat (apply list.Forall_cons; split; [|]); try exact Hk; [|by apply list.Forall_nil].
  split; [constructor; by vm_compute|]. exists 64. split; [vm_compute; left|by vm_compute].
Qed.

Lemma engine_is_a_cache_witness :
  exists s rs s' m vs,
    mdb_manager_initialize 4096 (200 * 2 ^ 20) (2 ^ 20) 10 64 demo_scale 9 = Ret s
    /\ run_ops demo_ops s = Ret (rs, s') /\ cache_ok s' m vs None /\ ops_spec ∅ demo_ops rs (content s' m).
Proof. exact (engine_is_a_cache 4096 (200 * 2 ^ 20) 10 64 demo_scale 9 demo_ops demo_params demo_ops_ok). Defined.

Lemma engine_hits_are_last_witness :
  exists s rs s',
    mdb_manager_initialize 4096 (200 * 2 ^ 20) (2 ^ 20) 10 64 demo_scale 9 = Ret s
    /\ run_ops demo_ops s = Ret (rs, s') /\ length rs = length demo_ops /\ hits_last ∅ demo_ops rs.
Proof. exact (engine_hits_are_last 4096 (200 * 2 ^ 20) 10 64 demo_scale 9 demo_ops demo_params demo_ops_ok). Defined.
