(* ===== verification/TableBuilder.v ===== *)
(** * table_builder (configserver/table_builder.cpp, table_builder.hpp)

    The config server's routing table: for each copy number (line) and each
    bucket the data server that holds it; line 0 holds the masters.  A build
    takes the last table and the servers now available.  The base class is
    here; what a strategy supplies (its virtual functions) is the class
    [Strategy], instantiated in TableStrategies.v.

    A [std::map] that is only read and updated by key is a [gmap] with default
    0, which is what [operator[]] gives; a [std::set] and a [std::map] that is
    iterated is a list in the iteration order of the container.  Counters are
    bounded by the number of table entries and do not wrap.  The lines of a
    table are numbered from 0, as [load_hash_table] makes them. *)

From S2P Require Import Prelude.

(** ** Data *)

(** [server_id_type]: the address and the position (rack) of a server *)
Abbreviation server_id := (Z * Z)%type.

Definition id_lt (a b : server_id) : bool := (a.1 <? b.1) || ((a.1 =? b.1) && (a.2 <? b.2)).

(** [server_list_type], a [set<server_id_type>] *)
Abbreviation server_list := (list server_id).
Fixpoint sl_insert (x : server_id) (l : server_list) : server_list :=
  match l with
  | [] => [x]
  | y :: l' => if decide (x = y) then l else if id_lt x y then x :: l else y :: sl_insert x l'
  end.
Definition sl_erase (x : server_id) (l : server_list) : server_list := filter (fun y => y <> x) l.

(** [map<int, server_list_type>]: [operator[]] followed by a change *)
Abbreviation index := (list (Z * server_list)).
Fixpoint ix_at (k : Z) (f : server_list -> server_list) (m : index) : index :=
  match m with
  | [] => [(k, f [])]
  | (k0, s) :: m' =>
      if k <? k0 then (k, f []) :: m
      else if k =? k0 then (k0, f s) :: m' else (k0, s) :: ix_at k f m'
  end.

(** [map<server_id_type, int>] *)
Abbreviation counts := (gmap server_id Z).
Definition cnt (m : counts) (x : server_id) : Z := default 0 (m !! x).

Abbreviation hash_line := (list server_id).
Abbreviation hash_table := (list (list server_id)).

Definition CONSIDER_ALL : Z := 0.
Definition CONSIDER_POS : Z := 1.
Definition CONSIDER_BASE : Z := 2.
Definition CONSIDER_FORCE : Z := 3.
Definition NODE_OK : Z := 0.
Definition INVALID_NODE : Z := 1.
Definition TOOMANY_MASTER : Z := 2.
Definition TOOMANY_BUCKET : Z := 3.
Definition SAME_NODE : Z := 4.
Definition SAME_POS : Z := 5.
Definition INVALID_FLAG : Z := 0.
Definition BUILD_ERROR : Z := 0.
Definition BUILD_OK : Z := 1.
Definition BUILD_QUICK : Z := 2.

(** The members of the object and the table that is being built, which every
    method gets by reference; [extra] is what the strategy adds. *)
Record builder (X : Type) := mk_builder {
  tokens_count_in_node : counts; max_count_now : Z; tokens_count_in_node_now : counts;
  count_server : index; mtokens_count_in_node : counts; mcount_server : index;
  scandidate_node : index; mcandidate_node : index;
  available_server : server_list; server_capable : counts; master_server_capable : counts;
  pos_mask : Z; bucket_count : Z; copy_count : Z; table : hash_table; extra : X
}.
Arguments mk_builder {X}. Arguments tokens_count_in_node {X}. Arguments max_count_now {X}.
Arguments tokens_count_in_node_now {X}. Arguments count_server {X}.
Arguments mtokens_count_in_node {X}. Arguments mcount_server {X}. Arguments scandidate_node {X}.
Arguments mcandidate_node {X}. Arguments available_server {X}. Arguments server_capable {X}.
Arguments master_server_capable {X}. Arguments pos_mask {X}. Arguments bucket_count {X}.
Arguments copy_count {X}. Arguments table {X}. Arguments extra {X}.

Section builder.
Context {X : Type}.
Implicit Types b : builder X.

(** *** Field updates *)
Definition set_tokens_count_in_node f b : builder X :=
  mk_builder (f (tokens_count_in_node b)) (max_count_now b) (tokens_count_in_node_now b)
    (count_server b) (mtokens_count_in_node b) (mcount_server b) (scandidate_node b)
    (mcandidate_node b) (available_server b) (server_capable b) (master_server_capable b)
    (pos_mask b) (bucket_count b) (copy_count b) (table b) (extra b).
Definition set_max_count_now f b : builder X :=
  mk_builder (tokens_count_in_node b) (f (max_count_now b)) (tokens_count_in_node_now b)
    (count_server b) (mtokens_count_in_node b) (mcount_server b) (scandidate_node b)
    (mcandidate_node b) (available_server b) (server_capable b) (master_server_capable b)
    (pos_mask b) (bucket_count b) (copy_count b) (table b) (extra b).
Definition set_tokens_count_in_node_now f b : builder X :=
  mk_builder (tokens_count_in_node b) (max_count_now b) (f (tokens_count_in_node_now b))
    (count_server b) (mtokens_count_in_node b) (mcount_server b) (scandidate_node b)
    (mcandidate_node b) (available_server b) (server_capable b) (master_server_capable b)
    (pos_mask b) (bucket_count b) (copy_count b) (table b) (extra b).
Definition set_count_server f b : builder X :=
  mk_builder (tokens_count_in_node b) (max_count_now b) (tokens_count_in_node_now b) (f
    (count_server b)) (mtokens_count_in_node b) (mcount_server b) (scandidate_node b)
    (mcandidate_node b) (available_server b) (server_capable b) (master_server_capable b)
    (pos_mask b) (bucket_count b) (copy_count b) (table b) (extra b).
Definition set_mtokens_count_in_node f b : builder X :=
  mk_builder (tokens_count_in_node b) (max_count_now b) (tokens_count_in_node_now b) (count_server
    b) (f (mtokens_count_in_node b)) (mcount_server b) (scandidate_node b) (mcandidate_node b)
    (available_server b) (server_capable b) (master_server_capable b) (pos_mask b) (bucket_count
    b) (copy_count b) (table b) (extra b).
Definition set_mcount_server f b : builder X :=
  mk_builder (tokens_count_in_node b) (max_count_now b) (tokens_count_in_node_now b) (count_server
    b) (mtokens_count_in_node b) (f (mcount_server b)) (scandidate_node b) (mcandidate_node b)
    (available_server b) (server_capable b) (master_server_capable b) (pos_mask b) (bucket_count
    b) (copy_count b) (table b) (extra b).
Definition set_scandidate_node f b : builder X :=
  mk_builder (tokens_count_in_node b) (max_count_now b) (tokens_count_in_node_now b) (count_server
    b) (mtokens_count_in_node b) (mcount_server b) (f (scandidate_node b)) (mcandidate_node b)
    (available_server b) (server_capable b) (master_server_capable b) (pos_mask b) (bucket_count
    b) (copy_count b) (table b) (extra b).
Definition set_mcandidate_node f b : builder X :=
  mk_builder (tokens_count_in_node b) (max_count_now b) (tokens_count_in_node_now b) (count_server
    b) (mtokens_count_in_node b) (mcount_server b) (scandidate_node b) (f (mcandidate_node b))
    (available_server b) (server_capable b) (master_server_capable b) (pos_mask b) (bucket_count
    b) (copy_count b) (table b) (extra b).
Definition set_available_server f b : builder X :=
  mk_builder (tokens_count_in_node b) (max_count_now b) (tokens_count_in_node_now b) (count_server
    b) (mtokens_count_in_node b) (mcount_server b) (scandidate_node b) (mcandidate_node b) (f
    (available_server b)) (server_capable b) (master_server_capable b) (pos_mask b) (bucket_count
    b) (copy_count b) (table b) (extra b).
Definition set_server_capable f b : builder X :=
  mk_builder (tokens_count_in_node b) (max_count_now b) (tokens_count_in_node_now b) (count_server
    b) (mtokens_count_in_node b) (mcount_server b) (scandidate_node b) (mcandidate_node b)
    (available_server b) (f (server_capable b)) (master_server_capable b) (pos_mask b)
    (bucket_count b) (copy_count b) (table b) (extra b).
Definition set_master_server_capable f b : builder X :=
  mk_builder (tokens_count_in_node b) (max_count_now b) (tokens_count_in_node_now b) (count_server
    b) (mtokens_count_in_node b) (mcount_server b) (scandidate_node b) (mcandidate_node b)
    (available_server b) (server_capable b) (f (master_server_capable b)) (pos_mask b)
    (bucket_count b) (copy_count b) (table b) (extra b).
Definition set_table f b : builder X :=
  mk_builder (tokens_count_in_node b) (max_count_now b) (tokens_count_in_node_now b) (count_server
    b) (mtokens_count_in_node b) (mcount_server b) (scandidate_node b) (mcandidate_node b)
    (available_server b) (server_capable b) (master_server_capable b) (pos_mask b) (bucket_count
    b) (copy_count b) (f (table b)) (extra b).
Definition set_extra f b : builder X :=
  mk_builder (tokens_count_in_node b) (max_count_now b) (tokens_count_in_node_now b) (count_server
    b) (mtokens_count_in_node b) (mcount_server b) (scandidate_node b) (mcandidate_node b)
    (available_server b) (server_capable b) (master_server_capable b) (pos_mask b) (bucket_count
    b) (copy_count b) (table b) (f (extra b)).

(** ** Counting and availability *)

(** [init_token_count(collector)] *)
Definition init_token_count (available : server_list) : counts :=
  list_to_map (map (fun x => (x, 0)) available).

(** [update_node_count(node_id, collector)]: whether the node was there, and
    the new counts *)
Definition update_node_count (node : server_id) (collector : counts) : bool * counts :=
  match collector !! node with
  | Some n => (true, <[node := n + 1]> collector)
  | None => (false, collector)
  end.

(** [build_index(collector, indexer)], [init_candidate(candidate, capable, count)] *)
Definition build_index (collector : counts) : index :=
  foldl (fun m kv => ix_at kv.2 (sl_insert kv.1) m) [] (map_to_list collector).
Definition init_candidate (capable : counts) (count_server : index) : index :=
  foldl (fun m ks =>
    foldl (fun m x => ix_at (ks.1 - cnt capable x) (sl_insert x) m) m ks.2) [] count_server.

Definition is_node_availble b (node : server_id) : bool :=
  if node.1 =? INVALID_FLAG then false else bool_decide (node ∈ available_server b).

(** [change_tokens_count_in_node(count_in_node, node, count_server, candidate, capable, minus)] *)
Definition change_tokens_count (node : server_id) (capable : counts) (minus : bool)
    (c : counts * index * index) : counts * index * index :=
  let '(count_in_node, count_server, candidate) := c in
  let token := cnt count_in_node node in
  let count_server := ix_at token (sl_erase node) count_server in
  let candidate := ix_at (token - cnt capable node) (sl_erase node) candidate in
  let token := if minus then token - 1 else token + 1 in
  (<[node := token]> count_in_node, ix_at token (sl_insert node) count_server,
   ix_at (token - cnt capable node) (sl_insert node) candidate).

(** The two calls of it: on the counts of all copies and on those of masters *)
Definition change_tokens (node : server_id) (minus : bool) b : builder X :=
  let '(c, s, k) := change_tokens_count node (server_capable b) minus
                      (tokens_count_in_node b, count_server b, scandidate_node b) in
  set_tokens_count_in_node (fun _ => c) (set_count_server (fun _ => s) (set_scandidate_node (fun _ => k) b)).
Definition change_mtokens (node : server_id) (minus : bool) b : builder X :=
  let '(c, s, k) := change_tokens_count node (master_server_capable b) minus
                      (mtokens_count_in_node b, mcount_server b, mcandidate_node b) in
  set_mtokens_count_in_node (fun _ => c) (set_mcount_server (fun _ => s) (set_mcandidate_node (fun _ => k) b)).
Definition count_now (node : server_id) b : builder X :=
  set_tokens_count_in_node_now (fun c => <[node := cnt c node + 1]> c) b.

(** [hash_table[line][idx]] *)
Definition entry (t : hash_table) (line idx : Z) : option server_id :=
  match t !! Z.to_nat line with Some l => l !! Z.to_nat idx | None => None end.
Definition get_entry (line idx : Z) : stM (builder X) server_id := fun b =>
  match entry (table b) line idx with Some x => Ret (x, b) | None => Overrun end.
Definition put_entry (line idx : Z) (x : server_id) : stM (builder X) unit := fun b =>
  match entry (table b) line idx with
  | Some _ => Ret (tt, set_table (alter <[Z.to_nat idx := x]> (Z.to_nat line)) b)
  | None => Overrun
  end.

(** ** Changing one entry *)

(** [invaliad_node(line_num, node_idx, hash_table)] *)
Definition invaliad_node (line idx : Z) : stM (builder X) unit :=
  let* node := get_entry line idx in
  let* b := sget in
  let* _ :=
    (if is_node_availble b node then
       let* _ := smodify (change_tokens node true) in
       if line =? 0 then smodify (change_mtokens node true) else sret tt
     else sret tt) in
  put_entry line idx (INVALID_FLAG, node.2).

(** [update_node(line_num, node_idx, suitable_node, hash_table)] *)
Definition update_node (line idx : Z) (node : server_id) : stM (builder X) unit :=
  let* _ := put_entry line idx node in
  let* b := sget in
  if is_node_availble b node then
    let* _ := smodify (change_tokens node false) in
    if line =? 0 then smodify (change_mtokens node false) else sret tt
  else sret tt.

(** The slave with the fewest masters: the loop of [change_master_node] over
    lines [line ..], with the choice so far ([-1] for none). *)
Fixpoint choose_slave (n : nat) (line idx chosen min_count : Z) : stM (builder X) (Z * Z) :=
  match n with
  | O => sret (chosen, min_count)
  | S n' =>
      let* node := get_entry line idx in
      let* b := sget in
      if is_node_availble b node
         && ((min_count =? -1) || (cnt (mtokens_count_in_node b) node <? min_count))
      then choose_slave n' (line + 1) idx line (cnt (mtokens_count_in_node b) node)
      else choose_slave n' (line + 1) idx chosen min_count
  end.

(** [change_master_node(idx, hash_table, force_flag)] *)
Definition change_master_node (idx : Z) (force_flag : bool) : stM (builder X) bool :=
  let* b := sget in
  let* (chosen, min_count) := choose_slave (Z.to_nat (copy_count b - 1)) 1 idx (-1) (-1) in
  if min_count =? -1 then sret false
  else
    let* node := get_entry chosen idx in
    let* b := sget in
    if negb force_flag && (cnt (master_server_capable b) node <=? cnt (mtokens_count_in_node b) node)
    then sret false
    else
      let* org_node := get_entry 0 idx in
      let* _ := put_entry 0 idx node in
      let* _ := smodify (count_now node) in
      let* _ := smodify (change_mtokens node false) in
      let* b := sget in
      let* _ :=
        (if is_node_availble b org_node then
           let* _ := put_entry chosen idx org_node in
           smodify (change_mtokens org_node true)
         else put_entry chosen idx (INVALID_FLAG, node.2)) in
      sret true.

(** ** Loops *)

(** [for(idx = i; idx < i + n; idx++)], with a [return] out of the body *)
Fixpoint for_loop {S R} (n : nat) (i : Z) (body : Z -> stM S (option R)) : stM S (option R) :=
  match n with
  | O => sret None
  | S n' =>
      let* r := body i in
      match r with Some v => sret (Some v) | None => for_loop n' (i + 1) body end
  end.

(** [build_quick_table(hash_table)] *)
Definition quick_masters : stM (builder X) (option bool) :=
  let* b := sget in
  for_loop (Z.to_nat (bucket_count b)) 0 (fun idx =>
    let* node := get_entry 0 idx in
    let* b := sget in
    if is_node_availble b node then sret None
    else
      let* ok := change_master_node idx true in
      sret (if ok then None else Some false)).
Definition quick_slaves : stM (builder X) (option bool) :=
  let* b := sget in
  for_loop (Z.to_nat (copy_count b - 1)) 1 (fun line =>
    for_loop (Z.to_nat (bucket_count b)) 0 (fun idx =>
      let* node := get_entry line idx in
      let* b := sget in
      let* _ := (if is_node_availble b node then sret tt else put_entry line idx (0, 0)) in
      sret None)).
Definition build_quick_table : stM (builder X) bool :=
  let* r := quick_masters in
  match r with
  | Some v => sret v
  | None => let* _ := quick_slaves in sret true
  end.

(** [load_hash_table(hash_table, p)]: [None] when [p] is shorter than the
    table; [write_hash_table(hash_table, p)] *)
Definition load_line (mask : Z) (l : list Z) : hash_line := map (fun x => (x, u32 (Z.land x mask))) l.
Fixpoint load_lines (n : nat) (width : nat) (mask : Z) (p : list Z) : outcome hash_table :=
  match n with
  | O => Ret []
  | S n' =>
      if decide (width <= length p)%nat
      then let! rest := load_lines n' width mask (drop width p) in
           Ret (load_line mask (take width p) :: rest)
      else Overrun
  end.
Definition load_hash_table (p : list Z) : stM (builder X) unit := fun b =>
  let! t := load_lines (Z.to_nat (copy_count b)) (Z.to_nat (bucket_count b)) (pos_mask b) p in
  Ret (tt, set_table (fun _ => t) b).
Fixpoint write_hash_table (width : nat) (t : hash_table) : outcome (list Z) :=
  match t with
  | [] => Ret []
  | line :: rest =>
      if decide (width <= length line)%nat
      then let! p := write_hash_table width rest in Ret (map fst (take width line) ++ p)
      else Overrun
  end.

(** [set_pos_mask(m)], [set_available_server(servers)] *)
Definition set_pos_mask (m : Z) b : builder X :=
  mk_builder (tokens_count_in_node b) (max_count_now b) (tokens_count_in_node_now b) (count_server b)
    (mtokens_count_in_node b) (mcount_server b) (scandidate_node b) (mcandidate_node b)
    (available_server b) (server_capable b) (master_server_capable b) m (bucket_count b)
    (copy_count b) (table b) (extra b).
Definition set_available_server_base (servers : list Z) b : builder X :=
  set_available_server (fun _ =>
    foldl (fun l x => sl_insert (x, u32 (Z.land x (pos_mask b))) l) [] servers) b.
End builder.

(** ** What a strategy supplies *)

Class Strategy (X : Type) := {
  is_this_node_OK : builder X -> server_id -> Z -> Z -> Z -> bool -> outcome Z;
  caculate_capable : builder X -> outcome (builder X);
  get_tokens_per_node : builder X -> server_id -> Z
}.

Section rebuild.
Context {X : Type} `{Strategy X}.

Definition node_OK (node : server_id) (line idx level : Z) (in_use : bool) : stM (builder X) Z := fun b =>
  let! r := is_this_node_OK b node line idx level in_use in Ret (r, b).

(** [get_suitable_node(line_num, node_idx, hash_table, original_node)]: the
    loop over one set of candidates takes the last one that is good, or the
    original node; an outer loop ends with the first set that has one. *)
Fixpoint try_servers (servers : server_list) (line idx level : Z) (original suitable : server_id)
  : stM (builder X) server_id :=
  match servers with
  | [] => sret suitable
  | x :: rest =>
      let* r := node_OK x line idx level false in
      if r =? NODE_OK then
        if x.1 =? original.1 then sret x else try_servers rest line idx level original x
      else try_servers rest line idx level original suitable
  end.
Fixpoint try_candidates (candidates : index) (s line idx level : Z) (original suitable : server_id)
  : stM (builder X) server_id :=
  match candidates with
  | [] => sret suitable
  | (_, servers) :: rest =>
      if (s <? level + 1) && (suitable.1 =? INVALID_FLAG) then
        let* suitable := try_servers servers line idx level original suitable in
        try_candidates rest (if level <? CONSIDER_BASE then s + 1 else s) line idx level original suitable
      else sret suitable
  end.
Fixpoint try_levels (levels : list Z) (line idx : Z) (original suitable : server_id)
  : stM (builder X) server_id :=
  match levels with
  | [] => sret suitable
  | level :: rest =>
      if suitable.1 =? INVALID_FLAG then
        let* b := sget in
        let* suitable := try_candidates (if line =? 0 then mcandidate_node b else scandidate_node b)
                           CONSIDER_ALL line idx level original suitable in
        try_levels rest line idx original suitable
      else sret suitable
  end.
Definition get_suitable_node (line idx : Z) (original : server_id) : stM (builder X) server_id :=
  try_levels [CONSIDER_ALL; CONSIDER_POS; CONSIDER_BASE; CONSIDER_FORCE] line idx original
    (INVALID_FLAG, INVALID_FLAG).

(** [rebuild_table]: the part before the entries are checked.  The counts of
    the old table, and whether a master of it is gone. *)
Fixpoint count_line (line : hash_line) (master : bool) (tm : counts * counts * bool)
  : counts * counts * bool :=
  match line with
  | [] => tm
  | node :: rest =>
      let '(tokens, mtokens, quick) := tm in
      let tokens := (update_node_count node tokens).2 in
      count_line rest master
        (if master then
           let '(there, mtokens) := update_node_count node mtokens in
           (tokens, mtokens, quick || negb there)
         else (tokens, mtokens, quick))
  end.
Fixpoint count_lines (width : nat) (t : hash_table) (n : Z) (tm : counts * counts * bool)
  : outcome (counts * counts * bool) :=
  match t with
  | [] => Ret tm
  | line :: rest =>
      if decide (width <= length line)%nat
      then count_lines width rest (n + 1) (count_line (take width line) (n =? 0) tm)
      else Overrun
  end.
Definition count_tokens : stM (builder X) bool := fun b =>
  let zero := init_token_count (available_server b) in
  let! (tokens, mtokens, quick) :=
    count_lines (Z.to_nat (bucket_count b)) (table b) 0 (zero, zero, false) in
  Ret (quick, set_tokens_count_in_node (fun _ => tokens) (set_mtokens_count_in_node (fun _ => mtokens)
    (set_tokens_count_in_node_now (fun _ => zero) (set_max_count_now (fun _ => 0) b)))).

Definition start_build : stM (builder X) bool :=
  let* quick := count_tokens in
  let* _ := smodify (fun b => set_mcount_server (fun _ => build_index (mtokens_count_in_node b))
    (set_count_server (fun _ => build_index (tokens_count_in_node b)) b)) in
  let* _ := (fun b => let! b := caculate_capable b in Ret (tt, b)) in
  let* _ := smodify (fun b =>
    set_scandidate_node (fun _ => init_candidate (server_capable b) (count_server b))
      (set_mcandidate_node (fun _ => init_candidate (master_server_capable b) (mcount_server b)) b)) in
  sret quick.

(** [if(++tokens_count_in_node_now[node] == get_tokens_per_node(node) + 1) ++max_count_now] *)
Definition count_entry (node : server_id) : stM (builder X) (option Z) :=
  let* b := sget in
  let* _ := smodify (count_now node) in
  let* _ := (if cnt (tokens_count_in_node_now b) node + 1 =? get_tokens_per_node b node + 1
             then smodify (set_max_count_now (fun x => x + 1)) else sret tt) in
  sret None.

(** One entry of the table: [Some r] is [return r]. *)
Definition check_entry (line_out line idx : Z) : stM (builder X) (option Z) :=
  let* node := get_entry line idx in
  let* change_type := node_OK node line idx (if line_out =? 0 then CONSIDER_BASE else CONSIDER_ALL) true in
  let node := if change_type =? INVALID_NODE then (INVALID_FLAG, node.2) else node in
  if change_type =? NODE_OK then count_entry node
  else
    let* swapped := (if line =? 0 then change_master_node idx false else sret false) in
    if swapped : bool then sret None
    else
      let* old_node := get_entry line idx in
      let* _ := invaliad_node line idx in
      let* suitable := get_suitable_node line idx old_node in
      if suitable.1 =? INVALID_FLAG then sret (Some BUILD_ERROR)
      else
        let* _ := update_node line idx suitable in
        count_entry suitable.

(** The pass over the masters and the pass over the slaves *)
Definition master_pass : stM (builder X) (option Z) :=
  let* b := sget in
  for_loop (Z.to_nat (bucket_count b)) 0 (fun idx =>
    if 0 <? copy_count b then check_entry 0 0 idx else sret None).
Definition slave_pass : stM (builder X) (option Z) :=
  let* b := sget in
  for_loop (Z.to_nat (bucket_count b)) 0 (fun idx =>
    for_loop (Z.to_nat (copy_count b - 1)) 1 (fun line => check_entry 1 line idx)).

(** [rebuild_table(source, result, no_quick_table)] of the base class; the
    source is in [table], which becomes the result. *)
Definition rebuild_table (no_quick_table : bool) : stM (builder X) Z :=
  let* quick := start_build in
  if quick && negb no_quick_table then
    let* ok := build_quick_table in sret (if ok : bool then BUILD_QUICK else BUILD_ERROR)
  else
    let* b := sget in
    if Z.of_nat (length (available_server b)) <? copy_count b then sret BUILD_ERROR
    else
      let* r := (if decide (0 < length (table b))%nat then master_pass else sret None) in
      match r with
      | Some v => sret v
      | None =>
          let* r := (if decide (1 < length (table b))%nat then slave_pass else sret None) in
          sret (default BUILD_OK r)
      end.
End rebuild.
