(* ===== verification/TableStrategies.v ===== *)
(** * The two table strategies (configserver/table_builder1.cpp, table_builder2.cpp)

    [table_builder1] balances the load, [table_builder2] puts copies in
    different racks.  Both are instances of [Strategy].  [int] and [uint32_t]
    arithmetic is written with its wrap-around where a product may not fit;
    [float] arithmetic is IEEE 754 binary32 of the Standard Library's
    [SpecFloat].  A division by zero kills the process: [Abort]. *)

From Stdlib Require Import SpecFloat.
From S2P Require Import Prelude TableBuilder.

(** ** table_builder1 *)

(** Its members *)
Record load_first := mk_load_first {
  tokens_per_node_min : Z; tokens_per_node_max_count : Z; tokens_per_node_min_count : Z;
  master_tokens_per_node_min : Z; master_tokens_per_node_max_count : Z;
  master_tokens_per_node_min_count : Z
}.

(** The loop over the other copies of the bucket in [is_this_node_OK] *)
Fixpoint other_copies1 {X} (b : builder X) (node : server_id) (line idx level : Z) (n : nat) (i : Z)
  : outcome Z :=
  match n with
  | O => Ret NODE_OK
  | S n' =>
      if i =? line then other_copies1 b node line idx level n' (i + 1)
      else
        match entry (table b) i idx with
        | None => Overrun
        | Some e =>
            if e.1 =? node.1 then Ret SAME_NODE
            else if (level <? CONSIDER_BASE) && (e.2 =? node.2) then Ret SAME_POS
            else other_copies1 b node line idx level n' (i + 1)
        end
  end.

(** The part both strategies share: availability and load *)
Definition load_ok {X} (b : builder X) (node_min node_max_count : Z) (node : server_id)
    (line level : Z) (in_use : bool) : Z :=
  let turn := Z.b2z in_use in
  if negb (is_node_availble b node) then INVALID_NODE
  else if line =? 0 then
    if cnt (master_server_capable b) node + turn <=? cnt (mtokens_count_in_node b) node
    then TOOMANY_MASTER else NODE_OK
  else if level =? CONSIDER_ALL then
    if cnt (server_capable b) node + turn <=? cnt (tokens_count_in_node b) node
    then TOOMANY_BUCKET else NODE_OK
  else
    if negb (level =? CONSIDER_FORCE)
       && (node_min + turn <=? cnt (tokens_count_in_node_now b) node)
       && (node_max_count + turn <=? max_count_now b)
    then TOOMANY_BUCKET else NODE_OK.

Definition is_this_node_OK1 (b : builder load_first) (node : server_id) (line idx level : Z)
    (in_use : bool) : outcome Z :=
  let r := load_ok b (tokens_per_node_min (extra b)) (tokens_per_node_max_count (extra b))
             node line level in_use in
  if negb (r =? NODE_OK) then Ret r
  else if (line =? 0) && (level =? CONSIDER_BASE) then Ret NODE_OK
  else other_copies1 b node line idx level (Z.to_nat (copy_count b)) 0.

(** The mean of the counts that are not 0 *)
Definition mean_count (c : counts) : Z :=
  let l := filter (fun n => n <> 0) (map snd (map_to_list c)) in
  if decide (0 < length l)%nat then foldr Z.add 0 l / Z.of_nat (length l) else 0.

(** One server of the loop in [caculate_capable]: its share and the number of
    larger shares so far.  [i] servers came before it. *)
Definition share (last pre_min i max_s min min_count max_count : Z) : Z * Z :=
  if last <=? pre_min then
    if i - max_s <? min_count then (min, max_s) else (min + 1, max_s + 1)
  else
    if max_s <? max_count then (min + 1, max_s + 1) else (min, max_s).

Fixpoint shares (servers : server_list) (last : counts) (pre_min i max_s min min_count max_count : Z)
    (capable : counts) : counts :=
  match servers with
  | [] => capable
  | x :: rest =>
      let '(c, max_s) := share (cnt last x) pre_min i max_s min min_count max_count in
      shares rest last pre_min (i + 1) max_s min min_count max_count (<[x := c]> capable)
  end.

Definition caculate_capable1 (b : builder load_first) : outcome (builder load_first) :=
  let S := Z.of_nat (length (available_server b)) in
  assert! negb (S =? 0) in
  let all := u32 (bucket_count b * copy_count b) in
  let min := s32 (all / S) in
  let max_count := s32 (u32 (all - u32 (min * S))) in
  let min_count := S - max_count in
  let mmin := s32 (bucket_count b / S) in
  let mmax_count := s32 (u32 (bucket_count b - u32 (mmin * S))) in
  let mmin_count := S - mmax_count in
  Ret (set_server_capable (fun _ =>
         shares (available_server b) (tokens_count_in_node b) (mean_count (tokens_count_in_node b))
           0 0 min min_count max_count ∅)
      (set_master_server_capable (fun _ =>
         shares (available_server b) (mtokens_count_in_node b) (mean_count (mtokens_count_in_node b))
           0 0 mmin mmin_count mmax_count ∅)
      (set_extra (fun _ => mk_load_first min max_count min_count mmin mmax_count mmin_count) b))).

#[export] Instance table_builder1 : Strategy load_first := {
  is_this_node_OK := is_this_node_OK1;
  caculate_capable := caculate_capable1;
  get_tokens_per_node b _ := tokens_per_node_min (extra b)
}.

(** ** Single precision *)

Definition f32 : Type := spec_float.
Definition f32_of_Z (z : Z) : f32 := binary_normalize 24 128 z 0 false.
Definition f32_div (x y : f32) : f32 := SFdiv 24 128 x y.
Definition f32_mul (x y : f32) : f32 := SFmul 24 128 x y.
(** [(int)x] of a finite value *)
Definition f32_trunc (x : f32) : Z :=
  match x with
  | S754_finite s m e => cond_Zopp s (if 0 <=? e then Z.pos m * 2 ^ e else Z.pos m / 2 ^ (- e))
  | _ => 0
  end.
(** The [double] of the same value, and the constant 0.9999 *)
Definition f64_of_f32 (x : f32) : spec_float :=
  match x with
  | S754_finite s m e => binary_normalize 53 1024 (cond_Zopp s (Z.pos m)) e s
  | x => x
  end.
Definition f64_0_9999 : spec_float := S754_finite false 9006298534815518 (-53).

(** ** table_builder2 *)

(** Its members.  [mtokens_per_node_min] to [otokens_per_node_min_count] are
    assigned nowhere in the class ([caculate_capable] has locals with almost
    the same names): they hold whatever the object's memory held. *)
Record rack_first := mk_rack_first {
  build_stat_normal : bool; stat_change_ratio : f32; pos_max : Z; max_machine_room_id : Z;
  mtokens_per_node_min : Z; mtokens_per_node_max_count : Z; mtokens_per_node_min_count : Z;
  otokens_per_node_min : Z; otokens_per_node_max_count : Z; otokens_per_node_min_count : Z
}.
Definition set_stat_normal (v : bool) (x : rack_first) : rack_first :=
  mk_rack_first v (stat_change_ratio x) (pos_max x) (max_machine_room_id x)
    (mtokens_per_node_min x) (mtokens_per_node_max_count x) (mtokens_per_node_min_count x)
    (otokens_per_node_min x) (otokens_per_node_max_count x) (otokens_per_node_min_count x).
Definition set_pos_max (n room : Z) (x : rack_first) : rack_first :=
  mk_rack_first (build_stat_normal x) (stat_change_ratio x) n room
    (mtokens_per_node_min x) (mtokens_per_node_max_count x) (mtokens_per_node_min_count x)
    (otokens_per_node_min x) (otokens_per_node_max_count x) (otokens_per_node_min_count x).

Definition in_max_room (x : rack_first) (node : server_id) : bool := node.2 =? max_machine_room_id x.

(** The loop over the other copies; the result is the set of positions, or
    that the server has another copy. *)
Fixpoint other_copies2 {X} (b : builder X) (node : server_id) (line idx : Z) (n : nat) (i : Z)
    (pos_limit : gset Z) : outcome (option (gset Z)) :=
  match n with
  | O => Ret (Some pos_limit)
  | S n' =>
      if i =? line then other_copies2 b node line idx n' (i + 1) pos_limit
      else
        match entry (table b) i idx with
        | None => Overrun
        | Some e =>
            if e.1 =? node.1 then Ret None
            else other_copies2 b node line idx n' (i + 1) ({[e.2]} ∪ pos_limit)
        end
  end.

Definition is_this_node_OK2 (b : builder rack_first) (node : server_id) (line idx level : Z)
    (in_use : bool) : outcome Z :=
  let x := extra b in
  let node_min := if in_max_room x node then mtokens_per_node_min x else otokens_per_node_min x in
  let max_count := if in_max_room x node then mtokens_per_node_max_count x
                   else otokens_per_node_max_count x in
  let r := load_ok b node_min max_count node line level in_use in
  if negb (r =? NODE_OK) then Ret r
  else if (line =? 0) && (level =? CONSIDER_BASE) then Ret NODE_OK
  else
    let! others := other_copies2 b node line idx (Z.to_nat (copy_count b)) 0 {[node.2]} in
    match others with
    | None => Ret SAME_NODE
    | Some pos_limit =>
        if build_stat_normal x && negb (line =? 0) && (Z.of_nat (size pos_limit) <? 2)
        then Ret SAME_POS else Ret NODE_OK
    end.

(** [set_available_server(servers)]: the rack with most servers is the "max
    room"; the racks are balanced enough when the rest is not too different in
    size. *)
Fixpoint count_pos (servers : list Z) (mask : Z) (m : list (Z * Z)) : list (Z * Z) :=
  match servers with
  | [] => m
  | x :: rest =>
      let fix bump (p : Z) (m : list (Z * Z)) : list (Z * Z) :=
        match m with
        | [] => [(p, 1)]
        | (q, n) :: m' =>
            if p <? q then (p, 1) :: m else if p =? q then (q, n + 1) :: m' else (q, n) :: bump p m'
        end in
      count_pos rest mask (bump (u32 (Z.land x mask)) m)
  end.
Definition largest_pos (m : list (Z * Z)) (room : Z) : Z * Z :=
  foldl (fun best p => if best.1 <? p.2 then (p.2, p.1) else best) (0, room) m.

Definition set_available_server2 (servers : list Z) (b : builder rack_first) : builder rack_first :=
  let b := set_available_server_base servers b in
  let '(pos_max, room) := largest_pos (count_pos servers (pos_mask b) []) (max_machine_room_id (extra b)) in
  let size := Z.of_nat (length (available_server b)) in
  let diff_server := Z.abs (size - pos_max - pos_max) in
  let ratio := f32_div (f32_of_Z diff_server) (f32_of_Z pos_max) in
  let normal := negb (SFltb (stat_change_ratio (extra b)) ratio || (size <? copy_count b)
                      || SFltb f64_0_9999 (f64_of_f32 ratio)) in
  set_extra (fun x => set_stat_normal normal (set_pos_max pos_max room x)) b.

(** The shares of the servers of one room: the first [max_count] get one more. *)
Fixpoint room_shares (servers : server_list) (max_s min max_count : Z) (capable : counts) : counts :=
  match servers with
  | [] => capable
  | x :: rest =>
      if max_s <? max_count
      then room_shares rest (max_s + 1) min max_count (<[x := min + 1]> capable)
      else room_shares rest max_s min max_count (<[x := min]> capable)
  end.

(** [total] tokens for [servers] servers: the smaller share, how many servers
    get one more, and how many do not. *)
Definition split_tokens (total servers : Z) : outcome (Z * Z * Z) :=
  assert! negb (servers =? 0) in
  let min := Z.quot total servers in
  let max_count := total - min * servers in
  Ret (min, max_count, servers - max_count).

Definition caculate_capable2 (b : builder rack_first) : outcome (builder rack_first) :=
  let x := if copy_count b <=? 1 then set_stat_normal false (extra b) else extra b in
  let real_copy_count :=
    if negb (build_stat_normal x) && (2 <? copy_count b) then 2 else copy_count b in
  assert! build_stat_normal x in
  let available := Z.of_nat (length (available_server b)) in
  assert! negb (available =? 0) in
  assert! 2 <=? real_copy_count in
  let fraction := f32_div (f32_of_Z (pos_max x)) (f32_of_Z available) in
  let all := u32 (bucket_count b * real_copy_count) in
  let master_bucket := f32_trunc (f32_mul (f32_of_Z (bucket_count b)) fraction) in
  let balance_bucket := f32_trunc (f32_mul (f32_of_Z all) fraction) in
  let total_bucket := Z.min (s32 (u32 (bucket_count b * (real_copy_count - 1)))) balance_bucket in
  let! (mmin, mmax_count, mmin_count) := split_tokens total_bucket (pos_max x) in
  let! (mmmin, mmmax_count, mmmin_count) := split_tokens master_bucket (pos_max x) in
  let total_bucket := s32 (u32 (all - (mmin * mmin_count + (mmin + 1) * mmax_count))) in
  let master_bucket := s32 (u32 (bucket_count b - (mmmin * mmmin_count + (mmmin + 1) * mmmax_count))) in
  let! (omin, omax_count, _) := split_tokens total_bucket (available - pos_max x) in
  let! (ommin, ommax_count, _) := split_tokens master_bucket (available - pos_max x) in
  let in_room := filter (fun s => in_max_room x s = true) (available_server b) in
  let others := filter (fun s => in_max_room x s = false) (available_server b) in
  Ret (set_server_capable (fun _ =>
         room_shares others 0 omin omax_count (room_shares in_room 0 mmin mmax_count ∅))
      (set_master_server_capable (fun _ =>
         room_shares others 0 ommin ommax_count (room_shares in_room 0 mmmin mmmax_count ∅))
      (set_extra (fun _ => x) b))).

#[export] Instance table_builder2 : Strategy rack_first := {
  is_this_node_OK := is_this_node_OK2;
  caculate_capable := caculate_capable2;
  get_tokens_per_node b node :=
    if in_max_room (extra b) node then mtokens_per_node_min (extra b) else otokens_per_node_min (extra b)
}.

(** [rebuild_table] of [table_builder2] *)
Definition rebuild_table2 (no_quick_table : bool) : stM (builder rack_first) Z :=
  let* b := sget in
  if build_stat_normal (extra b) then rebuild_table no_quick_table else sret BUILD_ERROR.
