(* ===== verification/TableRebuild.v ===== *)
(** * What a rebuilt table guarantees

    The invariants of table_builder and the theorems about its results, for
    every strategy that keeps the laws of [StrategyLaws]; the laws are proved
    for the two strategies of the code. *)

From Stdlib Require Import SpecFloat.
From S2P Require Import Prelude TableBuilder TableStrategies.

(** ** Tables and columns *)

(** The copies of one bucket, master first *)
Definition column (t : hash_table) (idx : Z) : list server_id :=
  omap (fun line : hash_line => line !! Z.to_nat idx) t.

(** The number of buckets a server is master of *)
Definition masters (t : hash_table) (s : server_id) : Z :=
  Z.of_nat (length (filter (fun x => x = s) (default [] (t !! 0%nat)))).

Definition table_shape (copies buckets : Z) (t : hash_table) : Prop :=
  Z.of_nat (length t) = copies /\ Forall (fun line => Z.of_nat (length line) = buckets) t.

Definition put (t : hash_table) (line idx : Z) (x : server_id) : hash_table :=
  alter <[Z.to_nat idx := x]> (Z.to_nat line) t.

Lemma column_cons l t idx x :
  l !! Z.to_nat idx = Some x -> column (l :: t) idx = x :: column t idx.
Proof. intros E. unfold column. cbn [omap list_omap]. by rewrite E. Qed.

Section tables.
Context (copies buckets : Z) (t : hash_table).
Hypothesis Hshape : table_shape copies buckets t.

Lemma entry_some line idx : 0 <= line < copies -> 0 <= idx < buckets -> is_Some (entry t line idx).
Proof.
  intros Hl Hi. destruct Hshape as [Hlen Hw]. unfold entry.
  destruct (t !! Z.to_nat line) as [l|] eqn:E; [|apply lookup_ge_None in E; lia].
  rewrite list.Forall_lookup in Hw. specialize (Hw _ _ E). simpl in Hw. apply lookup_lt_is_Some. lia.
Qed.

Lemma put_shape line idx x : table_shape copies buckets (put t line idx x).
Proof.
  destruct Hshape as [Hlen Hw]. unfold put. split; [by rewrite length_alter|].
  rewrite list.Forall_lookup in Hw |- *. intros i l. rewrite list_lookup_alter.
  case_decide as D; [subst i|by apply Hw].
  destruct (t !! Z.to_nat line) as [l0|] eqn:E; simpl; [|done]. intros [= <-].
  rewrite length_insert. by apply (Hw _ _ E).
Qed.

Lemma entry_put line idx x line' idx' :
  0 <= line -> 0 <= idx -> 0 <= line' -> 0 <= idx' -> is_Some (entry t line idx) ->
  entry (put t line idx x) line' idx' =
  if decide (line = line' /\ idx = idx') then Some x else entry t line' idx'.
Proof.
  intros H1 H2 H3 H4 [y Hy]. unfold entry, put in *. rewrite list_lookup_alter.
  destruct (t !! Z.to_nat line) as [l|] eqn:E; [|done].
  destruct (decide (line = line')) as [->|Dl].
  - rewrite decide_True, E by done. simpl. destruct (decide (idx = idx')) as [->|Di].
    + rewrite decide_True by done. rewrite list_lookup_insert_eq; [done|]. by eapply lookup_lt_Some.
    + rewrite decide_False by tauto. apply list_lookup_insert_ne. lia.
  - rewrite !decide_False by (lia || tauto). done.
Qed.

Lemma column_length idx : 0 <= idx < buckets -> Z.of_nat (length (column t idx)) = copies.
Proof.
  intros Hi. destruct Hshape as [<- Hw]. f_equal.
  revert Hw. clear Hshape. induction t as [|l t' IH]; intros Hw; [done|].
  apply list.Forall_cons in Hw as [Hl Hw]. destruct (lookup_lt_is_Some_2 l (Z.to_nat idx)) as [x E]; [lia|].
  change (length (column (l :: t') idx) = S (length t')).
  rewrite (column_cons l t' idx x E). simpl. f_equal. by apply IH.
Qed.

Lemma column_lookup idx line :
  0 <= idx < buckets -> 0 <= line -> column t idx !! Z.to_nat line = entry t line idx.
Proof.
  intros Hi Hl. unfold entry. destruct Hshape as [_ Hw]. generalize (Z.to_nat line) as n. clear Hl line.
  clear Hshape. revert Hw. induction t as [|l t' IH]; intros Hw n; [done|].
  apply list.Forall_cons in Hw as [Hl Hw]. destruct (lookup_lt_is_Some_2 l (Z.to_nat idx)) as [x E]; [lia|].
  rewrite (column_cons l t' idx x E). destruct n as [|n]; simpl; [done|]. by apply IH.
Qed.
End tables.

Lemma column_put copies buckets t line idx x idx' :
  table_shape copies buckets t -> 0 <= line < copies -> 0 <= idx < buckets -> 0 <= idx' < buckets ->
  column (put t line idx x) idx' =
  if decide (idx = idx') then <[Z.to_nat line := x]> (column t idx) else column t idx'.
Proof.
  intros Hs Hl Hi Hi'. pose proof (put_shape copies buckets t Hs line idx x) as Hs'.
  apply list_eq. intros n. replace n with (Z.to_nat (Z.of_nat n)) by lia.
  rewrite (column_lookup _ _ _ Hs') by lia.
  assert (is_Some (entry t line idx)) as Hsome by by apply (entry_some copies buckets).
  rewrite (entry_put t) by (done || lia).
  destruct (decide (idx = idx')) as [<-|D].
  - destruct (decide (line = Z.of_nat n)) as [->|Dn].
    + rewrite decide_True by done. rewrite list_lookup_insert_eq; [done|].
      pose proof (column_length _ _ _ Hs idx Hi). lia.
    + rewrite decide_False by tauto. rewrite list_lookup_insert_ne by lia.
      by rewrite (column_lookup _ _ _ Hs) by lia.
  - rewrite decide_False by tauto. by rewrite (column_lookup _ _ _ Hs) by lia.
Qed.

(** Changing a master changes the counts of the old and the new one by one. *)
Lemma filter_insert (l : list server_id) i old x s :
  l !! i = Some old ->
  Z.of_nat (length (filter (fun y => y = s) (<[i := x]> l))) =
  Z.of_nat (length (filter (fun y => y = s) l)) - Z.b2z (bool_decide (old = s)) + Z.b2z (bool_decide (x = s)).
Proof.
  revert i. induction l as [|y l IH]; intros [|i] E; try done; simpl in *.
  - injection E as ->. rewrite !filter_cons. case_decide as D1; case_decide as D2;
      repeat case_bool_decide; try done; simpl; lia.
  - specialize (IH i E). rewrite !filter_cons. destruct (decide (y = s)); cbn [length]; lia.
Qed.

Lemma masters_put t idx old x s :
  entry t 0 idx = Some old ->
  masters (put t 0 idx x) s = masters t s - Z.b2z (bool_decide (old = s)) + Z.b2z (bool_decide (x = s)).
Proof.
  intros E. unfold masters, put, entry in *. change (Z.to_nat 0) with 0%nat in *.
  rewrite list_lookup_alter_eq. destruct (t !! 0%nat) as [l|]; [|done]. simpl. by apply filter_insert.
Qed.

Lemma masters_put_slave t line idx x s : 0 < line -> masters (put t line idx x) s = masters t s.
Proof. intros Hl. unfold masters, put. rewrite list_lookup_alter_ne by lia. done. Qed.

(** ** Candidates *)

Definition in_index (m : index) (s : server_id) : Prop := exists k l, (k, l) ∈ m /\ s ∈ l.
Definition index_covers (m : index) (available : server_list) : Prop :=
  forall s, s ∈ available -> in_index m s.

Lemma elem_of_sl_insert x y l : x ∈ sl_insert y l <-> x = y \/ x ∈ l.
Proof.
  induction l as [|z l IH]; simpl; [by rewrite list_elem_of_singleton, elem_of_nil; tauto|].
  case_decide as D; [subst z; rewrite elem_of_cons; tauto|].
  destruct (id_lt y z); rewrite !elem_of_cons; [tauto|rewrite IH; tauto].
Qed.

Lemma elem_of_sl_erase x y l : x ∈ sl_erase y l <-> x <> y /\ x ∈ l.
Proof. unfold sl_erase. by rewrite list_elem_of_filter. Qed.

Lemma in_index_at_ne k f m s :
  (forall l, s ∈ l -> s ∈ f l) -> in_index m s -> in_index (ix_at k f m) s.
Proof.
  intros Hf. induction m as [|[k0 l0] m IH]; intros (k1 & l1 & Hin & Hs); [by apply elem_of_nil in Hin|].
  simpl. destruct (Z.ltb_spec k k0); [|destruct (Z.eqb_spec k k0)].
  - exists k1, l1. split; [by right|done].
  - apply elem_of_cons in Hin as [[= -> ->]|Hin].
    + exists k0, (f l0). split; [by left|]. by apply Hf.
    + exists k1, l1. split; [by right|done].
  - apply elem_of_cons in Hin as [[= -> ->]|Hin].
    + exists k0, l0. split; [by left|done].
    + destruct IH as (k2 & l2 & H2 & Hs2); [by exists k1, l1|]. exists k2, l2. split; [by right|done].
Qed.

Lemma in_index_at_insert k x m : in_index (ix_at k (sl_insert x) m) x.
Proof.
  induction m as [|[k0 l0] m IH]; simpl.
  - exists k, [x]. split; [by left|by left].
  - destruct (Z.ltb_spec k k0); [|destruct (Z.eqb_spec k k0)].
    + exists k, [x]. split; [by left|by left].
    + exists k0, (sl_insert x l0). split; [by left|]. apply elem_of_sl_insert. by left.
    + destruct IH as (k1 & l1 & Hin & Hx). exists k1, l1. split; [by right|done].
Qed.

Lemma change_covers k k' node m available :
  index_covers m available ->
  index_covers (ix_at k' (sl_insert node) (ix_at k (sl_erase node) m)) available.
Proof.
  intros Hc s Hs. destruct (decide (s = node)) as [->|D]; [apply in_index_at_insert|].
  apply in_index_at_ne; [intros l Hl; apply elem_of_sl_insert; by right|].
  apply in_index_at_ne; [intros l Hl; by apply elem_of_sl_erase|]. by apply Hc.
Qed.

Lemma fold_insert_covers {A} (key : A -> Z) (id : A -> server_id) (l : list A) m s :
  in_index m s \/ s ∈ map id l ->
  in_index (foldl (fun m a => ix_at (key a) (sl_insert (id a)) m) m l) s.
Proof.
  revert m. induction l as [|a l IH]; intros m; simpl; [intros [?|?%elem_of_nil]; done|].
  rewrite elem_of_cons. intros [Hm|[->|Hl]]; apply IH; [left|left|by right].
  - apply in_index_at_ne; [|done]. intros l' Hl'. apply elem_of_sl_insert. by right.
  - apply in_index_at_insert.
Qed.

Lemma build_index_covers c s : is_Some (c !! s) -> in_index (build_index c) s.
Proof.
  intros [n Hn]. unfold build_index.
  apply (fold_insert_covers (fun kv : server_id * Z => kv.2) fst). right.
  apply list_elem_of_fmap. exists (s, n). split; [done|]. by apply elem_of_map_to_list.
Qed.

Lemma init_candidate_covers capable m s : in_index m s -> in_index (init_candidate capable m) s.
Proof.
  unfold init_candidate. assert (forall acc, in_index m s \/ in_index acc s ->
    in_index (foldl (fun m ks => foldl (fun m x => ix_at (ks.1 - cnt capable x) (sl_insert x) m) m ks.2) acc m) s)
    as H; [|intros Hm; apply H; by left].
  induction m as [|[k l] m IH]; intros acc; simpl; [intros [(? & ? & ?%elem_of_nil & _)|?]; done|].
  intros Hin. apply IH.
  destruct Hin as [(k1 & l1 & [[= -> ->]|Hin]%elem_of_cons & Hs)|Hin]; [right|left; by exists k1, l1|right].
  - apply (fold_insert_covers (fun x => k - cnt capable x) id). right. by rewrite list_fmap_id.
  - apply (fold_insert_covers (fun x => k - cnt capable x) id). by left.
Qed.

(** ** The state of a build *)

Section state.
Context {X : Type}.
Implicit Types b : builder X.

(** What the passes over the table leave alone. *)
Definition fixed_part b :=
  (available_server b, server_capable b, master_server_capable b, bucket_count b, copy_count b, extra b).

Lemma fixed_fields b b' :
  fixed_part b' = fixed_part b ->
  available_server b' = available_server b /\ copy_count b' = copy_count b
  /\ bucket_count b' = bucket_count b /\ server_capable b' = server_capable b
  /\ master_server_capable b' = master_server_capable b /\ extra b' = extra b.
Proof. unfold fixed_part. intros [=]. done. Qed.

Record good b : Prop := {
  g_shape : table_shape (copy_count b) (bucket_count b) (table b);
  g_ids : forall s, s ∈ available_server b -> s.1 <> INVALID_FLAG;
  g_masters : forall s, s ∈ available_server b -> cnt (mtokens_count_in_node b) s = masters (table b) s;
  g_mcand : index_covers (mcandidate_node b) (available_server b);
  g_scand : index_covers (scandidate_node b) (available_server b)
}.

Lemma available_spec b s : is_node_availble b s = true <-> s.1 <> INVALID_FLAG /\ s ∈ available_server b.
Proof.
  unfold is_node_availble. destruct (Z.eqb_spec s.1 INVALID_FLAG) as [E|E].
  - split; [done|by intros []].
  - rewrite bool_decide_eq_true. tauto.
Qed.

Lemma good_available b s : good b -> is_node_availble b s = true <-> s ∈ available_server b.
Proof. intros Hg. rewrite available_spec. split; [tauto|]. intros Hs. split; [by apply (g_ids b Hg)|done]. Qed.

Lemma available_fixed b b' s :
  available_server b' = available_server b -> is_node_availble b' s = is_node_availble b s.
Proof. intros E. unfold is_node_availble. by rewrite E. Qed.

Lemma get_entry_run b line idx x : entry (table b) line idx = Some x -> get_entry line idx b = Ret (x, b).
Proof. unfold get_entry. by intros ->. Qed.

Lemma put_entry_run b line idx x y :
  entry (table b) line idx = Some y ->
  put_entry line idx x b = Ret (tt, set_table (fun t => put t line idx x) b).
Proof. unfold put_entry. by intros ->. Qed.

Lemma cnt_insert (c : counts) s v s' : cnt (<[s := v]> c) s' = if decide (s = s') then v else cnt c s'.
Proof.
  unfold cnt. case_decide as D; [subst; by rewrite lookup_insert_eq|by rewrite lookup_insert_ne].
Qed.

(** One call of [change_tokens_count_in_node] *)
Lemma change_mtokens_fields node minus b :
  let b' := change_mtokens node minus b in
  fixed_part b' = fixed_part b /\ table b' = table b /\ scandidate_node b' = scandidate_node b
  /\ mtokens_count_in_node b' = <[node := cnt (mtokens_count_in_node b) node
                                   + (if minus then -1 else 1)]> (mtokens_count_in_node b)
  /\ (index_covers (mcandidate_node b) (available_server b) ->
      index_covers (mcandidate_node b') (available_server b)).
Proof.
  intros b'. subst b'. unfold change_mtokens, change_tokens_count. cbn.
  split; [done|]. split; [done|]. split; [done|]. split; [destruct minus; f_equal; lia|].
  intros Hc. apply change_covers, Hc.
Qed.

Lemma change_tokens_fields node minus b :
  let b' := change_tokens node minus b in
  fixed_part b' = fixed_part b /\ table b' = table b /\ mcandidate_node b' = mcandidate_node b
  /\ mtokens_count_in_node b' = mtokens_count_in_node b
  /\ (index_covers (scandidate_node b) (available_server b) ->
      index_covers (scandidate_node b') (available_server b)).
Proof.
  intros b'. subst b'. unfold change_tokens, change_tokens_count. cbn.
  split; [done|]. split; [done|]. split; [done|]. split; [done|].
  intros Hc. apply change_covers, Hc.
Qed.

(** The counts of an entry that is taken out or put in, and the entry changed *)
Definition counted line (node : server_id) (minus : bool) b : builder X :=
  if is_node_availble b node then
    let b := change_tokens node minus b in if line =? 0 then change_mtokens node minus b else b
  else b.

Lemma counted_fields line node minus b :
  let b' := counted line node minus b in
  fixed_part b' = fixed_part b /\ table b' = table b
  /\ (index_covers (mcandidate_node b) (available_server b) ->
      index_covers (mcandidate_node b') (available_server b))
  /\ (index_covers (scandidate_node b) (available_server b) ->
      index_covers (scandidate_node b') (available_server b))
  /\ forall s, s ∈ available_server b -> s.1 <> INVALID_FLAG ->
       cnt (mtokens_count_in_node b') s = cnt (mtokens_count_in_node b) s
         + (if line =? 0 then (if minus then -1 else 1) * Z.b2z (bool_decide (node = s)) else 0).
Proof.
  intros b'. subst b'. unfold counted.
  destruct (is_node_availble b node) eqn:Ea.
  - destruct (change_tokens_fields node minus b) as (F1 & F2 & F3 & F4 & F5).
    set (b1 := change_tokens node minus b) in *.
    assert (available_server b1 = available_server b) as Ea1 by (unfold fixed_part in F1; congruence).
    destruct (line =? 0).
    + destruct (change_mtokens_fields node minus b1) as (G1 & G2 & G3 & G4 & G5).
      rewrite G1, G2, G3, G4, F4, F3, Ea1 in *. split; [done|]. split; [done|]. split; [done|]. split; [done|].
      intros s _ _. rewrite cnt_insert. case_decide as D; case_bool_decide; subst; try done; destruct minus; simpl; lia.
    + rewrite F3, F4. split; [done|]. split; [done|]. split; [done|]. split; [done|]. intros s _ _. lia.
  - split; [done|]. split; [done|]. split; [done|]. split; [done|]. intros s Hs Hid.
    rewrite bool_decide_false; [destruct (line =? 0), minus; simpl; lia|]. intros ->.
    assert (is_node_availble b s = true); [by apply available_spec|congruence].
Qed.

Lemma counted_run line node minus b :
  (if is_node_availble b node then
     let* _ := smodify (change_tokens node minus) in
     if line =? 0 then smodify (change_mtokens node minus) else sret tt
   else sret tt) b = Ret (tt, counted line node minus b).
Proof. unfold counted. destruct (is_node_availble b node), (line =? 0); done. Qed.

Section entry.
Context b (line idx : Z) (old : server_id).
Hypothesis Hg : good b.
Hypothesis Hold : entry (table b) line idx = Some old.
Hypothesis Hline : 0 <= line.

Lemma invaliad_node_spec :
  exists b', invaliad_node line idx b = Ret (tt, b') /\ good b' /\ fixed_part b' = fixed_part b
    /\ table b' = put (table b) line idx (INVALID_FLAG, old.2).
Proof.
  destruct (counted_fields line old true b) as (F1 & F2 & F3 & F4 & F5).
  set (b1 := counted line old true b) in *.
  exists (set_table (fun t => put t line idx (INVALID_FLAG, old.2)) b1). split; [|split; [|split]].
  - unfold invaliad_node. rewrite (sbind_run _ _ _ _ _ (get_entry_run b line idx old Hold)). cbv beta.
    rewrite (sbind_run _ _ _ b b) by done. rewrite (sbind_run _ _ _ _ _ (counted_run line old true b)).
    apply (put_entry_run _ _ _ _ old). fold b1. by rewrite F2.
  - destruct (fixed_fields _ _ F1) as (Ea & Ec & Eb & _).
    constructor; cbn; rewrite ?Ea, ?Ec, ?Eb, ?F2.
    + apply put_shape, Hg.
    + apply Hg.
    + intros s Hs. pose proof (g_ids b Hg s Hs) as Hid. rewrite F5, (g_masters b Hg s Hs) by done.
      destruct (Z.eqb_spec line 0) as [->|Hl]; [|by rewrite masters_put_slave by lia; lia].
      rewrite (masters_put _ _ old) by done. rewrite (bool_decide_false ((INVALID_FLAG, old.2) = s)); [simpl; lia|].
      intros <-. by apply Hid.
    + apply F3, Hg.
    + apply F4, Hg.
  - done.
  - cbn. by rewrite F2.
Qed.

Lemma update_node_spec node :
  old.1 = INVALID_FLAG -> is_node_availble b node = true ->
  exists b', update_node line idx node b = Ret (tt, b') /\ good b' /\ fixed_part b' = fixed_part b
    /\ table b' = put (table b) line idx node.
Proof.
  intros Hinv Hav. set (b0 := set_table (fun t => put t line idx node) b).
  destruct (counted_fields line node false b0) as (F1 & F2 & F3 & F4 & F5).
  set (b1 := counted line node false b0) in *. exists b1. split; [|split; [|split]].
  - unfold update_node. rewrite (sbind_run _ _ _ _ _ (put_entry_run b line idx node old Hold)). fold b0.
    rewrite (sbind_run _ _ _ b0 b0) by done. apply counted_run.
  - destruct (fixed_fields _ _ F1) as (Ea & Ec & Eb & _). cbn in Ea, Ec, Eb.
    constructor; rewrite ?Ea, ?Ec, ?Eb, ?F2; cbn.
    + apply put_shape, Hg.
    + apply Hg.
    + intros s Hs. pose proof (g_ids b Hg s Hs) as Hid. rewrite F5 by done. cbn.
      rewrite (g_masters b Hg s Hs).
      destruct (Z.eqb_spec line 0) as [->|Hl]; [|by rewrite masters_put_slave by lia; lia].
      rewrite (masters_put _ _ old) by done. rewrite (bool_decide_false (old = s)); [simpl; lia|].
      intros ->. by apply Hid.
    + apply F3, Hg.
    + apply F4, Hg.
  - done.
  - by rewrite F2.
Qed.
End entry.
End state.

(** ** Giving a bucket another master *)

Section swap.
Context {X : Type}.
#[local] Arguments change_mtokens : simpl never.
Implicit Types b : builder X.

(** The copy on [line] becomes the master. *)
Definition swapped b (line idx : Z) (node org : server_id) : builder X :=
  let b1 := change_mtokens node false (count_now node (set_table (fun t => put t 0 idx node) b)) in
  if is_node_availble b org
  then change_mtokens org true (set_table (fun t => put t line idx org) b1)
  else set_table (fun t => put t line idx (INVALID_FLAG, node.2)) b1.

(** [chosen] names an available copy with [min_count] masters. *)
Definition choice b (idx chosen min_count : Z) : Prop :=
  1 <= chosen < copy_count b /\ exists node, entry (table b) chosen idx = Some node
    /\ is_node_availble b node = true /\ min_count = cnt (mtokens_count_in_node b) node.

Section choose.
Context b (idx : Z).
Hypothesis Hshape : table_shape (copy_count b) (bucket_count b) (table b).
Hypothesis Hidx : 0 <= idx < bucket_count b.
Hypothesis Hpos : forall s, s ∈ available_server b -> 0 <= cnt (mtokens_count_in_node b) s.

Lemma choose_slave_spec n line chosen min_count :
  1 <= line -> line + Z.of_nat n = copy_count b ->
  (min_count = -1 \/ choice b idx chosen min_count) ->
  exists c m, choose_slave n line idx chosen min_count b = Ret ((c, m), b)
    /\ (choice b idx c m
        \/ m = -1 /\ min_count = -1 /\ forall l node, line <= l < copy_count b ->
             entry (table b) l idx = Some node -> is_node_availble b node = false).
Proof.
  revert line chosen min_count. induction n as [|n IH]; intros line chosen min_count Hl Hn Hc.
  - exists chosen, min_count. split; [done|]. destruct Hc as [->|Hc]; [|by left]. right.
    split; [done|]. split; [done|]. intros l node Hlt. lia.
  - destruct (entry_some _ _ _ Hshape line idx) as [node Hnode]; [lia|done|]. cbn [choose_slave].
    rewrite (sbind_run _ _ _ _ _ (get_entry_run b line idx node Hnode)). cbv beta.
    rewrite (sbind_run _ _ _ b b) by done.
    destruct (is_node_availble b node) eqn:Ea; cbn [andb].
    + assert (choice b idx line (cnt (mtokens_count_in_node b) node)) as Hch
        by (split; [lia|by exists node]).
      assert (0 <= cnt (mtokens_count_in_node b) node) as Hge by (apply Hpos, available_spec, Ea).
      destruct ((min_count =? -1) || (cnt (mtokens_count_in_node b) node <? min_count)) eqn:Et.
      * destruct (IH (line + 1) line (cnt (mtokens_count_in_node b) node)) as (c & m & -> & [H|(-> & E & _)]);
          [lia|lia|by right| |lia]. exists c, m. split; [done|by left].
      * apply orb_false_iff in Et as [E1%Z.eqb_neq _].
        destruct (IH (line + 1) chosen min_count) as (c & m & -> & [H|(-> & E & _)]);
          [lia|lia|done| |lia]. exists c, m. split; [done|by left].
    + destruct (IH (line + 1) chosen min_count) as (c & m & -> & [H|(-> & E & Hno)]); [lia|lia|done| |].
      * exists c, m. split; [done|by left].
      * exists c, (-1). split; [done|]. right. split; [done|]. split; [done|]. intros l node' Hlt E'.
        destruct (decide (l = line)) as [->|D]; [congruence|]. apply (Hno l); [lia|done].
Qed.

Lemma change_master_node_spec force :
  1 <= copy_count b ->
  (exists line node org, 1 <= line < copy_count b /\ entry (table b) line idx = Some node
     /\ entry (table b) 0 idx = Some org /\ is_node_availble b node = true
     /\ (force = false -> cnt (mtokens_count_in_node b) node < cnt (master_server_capable b) node)
     /\ change_master_node idx force b = Ret (true, swapped b line idx node org))
  \/ (change_master_node idx force b = Ret (false, b)
      /\ (force = true -> forall l node, 1 <= l < copy_count b ->
            entry (table b) l idx = Some node -> is_node_availble b node = false)).
Proof.
  intros Hcopy. unfold change_master_node. rewrite (sbind_run _ _ _ b b) by done.
  destruct (choose_slave_spec (Z.to_nat (copy_count b - 1)) 1 (-1) (-1)) as (c & m & E & Hc); [lia|lia|by left|].
  rewrite (sbind_run _ _ _ _ _ E). cbv beta iota zeta.
  destruct Hc as [(Hc & node & En & Ea & Em)|(Em & _ & Hno)].
  2: { right. subst m. split; [done|]. intros _. exact Hno. }
  assert (0 <= m) as Hm by (rewrite Em; apply Hpos, available_spec, Ea).
  destruct (Z.eqb_spec m (-1)); [lia|].
  destruct (entry_some _ _ _ Hshape 0 idx) as [org Eorg]; [lia|done|].
  rewrite (sbind_run _ _ _ _ _ (get_entry_run b c idx node En)). cbv beta.
  rewrite (sbind_run _ _ _ b b) by done. rewrite <- Em.
  destruct (negb force && (cnt (master_server_capable b) node <=? m)) eqn:Ef.
  { right. split; [done|]. intros ->. done. }
  left. exists c, node, org. split; [done|]. split; [done|]. split; [done|]. split; [done|]. split.
  { intros ->. apply andb_false_iff in Ef as [Ef|Ef%Z.leb_gt]; [done|lia]. }
  rewrite (sbind_run _ _ _ _ _ (get_entry_run b 0 idx org Eorg)). cbv beta.
  rewrite (sbind_run _ _ _ _ _ (put_entry_run b 0 idx node org Eorg)). cbv beta.
  set (b0 := set_table (fun t => put t 0 idx node) b).
  rewrite (sbind_run _ _ b0 tt (count_now node b0)) by done.
  rewrite (sbind_run _ _ _ tt (change_mtokens node false (count_now node b0))) by done.
  set (b1 := change_mtokens node false (count_now node b0)).
  rewrite (sbind_run _ _ _ b1 b1) by done.
  destruct (change_mtokens_fields node false (count_now node b0)) as (F1 & F2 & _). fold b1 in F1, F2.
  assert (entry (table b1) c idx = Some node) as En1.
  { rewrite F2. cbn. rewrite (entry_put _ 0 idx node c idx) by (lia || by eexists).
    by rewrite decide_False by lia. }
  assert (available_server b1 = available_server b) as Eav by apply (fixed_fields _ _ F1).
  rewrite (available_fixed b b1 org Eav). unfold swapped. fold b0 b1.
  destruct (is_node_availble b org); cbv iota.
  - erewrite sbind_run; [done|]. by rewrite (sbind_run _ _ _ _ _ (put_entry_run b1 c idx org node En1)).
  - erewrite sbind_run; [done|]. by rewrite (put_entry_run b1 c idx _ node En1).
Qed.
End choose.

(** What a swap does to the table and the counts. *)
Lemma swapped_fields b line idx node org :
  let b' := swapped b line idx node org in
  let org' := if is_node_availble b org then org else (INVALID_FLAG, node.2) in
  fixed_part b' = fixed_part b
  /\ table b' = put (put (table b) 0 idx node) line idx org'
  /\ (index_covers (mcandidate_node b) (available_server b) ->
      index_covers (mcandidate_node b') (available_server b))
  /\ scandidate_node b' = scandidate_node b
  /\ forall s, s ∈ available_server b -> s.1 <> INVALID_FLAG ->
       cnt (mtokens_count_in_node b') s = cnt (mtokens_count_in_node b) s
         + Z.b2z (bool_decide (node = s)) - Z.b2z (bool_decide (org = s)).
Proof.
  cbv zeta. unfold swapped.
  set (b0 := count_now node (set_table (fun t => put t 0 idx node) b)).
  destruct (change_mtokens_fields node false b0) as (F1 & F2 & F3 & F4 & F5).
  set (b1 := change_mtokens node false b0) in *.
  assert (available_server b1 = available_server b) as Eav by apply (fixed_fields _ _ F1).
  clearbody b1. subst b0. cbn in F1, F2, F3, F4, F5.
  destruct (is_node_availble b org) eqn:Ea.
  - set (b2 := set_table (fun t => put t line idx org) b1).
    destruct (change_mtokens_fields org true b2) as (G1 & G2 & G3 & G4 & G5).
    subst b2. cbn in G1, G2, G3, G4, G5. rewrite Eav in G5.
    split; [by rewrite G1|]. split; [by rewrite G2, F2|].
    split; [intros Hc; apply G5, F5, Hc|]. split; [by rewrite G3, F3|].
    intros s _ _. rewrite G4, F4, !cnt_insert.
    repeat case_decide; repeat case_bool_decide; subst; try done; simpl; lia.
  - cbn. split; [done|]. split; [by rewrite F2|]. split; [exact F5|].
    split; [done|]. intros s Hs Hid. rewrite F4, cnt_insert, (bool_decide_false (org = s)).
    + case_decide; case_bool_decide; subst; try done; simpl; lia.
    + intros ->. assert (is_node_availble b s = true); [by apply available_spec|congruence].
Qed.

Lemma swapped_good b line idx node org :
  good b -> 1 <= line -> entry (table b) 0 idx = Some org ->
  good (swapped b line idx node org).
Proof.
  intros Hg Hl Eorg. destruct (swapped_fields b line idx node org) as (F1 & F2 & F3 & F4 & F5).
  set (b' := swapped b line idx node org) in *.
  destruct (fixed_fields _ _ F1) as (Ea & Ec & Eb & _).
  constructor; rewrite ?Ea, ?Ec, ?Eb, ?F2, ?F4.
  - apply put_shape, put_shape, Hg.
  - apply Hg.
  - intros s Hs. rewrite F5, (g_masters b Hg s Hs) by (done || by apply (g_ids b Hg)).
    rewrite masters_put_slave, (masters_put _ _ org) by (done || lia). lia.
  - apply F3, Hg.
  - apply Hg.
Qed.
End swap.

(** ** What a strategy promises *)

(** [spread] is what the strategy guarantees of the copies of one bucket,
    beyond their being on different servers. *)
Class StrategyLaws (X : Type) `{Strategy X} := {
  spread : X -> list server_id -> Prop;
  law_total (b : builder X) node line idx level in_use :
    table_shape (copy_count b) (bucket_count b) (table b) -> 0 <= idx < bucket_count b ->
    exists r, is_this_node_OK b node line idx level in_use = Ret r;
  law_available (b : builder X) node line idx level in_use :
    is_this_node_OK b node line idx level in_use = Ret NODE_OK -> is_node_availble b node = true;
  law_master (b : builder X) node idx level in_use :
    is_this_node_OK b node 0 idx level in_use = Ret NODE_OK ->
    cnt (mtokens_count_in_node b) node < cnt (master_server_capable b) node + Z.b2z in_use;
  law_master_base (b : builder X) node idx in_use :
    is_node_availble b node = true ->
    cnt (mtokens_count_in_node b) node < cnt (master_server_capable b) node + Z.b2z in_use ->
    is_this_node_OK b node 0 idx CONSIDER_BASE in_use = Ret NODE_OK;
  law_separate (b : builder X) node line idx level in_use :
    table_shape (copy_count b) (bucket_count b) (table b) -> 0 <= idx < bucket_count b ->
    0 < line < copy_count b -> is_this_node_OK b node line idx level in_use = Ret NODE_OK ->
    (forall i e, i <> Z.to_nat line -> column (table b) idx !! i = Some e -> e.1 <> node.1)
    /\ spread (extra b) (<[Z.to_nat line := node]> (column (table b) idx));
  law_capable (b b' : builder X) :
    caculate_capable b = Ret b' ->
    available_server b' = available_server b /\ bucket_count b' = bucket_count b
    /\ copy_count b' = copy_count b /\ table b' = table b
    /\ mtokens_count_in_node b' = mtokens_count_in_node b
    /\ mcount_server b' = mcount_server b /\ count_server b' = count_server b
}.

(** ** Choosing a server *)

Section suitable.
Context {X : Type} `{StrategyLaws X}.
Context (b : builder X) (line idx : Z).
Hypothesis Hshape : table_shape (copy_count b) (bucket_count b) (table b).
Hypothesis Hidx : 0 <= idx < bucket_count b.

Definition fits (x : server_id) (level : Z) : Prop := is_this_node_OK b x line idx level false = Ret NODE_OK.

Lemma fits_valid x level : fits x level -> x.1 <> INVALID_FLAG.
Proof. intros Hf. by apply law_available, available_spec in Hf as [? _]. Qed.

Lemma node_OK_run x level in_use :
  exists r, node_OK x line idx level in_use b = Ret (r, b)
    /\ is_this_node_OK b x line idx level in_use = Ret r.
Proof.
  destruct (law_total b x line idx level in_use Hshape Hidx) as [r Hr]. exists r.
  unfold node_OK. by rewrite Hr.
Qed.

Lemma try_servers_spec servers level original suitable :
  exists x, try_servers servers line idx level original suitable b = Ret (x, b)
    /\ (x = suitable \/ fits x level) /\ ((exists s, s ∈ servers /\ fits s level) -> fits x level).
Proof.
  revert suitable. induction servers as [|y servers IH]; intros suitable.
  { exists suitable. split; [done|]. split; [by left|]. by intros (s & ?%elem_of_nil & _). }
  cbn [try_servers]. destruct (node_OK_run y level false) as (r & Hr & Hok).
  rewrite (sbind_run _ _ _ _ _ Hr). cbv beta. destruct (Z.eqb_spec r NODE_OK) as [->|Hne].
  - destruct (y.1 =? original.1); [exists y; split; [done|]; split; [by right|done]|].
    destruct (IH y) as (x & E & [->|Hx] & _); [exists y|exists x]; (split; [done|]); (split; [by right|done]).
  - destruct (IH suitable) as (x & E & Hx & Hs). exists x. split; [done|]. split; [done|].
    intros (s & [->|Hin]%elem_of_cons & Hf); [|apply Hs; by exists s].
    exfalso. unfold fits in Hf. rewrite Hok in Hf. apply Hne. by injection Hf.
Qed.

Lemma try_candidates_spec candidates s level original suitable :
  suitable.1 = INVALID_FLAG \/ fits suitable level ->
  exists x, try_candidates candidates s line idx level original suitable b = Ret (x, b)
    /\ (x = suitable \/ fits x level)
    /\ (CONSIDER_BASE <= level -> s < level + 1 ->
        (exists c, in_index candidates c /\ fits c level) -> fits x level).
Proof.
  revert s suitable. induction candidates as [|[k servers] candidates IH]; intros s suitable Hsuit.
  { exists suitable. split; [done|]. split; [by left|].
    by intros _ _ (c & (? & ? & ?%elem_of_nil & _) & _). }
  cbn [try_candidates]. destruct (Z.eqb_spec suitable.1 INVALID_FLAG) as [E0|E0].
  2: { destruct Hsuit as [|Hsuit]; [done|]. rewrite andb_false_r. exists suitable.
       split; [done|]. split; [by left|done]. }
  rewrite andb_true_r. destruct (Z.ltb_spec s (level + 1)) as [Hs|Hs].
  2: { exists suitable. split; [done|]. split; [by left|]. intros. lia. }
  destruct (try_servers_spec servers level original suitable) as (y & Ey & Hy & Hall).
  rewrite (sbind_run _ _ _ _ _ Ey). cbv beta.
  destruct (IH (if level <? CONSIDER_BASE then s + 1 else s) y) as (x & Ex & Hx & Hc).
  { destruct Hy as [->|Hy]; [by left|by right]. }
  exists x. split; [done|]. split.
  { destruct Hx as [->|Hx]; [done|by right]. }
  intros Hl _ (c & (k1 & l1 & [[= -> ->]|Hin]%elem_of_cons & Hin1) & Hf).
  - assert (fits y level) as Hfy by (apply Hall; by exists c).
    destruct Hx as [->|Hx]; done.
  - apply Hc; [done| |exists c; split; [by exists k1, l1|done]].
    destruct (Z.ltb_spec level CONSIDER_BASE); lia.
Qed.

Definition candidates : index := if line =? 0 then mcandidate_node b else scandidate_node b.

Lemma try_levels_spec levels original suitable :
  suitable.1 = INVALID_FLAG \/ (exists level, fits suitable level) ->
  exists x, try_levels levels line idx original suitable b = Ret (x, b)
    /\ (x.1 = INVALID_FLAG \/ exists level, fits x level)
    /\ ((exists level c, level ∈ levels /\ CONSIDER_BASE <= level /\ in_index candidates c /\ fits c level) ->
        x.1 <> INVALID_FLAG).
Proof.
  revert suitable. induction levels as [|level levels IH]; intros suitable Hsuit.
  { exists suitable. split; [done|]. split; [done|]. by intros (? & ? & ?%elem_of_nil & _). }
  cbn [try_levels]. destruct (Z.eqb_spec suitable.1 INVALID_FLAG) as [E0|E0].
  2: { exists suitable. split; [done|]. split; [done|done]. }
  rewrite (sbind_run _ _ _ b b) by done. fold candidates.
  destruct (try_candidates_spec candidates CONSIDER_ALL level original suitable) as (y & Ey & Hy & Hc); [by left|].
  rewrite (sbind_run _ _ _ _ _ Ey). cbv beta.
  destruct (IH y) as (x & Ex & Hx & Hl).
  { destruct Hy as [->|Hy]; [by left|right; by exists level]. }
  exists x. split; [done|]. split; [done|].
  intros (lv & c & [->|Hin]%elem_of_cons & Hb & Hcand & Hf); [|apply Hl; by exists lv, c].
  assert (fits y level) as Hfy.
  { apply Hc; [done| |by exists c]. unfold CONSIDER_ALL, CONSIDER_BASE in *. lia. }
  pose proof (fits_valid y level Hfy) as Hv. clear -Ex Hv.
  destruct levels; simpl in Ex; [by injection Ex as <-|]. destruct (Z.eqb_spec y.1 INVALID_FLAG); [done|].
  by injection Ex as <-.
Qed.

Lemma get_suitable_node_spec original :
  exists x, get_suitable_node line idx original b = Ret (x, b)
    /\ (x.1 = INVALID_FLAG \/ exists level, fits x level)
    /\ ((exists level c, (level = CONSIDER_BASE \/ level = CONSIDER_FORCE) /\ in_index candidates c
                         /\ fits c level) -> x.1 <> INVALID_FLAG).
Proof.
  unfold get_suitable_node.
  destruct (try_levels_spec [CONSIDER_ALL; CONSIDER_POS; CONSIDER_BASE; CONSIDER_FORCE] original
              (INVALID_FLAG, INVALID_FLAG)) as (x & Ex & Hx & Hl); [by left|].
  exists x. split; [done|]. split; [done|]. intros (level & c & Hlv & Hc & Hf). apply Hl.
  exists level, c. split; [destruct Hlv as [->| ->]; by_decide|].
  split; [destruct Hlv as [->| ->]; unfold CONSIDER_BASE, CONSIDER_FORCE; lia|done].
Qed.
End suitable.

(** A loop with a total body *)
Lemma for_loop_rule {St R} (I : Z -> St -> Prop) (Q : R -> St -> Prop) n i (body : Z -> stM St (option R)) s :
  I i s ->
  (forall j s, i <= j < i + Z.of_nat n -> I j s ->
     exists r s', body j s = Ret (r, s') /\ match r with Some v => Q v s' | None => I (j + 1) s' end) ->
  exists r s', for_loop n i body s = Ret (r, s')
    /\ match r with Some v => Q v s' | None => I (i + Z.of_nat n) s' end.
Proof.
  revert i s. induction n as [|n IH]; intros i s Hi Hbody.
  { exists None, s. split; [done|]. by rewrite Z.add_0_r. }
  cbn [for_loop]. destruct (Hbody i s) as ([v|] & s1 & E & H1); [lia|done| |].
  - rewrite (sbind_run _ _ _ _ _ E). cbv beta. by exists (Some v), s1.
  - rewrite (sbind_run _ _ _ _ _ E). cbv beta. destruct (IH (i + 1) s1) as (r & s2 & E2 & H2); [done| |].
    + intros j s' Hj. apply Hbody. lia.
    + exists r, s2. split; [done|]. destruct r; [done|]. by replace (i + Z.of_nat (S n)) with (i + 1 + Z.of_nat n) by lia.
Qed.

(** ** One entry *)

Section check.
Context {X : Type} `{StrategyLaws X}.
Implicit Types b : builder X.

Lemma count_entry_spec node b :
  good b -> exists b', count_entry node b = Ret (None, b') /\ good b'
    /\ fixed_part b' = fixed_part b /\ table b' = table b.
Proof.
  intros Hg. unfold count_entry. rewrite (sbind_run _ _ _ b b) by done.
  rewrite (sbind_run _ _ _ tt (count_now node b)) by done.
  exists (if cnt (tokens_count_in_node_now b) node + 1 =? get_tokens_per_node b node + 1
          then set_max_count_now (fun x => x + 1) (count_now node b) else count_now node b).
  destruct (_ =? _); (split; [done|]; split; [|done]); destruct Hg; by constructor.
Qed.

(** The ways an entry is left: kept, replaced by a server that fits, swapped
    with a slave, or given up. *)
Inductive checked b line idx node b' : option Z -> Prop :=
  | CheckKept : table b' = table b ->
      is_this_node_OK b node line idx (if line =? 0 then CONSIDER_BASE else CONSIDER_ALL) true = Ret NODE_OK ->
      checked b line idx node b' None
  | CheckReplaced x level b1 : good b1 -> fixed_part b1 = fixed_part b ->
      table b1 = put (table b) line idx (INVALID_FLAG, node.2) -> fits b1 line idx x level ->
      table b' = put (table b) line idx x -> checked b line idx node b' None
  | CheckSwapped l node' : line = 0 -> 1 <= l < copy_count b ->
      entry (table b) l idx = Some node' -> is_node_availble b node' = true ->
      cnt (mtokens_count_in_node b) node' < cnt (master_server_capable b) node' ->
      table b' = table (swapped b l idx node' node) -> checked b line idx node b' None
  | CheckFailed b1 : good b1 -> fixed_part b1 = fixed_part b ->
      table b1 = put (table b) line idx (INVALID_FLAG, node.2) ->
      (forall s level, s ∈ available_server b -> level = CONSIDER_BASE \/ level = CONSIDER_FORCE ->
         ~ fits b1 line idx s level) -> checked b line idx node b' (Some BUILD_ERROR).

Lemma put_put (t : hash_table) line idx x y : put (put t line idx x) line idx y = put t line idx y.
Proof.
  unfold put. rewrite list_alter_alter_eq. apply list_alter_ext; [|done].
  intros l _. apply list_insert_insert_eq.
Qed.

Lemma candidates_cover b line s : good b -> s ∈ available_server b -> in_index (candidates b line) s.
Proof. intros Hg Hs. unfold candidates. destruct (line =? 0); by apply Hg. Qed.

(** An entry that is not good: taken out and replaced, or given up. *)
Lemma replace_entry_spec b line idx node :
  good b -> 0 <= line < copy_count b -> 0 <= idx < bucket_count b -> entry (table b) line idx = Some node ->
  exists r b', (let* old_node := get_entry line idx in
      let* _ := invaliad_node line idx in
      let* suitable := get_suitable_node line idx old_node in
      if suitable.1 =? INVALID_FLAG then sret (Some BUILD_ERROR)
      else let* _ := update_node line idx suitable in count_entry suitable) b = Ret (r, b')
    /\ good b' /\ fixed_part b' = fixed_part b /\ checked b line idx node b' r.
Proof.
  intros Hg Hl Hi En. rewrite (sbind_run _ _ _ _ _ (get_entry_run b line idx node En)). cbv beta.
  destruct (invaliad_node_spec b line idx node Hg En ltac:(lia)) as (b1 & E1 & Hg1 & Hf1 & Ht1).
  rewrite (sbind_run _ _ _ _ _ E1).
  destruct (fixed_fields _ _ Hf1) as (Ea & Ec & Eb & _).
  destruct (get_suitable_node_spec b1 line idx (g_shape _ Hg1) ltac:(by rewrite Eb) node) as (x & Ex & Hx & Hall).
  rewrite (sbind_run _ _ _ _ _ Ex). cbv beta.
  destruct (Z.eqb_spec x.1 INVALID_FLAG) as [E0|E0].
  - exists (Some BUILD_ERROR), b1. split; [done|]. split; [done|]. split; [done|].
    eapply CheckFailed; [done..|]. intros s level Hs Hlv Hf.
    apply Hall in E0; [done|]. exists level, s. split; [done|]. split; [|done].
    apply candidates_cover; [done|by rewrite Ea].
  - destruct Hx as [|[level Hf]]; [done|].
    assert (is_node_availble b1 x = true) as Hav by by eapply law_available.
    assert (entry (table b1) line idx = Some (INVALID_FLAG, node.2)) as En1.
    { rewrite Ht1, (entry_put _ line idx) by (lia || by eexists). by rewrite decide_True. }
    destruct (update_node_spec b1 line idx _ Hg1 En1 ltac:(lia) x eq_refl Hav) as (b2 & E2 & Hg2 & Hf2 & Ht2).
    rewrite (sbind_run _ _ _ _ _ E2).
    destruct (count_entry_spec x b2 Hg2) as (b3 & E3 & Hg3 & Hf3 & Ht3).
    exists None, b3. split; [done|]. split; [done|]. split; [congruence|].
    eapply (CheckReplaced _ _ _ _ _ x level b1); [done..|]. rewrite Ht3, Ht2, Ht1. apply put_put.
Qed.

Lemma check_entry_spec b line_out line idx node :
  good b -> (line_out = 0 <-> line = 0) -> 0 <= line < copy_count b -> 0 <= idx < bucket_count b ->
  entry (table b) line idx = Some node ->
  exists r b', check_entry line_out line idx b = Ret (r, b') /\ good b' /\ fixed_part b' = fixed_part b
    /\ checked b line idx node b' r.
Proof.
  intros Hg Hlo Hl Hi En. unfold check_entry.
  rewrite (sbind_run _ _ _ _ _ (get_entry_run b line idx node En)). cbv beta.
  assert ((line_out =? 0) = (line =? 0)) as ->
    by (destruct (Z.eqb_spec line_out 0), (Z.eqb_spec line 0); tauto).
  set (level := if line =? 0 then CONSIDER_BASE else CONSIDER_ALL).
  destruct (node_OK_run b line idx (g_shape _ Hg) Hi node level true) as (r & Er & Hr).
  rewrite (sbind_run _ _ _ _ _ Er). cbv beta zeta.
  destruct (Z.eqb_spec r NODE_OK) as [->|Hne].
  - destruct (count_entry_spec (if NODE_OK =? INVALID_NODE then (INVALID_FLAG, node.2) else node) b Hg)
      as (b' & E & Hg' & Hf' & Ht').
    exists None, b'. split; [exact E|]. split; [done|]. split; [done|]. by apply CheckKept.
  - destruct (Z.eqb_spec line 0) as [->|Hline].
    + destruct (change_master_node_spec b idx (g_shape _ Hg) Hi) with (force := false)
        as [(l & node' & org & Hl' & En' & Eorg & Hav & Hcap & E)|[E _]]; [|lia| |].
      * intros s Hs. rewrite (g_masters _ Hg s Hs). unfold masters. lia.
      * rewrite (sbind_run _ _ _ _ _ E). cbv beta iota. rewrite En in Eorg. injection Eorg as <-.
        exists None, (swapped b l idx node' node). split; [done|].
        split; [apply swapped_good; [done|lia|done]|].
        destruct (swapped_fields b l idx node' node) as (F1 & _). split; [done|].
        eapply (CheckSwapped _ _ _ _ _ l node'); try done. by apply Hcap.
      * rewrite (sbind_run _ _ _ _ _ E). cbv beta iota. by apply replace_entry_spec.
    + rewrite (sbind_run _ _ _ false b) by done. cbv beta iota. by apply replace_entry_spec.
Qed.
End check.

(** ** The pass over the masters *)

Section passes.
Context {X : Type} `{StrategyLaws X}.
Implicit Types b : builder X.

(** A server with more masters than its share *)
Definition overloaded b (s : server_id) : Prop := cnt (master_server_capable b) s < masters (table b) s.

(** The pass over the masters leaves a bucket alone or gives it another master. *)
Definition column_kept (old new : list server_id) : Prop := new = old \/ new !! 0%nat <> old !! 0%nat.

Record masters_inv b0 (i : Z) b : Prop := {
  mi_good : good b;
  mi_fixed : fixed_part b = fixed_part b0;
  mi_there : forall j, 0 <= j < i -> exists x, entry (table b) 0 j = Some x /\ x ∈ available_server b;
  mi_load : forall s, s ∈ available_server b -> overloaded b s ->
              forall j, 0 <= j < i -> entry (table b) 0 j <> Some s;
  mi_kept : forall j, 0 <= j < bucket_count b0 ->
              column_kept (column (table b0) j) (column (table b) j)
              /\ (i <= j -> column (table b) j = column (table b0) j)
}.

(** Why the pass over the masters gives up. *)
Definition no_master_left b0 : Prop :=
  exists b1 idx e, good b1 /\ fixed_part b1 = fixed_part b0 /\ 0 <= idx < bucket_count b1
    /\ entry (table b1) 0 idx = Some (INVALID_FLAG, e)
    /\ forall s, s ∈ available_server b1 -> cnt (master_server_capable b1) s <= masters (table b1) s.

(** Only the new master [x] can gain a bucket, and it had room. *)
Lemma load_step (n cap : Z) (x s : server_id) (lost : bool) :
  (x = s -> n - Z.b2z lost < cap) ->
  cap < n - Z.b2z lost + Z.b2z (bool_decide (x = s)) -> s <> x /\ cap < n.
Proof.
  intros Hx Hov. destruct (decide (x = s)) as [E|D].
  - specialize (Hx E). rewrite bool_decide_true in Hov by done. cbn [Z.b2z] in Hov. lia.
  - rewrite bool_decide_false in Hov by done. split; [congruence|]. destruct lost; cbn [Z.b2z] in Hov; lia.
Qed.

(** The column of a bucket whose master was checked, and the other columns *)
Lemma checked_master_kept b idx node r b' :
  good b -> 0 <= idx < bucket_count b -> 1 <= copy_count b -> entry (table b) 0 idx = Some node ->
  checked b 0 idx node b' r -> r = None ->
  column_kept (column (table b) idx) (column (table b') idx)
  /\ forall j, 0 <= j < bucket_count b -> j <> idx -> column (table b') j = column (table b) j.
Proof.
  intros Hg Hi Hcopy En Hch ->. pose proof (g_shape _ Hg) as Hsh.
  pose proof (column_lookup _ _ _ Hsh idx 0 Hi ltac:(lia)) as Hc0. change (Z.to_nat 0) with 0%nat in Hc0.
  rewrite En in Hc0. pose proof (column_length _ _ _ Hsh idx Hi) as Hlen.
  inversion Hch as [Ht Hok|x level b1 Hg1 Hf1 Ht1 Hfit Ht|l node' Hl0 Hl En' Hav Hcap Ht|]; subst.
  - rewrite Ht. split; [by left|done].
  - rewrite Ht. split.
    + rewrite (column_put _ _ _ _ _ _ _ Hsh), decide_True by (done || lia).
      destruct (decide (x = node)) as [->|D]; [left; by apply list_insert_id|right].
      rewrite list_lookup_insert_eq, Hc0 by lia. congruence.
    + intros j Hj Hne. rewrite (column_put _ _ _ _ _ _ _ Hsh) by lia. by rewrite decide_False.
  - destruct (swapped_fields b l idx node' node) as (_ & F2 & _). rewrite F2 in Ht. rewrite Ht.
    set (org' := if is_node_availble b node then node else (INVALID_FLAG, node'.2)).
    assert (table_shape (copy_count b) (bucket_count b) (put (table b) 0 idx node')) as Hsh1 by by apply put_shape.
    split.
    + rewrite (column_put _ _ _ _ _ _ _ Hsh1), decide_True by (done || lia).
      rewrite (column_put _ _ _ _ _ _ _ Hsh), decide_True by (done || lia).
      destruct (decide (node' = node)) as [->|D].
      * left. unfold org'. rewrite Hav. change (Z.to_nat 0) with 0%nat. rewrite (list_insert_id _ 0) by done.
        apply list_insert_id. by rewrite (column_lookup _ _ _ Hsh) by lia.
      * right. rewrite list_lookup_insert_ne by lia. change (Z.to_nat 0) with 0%nat.
        rewrite list_lookup_insert_eq, Hc0 by lia. congruence.
    + intros j Hj Hne. rewrite (column_put _ _ _ _ _ _ _ Hsh1), decide_False by (done || lia).
      rewrite (column_put _ _ _ _ _ _ _ Hsh) by lia. by rewrite decide_False.
Qed.

Lemma masters_kept_step b0 b b' idx :
  good b -> fixed_part b = fixed_part b0 -> 0 <= idx < bucket_count b ->
  (forall j, 0 <= j < bucket_count b0 ->
     column_kept (column (table b0) j) (column (table b) j)
     /\ (idx <= j -> column (table b) j = column (table b0) j)) ->
  column_kept (column (table b) idx) (column (table b') idx)
  /\ (forall j, 0 <= j < bucket_count b -> j <> idx -> column (table b') j = column (table b) j) ->
  forall j, 0 <= j < bucket_count b0 ->
    column_kept (column (table b0) j) (column (table b') j)
    /\ (idx + 1 <= j -> column (table b') j = column (table b0) j).
Proof.
  intros Hg Hf Hi Hk [Hkept Hother] j Hj. destruct (fixed_fields _ _ Hf) as (_ & _ & Eb & _).
  destruct (Hk j Hj) as [Hkj Hrest]. destruct (decide (j = idx)) as [->|D].
  - rewrite Hrest in Hkept by lia. split; [done|lia].
  - rewrite Hother by lia. split; [done|]. intros. apply Hrest. lia.
Qed.

Lemma masters_step b0 b idx node r b' :
  masters_inv b0 idx b -> 0 <= idx < bucket_count b -> 1 <= copy_count b ->
  entry (table b) 0 idx = Some node -> good b' -> fixed_part b' = fixed_part b ->
  checked b 0 idx node b' r ->
  match r with Some v => v = BUILD_ERROR /\ no_master_left b0 | None => masters_inv b0 (idx + 1) b' end.
Proof.
  intros [Hg Hfix Hthere Hload Hkept] Hi Hcopy En Hg' Hf' Hch.
  destruct (fixed_fields _ _ Hf') as (Ea & Ec & Eb & _ & Em & _).
  assert (is_Some (entry (table b) 0 idx)) as Hs0 by by eexists.
  pose proof (checked_master_kept b idx node r b' Hg Hi Hcopy En Hch) as Hcol.
  assert (forall x, (x ∈ available_server b) ->
    (forall j, 0 <= j -> entry (table b') 0 j = if decide (idx = j) then Some x else entry (table b) 0 j) ->
    (forall s, s ∈ available_server b -> overloaded b' s -> s <> x /\ overloaded b s) ->
    r = None -> masters_inv b0 (idx + 1) b') as Hnext.
  { intros x Hx He Ho ->. constructor; [done|congruence| | |exact (masters_kept_step b0 b b' idx Hg Hfix Hi Hkept (Hcol eq_refl))].
    - intros j Hj. rewrite Ea, He by lia. case_decide as D; [by exists x|]. apply Hthere. lia.
    - intros s Hs Hov j Hj. rewrite Ea in Hs. destruct (Ho s Hs Hov) as [Hne Hov'].
      rewrite He by lia. case_decide as D; [congruence|]. apply Hload; [done|done|lia]. }
  clear Hcol.
  destruct Hch as [Ht Hok|x level b1 Hg1 Hf1 Ht1 Hfit Ht|l node' Hl0 Hl En' Hav Hcap Ht|b1 Hg1 Hf1 Ht1 Hno].
  - pose proof (law_available _ _ _ _ _ _ Hok) as Hav%good_available; [|done].
    pose proof (law_master _ _ _ _ _ Hok) as Hm. rewrite (g_masters _ Hg _ Hav) in Hm. simpl in Hm.
    apply (Hnext node Hav); [| |done].
    + intros j Hj. rewrite Ht. case_decide; [by subst|done].
    + intros s Hs Hov. unfold overloaded in *. rewrite Em, Ht in Hov. split; [|done]. intros ->. lia.
  - destruct (fixed_fields _ _ Hf1) as (Ea1 & _ & _ & _ & Em1 & _).
    pose proof (law_available _ _ _ _ _ _ Hfit) as Hav%good_available; [|done].
    pose proof (law_master _ _ _ _ _ Hfit) as Hm. rewrite (g_masters _ Hg1 _ Hav), Em1, Ht1 in Hm. simpl in Hm.
    rewrite Ea1 in Hav. apply (Hnext x Hav); [| |done].
    + intros j Hj. rewrite Ht, (entry_put _ 0 idx) by (done || lia).
      destruct (decide (idx = j)) as [->|D]; [by rewrite decide_True|]. rewrite decide_False by tauto. done.
    + intros s Hs Hov. pose proof (g_ids _ Hg s Hs) as Hid. pose proof (g_ids _ Hg x Hav) as Hidx.
      unfold overloaded in *. rewrite Em, Ht in Hov.
      rewrite (masters_put _ _ node) in Hov, Hm by done.
      rewrite (bool_decide_false ((INVALID_FLAG, node.2) = x)) in Hm by (intros <-; done).
      apply (load_step (masters (table b) s) _ _ _ (bool_decide (node = s))); [|exact Hov].
      intros <-. cbn [Z.b2z] in Hm. lia.
  - destruct (swapped_fields b l idx node' node) as (_ & F2 & _). rewrite F2 in Ht.
    set (org' := if is_node_availble b node then node else (INVALID_FLAG, node'.2)) in *.
    apply good_available in Hav; [|done]. rewrite (g_masters _ Hg _ Hav) in Hcap.
    apply (Hnext node' Hav); [| |done].
    + intros j Hj. rewrite Ht.
      assert (is_Some (entry (put (table b) 0 idx node') l idx)) as Hs1.
      { rewrite (entry_put _ 0 idx) by (done || lia). case_decide; [by eexists|]. by eexists. }
      rewrite (entry_put _ l idx) by (done || lia). rewrite decide_False by lia.
      rewrite (entry_put _ 0 idx) by (done || lia).
      destruct (decide (idx = j)) as [->|D]; [by rewrite decide_True|]. by rewrite decide_False by tauto.
    + intros s Hs Hov. unfold overloaded in *. rewrite Em, Ht, masters_put_slave in Hov by lia.
      rewrite (masters_put _ _ node) in Hov by done.
      apply (load_step (masters (table b) s) _ _ _ (bool_decide (node = s))); [|exact Hov].
      intros <-. destruct (bool_decide (node = node')); cbn [Z.b2z]; lia.
  - split; [done|]. destruct (fixed_fields _ _ Hf1) as (Ea1 & Ec1 & Eb1 & _ & Em1 & _).
    exists b1, idx, node.2. split; [done|]. split; [congruence|]. split; [by rewrite Eb1|].
    split; [rewrite Ht1, (entry_put _ 0 idx) by (done || lia); by rewrite decide_True|].
    intros s Hs. rewrite <- (g_masters _ Hg1 s Hs). destruct (Z.le_gt_cases (cnt (master_server_capable b1) s)
      (cnt (mtokens_count_in_node b1) s)) as [Hle|Hgt]; [done|].
    exfalso. apply (Hno s CONSIDER_BASE); [by rewrite <- Ea1|by left|].
    apply law_master_base; [by apply good_available|simpl; lia].
Qed.

(** Every bucket has a master and nobody has more than its share. *)
Definition masters_settled b : Prop :=
  (forall j, 0 <= j < bucket_count b -> exists x, entry (table b) 0 j = Some x /\ x ∈ available_server b)
  /\ forall s, s ∈ available_server b -> masters (table b) s <= Z.max 0 (cnt (master_server_capable b) s).

Lemma masters_pos t s : 0 < masters t s -> exists j, 0 <= j /\ entry t 0 j = Some s.
Proof.
  unfold masters. intros Hpos. destruct (filter (fun x => x = s) (default [] (t !! 0%nat))) as [|y l] eqn:E;
    [simpl in Hpos; lia|].
  assert (y ∈ filter (fun x => x = s) (default [] (t !! 0%nat))) as Hy by (rewrite E; by left).
  apply list_elem_of_filter in Hy as [-> Hy]. apply list_elem_of_lookup in Hy as [n Hn].
  exists (Z.of_nat n). split; [lia|]. unfold entry. change (Z.to_nat 0) with 0%nat. rewrite Nat2Z.id.
  destruct (t !! 0%nat); [done|]. simpl in Hn. by rewrite lookup_nil in Hn.
Qed.

Lemma entry_range b line j x : good b -> entry (table b) line j = Some x -> 0 <= j -> j < bucket_count b.
Proof.
  intros Hg E Hj. destruct (g_shape _ Hg) as [_ Hw]. unfold entry in E.
  destruct (table b !! Z.to_nat line) as [l|] eqn:El; [|done]. rewrite list.Forall_lookup in Hw.
  specialize (Hw _ _ El). simpl in Hw. apply lookup_lt_Some in E. lia.
Qed.

Lemma master_pass_spec b :
  good b -> 1 <= copy_count b -> 0 <= bucket_count b ->
  exists r b', master_pass b = Ret (r, b') /\ good b' /\ fixed_part b' = fixed_part b
    /\ match r with
       | Some v => v = BUILD_ERROR /\ no_master_left b
       | None => masters_settled b'
           /\ forall j, 0 <= j < bucket_count b -> column_kept (column (table b) j) (column (table b') j)
       end.
Proof.
  intros Hg Hcopy Hb. unfold master_pass. rewrite (sbind_run _ _ _ b b) by done.
  destruct (for_loop_rule (masters_inv b)
    (fun v b' => good b' /\ fixed_part b' = fixed_part b /\ v = BUILD_ERROR /\ no_master_left b)
    (Z.to_nat (bucket_count b)) 0 (fun idx => if 0 <? copy_count b then check_entry 0 0 idx else sret None) b)
    as (r & b' & E & Hr).
  - constructor; [done|done|intros; lia|intros; lia|intros; split; [by left|done]].
  - intros j b1 Hj Hinv. destruct (Z.ltb_spec 0 (copy_count b)); [|lia].
    destruct (fixed_fields _ _ (mi_fixed _ _ _ Hinv)) as (Ea & Ec & Eb & _).
    destruct (entry_some _ _ _ (g_shape _ (mi_good _ _ _ Hinv)) 0 j) as [node En]; [lia|lia|].
    destruct (check_entry_spec b1 0 0 j node (mi_good _ _ _ Hinv)) as (r & b2 & E & Hg2 & Hf2 & Hch);
      [done|lia|lia|done|].
    pose proof (masters_step b b1 j node r b2 Hinv ltac:(lia) ltac:(lia) En Hg2 Hf2 Hch) as Hstep.
    exists r, b2. split; [done|]. destruct r as [v|]; [|done]. destruct Hstep as [-> Hno].
    split; [done|]. split; [|done]. rewrite Hf2. apply Hinv.
  - exists r, b'. split; [done|]. destruct r as [v|]; [tauto|]. destruct Hr as [Hg' Hf' Hthere Hload Hkept].
    destruct (fixed_fields _ _ Hf') as (Ea & Ec & Eb & _). rewrite Z2Nat.id in * by lia.
    split; [done|]. split; [done|]. split; [|intros j Hj; by apply Hkept].
    split; [intros j Hj; apply Hthere; lia|].
    intros s Hs. destruct (Z.le_gt_cases (masters (table b') s) (cnt (master_server_capable b') s)); [lia|].
    destruct (Z.le_gt_cases (masters (table b') s) 0); [lia|]. exfalso.
    destruct (masters_pos (table b') s) as (j & Hj & Ej); [lia|].
    pose proof (entry_range b' 0 j s Hg' Ej Hj). apply (Hload s Hs ltac:(unfold overloaded; lia) j); [lia|done].
Qed.

(** ** The pass over the slaves *)

(** The copies below line [l] of a bucket are final. *)
Definition settled b (l : nat) (col : list server_id) : Prop :=
  (forall m x, (0 < m < l)%nat -> col !! m = Some x -> x ∈ available_server b
     /\ forall m' e, m' <> m -> col !! m' = Some e -> e.1 <> x.1)
  /\ ((1 < l)%nat -> spread (extra b) col).

(** A bucket whose copies are all final *)
Definition bucket_done b (col : list server_id) : Prop :=
  (forall x, x ∈ col -> x ∈ available_server b) /\ NoDup (map fst col)
  /\ ((1 < length col)%nat -> spread (extra b) col).

Lemma settled_done b col x0 :
  col !! 0%nat = Some x0 -> x0 ∈ available_server b -> settled b (length col) col -> bucket_done b col.
Proof.
  intros E0 H0' [Hs Hsp]. split; [|split; [|done]].
  - intros x [[|m] Em]%list_elem_of_lookup; [congruence|].
    apply (Hs (S m) x); [|done]. apply lookup_lt_Some in Em. lia.
  - apply NoDup_alt. intros i j a. rewrite !list_lookup_fmap.
    destruct (col !! i) as [x|] eqn:Ei, (col !! j) as [y|] eqn:Ej; try done. simpl. intros [= Ex] [= Ey].
    destruct (decide (i = j)) as [|D]; [done|]. exfalso.
    pose proof (lookup_lt_Some _ _ _ Ei). pose proof (lookup_lt_Some _ _ _ Ej).
    destruct (decide (0 < i)%nat) as [Hi|Hi].
    + destruct (Hs i x ltac:(lia) Ei) as [_ Hd]. apply (Hd j y); [congruence|done|congruence].
    + destruct (Hs j y ltac:(lia) Ej) as [_ Hd]. apply (Hd i x); [done|done|congruence].
Qed.

(** Line [line] of a bucket gets [x], which is good there. *)
Lemma settled_step b line col x :
  (0 < line)%nat -> (line < length col)%nat -> settled b line col -> x ∈ available_server b ->
  (forall i e, i <> line -> col !! i = Some e -> e.1 <> x.1) ->
  spread (extra b) (<[line := x]> col) ->
  settled b (S line) (<[line := x]> col).
Proof.
  intros Hl Hlen [Hs Hsp] Hx Hsep Hspread. split; [|done].
  intros m y Hm. destruct (decide (m = line)) as [->|D].
  - rewrite list_lookup_insert_eq by done. intros [= <-]. split; [done|]. intros m' e Hne.
    rewrite list_lookup_insert_ne by done. by apply Hsep.
  - rewrite list_lookup_insert_ne by done. intros Ey. destruct (Hs m y ltac:(lia) Ey) as [Hy Hd].
    split; [done|]. intros m' e Hne. destruct (decide (m' = line)) as [->|D'].
    + rewrite list_lookup_insert_eq by done. intros [= <-] E. by apply (Hsep m y).
    + rewrite list_lookup_insert_ne by done. by apply Hd.
Qed.

(** The pass over the slaves leaves the lines below [l] of a bucket alone, or
    puts a server there that had no slave copy of it. *)
Definition column_stable (l : nat) (old new : list server_id) : Prop :=
  new = old \/ exists m x, (1 <= m < l)%nat /\ new !! m = Some x
                 /\ forall m', (1 <= m')%nat -> old !! m' <> Some x.

Lemma column_stable_insert (l : nat) (old col : list server_id) (node x : server_id) :
  (0 < l < length col)%nat -> col !! l = Some node -> column_stable l old col ->
  (forall m e, m <> l -> col !! m = Some e -> e.1 <> x.1) ->
  column_stable (S l) old (<[l := x]> col).
Proof.
  intros Hl En [->|(m & y & Hm & Ey & Hno)] Hsep.
  - destruct (decide (x = node)) as [->|D]; [left; by apply list_insert_id|right].
    exists l, x. split; [lia|]. split; [by apply list_lookup_insert_eq; lia|].
    intros m' Hm' E. destruct (decide (m' = l)) as [->|Hne]; [congruence|]. by apply (Hsep m' x).
  - right. exists m, y. split; [lia|]. split; [|done]. by rewrite list_lookup_insert_ne by lia.
Qed.

Lemma column_stable_le l l' old new : (l <= l')%nat -> column_stable l old new -> column_stable l' old new.
Proof. intros Hle [->|(m & x & Hm & Hx)]; [by left|right]. exists m, x. split; [lia|done]. Qed.

Record slaves_inv b0 (idx : Z) (l : nat) b : Prop := {
  si_good : good b;
  si_fixed : fixed_part b = fixed_part b0;
  si_masters : table b !! 0%nat = table b0 !! 0%nat;
  si_done : forall j, 0 <= j < idx -> bucket_done b0 (column (table b) j);
  si_settled : idx < bucket_count b0 -> settled b0 l (column (table b) idx);
  si_stable : forall j, 0 <= j < bucket_count b0 ->
    column_stable (if decide (j < idx) then Z.to_nat (copy_count b0)
                   else if decide (j = idx) then l else 1) (column (table b0) j) (column (table b) j)
}.

(** Why the pass over the slaves gives up. *)
Definition no_slave_left b0 : Prop :=
  exists b1 line idx e, good b1 /\ fixed_part b1 = fixed_part b0 /\ 0 <= idx < bucket_count b1
    /\ 0 < line < copy_count b1 /\ entry (table b1) line idx = Some (INVALID_FLAG, e)
    /\ forall s, s ∈ available_server b1 -> ~ fits b1 line idx s CONSIDER_FORCE.

Lemma slaves_step b0 b idx line node r b' :
  slaves_inv b0 idx (Z.to_nat line) b -> 0 <= idx < bucket_count b -> 0 < line < copy_count b ->
  entry (table b) line idx = Some node -> good b' -> fixed_part b' = fixed_part b ->
  checked b line idx node b' r ->
  match r with
  | Some v => v = BUILD_ERROR /\ no_slave_left b0
  | None => slaves_inv b0 idx (Z.to_nat (line + 1)) b'
  end.
Proof.
  intros [Hg Hfix Hm Hdone Hset Hstable] Hi Hl En Hg' Hf' Hch.
  pose proof (g_shape _ Hg) as Hsh.
  destruct (fixed_fields _ _ Hfix) as (Ea & Ec & Eb & _ & _ & Ee).
  assert (Z.to_nat (line + 1) = S (Z.to_nat line)) as Hnat by lia.
  pose proof (column_length _ _ _ Hsh idx Hi) as Hlen.
  pose proof (column_lookup _ _ _ Hsh idx line Hi ltac:(lia)) as Hcl. rewrite En in Hcl.
  assert (forall x, table b' = put (table b) line idx x -> x ∈ available_server b ->
    (forall i e, i <> Z.to_nat line -> column (table b) idx !! i = Some e -> e.1 <> x.1) ->
    spread (extra b) (<[Z.to_nat line := x]> (column (table b) idx)) ->
    slaves_inv b0 idx (Z.to_nat (line + 1)) b') as Hnext.
  { intros x Ht Hx Hsep Hsp. constructor; [done|congruence| | | |].
    - rewrite Ht. unfold put. rewrite list_lookup_alter_ne by lia. done.
    - intros j Hj. rewrite Ht, (column_put _ _ _ _ _ _ _ Hsh) by lia. rewrite decide_False by lia. by apply Hdone.
    - intros Hlt. rewrite Ht, (column_put _ _ _ _ _ _ _ Hsh) by lia. rewrite decide_True, Hnat by done.
      apply settled_step; [lia|lia|by apply Hset|by rewrite <- Ea|done|by rewrite <- Ee].
    - intros j Hj. rewrite Ht, (column_put _ _ _ _ _ _ _ Hsh) by lia. specialize (Hstable j Hj).
      destruct (decide (idx = j)) as [<-|D].
      2: { rewrite (decide_False (P := j = idx)) in Hstable |- * by congruence. exact Hstable. }
      rewrite (decide_False (P := idx < idx)), (decide_True (P := idx = idx)) in Hstable |- * by (done || lia).
      rewrite Hnat. apply (column_stable_insert _ _ _ node); [lia|done|done|done]. }
  destruct Hch as [Ht Hok|x level b1 Hg1 Hf1 Ht1 Hfit Ht|l node' Hl0 _ _ _ _ _|b1 Hg1 Hf1 Ht1 Hno]; [| |lia|].
  - destruct (law_separate _ _ _ _ _ _ Hsh Hi Hl Hok) as [Hsep Hsp].
    apply (Hnext node); [|by apply (good_available b node Hg), (law_available _ _ _ _ _ _ Hok)|done|done].
    rewrite Ht. symmetry. unfold put. apply list_eq. intros n. rewrite list_lookup_alter.
    case_decide as D; [subst n|done]. unfold entry in En.
    destruct (table b !! Z.to_nat line) as [row|] eqn:Er; [|done]. simpl. by rewrite list_insert_id.
  - destruct (fixed_fields _ _ Hf1) as (Ea1 & Ec1 & Eb1 & _ & _ & Ee1).
    destruct (law_separate b1 x line idx level false (g_shape _ Hg1)) as [Hsep Hsp]; [lia|lia|done|].
    pose proof (law_available _ _ _ _ _ _ Hfit) as Hav%good_available; [|done]. rewrite Ea1 in Hav.
    rewrite Ht1, (column_put _ _ _ _ _ _ _ Hsh), decide_True in Hsep, Hsp by (done || lia).
    rewrite list_insert_insert_eq, Ee1 in Hsp. apply (Hnext x); [done|done| |done].
    intros i e Hne Ee'. apply (Hsep i e Hne). by rewrite list_lookup_insert_ne.
  - split; [done|]. destruct (fixed_fields _ _ Hf1) as (Ea1 & Ec1 & Eb1 & _).
    exists b1, line, idx, node.2. split; [done|]. split; [congruence|]. split; [by rewrite Eb1|].
    split; [by rewrite Ec1|].
    split; [rewrite Ht1, (entry_put _ line idx) by (lia || by eexists); by rewrite decide_True|].
    intros s Hs. apply Hno; [by rewrite <- Ea1|by right].
Qed.

Lemma slave_bucket_spec b0 b idx :
  slaves_inv b0 idx 1 b -> 0 <= idx < bucket_count b0 -> 2 <= copy_count b0 ->
  exists r b', for_loop (Z.to_nat (copy_count b0 - 1)) 1 (fun line => check_entry 1 line idx) b = Ret (r, b')
    /\ match r with
       | Some v => v = BUILD_ERROR /\ no_slave_left b0
       | None => slaves_inv b0 idx (Z.to_nat (copy_count b0)) b'
       end.
Proof.
  intros Hinv Hi Hcopy.
  destruct (for_loop_rule (fun l => slaves_inv b0 idx (Z.to_nat l)) (fun v _ => v = BUILD_ERROR /\ no_slave_left b0)
    (Z.to_nat (copy_count b0 - 1)) 1 (fun line => check_entry 1 line idx) b Hinv) as (r & b' & E & Hr).
  - intros l b1 Hl Hinv1. destruct (fixed_fields _ _ (si_fixed _ _ _ _ Hinv1)) as (Ea & Ec & Eb & _).
    destruct (entry_some _ _ _ (g_shape _ (si_good _ _ _ _ Hinv1)) l idx) as [node En]; [lia|lia|].
    destruct (check_entry_spec b1 1 l idx node (si_good _ _ _ _ Hinv1)) as (r & b2 & E & Hg2 & Hf2 & Hch);
      [lia|lia|lia|done|].
    exists r, b2. split; [done|].
    by apply (slaves_step b0 b1 idx l node r b2 Hinv1 ltac:(lia) ltac:(lia) En Hg2 Hf2 Hch).
  - exists r, b'. split; [done|]. destruct r; [done|].
    by replace (copy_count b0) with (1 + Z.of_nat (Z.to_nat (copy_count b0 - 1))) at 1 by lia.
Qed.

Definition all_done b : Prop :=
  forall j, 0 <= j < bucket_count b -> bucket_done b (column (table b) j).

Lemma bucket_done_fixed b b' col :
  fixed_part b' = fixed_part b -> bucket_done b col -> bucket_done b' col.
Proof.
  intros Hf. destruct (fixed_fields _ _ Hf) as (Ea & _ & _ & _ & _ & Ee). unfold bucket_done. by rewrite Ea, Ee.
Qed.

Lemma settled_one b col : settled b 1 col.
Proof. split; [intros; lia|lia]. Qed.

Lemma slave_pass_spec b :
  good b -> masters_settled b -> 2 <= copy_count b -> 0 <= bucket_count b ->
  exists r b', slave_pass b = Ret (r, b')
    /\ match r with
       | Some v => v = BUILD_ERROR /\ no_slave_left b
       | None => good b' /\ fixed_part b' = fixed_part b
           /\ (forall j, 0 <= j < bucket_count b -> table b' !! 0%nat = table b !! 0%nat
                /\ column_stable (Z.to_nat (copy_count b)) (column (table b) j) (column (table b') j))
           /\ all_done b' /\ masters_settled b'
       end.
Proof.
  intros Hg [Hthere Hload] Hcopy Hb. unfold slave_pass. rewrite (sbind_run _ _ _ b b) by done.
  destruct (for_loop_rule (fun i => slaves_inv b i 1) (fun v _ => v = BUILD_ERROR /\ no_slave_left b)
    (Z.to_nat (bucket_count b)) 0
    (fun idx => for_loop (Z.to_nat (copy_count b - 1)) 1 (fun line => check_entry 1 line idx)) b)
    as (r & b' & E & Hr).
  - constructor; [done|done|done|intros; lia|intros; apply settled_one|intros; by left].
  - intros j b1 Hj Hinv. destruct (slave_bucket_spec b b1 j Hinv ltac:(lia) Hcopy) as (r & b2 & E & Hr).
    exists r, b2. split; [done|]. destruct r; [done|]. destruct Hr as [Hg2 Hf2 Hm2 Hd2 Hs2 Hst2].
    constructor; [done|done|done| |intros; apply settled_one|].
    2: { intros i Hi'. specialize (Hst2 i Hi'). destruct (decide (i < j + 1)).
         - destruct (decide (i < j)); [done|]. by rewrite decide_True in Hst2 by lia.
         - rewrite !decide_False in Hst2 by lia. by case_decide. }
    intros i Hi'.
    destruct (decide (i = j)) as [->|D]; [|apply Hd2; lia].
    destruct (fixed_fields _ _ Hf2) as (Ea & Ec & Eb & _).
    pose proof (column_length _ _ _ (g_shape _ Hg2) j ltac:(lia)) as Hlen.
    destruct (Hthere j ltac:(lia)) as (x0 & E0 & Hx0).
    apply (settled_done b _ x0); [|done|].
    + change 0%nat with (Z.to_nat 0). rewrite (column_lookup _ _ _ (g_shape _ Hg2)) by lia.
      unfold entry in *. change (Z.to_nat 0) with 0%nat in *. by rewrite Hm2.
    + replace (length (column (table b2) j)) with (Z.to_nat (copy_count b)) by lia. apply Hs2. lia.
  - exists r, b'. split; [done|]. destruct r; [done|]. destruct Hr as [Hg' Hf' Hm' Hd' _ Hst'].
    destruct (fixed_fields _ _ Hf') as (Ea & Ec & Eb & _ & Em & _).
    split; [done|]. split; [done|]. split; [|split].
    + intros j Hj. split; [done|]. specialize (Hst' j Hj). by rewrite decide_True in Hst' by lia.
    + intros j Hj. apply (bucket_done_fixed b); [done|]. apply Hd'. lia.
    + split.
      * intros j Hj. destruct (Hthere j ltac:(lia)) as (x & E0 & Hx). exists x. rewrite Ea. split; [|done].
        unfold entry in *. change (Z.to_nat 0) with 0%nat in *. by rewrite Hm'.
      * intros s. rewrite Ea, Em. intros Hs. specialize (Hload s Hs). unfold masters in *. by rewrite Hm'.
Qed.
End passes.

(** ** The quick table *)

Definition is_copy (t : hash_table) (idx : Z) (x : server_id) : Prop :=
  exists line, 0 <= line /\ entry t line idx = Some x.

Section quick.
Context {X : Type}.
Implicit Types b : builder X.

Abbreviation avail b x := (is_node_availble b x = true).

(** Bucket [idx] has an available master among its copies, its old one if that
    is available, and keeps its available copies. *)
Definition promoted b (t t' : hash_table) (idx : Z) : Prop :=
  (exists m, entry t' 0 idx = Some m /\ avail b m /\ is_copy t idx m
     /\ forall m0, entry t 0 idx = Some m0 -> avail b m0 -> m = m0)
  /\ (forall x, avail b x -> is_copy t idx x <-> is_copy t' idx x)
  /\ forall line x, 0 < line -> avail b x -> entry t' line idx = Some x -> entry t line idx = Some x.

(** The part of the state the quick table depends on *)
Record quick_state b0 b : Prop := {
  qs_fixed : fixed_part b = fixed_part b0;
  qs_shape : table_shape (copy_count b0) (bucket_count b0) (table b);
  qs_counts : forall s, s ∈ available_server b0 -> 0 <= cnt (mtokens_count_in_node b) s
}.

Lemma quick_state_avail b0 b x : quick_state b0 b -> is_node_availble b x = is_node_availble b0 x.
Proof. intros Hq. apply available_fixed, (fixed_fields _ _ (qs_fixed _ _ Hq)). Qed.

Lemma swapped_quick b0 b line idx node org :
  quick_state b0 b -> is_node_availble b org = false -> is_node_availble b node = true ->
  quick_state b0 (swapped b line idx node org).
Proof.
  intros [Hf Hs Hc] Horg Hnode. destruct (swapped_fields b line idx node org) as (F1 & F2 & _ & _ & F5).
  destruct (fixed_fields _ _ Hf) as (Ea & _). constructor.
  - congruence.
  - rewrite F2. by apply put_shape, put_shape.
  - intros s Hs'. destruct (decide (s.1 = INVALID_FLAG)) as [E0|E0].
    + assert (cnt (mtokens_count_in_node (swapped b line idx node org)) s = cnt (mtokens_count_in_node b) s)
        as ->; [|by apply Hc].
      unfold swapped. rewrite Horg. cbn.
      rewrite cnt_insert. rewrite decide_False; [done|].
      intros ->. apply available_spec in Hnode as [? _]. done.
    + rewrite F5 by (done || by rewrite Ea). specialize (Hc s Hs').
      rewrite (bool_decide_false (org = s)); [destruct (bool_decide (node = s)); cbn [Z.b2z]; lia|].
      intros ->. assert (is_node_availble b s = true); [apply available_spec; rewrite Ea; done|congruence].
Qed.

Lemma promoted_keep b t idx m : entry t 0 idx = Some m -> avail b m -> promoted b t t idx.
Proof.
  intros E Ha. split; [|by split]. exists m. split; [done|]. split; [done|].
  split; [exists 0; by split|]. intros m0 E0 _. congruence.
Qed.

Lemma promoted_swap b t copies buckets idx line node org :
  table_shape copies buckets t -> 0 <= idx < buckets -> 1 <= line < copies ->
  entry t 0 idx = Some org -> ~ avail b org -> entry t line idx = Some node -> avail b node ->
  promoted b t (put (put t 0 idx node) line idx (INVALID_FLAG, node.2)) idx.
Proof.
  intros Hs Hi Hl Eo Ho En Hn. set (t1 := put t 0 idx node).
  assert (is_Some (entry t1 line idx)) as Hs1 by (apply (entry_some copies buckets); [by apply put_shape|lia|done]).
  assert (forall l, 0 <= l -> entry (put t1 line idx (INVALID_FLAG, node.2)) l idx =
    if decide (line = l) then Some (INVALID_FLAG, node.2) else if decide (0 = l) then Some node else entry t l idx) as He.
  { intros l Hl0. rewrite (entry_put t1) by (done || lia). unfold t1.
    rewrite (entry_put t) by (lia || by eexists). repeat case_decide; tauto || done. }
  split.
  - exists node. split; [rewrite He by lia; rewrite decide_False by lia; by rewrite decide_True|].
    split; [done|]. split; [by exists line; split; [lia|]|]. intros m0 Em0 Ha. congruence.
  - split.
    2: { intros l x Hl0 Hx El. rewrite He in El by lia. case_decide.
         - injection El as <-. by apply available_spec in Hx as [? _].
         - by rewrite decide_False in El by lia. }
    intros x Hx. split; intros (l & Hl0 & El).
    + destruct (decide (l = 0)) as [->|D0]; [congruence|].
      destruct (decide (l = line)) as [->|D1].
      * exists 0. split; [done|]. rewrite He by lia. rewrite decide_False, decide_True by lia. congruence.
      * exists l. split; [done|]. rewrite He by lia. by rewrite !decide_False by lia.
    + rewrite He in El by done. case_decide as D1.
      * injection El as <-. by apply available_spec in Hx as [? _].
      * case_decide as D0; [injection El as <-; exists line; split; [lia|done]|by exists l].
Qed.

(** The loop over the masters: the buckets before [i] are served, the others
    are as they were. *)
Lemma quick_masters_spec b :
  table_shape (copy_count b) (bucket_count b) (table b) -> 1 <= copy_count b -> 0 <= bucket_count b ->
  (forall s, s ∈ available_server b -> 0 <= cnt (mtokens_count_in_node b) s) ->
  exists r b', quick_masters b = Ret (r, b') /\ quick_state b b'
    /\ match r with
       | Some v => v = false /\ exists idx, 0 <= idx < bucket_count b
                     /\ forall x, is_copy (table b) idx x -> ~ avail b x
       | None => forall idx, 0 <= idx < bucket_count b -> promoted b (table b) (table b') idx
       end.
Proof.
  intros Hsh Hcopy Hb Hc. unfold quick_masters. rewrite (sbind_run _ _ _ b b) by done.
  set (I := fun (i : Z) (b1 : builder X) => quick_state b b1
    /\ (forall j, 0 <= j < i -> promoted b (table b) (table b1) j)
    /\ (forall l j, i <= j -> 0 <= l -> entry (table b1) l j = entry (table b) l j)).
  edestruct (for_loop_rule I (fun v b1 => quick_state b b1 /\ v = false /\ exists idx, 0 <= idx < bucket_count b
      /\ forall x, is_copy (table b) idx x -> ~ avail b x) (Z.to_nat (bucket_count b)) 0) as (r & b' & E & Hr).
  3: { exists r, b'. split; [exact E|]. destruct r; [tauto|]. destruct Hr as (Hq & Hp & _). split; [done|].
       intros idx Hi. apply Hp. lia. }
  { split; [by constructor|]. split; [intros; lia|done]. }
  intros j b1 Hj (Hq & Hp & Hrest). pose proof Hq as [Hf Hs1 Hc1].
  destruct (fixed_fields _ _ Hf) as (Ea & Ec & Eb & _).
  destruct (entry_some _ _ _ Hs1 0 j) as [org Eorg]; [lia|lia|].
  rewrite (sbind_run _ _ _ _ _ (get_entry_run b1 0 j org Eorg)). cbv beta.
  rewrite (sbind_run _ _ _ b1 b1) by done. rewrite (quick_state_avail b b1 org Hq).
  pose proof Eorg as Eorg0. rewrite Hrest in Eorg0 by lia.
  destruct (is_node_availble b org) eqn:Eav.
  - exists None, b1. split; [done|]. split; [done|]. split; [|intros; apply Hrest; lia].
    intros i Hi. destruct (decide (i = j)) as [->|D]; [|apply Hp; lia].
    destruct (promoted_keep b (table b) j org Eorg0 Eav) as [(m & E1 & E2 & E3 & E4) [Hx _]]. split.
    + exists m. rewrite Hrest by lia. done.
    + split; [|intros l x Hl _ El; by rewrite Hrest in El by lia]. intros x _. unfold is_copy. split; intros (l & Hl & E0); exists l; (split; [done|]);
        [rewrite Hrest by lia|rewrite Hrest in E0 by lia]; done.
  - assert (is_node_availble b1 org = false) as Eav1 by by rewrite (quick_state_avail b b1).
    assert (table_shape (copy_count b1) (bucket_count b1) (table b1)) as Hs1' by by rewrite Ec, Eb.
    destruct (change_master_node_spec b1 j Hs1' ltac:(lia)) with (force := true)
      as [(l & node & org' & Hl & En & Eorg' & Hav & _ & E)|[E Hno]];
      [intros s; rewrite Ea; apply Hc1|lia| |].
    + rewrite (sbind_run _ _ _ _ _ E). cbv beta iota. rewrite Eorg in Eorg'. injection Eorg' as <-.
      exists None, (swapped b1 l j node org). split; [done|].
      pose proof (swapped_quick b b1 l j node org Hq Eav1 Hav) as Hq2.
      destruct (swapped_fields b1 l j node org) as (_ & F2 & _). rewrite Eav1 in F2.
      assert (is_Some (entry (table b1) 0 j)) as HsA by by eexists.
      assert (is_Some (entry (put (table b1) 0 j node) l j)) as HsB
        by (apply (entry_some (copy_count b) (bucket_count b)); [by apply put_shape|lia|lia]).
      assert (forall l' i, 0 <= l' -> 0 <= i -> i <> j ->
        entry (table (swapped b1 l j node org)) l' i = entry (table b1) l' i) as Hother.
      { intros l' i Hl' Hi' Hne. rewrite F2, (entry_put _ l j) by (done || lia).
        rewrite decide_False by (intros []; congruence). rewrite (entry_put _ 0 j) by (done || lia).
        by rewrite decide_False by (intros []; congruence). }
      split; [done|]. split.
      * intros i Hi. destruct (decide (i = j)) as [->|D].
        -- assert (promoted b (table b1) (table (swapped b1 l j node org)) j) as Hpr.
           { rewrite F2. apply (promoted_swap b _ (copy_count b) (bucket_count b) j l node org); try done; try lia.
             - by rewrite Eav.
             - by rewrite <- (quick_state_avail b b1). }
           destruct Hpr as [(m & E1 & E2 & (lm & Hlm & E3) & E4) [Hx Hslaves]]. split.
           ++ exists m. split; [done|]. split; [done|]. rewrite Hrest in E3 by lia. split; [by exists lm|].
              intros m0 Em0. rewrite <- (Hrest 0 j) in Em0 by lia. by apply E4.
           ++ split; [|intros l' x Hl' Hax El'; rewrite <- (Hrest l' j) by lia; by apply Hslaves].
              intros x Hax. rewrite <- Hx by done. unfold is_copy.
              split; intros (l' & Hl' & E0); exists l'; (split; [done|]);
                [rewrite Hrest by lia|rewrite Hrest in E0 by lia]; done.
        -- destruct (Hp i ltac:(lia)) as [(m & E1 & E2 & E3 & E4) [Hx Hslaves]]. split.
           ++ exists m. by rewrite Hother by lia.
           ++ split; [|intros l' x Hl' Hax El'; rewrite Hother in El' by lia; by apply Hslaves].
              intros x Hax. rewrite Hx by done. unfold is_copy.
              split; intros (l' & Hl' & E0); exists l'; (split; [done|]);
                [rewrite Hother by lia|rewrite Hother in E0 by lia]; done.
      * intros l' i Hi' Hl'. rewrite Hother by lia. apply Hrest; lia.
    + rewrite (sbind_run _ _ _ _ _ E). cbv beta iota. exists (Some false), b1. split; [done|].
      split; [done|]. split; [done|]. exists j. split; [lia|]. intros x (l & Hl & El) Hax.
      rewrite <- Hrest in El by lia. destruct (decide (l = 0)) as [->|D]; [congruence|].
      assert (l < copy_count b) as Hlt.
      { destruct Hs1 as [Hlen _]. unfold entry in El. destruct (table b1 !! Z.to_nat l) eqn:El'; [|done].
        apply lookup_lt_Some in El'. lia. }
      assert (is_node_availble b1 x = false) by (apply (Hno eq_refl l); [lia|done]).
      rewrite (quick_state_avail b b1 x Hq) in *. congruence.
Qed.
End quick.

Section quick_slaves.
Context {X : Type}.
Implicit Types b : builder X.

Definition cleaned b (x : server_id) : server_id := if is_node_availble b x then x else (0, 0).

(** [todo l j] tells which entries are still as they were. *)
Record swept b0 (todo : Z -> Z -> bool) b : Prop := {
  sw_fixed : fixed_part b = fixed_part b0;
  sw_shape : table_shape (copy_count b0) (bucket_count b0) (table b);
  sw_entry : forall l j, 0 <= l < copy_count b0 -> 0 <= j < bucket_count b0 ->
    entry (table b) l j = if todo l j then entry (table b0) l j else cleaned b0 <$> entry (table b0) l j
}.

Lemma swept_ext b0 todo todo' b :
  (forall l j, 0 <= l < copy_count b0 -> 0 <= j < bucket_count b0 -> todo l j = todo' l j) ->
  swept b0 todo b -> swept b0 todo' b.
Proof. intros Ht [H1 H2 H3]. constructor; [done|done|]. intros l j Hl Hj. rewrite <- Ht by done. by apply H3. Qed.

Lemma sweep_entry b0 todo b line idx :
  swept b0 todo b -> 0 <= line < copy_count b0 -> 0 <= idx < bucket_count b0 -> todo line idx = true ->
  exists b', (let* node := get_entry line idx in
              let* b := sget in
              let* _ := (if is_node_availble b node then sret tt else put_entry line idx (0, 0)) in
              sret None) b = Ret (None : option bool, b')
    /\ swept b0 (fun l j => todo l j && negb (bool_decide (l = line /\ j = idx))) b'.
Proof.
  intros [Hf Hs He] Hl Hi Ht. pose proof (He line idx Hl Hi) as Hx. rewrite Ht in Hx.
  destruct (entry_some _ _ _ Hs line idx Hl Hi) as [x Ex]. rewrite Ex in Hx.
  destruct (fixed_fields _ _ Hf) as (Ea & _).
  rewrite (sbind_run _ _ _ _ _ (get_entry_run b line idx x Ex)). cbv beta.
  rewrite (sbind_run _ _ _ b b) by done. rewrite (available_fixed b0 b x Ea).
  assert (forall v, v = cleaned b0 x -> forall b', fixed_part b' = fixed_part b ->
    table b' = put (table b) line idx v ->
    swept b0 (fun l j => todo l j && negb (bool_decide (l = line /\ j = idx))) b') as Hnew.
  { intros v -> b' Hf' Ht'. constructor; [congruence|rewrite Ht'; by apply put_shape|].
    intros l j Hl' Hj. rewrite Ht', (entry_put _ line idx) by (lia || by eexists).
    case_decide as D; [destruct D as [<- <-]; rewrite bool_decide_true, andb_false_r by done; by rewrite <- Hx|].
    rewrite bool_decide_false by (intros []; subst; tauto). rewrite andb_true_r. by apply He. }
  destruct (is_node_availble b0 x) eqn:Ea'.
  - exists b. split; [done|]. apply (Hnew x); [unfold cleaned; by rewrite Ea'|done|].
    unfold put. symmetry. apply list_eq. intros n. rewrite list_lookup_alter. case_decide as D; [subst n|done].
    unfold entry in Ex. destruct (table b !! Z.to_nat line) as [row|]; [|done]. simpl. by rewrite list_insert_id.
  - rewrite (sbind_run _ _ _ _ _ (put_entry_run b line idx (0, 0) x Ex)). eexists. split; [done|].
    apply (Hnew (0, 0)); [unfold cleaned; by rewrite Ea'|done|done].
Qed.

Lemma sweep_line b0 b line :
  swept b0 (fun l _ => bool_decide (~ (0 < l < line))) b -> 0 < line < copy_count b0 ->
  0 <= bucket_count b0 ->
  exists b', for_loop (Z.to_nat (bucket_count b0)) 0 (fun idx =>
      let* node := get_entry line idx in
      let* b := sget in
      let* _ := (if is_node_availble b node then sret tt else put_entry line idx (0, 0)) in
      sret None) b = Ret (None : option bool, b')
    /\ swept b0 (fun l _ => bool_decide (~ (0 < l < line + 1))) b'.
Proof.
  intros Hs Hl Hb.
  edestruct (for_loop_rule (R := bool)
    (fun i => swept b0 (fun l j => bool_decide (~ (0 < l < line \/ l = line /\ j < i)))) (fun _ _ => False)
    (Z.to_nat (bucket_count b0)) 0) as (r & b' & E & Hr).
  3: { destruct r; [done|]. exists b'. split; [exact E|]. eapply swept_ext; [|exact Hr]. simpl.
       intros l j Hl' Hj. apply bool_decide_ext. lia. }
  - eapply swept_ext; [|exact Hs]. intros l j Hl' Hj. apply bool_decide_ext. lia.
  - intros j b1 Hj Hs1. destruct (sweep_entry _ _ _ line j Hs1) as (b2 & E2 & Hs2); [lia|lia|apply bool_decide_true; lia|].
    exists None, b2. split; [exact E2|]. eapply swept_ext; [|exact Hs2]. intros l i Hl' Hi. simpl.
    apply eq_true_iff_eq. rewrite andb_true_iff, negb_true_iff, bool_decide_eq_false, !bool_decide_eq_true. lia.
Qed.

Lemma quick_slaves_spec b :
  table_shape (copy_count b) (bucket_count b) (table b) -> 1 <= copy_count b -> 0 <= bucket_count b ->
  exists b', quick_slaves b = Ret (None, b') /\ swept b (fun l _ => bool_decide (~ 0 < l)) b'.
Proof.
  intros Hsh Hcopy Hb. unfold quick_slaves. rewrite (sbind_run _ _ _ b b) by done.
  edestruct (for_loop_rule (R := bool)
    (fun line => swept b (fun l _ => bool_decide (~ (0 < l < line)))) (fun _ _ => False)
    (Z.to_nat (copy_count b - 1)) 1) as (r & b' & E & Hr).
  3: { destruct r; [done|]. exists b'. split; [exact E|]. eapply swept_ext; [|exact Hr]. simpl.
       intros l j Hl' Hj. apply bool_decide_ext. lia. }
  - constructor; [done|done|]. intros l j _ _. rewrite bool_decide_true by lia. done.
  - intros j b1 Hj Hs1. destruct (sweep_line _ _ j Hs1) as (b2 & E2 & Hs2); [lia|lia|].
    exists None, b2. by split.
Qed.

(** Bucket [idx] after the quick build: promoted, and every slave entry is an
    available copy or empty. *)
Definition quick_bucket b (t t' : hash_table) (idx : Z) : Prop :=
  promoted b t t' idx
  /\ forall line x, 0 < line < copy_count b -> entry t' line idx = Some x ->
       is_node_availble b x = true /\ entry t line idx = Some x \/ x = (0, 0).

Lemma build_quick_table_spec b :
  table_shape (copy_count b) (bucket_count b) (table b) -> 1 <= copy_count b -> 0 <= bucket_count b ->
  (forall s, s ∈ available_server b -> 0 <= cnt (mtokens_count_in_node b) s) ->
  exists r b', build_quick_table b = Ret (r, b') /\ fixed_part b' = fixed_part b
    /\ table_shape (copy_count b) (bucket_count b) (table b')
    /\ (r = true -> forall idx, 0 <= idx < bucket_count b -> quick_bucket b (table b) (table b') idx)
    /\ (r = false -> exists idx, 0 <= idx < bucket_count b
          /\ forall x, is_copy (table b) idx x -> is_node_availble b x <> true).
Proof.
  intros Hsh Hcopy Hb Hc. unfold build_quick_table.
  destruct (quick_masters_spec b Hsh Hcopy Hb Hc) as (r & b1 & E & Hq & Hr).
  rewrite (sbind_run _ _ _ _ _ E). cbv beta. destruct r as [v|].
  { destruct Hr as [-> Hr]. exists false, b1. split; [done|]. split; [apply Hq|]. by split; [apply Hq|]. }
  pose proof Hq as [Hf1 Hs1 _]. destruct (fixed_fields _ _ Hf1) as (Ea & Ec & Eb & _).
  destruct (quick_slaves_spec b1) as (b2 & E2 & [Hf2 Hs2 He2]); [by rewrite Ec, Eb|lia|lia|].
  rewrite (sbind_run _ _ _ _ _ E2). exists true, b2. split; [done|]. split; [congruence|].
  rewrite Ec, Eb in Hs2. split; [done|]. split; [|done].
  intros _ idx Hi. rewrite Ec, Eb in *.
  assert (forall x, is_node_availble b1 x = is_node_availble b x) as Hav by (intros; by apply quick_state_avail).
  assert (forall l j, entry (table b2) l j <> None -> 0 <= l -> l < copy_count b) as Hrange.
  { intros l j Hne Hl. destruct Hs2 as [Hlen _]. unfold entry in Hne.
    destruct (table b2 !! Z.to_nat l) eqn:El; [|done]. apply lookup_lt_Some in El. lia. }
  assert (forall l j, entry (table b1) l j <> None -> 0 <= l -> l < copy_count b) as Hrange1.
  { intros l j Hne Hl. destruct Hs1 as [Hlen _]. unfold entry in Hne.
    destruct (table b1 !! Z.to_nat l) eqn:El; [|done]. apply lookup_lt_Some in El. lia. }
  destruct (Hr idx Hi) as [(m & E1 & Ha & Hcopy1 & Hold) [Hx Hslaves]].
  assert (forall line x, 0 < line < copy_count b -> entry (table b2) line idx = Some x ->
    is_node_availble b x = true /\ entry (table b) line idx = Some x \/ x = (0, 0)) as Hs.
  { intros line x Hl El. rewrite He2 in El by lia. rewrite bool_decide_false in El by lia.
    destruct (entry (table b1) line idx) as [y|] eqn:Ey; [|done]. simpl in El. unfold cleaned in El. rewrite Hav in El.
    destruct (is_node_availble b y) eqn:Eav; injection El as <-; [left|by right].
    split; [done|]. by apply Hslaves; [lia|..]. }
  split; [split; [|split]|done].
  - exists m. rewrite He2 by lia. by rewrite bool_decide_true by lia.
  - intros x Hax. rewrite Hx by done. unfold is_copy. split; intros (l & Hl & El).
    + exists l. split; [done|]. assert (l < copy_count b) by (apply (Hrange1 l idx); [congruence|done]).
      rewrite He2, El by lia. case_bool_decide; [done|]. simpl. unfold cleaned. by rewrite Hav, Hax.
    + exists l. split; [done|]. assert (l < copy_count b) by (apply (Hrange l idx); [congruence|done]).
      rewrite He2 in El by lia. case_bool_decide; [done|].
      destruct (entry (table b1) l idx) as [y|]; [|done]. simpl in El. unfold cleaned in El. rewrite Hav in El.
      destruct (is_node_availble b y) eqn:Ey; [done|]. injection El as <-. unfold is_node_availble in Hax. done.
  - intros line x Hl Hax El.
    assert (line < copy_count b) by (apply (Hrange line idx); [congruence|lia]).
    destruct (Hs line x ltac:(lia) El) as [[_ ?]| ->]; [done|]. by apply available_spec in Hax as [? _].
Qed.
End quick_slaves.

(** ** The start of a build *)

Section start.
Context {X : Type} `{StrategyLaws X}.
Implicit Types b : builder X.

Lemma init_token_count_lookup available (s : server_id) :
  init_token_count available !! s = if decide (s ∈ available) then Some 0 else None.
Proof.
  unfold init_token_count. induction available as [|x l IH].
  { rewrite decide_False by apply not_elem_of_nil. done. }
  cbn [map list_to_map foldr fst snd].
  destruct (decide (x = s)) as [->|D].
  - rewrite lookup_insert_eq, decide_True by by left. done.
  - rewrite lookup_insert_ne by done. rewrite IH. apply decide_ext. rewrite elem_of_cons. naive_solver.
Qed.

Lemma update_node_count_lookup (node : server_id) (c : counts) (s : server_id) :
  (update_node_count node c).2 !! s =
  (fun n => if decide (node = s) then n + 1 else n) <$> c !! s.
Proof.
  unfold update_node_count. destruct (c !! node) as [n|] eqn:E; simpl.
  - destruct (decide (node = s)) as [<-|D]; [by rewrite lookup_insert_eq, E|].
    rewrite lookup_insert_ne by done. by destruct (c !! s).
  - destruct (c !! s) as [n|] eqn:Es; [|done]. simpl. rewrite decide_False; [done|]. congruence.
Qed.

Definition occurrences (s : server_id) (line : hash_line) : Z :=
  Z.of_nat (length (filter (fun x => x = s) line)).

Lemma occurrences_cons s x line :
  occurrences s (x :: line) = (if decide (x = s) then 1 else 0) + occurrences s line.
Proof. unfold occurrences. rewrite filter_cons. destruct (decide (x = s)); cbn [length]; lia. Qed.

Lemma count_line_spec line master tokens mtokens quick :
  let '(tokens', mtokens', quick') := count_line line master (tokens, mtokens, quick) in
  (forall s, is_Some (tokens !! s) -> is_Some (tokens' !! s))
  /\ (forall s, mtokens' !! s = (fun n => n + if master then occurrences s line else 0) <$> mtokens !! s)
  /\ (quick' = true <-> quick = true \/ master = true /\ exists x, x ∈ line /\ mtokens !! x = None).
Proof.
  revert tokens mtokens quick. induction line as [|x line IH]; intros tokens mtokens quick; cbn [count_line].
  - split; [done|]. split.
    + intros s. assert ((if master then occurrences s [] else 0) = 0) as -> by by destruct master.
      destruct (mtokens !! s) as [n|]; [|done]. simpl. by rewrite Z.add_0_r.
    + split; [by left|]. intros [?|(_ & x & ?%elem_of_nil & _)]; done.
  - assert (forall s, is_Some (tokens !! s) -> is_Some ((update_node_count x tokens).2 !! s)) as Ht.
    { intros s [n Hn]. rewrite update_node_count_lookup, Hn. by eexists. }
    destruct master.
    + destruct (update_node_count x mtokens) as [there mtokens1] eqn:Eu.
      specialize (IH (update_node_count x tokens).2 mtokens1 (quick || negb there)).
      destruct (count_line line true _) as [[tokens' mtokens'] quick'].
      destruct IH as (H1 & H2 & H3).
      assert (forall s, mtokens1 !! s = (fun n => if decide (x = s) then n + 1 else n) <$> mtokens !! s) as Hm1
        by (intros s; rewrite <- update_node_count_lookup, Eu; done).
      assert (there = true <-> mtokens !! x <> None) as Hthere.
      { unfold update_node_count in Eu. destruct (mtokens !! x); injection Eu as <- _; naive_solver. }
      split; [intros s Hs; apply H1, Ht, Hs|]. split.
      * intros s. rewrite H2, Hm1, occurrences_cons. destruct (mtokens !! s) as [n|]; [|done]. simpl.
        f_equal. case_decide; lia.
      * rewrite H3, orb_true_iff, negb_true_iff. setoid_rewrite Hm1. split.
        -- intros [[?|Hf]|(_ & y & Hy & En)]; [by left| |].
           ++ right. split; [done|]. exists x. split; [by left|]. destruct (mtokens !! x); [|done].
              exfalso. assert (there = true) by by apply Hthere. congruence.
           ++ right. split; [done|]. exists y. split; [by right|]. by destruct (mtokens !! y).
        -- intros [?|(_ & y & [->|Hy]%elem_of_cons & En)]; [by left; left| |].
           ++ left. right. destruct there; [|done]. exfalso. by apply Hthere.
           ++ right. split; [done|]. exists y. split; [done|]. by rewrite En.
    + specialize (IH (update_node_count x tokens).2 mtokens quick).
      destruct (count_line line false _) as [[tokens' mtokens'] quick']. destruct IH as (H1 & H2 & H3).
      split; [intros s Hs; apply H1, Ht, Hs|]. split; [exact H2|].
      rewrite H3. split; intros [?|[? _]]; try done; by left.
Qed.

Lemma count_slaves_spec width (t : hash_table) n tokens mtokens quick :
  0 < n -> Forall (fun line : hash_line => (width <= length line)%nat) t ->
  exists tokens', count_lines width t n (tokens, mtokens, quick) = Ret (tokens', mtokens, quick)
    /\ forall s, is_Some (tokens !! s) -> is_Some (tokens' !! s).
Proof.
  revert n tokens. induction t as [|line t IH]; intros n tokens Hn Hw; [by exists tokens|].
  apply list.Forall_cons in Hw as [Hl Hw]. cbn [count_lines]. rewrite decide_True by done.
  rewrite (proj2 (Z.eqb_neq n 0)) by lia.
  pose proof (count_line_spec (take width line) false tokens mtokens quick) as Hc.
  destruct (count_line _ false _) as [[tokens1 mtokens1] quick1]. destruct Hc as (H1 & H2 & H3).
  assert (mtokens1 = mtokens) as ->.
  { apply map_eq. intros s. rewrite H2. destruct (mtokens !! s); [|done]. simpl. by rewrite Z.add_0_r. }
  assert (quick1 = quick) as ->.
  { apply eq_true_iff_eq. rewrite H3. split; [intros [?|[? _]]; done|by left]. }
  destruct (IH (n + 1) tokens1 ltac:(lia) Hw) as (tokens' & E & Hd). exists tokens'.
  split; [done|]. intros s Hs. by apply Hd, H1.
Qed.

(** The state in which the strategy computes the shares. *)
Definition counted_state b b1 : Prop :=
  available_server b1 = available_server b /\ bucket_count b1 = bucket_count b
  /\ copy_count b1 = copy_count b /\ table b1 = table b /\ extra b1 = extra b
  /\ (forall s, s ∈ available_server b -> cnt (mtokens_count_in_node b1) s = masters (table b) s)
  /\ (forall s, s ∈ available_server b -> in_index (mcount_server b1) s /\ in_index (count_server b1) s)
  /\ dom (mtokens_count_in_node b1) = list_to_set (available_server b).

Definition master_lost b : Prop :=
  exists idx x, 0 <= idx < bucket_count b /\ entry (table b) 0 idx = Some x /\ x ∉ available_server b.

Lemma start_build_spec b :
  table_shape (copy_count b) (bucket_count b) (table b) -> 1 <= copy_count b -> 0 <= bucket_count b ->
  (forall s, s ∈ available_server b -> s.1 <> INVALID_FLAG) ->
  exists quick b1, counted_state b b1 /\ (quick = true <-> master_lost b)
    /\ (start_build b = (let! b2 := caculate_capable b1 in
          Ret (quick, set_scandidate_node (fun _ => init_candidate (server_capable b2) (count_server b2))
            (set_mcandidate_node (fun _ => init_candidate (master_server_capable b2) (mcount_server b2)) b2))))
    /\ forall b2 b', caculate_capable b1 = Ret b2 -> start_build b = Ret (quick, b') ->
         good b' /\ available_server b' = available_server b /\ bucket_count b' = bucket_count b
         /\ copy_count b' = copy_count b /\ table b' = table b /\ extra b' = extra b2
         /\ master_server_capable b' = master_server_capable b2.
Proof.
  intros Hsh Hcopy Hb Hids. pose proof Hsh as [Hlen Hw].
  destruct (table b) as [|line0 t] eqn:Et; [simpl in Hlen; lia|].
  apply list.Forall_cons in Hw as [Hl0 Hw].
  assert (take (Z.to_nat (bucket_count b)) line0 = line0) as Htake by (apply take_ge; lia).
  set (zero := init_token_count (available_server b)).
  pose proof (count_line_spec line0 true zero zero false) as Hc.
  destruct (count_line line0 true (zero, zero, false)) as [[tokens1 mtokens1] quick] eqn:Ec.
  destruct Hc as (H1 & H2 & H3).
  destruct (count_slaves_spec (Z.to_nat (bucket_count b)) t 1 tokens1 mtokens1 quick) as (tokens2 & E2 & Hd2).
  { lia. }
  { eapply list.Forall_impl; [exact Hw|]. simpl. intros. lia. }
  set (b0 := set_tokens_count_in_node (fun _ => tokens2) (set_mtokens_count_in_node (fun _ => mtokens1)
    (set_tokens_count_in_node_now (fun _ => zero) (set_max_count_now (fun _ => 0) b)))).
  assert (count_tokens b = Ret (quick, b0)) as E0.
  { unfold count_tokens. fold zero. rewrite Et. cbn [count_lines]. rewrite decide_True by lia.
    rewrite Htake. change (0 =? 0) with true. rewrite Ec. change (0 + 1) with 1. by rewrite E2. }
  set (b1 := set_mcount_server (fun _ => build_index (mtokens_count_in_node b0))
    (set_count_server (fun _ => build_index (tokens_count_in_node b0)) b0)).
  assert (forall s, s ∈ available_server b -> mtokens1 !! s = Some (masters (line0 :: t) s)) as Hm1.
  { intros s Hs. rewrite H2. unfold zero. rewrite init_token_count_lookup, decide_True by done. done. }
  assert (counted_state b b1) as Hcs.
  { unfold b1, b0. split; [done|]. split; [done|]. split; [done|]. split; [done|]. split; [done|]. split.
    - intros s Hs. unfold cnt. cbn. by rewrite (Hm1 s Hs), Et.
    - split.
      + intros s Hs. cbn. split; apply build_index_covers; [by rewrite (Hm1 s Hs)|].
        apply Hd2, H1. unfold zero. rewrite init_token_count_lookup, decide_True by done. by eexists.
      + cbn. apply set_eq. intros s. rewrite elem_of_dom, elem_of_list_to_set, H2. unfold zero.
        rewrite init_token_count_lookup. case_decide; simpl; [by split|split; [by intros []|done]]. }
  exists quick, b1. split; [done|]. split; [|split].
  - rewrite H3. unfold master_lost. rewrite Et. split.
    + intros [?|(_ & x & Hx & En)]; [done|]. apply list_elem_of_lookup in Hx as [n Hn].
      pose proof (lookup_lt_Some _ _ _ Hn). exists (Z.of_nat n), x. split; [lia|].
      split; [unfold entry; simpl; by rewrite Nat2Z.id|]. unfold zero in En.
      rewrite init_token_count_lookup in En. by case_decide.
    + intros (idx & x & Hi & Ex & Hx). right. split; [done|]. exists x. unfold entry in Ex. simpl in Ex.
      split; [by eapply list_elem_of_lookup_2|]. unfold zero. by rewrite init_token_count_lookup, decide_False.
  - unfold start_build. rewrite (sbind_run _ _ _ _ _ E0). cbv beta.
    rewrite (sbind_run _ _ b0 tt b1) by done. unfold sbind at 1.
    by destruct (caculate_capable b1).
  - intros b2 b' E3. unfold start_build. rewrite (sbind_run _ _ _ _ _ E0). cbv beta.
    rewrite (sbind_run _ _ b0 tt b1) by done. unfold sbind at 1. rewrite E3. cbn [obind]. intros [= <-].
    destruct (law_capable _ _ E3) as (Ea & Eb & Ecc & Ett & Em & Emc & Esc).
    destruct Hcs as (Ca & Cb & Cc & Ct & _ & Cm & Ci & _).
    split; [|cbn; repeat split; congruence].
    constructor; cbn; rewrite ?Ea, ?Eb, ?Ecc, ?Ett, ?Ca, ?Cb, ?Cc, ?Ct.
    + by rewrite Et.
    + done.
    + intros s Hs. rewrite Em. by apply Cm.
    + intros s Hs. apply init_candidate_covers. rewrite Emc. by apply Ci.
    + intros s Hs. apply init_candidate_covers. rewrite Esc. by apply Ci.
Qed.

(** ** The whole build *)

(** What a full build does to the copies of a bucket: nothing, or it changes
    the master, or it puts a slave on a server that had none. *)
Definition column_moved (old new : list server_id) : Prop :=
  new = old \/ new !! 0%nat <> old !! 0%nat
  \/ exists m x, (1 <= m)%nat /\ new !! m = Some x /\ forall m', (1 <= m')%nat -> old !! m' <> Some x.

Lemma column_moved_trans (l : nat) (old mid new : list server_id) :
  column_kept old mid -> new !! 0%nat = mid !! 0%nat -> column_stable l mid new -> column_moved old new.
Proof.
  intros [->|Hne] E0 Hst; [|right; left; congruence].
  destruct Hst as [->|(m & x & Hm & Hx)]; [by left|right; right]. exists m, x. split; [lia|done].
Qed.

(** The result of a full build: every bucket has its copies on different
    available servers, spread as the strategy wants it, and no server is master
    of more buckets than its share. *)
Definition rebuilt b : Prop := all_done b /\ masters_settled b.

Lemma no_master_left_fixed b b' : fixed_part b' = fixed_part b -> no_master_left b' -> no_master_left b.
Proof. intros Hf (b1 & idx & e & Hg & Hf1 & Hr). exists b1, idx, e. split; [done|]. split; [congruence|done]. Qed.

Lemma no_slave_left_fixed b b' : fixed_part b' = fixed_part b -> no_slave_left b' -> no_slave_left b.
Proof.
  intros Hf (b1 & line & idx & e & Hg & Hf1 & Hr). exists b1, line, idx, e. split; [done|]. split; [congruence|done].
Qed.

Lemma passes_spec b :
  good b -> 1 <= copy_count b -> 0 <= bucket_count b ->
  exists r b', (let* r := (if decide (0 < length (table b))%nat then master_pass else sret None) in
      match r with
      | Some v => sret v
      | None =>
          let* r := (if decide (1 < length (table b))%nat then slave_pass else sret None) in
          sret (default BUILD_OK r)
      end) b = Ret (r, b')
    /\ (r = BUILD_OK /\ good b' /\ fixed_part b' = fixed_part b
        /\ (forall j, 0 <= j < bucket_count b -> column_moved (column (table b) j) (column (table b') j))
        /\ rebuilt b'
        \/ r = BUILD_ERROR /\ (no_master_left b \/ exists b1, fixed_part b1 = fixed_part b /\ no_slave_left b1)).
Proof.
  intros Hg Hcopy Hb. destruct (g_shape _ Hg) as [Hlen _]. rewrite decide_True by lia.
  destruct (master_pass_spec b Hg Hcopy Hb) as (r & b1 & E & Hg1 & Hf1 & Hr).
  rewrite (sbind_run _ _ _ _ _ E). cbv beta. destruct r as [v|].
  { destruct Hr as [-> Hno]. exists BUILD_ERROR, b1. split; [done|]. right. split; [done|by left]. }
  destruct (fixed_fields _ _ Hf1) as (Ea & Ec & Eb & _). destruct Hr as [Hr Hkept].
  destruct (decide (1 < length (table b))%nat) as [Hl|Hl].
  - destruct (slave_pass_spec b1 Hg1 Hr ltac:(lia) ltac:(lia)) as (r & b2 & E2 & Hr2).
    rewrite (sbind_run _ _ _ _ _ E2). cbv beta. destruct r as [v|]; simpl.
    + destruct Hr2 as [-> Hno]. exists BUILD_ERROR, b2. split; [done|]. right. split; [done|]. right. by exists b1.
    + destruct Hr2 as (Hg2 & Hf2 & Hst & Hd & Hm). exists BUILD_OK, b2. split; [done|]. left. split; [done|].
      split; [done|]. split; [congruence|]. split; [|done]. intros j Hj.
      destruct (Hst j ltac:(lia)) as [Hm0 Hs]. eapply column_moved_trans; [by apply Hkept| |exact Hs].
      destruct (fixed_fields _ _ Hf2) as (_ & Ec2 & Eb2 & _). change 0%nat with (Z.to_nat 0).
      rewrite (column_lookup _ _ _ (g_shape _ Hg2)), (column_lookup _ _ _ (g_shape _ Hg1)) by lia.
      unfold entry. change (Z.to_nat 0) with 0%nat. by rewrite Hm0.
  - rewrite (sbind_run _ _ b1 None b1) by done. simpl. exists BUILD_OK, b1. split; [done|]. left.
    split; [done|]. split; [done|]. split; [done|]. split.
    { intros j Hj. destruct (Hkept j Hj) as [->|Hne]; [by left|right; by left]. }
    split; [|done]. intros j Hj.
    pose proof (column_length _ _ _ (g_shape _ Hg1) j Hj) as Hcl.
    destruct Hr as [Hthere _]. destruct (Hthere j Hj) as (x & E0 & Hx).
    apply (settled_done b1 _ x); [|done|].
    + change 0%nat with (Z.to_nat 0). by rewrite (column_lookup _ _ _ (g_shape _ Hg1)) by lia.
    + replace (length (column (table b1) j)) with 1%nat by lia. apply settled_one.
Qed.
End start.

(** ** The laws hold for the two strategies *)

Section laws.
Context {X : Type}.
Implicit Types b : builder X.

Lemma load_ok_spec b nm mc node line level in_use :
  load_ok b nm mc node line level in_use = NODE_OK ->
  is_node_availble b node = true
  /\ (line = 0 -> cnt (mtokens_count_in_node b) node < cnt (master_server_capable b) node + Z.b2z in_use).
Proof.
  unfold load_ok. destruct (is_node_availble b node); [|done]. simpl. intros Hl. split; [done|]. intros ->.
  simpl in Hl. destruct (Z.leb_spec (cnt (master_server_capable b) node + Z.b2z in_use)
    (cnt (mtokens_count_in_node b) node)); [done|lia].
Qed.

Lemma load_ok_master b nm mc node level in_use :
  is_node_availble b node = true ->
  cnt (mtokens_count_in_node b) node < cnt (master_server_capable b) node + Z.b2z in_use ->
  load_ok b nm mc node 0 level in_use = NODE_OK.
Proof.
  intros Ha Hlt. unfold load_ok. rewrite Ha. simpl.
  destruct (Z.leb_spec (cnt (master_server_capable b) node + Z.b2z in_use) (cnt (mtokens_count_in_node b) node));
    [lia|done].
Qed.

Lemma load_ok_force b nm mc node line :
  is_node_availble b node = true -> line <> 0 -> load_ok b nm mc node line CONSIDER_FORCE false = NODE_OK.
Proof. intros Ha Hl. unfold load_ok. rewrite Ha. simpl. destruct (Z.eqb_spec line 0); done. Qed.

Section copies.
Context b (node : server_id) (line idx level : Z).
Hypothesis Hshape : table_shape (copy_count b) (bucket_count b) (table b).
Hypothesis Hidx : 0 <= idx < bucket_count b.

Lemma other_copies1_spec n i :
  0 <= i -> i + Z.of_nat n <= copy_count b ->
  exists r, other_copies1 b node line idx level n i = Ret r
    /\ (r = NODE_OK -> forall j e, i <= j < i + Z.of_nat n -> j <> line ->
          entry (table b) j idx = Some e -> e.1 <> node.1)
    /\ (CONSIDER_BASE <= level ->
        (forall j e, i <= j < i + Z.of_nat n -> j <> line -> entry (table b) j idx = Some e -> e.1 <> node.1) ->
        r = NODE_OK).
Proof.
  revert i. induction n as [|n IH]; intros i Hi Hn; cbn [other_copies1].
  { exists NODE_OK. split; [done|]. split; [intros; lia|done]. }
  destruct (IH (i + 1)) as (r & Er & Hr & Hr'); [lia|lia|].
  destruct (Z.eqb_spec i line) as [->|Hne].
  - exists r. split; [done|]. split.
    + intros Hok j e Hj Hjl. apply Hr; [done|lia|done].
    + intros Hl Hall. apply Hr'; [done|]. intros j e Hj. apply Hall. lia.
  - destruct (entry_some _ _ _ Hshape i idx) as [e Ee]; [lia|done|]. rewrite Ee.
    destruct (Z.eqb_spec e.1 node.1) as [E1|E1].
    { exists SAME_NODE. split; [done|]. split; [done|]. intros _ Hall. exfalso. by apply (Hall i e); [lia|..]. }
    destruct ((level <? CONSIDER_BASE) && (e.2 =? node.2)) eqn:Ep.
    { exists SAME_POS. split; [done|]. split; [done|]. intros Hl. apply andb_true_iff in Ep as [Ep%Z.ltb_lt _]. lia. }
    exists r. split; [done|]. split.
    + intros Hok j e' Hj Hjl Ee'. destruct (decide (j = i)) as [->|D]; [congruence|].
      apply (Hr Hok j e'); [lia|done|done].
    + intros Hl Hall. apply Hr'; [done|]. intros j e' Hj. apply Hall. lia.
Qed.

Lemma other_copies2_spec n i limit :
  0 <= i -> i + Z.of_nat n <= copy_count b ->
  exists r, other_copies2 b node line idx n i limit = Ret r
    /\ (forall limit', r = Some limit' ->
          (forall j e, i <= j < i + Z.of_nat n -> j <> line ->
             entry (table b) j idx = Some e -> e.1 <> node.1)
          /\ forall p, p ∈ limit' -> p ∈ limit \/ exists j e, i <= j < i + Z.of_nat n /\ j <> line
               /\ entry (table b) j idx = Some e /\ e.2 = p).
Proof.
  revert i limit. induction n as [|n IH]; intros i limit Hi Hn; cbn [other_copies2].
  { exists (Some limit). split; [done|]. intros limit' [= <-]. split; [intros; lia|by left]. }
  destruct (Z.eqb_spec i line) as [->|Hne].
  - destruct (IH (line + 1) limit) as (r & Er & Hr); [lia|lia|]. exists r. split; [done|].
    intros limit' ->. destruct (Hr limit' eq_refl) as [H1 H2]. split.
    + intros j e Hj Hjl. apply H1; [lia|done].
    + intros p Hp. destruct (H2 p Hp) as [|(j & e & Hj & Hr')]; [by left|right]. exists j, e. split; [lia|done].
  - destruct (entry_some _ _ _ Hshape i idx) as [e Ee]; [lia|done|]. rewrite Ee.
    destruct (Z.eqb_spec e.1 node.1) as [E1|E1]; [by exists None|].
    destruct (IH (i + 1) ({[e.2]} ∪ limit)) as (r & Er & Hr); [lia|lia|]. exists r. split; [done|].
    intros limit' ->. destruct (Hr limit' eq_refl) as [H1 H2]. split.
    + intros j e' Hj Hjl Ee'. destruct (decide (j = i)) as [->|D]; [congruence|]. apply (H1 j e'); [lia|done|done].
    + intros p Hp. destruct (H2 p Hp) as [Hu|(j & e' & Hj & Hr')].
      * apply elem_of_union in Hu as [->%elem_of_singleton|Hu]; [|by left]. right. exists i, e.
        split; [lia|done].
      * right. exists j, e'. split; [lia|done].
Qed.

(** What a lookup in the column is. *)
Lemma column_entry i e :
  column (table b) idx !! i = Some e ->
  entry (table b) (Z.of_nat i) idx = Some e /\ 0 <= Z.of_nat i < 0 + Z.of_nat (Z.to_nat (copy_count b)).
Proof.
  intros E. pose proof (lookup_lt_Some _ _ _ E). pose proof (column_length _ _ _ Hshape idx Hidx).
  rewrite <- (column_lookup _ _ _ Hshape) by lia. rewrite Nat2Z.id. split; [done|lia].
Qed.
End copies.
End laws.

Lemma caculate_capable1_frame b b' :
  caculate_capable1 b = Ret b' ->
  available_server b' = available_server b /\ bucket_count b' = bucket_count b
  /\ copy_count b' = copy_count b /\ table b' = table b
  /\ mtokens_count_in_node b' = mtokens_count_in_node b
  /\ mcount_server b' = mcount_server b /\ count_server b' = count_server b.
Proof. unfold caculate_capable1. intros E. by outinv. Qed.

Lemma caculate_capable2_frame b b' :
  caculate_capable2 b = Ret b' ->
  available_server b' = available_server b /\ bucket_count b' = bucket_count b
  /\ copy_count b' = copy_count b /\ table b' = table b
  /\ mtokens_count_in_node b' = mtokens_count_in_node b
  /\ mcount_server b' = mcount_server b /\ count_server b' = count_server b.
Proof.
  unfold caculate_capable2. cbv zeta. intros E. outinv.
  destruct x as [[mmin mmax_count] mmin_count]. outinv. destruct x as [[mmmin mmmax_count] mmmin_count].
  outinv. destruct x as [[omin omax_count] ?]. outinv. destruct x as [[ommin ommax_count] ?]. by outinv.
Qed.

Lemma node_OK1_inv b node line idx level in_use r :
  is_this_node_OK1 b node line idx level in_use = Ret r ->
  (load_ok b (tokens_per_node_min (extra b)) (tokens_per_node_max_count (extra b)) node line level in_use = NODE_OK
   /\ ((line = 0 /\ level = CONSIDER_BASE /\ r = NODE_OK)
       \/ other_copies1 b node line idx level (Z.to_nat (copy_count b)) 0 = Ret r))
  \/ r <> NODE_OK.
Proof.
  unfold is_this_node_OK1. set (l := load_ok _ _ _ _ _ _ _). destruct (Z.eqb_spec l NODE_OK) as [E|E]; simpl.
  - destruct (Z.eqb_spec line 0), (Z.eqb_spec level CONSIDER_BASE); simpl; intros E';
      left; (split; [done|]); (try by right); left; split; [done|]. split; [done|]. by injection E'.
  - intros [= <-]. by right.
Qed.

#[export] Program Instance load_first_laws : StrategyLaws load_first := {
  spread _ _ := True
}.
Next Obligation.
  intros b node line idx level in_use Hs Hi. change (exists r, is_this_node_OK1 b node line idx level in_use = Ret r).
  unfold is_this_node_OK1. destruct (negb _); [by eexists|]. destruct (_ && _); [by eexists|].
  assert (0 <= copy_count b) as Hc by (destruct Hs as [<- _]; lia).
  destruct (other_copies1_spec b node line idx level Hs Hi (Z.to_nat (copy_count b)) 0) as (r & Er & _);
    [lia|lia|by exists r].
Qed.
Next Obligation.
  intros b node line idx level in_use E. by destruct (node_OK1_inv _ _ _ _ _ _ _ E) as [[[]%load_ok_spec _]|].
Qed.
Next Obligation.
  intros b node idx level in_use E. destruct (node_OK1_inv _ _ _ _ _ _ _ E) as [[[_ Hl]%load_ok_spec _]|]; [by apply Hl|done].
Qed.
Next Obligation.
  intros b node idx in_use Ha Hlt. change (is_this_node_OK1 b node 0 idx CONSIDER_BASE in_use = Ret NODE_OK).
  unfold is_this_node_OK1. by rewrite load_ok_master.
Qed.
Next Obligation.
  intros b node line idx level in_use Hs Hi Hl E. split; [|done].
  destruct (node_OK1_inv _ _ _ _ _ _ _ E) as [[_ [(E0 & _)|Eo]]|]; [lia| |done].
  destruct (other_copies1_spec b node line idx level Hs Hi (Z.to_nat (copy_count b)) 0) as (r & Er & Hr & _); [lia|lia|].
  rewrite Eo in Er. injection Er as <-. intros i e Hne Ee.
  destruct (column_entry b idx Hs Hi i e Ee) as [Ee' Hrange]. apply (Hr eq_refl (Z.of_nat i) e); [lia|lia|done].
Qed.
Next Obligation. intros b b'. apply caculate_capable1_frame. Qed.

Lemma node_OK2_inv b node line idx level in_use r :
  is_this_node_OK2 b node line idx level in_use = Ret r -> r = NODE_OK ->
  (exists nm mc, load_ok b nm mc node line level in_use = NODE_OK)
  /\ ((line = 0 /\ level = CONSIDER_BASE)
      \/ exists limit, other_copies2 b node line idx (Z.to_nat (copy_count b)) 0 {[node.2]} = Ret (Some limit)
           /\ (build_stat_normal (extra b) = true -> line <> 0 -> 2 <= Z.of_nat (size limit))).
Proof.
  unfold is_this_node_OK2.
  set (nm := if in_max_room _ _ then _ else _). set (mc := if in_max_room _ _ then _ else _).
  set (l := load_ok _ _ _ _ _ _ _). intros E ->. destruct (Z.eqb_spec l NODE_OK) as [El|El]; simpl in E.
  2: { injection E as E. done. }
  split; [by exists nm, mc|].
  destruct ((line =? 0) && (level =? CONSIDER_BASE)) eqn:Eb.
  { left. apply andb_true_iff in Eb as [?%Z.eqb_eq ?%Z.eqb_eq]. done. }
  right. destruct (other_copies2 _ _ _ _ _ _ _) as [[limit|]| | | |]; simpl in E; try done.
  exists limit. split; [done|]. intros Hn Hl. rewrite Hn, (proj2 (Z.eqb_neq _ _) Hl) in E. simpl in E.
  destruct (Z.ltb_spec (Z.of_nat (size limit)) 2); [done|lia].
Qed.

#[export] Program Instance rack_first_laws : StrategyLaws rack_first := {
  spread x col := build_stat_normal x = true -> exists e e', e ∈ col /\ e' ∈ col /\ e.2 <> e'.2
}.
Next Obligation.
  intros b node line idx level in_use Hs Hi. change (exists r, is_this_node_OK2 b node line idx level in_use = Ret r).
  unfold is_this_node_OK2. destruct (negb _); [by eexists|]. destruct (_ && _); [by eexists|].
  assert (0 <= copy_count b) as Hc by (destruct Hs as [<- _]; lia).
  destruct (other_copies2_spec b node line idx Hs Hi (Z.to_nat (copy_count b)) 0 {[node.2]}) as (r & -> & _); [lia|lia|].
  destruct r; simpl; [destruct (_ && _)|]; by eexists.
Qed.
Next Obligation.
  intros b node line idx level in_use E. destruct (node_OK2_inv _ _ _ _ _ _ _ E eq_refl) as [(nm & mc & Hl) _].
  by apply load_ok_spec in Hl as [? _].
Qed.
Next Obligation.
  intros b node idx level in_use E. destruct (node_OK2_inv _ _ _ _ _ _ _ E eq_refl) as [(nm & mc & Hl) _].
  apply load_ok_spec in Hl as [_ Hl]. by apply Hl.
Qed.
Next Obligation.
  intros b node idx in_use Ha Hlt. change (is_this_node_OK2 b node 0 idx CONSIDER_BASE in_use = Ret NODE_OK).
  unfold is_this_node_OK2. by rewrite load_ok_master.
Qed.
Next Obligation.
  intros b node line idx level in_use Hs Hi Hl E.
  destruct (node_OK2_inv _ _ _ _ _ _ _ E eq_refl) as [_ [(E0 & _)|(limit & Eo & Hsize)]]; [lia|].
  destruct (other_copies2_spec b node line idx Hs Hi (Z.to_nat (copy_count b)) 0 {[node.2]}) as (r & Er & Hr);
    [lia|lia|].
  rewrite Eo in Er. injection Er as <-. destruct (Hr limit eq_refl) as [Hsep Hpos]. split.
  - intros i e Hne Ee. destruct (column_entry b idx Hs Hi i e Ee) as [Ee' Hrange].
    apply (Hsep (Z.of_nat i) e); [lia|lia|done].
  - simpl. intros Hn. specialize (Hsize Hn ltac:(lia)). set (col := column (table b) idx).
    pose proof (column_length _ _ _ Hs idx Hi) as Hlen. fold col in Hlen.
    assert (node ∈ <[Z.to_nat line := node]> col) as Hnode
      by (apply list_elem_of_lookup; exists (Z.to_nat line); apply list_lookup_insert_eq; lia).
    destruct (decide (limit ⊆ {[node.2]})) as [Hsub|Hsub].
    { apply subseteq_size in Hsub. rewrite size_singleton in Hsub. lia. }
    assert (exists p, p ∈ limit /\ p <> node.2) as (p & Hp & Hpn).
    { destruct (decide (set_Exists (fun p => p <> node.2) limit)) as [(p & Hp & Hne)|Hno]; [by exists p|].
      exfalso. apply Hsub. intros p Hp. apply elem_of_singleton.
      destruct (decide (p = node.2)) as [|D]; [done|]. exfalso. apply Hno. by exists p. }
    destruct (Hpos p Hp) as [Hin%elem_of_singleton|(j & e & Hj & Hjl & Ee & <-)]; [done|].
    exists node, e. split; [done|]. split; [|congruence].
    apply list_elem_of_lookup. exists (Z.to_nat j). rewrite list_lookup_insert_ne by lia.
    unfold col. rewrite (column_lookup _ _ _ Hs) by lia. done.
Qed.
Next Obligation. intros b b'. apply caculate_capable2_frame. Qed.

(** ** The shares of table_builder1 *)

Definition total_of (f : server_id -> Z) (l : server_list) : Z := foldr Z.add 0 (map f l).

Lemma total_ext f g l : (forall s, s ∈ l -> f s = g s) -> total_of f l = total_of g l.
Proof.
  induction l as [|x l IH]; intros He; [done|]. unfold total_of in *. simpl.
  rewrite He by by left. rewrite IH; [done|]. intros s Hs. apply He. by right.
Qed.

Lemma total_le f g l : (forall s, s ∈ l -> f s <= g s) -> total_of f l <= total_of g l.
Proof.
  induction l as [|x l IH]; intros He; [done|]. unfold total_of in *. simpl.
  specialize (He x ltac:(by left)) as Hx. specialize (IH ltac:(intros; apply He; by right)). lia.
Qed.

Lemma total_eq f g l :
  (forall s, s ∈ l -> f s <= g s) -> total_of f l = total_of g l -> forall s, s ∈ l -> f s = g s.
Proof.
  induction l as [|x l IH]; intros He Ht s Hs; [by apply elem_of_nil in Hs|].
  pose proof (He x ltac:(by left)) as Hx.
  assert (forall y, y ∈ l -> f y <= g y) as Hle by (intros; apply He; by right).
  pose proof (total_le f g l Hle) as Hl. unfold total_of in *. simpl in Ht.
  apply elem_of_cons in Hs as [->|Hs]; [lia|]. apply IH; [done|lia|done].
Qed.

(** The masters of the available servers are the entries that are available. *)
Lemma total_occurrences (l : server_list) (line : hash_line) :
  NoDup l -> total_of (fun s => occurrences s line) l = Z.of_nat (length (filter (fun x => x ∈ l) line)).
Proof.
  intros Hn. induction line as [|x line IH].
  { clear. unfold total_of, occurrences. simpl. induction l as [|y l IH]; [done|]. exact IH. }
  assert (total_of (fun s => occurrences s (x :: line)) l =
          total_of (fun s => if decide (x = s) then 1 else 0) l + total_of (fun s => occurrences s line) l) as ->.
  { clear. induction l as [|y l IH]; [done|]. unfold total_of in *. simpl. rewrite IH, occurrences_cons. lia. }
  assert (total_of (fun s => if decide (x = s) then 1 else 0) l = if decide (x ∈ l) then 1 else 0) as ->.
  { clear IH. induction l as [|y l IH]; [by rewrite decide_False by apply not_elem_of_nil|].
    apply list.NoDup_cons in Hn as [Hy Hn]. specialize (IH Hn). unfold total_of in *. cbn [map foldr].
    rewrite IH. destruct (decide (x = y)) as [->|D].
    - rewrite (decide_False (P := y ∈ l)), decide_True by (done || by left). lia.
    - rewrite Z.add_0_l. apply decide_ext. rewrite elem_of_cons. naive_solver. }
  rewrite IH, filter_cons. destruct (decide (x ∈ l)); cbn [length]; lia.
Qed.

Section shares.
Context (last : counts) (pre_min min min_count max_count : Z).

Lemma shares_spec (servers : server_list) i max_s capable :
  NoDup servers -> max_s <= max_count -> i - max_s <= min_count ->
  i + Z.of_nat (length servers) = min_count + max_count ->
  let c := shares servers last pre_min i max_s min min_count max_count capable in
  (forall s, s ∈ servers -> cnt c s = min \/ cnt c s = min + 1)
  /\ (forall s, s ∉ servers -> cnt c s = cnt capable s)
  /\ total_of (cnt c) servers = min * Z.of_nat (length servers) + (max_count - max_s).
Proof.
  revert i max_s capable. induction servers as [|x servers IH]; intros i max_s capable Hn Hmax Hmin Hlen.
  { simpl in *. split; [by intros s ?%elem_of_nil|]. split; [done|]. unfold total_of. simpl. lia. }
  apply list.NoDup_cons in Hn as [Hx Hn]. cbn [shares length] in *.
  destruct (share (cnt last x) pre_min i max_s min min_count max_count) as [v max_s'] eqn:Es.
  assert ((v = min /\ max_s' = max_s /\ i - max_s < min_count)
          \/ (v = min + 1 /\ max_s' = max_s + 1 /\ max_s < max_count)) as Hv.
  { unfold share in Es. destruct (cnt last x <=? pre_min).
    - destruct (Z.ltb_spec (i - max_s) min_count); injection Es as <- <-; [by left|right]. lia.
    - destruct (Z.ltb_spec max_s max_count); injection Es as <- <-; [by right|left]. lia. }
  destruct (IH (i + 1) max_s' (<[x := v]> capable) Hn) as (H1 & H2 & H3); [lia|lia|lia|].
  set (c := shares servers last pre_min (i + 1) max_s' min min_count max_count (<[x := v]> capable)) in *.
  assert (cnt c x = v) as Hcx by (rewrite H2 by done; by rewrite cnt_insert, decide_True).
  split; [|split].
  - intros s [->|Hs]%elem_of_cons; [rewrite Hcx; lia|by apply H1].
  - intros s Hs. apply not_elem_of_cons in Hs as [Hne Hs]. rewrite H2 by done.
    rewrite cnt_insert, decide_False; [done|]. congruence.
  - unfold total_of in *. simpl. rewrite Hcx, H3. destruct Hv as [(-> & -> & _)|(-> & -> & _)]; lia.
Qed.
End shares.

(** Sharing [total] buckets among the servers: everybody gets the quotient, or
    one more, and everything is shared out. *)
Lemma shares_exact (servers : server_list) last pre_min total :
  NoDup servers -> servers <> [] -> 0 <= total < 2 ^ 31 ->
  let S := Z.of_nat (length servers) in
  let min := s32 (total / S) in
  let max_count := s32 (u32 (total - u32 (min * S))) in
  let c := shares servers last pre_min 0 0 min (S - max_count) max_count ∅ in
  (forall s, s ∈ servers -> cnt c s = total / S \/ cnt c s = total / S + 1)
  /\ total_of (cnt c) servers = total.
Proof.
  intros Hn Hne Ht S min max_count c.
  assert (0 < S) as HS by (unfold S; destruct servers; [done|simpl; lia]).
  assert (0 <= total / S <= total) as Hq by (split; [apply Z.div_pos; lia|apply Z.div_le_upper_bound; nia]).
  pose proof (Z.div_mod total S ltac:(lia)) as Hdm. pose proof (Z.mod_pos_bound total S HS) as Hmod.
  assert (min = total / S) as Emin by (apply swrap_id; unfold in_s; lia).
  assert (max_count = total - min * S) as Emax.
  { unfold max_count. rewrite Emin, (wrap_id 32 (total / S * S)) by (unfold in_u; lia).
    rewrite (wrap_id 32) by (unfold in_u; lia). apply swrap_id; unfold in_s; lia. }
  destruct (shares_spec last pre_min min (S - max_count) max_count servers 0 0 ∅ Hn) as (H1 & _ & H3);
    [lia|lia|unfold S in *; lia|].
  fold c in H1, H3. rewrite Emin in *. split; [done|]. rewrite H3. fold S. lia.
Qed.

(** ** table_builder1 always finds a server *)

Section load_first.
Implicit Types b : builder load_first.

Lemma masters_occurrences b line0 s : table b !! 0%nat = Some line0 -> masters (table b) s = occurrences s line0.
Proof. intros E. unfold masters. by rewrite E. Qed.

(** A bucket without master leaves some server below its share. *)
Lemma master_left b :
  NoDup (available_server b) ->
  total_of (cnt (master_server_capable b)) (available_server b) = bucket_count b ->
  ~ no_master_left b.
Proof.
  intros Hn Htot (b1 & idx & e & Hg & Hf & Hi & Ee & Hfull).
  destruct (fixed_fields _ _ Hf) as (Ea & Ec & Eb & _ & Em & _).
  unfold entry in Ee. change (Z.to_nat 0) with 0%nat in Ee.
  destruct (table b1 !! 0%nat) as [line0|] eqn:E0; [|done].
  pose proof (total_le _ _ _ Hfull) as Hle. rewrite Ea, Em, Htot in Hle.
  rewrite (total_ext _ (fun s => occurrences s line0)) in Hle by (intros; by apply masters_occurrences).
  rewrite total_occurrences in Hle by done.
  assert (length (filter (fun x => x ∈ available_server b) line0) < length line0)%nat as Hlt.
  { apply (length_filter_lt _ _ (INVALID_FLAG, e)); [by eapply list_elem_of_lookup_2|].
    rewrite <- Ea. intros Hin. by apply (g_ids _ Hg) in Hin. }
  destruct (g_shape _ Hg) as [_ Hw]. rewrite list.Forall_lookup in Hw. specialize (Hw _ _ E0). simpl in Hw. lia.
Qed.

(** Among as many servers as copies there is one without a copy. *)
Lemma pigeonhole (servers : server_list) (col : list server_id) line :
  NoDup (map fst servers) -> (line < length col)%nat -> (length col <= length servers)%nat ->
  exists s, s ∈ servers /\ forall i e, i <> line -> col !! i = Some e -> e.1 <> s.1.
Proof.
  intros Hn Hl Hle. set (others := map fst (take line col ++ drop (S line) col)).
  destruct (decide (Exists (fun s : server_id => s.1 ∉ others) servers)) as [Hex|Hno].
  - apply list.Exists_exists in Hex as (s & Hs & Hnot). exists s. split; [done|].
    intros i e Hne Ee E1. apply Hnot. unfold others. apply list_elem_of_fmap. exists e.
    split; [done|]. apply elem_of_app. destruct (decide (i < line)%nat) as [Hlt|Hge].
    + left. apply list_elem_of_lookup. exists i. by rewrite lookup_take_lt.
    + right. apply list_elem_of_lookup. exists (i - S line)%nat. rewrite lookup_drop.
      by replace (S line + (i - S line))%nat with i by lia.
  - exfalso. assert (length (map fst servers) <= length others)%nat as Hlen.
    { apply submseteq_length, NoDup_submseteq; [done|]. intros a Ha. apply list_elem_of_fmap in Ha as (s & -> & Hs).
      destruct (decide (s.1 ∈ others)) as [|D]; [done|]. exfalso. apply Hno, list.Exists_exists. by exists s. }
    unfold others in Hlen. rewrite !length_map, length_app, length_take, length_drop in Hlen. lia.
Qed.

Lemma slave_left b :
  NoDup (map fst (available_server b)) -> copy_count b <= Z.of_nat (length (available_server b)) ->
  ~ no_slave_left b.
Proof.
  intros Hn Hle (b1 & line & idx & e & Hg & Hf & Hi & Hl & Ee & Hfull).
  destruct (fixed_fields _ _ Hf) as (Ea & Ec & Eb & _).
  pose proof (g_shape _ Hg) as Hsh. pose proof (column_length _ _ _ Hsh idx Hi) as Hlen.
  destruct (pigeonhole (available_server b1) (column (table b1) idx) (Z.to_nat line)) as (s & Hs & Hsep);
    [by rewrite Ea|lia|rewrite Ea; lia|].
  apply (Hfull s Hs). unfold fits. change (is_this_node_OK1 b1 s line idx CONSIDER_FORCE false = Ret NODE_OK).
  unfold is_this_node_OK1. rewrite load_ok_force by (lia || by apply good_available). simpl.
  rewrite andb_false_r.
  destruct (other_copies1_spec b1 s line idx CONSIDER_FORCE Hsh Hi (Z.to_nat (copy_count b1)) 0)
    as (r & -> & _ & Hr); [lia|lia|]. rewrite Hr; [done|unfold CONSIDER_BASE, CONSIDER_FORCE; lia|].
  intros j e' Hj Hjl Ee'. apply (Hsep (Z.to_nat j)); [lia|]. by rewrite (column_lookup _ _ _ Hsh) by lia.
Qed.

(** The shares of masters after [caculate_capable]. *)
Lemma caculate_capable1_run b :
  available_server b <> [] -> exists b', caculate_capable1 b = Ret b'.
Proof.
  intros Hne. unfold caculate_capable1. destruct (Z.eqb_spec (Z.of_nat (length (available_server b))) 0) as [E|E].
  - destruct (available_server b); [done|simpl in E; lia].
  - by eexists.
Qed.

Lemma caculate_capable1_masters b b' :
  caculate_capable1 b = Ret b' -> NoDup (available_server b) -> available_server b <> [] ->
  0 <= bucket_count b < 2 ^ 31 ->
  let S := Z.of_nat (length (available_server b)) in
  (forall s, s ∈ available_server b ->
     cnt (master_server_capable b') s = bucket_count b / S
     \/ cnt (master_server_capable b') s = bucket_count b / S + 1)
  /\ total_of (cnt (master_server_capable b')) (available_server b) = bucket_count b.
Proof.
  intros E Hn Hne Hb. unfold caculate_capable1 in E. outinv. cbn [master_server_capable set_server_capable set_master_server_capable].
  by apply shares_exact.
Qed.
End load_first.
