(* ===== verification/TableTheorems.v ===== *)
(** * The theorems about routing tables

    What [rebuild_table], [build_quick_table] and the conversions to and from
    the flat table guarantee, and what the two strategies add. *)

From Stdlib Require Import SpecFloat.
From S2P Require Import Prelude TableBuilder TableStrategies TableRebuild.

Lemma quick_bucket_ext {X} (b b' : builder X) t t' idx :
  available_server b' = available_server b -> copy_count b' = copy_count b ->
  quick_bucket b t t' idx -> quick_bucket b' t t' idx.
Proof.
  intros Ea Ec. assert (forall x, is_node_availble b' x = is_node_availble b x) as He
    by (intros; by apply available_fixed).
  unfold quick_bucket, promoted. rewrite Ec. intros [[(m & H1 & H2 & H3 & H4) [Hx Hl]] Hs].
  split; [split; [|split]|].
  - exists m. rewrite He. split; [done|]. split; [done|]. split; [done|]. intros m0. rewrite He. apply H4.
  - intros x. rewrite He. apply Hx.
  - intros line x. rewrite He. apply Hl.
  - intros line x. rewrite He. apply Hs.
Qed.

(** A build that returns, for any strategy. *)
Section rebuild.
Context {X : Type} `{StrategyLaws X} (b : builder X) (no_quick_table : bool).
Hypothesis Hshape : table_shape (copy_count b) (bucket_count b) (table b).
Hypothesis Hcopy : 1 <= copy_count b.
Hypothesis Hbuckets : 0 <= bucket_count b.
Hypothesis Hids : forall s, s ∈ available_server b -> s.1 <> INVALID_FLAG.

(** The state after the counting, from which the build goes on. *)
Lemma rebuild_started b2 b1 quick :
  counted_state b b1 -> caculate_capable b1 = Ret b2 ->
  start_build b = (let! b2 := caculate_capable b1 in
      Ret (quick, set_scandidate_node (fun _ => init_candidate (server_capable b2) (count_server b2))
        (set_mcandidate_node (fun _ => init_candidate (master_server_capable b2) (mcount_server b2)) b2))) ->
  exists b', start_build b = Ret (quick, b')
    /\ rebuild_table no_quick_table b =
       (if quick && negb no_quick_table then
          let* ok := build_quick_table in sret (if ok : bool then BUILD_QUICK else BUILD_ERROR)
        else
          let* b := sget in
          if Z.of_nat (length (available_server b)) <? copy_count b then sret BUILD_ERROR
          else
            let* r := (if decide (0 < length (table b))%nat then master_pass else sret None) in
            match r with
            | Some v => sret v
            | None =>
                let* r := (if decide (1 < length (table b))%nat then slave_pass else sret None) in
                sret (default BUILD_OK r)
            end) b'.
Proof.
  intros _ E Hrun. rewrite E in Hrun. cbn [obind] in Hrun. eexists. split; [exact Hrun|].
  unfold rebuild_table. by rewrite (sbind_run _ _ _ _ _ Hrun).
Qed.

Lemma rebuild_quick b0 :
  good b0 -> available_server b0 = available_server b -> bucket_count b0 = bucket_count b ->
  copy_count b0 = copy_count b -> table b0 = table b ->
  exists r (b' : builder X), (let* ok := build_quick_table in sret (if ok : bool then BUILD_QUICK else BUILD_ERROR)) b0 = Ret (r, b')
    /\ (r = BUILD_ERROR /\ (exists idx, 0 <= idx < bucket_count b
           /\ forall x, is_copy (table b) idx x -> is_node_availble b x <> true)
        \/ r = BUILD_QUICK /\ available_server b' = available_server b
           /\ forall idx, 0 <= idx < bucket_count b -> quick_bucket b (table b) (table b') idx).
Proof.
  intros Hg Ea Eb Ec Et.
  destruct (build_quick_table_spec b0 (g_shape _ Hg)) as (ok & b' & E & Hf & _ & Hok & Hno); [lia|lia| |].
  { intros s Hs. rewrite (g_masters _ Hg s Hs). unfold masters. lia. }
  destruct (fixed_fields _ _ Hf) as (Ea' & Ec' & Eb' & _).
  rewrite (sbind_run _ _ _ _ _ E). cbv beta. destruct ok.
  - exists BUILD_QUICK, b'. split; [done|]. right. split; [done|]. split; [congruence|].
    intros idx Hi. apply (quick_bucket_ext b0 b); [done|done|]. rewrite <- Et. apply Hok; [done|lia].
  - exists BUILD_ERROR, b'. split; [done|]. left. split; [done|].
    destruct (Hno eq_refl) as (idx & Hi & Hx). exists idx. split; [lia|]. intros x. rewrite <- Et.
    rewrite <- (available_fixed b b0 x Ea). apply Hx.
Qed.
End rebuild.

Lemma caculate_capable2_normal b b' :
  caculate_capable2 b = Ret b' -> build_stat_normal (extra b') = true.
Proof.
  unfold caculate_capable2. cbv zeta.
  destruct (build_stat_normal (if copy_count b <=? 1 then _ else _)) eqn:En; [|done].
  cbn [negb andb]. intros E. outinv. destruct x as [[mmin mmax_count] mmin_count]. outinv.
  destruct x as [[mmmin mmmax_count] mmmin_count]. outinv. destruct x as [[omin omax_count] ?].
  outinv. destruct x as [[ommin ommax_count] ?]. by outinv.
Qed.

(** ** Flat tables *)

Lemma take_drop_width (p : list Z) (w n : nat) :
  length p = (w * S n)%nat -> length (take w p) = w /\ length (drop w p) = (w * n)%nat.
Proof. intros E. rewrite length_take, length_drop. nia. Qed.

Lemma load_lines_spec n w mask (p : list Z) :
  length p = (w * n)%nat ->
  exists t, load_lines n w mask p = Ret t /\ length t = n
    /\ Forall (fun line : hash_line => length line = w) t
    /\ write_hash_table w t = Ret p
    /\ forall l j x, (t !! l) ≫= (.!! j) = Some x -> x.2 = u32 (Z.land x.1 mask).
Proof.
  revert p. induction n as [|n IH]; intros p Hp.
  - rewrite Nat.mul_0_r in Hp. destruct p; [|done]. exists []. repeat split; try done.
  - destruct (take_drop_width p w n Hp) as [Htake Hdrop].
    destruct (IH (drop w p) Hdrop) as (t & E & Hlen & Hw & Hwr & Hpos).
    exists (load_line mask (take w p) :: t).
    assert (length (load_line mask (take w p)) = w) as Hl by (unfold load_line; by rewrite length_map).
    split; [cbn [load_lines]; rewrite decide_True by nia; by rewrite E|].
    split; [simpl; by rewrite Hlen|]. split; [by constructor|]. split.
    + cbn [write_hash_table]. rewrite decide_True by lia. rewrite Hwr. cbn [obind].
      rewrite take_ge by lia. unfold load_line. rewrite map_map, map_id. by rewrite take_drop.
    + intros [|l] j x Ex; [|by apply (Hpos l j)]. simpl in Ex. unfold load_line in Ex.
      rewrite list_lookup_fmap in Ex. destruct (take w p !! j); [|done]. injection Ex as <-. done.
Qed.

(** *** A builder for the examples: buckets 0 to 2 with two copies each; server
    3, master of bucket 1, is gone. *)
Definition demo_builder {X} (servers : server_list) (x : X) : builder X :=
  mk_builder ∅ 0 ∅ [] ∅ [] [] [] servers ∅ ∅ 65535 3 2
    [[(1, 1); (3, 3); (2, 2)]; [(2, 2); (1, 1); (3, 3)]] x.
Definition no_load : load_first := mk_load_first 0 0 0 0 0 0.
Definition demo_rack : rack_first := mk_rack_first true (f32_of_Z 1) 1 1 0 0 0 0 0 0.

Lemma demo_shape {X} servers (x : X) :
  table_shape (copy_count (demo_builder servers x)) (bucket_count (demo_builder servers x))
    (table (demo_builder servers x)).
Proof. split; [done|]. repeat constructor. Qed.

(** ** Properties *)

(** C24: a rebuilt table is safe, whatever the strategy.  If [rebuild_table]
    returns BUILD_OK, then the servers and the shape are as before, every
    bucket has all its copies on different available servers, spread as the
    strategy wants it, and no server is master of more buckets than its share.
    BUILD_QUICK is returned only when a master was lost and quick tables are
    allowed; then every bucket has an available master among its old copies and
    loses none of its available copies. *)
Theorem rebuilt_table_is_safe {X} `{StrategyLaws X} (b : builder X) no_quick_table r b' :
  table_shape (copy_count b) (bucket_count b) (table b) -> 1 <= copy_count b -> 0 <= bucket_count b ->
  (forall s, s ∈ available_server b -> s.1 <> INVALID_FLAG) ->
  rebuild_table no_quick_table b = Ret (r, b') ->
  (r = BUILD_OK ->
     (no_quick_table = true \/ ~ master_lost b) /\ available_server b' = available_server b
     /\ copy_count b' = copy_count b /\ bucket_count b' = bucket_count b
     /\ (forall idx, 0 <= idx < bucket_count b ->
           Z.of_nat (length (column (table b') idx)) = copy_count b
           /\ (forall x, x ∈ column (table b') idx -> x ∈ available_server b)
           /\ NoDup (map fst (column (table b') idx))
           /\ (1 < copy_count b -> spread (extra b') (column (table b') idx)))
     /\ forall s, s ∈ available_server b ->
          masters (table b') s <= Z.max 0 (cnt (master_server_capable b') s))
  /\ (r = BUILD_QUICK ->
        no_quick_table = false /\ master_lost b
        /\ forall idx, 0 <= idx < bucket_count b -> quick_bucket b (table b) (table b') idx).
Proof.
  intros Hsh Hcopy Hb Hids Hrun.
  destruct (start_build_spec b Hsh Hcopy Hb Hids) as (quick & b1 & Hcs & Hlost & Hst & Hgood).
  destruct (caculate_capable b1) as [b2| | | |] eqn:Ecap;
    try (exfalso; unfold rebuild_table in Hrun; unfold sbind at 1 in Hrun; rewrite Hst in Hrun; done).
  rewrite <- Ecap in Hst.
  destruct (rebuild_started b no_quick_table b2 b1 quick Hcs Ecap Hst) as (b0 & Hs0 & Hr0).
  destruct (Hgood b2 b0 eq_refl Hs0) as (Hg & Ea & Eb & Ec & Et & _). rewrite Hr0 in Hrun.
  destruct (quick && negb no_quick_table) eqn:Eq.
  - apply andb_true_iff in Eq as [-> Enq%negb_true_iff].
    destruct (rebuild_quick b Hcopy Hb b0 Hg Ea Eb Ec Et) as (r0 & b3 & E & Hr).
    rewrite E in Hrun. injection Hrun as -> ->. destruct Hr as [[-> _]|(-> & _ & Hq)]; [done|].
    split; [done|]. intros _. split; [done|]. split; [by apply Hlost|done].
  - rewrite (sbind_run _ _ b0 b0 b0) in Hrun by done.
    destruct (Z.of_nat (length (available_server b0)) <? copy_count b0); [by injection Hrun as <- _|].
    destruct (passes_spec b0 Hg) as (r0 & b3 & E & Hr); [lia|lia|]. rewrite E in Hrun. injection Hrun as -> ->.
    destruct Hr as [(-> & Hg3 & Hf & _ & Hd & Hthere & Hload)|[-> _]]; [|done]. split; [|done]. intros _.
    destruct (fixed_fields _ _ Hf) as (Fa & Fc & Fb & _). rewrite Ea in Fa. rewrite Ec in Fc. rewrite Eb in Fb.
    split. { destruct quick; simpl in Eq; [left; by apply negb_false_iff|right; by intros ?%Hlost]. }
    split; [done|]. split; [done|]. split; [done|]. split; [|rewrite <- Fa; exact Hload].
    intros idx Hi. rewrite <- Fb in Hi. destruct (Hd idx Hi) as (Hav & Hn & Hsp). rewrite Fa in Hav.
    pose proof (column_length _ _ _ (g_shape _ Hg3) idx Hi) as Hlen. rewrite Fc in Hlen.
    split; [done|]. split; [done|]. split; [done|]. intros Hc. apply Hsp. lia.
Qed.

(** Server 3 is gone from [demo_builder]. *)
Lemma rebuilt_table_is_safe_witness :
  exists b', rebuild_table true (demo_builder [(1, 1); (2, 2)] no_load) = Ret (BUILD_OK, b')
    /\ (true = true \/ ~ master_lost (demo_builder [(1, 1); (2, 2)] no_load))
    /\ available_server b' = [(1, 1); (2, 2)] /\ copy_count b' = 2 /\ bucket_count b' = 3
    /\ (forall idx, 0 <= idx < 3 ->
          Z.of_nat (length (column (table b') idx)) = 2
          /\ (forall x, x ∈ column (table b') idx -> x ∈ [(1, 1); (2, 2)])
          /\ NoDup (map fst (column (table b') idx))
          /\ (1 < 2 -> spread (extra b') (column (table b') idx)))
    /\ forall s, s ∈ [(1, 1); (2, 2)] ->
         masters (table b') s <= Z.max 0 (cnt (master_server_capable b') s).
Proof.
  eexists. split; [vm_compute; reflexivity|].
  refine (proj1 (rebuilt_table_is_safe (demo_builder [(1, 1); (2, 2)] no_load) true _ _
    (demo_shape _ _) _ _ _ _) eq_refl); [done|done| |vm_compute; reflexivity].
  intros s Hs. apply elem_of_cons in Hs as [->|Hs]; [done|]. apply list_elem_of_singleton in Hs as ->. done.
Defined.

Lemma filter_all {A} (P : A -> Prop) `{forall x, Decision (P x)} (l : list A) :
  (forall x, x ∈ l -> P x) -> filter P l = l.
Proof.
  induction l as [|x l IH]; intros Hall; [done|]. rewrite filter_cons, decide_True by (apply Hall; by left).
  f_equal. apply IH. intros y Hy. apply Hall. by right.
Qed.

(** The masters of a table in which every bucket has an available one *)
Lemma masters_total {X} (b : builder X) :
  NoDup (available_server b) -> table_shape (copy_count b) (bucket_count b) (table b) ->
  1 <= copy_count b -> 0 <= bucket_count b -> masters_settled b ->
  total_of (masters (table b)) (available_server b) = bucket_count b.
Proof.
  intros Hn Hsh Hcopy Hb [Hthere _]. destruct Hsh as [Hlen Hw].
  destruct (table b) as [|line0 t] eqn:Et; [simpl in Hlen; lia|].
  apply list.Forall_cons in Hw as [Hl0 _].
  rewrite (total_ext _ (fun s => occurrences s line0)) by done.
  rewrite total_occurrences by done. rewrite filter_all; [lia|].
  intros x [j Ex]%list_elem_of_lookup. pose proof (lookup_lt_Some _ _ _ Ex).
  destruct (Hthere (Z.of_nat j)) as (y & Ey & Hy); [lia|]. unfold entry in Ey. simpl in Ey.
  rewrite Nat2Z.id in Ey. by rewrite Ex in Ey; injection Ey as <-.
Qed.

(** Load-first building *)
Lemma load_first_builds (b : builder load_first) no_quick_table :
  table_shape (copy_count b) (bucket_count b) (table b) ->
  1 <= copy_count b <= Z.of_nat (length (available_server b)) -> 0 <= bucket_count b < 2 ^ 31 ->
  (forall s, s ∈ available_server b -> s.1 <> INVALID_FLAG) -> NoDup (map fst (available_server b)) ->
  no_quick_table = true \/ ~ master_lost b ->
  let average := bucket_count b / Z.of_nat (length (available_server b)) in
  exists b', rebuild_table no_quick_table b = Ret (BUILD_OK, b')
    /\ table_shape (copy_count b) (bucket_count b) (table b')
    /\ (forall j, 0 <= j < bucket_count b ->
          column_moved (column (table b) j) (column (table b') j)
          /\ (forall x, x ∈ column (table b') j -> x ∈ available_server b) /\ NoDup (map fst (column (table b') j)))
    /\ forall s, s ∈ available_server b ->
         masters (table b') s = average \/ masters (table b') s = average + 1.
Proof.
  intros Hsh [Hcopy Hle] Hb Hids Hnd Hquick. pose proof (NoDup_fmap_1 _ _ Hnd) as Hn.
  assert (available_server b <> []) as Hne by (destruct (available_server b); [simpl in Hle; lia|done]).
  destruct (start_build_spec b Hsh Hcopy ltac:(lia) Hids) as (quick & b1 & Hcs & Hlost & Hst & Hgood).
  pose proof Hcs as (Ca & Cb & _).
  destruct (caculate_capable1_run b1) as [b2 Ecap]; [by rewrite Ca|].
  pose proof (Ecap : caculate_capable b1 = Ret b2) as Ecap'.
  destruct (rebuild_started b no_quick_table b2 b1 quick Hcs Ecap' Hst) as (b0 & Hs0 & ->).
  destruct (Hgood b2 b0 Ecap' Hs0) as (Hg & Ea & Eb & Ec & Et & _ & Em).
  destruct (caculate_capable1_masters b1 b2 Ecap) as [Hshare Htot]; [by rewrite Ca|by rewrite Ca|lia|].
  rewrite Ca, Cb in Hshare, Htot. rewrite <- Em in Hshare, Htot.
  assert (quick && negb no_quick_table = false) as ->.
  { destruct Hquick as [->|Hno]; [apply andb_false_r|]. destruct quick; [|done]. by destruct Hno; apply Hlost. }
  rewrite (sbind_run _ _ b0 b0 b0) by done. destruct (Z.ltb_spec (Z.of_nat (length (available_server b0))) (copy_count b0)).
  { rewrite Ea in *. lia. }
  destruct (passes_spec b0 Hg) as (r & b3 & -> & [(-> & Hg3 & Hf & Hmv & Hd & Hm)|(-> & [Hno|(b4 & Hf & Hno)])]); [lia|lia|..].
  - exists b3. split; [done|]. destruct (fixed_fields _ _ Hf) as (Fa & Fc & Fb & _ & Fm & _).
    rewrite Ea in Fa. rewrite Ec in Fc. rewrite Eb in Fb.
    split; [by rewrite <- Fc, <- Fb; apply (g_shape _ Hg3)|]. split.
    { intros j Hj. split; [rewrite <- Et; apply Hmv; lia|].
      destruct (Hd j) as (Hav & Hdn & _); [lia|]. by rewrite Fa in Hav. }
    intros s Hs.
    assert (masters (table b3) s = cnt (master_server_capable b0) s) as ->; [|by apply Hshare].
    apply (total_eq _ _ (available_server b)); [|rewrite Htot, <- Fa, masters_total|done].
    + intros s' Hs'. destruct Hm as [_ Hm]. specialize (Hm s'). rewrite Fa, Fm in Hm. specialize (Hm Hs').
      destruct (Hshare s' Hs') as [E|E]; pose proof (Z.div_pos (bucket_count b) (Z.of_nat (length (available_server b)))); lia.
    + lia.
    + by rewrite Fa.
    + apply (g_shape _ Hg3).
    + lia.
    + lia.
    + done.
  - destruct (master_left b0); [by rewrite Ea|by rewrite Ea, Eb|done].
  - destruct (fixed_fields _ _ Hf) as (Fa & Fc & _). rewrite Ea in Fa.
    destruct (slave_left b4); [by rewrite Fa|rewrite Fc, Fa; lia|done].
Qed.

(** C25: load-first building always succeeds and balances.  With at least as
    many servers as copies and no quick table to build, [rebuild_table] of
    [table_builder1] returns BUILD_OK, and every server is then master of the
    average number of buckets, rounded down or up. *)
Theorem table_builder1_balances (b : builder load_first) no_quick_table :
  table_shape (copy_count b) (bucket_count b) (table b) ->
  1 <= copy_count b <= Z.of_nat (length (available_server b)) -> 0 <= bucket_count b < 2 ^ 31 ->
  (forall s, s ∈ available_server b -> s.1 <> INVALID_FLAG) -> NoDup (map fst (available_server b)) ->
  no_quick_table = true \/ ~ master_lost b ->
  let average := bucket_count b / Z.of_nat (length (available_server b)) in
  exists b', rebuild_table no_quick_table b = Ret (BUILD_OK, b')
    /\ forall s, s ∈ available_server b ->
         masters (table b') s = average \/ masters (table b') s = average + 1.
Proof.
  intros Hsh Hc Hb Hids Hnd Hquick average.
  destruct (load_first_builds b no_quick_table Hsh Hc Hb Hids Hnd Hquick) as (b' & E & _ & _ & Hm).
  by exists b'.
Qed.

Lemma table_builder1_balances_witness :
  exists b', rebuild_table true (demo_builder [(1, 1); (2, 2)] no_load) = Ret (BUILD_OK, b')
    /\ forall s, s ∈ [(1, 1); (2, 2)] -> masters (table b') s = 1 \/ masters (table b') s = 1 + 1.
Proof.
  apply (table_builder1_balances (demo_builder [(1, 1); (2, 2)] no_load) true (demo_shape _ _));
    [done|done| |cbn; repeat constructor; set_solver|by left].
  intros s Hs. apply elem_of_cons in Hs as [->|Hs]; [done|]. apply list_elem_of_singleton in Hs as ->. done.
Defined.

(** the quick table.  [build_quick_table] succeeds exactly when every
    bucket has a copy on an available server.  Every bucket then has an available
    master, its old one if that is still there and otherwise one of its copies;
    it has the available copies it had and no others, the slaves in the places
    they had, and the places of the lost ones are empty. *)
Theorem quick_table_keeps_copies {X} (b : builder X) :
  table_shape (copy_count b) (bucket_count b) (table b) -> 1 <= copy_count b -> 0 <= bucket_count b ->
  (forall s, s ∈ available_server b -> 0 <= cnt (mtokens_count_in_node b) s) ->
  exists r b', build_quick_table b = Ret (r, b') /\ available_server b' = available_server b
    /\ (r = true <-> forall idx, 0 <= idx < bucket_count b ->
                       exists x, is_copy (table b) idx x /\ is_node_availble b x = true)
    /\ (r = true -> forall idx, 0 <= idx < bucket_count b ->
          (exists m, entry (table b') 0 idx = Some m /\ is_node_availble b m = true
             /\ forall m0, entry (table b) 0 idx = Some m0 -> is_node_availble b m0 = true -> m = m0)
          /\ (forall x, is_node_availble b x = true -> is_copy (table b) idx x <-> is_copy (table b') idx x)
          /\ forall line x, 0 < line < copy_count b -> entry (table b') line idx = Some x ->
               is_node_availble b x = true /\ entry (table b) line idx = Some x \/ x = (0, 0)).
Proof.
  intros Hsh Hcopy Hb Hc.
  destruct (build_quick_table_spec b Hsh Hcopy Hb Hc) as (r & b' & E & Hf & _ & Hok & Hno).
  destruct (fixed_fields _ _ Hf) as (Fa & _). exists r, b'. split; [done|]. split; [done|]. split.
  - split.
    + intros -> idx Hi. destruct (Hok eq_refl idx Hi) as [[(m & _ & Hm & Hcp & _) _] _]. by exists m.
    + intros Hall. destruct r; [done|]. destruct (Hno eq_refl) as (idx & Hi & Hx).
      destruct (Hall idx Hi) as (x & Hcp & Hav). by destruct (Hx x Hcp).
  - intros Hr idx Hi. destruct (Hok Hr idx Hi) as [[(m & Em & Hm & _ & Hold) [Hcp _]] Hs].
    split; [by exists m|]. by split.
Qed.

Lemma quick_table_keeps_copies_witness :
  exists b', build_quick_table (demo_builder [(1, 1); (2, 2)] no_load) = Ret (true, b')
    /\ entry (table b') 0 1 = Some (1, 1) /\ is_copy (table b') 2 (2, 2).
Proof.
  set (b := demo_builder [(1, 1); (2, 2)] no_load).
  destruct (quick_table_keeps_copies b) as (r & b' & E & _ & Hr & Hq);
    [apply demo_shape|done|done|by intros|].
  assert (exists b1, build_quick_table b = Ret (true, b1) /\ entry (table b1) 0 1 = Some (1, 1))
    as (b1 & E1 & E2) by (eexists; split; vm_compute; reflexivity).
  rewrite E in E1. injection E1 as -> ->. exists b1. split; [done|]. split; [done|].
  apply (proj1 (proj2 (Hq eq_refl 2 ltac:(vm_compute; done))) (2, 2)); [done|]. exists 0. by split.
Defined.

(** a table survives the trip to shared memory.  [load_hash_table] reads
    any array of [copy_count * bucket_count] ids into a table of that shape, in
    which the position of every server is its id under the mask, and
    [write_hash_table] gives the same array back; a shorter array is overrun. *)
Theorem hash_table_roundtrip {X} (b : builder X) (p : list Z) :
  0 <= copy_count b -> 0 <= bucket_count b ->
  Z.of_nat (length p) = copy_count b * bucket_count b ->
  exists b', load_hash_table p b = Ret (tt, b')
    /\ table_shape (copy_count b) (bucket_count b) (table b')
    /\ (forall line idx x, entry (table b') line idx = Some x -> x.2 = u32 (Z.land x.1 (pos_mask b)))
    /\ write_hash_table (Z.to_nat (bucket_count b)) (table b') = Ret p.
Proof.
  intros Hc Hb Hp.
  destruct (load_lines_spec (Z.to_nat (copy_count b)) (Z.to_nat (bucket_count b)) (pos_mask b) p)
    as (t & E & Hlen & Hw & Hwr & Hpos); [nia|].
  exists (set_table (fun _ => t) b). unfold load_hash_table. rewrite E. split; [done|].
  split; [|split; [|done]].
  - split; [simpl; lia|]. eapply list.Forall_impl; [exact Hw|]. simpl. lia.
  - intros line idx x. unfold entry. simpl. apply Hpos.
Qed.

Lemma hash_table_roundtrip_witness :
  let b := set_table (fun _ => []) (demo_builder [] no_load) in
  exists b', load_hash_table [1; 3; 2; 65538; 1; 3] b = Ret (tt, b')
    /\ entry (table b') 1 0 = Some (65538, 2)
    /\ write_hash_table 3 (table b') = Ret [1; 3; 2; 65538; 1; 3].
Proof.
  intros b. destruct (hash_table_roundtrip b [1; 3; 2; 65538; 1; 3]) as (b' & E & _ & _ & Hw); [done..|].
  exists b'. split; [done|]. split; [|exact Hw].
  vm_compute in E. injection E as <-. vm_compute. reflexivity.
Defined.

(** C26: rack-first building keeps copies apart.  When [rebuild_table] of
    [table_builder2] returns BUILD_OK for more than one copy, every bucket has
    copies in at least two racks. *)
Theorem table_builder2_survives_a_rack (b b' : builder rack_first) no_quick_table :
  table_shape (copy_count b) (bucket_count b) (table b) -> 1 < copy_count b -> 0 <= bucket_count b ->
  (forall s, s ∈ available_server b -> s.1 <> INVALID_FLAG) ->
  rebuild_table2 no_quick_table b = Ret (BUILD_OK, b') ->
  forall idx, 0 <= idx < bucket_count b ->
    exists e e', e ∈ column (table b') idx /\ e' ∈ column (table b') idx
      /\ e ∈ available_server b /\ e' ∈ available_server b /\ e.2 <> e'.2.
Proof.
  intros Hsh Hcopy Hb Hids Hrun idx Hi. unfold rebuild_table2 in Hrun.
  rewrite (sbind_run _ _ b b b) in Hrun by done. destruct (build_stat_normal (extra b)) eqn:En; [|done].
  destruct (start_build_spec b Hsh ltac:(lia) Hb Hids) as (quick & b1 & Hcs & Hlost & Hst & Hgood).
  destruct (caculate_capable b1) as [b2| | | |] eqn:Ecap;
    try (exfalso; unfold rebuild_table in Hrun; unfold sbind at 1 in Hrun; rewrite Hst in Hrun; done).
  rewrite <- Ecap in Hst.
  destruct (rebuild_started b no_quick_table b2 b1 quick Hcs Ecap Hst) as (b0 & Hs0 & Hr0).
  destruct (Hgood b2 b0 eq_refl Hs0) as (Hg & Ea & Eb & Ec & Et & Ex & _). rewrite Hr0 in Hrun.
  assert (build_stat_normal (extra b0) = true) as Hnormal.
  { rewrite Ex. change (caculate_capable2 b1 = Ret b2) in Ecap. by apply caculate_capable2_normal in Ecap. }
  destruct (quick && negb no_quick_table) eqn:Eq.
  { destruct (rebuild_quick b ltac:(lia) Hb b0 Hg Ea Eb Ec Et) as (r0 & b3 & E & Hr).
    rewrite E in Hrun. by destruct Hr as [[-> _]|(-> & _)]. }
  rewrite (sbind_run _ _ b0 b0 b0) in Hrun by done.
  destruct (Z.of_nat (length (available_server b0)) <? copy_count b0); [done|].
  destruct (passes_spec b0 Hg) as (r0 & b3 & E & Hr); [lia|lia|]. rewrite E in Hrun. injection Hrun as -> ->.
  destruct Hr as [(_ & Hg3 & Hf & _ & Hd & _)|[? _]]; [|done].
  destruct (fixed_fields _ _ Hf) as (Fa & Fc & Fb & _ & _ & Fe).
  pose proof (column_length _ _ _ (g_shape _ Hg3) idx ltac:(lia)) as Hlen.
  destruct (Hd idx ltac:(lia)) as (Hav & _ & Hsp). rewrite Fa, Ea in Hav.
  destruct (Hsp ltac:(lia)) as (e & e' & He & He' & Hne); [by rewrite Fe|].
  exists e, e'. split; [done|]. split; [done|]. split; [by apply Hav|]. by split; [apply Hav|].
Qed.

Lemma table_builder2_survives_a_rack_witness :
  exists b' e e', rebuild_table2 true (demo_builder [(1, 1); (2, 2)] demo_rack) = Ret (BUILD_OK, b')
    /\ e ∈ column (table b') 1 /\ e' ∈ column (table b') 1 /\ e.2 <> e'.2.
Proof.
  assert (forall s, s ∈ available_server (demo_builder [(1, 1); (2, 2)] demo_rack) -> s.1 <> INVALID_FLAG) as Hids.
  { intros s Hs. apply elem_of_cons in Hs as [->|Hs]; [done|]. apply list_elem_of_singleton in Hs as ->. done. }
  assert (exists b', rebuild_table2 true (demo_builder [(1, 1); (2, 2)] demo_rack) = Ret (BUILD_OK, b')) as [b' E]
    by (eexists; vm_compute; reflexivity).
  destruct (table_builder2_survives_a_rack (demo_builder [(1, 1); (2, 2)] demo_rack) b' true (demo_shape _ _)
    ltac:(simpl; lia) ltac:(simpl; lia) Hids E 1 ltac:(simpl; lia)) as (e & e' & He & He' & _ & _ & Hne).
  exists b', e, e'. exact (conj E (conj He (conj He' Hne))).
Defined.

(** rack-first building cannot build a table with one copy.  With
    [copy_count = 1] and racks judged balanced, [rebuild_table] of
    [table_builder2] fails the assertion on [build_stat_normal] that
    [caculate_capable] has just cleared. *)
Theorem table_builder2_single_copy_aborts (b : builder rack_first) no_quick_table :
  table_shape (copy_count b) (bucket_count b) (table b) -> copy_count b = 1 -> 0 <= bucket_count b ->
  (forall s, s ∈ available_server b -> s.1 <> INVALID_FLAG) ->
  build_stat_normal (extra b) = true ->
  rebuild_table2 no_quick_table b = Abort.
Proof.
  intros Hsh Hcopy Hb Hids Hn. unfold rebuild_table2.
  rewrite (sbind_run _ _ b b b), Hn by done.
  destruct (start_build_spec b Hsh ltac:(lia) Hb Hids) as (quick & b1 & Hcs & _ & Hst & _).
  destruct Hcs as (_ & _ & Cc & _).
  assert (caculate_capable b1 = Abort) as E.
  { change (caculate_capable2 b1 = Abort). unfold caculate_capable2. by rewrite Cc, Hcopy. }
  rewrite E in Hst. unfold rebuild_table. unfold sbind at 1. by rewrite Hst.
Qed.

Lemma table_builder2_single_copy_aborts_witness :
  rebuild_table2 false (mk_builder ∅ 0 ∅ [] ∅ [] [] [] [(1, 1)] ∅ ∅ 65535 3 1
    [[(1, 1); (1, 1); (1, 1)]] demo_rack) = Abort.
Proof.
  apply table_builder2_single_copy_aborts; [split; [done|by repeat constructor]|done|done| |done].
  intros s Hs. apply list_elem_of_singleton in Hs as ->. done.
Defined.
