(* ===== verification/TableManager.v ===== *)
(** * The table of a data server (dataserver/table_manager.cpp)

    The routing table as a data server keeps it: the flat array it got from the
    config server and the lists it derives from it, namely the buckets it holds,
    those it will hold after a migration, those it must release, and for the
    buckets it is master of the servers they must be copied to.

    [server_table] is the array behind the pointer ([None] is NULL); reading
    past it is [Overrun].  The containers that keep an order are lists, the
    hash map [migrates] and the set [available_server_ids] are stdpp's. *)

From stdpp Require Import sorting.
From S2P Require Import Prelude.

(** ** Data *)

Record table_manager := mk_table_manager {
  server_table : option (list Z); tm_version : Z; tm_copy_count : Z; tm_bucket_count : Z;
  holding_buckets : list Z; padding_buckets : list Z; release_buckets : list Z;
  available_server_ids : gset Z; migrates : gmap Z (list Z)
}.

Definition new_table_manager : table_manager := mk_table_manager None 0 0 0 [] [] [] ∅ ∅.

Definition hash_table_size (tm : table_manager) : Z := u32 (tm_bucket_count tm * tm_copy_count tm).

Definition TAIR_SERVERFLAG_CLIENT : Z := 0.
Definition TAIR_SERVERFLAG_PROXY : Z := 3.

(** ** The standard algorithms on sorted vectors of [int] *)

Definition sort (l : list Z) : list Z := merge_sort Z.le l.

(** [std::set_difference]: the elements of the first range without, for each
    element of the second one, one equal to it *)
Fixpoint set_difference (a : list Z) : list Z -> list Z :=
  match a with
  | [] => fun _ => []
  | x :: a' =>
      fix skip (b : list Z) : list Z :=
        match b with
        | [] => a
        | y :: b' =>
            if x <? y then x :: set_difference a' b
            else if negb (y <? x) then set_difference a' b'
            else skip b'
        end
  end.

(** ** Operations

    [ip] is [local_server_ip::ip], the address of this server. *)
Section table_manager.
Context (ip : Z).

Definition is_master (bucket_number server_flag : Z) (tm : table_manager) : outcome bool :=
  match server_table tm with
  | None => Abort
  | Some table =>
      let index := if server_flag =? TAIR_SERVERFLAG_PROXY
                   then s32 (bucket_number + hash_table_size tm) else bucket_number in
      let! owner := at_ table index in
      Ret (owner =? ip)
  end.

(** The servers of the destination table that lack the bucket. *)
Fixpoint migrate_targets (table : list Z) (copies : nat) (index step : Z) (n : nat) (pos : Z)
    : outcome (list Z) :=
  match n with
  | O => Ret []
  | S n' =>
      let! dest := at_ table pos in
      let! found := in_stride table dest copies index step in
      let! rest := migrate_targets table copies index step n' (pos + step) in
      Ret (if found : bool then rest else dest :: rest)
  end.

(** [calculate_migrates(table, index)] *)
Definition calculate_migrates (copies buckets size : Z) (table : list Z) (index : Z)
    (m : gmap Z (list Z)) : outcome (gmap Z (list Z)) :=
  let! targets := migrate_targets table (Z.to_nat copies) index buckets (Z.to_nat copies) (size + index) in
  let m := match targets with [] => m | _ => <[index := default [] (m !! index) ++ targets]> m end in
  match m !! index with
  | Some _ => Ret m
  | None =>
      let! source := at_ table index in
      let! dest := at_ table (size + index) in
      Ret (if source =? dest then m else <[index := []]> m)
  end.

(** The loop over the current table: the servers in it, the buckets of this
    server, and what it must migrate *)
Fixpoint scan_table (copies buckets hsize : Z) (table : list Z) (migrating : bool) (n : nat) (i : Z)
    (acc : gset Z * list Z * gmap Z (list Z)) : outcome (gset Z * list Z * gmap Z (list Z)) :=
  match n with
  | O => Ret acc
  | S n' =>
      let '(servers, holding, m) := acc in
      let! x := at_ table i in
      let servers := {[x]} ∪ servers in
      if x =? ip then
        let holding := holding ++ [i mod buckets] in
        let! m := (if (i <? buckets) && migrating
                   then calculate_migrates copies buckets hsize table i m else Ret m) in
        scan_table copies buckets hsize table migrating n' (i + 1) (servers, holding, m)
      else scan_table copies buckets hsize table migrating n' (i + 1) (servers, holding, m)
  end.

(** The loop over the destination table *)
Fixpoint scan_padding (buckets : Z) (table : list Z) (n : nat) (i : Z) (acc : gset Z * list Z)
    : outcome (gset Z * list Z) :=
  match n with
  | O => Ret acc
  | S n' =>
      let '(servers, padding) := acc in
      let! x := at_ table i in
      scan_padding buckets table n' (i + 1)
        ({[x]} ∪ servers, if x =? ip then padding ++ [i mod buckets] else padding)
  end.

(** [do_update_table(new_table, size, table_version, copy_count, bucket_count)] *)
Definition do_update_table (new_table : list Z) (size version copies buckets : Z) (tm : table_manager)
    : outcome table_manager :=
  let hsize := u32 (buckets * copies) in
  assert! negb (hsize =? 0) in
  assert! size mod hsize =? 0 in
  if size <=? Z.of_nat (length new_table) then
    let temp_table := take (Z.to_nat size) new_table in
    let! (servers, holding, m) :=
      scan_table copies buckets hsize new_table (hsize <? size) (Z.to_nat hsize) 0 (∅, [], ∅) in
    let! (servers, padding) :=
      (if hsize <? size then scan_padding buckets new_table (Z.to_nat hsize) hsize (servers, [])
       else Ret (servers, [])) in
    let holding := sort holding in
    let release := set_difference (sort (holding_buckets tm)) holding in
    Ret (mk_table_manager (Some temp_table) version copies buckets holding padding release servers m)
  else Overrun.

(** The [do ... while] loop of [get_slaves] *)
Fixpoint collect_slaves (table : list Z) (step end_ : Z) (fuel : nat) (index : Z) : outcome (list Z) :=
  match fuel with
  | O => Diverge
  | S fuel' =>
      let! sid := at_ table index in
      let index := s32 (u32 (index + step)) in
      let! rest := (if index <? end_ then collect_slaves table step end_ fuel' index else Ret []) in
      Ret (if negb (sid =? 0) then sid :: rest else rest)
  end.

(** [get_slaves(bucket_number, is_migrating)]; every turn moves the index
    forward by a line, so that the fuel is the number of lines. *)
Definition get_slaves (bucket_number : Z) (is_migrating : bool) (tm : table_manager) : outcome (list Z) :=
  match server_table tm with
  | None => Abort
  | Some table =>
      let hsize := hash_table_size tm in
      let skip := if is_migrating then hsize else 0 in
      let end_ := s32 (u32 (s32 hsize + skip)) in
      let index := s32 (u32 (s32 (u32 (bucket_number + tm_bucket_count tm)) + skip)) in
      let! owner := at_ table (u32 (index - tm_bucket_count tm)) in
      if negb (owner =? ip) then Ret []
      else collect_slaves table (tm_bucket_count tm) end_ (S (Z.to_nat (tm_copy_count tm))) index
  end.

Definition get_migrate_target (bucket_number : Z) (tm : table_manager) : outcome Z :=
  match server_table tm with
  | None => Abort
  | Some table => at_ table (u32 (bucket_number + hash_table_size tm))
  end.

(** [init_migrate_done_set(migrate_done_set, current_state_table)]: the state
    table is a sequence of bucket numbers, each followed by the servers of the
    bucket.  The [for] loop adds the number of copies to an index that already
    skipped the bucket number. *)
Fixpoint has_migrated (table state : list Z) (bucket step : Z) (n : nat) (i j : Z) : outcome bool :=
  match n with
  | O => Ret false
  | S n' =>
      let! now := at_ state (i + j) in
      let! was := at_ table (bucket + j * step) in
      if negb (now =? was) then Ret true else has_migrated table state bucket step n' i (j + 1)
  end.
Fixpoint init_done_loop (tm : table_manager) (table state : list Z) (fuel : nat) (i : Z) (done : gset Z)
    : outcome (gset Z) :=
  match fuel with
  | O => Diverge
  | S fuel' =>
      if i <? Z.of_nat (length state) then
        let! bucket := at_ state i in
        let bucket := s32 bucket in
        let i := i + 1 in
        let! moved := has_migrated table state bucket (tm_bucket_count tm) (Z.to_nat (tm_copy_count tm)) i 0 in
        init_done_loop tm table state fuel' (i + tm_copy_count tm)
          (if moved : bool then {[bucket]} ∪ done else done)
      else Ret done
  end.
Definition init_migrate_done_set (state : list Z) (done : gset Z) (tm : table_manager) : outcome (gset Z) :=
  match state, server_table tm with
  | [], _ => Ret done
  | _, None => Overrun
  | _, Some table => init_done_loop tm table state (S (length state)) 0 done
  end.

Definition set_table_for_localmode (tm : table_manager) : table_manager :=
  mk_table_manager (server_table tm) (tm_version tm) 1 1 (holding_buckets tm) (padding_buckets tm)
    (release_buckets tm) (available_server_ids tm) (migrates tm).
Definition clear_available_server (tm : table_manager) : table_manager :=
  mk_table_manager (server_table tm) (tm_version tm) (tm_copy_count tm) (tm_bucket_count tm)
    (holding_buckets tm) (padding_buckets tm) (release_buckets tm) ∅ (migrates tm).
End table_manager.

(** ** Sorted vectors *)

Lemma sort_elem x l : x ∈ sort l <-> x ∈ l.
Proof. unfold sort. by rewrite merge_sort_Permutation. Qed.

Lemma sort_NoDup l : NoDup l -> NoDup (sort l).
Proof. unfold sort. by rewrite merge_sort_Permutation. Qed.

Lemma sort_sorted l : StronglySorted Z.le (sort l).
Proof. apply (StronglySorted_merge_sort Z.le). Qed.

(** On vectors without repetitions the difference is that of sets. *)
Lemma set_difference_elem a b z :
  StronglySorted Z.le a -> NoDup a -> StronglySorted Z.le b ->
  z ∈ set_difference a b <-> z ∈ a /\ z ∉ b.
Proof.
  intros Ha Hn. revert b. induction a as [|x a IHa]; intros b Hb.
  { split; [by intros ?%elem_of_nil|by intros [?%elem_of_nil _]]. }
  pose proof (StronglySorted_cons Z.le a x) as [[Hxa Ha'] _]; [exact Ha|].
  apply list.NoDup_cons in Hn as [Hx Hn]. specialize (IHa Ha' Hn).
  rewrite list.Forall_forall in Hxa.
  induction b as [|y b IHb].
  { split; [intros H; split; [exact H|apply not_elem_of_nil]|by intros [? _]]. }
  pose proof (StronglySorted_cons Z.le b y) as [[Hyb Hb'] _]; [exact Hb|].
  rewrite list.Forall_forall in Hyb. specialize (IHb Hb').
  change (set_difference (x :: a) (y :: b)) with
    (if x <? y then x :: set_difference a (y :: b)
     else if negb (y <? x) then set_difference a b else set_difference (x :: a) b).
  destruct (Z.ltb_spec x y) as [Hlt|Hge]; [|destruct (Z.ltb_spec y x) as [Hgt|Hle]; cbn [negb]].
  - rewrite !elem_of_cons, IHa, elem_of_cons by done. split.
    + intros [->|[Hz Hnz]]; [|tauto]. split; [by left|]. intros [->|Hin]; [lia|]. specialize (Hyb _ Hin). lia.
    + tauto.
  - rewrite IHb, !elem_of_cons. split; [|tauto]. intros [Hz Hnz]. split; [done|].
    intros [->|]; [|done]. destruct Hz as [->|Hz]; [lia|]. specialize (Hxa _ Hz). lia.
  - assert (x = y) as -> by lia. rewrite IHa, !elem_of_cons by done. split; [|tauto].
    intros [Hz Hnz]. split; [by right|]. intros [->|]; [done|tauto].
Qed.

(** ** Tables and columns *)

(** The copies of bucket [b] in the table that starts at [base] *)
Definition column (buckets copies : Z) (t : list Z) (base b : Z) : list Z :=
  map (fun l => cell t (base + b + l * buckets)) (seqZ 0 copies).

Lemma column_elem buckets copies t base b x :
  x ∈ column buckets copies t base b <-> exists l, 0 <= l < copies /\ x = cell t (base + b + l * buckets).
Proof.
  unfold column. rewrite list_elem_of_fmap. split.
  - intros (l & -> & Hl%elem_of_seqZ). exists l. split; [lia|done].
  - intros (l & Hl & ->). exists l. split; [done|]. apply elem_of_seqZ. lia.
Qed.

(** What the master of bucket [b] must do when the table changes: nothing, or
    copy the bucket to these servers (none, when only the master changes). *)
Definition migration (buckets copies : Z) (t : list Z) (b : Z) : option (list Z) :=
  let size := buckets * copies in
  let targets := filter (fun x => x ∉ column buckets copies t 0 b) (column buckets copies t size b) in
  if decide (targets = [] /\ cell t b = cell t (size + b)) then None else Some targets.

Section columns.
Context (buckets copies : Z) (t : list Z) (ip : Z).
Hypothesis Hb : 0 < buckets.
Hypothesis Hc : 0 < copies.

Lemma migrate_targets_spec index n l :
  0 <= index < buckets -> 0 <= l -> l + Z.of_nat n <= copies ->
  Z.of_nat (length t) >= 2 * (buckets * copies) ->
  migrate_targets t (Z.to_nat copies) index buckets n (buckets * copies + index + l * buckets)
  = Ret (filter (fun x => x ∉ column buckets copies t 0 index)
           (map (fun l => cell t (buckets * copies + index + l * buckets)) (seqZ l (Z.of_nat n)))).
Proof.
  intros Hi. revert l. induction n as [|n IH]; intros l Hl Hn Hlen; [done|].
  cbn [migrate_targets]. rewrite at_cell by nia. cbn [obind].
  rewrite in_stride_spec by (lia || nia). cbn [obind]. rewrite Z2Nat.id by lia.
  change (map (fun k => cell t (index + k * buckets)) (seqZ 0 copies)) with (column buckets copies t 0 index).
  replace (buckets * copies + index + l * buckets + buckets) with (buckets * copies + index + (l + 1) * buckets) by lia.
  rewrite IH by lia. cbn [obind]. rewrite (seqZ_cons l) by lia.
  replace (Z.pred (Z.of_nat (S n))) with (Z.of_nat n) by lia. replace (Z.succ l) with (l + 1) by lia.
  cbn [map]. rewrite filter_cons. fold (column buckets copies t 0 index). f_equal.
  destruct (decide (cell t (buckets * copies + index + l * buckets) ∈ column buckets copies t 0 index)) as [D|D].
  - rewrite bool_decide_true, decide_False by (done || (intros Hno; exact (Hno D))). done.
  - rewrite bool_decide_false, decide_True by done. done.
Qed.

Lemma calculate_migrates_spec index m :
  0 <= index < buckets -> Z.of_nat (length t) >= 2 * (buckets * copies) -> m !! index = None ->
  calculate_migrates copies buckets (buckets * copies) t index m
  = Ret (match migration buckets copies t index with None => m | Some l => <[index := l]> m end).
Proof.
  intros Hi Hlen Hm. unfold calculate_migrates.
  pose proof (migrate_targets_spec index (Z.to_nat copies) 0) as Ht.
  replace (buckets * copies + index + 0 * buckets) with (buckets * copies + index) in Ht by lia.
  rewrite Ht by lia. cbn [obind]. rewrite Z2Nat.id by lia. unfold migration.
  fold (column buckets copies t (buckets * copies) index).
  set (targets := filter _ _). destruct targets as [|x l].
  - rewrite Hm, !at_cell by nia. cbn [obind].
    destruct (Z.eqb_spec (cell t index) (cell t (buckets * copies + index))).
    + by rewrite decide_True.
    + by rewrite decide_False by tauto.
  - rewrite Hm. cbn [default app]. rewrite lookup_insert_eq, decide_False by (intros [? _]; done). done.
Qed.

(** The places of the table between [i] and [i + n] that are this server's *)
Definition places (i : Z) (n : nat) : list Z := filter (fun j => cell t j = ip) (seqZ i (Z.of_nat n)).

Lemma places_S i n : places i (S n) = (if decide (cell t i = ip) then [i] else []) ++ places (i + 1) n.
Proof.
  unfold places. rewrite (seqZ_cons i) by lia. rewrite filter_cons.
  replace (Z.pred (Z.of_nat (S n))) with (Z.of_nat n) by lia. replace (Z.succ i) with (i + 1) by lia.
  by destruct (decide _).
Qed.

Lemma scan_table_spec (migrating : bool) n i servers holding m :
  0 <= i -> i + Z.of_nat n <= buckets * copies ->
  (if migrating then 2 * (buckets * copies) else buckets * copies) <= Z.of_nat (length t) ->
  (forall k, i <= k -> m !! k = None) ->
  exists servers' m', scan_table ip copies buckets (buckets * copies) t migrating n i (servers, holding, m)
      = Ret (servers', holding ++ map (fun j => j mod buckets) (places i n), m')
    /\ (forall x, x ∈ servers' <-> x ∈ servers \/ exists j, i <= j < i + Z.of_nat n /\ x = cell t j)
    /\ forall k, m' !! k = if decide (i <= k < Z.min buckets (i + Z.of_nat n) /\ migrating = true /\ cell t k = ip)
                           then migration buckets copies t k else m !! k.
Proof.
  intros Hi Hn Hlen. revert i servers holding m Hi Hn. induction n as [|n IH]; intros i servers holding m Hi Hn Hm.
  { exists servers, m. cbn [scan_table]. unfold places. rewrite Nat2Z.inj_0. simpl. rewrite app_nil_r.
    split; [done|]. split; [split; [by left|intros [?|(j & ? & _)]; [done|lia]]|].
    intros k. by rewrite decide_False by lia. }
  cbn [scan_table]. rewrite at_cell by (destruct migrating; nia). cbn [obind]. rewrite places_S.
  set (m1 := if (i <? buckets) && migrating && (cell t i =? ip) then
               match migration buckets copies t i with None => m | Some l => <[i := l]> m end else m).
  assert (forall k, i + 1 <= k -> m1 !! k = None) as Hm1.
  { intros k Hk. unfold m1. destruct (_ && _); [|apply Hm; lia].
    destruct (migration _ _ _ _); [rewrite lookup_insert_ne by lia|]; apply Hm; lia. }
  destruct (IH (i + 1) ({[cell t i]} ∪ servers)
    (if decide (cell t i = ip) then holding ++ [i mod buckets] else holding) m1) as (servers' & m' & E & Hs & Hk);
    [lia|lia|done|].
  exists servers', m'. split; [|split].
  - destruct (Z.eqb_spec (cell t i) ip) as [Ei|Ei].
    + rewrite (decide_True (P := cell t i = ip)) in E |- * by done. cbn [app map].
      rewrite <- app_assoc in E. cbn [app] in E. rewrite <- E.
      unfold m1. rewrite andb_true_r. destruct ((i <? buckets) && migrating) eqn:Eb; [|done].
      apply andb_true_iff in Eb as [Eb%Z.ltb_lt ->].
      rewrite calculate_migrates_spec by (lia || (apply Hm; lia)). done.
    + rewrite (decide_False (P := cell t i = ip)) in E |- * by done. cbn [app]. rewrite <- E.
      unfold m1. by rewrite andb_false_r.
  - intros x. rewrite Hs. rewrite elem_of_union, elem_of_singleton. split.
    + intros [[->|?]|(j & Hj & ->)]; [right; exists i|by left|right; exists j]; split; (lia || done).
    + intros [?|(j & Hj & ->)]; [by left; right|]. destruct (decide (j = i)) as [->|]; [by left; left|].
      right. exists j. split; [lia|done].
  - intros k. rewrite Hk. unfold m1.
    destruct (decide (k = i)) as [->|D].
    + rewrite (decide_False (P := _ /\ _ /\ _)) by lia.
      destruct (Z.ltb_spec i buckets); destruct migrating; destruct (Z.eqb_spec (cell t i) ip); simpl;
        try by rewrite decide_False by (lia || tauto || (intros (? & ? & ?); done)).
      rewrite decide_True by (split; [lia|done]).
      destruct (migration _ _ _ _); [by rewrite lookup_insert_eq|apply Hm; lia].
    + assert ((if (i <? buckets) && migrating && (cell t i =? ip)
               then match migration buckets copies t i with Some l => <[i:=l]> m | None => m end else m) !! k = m !! k) as ->.
      { destruct (_ && _); [|done]. destruct (migration _ _ _ _); [by rewrite lookup_insert_ne|done]. }
      apply decide_ext. split; intros (? & ? & ?); (split; [lia|done]).
Qed.

Lemma scan_padding_spec n i servers padding :
  0 <= i -> i + Z.of_nat n <= Z.of_nat (length t) ->
  exists servers', scan_padding ip buckets t n i (servers, padding)
      = Ret (servers', padding ++ map (fun j => j mod buckets) (places i n))
    /\ forall x, x ∈ servers' <-> x ∈ servers \/ exists j, i <= j < i + Z.of_nat n /\ x = cell t j.
Proof.
  revert i servers padding. induction n as [|n IH]; intros i servers padding Hi Hn.
  { exists servers. unfold places. simpl. rewrite app_nil_r. split; [done|].
    split; [by left|intros [?|(j & ? & _)]; [done|lia]]. }
  cbn [scan_padding]. rewrite at_cell by lia. cbn [obind]. rewrite places_S.
  destruct (IH (i + 1) ({[cell t i]} ∪ servers)
    (if cell t i =? ip then padding ++ [i mod buckets] else padding)) as (servers' & E & Hs); [lia|lia|].
  exists servers'. split.
  - rewrite E. destruct (Z.eqb_spec (cell t i) ip) as [Ei|Ei].
    + rewrite decide_True by done. cbn [app map]. by rewrite <- app_assoc.
    + by rewrite decide_False.
  - intros x. rewrite Hs, elem_of_union, elem_of_singleton. split.
    + intros [[->|?]|(j & Hj & ->)]; [right; exists i|by left|right; exists j]; split; (lia || done).
    + intros [?|(j & Hj & ->)]; [by left; right|]. destruct (decide (j = i)) as [->|]; [by left; left|].
      right. exists j. split; [lia|done].
Qed.
End columns.

(** ** What a table update derives *)

Section update.
Context (ip buckets copies : Z) (t : list Z).
Hypothesis Hb : 0 < buckets.
Hypothesis Hc : 0 < copies.

(** This server has a copy of bucket [b] in the table that starts at [base]. *)
Definition held (base b : Z) : Prop := 0 <= b < buckets /\ ip ∈ column buckets copies t base b.

(** No server has two copies of a bucket. *)
Definition one_copy (base : Z) : Prop :=
  forall b l l', 0 <= b < buckets -> 0 <= l < copies -> 0 <= l' < copies ->
    cell t (base + b + l * buckets) = ip -> cell t (base + b + l' * buckets) = ip -> l = l'.

Lemma place_line base j :
  base <= j < base + buckets * copies ->
  exists l, 0 <= l < copies /\ j = base + (j - base) mod buckets + l * buckets.
Proof.
  intros Hj. exists ((j - base) / buckets). pose proof (Z.div_mod (j - base) buckets ltac:(lia)).
  split; [|lia]. split; [apply Z.div_pos; lia|]. apply Z.div_lt_upper_bound; lia.
Qed.

Lemma places_held k b :
  0 <= k -> let base := k * (buckets * copies) in
  b ∈ map (fun j => j mod buckets) (places t ip base (Z.to_nat (buckets * copies))) <-> held base b.
Proof.
  intros Hk base.
  assert (forall j, (j - base) mod buckets = j mod buckets) as Hmod.
  { intros j. unfold base. replace (j - k * (buckets * copies)) with (j + (- (k * copies)) * buckets) by lia.
    apply Z_mod_plus_full. }
  rewrite list_elem_of_fmap. unfold places, held. rewrite column_elem. split.
  - intros (j & -> & [Hip Hj%elem_of_seqZ]%list_elem_of_filter). split; [by apply Z.mod_pos_bound|].
    destruct (place_line base j) as (l & Hl & Ej); [lia|]. exists l. split; [done|].
    rewrite Hmod in Ej. by rewrite <- Ej.
  - intros (Hbr & l & Hl & Hip). exists (base + b + l * buckets). split.
    + rewrite <- Hmod. replace (base + b + l * buckets - base) with (b + l * buckets) by lia.
      by rewrite Z_mod_plus_full, Z.mod_small.
    + apply list_elem_of_filter. split; [done|]. apply elem_of_seqZ. nia.
Qed.

Lemma places_NoDup k :
  0 <= k -> let base := k * (buckets * copies) in
  one_copy base -> NoDup (map (fun j => j mod buckets) (places t ip base (Z.to_nat (buckets * copies)))).
Proof.
  intros Hk base Hone. apply NoDup_fmap_2_strong; [|apply list.NoDup_filter, NoDup_seqZ].
  intros i j [Hi Hri%elem_of_seqZ]%list_elem_of_filter [Hj Hrj%elem_of_seqZ]%list_elem_of_filter E.
  assert (forall j, (j - base) mod buckets = j mod buckets) as Hmod.
  { intros j'. unfold base. replace (j' - k * (buckets * copies)) with (j' + (- (k * copies)) * buckets) by lia.
    apply Z_mod_plus_full. }
  destruct (place_line base i) as (l & Hl & Ei); [lia|]. destruct (place_line base j) as (l' & Hl' & Ej); [lia|].
  rewrite Hmod in Ei, Ej. rewrite <- E in Ej.
  assert (l = l') as <-; [|lia].
  apply (Hone (i mod buckets)); [by apply Z.mod_pos_bound|done|done|by rewrite <- Ei|by rewrite <- Ej].
Qed.
End update.

(** The state [do_update_table] derives from a table, with or without a
    destination table behind it. *)
Record derived (ip buckets copies : Z) (migrating : bool) (t : list Z) (version : Z)
    (tm tm' : table_manager) : Prop := {
  de_table : server_table tm' = Some t;
  de_version : tm_version tm' = version /\ tm_copy_count tm' = copies /\ tm_bucket_count tm' = buckets;
  de_sorted : StronglySorted Z.lt (holding_buckets tm');
  de_holding : forall b, b ∈ holding_buckets tm' <-> held ip buckets copies t 0 b;
  de_padding : forall b, b ∈ padding_buckets tm' <-> migrating = true /\ held ip buckets copies t (buckets * copies) b;
  de_release : forall b, b ∈ release_buckets tm' <-> b ∈ holding_buckets tm /\ b ∉ holding_buckets tm';
  de_migrates : forall b, migrates tm' !! b =
    if decide (0 <= b < buckets /\ migrating = true /\ cell t b = ip) then migration buckets copies t b else None;
  de_servers : forall x, x ∈ available_server_ids tm' <-> x ∈ t
}.

Lemma StronglySorted_lt l : StronglySorted Z.le l -> NoDup l -> StronglySorted Z.lt l.
Proof.
  induction 1 as [|x l Hl IH Hx]; intros Hn; [constructor|].
  apply list.NoDup_cons in Hn as [Hnx Hn]. constructor; [by apply IH|].
  rewrite list.Forall_forall in *. intros y Hy. specialize (Hx y Hy).
  assert (x <> y) by (intros ->; done). lia.
Qed.

Lemma update_table_derived ip buckets copies (migrating : bool) t version tm :
  0 < buckets -> 0 < copies -> buckets * copies < 2 ^ 31 ->
  Z.of_nat (length t) = (if migrating then 2 else 1) * (buckets * copies) ->
  NoDup (holding_buckets tm) -> one_copy ip buckets copies t 0 ->
  exists tm', do_update_table ip t (Z.of_nat (length t)) version copies buckets tm = Ret tm'
    /\ derived ip buckets copies migrating t version tm tm'.
Proof.
  intros Hb Hc Hmax Hlen Hn Hone. unfold do_update_table.
  assert (0 < buckets * copies) as Hpos by nia.
  rewrite (wrap_id 32 (buckets * copies)) by (unfold in_u; lia). cbv zeta.
  destruct (Z.eqb_spec (buckets * copies) 0); [lia|]. cbn [oassert negb].
  rewrite (proj2 (Z.eqb_eq _ 0)) by (rewrite Hlen; destruct migrating; apply Z_mod_mult). cbn [oassert].
  rewrite (proj2 (Z.leb_le _ _)) by lia.
  assert ((buckets * copies <? Z.of_nat (length t)) = migrating) as ->.
  { rewrite Hlen. destruct migrating; [apply Z.ltb_lt|apply Z.ltb_ge]; lia. }
  destruct (scan_table_spec buckets copies t ip Hb Hc migrating (Z.to_nat (buckets * copies)) 0 ∅ [] ∅)
    as (servers & m & E & Hs & Hm); [lia|lia|rewrite Hlen; destruct migrating; lia|by intros; apply lookup_empty|].
  rewrite E. cbn [obind app]. rewrite Nat2Z.id, firstn_all.
  pose proof (places_held ip buckets copies t Hb Hc 0) as Hplaces. rewrite Z.mul_0_l in Hplaces.
  pose proof (places_NoDup ip buckets copies t Hb Hc 0 ltac:(lia)) as Hpn. rewrite Z.mul_0_l in Hpn.
  specialize (Hpn Hone). cbv zeta in Hplaces.
  set (holding := map _ (places t ip 0 _)) in *.
  assert (forall servers' padding,
    (forall b, b ∈ padding <-> migrating = true /\ held ip buckets copies t (buckets * copies) b) ->
    (forall x, x ∈ servers' <-> x ∈ t) ->
    derived ip buckets copies migrating t version tm
      (mk_table_manager (Some t) version copies buckets (sort holding) padding
         (set_difference (sort (holding_buckets tm)) (sort holding)) servers' m)) as Hder.
  { intros servers' padding Hp Hs'. constructor; cbn; try done.
    - apply StronglySorted_lt; [apply sort_sorted|by apply sort_NoDup].
    - intros b. rewrite sort_elem. apply Hplaces. lia.
    - intros b. rewrite set_difference_elem by (apply sort_sorted || by apply sort_NoDup).
      by rewrite !sort_elem.
    - intros b. rewrite Hm, lookup_empty. apply decide_ext. split; intros (? & ? & ?); (split; [nia|done]). }
  destruct migrating.
  - destruct (scan_padding_spec buckets t ip (Z.to_nat (buckets * copies)) (buckets * copies) servers [])
      as (servers' & Ep & Hs'); [lia|lia|].
    rewrite Ep. cbn [obind app]. eexists. split; [done|]. apply Hder.
    + intros b. pose proof (places_held ip buckets copies t Hb Hc 1 b) as Hp. rewrite Z.mul_1_l in Hp.
      rewrite Hp by lia. tauto.
    + intros x. rewrite <- cells_elem, Hs', Hs. split.
      * intros [[?%elem_of_empty|(j & Hj & ->)]|(j & Hj & ->)]; [done|exists j; split; [lia|done]..].
      * intros (j & Hj & ->). destruct (decide (j < buckets * copies)); [left; right|right];
          exists j; (split; [lia|done]).
  - cbn [obind]. eexists. split; [done|]. apply Hder.
    + intros b. split; [by intros ?%elem_of_nil|by intros [? _]].
    + intros x. rewrite <- cells_elem, Hs. split.
      * intros [?%elem_of_empty|(j & Hj & ->)]; [done|exists j; split; [lia|done]].
      * intros (j & Hj & ->). right. exists j. split; [lia|done].
Qed.

(** ** The slaves of a bucket *)

Lemma collect_slaves_spec buckets copies t base b l fuel :
  0 < buckets -> 0 <= b < buckets -> 0 <= base -> 0 <= l < copies ->
  base + buckets * copies < 2 ^ 30 -> base + buckets * copies <= Z.of_nat (length t) ->
  copies - l <= Z.of_nat fuel ->
  collect_slaves t buckets (base + buckets * copies) fuel (base + b + l * buckets)
  = Ret (filter (fun x => x <> 0) (map (fun l => cell t (base + b + l * buckets)) (seqZ l (copies - l)))).
Proof.
  intros Hbu Hb Hbase. revert l. induction fuel as [|fuel IH]; intros l Hl Hmax Hlen Hf; [lia|].
  cbn [collect_slaves]. rewrite at_cell by nia. cbn [obind]. cbv zeta.
  rewrite swrap_wrap, swrap_id by (unfold in_s; nia).
  replace (base + b + l * buckets + buckets) with (base + b + (l + 1) * buckets) by lia.
  rewrite (seqZ_cons l) by lia. cbn [map]. rewrite filter_cons.
  replace (Z.pred (copies - l)) with (copies - (l + 1)) by lia. replace (Z.succ l) with (l + 1) by lia.
  assert ((if base + b + (l + 1) * buckets <? base + buckets * copies
           then collect_slaves t buckets (base + buckets * copies) fuel (base + b + (l + 1) * buckets) else Ret [])
          = Ret (filter (fun x => x <> 0)
              (map (fun l => cell t (base + b + l * buckets)) (seqZ (l + 1) (copies - (l + 1)))))) as ->.
  { destruct (Z.ltb_spec (base + b + (l + 1) * buckets) (base + buckets * copies)).
    - apply IH; (lia || nia).
    - replace (copies - (l + 1)) with 0 by nia. done. }
  cbn [obind]. f_equal. destruct (Z.eqb_spec (cell t (base + b + l * buckets)) 0) as [E|E]; cbn [negb].
  - by rewrite decide_False by tauto.
  - by rewrite decide_True.
Qed.

(** The slaves of a bucket: the other servers of its column. *)
Lemma get_slaves_spec ip tm t b (migrating : bool) :
  let buckets := tm_bucket_count tm in
  let copies := tm_copy_count tm in
  let base := if migrating then buckets * copies else 0 in
  server_table tm = Some t -> 2 <= copies -> 0 <= b < buckets -> buckets * copies < 2 ^ 29 ->
  base + buckets * copies <= Z.of_nat (length t) ->
  get_slaves ip b migrating tm
  = Ret (if cell t (base + b) =? ip then filter (fun x => x <> 0) (drop 1 (column buckets copies t base b)) else []).
Proof.
  intros buckets copies base Ht Hc Hb Hmax Hlen. unfold get_slaves, hash_table_size. rewrite Ht.
  fold buckets copies. cbv zeta.
  assert (0 <= base <= buckets * copies) as Hbase by (unfold base; destruct migrating; nia).
  rewrite (wrap_id 32 (buckets * copies)) by (unfold in_u; nia).
  rewrite (swrap_id 32 (buckets * copies)) by (unfold in_s; nia).
  fold base. rewrite !swrap_wrap. rewrite (swrap_id 32 (b + buckets)) by (unfold in_s; nia).
  rewrite !swrap_id by (unfold in_s; nia).
  replace (b + buckets + base) with (base + b + 1 * buckets) by lia.
  rewrite wrap_id by (unfold in_u; nia).
  replace (base + b + 1 * buckets - buckets) with (base + b) by lia.
  rewrite at_cell by nia. cbn [obind].
  destruct (cell t (base + b) =? ip); cbn [negb]; [|done].
  replace (buckets * copies + base) with (base + buckets * copies) by lia.
  rewrite (collect_slaves_spec buckets copies) by lia. f_equal. f_equal.
  unfold column. rewrite (seqZ_cons 0) by lia. cbn [map drop]. by replace (Z.pred copies) with (copies - 1) by lia.
Qed.

(** the copies a write goes to.  In a table of at least two lines,
    [get_slaves] ends and gives the master of a bucket the other servers of the
    bucket's column, in order and without the empty places, in the current
    table or, when the bucket is migrating, in the destination table; any other
    server gets no slaves. *)
Theorem get_slaves_are_the_other_copies ip tm t b (migrating : bool) :
  let buckets := tm_bucket_count tm in
  let copies := tm_copy_count tm in
  let base := if migrating then buckets * copies else 0 in
  server_table tm = Some t -> 2 <= copies -> 0 <= b < buckets -> buckets * copies < 2 ^ 29 ->
  base + buckets * copies <= Z.of_nat (length t) ->
  get_slaves ip b migrating tm
  = Ret (if cell t (base + b) =? ip then filter (fun x => x <> 0) (drop 1 (column buckets copies t base b)) else []).
Proof. apply get_slaves_spec. Qed.

Lemma get_slaves_are_the_other_copies_witness :
  get_slaves 7 1 false (mk_table_manager (Some [5; 7; 7; 5; 9; 0]) 2 3 2 [] [] [] ∅ ∅) = Ret [5].
Proof.
  apply (get_slaves_are_the_other_copies 7
    (mk_table_manager (Some [5; 7; 7; 5; 9; 0]) 2 3 2 [] [] [] ∅ ∅) [5; 7; 7; 5; 9; 0] 1 false); cbn; (done || lia).
Defined.

(** C27: what a data server makes of a new table.  [do_update_table] with a
    table of one part, or of a current and a destination part, in which this
    server has at most one copy of a bucket, keeps the table, and derives: the
    buckets it holds, sorted; those it will hold in the destination; those it
    held and holds no more; and for exactly the buckets it is master of and that
    change, the destination servers that have no copy yet. *)
Theorem update_table_derives ip buckets copies (migrating : bool) t version tm :
  0 < buckets -> 0 < copies -> buckets * copies < 2 ^ 31 ->
  Z.of_nat (length t) = (if migrating then 2 else 1) * (buckets * copies) ->
  NoDup (holding_buckets tm) -> one_copy ip buckets copies t 0 ->
  exists tm', do_update_table ip t (Z.of_nat (length t)) version copies buckets tm = Ret tm'
    /\ server_table tm' = Some t /\ tm_version tm' = version
    /\ StronglySorted Z.lt (holding_buckets tm')
    /\ (forall b, b ∈ holding_buckets tm' <-> held ip buckets copies t 0 b)
    /\ (forall b, b ∈ padding_buckets tm' <-> migrating = true /\ held ip buckets copies t (buckets * copies) b)
    /\ (forall b, b ∈ release_buckets tm' <-> b ∈ holding_buckets tm /\ b ∉ holding_buckets tm')
    /\ (forall b targets, migrates tm' !! b = Some targets <->
          0 <= b < buckets /\ migrating = true /\ cell t b = ip
          /\ targets = filter (fun x => x ∉ column buckets copies t 0 b) (column buckets copies t (buckets * copies) b)
          /\ (targets <> [] \/ cell t b <> cell t (buckets * copies + b)))
    /\ forall x, x ∈ available_server_ids tm' <-> x ∈ t.
Proof.
  intros Hb Hc Hmax Hlen Hn Hone.
  destruct (update_table_derived ip buckets copies migrating t version tm Hb Hc Hmax Hlen Hn Hone) as (tm' & E & []).
  exists tm'. destruct de_version0 as (? & ? & ?). split; [done|]. split; [done|]. split; [done|].
  split; [done|]. split; [done|]. split; [done|]. split; [done|]. split; [|done].
  intros b targets. rewrite de_migrates0. unfold migration.
  set (l := filter _ _).
  destruct (decide (0 <= b < buckets /\ migrating = true /\ cell t b = ip)) as [D1|D1].
  - destruct (decide (l = [] /\ cell t b = cell t (buckets * copies + b))) as [D2|D2]; split.
    + done.
    + intros (_ & _ & _ & -> & Hne). destruct D2 as [E1 E2]. by destruct Hne.
    + intros [= <-]. destruct D1 as (? & ? & ?). split; [done|]. split; [done|]. split; [done|]. split; [done|].
      destruct (decide (cell t b = cell t (buckets * copies + b))); [left|by right]. intros E1. apply D2. by split.
    + intros (_ & _ & _ & -> & _). done.
  - split; [done|]. intros (? & ? & ? & _). tauto.
Qed.

(** Server 7 is master of bucket 0, which gets server 9 as a new slave. *)
Lemma update_table_derives_witness :
  exists tm', do_update_table 7 [7; 5; 5; 7; 7; 5; 9; 7] 8 3 2 2 new_table_manager = Ret tm'
    /\ migrates tm' !! 0 = Some [9].
Proof.
  destruct (update_table_derives 7 2 2 true [7; 5; 5; 7; 7; 5; 9; 7] 3 new_table_manager)
    as (tm' & E & _ & _ & _ & _ & _ & _ & Hm & _); [done|done|done|done|constructor| |].
  - intros b l l' Hb Hl Hl'. assert (b = 0 \/ b = 1) as [-> | ->] by lia;
      assert (l = 0 \/ l = 1) as [-> | ->] by lia; assert (l' = 0 \/ l' = 1) as [-> | ->] by lia;
      vm_compute; intros; congruence.
  - exists tm'. split; [exact E|]. apply Hm. split; [lia|]. split; [done|]. split; [done|].
    split; [by vm_compute|]. by left.
Defined.
