(* ===== verification/ConfTable.v ===== *)
(** * The tables of a group on disk (configserver/conf_server_table_manager.cpp)

    The memory-mapped file of a group: versions, counters and the three tables,
    each with [server_copy_count] lines of [server_bucket_count] servers.  The
    pointers into the mapping are the fields of the record, the [msync] of
    [sync] is not modelled.  [compress] is zlib's. *)

From S2P Require Import Prelude.

(** common/define.hpp *)
Definition TAIR_DATA_NEED_MIGRATE : Z := 1.

Record conf_table := mk_conf_table {
  client_version : Z; server_version : Z; plugins_version : Z; area_capacity_version : Z;
  last_load_config_time : Z; migrate_block_count : Z; server_copy_count : Z; server_bucket_count : Z;
  hash_table : list Z; m_hash_table : list Z; d_hash_table : list Z
}.

Definition set_client_version (f : Z -> Z) (t : conf_table) : conf_table :=
  mk_conf_table (f (client_version t)) (server_version t) (plugins_version t) (area_capacity_version t)
    (last_load_config_time t) (migrate_block_count t) (server_copy_count t) (server_bucket_count t)
    (hash_table t) (m_hash_table t) (d_hash_table t).
Definition set_server_version (f : Z -> Z) (t : conf_table) : conf_table :=
  mk_conf_table (client_version t) (f (server_version t)) (plugins_version t) (area_capacity_version t)
    (last_load_config_time t) (migrate_block_count t) (server_copy_count t) (server_bucket_count t)
    (hash_table t) (m_hash_table t) (d_hash_table t).
Definition set_area_capacity_version (f : Z -> Z) (t : conf_table) : conf_table :=
  mk_conf_table (client_version t) (server_version t) (plugins_version t) (f (area_capacity_version t))
    (last_load_config_time t) (migrate_block_count t) (server_copy_count t) (server_bucket_count t)
    (hash_table t) (m_hash_table t) (d_hash_table t).
Definition set_last_load_config_time (f : Z -> Z) (t : conf_table) : conf_table :=
  mk_conf_table (client_version t) (server_version t) (plugins_version t) (area_capacity_version t)
    (f (last_load_config_time t)) (migrate_block_count t) (server_copy_count t) (server_bucket_count t)
    (hash_table t) (m_hash_table t) (d_hash_table t).
Definition set_migrate_block_count (f : Z -> Z) (t : conf_table) : conf_table :=
  mk_conf_table (client_version t) (server_version t) (plugins_version t) (area_capacity_version t)
    (last_load_config_time t) (f (migrate_block_count t)) (server_copy_count t) (server_bucket_count t)
    (hash_table t) (m_hash_table t) (d_hash_table t).
Definition set_hash_table (f : list Z -> list Z) (t : conf_table) : conf_table :=
  mk_conf_table (client_version t) (server_version t) (plugins_version t) (area_capacity_version t)
    (last_load_config_time t) (migrate_block_count t) (server_copy_count t) (server_bucket_count t)
    (f (hash_table t)) (m_hash_table t) (d_hash_table t).
Definition set_m_hash_table (f : list Z -> list Z) (t : conf_table) : conf_table :=
  mk_conf_table (client_version t) (server_version t) (plugins_version t) (area_capacity_version t)
    (last_load_config_time t) (migrate_block_count t) (server_copy_count t) (server_bucket_count t)
    (hash_table t) (f (m_hash_table t)) (d_hash_table t).
Definition set_d_hash_table (f : list Z -> list Z) (t : conf_table) : conf_table :=
  mk_conf_table (client_version t) (server_version t) (plugins_version t) (area_capacity_version t)
    (last_load_config_time t) (migrate_block_count t) (server_copy_count t) (server_bucket_count t)
    (hash_table t) (m_hash_table t) (f (d_hash_table t)).

Definition get_hash_table_size (t : conf_table) : Z := u32 (server_bucket_count t * server_copy_count t).
Definition get_hash_table_byte_size (t : conf_table) : Z := u32 (get_hash_table_size t * 8).
Definition get_SVR_table_size (t : conf_table) : Z := u32 (get_hash_table_byte_size t * 3 + 4 * 9).

(** [create(file_name, bucket_count, copy_count)] of a file that does not
    exist: the mapping of a new file reads as zeros. *)
Definition create (bucket_count copy_count : Z) : conf_table :=
  let zeros := replicate (Z.to_nat (u32 (bucket_count * copy_count))) 0 in
  mk_conf_table 1 1 1 1 0 (-1) copy_count bucket_count zeros zeros zeros.

(** ** The compressed table

    The bytes of a table of 64-bit words on a little-endian machine *)
Definition word_bytes (w : Z) : list Z := map (fun i => u8 (Z.shiftr w (8 * i))) (seqZ 0 8).
Definition table_bytes (t : list Z) : list Z := concat (map word_bytes t).

(** The [while] loop that drops trailing zeros: [hash_table] is a [char *]
    there, so that it looks at bytes, starting from the byte whose number is
    that of the words. *)
Fixpoint last_used (bytes : list Z) (n : nat) : outcome Z :=
  match n with
  | O => Ret 0
  | S n' =>
      let! c := at_ bytes (Z.of_nat n') in
      if negb (c =? 0) then Ret (Z.of_nat n') else last_used bytes n'
  end.

Section deflate.
Context (compress : list Z -> option (list Z)).

(** [deflate_hash_table(size, data, table, table_count)]: the new data, [None]
    for NULL *)
Definition deflate_table (t : conf_table) (table : list Z) (table_count : Z) : outcome (option (list Z)) :=
  let bytes := table_bytes table in
  let! index := last_used bytes (Z.to_nat (s32 (u32 (get_hash_table_size t * table_count)))) in
  if index =? 0 then Ret None
  else
    assert! negb (server_bucket_count t =? 0) in
    let index := if index mod server_bucket_count t =? 0 then index
                 else index - index mod server_bucket_count t + server_bucket_count t in
    if index * 8 <=? Z.of_nat (length bytes) then Ret (compress (take (Z.to_nat (index * 8)) bytes))
    else Overrun.

(** [deflate_hash_table()]: the tables for clients and for data servers *)
Definition deflate_hash_table (t : conf_table) : outcome (option (list Z) * option (list Z)) :=
  let table := hash_table t ++ d_hash_table t in
  let! client := deflate_table t table 1 in
  let! server := deflate_table t table 2 in
  Ret (client, server).
End deflate.

(** ** What is sent *)

Lemma length_table_bytes t : Z.of_nat (length (table_bytes t)) = 8 * Z.of_nat (length t).
Proof.
  unfold table_bytes. induction t as [|w t IH]; [done|]. cbn [map concat]. rewrite length_app.
  replace (length (word_bytes w)) with 8%nat by done. simpl length. lia.
Qed.

Lemma last_used_run bytes n :
  Z.of_nat n <= Z.of_nat (length bytes) ->
  exists i, last_used bytes n = Ret i /\ 0 <= i <= Z.max 0 (Z.of_nat n - 1).
Proof.
  induction n as [|n IH]; intros Hn; [by exists 0|]. cbn [last_used].
  rewrite at_cell by lia. cbn [obind]. destruct (negb _).
  - exists (Z.of_nat n). split; [done|lia].
  - destruct IH as (i & -> & Hi); [lia|]. exists i. split; [done|lia].
Qed.

(** Compressing the tables never reads outside them. *)
Lemma deflate_hash_table_run compress t :
  0 < server_bucket_count t -> 0 < server_copy_count t -> server_bucket_count t * server_copy_count t < 2 ^ 30 ->
  Z.of_nat (length (hash_table t)) = server_bucket_count t * server_copy_count t ->
  Z.of_nat (length (d_hash_table t)) = server_bucket_count t * server_copy_count t ->
  exists r, deflate_hash_table compress t = Ret r.
Proof.
  intros Hb Hc Hmax Hh Hd. set (n := server_bucket_count t * server_copy_count t) in *.
  assert (forall count, 1 <= count <= 2 ->
    exists r, deflate_table compress t (hash_table t ++ d_hash_table t) count = Ret r) as Hone.
  { intros count Hcount. unfold deflate_table, get_hash_table_size. fold n.
    assert (0 < n) by nia. assert (0 < n * count <= 2 * n) by nia.
    rewrite (wrap_id 32 n) by (unfold in_u; lia). rewrite swrap_wrap, swrap_id by (unfold in_s; lia).
    cbv zeta. pose proof (length_table_bytes (hash_table t ++ d_hash_table t)) as Hlen. rewrite length_app in Hlen.
    destruct (last_used_run (table_bytes (hash_table t ++ d_hash_table t)) (Z.to_nat (n * count))) as (i & -> & Hi); [lia|].
    cbn [obind].
    destruct (Z.eqb_spec i 0); [by eexists|].
    destruct (Z.eqb_spec (server_bucket_count t) 0); [lia|]. cbn [negb oassert].
    assert (exists q, n * count = q * server_bucket_count t) as [q Eq] by (exists (server_copy_count t * count); unfold n; ring).
    pose proof (Z.div_mod i (server_bucket_count t) ltac:(lia)). pose proof (Z.mod_pos_bound i (server_bucket_count t) Hb).
    set (index := if i mod server_bucket_count t =? 0 then i else _).
    assert (index <= n * count) as Hle.
    { unfold index. destruct (Z.eqb_spec (i mod server_bucket_count t) 0); [lia|].
      assert (i / server_bucket_count t < q) by (apply Z.div_lt_upper_bound; lia). nia. }
    rewrite (proj2 (Z.leb_le _ _)) by lia. by eexists. }
  unfold deflate_hash_table. destruct (Hone 1) as [a ->]; [lia|]. destruct (Hone 2) as [b ->]; [lia|]. by eexists.
Qed.

(** With a single bucket the table for clients is never sent. *)
Lemma one_bucket_is_not_sent compress s d :
  deflate_table compress (mk_conf_table 1 1 1 1 0 (-1) 1 1 [s] [s] [d]) [s; d] 1 = Ret None.
Proof.
  unfold deflate_table. cbv zeta.
  change (Z.to_nat (s32 (u32 (get_hash_table_size _ * 1)))) with 1%nat. cbn [last_used].
  pose proof (length_table_bytes [s; d]) as Hlen. rewrite at_cell by (rewrite Hlen; simpl; lia).
  cbn [obind]. by destruct (negb (cell (table_bytes [s; d]) (Z.of_nat 0) =? 0)).
Qed.
