(* ===== verification/GroupInfo.v ===== *)
(** * The groups of the config server (configserver/group_info.cpp, server_info.hpp)

    A group of data servers: who is alive, the three tables of the group and the
    migration from one to the next.  [hash_table] is what clients and data
    servers use, [d_hash_table] what the group should become, [m_hash_table]
    how far the migration from the first to the second has come.

    The servers are the entries of [server_info_map]; a [node_info] is the id of
    its server.  The clock and the probe of a server's port ([isAlive]) are
    arguments, [slave] is the id of the other config server or 0; packets to it
    go to the log [sent].  [grp_locked] is the state of the writer side of the
    group lock.  [compress] is zlib's. *)

From Stdlib Require Import SpecFloat.
From stdpp Require Import sorting.
From S2P Require Import Prelude TableBuilder TableStrategies ConfTable.

(** ** Data *)

Definition ALIVE : Z := 0.
Definition DOWN : Z := 1.
Definition FORCE_DOWN : Z := 2.

Record server_info := mk_server_info { last_time : Z; status : Z }.
Definition set_status (s : Z) (i : server_info) : server_info := mk_server_info (last_time i) s.

Definition TAIR_POS_MASK : Z := 0xffff.

Record group := mk_group {
  tables : conf_table;
  servers : gmap Z server_info;
  node_list : list Z;
  need_rebuild_hash_table : Z;
  data_need_move : Z;
  min_config_version : Z;
  min_data_server_count : Z;
  migrate_machine : gmap Z Z;
  should_syn_mig_info : bool;
  group_can_work : bool;
  group_is_OK : bool;
  build_strategy : Z;
  server_down_time : Z;
  diff_ratio : f32;
  g_pos_mask : Z;
  g_available : gset Z;
  reported_serverid : gset Z;
  client_deflated : option (list Z);
  server_deflated : option (list Z);
  sent : list (Z * conf_table);
  grp_locked : bool
}.

Definition set_tables (f : conf_table -> conf_table) (g : group) : group :=
  mk_group (f (tables g)) (servers g) (node_list g) (need_rebuild_hash_table g)
    (data_need_move g) (min_config_version g) (min_data_server_count g) (migrate_machine g)
    (should_syn_mig_info g) (group_can_work g) (group_is_OK g) (build_strategy g)
    (server_down_time g) (diff_ratio g) (g_pos_mask g) (g_available g) (reported_serverid g)
    (client_deflated g) (server_deflated g) (sent g) (grp_locked g).
Definition set_servers (f : gmap Z server_info -> gmap Z server_info) (g : group) : group :=
  mk_group (tables g) (f (servers g)) (node_list g) (need_rebuild_hash_table g)
    (data_need_move g) (min_config_version g) (min_data_server_count g) (migrate_machine g)
    (should_syn_mig_info g) (group_can_work g) (group_is_OK g) (build_strategy g)
    (server_down_time g) (diff_ratio g) (g_pos_mask g) (g_available g) (reported_serverid g)
    (client_deflated g) (server_deflated g) (sent g) (grp_locked g).
Definition set_need_rebuild_hash_table (f : Z -> Z) (g : group) : group :=
  mk_group (tables g) (servers g) (node_list g) (f (need_rebuild_hash_table g))
    (data_need_move g) (min_config_version g) (min_data_server_count g) (migrate_machine g)
    (should_syn_mig_info g) (group_can_work g) (group_is_OK g) (build_strategy g)
    (server_down_time g) (diff_ratio g) (g_pos_mask g) (g_available g) (reported_serverid g)
    (client_deflated g) (server_deflated g) (sent g) (grp_locked g).
Definition set_migrate_machine (f : gmap Z Z -> gmap Z Z) (g : group) : group :=
  mk_group (tables g) (servers g) (node_list g) (need_rebuild_hash_table g) (data_need_move g)
    (min_config_version g) (min_data_server_count g) (f (migrate_machine g))
    (should_syn_mig_info g) (group_can_work g) (group_is_OK g) (build_strategy g)
    (server_down_time g) (diff_ratio g) (g_pos_mask g) (g_available g) (reported_serverid g)
    (client_deflated g) (server_deflated g) (sent g) (grp_locked g).
Definition set_should_syn_mig_info (f : bool -> bool) (g : group) : group :=
  mk_group (tables g) (servers g) (node_list g) (need_rebuild_hash_table g) (data_need_move g)
    (min_config_version g) (min_data_server_count g) (migrate_machine g)
    (f (should_syn_mig_info g)) (group_can_work g) (group_is_OK g) (build_strategy g)
    (server_down_time g) (diff_ratio g) (g_pos_mask g) (g_available g) (reported_serverid g)
    (client_deflated g) (server_deflated g) (sent g) (grp_locked g).
Definition set_group_can_work (f : bool -> bool) (g : group) : group :=
  mk_group (tables g) (servers g) (node_list g) (need_rebuild_hash_table g) (data_need_move g)
    (min_config_version g) (min_data_server_count g) (migrate_machine g) (should_syn_mig_info g)
    (f (group_can_work g)) (group_is_OK g) (build_strategy g) (server_down_time g)
    (diff_ratio g) (g_pos_mask g) (g_available g) (reported_serverid g) (client_deflated g)
    (server_deflated g) (sent g) (grp_locked g).
Definition set_group_is_OK (f : bool -> bool) (g : group) : group :=
  mk_group (tables g) (servers g) (node_list g) (need_rebuild_hash_table g) (data_need_move g)
    (min_config_version g) (min_data_server_count g) (migrate_machine g) (should_syn_mig_info g)
    (group_can_work g) (f (group_is_OK g)) (build_strategy g) (server_down_time g)
    (diff_ratio g) (g_pos_mask g) (g_available g) (reported_serverid g) (client_deflated g)
    (server_deflated g) (sent g) (grp_locked g).
Definition set_g_available (f : gset Z -> gset Z) (g : group) : group :=
  mk_group (tables g) (servers g) (node_list g) (need_rebuild_hash_table g) (data_need_move g)
    (min_config_version g) (min_data_server_count g) (migrate_machine g) (should_syn_mig_info g)
    (group_can_work g) (group_is_OK g) (build_strategy g) (server_down_time g) (diff_ratio g)
    (g_pos_mask g) (f (g_available g)) (reported_serverid g) (client_deflated g)
    (server_deflated g) (sent g) (grp_locked g).
Definition set_reported_serverid (f : gset Z -> gset Z) (g : group) : group :=
  mk_group (tables g) (servers g) (node_list g) (need_rebuild_hash_table g) (data_need_move g)
    (min_config_version g) (min_data_server_count g) (migrate_machine g) (should_syn_mig_info g)
    (group_can_work g) (group_is_OK g) (build_strategy g) (server_down_time g) (diff_ratio g)
    (g_pos_mask g) (g_available g) (f (reported_serverid g)) (client_deflated g)
    (server_deflated g) (sent g) (grp_locked g).
Definition set_client_deflated (f : option (list Z) -> option (list Z)) (g : group) : group :=
  mk_group (tables g) (servers g) (node_list g) (need_rebuild_hash_table g) (data_need_move g)
    (min_config_version g) (min_data_server_count g) (migrate_machine g) (should_syn_mig_info g)
    (group_can_work g) (group_is_OK g) (build_strategy g) (server_down_time g) (diff_ratio g)
    (g_pos_mask g) (g_available g) (reported_serverid g) (f (client_deflated g))
    (server_deflated g) (sent g) (grp_locked g).
Definition set_server_deflated (f : option (list Z) -> option (list Z)) (g : group) : group :=
  mk_group (tables g) (servers g) (node_list g) (need_rebuild_hash_table g) (data_need_move g)
    (min_config_version g) (min_data_server_count g) (migrate_machine g) (should_syn_mig_info g)
    (group_can_work g) (group_is_OK g) (build_strategy g) (server_down_time g) (diff_ratio g)
    (g_pos_mask g) (g_available g) (reported_serverid g) (client_deflated g)
    (f (server_deflated g)) (sent g) (grp_locked g).
Definition set_sent (f : list (Z * conf_table) -> list (Z * conf_table)) (g : group) : group :=
  mk_group (tables g) (servers g) (node_list g) (need_rebuild_hash_table g) (data_need_move g)
    (min_config_version g) (min_data_server_count g) (migrate_machine g) (should_syn_mig_info g)
    (group_can_work g) (group_is_OK g) (build_strategy g) (server_down_time g) (diff_ratio g)
    (g_pos_mask g) (g_available g) (reported_serverid g) (client_deflated g) (server_deflated g)
    (f (sent g)) (grp_locked g).
Definition set_grp_locked (f : bool -> bool) (g : group) : group :=
  mk_group (tables g) (servers g) (node_list g) (need_rebuild_hash_table g) (data_need_move g)
    (min_config_version g) (min_data_server_count g) (migrate_machine g) (should_syn_mig_info g)
    (group_can_work g) (group_is_OK g) (build_strategy g) (server_down_time g) (diff_ratio g)
    (g_pos_mask g) (g_available g) (reported_serverid g) (client_deflated g) (server_deflated g)
    (sent g) (f (grp_locked g)).

Abbreviation groupM := (stM group).

(** [lock->wrlock()] of a lock already held waits for ever. *)
Definition wrlock : groupM unit := fun g =>
  if grp_locked g then Diverge else Ret (tt, set_grp_locked (fun _ => true) g).
Definition unlock : groupM unit := smodify (set_grp_locked (fun _ => false)).

Definition buckets_of (g : group) : Z := server_bucket_count (tables g).
Definition copies_of (g : group) : Z := server_copy_count (tables g).

(** ** Versions and packets *)

(** [inc_version(value, inc_step)] *)
Definition inc_value (g : group) (step value : Z) : Z :=
  let value := u32 (value + step) in
  if value <? min_config_version g then min_config_version g else value.
Definition inc_client_version (step : Z) : groupM unit := smodify (fun g =>
  set_tables (set_client_version (inc_value g step)) g).
Definition inc_server_version (step : Z) : groupM unit := smodify (fun g =>
  set_tables (set_server_version (inc_value g step)) g).
Definition inc_area_capacity_version : groupM unit := smodify (fun g =>
  set_tables (set_area_capacity_version (inc_value g 1)) g).
(** [inc_version(inc_step)] *)
Definition inc_version (step : Z) : groupM unit :=
  let* _ := inc_client_version step in inc_server_version step.

Definition send_server_table_packet (slave : Z) : groupM unit := smodify (fun g =>
  if slave =? 0 then g else set_sent (fun l => l ++ [(slave, tables g)]) g).

Definition set_force_rebuild : groupM unit := smodify (set_need_rebuild_hash_table (fun _ => 1)).
Definition set_table_builded : groupM unit := smodify (set_need_rebuild_hash_table (fun _ => 0)).
Definition set_group_status (b : bool) : groupM unit := smodify (set_group_can_work (fun _ => b)).
Definition set_OK (b : bool) : groupM unit := smodify (set_group_is_OK (fun _ => b)).

Definition is_need_rebuild (now : Z) (g : group) : bool :=
  if need_rebuild_hash_table g =? 0 then false else need_rebuild_hash_table g <? now - server_down_time g.

Definition is_migrating (g : group) : bool := negb (migrate_block_count (tables g) =? -1).

(** ** What must be migrated *)

(** The two inner loops of [fill_migrate_machine]: does a slave of the
    destination table have no slave copy in the migration table? *)
Fixpoint slave_missing (m d : list Z) (buckets copies bucket : Z) (n : nat) (j : Z) : outcome bool :=
  match n with
  | O => Ret false
  | S n' =>
      let! x := at_ d (j * buckets + bucket) in
      let! found := in_stride m x (Z.to_nat (copies - 1)) (buckets + bucket) buckets in
      if negb found then Ret true else slave_missing m d buckets copies bucket n' (j + 1)
  end.

Definition migrate_this_bucket (m d : list Z) (buckets copies bucket : Z) : outcome bool :=
  let! mx := at_ m bucket in
  if mx =? 0 then Ret false
  else
    let! dx := at_ d bucket in
    if negb (mx =? dx) then Ret true
    else slave_missing m d buckets copies bucket (Z.to_nat (copies - 1)) 1.

Fixpoint fill_loop (m d : list Z) (buckets copies : Z) (n : nat) (i : Z) (acc : gmap Z Z * Z)
    : outcome (gmap Z Z * Z) :=
  match n with
  | O => Ret acc
  | S n' =>
      let! b := migrate_this_bucket m d buckets copies i in
      let! mx := at_ m i in
      fill_loop m d buckets copies n' (i + 1)
        (if b : bool then (<[mx := default 0 (acc.1 !! mx) + 1]> acc.1, acc.2 + 1) else acc)
  end.

(** [fill_migrate_machine()] *)
Definition fill_migrate_machine : groupM Z := fun g =>
  let t := tables g in
  let! (machines, count) := fill_loop (m_hash_table t) (d_hash_table t) (server_bucket_count t)
      (server_copy_count t) (Z.to_nat (server_bucket_count t)) 0 (∅, 0) in
  Ret (count, set_migrate_machine (fun _ => machines) g).

(** The loop of [set_migrating_hashtable]: the new table, and whether it changed *)
Fixpoint copy_column (d : list Z) (buckets bucket : Z) (n : nat) (i : Z) (m : list Z) (changed : bool)
    : outcome (list Z * bool) :=
  match n with
  | O => Ret (m, changed)
  | S n' =>
      let idx := u32 (i * buckets + bucket) in
      let! mx := at_ m idx in
      let! dx := at_ d idx in
      if negb (mx =? dx) then
        let! m := set_at m idx dx in copy_column d buckets bucket n' (i + 1) m true
      else copy_column d buckets bucket n' (i + 1) m changed
  end.

(** [set_migrating_hashtable(bucket_id, server_id)]; [bucket_id] is a [size_t]. *)
Definition set_migrating_hashtable (bucket server : Z) : groupM unit := fun g =>
  let t := tables g in
  if (server_bucket_count t <? bucket) || negb (is_migrating g) then Ret (tt, g)
  else
    let! owner := at_ (m_hash_table t) bucket in
    if negb (owner =? server) then Ret (tt, g)
    else
      let! (m, changed) := copy_column (d_hash_table t) (server_bucket_count t) bucket
          (Z.to_nat (server_copy_count t)) 0 (m_hash_table t) false in
      if negb changed then Ret (tt, g)
      else
        let g := set_tables (fun t => set_migrate_block_count (fun c => c - 1) (set_m_hash_table (fun _ => m) t)) g in
        match migrate_machine g !! server with
        | None => Abort
        | Some n =>
            let machines := if n - 1 =? 0 then delete server (migrate_machine g)
                            else <[server := n - 1]> (migrate_machine g) in
            Ret (tt, set_should_syn_mig_info (fun _ => true) (set_migrate_machine (fun _ => machines) g))
        end.

(** [do_finish_migrate(server_id, server_version, bucket_id, slave)]; the
    bucket is an [int]. *)
Definition do_finish_migrate (server version bucket : Z) : groupM bool :=
  let* g := sget in
  if negb (data_need_move g =? TAIR_DATA_NEED_MIGRATE) then sret false
  else if negb (version =? server_version (tables g)) then sret false
  else let* _ := set_migrating_hashtable (u64 bucket) server in sret true.

(** [do_proxy_report(req)] *)
Fixpoint report_buckets (server : Z) (buckets : list Z) : groupM unit :=
  match buckets with
  | [] => sret tt
  | b :: rest => let* _ := set_migrating_hashtable b server in report_buckets server rest
  end.
Definition do_proxy_report (server : Z) (buckets : list Z) : groupM unit :=
  let* g := sget in
  if is_migrating g && negb (bool_decide (server ∈ reported_serverid g)) then
    let* _ := smodify (set_reported_serverid (union {[server]})) in
    report_buckets server buckets
  else sret tt.

Definition hard_check_migrate_complete : groupM unit := smodify (fun g =>
  if bool_decide (m_hash_table (tables g) = d_hash_table (tables g))
  then set_migrate_machine (fun _ => ∅) g else g).

(** [get_migrating_machines]: the entries of the map in the order of the keys *)
Definition key_le (a b : Z * Z) : Prop := a.1 <= b.1.
#[export] Instance key_le_dec a b : Decision (key_le a b).
Proof. unfold key_le. apply _. Defined.
Definition get_migrating_machines (g : group) : list (Z * Z) :=
  merge_sort key_le (map_to_list (migrate_machine g)).

(** Is a server unknown or down? *)
Definition is_down (g : group) (id : Z) : bool :=
  match servers g !! id with None => true | Some i => status i =? DOWN end.

Section compress.
Context (compress : list Z -> option (list Z)).

(** [deflate_hash_table()] *)
Definition deflate : groupM unit := fun g =>
  let! (client, server) := deflate_hash_table compress (tables g) in
  Ret (tt, set_client_deflated (fun _ => client) (set_server_deflated (fun _ => server) g)).

(** [check_migrate_complete(slave)] *)
Definition check_migrate_complete (slave : Z) : groupM bool :=
  let* g := sget in
  if negb (data_need_move g =? TAIR_DATA_NEED_MIGRATE) || negb (is_migrating g) then sret true
  else if decide (migrate_machine g = ∅) then
    need* bool_decide (m_hash_table (tables g) = d_hash_table (tables g)) in
    let* _ := inc_client_version 1 in
    let* _ := inc_server_version 1 in
    let* _ := smodify (set_tables (fun t => set_hash_table (fun _ => d_hash_table t) t)) in
    let* _ := deflate in
    let* _ := smodify (set_tables (set_migrate_block_count (fun _ => -1))) in
    let* _ := smodify (set_reported_serverid (fun _ => ∅)) in
    let* _ := smodify (set_should_syn_mig_info (fun _ => false)) in
    let* _ := send_server_table_packet slave in
    sret true
  else if existsb (is_down g) (map fst (map_to_list (migrate_machine g))) then sret true
  else
    let* _ := (if should_syn_mig_info g then
                 let* _ := send_server_table_packet slave in
                 smodify (set_should_syn_mig_info (fun _ => false))
               else sret tt) in
    sret false.

(** ** Who is alive *)

(** [get_up_node(upnode_list)]: the ids of the live nodes; a node not heard of
    for half of [server_down_time] whose port does not answer goes down. *)
Fixpoint up_nodes (now : Z) (alive : Z -> bool) (nodes : list Z) (servers : gmap Z server_info)
    : outcome (list Z * gmap Z server_info) :=
  match nodes with
  | [] => Ret ([], servers)
  | id :: rest =>
      match servers !! id with
      | None => Overrun
      | Some i =>
          if negb (status i =? DOWN) then
            if (last_time i <? now) && ((status i =? ALIVE) && negb (alive id)) || (status i =? FORCE_DOWN)
            then up_nodes now alive rest (<[id := set_status DOWN i]> servers)
            else let! (l, servers) := up_nodes now alive rest servers in Ret (id :: l, servers)
          else up_nodes now alive rest servers
      end
  end.
Definition get_up_node (now : Z) (alive : Z -> bool) : groupM (list Z) := fun g =>
  let! (l, servers) := up_nodes (now - Z.quot (server_down_time g + 1) 2) alive (node_list g) (servers g) in
  Ret (l, set_g_available (fun _ => list_to_set l) (set_servers (fun _ => servers) g)).

(** [find_available_server()] *)
Definition find_available_server : groupM unit := smodify (fun g =>
  set_g_available (fun _ => list_to_set (filter (fun id => is_down g id = false) (node_list g))) g).

(** [correct_server_info(is_sync)] *)
Definition correct_server_info (is_sync : bool) : groupM unit := smodify (fun g =>
  let live := filter (fun x => x <> 0) (d_hash_table (tables g)) in
  if decide (live = []) then g
  else set_servers (fun servers =>
    foldl (fun servers id =>
      if decide (id ∈ live) then alter (set_status ALIVE) id servers
      else if is_sync then alter (set_status DOWN) id servers else servers) servers (node_list g)) g).

(** [write_server_table_packet(data, size)]: the other config server's file *)
Definition write_server_table_packet (data : conf_table) : groupM bool :=
  let* g := sget in
  if get_SVR_table_size (tables g) =? get_SVR_table_size data then
    let* _ := smodify (set_tables (fun t => set_hash_table (fun _ => hash_table data)
        (set_m_hash_table (fun _ => m_hash_table data) (set_d_hash_table (fun _ => d_hash_table data) t)))) in
    let* _ := deflate in
    let* _ := smodify (set_tables (fun _ => set_last_load_config_time (fun _ => 0) data)) in
    let* _ := (if 0 <? migrate_block_count data then let* _ := fill_migrate_machine in sret tt else sret tt) in
    let* _ := set_table_builded in
    let* _ := correct_server_info true in
    let* _ := find_available_server in
    sret true
  else sret false.

(** ** Rebuilding the tables *)

(** [select_build_strategy(ava_server)] *)
Definition select_build_strategy (servers : list Z) (g : group) : Z :=
  let pos_count := count_pos servers (g_pos_mask g) [] in
  if decide (length pos_count <= 1)%nat then 1
  else
    let pos_max := (largest_pos pos_count 0).1 in
    let size := Z.of_nat (length servers) in
    let ratio := f32_div (f32_of_Z (Z.abs (size - pos_max - pos_max))) (f32_of_Z pos_max) in
    if SFltb (diff_ratio g) ratio || (size <? copies_of g) || SFltb f64_0_9999 (f64_of_f32 ratio)
    then 1 else 2.

(** A new builder with the tables of the group: [set_available] is the
    builder's [set_available_server]. *)
Definition new_builder {X} (buckets copies : Z) (x : X) : builder X :=
  mk_builder ∅ 0 ∅ [] ∅ [] [] [] [] ∅ ∅ TAIR_POS_MASK buckets copies [] x.

(** Was there no table yet? *)
Definition is_first_run (g : group) : bool :=
  forallb (fun x => x =? 0) (take (Z.to_nat (get_hash_table_size (tables g))) (m_hash_table (tables g))).

(** [write_hash_table(table, p)] into an array *)
Definition write_over (p old : list Z) : list Z := p ++ drop (length p) old.

(** The servers of a single copy that are gone get their place in the new table
    at once. *)
Fixpoint replace_lost (available : gset Z) (d : list Z) (n : nat) (i : Z) (mh : list Z * list Z)
    : outcome (list Z * list Z) :=
  match n with
  | O => Ret mh
  | S n' =>
      let! mx := at_ mh.1 i in
      if bool_decide (mx ∈ available) then replace_lost available d n' (i + 1) mh
      else
        let! dx := at_ d i in
        let! h := set_at mh.2 i dx in
        let! m := set_at mh.1 i dx in
        replace_lost available d n' (i + 1) (m, h)
  end.

Definition abandon (slave : Z) : groupM unit :=
  let* _ := inc_client_version 1 in
  let* _ := inc_server_version 1 in
  let* _ := send_server_table_packet slave in
  unlock.

(** The second half of [rebuild]: the new tables are installed. *)
Definition install (slave : Z) (first_run : bool) (quick dest : list Z) : groupM unit :=
  let* _ := smodify (set_tables (set_d_hash_table (write_over dest))) in
  let* g := sget in
  let* _ := (if (data_need_move g =? TAIR_DATA_NEED_MIGRATE) && negb first_run then
      let* _ := smodify (set_tables (set_m_hash_table (write_over quick))) in
      let* _ := smodify (set_tables (set_hash_table (write_over quick))) in
      let* g := sget in
      if copies_of g <=? 1 then
        let* mh := slift (replace_lost (g_available g) (d_hash_table (tables g))
                     (Z.to_nat (u32 (buckets_of g * copies_of g))) 0
                     (m_hash_table (tables g), hash_table (tables g))) in
        smodify (set_tables (fun t => set_m_hash_table (fun _ => mh.1) (set_hash_table (fun _ => mh.2) t)))
      else sret tt
    else
      let* _ := smodify (set_tables (set_m_hash_table (write_over dest))) in
      smodify (set_tables (set_hash_table (write_over dest)))) in
  let* diff_count := (if first_run then sret 0 else fill_migrate_machine) in
  let* _ := smodify (set_tables (set_migrate_block_count (fun _ => if 0 <? diff_count then diff_count else -1))) in
  let* _ := inc_client_version 1 in
  let* _ := inc_server_version 1 in
  let* _ := inc_area_capacity_version in
  let* _ := deflate in
  let* _ := send_server_table_packet slave in
  let* _ := unlock in
  let* _ := set_group_status true in
  set_OK true.

(** The body of [rebuild] for one kind of builder: [fresh] is the builder with
    its available servers, [run] its [rebuild_table]. *)
Definition rebuild_with {X} (fresh : builder X) (run : bool -> stM (builder X) Z)
    (slave : Z) (first_run : bool) : groupM unit :=
  let* g := sget in
  let width := Z.to_nat (buckets_of g) in
  let* (_, loaded) := slift (load_hash_table (m_hash_table (tables g)) fresh) in
  let quick_wanted := (data_need_move g =? TAIR_DATA_NEED_MIGRATE) && (1 <? copies_of g) && negb first_run in
  let* (quick_ok, after) := slift (if quick_wanted then build_quick_table loaded else Ret (true, loaded)) in
  if negb quick_ok then
    let* _ := set_OK false in abandon slave
  else
    let* _ := unlock in
    let* (ret, built) := slift (run true (set_table (fun _ => table loaded) after)) in
    let* _ := wrlock in
    if ret =? BUILD_ERROR then
      let* _ := set_group_status false in
      let* _ := set_OK false in
      abandon slave
    else
      let* dest := slift (write_hash_table width (table built)) in
      let* quick := slift (write_hash_table width (table after)) in
      install slave first_run quick dest.

(** [rebuild(slave, lock, ...)]; [uninit] are the members a new [table_builder2]
    does not initialise. *)
Definition rebuild (now : Z) (alive : Z -> bool) (uninit : rack_first) (zero : load_first) (slave : Z)
    : groupM unit :=
  let* _ := wrlock in
  let* nodes := get_up_node now alive in
  let* g := sget in
  let size := Z.of_nat (length nodes) in
  let first_run := is_first_run g in
  if s32 size <? s32 (min_data_server_count g) then abandon slave
  else
    let strategy := if build_strategy g =? 3 then select_build_strategy nodes g else build_strategy g in
    let fresh {X} (x : X) := set_pos_mask (g_pos_mask g) (new_builder (buckets_of g) (copies_of g) x) in
    if strategy =? 1 then
      rebuild_with (set_available_server_base nodes (fresh zero)) (fun b => rebuild_table b) slave first_run
    else if strategy =? 2 then
      let x := mk_rack_first (build_stat_normal uninit) (diff_ratio g) (pos_max uninit)
        (max_machine_room_id uninit) (mtokens_per_node_min uninit) (mtokens_per_node_max_count uninit)
        (mtokens_per_node_min_count uninit) (otokens_per_node_min uninit)
        (otokens_per_node_max_count uninit) (otokens_per_node_min_count uninit) in
      rebuild_with (set_available_server2 nodes (fresh x)) rebuild_table2 slave first_run
    else sret tt.
End compress.
