(* ===== verification/Migration.v ===== *)
(** * Migrations

    The protocol between the config server and the data servers of a group: the
    config server counts the buckets whose copies must move, every data server
    finds the same buckets in the table it gets, copies them and reports them,
    and when the last one is reported the destination table becomes the
    current one. *)

From Stdlib Require Import SpecFloat.
From S2P Require Import Prelude TableManager TableBuilder TableStrategies ConfTable GroupInfo.

(** ** The buckets to migrate *)

Section needs.
Context (buckets copies : Z).

(** The slaves of a bucket *)
Definition slaves (t : list Z) (i : Z) : list Z := map (fun k => cell t (i + k * buckets)) (seqZ 1 (copies - 1)).

(** Its copies are the same in both tables. *)
Definition same_column (m d : list Z) (i : Z) : Prop :=
  forall l, 0 <= l < copies -> cell m (i + l * buckets) = cell d (i + l * buckets).

(** What [fill_migrate_machine] counts *)
Definition needs (m d : list Z) (i : Z) : bool :=
  negb (cell m i =? 0)
  && (negb (cell m i =? cell d i) || negb (bool_decide (Forall (fun x => x ∈ slaves m i) (slaves d i)))).

Definition pending_of (m d : list Z) (s : Z) : Z :=
  count (fun i => needs m d i && (cell m i =? s)) (Z.to_nat buckets).
Definition pending (m d : list Z) : Z := count (needs m d) (Z.to_nat buckets).

(** A positive number, or no entry *)
Definition entry_of (n : Z) : option Z := if 0 <? n then Some n else None.

Context (m d : list Z).
Hypothesis Hb : 0 < buckets.
Hypothesis Hc : 0 < copies.
Hypothesis Hm : Z.of_nat (length m) = buckets * copies.
Hypothesis Hd : Z.of_nat (length d) = buckets * copies.

Lemma slave_missing_spec i n j :
  0 <= i < buckets -> 1 <= j -> j + Z.of_nat n = copies ->
  slave_missing m d buckets copies i n j
  = Ret (negb (bool_decide (Forall (fun x => x ∈ slaves m i)
                              (map (fun k => cell d (i + k * buckets)) (seqZ j (Z.of_nat n)))))).
Proof.
  intros Hi. revert j. induction n as [|n IH]; intros j Hj Hn; [done|].
  cbn [slave_missing]. rewrite at_cell by nia. cbn [obind].
  rewrite in_stride_spec by nia. cbn [obind]. rewrite (seqZ_cons j) by lia.
  replace (Z.pred (Z.of_nat (S n))) with (Z.of_nat n) by lia. cbn [map].
  assert (map (fun k => cell m (buckets + i + k * buckets)) (seqZ 0 (Z.of_nat (Z.to_nat (copies - 1)))) = slaves m i) as ->.
  { unfold slaves. rewrite Z2Nat.id by lia. rewrite <- (fmap_add_seqZ 1 0). rewrite map_map.
    apply map_ext. intros k. f_equal. lia. }
  replace (j * buckets + i) with (i + j * buckets) by lia.
  destruct (decide (cell d (i + j * buckets) ∈ slaves m i)) as [D|D].
  - rewrite bool_decide_true by done. cbn [negb]. rewrite (IH (j + 1)) by lia. replace (Z.succ j) with (j + 1) by lia.
    f_equal. f_equal. apply bool_decide_ext. rewrite list.Forall_cons. tauto.
  - rewrite bool_decide_false by done. cbn [negb]. rewrite bool_decide_false; [done|].
    intros Hf. by apply list.Forall_cons in Hf as [? _].
Qed.

Lemma migrate_this_bucket_spec i :
  0 <= i < buckets -> migrate_this_bucket m d buckets copies i = Ret (needs m d i).
Proof.
  intros Hi. unfold migrate_this_bucket, needs. rewrite at_cell by nia. cbn [obind].
  destruct (cell m i =? 0); cbn [negb andb]; [done|]. rewrite at_cell by nia. cbn [obind].
  destruct (cell m i =? cell d i); cbn [negb orb]; [|done].
  rewrite slave_missing_spec by lia. unfold slaves. by rewrite Z2Nat.id by lia.
Qed.

Lemma fill_loop_spec n i acc :
  (i + n = Z.to_nat buckets)%nat ->
  (forall s, acc.1 !! s = entry_of (count (fun i => needs m d i && (cell m i =? s)) i)) ->
  acc.2 = count (needs m d) i ->
  exists machines, fill_loop m d buckets copies n (Z.of_nat i) acc = Ret (machines, pending m d)
    /\ forall s, machines !! s = entry_of (pending_of m d s).
Proof.
  revert i acc. induction n as [|n IH]; intros i acc Hn Hs Ht.
  { exists acc.1. unfold pending, pending_of. replace (Z.to_nat buckets) with i by lia.
    split; [|done]. cbn [fill_loop]. rewrite <- Ht. by destruct acc. }
  cbn [fill_loop]. rewrite migrate_this_bucket_spec by lia. cbn [obind]. rewrite at_cell by nia. cbn [obind].
  replace (Z.of_nat i + 1) with (Z.of_nat (S i)) by lia. apply IH; [lia| |].
  - intros s. cbn [count]. destruct (needs m d (Z.of_nat i)); cbn [fst andb Z.b2z]; [|by rewrite Z.add_0_r].
    pose proof (count_bounds (fun i => needs m d i && (cell m i =? s)) i) as Hbnd.
    destruct (Z.eqb_spec (cell m (Z.of_nat i)) s) as [<-|D]; cbn [Z.b2z].
    + rewrite lookup_insert_eq, Hs. unfold entry_of.
      destruct (Z.ltb_spec 0 (count (fun i0 => needs m d i0 && (cell m i0 =? cell m (Z.of_nat i))) i));
        rewrite (proj2 (Z.ltb_lt _ _)) by lia; simpl; f_equal; lia.
    + rewrite lookup_insert_ne by done. by rewrite Z.add_0_r.
  - cbn [count]. destruct (needs m d (Z.of_nat i)); cbn [snd Z.b2z]; lia.
Qed.


Lemma place_inj i l i' l' :
  0 <= i < buckets -> 0 <= i' < buckets -> i + l * buckets = i' + l' * buckets -> i = i' /\ l = l'.
Proof. clear m d Hm Hd. intros Hi Hi' E. assert (l = l') by nia. split; [nia|done]. Qed.

(** Copying a column *)
Lemma copy_column_spec i n l m1 changed :
  buckets * copies < 2 ^ 32 -> 0 <= i < buckets -> 0 <= l -> l + Z.of_nat n = copies -> length m1 = length m ->
  exists m' c, copy_column d buckets i n l m1 changed = Ret (m', c)
    /\ (c = false <-> changed = false /\ forall k, l <= k < copies -> cell m1 (i + k * buckets) = cell d (i + k * buckets))
    /\ length m' = length m
    /\ forall i' k, 0 <= i' < buckets -> 0 <= k < copies ->
         cell m' (i' + k * buckets) = if decide (i' = i /\ l <= k) then cell d (i' + k * buckets)
                                      else cell m1 (i' + k * buckets).
Proof.
  intros Hmax Hi. revert l m1 changed. induction n as [|n IH]; intros l m1 changed Hl Hn Hlen.
  { exists m1, changed. split; [done|]. split; [split; [intros; split; [done|lia]|by intros []]|].
    split; [done|]. intros i' k Hi' Hk. by rewrite decide_False by lia. }
  cbn [copy_column]. rewrite (wrap_id 32 (l * buckets + i)) by (unfold in_u; nia).
  replace (l * buckets + i) with (i + l * buckets) by lia.
  rewrite !at_cell by nia. cbn [obind].
  destruct (Z.eqb_spec (cell m1 (i + l * buckets)) (cell d (i + l * buckets))) as [E|E]; cbn [negb].
  - destruct (IH (l + 1) m1 changed) as (m' & c & -> & Hch & Hl' & Hcell); [lia|lia|done|]. exists m', c.
    split; [done|split; [|split; [done|]]].
    + rewrite Hch. split; intros [Ho Hk]; (split; [done|]); intros k Hr; [|apply Hk; lia].
      destruct (decide (k = l)) as [->|]; [done|]. apply Hk. lia.
    + intros i' k Hi' Hk. rewrite Hcell by done.
      destruct (decide (i' = i /\ l <= k)) as [[-> Hlk]|D]; [|by rewrite decide_False by lia].
      destruct (decide (k = l)) as [->|]; [by rewrite decide_False by lia|]. by rewrite decide_True by lia.
  - rewrite set_at_run by nia. cbn [obind].
    destruct (IH (l + 1) (<[Z.to_nat (i + l * buckets) := cell d (i + l * buckets)]> m1) true) as (m' & c & -> & Hch & Hl' & Hcell);
      [lia|lia|by rewrite length_insert|]. exists m', c.
    split; [done|split; [|split; [done|]]].
    + rewrite Hch. split; [by intros []|]. intros [_ Hk]. exfalso. apply E, Hk. lia.
    + intros i' k Hi' Hk. rewrite Hcell by done.
      rewrite cell_insert by nia.
      destruct (decide (i + l * buckets = i' + k * buckets)) as [Ep|Ep].
      * destruct (place_inj i l i' k Hi Hi' Ep) as [<- <-].
        rewrite decide_False, decide_True by lia. done.
      * destruct (decide (i' = i /\ l <= k)) as [[-> Hlk]|D]; [|by rewrite decide_False by lia].
        destruct (decide (k = l)) as [->|]; [done|]. by rewrite decide_True by lia.
Qed.
End needs.

Lemma count_at P n i : 0 <= i < Z.of_nat n -> P i = true -> 0 < count P n.
Proof.
  intros Hi HP. pose proof (count_update P (fun j => if j =? i then false else P j) n i Hi) as Hu.
  cbv beta in Hu. rewrite Z.eqb_refl, HP in Hu. cbn [Z.b2z] in Hu.
  pose proof (count_bounds (fun j => if j =? i then false else P j) n) as Hcb.
  rewrite Hu in Hcb; [lia|]. intros j Hne. by rewrite (proj2 (Z.eqb_neq _ _) Hne).
Qed.

Lemma count_update_range P Q n i :
  0 <= i < Z.of_nat n -> (forall j, 0 <= j < Z.of_nat n -> j <> i -> P j = Q j) ->
  count Q n = count P n - Z.b2z (P i) + Z.b2z (Q i).
Proof.
  intros Hi HPQ. rewrite (count_ext Q (fun j => if j =? i then Q j else P j)).
  - rewrite (count_update P _ n i Hi); [by rewrite Z.eqb_refl|].
    intros j Hj. by rewrite (proj2 (Z.eqb_neq _ _) Hj).
  - intros j Hj. destruct (Z.eqb_spec j i) as [->|D]; [done|]. symmetry. by apply HPQ.
Qed.

Lemma same_column_slaves buckets copies m d i :
  same_column buckets copies m d i -> slaves buckets copies m i = slaves buckets copies d i.
Proof.
  intros Hs. unfold slaves. apply list_eq. intros n. rewrite !list_lookup_fmap.
  destruct (seqZ 1 (copies - 1) !! n) as [k|] eqn:E; [|done]. apply lookup_seqZ in E as [-> Hk]. simpl.
  f_equal. apply Hs. lia.
Qed.

Lemma same_column_cell buckets copies m d i : 0 < copies -> same_column buckets copies m d i -> cell m i = cell d i.
Proof. intros Hc Hs. specialize (Hs 0 ltac:(lia)). by rewrite Z.mul_0_l, Z.add_0_r in Hs. Qed.

Lemma needs_ext buckets copies m m' d i :
  0 < copies -> same_column buckets copies m m' i -> needs buckets copies m d i = needs buckets copies m' d i.
Proof.
  intros Hc Hs. unfold needs. rewrite (same_column_cell buckets copies m m' i Hc Hs).
  by rewrite (same_column_slaves buckets copies m m' i Hs).
Qed.

Lemma same_column_done buckets copies m d i :
  0 < copies -> same_column buckets copies m d i -> needs buckets copies m d i = false.
Proof.
  intros Hc Hs. rewrite (needs_ext buckets copies m d d i Hc Hs). unfold needs. rewrite Z.eqb_refl.
  rewrite bool_decide_true by by apply list.Forall_forall. by destruct (cell d i =? 0).
Qed.

Lemma same_column_trans buckets copies a b c i :
  same_column buckets copies a b i -> same_column buckets copies b c i -> same_column buckets copies a c i.
Proof. intros H1 H2 l Hl. by rewrite H1, H2. Qed.

(** ** The state of a migration *)

Record tables_ok (t : conf_table) : Prop := {
  to_buckets : 0 < server_bucket_count t;
  to_copies : 0 < server_copy_count t;
  to_max : server_bucket_count t * server_copy_count t < 2 ^ 29;
  to_h : Z.of_nat (length (hash_table t)) = server_bucket_count t * server_copy_count t;
  to_m : Z.of_nat (length (m_hash_table t)) = server_bucket_count t * server_copy_count t;
  to_d : Z.of_nat (length (d_hash_table t)) = server_bucket_count t * server_copy_count t
}.

Abbreviation column_is g := (same_column (buckets_of g) (copies_of g)).
Abbreviation to_do g := (needs (buckets_of g) (copies_of g) (m_hash_table (tables g)) (d_hash_table (tables g))).

(** The counters agree with the tables, and what is not counted is done. *)
Record migrating (g : group) : Prop := {
  mg_tables : tables_ok (tables g);
  mg_move : data_need_move g = TAIR_DATA_NEED_MIGRATE;
  mg_machines : forall s, migrate_machine g !! s =
    entry_of (pending_of (buckets_of g) (copies_of g) (m_hash_table (tables g)) (d_hash_table (tables g)) s);
  mg_count : migrate_block_count (tables g) =
    pending (buckets_of g) (copies_of g) (m_hash_table (tables g)) (d_hash_table (tables g));
  mg_exact : forall i, 0 <= i < buckets_of g -> to_do g i = false ->
    column_is g (m_hash_table (tables g)) (d_hash_table (tables g)) i
}.

(** What a migration does not touch *)
Definition frame (g : group) :=
  (hash_table (tables g), d_hash_table (tables g), server_bucket_count (tables g), server_copy_count (tables g),
   client_version (tables g), server_version (tables g), min_config_version g, servers g, grp_locked g).

(** A later state of the migration: every bucket is where it was or where it
    should be. *)
Record advanced (g g' : group) : Prop := {
  ad_frame : frame g' = frame g;
  ad_columns : forall i, 0 <= i < buckets_of g ->
    column_is g (m_hash_table (tables g')) (m_hash_table (tables g)) i
    \/ column_is g (m_hash_table (tables g')) (d_hash_table (tables g)) i
}.

Lemma frame_fields g g' :
  frame g' = frame g ->
  hash_table (tables g') = hash_table (tables g) /\ d_hash_table (tables g') = d_hash_table (tables g)
  /\ buckets_of g' = buckets_of g /\ copies_of g' = copies_of g
  /\ client_version (tables g') = client_version (tables g) /\ server_version (tables g') = server_version (tables g)
  /\ min_config_version g' = min_config_version g /\ servers g' = servers g /\ grp_locked g' = grp_locked g.
Proof. unfold frame, buckets_of, copies_of. intros E. injection E as ? ? ? ? ? ? ? ? ?. by repeat split. Qed.

Lemma advanced_refl g : advanced g g.
Proof. split; [done|]. intros i Hi. by left. Qed.

Lemma advanced_trans g1 g2 g3 : advanced g1 g2 -> advanced g2 g3 -> advanced g1 g3.
Proof.
  intros [F1 C1] [F2 C2]. destruct (frame_fields _ _ F1) as (Eh & Ed & Eb & Ec & _).
  split; [congruence|]. intros i Hi. specialize (C2 i ltac:(lia)). rewrite Ec, Eb, Ed in C2.
  destruct C2 as [H2|H2]; [|by right]. destruct (C1 i Hi) as [H1|H1]; [left|right]; by eapply same_column_trans.
Qed.

Lemma is_migrating_true g : migrating g -> is_migrating g = true.
Proof.
  intros [_ _ _ Hc _]. unfold is_migrating. rewrite Hc. unfold pending.
  pose proof (count_bounds (to_do g) (Z.to_nat (buckets_of g))).
  destruct (Z.eqb_spec (count (to_do g) (Z.to_nat (buckets_of g))) (-1)); [lia|done].
Qed.

(** *** One finished bucket *)

Section finish.
Context (g : group) (bucket : Z).
Hypothesis Hg : migrating g.
Hypothesis Hbucket : 0 <= bucket < buckets_of g.

#[local] Abbreviation t := (tables g).
#[local] Abbreviation server := (cell (m_hash_table t) bucket).

Lemma finish_counts m' :
  length m' = length (m_hash_table t) ->
  (forall i k, 0 <= i < buckets_of g -> 0 <= k < copies_of g ->
     cell m' (i + k * buckets_of g) = if decide (i = bucket) then cell (d_hash_table t) (i + k * buckets_of g)
                                      else cell (m_hash_table t) (i + k * buckets_of g)) ->
  to_do g bucket = true ->
  (forall s, pending_of (buckets_of g) (copies_of g) m' (d_hash_table t) s =
     pending_of (buckets_of g) (copies_of g) (m_hash_table t) (d_hash_table t) s - (if decide (s = server) then 1 else 0))
  /\ pending (buckets_of g) (copies_of g) m' (d_hash_table t) =
     pending (buckets_of g) (copies_of g) (m_hash_table t) (d_hash_table t) - 1
  /\ 1 <= pending_of (buckets_of g) (copies_of g) (m_hash_table t) (d_hash_table t) server.
Proof.
  intros Hlen Hcell Htodo. destruct (mg_tables _ Hg) as [Hb Hc _ _ _ _].
  fold (buckets_of g) in Hb. fold (copies_of g) in Hc.
  assert (same_column (buckets_of g) (copies_of g) m' (d_hash_table t) bucket) as Hdone.
  { intros k Hk. rewrite Hcell by done. by rewrite decide_True. }
  assert (forall j, 0 <= j < buckets_of g -> j <> bucket ->
    needs (buckets_of g) (copies_of g) (m_hash_table t) (d_hash_table t) j
    = needs (buckets_of g) (copies_of g) m' (d_hash_table t) j /\ cell (m_hash_table t) j = cell m' j) as Hother.
  { intros j Hj Hne. assert (same_column (buckets_of g) (copies_of g) (m_hash_table t) m' j) as Hs.
    { intros k Hk. rewrite Hcell by done. by rewrite decide_False. }
    split; [by apply needs_ext|by eapply same_column_cell]. }
  unfold pending_of, pending. split; [|split].
  - intros s. rewrite (count_update_range (fun i => to_do g i && (cell (m_hash_table t) i =? s)) _ _ bucket);
      [|lia|intros j Hj Hne; destruct (Hother j ltac:(lia) Hne) as [-> ->]; done].
    rewrite (same_column_done _ _ _ _ _ Hc Hdone), Htodo. cbn [andb Z.b2z].
    destruct (Z.eqb_spec server s) as [->|D]; [by rewrite decide_True by done; simpl; lia|].
    rewrite decide_False by congruence. simpl. lia.
  - rewrite (count_update_range (to_do g) _ _ bucket);
      [|lia|intros j Hj Hne; destruct (Hother j ltac:(lia) Hne) as [-> _]; done].
    rewrite (same_column_done _ _ _ _ _ Hc Hdone), Htodo. simpl. lia.
  - enough (0 < count (fun i => to_do g i && (cell (m_hash_table t) i =? server)) (Z.to_nat (buckets_of g))) by lia.
    apply (count_at _ _ bucket); [lia|]. by rewrite Htodo, Z.eqb_refl.
Qed.
End finish.

Lemma entry_of_pred n : entry_of (n - 1) = match entry_of n with
  | Some k => if k - 1 =? 0 then None else Some (k - 1) | None => None end.
Proof.
  unfold entry_of. destruct (Z.ltb_spec 0 n), (Z.ltb_spec 0 (n - 1)); try lia; try done;
    destruct (Z.eqb_spec (n - 1) 0); (lia || done).
Qed.

(** The record of the group after a bucket of [server] was copied *)
Definition bucket_done (m' : list Z) (server n : Z) (g : group) : group :=
  set_should_syn_mig_info (fun _ => true) (set_migrate_machine
    (fun _ => if n - 1 =? 0 then delete server (migrate_machine g) else <[server := n - 1]> (migrate_machine g))
    (set_tables (fun t => set_migrate_block_count (fun c => c - 1) (set_m_hash_table (fun _ => m') t)) g)).

Lemma bucket_done_migrating g bucket m' n :
  migrating g -> 0 <= bucket < buckets_of g -> length m' = length (m_hash_table (tables g)) ->
  (forall i k, 0 <= i < buckets_of g -> 0 <= k < copies_of g ->
     cell m' (i + k * buckets_of g) = if decide (i = bucket) then cell (d_hash_table (tables g)) (i + k * buckets_of g)
                                      else cell (m_hash_table (tables g)) (i + k * buckets_of g)) ->
  to_do g bucket = true ->
  migrate_machine g !! cell (m_hash_table (tables g)) bucket = Some n ->
  migrating (bucket_done m' (cell (m_hash_table (tables g)) bucket) n g).
Proof.
  intros Hg Hbucket Hlen Hcell Htodo Hn.
  destruct (finish_counts g bucket Hg Hbucket m' Hlen Hcell Htodo) as (Hs & Ht & _).
  destruct Hg as [[Hb Hc Hmax Hh Hm Hd] Hmove Hmach Hcount Hexact].
  split; [split; try done; simpl; lia|done| | |].
  - intros s. specialize (Hs s). specialize (Hmach s). cbn. unfold buckets_of, copies_of in *. rewrite Hs. clear Hs.
    destruct (decide (s = cell (m_hash_table (tables g)) bucket)) as [->|D].
    + rewrite entry_of_pred, <- Hmach, Hn.
      destruct (n - 1 =? 0); [by rewrite lookup_delete_eq|by rewrite lookup_insert_eq].
    + rewrite Z.sub_0_r, <- Hmach. destruct (n - 1 =? 0); [by rewrite lookup_delete_ne|by rewrite lookup_insert_ne].
  - cbn. unfold buckets_of, copies_of in *. rewrite Hcount. cbn. by rewrite Ht.
  - intros i Hi Hdone k Hk. change (0 <= k < copies_of g) in Hk. change (0 <= i < buckets_of g) in Hi.
    change (cell m' (i + k * buckets_of g) = cell (d_hash_table (tables g)) (i + k * buckets_of g)).
    rewrite Hcell by done. destruct (decide (i = bucket)) as [->|D]; [done|]. apply Hexact; [done| |done].
    rewrite <- Hdone. cbn. unfold buckets_of, copies_of in *. apply needs_ext; [done|].
    intros l Hl. symmetry. rewrite Hcell by done. by rewrite decide_False.
Qed.

(** The column of [bucket] is taken over when [server] is its master. *)
Definition taken (g g' : group) (server bucket : Z) : Prop :=
  0 <= bucket < buckets_of g -> cell (m_hash_table (tables g)) bucket = server ->
  column_is g (m_hash_table (tables g')) (d_hash_table (tables g)) bucket.

Lemma set_migrating_run g bucket server :
  migrating g -> 0 <= bucket -> bucket <> buckets_of g ->
  exists g', set_migrating_hashtable bucket server g = Ret (tt, g')
    /\ migrating g' /\ advanced g g' /\ taken g g' server bucket.
Proof.
  intros Hg H0 Hne. unfold set_migrating_hashtable. rewrite (is_migrating_true g Hg). cbn [negb]. rewrite orb_false_r.
  pose proof (mg_tables g Hg) as [Hb Hc Hmax _ Hm Hd]. fold (buckets_of g) in *. fold (copies_of g) in *.
  destruct (Z.ltb_spec (buckets_of g) bucket).
  { exists g. split; [done|]. split; [done|]. split; [apply advanced_refl|]. intros ?; lia. }
  rewrite at_cell by nia. cbn [obind].
  destruct (Z.eqb_spec (cell (m_hash_table (tables g)) bucket) server) as [E|E]; cbn [negb].
  2:{ exists g. split; [done|]. split; [done|]. split; [apply advanced_refl|]. by intros _ ?. }
  destruct (copy_column_spec (buckets_of g) (copies_of g) (m_hash_table (tables g)) (d_hash_table (tables g))
    Hb Hc Hm Hd bucket (Z.to_nat (copies_of g)) 0 (m_hash_table (tables g)) false)
    as (m' & c & -> & Hch & Hlen & Hcell); [lia|lia|lia|lia|done|]. cbn [obind].
  destruct c; cbn [negb].
  - assert (to_do g bucket = true) as Htodo.
    { apply not_false_iff_true. intros Hdone. destruct Hch as [_ Hch]. discriminate Hch.
      split; [done|]. intros k Hk. by apply (mg_exact g Hg bucket ltac:(lia) Hdone). }
    assert (forall i k, 0 <= i < buckets_of g -> 0 <= k < copies_of g ->
     cell m' (i + k * buckets_of g) = if decide (i = bucket) then cell (d_hash_table (tables g)) (i + k * buckets_of g)
                                      else cell (m_hash_table (tables g)) (i + k * buckets_of g)) as Hcell'.
    { intros i k Hi Hk. rewrite Hcell by done.
      destruct (decide (i = bucket)); [by rewrite decide_True by lia|by rewrite decide_False by tauto]. }
    destruct (finish_counts g bucket Hg ltac:(lia) m' Hlen Hcell' Htodo) as (_ & _ & Hpos).
    destruct (migrate_machine g !! server) as [n|] eqn:En.
    2:{ rewrite <- E, (mg_machines g Hg) in En. unfold entry_of in En.
        rewrite (proj2 (Z.ltb_lt _ _)) in En by lia. done. }
    exists (bucket_done m' server n g). split; [cbn; by rewrite En|]. split; [|split].
    + subst server. apply bucket_done_migrating; (done || lia).
    + split; [done|]. intros i Hi. destruct (decide (i = bucket)) as [->|D]; [right|left];
        intros k Hk; cbn; rewrite Hcell' by done; [by rewrite decide_True|by rewrite decide_False].
    + intros _ _ k Hk. cbn. rewrite Hcell' by (done || lia). by rewrite decide_True.
  - exists g. split; [done|]. split; [done|]. split; [apply advanced_refl|].
    intros _ _ k Hk. by apply Hch.
Qed.

(** ** Messages *)

Inductive message :=
  | Finish (server version bucket : Z)
  | Report (server : Z) (buckets : list Z)
  | Inquire (slave : Z)
  | HardCheck.

Definition handle (compress : list Z -> option (list Z)) (e : message) : groupM unit :=
  match e with
  | Finish server version bucket => let* _ := do_finish_migrate server version bucket in sret tt
  | Report server buckets => do_proxy_report server buckets
  | Inquire slave => let* _ := check_migrate_complete compress slave in sret tt
  | HardCheck => hard_check_migrate_complete
  end.
Fixpoint handle_all (compress : list Z -> option (list Z)) (l : list message) : groupM unit :=
  match l with
  | [] => sret tt
  | e :: l => let* _ := handle compress e in handle_all compress l
  end.

(** The only bucket number that a message must not carry is the one just past
    the table, which the guard of [set_migrating_hashtable] lets pass. *)
Definition message_ok (buckets : Z) (e : message) : Prop :=
  match e with
  | Finish _ _ bucket => - 2 ^ 31 <= bucket < 2 ^ 31 /\ bucket <> buckets
  | Report _ l => Forall (fun b => 0 <= b /\ b <> buckets) l
  | _ => True
  end.

(** ** Complete *)

(** The state after the migration that started in [g0]: the destination table
    is in use, and the versions went up once. *)
Record completed (g0 g : group) : Prop := {
  cp_done : migrate_block_count (tables g) = -1;
  cp_h : hash_table (tables g) = d_hash_table (tables g0);
  cp_m : m_hash_table (tables g) = d_hash_table (tables g0);
  cp_d : d_hash_table (tables g) = d_hash_table (tables g0);
  cp_client : client_version (tables g) = inc_value g0 1 (client_version (tables g0));
  cp_server : server_version (tables g) = inc_value g0 1 (server_version (tables g0))
}.

(** What holds at any time after [g0] *)
Definition migration_phase (g0 g : group) : Prop := (migrating g /\ advanced g0 g) \/ completed g0 g.

Lemma pending_machine g i :
  migrating g -> 0 <= i < buckets_of g -> to_do g i = true ->
  is_Some (migrate_machine g !! cell (m_hash_table (tables g)) i).
Proof.
  intros Hg Hi Htodo. rewrite (mg_machines g Hg). unfold entry_of.
  rewrite (proj2 (Z.ltb_lt _ _)); [by eexists|].
  apply (count_at _ _ i); [lia|]. by rewrite Htodo, Z.eqb_refl.
Qed.

Lemma same_columns_eq buckets copies p p' :
  0 < buckets -> Z.of_nat (length p) = buckets * copies -> Z.of_nat (length p') = buckets * copies ->
  (forall i, 0 <= i < buckets -> same_column buckets copies p p' i) -> p = p'.
Proof.
  intros Hb Hp Hp' Hcol. apply cells_eq; [lia|]. intros j Hj.
  pose proof (Z.div_mod j buckets ltac:(lia)). pose proof (Z.mod_pos_bound j buckets Hb).
  replace j with (j mod buckets + j / buckets * buckets) by lia.
  apply Hcol; [done|]. split; [apply Z.div_pos; lia|]. apply Z.div_lt_upper_bound; lia.
Qed.

Lemma no_machine_no_bucket g :
  migrating g -> migrate_machine g = ∅ -> m_hash_table (tables g) = d_hash_table (tables g).
Proof.
  intros Hg Hempty. pose proof (mg_tables g Hg) as [Hb Hc _ _ Hm Hd]. fold (buckets_of g) (copies_of g) in *.
  assert (forall i, 0 <= i < buckets_of g -> column_is g (m_hash_table (tables g)) (d_hash_table (tables g)) i) as Hcol.
  { intros i Hi. apply (mg_exact g Hg i Hi). apply not_true_iff_false. intros Htodo.
    destruct (pending_machine g i Hg Hi Htodo) as [n En]. by rewrite Hempty, lookup_empty in En. }
  apply (same_columns_eq (buckets_of g) (copies_of g)); (done || lia).
Qed.

Lemma check_migrate_completes compress slave g :
  migrating g -> migrate_machine g = ∅ ->
  exists g', check_migrate_complete compress slave g = Ret (true, g') /\ completed g g'.
Proof.
  intros Hg Hempty. pose proof (no_machine_no_bucket g Hg Hempty) as Heq. pose proof (is_migrating_true g Hg) as Hmig.
  destruct Hg as [[Hb Hc Hmax Hh Hm Hd] Hmove _ _ _].
  unfold check_migrate_complete. rewrite (sbind_run _ _ _ _ _ (eq_refl (sget g))). rewrite Hmove, Hmig. rewrite Z.eqb_refl. cbn [negb orb].
  rewrite decide_True by done. rewrite sassert_run by by rewrite Heq, bool_decide_true.
  cbn. unfold sbind, smodify. cbn. unfold deflate. cbn.
  match goal with |- context [deflate_hash_table compress ?t] =>
    destruct (deflate_hash_table_run compress t) as [[c s] ->]; try done; [cbn; lia|] end.
  cbn. eexists. split; [done|]. unfold send_server_table_packet. 
  destruct (slave =? 0); (split; cbn; [done..|by rewrite Heq|done|done|done]).
Qed.

Lemma advanced_completed g0 g g' : advanced g0 g -> completed g g' -> completed g0 g'.
Proof.
  intros Ha []. destruct (frame_fields _ _ (ad_frame _ _ Ha)) as (_ & Ed & _ & _ & Ec & Es & Emin & _).
  assert (forall v, inc_value g 1 v = inc_value g0 1 v) as Hi by (intros v; unfold inc_value; by rewrite Emin).
  rewrite Hi in *. split; congruence.
Qed.

Lemma report_buckets_run server l g :
  migrating g -> Forall (fun b => 0 <= b /\ b <> buckets_of g) l ->
  exists g', report_buckets server l g = Ret (tt, g') /\ migrating g' /\ advanced g g'
    /\ forall b, b ∈ l -> taken g g' server b.
Proof.
  revert g. induction l as [|b l IH]; intros g Hg Hl.
  { exists g. split; [done|]. split; [done|]. split; [apply advanced_refl|]. by intros b ?%elem_of_nil. }
  apply list.Forall_cons in Hl as [[H0 Hne] Hl]. cbn [report_buckets].
  destruct (set_migrating_run g b server Hg H0 Hne) as (g1 & E1 & Hg1 & Ha1 & Ht1).
  rewrite (sbind_run _ _ _ _ _ E1). destruct (frame_fields _ _ (ad_frame _ _ Ha1)) as (_ & Ed & Eb & Ec & _).
  destruct (IH g1 Hg1) as (g2 & E2 & Hg2 & Ha2 & Ht2); [by rewrite Eb|].
  exists g2. split; [done|]. split; [done|]. split; [by eapply advanced_trans|].
  intros b' Hb' Hr Hown. pose proof (ad_columns _ _ Ha2) as Hc2. rewrite Eb, Ec, Ed in Hc2.
  apply elem_of_cons in Hb' as [->|Hb'].
  - destruct (Hc2 b Hr) as [Hc|Hc]; [|done]. eapply same_column_trans; [exact Hc|]. by apply Ht1.
  - destruct (Hc2 b' Hr) as [Hc|Hc]; [|done].
    destruct (ad_columns _ _ Ha1 b' Hr) as [Hc1|Hc1]; [|by eapply same_column_trans].
    pose proof (Ht2 b' Hb') as Ht. unfold taken in Ht. rewrite Eb, Ec, Ed in Ht. apply Ht; [done|].
    rewrite <- Hown. apply (same_column_cell (buckets_of g) (copies_of g)); [|done].
    apply (to_copies _ (mg_tables _ Hg)).
Qed.

(** A table reported by a server whose report was not seen yet, and a bucket
    reported as finished under the current version, are taken. *)
Definition reports (e : message) (g : group) (server bucket : Z) : Prop :=
  match e with
  | Finish s version b => s = server /\ version = server_version (tables g) /\ b = bucket
  | Report s l => s = server /\ (s ∉ reported_serverid g) /\ bucket ∈ l
  | _ => False
  end.

(** The fields a migration is about *)
Lemma migrating_same g g' :
  migrating g -> tables g' = tables g -> data_need_move g' = data_need_move g -> migrate_machine g' = migrate_machine g ->
  min_config_version g' = min_config_version g -> servers g' = servers g -> grp_locked g' = grp_locked g ->
  migrating g' /\ advanced g g'.
Proof.
  intros [] Et Ed Em Ev Es El. unfold buckets_of, copies_of in *. split.
  - split; rewrite ?Ed, ?Em; unfold buckets_of, copies_of; by rewrite ?Et.
  - split; [unfold frame; by rewrite Et, Ev, Es, El|]. intros i Hi. left. by rewrite Et.
Qed.

Lemma do_finish_run g server version bucket :
  migrating g -> - 2 ^ 31 <= bucket < 2 ^ 31 -> bucket <> buckets_of g ->
  exists b g', do_finish_migrate server version bucket g = Ret (b, g') /\ migrating g' /\ advanced g g'
    /\ (version = server_version (tables g) -> taken g g' server bucket).
Proof.
  intros Hg Hr Hne. pose proof (mg_tables g Hg) as [Hb Hc Hmax _ _ _]. fold (buckets_of g) (copies_of g) in *.
  unfold do_finish_migrate. rewrite (sbind_run _ _ _ _ _ (eq_refl (sget g))), (mg_move g Hg), Z.eqb_refl. cbn [negb].
  destruct (Z.eqb_spec version (server_version (tables g))) as [E|E]; cbn [negb].
  - assert (u64 bucket <> buckets_of g /\ (0 <= bucket -> u64 bucket = bucket)) as [Hu Hi].
    { unfold wrap. split; [|intros; apply Z.mod_small; lia]. destruct (decide (0 <= bucket)).
      - by rewrite Z.mod_small by lia.
      - rewrite <- (Z_mod_plus_full bucket 1), Z.mod_small by lia. nia. }
    destruct (set_migrating_run g (u64 bucket) server Hg) as (g' & Es & Hg' & Ha & Ht);
      [apply (wrap_bound 64); lia|done|].
    exists true, g'. split; [by rewrite (sbind_run _ _ _ _ _ Es)|]. split; [done|]. split; [done|].
    intros _ Hrange. rewrite Hi in Ht by lia. by apply Ht.
  - exists false, g. split; [done|]. split; [done|]. split; [apply advanced_refl|done].
Qed.

Lemma do_proxy_run g server l :
  migrating g -> Forall (fun b => 0 <= b /\ b <> buckets_of g) l ->
  exists g', do_proxy_report server l g = Ret (tt, g') /\ migrating g' /\ advanced g g'
    /\ (server ∉ reported_serverid g -> forall b, b ∈ l -> taken g g' server b).
Proof.
  intros Hg Hl. unfold do_proxy_report.
  rewrite (sbind_run _ _ _ _ _ (eq_refl (sget g))), (is_migrating_true g Hg). cbn [andb].
  destruct (decide (server ∈ reported_serverid g)) as [D|D].
  - rewrite bool_decide_true by done. exists g. split; [done|]. split; [done|]. split; [apply advanced_refl|done].
  - rewrite bool_decide_false by done. cbn [negb].
    set (g1 := set_reported_serverid (union {[server]}) g). rewrite (sbind_run _ _ g tt g1) by done.
    destruct (migrating_same g g1 Hg) as [Hg1 Ha1]; [done..|].
    destruct (report_buckets_run server l g1 Hg1 Hl) as (g' & E & Hg' & Ha & Ht).
    exists g'. split; [done|]. split; [done|]. split; [by eapply advanced_trans|]. intros _. exact Ht.
Qed.

Lemma hard_check_run g :
  migrating g -> exists g', hard_check_migrate_complete g = Ret (tt, g') /\ migrating g' /\ advanced g g'.
Proof.
  intros Hg. unfold hard_check_migrate_complete, smodify. eexists. split; [done|].
  destruct (decide (m_hash_table (tables g) = d_hash_table (tables g))) as [E|E].
  - rewrite bool_decide_true by done. destruct (decide (migrate_machine g = ∅)) as [Em|Em].
    { by apply migrating_same. }
    exfalso. apply Em. apply map_eq. intros s. rewrite lookup_empty, (mg_machines g Hg).
    unfold entry_of. destruct (Z.ltb_spec 0 (pending_of (buckets_of g) (copies_of g)
      (m_hash_table (tables g)) (d_hash_table (tables g)) s)) as [Hp|]; [|done].
    apply Prelude.count_pos in Hp as (i & Hi & [Hn _]%andb_prop).
    rewrite E, same_column_done in Hn; [done|apply (to_copies _ (mg_tables g Hg))|by intros k Hk].
  - rewrite bool_decide_false by done. split; [done|apply advanced_refl].
Qed.

Lemma check_migrate_run compress slave g :
  migrating g -> exists b g', check_migrate_complete compress slave g = Ret (b, g')
    /\ (migrate_machine g <> ∅ /\ migrating g' /\ advanced g g' \/ completed g g').
Proof.
  intros Hg. destruct (decide (migrate_machine g = ∅)) as [E|E].
  { destruct (check_migrate_completes compress slave g Hg E) as (g' & -> & Hc). exists true, g'. split; [done|by right]. }
  unfold check_migrate_complete. rewrite (sbind_run _ _ _ _ _ (eq_refl (sget g))).
  rewrite (mg_move g Hg), (is_migrating_true g Hg), Z.eqb_refl. cbn [negb orb]. rewrite decide_False by done.
  destruct (existsb _ _).
  { exists true, g. split; [done|]. left. split; [done|]. split; [done|apply advanced_refl]. }
  assert (forall g' (b : bool), tables g' = tables g -> data_need_move g' = data_need_move g ->
    migrate_machine g' = migrate_machine g -> min_config_version g' = min_config_version g ->
    servers g' = servers g -> grp_locked g' = grp_locked g ->
    exists (b1 : bool) g1, Ret (b, g') = Ret (b1, g1) /\ (migrate_machine g <> ∅ /\ migrating g1 /\ advanced g g1 \/ completed g g1))
    as Hsame.
  { intros g' b ? ? ? ? ? ?. exists b, g'. split; [done|]. left. split; [done|]. by apply migrating_same. }
  destruct (should_syn_mig_info g); [|by apply Hsame].
  cbn. unfold sbind, smodify, send_server_table_packet. cbn. destruct (slave =? 0); by apply Hsame.
Qed.

Lemma handle_migrating compress e g :
  migrating g -> message_ok (buckets_of g) e ->
  exists g', handle compress e g = Ret (tt, g')
    /\ ((migrating g' /\ advanced g g' /\ forall s b, reports e g s b -> taken g g' s b) \/ completed g g').
Proof.
  intros Hg He. destruct e as [server version bucket|server l|slave|]; cbn [handle message_ok] in *.
  - destruct (do_finish_run g server version bucket Hg) as (b & g' & E & Hg' & Ha & Ht); [tauto..|].
    exists g'. split; [by rewrite (sbind_run _ _ _ _ _ E)|]. left. split; [done|]. split; [done|].
    intros s i (<- & Ev & <-). by apply Ht.
  - destruct (do_proxy_run g server l Hg He) as (g' & E & Hg' & Ha & Ht).
    exists g'. split; [done|]. left. split; [done|]. split; [done|]. intros s i (<- & Hs & Hi). by apply Ht.
  - destruct (check_migrate_run compress slave g Hg) as (b & g' & E & Hcase).
    exists g'. split; [by rewrite (sbind_run _ _ _ _ _ E)|]. destruct Hcase as [(_ & ? & ?)|?]; [left|by right].
    split; [done|]. split; [done|]. by intros s i [].
  - destruct (hard_check_run g Hg) as (g' & E & Hg' & Ha). exists g'. split; [done|]. left.
    split; [done|]. split; [done|]. by intros s i [].
Qed.

Lemma handle_completed compress e g0 g :
  completed g0 g -> exists g', handle compress e g = Ret (tt, g') /\ completed g0 g'.
Proof.
  intros Hg. assert (is_migrating g = false) as Hmig by (unfold is_migrating; by rewrite (cp_done _ _ Hg)).
  destruct e as [server version bucket|server l|slave|]; cbn [handle].
  - unfold do_finish_migrate, sbind, sget, sret. cbn. exists g. split; [|done].
    destruct (negb (data_need_move g =? _)); [done|]. destruct (negb (version =? _)); [done|].
    unfold set_migrating_hashtable. by rewrite Hmig, orb_true_r.
  - exists g. split; [|done]. unfold do_proxy_report. by rewrite (sbind_run _ _ _ _ _ (eq_refl (sget g))), Hmig.
  - exists g. split; [|done]. unfold check_migrate_complete.
    unfold sbind at 1. rewrite (sbind_run _ _ _ _ _ (eq_refl (sget g))). by rewrite Hmig, orb_true_r.
  - eexists. split; [done|]. destruct Hg. by destruct (bool_decide _).
Qed.

(** ** The two sides count the same buckets *)

Lemma cell_app_l a b i : 0 <= i < Z.of_nat (length a) -> cell (a ++ b) i = cell a i.
Proof. intros Hi. unfold cell. by rewrite lookup_app_l by lia. Qed.
Lemma cell_app_r a b i : Z.of_nat (length a) <= i -> cell (a ++ b) i = cell b (i - Z.of_nat (length a)).
Proof. intros Hi. unfold cell. rewrite lookup_app_r by lia. do 2 f_equal. lia. Qed.

Section two_sides.
Context (buckets copies : Z) (h d : list Z).
Hypothesis Hb : 0 < buckets.
Hypothesis Hc : 0 < copies.
Hypothesis Hh : Z.of_nat (length h) = buckets * copies.

Lemma column_current i :
  0 <= i < buckets -> TableManager.column buckets copies (h ++ d) 0 i = cell h i :: slaves buckets copies h i.
Proof.
  intros Hi. unfold TableManager.column, slaves. rewrite (seqZ_cons 0) by lia. cbn [map].
  rewrite cell_app_l by nia. f_equal; [f_equal; lia|]. replace (Z.pred copies) with (copies - 1) by lia.
  apply List.map_ext_in. intros k Hk%list_elem_of_In%elem_of_seqZ. rewrite cell_app_l by nia. f_equal; lia.
Qed.

Lemma column_destination i :
  0 <= i < buckets ->
  TableManager.column buckets copies (h ++ d) (buckets * copies) i = cell d i :: slaves buckets copies d i.
Proof.
  intros Hi. unfold TableManager.column, slaves. rewrite (seqZ_cons 0) by lia. cbn [map].
  rewrite cell_app_r by nia. f_equal; [f_equal; lia|]. replace (Z.pred copies) with (copies - 1) by lia.
  apply List.map_ext_in. intros k Hk%list_elem_of_In%elem_of_seqZ. rewrite cell_app_r by nia. f_equal; lia.
Qed.

Lemma migration_needs ip i :
  0 <= i < buckets -> ip <> 0 -> cell h i = ip -> one_copy ip buckets copies (h ++ d) (buckets * copies) ->
  is_Some (migration buckets copies (h ++ d) i) <-> needs buckets copies h d i = true.
Proof.
  intros Hi Hip Hown Hone. unfold migration, needs. rewrite column_current, column_destination by done.
  rewrite cell_app_l, cell_app_r by nia. replace (buckets * copies + i - Z.of_nat (length h)) with i by lia.
  rewrite (proj2 (Z.eqb_neq _ _)) by congruence. cbn [negb andb].
  set (targets := filter _ _).
  assert (cell h i = cell d i -> targets = [] <-> Forall (fun x => x ∈ slaves buckets copies h i) (slaves buckets copies d i)) as Ht.
  { intros E. rewrite list.Forall_forall. split.
    - intros Hn x Hx. destruct (decide (x ∈ cell h i :: slaves buckets copies h i)) as [[->|Hin]%elem_of_cons|Hnot]; [|done|].
      + exfalso. apply list_elem_of_fmap in Hx as (k & Ek & Hk%elem_of_seqZ).
        enough (0 = k) by lia. apply (Hone i); [done|lia|lia| |].
        * rewrite cell_app_r by nia. rewrite <- Hown, E. f_equal. lia.
        * rewrite cell_app_r by nia. rewrite <- Hown, Ek. f_equal. lia.
      + assert (x ∈ targets) as Hx' by (apply list_elem_of_filter; split; [done|by right]).
        rewrite Hn in Hx'. by apply elem_of_nil in Hx'.
    - intros Hall. destruct targets as [|x l] eqn:Et; [done|]. exfalso.
      assert (x ∈ targets) as [Hnot Hx]%list_elem_of_filter by (rewrite Et; by left). apply Hnot.
      apply elem_of_cons in Hx as [->|Hx]; [rewrite E; by left|right; by apply Hall]. }
  destruct (decide (targets = [] /\ cell h i = cell d i)) as [[Hn E]|D].
  - rewrite E, Z.eqb_refl, bool_decide_true by by apply Ht. split; [intros [? ?]; done|done].
  - split; [intros _|by eexists]. destruct (Z.eqb_spec (cell h i) (cell d i)) as [E|E]; cbn [negb orb]; [|done].
    rewrite bool_decide_false; [done|]. rewrite <- Ht by done. tauto.
Qed.
End two_sides.
