(* ===== verification/MigrationTheorems.v ===== *)
(** * What a migration guarantees

    The properties of the protocol of [Migration]: whatever messages arrive and
    in whatever order, the tables of the group stay coherent; the data servers
    look for exactly the buckets the config server waits for; when they have all
    reported, the migration completes. *)

From Stdlib Require Import SpecFloat.
From S2P Require Import Prelude TableManager TableBuilder TableStrategies ConfTable GroupInfo Migration.

Lemma handle_all_phase compress l g0 g :
  migration_phase g0 g -> Forall (message_ok (buckets_of g0)) l ->
  exists g', handle_all compress l g = Ret (tt, g') /\ migration_phase g0 g'.
Proof.
  revert g. induction l as [|e l IH]; intros g Hp Hl; [by exists g|].
  apply list.Forall_cons in Hl as [He Hl]. cbn [handle_all]. destruct Hp as [[Hg Ha]|Hcp].
  - destruct (frame_fields _ _ (ad_frame _ _ Ha)) as (_ & _ & Eb & _).
    destruct (handle_migrating compress e g Hg) as (g1 & E & Hcase); [by rewrite Eb|].
    rewrite (sbind_run _ _ _ _ _ E). apply IH; [|done]. destruct Hcase as [(Hg1 & Ha1 & _)|Hcp].
    + left. split; [done|]. by eapply advanced_trans.
    + right. by eapply advanced_completed.
  - destruct (handle_completed compress e g0 g Hcp) as (g1 & E & Hcp1).
    rewrite (sbind_run _ _ _ _ _ E). apply IH; [by right|done].
Qed.

Lemma handle_all_app compress l1 l2 g :
  handle_all compress (l1 ++ l2) g = let! (_, g1) := handle_all compress l1 g in handle_all compress l2 g1.
Proof.
  revert g. induction l1 as [|e l1 IH]; intros g; [done|]. cbn [app handle_all]. unfold sbind.
  destruct (handle compress e g) as [[[] g1]| | | |]; cbn; [apply IH|done..].
Qed.

Lemma completed_not_migrating g0 g : completed g0 g -> ~ migrating g.
Proof.
  intros Hcp Hg. pose proof (mg_count g Hg) as Hcount. rewrite (cp_done _ _ Hcp) in Hcount.
  pose proof (count_bounds (to_do g) (Z.to_nat (buckets_of g))) as Hcb. unfold pending in Hcount. lia.
Qed.

(** Every bucket was taken over, or its master's report is still to come. *)
Lemma handle_all_finishes compress l g0 g :
  migration_phase g0 g -> Forall (message_ok (buckets_of g0)) l ->
  (forall i, 0 <= i < buckets_of g0 -> to_do g0 i = true -> migrating g ->
     column_is g0 (m_hash_table (tables g)) (d_hash_table (tables g0)) i
     \/ Finish (cell (m_hash_table (tables g0)) i) (server_version (tables g0)) i ∈ l) ->
  exists g', handle_all compress l g = Ret (tt, g') /\ migration_phase g0 g'
    /\ (migrating g' -> advanced g0 g' ->
        forall i, 0 <= i < buckets_of g0 -> to_do g0 i = true ->
          column_is g0 (m_hash_table (tables g')) (d_hash_table (tables g0)) i).
Proof.
  revert g. induction l as [|e l IH]; intros g Hp Hl Hrep.
  { exists g. split; [done|]. split; [done|]. intros Hg _ i Hi Ht.
    destruct (Hrep i Hi Ht Hg) as [?|?%elem_of_nil]; done. }
  apply list.Forall_cons in Hl as [He Hl]. cbn [handle_all]. destruct Hp as [[Hg Ha]|Hcp].
  - destruct (frame_fields _ _ (ad_frame _ _ Ha)) as (_ & Ed & Eb & Ec & _ & Es & _).
    destruct (handle_migrating compress e g Hg) as (g1 & E & Hcase); [by rewrite Eb|].
    rewrite (sbind_run _ _ _ _ _ E). apply IH; [|done|].
    + destruct Hcase as [(Hg1 & Ha1 & _)|Hcp]; [left|right]; [|by eapply advanced_completed].
      split; [done|]. by eapply advanced_trans.
    + intros i Hi Ht Hg1. destruct Hcase as [(_ & Ha1 & Htaken)|Hcp].
      2:{ by destruct (completed_not_migrating _ _ Hcp). }
      pose proof (ad_columns _ _ Ha1 i) as Hc1. rewrite Eb, Ec, Ed in Hc1.
      destruct (Hrep i Hi Ht Hg) as [Hdone|Hin].
      * left. destruct (Hc1 Hi) as [Hc|Hc]; [|done]. by eapply same_column_trans.
      * apply elem_of_cons in Hin as [<-|Hin]; [left|by right].
        destruct (ad_columns _ _ Ha i Hi) as [Hsame|Hsame].
        -- specialize (Htaken (cell (m_hash_table (tables g0)) i) i). unfold taken in Htaken.
           rewrite Eb, Ec, Ed in Htaken. apply Htaken; [by cbn; rewrite Es|done|].
           apply (same_column_cell (buckets_of g0) (copies_of g0)); [|done].
           rewrite <- Ec. apply (to_copies _ (mg_tables _ Hg)).
        -- destruct (Hc1 Hi) as [Hc|Hc]; [|done]. by eapply same_column_trans.
  - destruct (handle_completed compress e g0 g Hcp) as (g1 & E & Hcp1).
    rewrite (sbind_run _ _ _ _ _ E). apply IH; [by right|done|].
    intros i Hi Ht Hg1. by destruct (completed_not_migrating _ _ Hcp1).
Qed.

Lemma all_taken_no_machine g0 g :
  migrating g0 -> migrating g -> advanced g0 g ->
  (forall i, 0 <= i < buckets_of g0 -> to_do g0 i = true ->
    column_is g0 (m_hash_table (tables g)) (d_hash_table (tables g0)) i) ->
  migrate_machine g = ∅.
Proof.
  intros Hg0 Hg Ha Hall. apply map_eq. intros s. rewrite lookup_empty, (mg_machines g Hg).
  unfold entry_of. destruct (Z.ltb_spec 0 (pending_of (buckets_of g) (copies_of g)
    (m_hash_table (tables g)) (d_hash_table (tables g)) s)) as [Hp|]; [|done]. exfalso.
  apply Prelude.count_pos in Hp as (i & Hi & [Hn _]%andb_prop).
  destruct (frame_fields _ _ (ad_frame _ _ Ha)) as (_ & Ed & Eb & Ec & _).
  pose proof (mg_tables _ Hg) as [Hb Hc _ _ _ _]. fold (buckets_of g) (copies_of g) in *.
  rewrite same_column_done in Hn; [done|done|]. rewrite Ed, Eb, Ec in *.
  destruct (to_do g0 i) eqn:Et; [apply Hall; [lia|done]|].
  pose proof (mg_exact g0 Hg0 i ltac:(lia) Et) as Hex.
  destruct (ad_columns _ _ Ha i ltac:(lia)) as [Hs|Hs]; [by eapply same_column_trans|done].
Qed.

(** ** Theorems *)

(** *** An example: two buckets, two copies; server 7 takes the place of 5. *)

Definition moving : group :=
  mk_group (mk_conf_table 4 4 1 1 0 2 2 2 [5; 6; 6; 5] [5; 6; 6; 5] [7; 6; 6; 7])
    (<[5 := mk_server_info 0 0]> (<[6 := mk_server_info 0 0]> (<[7 := mk_server_info 0 0]> ∅))) [5; 6; 7] 0
    TAIR_DATA_NEED_MIGRATE 0 1 (<[5 := 1]> (<[6 := 1]> ∅)) false true true 1 4 (f32_of_Z 0) TAIR_POS_MASK
    {[5; 6; 7]} ∅ None None [] false.

Lemma moving_migrates : migrating moving.
Proof.
  split; [split; (done || (cbn; lia))|done| |by vm_compute|].
  - intros s. unfold pending_of.
    rewrite (count_ext _ (fun i => (if i =? 0 then 5 =? s else 6 =? s))).
    2:{ intros i Hi. assert (i = 0 \/ i = 1) as [-> | ->] by (change (Z.of_nat (Z.to_nat (buckets_of moving))) with 2 in Hi; lia); done. }
    change (Z.to_nat (buckets_of moving)) with 2%nat. cbn [count].
    change (Z.of_nat 0 =? 0) with true. change (Z.of_nat 1 =? 0) with false. cbv iota.
    change (migrate_machine moving) with (<[5 := 1]> (<[6 := 1]> (∅ : gmap Z Z))).
    destruct (decide (s = 5)) as [->|H5]; [by vm_compute|]. rewrite lookup_insert_ne by done.
    destruct (decide (s = 6)) as [->|H6]; [by vm_compute|]. rewrite lookup_insert_ne, lookup_empty by done.
    destruct (Z.eqb_spec 5 s), (Z.eqb_spec 6 s); (done || congruence).
  - intros i Hi Hdone. assert (i = 0 \/ i = 1) as [-> | ->] by (change (buckets_of moving) with 2 in Hi; lia);
      vm_compute in Hdone; discriminate.
Qed.


(** C28: a migration is orderly.  In a group that starts to migrate, with any
    finish messages, proxy reports and inquiries in any order, repeated, late
    or from servers that are not concerned, and with any bucket numbers but one,
    no assertion of the config server fails and it stays inside its tables.  The
    one number is [bucket_count], just past the table, which the guard lets
    through ([message_ok] excludes it; see C32).  As long as the migration is not complete,
    the current table and the versions are those of the start, every bucket of
    the migration table is in its old or in its new place, and the counter is
    the number of the buckets that still must move.  When it is complete the
    destination table is the current one and the versions went up once. *)
Theorem migration_is_orderly compress l g0 :
  migrating g0 -> Forall (message_ok (buckets_of g0)) l ->
  exists g, handle_all compress l g0 = Ret (tt, g) /\ d_hash_table (tables g) = d_hash_table (tables g0)
    /\ ((hash_table (tables g) = hash_table (tables g0)
          /\ client_version (tables g) = client_version (tables g0)
          /\ server_version (tables g) = server_version (tables g0)
          /\ (forall i, 0 <= i < buckets_of g0 ->
                column_is g0 (m_hash_table (tables g)) (m_hash_table (tables g0)) i
                \/ column_is g0 (m_hash_table (tables g)) (d_hash_table (tables g0)) i)
          /\ migrate_block_count (tables g)
             = pending (buckets_of g0) (copies_of g0) (m_hash_table (tables g)) (d_hash_table (tables g0)))
        \/ (is_migrating g = false
          /\ hash_table (tables g) = d_hash_table (tables g0) /\ m_hash_table (tables g) = d_hash_table (tables g0)
          /\ client_version (tables g) = inc_value g0 1 (client_version (tables g0))
          /\ server_version (tables g) = inc_value g0 1 (server_version (tables g0)))).
Proof.
  intros Hg0 Hl. destruct (handle_all_phase compress l g0 g0) as (g & E & Hp);
    [left; split; [done|apply advanced_refl]|done|].
  exists g. split; [done|]. destruct Hp as [[Hg Ha]|Hcp].
  - destruct (frame_fields _ _ (ad_frame _ _ Ha)) as (Eh & Ed & Eb & Ec & Ecv & Esv & _).
    split; [done|]. left. split; [done|]. split; [done|]. split; [done|]. split; [apply (ad_columns _ _ Ha)|].
    by rewrite (mg_count g Hg), Eb, Ec, Ed.
  - split; [apply Hcp|]. right. split; [unfold is_migrating; by rewrite (cp_done _ _ Hcp)|].
    split; [apply Hcp|]. split; [apply Hcp|]. split; apply Hcp.
Qed.

(** A late report, a repeated one and one of another version change nothing. *)
Lemma migration_is_orderly_witness :
  exists g, handle_all (fun _ => None) [Finish 5 3 0; Finish 6 4 1; Finish 6 4 1; Inquire 0; Finish 7 4 (-1)] moving = Ret (tt, g)
    /\ d_hash_table (tables g) = [7; 6; 6; 7].
Proof.
  destruct (migration_is_orderly (fun _ => None)
    [Finish 5 3 0; Finish 6 4 1; Finish 6 4 1; Inquire 0; Finish 7 4 (-1)] moving moving_migrates) as (g & E & Ed & _).
  - repeat constructor; cbn; lia.
  - exists g. exact (conj E Ed).
Defined.

(** C29: a migration ends.  When the master of every bucket that must move
    reports it with the current version, in whatever order and among whatever
    other messages, the next inquiry completes the migration. *)
Theorem migration_completes compress l slave g0 :
  migrating g0 -> Forall (message_ok (buckets_of g0)) l ->
  (forall i, 0 <= i < buckets_of g0 -> to_do g0 i = true ->
     Finish (cell (m_hash_table (tables g0)) i) (server_version (tables g0)) i ∈ l) ->
  exists g, handle_all compress (l ++ [Inquire slave]) g0 = Ret (tt, g) /\ is_migrating g = false
    /\ hash_table (tables g) = d_hash_table (tables g0) /\ m_hash_table (tables g) = d_hash_table (tables g0)
    /\ client_version (tables g) = inc_value g0 1 (client_version (tables g0))
    /\ server_version (tables g) = inc_value g0 1 (server_version (tables g0)).
Proof.
  intros Hg0 Hl Hrep.
  destruct (handle_all_finishes compress l g0 g0) as (g1 & E1 & Hp1 & Hdone);
    [left; split; [done|apply advanced_refl]|done|intros; right; by apply Hrep|].
  assert (exists g, handle_all compress [Inquire slave] g1 = Ret (tt, g) /\ completed g0 g) as (g & E & Hcp).
  { cbn [handle_all handle]. destruct Hp1 as [[Hg1 Ha1]|Hcp1].
    - pose proof (all_taken_no_machine g0 g1 Hg0 Hg1 Ha1 (Hdone Hg1 Ha1)) as Hempty.
      destruct (check_migrate_completes compress slave g1 Hg1 Hempty) as (g & E & Hcp).
      exists g. split; [|by eapply advanced_completed]. unfold sbind. by rewrite E.
    - destruct (handle_completed compress (Inquire slave) g0 g1 Hcp1) as (g & E & Hcp).
      exists g. split; [|done]. cbn [handle] in E. by rewrite (sbind_run _ _ _ _ _ E). }
  exists g. rewrite handle_all_app, E1. split; [exact E|].
  split; [unfold is_migrating; by rewrite (cp_done _ _ Hcp)|]. split; [apply Hcp|]. split; [apply Hcp|]. split; apply Hcp.
Qed.

Lemma migration_completes_witness :
  exists g, handle_all (fun _ => None) ([Finish 6 4 1; Finish 5 4 0] ++ [Inquire 0]) moving = Ret (tt, g)
    /\ hash_table (tables g) = [7; 6; 6; 7].
Proof.
  destruct (migration_completes (fun _ => None) [Finish 6 4 1; Finish 5 4 0] 0 moving moving_migrates)
    as (g & E & _ & Eh & _).
  - repeat constructor; cbn; lia.
  - intros i Hi _. assert (i = 0 \/ i = 1) as [-> | ->] by (change (buckets_of moving) with 2 in Hi; lia).
    + right. left.
    + left.
  - exists g. exact (conj E Eh).
Defined.

(** C30: the two sides agree on the work.  A data server that gets the tables
    of a group in which the migration has not moved anything yet finds, as the
    buckets it must migrate, exactly those the config server counts for it. *)
Theorem data_server_finds_its_work g ip tm :
  migrating g -> m_hash_table (tables g) = hash_table (tables g) -> ip <> 0 ->
  let t := hash_table (tables g) ++ d_hash_table (tables g) in
  let size := buckets_of g * copies_of g in
  one_copy ip (buckets_of g) (copies_of g) t 0 -> one_copy ip (buckets_of g) (copies_of g) t size ->
  NoDup (holding_buckets tm) ->
  exists tm', do_update_table ip t (Z.of_nat (length t)) (server_version (tables g)) (copies_of g) (buckets_of g) tm = Ret tm'
    /\ forall i, is_Some (migrates tm' !! i) <->
         0 <= i < buckets_of g /\ to_do g i = true /\ cell (m_hash_table (tables g)) i = ip.
Proof.
  intros Hg Em Hip t size H0 H1 Hn. pose proof (mg_tables g Hg) as [Hb Hc Hmax Hh _ Hd].
  fold (buckets_of g) (copies_of g) in *.
  destruct (update_table_derived ip (buckets_of g) (copies_of g) true t (server_version (tables g)) tm)
    as (tm' & E & Hder); [done|done|lia|unfold t; rewrite length_app; lia|done|done|].
  exists tm'. split; [done|]. intros i. rewrite (de_migrates _ _ _ _ _ _ _ _ Hder), Em.
  destruct (decide (0 <= i < buckets_of g /\ true = true /\ cell t i = ip)) as [(Hi & _ & Hown)|D].
  - unfold t in *. rewrite cell_app_l in Hown by nia.
    rewrite (migration_needs (buckets_of g) (copies_of g) _ _ Hb Hc Hh ip i Hi Hip Hown H1). tauto.
  - split; [intros [? ?]; done|]. intros (Hi & _ & Hown). destruct D. split; [done|]. split; [done|].
    unfold t. by rewrite cell_app_l by nia.
Qed.

Lemma data_server_finds_its_work_witness :
  exists tm', do_update_table 6 [5; 6; 6; 5; 7; 6; 6; 7] 8 4 2 2 new_table_manager = Ret tm'
    /\ is_Some (migrates tm' !! 1).
Proof.
  destruct (data_server_finds_its_work moving 6 new_table_manager moving_migrates) as (tm' & E & Hm); [done|done| | |constructor|].
  1,2: intros b l l' Hb Hl Hl'; change (buckets_of moving) with 2 in Hb; change (copies_of moving) with 2 in Hl, Hl';
    assert (b = 0 \/ b = 1) as [-> | ->] by lia;
    assert (l = 0 \/ l = 1) as [-> | ->] by lia; assert (l' = 0 \/ l' = 1) as [-> | ->] by lia;
    vm_compute; intros; congruence.
  exists tm'. split; [exact E|]. apply Hm. split; [change (buckets_of moving) with 2; lia|]. split; [by vm_compute|done].
Defined.

(** *** One bucket too far *)

Lemma copy_column_overruns d buckets n i m changed :
  0 < buckets -> 0 <= i -> Z.of_nat (length m) = buckets * (i + Z.of_nat (S n)) -> length d = length m ->
  Z.of_nat (length m) + buckets < 2 ^ 32 ->
  copy_column d buckets buckets (S n) i m changed = Overrun.
Proof.
  intros Hb. revert i m changed. induction n as [|n IH]; intros i m changed Hi Hm Hd Hmax; cbn [copy_column];
    rewrite (wrap_id 32 (i * buckets + buckets)) by (unfold in_u; nia).
  - unfold at_ at 1. rewrite (proj2 (Z.ltb_ge _ _)) by nia. by rewrite lookup_ge_None_2 by nia.
  - rewrite !at_cell by nia. cbn [obind]. destruct (negb _).
    + rewrite set_at_run by nia. cbn [obind]. apply IH; rewrite ?length_insert; lia.
    + apply IH; lia.
Qed.

(** C32: the guard of [set_migrating_hashtable] is off by one.  A finish
    message for the bucket whose number is the number of buckets gets past it:
    with a single copy the server reads behind its tables; with more copies it
    does so when the sender is the first slave of bucket 0, after it has
    overwritten the slaves of that bucket. *)
Theorem finish_past_the_last_bucket g server :
  migrating g ->
  copies_of g = 1 \/ cell (m_hash_table (tables g)) (buckets_of g) = server ->
  do_finish_migrate server (server_version (tables g)) (buckets_of g) g = Overrun.
Proof.
  intros Hg Hcase. pose proof (mg_tables g Hg) as [Hb Hc Hmax _ Hm Hd]. fold (buckets_of g) (copies_of g) in *.
  unfold do_finish_migrate. rewrite (sbind_run _ _ _ _ _ (eq_refl (sget g))), (mg_move g Hg), !Z.eqb_refl. cbn [negb].
  rewrite (wrap_id 64) by (unfold in_u; nia). unfold sbind at 1, set_migrating_hashtable.
  rewrite (is_migrating_true g Hg). change (server_bucket_count (tables g)) with (buckets_of g).
  rewrite (proj2 (Z.ltb_ge _ _)) by lia. cbn [orb negb].
  destruct (decide (copies_of g = 1)) as [E1|E1].
  - unfold at_. rewrite (proj2 (Z.ltb_ge _ _)) by lia. by rewrite lookup_ge_None_2 by nia.
  - destruct Hcase as [?|Hs]; [done|]. rewrite at_cell by nia. cbn [obind]. rewrite Hs, Z.eqb_refl. cbn [negb].
    change (server_copy_count (tables g)) with (copies_of g).
    destruct (Z.to_nat (copies_of g)) as [|n] eqn:En; [lia|].
    by rewrite copy_column_overruns by (done || lia || nia).
Qed.

Lemma finish_past_the_last_bucket_witness :
  do_finish_migrate 6 4 2 moving = Overrun.
Proof. apply (finish_past_the_last_bucket moving 6 moving_migrates). by right. Defined.
