(* ===== verification/Rebuild.v ===== *)
(** * Rebuilding the tables of a group

    [group_info::rebuild] from the live servers to the installed tables: the
    destination table of the builder, the quick table, and the migration between
    them. *)

From Stdlib Require Import SpecFloat.
From S2P Require Import Prelude TableBuilder TableStrategies TableRebuild TableTheorems ConfTable GroupInfo Migration.

(** ** One bucket

    [old] are the copies in the old table, [q] those in the quick table and [d]
    those in the destination table.  If the quick table needs no migration to
    the destination, then they are the same. *)
Section bucket.
Context (available : list server_id) (m0 m md : server_id) (to tq td : list server_id).
Hypothesis Hids : forall s, s ∈ available -> s.1 <> INVALID_FLAG.
Hypothesis Hpos : forall x y, x ∈ available -> y ∈ available -> x.1 = y.1 -> x = y.
Hypothesis Hlen : length tq = length td.
Hypothesis Hd : forall x, x ∈ md :: td -> x ∈ available.
Hypothesis Hnd : NoDup (map fst (md :: td)).
Hypothesis Hmoved : column_moved (m0 :: to) (md :: td).
Hypothesis Hm : m ∈ available.
Hypothesis Hmo : m ∈ m0 :: to.
Hypothesis Hto : length to = length tq.
Hypothesis Htq : forall k x, tq !! k = Some x -> x ∈ available /\ to !! k = Some x \/ x = (0, 0).

Lemma same_copies :
  m.1 = md.1 -> (forall x, x ∈ td -> x.1 ∈ map fst tq) -> m :: tq = md :: td.
Proof.
  intros Eh Hsub. apply list.NoDup_cons in Hnd as [Hmd Htd].
  assert (map fst td ≡ₚ map fst tq) as Hperm.
  { apply submseteq_length_Permutation; [|rewrite !length_map; lia].
    apply NoDup_submseteq; [done|]. intros i (x & -> & Hx)%list_elem_of_fmap. by apply Hsub. }
  assert (forall k x, tq !! k = Some x -> x ∈ available /\ to !! k = Some x) as Hkept.
  { intros k x Ex. destruct (Htq k x Ex) as [?| ->]; [done|]. exfalso.
    assert (0 ∈ map fst td) as (y & Ey & Hy)%list_elem_of_fmap.
    { rewrite Hperm. apply list_elem_of_fmap. exists (0, 0). split; [done|]. by eapply list_elem_of_lookup_2. }
    apply (Hids y); [apply Hd; by right|done]. }
  assert (tq = to) as Etq.
  { apply list_eq. intros k. destruct (tq !! k) as [x|] eqn:Ex; [by destruct (Hkept k x Ex) as [_ ->]|].
    symmetry. apply lookup_ge_None. apply lookup_ge_None in Ex. lia. }
  assert (forall x, x ∈ tq -> x ∈ available) as Htqa.
  { intros x [k Ex]%list_elem_of_lookup. by apply (Hkept k). }
  assert (m = m0) as Em.
  { apply elem_of_cons in Hmo as [?|Hin]; [done|]. exfalso. apply Hmd. rewrite <- Eh, Hperm, Etq.
    apply list_elem_of_fmap. by exists m. }
  assert (m = md) as Emd by (apply Hpos; [done|apply Hd; by left|done]).
  destruct Hmoved as [E|[Hne|(k & x & Hk & Ex & Hnot)]].
  - rewrite Etq, Em. congruence.
  - exfalso. apply Hne. simpl. congruence.
  - exfalso. destruct k as [|k]; [lia|]. simpl in Ex. apply list_elem_of_lookup_2 in Ex as Hx.
    assert (x.1 ∈ map fst tq) as (y & Ey & Hy)%list_elem_of_fmap.
    { rewrite <- Hperm. apply list_elem_of_fmap. by exists x. }
    assert (x = y) as -> by (apply Hpos; [apply Hd; by right|by apply Htqa|done]).
    rewrite Etq in Hy. apply list_elem_of_lookup in Hy as [k' Ek']. by apply (Hnot (S k')); [lia|].
Qed.
End bucket.

(** ** Flat tables *)

Lemma flat_table copies buckets t :
  0 <= buckets -> table_shape copies buckets t ->
  exists p, write_hash_table (Z.to_nat buckets) t = Ret p /\ Z.of_nat (length p) = buckets * copies
    /\ forall i l, 0 <= i < buckets -> 0 <= l < copies -> exists x, entry t l i = Some x /\ cell p (i + l * buckets) = x.1.
Proof.
  intros Hb [Hlen Hw]. revert copies Hlen. induction Hw as [|line t Hl Hw IH]; intros copies Hlen; simpl in Hlen.
  { exists []. split; [done|]. split; [simpl; lia|]. intros; lia. }
  destruct (IH (copies - 1)) as (p & E & Hp & Hcell); [lia|].
  cbn [write_hash_table]. rewrite decide_True by lia. rewrite E. cbn [obind]. rewrite take_ge by lia.
  eexists. split; [done|]. rewrite length_app, length_map. split; [nia|].
  intros i l Hi Hlr. destruct (decide (l = 0)) as [->|D].
  - destruct (lookup_lt_is_Some_2 line (Z.to_nat i)) as [x Ex]; [lia|]. exists x.
    split; [done|]. rewrite cell_app_l by (rewrite length_map; lia). unfold cell. rewrite Z.mul_0_l, Z.add_0_r.
    by rewrite list_lookup_fmap, Ex.
  - destruct (Hcell i (l - 1)) as (x & Ex & Ec); [lia|lia|]. exists x. split.
    + unfold entry in *. replace (Z.to_nat l) with (S (Z.to_nat (l - 1))) by lia. done.
    + rewrite cell_app_r by (rewrite length_map; nia). rewrite length_map, <- Ec. f_equal. nia.
Qed.

(** ** The available servers *)

Lemma sl_insert_perm x l : x ∉ l -> sl_insert x l ≡ₚ x :: l.
Proof.
  induction l as [|y l IH]; intros Hx; [done|]. cbn [sl_insert]. apply not_elem_of_cons in Hx as [Hxy Hx].
  rewrite decide_False by done. destruct (id_lt x y); [done|]. rewrite IH by done. by constructor.
Qed.

Lemma fold_insert_perm (f : Z -> server_id) nodes acc :
  NoDup nodes -> (forall x, (f x).1 = x) -> (forall x, x ∈ nodes -> f x ∉ acc) ->
  foldl (fun l x => sl_insert (f x) l) acc nodes ≡ₚ map f nodes ++ acc.
Proof.
  intros Hn Hf. revert acc. induction Hn as [|x nodes Hx Hn IH]; intros acc Hacc; [done|]. cbn [foldl map].
  assert (f x ∉ acc) as Hfx by (apply Hacc; by left). rewrite IH.
  - rewrite sl_insert_perm by done. by rewrite <- Permutation_middle.
  - intros y Hy Hin. apply elem_of_sl_insert in Hin as [E|Hin].
    + apply (f_equal fst) in E. rewrite !Hf in E. by subst.
    + apply (Hacc y); [by right|done].
Qed.

Lemma set_available_base {X} nodes (b : builder X) :
  NoDup nodes ->
  available_server (set_available_server_base nodes b) ≡ₚ map (fun x => (x, u32 (Z.land x (pos_mask b)))) nodes.
Proof.
  intros Hn. unfold set_available_server_base. cbn.
  rewrite (fold_insert_perm (fun x => (x, u32 (Z.land x (pos_mask b))))); [by rewrite app_nil_r|done|done|].
  by intros x _ ?%elem_of_nil.
Qed.

(** The servers that are up *)
Definition is_up (now : Z) (alive : Z -> bool) (servers : gmap Z server_info) (id : Z) : bool :=
  match servers !! id with
  | None => false
  | Some i => negb (status i =? DOWN) && negb (status i =? FORCE_DOWN)
              && ((now <=? last_time i) || negb (status i =? ALIVE) || alive id)
  end.

Lemma filter_ext_in {A} (P Q : A -> Prop) `{forall x, Decision (P x)} `{forall x, Decision (Q x)} (l : list A) :
  (forall x, x ∈ l -> P x <-> Q x) -> filter P l = filter Q l.
Proof.
  induction l as [|x l IH]; intros Hl; [done|]. rewrite !filter_cons, IH by (intros; apply Hl; by right).
  rewrite (decide_ext (P x) (Q x)); [done|apply Hl; by left].
Qed.

Lemma up_nodes_spec now alive nodes servers :
  NoDup nodes -> (forall id, id ∈ nodes -> is_Some (servers !! id)) ->
  exists servers', up_nodes now alive nodes servers = Ret (filter (fun id => is_up now alive servers id = true) nodes, servers').
Proof.
  intros Hn. revert servers. induction Hn as [|id nodes Hid Hn IH]; intros servers Hknown; [by eexists|].
  cbn [up_nodes]. destruct (Hknown id) as [i Ei]; [by left|]. rewrite Ei, filter_cons.
  assert (forall x, x ∈ nodes -> is_Some (servers !! x)) as Hrest by (intros; apply Hknown; by right).
  assert (exists servers', up_nodes now alive nodes (<[id := set_status DOWN i]> servers)
    = Ret (filter (fun x => is_up now alive servers x = true) nodes, servers')) as Hdown.
  { destruct (IH (<[id := set_status DOWN i]> servers)) as (servers' & E).
    - intros x Hx. rewrite lookup_insert_ne by (intros ->; done). by apply Hrest.
    - exists servers'. rewrite E. f_equal. f_equal. apply filter_ext_in. intros x Hx.
      unfold is_up. by rewrite lookup_insert_ne by (intros ->; done). }
  destruct (IH servers Hrest) as (servers1 & E1).
  assert (is_up now alive servers id = negb (status i =? DOWN) && negb (status i =? FORCE_DOWN)
    && ((now <=? last_time i) || negb (status i =? ALIVE) || alive id)) as Hup by (unfold is_up; by rewrite Ei).
  rewrite (Z.leb_antisym (last_time i)) in Hup.
  destruct (status i =? DOWN); cbn [negb andb] in *; [rewrite decide_False by (by rewrite Hup); by eexists|].
  destruct (last_time i <? now), (status i =? ALIVE), (alive id), (status i =? FORCE_DOWN);
    cbn [negb andb orb] in *; (rewrite decide_False by (by rewrite Hup); exact Hdown)
    || (rewrite decide_True by done; rewrite E1; by eexists).
Qed.

(** ** Columns of flat tables *)

(** [p] is the flat form of [t]. *)
Definition flat (copies buckets : Z) (t : TableBuilder.hash_table) (p : list Z) : Prop :=
  table_shape copies buckets t /\ write_hash_table (Z.to_nat buckets) t = Ret p
  /\ Z.of_nat (length p) = buckets * copies
  /\ forall i l, 0 <= i < buckets -> 0 <= l < copies -> exists x, entry t l i = Some x /\ cell p (i + l * buckets) = x.1.

Lemma column_seq copies buckets t p i :
  flat copies buckets t p -> 0 < copies -> 0 <= i < buckets ->
  map fst (column t i) = map (fun l => cell p (i + l * buckets)) (seqZ 0 copies).
Proof.
  intros (Hsh & _ & _ & Hcell) Hc Hi. pose proof (column_length _ _ _ Hsh i Hi) as Hlen.
  apply list_eq. intros k. rewrite !list_lookup_fmap. destruct (decide (Z.of_nat k < copies)) as [Hk|Hk].
  - destruct (Hcell i (Z.of_nat k) Hi ltac:(lia)) as (x & Ex & Ec).
    pose proof (column_lookup _ _ _ Hsh i (Z.of_nat k) Hi ltac:(lia)) as Hlk. rewrite Nat2Z.id in Hlk.
    rewrite Hlk, Ex. rewrite (proj2 (lookup_seqZ 0 copies k (Z.of_nat k))) by lia. simpl. by rewrite Ec.
  - rewrite !lookup_ge_None_2; [done|rewrite length_seqZ; lia|lia].
Qed.

Lemma flat_column copies buckets t p i :
  flat copies buckets t p -> 0 < copies -> 0 <= i < buckets ->
  map fst (column t i) = cell p i :: slaves buckets copies p i.
Proof.
  intros Hf Hc Hi. rewrite (column_seq copies buckets t p) by done. rewrite (seqZ_cons 0) by lia. cbn [map].
  f_equal. f_equal. lia.
Qed.

Lemma equal_columns copies buckets t t' p p' i :
  flat copies buckets t p -> flat copies buckets t' p' -> 0 < copies -> 0 <= i < buckets ->
  column t i = column t' i -> same_column buckets copies p p' i.
Proof.
  intros Hp Hp' Hc Hi E l Hl. apply (f_equal (map fst)) in E.
  rewrite (column_seq _ _ _ _ _ Hp Hc Hi), (column_seq _ _ _ _ _ Hp' Hc Hi) in E.
  apply (f_equal (.!! Z.to_nat l)) in E. rewrite !list_lookup_fmap in E.
  rewrite (proj2 (lookup_seqZ 0 copies (Z.to_nat l) l)) in E by lia. by injection E.
Qed.

(** The buckets a server is master of, counted in the flat table *)
Lemma count_filter (P : Z -> bool) (l : list Z) :
  count (fun j => P (cell l j)) (length l) = Z.of_nat (length (filter (fun x => P x = true) l)).
Proof.
  induction l as [|x l IH] using rev_ind; [done|]. rewrite length_app, list.filter_app. cbn [length].
  rewrite Nat.add_1_r. cbn [count]. rewrite (count_ext _ (fun j => P (cell l j))).
  2:{ intros j Hj. by rewrite cell_app_l by lia. }
  rewrite IH, cell_app_r by lia. rewrite Z.sub_diag. change (cell [x] 0) with x.
  rewrite filter_cons, length_app. destruct (decide (P x = true)) as [E|E].
  - rewrite E. simpl. lia.
  - apply not_true_iff_false in E. rewrite E. simpl. lia.
Qed.

(** ** The tables of a rebuild *)

(** What [rebuild] plans for a group whose servers [nodes] are up and whose
    last table is [m]: the table to use at once, [quick], and the one to reach,
    [dest]. *)
Record planned (nodes : list Z) (buckets copies : Z) (m quick dest : list Z) : Prop := {
  pl_quick : Z.of_nat (length quick) = buckets * copies;
  pl_dest : Z.of_nat (length dest) = buckets * copies;
  pl_safe : forall i, 0 <= i < buckets ->
    NoDup (cell dest i :: slaves buckets copies dest i)
    /\ forall x, x ∈ cell dest i :: slaves buckets copies dest i -> x ∈ nodes;
  pl_balance : forall s, s ∈ nodes ->
    let average := buckets / Z.of_nat (length nodes) in
    let n := count (fun i => cell dest i =? s) (Z.to_nat buckets) in n = average \/ n = average + 1;
  pl_master : forall i, 0 <= i < buckets ->
    cell quick i ∈ nodes /\ (cell m i ∈ nodes -> cell quick i = cell m i);
  pl_copies : forall i s, 0 <= i < buckets -> s ∈ nodes ->
    s ∈ cell m i :: slaves buckets copies m i <-> s ∈ cell quick i :: slaves buckets copies quick i;
  pl_exact : forall i, 0 <= i < buckets ->
    needs buckets copies quick dest i = false -> same_column buckets copies quick dest i
}.

Section plan.
Context (nodes : list Z) (mask buckets copies : Z) (m : list Z) (zero : load_first).
Hypothesis Hn : NoDup nodes.
Hypothesis Hzero : 0 ∉ nodes.
Hypothesis Hb : 0 < buckets.
Hypothesis Hc : 2 <= copies <= Z.of_nat (length nodes).
Hypothesis Hmax : buckets * copies < 2 ^ 29.
Hypothesis Hm : Z.of_nat (length m) = buckets * copies.
Hypothesis Hlive : forall i, 0 <= i < buckets -> exists x, x ∈ nodes /\ x ∈ cell m i :: slaves buckets copies m i.

Definition fresh_builder : builder load_first :=
  set_available_server_base nodes (set_pos_mask mask (new_builder buckets copies zero)).

Lemma fresh_available x :
  x ∈ available_server fresh_builder <-> x.1 ∈ nodes /\ x.2 = u32 (Z.land x.1 mask).
Proof.
  unfold fresh_builder. rewrite set_available_base by done. rewrite list_elem_of_fmap. cbn. split.
  - by intros (y & -> & Hy).
  - intros [Hx E]. exists x.1. split; [|done]. rewrite <- E. by destruct x.
Qed.

Lemma fresh_distinct x y :
  x ∈ available_server fresh_builder -> y ∈ available_server fresh_builder -> x.1 = y.1 -> x = y.
Proof. intros [_ Ex]%fresh_available [_ Ey]%fresh_available E. destruct x, y. simpl in *. congruence. Qed.

Lemma fresh_ids s : s ∈ available_server fresh_builder -> s.1 <> INVALID_FLAG.
Proof. intros [Hs _]%fresh_available E. by rewrite E in Hs. Qed.

Lemma fresh_length : length (available_server fresh_builder) = length nodes.
Proof. unfold fresh_builder. rewrite set_available_base by done. by rewrite length_map. Qed.

Lemma fresh_NoDup : NoDup (map fst (available_server fresh_builder)).
Proof.
  unfold fresh_builder. rewrite set_available_base by done. rewrite map_map. cbn. by rewrite map_id.
Qed.

(** An entry of the loaded table is available when its server is up. *)
Context (loaded : builder load_first).
Hypothesis Hload : load_hash_table m fresh_builder = Ret (tt, loaded).

Lemma loaded_flat :
  loaded = set_table (fun _ => table loaded) fresh_builder /\ flat copies buckets (table loaded) m
  /\ forall l i x, entry (table loaded) l i = Some x -> x.2 = u32 (Z.land x.1 mask).
Proof.
  unfold load_hash_table in Hload.
  destruct (load_lines_spec (Z.to_nat (copy_count fresh_builder)) (Z.to_nat (bucket_count fresh_builder))
    (pos_mask fresh_builder) m) as (t & E & Hlen & Hw & Hwr & Hpos); [cbn; nia|].
  rewrite E in Hload. injection Hload as <-. cbn in Hlen, Hw, Hwr, Hpos. cbn [table set_table].
  assert (table_shape copies buckets t) as Hsh.
  { split; [lia|]. eapply list.Forall_impl; [exact Hw|]. intros line Hl. cbv beta in *. lia. }
  split; [done|]. split; [|].
  - split; [done|]. split; [done|]. split; [done|].
    destruct (flat_table copies buckets t ltac:(lia) Hsh) as (p & Ep & _ & Hcell). rewrite Hwr in Ep. injection Ep as <-.
    done.
  - intros l i x Ex. apply (Hpos (Z.to_nat l) (Z.to_nat i)). unfold entry in Ex. by destruct (t !! Z.to_nat l).
Qed.

Lemma loaded_available l i x :
  entry (table loaded) l i = Some x -> x ∈ available_server fresh_builder <-> x.1 ∈ nodes.
Proof.
  intros Ex. rewrite fresh_available. destruct loaded_flat as (_ & _ & Hpos). split; [tauto|].
  intros Hx. split; [done|]. by apply (Hpos l i).
Qed.
Lemma loaded_fixed :
  available_server loaded = available_server fresh_builder /\ copy_count loaded = copies /\ bucket_count loaded = buckets.
Proof. destruct loaded_flat as (-> & _). done. Qed.

Lemma avail_loaded x : is_node_availble loaded x = true <-> x ∈ available_server fresh_builder.
Proof.
  rewrite available_spec. destruct loaded_fixed as (-> & _). split; [tauto|]. intros Hx. split; [by apply fresh_ids|done].
Qed.

(** *** The quick table *)

Definition quick_ok (after : builder load_first) (quick : list Z) : Prop :=
  fixed_part after = fixed_part loaded /\ flat copies buckets (table after) quick
  /\ forall i, 0 <= i < buckets -> quick_bucket loaded (table loaded) (table after) i.

Lemma flat_elem t p i s :
  flat copies buckets t p -> 0 <= i < buckets ->
  s ∈ cell p i :: slaves buckets copies p i <-> exists l x, 0 <= l < copies /\ entry t l i = Some x /\ x.1 = s.
Proof.
  intros Hf Hi. rewrite <- (flat_column copies buckets t p i) by (done || lia).
  destruct Hf as (Hsh & _). rewrite list_elem_of_fmap. split.
  - intros (x & -> & [k Ek]%list_elem_of_lookup). exists (Z.of_nat k), x.
    pose proof (column_length _ _ _ Hsh i Hi). pose proof (lookup_lt_Some _ _ _ Ek).
    split; [lia|]. split; [|done]. by rewrite <- (column_lookup _ _ _ Hsh), Nat2Z.id by lia.
  - intros (l & x & Hl & Ex & <-). exists x. split; [done|].
    rewrite <- (column_lookup _ _ _ Hsh) in Ex by lia. by eapply list_elem_of_lookup_2.
Qed.

Lemma flat_cell t p l i x :
  flat copies buckets t p -> 0 <= i < buckets -> 0 <= l < copies -> entry t l i = Some x -> cell p (i + l * buckets) = x.1.
Proof. intros (_ & _ & _ & Hcell) Hi Hl Ex. destruct (Hcell i l Hi Hl) as (y & Ey & Ec). congruence. Qed.

Lemma flat_line t p l i x :
  flat copies buckets t p -> 0 <= l -> entry t l i = Some x -> l < copies.
Proof.
  intros ([Hlen _] & _) Hl Ex. unfold entry in Ex. destruct (t !! Z.to_nat l) eqn:El; [|done].
  apply lookup_lt_Some in El. lia.
Qed.

Lemma quick_of_loaded : exists after quick, build_quick_table loaded = Ret (true, after) /\ quick_ok after quick.
Proof.
  destruct loaded_flat as (El & Hf & _). destruct loaded_fixed as (Ea & Ec & Eb). pose proof Hf as (Hsh & _).
  destruct (build_quick_table_spec loaded) as (r & after & E & Hfix & Hsh' & Hok & Hno);
    [by rewrite Ec, Eb|lia|lia|intros s _; by rewrite El|].
  rewrite Ec, Eb in *. destruct r.
  2:{ exfalso. destruct (Hno eq_refl) as (i & Hi & Hx). destruct (Hlive i Hi) as (s & Hs & Hin).
      apply (flat_elem _ _ _ _ Hf Hi) in Hin as (l & x & Hl & Ex & <-).
      apply (Hx x); [exists l; split; [lia|done]|]. by apply avail_loaded, (loaded_available l i x Ex). }
  destruct (flat_table copies buckets (table after)) as (quick & Ew & Hlen & Hcell); [lia|done|].
  exists after, quick. split; [done|]. split; [done|]. split; [done|]. by apply Hok.
Qed.

Lemma quick_entry after quick l i x :
  quick_ok after quick -> 0 <= i < buckets -> 0 <= l -> entry (table after) l i = Some x -> x.1 ∈ nodes ->
  is_node_availble loaded x = true.
Proof.
  intros (_ & Hf & Hq) Hi Hl Ex Hx. destruct (Hq i Hi) as [[(y & Ey & Hy & _) _] Hs].
  pose proof (flat_line _ _ _ _ _ Hf Hl Ex) as Hl'. destruct (decide (l = 0)) as [->|D]; [congruence|].
  destruct loaded_fixed as (_ & Ec & _). destruct (Hs l x) as [[? _]| ->]; [lia|done|done|done].
Qed.

Lemma quick_master after quick i :
  quick_ok after quick -> 0 <= i < buckets ->
  cell quick i ∈ nodes /\ (cell m i ∈ nodes -> cell quick i = cell m i).
Proof.
  intros (_ & Hf & Hq) Hi. destruct loaded_flat as (_ & Hfm & _).
  destruct (Hq i Hi) as [[(y & Ey & Hy & _ & Hold) _] _].
  pose proof (flat_cell _ _ 0 _ _ Hf Hi ltac:(lia) Ey) as Hcy. rewrite Z.mul_0_l, Z.add_0_r in Hcy.
  rewrite Hcy. split; [by apply avail_loaded, fresh_available in Hy as [? _]|].
  intros Hm0. destruct (entry_some _ _ _ (proj1 Hfm) 0 i) as [x Ex]; [lia|done|].
  pose proof (flat_cell _ _ 0 _ _ Hfm Hi ltac:(lia) Ex) as Hcx. rewrite Z.mul_0_l, Z.add_0_r in Hcx.
  rewrite Hcx in *. f_equal. apply (Hold x Ex). by apply avail_loaded, (loaded_available 0 i x Ex).
Qed.

Lemma quick_copies after quick i s :
  quick_ok after quick -> 0 <= i < buckets -> s ∈ nodes ->
  s ∈ cell m i :: slaves buckets copies m i <-> s ∈ cell quick i :: slaves buckets copies quick i.
Proof.
  intros Hok Hi Hs. pose proof Hok as (_ & Hf & Hq). destruct loaded_flat as (_ & Hfm & _).
  destruct (Hq i Hi) as [[_ [Hcp _]] _]. rewrite (flat_elem _ _ _ _ Hf Hi), (flat_elem _ _ _ _ Hfm Hi). split.
  - intros (l & x & Hl & Ex & <-). destruct (proj1 (Hcp x ltac:(by apply avail_loaded, (loaded_available l i x Ex))))
      as (l' & Hl' & Ex'); [exists l; split; [lia|done]|].
    exists l', x. pose proof (flat_line _ _ _ _ _ Hf Hl' Ex'). split; [lia|done].
  - intros (l & x & Hl & Ex & <-). destruct (proj2 (Hcp x ltac:(by eapply quick_entry; [..|exact Ex|]; (done || lia))))
      as (l' & Hl' & Ex'); [exists l; split; [lia|done]|].
    exists l', x. pose proof (flat_line _ _ _ _ _ Hfm Hl' Ex'). split; [lia|done].
Qed.
(** *** The destination table *)

Lemma masters_count t p (s : server_id) :
  flat copies buckets t p ->
  (forall i x, 0 <= i < buckets -> entry t 0 i = Some x -> x.1 = s.1 -> x = s) ->
  masters t s = count (fun i => cell p i =? s.1) (Z.to_nat buckets).
Proof.
  intros Hf Hs. pose proof Hf as ([Hlen Hw] & _). destruct t as [|line t]; [simpl in Hlen; lia|].
  apply list.Forall_cons in Hw as [Hl _]. unfold masters. simpl default.
  rewrite (count_ext _ (fun i => cell (map fst line) i =? s.1)).
  2:{ intros i Hi. destruct (lookup_lt_is_Some_2 line (Z.to_nat i)) as [x Ex]; [lia|].
      assert (entry (line :: t) 0 i = Some x) as Ee by done.
      pose proof (flat_cell _ _ 0 i _ Hf ltac:(lia) ltac:(lia) Ee) as Hcx. rewrite Z.mul_0_l, Z.add_0_r in Hcx.
      rewrite Hcx. unfold cell. by rewrite list_lookup_fmap, Ex. }
  rewrite <- Hl, Nat2Z.id. rewrite <- (length_map fst line).
  rewrite (count_filter (fun x => x =? s.1)). f_equal.
  assert (forall x, x ∈ line -> x.1 = s.1 -> x = s) as Hline.
  { intros x [k Ek]%list_elem_of_lookup. apply (Hs (Z.of_nat k)); [apply lookup_lt_Some in Ek; lia|].
    unfold entry. simpl. by rewrite Nat2Z.id. }
  clear -Hline. induction line as [|x line IH]; [done|]. cbn [map]. rewrite !filter_cons.
  specialize (IH ltac:(intros; apply Hline; [by right|done])).
  destruct (decide (x = s)) as [->|D].
  - rewrite decide_True by apply Z.eqb_refl. simpl. by rewrite IH.
  - rewrite decide_False; [done|]. intros E%Z.eqb_eq. apply D, Hline; [by left|done].
Qed.

Lemma exact_bucket after quick (built : builder load_first) dest i :
  quick_ok after quick -> flat copies buckets (table built) dest -> 0 <= i < buckets ->
  column_moved (column (table loaded) i) (column (table built) i) ->
  (forall x, x ∈ column (table built) i -> x ∈ available_server fresh_builder) ->
  NoDup (map fst (column (table built) i)) ->
  needs buckets copies quick dest i = false -> same_column buckets copies quick dest i.
Proof.
  intros Hok Hfd Hi Hmoved Hav Hnd Hneeds. pose proof Hok as (_ & Hf & Hq). destruct loaded_flat as (_ & Hfm & _).
  destruct (quick_master after quick i Hok Hi) as [Hmast _]. destruct loaded_fixed as (_ & Ec & _).
  unfold needs in Hneeds. rewrite (proj2 (Z.eqb_neq (cell quick i) 0)) in Hneeds by congruence.
  cbn [negb andb] in Hneeds. apply orb_false_iff in Hneeds as [Eh Hsub].
  apply negb_false_iff in Eh. apply Z.eqb_eq in Eh. apply negb_false_iff, bool_decide_eq_true in Hsub.
  rewrite list.Forall_forall in Hsub.
  apply (equal_columns copies buckets (table after) (table built)); [done|done|lia|done|].
  pose proof (flat_column _ _ _ _ _ Hf ltac:(lia) Hi) as Cq. pose proof (flat_column _ _ _ _ _ Hfd ltac:(lia) Hi) as Cd.
  destruct Hf as (Hshq & _). destruct Hfd as (Hshd & _). destruct Hfm as (Hshm & _).
  pose proof (column_length _ _ _ Hshq i Hi). pose proof (column_length _ _ _ Hshd i Hi).
  pose proof (column_length _ _ _ Hshm i Hi).
  pose proof (column_lookup _ _ _ Hshq i) as Lq. pose proof (column_lookup _ _ _ Hshm i) as Lm.
  destruct (Hq i Hi) as [[(y & Ey & Hy & [ly [Hly Ely]] & Hold) _] Hs].
  destruct (column (table after) i) as [|mq tq] eqn:Eq; [done|].
  destruct (column (table built) i) as [|md td] eqn:Ed; [done|].
  destruct (column (table loaded) i) as [|m0 to] eqn:Em; [simpl in *; lia|].
  simpl in Cq, Cd. injection Cq as Cq1 Cq2. injection Cd as Cd1 Cd2.
  assert (y = mq) as -> by (rewrite <- (Lq 0 Hi ltac:(lia)) in Ey; by injection Ey).
  apply (same_copies (available_server fresh_builder) m0 mq md to tq td).
  - apply fresh_ids.
  - apply fresh_distinct.
  - simpl in *. lia.
  - done.
  - done.
  - done.
  - by apply avail_loaded.
  - rewrite <- (Lm ly Hi Hly) in Ely. by eapply list_elem_of_lookup_2.
  - simpl in *. lia.
  - intros k x Ek. specialize (Lq (Z.of_nat (S k)) Hi ltac:(lia)). specialize (Lm (Z.of_nat (S k)) Hi ltac:(lia)).
    rewrite Nat2Z.id in Lq, Lm. cbn [lookup list_lookup] in Lq, Lm.
    pose proof (lookup_lt_Some _ _ _ Ek). destruct (Hs (Z.of_nat (S k)) x) as [[Hx Ex]| ->];
      [simpl in *; lia|by rewrite <- Lq|left|by right].
    split; [by apply avail_loaded|]. rewrite <- Lm in Ex. done.
  - congruence.
  - intros x Hx. rewrite Cq2. apply Hsub. rewrite <- Cd2. apply list_elem_of_fmap. by exists x.
Qed.
Lemma plan_of_loaded after quick :
  quick_ok after quick ->
  exists built dest, rebuild_table true (set_table (fun _ => table loaded) after) = Ret (BUILD_OK, built)
    /\ flat copies buckets (table built) dest /\ planned nodes buckets copies m quick dest.
Proof.
  intros Hok. assert (buckets < 2 ^ 31) as Hbmax by nia.
  pose proof Hok as (Hfix & Hf & _). destruct loaded_flat as (El & Hfm & _).
  destruct loaded_fixed as (Ea & Ec & Eb). destruct (fixed_fields _ _ Hfix) as (Fa & Fc & Fb & _).
  rewrite Ea in Fa. rewrite Ec in Fc. rewrite Eb in Fb.
  destruct (load_first_builds (set_table (fun _ => table loaded) after) true) as (built & E & Hsh & Hcol & Hbal);
    cbn [available_server copy_count bucket_count table set_table] in *; rewrite ?Fa, ?Fc, ?Fb in *.
  - apply Hfm.
  - rewrite fresh_length. lia.
  - lia.
  - apply fresh_ids.
  - apply fresh_NoDup.
  - by left.
  - destruct (flat_table copies buckets (table built) ltac:(lia) Hsh) as (dest & Ew & Hlen & Hcell).
    assert (flat copies buckets (table built) dest) as Hfd by done.
    assert (forall i, 0 <= i < buckets -> map fst (column (table built) i) = cell dest i :: slaves buckets copies dest i)
      as Hmap by (intros; by apply flat_column; [|lia|]).
    exists built, dest. split; [done|]. split; [done|]. split; [apply Hf|done| | |intros; by eapply quick_master..| |].
    + intros i Hi. destruct (Hcol i Hi) as (_ & Hav & Hnd). rewrite <- Hmap by done. split; [done|].
      intros x (y & -> & Hy)%list_elem_of_fmap. by apply Hav, fresh_available in Hy as [? _].
    + intros s Hs. cbv zeta. assert ((s, u32 (Z.land s mask)) ∈ available_server fresh_builder) as Hin
        by by apply fresh_available.
      specialize (Hbal _ Hin). rewrite fresh_length in Hbal.
      rewrite (masters_count (table built) dest) in Hbal; [done|done|].
      intros i x Hi Ex E1. apply fresh_distinct; [|done|done]. apply (Hcol i Hi).
      rewrite <- (column_lookup _ _ _ Hsh) in Ex by lia. by eapply list_elem_of_lookup_2.
    + intros i s Hi Hs. by eapply quick_copies.
    + intros i Hi. destruct (Hcol i Hi) as (Hmv & Hav & Hnd). by eapply exact_bucket.
Qed.
End plan.

(** ** Installing the tables *)

Lemma write_over_all (p old : list Z) : length p = length old -> write_over p old = p.
Proof. intros E. unfold write_over. rewrite drop_ge by lia. by rewrite app_nil_r. Qed.

(** The last steps of [rebuild]: the other config server hears of the tables,
    the lock is released. *)
Lemma finish_rebuild slave g :
  exists g', (let* _ := send_server_table_packet slave in
              let* _ := unlock in let* _ := set_group_status true in set_OK true) g = Ret (tt, g')
    /\ tables g' = tables g /\ data_need_move g' = data_need_move g /\ migrate_machine g' = migrate_machine g
    /\ grp_locked g' = false /\ group_can_work g' = true /\ group_is_OK g' = true.
Proof. eexists. split; [done|]. cbv beta. by destruct (slave =? 0). Qed.

Lemma install_run compress slave quick dest g :
  tables_ok (tables g) -> data_need_move g = TAIR_DATA_NEED_MIGRATE -> 2 <= copies_of g ->
  Z.of_nat (length quick) = buckets_of g * copies_of g -> Z.of_nat (length dest) = buckets_of g * copies_of g ->
  (forall i, 0 <= i < buckets_of g ->
     needs (buckets_of g) (copies_of g) quick dest i = false -> same_column (buckets_of g) (copies_of g) quick dest i) ->
  exists g', install compress slave false quick dest g = Ret (tt, g')
    /\ grp_locked g' = false /\ group_can_work g' = true /\ group_is_OK g' = true
    /\ hash_table (tables g') = quick /\ m_hash_table (tables g') = quick /\ d_hash_table (tables g') = dest
    /\ buckets_of g' = buckets_of g /\ copies_of g' = copies_of g
    /\ client_version (tables g') = inc_value g 1 (client_version (tables g))
    /\ server_version (tables g') = inc_value g 1 (server_version (tables g))
    /\ (migrating g' \/ is_migrating g' = false /\ quick = dest).
Proof.
  intros [Hb Hc Hmax Hh Hm Hd] Hmove Hc2 Hq Hdest Hexact.
  set (g1 := set_tables (set_hash_table (write_over quick)) (set_tables (set_m_hash_table (write_over quick))
    (set_tables (set_d_hash_table (write_over dest)) g))).
  assert (hash_table (tables g1) = quick /\ m_hash_table (tables g1) = quick /\ d_hash_table (tables g1) = dest) as (Eh & Em & Ed).
  { unfold buckets_of, copies_of in *. split; [|split]; apply write_over_all; cbn; lia. }
  unfold install. rewrite (sbind_run _ _ g tt _ eq_refl). rewrite (sbind_run sget _ _ _ _ eq_refl).
  rewrite (sbind_run _ _ _ tt g1).
  2:{ change (data_need_move (set_tables _ g)) with (data_need_move g). rewrite Hmove, Z.eqb_refl. cbn [andb negb].
      rewrite (sbind_run _ _ _ tt _ eq_refl). rewrite (sbind_run _ _ _ tt g1 eq_refl). rewrite (sbind_run sget _ _ _ _ eq_refl).
      change (copies_of g1) with (copies_of g). by rewrite (proj2 (Z.leb_gt _ _)) by lia. }
  destruct (fill_loop_spec (buckets_of g) (copies_of g) quick dest Hb ltac:(lia) Hq Hdest (Z.to_nat (buckets_of g)) 0 (∅, 0))
    as (machines & Efill & Hmach); [lia|by intros s; cbn; rewrite lookup_empty|done|].
  rewrite (sbind_run _ _ g1 (pending (buckets_of g) (copies_of g) quick dest) (set_migrate_machine (fun _ => machines) g1)).
  2:{ unfold fill_migrate_machine. cbv zeta. rewrite Em, Ed. change (Z.of_nat 0) with 0 in Efill.
      change (server_bucket_count (tables g1)) with (buckets_of g). change (server_copy_count (tables g1)) with (copies_of g).
      by rewrite Efill. }
  set (n := pending (buckets_of g) (copies_of g) quick dest) in *.
  set (g2 := set_tables (set_migrate_block_count (fun _ => if 0 <? n then n else -1)) (set_migrate_machine (fun _ => machines) g1)).
  rewrite (sbind_run _ _ _ tt g2 eq_refl).
  set (g3 := set_tables (set_area_capacity_version (inc_value g 1)) (set_tables (set_server_version (inc_value g 1))
    (set_tables (set_client_version (inc_value g 1)) g2))).
  rewrite (sbind_run _ _ _ tt _ eq_refl), (sbind_run _ _ _ tt _ eq_refl), (sbind_run _ _ _ tt g3 eq_refl).
  destruct (deflate_hash_table_run compress (tables g3)) as [[c s] Edef]; [done|done|cbn; lia| | |].
  { change (hash_table (tables g3)) with (hash_table (tables g1)). by rewrite Eh. }
  { change (d_hash_table (tables g3)) with (d_hash_table (tables g1)). by rewrite Ed. }
  rewrite (sbind_run _ _ _ tt (set_client_deflated (fun _ => c) (set_server_deflated (fun _ => s) g3)))
    by (unfold deflate; by rewrite Edef).
  destruct (finish_rebuild slave (set_client_deflated (fun _ => c) (set_server_deflated (fun _ => s) g3)))
    as (g4 & E4 & Et & Emv & Emm & El & Ew & Eok).
  exists g4. split; [exact E4|]. split; [done|]. split; [done|]. split; [done|].
  change (tables (set_client_deflated _ _)) with (tables g3) in Et.
  unfold is_migrating, buckets_of, copies_of. rewrite Et. split; [exact Eh|]. split; [exact Em|]. split; [exact Ed|].
  split; [done|]. split; [done|]. split; [done|]. split; [done|].
  destruct (Z.ltb_spec 0 n) as [Hn|Hn].
  - left. split.
    + rewrite Et. split; try done; [by change (hash_table (tables g3)) with (hash_table (tables g1)); rewrite Eh|..].
      * by change (m_hash_table (tables g3)) with (m_hash_table (tables g1)); rewrite Em.
      * by change (d_hash_table (tables g3)) with (d_hash_table (tables g1)); rewrite Ed.
    + by rewrite Emv.
    + intros s'. rewrite Emm, Et. unfold buckets_of, copies_of. rewrite Et. 
      change (m_hash_table (tables g3)) with (m_hash_table (tables g1)). change (d_hash_table (tables g3)) with (d_hash_table (tables g1)).
      rewrite Em, Ed. apply Hmach.
    + rewrite Et. unfold buckets_of, copies_of. rewrite Et.
      change (migrate_block_count (tables g3)) with n.
      change (m_hash_table (tables g3)) with (m_hash_table (tables g1)). change (d_hash_table (tables g3)) with (d_hash_table (tables g1)).
      by rewrite Em, Ed.
    + unfold buckets_of, copies_of. rewrite Et.
      change (m_hash_table (tables g3)) with (m_hash_table (tables g1)). change (d_hash_table (tables g3)) with (d_hash_table (tables g1)).
      rewrite Em, Ed. exact Hexact.
  - right. split; [done|].
    apply (same_columns_eq (buckets_of g) (copies_of g)); [done|done|done|]. intros i Hi. apply Hexact; [done|].
    apply not_true_iff_false. intros Ht. pose proof (count_at (needs (buckets_of g) (copies_of g) quick dest)
      (Z.to_nat (buckets_of g)) i ltac:(lia) Ht). unfold n, pending in Hn. lia.
Qed.

(** ** Theorems *)

(** The group after [rebuild] took the lock and looked who is there *)
Definition looked_at (nodes : list Z) (servers' : gmap Z server_info) (g : group) : group :=
  set_g_available (fun _ => list_to_set nodes) (set_servers (fun _ => servers') (set_grp_locked (fun _ => true) g)).

Lemma rebuild_locks {A} now alive (k : list Z -> groupM A) g nodes servers' :
  grp_locked g = false ->
  up_nodes (now - Z.quot (server_down_time g + 1) 2) alive (node_list g) (servers g) = Ret (nodes, servers') ->
  (let* _ := wrlock in let* nodes := get_up_node now alive in k nodes) g = k nodes (looked_at nodes servers' g).
Proof.
  intros Hlock Eup. rewrite (sbind_run _ _ g tt (set_grp_locked (fun _ => true) g)) by (unfold wrlock; by rewrite Hlock).
  apply sbind_run. unfold get_up_node. cbn. by rewrite Eup.
Qed.

Lemma not_first_run g x i :
  tables_ok (tables g) -> 0 <= i < buckets_of g -> x <> 0 ->
  x ∈ cell (m_hash_table (tables g)) i :: slaves (buckets_of g) (copies_of g) (m_hash_table (tables g)) i ->
  is_first_run g = false.
Proof.
  intros [Hb Hc Hmax _ Hm _] Hi Hx Hin. apply not_true_iff_false. unfold is_first_run, get_hash_table_size.
  rewrite wrap_id by (unfold in_u; lia). rewrite take_ge by lia. rewrite List.forallb_forall. intros Hall. apply Hx.
  apply Z.eqb_eq, Hall, list_elem_of_In, cells_elem.
  assert (forall l, 0 <= l < copies_of g -> 0 <= i + l * buckets_of g < Z.of_nat (length (m_hash_table (tables g)))) as Hr
    by (unfold buckets_of, copies_of in *; nia).
  apply elem_of_cons in Hin as [->|(l & -> & Hl%elem_of_seqZ)%list_elem_of_fmap].
  - exists i. specialize (Hr 0). split; [|done]. unfold copies_of in Hr. lia.
  - exists (i + l * buckets_of g). split; [apply Hr; lia|done].
Qed.

(** C31: what a rebuild does.  In a group that moves data and builds load
    first, with at least as many live servers as copies and a live copy of every
    bucket, [rebuild] ends with the lock released and installs a plan: in the
    destination table every bucket has its copies on different live servers and
    every server is master of the average number of buckets, rounded down or up;
    in the table to use at once every bucket has a live master, the old one if
    it lives, and the live copies it had.  The versions go up by one, and either
    the group migrates between the two tables, every difference being counted,
    or they are equal. *)
Theorem rebuild_starts_a_migration compress now alive uninit zero slave g :
  let t := tables g in
  let nodes := filter (fun id => is_up (now - Z.quot (server_down_time g + 1) 2) alive (servers g) id = true) (node_list g) in
  tables_ok t -> grp_locked g = false -> data_need_move g = TAIR_DATA_NEED_MIGRATE -> build_strategy g = 1 ->
  NoDup (node_list g) -> 0 ∉ node_list g -> (forall id, id ∈ node_list g -> is_Some (servers g !! id)) ->
  2 <= copies_of g <= Z.of_nat (length nodes) -> Z.of_nat (length nodes) < 2 ^ 31 ->
  0 <= min_data_server_count g <= Z.of_nat (length nodes) ->
  (forall i, 0 <= i < buckets_of g -> exists x, x ∈ nodes
     /\ x ∈ cell (m_hash_table t) i :: slaves (buckets_of g) (copies_of g) (m_hash_table t) i) ->
  exists g', rebuild compress now alive uninit zero slave g = Ret (tt, g')
    /\ grp_locked g' = false /\ m_hash_table (tables g') = hash_table (tables g')
    /\ planned nodes (buckets_of g) (copies_of g) (m_hash_table t) (hash_table (tables g')) (d_hash_table (tables g'))
    /\ client_version (tables g') = inc_value g 1 (client_version t)
    /\ server_version (tables g') = inc_value g 1 (server_version t)
    /\ (migrating g' \/ is_migrating g' = false /\ hash_table (tables g') = d_hash_table (tables g')).
Proof.
  intros t nodes Ht Hlock Hmove Hstrat Hn Hzero Hknown Hc Hlen Hmin Hlive.
  pose proof Ht as [Hb _ Hmax _ Hm _].
  change (0 < buckets_of g) in Hb. change (buckets_of g * copies_of g < 2 ^ 29) in Hmax.
  change (Z.of_nat (length (m_hash_table t)) = buckets_of g * copies_of g) in Hm.
    destruct (up_nodes_spec (now - Z.quot (server_down_time g + 1) 2) alive (node_list g) (servers g) Hn Hknown) as (servers' & Eup).
  fold nodes in Eup. set (g2 := looked_at nodes servers' g).
  assert (NoDup nodes) as Hnn by by apply list.NoDup_filter.
  assert (0 ∉ nodes) as Hz by (intros [_ ?]%list_elem_of_filter; done).
  assert (is_first_run g2 = false) as Hfirst.
  { destruct (Hlive 0) as (x & Hx & Hin); [lia|].
    apply (not_first_run g2 x 0); [done|change (buckets_of g2) with (buckets_of g); lia| |exact Hin].
    intros ->. done. }
  destruct (load_lines_spec (Z.to_nat (copies_of g)) (Z.to_nat (buckets_of g)) (g_pos_mask g) (m_hash_table t))
    as (tab & Eload & _).
  { apply Nat2Z.inj. rewrite Nat2Z.inj_mul, !Z2Nat.id by lia. lia. }
  set (fresh := fresh_builder nodes (g_pos_mask g) (buckets_of g) (copies_of g) zero).
  set (loaded := set_table (fun _ => tab) fresh).
  assert (load_hash_table (m_hash_table t) fresh = Ret (tt, loaded)) as El.
  { unfold load_hash_table. change (copy_count fresh) with (copies_of g). change (bucket_count fresh) with (buckets_of g).
    change (pos_mask fresh) with (g_pos_mask g). by rewrite Eload. }
  destruct (quick_of_loaded nodes (g_pos_mask g) (buckets_of g) (copies_of g) (m_hash_table t) zero Hnn Hz Hb Hc Hm
    Hlive loaded El) as (after & quick & Eq & Hok).
  destruct (plan_of_loaded nodes (g_pos_mask g) (buckets_of g) (copies_of g) (m_hash_table t) zero Hnn Hz Hb Hc Hmax Hm
    loaded El after quick Hok) as (built & dest & Eb & (_ & Ewd & Hld & _) & Hplan).
  pose proof Hok as (_ & (_ & Ewq & Hlq & _) & _).
  set (g3 := set_grp_locked (fun _ => true) (set_grp_locked (fun _ => false) g2)).
  destruct (install_run compress slave quick dest g3 Ht Hmove (proj1 Hc) Hlq Hld (pl_exact _ _ _ _ _ _ Hplan))
    as (g' & Ei & Hl' & _ & _ & Eh & Em & Ed & _ & _ & Ecv & Esv & Hmig).
  exists g'. rewrite Eh, Em, Ed. split; [|split; [done|split; [done|split; [done|split; [done|split; [done|by rewrite <- Ed in Hmig |- *]]]]]].
  unfold rebuild. rewrite (rebuild_locks now alive _ g nodes servers' Hlock Eup). fold g2.
  rewrite (sbind_run sget _ _ _ _ eq_refl). cbv zeta. change (min_data_server_count g2) with (min_data_server_count g).
  change (build_strategy g2) with (build_strategy g). rewrite !swrap_id by (unfold in_s; lia).
  rewrite (proj2 (Z.ltb_ge _ _)) by lia. rewrite Hstrat, Hfirst. cbn [Z.eqb Pos.eqb].
  change (set_available_server_base nodes _) with fresh. unfold rebuild_with. rewrite (sbind_run sget _ _ _ _ eq_refl). cbv zeta.
  change (m_hash_table (tables g2)) with (m_hash_table t). change (buckets_of g2) with (buckets_of g).
  rewrite (sbind_run _ _ g2 (tt, loaded) g2) by (unfold slift; by rewrite El). cbv beta iota.
  rewrite (sbind_run _ _ g2 (true, after) g2).
  2:{ change (data_need_move g2) with (data_need_move g). change (copies_of g2) with (copies_of g).
      rewrite Hmove, Z.eqb_refl, (proj2 (Z.ltb_lt 1 _)) by lia. cbn [andb negb]. unfold slift. by rewrite Eq. }
  cbv beta iota. cbn [negb]. rewrite (sbind_run _ _ g2 tt _ eq_refl).
  rewrite (sbind_run _ _ _ (BUILD_OK, built) (set_grp_locked (fun _ => false) g2)) by (unfold slift; by rewrite Eb).
  cbv beta iota. rewrite (sbind_run _ _ _ tt g3) by done. change (BUILD_OK =? BUILD_ERROR) with false. cbv iota.
  rewrite (sbind_run _ _ g3 dest g3) by (unfold slift; by rewrite Ewd).
  rewrite (sbind_run _ _ g3 quick g3) by (unfold slift; by rewrite Ewq). exact Ei.
Qed.

(** Server 5 is down; server 7, which is new, takes its place. *)
Definition one_down : group :=
  mk_group (mk_conf_table 4 4 1 1 0 (-1) 2 2 [5; 6; 6; 5] [5; 6; 6; 5] [5; 6; 6; 5])
    (<[5 := mk_server_info 0 DOWN]> (<[6 := mk_server_info 0 ALIVE]> (<[7 := mk_server_info 0 ALIVE]> ∅))) [5; 6; 7] 1
    TAIR_DATA_NEED_MIGRATE 0 1 ∅ false true true 1 4 (f32_of_Z 0) TAIR_POS_MASK ∅ ∅ None None [] false.

Lemma rebuild_starts_a_migration_witness :
  exists g', rebuild (fun _ => None) 100 (fun _ => true) (mk_rack_first true (f32_of_Z 1) 1 1 0 0 0 0 0 0)
      (mk_load_first 0 0 0 0 0 0) 0 one_down = Ret (tt, g')
    /\ planned [6; 7] 2 2 [5; 6; 6; 5] (hash_table (tables g')) (d_hash_table (tables g'))
    /\ client_version (tables g') = 5.
Proof.
  destruct (rebuild_starts_a_migration (fun _ => None) 100 (fun _ => true) (mk_rack_first true (f32_of_Z 1) 1 1 0 0 0 0 0 0)
    (mk_load_first 0 0 0 0 0 0) 0 one_down) as (g' & E & _ & _ & Hp & Hv & _).
  - split; (done || (cbn; lia)).
  - done.
  - done.
  - done.
  - repeat constructor; set_solver.
  - set_solver.
  - intros id Hid. repeat (apply elem_of_cons in Hid as [->|Hid]; [by eexists|]). by apply elem_of_nil in Hid.
  - split; by vm_compute.
  - by vm_compute.
  - split; by vm_compute.
  - intros i Hi. assert (i = 0 \/ i = 1) as [-> | ->] by (change (buckets_of one_down) with 2 in Hi; lia);
      exists 6; split; (by vm_compute; repeat constructor) || (vm_compute; repeat constructor).
  - exists g'. exact (conj E (conj Hp Hv)).
Defined.

(** a strategy that does not exist.  With a [build_strategy] other than 1,
    2 and 3 and enough servers, [rebuild] returns without installing anything and
    still holds the group's lock, so that the next rebuild waits for ever. *)
Theorem unknown_strategy_keeps_the_lock compress now alive uninit zero slave g :
  let nodes := filter (fun id => is_up (now - Z.quot (server_down_time g + 1) 2) alive (servers g) id = true) (node_list g) in
  grp_locked g = false -> build_strategy g <> 1 -> build_strategy g <> 2 -> build_strategy g <> 3 ->
  NoDup (node_list g) -> (forall id, id ∈ node_list g -> is_Some (servers g !! id)) ->
  Z.of_nat (length nodes) < 2 ^ 31 -> 0 <= min_data_server_count g <= Z.of_nat (length nodes) ->
  exists g', rebuild compress now alive uninit zero slave g = Ret (tt, g') /\ tables g' = tables g
    /\ forall now' alive' slave', rebuild compress now' alive' uninit zero slave' g' = Diverge.
Proof.
  intros nodes Hlock H1 H2 H3 Hn Hknown Hlen Hmin.
  destruct (up_nodes_spec (now - Z.quot (server_down_time g + 1) 2) alive (node_list g) (servers g) Hn Hknown) as (servers' & Eup).
  fold nodes in Eup. set (g2 := looked_at nodes servers' g).
  exists g2. split; [|done].
  unfold rebuild. rewrite (rebuild_locks now alive _ g nodes servers' Hlock Eup). fold g2.
  rewrite (sbind_run sget _ _ _ _ eq_refl). cbv zeta. change (min_data_server_count g2) with (min_data_server_count g).
  change (build_strategy g2) with (build_strategy g). rewrite !swrap_id by (unfold in_s; lia).
  rewrite (proj2 (Z.ltb_ge _ _)) by lia.
  by rewrite (proj2 (Z.eqb_neq _ 3) H3), (proj2 (Z.eqb_neq _ 1) H1), (proj2 (Z.eqb_neq _ 2) H2).
Qed.

Lemma unknown_strategy_keeps_the_lock_witness :
  exists g', rebuild (fun _ => None) 100 (fun _ => true) (mk_rack_first true (f32_of_Z 1) 1 1 0 0 0 0 0 0)
      (mk_load_first 0 0 0 0 0 0) 0
      (mk_group (create 2 2) ∅ [] 1 TAIR_DATA_NEED_MIGRATE 0 0 ∅ false true true 4 4 (f32_of_Z 0) TAIR_POS_MASK
         ∅ ∅ None None [] false) = Ret (tt, g')
    /\ tables g' = create 2 2.
Proof.
  destruct (unknown_strategy_keeps_the_lock (fun _ => None) 100 (fun _ => true)
    (mk_rack_first true (f32_of_Z 1) 1 1 0 0 0 0 0 0) (mk_load_first 0 0 0 0 0 0) 0
    (mk_group (create 2 2) ∅ [] 1 TAIR_DATA_NEED_MIGRATE 0 0 ∅ false true true 4 4 (f32_of_Z 0) TAIR_POS_MASK
       ∅ ∅ None None [] false)) as (g' & E & Et & _);
    [done|done|done|done|constructor|by intros id ?%elem_of_nil|done|done|].
  exists g'. exact (conj E Et).
Defined.
