(* ===== verification/PacketCodes.v ===== *)
(** * Packet codes (packets/base_packet.hpp)

    The codes the data server compares; [PacketFactory] knows the others. *)

From S2P Require Import Prelude.

Definition TAIR_REQ_PUT_PACKET : Z := 1.
Definition TAIR_REQ_REMOVE_PACKET : Z := 3.
Definition TAIR_REQ_LOCK_PACKET : Z := 14.
Definition TAIR_REQ_MPUT_PACKET : Z := 15.
Definition TAIR_REQ_EXPIRE_PACKET : Z := 2127.
Definition TAIR_REQ_PUTNX_PACKET : Z := 2149.
Definition TAIR_REQ_INCDEC_PACKET : Z := 11.
Definition TAIR_REQ_LPOP_PACKET : Z := 2100.
Definition TAIR_REQ_RPOP_PACKET : Z := 2102.
Definition TAIR_REQ_LPUSH_PACKET : Z := 2101.
Definition TAIR_REQ_RPUSH_PACKET : Z := 2103.
Definition TAIR_REQ_LPUSHX_PACKET : Z := 2104.
Definition TAIR_REQ_RPUSHX_PACKET : Z := 2105.
Definition TAIR_REQ_LPUSH_LIMIT_PACKET : Z := 2157.
Definition TAIR_REQ_RPUSH_LIMIT_PACKET : Z := 2158.
Definition TAIR_REQ_LPUSHX_LIMIT_PACKET : Z := 2159.
Definition TAIR_REQ_RPUSHX_LIMIT_PACKET : Z := 2160.
Definition TAIR_REQ_LPUSH_LIMIT_DUPLICATE_PACKET : Z := 4023.
Definition TAIR_REQ_RPUSH_LIMIT_DUPLICATE_PACKET : Z := 4024.
Definition TAIR_REQ_LSET_PACKET : Z := 2166.
Definition TAIR_REQ_LTRIM_PACKET : Z := 2128.
Definition TAIR_REQ_LREM_PACKET : Z := 2129.
Definition TAIR_REQ_HMSET_PACKET : Z := 2109.
Definition TAIR_REQ_HSET_PACKET : Z := 2110.
Definition TAIR_REQ_HSETNX_PACKET : Z := 2111.
Definition TAIR_REQ_HDEL_PACKET : Z := 2115.
Definition TAIR_REQ_SPOP_PACKET : Z := 2119.
Definition TAIR_REQ_SREM_PACKET : Z := 2145.
Definition TAIR_REQ_SREMMULTI_PACKET : Z := 2147.
Definition TAIR_REQ_SADD_PACKET : Z := 2118.
Definition TAIR_REQ_SADDMULTI_PACKET : Z := 2146.
Definition TAIR_REQ_ZADD_PACKET : Z := 2124.
Definition TAIR_REQ_ZREM_PACKET : Z := 2137.
Definition TAIR_REQ_ZREMRANGEBYRANK_PACKET : Z := 2138.
Definition TAIR_REQ_ZREMRANGEBYSCORE_PACKET : Z := 2139.
Definition TAIR_REQ_MUPDATE_PACKET : Z := 13.
Definition TAIR_REQ_LPUSH_DUPLICATE_PACKET : Z := 4019.
Definition TAIR_REQ_LPUSHX_DUPLICATE_PACKET : Z := 4020.
Definition TAIR_REQ_RPUSH_DUPLICATE_PACKET : Z := 4021.
