(* ===== verification/CopyPackets.v ===== *)
(** * Copies of requests (packets/*_packet.hpp, the copy constructors)

    The server that a client writes to copies the request for each slave of the
    bucket: the copy constructor of the request, and the id and the bucket of
    the copy.  What a constructor does not copy keeps its initial value; [uninit]
    is what an uninitialised integer holds. *)

From S2P Require Import Prelude PacketCodes DataBuffer DataEntry BasePacket KvPackets KeyPackets ListPackets HashPackets SetPackets ZsetPackets ConfPackets PacketFactory.

(** What goes over the network: the packets of the factory, and the ones that
    are sent although the factory does not know them. *)
Inductive message :=
| Plain (p : packet)
| LimitCopy (pcode : Z) (p : old_dup request_lrpush_limit)
| InfoResponse (p : response_info).

(** [key.clone(packet.key)] into a new entry; [data_entry(packet.key)] *)
Definition cloned (e : data_entry) : data_entry := clone e new_data_entry.
Definition copied (e : data_entry) : data_entry := assign_data_entry e new_data_entry.

(** ** The copy constructors *)

(** [request_put] and [request_putnx]: the hash code is not copied. *)
Definition request_put_copy (p : request_put) : request_put :=
  mk_request_put (put_server_flag p) (put_area p) (put_version p) (put_expired p) (-1)
    (cloned (put_key p)) (cloned (put_data p)).
Definition request_get_copy (p : request_get) : request_get :=
  mk_request_get (get_server_flag p) (get_area p) (get_key_count p) (cloned <$> get_key p)
    (map copied <$> get_key_list p).
Definition request_ltrim_copy (p : request_ltrim) : request_ltrim :=
  mk_request_ltrim (ltrim_server_flag p) (ltrim_area p) (ltrim_version p) (ltrim_expire p)
    (ltrim_start p) (ltrim_end p) (cloned (ltrim_key p)).
(** [request_lrem]: the value is a copy of the key. *)
Definition request_lrem_copy (p : request_lrem) : request_lrem :=
  mk_request_lrem (lrem_server_flag p) (lrem_area p) (lrem_version p) (lrem_expire p) (lrem_count p)
    (cloned (lrem_key p)) (cloned (lrem_key p)).
Definition request_lset_copy (p : request_lset) : request_lset :=
  mk_request_lset (lset_server_flag p) (lset_area p) (lset_version p) (lset_expire p) (lset_index p)
    (cloned (lset_key p)) (cloned (lset_value p)).
Definition request_lrpush_copy (p : request_lrpush) : request_lrpush :=
  mk_request_lrpush (lrpush_server_flag p) (lrpush_area p) (lrpush_version p) (lrpush_expire p)
    (cloned (lrpush_key p)) (map cloned (lrpush_values p)).
Definition request_lrpop_copy (p : request_lrpop) : request_lrpop :=
  mk_request_lrpop (lrpop_server_flag p) (lrpop_area p) (lrpop_version p) (lrpop_expire p)
    (lrpop_count p) (cloned (lrpop_key p)).
Definition request_hmset_copy (p : request_hmset) : request_hmset :=
  mk_request_hmset (hmset_server_flag p) (hmset_area p) (hmset_version p) (hmset_expire p)
    (cloned (hmset_key p)) (map cloned (hmset_field_values p)).
Definition request_hset_copy (p : request_hset) : request_hset :=
  mk_request_hset (hset_server_flag p) (hset_area p) (hset_version p) (hset_expire p)
    (cloned (hset_key p)) (cloned (hset_field p)) (cloned (hset_value p)).
Definition request_hsetnx_copy (p : request_hsetnx) : request_hsetnx :=
  mk_request_hsetnx (hsetnx_server_flag p) (hsetnx_area p) (hsetnx_version p) (hsetnx_expire p)
    (cloned (hsetnx_key p)) (cloned (hsetnx_field p)) (cloned (hsetnx_value p)).
Definition request_hdel_copy (p : request_hdel) : request_hdel :=
  mk_request_hdel (hdel_server_flag p) (hdel_area p) (hdel_version p) (hdel_expire p)
    (cloned (hdel_key p)) (cloned (hdel_field p)).
Definition request_spop_copy (p : request_spop) : request_spop :=
  mk_request_spop (spop_server_flag p) (spop_area p) (spop_version p) (spop_expire p) (cloned (spop_key p)).
Definition request_srem_copy (p : request_srem) : request_srem :=
  mk_request_srem (srem_server_flag p) (srem_area p) (srem_version p) (srem_expire p)
    (cloned (srem_key p)) (cloned (srem_value p)).
Definition request_sadd_copy (p : request_sadd) : request_sadd :=
  mk_request_sadd (sadd_server_flag p) (sadd_area p) (sadd_version p) (sadd_expire p)
    (cloned (sadd_key p)) (cloned (sadd_value p)).

(** [request_sadd_multi]: the loop goes from the first entry of the packet's map
    to the end of the new map, which is not on its way: it reads past the last
    entry. *)
Definition request_sadd_multi_copy (p : request_sadd_multi) : outcome request_sadd_multi := Overrun.

Definition request_zadd_copy (p : request_zadd) : request_zadd :=
  mk_request_zadd (zadd_server_flag p) (zadd_area p) (zadd_version p) (zadd_expire p) (zadd_score p)
    (cloned (zadd_key p)) (cloned (zadd_value p)).
Definition request_zrem_copy (p : request_zrem) : request_zrem :=
  mk_request_zrem (zrem_server_flag p) (zrem_area p) (zrem_version p) (zrem_expire p)
    (cloned (zrem_key p)) (cloned (zrem_value p)).
Definition request_zremrangebyrank_copy (p : request_zremrangebyrank) : request_zremrangebyrank :=
  mk_request_zremrangebyrank (zremrangebyrank_server_flag p) (zremrangebyrank_area p)
    (zremrangebyrank_version p) (zremrangebyrank_expire p) (zremrangebyrank_start p)
    (zremrangebyrank_end p) (cloned (zremrangebyrank_key p)).
Definition request_zremrangebyscore_copy (p : request_zremrangebyscore) : request_zremrangebyscore :=
  mk_request_zremrangebyscore (zremrangebyscore_server_flag p) (zremrangebyscore_area p)
    (zremrangebyscore_version p) (zremrangebyscore_expire p) (zremrangebyscore_start p)
    (zremrangebyscore_end p) (cloned (zremrangebyscore_key p)).

(** [request_lrpush_limit(packet)]: the hidden base and the limit are copied. *)
Definition request_lrpush_limit_copy (uninit : Z) (p : request_lrpush_limit) : request_lrpush_limit :=
  mk_request_lrpush_limit (lrpush_limit_server_flag p) uninit uninit uninit (lrpush_limit_max_count p) new_data_entry [].

(** ** The copies, with their packet codes *)

Definition lrpush_copy (old_pcode : Z) (p : request_lrpush) (packet_id bucket_id : Z) : message :=
  let c := mk_old_dup (request_lrpush_copy p) old_pcode packet_id bucket_id in
  Plain (
  if old_pcode =? TAIR_REQ_LPUSH_PACKET then Copy (REQ_LPUSH_DUPLICATE c)
  else if old_pcode =? TAIR_REQ_RPUSH_PACKET then Copy (REQ_RPUSH_DUPLICATE c)
  else if old_pcode =? TAIR_REQ_LPUSHX_PACKET then Copy (REQ_LPUSHX_DUPLICATE c)
  else Copy (REQ_RPUSHX_DUPLICATE c)).
Definition lrpop_copy (old_pcode : Z) (p : request_lrpop) (packet_id bucket_id : Z) : message :=
  let c := mk_old_dup (request_lrpop_copy p) old_pcode packet_id bucket_id in
  Plain (if old_pcode =? TAIR_REQ_LPOP_PACKET then Copy (REQ_LPOP_DUPLICATE c) else Copy (REQ_RPOP_DUPLICATE c)).

(** [request_lrpush_limit_dup]: two of the four codes get a code of a copy, the
    others keep theirs. *)
Definition lrpush_limit_copy (uninit old_pcode : Z) (p : request_lrpush_limit) (packet_id bucket_id : Z) : message :=
  let pcode := if old_pcode =? TAIR_REQ_LPUSH_LIMIT_PACKET then TAIR_REQ_LPUSH_LIMIT_DUPLICATE_PACKET
               else if old_pcode =? TAIR_REQ_RPUSH_LIMIT_PACKET then TAIR_REQ_RPUSH_LIMIT_DUPLICATE_PACKET
               else old_pcode in
  LimitCopy pcode (mk_old_dup (request_lrpush_limit_copy uninit p) old_pcode packet_id bucket_id).
