(* ===== verification/Storage.v ===== *)
(** * The storage interface (storage/storage_manager.hpp)

    [storage_manager] is the abstract class behind which a data server keeps
    its keys and values.  A virtual function is a field of the class
    [storage_manager St], a state transformer of the engine's state [St]; a
    reference or pointer argument the callers read afterwards is among the
    results, after the return code.  Most functions have a body that answers
    [TAIR_RETURN_IS_NOT_IMPLEMENT]: [not_implemented] is the class with those
    bodies, and the memory engine overrides what it has.

    [KeyValueLaws] is what the key/value functions of an engine promise to the
    data server; the memory engine keeps it. *)

From S2P Require Import Prelude Util DataBuffer DataEntry MemPool MdbItem MemCache SlabLists SlabAlloc CacheHashMap EngineState MdbManager Engine EngineInit EngineRun.

Definition TAIR_RETURN_IS_NOT_IMPLEMENT : Z := -20008.

(** A double is the number its eight bytes are, as in the packets. *)
Definition double : Type := Z.

(** [LeftOrRight], [ExistOrNot] *)
Definition IS_LEFT : Z := 0.
Definition IS_RIGHT : Z := 1.
Definition IS_NOT_EXIST : Z := 0.
Definition IS_EXIST : Z := 1.

Class storage_manager (St : Type) := {
  st_op_cmd : Z -> list (list Z) -> list (list Z) -> stM St (Z * list (list Z));
  st_expire : Z -> data_entry -> Z -> stM St (Z * data_entry);
  st_expireat : Z -> data_entry -> Z -> stM St (Z * data_entry);
  st_persist : Z -> data_entry -> stM St (Z * data_entry);
  st_ttl : Z -> data_entry -> Z -> stM St (Z * data_entry * Z);
  st_type : Z -> data_entry -> Z -> stM St (Z * data_entry * Z);
  st_exists : Z -> data_entry -> stM St (Z * data_entry);
  st_lazyclear : Z -> stM St Z;
  st_dumparea : Z -> stM St Z;
  st_loadarea : Z -> stM St Z;
  st_addfilter : Z -> data_entry -> data_entry -> data_entry -> stM St Z;
  st_removefilter : Z -> data_entry -> data_entry -> data_entry -> stM St Z;
  st_remove : Z -> data_entry -> bool -> stM St (Z * data_entry);
  (* strings *)
  st_putnx : Z -> data_entry -> data_entry -> bool -> Z -> stM St (Z * data_entry);
  st_put : Z -> data_entry -> data_entry -> bool -> Z -> stM St (Z * data_entry);
  st_get : Z -> data_entry -> data_entry -> stM St (Z * data_entry * data_entry);
  st_getset : Z -> data_entry -> data_entry -> data_entry -> bool -> Z -> Z ->
              stM St (Z * data_entry * data_entry);
  st_incdecr : Z -> data_entry -> Z -> Z -> Z -> bool -> Z -> Z -> stM St (Z * data_entry * Z);
  (* lists *)
  st_lrpop : Z -> data_entry -> Z -> list data_entry -> Z -> bool -> Z -> Z ->
             stM St (Z * data_entry * list data_entry);
  st_lrpush : Z -> data_entry -> list data_entry -> Z -> Z -> Z -> Z -> Z -> bool -> Z -> Z ->
              stM St (Z * data_entry * (Z * Z));
  st_lindex : Z -> data_entry -> Z -> data_entry -> stM St (Z * data_entry * data_entry);
  st_lrange : Z -> data_entry -> Z -> Z -> list data_entry -> stM St (Z * data_entry * list data_entry);
  st_lrem : Z -> data_entry -> Z -> data_entry -> Z -> bool -> Z -> Z -> stM St (Z * data_entry * Z);
  st_llen : Z -> data_entry -> Z -> stM St (Z * data_entry * Z);
  st_linsert : Z -> data_entry -> data_entry -> data_entry -> Z -> bool -> Z -> Z -> stM St (Z * data_entry);
  st_lset : Z -> data_entry -> Z -> data_entry -> bool -> Z -> Z -> stM St (Z * data_entry);
  st_ltrim : Z -> data_entry -> Z -> Z -> bool -> Z -> Z -> stM St (Z * data_entry);
  (* hashes *)
  st_hgetall : Z -> data_entry -> list data_entry -> stM St (Z * data_entry * list data_entry);
  st_hincrby : Z -> data_entry -> data_entry -> Z -> Z -> bool -> Z -> Z -> stM St (Z * data_entry * Z);
  st_hmset : Z -> data_entry -> list data_entry -> Z -> bool -> Z -> Z -> stM St (Z * data_entry * Z);
  st_hset : Z -> data_entry -> data_entry -> data_entry -> bool -> Z -> Z -> stM St (Z * data_entry);
  st_hsetnx : Z -> data_entry -> data_entry -> data_entry -> bool -> Z -> Z -> stM St (Z * data_entry);
  st_hexists : Z -> data_entry -> data_entry -> stM St (Z * data_entry);
  st_hget : Z -> data_entry -> data_entry -> data_entry -> stM St (Z * data_entry * data_entry);
  st_hmget : Z -> data_entry -> list data_entry -> list data_entry -> stM St (Z * data_entry * list data_entry);
  st_hkeys : Z -> data_entry -> list data_entry -> stM St (Z * data_entry * list data_entry);
  st_hvals : Z -> data_entry -> list data_entry -> stM St (Z * data_entry * list data_entry);
  st_hdel : Z -> data_entry -> data_entry -> bool -> Z -> Z -> stM St (Z * data_entry);
  st_hlen : Z -> data_entry -> Z -> stM St (Z * data_entry * Z);
  (* sets *)
  st_scard : Z -> data_entry -> Z -> stM St (Z * data_entry * Z);
  st_smembers : Z -> data_entry -> list data_entry -> stM St (Z * data_entry * list data_entry);
  st_sadd : Z -> data_entry -> data_entry -> bool -> Z -> Z -> stM St (Z * data_entry);
  st_spop : Z -> data_entry -> data_entry -> bool -> Z -> Z -> stM St (Z * data_entry * data_entry);
  st_srem : Z -> data_entry -> data_entry -> bool -> Z -> Z -> stM St (Z * data_entry);
  (* sorted sets *)
  st_zscore : Z -> data_entry -> data_entry -> double -> stM St (Z * data_entry * double);
  st_zrange : Z -> data_entry -> Z -> Z -> list data_entry -> list double -> Z ->
              stM St (Z * data_entry * (list data_entry * list double));
  st_zrevrange : Z -> data_entry -> Z -> Z -> list data_entry -> list double -> Z ->
                 stM St (Z * data_entry * (list data_entry * list double));
  st_zrangebyscore : Z -> data_entry -> double -> double -> list data_entry -> list double -> Z -> Z ->
                     stM St (Z * data_entry * (list data_entry * list double));
  st_zrevrangebyscore : Z -> data_entry -> double -> double -> list data_entry -> list double -> Z -> Z ->
                        stM St (Z * data_entry * (list data_entry * list double));
  st_zadd : Z -> data_entry -> double -> data_entry -> bool -> Z -> Z -> stM St (Z * data_entry);
  st_zrank : Z -> data_entry -> data_entry -> Z -> stM St (Z * data_entry * Z);
  st_zrevrank : Z -> data_entry -> data_entry -> Z -> stM St (Z * data_entry * Z);
  st_zcount : Z -> data_entry -> double -> double -> Z -> stM St (Z * data_entry * Z);
  st_zincrby : Z -> data_entry -> data_entry -> double -> double -> bool -> Z -> Z ->
               stM St (Z * data_entry * double);
  st_zcard : Z -> data_entry -> Z -> stM St (Z * data_entry * Z);
  st_zrem : Z -> data_entry -> data_entry -> bool -> Z -> Z -> stM St (Z * data_entry);
  st_zremrangebyrank : Z -> data_entry -> Z -> Z -> bool -> Z -> Z -> Z -> stM St (Z * data_entry * Z);
  st_zremrangebyscore : Z -> data_entry -> double -> double -> bool -> Z -> Z -> Z -> stM St (Z * data_entry * Z);
  (* areas and buckets *)
  st_clear : Z -> stM St Z;
  st_init_buckets : list Z -> stM St bool;
  st_close_buckets : list Z -> stM St unit;
  st_get_next_items : md_info -> stM St (bool * md_info * list item_data_info);
  st_begin_scan : md_info -> stM St md_info;
  st_end_scan : md_info -> stM St md_info;
  st_get_stats : stM St (list (Z * Z * Z));
  st_set_area_quota : Z -> Z -> stM St unit;
  st_set_area_quota_map : list (Z * Z) -> stM St unit;
  st_set_bucket_count : Z -> stM St unit
}.

(** ** The bodies of the interface *)

(** The pure virtual functions, and the counter of buckets of the base class,
    which can be set once. *)
Record pure_functions (St : Type) := mk_pure_functions {
  pv_remove : Z -> data_entry -> bool -> stM St (Z * data_entry);
  pv_put : Z -> data_entry -> data_entry -> bool -> Z -> stM St (Z * data_entry);
  pv_get : Z -> data_entry -> data_entry -> stM St (Z * data_entry * data_entry);
  pv_clear : Z -> stM St Z;
  pv_init_buckets : list Z -> stM St bool;
  pv_close_buckets : list Z -> stM St unit;
  pv_get_next_items : md_info -> stM St (bool * md_info * list item_data_info);
  pv_begin_scan : md_info -> stM St md_info;
  pv_end_scan : md_info -> stM St md_info;
  pv_get_stats : stM St (list (Z * Z * Z));
  pv_set_area_quota : Z -> Z -> stM St unit;
  pv_set_area_quota_map : list (Z * Z) -> stM St unit;
  pv_bucket_count : St -> Z;
  pv_put_bucket_count : Z -> St -> St
}.
Arguments pv_remove {St}. Arguments pv_put {St}. Arguments pv_get {St}. Arguments pv_clear {St}.
Arguments pv_init_buckets {St}. Arguments pv_close_buckets {St}. Arguments pv_get_next_items {St}.
Arguments pv_begin_scan {St}. Arguments pv_end_scan {St}. Arguments pv_get_stats {St}.
Arguments pv_set_area_quota {St}. Arguments pv_set_area_quota_map {St}.
Arguments pv_bucket_count {St}. Arguments pv_put_bucket_count {St}.

Section bodies.
Context {St : Type} (pv : pure_functions St).

(** [return TAIR_RETURN_IS_NOT_IMPLEMENT;], with the referenced arguments as
    they were *)
Definition no_code : stM St Z := sret TAIR_RETURN_IS_NOT_IMPLEMENT.
Definition no_key (key : data_entry) : stM St (Z * data_entry) := sret (TAIR_RETURN_IS_NOT_IMPLEMENT, key).
Definition no_out {A} (key : data_entry) (out : A) : stM St (Z * data_entry * A) :=
  sret (TAIR_RETURN_IS_NOT_IMPLEMENT, key, out).

(** [set_bucket_count(bucket_count)] *)
Definition set_bucket_count (bucket_count : Z) : stM St unit :=
  let* s := sget in
  if negb (pv_bucket_count pv s =? 0) then sret tt else smodify (pv_put_bucket_count pv bucket_count).

Definition not_implemented : storage_manager St := {|
  st_op_cmd _ _ infos := sret (TAIR_RETURN_IS_NOT_IMPLEMENT, infos);
  st_expire _ key _ := no_key key;
  st_expireat _ key _ := no_key key;
  st_persist _ key := no_key key;
  st_ttl _ key time_remain := no_out key time_remain;
  st_type _ key what_type := no_out key what_type;
  st_exists _ key := no_key key;
  st_lazyclear _ := no_code;
  st_dumparea _ := no_code;
  st_loadarea _ := no_code;
  st_addfilter _ _ _ _ := no_code;
  st_removefilter _ _ _ _ := no_code;
  st_remove := pv_remove pv;
  st_putnx _ key _ _ _ := no_key key;
  st_put := pv_put pv;
  st_get := pv_get pv;
  st_getset _ key _ oldvalue _ _ _ := no_out key oldvalue;
  st_incdecr _ key _ _ retvalue _ _ _ := no_out key retvalue;
  st_lrpop _ key _ values _ _ _ _ := no_out key values;
  st_lrpush _ key _ oklen list_len _ _ _ _ _ _ := no_out key (oklen, list_len);
  st_lindex _ key _ value := no_out key value;
  st_lrange _ key _ _ values := no_out key values;
  st_lrem _ key _ _ retnum _ _ _ := no_out key retnum;
  st_llen _ key len := no_out key len;
  st_linsert _ key _ _ _ _ _ _ := no_key key;
  st_lset _ key _ _ _ _ _ := no_key key;
  st_ltrim _ key _ _ _ _ _ := no_key key;
  st_hgetall _ key values := no_out key values;
  st_hincrby _ key _ _ retvalue _ _ _ := no_out key retvalue;
  st_hmset _ key _ retvalue _ _ _ := no_out key retvalue;
  st_hset _ key _ _ _ _ _ := no_key key;
  st_hsetnx _ key _ _ _ _ _ := no_key key;
  st_hexists _ key _ := no_key key;
  st_hget _ key _ value := no_out key value;
  st_hmget _ key _ values := no_out key values;
  st_hkeys _ key values := no_out key values;
  st_hvals _ key values := no_out key values;
  st_hdel _ key _ _ _ _ := no_key key;
  st_hlen _ key len := no_out key len;
  st_scard _ key retnum := no_out key retnum;
  st_smembers _ key values := no_out key values;
  st_sadd _ key _ _ _ _ := no_key key;
  st_spop _ key value _ _ _ := no_out key value;
  st_srem _ key _ _ _ _ := no_key key;
  st_zscore _ key _ score := no_out key score;
  st_zrange _ key _ _ values scores _ := no_out key (values, scores);
  st_zrevrange _ key _ _ values scores _ := no_out key (values, scores);
  st_zrangebyscore _ key _ _ values scores _ _ := no_out key (values, scores);
  st_zrevrangebyscore _ key _ _ values scores _ _ := no_out key (values, scores);
  st_zadd _ key _ _ _ _ _ := no_key key;
  st_zrank _ key _ rank := no_out key rank;
  st_zrevrank _ key _ rank := no_out key rank;
  st_zcount _ key _ _ retnum := no_out key retnum;
  st_zincrby _ key _ _ retvalue _ _ _ := no_out key retvalue;
  st_zcard _ key retnum := no_out key retnum;
  st_zrem _ key _ _ _ _ := no_key key;
  st_zremrangebyrank _ key _ _ _ _ _ remnum := no_out key remnum;
  st_zremrangebyscore _ key _ _ _ _ _ remnum := no_out key remnum;
  st_clear := pv_clear pv;
  st_init_buckets := pv_init_buckets pv;
  st_close_buckets := pv_close_buckets pv;
  st_get_next_items := pv_get_next_items pv;
  st_begin_scan := pv_begin_scan pv;
  st_end_scan := pv_end_scan pv;
  st_get_stats := pv_get_stats pv;
  st_set_area_quota := pv_set_area_quota pv;
  st_set_area_quota_map := pv_set_area_quota_map pv;
  st_set_bucket_count := set_bucket_count
|}.
End bodies.

(** ** The memory engine behind the interface *)

(** [mdb_manager]: the member of the base class and the engine. *)
Record mdb_manager := mk_mdb_manager { mdb_bucket_count : Z; mdb_engine : mdb }.

(** An operation of the engine as one of the object. *)
Definition with_engine {A} (m : mdbM A) : stM mdb_manager A := fun s =>
  let! (a, engine) := m (mdb_engine s) in Ret (a, mk_mdb_manager (mdb_bucket_count s) engine).

(** [share] is the floating point estimate of [balance_slab], [malloced] what
    [malloc] leaves in a header. *)
Section mdb_storage.
Context (share : Z -> Z -> Z -> Z) (malloced : item_meta_info).

Definition mdb_functions : pure_functions mdb_manager := {|
  pv_remove _ key version_care := with_engine (do_remove key version_care);
  pv_put _ key value version_care expire_time := with_engine (do_put key value version_care expire_time);
  pv_get _ key value := with_engine (do_get key value);
  pv_clear area := with_engine (let* _ := MdbManager.clear share area in sret 0);
  pv_init_buckets _ := sret true;
  pv_close_buckets buckets := fun s => with_engine (close_buckets (mdb_bucket_count s) buckets) s;
  pv_get_next_items info := fun s => with_engine (get_next_items (mdb_bucket_count s) malloced info []) s;
  pv_begin_scan info := sret (begin_scan info);
  pv_end_scan info := sret info;
  pv_get_stats := with_engine get_stats;
  pv_set_area_quota area quota := with_engine (set_area_quota area quota);
  pv_set_area_quota_map quota_map := with_engine (set_area_quota_map quota_map);
  pv_bucket_count := mdb_bucket_count;
  pv_put_bucket_count n s := mk_mdb_manager n (mdb_engine s)
|}.
Definition mdb_storage : storage_manager mdb_manager := not_implemented mdb_functions.
End mdb_storage.

(** ** What an engine promises

    [holds s c]: the engine is in order and stands for the store [c];
    [clock s] is its time and [room s n] says that an item of [n] bytes has a
    place.  The specifications are those of the memory engine's [Engine]: a put
    may drop one other key, expired entries go when they are read. *)
Class KeyValueLaws (St : Type) `{storage_manager St} := {
  holds : St -> gmap (list Z) entry -> Prop;
  clock : St -> Z;
  room : St -> Z -> Prop;
  put_law : forall s c a key value version_care expired,
    holds s c -> put_ok key value -> room s (get_size key + get_size value + sizeof_mdb_item) ->
    exists rc key' s' c', st_put a key value version_care expired s = Ret ((rc, key'), s') /\ holds s' c'
      /\ clock s' = clock s /\ (forall n, room s n -> room s' n)
      /\ put_spec (clock s) c key value version_care (Z.max 0 expired) rc c';
  get_law : forall s c a key value,
    holds s c -> key_ok key ->
    exists rc key' value' r s' c', st_get a key value s = Ret ((rc, key', value'), s') /\ holds s' c'
      /\ clock s' = clock s /\ (forall n, room s n -> room s' n)
      /\ get_spec (clock s) c (get_data key) rc r c'
      /\ received_entry value value' r /\ received_key key key' r;
  remove_law : forall s c a key version_care,
    holds s c -> key_ok key ->
    exists rc key' s' c', st_remove a key version_care s = Ret ((rc, key'), s') /\ holds s' c'
      /\ clock s' = clock s /\ (forall n, room s n -> room s' n)
      /\ remove_spec c (get_data key) rc c';
  incdecr_law : forall s a key init_value add_value ret version_care version expired,
    st_incdecr a key init_value add_value ret version_care version expired s
    = Ret ((TAIR_RETURN_IS_NOT_IMPLEMENT, key, ret), s)
}.

Section mdb_laws.
Context (share : Z -> Z -> Z -> Z) (malloced : item_meta_info).

Lemma room_same s s' n : engine_frame s s' -> room_for s n -> room_for s' n.
Proof. intros Hef. by apply room_for_frame. Qed.

(** The memory engine keeps the promise. *)
#[export] Program Instance mdb_laws : @KeyValueLaws mdb_manager (mdb_storage share malloced) := {
  holds s c := exists m vs, cache_ok (mdb_engine s) m vs None /\ content (mdb_engine s) m = c;
  clock s := u32 (m_now (mdb_engine s));
  room s n := room_for (mdb_engine s) n
}.
Next Obligation.
  intros s c a key value vc expired (m & vs & Hck & <-) Hput Hroom.
  destruct (do_put_ok _ m vs Hck key value vc expired Hput Hroom)
    as (rc & key' & e' & m' & vs' & E & Hck' & Hef & Hsp & _).
  exists rc, key', (mk_mdb_manager (mdb_bucket_count s) e'), (content e' m').
  split; [cbn; unfold with_engine; by rewrite E|]. split; [by exists m', vs'|].
  split; [cbn; by rewrite (ef_now _ _ Hef)|]. split; [intros n; by apply room_same|done].
Qed.
Next Obligation.
  intros s c a key value (m & vs & Hck & <-) (Hne & Hak & Ha).
  destruct (do_get_ok _ m vs Hck key value Hne Hak Ha)
    as (rc & key' & value' & r & e' & m' & vs' & E & Hck' & Hef & Hsp & Hrec).
  exists rc, key', value', r, (mk_mdb_manager (mdb_bucket_count s) e'), (content e' m').
  split; [cbn; unfold with_engine; by rewrite E|]. split; [by exists m', vs'|].
  split; [cbn; by rewrite (ef_now _ _ Hef)|]. split; [intros n; by apply room_same|done].
Qed.
Next Obligation.
  intros s c a key vc (m & vs & Hck & <-) (Hne & Hak & Ha).
  destruct (do_remove_ok _ m vs Hck key vc Hne Ha) as (rc & key' & e' & m' & vs' & E & Hck' & Hef & Hsp).
  exists rc, key', (mk_mdb_manager (mdb_bucket_count s) e'), (content e' m').
  split; [cbn; unfold with_engine; by rewrite E|]. split; [by exists m', vs'|].
  split; [cbn; by rewrite (ef_now _ _ Hef)|]. split; [intros n; by apply room_same|done].
Qed.
Next Obligation. done. Qed.
End mdb_laws.
