(* ===== verification/TairManager.v ===== *)
(** * The operations of a data server (dataserver/tair_manager.cpp)

    [tair_manager] puts the checks of a data server in front of the storage
    engine: is the server working, do key and value have sizes that can be
    stored; it puts the area in front of the key, asks for the version to be
    checked for requests of clients, and counts.  The engine is whatever
    implements [storage_manager].  A reference or pointer argument is a result,
    after the return code.

    The mutexes are not modelled: an operation is one step.  [ip] is
    [local_server_ip::ip]; [uninit] is what an uninitialised [int] holds. *)

From S2P Require Import Prelude PacketCodes Util DataBuffer DataEntry MdbItem MemCache SlabLists MdbManager EngineState Engine EngineRun TableManager ConfTable Storage.

(** ** Codes (common/define.hpp) *)

Definition TAIR_RETURN_FAILED : Z := -3999.
Definition TAIR_RETURN_ITEMSIZE_ERROR : Z := -3991.
Definition TAIR_RETURN_SERVER_CAN_NOT_WORK : Z := -3987.
Definition TAIR_RETURN_CANNOT_OVERRIDE : Z := -3981.
Definition TAIR_RETURN_NOT_SUPPORTED : Z := -4001.
Definition TAIR_MAX_KEY_SIZE : Z := 1024.
Definition TAIR_MAX_VALUE_SIZE : Z := 1000000.
Definition TAIR_ITEM_FLAG_ADDCOUNT : Z := 1.
Definition IS_ADDCOUNT_TYPE (flag : Z) : bool := Z.land flag TAIR_ITEM_FLAG_ADDCOUNT =? TAIR_ITEM_FLAG_ADDCOUNT.
Definition TAIR_SERVER_CMD_MIN_TYPE : Z := 0.
Definition TAIR_SERVER_CMD_SET_CONFIG : Z := 12.
Definition TAIR_SERVER_CMD_GET_CONFIG : Z := 13.
Definition TAIR_SERVER_CMD_MAX_TYPE : Z := 14.
Definition TAIR_OPERATION_VERSION : Z := 1.
Definition TAIR_OPERATION_DUPLICATE : Z := 2.
Definition TAIR_OPERATION_REMOTE : Z := 4.
Definition ITEM_HEAD_LENGTH : nat := 2.

(** ** State *)

(** The [status] of the server *)
Definition STATUS_NOT_INITED : Z := 0.
Definition STATUS_INITED : Z := 1.
Definition STATUS_CAN_WORK : Z := 2.

(** [boost::dynamic_bitset]: a length and the bits that are set; [test] and
    [set] assert that the index is in range. *)
Record bitset := mk_bitset { bs_size : Z; bs_bits : gset Z }.
Definition bs_test (b : bitset) (i : Z) : outcome bool :=
  oassert ((0 <=? i) && (i <? bs_size b)) (Ret (bool_decide (i ∈ bs_bits b))).
Definition bs_set (b : bitset) (i : Z) : outcome bitset :=
  oassert ((0 <=? i) && (i <? bs_size b)) (Ret (mk_bitset (bs_size b) ({[i]} ∪ bs_bits b))).

(** The counters of [stat_helper] for one area (common/stat_info.hpp) *)
Record tair_stat := mk_tair_stat { ts_get : Z; ts_put : Z; ts_remove : Z; ts_hit : Z }.
Definition zero_stat : tair_stat := mk_tair_stat 0 0 0 0.

(** What an operation tells the components that are not part of this state. *)
Inductive notice :=
| SetMaxQueueSize (n : Z) | HashTableChanged | ServerListChanged | CancelDumps | InitMigrateLog
| SetMigrateServerList (migrates : gmap Z (list Z)) (version : Z).

Record tair_manager (St : Type) := mk_tair_manager {
  tm_localmode : bool; tm_status : Z; tm_storage : St; tm_table : table_manager;
  tm_done : bitset; tm_stats : gmap Z tair_stat
}.
Arguments mk_tair_manager {St}. Arguments tm_localmode {St}. Arguments tm_status {St}.
Arguments tm_storage {St}. Arguments tm_table {St}. Arguments tm_done {St}. Arguments tm_stats {St}.

Section tair_manager.
Context {St : Type} `{storage_manager St} (ip uninit : Z).

Definition tmM (A : Type) : Type := stM (tair_manager St) A.

Definition set_status (status : Z) (tm : tair_manager St) : tair_manager St :=
  mk_tair_manager (tm_localmode tm) status (tm_storage tm) (tm_table tm) (tm_done tm) (tm_stats tm).
Definition set_storage (st : St) (tm : tair_manager St) : tair_manager St :=
  mk_tair_manager (tm_localmode tm) (tm_status tm) st (tm_table tm) (tm_done tm) (tm_stats tm).
Definition set_table (t : table_manager) (tm : tair_manager St) : tair_manager St :=
  mk_tair_manager (tm_localmode tm) (tm_status tm) (tm_storage tm) t (tm_done tm) (tm_stats tm).
Definition set_done (b : bitset) (tm : tair_manager St) : tair_manager St :=
  mk_tair_manager (tm_localmode tm) (tm_status tm) (tm_storage tm) (tm_table tm) b (tm_stats tm).
Definition set_stats (f : gmap Z tair_stat -> gmap Z tair_stat) (tm : tair_manager St) : tair_manager St :=
  mk_tair_manager (tm_localmode tm) (tm_status tm) (tm_storage tm) (tm_table tm) (tm_done tm) (f (tm_stats tm)).

(** A call of the storage engine *)
Definition on_storage {A} (m : stM St A) : tmM A := fun tm =>
  let! (a, st) := m (tm_storage tm) in Ret (a, set_storage st tm).

(** [stat_helper::stat_get], [stat_put], [stat_remove] (common/stat_helper.cpp);
    the counters are 32-bit. *)
Definition stat_area (area : Z) : Z := if (TAIR_MAX_AREA_COUNT <=? area) || (area <? 0) then 0 else area.
Definition stat_upd (area : Z) (f : tair_stat -> tair_stat) : tmM unit :=
  smodify (set_stats (fun st => <[stat_area area := f (default zero_stat (st !! stat_area area))]> st)).
Definition stat_get (area rc : Z) : tmM unit :=
  stat_upd area (fun s => mk_tair_stat (s32 (ts_get s + 1)) (ts_put s) (ts_remove s)
                            (if rc =? TAIR_RETURN_SUCCESS then s32 (ts_hit s + 1) else ts_hit s)).
Definition stat_put (area : Z) : tmM unit :=
  stat_upd area (fun s => mk_tair_stat (ts_get s) (s32 (ts_put s + 1)) (ts_remove s) (ts_hit s)).
Definition stat_remove (area : Z) : tmM unit :=
  stat_upd area (fun s => mk_tair_stat (ts_get s) (ts_put s) (s32 (ts_remove s + 1)) (ts_hit s)).

(** ** The checks *)

Definition bad_key (key : data_entry) : bool := (TAIR_MAX_KEY_SIZE <=? get_size key) || (get_size key <? 1).
Definition bad_value (value : data_entry) : bool :=
  (TAIR_MAX_VALUE_SIZE <=? get_size value) || (get_size value <? 1).

(** [if (status != STATUS_CAN_WORK) return ...] *)
Definition when_working {A} (answer : Z -> A) (k : tmM A) : tmM A :=
  let* tm := sget in
  if negb (tm_status tm =? STATUS_CAN_WORK) then sret (answer TAIR_RETURN_SERVER_CAN_NOT_WORK) else k.
(** [if (...) return TAIR_RETURN_ITEMSIZE_ERROR;] *)
Definition size_check {A} (bad : bool) (answer : Z -> A) (k : tmM A) : tmM A :=
  if bad then sret (answer TAIR_RETURN_ITEMSIZE_ERROR) else k.
(** The macro [STAT_KEY_VERIFY] *)
Definition STAT_KEY_VERIFY {A} (key : data_entry) (answer : Z -> A) (k : tmM A) : tmM A :=
  when_working answer (size_check (bad_key key) answer k).

(** [data_entry mkey = key; mkey.merge_area(area);] *)
Definition mkey_of (area : Z) (key : data_entry) : data_entry :=
  merge_area area (assign_data_entry key new_data_entry).
(** [key.data_meta = mkey.data_meta;] *)
Definition take_meta (mkey key : data_entry) : data_entry := set_meta (data_meta mkey) key.

(** [get_op_flag(server_flag)], and the test every caller makes of it *)
Definition get_op_flag (server_flag : Z) : Z :=
  if (server_flag =? TAIR_SERVERFLAG_CLIENT) || (server_flag =? TAIR_SERVERFLAG_PROXY) then
    Z.lor (Z.lor TAIR_OPERATION_VERSION TAIR_OPERATION_DUPLICATE) TAIR_OPERATION_REMOTE
  else 0.
Definition version_care (key : data_entry) : bool :=
  negb (Z.land (get_op_flag (server_flag key)) TAIR_OPERATION_VERSION =? 0).
Definition NeedCopy (server_flag : Z) : bool :=
  negb (Z.land (get_op_flag server_flag) TAIR_OPERATION_DUPLICATE =? 0).

(** ** Operations on whole areas and on the server *)

Definition op_cmd (cmd : Z) (params infos : list (list Z)) : tmM (Z * list (list Z)) :=
  when_working (fun rc => (rc, infos)) (
  if (cmd <=? TAIR_SERVER_CMD_MIN_TYPE) || (TAIR_SERVER_CMD_MAX_TYPE <=? cmd) then
    sret (TAIR_RETURN_NOT_SUPPORTED, infos)
  else if (cmd =? TAIR_SERVER_CMD_SET_CONFIG) || (cmd =? TAIR_SERVER_CMD_GET_CONFIG) then
    on_storage (st_op_cmd cmd params infos)
  else sret (TAIR_RETURN_FAILED, infos)).

Definition lazyclear (area : Z) : tmM Z := when_working (fun rc => rc) (on_storage (st_lazyclear area)).
Definition dumparea (area : Z) : tmM Z := when_working (fun rc => rc) (on_storage (st_dumparea area)).
Definition loadarea (area : Z) : tmM Z := when_working (fun rc => rc) (on_storage (st_loadarea area)).
Definition clear (area : Z) : tmM Z := when_working (fun rc => rc) (on_storage (st_clear area)).

(** [addfilter], [removefilter]: the key with its area, [mkey], is computed but
    the key as it came is handed on. *)
Definition addfilter (area : Z) (key field value : data_entry) : tmM Z :=
  when_working (fun rc => rc) (on_storage (st_addfilter area key field value)).
Definition removefilter (area : Z) (key field value : data_entry) : tmM Z :=
  when_working (fun rc => rc) (on_storage (st_removefilter area key field value)).

(** ** Keys *)
Definition ttl (area : Z) (key : data_entry) (time_remain : Z) : tmM (Z * data_entry * Z) :=
  STAT_KEY_VERIFY key (fun rc => (rc, key, time_remain)) (
  let mkey := mkey_of area key in
  let* (rc, mkey, time_remain) := on_storage (st_ttl area mkey time_remain) in
  let* _ := stat_get area rc in
  sret (rc, take_meta mkey key, time_remain)).
Definition type (area : Z) (key : data_entry) (what_type : Z) : tmM (Z * data_entry * Z) :=
  STAT_KEY_VERIFY key (fun rc => (rc, key, what_type)) (
  let mkey := mkey_of area key in
  let* (rc, mkey, what_type) := on_storage (st_type area mkey what_type) in
  let* _ := stat_get area rc in
  sret (rc, take_meta mkey key, what_type)).
Definition expire (area : Z) (key : data_entry) (expiretime : Z) : tmM (Z * data_entry) :=
  STAT_KEY_VERIFY key (fun rc => (rc, key)) (
  let mkey := mkey_of area key in
  let* (rc, mkey) := on_storage (st_expire area mkey expiretime) in
  let* _ := stat_put area in
  sret (rc, take_meta mkey key)).
Definition expireat (area : Z) (key : data_entry) (expiretime : Z) : tmM (Z * data_entry) :=
  STAT_KEY_VERIFY key (fun rc => (rc, key)) (
  let mkey := mkey_of area key in
  let* (rc, mkey) := on_storage (st_expireat area mkey expiretime) in
  let* _ := stat_put area in
  sret (rc, take_meta mkey key)).
Definition persist (area : Z) (key : data_entry) : tmM (Z * data_entry) :=
  STAT_KEY_VERIFY key (fun rc => (rc, key)) (
  let mkey := mkey_of area key in
  let* (rc, mkey) := on_storage (st_persist area mkey) in
  let* _ := stat_put area in
  sret (rc, take_meta mkey key)).
Definition exists_ (area : Z) (key : data_entry) : tmM (Z * data_entry) :=
  STAT_KEY_VERIFY key (fun rc => (rc, key)) (
  let mkey := mkey_of area key in
  let* (rc, mkey) := on_storage (st_exists area mkey) in
  let* _ := stat_get area rc in
  sret (rc, take_meta mkey key)).

(** ** Lists *)
Definition lindex (area : Z) (key : data_entry) (index : Z) (value : data_entry)
    : tmM (Z * data_entry * data_entry) :=
  STAT_KEY_VERIFY key (fun rc => (rc, key, value)) (
  let mkey := mkey_of area key in
  let* (rc, mkey, value) := on_storage (st_lindex area mkey index value) in
  let* _ := stat_get area rc in
  sret (rc, take_meta mkey key, value)).

(** [lrpush]: the packet's code says which end, and whether the list must exist;
    the key's metadata stay. *)
Definition lrpush (area : Z) (key : data_entry) (value : list data_entry) (oklen list_len pcode max_count : Z)
    (version expire_time : Z) : tmM (Z * (Z * Z)) :=
  STAT_KEY_VERIFY key (fun rc => (rc, (oklen, list_len))) (
  if Nat.eqb (length value) 0 then sret (TAIR_RETURN_SUCCESS, (oklen, list_len)) else
  size_check (existsb bad_value value) (fun rc => (rc, (oklen, list_len))) (
  let mkey := mkey_of area key in
  let push lr en :=
    on_storage (st_lrpush area mkey value oklen list_len lr en max_count (version_care key) version expire_time) in
  let* (rc, _, lens) :=
    (if (pcode =? TAIR_REQ_LPUSH_PACKET) || (pcode =? TAIR_REQ_LPUSH_LIMIT_PACKET) then push IS_LEFT IS_NOT_EXIST
     else if (pcode =? TAIR_REQ_RPUSH_PACKET) || (pcode =? TAIR_REQ_RPUSH_LIMIT_PACKET) then push IS_RIGHT IS_NOT_EXIST
     else if (pcode =? TAIR_REQ_LPUSHX_PACKET) || (pcode =? TAIR_REQ_LPUSHX_LIMIT_PACKET) then push IS_LEFT IS_EXIST
     else if (pcode =? TAIR_REQ_RPUSHX_PACKET) || (pcode =? TAIR_REQ_RPUSHX_LIMIT_PACKET) then push IS_RIGHT IS_EXIST
     else sret (uninit, mkey, (oklen, list_len))) in
  let* _ := stat_put area in
  sret (rc, lens))).

(** [lrpop] empties [value] first. *)
Definition lrpop (area : Z) (key : data_entry) (popnum pcode : Z) (version expire_time : Z)
    : tmM (Z * data_entry * list data_entry) :=
  STAT_KEY_VERIFY key (fun rc => (rc, key, [])) (
  let mkey := mkey_of area key in
  let lr := if pcode =? TAIR_REQ_LPOP_PACKET then IS_LEFT
            else if pcode =? TAIR_REQ_RPOP_PACKET then IS_RIGHT else IS_LEFT in
  let* (rc, mkey, value) :=
    on_storage (st_lrpop area mkey popnum [] lr (version_care key) version expire_time) in
  let* _ := stat_remove area in
  sret (rc, take_meta mkey key, value)).
Definition ltrim (area : Z) (key : data_entry) (start end_ : Z) (version expire_time : Z) : tmM (Z * data_entry) :=
  STAT_KEY_VERIFY key (fun rc => (rc, key)) (
  let mkey := mkey_of area key in
  let* (rc, mkey) := on_storage (st_ltrim area mkey start end_ (version_care key) version expire_time) in
  let* _ := stat_remove area in
  sret (rc, take_meta mkey key)).
Definition llen (area : Z) (key : data_entry) (retlen : Z) : tmM (Z * data_entry * Z) :=
  STAT_KEY_VERIFY key (fun rc => (rc, key, retlen)) (
  let mkey := mkey_of area key in
  let* (rc, mkey, retlen) := on_storage (st_llen area mkey retlen) in
  let* _ := stat_get area rc in
  sret (rc, take_meta mkey key, retlen)).
Definition lrem (area : Z) (key : data_entry) (count : Z) (value : data_entry) (retnum : Z) (version expire_time : Z)
    : tmM (Z * data_entry * Z) :=
  STAT_KEY_VERIFY key (fun rc => (rc, key, retnum)) (
  size_check (bad_value value) (fun rc => (rc, key, retnum)) (
  let mkey := mkey_of area key in
  let* (rc, mkey, retnum) :=
    on_storage (st_lrem area mkey count value retnum (version_care key) version expire_time) in
  let* _ := stat_remove area in
  sret (rc, take_meta mkey key, retnum))).
Definition lrange (area : Z) (key : data_entry) (start end_ : Z) (values : list data_entry)
    : tmM (Z * data_entry * list data_entry) :=
  STAT_KEY_VERIFY key (fun rc => (rc, key, values)) (
  let mkey := mkey_of area key in
  let* (rc, mkey, values) := on_storage (st_lrange area mkey start end_ values) in
  let* _ := stat_get area rc in
  sret (rc, take_meta mkey key, values)).
Definition lset (area : Z) (key : data_entry) (index : Z) (value : data_entry) (version expire_time : Z)
    : tmM (Z * data_entry) :=
  STAT_KEY_VERIFY key (fun rc => (rc, key)) (
  size_check (bad_value value) (fun rc => (rc, key)) (
  let mkey := mkey_of area key in
  let* (rc, mkey) := on_storage (st_lset area mkey index value (version_care key) version expire_time) in
  let* _ := stat_put area in
  sret (rc, take_meta mkey key))).

(** ** Hashes *)

Definition METHOD_HGETALL : Z := 0.
Definition METHOD_HKEYS : Z := 1.
Definition METHOD_HVALS : Z := 2.
Definition genericHgetall (area : Z) (key : data_entry) (field_val : list data_entry) (method : Z)
    : tmM (Z * data_entry * list data_entry) :=
  STAT_KEY_VERIFY key (fun rc => (rc, key, field_val)) (
  let mkey := mkey_of area key in
  let* (rc, mkey, field_val) :=
    (if method =? METHOD_HGETALL then on_storage (st_hgetall area mkey field_val)
     else if method =? METHOD_HKEYS then on_storage (st_hkeys area mkey field_val)
     else if method =? METHOD_HVALS then on_storage (st_hvals area mkey field_val)
     else sret (uninit, mkey, field_val)) in
  let* _ := stat_get area rc in
  sret (rc, take_meta mkey key, field_val)).
Definition hgetall (area : Z) (key : data_entry) (field_val : list data_entry) :=
  genericHgetall area key field_val METHOD_HGETALL.
Definition hvals (area : Z) (key : data_entry) (values : list data_entry) :=
  genericHgetall area key values METHOD_HVALS.
Definition hkeys (area : Z) (key : data_entry) (keys : list data_entry) :=
  genericHgetall area key keys METHOD_HKEYS.
Definition hincrby (area : Z) (key : data_entry) (field : data_entry) (value retnum : Z) (version expire_time : Z)
    : tmM (Z * data_entry * Z) :=
  STAT_KEY_VERIFY key (fun rc => (rc, key, retnum)) (
  size_check (bad_value field) (fun rc => (rc, key, retnum)) (
  let mkey := mkey_of area key in
  let* (rc, mkey, retnum) :=
    on_storage (st_hincrby area mkey field value retnum (version_care key) version expire_time) in
  let* _ := stat_put area in
  sret (rc, take_meta mkey key, retnum))).
Definition hmset (area : Z) (key : data_entry) (field_val : list data_entry) (retvalue : Z) (version expire_time : Z)
    : tmM (Z * data_entry * Z) :=
  STAT_KEY_VERIFY key (fun rc => (rc, key, retvalue)) (
  size_check (existsb bad_value field_val) (fun rc => (rc, key, retvalue)) (
  let mkey := mkey_of area key in
  let* (rc, mkey, retvalue) :=
    on_storage (st_hmset area mkey field_val retvalue (version_care key) version expire_time) in
  let* _ := stat_put area in
  sret (rc, take_meta mkey key, retvalue))).
Definition hset (area : Z) (key : data_entry) (field value : data_entry) (version expire_time : Z)
    : tmM (Z * data_entry) :=
  STAT_KEY_VERIFY key (fun rc => (rc, key)) (
  size_check (bad_value field || bad_value value) (fun rc => (rc, key)) (
  let mkey := mkey_of area key in
  let* (rc, mkey) := on_storage (st_hset area mkey field value (version_care key) version expire_time) in
  let* _ := stat_put area in
  sret (rc, take_meta mkey key))).
Definition hsetnx (area : Z) (key : data_entry) (field value : data_entry) (version expire_time : Z)
    : tmM (Z * data_entry) :=
  STAT_KEY_VERIFY key (fun rc => (rc, key)) (
  size_check (bad_value field || bad_value value) (fun rc => (rc, key)) (
  let mkey := mkey_of area key in
  let* (rc, mkey) := on_storage (st_hsetnx area mkey field value (version_care key) version expire_time) in
  let* _ := stat_put area in
  sret (rc, take_meta mkey key))).
Definition hexists (area : Z) (key : data_entry) (field : data_entry) : tmM (Z * data_entry) :=
  STAT_KEY_VERIFY key (fun rc => (rc, key)) (
  size_check (bad_value field) (fun rc => (rc, key)) (
  let mkey := mkey_of area key in
  let* (rc, mkey) := on_storage (st_hexists area mkey field) in
  let* _ := stat_get area rc in
  sret (rc, take_meta mkey key))).
Definition hget (area : Z) (key : data_entry) (field value : data_entry) : tmM (Z * data_entry * data_entry) :=
  STAT_KEY_VERIFY key (fun rc => (rc, key, value)) (
  size_check (bad_value field) (fun rc => (rc, key, value)) (
  let mkey := mkey_of area key in
  let* (rc, mkey, value) := on_storage (st_hget area mkey field value) in
  let* _ := stat_get area rc in
  sret (rc, take_meta mkey key, value))).
Definition hmget (area : Z) (key : data_entry) (fields values : list data_entry)
    : tmM (Z * data_entry * list data_entry) :=
  STAT_KEY_VERIFY key (fun rc => (rc, key, values)) (
  size_check (existsb bad_value fields || existsb bad_value values) (fun rc => (rc, key, values)) (
  let mkey := mkey_of area key in
  let* (rc, mkey, values) := on_storage (st_hmget area mkey fields values) in
  let* _ := stat_get area rc in
  sret (rc, take_meta mkey key, values))).

(** The second test of [hdel] is on the key, not on the field. *)
Definition hdel (area : Z) (key : data_entry) (field : data_entry) (version expire_time : Z) : tmM (Z * data_entry) :=
  STAT_KEY_VERIFY key (fun rc => (rc, key)) (
  size_check ((TAIR_MAX_VALUE_SIZE <=? get_size field) || (get_size key <? 1)) (fun rc => (rc, key)) (
  let mkey := mkey_of area key in
  let* (rc, mkey) := on_storage (st_hdel area mkey field (version_care key) version expire_time) in
  let* _ := stat_remove area in
  sret (rc, take_meta mkey key))).
Definition hlen (area : Z) (key : data_entry) (retlen : Z) : tmM (Z * data_entry * Z) :=
  STAT_KEY_VERIFY key (fun rc => (rc, key, retlen)) (
  let mkey := mkey_of area key in
  let* (rc, mkey, retlen) := on_storage (st_hlen area mkey retlen) in
  let* _ := stat_get area rc in
  sret (rc, take_meta mkey key, retlen)).

(** ** Sets *)
Definition scard (area : Z) (key : data_entry) (retnum : Z) : tmM (Z * data_entry * Z) :=
  STAT_KEY_VERIFY key (fun rc => (rc, key, retnum)) (
  let mkey := mkey_of area key in
  let* (rc, mkey, retnum) := on_storage (st_scard area mkey retnum) in
  let* _ := stat_get area rc in
  sret (rc, take_meta mkey key, retnum)).
Definition smembers (area : Z) (key : data_entry) (values : list data_entry)
    : tmM (Z * data_entry * list data_entry) :=
  STAT_KEY_VERIFY key (fun rc => (rc, key, values)) (
  let mkey := mkey_of area key in
  let* (rc, mkey, values) := on_storage (st_smembers area mkey values) in
  let* _ := stat_get area rc in
  sret (rc, take_meta mkey key, values)).
Definition sadd (area : Z) (key : data_entry) (value : data_entry) (version expire_time : Z) : tmM (Z * data_entry) :=
  STAT_KEY_VERIFY key (fun rc => (rc, key)) (
  size_check (bad_value value) (fun rc => (rc, key)) (
  let mkey := mkey_of area key in
  let* (rc, mkey) := on_storage (st_sadd area mkey value (version_care key) version expire_time) in
  let* _ := stat_put area in
  sret (rc, take_meta mkey key))).
Definition srem (area : Z) (key : data_entry) (value : data_entry) (version expire_time : Z) : tmM (Z * data_entry) :=
  STAT_KEY_VERIFY key (fun rc => (rc, key)) (
  size_check (bad_value value) (fun rc => (rc, key)) (
  let mkey := mkey_of area key in
  let* (rc, mkey) := on_storage (st_srem area mkey value (version_care key) version expire_time) in
  let* _ := stat_remove area in
  sret (rc, take_meta mkey key))).
Definition spop (area : Z) (key : data_entry) (value : data_entry) (version expire_time : Z)
    : tmM (Z * data_entry * data_entry) :=
  STAT_KEY_VERIFY key (fun rc => (rc, key, value)) (
  let mkey := mkey_of area key in
  let* (rc, mkey, value) := on_storage (st_spop area mkey value (version_care key) version expire_time) in
  let* _ := stat_remove area in
  sret (rc, take_meta mkey key, value)).

(** ** Sorted sets *)
Definition zscore (area : Z) (key : data_entry) (value : data_entry) (score : double)
    : tmM (Z * data_entry * double) :=
  STAT_KEY_VERIFY key (fun rc => (rc, key, score)) (
  size_check (bad_value value) (fun rc => (rc, key, score)) (
  let mkey := mkey_of area key in
  let* (rc, mkey, score) := on_storage (st_zscore area mkey value score) in
  let* _ := stat_get area rc in
  sret (rc, take_meta mkey key, score))).
Definition zrange (area : Z) (key : data_entry) (start end_ : Z) (values : list data_entry) (scores : list double) (withscore : Z)
    : tmM (Z * data_entry * (list data_entry * list double)) :=
  STAT_KEY_VERIFY key (fun rc => (rc, key, (values, scores))) (
  let mkey := mkey_of area key in
  let* (rc, mkey, (values, scores)) := on_storage (st_zrange area mkey start end_ values scores withscore) in
  let* _ := stat_get area rc in
  sret (rc, take_meta mkey key, (values, scores))).
Definition zrevrange (area : Z) (key : data_entry) (start end_ : Z) (values : list data_entry) (scores : list double) (withscore : Z)
    : tmM (Z * data_entry * (list data_entry * list double)) :=
  STAT_KEY_VERIFY key (fun rc => (rc, key, (values, scores))) (
  let mkey := mkey_of area key in
  let* (rc, mkey, (values, scores)) := on_storage (st_zrevrange area mkey start end_ values scores withscore) in
  let* _ := stat_get area rc in
  sret (rc, take_meta mkey key, (values, scores))).
Definition zrangebyscore (area : Z) (key : data_entry) (start end_ : double) (values : list data_entry) (scores : list double) (limit withscore : Z)
    : tmM (Z * data_entry * (list data_entry * list double)) :=
  STAT_KEY_VERIFY key (fun rc => (rc, key, (values, scores))) (
  let mkey := mkey_of area key in
  let* (rc, mkey, (values, scores)) :=
    on_storage (st_zrangebyscore area mkey start end_ values scores limit withscore) in
  let* _ := stat_get area rc in
  sret (rc, take_meta mkey key, (values, scores))).
Definition zrevrangebyscore (area : Z) (key : data_entry) (start end_ : double) (values : list data_entry) (scores : list double) (limit withscore : Z)
    : tmM (Z * data_entry * (list data_entry * list double)) :=
  STAT_KEY_VERIFY key (fun rc => (rc, key, (values, scores))) (
  let mkey := mkey_of area key in
  let* (rc, mkey, (values, scores)) :=
    on_storage (st_zrevrangebyscore area mkey start end_ values scores limit withscore) in
  let* _ := stat_get area rc in
  sret (rc, take_meta mkey key, (values, scores))).
Definition zadd (area : Z) (key : data_entry) (score : double) (value : data_entry) (version expire_time : Z)
    : tmM (Z * data_entry) :=
  STAT_KEY_VERIFY key (fun rc => (rc, key)) (
  size_check (bad_value value) (fun rc => (rc, key)) (
  let mkey := mkey_of area key in
  let* (rc, mkey) := on_storage (st_zadd area mkey score value (version_care key) version expire_time) in
  let* _ := stat_put area in
  sret (rc, take_meta mkey key))).
Definition zrank (area : Z) (key : data_entry) (value : data_entry) (rank : Z) : tmM (Z * data_entry * Z) :=
  STAT_KEY_VERIFY key (fun rc => (rc, key, rank)) (
  let mkey := mkey_of area key in
  let* (rc, mkey, rank) := on_storage (st_zrank area mkey value rank) in
  let* _ := stat_get area rc in
  sret (rc, take_meta mkey key, rank)).
Definition zrevrank (area : Z) (key : data_entry) (value : data_entry) (rank : Z) : tmM (Z * data_entry * Z) :=
  STAT_KEY_VERIFY key (fun rc => (rc, key, rank)) (
  let mkey := mkey_of area key in
  let* (rc, mkey, rank) := on_storage (st_zrevrank area mkey value rank) in
  let* _ := stat_get area rc in
  sret (rc, take_meta mkey key, rank)).
Definition zcount (area : Z) (key : data_entry) (start end_ : double) (retnum : Z) : tmM (Z * data_entry * Z) :=
  STAT_KEY_VERIFY key (fun rc => (rc, key, retnum)) (
  let mkey := mkey_of area key in
  let* (rc, mkey, retnum) := on_storage (st_zcount area mkey start end_ retnum) in
  let* _ := stat_get area rc in
  sret (rc, take_meta mkey key, retnum)).
Definition zincrby (area : Z) (key : data_entry) (value : data_entry) (addscore retnum : double) (version expire_time : Z)
    : tmM (Z * data_entry * double) :=
  STAT_KEY_VERIFY key (fun rc => (rc, key, retnum)) (
  size_check (bad_value value) (fun rc => (rc, key, retnum)) (
  let mkey := mkey_of area key in
  let* (rc, mkey, retnum) :=
    on_storage (st_zincrby area mkey value addscore retnum (version_care key) version expire_time) in
  let* _ := stat_put area in
  sret (rc, take_meta mkey key, retnum))).
Definition zcard (area : Z) (key : data_entry) (retnum : Z) : tmM (Z * data_entry * Z) :=
  STAT_KEY_VERIFY key (fun rc => (rc, key, retnum)) (
  let mkey := mkey_of area key in
  let* (rc, mkey, retnum) := on_storage (st_zcard area mkey retnum) in
  let* _ := stat_get area rc in
  sret (rc, take_meta mkey key, retnum)).
Definition zrem (area : Z) (key : data_entry) (value : data_entry) (version expire_time : Z) : tmM (Z * data_entry) :=
  STAT_KEY_VERIFY key (fun rc => (rc, key)) (
  size_check (bad_value value) (fun rc => (rc, key)) (
  let mkey := mkey_of area key in
  let* (rc, mkey) := on_storage (st_zrem area mkey value (version_care key) version expire_time) in
  let* _ := stat_remove area in
  sret (rc, take_meta mkey key))).
Definition zremrangebyrank (area : Z) (key : data_entry) (start end_ : Z) (version expire_time remnum : Z)
    : tmM (Z * data_entry * Z) :=
  STAT_KEY_VERIFY key (fun rc => (rc, key, remnum)) (
  let mkey := mkey_of area key in
  let* (rc, mkey, remnum) :=
    on_storage (st_zremrangebyrank area mkey start end_ (version_care key) version expire_time remnum) in
  let* _ := stat_remove area in
  sret (rc, take_meta mkey key, remnum)).
Definition zremrangebyscore (area : Z) (key : data_entry) (start end_ : double) (version expire_time remnum : Z)
    : tmM (Z * data_entry * Z) :=
  STAT_KEY_VERIFY key (fun rc => (rc, key, remnum)) (
  let mkey := mkey_of area key in
  let* (rc, mkey, remnum) :=
    on_storage (st_zremrangebyscore area mkey start end_ (version_care key) version expire_time remnum) in
  let* _ := stat_remove area in
  sret (rc, take_meta mkey key, remnum)).

(** ** Strings *)

(** [putnx], [put] and [remove] do not ask for the status, and leave the
    caller's key as it was. *)
Definition putnx (area : Z) (key value : data_entry) (expire_time : Z) : tmM Z :=
  size_check (bad_key key || bad_value value) (fun rc => rc) (
  let* (rc, _) := on_storage (st_putnx area (mkey_of area key) value (version_care key) expire_time) in
  let* _ := stat_put area in
  sret rc).
Definition put (area : Z) (key value : data_entry) (expire_time : Z) : tmM Z :=
  size_check (bad_key key || bad_value value) (fun rc => rc) (
  let* (rc, _) := on_storage (st_put area (mkey_of area key) value (version_care key) expire_time) in
  let* _ := stat_put area in
  sret rc).
Definition remove (area : Z) (key : data_entry) : tmM Z :=
  size_check (bad_key key) (fun rc => rc) (
  let* (rc, _) := on_storage (st_remove area (mkey_of area key) (version_care key)) in
  let* _ := stat_remove area in
  sret rc).

(** [direct_put], [direct_remove]: what a migration brings, keys with their
    area in front. *)
Definition direct_put (key value : data_entry) : tmM Z :=
  size_check (bad_key key || bad_value value) (fun rc => rc) (
  let* (area, _) := slift (decode_area (assign_data_entry key new_data_entry)) in
  let key := MdbManager.set_area (u32 area) key in
  let* (rc, _) := on_storage (st_put area key value false 0) in
  let* _ := stat_put area in
  sret rc).
Definition direct_remove (key : data_entry) : tmM Z :=
  size_check (bad_key key) (fun rc => rc) (
  let* (_, akey) := slift (decode_area (assign_data_entry key new_data_entry)) in
  let area := s32 (DataEntry.area akey) in
  let* (rc, _) := on_storage (st_remove area key false) in
  let rc := if rc =? TAIR_RETURN_DATA_NOT_EXIST then TAIR_RETURN_SUCCESS else rc in
  let* _ := stat_remove area in
  sret rc).

Definition get (area : Z) (key value : data_entry) : tmM (Z * data_entry * data_entry) :=
  STAT_KEY_VERIFY key (fun rc => (rc, key, value)) (
  let* (rc, mkey, value) := on_storage (st_get area (mkey_of area key) value) in
  let* _ := stat_get area rc in
  sret (rc, take_meta mkey key, value)).
Definition getset (area : Z) (key value oldvalue : data_entry) (version expire_time : Z)
    : tmM (Z * data_entry * data_entry) :=
  STAT_KEY_VERIFY key (fun rc => (rc, key, oldvalue)) (
  size_check (bad_value value) (fun rc => (rc, key, oldvalue)) (
  let* (rc, mkey, oldvalue) :=
    on_storage (st_getset area (mkey_of area key) value oldvalue (version_care key) version expire_time) in
  let* _ := stat_put area in
  sret (rc, take_meta mkey key, oldvalue))).

(** A counter is a value of two bytes for Java's sake and the 32-bit number. *)
Definition counter_bytes (n : Z) : list Z := [0x00; 0x16] ++ le_split 4 (u32 n).
Definition counter_value (d : list Z) : Z := s32 (le_combine (take 4 (drop ITEM_HEAD_LENGTH d))).
Definition write_counter (d : list Z) (n : Z) : list Z :=
  take ITEM_HEAD_LENGTH d ++ le_split 4 (u32 n) ++ drop (ITEM_HEAD_LENGTH + 4) d.
Definition set_bytes (d : list Z) (e : data_entry) : data_entry :=
  mk_data_entry (size e) (Some d) (alloc e) (hashcode e) (has_merged e) (has_meta_merged e)
    (DataEntry.area e) (server_flag e) (data_meta e).
(** [old_value.data_meta.flag |= TAIR_ITEM_FLAG_ADDCOUNT;] *)
Definition mark_counter (e : data_entry) : data_entry :=
  set_meta_fields same_field same_field (fun fl => u8 (Z.lor fl TAIR_ITEM_FLAG_ADDCOUNT)) same_field same_field e.

(** [add_count], after the [get]: the number is read through an [int32_t *]
    into the bytes of the value. *)
Definition add_count_put (area : Z) (key : data_entry) (count init_value result_value expire_time rc : Z)
    (old_value : data_entry) : tmM (Z * data_entry * Z) :=
  if (rc =? TAIR_RETURN_SUCCESS) && IS_ADDCOUNT_TYPE (flag (data_meta key)) then
    let d := get_data old_value in
    if Z.of_nat (length d) <? Z.of_nat ITEM_HEAD_LENGTH + 4 then slift Overrun else
    let v := s32 (counter_value d + count) in
    let old_value := mark_counter (set_bytes (write_counter d v) old_value) in
    let* rc := put area key old_value expire_time in
    sret (rc, key, v)
  else if rc =? TAIR_RETURN_SUCCESS then sret (TAIR_RETURN_CANNOT_OVERRIDE, key, result_value)
  else
    let v := s32 (init_value + count) in
    let old_value := mark_counter (DataEntry.set_data (Some (counter_bytes v)) 6 true old_value) in
    let* rc := put area key old_value expire_time in
    sret (rc, key, v).

(** [add_count]: the engine's own counter if it has one, else a get and a put. *)
Definition add_count (area : Z) (key : data_entry) (count init_value result_value expire_time : Z)
    : tmM (Z * data_entry * Z) :=
  STAT_KEY_VERIFY key (fun rc => (rc, key, result_value)) (
  let* (rc1, mkey, result_value) :=
    on_storage (st_incdecr area (mkey_of area key) init_value count result_value (version_care key) 0 expire_time) in
  if negb (rc1 =? TAIR_RETURN_IS_NOT_IMPLEMENT) then
    let* _ := stat_put area in
    sret (rc1, take_meta mkey key, result_value)
  else
    let* (rc, key, old_value) := get area key new_data_entry in
    add_count_put area key count init_value result_value expire_time rc old_value).

(** ** The server's table *)

(** [get_bucket_number]; the remainder by 0 stops the process. *)
Definition bucket_of_hash (hashcode : Z) (tm : tair_manager St) : outcome Z :=
  oassert (negb (tm_bucket_count (tm_table tm) =? 0)) (Ret (hashcode mod tm_bucket_count (tm_table tm))).
Definition get_bucket_number (key : data_entry) (tm : tair_manager St) : outcome Z :=
  bucket_of_hash (mur_mur_hash (get_data key)) tm.

(** [should_proxy(hashcode, target_server_id)] and [should_proxy(key, ...)]:
    the answer and the target, which is what it was when it is not set. *)
Definition proxy_target (bucket_number target : Z) (tm : tair_manager St) : outcome (bool * Z) :=
  let! is_migrated := bs_test (tm_done tm) bucket_number in
  let! target :=
    (if is_migrated : bool then
       let! t := get_migrate_target bucket_number (tm_table tm) in Ret (if t =? ip then 0 else t)
     else Ret target) in
  Ret (is_migrated && negb (target =? 0), target).
Definition should_proxy (hashcode target : Z) (tm : tair_manager St) : outcome (bool * Z) :=
  if tm_localmode tm then Ret (false, target)
  else let! b := bucket_of_hash (u32 hashcode) tm in proxy_target b target tm.
Definition should_proxy_key (key : data_entry) (target : Z) (tm : tair_manager St) : outcome (bool * Z) :=
  if server_flag key =? TAIR_SERVERFLAG_PROXY then Ret (false, target)
  else if tm_localmode tm then Ret (false, target)
  else let! b := get_bucket_number key tm in proxy_target b target tm.

Definition set_migrate_done (bucket_number : Z) : tmM unit := fun tm =>
  let! b := bs_set (tm_done tm) bucket_number in Ret (tt, set_done b tm).

Definition get_proxying_buckets (tm : tair_manager St) : list Z :=
  filter (.∈ bs_bits (tm_done tm)) (seqZ 0 (bs_size (tm_done tm))).

(** [get_slaves(server_flag, bucket_number, slaves)], with [slaves] empty *)
Definition get_slaves (server_flag bucket_number : Z) (tm : tair_manager St) : outcome (list Z) :=
  if tm_copy_count (tm_table tm) =? 1 then Ret []
  else if server_flag =? TAIR_SERVERFLAG_PROXY then TableManager.get_slaves ip bucket_number true (tm_table tm)
  else
    let! migrated := bs_test (tm_done tm) bucket_number in
    TableManager.get_slaves ip bucket_number migrated (tm_table tm).

(** The buckets whose migration is not done. *)
Fixpoint not_done (done : bitset) (buckets : list Z) : outcome (list Z) :=
  match buckets with
  | [] => Ret []
  | b :: rest =>
      let! d := bs_test done b in
      let! rest := not_done done rest in
      Ret (if d : bool then rest else b :: rest)
  end.
Definition migrates_not_done (done : bitset) (migrates : gmap Z (list Z)) : outcome (gmap Z (list Z)) :=
  let! remaining := not_done done (map_to_list migrates).*1 in
  Ret (filter (fun kv => kv.1 ∈ remaining) migrates).

(** [update_server_table]; [duplicator] says whether there is one.  The result
    is what the other components are told, in order. *)
Definition update_server_table (duplicator : bool) (server_table : list Z) (server_table_version data_need_remove : Z)
    (current_state_table : list Z) (copy_count bucket_count : Z) : tmM (list notice) :=
  let* tm := sget in
  let* table := slift (do_update_table ip server_table (Z.of_nat (length server_table)) server_table_version
                         copy_count bucket_count (tm_table tm)) in
  let* _ := smodify (set_table table) in
  let buckets := tm_bucket_count table in
  let queue := if duplicator then [SetMaxQueueSize (u32 ((tm_copy_count table - 1) * 3))] else [] in
  let* _ := on_storage (st_set_bucket_count buckets) in
  let first := negb (tm_status tm =? STATUS_CAN_WORK) in
  let* bits := (if first then slift (init_migrate_done_set current_state_table ∅ table) else sret ∅) in
  let done := mk_bitset buckets bits in
  let* _ := smodify (fun tm => set_status STATUS_CAN_WORK (set_done done tm)) in
  let log := if first && (data_need_remove =? TAIR_DATA_NEED_MIGRATE) then [InitMigrateLog] else [] in
  let* _ := (if Nat.eqb (length (release_buckets table)) 0 then sret tt
             else on_storage (st_close_buckets (release_buckets table))) in
  let* _ := (if Nat.eqb (length (holding_buckets table)) 0 then sret true
             else let* held := slift (not_done done (holding_buckets table)) in on_storage (st_init_buckets held)) in
  let* _ := (if Nat.eqb (length (padding_buckets table)) 0 then sret true
             else on_storage (st_init_buckets (padding_buckets table))) in
  let* moves := (if bool_decide (migrates table = ∅) then sret []
                 else let* remaining := slift (migrates_not_done done (migrates table)) in
                      sret [SetMigrateServerList remaining (tm_version table)]) in
  sret (queue ++ log ++ [CancelDumps; ServerListChanged] ++ moves
        ++ (if duplicator then [HashTableChanged] else [])).

(** [set_solitary()]: the server waits for a new table. *)
Definition set_solitary (duplicator : bool) : tmM (list notice) :=
  let* tm := sget in
  if tm_status tm =? STATUS_CAN_WORK then
    let* _ := smodify (fun tm => set_table (clear_available_server (tm_table tm)) (set_status STATUS_INITED tm)) in
    sret ((if duplicator then [HashTableChanged] else []) ++ [ServerListChanged])
  else sret [].

Definition is_working (tm : tair_manager St) : bool := tm_status tm =? STATUS_CAN_WORK.
Definition is_localmode (tm : tair_manager St) : bool := tm_localmode tm.
End tair_manager.
