(* ===== verification/TairService.v ===== *)
(** * What the operations of a data server promise

    [tair_manager] in front of any engine that keeps [KeyValueLaws]: requests
    of clients on keys and counters are those of a map from area and key to
    entries; areas do not meet; refused requests change nothing.  The memory
    engine is one such engine. *)

From S2P Require Import Prelude PacketCodes Util DataBuffer DataEntry MemPool MdbItem MemCache SlabLists SlabAlloc CacheHashMap EngineState MdbManager Engine EngineInit EngineRun TableManager Storage TairManager.

(** ** Keys with their area *)

(** The two bytes [merge_area] puts in front of a key. *)
Definition area_bytes (area : Z) : list Z := [area mod 256; Z.shiftr area 8 mod 256].
Definition area_key (area : Z) (key : list Z) : list Z := area_bytes area ++ key.

(** Keys and values as the packets bring them. *)
Record client_key (area : Z) (key : data_entry) : Prop := {
  cl_area : 0 <= area < TAIR_MAX_AREA_COUNT;
  cl_merged : has_merged key = false;
  cl_size : get_size key = Z.of_nat (length (get_data key)) /\ 1 <= get_size key < TAIR_MAX_KEY_SIZE
}.
Definition client_value (value : data_entry) : Prop :=
  get_size value = Z.of_nat (length (get_data value)) /\ 1 <= get_size value < TAIR_MAX_VALUE_SIZE.

Lemma area_bytes_inj a b :
  0 <= a < TAIR_MAX_AREA_COUNT -> 0 <= b < TAIR_MAX_AREA_COUNT -> area_bytes a = area_bytes b -> a = b.
Proof.
  unfold TAIR_MAX_AREA_COUNT. intros Ha Hb [= H1 H2]. rewrite !Z.shiftr_div_pow2 in H2 by lia.
  change (2 ^ 8) with 256 in H2.
  rewrite (Z.mod_small (a / 256)), (Z.mod_small (b / 256)) in H2
    by (split; [apply Z.div_pos|apply Z.div_lt_upper_bound]; lia).
  rewrite (Z.div_mod a 256), (Z.div_mod b 256) by lia. by rewrite H1, H2.
Qed.

Lemma area_key_inj a b k l :
  0 <= a < TAIR_MAX_AREA_COUNT -> 0 <= b < TAIR_MAX_AREA_COUNT -> area_key a k = area_key b l -> a = b /\ k = l.
Proof.
  intros Ha Hb H. unfold area_key in H. apply app_inj_1 in H as [H ->]; [|done]. split; [by apply area_bytes_inj|done].
Qed.

Section client_key.
Context (area : Z) (key : data_entry).
Hypothesis Hkey : client_key area key.

Lemma client_key_not_bad : bad_key key = false.
Proof. destruct Hkey as [_ _ [_ ?]]. unfold bad_key. destruct (Z.leb_spec TAIR_MAX_KEY_SIZE (get_size key)), (Z.ltb_spec (get_size key) 1); lia || done. Qed.

Lemma mkey_of_eq :
  mkey_of area key =
  mk_data_entry (get_size key + 2) (Some (area_key area (get_data key))) true 0 true
    (has_meta_merged key) area (server_flag key) (data_meta key).
Proof.
  unfold mkey_of. destruct Hkey as [Ha Hm [Hs Hp]]. unfold get_size in *. unfold TAIR_MAX_AREA_COUNT, TAIR_MAX_KEY_SIZE in *.
  assert (get_data key <> []) as Hne by (destruct (get_data key); [simpl in *; lia|done]).
  assert (exists e, assign_data_entry key new_data_entry = e /\ has_merged e = false /\ size e = size key
            /\ get_data e = get_data key /\ has_meta_merged e = has_meta_merged key
            /\ server_flag e = server_flag key /\ data_meta e = data_meta key) as (e & -> & E1 & E2 & E3 & E4 & E5 & E6).
  { eexists. split; [done|]. unfold assign_data_entry, copy_fields, set_data. cbn.
    destruct (alloc key); cbn; [|done]. destruct (Z.ltb_spec 0 (size key)); [|lia]. cbn.
    destruct (DataEntry.data key) as [l|] eqn:Ed; cbn; [|unfold get_data in Hne; by rewrite Ed in Hne].
    unfold get_data in *. rewrite Ed in *. cbn in *. split; [done|]. split; [done|]. split; [|done]. apply take_ge. lia. }
  unfold merge_area. rewrite E1, E2. destruct (Z.ltb_spec 0 (size key)); [|lia].
  rewrite !land_ff, E3. fold (area_bytes area). change ([area mod 256; _] ++ get_data key) with (area_key area (get_data key)).
  replace (size key + 2) with (Z.of_nat (length (area_key area (get_data key)))) by (unfold area_key; cbn; lia).
  rewrite set_data_whole by done. cbn. rewrite E4, E5, E6. by rewrite (wrap_id 32 area) by (unfold in_u; lia).
Qed.

Lemma get_data_mkey : get_data (mkey_of area key) = area_key area (get_data key).
Proof. by rewrite mkey_of_eq. Qed.

Lemma get_version_mkey : get_version (mkey_of area key) = get_version key.
Proof. by rewrite mkey_of_eq. Qed.

Lemma get_size_mkey : get_size (mkey_of area key) = get_size key + 2.
Proof. by rewrite mkey_of_eq. Qed.

Lemma KEY_AREA_area_key k : KEY_AREA (area_key area k) = area.
Proof.
  destruct Hkey as [Ha _ _]. unfold TAIR_MAX_AREA_COUNT in *. unfold KEY_AREA, area_key, area_bytes. cbn [nth app].
  rewrite Z.shiftr_div_pow2 by lia. change (2 ^ 8) with 256.
  assert (0 <= area / 256 < 4) by (split; [apply Z.div_pos|apply Z.div_lt_upper_bound]; lia).
  pose proof (Z.mod_pos_bound area 256 ltac:(lia)). rewrite (Z.mod_small (area / 256)) by lia.
  rewrite land_ff, Z.mod_mod by lia.
  replace (Z.land (Z.shiftl (area / 256) 8) 0xFF00) with (Z.shiftl (area / 256) 8).
  - rewrite Z.lor_comm, shiftl_lor_u8 by (unfold byte, in_u; lia). pose proof (Z.div_mod area 256). lia.
  - change 0xFF00 with (Z.shiftl (Z.ones 8) 8). rewrite <- Z.shiftl_land, Z.land_ones, Z.mod_small by lia. done.
Qed.

Lemma mkey_key_ok : key_ok (mkey_of area key).
Proof.
  unfold key_ok. rewrite get_data_mkey, KEY_AREA_area_key, mkey_of_eq. cbn. split; [done|]. split; [done|]. by destruct Hkey.
Qed.

Lemma mkey_put_ok value : client_value value -> put_ok (mkey_of area key) value.
Proof.
  intros [Hv Hv2]. destruct Hkey as [Ha Hm [Hs Hp]].
  unfold TAIR_MAX_KEY_SIZE, TAIR_MAX_VALUE_SIZE in *. constructor.
  - rewrite get_data_mkey, get_size_mkey. unfold area_key. cbn. lia.
  - lia.
  - by rewrite get_data_mkey, KEY_AREA_area_key.
Qed.
End client_key.

Lemma client_value_not_bad value : client_value value -> bad_value value = false.
Proof.
  intros [_ ?]. unfold bad_value.
  destruct (Z.leb_spec TAIR_MAX_VALUE_SIZE (get_size value)), (Z.ltb_spec (get_size value) 1); lia || done.
Qed.

(** ** Counters *)

Lemma IS_ADDCOUNT_TYPE_bit x : IS_ADDCOUNT_TYPE x = Z.testbit x 0.
Proof.
  unfold IS_ADDCOUNT_TYPE, TAIR_ITEM_FLAG_ADDCOUNT. change 1 with (Z.ones 1) at 1. rewrite Z.land_ones by lia.
  change (2 ^ 1) with 2. rewrite Z.bit0_odd, Zmod_odd. by destruct (Z.odd x).
Qed.

Lemma counter_value_at h n t : length h = ITEM_HEAD_LENGTH -> counter_value (h ++ le_split 4 (u32 n) ++ t) = s32 n.
Proof.
  intros Hh. unfold counter_value. rewrite <- Hh, drop_app_length.
  rewrite take_app_length' by (by rewrite length_le_split). rewrite le_split_combine.
  change (8 * Z.of_nat 4) with 32. by rewrite wrap_wrap, swrap_wrap.
Qed.

Lemma counter_value_new n : counter_value (counter_bytes n) = s32 n.
Proof. unfold counter_bytes. rewrite <- (app_nil_r (le_split 4 (u32 n))). by apply counter_value_at. Qed.

Lemma length_counter_bytes n : length (counter_bytes n) = 6%nat.
Proof. unfold counter_bytes. by rewrite length_app, length_le_split. Qed.

Lemma counter_value_written d n : length d = 6%nat -> counter_value (write_counter d n) = s32 n.
Proof. intros Hd. apply counter_value_at. rewrite length_take. unfold ITEM_HEAD_LENGTH. lia. Qed.

Lemma length_write_counter d n : length d = 6%nat -> length (write_counter d n) = 6%nat.
Proof.
  intros Hd. unfold write_counter. rewrite !length_app, length_take, length_drop, length_le_split. unfold ITEM_HEAD_LENGTH. lia.
Qed.

(** The flag survives the way into the item. *)
Lemma counter_flag f old : IS_ADDCOUNT_TYPE (Z.lor (u8 (Z.lor f TAIR_ITEM_FLAG_ADDCOUNT)) old mod 16) = true.
Proof.
  rewrite IS_ADDCOUNT_TYPE_bit. change 16 with (2 ^ 4). rewrite Z.mod_pow2_bits_low, Z.lor_spec by lia.
  unfold wrap. rewrite Z.mod_pow2_bits_low, Z.lor_spec by lia. by rewrite orb_true_r.
Qed.

(** A stored counter that stands at [n]. *)
Record counts (n : Z) (e : entry) : Prop := {
  cn_flag : IS_ADDCOUNT_TYPE (e_flags e) = true;
  cn_length : length (e_value e) = 6%nat;
  cn_value : counter_value (e_value e) = n
}.

(** [e] is stored under [k], and at most one other key dropped. *)
Definition put_into (c : gmap (list Z) entry) (k : list Z) (e : entry) (c' : gmap (list Z) entry) : Prop :=
  c' = <[k := e]> c \/ exists victim, c' = <[k := e]> (delete victim c).

Lemma put_into_delete c k e c' : put_into (delete k c) k e c' -> put_into c k e c'.
Proof.
  intros [->|[victim ->]]; [left; by rewrite insert_delete_eq|]. right. exists victim.
  by rewrite delete_delete, insert_delete_eq.
Qed.

(** [add_count] on the abstract store: a counter counts on, a key that is absent
    or expired starts from [init], any other value is refused. *)
Inductive counter_spec (now : Z) (c : gmap (list Z) entry) (k : list Z) (count init result expire : Z)
    : Z -> Z -> gmap (list Z) entry -> Prop :=
| counter_on e n e' c' :
    c !! k = Some e -> entry_expired now e = false -> counts n e -> counts (s32 (n + count)) e' ->
    (0 < expire -> e_exptime e' = put_exptime expire now 0) -> put_into c k e' c' ->
    counter_spec now c k count init result expire TAIR_RETURN_SUCCESS (s32 (n + count)) c'
| counter_refused e :
    c !! k = Some e -> entry_expired now e = false -> IS_ADDCOUNT_TYPE (e_flags e) = false ->
    counter_spec now c k count init result expire TAIR_RETURN_CANNOT_OVERRIDE result c
| counter_new e' c' :
    (forall e, c !! k = Some e -> entry_expired now e = true) -> counts (s32 (init + count)) e' ->
    (0 < expire -> e_exptime e' = put_exptime expire now 0) -> put_into c k e' c' ->
    counter_spec now c k count init result expire TAIR_RETURN_SUCCESS (s32 (init + count)) c'.

(** Flagged values have the six bytes [add_count] writes. *)
Definition counter_form (c : gmap (list Z) entry) (k : list Z) : Prop :=
  forall e, c !! k = Some e -> IS_ADDCOUNT_TYPE (e_flags e) = true -> length (e_value e) = 6%nat.

(** ** The operations against the promises of the engine *)

Section service.
Context {St : Type} `{Hlaws : KeyValueLaws St}.

(** The server works and stands for the store [c]. *)
Definition serves (tm : tair_manager St) (c : gmap (list Z) entry) : Prop :=
  tm_status tm = STATUS_CAN_WORK /\ holds (tm_storage tm) c.

(** What requests leave alone. *)
Record same_server (tm tm' : tair_manager St) : Prop := {
  ss_status : tm_status tm' = tm_status tm;
  ss_local : tm_localmode tm' = tm_localmode tm;
  ss_table : tm_table tm' = tm_table tm;
  ss_done : tm_done tm' = tm_done tm;
  ss_clock : clock (tm_storage tm') = clock (tm_storage tm);
  ss_room : forall n, room (tm_storage tm) n -> room (tm_storage tm') n
}.

Definition tm_clock (tm : tair_manager St) : Z := clock (tm_storage tm).
Definition item_room (tm : tair_manager St) (key : data_entry) (value_size : Z) : Prop :=
  room (tm_storage tm) (get_size key + 2 + value_size + sizeof_mdb_item).

Lemma on_storage_run {A} (m : stM St A) tm a st :
  m (tm_storage tm) = Ret (a, st) -> on_storage m tm = Ret (a, set_storage st tm).
Proof. intros E. unfold on_storage. by rewrite E. Qed.

Lemma verify_run {A} (tm : tair_manager St) area key (answer : Z -> A) k :
  tm_status tm = STATUS_CAN_WORK -> client_key area key -> STAT_KEY_VERIFY key answer k tm = k tm.
Proof.
  intros Hst Hk. unfold STAT_KEY_VERIFY, when_working, size_check.
  step_with (eq_refl : sget tm = Ret (tm, tm)). by rewrite Hst, (client_key_not_bad _ _ Hk).
Qed.

Lemma same_server_trans tm1 tm2 tm3 : same_server tm1 tm2 -> same_server tm2 tm3 -> same_server tm1 tm3.
Proof. intros [] []. constructor; try congruence. auto. Qed.

(** An engine call with its counter: the shape of every operation below. *)
Lemma same_server_call (tm : tair_manager St) st f :
  clock st = clock (tm_storage tm) -> (forall n, room (tm_storage tm) n -> room st n) ->
  same_server tm (set_stats f (set_storage st tm)).
Proof. intros Hc Hr. by constructor. Qed.

Lemma put_run tm c area key value expire :
  serves tm c -> client_key area key -> client_value value -> item_room tm key (get_size value) ->
  exists rc tm' c', put area key value expire tm = Ret (rc, tm') /\ serves tm' c' /\ same_server tm tm'
    /\ put_spec (tm_clock tm) c (mkey_of area key) value (version_care key) (Z.max 0 expire) rc c'.
Proof.
  intros [Hst Hh] Hk Hv Hr. unfold put. rewrite (client_key_not_bad _ _ Hk), (client_value_not_bad _ Hv). cbn [orb size_check].
  destruct (put_law (tm_storage tm) c area (mkey_of area key) value (version_care key) expire Hh) as
    (rc & key' & st & c' & E & Hh' & Hc & Hrm & Hsp).
  { by apply mkey_put_ok. } { by rewrite (get_size_mkey _ _ Hk). }
  eexists rc, _, c'. split; [|split; [|split]].
  - unfold size_check. step_with (on_storage_run _ _ _ _ E). done.
  - by split.
  - by apply same_server_call.
  - done.
Qed.

Lemma get_run tm c area key value :
  serves tm c -> client_key area key ->
  exists rc key' value' r tm' c', get area key value tm = Ret ((rc, key', value'), tm') /\ serves tm' c' /\ same_server tm tm'
    /\ get_spec (tm_clock tm) c (area_key area (get_data key)) rc r c'
    /\ received_entry value value' r /\ received_key key key' r.
Proof.
  intros [Hst Hh] Hk.
  destruct (get_law (tm_storage tm) c area (mkey_of area key) value Hh (mkey_key_ok _ _ Hk)) as
    (rc & mkey' & value' & r & st & c' & E & Hh' & Hc & Hrm & Hsp & Hrec & Hkey).
  rewrite (get_data_mkey _ _ Hk) in Hsp.
  eexists rc, (take_meta mkey' key), value', r, _, c'. split; [|split; [|split; [|split; [done|split; [done|]]]]].
  - unfold get. rewrite (verify_run tm area key) by done. step_with (on_storage_run _ _ _ _ E). done.
  - by split.
  - by apply same_server_call.
  - destruct r as [e|]; cbn in *.
    + destruct Hkey as (_ & Hv & Hf). done.
    + subst mkey'. unfold take_meta. rewrite (mkey_of_eq _ _ Hk). by destruct key.
Qed.

Lemma remove_run tm c area key :
  serves tm c -> client_key area key ->
  exists rc tm' c', remove area key tm = Ret (rc, tm') /\ serves tm' c' /\ same_server tm tm'
    /\ remove_spec c (area_key area (get_data key)) rc c'.
Proof.
  intros [Hst Hh] Hk. unfold remove. rewrite (client_key_not_bad _ _ Hk). cbn [size_check].
  destruct (remove_law (tm_storage tm) c area (mkey_of area key) (version_care key) Hh (mkey_key_ok _ _ Hk)) as
    (rc & key' & st & c' & E & Hh' & Hc & Hrm & Hsp). rewrite (get_data_mkey _ _ Hk) in Hsp.
  eexists rc, _, c'. split; [|split; [|split]].
  - unfold size_check. step_with (on_storage_run _ _ _ _ E). done.
  - by split.
  - by apply same_server_call.
  - done.
Qed.

Lemma client_key_meta area key meta : client_key area key -> client_key area (set_meta meta key).
Proof. by intros []. Qed.

(** The [put] of a counter whose version is the one just read. *)
Lemma put_counter_run tm c area key x n expire :
  serves tm c -> client_key area key -> item_room tm key 6 ->
  get_size x = 6 -> length (get_data x) = 6%nat -> counter_value (get_data x) = n ->
  let k := area_key area (get_data key) in
  (forall e, c !! k = Some e -> entry_expired (tm_clock tm) e = false -> get_version key = e_version e) ->
  exists tm' c' e', put area key (mark_counter x) expire tm = Ret (TAIR_RETURN_SUCCESS, tm')
    /\ serves tm' c' /\ same_server tm tm' /\ counts n e'
    /\ (0 < expire -> e_exptime e' = put_exptime expire (tm_clock tm) 0) /\ put_into c k e' c'.
Proof.
  intros Hs Hk Hr Hsz Hlen Hn k Hver.
  destruct (put_run tm c area key (mark_counter x) expire Hs Hk) as (rc & tm' & c' & E & Hs' & Hsame & Hsp).
  { unfold client_value. change (get_data (mark_counter x)) with (get_data x).
    change (get_size (mark_counter x)) with (get_size x). rewrite Hsz, Hlen. by vm_compute. }
  { change (get_size (mark_counter x)) with (get_size x). by rewrite Hsz. }
  destruct Hsp as [Hstale|base e' c0 _ Hstored Hc0].
  - exfalso. rewrite (get_data_mkey _ _ Hk) in Hstale. unfold put_base in Hstale. fold k in Hstale.
    destruct (c !! k) as [e|] eqn:Ee; [|done]. destruct (entry_expired (tm_clock tm) e) eqn:Hexp; [done|].
    rewrite (get_version_mkey _ _ Hk), (Hver e eq_refl Hexp), Z.eqb_refl, andb_false_r in Hstale. done.
  - rewrite (get_data_mkey _ _ Hk) in *. fold k in E, Hs'. destruct Hstored as [Hv _ _ (old & _ & Hfl) Hx].
    exists tm', (<[k := e']> c0), e'. split; [done|]. split; [done|]. split; [done|].
    change (get_data (mark_counter x)) with (get_data x) in Hv. split; [|split].
    + constructor; [rewrite Hfl; apply counter_flag|by rewrite Hv|by rewrite Hv].
    + intros Hpos. rewrite Hx by lia. by rewrite Z.max_r by lia.
    + destruct Hc0 as [->|[victim ->]]; [by left|by right; exists victim].
Qed.

Lemma get_spec_cases now c k rc r c1 :
  get_spec now c k rc r c1 ->
  (r = None /\ (rc =? TAIR_RETURN_SUCCESS) = false /\ c1 = delete k c
   /\ forall e, c !! k = Some e -> entry_expired now e = true)
  \/ (exists e, r = Some e /\ rc = TAIR_RETURN_SUCCESS /\ c1 = c /\ c !! k = Some e /\ entry_expired now e = false).
Proof.
  intros [Hn|e He Hx|e He Hx]; [left|left|right; by exists e].
  - split; [done|]. split; [done|]. rewrite delete_id by done. split; [done|]. by rewrite Hn.
  - split; [done|]. split; [done|]. split; [done|]. rewrite He. by intros e0 [= <-].
Qed.

(** The [get] of [add_count], up to the branch on its answer. *)
Lemma add_count_got tm c area key :
  serves tm c -> client_key area key ->
  let k := area_key area (get_data key) in
  exists rc key' value r tm1 c1, get area key new_data_entry tm = Ret ((rc, key', value), tm1)
    /\ (forall A (m : Z * data_entry * data_entry -> tmM A),
          (let* r := get area key new_data_entry in m r) tm = m (rc, key', value) tm1)
    /\ serves tm1 c1 /\ same_server tm tm1
    /\ get_spec (tm_clock tm) c k rc r c1 /\ received_entry new_data_entry value r
    /\ client_key area key' /\ get_data key' = get_data key
    /\ (forall n, item_room tm key n -> item_room tm1 key' n)
    /\ (forall e, r = Some e -> get_version key' = e_version e /\ flag (data_meta key') = e_flags e).
Proof.
  intros Hs Hk k.
  destruct (get_run tm c area key new_data_entry Hs Hk)
    as (rc & key' & value & r & tm1 & c1 & E & Hs1 & Hsame & Hsp & Hrec & Hkey). fold k in Hsp.
  exists rc, key', value, r, tm1, c1. split; [done|]. split; [intros A m; by step_with E|].
  split; [done|]. split; [done|]. split; [done|]. split; [done|].
  assert (exists meta, key' = set_meta meta key) as [meta Hmeta].
  { destruct r as [e|]; cbn in Hkey; [destruct Hkey as [-> _]|subst key']; [by eexists|]. exists (data_meta key). by destruct key. }
  split; [subst key'; by apply client_key_meta|]. split; [by subst key'|]. split.
  - intros n Hr. subst key'. by apply Hsame.
  - intros e ->. by destruct Hkey as (_ & ? & ?).
Qed.

(** In [add_count] before the branch: the engine has no counters. *)
Lemma add_count_generic tm c area key count init result expire :
  serves tm c -> client_key area key ->
  add_count area key count init result expire tm =
  (let* (rc, key, old_value) := get area key new_data_entry in
   add_count_put area key count init result expire rc old_value) tm.
Proof.
  intros Hs Hk. unfold add_count. rewrite (verify_run tm area key) by (apply Hs || done).
  step_with (on_storage_run _ tm _ _ (incdecr_law (tm_storage tm) area (mkey_of area key) init count result
               (version_care key) 0 expire)).
  replace (set_storage (tm_storage tm) tm) with tm by by destruct tm. by rewrite Z.eqb_refl.
Qed.

(** No valid entry: the counter starts. *)
Lemma add_count_fresh tm c area key count init result expire :
  serves tm c -> client_key area key -> item_room tm key 6 ->
  let k := area_key area (get_data key) in
  (forall e, c !! k = Some e -> entry_expired (tm_clock tm) e = true) ->
  exists key' tm' c' e',
    add_count area key count init result expire tm = Ret ((TAIR_RETURN_SUCCESS, key', s32 (init + count)), tm')
    /\ serves tm' c' /\ same_server tm tm' /\ counts (s32 (init + count)) e'
    /\ (0 < expire -> e_exptime e' = put_exptime expire (tm_clock tm) 0) /\ put_into c k e' c'.
Proof.
  intros Hs Hk Hr k Hgone. rewrite (add_count_generic tm c) by done.
  destruct (add_count_got tm c area key Hs Hk)
    as (rc & key' & value & r & tm1 & c1 & _ & E & Hs1 & Hsame & Hsp & Hrec & Hk' & Hd & Hr' & _). fold k in Hsp. rewrite E.
  destruct (get_spec_cases _ _ _ _ _ _ Hsp) as [(-> & Hrc & -> & _)|(e & _ & _ & _ & He & Hexp)];
    [|by rewrite (Hgone e He) in Hexp].
  cbn in Hrec. subst value. unfold add_count_put. rewrite Hrc. cbn [andb].
  set (v := s32 (init + count)). set (x := DataEntry.set_data (Some (counter_bytes v)) 6 true new_data_entry).
  destruct (put_counter_run tm1 _ area key' x v expire Hs1 Hk' (Hr' 6 Hr)) as (tm2 & c2 & e' & E2 & Hs2 & Hsame2 & Hcn & Hx & Hput); try done.
  { change (get_data x) with (counter_bytes v). rewrite counter_value_new. apply swrap_id; [lia|by apply swrap_bound]. }
  { rewrite Hd. fold k. by rewrite lookup_delete_eq. }
  step_with E2. replace (tm_clock tm1) with (tm_clock tm) in Hx by (symmetry; apply Hsame). rewrite Hd in Hput.
  exists key', tm2, c2, e'. split; [done|]. split; [done|]. split; [by eapply same_server_trans|].
  split; [done|]. split; [done|]. by apply put_into_delete.
Qed.

Lemma add_count_run tm c area key count init result expire :
  serves tm c -> client_key area key -> item_room tm key 6 ->
  counter_form c (area_key area (get_data key)) ->
  exists rc key' n tm' c', add_count area key count init result expire tm = Ret ((rc, key', n), tm')
    /\ serves tm' c' /\ same_server tm tm'
    /\ counter_spec (tm_clock tm) c (area_key area (get_data key)) count init result expire rc n c'.
Proof.
  intros Hs Hk Hr Hform. set (k := area_key area (get_data key)) in *.
  destruct (add_count_got tm c area key Hs Hk)
    as (rc & key' & value & r & tm1 & c1 & _ & E & Hs1 & Hsame & Hsp & Hrec & Hk' & Hd & Hr' & Hkey). fold k in Hsp.
  destruct (get_spec_cases _ _ _ _ _ _ Hsp) as [(_ & _ & _ & Hgone)|(e & -> & -> & -> & He & Hexp)].
  { destruct (add_count_fresh tm c area key count init result expire Hs Hk Hr Hgone)
      as (key2 & tm2 & c2 & e' & E2 & Hs2 & Hsame2 & Hcn & Hx & Hput).
    exists TAIR_RETURN_SUCCESS, key2, (s32 (init + count)), tm2, c2. split; [done|]. split; [done|]. split; [done|].
    by eapply counter_new. }
  destruct Hrec as (Hdv & Hsv & _ & _ & Hfv). destruct (Hkey e eq_refl) as [Hver Hfl].
  rewrite (add_count_generic tm c), E by done. unfold add_count_put. rewrite Hfl, Z.eqb_refl. cbn [andb].
  destruct (IS_ADDCOUNT_TYPE (e_flags e)) eqn:Hadd.
  2:{ eexists _, key', _, tm1, c. split; [done|]. split; [done|]. split; [done|]. by eapply counter_refused. }
  pose proof (Hform e He Hadd) as Hlen. rewrite Hdv, Hlen. change (Z.of_nat 6 <? Z.of_nat ITEM_HEAD_LENGTH + 4) with false.
  set (v := s32 (counter_value (e_value e) + count)). set (x := set_bytes (write_counter (e_value e) v) value).
  destruct (put_counter_run tm1 c area key' x v expire Hs1 Hk' (Hr' 6 Hr)) as (tm2 & c2 & e' & E2 & Hs2 & Hsame2 & Hcn & Hx & Hput).
  { change (get_size x) with (get_size value). by rewrite Hsv, Hlen. }
  { by apply length_write_counter. }
  { change (get_data x) with (write_counter (e_value e) v). rewrite counter_value_written by done. apply swrap_id; [lia|by apply swrap_bound]. }
  { rewrite Hd. fold k. intros e0. rewrite He. by intros [= <-] _. }
  step_with E2. replace (tm_clock tm1) with (tm_clock tm) in Hx by (symmetry; apply Hsame). rewrite Hd in Hput.
  eexists _, key', _, tm2, c2. split; [done|]. split; [done|]. split; [by eapply same_server_trans|]. by eapply counter_on.
Qed.

(** *** Runs of [add_count] on one key *)

Fixpoint add_counts (area : Z) (key : data_entry) (init expire : Z) (counts : list Z) : tmM (list (Z * Z)) :=
  match counts with
  | [] => sret []
  | count :: rest =>
      let* (rc, _, n) := add_count area key count init 0 expire in
      let* ns := add_counts area key init expire rest in
      sret ((rc, n) :: ns)
  end.

(** The running totals from [n]. *)
Fixpoint totals (n : Z) (counts : list Z) : list Z :=
  match counts with [] => [] | count :: rest => s32 (n + count) :: totals (s32 (n + count)) rest end.

Lemma put_into_lookup c k e c' : put_into c k e c' -> c' !! k = Some e.
Proof. intros [->|[? ->]]; by rewrite lookup_insert_eq. Qed.

(** A counter stored with a time to live that is not over. *)
Lemma exptime_not_over expire now e :
  0 <= now -> 0 < expire -> now + expire < 2 ^ 32 -> e_exptime e = put_exptime expire now 0 -> entry_expired now e = false.
Proof.
  intros Hn Hp Hb Hx. unfold entry_expired. rewrite Hx. unfold put_exptime.
  rewrite !wrap_id by (unfold in_u; lia). repeat zcase; try done; lia.
Qed.

Lemma add_counts_on tm c area key init expire l n e :
  serves tm c -> client_key area key -> item_room tm key 6 ->
  0 <= tm_clock tm -> 0 < expire -> tm_clock tm + expire < 2 ^ 32 ->
  c !! area_key area (get_data key) = Some e -> entry_expired (tm_clock tm) e = false -> counts n e ->
  exists tm' c', add_counts area key init expire l tm = Ret ((fun t => (TAIR_RETURN_SUCCESS, t)) <$> totals n l, tm')
    /\ serves tm' c' /\ same_server tm tm'.
Proof.
  revert tm c n e. induction l as [|count l IH]; intros tm c n e Hs Hk Hr Hn Hp Hb He Hexp Hcn.
  { exists tm, c. split; [done|]. split; [done|]. by constructor. }
  cbn [add_counts totals fmap list_fmap].
  destruct (add_count_run tm c area key count init 0 expire Hs Hk Hr) as (rc & key' & m & tm1 & c1 & E & Hs1 & Hsame & Hsp).
  { intros e0. rewrite He. intros [= <-] _. apply Hcn. }
  step_with E. destruct Hsp as [e0 n0 e' c1 He0 _ Hcn0 Hcn' Hx Hput|e0 He0 _ Hno|e' c1 Hgone _ _ _].
  - assert (e0 = e) as -> by congruence. assert (n0 = n) as ->
      by (destruct Hcn0 as [_ _ <-]; by destruct Hcn as [_ _ <-]).
    assert (tm_clock tm1 = tm_clock tm) as Hck by apply Hsame.
    destruct (IH tm1 c1 (s32 (n + count)) e') as (tm2 & c2 & E2 & Hs2 & Hsame2); try (by rewrite ?Hck).
    { by apply Hsame. } { by eapply put_into_lookup. } { rewrite Hck. eapply exptime_not_over; try done. by apply Hx. }
    step_with E2. exists tm2, c2. split; [done|]. split; [done|]. by eapply same_server_trans.
  - assert (e0 = e) as -> by congruence. destruct Hcn as [Hf _ _]. congruence.
  - specialize (Hgone e He). congruence.
Qed.

(** ** What a client can rely on *)

(** C5: put and get.  On a working server, with any engine that keeps
    [KeyValueLaws], a [put] of a key and value of storable sizes ends in one
    of two ways.  It is refused with TAIR_RETURN_VERSION_ERROR, which takes a
    request of a client, with a version, that is not the version of the live
    entry, and nothing changes.  Or it succeeds: the key holds the bytes of the
    value, with the date of expiry the time to live gives, if there is one.
    When the time to live is positive and does not take the clock past 2^32, a
    [get] of the key in the same area right afterwards succeeds and brings back
    the bytes.  Without a time to live the memory engine leaves the date of
    expiry that was in the item's memory, so the [get] may also answer
    TAIR_RETURN_DATA_EXPIRED, and does so exactly when the date in the entry is
    over.  No other area and no other key is written: any other entry is what
    it was, or is the one the engine dropped to make room. *)
Theorem put_then_get tm c area key value expire value0 :
  serves tm c -> client_key area key -> client_value value -> item_room tm key (get_size value) ->
  let k := area_key area (get_data key) in
  exists rc tm1 c1, put area key value expire tm = Ret (rc, tm1) /\ serves tm1 c1 /\ same_server tm tm1
    /\ (rc = TAIR_RETURN_VERSION_ERROR /\ c1 = c /\ version_care key = true /\ get_version key <> 0
           /\ (exists e, c !! k = Some e /\ entry_expired (tm_clock tm) e = false /\ e_version e <> get_version key)
        \/ rc = TAIR_RETURN_SUCCESS
           /\ (exists e, c1 !! k = Some e /\ e_value e = get_data value
                 /\ (0 < expire -> e_exptime e = put_exptime expire (tm_clock tm) 0)
                 /\ exists rc2 key2 value2 tm2, get area key value0 tm1 = Ret ((rc2, key2, value2), tm2)
                      /\ (0 < expire -> 0 <= tm_clock tm -> tm_clock tm + expire < 2 ^ 32 ->
                            rc2 = TAIR_RETURN_SUCCESS /\ get_data value2 = get_data value)
                      /\ if entry_expired (tm_clock tm) e then rc2 = TAIR_RETURN_DATA_EXPIRED
                         else rc2 = TAIR_RETURN_SUCCESS /\ get_data value2 = get_data value)
           /\ exists victim, forall b l, 0 <= b < TAIR_MAX_AREA_COUNT -> (b, l) <> (area, get_data key) ->
                area_key b l <> victim -> c1 !! area_key b l = c !! area_key b l).
Proof.
  intros Hs Hk Hv Hr k.
  destruct (put_run tm c area key value expire Hs Hk Hv Hr) as (rc & tm1 & c1 & E & Hs1 & Hsame & Hsp).
  exists rc, tm1, c1. split; [done|]. split; [done|]. split; [done|]. pose proof (get_data_mkey _ _ Hk) as Hkd. fold k in Hkd.
  destruct Hsp as [Hst|base e c0 _ Hstored Hc0]; rewrite Hkd in *.
  - left. split; [done|]. split; [done|]. rewrite (get_version_mkey _ _ Hk) in Hst. unfold put_base in Hst.
    destruct (c !! k) as [e|]; [|done]. destruct (entry_expired (tm_clock tm) e) eqn:Hx; [done|].
    destruct (version_care key); [|done]. destruct (Z.eqb_spec (get_version key) 0); [done|].
    destruct (Z.eqb_spec (e_version e) (get_version key)); [done|]. split; [done|]. split; [done|]. by exists e.
  - right. split; [done|]. split.
    + assert (0 < expire -> e_exptime e = put_exptime expire (tm_clock tm) 0) as Hx0.
      { intros Hp. rewrite (st_exptime _ _ _ _ _ _ _ Hstored) by lia. by rewrite Z.max_r by lia. }
      exists e. rewrite lookup_insert_eq. split; [done|]. split; [apply Hstored|]. split; [done|].
      destruct (get_run tm1 _ area key value0 Hs1 Hk) as (rc2 & key2 & value2 & r & tm2 & c2 & E2 & _ & _ & Hg & Hrec & _).
      exists rc2, key2, value2, tm2. split; [done|]. replace (tm_clock tm1) with (tm_clock tm) in Hg by (symmetry; apply Hsame).
      fold k in Hg.
      match goal with |- ?A /\ ?B => assert B as Hend end.
      2:{ split; [|exact Hend]. intros Hp Hn Hb. by rewrite (exptime_not_over expire) in Hend by auto. }
      destruct (get_spec_cases _ _ _ _ _ _ Hg) as [(-> & Hrc & -> & Hx)|(e2 & -> & -> & _ & He & Hx)].
      * rewrite (Hx e) by apply lookup_insert_eq. destruct Hg as [Hn| |]; [by rewrite lookup_insert_eq in Hn|done|done].
      * rewrite lookup_insert_eq in He. injection He as <-. rewrite Hx. split; [done|]. destruct Hrec as [-> _]. apply Hstored.
    + assert (forall b l, 0 <= b < TAIR_MAX_AREA_COUNT -> (b, l) <> (area, get_data key) -> k <> area_key b l) as Hne.
      { intros b l Hb D Heq. apply D. destruct (area_key_inj area b (get_data key) l) as [-> ->]; try done. by destruct Hk. }
      destruct Hc0 as [->|[victim ->]]; [exists k|exists victim]; intros b l Hb D Dv;
        rewrite lookup_insert_ne by (by apply Hne); [done|by rewrite lookup_delete_ne].
Qed.

(** C6: [add_count] is a counter on top of [get] and [put].  With an engine
    without counters of its own, on a key that holds a counter it answers with
    the number there plus [count], wrapped to 32 bits, and the key holds that
    number afterwards; on a key that is absent or expired it starts from
    [init_value]; any other value is refused with TAIR_RETURN_CANNOT_OVERRIDE
    and nothing changes.  The version of the key just read makes the [put]
    succeed, whatever version the client named. *)
Theorem add_count_is_a_counter tm c area key count init result expire :
  serves tm c -> client_key area key -> item_room tm key 6 ->
  counter_form c (area_key area (get_data key)) ->
  exists rc key' n tm' c', add_count area key count init result expire tm = Ret ((rc, key', n), tm')
    /\ serves tm' c' /\ same_server tm tm'
    /\ counter_spec (tm_clock tm) c (area_key area (get_data key)) count init result expire rc n c'.
Proof. apply add_count_run. Qed.

(** counts add up.  On a key that holds nothing that is still valid, a
    series of [add_count]s with a time to live that is not over succeeds every
    time and answers with the running totals from [init_value], modulo 2^32. *)
Theorem counts_add_up tm c area key init expire count l :
  serves tm c -> client_key area key -> item_room tm key 6 ->
  0 <= tm_clock tm -> 0 < expire -> tm_clock tm + expire < 2 ^ 32 ->
  (forall e, c !! area_key area (get_data key) = Some e -> entry_expired (tm_clock tm) e = true) ->
  exists tm' c', add_counts area key init expire (count :: l) tm
                 = Ret ((fun t => (TAIR_RETURN_SUCCESS, t)) <$> totals init (count :: l), tm')
    /\ serves tm' c' /\ same_server tm tm'.
Proof.
  intros Hs Hk Hr Hn Hp Hb Hgone. cbn [add_counts totals fmap list_fmap].
  (* an expired flagged value is never read *)
  destruct (add_count_fresh tm c area key count init 0 expire Hs Hk Hr Hgone)
    as (key' & tm1 & c1 & e' & E & Hs1 & Hsame & Hcn & Hx & Hput).
  step_with E. assert (tm_clock tm1 = tm_clock tm) as Hck by apply Hsame.
  destruct (add_counts_on tm1 c1 area key init expire l (s32 (init + count)) e') as (tm2 & c2 & E2 & Hs2 & Hsame2);
    try (by rewrite ?Hck).
  { by apply Hsame. } { by eapply put_into_lookup. } { rewrite Hck. eapply exptime_not_over; try done. by apply Hx. }
  step_with E2. exists tm2, c2. split; [done|]. split; [done|]. by eapply same_server_trans.
Qed.
End service.

(** ** The memory engine behind a server *)

#[local] Instance demo_storage : storage_manager mdb_manager := mdb_storage (fun _ _ _ => 0) zero_meta.
#[local] Instance demo_laws : KeyValueLaws mdb_manager := mdb_laws (fun _ _ _ => 0) zero_meta.

(** A server that has just got its table, on an engine that holds nothing. *)
Definition started (e : mdb) : tair_manager mdb_manager :=
  mk_tair_manager false STATUS_CAN_WORK (mk_mdb_manager 16 e) new_table_manager (mk_bitset 16 ∅) ∅.

Lemma started_serves :
  exists e, mdb_manager_initialize 4096 (200 * 2 ^ 20) (2 ^ 20) 10 64 demo_scale 9 = Ret e
    /\ serves (started e) ∅ /\ tm_clock (started e) = 9
    /\ forall n, n <= 64 -> room (tm_storage (started e)) n.
Proof.
  destruct (mdb_manager_initialize_ok 4096 (200 * 2 ^ 20) 10 64 demo_scale 9 demo_params) as (e & vs & E & Hck & Hsz & Hnow).
  exists e. split; [done|]. split; [|split].
  - split; [done|]. exists ∅, vs. split; [done|]. unfold content. by rewrite omap_empty.
  - cbn. unfold tm_clock. cbn. by rewrite Hnow.
  - intros n Hn. exists 64. split; [|done]. cbn. rewrite Hsz. vm_compute. left.
Qed.

Lemma demo_client_key : client_key 3 (data_entry_of [107]).
Proof. by constructor; vm_compute. Qed.

Lemma put_then_get_witness :
  exists e, serves (started e) ∅ /\ exists tm1 key2 value2 tm2,
    put 3 (data_entry_of [107]) (data_entry_of [7; 8]) 100 (started e) = Ret (TAIR_RETURN_SUCCESS, tm1)
    /\ get 3 (data_entry_of [107]) new_data_entry tm1 = Ret ((TAIR_RETURN_SUCCESS, key2, value2), tm2)
    /\ get_data value2 = [7; 8].
Proof.
  destruct started_serves as (e & _ & Hs & Hc & Hr). exists e. split; [done|].
  destruct (put_then_get (started e) ∅ 3 (data_entry_of [107]) (data_entry_of [7; 8]) 100 new_data_entry Hs demo_client_key)
    as (rc & tm1 & c1 & E & _ & _ & [(_ & _ & _ & _ & e0 & He0 & _)|(-> & (e1 & _ & _ & _ & rc2 & key2 & value2 & tm2 & E2 & Hok & _) & _)]);
    [by vm_compute|by apply Hr|by rewrite lookup_empty in He0|].
  destruct Hok as [-> Hd]; [done|by rewrite Hc|by rewrite Hc|]. by exists tm1, key2, value2, tm2.
Defined.

Lemma add_count_is_a_counter_witness :
  exists e, serves (started e) ∅ /\ exists rc key' n tm' c',
    add_count 3 (data_entry_of [107]) 5 10 0 100 (started e) = Ret ((rc, key', n), tm')
    /\ counter_spec 9 ∅ (area_key 3 [107]) 5 10 0 100 rc n c'.
Proof.
  destruct started_serves as (e & _ & Hs & Hc & Hr). exists e. split; [done|].
  destruct (add_count_is_a_counter (started e) ∅ 3 (data_entry_of [107]) 5 10 0 100 Hs demo_client_key)
    as (rc & key' & n & tm' & c' & E & _ & _ & Hsp); [by apply Hr|intros e'; by rewrite lookup_empty|].
  rewrite Hc in Hsp. by exists rc, key', n, tm', c'.
Defined.

Lemma counts_add_up_witness :
  exists e, serves (started e) ∅ /\ exists tm',
    add_counts 3 (data_entry_of [107]) 10 100 [5; -2; 4] (started e)
    = Ret ([(0, 15); (0, 13); (0, 17)], tm').
Proof.
  destruct started_serves as (e & _ & Hs & Hc & Hr). exists e. split; [done|].
  destruct (counts_add_up (started e) ∅ 3 (data_entry_of [107]) 10 100 5 [-2; 4] Hs demo_client_key)
    as (tm' & c' & E & _); [by apply Hr|by rewrite Hc|done|by rewrite Hc|intros e'; by rewrite lookup_empty|].
  by exists tm'.
Defined.
