(* ===== verification/DupSync.v ===== *)
(** * Duplication to the slaves (dataserver/dup_sync_manager.hpp, .cpp)

    The server a client writes to sends a copy of the request to every slave of
    the bucket and remembers the client in a wait node; when the slaves have
    answered, the client is answered.  [dup_sync_sender_manager] is the sender,
    [CPacket_wait_manager] the table of wait nodes.

    The locks are not modelled: a call is one step.  What the network says is a
    parameter: [post_ok conn] whether a connection takes a packet, [send_ok server]
    whether the queue to a server does.  [uninit] is what an uninitialised
    integer holds. *)

From S2P Require Import Prelude PacketCodes Util DataBuffer DataEntry MdbManager TableManager Storage TairManager BasePacket KvPackets KeyPackets ListPackets HashPackets SetPackets ZsetPackets PacketFactory CopyPackets.

Definition TAIR_DUP_WAIT_RSP : Z := 133.
Definition TAIR_RETURN_DUPLICATE_BUSY : Z := -3985.
Definition TAIR_RETURN_DUPLICATE_IDMIXED : Z := -5001.
Definition TAIR_RETURN_DUPLICATE_DELAY : Z := -5002.
Definition TAIR_RETURN_DUPLICATE_REACK : Z := -5003.
Definition TAIR_RETURN_DUPLICATE_ACK_WAIT : Z := -5004.
Definition TAIR_RETURN_DUPLICATE_ACK_TIMEOUT : Z := -5005.
Definition TAIR_RETURN_DUPLICATE_SEND_ERROR : Z := -5006.
Definition TAIR_MAX_DUP_MAP_SIZE : Z := 102400.
Definition MAX_DUP_COUNT : nat := 2.
Definition TAIR_MAX_BUCKET_NUMBER : Z := 1024.
Definition MAX_BUCKET_FREE_COUNT : Z := 300.

(** ** The network *)

(** Where a request comes from: its connection and channel, and its code. *)
Record origin := mk_origin { from_conn : Z; from_chid : Z; from_pcode : Z }.

(** What goes out, in order: to a client or another server, to the plugins, into
    the queue of slow tasks. *)
Inductive output :=
| Post (conn chid : Z) (m : message)
| Send (server : Z) (m : message) (packet_id : Z)
| ToPlugins (rc hashcode : Z)
| Queue (p : packet).

(** ** Wait nodes *)

Record CPacket_wait_Nodes := mk_wait_node {
  wn_conn : Z; wn_chid : Z; wn_pcode : Z; wn_conf_version : Z; wn_bucket_number : Z;
  wn_inc_value_result : Z; wn_ret1 : Z; wn_ret2 : Z; wn_ret_values : list data_entry;
  wn_des_server_ids : list Z
}.

(** The constructor; the request is not a counter's, so there is no value. *)
Definition new_wait_node (bucket_number : Z) (request : origin) (servers : list Z) (conf_version : Z)
    : CPacket_wait_Nodes :=
  let ids := take MAX_DUP_COUNT servers in
  mk_wait_node (from_conn request) (from_chid request) (from_pcode request) conf_version bucket_number
    0 0 0 [] (ids ++ replicate (MAX_DUP_COUNT - length ids) 0).

(** [node->ret1 = ...] and the others *)
Definition with_results (inc_value_result ret1 ret2 : Z) (ret_values : list data_entry) (n : CPacket_wait_Nodes)
    : CPacket_wait_Nodes :=
  mk_wait_node (wn_conn n) (wn_chid n) (wn_pcode n) (wn_conf_version n) (wn_bucket_number n)
    inc_value_result ret1 ret2 ret_values (wn_des_server_ids n).
Definition with_servers (ids : list Z) (n : CPacket_wait_Nodes) : CPacket_wait_Nodes :=
  mk_wait_node (wn_conn n) (wn_chid n) (wn_pcode n) (wn_conf_version n) (wn_bucket_number n)
    (wn_inc_value_result n) (wn_ret1 n) (wn_ret2 n) (wn_ret_values n) ids.

(** [do_response(bucket, des_srvid)]: the code and the node *)
Definition do_response (des_srvid : Z) (n : CPacket_wait_Nodes) : Z * CPacket_wait_Nodes :=
  let ids := wn_des_server_ids n in
  let bfound := existsb (Z.eqb des_srvid) ids in
  let ids := map (fun id => if des_srvid =? id then 0 else id) ids in
  let acked := length (filter (fun id => 0 = id) ids) in
  let n := with_servers ids n in
  if negb bfound then (TAIR_RETURN_DUPLICATE_REACK, n)
  else if Nat.eqb acked MAX_DUP_COUNT then (0, n)
  else (TAIR_RETURN_DUPLICATE_ACK_WAIT, n).

(** ** The table of wait nodes *)

(** [get_map_index] is 0: of the slots of the table one is used. *)
Record CPacket_wait_manager := mk_wait_manager {
  m_PkgWaitMap : gmap Z CPacket_wait_Nodes; m_bucket_count : gmap Z Z
}.
Definition new_wait_manager : CPacket_wait_manager := mk_wait_manager ∅ ∅.
Definition waitM (A : Type) : Type := stM CPacket_wait_manager A.

Definition bucket_waiting (bucket_number : Z) (m : CPacket_wait_manager) : Z := default 0 (m_bucket_count m !! bucket_number).
Definition put_nodes (f : gmap Z CPacket_wait_Nodes -> gmap Z CPacket_wait_Nodes) : waitM unit :=
  smodify (fun m => mk_wait_manager (f (m_PkgWaitMap m)) (m_bucket_count m)).

Definition isBucketFree (bucket_number : Z) : waitM bool :=
  need* (0 <=? bucket_number) && (bucket_number <? TAIR_MAX_BUCKET_NUMBER) in
  let* m := sget in sret (bucket_waiting bucket_number m <? MAX_BUCKET_FREE_COUNT).

Definition changeBucketCount (bucket_number number : Z) : waitM unit :=
  need* (0 <=? bucket_number) && (bucket_number <? TAIR_MAX_BUCKET_NUMBER) in
  smodify (fun m => mk_wait_manager (m_PkgWaitMap m)
    (<[bucket_number := Z.max 0 (bucket_waiting bucket_number m + number)]> (m_bucket_count m))).

Definition addWaitNode (node : CPacket_wait_Nodes) (bucket_number max_packet_id : Z) : waitM Z :=
  let* m := sget in
  if TAIR_MAX_DUP_MAP_SIZE <? Z.of_nat (base.size (m_PkgWaitMap m)) then sret TAIR_RETURN_DUPLICATE_BUSY else
  match m_PkgWaitMap m !! max_packet_id with
  | None =>
      let* _ := changeBucketCount bucket_number 1 in
      let* _ := put_nodes <[max_packet_id := node]> in
      sret TAIR_RETURN_SUCCESS
  | Some _ => sret TAIR_RETURN_DUPLICATE_IDMIXED
  end.

(** [doResponse]: the code, and the node when it is done *)
Definition doResponse (bucket_number des_server_id max_packet_id : Z) : waitM (Z * option CPacket_wait_Nodes) :=
  let* m := sget in
  match m_PkgWaitMap m !! max_packet_id with
  | Some node =>
      let (ret, node) := do_response des_server_id node in
      let* _ := put_nodes <[max_packet_id := node]> in
      if ret =? 0 then
        let* _ := changeBucketCount bucket_number (-1) in
        let* _ := put_nodes (delete max_packet_id) in
        sret (ret, Some node)
      else sret (ret, None)
  | None => sret (TAIR_RETURN_DUPLICATE_DELAY, None)
  end.

Definition clear_waitnode (max_packet_id : Z) : waitM Z :=
  let* m := sget in
  match m_PkgWaitMap m !! max_packet_id with
  | Some node =>
      let* _ := changeBucketCount (wn_bucket_number node) (-1) in
      let* _ := put_nodes (delete max_packet_id) in
      sret 0
  | None => sret 0
  end.

Definition doTimeout (max_packet_id : Z) : waitM Z :=
  let* m := sget in
  match m_PkgWaitMap m !! max_packet_id with
  | None => sret 0
  | Some _ => let* _ := clear_waitnode max_packet_id in sret TAIR_RETURN_DUPLICATE_ACK_TIMEOUT
  end.

(** ** The sender *)

Record dup_sync_sender_manager := mk_dup_sender {
  packets_mgr : CPacket_wait_manager; max_queue_size : Z; packet_id_creater : Z
}.
Definition new_dup_sender : dup_sync_sender_manager := mk_dup_sender new_wait_manager 0 0.
Definition dupM (A : Type) : Type := stM (dup_sync_sender_manager * list output) A.

(** A call of the table of wait nodes *)
Definition on_waiting {A} (m : waitM A) : dupM A := fun '(s, out) =>
  let! (a, w) := m (packets_mgr s) in
  Ret (a, (mk_dup_sender w (max_queue_size s) (packet_id_creater s), out)).
Definition put_out {S} (o : output) : stM (S * list output) unit :=
  smodify (fun '(s, out) => (s, out ++ [o])).

(** [atomic_add_return(i, &packet_id_creater)] *)
Definition atomic_add_return (i : Z) : dupM Z := fun '(s, out) =>
  let v := s32 (packet_id_creater s + i) in
  Ret (u32 v, (mk_dup_sender (packets_mgr s) (max_queue_size s) v, out)).

Definition set_max_queue_size (n : Z) (s : dup_sync_sender_manager) : dup_sync_sender_manager :=
  mk_dup_sender (packets_mgr s) n (packet_id_creater s).

Definition has_bucket_duplicate_done (bucket_number : Z) : dupM bool := on_waiting (isBucketFree bucket_number).

Section sender.
Context (post_ok send_ok : Z -> bool) (uninit : Z).

(** [conn->postPacket(packet)] *)
Definition postPacket {S} (conn chid : Z) (m : message) : stM (S * list output) bool :=
  if post_ok conn then let* _ := put_out (Post conn chid m) in sret true else sret false.

(** The copies to the slaves; the first one that is refused gives the node up. *)
Fixpoint send_copies (make : outcome message) (packet_id : Z) (slaves : list Z) : dupM Z :=
  match slaves with
  | [] => sret TAIR_DUP_WAIT_RSP
  | des_svr :: rest =>
      let* m := slift make in
      if send_ok des_svr then
        let* _ := put_out (Send des_svr m packet_id) in send_copies make packet_id rest
      else
        let* _ := on_waiting (clear_waitnode packet_id) in sret TAIR_RETURN_DUPLICATE_BUSY
  end.

(** The common body of the [duplicate_data]s: a packet id, the wait node, the
    copies.  When the id is 0 the counter moves on, the id stays. *)
Definition duplicate (bucket_number : Z) (slaves : list Z) (node : CPacket_wait_Nodes)
    (make : Z -> Z -> outcome message) : dupM Z :=
  let copy_count := Z.of_nat (length slaves) in
  let* packet_id := atomic_add_return copy_count in
  let* _ := (if packet_id =? 0 then let* _ := atomic_add_return copy_count in sret tt else sret tt) in
  let* ret := on_waiting (addWaitNode node bucket_number packet_id) in
  if negb (ret =? 0) then sret ret else send_copies (make packet_id bucket_number) packet_id slaves.

Section duplicate_data.
Context {St : Type} (ip : Z) (tm : tair_manager St).

(** ... on a key: its bucket, the bucket's slaves, and the node with the results
    it will answer with. *)
Definition duplicate_key (key : data_entry) (request : origin) (version : Z)
    (results : CPacket_wait_Nodes -> CPacket_wait_Nodes) (make : Z -> Z -> outcome message) : dupM Z :=
  let* bucket_number := slift (get_bucket_number key tm) in
  let* slaves := slift (get_slaves ip (server_flag key) bucket_number tm) in
  duplicate bucket_number slaves (results (new_wait_node bucket_number request slaves version)) make.

Definition no_results (n : CPacket_wait_Nodes) : CPacket_wait_Nodes := n.
Definition with_ret1 (ret1 : Z) : CPacket_wait_Nodes -> CPacket_wait_Nodes := with_results 0 ret1 0 [].

(** A copy that is a [dup] of the copied base *)
Definition dup_message {P} (wrap : dup P -> copy_packet) (copy : P) : Z -> Z -> outcome message :=
  fun packet_id bucket_id => Ret (Plain (Copy (wrap (mk_dup copy packet_id bucket_id)))).

Definition duplicate_put (o : origin) (p : request_put) (version : Z) : dupM Z :=
  duplicate_key (put_key p) o version no_results (dup_message REQ_PUT_DUPLICATE (request_put_copy p)).
Definition duplicate_putnx (o : origin) (p : request_put) (version : Z) : dupM Z :=
  duplicate_key (put_key p) o version no_results (dup_message REQ_PUTNX_DUPLICATE (request_put_copy p)).
Definition duplicate_ltrim (o : origin) (p : request_ltrim) (version : Z) : dupM Z :=
  duplicate_key (ltrim_key p) o version no_results (dup_message REQ_LTRIM_DUPLICATE (request_ltrim_copy p)).
Definition duplicate_lrem (o : origin) (p : request_lrem) (version : Z) : dupM Z :=
  duplicate_key (lrem_key p) o version no_results (dup_message REQ_LREM_DUPLICATE (request_lrem_copy p)).
Definition duplicate_lset (o : origin) (p : request_lset) (version : Z) : dupM Z :=
  duplicate_key (lset_key p) o version no_results (dup_message REQ_LSET_DUPLICATE (request_lset_copy p)).
Definition duplicate_hmset (o : origin) (p : request_hmset) (rc version : Z) : dupM Z :=
  duplicate_key (hmset_key p) o version (with_ret1 rc) (dup_message REQ_HMSET_DUPLICATE (request_hmset_copy p)).
Definition duplicate_hset (o : origin) (p : request_hset) (rc version : Z) : dupM Z :=
  duplicate_key (hset_key p) o version (with_ret1 rc) (dup_message REQ_HSET_DUPLICATE (request_hset_copy p)).
Definition duplicate_hsetnx (o : origin) (p : request_hsetnx) (version : Z) : dupM Z :=
  duplicate_key (hsetnx_key p) o version no_results (dup_message REQ_HSETNX_DUPLICATE (request_hsetnx_copy p)).
Definition duplicate_hdel (o : origin) (p : request_hdel) (version : Z) : dupM Z :=
  duplicate_key (hdel_key p) o version no_results (dup_message REQ_HDEL_DUPLICATE (request_hdel_copy p)).
Definition duplicate_spop (o : origin) (p : request_spop) (version : Z) : dupM Z :=
  duplicate_key (spop_key p) o version no_results (dup_message REQ_SPOP_DUPLICATE (request_spop_copy p)).
Definition duplicate_srem (o : origin) (p : request_srem) (version : Z) : dupM Z :=
  duplicate_key (srem_key p) o version no_results (dup_message REQ_SREM_DUPLICATE (request_srem_copy p)).
Definition duplicate_sadd (o : origin) (p : request_sadd) (rc version : Z) : dupM Z :=
  duplicate_key (sadd_key p) o version (with_ret1 rc) (dup_message REQ_SADD_DUPLICATE (request_sadd_copy p)).

(** [request_sadd_multi], which [request_srem_multi] derives from: both go out
    as a copy of the former. *)
Definition duplicate_sadd_multi (o : origin) (p : request_sadd_multi) (rc version : Z) : dupM Z :=
  match sadd_multi_keys_values_map p with
  | [] => sret TAIR_RETURN_FAILED
  | (key, _) :: _ =>
      duplicate_key key o version (with_ret1 rc) (fun packet_id bucket_id =>
        let! c := request_sadd_multi_copy p in
        Ret (Plain (Copy (REQ_SADD_MULTI_DUPLICATE (mk_dup c packet_id bucket_id)))))
  end.

Definition duplicate_zadd (o : origin) (p : request_zadd) (rc version : Z) : dupM Z :=
  duplicate_key (zadd_key p) o version (with_ret1 rc) (dup_message REQ_ZADD_DUPLICATE (request_zadd_copy p)).
Definition duplicate_zrem (o : origin) (p : request_zrem) (version : Z) : dupM Z :=
  duplicate_key (zrem_key p) o version no_results (dup_message REQ_ZREM_DUPLICATE (request_zrem_copy p)).
Definition duplicate_zremrangebyrank (o : origin) (p : request_zremrangebyrank) (resp_retnum version : Z) : dupM Z :=
  duplicate_key (zremrangebyrank_key p) o version (with_ret1 resp_retnum)
    (dup_message REQ_ZREMRANGEBYRANK_DUPLICATE (request_zremrangebyrank_copy p)).
Definition duplicate_zremrangebyscore (o : origin) (p : request_zremrangebyscore) (resp_retnum version : Z) : dupM Z :=
  duplicate_key (zremrangebyscore_key p) o version (with_ret1 resp_retnum)
    (dup_message REQ_ZREMRANGEBYSCORE_DUPLICATE (request_zremrangebyscore_copy p)).
Definition duplicate_lrpush (o : origin) (p : request_lrpush) (version resp_pushed_num resp_list_len rc : Z) : dupM Z :=
  duplicate_key (lrpush_key p) o version (with_results rc (s32 resp_pushed_num) (s32 resp_list_len) [])
    (fun packet_id bucket_id => Ret (lrpush_copy (from_pcode o) p packet_id bucket_id)).
Definition duplicate_lrpush_limit (o : origin) (p : request_lrpush_limit) (version : Z) : dupM Z :=
  duplicate_key (lrpush_limit_key p) o version no_results
    (fun packet_id bucket_id => Ret (lrpush_limit_copy uninit (from_pcode o) p packet_id bucket_id)).
Definition duplicate_lrpop (o : origin) (p : request_lrpop) (version ret_code : Z) (ret_values : list data_entry) : dupM Z :=
  duplicate_key (lrpop_key p) o version (with_results 0 ret_code 0 ret_values)
    (fun packet_id bucket_id => Ret (lrpop_copy (from_pcode o) p packet_id bucket_id)).

(** [request_remove]: the first key of the list, or the key; with an empty list
    bucket and flag are not initialised. *)
Definition duplicate_remove (o : origin) (p : request_get) (version master_rc : Z) : dupM Z :=
  let make := dup_message REQ_REMOVE_DUPLICATE (request_get_copy p) in
  match get_key_list p, get_key p with
  | Some (key :: _), _ => duplicate_key key o version (with_ret1 master_rc) make
  | Some [], _ =>
      let* slaves := slift (get_slaves ip uninit uninit tm) in
      duplicate uninit slaves (with_ret1 master_rc (new_wait_node uninit o slaves version)) make
  | None, Some key => duplicate_key key o version (with_ret1 master_rc) make
  | None, None => sret TAIR_RETURN_SUCCESS
  end.
End duplicate_data.

(** ** The answer to the client *)

(** The message of [rspPacket], by the code of the request *)
Definition answer_of (n : CPacket_wait_Nodes) : option message :=
  let pcode := wn_pcode n in
  let v := wn_conf_version n in
  let r1 := s32 (wn_ret1 n) in
  let is_ code := pcode =? code in
  let pushed code := mk_response_lrpush v code (u32 (wn_ret1 n)) (u32 (wn_ret2 n)) in
  let popped := mk_response_lrpop v uninit r1 (wn_ret_values n) in
  if is_ TAIR_REQ_REMOVE_PACKET then Some (Plain (General (RESP_RETURN (mk_response_return v r1 []))))
  else if is_ TAIR_REQ_PUT_PACKET || is_ TAIR_REQ_LOCK_PACKET || is_ TAIR_REQ_MPUT_PACKET
          || is_ TAIR_REQ_EXPIRE_PACKET || is_ TAIR_REQ_PUTNX_PACKET then
    Some (Plain (General (RESP_RETURN (mk_response_return v 0 []))))
  else if is_ TAIR_REQ_LSET_PACKET then Some (Plain (List (RESP_LSET (mk_response_hset v 0))))
  else if is_ TAIR_REQ_LTRIM_PACKET then Some (Plain (List (RESP_LTRIM (mk_response_ltrim v 0))))
  else if is_ TAIR_REQ_LREM_PACKET then Some (Plain (List (RESP_LREM (mk_response_lrem v 0 uninit))))
  else if is_ TAIR_REQ_HMSET_PACKET then Some (Plain (Hash (RESP_HMSET (mk_response_hmset v r1 0))))
  else if is_ TAIR_REQ_HSET_PACKET then Some (Plain (Hash (RESP_HSET (mk_response_hset v r1))))
  else if is_ TAIR_REQ_HSETNX_PACKET then Some (Plain (List (RESP_LTRIM (mk_response_ltrim v 0))))
  else if is_ TAIR_REQ_HDEL_PACKET then Some (Plain (Hash (RESP_HDEL (mk_response_hdel v 0))))
  else if is_ TAIR_REQ_SPOP_PACKET then Some (Plain (Set_ (RESP_SPOP (mk_response_spop v 0 0 new_data_entry))))
  else if is_ TAIR_REQ_SREMMULTI_PACKET || is_ TAIR_REQ_SREM_PACKET then
    Some (Plain (Set_ (RESP_SREM (mk_response_srem v 0))))
  else if is_ TAIR_REQ_SADD_PACKET || is_ TAIR_REQ_SADDMULTI_PACKET then
    Some (Plain (Set_ (RESP_SADD (mk_response_sadd v r1))))
  else if is_ TAIR_REQ_ZADD_PACKET then Some (Plain (Zset (RESP_ZADD (mk_response_zadd v r1))))
  else if is_ TAIR_REQ_ZREM_PACKET then Some (Plain (Zset (RESP_ZREM (mk_response_zrem v 0))))
  else if is_ TAIR_REQ_ZREMRANGEBYRANK_PACKET then
    Some (Plain (Zset (RESP_ZREMRANGEBYRANK (mk_response_zremrangebyrank v 0 (wn_ret1 n)))))
  else if is_ TAIR_REQ_ZREMRANGEBYSCORE_PACKET then
    Some (Plain (Zset (RESP_ZREMRANGEBYSCORE (mk_response_zremrangebyscore v 0 (wn_ret1 n)))))
  else if is_ TAIR_REQ_LPUSH_LIMIT_PACKET then Some (Plain (List (RESP_LPUSH (pushed 0))))
  else if is_ TAIR_REQ_RPUSH_LIMIT_PACKET then Some (Plain (List (RESP_RPUSH (pushed 0))))
  else if is_ TAIR_REQ_LPUSHX_LIMIT_PACKET then Some (Plain (List (RESP_LPUSHX (pushed 0))))
  else if is_ TAIR_REQ_RPUSHX_LIMIT_PACKET then Some (Plain (List (RESP_RPUSHX (pushed 0))))
  else if is_ TAIR_REQ_LPOP_PACKET then Some (Plain (List (RESP_LPOP popped)))
  else if is_ TAIR_REQ_RPOP_PACKET then Some (Plain (List (RESP_RPOP popped)))
  else if is_ TAIR_REQ_INCDEC_PACKET then
    Some (Plain (General (RESP_INCDEC (mk_request_ping v (wn_inc_value_result n)))))
  else if is_ TAIR_REQ_LPUSH_PACKET then Some (Plain (List (RESP_LPUSH (pushed (wn_inc_value_result n)))))
  else if is_ TAIR_REQ_RPUSH_PACKET then Some (Plain (List (RESP_RPUSH (pushed (wn_inc_value_result n)))))
  else if is_ TAIR_REQ_LPUSHX_PACKET then Some (Plain (List (RESP_LPUSHX (pushed (wn_inc_value_result n)))))
  else if is_ TAIR_REQ_RPUSHX_PACKET then Some (Plain (List (RESP_RPUSHX (pushed (wn_inc_value_result n)))))
  else None.

(** Whether the answer goes through [set_return_packet], which reports no error *)
Definition returns_code (pcode : Z) : bool :=
  existsb (Z.eqb pcode) [TAIR_REQ_REMOVE_PACKET; TAIR_REQ_PUT_PACKET; TAIR_REQ_LOCK_PACKET;
    TAIR_REQ_MPUT_PACKET; TAIR_REQ_EXPIRE_PACKET; TAIR_REQ_PUTNX_PACKET].

Definition rspPacket (n : CPacket_wait_Nodes) : dupM Z :=
  match answer_of n with
  | Some m =>
      let* posted := postPacket (wn_conn n) (wn_chid n) m in
      sret (if posted || returns_code (wn_pcode n) then 0 else TAIR_RETURN_DUPLICATE_SEND_ERROR)
  | None => sret 0
  end.

Definition do_duplicate_response (bucket_number d_server_id packet_id : Z) : dupM Z :=
  let* (ret, node) := on_waiting (doResponse bucket_number d_server_id packet_id) in
  match node with
  | Some n => if ret =? 0 then rspPacket n else sret ret
  | None => sret ret
  end.

Definition handleTimeOutPacket (packet_id : Z) : dupM unit :=
  let* _ := on_waiting (doTimeout packet_id) in sret tt.

(** What reaches [handlePacket]: a slave's answer, a packet of another kind, or
    a control packet in place of the answer to [packet_id]. *)
Inductive dup_event :=
| Control (packet_id : Z)
| Response (p : response_duplicate)
| OtherPacket.

(** Whether the channel is kept *)
Definition handlePacket (e : dup_event) : dupM bool :=
  match e with
  | Control packet_id => let* _ := handleTimeOutPacket packet_id in sret false
  | Response p =>
      let* _ := do_duplicate_response (s32 (rspd_bucket_id p)) (rspd_server_id p) (rspd_packet_id p) in
      sret true
  | OtherPacket => sret true
  end.
End sender.
