(* ===== verification/DupSyncTheorems.v ===== *)
(** * When the client of a duplicated write is answered

    The table of wait nodes as a map from packet ids to the slaves that still
    have to answer: every answer of a slave and every lost answer is one step of
    this abstract table, and the client is answered in the step in which the
    last slave answers. *)

From S2P Require Import Prelude PacketCodes Util DataBuffer DataEntry MdbManager TableManager Storage TairManager BasePacket KvPackets KeyPackets ListPackets HashPackets SetPackets ZsetPackets PacketFactory CopyPackets DupSync.

(** ** The abstract table *)

(** The slaves a node waits for; a slot that is free holds 0. *)
Definition awaited (n : CPacket_wait_Nodes) : gset Z := list_to_set (filter (fun id => id <> 0) (wn_des_server_ids n)).
Definition awaiting (m : CPacket_wait_manager) : gmap Z (gset Z) := awaited <$> m_PkgWaitMap m.

(** A step of the abstract table: the new table, and the packet id that is done. *)
Definition await_step (e : dup_event) (w : gmap Z (gset Z)) : gmap Z (gset Z) * option Z :=
  match e with
  | Control id => (delete id w, None)
  | OtherPacket => (w, None)
  | Response p =>
      let id := rspd_packet_id p in
      match w !! id with
      | None => (w, None)
      | Some servers =>
          if decide (rspd_server_id p ∈ servers) then
            let rest := servers ∖ {[rspd_server_id p]} in
            if decide (rest = ∅) then (delete id w, Some id) else (<[id := rest]> w, None)
          else (w, None)
      end
  end.

(** Nodes as [duplicate] makes them. *)
Record node_ok (n : CPacket_wait_Nodes) : Prop := {
  no_slots : length (wn_des_server_ids n) = MAX_DUP_COUNT;
  no_awaits : awaited n <> ∅;
  no_bucket : 0 <= wn_bucket_number n < TAIR_MAX_BUCKET_NUMBER
}.

(** How many nodes a bucket has. *)
Definition nodes_of (b : Z) (m : gmap Z CPacket_wait_Nodes) : nat :=
  base.size (filter (fun kn => wn_bucket_number kn.2 = b) m).

Record table_ok (m : CPacket_wait_manager) : Prop := {
  tb_nodes : map_Forall (fun _ n => node_ok n) (m_PkgWaitMap m);
  tb_counts : forall b, bucket_waiting b m = Z.of_nat (nodes_of b (m_PkgWaitMap m))
}.

(** A slave's answer names the bucket of the request it answers. *)
Definition event_ok (m : gmap Z CPacket_wait_Nodes) (e : dup_event) : Prop :=
  match e with
  | Response p => forall n, m !! rspd_packet_id p = Some n -> s32 (rspd_bucket_id p) = wn_bucket_number n
  | _ => True
  end.

(** *** [do_response] *)

Lemma awaited_with_servers ids n : awaited (with_servers ids n) = list_to_set (filter (fun id => id <> 0) ids).
Proof. done. Qed.

Lemma existsb_elem x l : existsb (Z.eqb x) l = bool_decide (x ∈ l).
Proof.
  induction l as [|y l IH]; [done|]. cbn [existsb]. rewrite IH. destruct (Z.eqb_spec x y) as [->|D].
  - cbn. symmetry. apply bool_decide_eq_true_2, list_elem_of_here.
  - cbn. apply bool_decide_ext. rewrite elem_of_cons. naive_solver.
Qed.

Lemma awaited_after s ids :
  (list_to_set (filter (fun id => id <> 0) (map (fun id => if s =? id then 0 else id) ids)) : gset Z)
  = list_to_set (filter (fun id => id <> 0) ids) ∖ {[s]}.
Proof.
  induction ids as [|y ids IH]; [set_solver|]. cbn [map]. rewrite !filter_cons.
  destruct (Z.eqb_spec s y) as [->|D].
  - destruct (decide (0 <> 0)); [congruence|]. destruct (decide (y <> 0)); cbn; rewrite IH; set_solver.
  - destruct (decide (y <> 0)); cbn; rewrite IH; set_solver.
Qed.

Lemma all_acked ids :
  length (filter (fun id => 0 = id) ids) = length ids
  <-> (list_to_set (filter (fun id => id <> 0) ids) : gset Z) = ∅.
Proof.
  induction ids as [|y ids IH]; [done|]. rewrite !filter_cons. destruct (decide (0 = y)) as [<-|D].
  - destruct (decide (0 <> 0)); [congruence|]. cbn. rewrite <- IH. lia.
  - destruct (decide (y <> 0)); [|lia]. cbn. split; [|set_solver].
    intros E. pose proof (list.length_filter (fun id => 0 = id) ids). lia.
Qed.

Lemma do_response_awaited s n :
  node_ok n ->
  let (ret, n') := do_response s n in
  awaited n' = awaited n ∖ {[s]} /\ wn_bucket_number n' = wn_bucket_number n
  /\ length (wn_des_server_ids n') = MAX_DUP_COUNT
  /\ (ret = 0 <-> s ∈ awaited n /\ awaited n' = ∅).
Proof.
  intros [Hl Ha _]. unfold do_response. rewrite existsb_elem. set (ids := wn_des_server_ids n) in *.
  set (ids' := map _ ids). assert (length ids' = MAX_DUP_COUNT) as Hl' by (unfold ids'; by rewrite length_map).
  assert (awaited (with_servers ids' n) = awaited n ∖ {[s]}) as Haw by apply awaited_after.
  destruct (bool_decide_reflect (s ∈ ids)) as [Hin|Hout]; cbn [negb].
  - destruct (Nat.eqb_spec (length (filter (fun id => 0 = id) ids')) MAX_DUP_COUNT) as [E|E].
    + split; [done|]. split; [done|]. split; [done|]. rewrite <- Hl' in E. apply all_acked in E. split; [|done].
      intros _. split; [|exact E]. change (list_to_set _) with (awaited (with_servers ids' n)) in E.
      rewrite Haw in E. set_solver.
    + split; [done|]. split; [done|]. split; [done|]. split; [done|]. intros [_ H]. exfalso. apply E. rewrite <- Hl'.
      by apply all_acked.
  - split; [done|]. split; [done|]. split; [done|]. split; [done|]. intros [H _]. exfalso. apply Hout.
    unfold awaited in H. apply elem_of_list_to_set, list_elem_of_filter in H. apply H.
Qed.

(** *** Counting the nodes of a bucket *)

Lemma nodes_of_fresh b id n m :
  m !! id = None -> nodes_of b (<[id := n]> m) = (nodes_of b m + (if decide (wn_bucket_number n = b) then 1 else 0))%nat.
Proof.
  intros Hn. unfold nodes_of. rewrite map_filter_insert. cbn. destruct (decide (wn_bucket_number n = b)).
  - rewrite map_size_insert_None; [lia|]. by apply map_lookup_filter_None_2; left.
  - rewrite delete_id by done. lia.
Qed.

Lemma nodes_of_delete b id n m :
  m !! id = Some n -> nodes_of b m = (nodes_of b (delete id m) + (if decide (wn_bucket_number n = b) then 1 else 0))%nat.
Proof.
  intros Hm. rewrite <- (nodes_of_fresh b id n) by apply lookup_delete_eq. by rewrite insert_delete_id.
Qed.

Lemma nodes_of_same b id n n' m :
  m !! id = Some n -> wn_bucket_number n' = wn_bucket_number n -> nodes_of b (<[id := n']> m) = nodes_of b m.
Proof.
  intros Hm Hb. rewrite (nodes_of_delete b id n m Hm), <- insert_delete_eq, nodes_of_fresh by apply lookup_delete_eq. by rewrite Hb.
Qed.

Lemma nodes_of_at b id n m : m !! id = Some n -> wn_bucket_number n = b -> (1 <= nodes_of b m)%nat.
Proof. intros Hm Hb. rewrite (nodes_of_delete b id n m Hm). rewrite decide_True by done. lia. Qed.

Lemma nodes_of_other b id n m :
  m !! id = Some n -> wn_bucket_number n <> b -> nodes_of b (delete id m) = nodes_of b m.
Proof. intros Hm Hb. rewrite (nodes_of_delete b id n m Hm). rewrite decide_False by done. lia. Qed.

(** *** The operations on the table *)

Lemma changeBucketCount_run b k m :
  0 <= b < TAIR_MAX_BUCKET_NUMBER ->
  changeBucketCount b k m
  = Ret (tt, mk_wait_manager (m_PkgWaitMap m) (<[b := Z.max 0 (bucket_waiting b m + k)]> (m_bucket_count m))).
Proof.
  intros Hb. unfold changeBucketCount, sassert. destruct (Z.leb_spec 0 b); [|lia].
  destruct (Z.ltb_spec b TAIR_MAX_BUCKET_NUMBER); [done|lia].
Qed.

(** A node leaves the table. *)
Lemma drop_node_run id n m :
  table_ok m -> m_PkgWaitMap m !! id = Some n ->
  exists m', (let* _ := changeBucketCount (wn_bucket_number n) (-1) in put_nodes (delete id)) m = Ret (tt, m')
    /\ m_PkgWaitMap m' = delete id (m_PkgWaitMap m) /\ table_ok m'.
Proof.
  intros [Hn Hc] Hm. pose proof (map_Forall_lookup_1 _ _ _ _ Hn Hm) as [_ _ Hb].
  eexists. split; [step_with (changeBucketCount_run (wn_bucket_number n) (-1) m Hb); reflexivity|].
  split; [done|]. constructor; cbn; [by apply map_Forall_delete|]. intros b. unfold bucket_waiting at 1. cbn.
  destruct (decide (wn_bucket_number n = b)) as [<-|D].
  - rewrite lookup_insert_eq. cbn. rewrite Hc, (nodes_of_delete _ id n _ Hm), decide_True by done. lia.
  - rewrite lookup_insert_ne by done. fold (bucket_waiting b m). by rewrite Hc, (nodes_of_other b id n).
Qed.

Lemma clear_waitnode_run id m :
  table_ok m -> exists m', clear_waitnode id m = Ret (0, m') /\ m_PkgWaitMap m' = delete id (m_PkgWaitMap m) /\ table_ok m'.
Proof.
  intros Hok. unfold clear_waitnode. step_with (eq_refl : sget m = Ret (m, m)).
  destruct (m_PkgWaitMap m !! id) as [n|] eqn:E.
  - destruct (drop_node_run id n m Hok E) as (m' & E' & Hd & Hok'). exists m'. split; [|done].
    rewrite <- sbind_assoc. by step_with E'.
  - exists m. split; [done|]. by rewrite delete_id.
Qed.

Lemma doTimeout_run id m :
  table_ok m -> exists ret m', doTimeout id m = Ret (ret, m') /\ m_PkgWaitMap m' = delete id (m_PkgWaitMap m) /\ table_ok m'.
Proof.
  intros Hok. unfold doTimeout. step_with (eq_refl : sget m = Ret (m, m)).
  destruct (m_PkgWaitMap m !! id) as [n|] eqn:E.
  - destruct (clear_waitnode_run id m Hok) as (m' & E' & H). exists TAIR_RETURN_DUPLICATE_ACK_TIMEOUT, m'.
    split; [by step_with E'|done].
  - exists 0, m. split; [done|]. by rewrite delete_id.
Qed.

Lemma table_ok_with_servers id n ids m :
  table_ok m -> m_PkgWaitMap m !! id = Some n -> node_ok (with_servers ids n) ->
  table_ok (mk_wait_manager (<[id := with_servers ids n]> (m_PkgWaitMap m)) (m_bucket_count m)).
Proof.
  intros [Hn Hc] Hm Hok. constructor; cbn; [by apply map_Forall_insert_2|]. intros b.
  change (bucket_waiting b _) with (bucket_waiting b m). by rewrite Hc, (nodes_of_same b id n).
Qed.

(** *** Answers of slaves *)

(** The node with some slots freed is still the same request. *)
Definition same_request (m m' : gmap Z CPacket_wait_Nodes) : Prop :=
  forall id n', m' !! id = Some n' -> exists n ids, m !! id = Some n /\ n' = with_servers ids n.

Lemma same_request_refl m : same_request m m.
Proof. intros id n Hn. exists n, (wn_des_server_ids n). split; [done|]. by destruct n. Qed.

Lemma same_request_trans m1 m2 m3 : same_request m1 m2 -> same_request m2 m3 -> same_request m1 m3.
Proof.
  intros H12 H23 id n3 H3. destruct (H23 id n3 H3) as (n2 & ids & H2 & ->).
  destruct (H12 id n2 H2) as (n1 & ids' & H1 & ->). exists n1, ids. done.
Qed.

Lemma same_request_delete id m : same_request m (delete id m).
Proof. intros j n [_ Hj]%lookup_delete_Some. by apply same_request_refl. Qed.

Lemma same_request_insert id n ids m : m !! id = Some n -> same_request m (<[id := with_servers ids n]> m).
Proof.
  intros Hm j n' [[<- <-]|[_ Hj]]%lookup_insert_Some; [by exists n, ids|]. by apply same_request_refl.
Qed.

Lemma do_response_keeps s n : exists ids, (do_response s n).2 = with_servers ids n.
Proof. unfold do_response. repeat case_match; by eexists. Qed.

(** A step of the table: what becomes of it, and the node that is done. *)
Lemma doResponse_run b s id m :
  table_ok m -> (forall n, m_PkgWaitMap m !! id = Some n -> b = wn_bucket_number n) ->
  exists ret done m', doResponse b s id m = Ret ((ret, done), m') /\ table_ok m'
    /\ same_request (m_PkgWaitMap m) (m_PkgWaitMap m')
    /\ match awaiting m !! id with
       | None => done = None /\ awaiting m' = awaiting m
       | Some servers =>
           if decide (s ∈ servers) then
             let rest := servers ∖ {[s]} in
             if decide (rest = ∅)
             then ret = 0 /\ awaiting m' = delete id (awaiting m)
                  /\ exists n ids, m_PkgWaitMap m !! id = Some n /\ done = Some (with_servers ids n)
             else done = None /\ awaiting m' = <[id := rest]> (awaiting m)
           else done = None /\ awaiting m' = awaiting m
       end.
Proof.
  intros Hok Hb. unfold doResponse. step_with (eq_refl : sget m = Ret (m, m)).
  unfold awaiting. rewrite lookup_fmap. destruct (m_PkgWaitMap m !! id) as [n|] eqn:Hm; cbn [fmap option_fmap option_map].
  2:{ eexists _, _, m. split; [done|]. split; [done|]. split; [apply same_request_refl|done]. }
  pose proof (map_Forall_lookup_1 _ _ _ _ (tb_nodes _ Hok) Hm) as Hnok.
  pose proof (do_response_awaited s n Hnok) as Hr. destruct (do_response_keeps s n) as [ids Hids].
  destruct (do_response s n) as [ret n'] eqn:Edr. cbn in Hids. subst n'.
  destruct Hr as (Haw & _ & Hlen & Hret). rewrite (Hb n eq_refl).
  set (m1 := mk_wait_manager (<[id := with_servers ids n]> (m_PkgWaitMap m)) (m_bucket_count m)).
  step_with (eq_refl : put_nodes <[id := with_servers ids n]> m = Ret (tt, m1)).
  destruct (Z.eqb_spec ret 0) as [->|Hne].
  - destruct (proj1 Hret eq_refl) as [Hs Hemp]. rewrite Haw in Hemp.
    assert (exists m', (let* _ := changeBucketCount (wn_bucket_number n) (-1) in put_nodes (delete id)) m1 = Ret (tt, m')
              /\ m_PkgWaitMap m' = delete id (m_PkgWaitMap m) /\ table_ok m') as (m' & E & Hd & Hok').
    { destruct (drop_node_run id n m Hok Hm) as (m' & E & Hd & Hok').
      pose proof (no_bucket _ Hnok) as Hbk. exists m'. rewrite (sbind_run _ _ _ _ _ (changeBucketCount_run _ _ m1 Hbk)).
      rewrite (sbind_run _ _ _ _ _ (changeBucketCount_run _ _ m Hbk)) in E. split; [|done]. rewrite <- E.
      unfold put_nodes, smodify. cbn. by rewrite delete_insert_eq. }
    eexists 0, _, m'. split; [rewrite <- sbind_assoc; by step_with E|]. split; [done|].
    split; [rewrite Hd; apply same_request_delete|].
    rewrite decide_True by done. cbv zeta. rewrite decide_True by done. split; [done|]. split; [by rewrite Hd, fmap_delete|].
    by exists n, ids.
  - eexists ret, None, m1. split; [done|].
    assert (awaited (with_servers ids n) = ∅ -> s ∉ awaited n) as Hnot.
    { intros Hemp Hs. apply Hne. by apply Hret. }
    assert (awaited n ∖ {[s]} <> ∅) as Hrest.
    { intros Hemp. rewrite <- Haw in Hemp. specialize (Hnot Hemp). rewrite Haw in Hemp.
      apply (no_awaits _ Hnok). set_solver. }
    split; [apply table_ok_with_servers; [done|done|]; constructor; [done|by rewrite Haw|apply Hnok]|].
    split; [by apply same_request_insert|]. cbn. rewrite fmap_insert, Haw.
    destruct (decide (s ∈ awaited n)) as [Hs|Hs]; [cbv zeta; by rewrite decide_False|]. split; [done|].
    replace (awaited n ∖ {[s]}) with (awaited n) by set_solver. apply insert_id. by rewrite lookup_fmap, Hm.
Qed.

(** ** Runs *)

(** The slaves that answer for [id] before its answer is given up. *)
Fixpoint acked (id : Z) (es : list dup_event) : gset Z :=
  match es with
  | [] => ∅
  | Control j :: rest => if decide (j = id) then ∅ else acked id rest
  | Response p :: rest =>
      if decide (rspd_packet_id p = id) then {[rspd_server_id p]} ∪ acked id rest else acked id rest
  | OtherPacket :: rest => acked id rest
  end.

(** The packet ids that are done, in order. *)
Fixpoint await_all (es : list dup_event) (w : gmap Z (gset Z)) : list Z :=
  match es with
  | [] => []
  | e :: rest => let (w', done) := await_step e w in option_list done ++ await_all rest w'
  end.

Lemma await_step_none e w id : w !! id = None -> (await_step e w).1 !! id = None /\ (await_step e w).2 <> Some id.
Proof.
  intros Hn. destruct e as [j|p|]; cbn.
  - split; [|done]. destruct (decide (j = id)) as [->|D]; [apply lookup_delete_eq|by rewrite lookup_delete_ne].
  - destruct (w !! rspd_packet_id p) as [srv|] eqn:E; [|done].
    assert (rspd_packet_id p <> id) as D by congruence.
    destruct (decide (rspd_server_id p ∈ srv)); [|done]. destruct (decide (srv ∖ _ = ∅)); cbn.
    + rewrite lookup_delete_ne by done. split; [done|congruence].
    + rewrite lookup_insert_ne by done. done.
  - done.
Qed.

Lemma elem_of_option_list (x : Z) o : x ∈ option_list o <-> o = Some x.
Proof. destruct o; cbn; set_solver. Qed.

Lemma await_all_none es w id : w !! id = None -> id ∉ await_all es w.
Proof.
  revert w. induction es as [|e es IH]; intros w Hn; [by apply not_elem_of_nil|]. cbn.
  destruct (await_step_none e w id Hn) as [H1 H2]. destruct (await_step e w) as [w' done]. cbn in *.
  rewrite elem_of_app. intros [H|H]; [|by apply (IH w')].
  destruct done as [j|]; [|by apply not_elem_of_nil in H]. apply elem_of_option_list in H. congruence.
Qed.

Lemma difference_subseteq_union (X Y A : gset Z) : X ∖ Y ⊆ A <-> X ⊆ Y ∪ A.
Proof. split; [|set_solver]. intros He x Hx. destruct (decide (x ∈ Y)); set_solver. Qed.
Lemma difference_empty_subseteq (X Y : gset Z) : X ∖ Y = ∅ -> X ⊆ Y.
Proof. intros He. rewrite <- (right_id_L ∅ (∪) Y). apply difference_subseteq_union. set_solver. Qed.

(** One step seen from one packet id. *)
Lemma await_step_some e w id servers :
  w !! id = Some servers -> servers <> ∅ ->
  match (await_step e w).2 with
  | Some j => if decide (j = id) then (await_step e w).1 !! id = None /\ exists p, e = Response p /\ rspd_packet_id p = id
                                      /\ servers ⊆ {[rspd_server_id p]}
              else (await_step e w).1 !! id = Some servers /\ acked id [e] = ∅
  | None => (e = Control id /\ (await_step e w).1 !! id = None)
            \/ (e <> Control id /\ exists rest, (await_step e w).1 !! id = Some rest /\ rest <> ∅ /\ rest = servers ∖ acked id [e])
  end.
Proof.
  intros Hw Hne. remember (acked id [e]) as A eqn:HA. destruct e as [j|p|]; cbn in HA |- *.
  - destruct (decide (j = id)) as [->|D]; [left; by rewrite lookup_delete_eq|]. right. subst A.
    rewrite lookup_delete_ne by done. split; [congruence|]. exists servers. split; [done|]. split; [done|set_solver].
  - destruct (decide (rspd_packet_id p = id)) as [<-|D].
    + rewrite (right_id_L ∅ (∪)) in HA. subst A. rewrite Hw.
      destruct (decide (rspd_server_id p ∈ servers)) as [Hin|Hout].
      * destruct (decide (servers ∖ _ = ∅)) as [He|He]; cbn.
        -- rewrite decide_True by done. rewrite lookup_delete_eq. split; [done|]. exists p. split; [done|]. split; [done|]. by apply difference_empty_subseteq.
        -- right. split; [done|]. rewrite lookup_insert_eq. eexists. split; [done|]. split; done.
      * cbn. right. split; [done|]. exists servers. split; [done|]. split; [done|]. set_solver.
    + subst A. assert (exists rest, Some servers = Some rest /\ rest <> ∅ /\ rest = servers ∖ ∅) as Hsame
        by (exists servers; split; [done|split; [done|set_solver]]).
      destruct (w !! rspd_packet_id p) as [srv|] eqn:E; [|cbn; right; split; [done|by rewrite Hw]].
      destruct (decide (rspd_server_id p ∈ srv)); [|cbn; right; split; [done|by rewrite Hw]].
      destruct (decide (srv ∖ _ = ∅)); cbn.
      * rewrite decide_False by done. by rewrite lookup_delete_ne.
      * right. split; [done|]. by rewrite lookup_insert_ne, Hw.
  - subst A. right. split; [done|]. exists servers. split; [done|]. split; [done|set_solver].
Qed.

Lemma acked_cons id e es : e <> Control id -> acked id (e :: es) = acked id [e] ∪ acked id es.
Proof.
  intros He. destruct e as [j|p|]; cbn.
  - destruct (decide (j = id)); [congruence|set_solver].
  - destruct (decide (rspd_packet_id p = id)); set_solver.
  - set_solver.
Qed.

(** A packet id is done at most once, and is done when all its slaves have
    answered in time. *)
Lemma await_all_once es w id servers :
  map_Forall (fun _ s => s <> ∅) w -> w !! id = Some servers ->
  (id ∈ await_all es w <-> servers ⊆ acked id es).
Proof.
  revert w servers. induction es as [|e es IH]; intros w servers Hne Hw.
  { pose proof (Hne _ _ Hw). cbn. rewrite elem_of_nil. set_solver. }
  pose proof (Hne _ _ Hw) as Hs. pose proof (await_step_some e w id servers Hw Hs) as Hstep.
  assert (map_Forall (fun _ s => s <> ∅) (await_step e w).1) as Hne'.
  { destruct e as [j|p|]; cbn; [by apply map_Forall_delete| |done].
    destruct (w !! rspd_packet_id p) as [srv|]; [|done]. destruct (decide _); [|done].
    destruct (decide _); cbn; [by apply map_Forall_delete|by apply map_Forall_insert_2]. }
  cbn [await_all]. destruct (await_step e w) as [w' done] eqn:Est. cbn [fst snd] in *. rewrite elem_of_app.
  destruct done as [j|].
  - rewrite elem_of_option_list. destruct (decide (j = id)) as [->|D].
    + destruct Hstep as (_ & p & -> & Hid & Hsub). rewrite acked_cons by done. cbn. rewrite decide_True by done.
      split; [set_solver|]. by left.
    + destruct Hstep as [Hw' Ha]. assert (e <> Control id) as Hec by (intros ->; by cbn in Est).
      rewrite acked_cons, Ha by done. rewrite (left_id_L ∅ (∪)). rewrite <- (IH w' servers Hne' Hw').
      split; [intros [[= ->]|H]; done|]. by right.
  - change (option_list None) with (@nil Z). rewrite elem_of_nil. destruct Hstep as [[-> Hn]|(Hec & rest & Hw' & _ & ->)].
    + cbn. rewrite decide_True by done. split; [|set_solver]. intros [[]|H]. by apply await_all_none in H.
    + rewrite acked_cons by done. rewrite (IH w' _ Hne' Hw'), difference_subseteq_union. split; [by intros [[]|H]|]. by right.
Qed.

Lemma await_all_NoDup es w : base.NoDup (await_all es w).
Proof.
  revert w. induction es as [|e es IH]; intros w; [constructor|]. cbn.
  destruct (await_step e w) as [w' done] eqn:Est. destruct done as [j|]; cbn; [|apply IH].
  apply list.NoDup_cons. split; [|apply IH]. apply await_all_none.
  destruct e as [i|p|]; cbn in Est; try done. destruct (w !! rspd_packet_id p) as [srv|]; [|done].
  destruct (decide _); [|done]. destruct (decide _); [|done]. injection Est as <- <-. apply lookup_delete_eq.
Qed.

(** ** The sender *)

Section sender.
Context (post_ok send_ok : Z -> bool) (uninit : Z).

(** What a client gets when its node is done. *)
Definition answer_to (n : CPacket_wait_Nodes) : list output :=
  match answer_of uninit n with
  | Some m => if post_ok (wn_conn n) then [Post (wn_conn n) (wn_chid n) m] else []
  | None => []
  end.
Definition answer_id (m : gmap Z CPacket_wait_Nodes) (id : Z) : list output :=
  match m !! id with Some n => answer_to n | None => [] end.

Definition sender_ok (s : dup_sync_sender_manager) : Prop := table_ok (packets_mgr s).
Definition set_packets_mgr (w : CPacket_wait_manager) (s : dup_sync_sender_manager) : dup_sync_sender_manager :=
  mk_dup_sender w (max_queue_size s) (packet_id_creater s).

Lemma on_waiting_run {A} (m : waitM A) s out a w :
  m (packets_mgr s) = Ret (a, w) -> on_waiting m (s, out) = Ret (a, (set_packets_mgr w s, out)).
Proof. intros E. unfold on_waiting. by rewrite E. Qed.

Lemma rspPacket_run n s out : exists rv, rspPacket post_ok uninit n (s, out) = Ret (rv, (s, out ++ answer_to n)).
Proof.
  unfold rspPacket, answer_to, postPacket. destruct (answer_of uninit n) as [m|]; [|exists 0; by rewrite app_nil_r].
  destruct (post_ok (wn_conn n)); [by eexists|]. rewrite app_nil_r. by eexists.
Qed.

Lemma handlePacket_run e s out :
  sender_ok s -> event_ok (m_PkgWaitMap (packets_mgr s)) e ->
  exists keep s', handlePacket post_ok uninit e (s, out)
      = Ret (keep, (s', out ++ flat_map (answer_id (m_PkgWaitMap (packets_mgr s)))
                                 (option_list (await_step e (awaiting (packets_mgr s))).2)))
    /\ sender_ok s' /\ awaiting (packets_mgr s') = (await_step e (awaiting (packets_mgr s))).1
    /\ same_request (m_PkgWaitMap (packets_mgr s)) (m_PkgWaitMap (packets_mgr s')).
Proof.
  intros Hok He. set (w := packets_mgr s) in *. destruct e as [id|p|].
  - destruct (doTimeout_run id w Hok) as (ret & w' & E & Hd & Hok'). exists false, (set_packets_mgr w' s).
    rewrite app_nil_r. split; [unfold handlePacket, handleTimeOutPacket; by rewrite sbind_assoc; step_with (on_waiting_run _ s out _ _ E)|].
    split; [done|]. cbn. split; [unfold awaiting; by rewrite Hd, fmap_delete|]. rewrite Hd. apply same_request_delete.
  - destruct (doResponse_run (s32 (rspd_bucket_id p)) (rspd_server_id p) (rspd_packet_id p) w Hok He)
      as (ret & done & w' & E & Hok' & Hsame & Hst). cbv zeta in Hst.
    unfold handlePacket, do_duplicate_response. rewrite sbind_assoc. step_with (on_waiting_run _ s out _ _ E).
    cbn [await_step]. destruct (awaiting w !! rspd_packet_id p) as [servers|].
    2:{ destruct Hst as [-> Hst]. exists true, (set_packets_mgr w' s). cbn. rewrite app_nil_r. done. }
    destruct (decide (rspd_server_id p ∈ servers)).
    2:{ destruct Hst as [-> Hst]. exists true, (set_packets_mgr w' s). cbn. rewrite app_nil_r. done. }
    destruct (decide (servers ∖ _ = ∅)).
    2:{ destruct Hst as [-> Hst]. exists true, (set_packets_mgr w' s). cbn. rewrite app_nil_r. done. }
    destruct Hst as (-> & Hst & n & ids & Hn & ->). cbn [Z.eqb].
    destruct (rspPacket_run (with_servers ids n) (set_packets_mgr w' s) out) as [rv Er].
    exists true, (set_packets_mgr w' s). cbn. rewrite app_nil_r. unfold answer_id. rewrite Hn.
    split; [|done]. by rewrite (sbind_run _ _ _ _ _ Er).
  - exists true, s. rewrite app_nil_r. split; [done|]. split; [done|]. split; [done|]. apply same_request_refl.
Qed.

(** All that reaches the sender, in order *)
Fixpoint handle_all (es : list dup_event) : dupM unit :=
  match es with
  | [] => sret tt
  | e :: rest => let* _ := handlePacket post_ok uninit e in handle_all rest
  end.

Lemma answer_id_same m m' id : same_request m m' -> is_Some (m' !! id) -> answer_id m' id = answer_id m id.
Proof.
  intros Hs [n' Hn']. destruct (Hs id n' Hn') as (n & ids & Hn & ->). unfold answer_id. by rewrite Hn', Hn.
Qed.

Lemma await_all_known es w id : id ∈ await_all es w -> is_Some (w !! id).
Proof. intros Hin. destruct (w !! id) eqn:E; [done|]. by apply await_all_none with (es := es) in E. Qed.

Lemma event_ok_same m m' e :
  same_request m m' -> event_ok m e -> event_ok m' e.
Proof.
  intros Hs He. destruct e as [id|p|]; cbn in *; try done. intros n' Hn'.
  destruct (Hs _ _ Hn') as (n & ids & Hn & ->). by apply (He n).
Qed.

Lemma handle_all_run es s out :
  sender_ok s -> Forall (event_ok (m_PkgWaitMap (packets_mgr s))) es ->
  exists s', handle_all es (s, out)
      = Ret (tt, (s', out ++ flat_map (answer_id (m_PkgWaitMap (packets_mgr s))) (await_all es (awaiting (packets_mgr s)))))
    /\ sender_ok s'.
Proof.
  revert s out. induction es as [|e es IH]; intros s out Hok Hes.
  { exists s. cbn. by rewrite app_nil_r. }
  apply list.Forall_cons in Hes as [He Hes]. cbn [handle_all await_all].
  destruct (handlePacket_run e s out Hok He) as (keep & s1 & E & Hok1 & Haw & Hsame).
  destruct (IH s1 (out ++ flat_map (answer_id (m_PkgWaitMap (packets_mgr s)))
              (option_list (await_step e (awaiting (packets_mgr s))).2)) Hok1) as (s2 & E2 & Hok2).
  { eapply list.Forall_impl; [exact Hes|]. intros e'. by apply event_ok_same. }
  exists s2. split; [|done]. step_with E. rewrite E2, Haw.
  destruct (await_step e (awaiting (packets_mgr s))) as [w' done] eqn:Est. cbn [fst snd] in *.
  rewrite <- app_assoc, flat_map_app. do 5 f_equal. rewrite !flat_map_concat_map. f_equal. apply map_ext_in.
  intros id Hin%list_elem_of_In. apply answer_id_same; [done|]. rewrite <- Haw in Hin. apply await_all_known in Hin.
  unfold awaiting in Hin. rewrite lookup_fmap in Hin. by apply fmap_is_Some in Hin.
Qed.

Lemma send_copies_run make id slaves m s out :
  make = Ret m -> Forall (fun sv => send_ok sv = true) slaves ->
  send_copies send_ok make id slaves (s, out) = Ret (TAIR_DUP_WAIT_RSP, (s, out ++ map (fun sv => Send sv m id) slaves)).
Proof.
  intros ->. revert out. induction slaves as [|sv slaves IH]; intros out Hs; [cbn; by rewrite app_nil_r|].
  apply list.Forall_cons in Hs as [Hsv Hs]. cbn [send_copies map].
  step_with (eq_refl : slift (Ret m) (s, out) = Ret (m, (s, out))). rewrite Hsv.
  step_with (eq_refl : put_out (Send sv m id) (s, out) = Ret (tt, (s, out ++ [Send sv m id]))).
  rewrite IH by done. by rewrite <- app_assoc.
Qed.

(** The id a request with this many copies gets. *)
Definition next_id (slaves : list Z) (s : dup_sync_sender_manager) : Z :=
  u32 (s32 (packet_id_creater s + Z.of_nat (length slaves))).

(** A request the sender can take on. *)
Record can_duplicate (s : dup_sync_sender_manager) (slaves : list Z) (bucket : Z) : Prop := {
  cd_fresh : m_PkgWaitMap (packets_mgr s) !! next_id slaves s = None;
  cd_room : Z.of_nat (base.size (m_PkgWaitMap (packets_mgr s))) <= TAIR_MAX_DUP_MAP_SIZE;
  cd_slaves : slaves <> [] /\ Forall (fun sv => sv <> 0 /\ send_ok sv = true) slaves;
  cd_bucket : 0 <= bucket < TAIR_MAX_BUCKET_NUMBER
}.

Lemma addWaitNode_fresh node bucket id m :
  0 <= bucket < TAIR_MAX_BUCKET_NUMBER -> Z.of_nat (base.size (m_PkgWaitMap m)) <= TAIR_MAX_DUP_MAP_SIZE ->
  m_PkgWaitMap m !! id = None ->
  addWaitNode node bucket id m
  = Ret (0, mk_wait_manager (<[id := node]> (m_PkgWaitMap m))
              (<[bucket := Z.max 0 (bucket_waiting bucket m + 1)]> (m_bucket_count m))).
Proof.
  intros Hb Hr Hn. unfold addWaitNode. step_with (eq_refl : sget m = Ret (m, m)).
  destruct (Z.ltb_spec TAIR_MAX_DUP_MAP_SIZE (Z.of_nat (base.size (m_PkgWaitMap m)))); [lia|]. rewrite Hn.
  by step_with (changeBucketCount_run bucket 1 m Hb).
Qed.

Lemma addWaitNode_run node bucket id m :
  table_ok m -> m_PkgWaitMap m !! id = None -> Z.of_nat (base.size (m_PkgWaitMap m)) <= TAIR_MAX_DUP_MAP_SIZE ->
  node_ok node -> wn_bucket_number node = bucket ->
  exists m', addWaitNode node bucket id m = Ret (0, m') /\ m_PkgWaitMap m' = <[id := node]> (m_PkgWaitMap m) /\ table_ok m'.
Proof.
  intros [Hn Hc] Hf Hr Hok Hb. pose proof (no_bucket _ Hok) as Hbk. rewrite Hb in Hbk.
  eexists. split; [by apply addWaitNode_fresh|]. split; [done|]. constructor; cbn; [by apply map_Forall_insert_2|]. intros b.
  rewrite nodes_of_fresh, Hb by done. unfold bucket_waiting at 1. cbn. destruct (decide (bucket = b)) as [<-|D].
  - rewrite lookup_insert_eq. cbn. rewrite Hc. lia.
  - rewrite lookup_insert_ne by done. fold (bucket_waiting b m). rewrite Hc. lia.
Qed.

Lemma duplicate_run bucket slaves node make m s out :
  sender_ok s -> can_duplicate s slaves bucket -> node_ok node -> wn_bucket_number node = bucket ->
  make (next_id slaves s) bucket = Ret m ->
  exists s', duplicate send_ok bucket slaves node make (s, out)
      = Ret (TAIR_DUP_WAIT_RSP, (s', out ++ map (fun sv => Send sv m (next_id slaves s)) slaves))
    /\ sender_ok s' /\ m_PkgWaitMap (packets_mgr s') = <[next_id slaves s := node]> (m_PkgWaitMap (packets_mgr s)).
Proof.
  intros Hok [Hf Hr [Hne Hsl] Hb] Hnok Hnb Hmake. unfold duplicate.
  destruct (addWaitNode_run node bucket (next_id slaves s) (packets_mgr s) Hok Hf Hr Hnok Hnb) as (w & E & Hw & Hwok).
  set (n := Z.of_nat (length slaves)) in *. set (s1 := mk_dup_sender (packets_mgr s) (max_queue_size s) (s32 (packet_id_creater s + n))).
  step_with (eq_refl : atomic_add_return n (s, out) = Ret (next_id slaves s, (s1, out))).
  assert (exists s2, (if next_id slaves s =? 0 then let* _ := atomic_add_return n in sret tt else sret tt) (s1, out) = Ret (tt, (s2, out))
            /\ packets_mgr s2 = packets_mgr s) as (s2 & E2 & Hp2) by (destruct (next_id slaves s =? 0); by eexists).
  step_with E2. rewrite <- Hp2 in E. step_with (on_waiting_run _ s2 out _ _ E). cbn [Z.eqb negb].
  exists (set_packets_mgr w s2). split; [|done]. apply send_copies_run; [done|].
  eapply list.Forall_impl; [exact Hsl|]. by intros sv [_ ?].
Qed.

(** The node of a new request waits for the first two slaves. *)
Lemma awaited_new bucket o slaves version :
  Forall (fun sv => sv <> 0) slaves -> awaited (new_wait_node bucket o slaves version) = list_to_set (take MAX_DUP_COUNT slaves).
Proof.
  intros Hs. unfold awaited, new_wait_node. cbn [wn_des_server_ids]. rewrite list.filter_app.
  assert (filter (fun id => id <> 0) (replicate (MAX_DUP_COUNT - length (take MAX_DUP_COUNT slaves)) 0) = []) as ->.
  { induction (MAX_DUP_COUNT - _)%nat as [|k IH]; [done|]. cbn [replicate]. rewrite filter_cons, decide_False; [done|]. lia. }
  rewrite app_nil_r. f_equal. pose proof (Forall_take _ MAX_DUP_COUNT _ Hs) as Ht.
  induction Ht as [|x l Hx _ IH]; [done|]. by rewrite filter_cons, decide_True, IH.
Qed.

Lemma node_ok_new bucket o slaves version :
  slaves <> [] -> Forall (fun sv => sv <> 0) slaves -> 0 <= bucket < TAIR_MAX_BUCKET_NUMBER ->
  node_ok (new_wait_node bucket o slaves version).
Proof.
  intros Hne Hs Hb. constructor; [|rewrite awaited_new by done|done].
  - cbn. rewrite length_app, length_replicate, length_take. unfold MAX_DUP_COUNT. lia.
  - destruct slaves as [|sv slaves]; [done|]. cbn. set_solver.
Qed.

(** ** Duplicated writes *)

Context {St : Type} (ip : Z) (tm : tair_manager St).

Lemma duplicate_key_run key o version results make bucket slaves st :
  get_bucket_number key tm = Ret bucket -> get_slaves ip (server_flag key) bucket tm = Ret slaves ->
  duplicate_key send_ok ip tm key o version results make st
  = duplicate send_ok bucket slaves (results (new_wait_node bucket o slaves version)) make st.
Proof.
  intros Eb Es. unfold duplicate_key. rewrite Eb. step_with (eq_refl : slift (Ret bucket) st = Ret (bucket, st)).
  rewrite Es. by step_with (eq_refl : slift (Ret slaves) st = Ret (slaves, st)).
Qed.

(** What the duplicator does with any answers, when the node [n] waits under [id]
    for [servers]: the clients of the ids in [ids] are answered, each once, and
    that of [id] when its servers have answered. *)
Lemma answers_run s1 id n servers :
  sender_ok s1 -> m_PkgWaitMap (packets_mgr s1) !! id = Some n -> awaited n = servers ->
  forall es out1, Forall (event_ok (m_PkgWaitMap (packets_mgr s1))) es ->
    exists s2 ids, handle_all es (s1, out1)
        = Ret (tt, (s2, out1 ++ flat_map (answer_id (m_PkgWaitMap (packets_mgr s1))) ids))
      /\ base.NoDup ids /\ (id ∈ ids <-> servers ⊆ acked id es).
Proof.
  intros Hok Hw Hs es out1 Hes. destruct (handle_all_run es s1 out1 Hok Hes) as (s2 & E2 & _).
  exists s2, (await_all es (awaiting (packets_mgr s1))). split; [done|]. split; [apply await_all_NoDup|].
  apply await_all_once.
  - intros i w Hi. unfold awaiting in Hi. rewrite lookup_fmap in Hi. apply fmap_Some in Hi as (n' & Hn & ->).
    by apply no_awaits, (map_Forall_lookup_1 _ _ _ _ (tb_nodes _ Hok) Hn).
  - unfold awaiting. rewrite lookup_fmap, Hw. by apply (f_equal Some).
Qed.

(** A put with slaves: the copies, and the node that waits for the first two. *)
Lemma duplicate_put_run (o : origin) (p : request_put) version bucket slaves s out :
  sender_ok s -> get_bucket_number (put_key p) tm = Ret bucket ->
  get_slaves ip (server_flag (put_key p)) bucket tm = Ret slaves -> can_duplicate s slaves bucket ->
  let id := next_id slaves s in
  let copy := Plain (Copy (REQ_PUT_DUPLICATE (mk_dup (request_put_copy p) id bucket))) in
  let node := new_wait_node bucket o slaves version in
  exists s1, duplicate_put send_ok ip tm o p version (s, out)
      = Ret (TAIR_DUP_WAIT_RSP, (s1, out ++ map (fun sv => Send sv copy id) slaves))
    /\ sender_ok s1 /\ m_PkgWaitMap (packets_mgr s1) = <[id := node]> (m_PkgWaitMap (packets_mgr s))
    /\ awaited node = list_to_set (take MAX_DUP_COUNT slaves).
Proof.
  intros Hok Eb Es Hcan id copy node. pose proof Hcan as [_ _ [Hne Hsl] Hb].
  assert (Forall (fun sv => sv <> 0) slaves) as Hnz by (eapply list.Forall_impl; [exact Hsl|]; by intros ? [? _]).
  pose proof (node_ok_new bucket o slaves version Hne Hnz Hb) as Hnode.
  unfold duplicate_put. rewrite (duplicate_key_run _ _ _ _ _ bucket slaves) by done.
  destruct (duplicate_run bucket slaves _ (dup_message REQ_PUT_DUPLICATE (request_put_copy p)) copy s out
              Hok Hcan Hnode eq_refl eq_refl) as (s1 & E & Hok1 & Hw).
  exists s1. split; [exact E|]. split; [done|]. split; [exact Hw|by apply awaited_new].
Qed.

(** The answer of the node of a put *)
Lemma put_answer m id bucket o slaves version :
  m !! id = Some (new_wait_node bucket o slaves version) ->
  from_pcode o = TAIR_REQ_PUT_PACKET -> post_ok (from_conn o) = true ->
  answer_id m id = [Post (from_conn o) (from_chid o) (Plain (General (RESP_RETURN (mk_response_return version 0 []))))].
Proof.
  intros Hm Hp Hpost. unfold answer_id. rewrite Hm. unfold answer_to, answer_of. cbn. rewrite Hp. cbn. by rewrite Hpost.
Qed.

(** C9: a put with slaves is copied to each of them, and its client gets one
    answer, after the last of the (at most two) slaves the node waits for has
    answered and unless the answer was given up before; whatever answers, lost
    answers and other packets come, in whatever order, for this request and the
    others that wait. *)
Theorem put_is_answered_once (o : origin) (p : request_put) version bucket slaves s out :
  sender_ok s -> get_bucket_number (put_key p) tm = Ret bucket ->
  get_slaves ip (server_flag (put_key p)) bucket tm = Ret slaves -> can_duplicate s slaves bucket ->
  from_pcode o = TAIR_REQ_PUT_PACKET -> post_ok (from_conn o) = true ->
  let id := next_id slaves s in
  let copy := Plain (Copy (REQ_PUT_DUPLICATE (mk_dup (request_put_copy p) id bucket))) in
  exists s1, duplicate_put send_ok ip tm o p version (s, out)
      = Ret (TAIR_DUP_WAIT_RSP, (s1, out ++ map (fun sv => Send sv copy id) slaves))
    /\ sender_ok s1
    /\ (let waiting := m_PkgWaitMap (packets_mgr s1) in
        answer_id waiting id
          = [Post (from_conn o) (from_chid o) (Plain (General (RESP_RETURN (mk_response_return version 0 []))))]
        /\ forall es out1, Forall (event_ok waiting) es ->
             exists s2 ids, handle_all es (s1, out1) = Ret (tt, (s2, out1 ++ flat_map (answer_id waiting) ids))
               /\ base.NoDup ids
               /\ (id ∈ ids <-> list_to_set (take MAX_DUP_COUNT slaves) ⊆ acked id es)).
Proof.
  intros Hok Eb Es Hcan Hp Hpost id copy.
  destruct (duplicate_put_run o p version bucket slaves s out Hok Eb Es Hcan) as (s1 & E & Hok1 & Hm & Ha).
  assert (m_PkgWaitMap (packets_mgr s1) !! id = Some (new_wait_node bucket o slaves version)) as Hw
    by (rewrite Hm; apply lookup_insert_eq).
  exists s1. split; [exact E|]. split; [done|]. split; [by eapply put_answer|]. by eapply answers_run.
Qed.

(** With one copy of the data there are no slaves: the node waits for nobody. *)
Definition lonely_node (bucket : Z) (o : origin) (version : Z) : CPacket_wait_Nodes := new_wait_node bucket o [] version.

Lemma lonely_do_response sv bucket o version :
  sv <> 0 -> do_response sv (lonely_node bucket o version) = (TAIR_RETURN_DUPLICATE_REACK, lonely_node bucket o version).
Proof.
  intros Hsv. unfold do_response, lonely_node, new_wait_node. cbn. by rewrite (proj2 (Z.eqb_neq sv 0) Hsv).
Qed.

Lemma addWaitNode_taken node bucket id m n :
  Z.of_nat (base.size (m_PkgWaitMap m)) <= TAIR_MAX_DUP_MAP_SIZE -> m_PkgWaitMap m !! id = Some n ->
  addWaitNode node bucket id m = Ret (TAIR_RETURN_DUPLICATE_IDMIXED, m).
Proof.
  intros Hr Hn. unfold addWaitNode. step_with (eq_refl : sget m = Ret (m, m)).
  destruct (Z.ltb_spec TAIR_MAX_DUP_MAP_SIZE (Z.of_nat (base.size (m_PkgWaitMap m)))); [lia|]. by rewrite Hn.
Qed.

(** An answer that changes nothing: the node goes on waiting. *)
Lemma doResponse_waits r node m :
  m_PkgWaitMap m !! rspd_packet_id r = Some node ->
  do_response (rspd_server_id r) node = (TAIR_RETURN_DUPLICATE_REACK, node) ->
  exists m', doResponse (s32 (rspd_bucket_id r)) (rspd_server_id r) (rspd_packet_id r) m
             = Ret ((TAIR_RETURN_DUPLICATE_REACK, None), m')
    /\ m_PkgWaitMap m' = m_PkgWaitMap m.
Proof.
  intros Hm Hd. unfold doResponse. step_with (eq_refl : sget m = Ret (m, m)). rewrite Hm, Hd. eexists.
  split; [reflexivity|]. cbn. by rewrite insert_id.
Qed.

Lemma duplicate_alone bucket node make s out :
  0 <= bucket < TAIR_MAX_BUCKET_NUMBER -> in_s 32 (packet_id_creater s) ->
  Z.of_nat (base.size (m_PkgWaitMap (packets_mgr s))) <= TAIR_MAX_DUP_MAP_SIZE ->
  let id := u32 (packet_id_creater s) in
  exists s1, duplicate send_ok bucket [] node make (s, out)
      = Ret (if decide (m_PkgWaitMap (packets_mgr s) !! id = None) then TAIR_DUP_WAIT_RSP
             else TAIR_RETURN_DUPLICATE_IDMIXED, (s1, out))
    /\ packet_id_creater s1 = packet_id_creater s
    /\ m_PkgWaitMap (packets_mgr s1)
       = (if decide (m_PkgWaitMap (packets_mgr s) !! id = None) then <[id := node]> else fun m => m)
           (m_PkgWaitMap (packets_mgr s)).
Proof.
  intros Hb Hid Hr id. assert (forall t : dup_sync_sender_manager * list output, t.1 = s -> atomic_add_return 0 t = Ret (id, t)) as Ha.
  { intros [t o'] [= ->]. unfold atomic_add_return. rewrite Z.add_0_r, swrap_id by done. by destruct s. }
  unfold duplicate. cbn [length Z.of_nat]. step_with (Ha (s, out) eq_refl).
  assert ((if id =? 0 then let* _ := atomic_add_return 0 in sret tt else sret tt) (s, out) = Ret (tt, (s, out))) as E0.
  { destruct (id =? 0); [|done]. by step_with (Ha (s, out) eq_refl). }
  step_with E0. destruct (decide (m_PkgWaitMap (packets_mgr s) !! id = None)) as [Hn|Hn].
  - eexists (mk_dup_sender _ _ _).
    step_with (on_waiting_run (addWaitNode node bucket id) s out _ _ (addWaitNode_fresh node bucket id _ Hb Hr Hn)).
    split; [reflexivity|done].
  - exists (set_packets_mgr (packets_mgr s) s). apply not_eq_None_Some in Hn as [n Hn].
    step_with (on_waiting_run (addWaitNode node bucket id) s out _ _ (addWaitNode_taken node bucket id _ n Hr Hn)).
    split; [reflexivity|done].
Qed.

(** C10: with one copy of the data a put that is duplicated has no slave to wait
    for, and its client is never answered: the request is taken for one that
    waits, nothing is sent, no answer of a server changes that, and the next put,
    whose packet id is the same, is refused. *)
Theorem one_copy_is_never_answered (o : origin) (p : request_put) version bucket s out :
  tm_copy_count (tm_table tm) = 1 -> get_bucket_number (put_key p) tm = Ret bucket ->
  0 <= bucket < TAIR_MAX_BUCKET_NUMBER -> in_s 32 (packet_id_creater s) ->
  Z.of_nat (base.size (m_PkgWaitMap (packets_mgr s))) < TAIR_MAX_DUP_MAP_SIZE ->
  let id := u32 (packet_id_creater s) in m_PkgWaitMap (packets_mgr s) !! id = None ->
  exists s1, duplicate_put send_ok ip tm o p version (s, out) = Ret (TAIR_DUP_WAIT_RSP, (s1, out))
    /\ (forall r, rspd_packet_id r = id -> rspd_server_id r <> 0 ->
         exists s2, handlePacket post_ok uninit (Response r) (s1, out) = Ret (true, (s2, out))
           /\ m_PkgWaitMap (packets_mgr s2) = m_PkgWaitMap (packets_mgr s1))
    /\ forall o' p' version' bucket', get_bucket_number (put_key p') tm = Ret bucket' ->
         0 <= bucket' < TAIR_MAX_BUCKET_NUMBER ->
         exists s2, duplicate_put send_ok ip tm o' p' version' (s1, out) = Ret (TAIR_RETURN_DUPLICATE_IDMIXED, (s2, out)).
Proof.
  intros Hc Eb Hb Hid Hr id Hn.
  assert (forall flag b, get_slaves ip flag b tm = Ret []) as Es by (intros; unfold get_slaves; by rewrite Hc).
  unfold duplicate_put. rewrite (duplicate_key_run _ _ _ _ _ bucket []) by done.
  set (node := no_results (new_wait_node bucket o [] version)).
  destruct (duplicate_alone bucket node (dup_message REQ_PUT_DUPLICATE (request_put_copy p)) s out Hb Hid) as (s1 & E & Hp1 & Hw1); [lia|].
  fold id in E, Hw1. rewrite decide_True in E by done. rewrite decide_True in Hw1 by done. exists s1. split; [exact E|]. split.
  - intros r Hrid Hrs. destruct (doResponse_waits r node (packets_mgr s1)) as (w & Ed & Hw).
    { by rewrite Hrid, Hw1, lookup_insert_eq. } { by apply lonely_do_response. }
    exists (set_packets_mgr w s1). split; [|done]. unfold handlePacket, do_duplicate_response.
    rewrite sbind_assoc. by step_with (on_waiting_run _ s1 out _ _ Ed).
  - intros o' p' version' bucket' Eb' Hb'. rewrite (duplicate_key_run _ _ _ _ _ bucket' []) by done.
    edestruct (duplicate_alone bucket') as (s2 & E2 & _); [exact Hb'|by rewrite Hp1| |].
    2:{ exists s2. rewrite E2, Hp1, Hw1. fold id. by rewrite lookup_insert_eq, decide_False. }
    rewrite Hw1, map_size_insert_None by done. lia.
Qed.
End sender.

(** ** An example: one bucket with three copies *)

Definition demo_table (copies : Z) (servers : list Z) : table_manager :=
  mk_table_manager (Some (servers ++ servers)) 1 copies 1 [] [] [] ∅ ∅.
Definition demo_server (copies : Z) (servers : list Z) : tair_manager unit :=
  mk_tair_manager false STATUS_CAN_WORK tt (demo_table copies servers) (mk_bitset 1 ∅) ∅.
Definition demo_put : request_put :=
  mk_request_put TAIR_SERVERFLAG_CLIENT 3 0 0 (-1) (data_entry_of [107]) (data_entry_of [7; 8]).
Definition demo_origin : origin := mk_origin 5 6 TAIR_REQ_PUT_PACKET.
Definition demo_ack (server : Z) : dup_event := Response (mk_response_duplicate 2 server 0 0 0).

Lemma new_dup_sender_ok : sender_ok new_dup_sender.
Proof. constructor; [apply map_Forall_empty|]. intros b. unfold bucket_waiting, nodes_of. cbn. by rewrite map_filter_empty. Qed.

Lemma put_is_answered_once_witness :
  exists s1 copy id, duplicate_put (fun _ => true) 1 (demo_server 3 [1; 2; 3]) demo_origin demo_put 4 (new_dup_sender, [])
      = Ret (TAIR_DUP_WAIT_RSP, (s1, [Send 2 copy id; Send 3 copy id]))
    /\ exists s2 ids, handle_all (fun _ => true) 0 [demo_ack 3; OtherPacket; demo_ack 2; demo_ack 2] (s1, [])
      = Ret (tt, (s2, flat_map (answer_id (fun _ => true) 0 (m_PkgWaitMap (packets_mgr s1))) ids))
    /\ base.NoDup ids /\ 2 ∈ ids.
Proof.
  destruct (put_is_answered_once (fun _ => true) (fun _ => true) 0 1 (demo_server 3 [1; 2; 3]) demo_origin demo_put 4 0 [2; 3]
              new_dup_sender [] new_dup_sender_ok) as (s1 & E & _ & _ & H);
    [by vm_compute|by vm_compute| |done|done|].
  { constructor; [done|by vm_compute|split; [done|]|done]. repeat constructor; done. }
  exists s1. eexists _, _. split; [exact E|]. vm_compute in E. injection E as Es1.
  edestruct H as (s2 & ids & E2 & Hd & Hin).
  2:{ exists s2, ids. split; [exact E2|]. split; [exact Hd|]. apply Hin, (bool_decide_unpack _). by vm_compute. }
  rewrite <- Es1. repeat constructor; intros n Hn; vm_compute in Hn; injection Hn as <-; done.
Defined.

Lemma one_copy_is_never_answered_witness :
  exists s1, duplicate_put (fun _ => true) 1 (demo_server 1 [1]) demo_origin demo_put 4 (new_dup_sender, [])
      = Ret (TAIR_DUP_WAIT_RSP, (s1, [])).
Proof.
  destruct (one_copy_is_never_answered (fun _ => true) (fun _ => true) 0 1 (demo_server 1 [1]) demo_origin demo_put 4 0
              new_dup_sender []) as (s1 & E & _); [done|by vm_compute|done|by vm_compute|by vm_compute|done|]. by exists s1.
Defined.
