(* ===== verification/RequestProcessor.v ===== *)
(** * The requests of a data server (dataserver/request_processor.cpp)

    One handler per kind of request: it asks whether the server works and
    whether the bucket of the request has moved away, calls the operation of
    [tair_manager], has a client's write copied to the slaves, and answers.
    The result of a handler is its return code and what it leaves in
    [send_return]: whether the dispatcher still has to answer with that code.

    A handler that leaves [resp] to [PROC_AFTER] is a [process_before] around a
    [process_after].  The [hash_code] of a request is -1 but for a put that
    brings one.  [remote_sync] says whether a remote synchronisation plugin is
    loaded; what the plugins get is an output.  [arrange] is the order in which
    a [hash_map] of pointers is walked. *)

From S2P Require Import Prelude PacketCodes Util DataBuffer DataEntry MdbManager TableManager Storage TairManager BasePacket KvPackets ConfPackets KeyPackets ListPackets HashPackets SetPackets ZsetPackets PacketFactory CopyPackets DupSync.

Definition TAIR_RETURN_SHOULD_PROXY : Z := -3967.
Definition TAIR_RETURN_PARTIAL_SUCCESS : Z := -3983.
Definition TAIR_RETURN_INVALID_ARGUMENT : Z := -3982.
Definition TAIR_RETURN_ALREADY_EXIST : Z := -20004.
Definition TAIR_RETURN_DATA_LEN_LIMITED : Z := -20007.
Definition TAIR_SERVERFLAG_MIGRATE : Z := 2.

(** [key.server_flag = ...] *)
Definition set_server_flag (f : Z) (e : data_entry) : data_entry :=
  mk_data_entry (size e) (DataEntry.data e) (alloc e) (hashcode e) (has_merged e) (has_meta_merged e)
    (DataEntry.area e) f (data_meta e).

(** ** Requests whose key an operation has changed *)

Definition put_with_key (key : data_entry) (p : request_put) : request_put :=
  mk_request_put (put_server_flag p) (put_area p) (put_version p) (put_expired p) (put_hash_code p) key (put_data p).
Definition ltrim_with_key (key : data_entry) (p : request_ltrim) : request_ltrim :=
  mk_request_ltrim (ltrim_server_flag p) (ltrim_area p) (ltrim_version p) (ltrim_expire p) (ltrim_start p)
    (ltrim_end p) key.
Definition lrem_with_key (key : data_entry) (p : request_lrem) : request_lrem :=
  mk_request_lrem (lrem_server_flag p) (lrem_area p) (lrem_version p) (lrem_expire p) (lrem_count p) key
    (lrem_value p).
Definition lset_with_key (key : data_entry) (p : request_lset) : request_lset :=
  mk_request_lset (lset_server_flag p) (lset_area p) (lset_version p) (lset_expire p) (lset_index p) key
    (lset_value p).
Definition hmset_with_key (key : data_entry) (p : request_hmset) : request_hmset :=
  mk_request_hmset (hmset_server_flag p) (hmset_area p) (hmset_version p) (hmset_expire p) key (hmset_field_values p).
Definition hset_with_key (key : data_entry) (p : request_hset) : request_hset :=
  mk_request_hset (hset_server_flag p) (hset_area p) (hset_version p) (hset_expire p) key (hset_field p)
    (hset_value p).
Definition hsetnx_with_key (key : data_entry) (p : request_hsetnx) : request_hsetnx :=
  mk_request_hsetnx (hsetnx_server_flag p) (hsetnx_area p) (hsetnx_version p) (hsetnx_expire p) key
    (hsetnx_field p) (hsetnx_value p).
Definition hdel_with_key (key : data_entry) (p : request_hdel) : request_hdel :=
  mk_request_hdel (hdel_server_flag p) (hdel_area p) (hdel_version p) (hdel_expire p) key (hdel_field p).
Definition spop_with_key (key : data_entry) (p : request_spop) : request_spop :=
  mk_request_spop (spop_server_flag p) (spop_area p) (spop_version p) (spop_expire p) key.
Definition srem_with_key (key : data_entry) (p : request_srem) : request_srem :=
  mk_request_srem (srem_server_flag p) (srem_area p) (srem_version p) (srem_expire p) key (srem_value p).
Definition sadd_with_key (key : data_entry) (p : request_sadd) : request_sadd :=
  mk_request_sadd (sadd_server_flag p) (sadd_area p) (sadd_version p) (sadd_expire p) key (sadd_value p).
Definition zadd_with_key (key : data_entry) (p : request_zadd) : request_zadd :=
  mk_request_zadd (zadd_server_flag p) (zadd_area p) (zadd_version p) (zadd_expire p) (zadd_score p) key
    (zadd_value p).
Definition zrem_with_key (key : data_entry) (p : request_zrem) : request_zrem :=
  mk_request_zrem (zrem_server_flag p) (zrem_area p) (zrem_version p) (zrem_expire p) key (zrem_value p).
Definition zremrangebyrank_with_key (key : data_entry) (p : request_zremrangebyrank) : request_zremrangebyrank :=
  mk_request_zremrangebyrank (zremrangebyrank_server_flag p) (zremrangebyrank_area p) (zremrangebyrank_version p)
    (zremrangebyrank_expire p) (zremrangebyrank_start p) (zremrangebyrank_end p) key.
Definition zremrangebyscore_with_key (key : data_entry) (p : request_zremrangebyscore) : request_zremrangebyscore :=
  mk_request_zremrangebyscore (zremrangebyscore_server_flag p) (zremrangebyscore_area p)
    (zremrangebyscore_version p) (zremrangebyscore_expire p) (zremrangebyscore_start p)
    (zremrangebyscore_end p) key.
Definition lrpop_with_key (key : data_entry) (p : request_lrpop) : request_lrpop :=
  mk_request_lrpop (lrpop_server_flag p) (lrpop_area p) (lrpop_version p) (lrpop_expire p) (lrpop_count p) key.

(** ** The server *)

(** What the handlers work on: the manager, the duplicator it may have, and the
    version the heartbeat thread has learned. *)
Record data_server (St : Type) := mk_data_server {
  ds_manager : tair_manager St; ds_duplicator : option dup_sync_sender_manager; ds_client_version : Z
}.
Arguments mk_data_server {St}. Arguments ds_manager {St}. Arguments ds_duplicator {St}.
Arguments ds_client_version {St}.

Section request_processor.
Context {St : Type} `{storage_manager St} (ip uninit : Z) (post_ok send_ok : Z -> bool) (remote_sync : bool)
  (arrange : list (data_entry * data_entry) -> list (data_entry * data_entry)).

Local Notation tmM := (@tmM St).
Definition procM (A : Type) : Type := stM (data_server St * list output) A.
(** A handler's result: the code and [send_return]. *)
Definition handled : Type := procM (Z * bool).

Definition on_manager {A} (m : tmM A) : procM A := fun '(ds, out) =>
  let! (a, tm) := m (ds_manager ds) in
  Ret (a, (mk_data_server tm (ds_duplicator ds) (ds_client_version ds), out)).

(** [tair_mgr->get_duplicator()->...]: without a duplicator a null pointer is
    followed. *)
Definition on_duplicator {A} (m : tair_manager St -> dupM A) : procM A := fun '(ds, out) =>
  match ds_duplicator ds with
  | None => Overrun
  | Some d =>
      let! (a, (d, out)) := m (ds_manager ds) (d, out) in
      Ret (a, (mk_data_server (ds_manager ds) (Some d) (ds_client_version ds), out))
  end.

Definition get_client_version : procM Z := fun '(ds, out) => Ret (ds_client_version ds, (ds, out)).

Definition post (o : origin) (m : message) : procM unit :=
  let* _ := postPacket post_ok (from_conn o) (from_chid o) m in sret tt.

(** [if (tair_mgr->is_working() == false) return TAIR_RETURN_SERVER_CAN_NOT_WORK;] *)
Definition if_working (send_return : bool) (k : handled) : handled :=
  let* (ds, _) := sget in
  if negb (is_working (ds_manager ds)) then sret (TAIR_RETURN_SERVER_CAN_NOT_WORK, send_return) else k.

(** The test on [hash_code], with [tested] whether it is made *)
Definition unless_moved (tested : bool) (hash_code : Z) (send_return : bool) (k : handled) : handled :=
  if tested then
    let* (ds, _) := sget in
    let* (moved, _) := slift (should_proxy ip (u32 hash_code) 0 (ds_manager ds)) in
    if moved : bool then sret (TAIR_RETURN_SHOULD_PROXY, send_return) else k
  else k.

(** The [hash_code] of a request that brings none *)
Definition no_hash : Z := -1.
Definition process_before (hash_code : Z) (send_return : bool) (k : handled) : handled :=
  if_working send_return (unless_moved (negb (hash_code =? -1)) hash_code send_return k).

(** The response with the version of the server's tables in it *)
Definition process_after (o : origin) (rc : Z) (resp : Z -> packet) : handled :=
  let* v := get_client_version in
  let* _ := post o (Plain (resp v)) in
  sret (rc, false).

(** [do_duplicate]: the plugins get the code, the hash of the key and a copy. *)
Definition is_need_duplicate (rc : Z) : bool :=
  remote_sync && ((rc =? TAIR_RETURN_SUCCESS) || (rc =? TAIR_RETURN_ALREADY_EXIST)
                  || (rc =? TAIR_RETURN_DATA_LEN_LIMITED)).
Definition do_duplicate (rc : Z) (key : data_entry) : procM unit :=
  if is_need_duplicate rc then put_out (ToPlugins rc (mur_mur_hash (get_data key))) else sret tt.

(** [if (rc == TAIR_RETURN_SUCCESS && tair_mgr->NeedCopy(flag))]: the copies go
    out and the code is the duplicator's; else the answer. *)
Definition copy_or_answer (rc flag : Z) (send_return : bool) (copies : tair_manager St -> Z -> dupM Z)
    (answer : handled) : handled :=
  if (rc =? TAIR_RETURN_SUCCESS) && NeedCopy flag then
    let* v := get_client_version in
    let* rc := on_duplicator (fun tm => copies tm v) in
    sret (rc, send_return)
  else answer.

(** The answer of a slave to the server it got the copy from *)
Definition answer_copy (o : origin) (packet_id bucket_id rc : Z) : handled :=
  let* _ := (if (rc =? TAIR_RETURN_SUCCESS) || (rc =? TAIR_RETURN_DATA_NOT_EXIST) then
               post o (Plain (General (RESP_DUPLICATE (mk_response_duplicate packet_id ip bucket_id 0 0))))
             else sret tt) in
  sret (rc, false).
Definition process_copy {P} (o : origin) (c : dup P) (send_return : bool) (op : P -> tmM Z) : handled :=
  if_working send_return (
  let* rc := on_manager (op (dup_base c)) in
  answer_copy o (dup_id c) (dup_bucket c) rc).

(** The code among the results of an operation *)
Definition code_of {A} (m : tmM (Z * A)) : tmM Z := let* (rc, _) := m in sret rc.
Definition code_of3 {A B} (m : tmM (Z * A * B)) : tmM Z := let* (rc, _, _) := m in sret rc.

(** ** Keys *)

Definition process_ttl (o : origin) (p : request_ttl) (send_return : bool) : handled :=
  process_before no_hash send_return (
  let* (rc, _, retnum) := on_manager (ttl (ttl_area p) (ttl_key p) uninit) in
  process_after o rc (fun v => Common (RESP_TTL (mk_response_ttl v rc retnum)))).

Definition process_type (o : origin) (p : request_type) (send_return : bool) : handled :=
  process_before no_hash send_return (
  let* (rc, _, retnum) := on_manager (type (type_area p) (type_key p) uninit) in
  process_after o rc (fun v => Common (RESP_TYPE (mk_response_type v rc retnum)))).

(** A [response_return] from the handler itself has no version. *)
Definition answer_code (o : origin) (rc : Z) : handled :=
  let* _ := post o (Plain (General (RESP_RETURN (mk_response_return 0 rc [])))) in sret (rc, false).

Definition process_exists (o : origin) (p : request_exists) (send_return : bool) : handled :=
  process_before no_hash send_return (
  let* (rc, _) := on_manager (exists_ (exists_area p) (exists_key p)) in
  answer_code o rc).

Definition process_lazy_remove_area (o : origin) (p : request_lazy_remove_area) (send_return : bool) : handled :=
  if_working send_return (
  let* rc := on_manager (lazyclear (lazy_remove_area_area p)) in answer_code o rc).
Definition process_dump_area (o : origin) (p : request_dump_area) (send_return : bool) : handled :=
  if_working send_return (
  let* rc := on_manager (dumparea (dump_area_area p)) in answer_code o rc).
Definition process_load_area (o : origin) (p : request_load_area) (send_return : bool) : handled :=
  if_working send_return (
  let* rc := on_manager (loadarea (load_area_area p)) in answer_code o rc).
Definition process_addfilter (o : origin) (p : request_addfilter) (send_return : bool) : handled :=
  if_working send_return (
  let* rc := on_manager (addfilter (addfilter_area p) (addfilter_key p) (addfilter_field p) (addfilter_value p)) in
  answer_code o rc).
Definition process_removefilter (o : origin) (p : request_addfilter) (send_return : bool) : handled :=
  if_working send_return (
  let* rc := on_manager (removefilter (addfilter_area p) (addfilter_key p) (addfilter_field p) (addfilter_value p)) in
  answer_code o rc).

Definition process_op_cmd (o : origin) (p : request_op_cmd) (send_return : bool) : handled :=
  if_working send_return (
  let* (ret, infos) := on_manager (op_cmd (op_cmd_cmd p) (op_cmd_params p) []) in
  if op_cmd_cmd p =? TAIR_SERVER_CMD_GET_CONFIG then
    let* _ := post o (Plain (General (RESP_OP_CMD (mk_response_op_cmd ret infos)))) in sret (ret, false)
  else sret (ret, true)).

Definition process_expire (o : origin) (p : request_expire) (send_return : bool) : handled :=
  process_before no_hash send_return (
  let* (rc, _) := on_manager (expire (expire_area p) (expire_key p) (expire_expiretime p)) in
  process_after o rc (fun v => General (RESP_EXPIRE (mk_response_expire v rc)))).

Definition process_expireat (o : origin) (p : request_expireat) (send_return : bool) : handled :=
  process_before no_hash send_return (
  let* (rc, _) := on_manager (expireat (expireat_area p) (expireat_key p) (expireat_expiretime p)) in
  process_after o rc (fun v => General (RESP_EXPIREAT (mk_response_expireat v rc)))).

Definition process_persist (o : origin) (p : request_persist) (send_return : bool) : handled :=
  process_before no_hash send_return (
  let* (rc, _) := on_manager (persist (persist_area p) (persist_key p)) in
  process_after o rc (fun v => General (RESP_PERSIST (mk_response_persist v rc)))).

(** ** Lists *)

Definition process_lindex (o : origin) (p : request_lindex) (send_return : bool) : handled :=
  process_before no_hash send_return (
  let* (rc, key, value) := on_manager (lindex (lindex_area p) (lindex_key p) (lindex_index p) new_data_entry) in
  process_after o rc (fun v => List (RESP_LINDEX (mk_response_lindex v (get_version key) rc value)))).

(** A successful trim that is not copied is left to the dispatcher. *)
Definition process_ltrim (o : origin) (p : request_ltrim) (send_return : bool) : handled :=
  process_before no_hash send_return (
  let* (rc, key) := on_manager (ltrim (ltrim_area p) (ltrim_key p) (ltrim_start p) (ltrim_end p) (ltrim_version p)
    (ltrim_expire p)) in
  if rc =? TAIR_RETURN_SUCCESS then
    copy_or_answer rc (server_flag key) false
      (fun tm v => duplicate_ltrim send_ok ip tm o (ltrim_with_key key p) v)
      (sret (rc, send_return))
  else process_after o rc (fun v => List (RESP_LTRIM (mk_response_ltrim v rc)))).

Definition process_ltrim_dup (o : origin) (c : dup request_ltrim) (send_return : bool) : handled :=
  process_copy o c send_return (fun p => code_of (ltrim (ltrim_area p) (ltrim_key p) (ltrim_start p) (ltrim_end p)
    (ltrim_version p) (ltrim_expire p))).

Definition process_llen (o : origin) (p : request_llen) (send_return : bool) : handled :=
  process_before no_hash send_return (
  let* (rc, _, retnum) := on_manager (llen (llen_area p) (llen_key p) uninit) in
  process_after o rc (fun v => List (RESP_LLEN (mk_response_llen v rc retnum)))).

(** After the copies of a removal the client is answered at once, with the
    duplicator's code. *)
Definition process_lrem (o : origin) (p : request_lrem) (send_return : bool) : handled :=
  process_before no_hash send_return (
  let* (rc, key, retnum) := on_manager (lrem (lrem_area p) (lrem_key p) (lrem_count p) (lrem_value p) uninit
    (lrem_version p) (lrem_expire p)) in
  let* (rc, _) := copy_or_answer rc (server_flag key) send_return
    (fun tm v => duplicate_lrem send_ok ip tm o (lrem_with_key key p) v) (sret (rc, send_return)) in
  process_after o rc (fun v => List (RESP_LREM (mk_response_lrem v rc retnum)))).

Definition process_lrem_dup (o : origin) (c : dup request_lrem) (send_return : bool) : handled :=
  process_copy o c send_return (fun p => code_of3 (lrem (lrem_area p) (lrem_key p) (lrem_count p) (lrem_value p) 0
    (lrem_version p) (lrem_expire p))).

Definition process_lrange (o : origin) (p : request_lrange) (send_return : bool) : handled :=
  process_before no_hash send_return (
  let* (rc, key, values) := on_manager (lrange (lrange_area p) (lrange_key p) (lrange_start p) (lrange_end p) []) in
  process_after o rc (fun v => List (RESP_LRANGE (mk_response_lrange v (get_version key) rc values)))).

Definition process_lset (o : origin) (p : request_lset) (send_return : bool) : handled :=
  process_before no_hash send_return (
  let* (rc, key) := on_manager (lset (lset_area p) (lset_key p) (lset_index p) (lset_value p) (lset_version p)
    (lset_expire p)) in
  copy_or_answer rc (server_flag key) send_return
    (fun tm v => duplicate_lset send_ok ip tm o (lset_with_key key p) v)
    (process_after o rc (fun v => List (RESP_LSET (mk_response_hset v rc))))).

Definition process_lset_dup (o : origin) (c : dup request_lset) (send_return : bool) : handled :=
  process_copy o c send_return (fun p => code_of (lset (lset_area p) (lset_key p) (lset_index p) (lset_value p)
    (lset_version p) (lset_expire p))).

Definition process_lrpush (o : origin) (p : request_lrpush) (send_return : bool) : handled :=
  process_before no_hash send_return (
  let pcode := from_pcode o in
  let* (rc, (pushed_num, list_len)) := on_manager (lrpush uninit (lrpush_area p) (lrpush_key p) (lrpush_values p)
    uninit uninit pcode 0 (lrpush_version p) (lrpush_expire p)) in
  copy_or_answer rc (server_flag (lrpush_key p)) false
    (fun tm v => duplicate_lrpush send_ok ip tm o p v pushed_num list_len rc)
    (process_after o rc (fun v =>
      let resp := mk_response_lrpush v rc 0 0 in
      if pcode =? TAIR_REQ_LPUSH_PACKET then List (RESP_LPUSH resp)
      else if pcode =? TAIR_REQ_RPUSH_PACKET then List (RESP_RPUSH resp)
      else if pcode =? TAIR_REQ_LPUSHX_PACKET then List (RESP_LPUSHX resp)
      else List (RESP_RPUSHX resp)))).

Definition process_lrpush_dup (o : origin) (c : old_dup request_lrpush) (send_return : bool) : handled :=
  let p := od_base c in
  let pcode := from_pcode o in
  let old_pcode :=
    if pcode =? TAIR_REQ_LPUSH_DUPLICATE_PACKET then TAIR_REQ_LPUSH_PACKET
    else if pcode =? TAIR_REQ_RPUSH_DUPLICATE_PACKET then TAIR_REQ_RPUSH_PACKET
    else if pcode =? TAIR_REQ_LPUSHX_DUPLICATE_PACKET then TAIR_REQ_LPUSHX_PACKET
    else TAIR_REQ_RPUSHX_PACKET in
  if_working send_return (
  let* (rc, _) := on_manager (lrpush uninit (lrpush_area p) (lrpush_key p) (lrpush_values p) uninit uninit old_pcode
    0 (lrpush_version p) (lrpush_expire p)) in
  answer_copy o (od_id c) (od_bucket c) rc).

(** The test on [hash_code] is whether it is 0, which -1 is not: the moved
    bucket is that of the hash 2^32 - 1. *)
Definition process_lrpush_limit (o : origin) (p : request_lrpush_limit) (send_return : bool) : handled :=
  if_working send_return (unless_moved (negb (no_hash =? 0)) no_hash send_return (
  let pcode := from_pcode o in
  let* (rc, (pushed_num, list_len)) := on_manager (lrpush uninit (lrpush_limit_area p) (lrpush_limit_key p)
    (lrpush_limit_values p) 0 0 pcode (lrpush_limit_max_count p) (lrpush_limit_version p) (lrpush_limit_expire p)) in
  copy_or_answer rc (server_flag (lrpush_limit_key p)) false
    (fun tm v => duplicate_lrpush_limit send_ok uninit ip tm o p v)
    (process_after o rc (fun v =>
      let resp := mk_response_lrpush v rc pushed_num list_len in
      if pcode =? TAIR_REQ_LPUSH_LIMIT_PACKET then List (RESP_LPUSH resp)
      else if pcode =? TAIR_REQ_RPUSH_LIMIT_PACKET then List (RESP_RPUSH resp)
      else if pcode =? TAIR_REQ_LPUSHX_LIMIT_PACKET then List (RESP_LPUSHX resp)
      else List (RESP_RPUSHX resp))))).

Definition process_lrpush_limit_dup (o : origin) (c : old_dup request_lrpush_limit) (send_return : bool) : handled :=
  let p := od_base c in
  if_working send_return (
  let* (rc, _) := on_manager (lrpush uninit (lrpush_limit_area p) (lrpush_limit_key p) (lrpush_limit_values p) uninit
    uninit (od_pcode c) (lrpush_limit_max_count p) (lrpush_limit_version p) (lrpush_limit_expire p)) in
  answer_copy o (od_id c) (od_bucket c) rc).

(** The answer to a pop that is not copied carries none of the values. *)
Definition process_lrpop (o : origin) (p : request_lrpop) (send_return : bool) : handled :=
  process_before no_hash send_return (
  let pcode := from_pcode o in
  let* (rc, key, values) := on_manager (lrpop (lrpop_area p) (lrpop_key p) (lrpop_count p) pcode (lrpop_version p)
    (lrpop_expire p)) in
  if (rc =? TAIR_RETURN_SUCCESS) && NeedCopy (server_flag key) then
    let* v := get_client_version in
    let* rc := on_duplicator (fun tm => duplicate_lrpop send_ok ip tm o (lrpop_with_key key p) v rc values) in
    let* _ := do_duplicate rc key in
    sret (rc, false)
  else
    process_after o rc (fun v =>
      let resp := mk_response_lrpop v (get_version key) rc [] in
      if pcode =? TAIR_REQ_LPOP_PACKET then List (RESP_LPOP resp) else List (RESP_RPOP resp))).

Definition process_lrpop_dup (o : origin) (c : old_dup request_lrpop) (send_return : bool) : handled :=
  let p := od_base c in
  if_working send_return (
  let* (rc, _, _) := on_manager (lrpop (lrpop_area p) (lrpop_key p) (lrpop_count p) (od_pcode c) (lrpop_version p)
    (lrpop_expire p)) in
  answer_copy o (od_id c) (od_bucket c) rc).

(** ** Hashes *)

Definition process_hexists (o : origin) (p : request_hexists) (send_return : bool) : handled :=
  process_before no_hash send_return (
  let* (rc, _) := on_manager (hexists (hexists_area p) (hexists_key p) (hexists_field p)) in
  answer_code o rc).

Definition process_hgetall (o : origin) (p : request_hgetall) (send_return : bool) : handled :=
  process_before no_hash send_return (
  let* (rc, key, values) := on_manager (hgetall uninit (hgetall_area p) (hgetall_key p) []) in
  process_after o rc (fun v => Hash (RESP_HGETALL (mk_response_hgetall v (get_version key) rc values)))).

Definition process_hincrby (o : origin) (p : request_hincrby) (send_return : bool) : handled :=
  process_before no_hash send_return (
  let* (rc, _, retnum) := on_manager (hincrby (hincrby_area p) (hincrby_key p) (hincrby_field p) (hincrby_value p) 0
    (hincrby_version p) (hincrby_expire p)) in
  process_after o rc (fun v => Hash (RESP_HINCRBY (mk_response_hincrby v rc retnum)))).

Definition process_hmset (o : origin) (p : request_hmset) (send_return : bool) : handled :=
  process_before no_hash send_return (
  let* (rc, key, retvalue) := on_manager (hmset (hmset_area p) (hmset_key p) (hmset_field_values p) 0 (hmset_version
    p) (hmset_expire p)) in
  copy_or_answer rc (server_flag key) false
    (fun tm v => duplicate_hmset send_ok ip tm o (hmset_with_key key p) rc v)
    (process_after o rc (fun v => Hash (RESP_HMSET (mk_response_hmset v rc retvalue))))).

Definition process_hmset_dup (o : origin) (c : dup request_hmset) (send_return : bool) : handled :=
  process_copy o c send_return (fun p => code_of3 (hmset (hmset_area p) (hmset_key p) (hmset_field_values p) uninit
    (hmset_version p) (hmset_expire p))).

Definition process_hset (o : origin) (p : request_hset) (send_return : bool) : handled :=
  process_before no_hash send_return (
  let* (rc, key) := on_manager (hset (hset_area p) (hset_key p) (hset_field p) (hset_value p) (hset_version p)
    (hset_expire p)) in
  let* (_, key, _) := on_manager (hget (hset_area p) key (hset_field p) new_data_entry) in
  copy_or_answer rc (server_flag key) false
    (fun tm v => duplicate_hset send_ok ip tm o (hset_with_key key p) rc v)
    (process_after o rc (fun v => Hash (RESP_HSET (mk_response_hset v rc))))).

Definition process_hset_dup (o : origin) (c : dup request_hset) (send_return : bool) : handled :=
  process_copy o c send_return (fun p => code_of (hset (hset_area p) (hset_key p) (hset_field p) (hset_value p)
    (hset_version p) (hset_expire p))).

Definition process_hsetnx (o : origin) (p : request_hsetnx) (send_return : bool) : handled :=
  process_before no_hash send_return (
  let* (rc, key) := on_manager (hsetnx (hsetnx_area p) (hsetnx_key p) (hsetnx_field p) (hsetnx_value p)
    (hsetnx_version p) (hsetnx_expire p)) in
  copy_or_answer rc (server_flag key) false
    (fun tm v => duplicate_hsetnx send_ok ip tm o (hsetnx_with_key key p) v)
    (process_after o rc (fun v => Hash (RESP_HSETNX (mk_response_hsetnx v rc))))).

Definition process_hsetnx_dup (o : origin) (c : dup request_hsetnx) (send_return : bool) : handled :=
  process_copy o c send_return (fun p => code_of (hsetnx (hsetnx_area p) (hsetnx_key p) (hsetnx_field p)
    (hsetnx_value p) (hsetnx_version p) (hsetnx_expire p))).

Definition process_hget (o : origin) (p : request_hget) (send_return : bool) : handled :=
  process_before no_hash send_return (
  let* (rc, key, value) := on_manager (hget (hget_area p) (hget_key p) (hget_field p) new_data_entry) in
  process_after o rc (fun v => Hash (RESP_HGET (mk_response_hget v (get_version key) rc value)))).

Definition process_hmget (o : origin) (p : request_hmget) (send_return : bool) : handled :=
  process_before no_hash send_return (
  let* (rc, key, values) := on_manager (hmget (hmget_area p) (hmget_key p) (hmget_fields p) []) in
  process_after o rc (fun v => Hash (RESP_HMGET (mk_response_hmget v (get_version key) rc values)))).

Definition process_hkeys (o : origin) (p : request_hkeys) (send_return : bool) : handled :=
  process_before no_hash send_return (
  let* (rc, key, keys) := on_manager (hkeys uninit (hkeys_area p) (hkeys_key p) []) in
  process_after o rc (fun v => Hash (RESP_HKEYS (mk_response_hkeys v (get_version key) rc keys)))).

Definition process_hvals (o : origin) (p : request_hvals) (send_return : bool) : handled :=
  process_before no_hash send_return (
  let* (rc, key, values) := on_manager (hvals uninit (hvals_area p) (hvals_key p) []) in
  process_after o rc (fun v => Hash (RESP_HVALS (mk_response_hvals v (get_version key) rc values)))).

Definition process_hdel (o : origin) (p : request_hdel) (send_return : bool) : handled :=
  process_before no_hash send_return (
  let* (rc, key) := on_manager (hdel (hdel_area p) (hdel_key p) (hdel_field p) (hdel_version p) (hdel_expire p)) in
  copy_or_answer rc (server_flag key) false
    (fun tm v => duplicate_hdel send_ok ip tm o (hdel_with_key key p) v)
    (process_after o rc (fun v => Hash (RESP_HDEL (mk_response_hdel v rc))))).

Definition process_hdel_dup (o : origin) (c : dup request_hdel) (send_return : bool) : handled :=
  process_copy o c send_return (fun p => code_of (hdel (hdel_area p) (hdel_key p) (hdel_field p) (hdel_version p)
    (hdel_expire p))).

Definition process_hlen (o : origin) (p : request_hlen) (send_return : bool) : handled :=
  process_before no_hash send_return (
  let* (rc, _, retnum) := on_manager (hlen (hlen_area p) (hlen_key p) uninit) in
  process_after o rc (fun v => Hash (RESP_HLEN (mk_response_hlen v rc retnum)))).

(** ** Sets *)

Definition process_scard (o : origin) (p : request_scard) (send_return : bool) : handled :=
  process_before no_hash send_return (
  let* (rc, _, retnum) := on_manager (scard (scard_area p) (scard_key p) uninit) in
  process_after o rc (fun v => Set_ (RESP_SCARD (mk_response_scard v rc retnum)))).

Definition process_smembers (o : origin) (p : request_smembers) (send_return : bool) : handled :=
  process_before no_hash send_return (
  let* (rc, key, values) := on_manager (smembers (smembers_area p) (smembers_key p) []) in
  process_after o rc (fun v => Set_ (RESP_SMEMBERS (mk_response_smembers v (get_version key) rc values)))).

Definition process_sadd (o : origin) (p : request_sadd) (send_return : bool) : handled :=
  process_before no_hash send_return (
  let* (rc, key) := on_manager (sadd (sadd_area p) (sadd_key p) (sadd_value p) (sadd_version p) (sadd_expire p)) in
  copy_or_answer rc (server_flag key) false
    (fun tm v => duplicate_sadd send_ok ip tm o (sadd_with_key key p) rc v)
    (process_after o rc (fun v => Set_ (RESP_SADD (mk_response_sadd v rc))))).

Definition process_sadd_dup (o : origin) (c : dup request_sadd) (send_return : bool) : handled :=
  process_copy o c send_return (fun p => code_of (sadd (sadd_area p) (sadd_key p) (sadd_value p) (sadd_version p)
    (sadd_expire p))).

Definition process_spop (o : origin) (p : request_spop) (send_return : bool) : handled :=
  process_before no_hash send_return (
  let* (rc, key, value) := on_manager (spop (spop_area p) (spop_key p) new_data_entry (spop_version p) (spop_expire
    p)) in
  if (rc =? TAIR_RETURN_SUCCESS) && NeedCopy (server_flag key) then
    let* v := get_client_version in
    let* rc := on_duplicator (fun tm => duplicate_spop send_ok ip tm o (spop_with_key key p) v) in
    let* _ := do_duplicate rc key in
    sret (rc, false)
  else process_after o rc (fun v => Set_ (RESP_SPOP (mk_response_spop v (get_version key) rc value)))).

Definition process_spop_dup (o : origin) (c : dup request_spop) (send_return : bool) : handled :=
  process_copy o c send_return (fun p => code_of3 (spop (spop_area p) (spop_key p) new_data_entry (spop_version p)
    (spop_expire p))).

Definition process_srem (o : origin) (p : request_srem) (send_return : bool) : handled :=
  process_before no_hash send_return (
  let* (rc, key) := on_manager (srem (srem_area p) (srem_key p) (srem_value p) (srem_version p) (srem_expire p)) in
  copy_or_answer rc (server_flag key) false
    (fun tm v => duplicate_srem send_ok ip tm o (srem_with_key key p) v)
    (process_after o rc (fun v => Set_ (RESP_SREM (mk_response_srem v rc))))).

Definition process_srem_dup (o : origin) (c : dup request_srem) (send_return : bool) : handled :=
  process_copy o c send_return (fun p => code_of (srem (srem_area p) (srem_key p) (srem_value p) (srem_version p)
    (srem_expire p))).

(** The loops over the values of a key and over the keys of a request for many
    keys: [op] is [sadd] or [srem] with version 0, [fine] the code that does not
    stop the loops.  The result is the last code, the key as it has become, and
    whether all went well. *)
Definition stops (fine rc : Z) : bool := negb (rc =? TAIR_RETURN_SUCCESS) && negb (rc =? fine).
Fixpoint each_value (op : data_entry -> data_entry -> tmM (Z * data_entry)) (fine rc : Z) (key : data_entry)
    (values : list data_entry) : procM (Z * data_entry * bool) :=
  match values with
  | [] => sret (rc, key, true)
  | value :: rest =>
      let* (rc, key) := on_manager (op key value) in
      if stops fine rc then sret (rc, key, false) else each_value op fine rc key rest
  end.
Fixpoint each_key (plugins : bool) (op : data_entry -> data_entry -> tmM (Z * data_entry)) (fine rc : Z)
    (keys : list (data_entry * list data_entry))
    : procM (Z * list (data_entry * list data_entry)) :=
  match keys with
  | [] => sret (rc, [])
  | (key, values) :: rest =>
      let* (rc, key, well) := each_value op fine rc key values in
      if negb well then sret (rc, (key, values) :: rest) else
      let* _ := (if plugins then do_duplicate rc key else sret tt) in
      let* (rc, rest) := each_key plugins op fine rc rest in
      sret (rc, (key, values) :: rest)
  end.

(** The key the loop was at last: its flag is asked for a copy. *)
Definition process_multi (o : origin) (p : request_sadd_multi) (send_return : bool)
    (op : data_entry -> data_entry -> tmM (Z * data_entry)) (fine : Z) (resp : Z -> Z -> packet) : handled :=
  process_before no_hash send_return (
  let* (rc, keys) := each_key true op fine TAIR_RETURN_FAILED (sadd_multi_keys_values_map p) in
  let p := mk_request_sadd_multi (sadd_multi_server_flag p) (sadd_multi_area p) (sadd_multi_expire p) keys in
  let answer := process_after o rc (fun v => resp v rc) in
  match list.last keys with
  | Some (key, _) =>
      copy_or_answer rc (server_flag key) false (fun tm v => duplicate_sadd_multi send_ok ip tm o p rc v) answer
  | None => answer
  end).
Definition process_multi_dup (o : origin) (c : dup request_sadd_multi) (send_return : bool)
    (op : data_entry -> data_entry -> tmM (Z * data_entry)) (fine : Z) : handled :=
  if_working send_return (
  let* (rc, _) := each_key false op fine 0 (sadd_multi_keys_values_map (dup_base c)) in
  answer_copy o (dup_id c) (dup_bucket c) rc).

Definition sadd_one (p : request_sadd_multi) (key value : data_entry) : tmM (Z * data_entry) :=
  sadd (sadd_multi_area p) key value 0 (sadd_multi_expire p).
Definition srem_one (p : request_sadd_multi) (key value : data_entry) : tmM (Z * data_entry) :=
  srem (sadd_multi_area p) key value 0 (sadd_multi_expire p).
Definition process_sadd_multi (o : origin) (p : request_sadd_multi) (send_return : bool) : handled :=
  process_multi o p send_return (sadd_one p) TAIR_RETURN_ALREADY_EXIST
    (fun v rc => Set_ (RESP_SADD (mk_response_sadd v rc))).
Definition process_sadd_multi_dup (o : origin) (c : dup request_sadd_multi) (send_return : bool) : handled :=
  process_multi_dup o c send_return (sadd_one (dup_base c)) TAIR_RETURN_ALREADY_EXIST.
Definition process_srem_multi (o : origin) (p : request_sadd_multi) (send_return : bool) : handled :=
  process_multi o p send_return (srem_one p) TAIR_RETURN_DATA_NOT_EXIST
    (fun v rc => Set_ (RESP_SREM (mk_response_srem v rc))).
Definition process_srem_multi_dup (o : origin) (c : dup request_sadd_multi) (send_return : bool) : handled :=
  process_multi_dup o c send_return (srem_one (dup_base c)) TAIR_RETURN_DATA_NOT_EXIST.

Fixpoint members_of (area rc : Z) (keys : list data_entry) (pairs : list (Z * list data_entry))
    : procM (Z * list (Z * list data_entry)) :=
  match keys with
  | [] => sret (rc, pairs)
  | key :: rest =>
      let* (rc, key, values) := on_manager (smembers area key []) in
      members_of area rc rest (pairs ++ [(get_version key, values)])
  end.
Definition process_smembers_multi (o : origin) (p : request_smembers_multi) (send_return : bool) : handled :=
  process_before no_hash send_return (
  let* (rc, pairs) := members_of (smembers_multi_area p) TAIR_RETURN_FAILED (smembers_multi_keys p) [] in
  process_after o rc (fun v => Set_ (RESP_SMEMBERSMULTI (mk_response_smembers_multi v rc (Z.of_nat (length pairs))
    pairs)))).

(** ** Sorted sets *)

Definition process_zscore (o : origin) (p : request_zscore) (send_return : bool) : handled :=
  process_before no_hash send_return (
  let* (rc, _, score) := on_manager (zscore (zscore_area p) (zscore_key p) (zscore_value p) uninit) in
  process_after o rc (fun v => Zset (RESP_ZSCORE (mk_response_zscore v rc score)))).

Definition process_zrange (o : origin) (p : request_zrange) (send_return : bool) : handled :=
  process_before no_hash send_return (
  if zrange_withscore p =? 0 then
    let* (rc, key, (values, _)) := on_manager (zrange (zrange_area p) (zrange_key p) (zrange_start p) (zrange_end p)
      [] [] 0) in
    process_after o rc (fun v => Zset (RESP_ZRANGE (mk_response_zrange v (get_version key) rc values)))
  else
    let* (rc, key, (values, scores)) := on_manager (zrange (zrange_area p) (zrange_key p) (zrange_start p)
      (zrange_end p) [] [] 1) in
    process_after o rc (fun v =>
      Zset (RESP_ZRANGEWITHSCORE (mk_response_zrangewithscore v (get_version key) rc values scores)))).

Definition process_zrevrange (o : origin) (p : request_zrevrange) (send_return : bool) : handled :=
  process_before no_hash send_return (
  if zrevrange_withscore p =? 0 then
    let* (rc, key, (values, _)) := on_manager (zrevrange (zrevrange_area p) (zrevrange_key p) (zrevrange_start p)
      (zrevrange_end p) [] [] 0) in
    process_after o rc (fun v => Zset (RESP_ZREVRANGE (mk_response_zrevrange v (get_version key) rc values)))
  else
    let* (rc, key, (values, scores)) := on_manager (zrevrange (zrevrange_area p) (zrevrange_key p) (zrevrange_start
      p) (zrevrange_end p) [] [] 1) in
    process_after o rc (fun v =>
      Zset (RESP_ZREVRANGEWITHSCORE (mk_response_zrevrangewithscore v (get_version key) rc values scores)))).

Definition process_zrangebyscore (o : origin) (p : request_zrangebyscore) (send_return : bool) : handled :=
  process_before no_hash send_return (
  let* (rc, key, (values, _)) := on_manager (zrangebyscore (zrangebyscore_area p) (zrangebyscore_key p)
    (zrangebyscore_start p) (zrangebyscore_end p) [] [] (-1) 0) in
  process_after o rc (fun v => Zset (RESP_ZRANGEBYSCORE (mk_response_zrangebyscore v (get_version key) rc values)))).

(** With [reverse] the scores are walked forwards, without it backwards. *)
Definition process_generic_zrangebyscore (o : origin) (p : request_generic_zrangebyscore) (send_return : bool) :
  handled :=
  process_before no_hash send_return (
  let walk := if negb (generic_zrangebyscore_reverse p =? 0) then zrangebyscore else zrevrangebyscore in
  let* (rc, key, (values, scores)) := on_manager (
    walk (generic_zrangebyscore_area p) (generic_zrangebyscore_key p) (generic_zrangebyscore_start p)
      (generic_zrangebyscore_end p) [] [] (generic_zrangebyscore_limit p) (generic_zrangebyscore_withscore p)) in
  process_after o rc (fun v =>
    Zset (RESP_GENERIC_ZRANGEBYSCORE (mk_response_generic_zrangebyscore v (get_version key) rc values scores)))).

Definition process_zadd (o : origin) (p : request_zadd) (send_return : bool) : handled :=
  process_before no_hash send_return (
  let* (rc, key) := on_manager (zadd (zadd_area p) (zadd_key p) (zadd_score p) (zadd_value p) (zadd_version p)
    (zadd_expire p)) in
  copy_or_answer rc (server_flag key) false
    (fun tm v => duplicate_zadd send_ok ip tm o (zadd_with_key key p) rc v)
    (process_after o rc (fun v => Zset (RESP_ZADD (mk_response_zadd v rc))))).

Definition process_zadd_dup (o : origin) (c : dup request_zadd) (send_return : bool) : handled :=
  process_copy o c send_return (fun p => code_of (zadd (zadd_area p) (zadd_key p) (zadd_score p) (zadd_value p)
    (zadd_version p) (zadd_expire p))).

Definition process_zrank (o : origin) (p : request_zrank) (send_return : bool) : handled :=
  process_before no_hash send_return (
  let* (rc, _, retnum) := on_manager (zrank (zrank_area p) (zrank_key p) (zrank_value p) uninit) in
  process_after o rc (fun v => Zset (RESP_ZRANK (mk_response_zrank v rc retnum)))).

Definition process_zrevrank (o : origin) (p : request_zrevrank) (send_return : bool) : handled :=
  process_before no_hash send_return (
  let* (rc, _, retnum) := on_manager (zrevrank (zrevrank_area p) (zrevrank_key p) (zrevrank_value p) uninit) in
  process_after o rc (fun v => Zset (RESP_ZREVRANK (mk_response_zrevrank v rc retnum)))).

Definition process_zcount (o : origin) (p : request_zcount) (send_return : bool) : handled :=
  process_before no_hash send_return (
  let* (rc, _, retnum) := on_manager (zcount (zcount_area p) (zcount_key p) (zcount_start p) (zcount_end p) 0) in
  process_after o rc (fun v => Zset (RESP_ZCOUNT (mk_response_zcount v rc retnum)))).

Definition process_zincrby (o : origin) (p : request_zincrby) (send_return : bool) : handled :=
  process_before no_hash send_return (
  let* (rc, _, retnum) := on_manager (zincrby (zincrby_area p) (zincrby_key p) (zincrby_value p) (zincrby_addscore p)
    0 (zincrby_version p) (zincrby_expire p)) in
  process_after o rc (fun v => Zset (RESP_ZINCRBY (mk_response_zincrby v rc retnum)))).

Definition process_zcard (o : origin) (p : request_zcard) (send_return : bool) : handled :=
  process_before no_hash send_return (
  let* (rc, _, retnum) := on_manager (zcard (zcard_area p) (zcard_key p) uninit) in
  process_after o rc (fun v => Zset (RESP_ZCARD (mk_response_zcard v rc retnum)))).

Definition process_zrem (o : origin) (p : request_zrem) (send_return : bool) : handled :=
  process_before no_hash send_return (
  let* (rc, key) := on_manager (zrem (zrem_area p) (zrem_key p) (zrem_value p) (zrem_version p) (zrem_expire p)) in
  copy_or_answer rc (server_flag key) false
    (fun tm v => duplicate_zrem send_ok ip tm o (zrem_with_key key p) v)
    (process_after o rc (fun v => Zset (RESP_ZREM (mk_response_zrem v rc))))).

Definition process_zrem_dup (o : origin) (c : dup request_zrem) (send_return : bool) : handled :=
  process_copy o c send_return (fun p => code_of (zrem (zrem_area p) (zrem_key p) (zrem_value p) (zrem_version p)
    (zrem_expire p))).

Definition process_zremrangebyrank (o : origin) (p : request_zremrangebyrank) (send_return : bool) : handled :=
  process_before no_hash send_return (
  let* (rc, key, retnum) := on_manager (zremrangebyrank (zremrangebyrank_area p) (zremrangebyrank_key p)
    (zremrangebyrank_start p) (zremrangebyrank_end p) (zremrangebyrank_version p) (zremrangebyrank_expire p) 0) in
  copy_or_answer rc (server_flag key) false
    (fun tm v => duplicate_zremrangebyrank send_ok ip tm o (zremrangebyrank_with_key key p) retnum v)
    (process_after o rc (fun v => Zset (RESP_ZREMRANGEBYRANK (mk_response_zremrangebyrank v rc retnum))))).

Definition process_zremrangebyrank_dup (o : origin) (c : dup request_zremrangebyrank) (send_return : bool) : handled :=
  process_copy o c send_return (fun p => code_of3 (zremrangebyrank (zremrangebyrank_area p) (zremrangebyrank_key p)
    (zremrangebyrank_start p) (zremrangebyrank_end p) (zremrangebyrank_version p) (zremrangebyrank_expire p) uninit)).

Definition process_zremrangebyscore (o : origin) (p : request_zremrangebyscore) (send_return : bool) : handled :=
  process_before no_hash send_return (
  let* (rc, key, retnum) := on_manager (zremrangebyscore (zremrangebyscore_area p) (zremrangebyscore_key p)
    (zremrangebyscore_start p) (zremrangebyscore_end p) (zremrangebyscore_version p) (zremrangebyscore_expire p) 0) in
  copy_or_answer rc (server_flag key) false
    (fun tm v => duplicate_zremrangebyscore send_ok ip tm o (zremrangebyscore_with_key key p) retnum v)
    (process_after o rc (fun v => Zset (RESP_ZREMRANGEBYSCORE (mk_response_zremrangebyscore v rc retnum))))).

Definition process_zremrangebyscore_dup (o : origin) (c : dup request_zremrangebyscore) (send_return : bool) :
  handled :=
  process_copy o c send_return (fun p => code_of3 (zremrangebyscore (zremrangebyscore_area p) (zremrangebyscore_key
    p) (zremrangebyscore_start p) (zremrangebyscore_end p) (zremrangebyscore_version p) (zremrangebyscore_expire p)
      uninit)).

(** ** Strings *)

(** The key of a put takes the flag and the version of the request. *)
Definition put_key_of (p : request_put) : data_entry :=
  set_version (put_version p) (set_server_flag (put_server_flag p) (put_key p)).

(** What [putnx] leaves to the dispatcher, [put] leaves too. *)
Definition process_putnx (o : origin) (p : request_put) (send_return : bool) : handled :=
  process_before (put_hash_code p) send_return (
  let p := put_with_key (put_key_of p) p in
  let* rc := on_manager (putnx (put_area p) (put_key p) (put_data p) (put_expired p)) in
  if (rc =? TAIR_RETURN_SUCCESS) && NeedCopy (server_flag (put_key p)) then
    let* v := get_client_version in
    let* rc := on_duplicator (fun tm => duplicate_putnx send_ok ip tm o p v) in
    let* _ := do_duplicate rc (put_key p) in
    sret (rc, true)
  else sret (rc, true)).
Definition process_putnx_dup (o : origin) (c : dup request_put) (send_return : bool) : handled :=
  process_copy o c send_return (fun p => putnx (put_area p) (put_key_of p) (put_data p) (put_expired p)).

Definition process_put (o : origin) (p : request_put) (send_return : bool) : handled :=
  process_before (put_hash_code p) send_return (
  let p := put_with_key (put_key_of p) p in
  let* rc := on_manager (put (put_area p) (put_key p) (put_data p) (put_expired p)) in
  copy_or_answer rc (server_flag (put_key p)) true (fun tm v => duplicate_put send_ok ip tm o p v) (sret (rc, true))).
Definition process_put_dup (o : origin) (c : dup request_put) (send_return : bool) : handled :=
  process_copy o c send_return (fun p => put (put_area p) (put_key p) (put_data p) (put_expired p)).

(** [response_get]: [add_key_data] puts the first pair into the response and all
    of them into a map when there is a second one. *)
Record getting := mk_getting { gt_count : Z; gt_single : option (data_entry * data_entry); gt_map : option (list
  (data_entry * data_entry)) }.
Definition add_key_data (key data : data_entry) (g : getting) : getting :=
  if gt_count g =? 0 then mk_getting 1 (Some (key, data)) (gt_map g)
  else
    let pairs := match gt_map g with Some l => l | None => option_list (gt_single g) end in
    mk_getting (u32 (gt_count g + 1)) None (Some (pairs ++ [(key, data)])).
Definition response_of (v rc : Z) (g : getting) : response_get :=
  mk_response_get v rc (gt_count g) (gt_single g) (arrange <$> gt_map g) None.

(** The keys of a list: [data] is the entry the last miss has left. *)
Fixpoint get_each (area : Z) (keys : list data_entry) (data : data_entry) (count : Z) (g : getting) : procM (Z *
  getting) :=
  match keys with
  | [] => sret (count, g)
  | key :: rest =>
      let* (rev, key, data) := on_manager (get area key data) in
      if negb (rev =? TAIR_RETURN_SUCCESS) then get_each area rest data count g
      else get_each area rest new_data_entry (u32 (count + 1)) (add_key_data (copied key) data g)
  end.
Definition process_get (o : origin) (p : request_get) (send_return : bool) : handled :=
  if_working send_return (
  let none := mk_getting 0 None None in
  let* (rc, g) :=
    match get_key_list p, get_key p with
    | Some keys, _ =>
        let* (count, g) := get_each (get_area p) keys new_data_entry 0 none in
        sret (if count =? get_key_count p then TAIR_RETURN_SUCCESS else TAIR_RETURN_PARTIAL_SUCCESS, g)
    | None, Some key =>
        let* (rc, key, data) := on_manager (get (get_area p) key new_data_entry) in
        sret (rc, if rc =? TAIR_RETURN_SUCCESS then add_key_data key data none else none)
    | None, None => sret (TAIR_RETURN_FAILED, none)
    end in
  process_after o rc (fun v => General (RESP_GET (response_of v rc g)))).

Definition process_getset (o : origin) (p : request_sadd) (send_return : bool) : handled :=
  process_before no_hash send_return (
  let* (rc, key, value) :=
    on_manager (getset (sadd_area p) (sadd_key p) (sadd_value p) new_data_entry (sadd_version p) (sadd_expire p)) in
  let* _ := do_duplicate rc key in
  process_after o rc (fun v => General (RESP_GETSET (mk_response_hget v (get_version key) rc value)))).

(** The keys of a list are all removed; the last code counts. *)
Fixpoint remove_each (area rc : Z) (keys : list data_entry) : tmM Z :=
  match keys with
  | [] => sret rc
  | key :: rest => let* rc := remove area key in remove_each area rc rest
  end.
Definition removed (rc : Z) : bool := (rc =? TAIR_RETURN_SUCCESS) || (rc =? TAIR_RETURN_DATA_NOT_EXIST).
Definition remove_copies (o : origin) (p : request_get) (key : data_entry) (rc master_rc : Z) : handled :=
  if removed rc && NeedCopy (server_flag key) then
    let* v := get_client_version in
    let* rc := on_duplicator (fun tm => duplicate_remove send_ok uninit ip tm o p v master_rc) in
    sret (rc, true)
  else sret (rc, true).
Definition process_remove (o : origin) (p : request_get) (send_return : bool) : handled :=
  if_working send_return (
  match get_key_list p, get_key p with
  | Some keys, _ =>
      let* rc := on_manager (remove_each (get_area p) TAIR_RETURN_SUCCESS keys) in
      match list.last keys with
      | Some key => remove_copies o p key rc 0
      | None => slift Overrun
      end
  | None, Some key =>
      let* rc := on_manager (remove (get_area p) key) in
      remove_copies o p key rc rc
  | None, None => sret (TAIR_RETURN_SUCCESS, true)
  end).
Definition process_remove_dup (o : origin) (c : dup request_get) (send_return : bool) : handled :=
  process_copy o c send_return (fun p =>
    match get_key_list p, get_key p with
    | Some keys, _ => remove_each (get_area p) TAIR_RETURN_SUCCESS keys
    | None, Some key => remove (get_area p) key
    | None, None => sret TAIR_RETURN_SUCCESS
    end).

Definition process_inc_dec (o : origin) (p : request_inc_dec) (send_return : bool) : handled :=
  process_before no_hash send_return (
  let* (rc, key, value) :=
    on_manager (add_count (inc_area p) (inc_key p) (inc_add_count p) (inc_init_value p) 0 (inc_expired p)) in
  let* _ := do_duplicate rc key in
  if negb (rc =? TAIR_RETURN_SUCCESS) then sret (rc, true)
  else process_after o rc (fun v => General (RESP_INCDEC (mk_request_ping v value)))).

(** ** The data of a migration (packets/mupdate_packet.hpp) *)

Record operation_record := mk_operation_record { operation_type : Z; op_key : data_entry; op_value : data_entry }.
Record request_mupdate := mk_request_mupdate { mupdate_server_flag : Z; key_and_values : option (list
  operation_record) }.

Fixpoint migrate_each (rc : Z) (ops : list operation_record) : tmM Z :=
  match ops with
  | [] => sret rc
  | oprec :: rest =>
      if operation_type oprec =? 1 then
        let* rc := direct_put (op_key oprec) (op_value oprec) in
        if negb (rc =? TAIR_RETURN_SUCCESS) then sret rc else migrate_each rc rest
      else if operation_type oprec =? 2 then
        let* rc := direct_remove (op_key oprec) in
        if negb (rc =? TAIR_RETURN_SUCCESS) then sret rc else migrate_each rc rest
      else sret TAIR_RETURN_INVALID_ARGUMENT
  end.
Definition process_mupdate (p : request_mupdate) (send_return : bool) : handled :=
  if_working send_return (
  if negb (mupdate_server_flag p =? TAIR_SERVERFLAG_MIGRATE) then sret (TAIR_RETURN_INVALID_ARGUMENT, send_return) else
  let* rc := on_manager (migrate_each TAIR_RETURN_SUCCESS (default [] (key_and_values p))) in
  sret (rc, send_return)).

End request_processor.
