(* ===== verification/TairServer.v ===== *)
(** * The dispatch of packets in a data server (dataserver/tair_server.cpp)

    [handlePacketQueue] gives every packet to its handler and answers with a
    [response_return] when the handler has left that to it.  Slow requests that
    come from the network go into a queue and come back with the other
    direction: [received] says whether the packet comes from the network.

    Not modelled: the request for information ([request_info], which the factory
    does not know) and the dump tasks. *)

From S2P Require Import Prelude PacketCodes Util DataBuffer DataEntry MdbManager TableManager Storage TairManager BasePacket KvPackets ConfPackets KeyPackets ListPackets HashPackets SetPackets ZsetPackets PacketFactory CopyPackets DupSync RequestProcessor.

Definition TAIR_RETURN_PROXYED : Z := -4000.
Definition EXIT_FAILURE : Z := 1.

Section tair_server.
Context {St : Type} `{storage_manager St} (ip uninit : Z) (post_ok send_ok : Z -> bool) (remote_sync : bool)
  (arrange : list (data_entry * data_entry) -> list (data_entry * data_entry)).

Local Notation handled := (@handled St).

(** A packet without a handler *)
Definition no_handler (send_return : bool) : handled := sret (EXIT_FAILURE, send_return).

(** [ret] is what the handler returns, but for [clear], whose code 0 of success
    is compared with [false]. *)
Definition remove_area_task (received : bool) (p : request_remove_area) : handled :=
  if received then
    let* _ := put_out (Queue (General (REQ_REMOVE_AREA p))) in sret (TAIR_RETURN_SUCCESS, true)
  else
    let* rc := on_manager (clear (rarea_area p)) in
    sret (if rc =? 0 then EXIT_FAILURE else TAIR_RETURN_SUCCESS, true).

(** A dump that comes back from the queue is handed to the dump manager. *)
Definition process_general (o : origin) (received : bool) (p : general_packet) : handled :=
  match p with
  | REQ_PUT p => process_put ip send_ok o p true
  | REQ_PUTNX p => process_putnx ip send_ok remote_sync o p true
  | REQ_REMOVE p => process_remove ip uninit send_ok o p true
  | REQ_LAZY_REMOVE_AREA p => process_lazy_remove_area post_ok o p true
  | REQ_DUMP_AREA p => process_dump_area post_ok o p true
  | REQ_LOAD_AREA p => process_load_area post_ok o p true
  | REQ_EXISTS p => process_exists ip post_ok o p true
  | REQ_HEXISTS p => process_hexists ip post_ok o p true
  | REQ_GETSET p => process_getset ip post_ok remote_sync o p true
  | REQ_EXPIRE p => process_expire ip post_ok o p true
  | REQ_EXPIREAT p => process_expireat ip post_ok o p true
  | REQ_PERSIST p => process_persist ip post_ok o p true
  | REQ_ADD_FILTER p => process_addfilter post_ok o p true
  | REQ_REMOVE_FILTER p => process_removefilter post_ok o p true
  | REQ_INCDEC p => process_inc_dec ip post_ok remote_sync o p true
  | REQ_OP_CMD p => process_op_cmd post_ok o p true
  | REQ_GET p => let* (ret, _) := process_get post_ok arrange o p true in sret (ret, false)
  | REQ_REMOVE_AREA p => remove_area_task received p
  | REQ_PING p => sret (ping_value p, true)
  | REQ_DUMP p =>
      let* _ := (if received then put_out (Queue (General (REQ_DUMP p))) else sret tt) in
      sret (TAIR_RETURN_SUCCESS, true)
  | _ => no_handler true
  end.

Definition process_list (o : origin) (p : list_packet) : handled :=
  match p with
  | REQ_LLEN p => process_llen ip uninit post_ok o p true
  | REQ_LPOP p => process_lrpop ip post_ok send_ok remote_sync o p true
  | REQ_RPOP p => process_lrpop ip post_ok send_ok remote_sync o p true
  | REQ_LPUSH p => process_lrpush ip uninit post_ok send_ok o p true
  | REQ_RPUSH p => process_lrpush ip uninit post_ok send_ok o p true
  | REQ_LPUSHX p => process_lrpush ip uninit post_ok send_ok o p true
  | REQ_RPUSHX p => process_lrpush ip uninit post_ok send_ok o p true
  | REQ_LPUSH_LIMIT p => process_lrpush_limit ip uninit post_ok send_ok o p true
  | REQ_RPUSH_LIMIT p => process_lrpush_limit ip uninit post_ok send_ok o p true
  | REQ_LPUSHX_LIMIT p => process_lrpush_limit ip uninit post_ok send_ok o p true
  | REQ_RPUSHX_LIMIT p => process_lrpush_limit ip uninit post_ok send_ok o p true
  | REQ_LINDEX p => process_lindex ip post_ok o p true
  | REQ_LTRIM p => process_ltrim ip post_ok send_ok o p true
  | REQ_LRANGE p => process_lrange ip post_ok o p true
  | REQ_LREM p => process_lrem ip uninit post_ok send_ok o p true
  | REQ_LSET p => process_lset ip post_ok send_ok o p true
  | _ => no_handler true
  end.

Definition process_hash (o : origin) (p : hash_packet) : handled :=
  match p with
  | REQ_HGETALL p => process_hgetall ip uninit post_ok o p true
  | REQ_HINCRBY p => process_hincrby ip post_ok o p true
  | REQ_HMSET p => process_hmset ip post_ok send_ok o p true
  | REQ_HSET p => process_hset ip post_ok send_ok o p true
  | REQ_HSETNX p => process_hsetnx ip post_ok send_ok o p true
  | REQ_HGET p => process_hget ip post_ok o p true
  | REQ_HMGET p => process_hmget ip post_ok o p true
  | REQ_HDEL p => process_hdel ip post_ok send_ok o p true
  | REQ_HVALS p => process_hvals ip uninit post_ok o p true
  | REQ_HKEYS p => process_hkeys ip uninit post_ok o p true
  | REQ_HLEN p => process_hlen ip uninit post_ok o p true
  | _ => no_handler true
  end.

Definition process_set (o : origin) (p : set_packet) : handled :=
  match p with
  | REQ_SCARD p => process_scard ip uninit post_ok o p true
  | REQ_SMEMBERS p => process_smembers ip post_ok o p true
  | REQ_SADD p => process_sadd ip post_ok send_ok o p true
  | REQ_SPOP p => process_spop ip post_ok send_ok remote_sync o p true
  | REQ_SREM p => process_srem ip post_ok send_ok o p true
  | REQ_SADDMULTI p => process_sadd_multi ip post_ok send_ok remote_sync o p true
  | REQ_SREMMULTI p => process_srem_multi ip post_ok send_ok remote_sync o p true
  | REQ_SMEMBERSMULTI p => process_smembers_multi ip post_ok o p true
  | _ => no_handler true
  end.

Definition process_zset (o : origin) (p : zset_packet) : handled :=
  match p with
  | REQ_ZSCORE p => process_zscore ip uninit post_ok o p true
  | REQ_ZRANGE p => process_zrange ip post_ok o p true
  | REQ_ZREVRANGE p => process_zrevrange ip post_ok o p true
  | REQ_ZRANGEBYSCORE p => process_zrangebyscore ip post_ok o p true
  | REQ_GENERIC_ZRANGEBYSCORE p => process_generic_zrangebyscore ip post_ok o p true
  | REQ_ZADD p => process_zadd ip post_ok send_ok o p true
  | REQ_ZRANK p => process_zrank ip uninit post_ok o p true
  | REQ_ZREVRANK p => process_zrevrank ip uninit post_ok o p true
  | REQ_ZCOUNT p => process_zcount ip post_ok o p true
  | REQ_ZINCRBY p => process_zincrby ip post_ok o p true
  | REQ_ZCARD p => process_zcard ip uninit post_ok o p true
  | REQ_ZREM p => process_zrem ip post_ok send_ok o p true
  | REQ_ZREMRANGEBYRANK p => process_zremrangebyrank ip post_ok send_ok o p true
  | REQ_ZREMRANGEBYSCORE p => process_zremrangebyscore ip post_ok send_ok o p true
  | _ => no_handler true
  end.

Definition process_common (o : origin) (p : common_packet) : handled :=
  match p with
  | REQ_TTL p => process_ttl ip uninit post_ok o p true
  | REQ_TYPE p => process_type ip uninit post_ok o p true
  | _ => no_handler true
  end.

Definition process_copies (o : origin) (p : copy_packet) : handled :=
  match p with
  | REQ_PUT_DUPLICATE p => process_put_dup ip post_ok o p true
  | REQ_PUTNX_DUPLICATE p => process_putnx_dup ip post_ok o p true
  | REQ_REMOVE_DUPLICATE p => process_remove_dup ip post_ok o p true
  | REQ_LPUSH_DUPLICATE p => process_lrpush_dup ip uninit post_ok o p true
  | REQ_RPUSH_DUPLICATE p => process_lrpush_dup ip uninit post_ok o p true
  | REQ_LPUSHX_DUPLICATE p => process_lrpush_dup ip uninit post_ok o p true
  | REQ_RPUSHX_DUPLICATE p => process_lrpush_dup ip uninit post_ok o p true
  | REQ_LPOP_DUPLICATE p => process_lrpop_dup ip post_ok o p true
  | REQ_RPOP_DUPLICATE p => process_lrpop_dup ip post_ok o p true
  | REQ_LTRIM_DUPLICATE p => process_ltrim_dup ip post_ok o p true
  | REQ_LREM_DUPLICATE p => process_lrem_dup ip post_ok o p true
  | REQ_LSET_DUPLICATE p => process_lset_dup ip post_ok o p true
  | REQ_HMSET_DUPLICATE p => process_hmset_dup ip uninit post_ok o p true
  | REQ_HSET_DUPLICATE p => process_hset_dup ip post_ok o p true
  | REQ_HSETNX_DUPLICATE p => process_hsetnx_dup ip post_ok o p true
  | REQ_HDEL_DUPLICATE p => process_hdel_dup ip post_ok o p true
  | REQ_SPOP_DUPLICATE p => process_spop_dup ip post_ok o p true
  | REQ_SREM_DUPLICATE p => process_srem_dup ip post_ok o p true
  | REQ_SADD_DUPLICATE p => process_sadd_dup ip post_ok o p true
  | REQ_SADD_MULTI_DUPLICATE p => process_sadd_multi_dup ip post_ok remote_sync o p true
  | REQ_SREM_MULTI_DUPLICATE p => process_srem_multi_dup ip post_ok remote_sync o p true
  | REQ_ZADD_DUPLICATE p => process_zadd_dup ip post_ok o p true
  | REQ_ZREM_DUPLICATE p => process_zrem_dup ip post_ok o p true
  | REQ_ZREMRANGEBYRANK_DUPLICATE p => process_zremrangebyrank_dup ip uninit post_ok o p true
  | REQ_ZREMRANGEBYSCORE_DUPLICATE p => process_zremrangebyscore_dup ip uninit post_ok o p true
  end.

Definition process (o : origin) (received : bool) (p : packet) : handled :=
  match p with
  | General p => process_general o received p
  | List p => process_list o p
  | Hash p => process_hash o p
  | Set_ p => process_set o p
  | Zset p => process_zset o p
  | Common p => process_common o p
  | Copy p => process_copies o p
  end.

(** [set_return_packet(packet, ret, "", version)] *)
Definition set_return_packet (o : origin) (ret : Z) : @procM St unit :=
  let* v := get_client_version in
  post post_ok o (Plain (General (RESP_RETURN (mk_response_return v ret [])))).

(** The result says whether the packet is deleted by the caller. *)
Definition handlePacketQueue (conn chid : Z) (received : bool) (p : packet) : @procM St bool :=
  let o := mk_origin conn chid (pcode_of p) in
  let* (ret, send_return) := process o received p in
  if ret =? TAIR_RETURN_PROXYED then sret false
  else if ret =? TAIR_DUP_WAIT_RSP then sret true
  else
    let* _ := (if (send_return : bool) && received then set_return_packet o ret else sret tt) in
    sret true.
End tair_server.
