(* ===== verification/Replication.v ===== *)
(** * A client's put from the master to its slaves and back

    The dispatcher, the handlers, the operations over an engine that keeps
    [KeyValueLaws], the duplicator and the slaves together: what a slave has
    done when it acknowledges a copy, and what the master and the slaves hold
    when the client is told that its put has succeeded. *)

From S2P Require Import Prelude PacketCodes Util DataBuffer DataEntry MemPool MdbItem MemCache SlabLists SlabAlloc EngineState MdbManager Engine TableManager Storage TairManager TairService BasePacket KvPackets ConfPackets KeyPackets ListPackets HashPackets SetPackets ZsetPackets PacketFactory CopyPackets DupSync DupSyncTheorems RequestProcessor TairServer.

(** ** Copies *)

(** An entry that owns its bytes, as the decoder makes it. *)
Record owned (e : data_entry) : Prop := {
  ow_data : DataEntry.data e = Some (get_data e);
  ow_size : get_size e = Z.of_nat (length (get_data e));
  ow_some : 1 <= get_size e;
  ow_merged : has_merged e = false
}.

Lemma cloned_owned e :
  owned e -> cloned e = mk_data_entry (size e) (Some (get_data e)) true 0 (has_merged e) (has_meta_merged e)
                          (DataEntry.area e) (server_flag e) (data_meta e).
Proof.
  intros [Hd Hs Hp Hm]. unfold cloned, clone, DataEntry.set_data, copy_fields, get_size in *. cbn [free_data new_data_entry].
  destruct (Z.ltb_spec 0 (size e)); [|lia]. cbn. rewrite Hd, take_ge by lia. done.
Qed.

(** What a slave gets of an entry that the master sends a copy of *)
Lemma sent_entry e :
  owned e ->
  let r := recv (cloned e) in
  get_data r = get_data e /\ get_size r = get_size e /\ has_merged r = false
  /\ server_flag r = server_flag e /\ data_meta r = data_meta e.
Proof.
  intros Ho. rewrite (cloned_owned e Ho). destruct Ho as [Hd Hs Hp Hm]. unfold received, get_size in *. cbn.
  destruct (Z.ltb_spec 0 (size e)); [done|lia].
Qed.

Lemma client_key_owned area key : client_key area key -> DataEntry.data key <> None -> owned key.
Proof.
  intros [_ Hm [Hs [Hp _]]] Hd. constructor; [|done|done|done]. unfold get_data. by destruct (DataEntry.data key).
Qed.

(** ** Puts *)

(** What a client may put: key and value have bytes, and the packet is taken
    as a client's. *)
Record client_put (p : request_put) : Prop := {
  cp_flag : put_server_flag p = TAIR_SERVERFLAG_CLIENT;
  cp_hash : put_hash_code p = -1;
  cp_version : in_u 16 (put_version p);
  cp_key : client_key (put_area p) (put_key p) /\ owned (put_key p);
  cp_value : client_value (put_data p) /\ owned (put_data p)
}.

Definition put_at (p : request_put) : list Z := area_key (put_area p) (get_data (put_key p)).
(** The store holds the put that was made at the time [now]. *)
Definition holds_put (p : request_put) (now : Z) (c : gmap (list Z) entry) : Prop :=
  exists e, c !! put_at p = Some e /\ e_value e = get_data (put_data p)
    /\ (0 < put_expired p -> e_exptime e = put_exptime (put_expired p) now 0).

(** The request as the handler changes it *)
Definition handled_put (p : request_put) : request_put := put_with_key (put_key_of p) p.

Lemma handled_put_key p :
  client_put p ->
  client_key (put_area p) (put_key_of p) /\ owned (put_key_of p) /\ get_data (put_key_of p) = get_data (put_key p)
  /\ server_flag (put_key_of p) = TAIR_SERVERFLAG_CLIENT.
Proof.
  intros [Hf _ _ [[Ha Hm Hs] Ho] _]. split; [by constructor|]. split; [by destruct Ho; constructor|]. done.
Qed.

Section replication.
Context {St : Type} `{Hlaws : KeyValueLaws St}.

(** A data server in working order that stands for the store [c] *)
Definition server_serves (ds : data_server St) (c : gmap (list Z) entry) : Prop := serves (ds_manager ds) c.
Definition server_clock (ds : data_server St) : Z := tm_clock (ds_manager ds).
Definition server_holds (p : request_put) (ds : data_server St) (c : gmap (list Z) entry) : Prop :=
  server_serves ds c /\ holds_put p (server_clock ds) c.

(** The packet a slave gets *)
Definition copy_packet_of (p : request_put) (id bucket : Z) : packet :=
  Copy (REQ_PUT_DUPLICATE (mk_dup (request_put_copy (handled_put p)) id bucket)).

Lemma on_manager_run {A} (m : @tmM St A) ds out a tm :
  m (ds_manager ds) = Ret (a, tm) ->
  on_manager m (ds, out) = Ret (a, (mk_data_server tm (ds_duplicator ds) (ds_client_version ds), out)).
Proof. intros E. unfold on_manager. by rewrite E. Qed.

Lemma if_working_run (ds : data_server St) out c sr k :
  server_serves ds c -> if_working sr k (ds, out) = k (ds, out).
Proof.
  intros [Hst _]. unfold if_working. step_with (eq_refl : sget (ds, out) = Ret ((ds, out), (ds, out))).
  unfold is_working. by rewrite Hst.
Qed.

(** [put] with the request: refused for its version, or stored. *)
Lemma put_stores tm c area key value expire :
  serves tm c -> client_key area key -> client_value value -> item_room tm key (get_size value) ->
  exists rc tm' c', put area key value expire tm = Ret (rc, tm') /\ serves tm' c' /\ same_server tm tm'
    /\ (rc = TAIR_RETURN_VERSION_ERROR /\ c' = c /\ get_version key <> 0
        \/ rc = TAIR_RETURN_SUCCESS
           /\ exists e, c' !! area_key area (get_data key) = Some e /\ e_value e = get_data value
                /\ (0 < expire -> e_exptime e = put_exptime expire (tm_clock tm) 0)).
Proof.
  intros Hs Hk Hv Hr. destruct (put_run tm c area key value expire Hs Hk Hv Hr) as (rc & tm' & c' & E & Hs' & Hsame & Hsp).
  exists rc, tm', c'. split; [done|]. split; [done|]. split; [done|].
  inversion Hsp as [Hst|base e c1 _ He _]; subst.
  { left. split; [done|]. split; [done|]. rewrite (get_version_mkey _ _ Hk) in Hst. unfold put_base in Hst. intros Hz. rewrite Hz in Hst.
    destruct (c' !! _); [|done]. destruct (entry_expired _ _); [done|]. cbn in Hst. by rewrite andb_false_r in Hst. }
  right. split; [done|]. exists e.
  rewrite (get_data_mkey _ _ Hk), lookup_insert_eq. split; [done|]. split; [apply He|]. intros Hx.
  rewrite (st_exptime _ _ _ _ _ _ _ He) by lia. by rewrite Z.max_r by lia.
Qed.

(** *** The slave *)

Section slave.
Context (ip uninit : Z) (post_ok send_ok : Z -> bool) (remote_sync : bool)
  (arrange : list (data_entry * data_entry) -> list (data_entry * data_entry)).

Lemma answer_copy_run o id bucket rc (ds : data_server St) out :
  exists acks, answer_copy ip post_ok o id bucket rc (ds, out) = Ret ((rc, false), (ds, out ++ acks))
    /\ (acks = [] \/ acks = [Post (from_conn o) (from_chid o)
                               (Plain (General (RESP_DUPLICATE (mk_response_duplicate id ip bucket 0 0))))]
                     /\ (rc = TAIR_RETURN_SUCCESS \/ rc = TAIR_RETURN_DATA_NOT_EXIST))
    /\ (post_ok (from_conn o) = true -> rc = TAIR_RETURN_SUCCESS -> acks <> []).
Proof.
  unfold answer_copy, post, postPacket. destruct (post_ok (from_conn o)) eqn:Hp.
  - destruct (Z.eqb_spec rc TAIR_RETURN_SUCCESS) as [->|H1]; [|destruct (Z.eqb_spec rc TAIR_RETURN_DATA_NOT_EXIST) as [->|H2]].
    + eexists [_]. split; [reflexivity|]. split; [|done]. right. split; [done|by left].
    + eexists [_]. split; [reflexivity|]. split; [|done]. right. split; [done|by right].
    + exists []. rewrite app_nil_r. split; [done|]. split; [by left|done].
  - exists []. rewrite app_nil_r. split; [|by split; [left|]]. by destruct ((rc =? TAIR_RETURN_SUCCESS) || _).
Qed.

Lemma slave_applies (ds : data_server St) c conn chid p id bucket out :
  client_put p -> server_serves ds c -> item_room (ds_manager ds) (put_key p) (get_size (put_data p)) ->
  exists ds' c' acks,
    handlePacketQueue ip uninit post_ok send_ok remote_sync arrange conn chid true
      (received_of (copy_packet_of p id bucket)) (ds, out) = Ret (true, (ds', out ++ acks))
    /\ server_serves ds' c' /\ same_server (ds_manager ds) (ds_manager ds') /\ ds_duplicator ds' = ds_duplicator ds
    /\ (holds_put p (server_clock ds) c' \/ c' = c)
    /\ (acks = [] \/ acks = [Post conn chid (Plain (General (RESP_DUPLICATE (mk_response_duplicate id ip bucket 0 0))))]
                     /\ holds_put p (server_clock ds) c')
    /\ (post_ok conn = true -> put_version p = 0 -> acks <> []).
Proof.
  intros Hp Hs Hr. pose proof (handled_put_key p Hp) as (Hk & Hko & Hkd & _).
  pose proof (sent_entry _ Hko) as (Hd & Hsz & Hm & _ & _). destruct Hp as [_ _ _ _ [Hv Hvo]].
  pose proof (sent_entry _ Hvo) as (Hvd & Hvs & _ & _ & _).
  set (key := DataEntry.set_version (put_version p) (recv (cloned (put_key_of p)))). set (value := recv (cloned (put_data p))).
  assert (client_key (put_area p) key) as Hk'.
  { destruct Hk as [Ha _ [Hs1 Hs2]]. constructor; [done|exact Hm|]. change (get_size key) with (get_size (recv (cloned (put_key_of p)))).
    change (get_data key) with (get_data (recv (cloned (put_key_of p)))). by rewrite Hd, Hsz. }
  assert (client_value value) as Hv' by (unfold client_value, value in *; by rewrite Hvd, Hvs).
  destruct (put_stores (ds_manager ds) c (put_area p) key value (put_expired p) Hs Hk' Hv')
    as (rc & tm' & c' & E & Hs' & Hsame & Hcases).
  { unfold item_room, value in *. rewrite Hvs. change (get_size key) with (get_size (recv (cloned (put_key_of p)))). by rewrite Hsz. }
  set (ds' := mk_data_server tm' (ds_duplicator ds) (ds_client_version ds)).
  set (c0 := mk_dup (mk_request_put (put_server_flag p) (put_area p) (put_version p) (put_expired p) (-1) key value) id bucket).
  set (o := mk_origin conn chid (pcode_of (Copy (REQ_PUT_DUPLICATE c0)))).
  assert (process_put_dup ip post_ok o c0 true (ds, out) = answer_copy ip post_ok o id bucket rc (ds', out)) as Eh.
  { unfold process_put_dup, process_copy. rewrite (if_working_run ds out c) by done. by step_with (on_manager_run _ ds out _ _ E). }
  assert (holds_put p (server_clock ds) c' \/ rc = TAIR_RETURN_VERSION_ERROR /\ c' = c) as Hrc.
  { destruct Hcases as [(Hv0 & Hc0 & _)|[_ (e & He & Hev & Hex)]]; [by right|]. left. exists e. unfold put_at. split; [|rewrite Hev; split; [exact Hvd|exact Hex]].
    change (get_data key) with (get_data (recv (cloned (put_key_of p)))) in He. by rewrite Hd, Hkd in He. }
  exists ds', c'. change (received_of (copy_packet_of p id bucket)) with (Copy (REQ_PUT_DUPLICATE c0)).
  unfold handlePacketQueue. fold o. cbn [process process_copies].
  assert (rc <> TAIR_RETURN_PROXYED /\ rc <> TAIR_DUP_WAIT_RSP) as [Hx1 Hx2] by (destruct Hcases as [[-> _]|[-> _]]; done).
  assert (put_version p = 0 -> rc = TAIR_RETURN_SUCCESS) as Hzero.
  { intros Hz. destruct Hcases as [(_ & _ & Hne)|[? _]]; [|done]. exfalso. apply Hne.
    change (get_version key) with (u16 (put_version p)). by rewrite Hz. }
  destruct (answer_copy_run o id bucket rc ds' out) as (acks & Ea & Hacks & Hsent). rewrite <- Eh in Ea.
  exists acks. split; [|split; [done|split; [done|split; [done|split; [|split]]]]].
  - step_with Ea. by rewrite (proj2 (Z.eqb_neq _ _) Hx1), (proj2 (Z.eqb_neq _ _) Hx2).
  - destruct Hrc as [Hh|[_ ->]]; [by left|by right].
  - destruct Hacks as [?|[-> Hok]]; [by left|]. destruct Hrc as [Hh|[Hv0 _]]; [by right|]. rewrite Hv0 in Hok. by destruct Hok.
  - intros Hpost Hz. apply Hsent; [done|by apply Hzero].
Qed.
End slave.

(** *** The master *)

Lemma get_bucket_number_same key (tm tm' : tair_manager St) :
  tm_table tm' = tm_table tm -> get_bucket_number key tm' = get_bucket_number key tm.
Proof. intros E. unfold get_bucket_number, bucket_of_hash. by rewrite E. Qed.

Lemma get_slaves_same ip flag bucket (tm tm' : tair_manager St) :
  tm_table tm' = tm_table tm -> tm_done tm' = tm_done tm -> get_slaves ip flag bucket tm' = get_slaves ip flag bucket tm.
Proof. intros E1 E2. unfold get_slaves. by rewrite E1, E2. Qed.

Section master.
Context (ip uninit : Z) (post_ok send_ok : Z -> bool) (remote_sync : bool)
  (arrange : list (data_entry * data_entry) -> list (data_entry * data_entry)).

Definition dispatch := handlePacketQueue ip uninit post_ok send_ok remote_sync arrange.

(** The put of a client at a master that has slaves for the bucket. *)
Record master_of (ds : data_server St) (d : dup_sync_sender_manager) (p : request_put) (bucket : Z) (slaves : list Z) : Prop := {
  ms_duplicator : ds_duplicator ds = Some d;
  ms_sender : sender_ok d;
  ms_bucket : get_bucket_number (put_key p) (ds_manager ds) = Ret bucket;
  ms_slaves : get_slaves ip TAIR_SERVERFLAG_CLIENT bucket (ds_manager ds) = Ret slaves;
  ms_can : can_duplicate send_ok d slaves bucket
}.

Lemma process_put_run (ds : data_server St) c o p out :
  client_put p -> server_serves ds c ->
  process_put ip send_ok o p true (ds, out)
  = (let* rc := on_manager (put (put_area p) (put_key_of p) (put_data p) (put_expired p)) in
     copy_or_answer rc (server_flag (put_key_of p)) true
       (fun tm v => duplicate_put send_ok ip tm o (handled_put p) v) (sret (rc, true))) (ds, out).
Proof.
  intros [_ Hh _ _ _] Hs. unfold process_put, process_before. rewrite (if_working_run ds out c) by done. by rewrite Hh.
Qed.

(** The answer of a put that is refused, and the copies of one that is stored *)
Lemma master_put (ds : data_server St) c conn chid p d bucket slaves out :
  client_put p -> server_serves ds c -> item_room (ds_manager ds) (put_key p) (get_size (put_data p)) ->
  post_ok conn = true -> master_of ds d p bucket slaves ->
  let id := next_id slaves d in let v := ds_client_version ds in
  exists ds' c', server_serves ds' c' /\ same_server (ds_manager ds) (ds_manager ds')
    /\ (c' = c /\ put_version p <> 0 /\ ds_duplicator ds' = Some d /\ dispatch conn chid true (General (REQ_PUT p)) (ds, out)
         = Ret (true, (ds', out ++ [Post conn chid (Plain (General (RESP_RETURN
                                      (mk_response_return v TAIR_RETURN_VERSION_ERROR []))))]))
        \/ holds_put p (server_clock ds) c' /\ dispatch conn chid true (General (REQ_PUT p)) (ds, out)
         = Ret (true, (ds', out ++ map (fun sv => Send sv (Plain (copy_packet_of p id bucket)) id) slaves))
           /\ exists d', ds_duplicator ds' = Some d' /\ sender_ok d'
                /\ let node := new_wait_node bucket (mk_origin conn chid TAIR_REQ_PUT_PACKET) slaves v in
                   m_PkgWaitMap (packets_mgr d') = <[id := node]> (m_PkgWaitMap (packets_mgr d))
                   /\ awaited node = list_to_set (take MAX_DUP_COUNT slaves)).
Proof.
  intros Hp Hs Hr Hpost [Hd Hdok Hb Hsl Hcan] id v. pose proof (handled_put_key p Hp) as (Hk & _ & Hkd & Hkf).
  pose proof (process_put_run ds c (mk_origin conn chid TAIR_REQ_PUT_PACKET) p out Hp Hs) as Eh.
  destruct (put_stores (ds_manager ds) c (put_area p) (put_key_of p) (put_data p) (put_expired p) Hs Hk)
    as (rc & tm' & c' & E & Hs' & Hsame & Hcases); [apply Hp|done|].
  set (ds1 := mk_data_server tm' (ds_duplicator ds) v).
  rewrite (sbind_run _ _ _ _ _ (on_manager_run _ ds out _ _ E)) in Eh. fold v ds1 in Eh.
  unfold dispatch, handlePacketQueue. change (pcode_of (General (REQ_PUT p))) with TAIR_REQ_PUT_PACKET.
  cbn [process process_general]. destruct Hcases as [(-> & -> & Hne)|[-> (e & He & Hev)]].
  - exists ds1, c. split; [done|]. split; [done|]. left. split; [done|]. split.
    { intros Hz. apply Hne. change (get_version (put_key_of p)) with (u16 (put_version p)). by rewrite Hz. }
    split; [done|]. step_with Eh. cbn [Z.eqb Pos.eqb andb].
    unfold set_return_packet, post, postPacket. cbn [from_conn]. rewrite Hpost. reflexivity.
  - rewrite Hkf in Eh. cbn [Z.eqb Pos.eqb andb] in Eh.
    destruct (duplicate_put_run post_ok send_ok ip tm' (mk_origin conn chid TAIR_REQ_PUT_PACKET) (handled_put p) v bucket slaves d out Hdok)
      as (d' & Ed & Hd' & Hnode & Haw); [| |done|].
    { by rewrite (get_bucket_number_same _ (ds_manager ds)) by apply Hsame. }
    { change (put_key (handled_put p)) with (put_key_of p). rewrite Hkf.
      by rewrite (get_slaves_same _ _ _ (ds_manager ds)) by apply Hsame. }
    exists (mk_data_server tm' (Some d') v), c'. split; [done|]. split; [done|]. right.
    split; [exists e; unfold put_at; by rewrite <- Hkd|]. split; [|by exists d'].
    assert (on_duplicator (fun tm => duplicate_put send_ok ip tm (mk_origin conn chid TAIR_REQ_PUT_PACKET) (handled_put p) v) (ds1, out)
            = Ret (TAIR_DUP_WAIT_RSP, (mk_data_server tm' (Some d') v,
                     out ++ map (fun sv => Send sv (Plain (copy_packet_of p id bucket)) id) slaves))) as Eo.
    { unfold on_duplicator, ds1. cbn [ds_duplicator ds_manager]. rewrite Hd, Ed. done. }
    unfold copy_or_answer in Eh. change (NeedCopy TAIR_SERVERFLAG_CLIENT) with true in Eh.
    rewrite Z.eqb_refl in Eh. cbn [andb] in Eh. rewrite (sbind_run _ _ _ v (ds1, out)) in Eh by done. rewrite (sbind_run _ _ _ _ _ Eo) in Eh.
    by step_with Eh.
Qed.

End master.

(** *** All of them *)

Lemma acked_response sv id es :
  sv ∈ acked id es -> exists r, Response r ∈ es /\ rspd_packet_id r = id /\ rspd_server_id r = sv.
Proof.
  induction es as [|e es IH]; [set_solver|]. assert (sv ∈ acked id es -> exists r, Response r ∈ e :: es
    /\ rspd_packet_id r = id /\ rspd_server_id r = sv) as IH'.
  { intros Hin. destruct (IH Hin) as (r & Hr & H'). exists r. split; [by apply list_elem_of_further|done]. }
  destruct e as [j|r|]; cbn [acked].
  - destruct (decide (j = id)); [set_solver|done].
  - destruct (decide (rspd_packet_id r = id)) as [E|E]; [|done]. intros [H'%elem_of_singleton|Hin]%elem_of_union; [|auto].
    exists r. split; [apply list_elem_of_here|done].
  - done.
Qed.

Section cluster.
Context (uninit : Z) (post_ok send_ok : Z -> bool) (remote_sync : bool)
  (arrange : list (data_entry * data_entry) -> list (data_entry * data_entry)).

(** The server [sv] handles the copy, from [ds] to [ds'], and posts [replies]. *)
Definition slave_handles (sv : Z) (copy : packet) (ds ds' : data_server St) (replies : list output) : Prop :=
  exists conn chid, dispatch sv uninit post_ok send_ok remote_sync arrange conn chid true copy (ds, [])
                    = Ret (true, (ds', replies)).

(** C7: what success means to a client.  A put at the master is refused for its
    version, with nothing changed and the client told so, or the master holds
    it and the copies go out; then, whatever answers reach the master in
    whatever order, as long as those to this put come from its slaves, the
    client is told at most once that the put has succeeded, and only when each
    of the (at most two) slaves the master waits for holds the put as well. *)
Theorem answered_put_is_replicated (ip : Z) (ds : data_server St) (c : gmap (list Z) entry) (conn chid : Z)
    (p : request_put) (d : dup_sync_sender_manager) (bucket : Z) (slaves : list Z) (out : list output)
    (slave slave' : Z -> data_server St) (stores : Z -> gmap (list Z) entry) (replies : Z -> list output) :
  client_put p -> server_serves ds c -> item_room (ds_manager ds) (put_key p) (get_size (put_data p)) ->
  post_ok conn = true -> master_of ip send_ok ds d p bucket slaves ->
  let id := next_id slaves d in let v := ds_client_version ds in
  (forall sv, sv ∈ slaves -> server_serves (slave sv) (stores sv)
     /\ item_room (ds_manager (slave sv)) (put_key p) (get_size (put_data p))
     /\ slave_handles sv (received_of (copy_packet_of p id bucket)) (slave sv) (slave' sv) (replies sv)) ->
  exists ds' c' sent, dispatch ip uninit post_ok send_ok remote_sync arrange conn chid true (General (REQ_PUT p)) (ds, out)
      = Ret (true, (ds', out ++ sent)) /\ server_serves ds' c'
    /\ (c' = c /\ sent = [Post conn chid (Plain (General (RESP_RETURN (mk_response_return v TAIR_RETURN_VERSION_ERROR []))))]
        \/ holds_put p (server_clock ds) c' /\ sent = map (fun sv => Send sv (Plain (copy_packet_of p id bucket)) id) slaves
           /\ exists d', ds_duplicator ds' = Some d'
                /\ forall es out1, let waiting := m_PkgWaitMap (packets_mgr d') in
                   Forall (event_ok waiting) es ->
                   (forall r, Response r ∈ es -> rspd_packet_id r = id ->
                      exists sv sconn schid, sv ∈ slaves /\ Post sconn schid (Plain (General (RESP_DUPLICATE r))) ∈ replies sv) ->
                   exists d2 ids, handle_all post_ok uninit es (d', out1)
                       = Ret (tt, (d2, out1 ++ flat_map (answer_id post_ok uninit waiting) ids))
                     /\ base.NoDup ids
                     /\ answer_id post_ok uninit waiting id
                        = [Post conn chid (Plain (General (RESP_RETURN (mk_response_return v 0 []))))]
                     /\ (id ∈ ids -> forall sv, sv ∈ take MAX_DUP_COUNT slaves ->
                           exists c2, server_holds p (slave' sv) c2)).
Proof.
  intros Hp Hs Hr Hpost Hms id v Hslaves.
  destruct (master_put ip uninit post_ok send_ok remote_sync arrange ds c conn chid p d bucket slaves out Hp Hs Hr Hpost Hms)
    as (ds' & c' & Hs' & _ & [(Hc & _ & _ & E)|(Hh & E & d' & Hd' & Hok' & Hmap & Haw)]); exists ds', c'; eexists.
  { split; [exact E|]. split; [done|]. by left. }
  split; [exact E|]. split; [done|]. right. split; [done|]. split; [done|]. exists d'. split; [done|].
  intros es out1 waiting Hes Hfrom.
  assert (waiting !! id = Some (new_wait_node bucket (mk_origin conn chid TAIR_REQ_PUT_PACKET) slaves v)) as Hnode
    by (unfold waiting; rewrite Hmap; apply lookup_insert_eq).
  destruct (answers_run post_ok uninit d' id _ _ Hok' Hnode Haw es out1 Hes) as (d2 & ids & E2 & Hnd & Hin).
  exists d2, ids. split; [exact E2|]. split; [done|]. split; [exact (put_answer post_ok uninit _ _ _ _ _ _ Hnode eq_refl Hpost)|].
  intros Hid sv Hsv. apply Hin in Hid. assert (sv ∈ acked id es) as Hack by (apply Hid; by apply elem_of_list_to_set).
  destruct (acked_response sv id es Hack) as (r & Hres & Hrid & Hrsv).
  destruct (Hfrom r Hres Hrid) as (sv' & sconn & schid & Hsv' & Hpst).
  destruct (Hslaves sv' Hsv') as (Hsrv & Hroom & sc & sh & Eh).
  destruct (slave_applies sv' uninit post_ok send_ok remote_sync arrange (slave sv') (stores sv') sc sh p id bucket [] Hp Hsrv Hroom)
    as (ds2 & c2 & acks & E3 & Hs2 & Hsm & _ & _ & Hacks & _).
  unfold dispatch in Eh. rewrite E3 in Eh. injection Eh as Eds Erep. rewrite <- Erep in Hpst.
  destruct Hacks as [->|[-> Hh2]]; [by apply elem_of_nil in Hpst|].
  apply list_elem_of_singleton in Hpst. injection Hpst as _ _ ->. cbn in Hrsv. subst sv'.
  exists c2. rewrite <- Eds. split; [done|]. unfold server_clock, tm_clock. by rewrite (ss_clock _ _ Hsm).
Qed.
End cluster.
End replication.

(** ** An example: three servers with memory engines *)

#[local] Instance demo_storage : storage_manager mdb_manager := mdb_storage (fun _ _ _ => 0) zero_meta.
#[local] Instance demo_laws : KeyValueLaws mdb_manager := mdb_laws (fun _ _ _ => 0) zero_meta.

Definition demo_data_server (e : mdb) : data_server mdb_manager :=
  mk_data_server (mk_tair_manager false STATUS_CAN_WORK (mk_mdb_manager 1 e) (demo_table 3 [1; 2; 3]) (mk_bitset 1 ∅) ∅)
    (Some new_dup_sender) 4.

Lemma demo_serves :
  exists e, server_serves (demo_data_server e) ∅
    /\ item_room (ds_manager (demo_data_server e)) (put_key demo_put) (get_size (put_data demo_put)).
Proof. destruct started_serves as (e & _ & [_ Hs] & _ & Hr). exists e. split; [by split|]. by apply Hr. Qed.

Lemma demo_client_put : client_put demo_put.
Proof. constructor; [done|done|by vm_compute|split; constructor; by vm_compute|split; [by vm_compute|]; constructor; by vm_compute]. Qed.

Lemma answered_put_is_replicated_witness :
  exists e ds' c' sent,
    dispatch 1 0 (fun _ => true) (fun _ => true) false (fun l => l) 5 6 true (General (REQ_PUT demo_put)) (demo_data_server e, [])
    = Ret (true, (ds', [] ++ sent)) /\ server_serves ds' c'.
Proof.
  destruct demo_serves as (e & Hs & Hr). set (ds := demo_data_server e) in *.
  destruct (slave_applies 2 0 (fun _ => true) (fun _ => true) false (fun l => l) ds ∅ 7 8 demo_put 2 0 [] demo_client_put Hs Hr)
    as (ds2 & c2 & a2 & E2 & _).
  destruct (slave_applies 3 0 (fun _ => true) (fun _ => true) false (fun l => l) ds ∅ 7 8 demo_put 2 0 [] demo_client_put Hs Hr)
    as (ds3 & c3 & a3 & E3 & _).
  destruct (answered_put_is_replicated 0 (fun _ => true) (fun _ => true) false (fun l => l) 1 ds ∅ 5 6 demo_put
              new_dup_sender 0 [2; 3] [] (fun _ => ds) (fun sv => if sv =? 2 then ds2 else ds3) (fun _ => ∅)
              (fun sv => if sv =? 2 then a2 else a3) demo_client_put Hs Hr eq_refl) as (ds' & c' & sent & E & Hs' & _).
  - constructor; [done|apply new_dup_sender_ok|by vm_compute|by vm_compute|].
    constructor; [done|by vm_compute|split; [done|]|done]. repeat constructor; done.
  - intros sv Hsv. split; [exact Hs|]. split; [exact Hr|]. exists 7, 8.
    apply elem_of_cons in Hsv as [->|Hsv%list_elem_of_singleton]; [exact E2|]. subst sv. exact E3.
  - by exists e, ds', c', sent.
Defined.
