(* ===== verification/Answers.v ===== *)
(** * No request is answered twice

    What the handlers send, whatever the storage engine does: [quiet] steps send
    nothing to clients, a [copying] step sends copies and may leave a node that
    waits, an [answering] handler either answers or leaves the answer to the
    dispatcher or to the node.  The rules follow the shape of the handlers;
    [answering_tac] applies them. *)

From S2P Require Import Prelude PacketCodes Util DataBuffer DataEntry MdbManager TableManager Storage TairManager BasePacket KvPackets ConfPackets KeyPackets ListPackets HashPackets SetPackets ZsetPackets PacketFactory CopyPackets DupSync RequestProcessor TairServer.

(** The answers among what goes out *)
Definition is_post (o : output) : bool := match o with Post _ _ _ => true | _ => false end.
Definition posts (out : list output) : nat := length (filter (fun o => is_post o = true) out).

Lemma posts_app l k : posts (l ++ k) = (posts l + posts k)%nat.
Proof. unfold posts. by rewrite list.filter_app, length_app. Qed.

(** ** Copies *)

Definition nodes (s : dup_sync_sender_manager) : gmap Z CPacket_wait_Nodes := m_PkgWaitMap (packets_mgr s).

(** A step of the duplicator that answers nobody, and after which a new node
    waits only with the code [TAIR_DUP_WAIT_RSP]. *)
Definition copying (m : dupM Z) : Prop := forall s out rc s' out',
  m (s, out) = Ret (rc, (s', out')) ->
  exists extra, out' = out ++ extra /\ posts extra = 0%nat /\ (nodes s' = nodes s \/ rc = TAIR_DUP_WAIT_RSP).

Lemma sbind_inv {S A B} (m : stM S A) (k : A -> stM S B) s r :
  sbind m k s = Ret r -> exists a s', m s = Ret (a, s') /\ k a s' = Ret r.
Proof. unfold sbind. destruct (m s) as [[a s']| | | |]; try done. intros H. by exists a, s'. Qed.

Lemma on_waiting_inv {A} (m : waitM A) s out a s' out' :
  on_waiting m (s, out) = Ret (a, (s', out')) ->
  out' = out /\ exists w, m (packets_mgr s) = Ret (a, w) /\ nodes s' = m_PkgWaitMap w.
Proof. unfold on_waiting. destruct (m (packets_mgr s)) as [[b w]| | | |]; try done. intros [= -> <- <-]. split; [done|]. by exists w. Qed.

Lemma changeBucketCount_inv b n w r w' : changeBucketCount b n w = Ret (r, w') -> m_PkgWaitMap w' = m_PkgWaitMap w.
Proof. unfold changeBucketCount, sassert. destruct (_ && _); [|done]. by intros [= _ <-]. Qed.

Lemma addWaitNode_inv node b id w ret w' :
  addWaitNode node b id w = Ret (ret, w') ->
  (ret <> 0 /\ m_PkgWaitMap w' = m_PkgWaitMap w)
  \/ (ret = 0 /\ m_PkgWaitMap w !! id = None /\ m_PkgWaitMap w' = <[id := node]> (m_PkgWaitMap w)).
Proof.
  unfold addWaitNode. intros (w0 & w1 & [= <- <-] & H)%sbind_inv. destruct (_ <? _).
  { injection H as <- <-. by left. }
  destruct (m_PkgWaitMap w !! id) eqn:E; [injection H as <- <-; by left|]. right.
  apply sbind_inv in H as (r & w1 & E1%changeBucketCount_inv & H). injection H as <- <-. cbn. by rewrite E1.
Qed.

Lemma clear_waitnode_inv id w r w' :
  clear_waitnode id w = Ret (r, w') -> m_PkgWaitMap w' = delete id (m_PkgWaitMap w).
Proof.
  unfold clear_waitnode. intros (w0 & w1 & [= <- <-] & H)%sbind_inv.
  destruct (m_PkgWaitMap w !! id) eqn:E; [|injection H as _ <-; by rewrite delete_id].
  apply sbind_inv in H as (r1 & w1 & E1%changeBucketCount_inv & H). injection H as _ <-. cbn. by rewrite E1.
Qed.

Section copies.
Context (send_ok : Z -> bool).

Lemma send_copies_inv make id slaves s out rc s' out' :
  send_copies send_ok make id slaves (s, out) = Ret (rc, (s', out')) ->
  exists extra, out' = out ++ extra /\ posts extra = 0%nat
    /\ (rc = TAIR_DUP_WAIT_RSP \/ nodes s' = delete id (nodes s)).
Proof.
  revert out. induction slaves as [|sv slaves IH]; intros out; cbn [send_copies].
  { intros [= <- _ <-]. exists []. rewrite app_nil_r. split; [done|]. split; [done|by left]. }
  intros (m & [s1 out1] & E1 & H)%sbind_inv. unfold slift in E1. destruct make as [m0| | | |]; try done.
  injection E1 as _ <- <-. destruct (send_ok sv).
  - apply sbind_inv in H as (u & [s2 out2] & [= <- <- <-] & H). apply IH in H as (extra & -> & Hp & Hn).
    exists (Send sv m id :: extra). rewrite <- app_assoc. done.
  - apply sbind_inv in H as (u & [s2 out2] & (-> & w & Ew & Hn)%on_waiting_inv & [= <- <- <-]).
    exists []. rewrite app_nil_r. split; [done|]. split; [done|]. right. by rewrite Hn, (clear_waitnode_inv _ _ _ _ Ew).
Qed.

Lemma atomic_add_inv n s out v s' out' :
  atomic_add_return n (s, out) = Ret (v, (s', out')) -> out' = out /\ nodes s' = nodes s.
Proof. by intros [= _ <- <-]. Qed.

Lemma copying_duplicate bucket slaves node make : copying (duplicate send_ok bucket slaves node make).
Proof.
  intros s out rc s' out'. unfold duplicate.
  intros (id & [s1 o1] & (-> & E1)%atomic_add_inv & H)%sbind_inv.
  apply sbind_inv in H as (u & [s2 o2] & E2 & H).
  assert (o2 = out /\ nodes s2 = nodes s1) as [-> E2'].
  { destruct (id =? 0); [|by injection E2 as _ <- <-].
    apply sbind_inv in E2 as (v & [s3 o3] & (-> & E3)%atomic_add_inv & [= _ <- <-]). done. }
  apply sbind_inv in H as (ret & [s3 o3] & (-> & w & Ew & Hn)%on_waiting_inv & H).
  destruct (addWaitNode_inv _ _ _ _ _ _ Ew) as [[Hne Hw]|(-> & Hfresh & Hw)].
  - rewrite (proj2 (Z.eqb_neq _ _) Hne) in H. injection H as <- <- <-. exists []. rewrite app_nil_r.
    split; [done|]. split; [done|]. left. rewrite Hn, Hw. fold (nodes s2). congruence.
  - cbn in H. apply send_copies_inv in H as (extra & -> & Hp & Hc). exists extra. split; [done|]. split; [done|].
    destruct Hc as [->|Hc]; [by right|left]. rewrite Hc, Hn, Hw, delete_insert_id by done. fold (nodes s2). congruence.
Qed.

Lemma copying_lift {A} (a : outcome A) (k : A -> dupM Z) : (forall x, copying (k x)) -> copying (let* x := slift a in k x).
Proof.
  intros Hk s out rc s' out' (x & [s1 o1] & E & H)%sbind_inv. unfold slift in E. destruct a; try done.
  injection E as <- <- <-. by apply Hk in H.
Qed.

Lemma copying_ret rc : copying (sret rc).
Proof. intros s out rc' s' out' [= _ <- <-]. exists []. rewrite app_nil_r. auto. Qed.

Context {St : Type} (ip : Z) (tm : tair_manager St).

Lemma copying_key key o version results make : copying (duplicate_key send_ok ip tm key o version results make).
Proof. apply copying_lift. intros b. apply copying_lift. intros slaves. apply copying_duplicate. Qed.

Lemma copying_sadd_multi o p rc version : copying (duplicate_sadd_multi send_ok ip tm o p rc version).
Proof. unfold duplicate_sadd_multi. destruct (sadd_multi_keys_values_map p) as [|[key vs] l]; [apply copying_ret|apply copying_key]. Qed.

Lemma copying_remove uninit o p version master_rc : copying (duplicate_remove send_ok uninit ip tm o p version master_rc).
Proof.
  unfold duplicate_remove. destruct (get_key_list p) as [[|key l]|].
  - apply copying_lift. intros slaves. apply copying_duplicate.
  - apply copying_key.
  - destruct (get_key p); [apply copying_key|apply copying_ret].
Qed.
End copies.

(** ** Handlers *)

Section answers.
Context {St : Type} `{storage_manager St} (ip uninit : Z) (post_ok send_ok : Z -> bool) (remote_sync : bool)
  (arrange : list (data_entry * data_entry) -> list (data_entry * data_entry)).

Definition waiting_nodes (ds : data_server St) : option (gmap Z CPacket_wait_Nodes) := nodes <$> ds_duplicator ds.

(** A step that sends nothing to clients and has nobody wait *)
Definition quiet {A} (m : procM A) (good : A -> Prop) : Prop := forall (ds : data_server St) out a ds' out',
  m (ds, out) = Ret (a, (ds', out')) ->
  good a /\ exists extra, out' = out ++ extra /\ posts extra = 0%nat /\ waiting_nodes ds' = waiting_nodes ds.

(** A handler: no answer yet, and the request waits only with the code for it;
    or one answer, after which there is none to come. *)
Definition answering (m : @handled St) : Prop := forall ds out rc send_return ds' out',
  m (ds, out) = Ret ((rc, send_return), (ds', out')) ->
  exists extra, out' = out ++ extra
    /\ ((posts extra = 0%nat /\ (waiting_nodes ds' = waiting_nodes ds \/ rc = TAIR_DUP_WAIT_RSP))
        \/ (posts extra <= 1)%nat /\ send_return = false /\ waiting_nodes ds' = waiting_nodes ds).

Definition anything {A} (a : A) : Prop := True.

Lemma quiet_weaken {A} (m : procM A) (good good' : A -> Prop) : quiet m good -> (forall a, good a -> good' a) -> quiet m good'.
Proof. intros Hm Hg ds out a ds' out' E. destruct (Hm ds out a ds' out' E) as [Ha Hr]. split; [by apply Hg|done]. Qed.

Lemma quiet_ret {A} (a : A) (good : A -> Prop) : good a -> quiet (sret a) good.
Proof. intros Ha ds out b ds' out' [= <- <- <-]. split; [done|]. exists []. by rewrite app_nil_r. Qed.

Lemma quiet_bind {A B} (m : procM A) (k : A -> procM B) good good' :
  quiet m good -> (forall a, good a -> quiet (k a) good') -> quiet (let* a := m in k a) good'.
Proof.
  intros Hm Hk ds out b ds2 out2 (a & [ds1 out1] & E1 & E2)%sbind_inv.
  destruct (Hm _ _ _ _ _ E1) as [Ha (x1 & -> & Hp1 & Hw1)]. destruct (Hk a Ha _ _ _ _ _ E2) as [Hb (x2 & -> & Hp2 & Hw2)].
  split; [done|]. exists (x1 ++ x2). rewrite posts_app, Hp1, Hp2, app_assoc. split; [done|]. split; [done|congruence].
Qed.

Lemma quiet_on_manager {A} (m : @tmM St A) : quiet (on_manager m) anything.
Proof.
  intros ds out a ds' out'. unfold on_manager. destruct (m (ds_manager ds)) as [[b tm]| | | |]; try done.
  intros [= <- <- <-]. split; [done|]. exists []. by rewrite app_nil_r.
Qed.

Lemma quiet_get : quiet sget anything.
Proof. intros ds out a ds' out' [= <- <- <-]. split; [done|]. exists []. by rewrite app_nil_r. Qed.

Lemma quiet_version : quiet get_client_version anything.
Proof. intros ds out a ds' out' [= <- <- <-]. split; [done|]. exists []. by rewrite app_nil_r. Qed.

Lemma quiet_lift {A} (a : outcome A) : quiet (slift a) anything.
Proof. intros ds out b ds' out'. destruct a; try done. intros [= <- <- <-]. split; [done|]. exists []. by rewrite app_nil_r. Qed.

Lemma quiet_out o : is_post o = false -> quiet (put_out o) anything.
Proof. intros Ho ds out u ds' out' [= <- <- <-]. split; [done|]. exists [o]. unfold posts. by rewrite filter_cons, Ho. Qed.

Lemma quiet_plugins rc key : quiet (do_duplicate remote_sync rc key) anything.
Proof. unfold do_duplicate. destruct (is_need_duplicate remote_sync rc); [by apply quiet_out|by apply quiet_ret]. Qed.

Lemma answering_ret rc send_return : answering (sret (rc, send_return)).
Proof. intros ds out rc' sr ds' out' [= _ _ <- <-]. exists []. rewrite app_nil_r. split; [done|]. left. auto. Qed.

Lemma answering_bind {A} (m : procM A) (k : A -> @handled St) good :
  quiet m good -> (forall a, good a -> answering (k a)) -> answering (let* a := m in k a).
Proof.
  intros Hm Hk ds out rc sr ds2 out2 (a & [ds1 out1] & E1 & E2)%sbind_inv.
  destruct (Hm _ _ _ _ _ E1) as [Ha (x1 & -> & Hp1 & Hw1)]. destruct (Hk a Ha _ _ _ _ _ _ E2) as (x2 & -> & Hx).
  exists (x1 ++ x2). rewrite posts_app, Hp1, app_assoc. split; [done|]. cbn. rewrite <- Hw1. exact Hx.
Qed.

(** An answer, and then the end of the handler *)
Lemma answering_post o m rc : answering (let* _ := post post_ok o m in sret (rc, false)).
Proof.
  intros ds out rc' sr ds' out'. unfold post, postPacket. destruct (post_ok (from_conn o)); intros [= _ <- <- <-].
  - eexists [_]. split; [reflexivity|]. right. auto.
  - exists []. rewrite app_nil_r. split; [done|]. left. auto.
Qed.

(** Copies, and then the end of the handler with the duplicator's code *)
Lemma answering_copies (copies : tair_manager St -> dupM Z) (k : Z -> @handled St) :
  (forall tm, copying (copies tm)) -> (forall rc, quiet (k rc) (fun r => r.1 = rc)) ->
  answering (let* rc := on_duplicator copies in k rc).
Proof.
  intros Hc Hk ds out rc sr ds2 out2 (c & [ds1 out1] & E1 & E2)%sbind_inv.
  destruct (Hk c _ _ _ _ _ E2) as [Hrc (x2 & -> & Hp2 & Hw2)]. cbn in Hrc. subst rc.
  unfold on_duplicator in E1. destruct (ds_duplicator ds) as [d|] eqn:Hd; [|done].
  destruct (copies (ds_manager ds) (d, out)) as [[c' [d' o']]| | | |] eqn:E; try done. injection E1 as <- <- <-.
  destruct (Hc _ _ _ _ _ _ E) as (x1 & -> & Hp1 & Hn). exists (x1 ++ x2). rewrite posts_app, Hp1, Hp2, app_assoc.
  split; [done|]. left. split; [done|]. destruct Hn as [Hn| ->]; [left|by right].
  rewrite Hw2. unfold waiting_nodes. cbn. by rewrite Hd, Hn.
Qed.

Lemma quiet_code rc send_return : quiet (sret (rc, send_return)) (fun r : Z * bool => r.1 = rc).
Proof. by apply quiet_ret. Qed.

Lemma quiet_plugins_code rc key rc' send_return :
  quiet (let* _ := do_duplicate remote_sync rc' key in sret (rc, send_return)) (fun r : Z * bool => r.1 = rc).
Proof. eapply quiet_bind; [apply quiet_plugins|]. intros. apply quiet_code. Qed.

Lemma answering_overrun : answering (slift Overrun).
Proof. by intros ds out rc sr ds' out'. Qed.

(** The dispatcher never answers a [get] itself. *)
Lemma answering_silent m : answering m -> answering (let* (rc, _) := m in sret (rc, false)).
Proof.
  intros Hm ds out rc sr ds2 out2 ([rc1 sr1] & [ds1 out1] & E1 & [= -> <- <- <-])%sbind_inv.
  destruct (Hm _ _ _ _ _ _ E1) as (x & -> & Hx). exists x. split; [done|]. destruct Hx as [?|(? & _ & ?)]; auto.
Qed.

(** *** The shapes of the handlers *)

Lemma answering_working sr k : answering k -> answering (if_working sr k).
Proof.
  intros Hk. unfold if_working. eapply answering_bind; [apply quiet_get|]. intros [ds out] _.
  destruct (negb _); [apply answering_ret|done].
Qed.

Lemma answering_unless_moved tested hash sr k : answering k -> answering (unless_moved ip tested hash sr k).
Proof.
  intros Hk. unfold unless_moved. destruct tested; [|done]. eapply answering_bind; [apply quiet_get|]. intros [ds out] _.
  eapply answering_bind; [apply quiet_lift|]. intros [[] t] _; [apply answering_ret|done].
Qed.

Lemma answering_before hash sr k : answering k -> answering (process_before ip hash sr k).
Proof. intros Hk. by apply answering_working, answering_unless_moved. Qed.

Lemma answering_after o rc resp : answering (process_after post_ok o rc resp).
Proof. unfold process_after. eapply answering_bind; [apply quiet_version|]. intros v _. apply answering_post. Qed.

Lemma answering_copy_or_answer rc f sr copies answer :
  (forall tm v, copying (copies tm v)) -> answering answer -> answering (copy_or_answer rc f sr copies answer).
Proof.
  intros Hc Ha. unfold copy_or_answer. destruct (_ && _); [|done]. eapply answering_bind; [apply quiet_version|].
  intros v _. apply answering_copies; [by intros|]. intros. apply quiet_code.
Qed.

Lemma answering_answer_copy o id bucket rc : answering (answer_copy ip post_ok o id bucket rc).
Proof.
  unfold answer_copy. destruct (_ || _); [apply answering_post|].
  eapply answering_bind; [by apply (quiet_ret tt anything)|]. intros. apply answering_ret.
Qed.

Lemma answering_process_copy {P} o (c : dup P) sr op : answering (process_copy ip post_ok o c sr op).
Proof.
  apply answering_working. eapply answering_bind; [apply quiet_on_manager|]. intros. apply answering_answer_copy.
Qed.

(** *** The loops *)

Lemma quiet_each_value op fine rc key values : quiet (each_value op fine rc key values) anything.
Proof.
  revert rc key. induction values as [|value values IH]; intros rc key; cbn [each_value]; [by apply quiet_ret|].
  eapply quiet_bind; [apply quiet_on_manager|]. intros [rc' key'] _. destruct (stops fine rc'); [by apply quiet_ret|apply IH].
Qed.

Lemma quiet_each_key plugins op fine rc keys : quiet (each_key remote_sync plugins op fine rc keys) anything.
Proof.
  revert rc. induction keys as [|[key values] keys IH]; intros rc; cbn [each_key]; [by apply quiet_ret|].
  eapply quiet_bind; [apply quiet_each_value|]. intros [[rc' key'] well] _. destruct (negb well); [by apply quiet_ret|].
  eapply quiet_bind with (good := anything); [destruct plugins; [apply quiet_plugins|by apply quiet_ret]|]. intros u _.
  eapply quiet_bind; [apply IH|]. intros [rc2 rest] _. by apply quiet_ret.
Qed.

Lemma quiet_members_of area rc keys pairs : quiet (members_of area rc keys pairs) anything.
Proof.
  revert rc pairs. induction keys as [|key keys IH]; intros rc pairs; cbn [members_of]; [by apply quiet_ret|].
  eapply quiet_bind; [apply quiet_on_manager|]. intros [[rc' key'] values] _. apply IH.
Qed.

Lemma quiet_get_each area keys data count g : quiet (get_each area keys data count g) anything.
Proof.
  revert data count g. induction keys as [|key keys IH]; intros data count g; cbn [get_each]; [by apply quiet_ret|].
  eapply quiet_bind; [apply quiet_on_manager|]. intros [[rev key'] data'] _. destruct (negb _); apply IH.
Qed.
End answers.

(** The copies of a request are the copies of one key, of the keys of a request
    for many, or of a removal. *)
Ltac copying_tac := intros; first [apply copying_key | apply copying_sadd_multi | apply copying_remove].
Ltac quiet_tac := repeat first
  [ apply quiet_on_manager | apply quiet_version | apply quiet_plugins | apply quiet_each_key | apply quiet_lift
  | apply quiet_members_of | apply quiet_get_each | by apply (quiet_out _) | by apply (quiet_ret _ anything)
  | match goal with |- quiet (match ?x with _ => _ end) _ => destruct x end
  | eapply quiet_bind; [|intros] ].
Ltac answering_tac := intros; repeat first
  [ apply answering_ret | apply answering_before | apply answering_working | apply answering_unless_moved
  | apply answering_process_copy | apply answering_after | apply answering_answer_copy | apply answering_post
  | apply answering_copy_or_answer; [copying_tac|]
  | apply answering_copies; [copying_tac|intros; first [apply quiet_code|apply quiet_plugins_code]]
  | apply answering_silent | apply answering_overrun
  | eapply answering_bind; [solve [quiet_tac]|intros]
  | match goal with |- answering (match ?x with _ => _ end) => destruct x end
  | match goal with |- answering (let _ := _ in _) => cbv zeta end ].

Section dispatch.
Context {St : Type} `{storage_manager St} (ip uninit : Z) (post_ok send_ok : Z -> bool) (remote_sync : bool)
  (arrange : list (data_entry * data_entry) -> list (data_entry * data_entry)).

Lemma answering_list o p :
  (forall q, p <> REQ_LREM q) -> answering (process_list ip uninit post_ok send_ok remote_sync o p).
Proof.
  intros Hne. destruct p; cbn [process_list]; try done; try apply answering_ret.
  all: try (exfalso; by eapply Hne).
  all: unfold process_llen, process_lrpop, process_lrpush, process_lrpush_limit, process_lindex, process_ltrim,
         process_lrange, process_lset; answering_tac.
Qed.

Lemma answering_general o received p : answering (process_general ip uninit post_ok send_ok remote_sync arrange o received p).
Proof.
  destruct p; cbn [process_general]; try apply answering_ret.
  all: unfold process_addfilter, process_dump_area, process_exists, process_expire, process_expireat,
    process_get, process_getset, process_hexists, process_inc_dec, process_lazy_remove_area,
    process_load_area, process_op_cmd, process_persist, process_put, process_putnx, process_remove,
    process_removefilter, remove_area_task, remove_copies; answering_tac.
Qed.

Lemma answering_hash o p : answering (process_hash ip uninit post_ok send_ok o p).
Proof.
  destruct p; cbn [process_hash]; try apply answering_ret.
  all: unfold process_hdel, process_hget, process_hgetall, process_hincrby, process_hkeys, process_hlen,
    process_hmget, process_hmset, process_hset, process_hsetnx, process_hvals; answering_tac.
Qed.

Lemma answering_set o p : answering (process_set ip uninit post_ok send_ok remote_sync o p).
Proof.
  destruct p; cbn [process_set]; try apply answering_ret.
  all: unfold process_sadd, process_sadd_multi, process_scard, process_smembers, process_smembers_multi,
    process_spop, process_srem, process_srem_multi; answering_tac.
Qed.

Lemma answering_zset o p : answering (process_zset ip uninit post_ok send_ok o p).
Proof.
  destruct p; cbn [process_zset]; try apply answering_ret.
  all: unfold process_generic_zrangebyscore, process_zadd, process_zcard, process_zcount, process_zincrby,
    process_zrange, process_zrangebyscore, process_zrank, process_zrem, process_zremrangebyrank,
    process_zremrangebyscore, process_zrevrange, process_zrevrank, process_zscore; answering_tac.
Qed.

Lemma answering_common o p : answering (process_common ip uninit post_ok o p).
Proof.
  destruct p; cbn [process_common]; try apply answering_ret.
  all: unfold process_ttl, process_type; answering_tac.
Qed.

Lemma answering_copies_ o p : answering (process_copies ip uninit post_ok remote_sync o p).
Proof.
  destruct p; cbn [process_copies]; try apply answering_ret.
  all: unfold process_hdel_dup, process_hmset_dup, process_hset_dup, process_hsetnx_dup, process_lrem_dup,
    process_lrpop_dup, process_lrpush_dup, process_lset_dup, process_ltrim_dup, process_put_dup,
    process_putnx_dup, process_remove_dup, process_sadd_dup, process_sadd_multi_dup, process_spop_dup,
    process_srem_dup, process_srem_multi_dup, process_zadd_dup, process_zrem_dup, process_zremrangebyrank_dup,
    process_zremrangebyscore_dup; answering_tac.
Qed.

Lemma answering_process o received p :
  (forall q, p <> List (REQ_LREM q)) ->
  answering (process ip uninit post_ok send_ok remote_sync arrange o received p).
Proof.
  intros Hne. destruct p as [p|p|p|p|p|p|p]; cbn [process].
  - apply answering_general.
  - apply answering_list. intros q ->. by eapply Hne.
  - apply answering_hash.
  - apply answering_set.
  - apply answering_zset.
  - apply answering_common.
  - apply answering_copies_.
Qed.

(** C8: no request is answered twice.  Whatever packet a data server handles, in
    whatever state, over whatever storage engine: it sends at most one answer,
    and if it sends one, no wait node that would answer again has been added.
    Only a list removal ([request_lrem]) is answered at once although its node
    waits. *)
Theorem no_request_is_answered_twice conn chid received p (ds : data_server St) out deleted ds' out' :
  (forall q, p <> List (REQ_LREM q)) ->
  handlePacketQueue ip uninit post_ok send_ok remote_sync arrange conn chid received p (ds, out) = Ret (deleted, (ds', out')) ->
  exists extra, out' = out ++ extra
    /\ (posts extra = 0%nat \/ posts extra = 1%nat /\ waiting_nodes ds' = waiting_nodes ds).
Proof.
  intros Hne. unfold handlePacketQueue. intros ([rc sr] & [ds1 out1] & E1 & E2)%sbind_inv.
  destruct (answering_process _ received p Hne _ _ _ _ _ _ E1) as (x1 & -> & Hx).
  assert (posts x1 = 0%nat \/ posts x1 = 1%nat /\ waiting_nodes ds1 = waiting_nodes ds) as Hx1.
  { destruct Hx as [[? _]|(? & _ & ?)]; [by left|]. destruct (posts x1) as [|[|]]; [by left|by right|lia]. }
  destruct (Z.eqb_spec rc TAIR_RETURN_PROXYED); [injection E2 as _ <- <-; by exists x1|].
  destruct (Z.eqb_spec rc TAIR_DUP_WAIT_RSP) as [Hw|Hw]; [injection E2 as _ <- <-; by exists x1|].
  destruct (sr && received) eqn:Hsr; [|injection E2 as _ <- <-; by exists x1].
  apply andb_true_iff in Hsr as [-> _]. destruct Hx as [[Hp [Hn|Hc]]|(_ & ? & _)]; [|done|done].
  apply sbind_inv in E2 as (u & [ds2 out2] & E2 & [= _ <- <-]). unfold set_return_packet in E2.
  apply sbind_inv in E2 as (v & [ds3 out3] & [= <- <- <-] & E2). unfold post, postPacket in E2. cbn [from_conn] in E2.
  destruct (post_ok conn); [|injection E2 as _ <- <-; by exists x1].
  injection E2 as _ <- <-. eexists (x1 ++ [_]). rewrite app_assoc, posts_app, Hp. split; [reflexivity|]. by right.
Qed.
End dispatch.

(** A put at a server that does not work yet *)
Definition idle_server : data_server unit :=
  mk_data_server (mk_tair_manager false STATUS_INITED tt new_table_manager (mk_bitset 0 ∅) ∅) None 4.
Definition idle_storage : storage_manager unit :=
  not_implemented (mk_pure_functions _ (fun _ key _ => no_key key) (fun _ key _ _ _ => no_key key)
    (fun _ key value => no_out key value) (fun _ => no_code) (fun _ => sret true) (fun _ => sret tt)
    (fun info => sret (false, info, [])) sret sret (sret []) (fun _ _ => sret tt) (fun _ => sret tt) (fun _ => 0) (fun _ s => s)).
Definition idle_put : packet :=
  General (REQ_PUT (mk_request_put 0 3 0 0 (-1) (data_entry_of [107]) (data_entry_of [7; 8]))).

Lemma no_request_is_answered_twice_witness :
  exists extra, [Post 5 6 (Plain (General (RESP_RETURN (mk_response_return 4 TAIR_RETURN_SERVER_CAN_NOT_WORK []))))] = [] ++ extra
    /\ (posts extra = 0%nat \/ posts extra = 1%nat /\ waiting_nodes idle_server = waiting_nodes idle_server).
Proof.
  apply (no_request_is_answered_twice (H := idle_storage) 1 0 (fun _ => true) (fun _ => true) false (fun l => l) 5 6 true idle_put
           idle_server [] true idle_server); [done|by vm_compute].
Defined.
