(* ===== verification/WaitObject.v ===== *)
(** * Waiting for answers (common/wait_object.hpp)

    A thread that has sent requests waits on an object until as many answers
    have arrived; the thread of the network puts them there, by the number the
    requests went out with.  [P] is the type of packets, [code] their packet
    code; a packet whose code is excepted is refused. *)

From S2P Require Import Prelude.

Definition null_pcode : Z := -1.

Section wait_object.
Context {P : Type} (code : P -> Z).

(** The first packet is in [resp], from the second on all are in [resp_list]. *)
Record wait_object := mk_wait_object {
  except_pcode : Z; except_pcode_set : gset Z;
  resp : option P; resp_list : option (list P); done_count : Z
}.

Definition new_wait_object (except : Z) (except_set : gset Z) : wait_object :=
  mk_wait_object except except_set None None 0.

(** [wait_done(count)] is over. *)
Definition is_done (count : Z) (w : wait_object) : bool := count <=? done_count w.

Definition done_ (w : wait_object) : wait_object :=
  mk_wait_object (except_pcode w) (except_pcode_set w) (resp w) (resp_list w) (s32 (done_count w + 1)).

Definition excepted (p : P) (w : wait_object) : bool :=
  negb (except_pcode w =? null_pcode) && (except_pcode w =? code p) || bool_decide (code p ∈ except_pcode_set w).

(** [None]: the packet is refused. *)
Definition insert_packet (packet : option P) (w : wait_object) : option wait_object :=
  match packet with
  | None => Some (done_ w)
  | Some p =>
      if excepted p w then None
      else
        Some (done_ (match resp_list w, resp w with
                     | Some l, r => mk_wait_object (except_pcode w) (except_pcode_set w) r (Some (l ++ [p])) (done_count w)
                     | None, Some r =>
                         mk_wait_object (except_pcode w) (except_pcode_set w) None (Some [r; p]) (done_count w)
                     | None, None => mk_wait_object (except_pcode w) (except_pcode_set w) (Some p) None (done_count w)
                     end))
  end.

(** [get_packet(index)]: a single packet whatever the index *)
Definition get_packet (index : Z) (w : wait_object) : option P :=
  match resp_list w with
  | Some l => if 0 <=? index then l !! Z.to_nat index else None
  | None => resp w
  end.

Definition get_packet_count (w : wait_object) : Z :=
  match resp_list w, resp w with
  | Some l, _ => Z.of_nat (length l)
  | None, Some _ => 1
  | None, None => 0
  end.

(** ** The objects of a process *)

Record wait_object_manager := mk_wait_object_manager {
  wait_object_map : gmap Z wait_object; wait_object_seq_id : Z
}.
Definition new_wait_object_manager : wait_object_manager := mk_wait_object_manager ∅ 1.

Definition add_new_wait_object (w : wait_object) (m : wait_object_manager) : Z * wait_object_manager :=
  let seq := s32 (wait_object_seq_id m + 1) in
  let seq := if seq =? 0 then s32 (seq + 1) else seq in
  (seq, mk_wait_object_manager (<[seq := w]> (wait_object_map m)) seq).
Definition create_wait_object (m : wait_object_manager) : Z * wait_object_manager :=
  add_new_wait_object (new_wait_object null_pcode ∅) m.
Definition destroy_wait_object (id : Z) (m : wait_object_manager) : wait_object_manager :=
  mk_wait_object_manager (delete id (wait_object_map m)) (wait_object_seq_id m).

(** A packet that is NULL is only logged: the object is not woken. *)
Definition wakeup_wait_object (id : Z) (packet : option P) (m : wait_object_manager) : wait_object_manager :=
  match wait_object_map m !! id, packet with
  | Some w, Some p =>
      match insert_packet (Some p) w with
      | Some w => mk_wait_object_manager (<[id := w]> (wait_object_map m)) (wait_object_seq_id m)
      | None => m
      end
  | _, _ => m
  end.

(** ** What has arrived *)

(** The packets of an object, in the order of their arrival *)
Definition arrived (w : wait_object) : list P :=
  match resp_list w with
  | Some l => l
  | None => option_list (resp w)
  end.

Record wait_object_ok (w : wait_object) : Prop := {
  wo_count : done_count w = Z.of_nat (length (arrived w));
  wo_list : resp_list w <> None -> (2 <= length (arrived w))%nat
}.

Lemma new_wait_object_ok except except_set : wait_object_ok (new_wait_object except except_set).
Proof. by constructor. Qed.

Lemma insert_packet_ok p w w' :
  wait_object_ok w -> Z.of_nat (length (arrived w)) < 2 ^ 30 ->
  insert_packet (Some p) w = Some w' ->
  wait_object_ok w' /\ arrived w' = arrived w ++ [p].
Proof.
  intros [Hc Hl] Hmax. unfold insert_packet. destruct (excepted p w); [done|]. intros [= <-].
  assert (s32 (done_count w + 1) = Z.of_nat (length (arrived w ++ [p]))) as Hd.
  { rewrite length_app, Hc. cbn [length]. rewrite swrap_id by (unfold in_s; lia). lia. }
  unfold done_, arrived in *. destruct (resp_list w) as [l|] eqn:El; [|destruct (resp w) as [r|] eqn:Er].
  - cbn in *. split; [|done]. constructor; [done|]. intros _. cbn. rewrite length_app. specialize (Hl ltac:(done)). lia.
  - cbn in *. split; [|done]. constructor; [done|]. intros _. cbn. lia.
  - cbn in *. split; [|done]. constructor; [done|]. done.
Qed.

(** The packets of an object are found under their numbers; a single packet is
    found under every number. *)
Lemma get_packet_arrived w i :
  wait_object_ok w -> 0 <= i -> (length (arrived w) <> 1)%nat \/ i = 0 ->
  get_packet i w = arrived w !! Z.to_nat i.
Proof.
  intros _ Hi H1. unfold get_packet, arrived in *.
  destruct (resp_list w) as [l|]; [by rewrite (proj2 (Z.leb_le _ _) Hi)|].
  destruct (resp w) as [r|]; [|done]. destruct H1 as [[]| ->]; done.
Qed.

Lemma get_packet_count_arrived w : get_packet_count w = Z.of_nat (length (arrived w)).
Proof. unfold get_packet_count, arrived. destruct (resp_list w); [done|]. by destruct (resp w). Qed.
End wait_object.
Arguments wait_object P : clear implicits.
Arguments wait_object_manager P : clear implicits.
