(* ===== verification/ServerList.v ===== *)
(** * The table in a packet (packets/server_hash_table_packet.hpp)

    The config server sends its table compressed; clients and data servers get
    the list of servers back.  [uncompress] is zlib's function: the bytes it
    writes into a buffer of the given size, or [None] for an error. *)

From S2P Require Import Prelude BasePacket ConfPackets ConfTable.

(** Eight bytes of memory as a 64-bit word on a little-endian machine *)
Definition word_of (l : list Z) : Z := be_combine_acc 0 (rev l).

(** The memory of [n] words that starts with the bytes [l], the rest being 0 *)
Fixpoint words_of (n : nat) (l : list Z) : list Z :=
  match n with
  | O => []
  | S n' => word_of (take 8 (l ++ replicate 8 0)) :: words_of n' (drop 8 l)
  end.

Section get_server_list.
Context (uncompress : list Z -> Z -> option (list Z)).

(** [get_server_list(bucket_count, copy_count)]: the list, and what is left in
    [server_list_count]. *)
Definition get_server_list (bucket_count copy_count : Z) (t : server_hash_table_packet) : option (list Z) * Z :=
  match hash_table_data t with
  | None => (None, -1)
  | Some data =>
      if hash_table_size t =? 0 then (None, -1)
      else
        let dest_len := u64 (s32 (s32 (bucket_count * copy_count) * 3) * 8) in
        match uncompress data dest_len with
        | None => (None, 0)
        | Some l => (Some (words_of (Z.to_nat (dest_len / 8)) l), s32 (Z.of_nat (length l) / 8))
        end
  end.
End get_server_list.

(** ** The list is what was compressed. *)

Lemma word_of_word_bytes w : in_u 64 w -> word_of (word_bytes w) = w.
Proof.
  intros Hw. unfold word_of. replace (rev (word_bytes w)) with (be_split 8 w) by reflexivity.
  rewrite be_combine_split. change (8 * Z.of_nat 8) with 64. rewrite Z.mod_small by exact Hw. lia.
Qed.

Lemma words_of_table t n l :
  Forall (in_u 64) t -> words_of (length t + n) (table_bytes t ++ l) = t ++ words_of n l.
Proof.
  induction 1 as [|w t Hw Ht IH]; [done|]. cbn [length Nat.add words_of app].
  unfold table_bytes in *. cbn [map concat]. rewrite <- !app_assoc.
  assert (length (word_bytes w) = 8%nat) as H8 by done.
  rewrite take_app_le, take_ge by lia. rewrite (drop_app_length' (word_bytes w)) by lia.
  by rewrite word_of_word_bytes, IH.
Qed.

(** A table that comes through zlib is read back, with zeros behind it. *)
Lemma get_server_list_of uncompress buckets copies data t :
  let dest_len := buckets * copies * 24 in
  0 < buckets * copies -> dest_len < 2 ^ 31 ->
  uncompress data dest_len = Some (table_bytes t) ->
  Forall (in_u 64) t -> Z.of_nat (length t) <= buckets * copies * 3 -> data <> [] ->
  exists zeros, get_server_list uncompress buckets copies (mk_server_hash_table_packet (Z.of_nat (length data)) (Some data))
    = (Some (t ++ zeros), Z.of_nat (length t)).
Proof.
  intros dest_len Hpos Hmax Hz Ht Hlen Hdata. unfold get_server_list. cbn [hash_table_data hash_table_size].
  rewrite (proj2 (Z.eqb_neq _ _)) by (destruct data; [done|simpl; lia]).
  rewrite (swrap_id 32 (buckets * copies)) by (unfold in_s; lia).
  rewrite (swrap_id 32 (buckets * copies * 3)) by (unfold in_s; lia).
  rewrite wrap_id by (unfold in_u; lia).
  replace (buckets * copies * 3 * 8) with dest_len by (unfold dest_len; ring). rewrite Hz. cbv zeta.
  rewrite length_table_bytes, Z.mul_comm, Z.div_mul by lia.
  rewrite swrap_id by (unfold in_s; lia).
  replace (Z.to_nat (dest_len / 8)) with (length t + Z.to_nat (buckets * copies * 3 - Z.of_nat (length t)))%nat
    by (unfold dest_len; replace (buckets * copies * 24) with (buckets * copies * 3 * 8) by ring;
        rewrite Z.div_mul by lia; lia).
  rewrite <- (app_nil_r (table_bytes t)), words_of_table by done. by eexists.
Qed.
