(* ===== verification/Client.v ===== *)
(** * The client (client/tair_client_api_impl.cpp, tair_client_api.cpp)

    A client knows the table of its group: it sends a request to the master of
    the key's bucket, waits for the answer and returns its code and its data.

    The network is an instance of [network]: sending a packet may fail, and
    while a thread waits, packets and control packets arrive with the number
    that was sent along ([args]).  A pointer to an answer of another type than
    expected is followed only where the code casts it: following NULL is
    [Overrun].  A [map] of pointers is the list of its pairs in the order of the
    pointers.  [uncompress] is zlib's.

    Not modelled: the addresses as strings, the threads, the message table. *)

From S2P Require Import Prelude PacketCodes Util DataBuffer DataEntry MemCache MdbManager TableManager TairManager BasePacket KvPackets ConfPackets KeyPackets ListPackets HashPackets SetPackets ZsetPackets PacketFactory CopyPackets RequestProcessor WaitObject ServerList.

Definition TAIR_RETURN_CONNECT_ERROR_OR_TIMEOUT : Z := -1.
Definition TAIR_RETURN_SERIALIZE_ERROR : Z := -3994.
Definition TAIR_RETURN_SEND_FAILED : Z := -3990.
Definition TAIR_RETURN_TIMEOUT : Z := -3989.
Definition TAIR_RETURN_WRITE_NOT_ON_MASTER : Z := -3986.
Definition TAIR_CONFIG_MIN_VERSION : Z := 10.
Definition UPDATE_SERVER_TABLE_INTERVAL : Z := 50.

(** ** The state *)

Record tair_client := mk_tair_client {
  cl_inited : bool; cl_is_stop : bool; cl_direct : bool; cl_data_server : Z; cl_timeout : Z; cl_config_version
  : Z; cl_new_config_version : Z; cl_send_fail_count : Z; cl_bucket_count : Z; cl_copy_count : Z;
  cl_ds_server_list : list Z; cl_config_server_list : list Z; cl_group_name : list Z; cl_waiting :
  wait_object_manager packet
}.
Definition set_inited (f : bool -> bool) (c : tair_client) : tair_client :=
  mk_tair_client (f (cl_inited c)) (cl_is_stop c) (cl_direct c) (cl_data_server c) (cl_timeout c)
    (cl_config_version c) (cl_new_config_version c) (cl_send_fail_count c) (cl_bucket_count c) (cl_copy_count
    c) (cl_ds_server_list c) (cl_config_server_list c) (cl_group_name c) (cl_waiting c).
Definition set_direct (f : bool -> bool) (c : tair_client) : tair_client :=
  mk_tair_client (cl_inited c) (cl_is_stop c) (f (cl_direct c)) (cl_data_server c) (cl_timeout c)
    (cl_config_version c) (cl_new_config_version c) (cl_send_fail_count c) (cl_bucket_count c) (cl_copy_count
    c) (cl_ds_server_list c) (cl_config_server_list c) (cl_group_name c) (cl_waiting c).
Definition set_data_server (f : Z -> Z) (c : tair_client) : tair_client :=
  mk_tair_client (cl_inited c) (cl_is_stop c) (cl_direct c) (f (cl_data_server c)) (cl_timeout c)
    (cl_config_version c) (cl_new_config_version c) (cl_send_fail_count c) (cl_bucket_count c) (cl_copy_count
    c) (cl_ds_server_list c) (cl_config_server_list c) (cl_group_name c) (cl_waiting c).
Definition set_config_version (f : Z -> Z) (c : tair_client) : tair_client :=
  mk_tair_client (cl_inited c) (cl_is_stop c) (cl_direct c) (cl_data_server c) (cl_timeout c) (f
    (cl_config_version c)) (cl_new_config_version c) (cl_send_fail_count c) (cl_bucket_count c) (cl_copy_count
    c) (cl_ds_server_list c) (cl_config_server_list c) (cl_group_name c) (cl_waiting c).
Definition set_new_config_version (f : Z -> Z) (c : tair_client) : tair_client :=
  mk_tair_client (cl_inited c) (cl_is_stop c) (cl_direct c) (cl_data_server c) (cl_timeout c)
    (cl_config_version c) (f (cl_new_config_version c)) (cl_send_fail_count c) (cl_bucket_count c)
    (cl_copy_count c) (cl_ds_server_list c) (cl_config_server_list c) (cl_group_name c) (cl_waiting c).
Definition set_send_fail_count (f : Z -> Z) (c : tair_client) : tair_client :=
  mk_tair_client (cl_inited c) (cl_is_stop c) (cl_direct c) (cl_data_server c) (cl_timeout c)
    (cl_config_version c) (cl_new_config_version c) (f (cl_send_fail_count c)) (cl_bucket_count c)
    (cl_copy_count c) (cl_ds_server_list c) (cl_config_server_list c) (cl_group_name c) (cl_waiting c).
Definition set_bucket_count (f : Z -> Z) (c : tair_client) : tair_client :=
  mk_tair_client (cl_inited c) (cl_is_stop c) (cl_direct c) (cl_data_server c) (cl_timeout c)
    (cl_config_version c) (cl_new_config_version c) (cl_send_fail_count c) (f (cl_bucket_count c))
    (cl_copy_count c) (cl_ds_server_list c) (cl_config_server_list c) (cl_group_name c) (cl_waiting c).
Definition set_copy_count (f : Z -> Z) (c : tair_client) : tair_client :=
  mk_tair_client (cl_inited c) (cl_is_stop c) (cl_direct c) (cl_data_server c) (cl_timeout c)
    (cl_config_version c) (cl_new_config_version c) (cl_send_fail_count c) (cl_bucket_count c) (f
    (cl_copy_count c)) (cl_ds_server_list c) (cl_config_server_list c) (cl_group_name c) (cl_waiting c).
Definition set_ds_server_list (f : (list Z) -> list Z) (c : tair_client) : tair_client :=
  mk_tair_client (cl_inited c) (cl_is_stop c) (cl_direct c) (cl_data_server c) (cl_timeout c)
    (cl_config_version c) (cl_new_config_version c) (cl_send_fail_count c) (cl_bucket_count c) (cl_copy_count
    c) (f (cl_ds_server_list c)) (cl_config_server_list c) (cl_group_name c) (cl_waiting c).
Definition set_config_server_list (f : (list Z) -> list Z) (c : tair_client) : tair_client :=
  mk_tair_client (cl_inited c) (cl_is_stop c) (cl_direct c) (cl_data_server c) (cl_timeout c)
    (cl_config_version c) (cl_new_config_version c) (cl_send_fail_count c) (cl_bucket_count c) (cl_copy_count
    c) (cl_ds_server_list c) (f (cl_config_server_list c)) (cl_group_name c) (cl_waiting c).
Definition set_group_name (f : (list Z) -> list Z) (c : tair_client) : tair_client :=
  mk_tair_client (cl_inited c) (cl_is_stop c) (cl_direct c) (cl_data_server c) (cl_timeout c)
    (cl_config_version c) (cl_new_config_version c) (cl_send_fail_count c) (cl_bucket_count c) (cl_copy_count
    c) (cl_ds_server_list c) (cl_config_server_list c) (f (cl_group_name c)) (cl_waiting c).
Definition set_waiting (f : (wait_object_manager packet) -> wait_object_manager packet) (c : tair_client) : tair_client :=
  mk_tair_client (cl_inited c) (cl_is_stop c) (cl_direct c) (cl_data_server c) (cl_timeout c)
    (cl_config_version c) (cl_new_config_version c) (cl_send_fail_count c) (cl_bucket_count c) (cl_copy_count
    c) (cl_ds_server_list c) (cl_config_server_list c) (cl_group_name c) (f (cl_waiting c)).

(** The constructor, and [reset()] *)
Definition new_tair_client : tair_client :=
  mk_tair_client false false false 0 2000 0 0 0 0 0 [] [] [] new_wait_object_manager.
Definition reset (c : tair_client) : tair_client :=
  mk_tair_client false (cl_is_stop c) (cl_direct c) (cl_data_server c) 2000 0 0 0 0 0 [] [] [] (cl_waiting c).

(** ** The network *)

(** What [handlePacket] is called with *)
Inductive delivery := RegularPacket (p : packet) | ControlPacket (cmd : Z).

Class network (N : Type) := mk_network {
  sendPacket : Z -> packet -> Z -> stM N bool;      (* server, packet, args *)
  arrivals : Z -> Z -> stM N (list (Z * delivery))   (* during wait_done(count, timeout) *)
}.

Section client.
Context {N : Type} `{network N} (uncompress : list Z -> Z -> option (list Z)).

Definition clientM (A : Type) : Type := stM (tair_client * N) A.

Definition on_network {A} (m : stM N A) : clientM A := fun '(c, n) => let! (a, n) := m n in Ret (a, (c, n)).
Definition update (f : tair_client -> tair_client) : clientM unit := fun '(c, n) => Ret (tt, (f c, n)).
Definition get_client : clientM tair_client := fun '(c, n) => Ret (c, (c, n)).

(** [create_wait_object()->get_id()] and [destroy_wait_object] *)
Definition create_wait : clientM Z := fun '(c, n) =>
  let '(id, m) := create_wait_object (cl_waiting c) in Ret (id, (set_waiting (fun _ => m) c, n)).
Definition destroy_wait (id : Z) : clientM unit := update (set_waiting (destroy_wait_object id)).

Definition set_new_version (v : Z) : clientM unit := update (set_new_config_version (fun _ => v)).
(** [send_fail_count = UPDATE_SERVER_TABLE_INTERVAL]: the table is fetched soon. *)
Definition update_table_soon : clientM unit := update (set_send_fail_count (fun _ => UPDATE_SERVER_TABLE_INTERVAL)).

(** ** What arrives *)

(** The list of an unexpected [response_get_group] *)
Definition take_table (r : response_get_group) (c : tair_client) : tair_client :=
  let c := set_new_config_version (fun _ => rget_group_config_version r) c in
  if cl_config_version c =? cl_new_config_version c then c
  else
    let '(list, count) := get_server_list uncompress (cl_bucket_count c) (cl_copy_count c) (rget_group_hash_table r) in
    let c := match list with
             | None => c
             | Some l =>
                 let n := Z.of_nat (length (cl_ds_server_list c)) in
                 let min := Z.to_nat (if n <? u64 count then n else u32 count) in
                 set_ds_server_list (fun old => take min l ++ drop min old) c
             end in
    set_config_version (fun _ => cl_new_config_version c) c.

Definition CMD_DISCONN_PACKET : Z := 3.

Definition handlePacket (d : delivery) (args : Z) (c : tair_client) : tair_client :=
  match d with
  | ControlPacket cmd =>
      let c := set_send_fail_count (fun n => s32 (n + 1)) c in
      if cmd =? CMD_DISCONN_PACKET then c
      else if args =? 0 then c else set_waiting (wakeup_wait_object pcode_of args None) c
  | RegularPacket p =>
      if negb (args =? 0) then set_waiting (wakeup_wait_object pcode_of args (Some p)) c
      else match p with
           | General (RESP_GET_GROUP r) => take_table r c
           | _ => c
           end
  end.
Definition handle_all (l : list (Z * delivery)) (c : tair_client) : tair_client :=
  foldl (fun c '(args, d) => handlePacket d args c) c l.

(** ** Requests and answers *)

Definition send_request (server_id : Z) (p : packet) (waitId : Z) : clientM Z :=
  need* negb (server_id =? 0) && (0 <=? waitId) in
  let* sent := on_network (sendPacket server_id p waitId) in
  if sent : bool then sret 0
  else let* _ := update (set_send_fail_count (fun n => s32 (n + 1))) in sret TAIR_RETURN_SEND_FAILED.

(** [cwo->wait_done(wait_count, timeout)]; the object is there until its thread
    destroys it. *)
Definition wait_done (cwo wait_count : Z) : clientM (wait_object packet) :=
  need* 0 <=? wait_count in
  let* c := get_client in
  let* l := on_network (arrivals wait_count (cl_timeout c)) in
  let* _ := update (handle_all l) in
  let* c := get_client in
  match wait_object_map (cl_waiting c) !! cwo with
  | Some w => sret w
  | None => slift Overrun
  end.

(** [get_response(cwo, wait_count, tpacket)] for one packet and for many *)
Definition get_response (cwo wait_count : Z) : clientM (Z * option packet) :=
  let* w := wait_done cwo wait_count in
  match get_packet 0 w with
  | None => sret (TAIR_RETURN_TIMEOUT, None)
  | Some p => sret (0, Some p)
  end.
Definition get_responses (cwo wait_count : Z) : clientM (Z * list packet) :=
  let* w := wait_done cwo wait_count in
  let push_num := Z.min (get_packet_count w) wait_count in
  sret (push_num, omap (fun i => get_packet i w) (seqZ 0 push_num)).

(** A request to one server and its answer: a negative code, or the packet *)
Definition ask (server_id : Z) (p : packet) : clientM (Z * option packet) :=
  let* cwo := create_wait in
  let* ret := send_request server_id p cwo in
  if ret <? 0 then let* _ := destroy_wait cwo in sret (ret, None)
  else
    let* (ret, tpacket) := get_response cwo 1 in
    let* _ := destroy_wait cwo in
    sret (ret, tpacket).

(** ** Checks *)

Definition key_entry_check (key : data_entry) : bool :=
  negb ((get_size key =? 0) || bool_decide (DataEntry.data key = None))
  && negb ((get_size key =? 1) && (nth 0 (get_data key) 0 =? 0))
  && negb (TAIR_MAX_KEY_SIZE <=? get_size key).
Definition data_entry_check (data : data_entry) : bool :=
  negb ((get_size data =? 0) || bool_decide (DataEntry.data data = None))
  && negb (TAIR_MAX_DATA_SIZE <=? get_size data).
Definition map_data_check (md : list (data_entry * data_entry)) : bool :=
  forallb (fun kv => data_entry_check kv.1 && data_entry_check kv.2) md.
Definition vector_data_check (vd : list data_entry) : bool := forallb data_entry_check vd.
Definition vector_key_check (vk : list data_entry) : bool := forallb key_entry_check vk.
Definition area_check (area : Z) : bool := negb ((area <? 0) || (TAIR_MAX_AREA_COUNT <=? area)).

(** ** The servers of a key *)

(** The loop of [get_server_id]: the servers of a bucket without the empty
    places *)
Fixpoint server_ids (table : list Z) (buckets hash : Z) (n : nat) (i : Z) : outcome (list Z) :=
  match n with
  | O => Ret []
  | S n' =>
      let! server_id := at_ table (u32 (hash + i * buckets)) in
      let! rest := server_ids table buckets hash n' (i + 1) in
      Ret (if server_id =? 0 then rest else server_id :: rest)
  end.
Definition server_ids_of_hash (hash : Z) (c : tair_client) : outcome (list Z) :=
  if cl_direct c then Ret [cl_data_server c]
  else
    assert! negb (cl_bucket_count c =? 0) in
    let n := Z.to_nat (Z.min (cl_copy_count c) (Z.of_nat (length (cl_ds_server_list c)))) in
    server_ids (cl_ds_server_list c) (cl_bucket_count c) (hash mod cl_bucket_count c) n 0.
(** [get_server_id(key, server)]; [false] is the empty list. *)
Definition get_server_id (key : data_entry) (c : tair_client) : outcome (list Z) :=
  server_ids_of_hash (mur_mur_hash (get_data key)) c.

(** The checks in front of a request to the first server of a key *)
Definition refuse_unless {A} (b : bool) (code : Z) (out : A) (k : clientM (Z * A)) : clientM (Z * A) :=
  if b then k else sret (code, out).
Definition to_server {A} (key : data_entry) (code : Z) (out : A) (k : Z -> clientM (Z * A)) : clientM (Z * A) :=
  let* c := get_client in
  let* servers := slift (get_server_id key c) in
  match servers with
  | [] => sret (code, out)
  | server_id :: _ => k server_id
  end.

(** ** Answers

    [pick] takes an answer of the expected type apart: the version, the code and
    the data.  Two ways to finish: the older operations jump to [FAIL], where the
    version is read from [resp], which is NULL unless the answer has the expected
    type; the newer ones return the data whatever the code is. *)
Definition strict_answer {R} (pick : packet -> option (Z * Z * R)) (out : R) (answer : Z * option packet)
    : clientM (Z * R) :=
  let '(ret, tpacket) := answer in
  match tpacket with
  | None => sret (ret, out)
  | Some p =>
      match pick p, p with
      | Some (version, code, r), _ =>
          if code =? TAIR_RETURN_SUCCESS then let* _ := set_new_version version in sret (code, r)
          else if code =? TAIR_RETURN_SERVER_CAN_NOT_WORK then
            let* _ := set_new_version version in let* _ := update_table_soon in sret (code, out)
          else sret (code, out)
      | None, General (RESP_RETURN r) =>
          if ret_code r =? TAIR_RETURN_SERVER_CAN_NOT_WORK then slift Overrun else sret (ret_code r, out)
      | None, _ => sret (ret, out)
      end
  end.

Definition lenient_answer {R} (pick : packet -> option (Z * Z * R)) (out : R) (answer : Z * option packet)
    : clientM (Z * R) :=
  let '(ret, tpacket) := answer in
  match tpacket with
  | None => sret (ret, out)
  | Some p =>
      match pick p, p with
      | Some (version, code, r), _ =>
          let* _ := (if code =? TAIR_RETURN_SERVER_CAN_NOT_WORK then update_table_soon else sret tt) in
          let* _ := set_new_version version in
          sret (code, r)
      | None, General (RESP_RETURN r) =>
          let* _ := (if ret_code r =? TAIR_RETURN_SERVER_CAN_NOT_WORK then
                       let* _ := set_new_version (ret_config_version r) in update_table_soon
                     else sret tt) in
          sret (ret_code r, out)
      | None, _ => sret (ret, out)
      end
  end.

(** ** Keys and values *)

Definition put (area : Z) (key data : data_entry) (expired version : Z) : clientM Z :=
  let* (ret, _) :=
    refuse_unless (key_entry_check key && data_entry_check data) TAIR_RETURN_ITEMSIZE_ERROR tt (
    refuse_unless (get_size key + get_size data <=? TAIR_MAX_DATA_SIZE + TAIR_MAX_KEY_SIZE) TAIR_RETURN_ITEMSIZE_ERROR tt (
    refuse_unless (area_check area && (0 <=? version) && (0 <=? expired)) TAIR_RETURN_INVALID_ARGUMENT tt (
    to_server key TAIR_RETURN_CONNECT_ERROR_OR_TIMEOUT tt (fun server_id =>
    let* (ret, tpacket) := ask server_id
      (General (REQ_PUT (mk_request_put 0 area (u16 version) expired (-1) (copied key) (copied data)))) in
    match tpacket with
    | Some (General (RESP_RETURN resp)) =>
        let* _ := set_new_version (ret_config_version resp) in
        let ret := ret_code resp in
        let* _ := (if (ret =? TAIR_RETURN_SERVER_CAN_NOT_WORK) || (ret =? TAIR_RETURN_WRITE_NOT_ON_MASTER)
                   then update_table_soon else sret tt) in
        sret (ret, tt)
    | _ => sret (ret, tt)
    end)))) in
  sret ret.

(** The loop over the servers of the key: the first that answers *)
Fixpoint get_from (servers : list Z) (p : packet) (ret : Z) : clientM (Z * option packet) :=
  match servers with
  | [] => sret (ret, None)
  | server_id :: rest =>
      let* (r, tpacket) := ask server_id p in
      match tpacket with
      | Some _ => sret (r, tpacket)
      | None => get_from rest p (if r =? TAIR_RETURN_SEND_FAILED then ret else r)
      end
  end.
Definition add_key (key : data_entry) (p : request_get) : outcome request_get :=
  request_get_add_key (take (Z.to_nat (get_size key)) (get_data key)) p.
Definition get (area : Z) (key : data_entry) : clientM (Z * option data_entry) :=
  refuse_unless (key_entry_check key) TAIR_RETURN_ITEMSIZE_ERROR None (
  refuse_unless (area_check area) TAIR_RETURN_INVALID_ARGUMENT None (
  let* c := get_client in
  let* servers := slift (get_server_id key c) in
  if decide (servers = []) then sret (TAIR_RETURN_CONNECT_ERROR_OR_TIMEOUT, None) else
  let* p := slift (add_key key (mk_request_get 0 area 0 None None)) in
  let* (ret, tpacket) := get_from servers (General (REQ_GET p)) TAIR_RETURN_SEND_FAILED in
  match tpacket with
  | Some (General (RESP_GET resp)) =>
      if (rget_code resp =? TAIR_RETURN_SUCCESS) && negb (bool_decide (is_Some (rget_single resp))) then slift Abort
      else strict_answer (fun _ => Some (rget_config_version resp, rget_code resp, snd <$> rget_single resp)) None
             (ret, tpacket)
  | _ => strict_answer (fun _ => None) None (ret, tpacket)
  end)).

Definition remove (area : Z) (key : data_entry) : clientM Z :=
  let* (ret, _) :=
    refuse_unless (area_check area) TAIR_RETURN_INVALID_ARGUMENT tt (
    refuse_unless (key_entry_check key) TAIR_RETURN_ITEMSIZE_ERROR tt (
    to_server key (-1) tt (fun server_id =>
    let* p := slift (add_key key (mk_request_get 0 area 0 None None)) in
    let* (ret, tpacket) := ask server_id (General (REQ_REMOVE p)) in
    match tpacket with
    | Some (General (RESP_RETURN resp)) =>
        let* _ := set_new_version (ret_config_version resp) in
        let* _ := (if ret_code resp =? TAIR_RETURN_SERVER_CAN_NOT_WORK then update_table_soon else sret tt) in
        sret (ret_code resp, tt)
    | _ => sret (ret, tt)
    end))) in
  sret ret.

(** A counter: [None] leaves [*ret_count] as it is. *)
Definition add_count (area : Z) (key : data_entry) (count init_value expire_time : Z) : clientM (Z * option Z) :=
  refuse_unless (area_check area && (0 <=? expire_time)) TAIR_RETURN_INVALID_ARGUMENT None (
  refuse_unless (key_entry_check key) TAIR_RETURN_ITEMSIZE_ERROR None (
  to_server key (-1) None (fun server_id =>
  let* (ret, tpacket) := ask server_id
    (General (REQ_INCDEC (mk_request_inc_dec 0 area count init_value expire_time (copied key)))) in
  match tpacket with
  | Some (General (RESP_INCDEC resp)) =>
      let* _ := set_new_version (ping_config_version resp) in sret (0, Some (ping_value resp))
  | Some (General (RESP_RETURN r)) =>
      let* _ := set_new_version (ret_config_version r) in
      let* _ := (if ret_code r =? TAIR_RETURN_SERVER_CAN_NOT_WORK then update_table_soon else sret tt) in
      sret (ret_code r, None)
  | _ => sret (ret, None)
  end))).

(** [tair_client_api::incr] and [decr] *)
Definition incr (area : Z) (key : data_entry) (count init_value expire : Z) : clientM (Z * option Z) :=
  refuse_unless ((0 <=? area) && (0 <=? count) && (0 <=? expire)) TAIR_RETURN_INVALID_ARGUMENT None (
  add_count area key count init_value expire).
Definition decr (area : Z) (key : data_entry) (count init_value expire : Z) : clientM (Z * option Z) :=
  refuse_unless ((0 <=? area) && (0 <=? count) && (0 <=? expire)) TAIR_RETURN_INVALID_ARGUMENT None (
  add_count area key (- count) init_value expire).

(** ** Many keys *)

(** [request_gets[server_id]], and the request in it: the map in the order of
    the servers *)
Fixpoint server_insert {A} (server_id : Z) (a : A) (m : list (Z * A)) : list (Z * A) :=
  match m with
  | [] => [(server_id, a)]
  | (s, b) :: m' =>
      if server_id <? s then (server_id, a) :: m
      else if s <? server_id then (s, b) :: server_insert server_id a m' else (s, a) :: m'
  end.
Fixpoint server_find {A} (server_id : Z) (m : list (Z * A)) : option A :=
  match m with
  | [] => None
  | (s, b) :: m' => if s =? server_id then Some b else server_find server_id m'
  end.

(** The loop of [init_request_map]: the requests, or a negative code *)
Fixpoint request_map (c : tair_client) (area server_select : Z) (keys : list data_entry)
    (requests : list (Z * request_get)) : outcome (Z + list (Z * request_get)) :=
  match keys with
  | [] => Ret (inr requests)
  | key :: rest =>
      if negb (key_entry_check key) then Ret (inl TAIR_RETURN_ITEMSIZE_ERROR)
      else
        let! servers := get_server_id key c in
        match servers with
        | [] => Ret (inl (-1))
        | first :: _ =>
            let server_id := default first (servers !! Z.to_nat server_select) in
            let p := default (mk_request_get 0 0 0 None None) (server_find server_id requests) in
            let p := mk_request_get (get_server_flag p) area (get_key_count p) (get_key p) (get_key_list p) in
            let! p := add_key key p in
            request_map c area server_select rest (server_insert server_id p requests)
        end
  end.
Definition init_request_map (area : Z) (keys : list data_entry) (server_select : Z) (c : tair_client)
    : outcome (Z + list (Z * request_get)) :=
  if negb (area_check area && (0 <=? server_select)) then Ret (inl TAIR_RETURN_INVALID_ARGUMENT)
  else request_map c area server_select keys [].

(** The loop that sends the requests: the last result, and how many went out *)
Fixpoint send_all (cwo : Z) (requests : list (Z * packet)) (ret sent : Z) : clientM (Z * Z) :=
  match requests with
  | [] => sret (ret, sent)
  | (server_id, p) :: rest =>
      let* ret := send_request server_id p cwo in
      send_all cwo rest ret (if ret <? 0 then sent else sent + 1)
  end.

(** The answers to requests to many servers: their number, or a negative code *)
Definition ask_all (requests : list (Z * packet)) : clientM (Z * list packet) :=
  let* cwo := create_wait in
  let* (_, sent) := send_all cwo requests TAIR_RETURN_SEND_FAILED 0 in
  let* (ret, tpk) := get_responses cwo sent in
  let* _ := destroy_wait cwo in
  sret (ret, tpk).

(** The pairs of a [response_get]; the code must be one of success. *)
Definition pairs_of (resp : response_get) : outcome (list (data_entry * data_entry)) :=
  if rget_key_count resp =? 1 then
    match rget_single resp with
    | Some (key, data) => Ret [(copied key, copied data)]
    | None => Overrun
    end
  else
    match rget_map resp with
    | Some kv_map => Ret (map (fun kv => (copied kv.1, copied kv.2)) kv_map)
    | None => Abort
    end.
Fixpoint collect_pairs (tpk : list packet) (data : list (data_entry * data_entry))
    : clientM (list (data_entry * data_entry)) :=
  match tpk with
  | [] => sret data
  | General (RESP_GET resp) :: rest =>
      if (rget_code resp =? TAIR_RETURN_SUCCESS) || (rget_code resp =? TAIR_RETURN_PARTIAL_SUCCESS) then
        let* pairs := slift (pairs_of resp) in
        let* _ := set_new_version (rget_config_version resp) in
        collect_pairs rest (data ++ pairs)
      else collect_pairs rest data
  | _ :: rest => collect_pairs rest data
  end.

Definition mget_impl (area : Z) (keys : list data_entry) (data : list (data_entry * data_entry)) (server_select : Z)
    : clientM (Z * list (data_entry * data_entry)) :=
  let* c := get_client in
  let* r := slift (init_request_map area keys server_select c) in
  match r with
  | inl ret => sret (ret, data)
  | inr requests =>
      let* (ret, tpk) := ask_all (map (fun r => (r.1, General (REQ_GET r.2))) requests) in
      if ret <? 1 then sret (ret, data)
      else
        let* data := collect_pairs tpk data in
        sret (if Z.of_nat (length data) <? Z.of_nat (length keys) then TAIR_RETURN_PARTIAL_SUCCESS
              else TAIR_RETURN_SUCCESS, data)
  end.
Definition mget (area : Z) (keys : list data_entry) (data : list (data_entry * data_entry))
    : clientM (Z * list (data_entry * data_entry)) := mget_impl area keys data 0.

(** The answers to a removal of many keys: the last code, and how many servers
    have succeeded; an answer of another type is NULL. *)
Fixpoint count_removed (tpk : list packet) (ret send_success : Z) : clientM (Z * Z) :=
  match tpk with
  | [] => sret (ret, send_success)
  | General (RESP_RETURN r) :: rest =>
      let* _ := set_new_version (ret_config_version r) in
      if ret_code r <? 0 then
        let* _ := (if ret_code r =? TAIR_RETURN_SERVER_CAN_NOT_WORK then update_table_soon else sret tt) in
        count_removed rest (ret_code r) send_success
      else count_removed rest (ret_code r) (send_success + 1)
  | _ => slift Overrun
  end.
Definition mdelete (area : Z) (keys : list data_entry) : clientM Z :=
  let* c := get_client in
  let* r := slift (init_request_map area keys 0 c) in
  match r with
  | inl ret => sret ret
  | inr requests =>
      let* (ret, tpk) := ask_all (map (fun r => (r.1, General (REQ_REMOVE r.2))) requests) in
      if ret <? 1 then sret ret
      else
        let* (ret, send_success) := count_removed tpk ret 0 in
        sret (if Z.of_nat (length keys) =? send_success then ret else TAIR_RETURN_PARTIAL_SUCCESS)
  end.
(** [tair_client_api::minvalid] *)
Definition minvalid (area : Z) (keys : list data_entry) : clientM Z := mdelete area keys.

(** ** Lists *)

(** The answers to pushes and pops of both ends *)
Definition pick_lrpush (pcode : Z) (p : packet) : option (Z * Z * Z) :=
  if negb (pcode_of p - pcode =? 100) then None
  else match p with
  | List (RESP_LPUSH r) | List (RESP_RPUSH r) | List (RESP_LPUSHX r) | List (RESP_RPUSHX r) =>
      Some (rlrpush_config_version r, rlrpush_code r, rlrpush_pushed_num r)
  | _ => None
  end.
(** [request_lrpush(pcode)] as it goes out *)
Definition lrpush_packet (pcode : Z) (r : request_lrpush) : packet :=
  if pcode =? TAIR_REQ_LPUSH_PACKET then List (REQ_LPUSH r) else List (REQ_RPUSH r).

(** [successlen] stays as it is unless the answer has the expected code; an
    answer of another type leaves [ret], which is 0 then. *)
Definition lrpush (pcode area : Z) (key : data_entry) (values : list data_entry) (expire version successlen : Z)
    : clientM (Z * Z) :=
  let len := s32 (foldr (fun d n => get_size d + n) 0 values) in
  refuse_unless (key_entry_check key) TAIR_RETURN_ITEMSIZE_ERROR successlen (
  refuse_unless (vector_data_check values) TAIR_RETURN_ITEMSIZE_ERROR successlen (
  refuse_unless (get_size key + len <=? TAIR_MAX_DATA_SIZE + TAIR_MAX_KEY_SIZE) TAIR_RETURN_ITEMSIZE_ERROR successlen (
  refuse_unless (area_check area && (0 <=? version)) TAIR_RETURN_INVALID_ARGUMENT successlen (
  to_server key TAIR_RETURN_CONNECT_ERROR_OR_TIMEOUT successlen (fun server_id =>
  let* (ret, tpacket) := ask server_id
    (lrpush_packet pcode (mk_request_lrpush 0 area (u16 version) expire (copied key) (map copied values))) in
  match tpacket ≫= pick_lrpush pcode with
  | Some (version, code, pushed_num) =>
      let* _ := set_new_version version in
      let* _ := (if (code =? TAIR_RETURN_SERVER_CAN_NOT_WORK) || (code =? TAIR_RETURN_WRITE_NOT_ON_MASTER)
                 then update_table_soon else sret tt) in
      sret (code, pushed_num)
  | None => sret (ret, successlen)
  end))))).

Definition pick_lrpop (p : packet) : option (Z * Z * list data_entry) :=
  match p with
  | List (RESP_LPOP r) | List (RESP_RPOP r) => Some (rlrpop_config_version r, rlrpop_code r, map copied (rlrpop_values r))
  | _ => None
  end.
Definition lrpop_packet (pcode : Z) (r : request_lrpop) : packet :=
  if pcode =? TAIR_REQ_LPOP_PACKET then List (REQ_LPOP r) else List (REQ_RPOP r).
(** The expiry and the version are not sent. *)
Definition lrpop (pcode area : Z) (key : data_entry) (count : Z) (values : list data_entry)
    : clientM (Z * list data_entry) :=
  refuse_unless (key_entry_check key) TAIR_RETURN_ITEMSIZE_ERROR values (
  refuse_unless (area_check area) TAIR_RETURN_INVALID_ARGUMENT values (
  to_server key TAIR_RETURN_CONNECT_ERROR_OR_TIMEOUT values (fun server_id =>
  let* answer := ask server_id (lrpop_packet pcode (mk_request_lrpop 0 area 0 0 count (copied key))) in
  strict_answer pick_lrpop [] answer))).

Definition lpush (area : Z) (key : data_entry) (values : list data_entry) (expire version successlen : Z)
    : clientM (Z * Z) := lrpush TAIR_REQ_LPUSH_PACKET area key values expire version successlen.
Definition rpush (area : Z) (key : data_entry) (values : list data_entry) (expire version successlen : Z)
    : clientM (Z * Z) := lrpush TAIR_REQ_RPUSH_PACKET area key values expire version successlen.
Definition lpush_one (area : Z) (key value : data_entry) (expire version : Z) : clientM Z :=
  let* (ret, _) := lrpush TAIR_REQ_LPUSH_PACKET area key [value] expire version 0 in sret ret.
Definition rpush_one (area : Z) (key value : data_entry) (expire version : Z) : clientM Z :=
  let* (ret, _) := lrpush TAIR_REQ_RPUSH_PACKET area key [value] expire version 0 in sret ret.
Definition lpop (area : Z) (key : data_entry) (count : Z) (values : list data_entry) : clientM (Z * list data_entry) :=
  lrpop TAIR_REQ_LPOP_PACKET area key count values.
Definition rpop (area : Z) (key : data_entry) (count : Z) (values : list data_entry) : clientM (Z * list data_entry) :=
  lrpop TAIR_REQ_RPOP_PACKET area key count values.
Definition lpop_one (area : Z) (key : data_entry) : clientM (Z * option data_entry) :=
  let* (ret, v) := lrpop TAIR_REQ_LPOP_PACKET area key 1 [] in sret (ret, head v).
Definition rpop_one (area : Z) (key : data_entry) : clientM (Z * option data_entry) :=
  let* (ret, v) := lrpop TAIR_REQ_RPOP_PACKET area key 1 [] in sret (ret, head v).

Definition lindex (area : Z) (key : data_entry) (index : Z) (value : data_entry) : clientM (Z * data_entry) :=
  refuse_unless (key_entry_check key) TAIR_RETURN_ITEMSIZE_ERROR value (
  refuse_unless (area_check area) TAIR_RETURN_INVALID_ARGUMENT value (
  to_server key TAIR_RETURN_CONNECT_ERROR_OR_TIMEOUT value (fun server_id =>
  let* answer := ask server_id (List (REQ_LINDEX (mk_request_lindex 0 area index (copied key)))) in
  strict_answer (fun p => match p with
    | List (RESP_LINDEX r) => Some (rlindex_config_version r, rlindex_code r, copied (rlindex_value r))
    | _ => None end) value answer))).

Definition lrange (area : Z) (key : data_entry) (start end_ : Z) (values : list data_entry) : clientM (Z * list
  data_entry) :=
  refuse_unless (key_entry_check key) TAIR_RETURN_ITEMSIZE_ERROR values (
  refuse_unless (area_check area) TAIR_RETURN_INVALID_ARGUMENT values (
  to_server key TAIR_RETURN_CONNECT_ERROR_OR_TIMEOUT values (fun server_id =>
  let* answer := ask server_id (List (REQ_LRANGE (mk_request_lrange 0 area start end_ (copied key)))) in
  strict_answer (fun p => match p with
    | List (RESP_LRANGE r) => Some (rlrange_config_version r, rlrange_code r, rlrange_values r)
    | _ => None end) values answer))).

Definition lset (area : Z) (key : data_entry) (index : Z) (value : data_entry) (expire version : Z) : clientM Z :=
  let* (ret, _) := (
  refuse_unless (area_check area) TAIR_RETURN_INVALID_ARGUMENT tt (
  refuse_unless (key_entry_check key) TAIR_RETURN_ITEMSIZE_ERROR tt (
  to_server key TAIR_RETURN_CONNECT_ERROR_OR_TIMEOUT tt (fun server_id =>
  let* answer := ask server_id (List (REQ_LSET (mk_request_lset 0 area (u16 version) expire index (copied key)
    (copied value)))) in
  strict_answer (fun p => match p with
    | List (RESP_LSET r) => Some (rhset_config_version r, rhset_code r, tt)
    | _ => None end) tt answer)))) in
  sret ret.

(** The length starts as 0. *)
Definition llen (area : Z) (key : data_entry) : clientM (Z * Z) :=
  refuse_unless (area_check area) TAIR_RETURN_INVALID_ARGUMENT 0 (
  refuse_unless (key_entry_check key) TAIR_RETURN_ITEMSIZE_ERROR 0 (
  to_server key TAIR_RETURN_CONNECT_ERROR_OR_TIMEOUT 0 (fun server_id =>
  let* answer := ask server_id (List (REQ_LLEN (mk_request_llen 0 area (copied key)))) in
  strict_answer (fun p => match p with
    | List (RESP_LLEN r) => Some (rllen_config_version r, rllen_code r, s32 (rllen_retnum r))
    | _ => None end) 0 answer))).

Definition ltrim (area : Z) (key : data_entry) (start end_ expire version : Z) : clientM Z :=
  let* (ret, _) := (
  refuse_unless (area_check area) TAIR_RETURN_INVALID_ARGUMENT tt (
  refuse_unless (key_entry_check key) TAIR_RETURN_ITEMSIZE_ERROR tt (
  to_server key TAIR_RETURN_CONNECT_ERROR_OR_TIMEOUT tt (fun server_id =>
  let* answer := ask server_id (List (REQ_LTRIM (mk_request_ltrim 0 area (u16 version) expire start end_ (copied
    key)))) in
  strict_answer (fun p => match p with
    | List (RESP_LTRIM r) => Some (rltrim_config_version r, rltrim_code r, tt)
    | _ => None end) tt answer)))) in
  sret ret.

(** ** Sets *)

Definition sadd (area : Z) (key value : data_entry) (expire version : Z) : clientM Z :=
  let* (ret, _) := (
  refuse_unless (key_entry_check key) TAIR_RETURN_ITEMSIZE_ERROR tt (
  refuse_unless (data_entry_check value) TAIR_RETURN_ITEMSIZE_ERROR tt (
  refuse_unless (area_check area) TAIR_RETURN_INVALID_ARGUMENT tt (
  to_server key TAIR_RETURN_CONNECT_ERROR_OR_TIMEOUT tt (fun server_id =>
  let* answer := ask server_id (Set_ (REQ_SADD (mk_request_sadd 0 area (u16 version) expire (copied key) (copied
    value)))) in
  lenient_answer (fun p => match p with
    | Set_ (RESP_SADD r) => Some (rsadd_config_version r, rsadd_code r, tt)
    | _ => None end) tt answer))))) in
  sret ret.

Definition smembers (area : Z) (key : data_entry) (values : list data_entry) : clientM (Z * list data_entry) :=
  refuse_unless (key_entry_check key) TAIR_RETURN_ITEMSIZE_ERROR values (
  refuse_unless (area_check area) TAIR_RETURN_INVALID_ARGUMENT values (
  to_server key TAIR_RETURN_CONNECT_ERROR_OR_TIMEOUT values (fun server_id =>
  let* answer := ask server_id (Set_ (REQ_SMEMBERS (mk_request_smembers 0 area (copied key)))) in
  lenient_answer (fun p => match p with
    | Set_ (RESP_SMEMBERS r) => Some (rsmembers_config_version r, rsmembers_code r, rsmembers_values r)
    | _ => None end) values answer))).

Definition srem (area : Z) (key value : data_entry) (expire version : Z) : clientM Z :=
  let* (ret, _) := (
  refuse_unless (key_entry_check key) TAIR_RETURN_ITEMSIZE_ERROR tt (
  refuse_unless (area_check area) TAIR_RETURN_INVALID_ARGUMENT tt (
  to_server key TAIR_RETURN_CONNECT_ERROR_OR_TIMEOUT tt (fun server_id =>
  let* answer := ask server_id (Set_ (REQ_SREM (mk_request_srem 0 area (u16 version) expire (copied key) (copied
    value)))) in
  lenient_answer (fun p => match p with
    | Set_ (RESP_SREM r) => Some (rsrem_config_version r, rsrem_code r, tt)
    | _ => None end) tt answer)))) in
  sret ret.

(** ** Hashes *)

Definition hset (area : Z) (key field value : data_entry) (expire version : Z) : clientM Z :=
  let* (ret, _) := (
  refuse_unless (key_entry_check key) TAIR_RETURN_ITEMSIZE_ERROR tt (
  refuse_unless (data_entry_check field) TAIR_RETURN_ITEMSIZE_ERROR tt (
  refuse_unless (data_entry_check value) TAIR_RETURN_ITEMSIZE_ERROR tt (
  refuse_unless (area_check area) TAIR_RETURN_INVALID_ARGUMENT tt (
  to_server key TAIR_RETURN_CONNECT_ERROR_OR_TIMEOUT tt (fun server_id =>
  let* answer := ask server_id (Hash (REQ_HSET (mk_request_hset 0 area (u16 version) expire (copied key) (copied
    field) (copied value)))) in
  lenient_answer (fun p => match p with
    | Hash (RESP_HSET r) => Some (rhset_config_version r, rhset_code r, tt)
    | _ => None end) tt answer)))))) in
  sret ret.

Definition hget (area : Z) (key field : data_entry) (value : data_entry) : clientM (Z * data_entry) :=
  refuse_unless (key_entry_check key) TAIR_RETURN_ITEMSIZE_ERROR value (
  refuse_unless (data_entry_check field) TAIR_RETURN_ITEMSIZE_ERROR value (
  refuse_unless (area_check area) TAIR_RETURN_INVALID_ARGUMENT value (
  to_server key TAIR_RETURN_CONNECT_ERROR_OR_TIMEOUT value (fun server_id =>
  let* answer := ask server_id (Hash (REQ_HGET (mk_request_hget 0 area (copied key) (copied field)))) in
  lenient_answer (fun p => match p with
    | Hash (RESP_HGET r) => Some (rhget_config_version r, rhget_code r, copied (rhget_value r))
    | _ => None end) value answer)))).

(** [map_to_vector] and [vector_to_map] *)
Definition map_to_vector (md : list (data_entry * data_entry)) : list data_entry := flat_map (fun kv => [kv.1;
  kv.2]) md.
Fixpoint vector_to_map (vd : list data_entry) : option (list (data_entry * data_entry)) :=
  match vd with
  | [] => Some []
  | [_] => None
  | k :: v :: rest => md ← vector_to_map rest; Some ((k, v) :: md)
  end.

(** The fields that have been set are returned unless all have been. *)
Definition hmset (area : Z) (key : data_entry) (field_values : list (data_entry * data_entry)) (expire version : Z)
  : clientM (Z * list (data_entry * data_entry)) :=
  refuse_unless (key_entry_check key) TAIR_RETURN_ITEMSIZE_ERROR [] (
  refuse_unless (map_data_check field_values) TAIR_RETURN_ITEMSIZE_ERROR [] (
  refuse_unless (area_check area) TAIR_RETURN_INVALID_ARGUMENT [] (
  to_server key TAIR_RETURN_CONNECT_ERROR_OR_TIMEOUT [] (fun server_id =>
  let* answer := ask server_id (Hash (REQ_HMSET (mk_request_hmset 0 area (u16 version) expire (copied key)
    (map_to_vector field_values)))) in
  lenient_answer (fun p => match p with
    | Hash (RESP_HMSET r) => Some (rhmset_config_version r, rhmset_code r, if rhmset_retvalue r =? Z.of_nat (length
      field_values) then [] else take (Z.to_nat (rhmset_retvalue r)) field_values)
    | _ => None end) [] answer)))).

(** An answer of an odd number of entries gives the code of a serialisation
    error. *)
Definition hgetall (area : Z) (key : data_entry) : clientM (Z * list (data_entry * data_entry)) :=
  refuse_unless (key_entry_check key) TAIR_RETURN_ITEMSIZE_ERROR [] (
  refuse_unless (area_check area) TAIR_RETURN_INVALID_ARGUMENT [] (
  to_server key TAIR_RETURN_CONNECT_ERROR_OR_TIMEOUT [] (fun server_id =>
  let* answer := ask server_id (Hash (REQ_HGETALL (mk_request_hgetall 0 area (copied key)))) in
  let* (ret, md) := lenient_answer (fun p => match p with
    | Hash (RESP_HGETALL r) => Some (rhgetall_config_version r, rhgetall_code r, vector_to_map (rhgetall_values r))
    | _ => None end) (Some []) answer in
  sret (match md with Some md => (ret, md) | None => (TAIR_RETURN_SERIALIZE_ERROR, []) end)))).

Definition hmget (area : Z) (key : data_entry) (fields : list data_entry) : clientM (Z * list data_entry) :=
  refuse_unless (key_entry_check key) TAIR_RETURN_ITEMSIZE_ERROR [] (
  refuse_unless (vector_data_check fields) TAIR_RETURN_ITEMSIZE_ERROR [] (
  refuse_unless (area_check area) TAIR_RETURN_INVALID_ARGUMENT [] (
  to_server key TAIR_RETURN_CONNECT_ERROR_OR_TIMEOUT [] (fun server_id =>
  let* answer := ask server_id (Hash (REQ_HMGET (mk_request_hmget 0 area (copied key) fields))) in
  lenient_answer (fun p => match p with
    | Hash (RESP_HMGET r) => Some (rhmget_config_version r, rhmget_code r, rhmget_values r)
    | _ => None end) [] answer)))).

Definition hdel (area : Z) (key field : data_entry) (expire version : Z) : clientM Z :=
  let* (ret, _) := (
  refuse_unless (area_check area) TAIR_RETURN_INVALID_ARGUMENT tt (
  refuse_unless (key_entry_check key) TAIR_RETURN_ITEMSIZE_ERROR tt (
  refuse_unless (data_entry_check field) TAIR_RETURN_ITEMSIZE_ERROR tt (
  to_server key TAIR_RETURN_CONNECT_ERROR_OR_TIMEOUT tt (fun server_id =>
  let* answer := ask server_id (Hash (REQ_HDEL (mk_request_hdel 0 area (u16 version) expire (copied key) (copied
    field)))) in
  lenient_answer (fun p => match p with
    | Hash (RESP_HDEL r) => Some (rhdel_config_version r, rhdel_code r, tt)
    | _ => None end) tt answer))))) in
  sret ret.

(** ** Sorted sets *)

Definition zadd (area : Z) (key value : data_entry) (score expire version : Z) : clientM Z :=
  let* (ret, _) := (
  refuse_unless (area_check area) TAIR_RETURN_INVALID_ARGUMENT tt (
  refuse_unless (key_entry_check key) TAIR_RETURN_ITEMSIZE_ERROR tt (
  refuse_unless (data_entry_check value) TAIR_RETURN_ITEMSIZE_ERROR tt (
  to_server key TAIR_RETURN_CONNECT_ERROR_OR_TIMEOUT tt (fun server_id =>
  let* answer := ask server_id (Zset (REQ_ZADD (mk_request_zadd 0 area (u16 version) expire score (copied key)
    (copied value)))) in
  lenient_answer (fun p => match p with
    | Zset (RESP_ZADD r) => Some (rzadd_config_version r, rzadd_code r, tt)
    | _ => None end) tt answer))))) in
  sret ret.

Definition zcard (area : Z) (key : data_entry) (retnum : Z) : clientM (Z * Z) :=
  refuse_unless (area_check area) TAIR_RETURN_INVALID_ARGUMENT retnum (
  refuse_unless (key_entry_check key) TAIR_RETURN_ITEMSIZE_ERROR retnum (
  to_server key TAIR_RETURN_CONNECT_ERROR_OR_TIMEOUT retnum (fun server_id =>
  let* answer := ask server_id (Zset (REQ_ZCARD (mk_request_zcard 0 area (copied key)))) in
  lenient_answer (fun p => match p with
    | Zset (RESP_ZCARD r) => Some (rzcard_config_version r, rzcard_code r, rzcard_retnum r)
    | _ => None end) retnum answer))).

Definition zrem (area : Z) (key value : data_entry) (expire version : Z) : clientM Z :=
  let* (ret, _) := (
  refuse_unless (area_check area) TAIR_RETURN_INVALID_ARGUMENT tt (
  refuse_unless (key_entry_check key) TAIR_RETURN_ITEMSIZE_ERROR tt (
  refuse_unless (data_entry_check value) TAIR_RETURN_ITEMSIZE_ERROR tt (
  to_server key TAIR_RETURN_CONNECT_ERROR_OR_TIMEOUT tt (fun server_id =>
  let* answer := ask server_id (Zset (REQ_ZREM (mk_request_zrem 0 area (u16 version) expire (copied key) (copied
    value)))) in
  lenient_answer (fun p => match p with
    | Zset (RESP_ZREM r) => Some (rzrem_config_version r, rzrem_code r, tt)
    | _ => None end) tt answer))))) in
  sret ret.

(** The values with the score 0, and the values with their scores: a score
    that is missing is read outside the vector. *)
Definition unscored (values : list data_entry) : list (data_entry * Z) := map (fun v => (v, 0)) values.
Fixpoint scored (values : list data_entry) (scores : list Z) : outcome (list (data_entry * Z)) :=
  match values, scores with
  | [], _ => Ret []
  | v :: values, s :: scores => let! rest := scored values scores in Ret ((v, s) :: rest)
  | _ :: _, [] => Overrun
  end.
Definition push_scores (valuescores : list (data_entry * Z)) (r : Z * outcome (list (data_entry * Z)))
    : clientM (Z * list (data_entry * Z)) :=
  let* l := slift r.2 in sret (r.1, valuescores ++ l).

Definition zrange (area : Z) (key : data_entry) (start end_ : Z) (withscore : bool) (valuescores : list (data_entry
  * Z))
    : clientM (Z * list (data_entry * Z)) :=
  refuse_unless (area_check area) TAIR_RETURN_INVALID_ARGUMENT valuescores (
  refuse_unless (key_entry_check key) TAIR_RETURN_ITEMSIZE_ERROR valuescores (
  to_server key TAIR_RETURN_CONNECT_ERROR_OR_TIMEOUT valuescores (fun server_id =>
  let* answer := ask server_id
    (Zset (REQ_ZRANGE (mk_request_zrange 0 area start end_ (Z.b2z withscore) (copied key)))) in
  let* r := lenient_answer (fun p => match p with
    | Zset (RESP_ZRANGE r) => Some (rzrange_config_version r, rzrange_code r, Ret (unscored (rzrange_values r)))
    | Zset (RESP_ZRANGEWITHSCORE r) =>
        Some (rzrangewithscore_config_version r, rzrangewithscore_code r,
              scored (rzrangewithscore_values r) (rzrangewithscore_scores r))
    | _ => None end) (Ret []) answer in
  push_scores valuescores r))).

Definition zrangebyscore (area : Z) (key : data_entry) (start end_ : Z) (reverse : bool) (limit : Z) (withscore :
  bool)
    (valuescores : list (data_entry * Z)) : clientM (Z * list (data_entry * Z)) :=
  refuse_unless (area_check area) TAIR_RETURN_INVALID_ARGUMENT valuescores (
  refuse_unless (key_entry_check key) TAIR_RETURN_ITEMSIZE_ERROR valuescores (
  to_server key TAIR_RETURN_CONNECT_ERROR_OR_TIMEOUT valuescores (fun server_id =>
  let* answer := ask server_id (Zset (REQ_GENERIC_ZRANGEBYSCORE
    (mk_request_generic_zrangebyscore 0 area start end_ (copied key) (Z.b2z reverse) limit (Z.b2z withscore)))) in
  let* r := lenient_answer (fun p => match p with
    | Zset (RESP_GENERIC_ZRANGEBYSCORE r) =>
        Some (rgeneric_config_version r, rgeneric_code r,
              match rgeneric_scores r with
              | [] => Ret (unscored (rgeneric_values r))
              | scores => scored (rgeneric_values r) scores
              end)
    | _ => None end) (Ret []) answer in
  push_scores valuescores r))).

Definition zremrangebyscore (area : Z) (key : data_entry) (start end_ expire version : Z) (retnum : Z) : clientM (Z
  * Z) :=
  refuse_unless (area_check area) TAIR_RETURN_INVALID_ARGUMENT retnum (
  refuse_unless (key_entry_check key) TAIR_RETURN_ITEMSIZE_ERROR retnum (
  to_server key TAIR_RETURN_CONNECT_ERROR_OR_TIMEOUT retnum (fun server_id =>
  let* answer := ask server_id (Zset (REQ_ZREMRANGEBYSCORE (mk_request_zremrangebyscore 0 area (u16 version) expire
    start end_ (copied key)))) in
  lenient_answer (fun p => match p with
    | Zset (RESP_ZREMRANGEBYSCORE r) => Some (rzremrangebyscore_config_version r, rzremrangebyscore_code r,
      rzremrangebyscore_retnum r)
    | _ => None end) retnum answer))).

Definition zremrangebyrank (area : Z) (key : data_entry) (start end_ expire version : Z) (retnum : Z) : clientM (Z
  * Z) :=
  refuse_unless (area_check area) TAIR_RETURN_INVALID_ARGUMENT retnum (
  refuse_unless (key_entry_check key) TAIR_RETURN_ITEMSIZE_ERROR retnum (
  to_server key TAIR_RETURN_CONNECT_ERROR_OR_TIMEOUT retnum (fun server_id =>
  let* answer := ask server_id (Zset (REQ_ZREMRANGEBYRANK (mk_request_zremrangebyrank 0 area (u16 version) expire
    start end_ (copied key)))) in
  lenient_answer (fun p => match p with
    | Zset (RESP_ZREMRANGEBYRANK r) => Some (rzremrangebyrank_config_version r, rzremrangebyrank_code r,
      rzremrangebyrank_retnum r)
    | _ => None end) retnum answer))).

(** ** Requests to servers that are not a key's *)

(** The data servers, each once, in the order of their ids *)
Definition all_servers (c : tair_client) : list Z :=
  foldl (fun l id => if id =? 0 then l else ordered_insert Z.ltb id l) [] (cl_ds_server_list c).

Definition op_cmd_to_cs (cmd : Z) (params : list (list Z)) (ret_values : list (list Z)) : clientM (Z * list (list Z)) :=
  let* c := get_client in
  match cl_config_server_list c with
  | [] | 0 :: _ => sret (TAIR_RETURN_FAILED, ret_values)
  | master :: _ =>
      let* (ret, tpacket) := ask master (General (REQ_OP_CMD (mk_request_op_cmd cmd params))) in
      match tpacket with
      | None => sret (ret, ret_values)
      | Some (General (RESP_OP_CMD resp)) => sret (rop_cmd_code resp, rop_cmd_infos resp)
      | Some _ => sret (TAIR_RETURN_FAILED, ret_values)
      end
  end.

(** The answers of the data servers to a command *)
Fixpoint command_answers (tpk : list packet) (infos : list (list Z)) (fail_request : Z) : clientM (list (list Z) * Z) :=
  match tpk with
  | [] => sret (infos, fail_request)
  | General (RESP_RETURN r) :: rest =>
      if ret_code r =? TAIR_RETURN_SUCCESS then command_answers rest infos fail_request
      else
        let* _ := (if ret_code r =? TAIR_RETURN_SERVER_CAN_NOT_WORK then
                     let* _ := set_new_version (ret_config_version r) in update_table_soon
                   else sret tt) in
        command_answers rest infos (fail_request + 1)
  | General (RESP_OP_CMD r) :: rest =>
      if rop_cmd_code r =? TAIR_RETURN_SUCCESS then command_answers rest (infos ++ rop_cmd_infos r) fail_request
      else command_answers rest infos (fail_request + 1)
  | _ :: rest => command_answers rest infos (fail_request + 1)
  end.
(** [dest] is the server an address names, 0 for an invalid one. *)
Definition op_cmd_to_ds (cmd : Z) (params infos : list (list Z)) (dest : option Z) : clientM (Z * list (list Z)) :=
  let* c := get_client in
  let servers := match dest with
                 | Some server_id => if server_id =? 0 then [] else [server_id]
                 | None => all_servers c
                 end in
  if decide (servers = []) then sret (TAIR_RETURN_FAILED, infos) else
  let* (ret, tpk) := ask_all (map (fun id => (id, General (REQ_OP_CMD (mk_request_op_cmd cmd params)))) servers) in
  if ret <? 1 then sret (if ret =? 0 then TAIR_RETURN_FAILED else ret, infos)
  else
    let* (infos, fail_request) := command_answers tpk infos 0 in
    sret (if 0 <? fail_request then TAIR_RETURN_PARTIAL_SUCCESS else TAIR_RETURN_SUCCESS, infos).

(** Sending to all servers and looking at one answer; its code does not count. *)
Definition tell_all (requests : list (Z * packet)) : clientM Z :=
  match requests with
  | [] => sret TAIR_RETURN_SUCCESS
  | _ =>
      let* cwo := create_wait in
      let* (ret, sent) := send_all cwo requests TAIR_RETURN_SEND_FAILED 0 in
      let* ret := (if 0 <? sent then let* (ret, _) := get_response cwo sent in sret ret else sret ret) in
      let* _ := destroy_wait cwo in
      sret ret
  end.
Definition remove_area (area : Z) (lazy : bool) : clientM Z :=
  if (area <? -4) || (TAIR_MAX_AREA_COUNT <=? area) then sret TAIR_RETURN_INVALID_ARGUMENT
  else
    let* c := get_client in
    let p := if lazy then General (REQ_LAZY_REMOVE_AREA (mk_request_lazy_remove_area area))
             else General (REQ_REMOVE_AREA (mk_request_remove_area area)) in
    tell_all (map (fun id => (id, p)) (all_servers c)).
Definition dump_area (info : list dump_meta_info) : clientM Z :=
  let* c := get_client in
  tell_all (map (fun id => (id, General (REQ_DUMP (mk_request_dump info)))) (all_servers c)).

Definition force_change_dataserver_status (server_id cmd : Z) : clientM unit :=
  let* c := get_client in
  (fix loop l := match l with
   | [] => sret tt
   | conf :: rest =>
       let* _ := on_network (sendPacket conf (General (REQ_DATASERVER_CTRL (mk_request_data_server_ctrl server_id cmd))) 0) in
       loop rest
   end) (cl_config_server_list c).

(** A question to the first config server, and the answer if it is one *)
Definition ask_config {A} (p : packet) (pick : packet -> option A) (out : A) : clientM A :=
  let* c := get_client in
  match cl_config_server_list c with
  | [] => sret out
  | conf :: _ =>
      let* (_, tpacket) := ask conf p in
      sret (default out (tpacket ≫= pick))
  end.
Definition get_migrate_status (server_id : Z) (result : list (Z * Z)) : clientM (list (Z * Z)) :=
  ask_config (General (REQ_GET_MIGRATE_MACHINE (mk_request_get_migrate_machine server_id)))
    (fun p => match p with
     | General (RESP_GET_MIGRATE_MACHINE r) => Some (rmigrate_machine_vec_ms r)
     | _ => None end) result.
Definition query_from_configserver (query_type : Z) (group_name : list Z) (out : list (list Z * list Z)) (serverId : Z)
    : clientM (list (list Z * list Z)) :=
  ask_config (General (REQ_QUERY_INFO (mk_request_query_info query_type group_name serverId)))
    (fun p => match p with
     | General (RESP_QUERY_INFO r) => Some (rquery_info_map_k_v r)
     | _ => None end) out.

Definition get_server_with_key (key : data_entry) (servers : list Z) : clientM (list Z) :=
  if negb (key_entry_check key) then sret servers
  else let* c := get_client in let* l := slift (get_server_id key c) in sret (servers ++ l).

(** ** The table *)

(** [set_group_name(group_name)] of a new request: 63 characters *)
Definition get_group_packet (c : tair_client) : packet :=
  General (REQ_GET_GROUP (mk_request_get_group 0 (take 63 (cl_group_name c)))).

(** The loop of [retrieve_server_addr]: the first config server that answers *)
Fixpoint ask_config_servers (servers : list Z) (p : packet) : clientM (option response_get_group) :=
  match servers with
  | [] => sret None
  | server_id :: rest =>
      let* cwo := create_wait in
      let* sent := on_network (sendPacket server_id p cwo) in
      if negb sent then let* _ := destroy_wait cwo in ask_config_servers rest p
      else
        let* (_, tpacket) := get_response cwo 1 in
        let* _ := destroy_wait cwo in
        match tpacket with
        | Some (General (RESP_GET_GROUP r)) => sret (Some r)
        | _ => ask_config_servers rest p
        end
  end.
Definition retrieve_server_addr : clientM bool :=
  let* c := get_client in
  if bool_decide (cl_config_server_list c = []) || bool_decide (cl_group_name c = []) then sret false else
  let* answer := ask_config_servers (cl_config_server_list c) (get_group_packet c) in
  match answer with
  | None => sret false
  | Some rggp =>
      if rget_group_config_version rggp =? 0 then sret false
      else if (rget_group_bucket_count rggp =? 0) || (rget_group_copy_count rggp =? 0) then sret false
      else
        let buckets := rget_group_bucket_count rggp in
        let copies := rget_group_copy_count rggp in
        let* _ := update (fun c => set_bucket_count (fun _ => buckets) (set_copy_count (fun _ => copies) c)) in
        let '(list, count) := get_server_list uncompress buckets copies (rget_group_hash_table rggp) in
        match list with
        | None => sret false
        | Some server_list =>
            if count <=? 0 then sret false
            else
              need* u32 count =? u32 (buckets * copies) in
              let* _ := update (set_ds_server_list (fun old => old ++ take (Z.to_nat (u32 count)) server_list)) in
              let* _ := update (fun c => set_new_config_version (fun _ => rget_group_config_version rggp)
                          (set_config_version (fun _ => rget_group_config_version rggp) c)) in
              sret true
        end
  end.

(** [startup(master_cfgsvr, slave_cfgsvr, group_name)]; the network threads are
    running. *)
Definition startup (master_cfgsvr slave_cfgsvr : Z) (name : list Z) : clientM bool :=
  if master_cfgsvr =? 0 then sret false
  else
    let* _ := update (set_config_server_list (fun l => l ++ master_cfgsvr ::
                (if slave_cfgsvr =? 0 then [] else [slave_cfgsvr]))) in
    let* _ := update (set_group_name (fun _ => name)) in
    let* c := get_client in
    if cl_inited c then sret true
    else
      let* ok := retrieve_server_addr in
      if ok : bool then let* _ := update (set_inited (fun _ => true)) in sret true else sret false.

(** [directup(data_server)], and the [startup(dataserver)] that leaves [direct] *)
Definition directup (isAlive : Z -> bool) (server : Z) : clientM bool :=
  if server =? 0 then sret false
  else
    let* _ := update (set_ds_server_list (fun l => l ++ [server])) in
    let* c := get_client in
    if cl_inited c then sret true
    else
      let* _ := update (fun c => set_data_server (fun _ => server) (set_direct (fun _ => true)
                  (set_inited (fun _ => true) (set_bucket_count (fun _ => 1) (set_copy_count (fun _ => 1) c))))) in
      sret (isAlive server).
Definition startup_one (isAlive : Z -> bool) (dataserver : Z) : clientM bool :=
  let* _ := update (fun c => set_inited (fun _ => true) (set_bucket_count (fun _ => 1) (set_copy_count (fun _ => 1)
              (set_ds_server_list (fun l => l ++ [dataserver]) c)))) in
  sret (isAlive dataserver).

(** One turn of [run]: every second the table is asked for if it is due; the
    answer comes to [handlePacket]. *)
Definition table_is_due (c : tair_client) : bool :=
  (cl_config_version c <? TAIR_CONFIG_MIN_VERSION)
  || negb ((cl_config_version c =? cl_new_config_version c) && (cl_send_fail_count c <? UPDATE_SERVER_TABLE_INTERVAL)).
Definition run_turn (config_server_index : Z) : clientM Z :=
  let* c := get_client in
  if bool_decide (cl_config_server_list c = []) || negb (table_is_due c) then sret config_server_index
  else
    let config_server_index := (config_server_index + 1) mod Z.of_nat (length (cl_config_server_list c)) in
    let* serverId := slift (at_ (cl_config_server_list c) config_server_index) in
    let* _ := on_network (sendPacket serverId (get_group_packet c) 0) in
    let* _ := update (set_send_fail_count (fun _ => 0)) in
    sret config_server_index.
End client.
