(* ===== verification/ClientTheorems.v ===== *)
(** * What a client's requests come to, over any network

    The packets that arrive while a client waits go to the request they answer
    ([ask_run]); where the client finds the servers of a key, and how it divides
    many keys among them; and what its callers are told when nothing, or an
    answer of another type, arrives. *)

From S2P Require Import Prelude PacketCodes Util DataBuffer DataEntry MemCache TableBuilder MdbManager TableManager Storage TairManager BasePacket KvPackets ConfPackets KeyPackets ListPackets HashPackets SetPackets ZsetPackets PacketFactory CopyPackets RequestProcessor WaitObject ServerList Client.

(** ** Waiting *)

(** The packets among the deliveries that come for the request [w] *)
Definition packets_for (w : Z) (l : list (Z * delivery)) : list packet :=
  omap (fun '(a, d) => match d with
        | RegularPacket q => if a =? w then Some q else None
        | ControlPacket _ => None
        end) l.

(** Nothing among them is an answer that nobody asked for: such an answer may
    be a new table. *)
Definition asked (x : Z * delivery) : Prop :=
  match x.2 with RegularPacket _ => x.1 <> 0 | ControlPacket _ => True end.
Definition all_asked (l : list (Z * delivery)) : Prop := Forall asked l.

(** What requests leave alone *)
Record same_routes (c c' : tair_client) : Prop := {
  sr_direct : cl_direct c' = cl_direct c;
  sr_data_server : cl_data_server c' = cl_data_server c;
  sr_timeout : cl_timeout c' = cl_timeout c;
  sr_buckets : cl_bucket_count c' = cl_bucket_count c;
  sr_copies : cl_copy_count c' = cl_copy_count c;
  sr_table : cl_ds_server_list c' = cl_ds_server_list c;
  sr_configs : cl_config_server_list c' = cl_config_server_list c
}.

Lemma same_routes_refl c : same_routes c c.
Proof. by constructor. Qed.
Lemma same_routes_trans c1 c2 c3 : same_routes c1 c2 -> same_routes c2 c3 -> same_routes c1 c3.
Proof. intros [] []. constructor; congruence. Qed.

Definition wait_seq (c : tair_client) : Z := wait_object_seq_id (cl_waiting c).

Section waiting.
Context {N : Type} `{network N} (uncompress : list Z -> Z -> option (list Z)).

Lemma insert_packet_arrives q (wo : wait_object packet) :
  except_pcode wo = null_pcode -> except_pcode_set wo = ∅ ->
  exists wo', insert_packet pcode_of (Some q) wo = Some wo' /\ except_pcode wo' = null_pcode /\ except_pcode_set wo' = ∅
    /\ arrived wo' = arrived wo ++ [q].
Proof.
  intros E1 E2. unfold insert_packet, excepted. rewrite E1, E2, Z.eqb_refl, bool_decide_eq_false_2 by set_solver. cbn [negb andb orb].
  unfold arrived. destruct (resp_list wo) as [l|]; [|destruct (resp wo) as [r|]]; by eexists.
Qed.

(** A control packet does not wake the waiter. *)
Lemma wakeup_null a (m : wait_object_manager packet) : wakeup_wait_object pcode_of a None m = m.
Proof. unfold wakeup_wait_object. by destruct (wait_object_map m !! a). Qed.

Lemma handlePacket_waits d a c w wo :
  w <> 0 -> wait_object_map (cl_waiting c) !! w = Some wo -> except_pcode wo = null_pcode -> except_pcode_set wo = ∅ ->
  let c' := handlePacket uncompress d a c in
  wait_seq c' = wait_seq c /\ (asked (a, d) -> same_routes c c')
  /\ exists wo', wait_object_map (cl_waiting c') !! w = Some wo' /\ except_pcode wo' = null_pcode /\ except_pcode_set wo' = ∅
     /\ arrived wo' = arrived wo ++ packets_for w [(a, d)].
Proof.
  intros Hw Hl E1 E2. cbn [packets_for omap list_omap]. destruct d as [q|cmd]; cbn [handlePacket].
  - destruct (Z.eqb_spec a 0) as [->|Ha]; cbn [negb].
    + destruct (Z.eqb_spec 0 w); [congruence|]. split; [|split; [done|]].
      * destruct q as [q|q|q|q|q|q|q]; try done. destruct q; try done. cbn. unfold take_table. cbv zeta. case_match; [done|].
        by destruct (get_server_list _ _ _ _) as [[]].
      * exists wo. rewrite app_nil_r. split; [|done]. destruct q as [q|q|q|q|q|q|q]; try done. destruct q; try done. cbn.
        unfold take_table. cbv zeta. case_match; [done|]. by destruct (get_server_list _ _ _ _) as [[]].
    + unfold wait_seq. cbn [cl_waiting set_waiting]. unfold wakeup_wait_object. destruct (Z.eqb_spec a w) as [->|D].
      * rewrite Hl. destruct (insert_packet_arrives q wo E1 E2) as (wo' & -> & E1' & E2' & Ha').
        split; [done|]. split; [by constructor|]. exists wo'. cbn. by rewrite lookup_insert_eq.
      * rewrite app_nil_r. destruct (wait_object_map (cl_waiting c) !! a) as [wa|]; [|split; [done|]; split; [by constructor|by exists wo]].
        destruct (insert_packet pcode_of (Some q) wa) as [wa'|]; [|split; [done|]; split; [by constructor|by exists wo]].
        split; [done|]. split; [by constructor|]. exists wo. cbn. by rewrite lookup_insert_ne.
  - rewrite app_nil_r. split; [|split].
    + case_match; [done|]. case_match; [done|]. unfold wait_seq. cbn [cl_waiting set_waiting]. by rewrite wakeup_null.
    + intros _. case_match; [by constructor|]. case_match; [by constructor|]. by constructor.
    + exists wo. split; [|done]. case_match; [done|]. case_match; [done|]. unfold wait_seq. cbn [cl_waiting set_waiting]. by rewrite wakeup_null.
Qed.

Lemma handle_all_waits l c w wo :
  w <> 0 -> wait_object_map (cl_waiting c) !! w = Some wo -> except_pcode wo = null_pcode -> except_pcode_set wo = ∅ ->
  let c' := handle_all uncompress l c in
  wait_seq c' = wait_seq c /\ (all_asked l -> same_routes c c')
  /\ exists wo', wait_object_map (cl_waiting c') !! w = Some wo' /\ arrived wo' = arrived wo ++ packets_for w l.
Proof.
  intros Hw. revert c wo. induction l as [|[a d] l IH]; intros c wo Hl E1 E2.
  { split; [done|]. split; [by constructor|]. exists wo. split; [done|]. by rewrite app_nil_r. }
  destruct (handlePacket_waits d a c w wo Hw Hl E1 E2) as (Hseq & Hsr & wo1 & Hl1 & E3 & E4 & Ha).
  destruct (IH _ wo1 Hl1 E3 E4) as (Hseq2 & Hsr2 & wo2 & Hl2 & Ha2). cbv zeta. unfold handle_all in *. cbn [foldl].
  split; [congruence|]. split.
  - intros [Ha0 Hl0]%list.Forall_cons. eapply same_routes_trans; [by apply Hsr|by apply Hsr2].
  - exists wo2. split; [done|]. rewrite Ha2, Ha, <- app_assoc. f_equal. unfold packets_for. cbn. by case_match.
Qed.

(** ** A question and its answer *)

(** The number of the next request *)
Definition next_wait (c : tair_client) : Z := wait_seq c + 1.
Definition can_wait (c : tair_client) : Prop := 0 <= wait_seq c < 2 ^ 31 - 1.

Lemma create_wait_run c n :
  can_wait c ->
  exists m, create_wait (c, n : N) = Ret (next_wait c, (set_waiting (fun _ => m) c, n))
    /\ wait_object_seq_id m = next_wait c
    /\ wait_object_map m !! next_wait c = Some (new_wait_object null_pcode ∅).
Proof.
  intros Hc. unfold create_wait, create_wait_object, add_new_wait_object, next_wait, can_wait, wait_seq in *.
  rewrite swrap_id by (unfold in_s; lia). destruct (Z.eqb_spec (wait_object_seq_id (cl_waiting c) + 1) 0); [lia|].
  eexists. split; [done|]. split; [done|]. apply lookup_insert_eq.
Qed.

(** The code and the packet a question ends with, after the packets for it *)
Definition first_answer (l : list packet) : Z * option packet :=
  match l with
  | [] => (TAIR_RETURN_TIMEOUT, None)
  | q :: _ => (0, Some q)
  end.

Lemma get_packet_first w (l : list packet) : arrived w = l -> get_packet 0 w = head l.
Proof.
  intros <-. unfold get_packet, arrived. destruct (resp_list w) as [[|]|]; [done|done|]. by destruct (resp w).
Qed.

(** A request that cannot be sent, and one that waits. *)
Lemma ask_run server q c n sent n1 :
  server <> 0 -> can_wait c -> sendPacket server q (next_wait c) n = Ret (sent, n1) ->
  if sent : bool then
    forall l n2, arrivals 1 (cl_timeout c) n1 = Ret (l, n2) ->
    exists c', ask uncompress server q (c, n) = Ret (first_answer (packets_for (next_wait c) l), (c', n2))
      /\ wait_seq c' = next_wait c /\ (all_asked l -> same_routes c c')
  else exists c', ask uncompress server q (c, n) = Ret ((TAIR_RETURN_SEND_FAILED, None), (c', n1))
      /\ wait_seq c' = next_wait c /\ same_routes c c'.
Proof.
  intros Hs0 Hc Hsend. destruct (create_wait_run c n Hc) as (m & Ec & Hseq & Hm). unfold ask.
  set (w := next_wait c) in *. assert (0 < w) as Hw by (unfold w, next_wait, can_wait in *; lia).
  set (c1 := set_waiting (fun _ => m) c) in *.
  assert (forall A (k : Z -> clientM A) ret c2, (if sent then ret = 0 /\ c2 = c1 else ret = TAIR_RETURN_SEND_FAILED
             /\ c2 = set_send_fail_count (fun f => s32 (f + 1)) c1) ->
           (let* ret := send_request server q w in k ret) (c1, n) = k ret (c2, n1)) as Hreq.
  { intros A k ret c2 Hr. unfold send_request, sassert. rewrite (proj2 (Z.eqb_neq server 0) Hs0), (proj2 (Z.leb_le 0 w)) by lia. cbn [negb andb].
    unfold on_network, sbind. rewrite Hsend. destruct sent; destruct Hr as [-> ->]; done. }
  destruct sent.
  - intros l n2 Harr. destruct (handle_all_waits l c1 w _ ltac:(lia) Hm eq_refl eq_refl) as (Hseq2 & Hsr & wo & Hwo & Ha).
    cbn [arrived new_wait_object app] in Ha. exists (set_waiting (destroy_wait_object w) (handle_all uncompress l c1)).
    split; [|split; [by rewrite <- Hseq|]].
    + step_with Ec. rewrite (Hreq _ _ 0 c1) by done. cbn [Z.ltb Z.compare].
      assert (wait_done uncompress w 1 (c1, n1) = Ret (wo, (handle_all uncompress l c1, n2))) as Ewd.
      { unfold wait_done, sassert. cbn [Z.leb Z.compare]. unfold get_client, on_network, update, sbind. cbn.
        change (cl_timeout c1) with (cl_timeout c). rewrite Harr. cbn. by rewrite Hwo. }
      assert (get_response uncompress w 1 (c1, n1) = Ret (first_answer (packets_for w l), (handle_all uncompress l c1, n2))) as Egr.
      { unfold get_response. step_with Ewd. rewrite (get_packet_first wo _ Ha). by destruct (packets_for w l). }
      step_with Egr. by destruct (packets_for w l).
    + intros Hl. eapply same_routes_trans; [|eapply same_routes_trans; [by apply Hsr|]]; by constructor.
  - exists (set_waiting (destroy_wait_object w) (set_send_fail_count (fun f => s32 (f + 1)) c1)).
    split; [|split; [done|by constructor]]. step_with Ec. by rewrite (Hreq _ _ TAIR_RETURN_SEND_FAILED _ (conj eq_refl eq_refl)).
Qed.
End waiting.

(** ** The servers of a key *)

Lemma server_ids_column t buckets copies b n i :
  0 < buckets -> 0 <= b < buckets -> 0 <= i -> i + Z.of_nat n = copies -> buckets * copies < 2 ^ 30 ->
  buckets * copies <= Z.of_nat (length t) ->
  server_ids t buckets b n i
  = Ret (filter (fun x => x <> 0) (map (fun l => cell t (b + l * buckets)) (seqZ i (copies - i)))).
Proof.
  intros Hbu Hb. revert i. induction n as [|n IH]; intros i Hi Hn Hmax Hlen.
  { replace (copies - i) with 0 by lia. done. }
  cbn [server_ids]. rewrite wrap_id by (unfold in_u; nia). rewrite at_cell by nia. cbn [obind].
  rewrite IH by lia. cbn [obind]. rewrite (seqZ_cons i) by lia. cbn [map]. rewrite filter_cons.
  replace (Z.pred (copies - i)) with (copies - (i + 1)) by lia. replace (Z.succ i) with (i + 1) by lia.
  destruct (Z.eqb_spec (cell t (b + i * buckets)) 0) as [E|E]; [by rewrite decide_False by tauto|by rewrite decide_True].
Qed.

Lemma cell_take t n i : 0 <= i < Z.of_nat n -> cell (take n t) i = cell t i.
Proof. intros Hi. unfold cell. by rewrite lookup_take_lt by lia. Qed.

Section routes.
Context {St : Type} `{storage_manager St}.

(** The client's table is the current table of the server. *)
Record same_table (c : tair_client) (tm : tair_manager St) (t : list Z) : Prop := {
  tt_direct : cl_direct c = false;
  tt_server : server_table (tm_table tm) = Some t;
  tt_buckets : cl_bucket_count c = tm_bucket_count (tm_table tm);
  tt_copies : cl_copy_count c = tm_copy_count (tm_table tm);
  tt_list : cl_ds_server_list c = take (Z.to_nat (cl_bucket_count c * cl_copy_count c)) t;
  tt_sizes : 1 <= cl_bucket_count c /\ 2 <= cl_copy_count c /\ cl_bucket_count c * cl_copy_count c < 2 ^ 29;
  tt_length : cl_bucket_count c * cl_copy_count c <= Z.of_nat (length t)
}.

Definition bucket_of (c : tair_client) (key : data_entry) : Z := mur_mur_hash (get_data key) mod cl_bucket_count c.

Lemma same_table_routes c tm t key ip :
  same_table c tm t -> cell t (bucket_of c key) = ip -> ip <> 0 -> bs_test (tm_done tm) (bucket_of c key) = Ret false ->
  exists slaves, get_server_id key c = Ret (ip :: slaves)
    /\ get_bucket_number key tm = Ret (bucket_of c key)
    /\ get_slaves ip TAIR_SERVERFLAG_CLIENT (bucket_of c key) tm = Ret slaves
    /\ Forall (fun sv => sv <> 0) slaves /\ Z.of_nat (length slaves) < cl_copy_count c.
Proof.
  intros [Hd Ht Hbu Hco Hl (H1 & H2 & Hmax) Hlen] Hip H0 Hdone. set (b := bucket_of c key) in *.
  set (buckets := cl_bucket_count c) in *. set (n := cl_copy_count c) in *.
  assert (0 <= b < buckets) as Hb by (apply Z.mod_pos_bound; lia).
  exists (filter (fun x => x <> 0) (drop 1 (column buckets n t 0 b))). split; [|split; [|split; [|split]]].
  - unfold get_server_id, server_ids_of_hash. rewrite Hd. fold buckets n. unfold oassert. rewrite (proj2 (Z.eqb_neq buckets 0)) by lia. cbn [negb].
    assert (Z.of_nat (length (take (Z.to_nat (buckets * n)) t)) = buckets * n) as Hlt by (rewrite length_take; lia).
    rewrite Hl, Hlt. replace (Z.min n (buckets * n)) with n by nia. change (mur_mur_hash (get_data key) mod buckets) with b.
    rewrite (server_ids_column _ buckets n) by lia. f_equal. rewrite Z.sub_0_r.
    unfold column. rewrite (seqZ_cons 0 n) by lia. cbn [map drop]. rewrite filter_cons, cell_take by nia.
    replace (b + 0 * buckets) with b by lia. rewrite Hip, decide_True by done. f_equal. f_equal.
    apply list_fmap_ext. intros i l Hi. apply lookup_seqZ in Hi. rewrite cell_take by nia. done.
  - unfold get_bucket_number, bucket_of_hash. rewrite <- Hbu. fold buckets. unfold oassert. by rewrite (proj2 (Z.eqb_neq buckets 0)) by lia.
  - unfold get_slaves. rewrite <- Hco. fold n. rewrite (proj2 (Z.eqb_neq n 1)) by lia. cbn. rewrite Hdone. cbn [obind].
    pose proof (get_slaves_spec ip (tm_table tm) t b false Ht) as E. cbv zeta in E. rewrite <- Hbu, <- Hco in E.
    rewrite E by (cbv iota; nia). change (0 + b) with b. by rewrite Hip, Z.eqb_refl.
  - apply list.Forall_forall. intros x Hx. by apply list_elem_of_filter in Hx as [? _].
  - pose proof (list.length_filter (fun x => x <> 0) (drop 1 (column buckets n t 0 b))) as Hf.
    rewrite length_drop in Hf. unfold column in Hf at 2. rewrite length_map, length_seqZ in Hf. lia.
Qed.
End routes.

(** ** Puts and gets *)

Section put_get.
Context {N : Type} `{network N} (uncompress : list Z -> Z -> option (list Z)).

Lemma to_server_run {A} key code (out : A) k tc (n : N) server rest :
  get_server_id key tc = Ret (server :: rest) -> to_server key code out k (tc, n) = k server (tc, n).
Proof. intros E. unfold to_server. step_with (eq_refl : get_client (tc, n) = Ret (tc, (tc, n))). by step_with (slift_run _ (server :: rest) (tc, n) E). Qed.

Lemma new_version_routes v tc : same_routes tc (set_new_config_version (fun _ => v) tc).
Proof. by constructor. Qed.
Lemma table_soon_routes k tc : same_routes tc (set_send_fail_count (fun _ => k) tc).
Proof. by constructor. Qed.

(** What the client looks at before it puts *)
Definition put_checks (area : Z) (key data : data_entry) (expired version : Z) : bool :=
  key_entry_check key && data_entry_check data
  && (get_size key + get_size data <=? TAIR_MAX_DATA_SIZE + TAIR_MAX_KEY_SIZE)
  && (area_check area && (0 <=? version) && (0 <=? expired)).

Lemma put_refused area key data expired version s :
  put_checks area key data expired version = false ->
  exists ret, put uncompress area key data expired version s = Ret (ret, s) /\ ret < 0.
Proof.
  intros Hc. unfold put, put_checks, refuse_unless in *. destruct (key_entry_check key && data_entry_check data); [|by eexists].
  destruct (_ <=? _); [|by eexists]. destruct (area_check area && _ && _); [done|by eexists].
Qed.

(** The code a put ends with, after its question *)
Definition put_code (r : Z * option packet) : Z :=
  match r.2 with
  | Some (General (RESP_RETURN resp)) => ret_code resp
  | _ => r.1
  end.

Lemma client_put_asks area key data expired version tc n server rest r tc1 n1 :
  put_checks area key data expired version = true -> get_server_id key tc = Ret (server :: rest) ->
  ask uncompress server (General (REQ_PUT (mk_request_put 0 area (u16 version) expired (-1) (copied key) (copied data)))) (tc, n)
  = Ret (r, (tc1, n1)) ->
  exists tc2, put uncompress area key data expired version (tc, n) = Ret (put_code r, (tc2, n1))
    /\ wait_seq tc2 = wait_seq tc1 /\ same_routes tc1 tc2.
Proof.
  intros Hc Hr E. unfold put, put_checks, refuse_unless in *. apply andb_true_iff in Hc as [[Hc1 Hc2]%andb_true_iff Hc3].
  rewrite Hc1, Hc2, Hc3. unfold sbind at 1. rewrite (to_server_run _ _ _ _ _ _ _ _ Hr). unfold sbind at 1. rewrite E.
  destruct r as [ret [q|]]; [|exists tc1; split; [done|split; [done|apply same_routes_refl]]].
  destruct q as [q|q|q|q|q|q|q]; try (exists tc1; split; [done|split; [done|apply same_routes_refl]]).
  destruct q; try (exists tc1; split; [done|split; [done|apply same_routes_refl]]).
  unfold set_new_version, update_table_soon, put_code. cbn. case_match.
  - eexists. split; [done|]. split; [done|]. by constructor.
  - eexists. split; [done|]. split; [done|]. by constructor.
Qed.

Definition get_checks (area : Z) (key : data_entry) : bool := key_entry_check key && area_check area.

(** A get asks the servers of the key in turn. *)
Lemma client_get_asks area key tc n servers g r tc1 n1 :
  get_checks area key = true -> get_server_id key tc = Ret servers -> servers <> [] ->
  add_key key (mk_request_get 0 area 0 None None) = Ret g ->
  get_from uncompress servers (General (REQ_GET g)) TAIR_RETURN_SEND_FAILED (tc, n) = Ret (r, (tc1, n1)) ->
  match r with
  | (ret, None) => get uncompress area key (tc, n) = Ret ((ret, None), (tc1, n1))
  | (_, Some (General (RESP_GET v))) =>
      rget_code v = TAIR_RETURN_SUCCESS -> forall kd, rget_single v = Some kd ->
      exists tc2, get uncompress area key (tc, n) = Ret ((TAIR_RETURN_SUCCESS, Some kd.2), (tc2, n1))
        /\ wait_seq tc2 = wait_seq tc1 /\ same_routes tc1 tc2
  | _ => True
  end.
Proof.
  intros [Hc1 Hc2]%andb_true_iff Hr Hne Hg E. destruct r as [ret tpacket].
  assert (forall s, get uncompress area key (tc, n) = s <-> (match tpacket with
    | Some (General (RESP_GET resp)) =>
      if (rget_code resp =? TAIR_RETURN_SUCCESS) && negb (bool_decide (is_Some (rget_single resp))) then slift Abort
      else strict_answer (fun _ => Some (rget_config_version resp, rget_code resp, snd <$> rget_single resp)) None
             (ret, tpacket)
    | _ => strict_answer (fun _ => None) None (ret, tpacket)
    end) (tc1, n1) = s) as Hget.
  { intros s. unfold get, refuse_unless. rewrite Hc1, Hc2. step_with (eq_refl : get_client (tc, n) = Ret (tc, (tc, n))).
    step_with (slift_run _ servers (tc, n) Hr). rewrite decide_False by done. step_with (slift_run _ g (tc, n) Hg).
    by step_with E. }
  destruct tpacket as [q|]; [|by apply Hget]. destruct q as [q|q|q|q|q|q|q]; try done. destruct q; try done.
  intros Hcode [k d] Hs. eexists. split; [apply Hget|].
  - rewrite Hcode, Hs. reflexivity.
  - split; [done|]. by constructor.
Qed.
End put_get.
