(* ===== verification/Cluster.v ===== *)
(** * Clients and data servers on a network that loses messages

    A cluster is a number of data servers, the packets in flight between them
    and the client, and a schedule: what happens while the client waits.  A
    packet in flight may be delivered, in any order, or lost; a request may be
    given up ([Expire]) whether or not its answer still comes; time may pass on
    a server ([Tick]), on each by its own clock; a server may crash, and a
    server that fails an assertion or leaves its memory has crashed.  The client
    is the peer 0.

    [cluster] is an instance of the client's [network]: what a server posts or
    sends goes into flight, what arrives at the dispatcher of a server is what
    the packet decodes to. *)

From S2P Require Import Prelude PacketCodes Util DataBuffer DataEntry EngineRun MdbManager Engine TableManager Storage TairManager TairService BasePacket KvPackets ConfPackets KeyPackets ListPackets HashPackets SetPackets ZsetPackets PacketFactory CopyPackets DupSync DupSyncTheorems RequestProcessor TairServer Replication WaitObject Client.

(** ** The network *)

Inductive flight :=
| Request (src dst args : Z) (q : packet)
| Answer (src dst args : Z) (q : packet).

Inductive choice :=
| Deliver (n : nat)
| Lose (n : nat)
| Expire (dst args : Z)
| Tick (server now : Z)
| Crash (server : Z).

Record cluster (St : Type) := mk_cluster {
  cs_servers : gmap Z (data_server St); cs_flights : list flight; cs_schedule : list (list choice)
}.
Arguments mk_cluster {St}. Arguments cs_servers {St}. Arguments cs_flights {St}. Arguments cs_schedule {St}.

(** What goes into flight; a packet the factory does not know is not decoded. *)
Definition sent_by (sv : Z) (o : output) : list flight :=
  match o with
  | Post conn chid (Plain q) => [Answer sv conn chid q]
  | Send dst (Plain q) id => [Request sv dst id q]
  | _ => []
  end.

(** What an answer is to the duplicator *)
Definition event_of (q : packet) : dup_event :=
  match q with General (RESP_DUPLICATE r) => Response r | _ => OtherPacket end.

Definition CMD_TIMEOUT_PACKET : Z := 2.

(** The clock a server reads, [time(NULL)], is kept with the state of its
    engine: [at_time now] is the engine when the clock reads [now]. *)
Class timed (St : Type) := at_time : Z -> St -> St.
#[export] Instance mdb_timed : timed mdb_manager := fun now s =>
  mk_mdb_manager (mdb_bucket_count s) (set_now now (mdb_engine s)).

Section cluster.
Context {St : Type} `{storage_manager St} `{timed St} (uninit : Z) (remote_sync : bool)
  (arrange : list (data_entry * data_entry) -> list (data_entry * data_entry)).

Local Abbreviation yes := (fun _ : Z => true).

Definition set_flights (f : list flight -> list flight) (c : cluster St) : cluster St :=
  mk_cluster (cs_servers c) (f (cs_flights c)) (cs_schedule c).
Definition set_servers (f : gmap Z (data_server St) -> gmap Z (data_server St)) (c : cluster St) : cluster St :=
  mk_cluster (f (cs_servers c)) (cs_flights c) (cs_schedule c).

(** A server that is up takes a step; one that fails is gone. *)
Definition server_steps (sv : Z) (step : data_server St -> outcome (data_server St * list output)) (c : cluster St)
    : cluster St :=
  match cs_servers c !! sv with
  | None => c
  | Some ds =>
      match step ds with
      | Ret (ds', out) => set_flights (fun l => l ++ flat_map (sent_by sv) out) (set_servers <[sv := ds']> c)
      | _ => set_servers (delete sv) c
      end
  end.

Definition on_request (sv src args : Z) (q : packet) (ds : data_server St) : outcome (data_server St * list output) :=
  let! (_, s) := handlePacketQueue sv uninit yes yes remote_sync arrange src args true (received_of q) (ds, []) in Ret s.
Definition on_event (e : dup_event) (ds : data_server St) : outcome (data_server St * list output) :=
  match ds_duplicator ds with
  | None => Ret (ds, [])
  | Some d =>
      let! (_, (d, out)) := DupSync.handlePacket yes uninit e (d, []) in
      Ret (mk_data_server (ds_manager ds) (Some d) (ds_client_version ds), out)
  end.

Definition server_at (now : Z) (ds : data_server St) : data_server St :=
  let tm := ds_manager ds in
  mk_data_server (set_storage (at_time now (tm_storage tm)) tm) (ds_duplicator ds) (ds_client_version ds).

Definition deliver (f : flight) (c : cluster St) : cluster St * list (Z * delivery) :=
  match f with
  | Request src dst args q => (server_steps dst (on_request dst src args q) c, [])
  | Answer _ dst args q =>
      if dst =? 0 then (c, [(args, RegularPacket (received_of q))])
      else (server_steps dst (on_event (event_of (received_of q))) c, [])
  end.

Definition play (x : choice) (c : cluster St) : cluster St * list (Z * delivery) :=
  match x with
  | Deliver n =>
      match cs_flights c !! n with
      | None => (c, [])
      | Some f => deliver f (set_flights (delete n) c)
      end
  | Lose n => (set_flights (delete n) c, [])
  | Expire dst args =>
      if dst =? 0 then (c, [(args, ControlPacket CMD_TIMEOUT_PACKET)])
      else (server_steps dst (on_event (Control args)) c, [])
  | Tick sv now => (server_steps sv (fun ds => Ret (server_at now ds, [])) c, [])
  | Crash sv => (set_servers (delete sv) c, [])
  end.
Fixpoint play_all (l : list choice) (c : cluster St) : cluster St * list (Z * delivery) :=
  match l with
  | [] => (c, [])
  | x :: rest =>
      let '(c, inbox) := play x c in
      let '(c, more) := play_all rest c in
      (c, inbox ++ more)
  end.

(** The client sends to a server that is up; while it waits, the next part of
    the schedule is played. *)
Definition cluster_send (server : Z) (q : packet) (args : Z) : stM (cluster St) bool := fun c =>
  if bool_decide (is_Some (cs_servers c !! server)) then Ret (true, set_flights (fun l => l ++ [Request 0 server args q]) c)
  else Ret (false, c).
Definition cluster_wait (count timeout : Z) : stM (cluster St) (list (Z * delivery)) := fun c =>
  match cs_schedule c with
  | [] => Ret ([], c)
  | l :: rest =>
      let '(c, inbox) := play_all l (mk_cluster (cs_servers c) (cs_flights c) rest) in
      Ret (inbox, c)
  end.
#[export] Instance cluster_network : network (cluster St) :=
  {| sendPacket := cluster_send; arrivals := cluster_wait |}.
End cluster.
