(* ===== verification/ClusterTheorems.v ===== *)
(** * What a client's success means on the whole network

    A client puts and gets, servers store, copy and answer, packets are lost,
    overtake each other and come too late, time passes, servers crash: a put that the client
    was told has succeeded is on the master and its slaves, and whichever of
    them answers a later get answers with the bytes of the put. *)

From S2P Require Import Prelude PacketCodes Util DataBuffer DataEntry MdbItem EngineRun EngineState MdbManager Engine TableManager Storage TairManager TairService BasePacket KvPackets ConfPackets KeyPackets ListPackets HashPackets SetPackets ZsetPackets PacketFactory CopyPackets DupSync DupSyncTheorems RequestProcessor TairServer Replication WaitObject ServerList Client ClientTheorems Cluster.

(** ** Time *)

(** An engine stands for the same store whatever its clock reads. *)
Class TimedLaws (St : Type) `{KeyValueLaws St} `{timed St} :=
  time_law : forall s c now, holds s c ->
    holds (at_time now s) c /\ clock (at_time now s) = u32 now /\ forall n, room s n -> room (at_time now s) n.

#[export] Instance mdb_timed_laws share malloced :
  @TimedLaws mdb_manager (mdb_storage share malloced) (mdb_laws share malloced) mdb_timed.
Proof.
  intros s c now (m & vs & Hck & <-). split; [|by split].
  exists m, vs. split; [by apply cache_ok_now|done].
Qed.

(** The clocks of all servers stay between [since] and [until], and a put with a
    time to live that is stored in that time expires after [until]: [until] is
    not past the date of expiry of a put at [since]. *)
Definition lifetime (p : request_put) (since until : Z) : Prop :=
  0 <= since /\ until < 2 ^ 32
  /\ (0 < put_expired p -> until + put_expired p < 2 ^ 32 /\ until <= put_exptime (put_expired p) since 0).

Lemma lifetime_exptime p since until now :
  lifetime p since until -> since <= now <= until -> 0 < put_expired p -> until <= put_exptime (put_expired p) now 0.
Proof.
  intros (HT & _ & Hx) Hnow Hp. destruct (Hx Hp) as [Hb Hd]. unfold put_exptime in *.
  rewrite !(wrap_id 32) in * by (unfold in_u; lia).
  destruct (Z.ltb_spec 0 (put_expired p)); [|lia].
  destruct (Z.ltb_spec since (put_expired p)), (Z.ltb_spec now (put_expired p)); lia.
Qed.

(** The store holds the put, and will at [until]. *)
Definition keeps_put (p : request_put) (until : Z) (c : gmap (list Z) entry) : Prop :=
  exists e, c !! put_at p = Some e /\ e_value e = get_data (put_data p) /\ (0 < put_expired p -> until <= e_exptime e).

Lemma holds_keeps p since until now c : lifetime p since until -> since <= now <= until -> holds_put p now c -> keeps_put p until c.
Proof.
  intros Hl Hnow (e & He & Hv & Hx). exists e. split; [done|]. split; [done|]. intros Hp. rewrite (Hx Hp).
  by eapply lifetime_exptime.
Qed.

(** ** The servers *)

Section servers.
Context {St : Type} `{Hlaws : KeyValueLaws St} (since until : Z) (uninit : Z) (remote_sync : bool)
  (arrange : list (data_entry * data_entry) -> list (data_entry * data_entry)).

Local Abbreviation yes := (fun _ : Z => true).

(** The get of the key of a put, and its answer *)
Definition gets_key (p : request_put) (g : request_get) : Prop :=
  get_area g = put_area p /\ get_key_list g = None
  /\ exists key, get_key g = Some key /\ client_key (put_area p) key /\ get_data key = get_data (put_key p).
Definition answers_with (bytes : list Z) (r : response_get) : Prop :=
  rget_code r = TAIR_RETURN_SUCCESS
  /\ exists key data, rget_single r = Some (key, data) /\ get_data data = bytes /\ 1 <= get_size data.

(** A server that stands for a store with the put, and its clock *)
Definition server_keeps (p : request_put) (ds : data_server St) (c : gmap (list Z) entry) : Prop :=
  server_serves ds c /\ keeps_put p until c.
Definition in_time (ds : data_server St) : Prop := since <= server_clock ds <= until.

Lemma server_reads ip (ds : data_server St) c conn chid p g :
  client_put p -> 0 < put_expired p -> server_keeps p ds c -> in_time ds -> gets_key p g ->
  exists ds' r, handlePacketQueue ip uninit yes yes remote_sync arrange conn chid true (General (REQ_GET g)) (ds, [])
      = Ret (true, (ds', [Post conn chid (Plain (General (RESP_GET r)))]))
    /\ answers_with (get_data (put_data p)) r
    /\ server_keeps p ds' c /\ same_server (ds_manager ds) (ds_manager ds') /\ ds_duplicator ds' = ds_duplicator ds.
Proof.
  intros Hp Hpos [Hs (e & He & Hv & Hx)] Hrd (Ha & Hl & key & Hk & Hck & Hkd).
  destruct (get_run (ds_manager ds) c (put_area p) key new_data_entry Hs Hck)
    as (rc & key' & value' & r & tm' & c' & E & Hs' & Hsame & Hg & Hrec & _).
  assert (r = Some e /\ rc = TAIR_RETURN_SUCCESS /\ c' = c) as (-> & -> & ->).
  { unfold put_at in He. rewrite <- Hkd in He.
    assert (entry_expired (tm_clock (ds_manager ds)) e = false) as Hnx.
    { unfold entry_expired, in_time, server_clock in *. specialize (Hx Hpos).
      destruct (Z.ltb_spec (e_exptime e) (tm_clock (ds_manager ds))); [lia|]. by rewrite andb_false_r. }
    inversion Hg as [Hn|e' He' Hx' |e' He' Hx']; subst; try congruence.
    rewrite He in He'. by injection He' as <-. }
  destruct Hrec as (Hvd & Hvs & _). set (ds' := mk_data_server tm' (ds_duplicator ds) (ds_client_version ds)).
  exists ds', (response_of arrange (ds_client_version ds) TAIR_RETURN_SUCCESS (mk_getting 1 (Some (key', value')) None)).
  split; [|split; [|split; [|done]]].
  - set (m := process_get yes arrange (mk_origin conn chid (pcode_of (General (REQ_GET g)))) g true).
    assert (m (ds, []) = Ret ((TAIR_RETURN_SUCCESS, false), (ds', [Post conn chid (Plain (General (RESP_GET
      (response_of arrange (ds_client_version ds) TAIR_RETURN_SUCCESS (mk_getting 1 (Some (key', value')) None)))))]))) as Em.
    { unfold m, process_get. rewrite (if_working_run ds [] c) by done. rewrite Hl, Hk, Ha. cbv zeta.
      rewrite (sbind_run _ _ (ds, []) (TAIR_RETURN_SUCCESS, mk_getting 1 (Some (key', value')) None) (ds', [])); [done|].
      by step_with (on_manager_run _ ds [] _ _ E). }
    unfold handlePacketQueue.
    cbn [process process_general]. fold m. rewrite sbind_assoc. by step_with Em.
  - split; [done|]. exists key', value'. split; [done|]. rewrite Hvd. split; [done|]. rewrite Hvs, Hv.
    destruct Hp as [_ _ _ _ [[Hsz ?] _]]. lia.
  - split; [done|]. by exists e.
Qed.

Lemma answers_with_received bytes r q :
  answers_with bytes r -> received_of (General (RESP_GET r)) = q ->
  exists r', q = General (RESP_GET r') /\ answers_with bytes r'.
Proof.
  intros (Hc & key & data & Hr & Hd & Hsz) <-. exists (response_get_received r). split; [done|]. split; [done|].
  exists (recv key), (recv data). unfold response_get_received. cbn. rewrite Hr. split; [done|].
  unfold received, get_data, get_size in *. cbn. destruct (Z.ltb_spec 0 (size data)); [done|lia].
Qed.
End servers.

(** ** A put on its way *)

Section put.
Context {St : Type} `{Hlaws : KeyValueLaws St} {Htimed : timed St} {Htime : TimedLaws St} (uninit : Z) (remote_sync : bool)
  (arrange : list (data_entry * data_entry) -> list (data_entry * data_entry)).
Local Abbreviation yes := (fun _ : Z => true).

(** The put [p] of the client that waits with number [w], at the master [M]: its
    slaves, and the number of the copies *)
Context (p : request_put) (M w bucket id ver : Z) (slaves : list Z).
Context (Hp : client_put p) (HM0 : M <> 0) (HM : M ∉ slaves) (Hbucket : 0 <= bucket < TAIR_MAX_BUCKET_NUMBER).
Context (Hslaves : Forall (fun sv => sv <> 0) slaves).

(** The time in which all this happens *)
Context (since until : Z) (Hlife : lifetime p since until).

Definition copies : list Z := M :: take MAX_DUP_COUNT slaves.
Definition put_node : CPacket_wait_Nodes :=
  new_wait_node bucket (mk_origin 0 w TAIR_REQ_PUT_PACKET) slaves ver.

(** What is known of a server that is up *)
Definition up (c : cluster St) (sv : Z) (P : data_server St -> Prop) : Prop :=
  forall ds, cs_servers c !! sv = Some ds -> P ds.
Definition not_waiting (ds : data_server St) : Prop :=
  match ds_duplicator ds with Some d => m_PkgWaitMap (packets_mgr d) = ∅ | None => True end.
Definition slave_ready (ds : data_server St) : Prop :=
  (exists st, server_serves ds st) /\ item_room (ds_manager ds) (put_key p) (get_size (put_data p)) /\ in_time since until ds.
Definition holder (ds : data_server St) : Prop := (exists st, server_keeps until p ds st) /\ in_time since until ds.

(** The master's wait table: at most the node of the put; who is not awaited any
    more holds the put. *)
Record waits (c : cluster St) (d : dup_sync_sender_manager) : Prop := {
  wt_ok : sender_ok d;
  wt_nodes : forall i n, m_PkgWaitMap (packets_mgr d) !! i = Some n -> i = id /\ exists ids, n = with_servers ids put_node;
  wt_acked : forall servers, awaiting (packets_mgr d) !! id = Some servers ->
    forall sv, sv ∈ take MAX_DUP_COUNT slaves -> sv ∈ servers \/ up c sv holder
}.

Definition all_hold (c : cluster St) : Prop := forall sv, sv ∈ copies -> up c sv holder.

Inductive flight_ok (c : cluster St) : flight -> Prop :=
| copy_flies sv : sv ∈ slaves -> flight_ok c (Request M sv id (copy_packet_of p id bucket))
| get_flies sv a q g :
    0 < put_expired p -> sv ∈ copies -> up c sv holder -> a <> w -> a <> 0 -> received_of q = General (REQ_GET g) -> gets_key p g ->
    flight_ok c (Request 0 sv a q)
| ack_flies sv :
    sv ∈ slaves -> up c sv holder ->
    flight_ok c (Answer sv M id (General (RESP_DUPLICATE (mk_response_duplicate id sv bucket 0 0))))
| success_flies :
    all_hold c -> flight_ok c (Answer M 0 w (General (RESP_RETURN (mk_response_return ver 0 []))))
| value_flies sv a r :
    a <> w -> a <> 0 -> answers_with (get_data (put_data p)) r -> flight_ok c (Answer sv 0 a (General (RESP_GET r))).

(** The put is stored at the master, and on its way to the slaves. *)
Record spread (c : cluster St) : Prop := {
  sp_master : up c M (fun ds => holder ds /\ exists d, ds_duplicator ds = Some d /\ waits c d);
  sp_others : forall sv, sv <> M -> up c sv not_waiting;
  sp_slaves : forall sv, sv ∈ slaves -> up c sv slave_ready;
  sp_flights : Forall (flight_ok c) (cs_flights c)
}.

(** Whoever holds the put keeps it. *)
Definition keeps (c c' : cluster St) : Prop := forall sv, up c sv holder -> up c' sv holder.

Lemma keeps_refl c : keeps c c.
Proof. by intros sv. Qed.
Lemma keeps_trans c1 c2 c3 : keeps c1 c2 -> keeps c2 c3 -> keeps c1 c3.
Proof. intros H1 H2 sv Hu. auto. Qed.

Lemma all_hold_keeps c c' : keeps c c' -> all_hold c -> all_hold c'.
Proof. intros Hk Ha sv Hsv. by apply Hk, Ha. Qed.

Lemma flight_ok_keeps c c' f : keeps c c' -> flight_ok c f -> flight_ok c' f.
Proof. intros Hk []; econstructor; eauto using all_hold_keeps. Qed.

Lemma waits_keeps c c' d : keeps c c' -> waits c d -> waits c' d.
Proof. intros Hk [H1 H2 H3]. constructor; [done|done|]. intros R HR sv Hsv. destruct (H3 R HR sv Hsv); auto. Qed.

(** *** Steps of one server *)

(** What a step of the server [sv] must do *)
Record good_step (c : cluster St) (sv : Z) (ds ds' : data_server St) (out : list output) : Prop := {
  gs_holder : holder ds -> holder ds';
  gs_quiet : sv <> M -> not_waiting ds -> not_waiting ds';
  gs_slave : sv ∈ slaves -> slave_ready ds -> slave_ready ds';
  gs_after : forall c', cs_servers c' = <[sv := ds']> (cs_servers c) -> keeps c c' ->
    (sv = M -> exists d, ds_duplicator ds' = Some d /\ waits c' d)
    /\ Forall (flight_ok c') (flat_map (sent_by sv) out)
}.

Lemma up_insert c sv ds sv' P :
  up c sv' P -> (sv = sv' -> P ds) -> up (set_servers <[sv := ds]> c) sv' P.
Proof. intros Hu HP ds'. cbn. intros [[-> <-]|[_ Hl]]%lookup_insert_Some; auto. Qed.
Lemma up_delete c sv sv' P : up c sv' P -> up (set_servers (delete sv) c) sv' P.
Proof. intros Hu ds'. cbn. intros [_ Hl]%lookup_delete_Some. auto. Qed.

Lemma keeps_delete c sv : keeps c (set_servers (delete sv) c).
Proof. intros sv' Hu. by apply up_delete. Qed.

Lemma spread_crash c sv : spread c -> spread (set_servers (delete sv) c).
Proof.
  intros [Hm Ho Hs Hf]. pose proof (keeps_delete c sv) as Hk. constructor.
  - intros ds. cbn. intros [_ Hl]%lookup_delete_Some. destruct (Hm ds Hl) as (? & d & ? & ?). split; [done|]. exists d. split; [done|]. by apply (waits_keeps c).
  - intros sv' Hne. apply up_delete. auto.
  - intros sv' Hin. apply up_delete. auto.
  - eapply list.Forall_impl; [exact Hf|]. intros f. by apply flight_ok_keeps.
Qed.

Lemma spread_fewer c f : (forall l, Forall (flight_ok c) l -> Forall (flight_ok c) (f l)) -> spread c -> spread (set_flights f c).
Proof.
  intros Hfew [Hm Ho Hs Hf]. constructor; [|done|done|].
  - intros ds Hl. destruct (Hm ds Hl) as (? & d & ? & Hw). split; [done|]. exists d. split; [done|]. apply (waits_keeps c); [exact (keeps_refl c)|done].
  - cbn. eapply list.Forall_impl; [by apply Hfew|]. intros fl. apply flight_ok_keeps. exact (keeps_refl c).
Qed.

Lemma spread_step c sv step :
  spread c ->
  (forall ds ds' out, cs_servers c !! sv = Some ds -> step ds = Ret (ds', out) -> good_step c sv ds ds' out) ->
  spread (server_steps sv step c) /\ keeps c (server_steps sv step c).
Proof.
  intros Hsp Hgood. unfold server_steps. destruct (cs_servers c !! sv) as [ds|] eqn:Hds; [|by split; [|apply keeps_refl]].
  destruct (step ds) as [[ds' out]| | | |] eqn:Est; try (split; [by apply spread_crash|apply keeps_delete]).
  destruct (Hgood ds ds' out eq_refl Est) as [Hh Hq Hs Ha]. set (c' := set_flights _ _).
  assert (keeps c c') as Hk.
  { intros sv' Hu. apply (up_insert c sv ds' sv'); [done|]. intros ->. by apply Hh, Hu. }
  destruct (Ha c' eq_refl Hk) as [Hw Hf]. destruct Hsp as [Hm Ho Hsl Hfl]. split; [|done]. constructor.
  - apply (up_insert c sv ds' M).
    + intros ds2 Hl. destruct (Hm ds2 Hl) as (? & d & ? & ?). split; [done|]. exists d. split; [done|]. by apply (waits_keeps c).
    + intros ->. split; [|by apply Hw]. apply Hh. by destruct (Hm ds Hds).
  - intros sv' Hne. apply (up_insert c sv ds' sv'); [by apply Ho|]. intros ->. apply Hq; [done|]. by apply (Ho sv').
  - intros sv' Hin. apply (up_insert c sv ds' sv'); [by apply Hsl|]. intros ->. apply Hs; [done|]. by apply (Hsl sv').
  - cbn. apply Forall_app. split; [|done]. eapply list.Forall_impl; [exact Hfl|]. intros f. by apply flight_ok_keeps.
Qed.

(** *** The steps there are *)

Local Abbreviation request := (on_request uninit remote_sync arrange).

Lemma in_time_same (ds ds' : data_server St) :
  same_server (ds_manager ds) (ds_manager ds') -> in_time since until ds -> in_time since until ds'.
Proof. intros Hsm. unfold in_time, server_clock, tm_clock. by rewrite (ss_clock _ _ Hsm). Qed.

Lemma slave_ready_same ds ds' st :
  same_server (ds_manager ds) (ds_manager ds') -> server_serves ds' st -> slave_ready ds -> slave_ready ds'.
Proof.
  intros Hsm Hst (_ & Hr & Hrd). split; [by exists st|]. split; [|by eapply in_time_same].
  unfold item_room in *. by apply (ss_room _ _ Hsm).
Qed.

Lemma not_waiting_same ds ds' : ds_duplicator ds' = ds_duplicator ds -> not_waiting ds -> not_waiting ds'.
Proof. unfold not_waiting. by intros ->. Qed.

(** A slave gets the copy. *)
Lemma copy_step c sv ds ds' out :
  sv ∈ slaves -> slave_ready ds -> request sv M id (copy_packet_of p id bucket) ds = Ret (ds', out) ->
  good_step c sv ds ds' out.
Proof.
  intros Hsv ([st Hst] & Hr & Hrd) E. unfold on_request in E.
  destruct (slave_applies sv uninit yes yes remote_sync arrange ds st M id p id bucket [] Hp Hst Hr)
    as (ds1 & st1 & acks & E1 & Hs1 & Hsm & Hd & _ & Hacks & _). rewrite E1 in E. injection E as <- <-. constructor.
  - intros [[st0 [Hs0 Hh0]] _]. destruct (slave_applies sv uninit yes yes remote_sync arrange ds st0 M id p id bucket [] Hp Hs0 Hr)
      as (ds2 & st2 & acks2 & E2 & Hs2 & _ & _ & Hk & _). rewrite E1 in E2. injection E2 as <- _.
    split; [|by eapply in_time_same]. exists st2. split; [done|]. destruct Hk as [Hk| ->]; [by eapply holds_keeps|done].
  - intros _. by apply not_waiting_same.
  - intros _. by eapply slave_ready_same.
  - intros c' Hc' _. split; [by intros ->|]. destruct Hacks as [->|[-> Hh]]; [constructor|].
    constructor; [|constructor]. apply ack_flies; [done|]. intros ds2. rewrite Hc', lookup_insert_eq. intros [= <-].
    split; [|by eapply in_time_same]. exists st1. split; [done|]. by eapply holds_keeps.
Qed.

(** A server that holds the put is asked for it. *)
Lemma get_step c sv a q g ds ds' out :
  0 < put_expired p -> spread c -> cs_servers c !! sv = Some ds -> holder ds -> a <> w -> a <> 0 -> received_of q = General (REQ_GET g) -> gets_key p g ->
  request sv 0 a q ds = Ret (ds', out) -> good_step c sv ds ds' out.
Proof.
  intros Hpos Hsp Hl [[st Hst] Hrd] Haw Ha0 Hq Hg E. unfold on_request in E. rewrite Hq in E.
  destruct (server_reads since until uninit remote_sync arrange sv ds st 0 a p g Hp Hpos Hst Hrd Hg) as (ds1 & r & E1 & Hr & Hs1 & Hsm & Hd).
  rewrite E1 in E. injection E as <- <-. constructor.
  - intros _. split; [by exists st|]. by eapply in_time_same.
  - intros _. by apply not_waiting_same.
  - intros _. eapply slave_ready_same; [done|]. by destruct Hs1.
  - intros c' _ Hk. split.
    + intros ->. destruct (sp_master c Hsp ds Hl) as (_ & d & Hds & Hw). exists d. rewrite Hd. split; [done|]. by apply (waits_keeps c).
    + constructor; [|constructor]. by apply value_flies.
Qed.

(** Time passes. *)
Lemma in_time_at now (ds : data_server St) st :
  server_serves ds st -> since <= now <= until -> server_serves (server_at now ds) st /\ in_time since until (server_at now ds).
Proof.
  intros [Hw Hh] Hnow. destruct (time_law _ _ now Hh) as (Hh' & Hc & _). split; [by split|].
  unfold in_time, server_clock, tm_clock. cbn. rewrite Hc. destruct Hlife as (? & ? & _).
  by rewrite wrap_id by (unfold in_u; lia).
Qed.

Lemma slave_ready_at now ds : since <= now <= until -> slave_ready ds -> slave_ready (server_at now ds).
Proof.
  intros Hnow ([st Hst] & Hr & _). destruct (in_time_at now ds st Hst Hnow) as [Hs Hi].
  split; [by exists st|]. split; [|done]. destruct Hst as [_ Hh]. destruct (time_law _ _ now Hh) as (_ & _ & Hroom). by apply Hroom.
Qed.

Lemma tick_step c sv now ds :
  spread c -> cs_servers c !! sv = Some ds -> since <= now <= until -> good_step c sv ds (server_at now ds) [].
Proof.
  intros Hsp Hl Hnow. constructor.
  - intros [[st [Hst Hk]] _]. destruct (in_time_at now ds st Hst Hnow) as [Hs Hi]. split; [|done]. by exists st.
  - intros _. by apply not_waiting_same.
  - intros _. by apply slave_ready_at.
  - intros c' _ Hk. split; [|constructor]. intros ->. destruct (sp_master c Hsp ds Hl) as (_ & d & Hds & Hw).
    exists d. split; [done|]. by apply (waits_keeps c).
Qed.

(** A server that waits for nobody takes no notice of answers. *)
Lemma idle_event e ds : not_waiting ds -> on_event uninit e ds = Ret (ds, []).
Proof.
  unfold not_waiting, on_event. destruct ds as [tm [d|] v]; cbn; [|done]. intros Hn.
  assert (DupSync.handlePacket yes uninit e (d, []) = Ret (match e with Control _ => false | _ => true end, (d, []))) as ->; [|done].
  destruct d as [[m b] q i]. cbn in Hn. subst m. destruct e; [done| |done].
  unfold DupSync.handlePacket, do_duplicate_response. rewrite sbind_assoc.
  rewrite (sbind_run _ _ _ (TAIR_RETURN_DUPLICATE_DELAY, None) (mk_dup_sender (mk_wait_manager ∅ b) q i, [])); [done|].
  unfold on_waiting, doResponse. cbn. by rewrite lookup_empty.
Qed.

Lemma idle_step c sv ds : sv <> M -> good_step c sv ds ds [].
Proof. intros Hne. constructor; [done|done|done|]. intros c' _ _. split; [done|constructor]. Qed.

(** *** The master's table *)

Definition event_fine (c : cluster St) (e : dup_event) : Prop :=
  match e with
  | Response r => exists sv, r = mk_response_duplicate id sv bucket 0 0 /\ sv ∈ slaves /\ up c sv holder
  | _ => True
  end.

Lemma node_answer m i n :
  (forall j n, m !! j = Some n -> j = id /\ exists ids, n = with_servers ids put_node) -> m !! i = Some n ->
  answer_id yes uninit m i = [Post 0 w (Plain (General (RESP_RETURN (mk_response_return ver 0 []))))].
Proof. intros Hm Hi. unfold answer_id. rewrite Hi. destruct (Hm i n Hi) as (_ & ids & ->). reflexivity. Qed.

Lemma event_in_bucket c e d : waits c d -> event_fine c e -> event_ok (m_PkgWaitMap (packets_mgr d)) e.
Proof.
  intros [_ Hn _] He. destruct e as [| r |]; [done| |done]. destruct He as (sv & -> & _). intros n Hl. cbn in Hl.
  destruct (Hn _ _ Hl) as (_ & ids & ->). cbn. apply swrap_id; unfold in_s, TAIR_MAX_BUCKET_NUMBER in *; lia.
Qed.

(** After an event: who is not awaited any more holds the put, and if nobody is,
    all do. *)
Lemma await_step_holds c e (t : gmap Z (gset Z)) :
  event_fine c e ->
  (forall servers, t !! id = Some servers -> forall sv, sv ∈ take MAX_DUP_COUNT slaves -> sv ∈ servers \/ up c sv holder) ->
  (forall servers, (await_step e t).1 !! id = Some servers -> forall sv, sv ∈ take MAX_DUP_COUNT slaves -> sv ∈ servers \/ up c sv holder)
  /\ (forall i, (await_step e t).2 = Some i -> i = id /\ forall sv, sv ∈ take MAX_DUP_COUNT slaves -> up c sv holder).
Proof.
  intros He Ht. destruct e as [j| r |]; cbn [await_step].
  - split; [|done]. cbn. intros R [_ HR]%lookup_delete_Some. by apply Ht.
  - destruct He as (sv0 & -> & _ & Hh). cbn [rspd_packet_id rspd_server_id].
    destruct (t !! id) as [servers|] eqn:Hid; [|split; [|done]; cbn; intros R HR; by rewrite Hid in HR].
    specialize (Ht servers eq_refl). destruct (decide (sv0 ∈ servers)) as [Hin|Hout].
    2:{ split; [|done]. cbn. intros R HR. rewrite Hid in HR. injection HR as <-. done. }
    destruct (decide (servers ∖ {[sv0]} = ∅)) as [Hemp|Hne]; cbn.
    + split; [intros R; by rewrite lookup_delete_eq|]. intros i [= <-]. split; [done|]. intros sv Hsv.
      destruct (Ht sv Hsv) as [Hs|]; [|done]. apply difference_empty_subseteq in Hemp. assert (sv = sv0) as -> by set_solver. done.
    + split; [|done]. intros R. rewrite lookup_insert_eq. intros [= <-] sv Hsv. destruct (Ht sv Hsv) as [Hs|]; [|by right].
      destruct (decide (sv = sv0)) as [->|D]; [by right|left; set_solver].
  - split; [|done]. intros R HR. by apply Ht.
Qed.

Lemma master_event c e ds ds' out :
  spread c -> cs_servers c !! M = Some ds -> event_fine c e -> on_event uninit e ds = Ret (ds', out) -> good_step c M ds ds' out.
Proof.
  intros Hsp Hl He. destruct (sp_master c Hsp ds Hl) as (Hh & d & Hd & Hw). unfold on_event. rewrite Hd.
  destruct (handlePacket_run yes uninit e d [] (wt_ok _ _ Hw) (event_in_bucket c e d Hw He))
    as (keep & d' & E & Hok' & Haw & Hsame). rewrite E. intros [= <- <-].
  destruct (await_step_holds c e (awaiting (packets_mgr d)) He (wt_acked _ _ Hw)) as [Hrest Hdone].
  constructor; [done|done|done|]. intros c' _ Hk. split.
  - intros _. exists d'. split; [done|]. constructor; [done| |].
    + intros i n' Hi. destruct (Hsame i n' Hi) as (n & ids & Hn & ->). destruct (wt_nodes _ _ Hw i n Hn) as (-> & ids' & ->).
      split; [done|]. by exists ids.
    + rewrite Haw. intros R HR sv Hsv. destruct (Hrest R HR sv Hsv); auto.
  - cbn [app]. destruct (await_step e (awaiting (packets_mgr d))).2 as [i|] eqn:Hi; [|constructor].
    destruct (Hdone i eq_refl) as [-> Hall].
    replace (flat_map _ (option_list (Some id))) with (answer_id yes uninit (m_PkgWaitMap (packets_mgr d)) id) by (symmetry; apply app_nil_r).
    destruct (m_PkgWaitMap (packets_mgr d) !! id) as [n|] eqn:Hn; [|unfold answer_id; rewrite Hn; constructor].
    rewrite (node_answer _ id n (wt_nodes _ _ Hw) Hn). constructor; [|constructor]. apply success_flies.
    intros sv [->|Hsv]%elem_of_cons; [|by apply Hk, Hall]. apply Hk. intros ds2 Hl2. by destruct (sp_master c Hsp ds2 Hl2).
Qed.

(** *** Playing a schedule *)

Definition settled (c : cluster St) : Prop := spread c /\ all_hold c.

(** What the client may get: the answer to the put, or a value. *)
Inductive delivery_ok (c : cluster St) : Z * delivery -> Prop :=
| control_comes a cmd : delivery_ok c (a, ControlPacket cmd)
| answer_comes v code :
    (code = TAIR_RETURN_SUCCESS -> settled c) ->
    delivery_ok c (w, RegularPacket (General (RESP_RETURN (mk_response_return v code []))))
| value_comes a r :
    a <> w -> a <> 0 -> answers_with (get_data (put_data p)) r -> delivery_ok c (a, RegularPacket (General (RESP_GET r))).

Local Abbreviation playing := (play uninit remote_sync arrange).
Local Abbreviation playing_all := (play_all uninit remote_sync arrange).

Lemma spread_event c dst e :
  spread c -> event_fine c e ->
  spread (server_steps dst (on_event uninit e) c) /\ keeps c (server_steps dst (on_event uninit e) c).
Proof.
  intros Hsp He. apply spread_step; [done|]. intros ds ds' out Hl E. destruct (decide (dst = M)) as [->|D].
  - by apply (master_event c e).
  - rewrite idle_event in E by (by apply (sp_others c Hsp dst D)). injection E as <- <-. by apply idle_step.
Qed.

Lemma spread_deliver c f :
  spread c -> flight_ok c f ->
  let r := deliver uninit remote_sync arrange f c in spread r.1 /\ keeps c r.1 /\ Forall (delivery_ok r.1) r.2.
Proof.
  intros Hsp Hf. destruct Hf as [sv Hsv|sv a q g Hpos Hsv Hh Haw Ha0 Hq Hg|sv Hsv Hh|Hall|sv a r Haw Ha0 Hr]; cbn [deliver].
  - destruct (spread_step c sv (request sv M id (copy_packet_of p id bucket)) Hsp) as [H1 H2]; [|done].
    intros ds ds' out Hl E. apply (copy_step c sv ds); [done| |done]. by apply (sp_slaves c Hsp sv Hsv).
  - destruct (spread_step c sv (request sv 0 a q) Hsp) as [H1 H2]; [|done].
    intros ds ds' out Hl E. apply (get_step c sv a q g ds); try done. by apply Hh.
  - rewrite (proj2 (Z.eqb_neq M 0) HM0). destruct (spread_event c M (Response (mk_response_duplicate id sv bucket 0 0)) Hsp) as [H1 H2]; [|done].
    by exists sv.
  - rewrite Z.eqb_refl. split; [done|]. split; [apply keeps_refl|]. constructor; [|constructor].
    apply (answer_comes _ ver 0). by intros _.
  - rewrite Z.eqb_refl. split; [done|]. split; [apply keeps_refl|]. constructor; [|constructor]. cbn [fst snd].
    destruct (answers_with_received _ r _ Hr eq_refl) as (r' & -> & Hr'). by apply value_comes.
Qed.

(** The clocks stay in the time. *)
Definition timely (x : choice) : Prop := match x with Tick _ now => since <= now <= until | _ => True end.

Lemma spread_play c x :
  timely x -> spread c -> let r := playing x c in spread r.1 /\ keeps c r.1 /\ Forall (delivery_ok r.1) r.2.
Proof.
  intros Hx Hsp. assert (forall n, spread (set_flights (delete n) c)) as Hfewer.
  { intros n. apply spread_fewer; [|done]. intros l. by apply Forall_delete. }
  destruct x as [n|n|dst a|sv now|sv]; cbn [play].
  - destruct (cs_flights c !! n) as [f|] eqn:Hn; [|by split; [|split; [apply keeps_refl|constructor]]].
    pose proof (Forall_lookup_1 _ _ _ _ (sp_flights c Hsp) Hn) as Hf.
    assert (keeps c (set_flights (delete n) c)) as Hk by exact (keeps_refl c).
    destruct (spread_deliver (set_flights (delete n) c) f (Hfewer n)) as (H1 & H2 & H3); [by apply (flight_ok_keeps c)|].
    split; [done|]. split; [|done]. exact (keeps_trans _ _ _ Hk H2).
  - split; [apply Hfewer|]. split; [exact (keeps_refl c)|constructor].
  - destruct (dst =? 0); [split; [done|]; split; [apply keeps_refl|by repeat constructor]|].
    destruct (spread_event c dst (Control a) Hsp) as [H1 H2]; [done|]. split; [done|]. by split.
  - destruct (spread_step c sv (fun ds => Ret (server_at now ds, [])) Hsp) as [H1 H2]; [|done].
    intros ds ds' out Hl [= <- <-]. by apply tick_step.
  - split; [by apply spread_crash|]. split; [apply keeps_delete|constructor].
Qed.

(** *** Before the put, and when it is refused *)

Context (d0 : dup_sync_sender_manager) (p0 : request_put)
  (Hidle : m_PkgWaitMap (packets_mgr d0) = ∅) (Hid : id = next_id slaves d0)
  (Hp0 : received_of (General (REQ_PUT p0)) = General (REQ_PUT p)).

(** The master before the put *)
Definition master_ready (ds : data_server St) : Prop :=
  slave_ready ds /\ master_of M yes ds d0 p bucket slaves /\ ds_client_version ds = ver.

Lemma master_ready_at now ds : since <= now <= until -> master_ready ds -> master_ready (server_at now ds).
Proof.
  intros Hnow (Hr & Hm & Hv). split; [by apply slave_ready_at|]. split; [|done].
  destruct Hm as [H1 H2 H3 H4 H5]. constructor; [done|done| | |done].
  - by rewrite (get_bucket_number_same _ (ds_manager ds)).
  - by rewrite (get_slaves_same _ _ _ (ds_manager ds)).
Qed.

Definition put_request : flight := Request 0 M w (General (REQ_PUT p0)).
Definition refusal : flight :=
  Answer M 0 w (General (RESP_RETURN (mk_response_return ver TAIR_RETURN_VERSION_ERROR []))).

Record before (c : cluster St) : Prop := {
  bf_master : up c M master_ready;
  bf_others : forall sv, sv <> M -> up c sv not_waiting;
  bf_slaves : forall sv, sv ∈ slaves -> up c sv slave_ready;
  bf_flights : cs_flights c = [] \/ cs_flights c = [put_request]
}.
Record refused (c : cluster St) : Prop := {
  rf_quiet : forall sv, up c sv not_waiting;
  rf_flights : Forall (fun f => f = refusal) (cs_flights c)
}.

Lemma before_quiet c sv : before c -> up c sv not_waiting.
Proof.
  intros [Hm Ho _ _]. destruct (decide (sv = M)) as [->|D]; [|by apply Ho]. intros ds Hl. destruct (Hm ds Hl) as (_ & Hmaster & _).
  unfold not_waiting. by rewrite (ms_duplicator _ _ _ _ _ _ _ Hmaster).
Qed.

Lemma server_same (c : cluster St) sv ds : cs_servers c !! sv = Some ds -> set_servers <[sv := ds]> c = c.
Proof. intros Hl. destruct c as [servers fl sch]. unfold set_servers. cbn in *. by rewrite insert_id. Qed.

Lemma idle_steps (c : cluster St) sv e : up c sv not_waiting -> server_steps sv (on_event uninit e) c = c.
Proof.
  intros Hu. unfold server_steps. destruct (cs_servers c !! sv) as [ds|] eqn:Hl; [|done].
  rewrite idle_event by (by apply Hu). rewrite server_same by done. unfold set_flights. cbn. rewrite app_nil_r. by destruct c.
Qed.

Lemma sent_copies : flat_map (sent_by M) (map (fun sv => Send sv (Plain (copy_packet_of p id bucket)) id) slaves)
  = map (fun sv => Request M sv id (copy_packet_of p id bucket)) slaves.
Proof. clear. induction slaves as [|sv l IH]; [done|]. cbn. by rewrite IH. Qed.

(** The put reaches the master. *)
Lemma put_step c :
  before c -> cs_flights c = [] ->
  let c' := server_steps M (on_request uninit remote_sync arrange M 0 w (General (REQ_PUT p0))) c in before c' \/ refused c' \/ spread c'.
Proof.
  intros Hb Hfl. unfold server_steps. destruct (cs_servers c !! M) as [ds|] eqn:Hl; [|by left].
  destruct (bf_master c Hb ds Hl) as (([st Hst] & Hroom & Hread) & Hmaster & Hver). unfold on_request. rewrite Hp0.
  destruct (master_put M uninit yes yes remote_sync arrange ds st 0 w p d0 bucket slaves [] Hp Hst Hroom eq_refl Hmaster)
    as (ds' & st' & Hst' & Hsm & [(_ & _ & Hd' & E)|(Hh & E & d' & Hd' & Hok' & Hmap & Haw)]); unfold dispatch in E; rewrite E.
  - right. left. constructor; cbn.
    + intros sv. apply up_insert; [by apply before_quiet|]. intros _. unfold not_waiting. by rewrite Hd'.
    + rewrite Hfl, Hver. by repeat constructor.
  - right. right. rewrite <- Hid, Hver in *. constructor.
    + intros ds1. cbn. rewrite lookup_insert_eq. intros [= <-]. split; [|exists d'; split; [done|]].
      * split; [|by eapply in_time_same]. exists st'. split; [done|]. by eapply holds_keeps.
      * constructor; [done| |].
        -- intros i n. rewrite Hmap, Hidle, insert_empty. intros [<- <-]%lookup_singleton_Some. split; [done|].
           by exists (wn_des_server_ids put_node).
        -- intros R. unfold awaiting. rewrite Hmap, lookup_fmap, lookup_insert_eq. intros HR sv Hsv. left.
           apply (inj Some) in HR. rewrite <- HR, Haw. by apply elem_of_list_to_set.
    + intros sv Hne. apply (up_insert c M ds' sv); [by apply (bf_others c Hb)|done].
    + intros sv Hsv. apply (up_insert c M ds' sv); [by apply (bf_slaves c Hb)|]. by intros <-.
    + cbn. rewrite Hfl, sent_copies. apply Forall_map. apply list.Forall_forall. intros sv Hsv. exact (copy_flies _ sv Hsv).
Qed.

(** *** Whatever is played *)

Definition inv (c : cluster St) : Prop := before c \/ refused c \/ spread c.

Lemma before_fewer c f :
  (cs_flights c = [] \/ cs_flights c = [put_request] -> f (cs_flights c) = [] \/ f (cs_flights c) = [put_request]) ->
  before c -> before (set_flights f c).
Proof. intros Hf [Hm Ho Hs Hfl]. constructor; [exact Hm|exact Ho|exact Hs|]. by apply Hf. Qed.

Lemma before_play c x : timely x -> before c -> let r := playing x c in inv r.1 /\ Forall (delivery_ok r.1) r.2.
Proof.
  intros Hx Hb. assert (forall n, before (set_flights (delete n) c)) as Hless.
  { intros n. apply before_fewer; [|done]. intros [->| ->]; [left; by destruct n|]. destruct n as [|n]; [by left|right; by destruct n]. }
  destruct x as [n|n|dst a|sv now|sv]; cbn [play].
  - destruct (cs_flights c !! n) as [f|] eqn:Hn; [|by split; [left|constructor]].
    destruct (bf_flights c Hb) as [E|E]; rewrite E in Hn; [done|]. destruct n as [|n]; [|done]. injection Hn as <-.
    split; [|constructor]. apply put_step; [by apply Hless|]. cbn. by rewrite E.
  - split; [by left; apply Hless|constructor].
  - destruct (dst =? 0); [split; [by left|by repeat constructor]|].
    rewrite idle_steps by (by apply before_quiet). split; [by left|constructor].
  - split; [left|constructor]. unfold server_steps. destruct (cs_servers c !! sv) as [ds|] eqn:Hl; [|done].
    cbn [flat_map]. destruct Hb as [Hm Ho Hs Hf]. constructor.
    + apply (up_insert c sv _ M); [done|]. intros ->. by apply master_ready_at, Hm.
    + intros sv' Hne. apply (up_insert c sv _ sv'); [by apply Ho|]. intros ->. by apply (not_waiting_same ds), (Ho sv').
    + intros sv' Hin. apply (up_insert c sv _ sv'); [by apply Hs|]. intros ->. by apply slave_ready_at, (Hs sv').
    + cbn. by rewrite app_nil_r.
  - split; [left|constructor]. destruct Hb as [Hm Ho Hs Hf]. constructor; [by apply up_delete| | |done].
    + intros sv' Hne. by apply up_delete, Ho.
    + intros sv' Hin. by apply up_delete, Hs.
Qed.

Lemma refused_play c x : refused c -> let r := playing x c in inv r.1 /\ Forall (delivery_ok r.1) r.2.
Proof.
  intros Hr. assert (forall n, refused (set_flights (delete n) c)) as Hless.
  { intros n. destruct Hr as [Hq Hf]. constructor; [exact Hq|]. by apply Forall_delete. }
  destruct x as [n|n|dst a|sv now|sv]; cbn [play].
  - destruct (cs_flights c !! n) as [f|] eqn:Hn; [|by split; [right; left|constructor]].
    rewrite (Forall_lookup_1 _ _ _ _ (rf_flights c Hr) Hn). cbn. split; [right; left; by apply Hless|].
    constructor; [|constructor]. by apply (answer_comes _ ver TAIR_RETURN_VERSION_ERROR).
  - split; [right; left; by apply Hless|constructor].
  - destruct (dst =? 0); [split; [by right; left|by repeat constructor]|].
    rewrite idle_steps by (by apply rf_quiet). split; [by right; left|constructor].
  - split; [right; left|constructor]. unfold server_steps. destruct (cs_servers c !! sv) as [ds|] eqn:Hl; [|done].
    cbn [flat_map]. destruct Hr as [Hq Hf]. constructor; [|cbn; by rewrite app_nil_r].
    intros sv'. apply (up_insert c sv _ sv'); [done|]. intros ->. by apply (not_waiting_same ds), (Hq sv').
  - split; [right; left|constructor]. destruct Hr as [Hq Hf]. constructor; [|done]. intros sv'. by apply up_delete, Hq.
Qed.

Lemma delivery_ok_later c c' x : (settled c -> settled c') -> delivery_ok c x -> delivery_ok c' x.
Proof. intros Hs []; econstructor; eauto. Qed.

Lemma settled_play c x : timely x -> settled c -> settled (playing x c).1.
Proof.
  intros Hx [Hsp Hall]. destruct (spread_play c x Hx Hsp) as (H1 & H2 & _). split; [done|]. by apply (all_hold_keeps c).
Qed.

Lemma inv_play c x : timely x -> inv c -> let r := playing x c in inv r.1 /\ Forall (delivery_ok r.1) r.2.
Proof.
  intros Hx [Hb|[Hr|Hsp]]; [by apply before_play|by apply refused_play|].
  destruct (spread_play c x Hx Hsp) as (H1 & _ & H3). split; [by right; right|done].
Qed.

Lemma settled_play_all l c : Forall timely l -> settled c -> settled (playing_all l c).1.
Proof.
  revert c. induction l as [|x l IH]; intros c Hl Hs; [done|]. apply list.Forall_cons in Hl as [Hx Hl].
  cbn [play_all]. pose proof (settled_play c x Hx Hs) as H1. destruct (playing x c) as [c1 in1]. specialize (IH c1 Hl H1). by destruct (playing_all l c1).
Qed.

Lemma inv_play_all l c : Forall timely l -> inv c -> let r := playing_all l c in inv r.1 /\ Forall (delivery_ok r.1) r.2.
Proof.
  revert c. induction l as [|x l IH]; intros c Hl Hi; [by split|]. apply list.Forall_cons in Hl as [Hx Hl].
  cbn [play_all]. pose proof (inv_play c x Hx Hi) as [H1 H2].
  destruct (playing x c) as [c1 in1]. destruct (IH c1 Hl H1) as [H3 H4]. pose proof (fun Hs => settled_play_all l c1 Hl Hs) as Hset.
  destruct (playing_all l c1) as [c2 in2]. split; [done|]. apply Forall_app. split; [|done].
  eapply list.Forall_impl; [exact H2|]. intros d. by apply delivery_ok_later.
Qed.

(** The schedule that is left does not matter. *)
Definition reschedule (r : list (list choice)) (c : cluster St) : cluster St := mk_cluster (cs_servers c) (cs_flights c) r.

Lemma spread_reschedule r c : spread c -> spread (reschedule r c).
Proof.
  intros [Hm Ho Hs Hf]. assert (keeps c (reschedule r c)) as Hk by exact (keeps_refl c). constructor; [|exact Ho|exact Hs|].
  - intros ds Hl. destruct (Hm ds Hl) as (? & d & ? & ?). split; [done|]. exists d. split; [done|]. by apply (waits_keeps c).
  - eapply list.Forall_impl; [exact Hf|]. intros f. by apply flight_ok_keeps.
Qed.
Lemma settled_reschedule r c : settled c -> settled (reschedule r c).
Proof. intros [Hsp Ha]. split; [by apply spread_reschedule|exact Ha]. Qed.
Lemma inv_reschedule r c : inv c -> inv (reschedule r c).
Proof.
  intros [[H1 H2 H3 H4]|[[H1 H2]|Hsp]]; [left|right; left|right; right].
  - constructor; [exact H1|exact H2|exact H3|exact H4].
  - constructor; [exact H1|exact H2].
  - by apply spread_reschedule.
Qed.

(** The schedule of a cluster, which nothing that happens changes *)
Definition on_time (c : cluster St) : Prop := Forall (Forall timely) (cs_schedule c).

Lemma steps_schedule sv step (c : cluster St) : cs_schedule (server_steps sv step c) = cs_schedule c.
Proof. unfold server_steps. destruct (cs_servers c !! sv); [|done]. by destruct (step _) as [[]| | | |]. Qed.

Lemma play_schedule x c : cs_schedule (playing x c).1 = cs_schedule c.
Proof.
  destruct x as [n|n|dst a|sv now|sv]; cbn [play]; try done.
  - destruct (cs_flights c !! n) as [[src dst a q|src dst a q]|]; [|cbn [deliver]; destruct (dst =? 0); [done|]|done];
      cbn [deliver fst]; by rewrite steps_schedule.
  - destruct (dst =? 0); [done|]. apply steps_schedule.
  - apply steps_schedule.
Qed.

Lemma play_all_schedule l c : cs_schedule (playing_all l c).1 = cs_schedule c.
Proof.
  revert c. induction l as [|x l IH]; intros c; [done|]. cbn [play_all]. pose proof (play_schedule x c) as H1.
  destruct (playing x c) as [c1 in1]. specialize (IH c1). destruct (playing_all l c1). cbn in *. congruence.
Qed.

(** What comes while the client waits *)
Lemma wait_run k timeout c :
  on_time c -> inv c -> exists l c', cluster_wait uninit remote_sync arrange k timeout c = Ret (l, c')
    /\ inv c' /\ on_time c' /\ Forall (delivery_ok c') l /\ (settled c -> settled c').
Proof.
  unfold on_time, cluster_wait. intros Ht Hi. destruct (cs_schedule c) as [|x rest] eqn:Es.
  { exists [], c. by rewrite Es. }
  apply list.Forall_cons in Ht as [Hx Ht].
  destruct (inv_play_all x (reschedule rest c) Hx (inv_reschedule rest c Hi)) as [H1 H2].
  pose proof (fun Hs => settled_play_all x (reschedule rest c) Hx (settled_reschedule rest c Hs)) as H3.
  pose proof (play_all_schedule x (reschedule rest c)) as H4. unfold reschedule in *.
  destruct (playing_all x _) as [c' l]. exists l, c'. cbn in H4. by rewrite H4.
Qed.

(** *** When nothing is lost *)

Definition live (c : cluster St) : Prop := forall sv, sv ∈ M :: slaves -> is_Some (cs_servers c !! sv).

(** The master still waits for the slaves [rest]. *)
Definition awaits (c : cluster St) (rest : list Z) : Prop :=
  forall ds, cs_servers c !! M = Some ds -> exists d, ds_duplicator ds = Some d /\ awaiting (packets_mgr d) !! id = Some (list_to_set rest).

Definition copy_to (sv : Z) : flight := Request M sv id (copy_packet_of p id bucket).
Definition ack_of (sv : Z) : flight := Answer sv M id (General (RESP_DUPLICATE (mk_response_duplicate id sv bucket 0 0))).
Definition success : flight := Answer M 0 w (General (RESP_RETURN (mk_response_return ver 0 []))).

Lemma server_steps_run (c : cluster St) sv step ds ds' out :
  cs_servers c !! sv = Some ds -> step ds = Ret (ds', out) ->
  server_steps sv step c = set_flights (fun l => l ++ flat_map (sent_by sv) out) (set_servers <[sv := ds']> c).
Proof. intros Hl Es. unfold server_steps. by rewrite Hl, Es. Qed.

Lemma live_insert c sv ds f : live c -> live (set_flights f (set_servers <[sv := ds]> c)).
Proof. intros Hl sv' Hsv. cbn. rewrite lookup_insert_is_Some'. right. by apply Hl. Qed.

(** The first packet in flight is delivered. *)
Lemma deliver_first c f fl :
  cs_flights c = f :: fl -> playing (Deliver 0) c = deliver uninit remote_sync arrange f (mk_cluster (cs_servers c) fl (cs_schedule c)).
Proof. intros E. cbn [play]. rewrite E. cbn [lookup list_lookup]. unfold set_flights. by rewrite E. Qed.

(** The put reaches the master. *)
Lemma deliver_put c :
  before c -> live c -> cs_flights c = [put_request] -> put_version p = 0 ->
  let r := playing (Deliver 0) c in
  r.2 = [] /\ spread r.1 /\ live r.1 /\ awaits r.1 (take MAX_DUP_COUNT slaves) /\ cs_flights r.1 = map copy_to slaves.
Proof.
  intros Hb Hlive Hfl Hz. rewrite (deliver_first c put_request []) by done. cbn [deliver put_request fst snd].
  set (c1 := mk_cluster (cs_servers c) [] (cs_schedule c)).
  assert (before c1) as Hb1 by (destruct Hb; constructor; [done|done|done|by left]).
  pose proof (put_step c1 Hb1 eq_refl) as Hstep. cbv zeta in Hstep.
  destruct (Hlive M) as [ds Hl]; [by left|]. destruct (bf_master c Hb ds Hl) as (([st Hst] & Hroom & _) & Hmaster & Hver).
  destruct (master_put M uninit yes yes remote_sync arrange ds st 0 w p d0 bucket slaves [] Hp Hst Hroom eq_refl Hmaster)
    as (ds' & st' & Hst' & Hsm & [(_ & Hv & _)|(Hh & E & d' & Hd' & Hok' & Hmap & Haw)]); [done|].
  rewrite <- Hid, Hver in *. unfold dispatch in E.
  assert (on_request uninit remote_sync arrange M 0 w (General (REQ_PUT p0)) ds
    = Ret (ds', [] ++ map (fun sv => Send sv (Plain (copy_packet_of p id bucket)) id) slaves)) as Er
    by (unfold on_request; by rewrite Hp0, E).
  rewrite (server_steps_run c1 M _ ds ds' _ Hl Er) in *. cbn [app] in *. rewrite sent_copies in *. split; [done|].
  assert (awaits (set_flights (fun l => l ++ map (fun sv => Request M sv id (copy_packet_of p id bucket)) slaves)
            (set_servers <[M := ds']> c1)) (take MAX_DUP_COUNT slaves)) as Haws.
  { intros ds1. cbn. rewrite lookup_insert_eq. intros [= <-]. exists d'. split; [done|].
    unfold awaiting. rewrite Hmap, lookup_fmap, lookup_insert_eq. by apply (f_equal Some). }
  split; [|split; [by apply live_insert|by split]].
  destruct Hstep as [[Hm _ _ _]|[[Hq _]|Hsp]]; [exfalso|exfalso|done].
  - destruct (Hm ds' ltac:(cbn; by rewrite lookup_insert_eq)) as (_ & Hmaster' & _).
    rewrite (ms_duplicator _ _ _ _ _ _ _ Hmaster') in Hd'. injection Hd' as <-. rewrite Hidle in Hmap. symmetry in Hmap.
    by apply insert_non_empty in Hmap.
  - specialize (Hq M ds' ltac:(cbn; by rewrite lookup_insert_eq)). unfold not_waiting in Hq. rewrite Hd', Hmap in Hq.
    by apply insert_non_empty in Hq.
Qed.

(** A copy reaches its slave. *)
Lemma deliver_copy c sv fl rest :
  spread c -> live c -> awaits c rest -> sv ∈ slaves -> cs_flights c = copy_to sv :: fl -> put_version p = 0 ->
  let r := playing (Deliver 0) c in
  r.2 = [] /\ spread r.1 /\ live r.1 /\ awaits r.1 rest /\ cs_flights r.1 = fl ++ [ack_of sv].
Proof.
  intros Hsp Hlive Haw Hsv Hfl Hz. destruct (spread_play c (Deliver 0) I Hsp) as (Hsp' & _ & _).
  rewrite (deliver_first c (copy_to sv) fl) in * by done. cbn [deliver copy_to fst snd] in *.
  set (c1 := mk_cluster (cs_servers c) fl (cs_schedule c)) in *. destruct (Hlive sv) as [ds Hl]; [by right|].
  destruct (sp_slaves c Hsp sv Hsv ds Hl) as ([st Hst] & Hr & _).
  destruct (slave_applies sv uninit yes yes remote_sync arrange ds st M id p id bucket [] Hp Hst Hr)
    as (ds1 & st1 & acks & E1 & Hs1 & Hsm & Hd & _ & Hacks & Hsent).
  assert (request sv M id (copy_packet_of p id bucket) ds = Ret (ds1, acks)) as Er by (unfold on_request; by rewrite E1).
  destruct Hacks as [->|[-> _]]; [by destruct Hsent|]. rewrite (server_steps_run c1 sv _ ds ds1 _ Hl Er) in *.
  split; [done|]. split; [done|]. split; [by apply live_insert|]. split; [|done].
  intros ds2. cbn. rewrite lookup_insert_ne by congruence. apply Haw.
Qed.

(** An answer reaches the master: the last one is answered to the client. *)
Lemma deliver_ack c sv fl rest :
  spread c -> live c -> awaits c (sv :: rest) -> sv ∉ rest -> sv ∈ slaves -> cs_flights c = ack_of sv :: fl ->
  let r := playing (Deliver 0) c in
  r.2 = [] /\ spread r.1 /\ live r.1
  /\ if decide (rest = []) then cs_flights r.1 = fl ++ [success] else awaits r.1 rest /\ cs_flights r.1 = fl.
Proof.
  intros Hsp Hlive Haw Hnin Hsv Hfl. destruct (spread_play c (Deliver 0) I Hsp) as (Hsp' & _ & _).
  rewrite (deliver_first c (ack_of sv) fl) in * by done. cbn [deliver ack_of] in *. rewrite (proj2 (Z.eqb_neq M 0) HM0) in *. cbn [fst snd] in *.
  set (c1 := mk_cluster (cs_servers c) fl (cs_schedule c)) in *. destruct (Hlive M) as [ds Hl]; [by left|].
  destruct (Haw ds Hl) as (d & Hd & Hrest). destruct (sp_master c Hsp ds Hl) as (_ & d1 & Hd1 & Hw). rewrite Hd in Hd1. injection Hd1 as <-.
  set (e := Response (mk_response_duplicate id sv bucket 0 0)) in *. pose proof (Forall_inv (eq_ind _ _ (sp_flights c Hsp) _ Hfl)) as Hfok.
  assert (event_fine c e) as He by (exists sv; split; [done|]; split; [done|]; by inversion Hfok).
  destruct (handlePacket_run yes uninit e d [] (wt_ok _ _ Hw) (event_in_bucket c e d Hw He)) as (keep & d' & E & Hok' & Haw' & Hsame).
  assert (on_event uninit e ds = Ret (mk_data_server (ds_manager ds) (Some d') (ds_client_version ds),
      flat_map (answer_id yes uninit (m_PkgWaitMap (packets_mgr d))) (option_list (await_step e (awaiting (packets_mgr d))).2))) as Er
    by (unfold on_event; by rewrite Hd, E).
  change (event_of (received_of (General (RESP_DUPLICATE (mk_response_duplicate id sv bucket 0 0))))) with e in *.
  rewrite (server_steps_run c1 M _ ds _ _ Hl Er) in *. split; [done|]. split; [done|]. split; [by apply live_insert|].
  assert (await_step e (awaiting (packets_mgr d)) = if decide (rest = []) then (delete id (awaiting (packets_mgr d)), Some id)
            else (<[id := list_to_set rest]> (awaiting (packets_mgr d)), None)) as Est.
  { cbn [await_step e rspd_packet_id rspd_server_id]. rewrite Hrest. rewrite decide_True by set_solver.
    replace (list_to_set (sv :: rest) ∖ {[sv]}) with (list_to_set rest : gset Z) by set_solver.
    destruct rest as [|x rest]; [by rewrite !decide_True|]. rewrite decide_False by set_solver. by rewrite decide_False. }
  rewrite Est in *. destruct (decide (rest = [])) as [->|Hne]; cbn [fst snd] in *.
  - cbn [cs_flights set_flights set_servers]. f_equal.
    replace (flat_map _ (option_list (Some id))) with (answer_id yes uninit (m_PkgWaitMap (packets_mgr d)) id) by (symmetry; apply app_nil_r).
    unfold awaiting in Hrest. rewrite lookup_fmap in Hrest. destruct (m_PkgWaitMap (packets_mgr d) !! id) as [n|] eqn:Hn; [|done].
    by rewrite (node_answer _ id n (wt_nodes _ _ Hw) Hn).
  - split; [|cbn; apply app_nil_r]. intros ds2. cbn. rewrite lookup_insert_eq. intros [= <-]. exists d'. split; [done|].
    by rewrite Haw', lookup_insert_eq.
Qed.

Lemma play_next x l c : (playing x c).2 = [] -> playing_all (x :: l) c = playing_all l (playing x c).1.
Proof. intros E. cbn [play_all]. destruct (playing x c) as [c1 in1]. cbn in *. subst in1. by destruct (playing_all l c1). Qed.

Lemma deliver_copies l2 l1 c rest next :
  spread c -> live c -> awaits c rest -> Forall (fun sv => sv ∈ slaves) l2 -> put_version p = 0 ->
  cs_flights c = map copy_to l2 ++ map ack_of l1 ->
  exists c', playing_all (replicate (length l2) (Deliver 0) ++ next) c = playing_all next c'
    /\ spread c' /\ live c' /\ awaits c' rest /\ cs_flights c' = map ack_of (l1 ++ l2).
Proof.
  revert l1 c. induction l2 as [|sv l2 IH]; intros l1 c Hsp Hlive Haw Hin Hz Hfl.
  { exists c. rewrite app_nil_r. done. }
  apply list.Forall_cons in Hin as [Hsv Hin]. destruct (deliver_copy c sv (map copy_to l2 ++ map ack_of l1) rest) as (Hd & H1 & H2 & H3 & H4); try done.
  destruct (IH (l1 ++ [sv]) _ H1 H2 H3 Hin Hz) as (c' & E & Hc'); [by rewrite H4, map_app, <- app_assoc|].
  exists c'. cbn [length replicate app]. rewrite play_next, E by done. split; [done|]. by rewrite <- app_assoc in Hc'.
Qed.

Lemma deliver_acks l c next :
  spread c -> live c -> awaits c l -> base.NoDup l -> l <> [] -> Forall (fun sv => sv ∈ slaves) l -> cs_flights c = map ack_of l ->
  exists c', playing_all (replicate (length l) (Deliver 0) ++ next) c = playing_all next c'
    /\ spread c' /\ live c' /\ cs_flights c' = [success].
Proof.
  revert c. induction l as [|sv l IH]; intros c Hsp Hlive Haw Hnd Hne Hin Hfl; [done|].
  apply list.Forall_cons in Hin as [Hsv Hin]. apply list.NoDup_cons in Hnd as [Hnin Hnd].
  destruct (deliver_ack c sv (map ack_of l) l) as (Hd & H1 & H2 & H3); try done. cbn [length replicate app]. rewrite play_next by done.
  destruct (decide (l = [])) as [->|Hl]; [by eexists|]. destruct H3 as [H3 H4]. by apply (IH _ H1 H2 H3).
Qed.

(** A put without a version that nothing disturbs is answered with success. *)
Lemma deliver_all c next :
  before c -> live c -> cs_flights c = [put_request] -> put_version p = 0 ->
  base.NoDup slaves -> slaves <> [] -> take MAX_DUP_COUNT slaves = slaves ->
  exists c', playing_all (replicate (2 + 2 * length slaves) (Deliver 0) ++ next) c
      = (let '(c2, more) := playing_all next c' in (c2, (w, RegularPacket (General (RESP_RETURN (mk_response_return ver 0 [])))) :: more)).
Proof.
  intros Hb Hlive Hfl Hz Hnd Hne Htake.
  replace (2 + 2 * length slaves)%nat with (S (length slaves + (length slaves + 1))) by lia. cbn [replicate app]. rewrite !replicate_add, <- !app_assoc.
  destruct (deliver_put c Hb Hlive Hfl Hz) as (Hd & H1 & H2 & H3 & H4). rewrite Htake in H3. rewrite play_next by done.
  assert (Forall (fun sv => sv ∈ slaves) slaves) as Hin by (by apply list.Forall_forall).
  destruct (deliver_copies slaves [] _ slaves (replicate (length slaves) (Deliver 0) ++ replicate 1 (Deliver 0) ++ next) H1 H2 H3 Hin Hz)
    as (c2 & -> & H5 & H6 & H7 & H8); [by rewrite H4, app_nil_r|].
  destruct (deliver_acks slaves c2 (replicate 1 (Deliver 0) ++ next) H5 H6 H7 Hnd Hne Hin H8) as (c3 & -> & H9 & _ & H10).
  exists (mk_cluster (cs_servers c3) [] (cs_schedule c3)). cbn [replicate app play_all].
  rewrite (deliver_first c3 success []) by done. cbn [deliver success]. rewrite Z.eqb_refl. by destruct (playing_all next _).
Qed.

(** *** The client *)

Context (uncompress : list Z -> Z -> option (list Z)).
#[local] Instance net : network (cluster St) := cluster_network uninit remote_sync arrange.

Lemma deliveries_asked c l : w <> 0 -> Forall (delivery_ok c) l -> all_asked l.
Proof. intros Hw Hl. eapply list.Forall_impl; [exact Hl|]. by intros x []. Qed.

Lemma packets_for_elem a q l : q ∈ packets_for a l -> (a, RegularPacket q) ∈ l.
Proof.
  unfold packets_for. rewrite list_elem_of_omap. intros ([a' d] & Hin & Hd). destruct d as [q'|]; [|done].
  destruct (Z.eqb_spec a' a) as [->|]; [|done]. by injection Hd as ->.
Qed.

(** A question over this network: sent or not, and what is played meanwhile *)
Lemma ask_cluster server q tc c :
  w <> 0 -> server <> 0 -> can_wait tc ->
  (is_Some (cs_servers c !! server) -> inv (set_flights (fun l => l ++ [Request 0 server (next_wait tc) q]) c)) -> inv c -> on_time c ->
  exists r tc' c', ask uncompress server q (tc, c) = Ret (r, (tc', c')) /\ inv c' /\ on_time c' /\ wait_seq tc' = next_wait tc
    /\ same_routes tc tc'
    /\ (r = (TAIR_RETURN_SEND_FAILED, None) /\ c' = c
        \/ exists l, r = first_answer (packets_for (next_wait tc) l) /\ Forall (delivery_ok c') l
             /\ (settled (set_flights (fun l => l ++ [Request 0 server (next_wait tc) q]) c) -> settled c')).
Proof.
  intros Hw H0 Hc Hsent Hi Ht. set (sent := bool_decide (is_Some (cs_servers c !! server))).
  set (c1 := if sent then set_flights (fun l => l ++ [Request 0 server (next_wait tc) q]) c else c).
  assert (sendPacket server q (next_wait tc) c = Ret (sent, c1)) as Es.
  { unfold sendPacket, net, cluster_network, cluster_send, c1. fold sent. by destruct sent. }
  pose proof (ask_run uncompress server q tc c sent c1 H0 Hc Es) as Hask. unfold c1, sent in *.
  destruct (bool_decide_reflect (is_Some (cs_servers c !! server))) as [Hup|Hdown].
  - destruct (wait_run 1 (cl_timeout tc) (set_flights (fun l => l ++ [Request 0 server (next_wait tc) q]) c) Ht (Hsent Hup))
      as (l & c2 & Ew & Hi2 & Ht2 & Hl & Hset).
    destruct (Hask l c2 Ew) as (tc' & E & Hseq & Hsr). exists (first_answer (packets_for (next_wait tc) l)), tc', c2.
    split; [done|]. split; [done|]. split; [done|]. split; [done|]. split; [by eapply Hsr, deliveries_asked|]. right. by exists l.
  - destruct Hask as (tc' & E & Hseq & Hsr). exists (TAIR_RETURN_SEND_FAILED, None), tc', c.
    split; [done|]. split; [done|]. split; [done|]. split; [done|]. split; [done|]. by left.
Qed.

(** The put is asked for. *)
Lemma ask_put tc c :
  0 < w -> w = next_wait tc -> can_wait tc -> before c -> cs_flights c = [] -> on_time c ->
  exists r tc' c', ask uncompress M (General (REQ_PUT p0)) (tc, c) = Ret (r, (tc', c'))
    /\ wait_seq tc' = w /\ same_routes tc tc' /\ inv c' /\ on_time c'
    /\ ((r = (TAIR_RETURN_SEND_FAILED, None) \/ r = (TAIR_RETURN_TIMEOUT, None))
        \/ exists v code, r = (0, Some (General (RESP_RETURN (mk_response_return v code []))))
                        /\ (code = TAIR_RETURN_SUCCESS -> settled c')).
Proof.
  intros Hw Ew Hc Hb Hfl Ht.
  destruct (ask_cluster M (General (REQ_PUT p0)) tc c) as (r & tc' & c' & E & Hi & Ht' & Hseq & Hsr & Hr); try done; [lia| |by left|].
  { intros _. left. rewrite <- Ew. apply before_fewer; [|done]. intros _. rewrite Hfl. by right. }
  exists r, tc', c'. split; [done|]. split; [congruence|]. split; [done|]. split; [done|]. split; [done|].
  destruct Hr as [[-> _]|(l & -> & Hl & _)]; [by left; left|]. rewrite <- Ew.
  destruct (packets_for w l) as [|q rest] eqn:Hq; [by left; right|]. right.
  assert ((w, RegularPacket q) ∈ l) as Hin by (apply packets_for_elem; rewrite Hq; apply list_elem_of_here).
  rewrite list.Forall_forall in Hl. specialize (Hl _ Hin). inversion Hl as [|v code Hs|]; subst; [|done]. by exists v, code.
Qed.

(** One of the copies is asked for the value. *)
Lemma ask_get tc c server q g :
  0 < put_expired p -> 0 < w -> w < next_wait tc -> can_wait tc -> settled c -> on_time c -> server ∈ copies -> received_of q = General (REQ_GET g) -> gets_key p g ->
  exists r tc' c', ask uncompress server q (tc, c) = Ret (r, (tc', c'))
    /\ wait_seq tc' = next_wait tc /\ same_routes tc tc' /\ settled c' /\ on_time c'
    /\ ((r = (TAIR_RETURN_SEND_FAILED, None) \/ r = (TAIR_RETURN_TIMEOUT, None))
        \/ exists v, r = (0, Some (General (RESP_GET v))) /\ answers_with (get_data (put_data p)) v).
Proof.
  intros Hpos Hw Hlt Hc [Hsp Hall] Ht Hsv Hq Hg. assert (server <> 0) as H0.
  { apply elem_of_cons in Hsv as [->|Hsv]; [done|]. apply elem_of_take in Hsv as (i & Hi & _).
    by apply (Forall_lookup_1 _ _ _ _ Hslaves Hi). }
  assert (spread (set_flights (fun l => l ++ [Request 0 server (next_wait tc) q]) c)) as Hsp2.
  { apply spread_fewer; [|done]. intros l Hl. apply Forall_app. split; [done|]. constructor; [|constructor].
    apply (get_flies _ server (next_wait tc) q g); try done; [by apply Hall|lia|lia]. }
  destruct (ask_cluster server q tc c) as (r & tc' & c' & E & Hi & Ht' & Hseq & Hsr & Hr); try done; [lia|intros _; by right; right|by right; right|].
  exists r, tc', c'. split; [done|]. split; [done|]. split; [done|]. destruct Hr as [[-> ->]|(l & -> & Hl & Hset)].
  { split; [by split|]. split; [done|]. by left; left. }
  split; [apply Hset; split; [done|exact Hall]|]. split; [done|]. destruct (packets_for (next_wait tc) l) as [|q' rest] eqn:Hq'; [by left; right|]. right.
  assert ((next_wait tc, RegularPacket q') ∈ l) as Hin by (apply packets_for_elem; rewrite Hq'; apply list_elem_of_here).
  rewrite list.Forall_forall in Hl. specialize (Hl _ Hin). inversion Hl as [|v code Hs Heq|a r Ha Ha0 Hr]; subst; [lia|].
  by exists r.
Qed.

(** The code of a question that nobody has answered *)
Definition unanswered (ret : Z) : Prop := ret = TAIR_RETURN_SEND_FAILED \/ ret = TAIR_RETURN_TIMEOUT.

(** The copies are asked one after the other. *)
Lemma get_from_run servers ret0 tc c q g :
  0 < put_expired p -> 0 < w -> w <= wait_seq tc -> wait_seq tc + Z.of_nat (length servers) <= 2 ^ 31 - 1 ->
  settled c -> on_time c ->
  Forall (fun sv => sv ∈ copies) servers -> unanswered ret0 -> received_of q = General (REQ_GET g) -> gets_key p g ->
  exists r tc' c', get_from uncompress servers q ret0 (tc, c) = Ret (r, (tc', c')) /\ same_routes tc tc' /\ settled c'
    /\ (r.2 = None /\ unanswered r.1
        \/ exists v, r = (0, Some (General (RESP_GET v))) /\ answers_with (get_data (put_data p)) v).
Proof.
  intros Hpos Hw. revert ret0 tc c. induction servers as [|sv servers IH]; intros ret0 tc c Hlt Hmax Hs Ht Hcop Hret Hq Hg.
  { exists (ret0, None), tc, c. split; [done|]. split; [apply same_routes_refl|]. split; [done|]. by left. }
  apply list.Forall_cons in Hcop as [Hsv Hcop]. cbn [length] in Hmax. cbn [get_from].
  destruct (ask_get tc c sv q g) as (r & tc1 & c1 & E & Hseq & Hsr & Hs1 & Ht1 & Hr); try done; [unfold next_wait; lia|unfold can_wait; lia|].
  step_with E. destruct Hr as [Hr|(v & -> & Hv)].
  2:{ eexists _, tc1, c1. split; [done|]. split; [done|]. split; [done|]. right. by exists v. }
  assert (exists ret1, unanswered ret1 /\ (let '(r0, tpacket) := r in match tpacket with
            | Some _ => sret (r0, tpacket)
            | None => get_from uncompress servers q (if r0 =? TAIR_RETURN_SEND_FAILED then ret0 else r0)
            end) (tc1, c1) = get_from uncompress servers q ret1 (tc1, c1)) as (ret1 & Hret1 & ->).
  { destruct Hr as [->| ->]; cbn; eexists; (split; [|reflexivity]); [done|by right]. }
  unfold next_wait in Hseq. destruct (IH ret1 tc1 c1) as (r2 & tc2 & c2 & E2 & Hsr2 & Hs2 & Hr2); try done; [lia|lia|].
  exists r2, tc2, c2. split; [done|]. split; [by eapply same_routes_trans|done].
Qed.
End put.
