(* ===== verification/AcknowledgedPut.v ===== *)
(** * A put that the client was told has succeeded

    From the call of the client's [put] to the answer of a later [get], over a
    network that reorders and loses packets, servers that may crash and clocks
    that go on. *)

From S2P Require Import Prelude PacketCodes Util DataBuffer DataEntry MemCache MdbItem EngineState MdbManager Engine TableManager Storage TairManager TairService BasePacket KvPackets ConfPackets KeyPackets ListPackets HashPackets SetPackets ZsetPackets PacketFactory CopyPackets DupSync DupSyncTheorems RequestProcessor TairServer Replication WaitObject ServerList Client ClientTheorems Cluster ClusterTheorems.

(** ** What arrives of what the client sends *)

Lemma copied_owned e : owned e -> owned (copied e) /\ get_data (copied e) = get_data e /\ get_size (copied e) = get_size e.
Proof.
  intros [Hd Hs Hp Hm]. unfold copied, assign_data_entry, DataEntry.set_data, copy_fields, get_data, get_size in *.
  destruct (alloc e); cbn [free_data new_data_entry].
  - destruct (Z.ltb_spec 0 (size e)); [|lia]. rewrite Hd in *. cbn in *. rewrite take_ge by lia.
    split; [|done]. constructor; unfold get_data, get_size; cbn; done.
  - rewrite Hd in *. cbn in *. split; [|done]. constructor; unfold get_data, get_size; cbn; done.
Qed.

Lemma recv_owned e : owned e -> owned (recv e) /\ get_data (recv e) = get_data e /\ get_size (recv e) = get_size e.
Proof.
  intros [Hd Hs Hp Hm]. unfold received, get_data, get_size in *. cbn. destruct (Z.ltb_spec 0 (size e)); [|lia].
  split; [|done]. constructor; unfold get_data, get_size; cbn; (done || lia).
Qed.

Lemma recv_copied e :
  owned e -> let r := recv (copied e) in owned r /\ get_data r = get_data e /\ get_size r = get_size e.
Proof.
  intros He. destruct (copied_owned e He) as (H1 & H2 & H3). destruct (recv_owned _ H1) as (H4 & H5 & H6).
  cbv zeta. split; [done|]. split; congruence.
Qed.

(** The put as it is sent, and as it arrives *)
Definition sent_put (area : Z) (key data : data_entry) (expired version : Z) : request_put :=
  mk_request_put 0 area (u16 version) expired (-1) (copied key) (copied data).
Definition arrived_put (area : Z) (key data : data_entry) (expired version : Z) : request_put :=
  request_put_received (sent_put area key data expired version).

Lemma key_entry_check_ok area key :
  owned key -> key_entry_check key = true -> 0 <= area < TAIR_MAX_AREA_COUNT -> client_key area key.
Proof.
  intros [Hd Hs Hp Hm] Hc Ha. constructor; [done|done|]. split; [done|]. unfold key_entry_check in Hc.
  apply andb_true_iff in Hc as [_ Hc]. apply negb_true_iff, Z.leb_gt in Hc. lia.
Qed.

Lemma data_entry_check_ok data : owned data -> data_entry_check data = true -> client_value data.
Proof.
  intros [Hd Hs Hp Hm] Hc. split; [done|]. unfold data_entry_check in Hc.
  apply andb_true_iff in Hc as [_ Hc]. apply negb_true_iff, Z.leb_gt in Hc.
  unfold ConfPackets.TAIR_MAX_DATA_SIZE, TAIR_MAX_VALUE_SIZE in *. lia.
Qed.

Lemma arrived_put_ok area key data expired version :
  owned key -> owned data -> key_entry_check key = true -> data_entry_check data = true -> 0 <= area < TAIR_MAX_AREA_COUNT ->
  let p := arrived_put area key data expired version in
  client_put p /\ get_data (put_key p) = get_data key /\ get_data (put_data p) = get_data data.
Proof.
  intros Hk Hd Hkc Hdc Ha p. destruct (recv_copied key Hk) as (Hko & Hkd & Hks). destruct (recv_copied data Hd) as (Hdo & Hdd & Hds).
  destruct (key_entry_check_ok area key Hk Hkc Ha) as [_ _ [Hsz Hsz2]]. destruct (data_entry_check_ok data Hd Hdc) as [Hv Hv2].
  split; [|done]. constructor; [done|done|by apply wrap_bound| |].
  - split; [|by destruct Hko; constructor]. constructor; [done|by destruct Hko|].
    change (get_size (put_key p)) with (get_size (recv (copied key))). change (get_data (put_key p)) with (get_data (recv (copied key))).
    by rewrite Hkd, Hks.
  - split; [|done]. unfold client_value. change (put_data p) with (recv (copied data)). by rewrite Hdd, Hds.
Qed.

Lemma data_entry_of_owned l :
  l <> [] -> owned (data_entry_of l) /\ get_data (data_entry_of l) = l /\ get_size (data_entry_of l) = Z.of_nat (length l).
Proof.
  intros Hl. assert (0 < Z.of_nat (length l)) as Hp by (destruct l; [done|cbn [length]; lia]).
  unfold data_entry_of, DataEntry.set_data. destruct (Z.ltb_spec 0 (Z.of_nat (length l))); [|lia].
  rewrite Nat2Z.id, firstn_all. split; [|done]. constructor; unfold get_data, get_size; cbn; (done || lia).
Qed.

(** A key as it is sent with a get or a removal, and as it arrives *)
Lemma sent_key_ok area key :
  owned key -> key_entry_check key = true -> 0 <= area < TAIR_MAX_AREA_COUNT ->
  take (Z.to_nat (get_size key)) (get_data key) = get_data key /\ Z.of_nat (length (get_data key)) <= 2000
  /\ client_key area (recv (data_entry_of (get_data key))) /\ get_data (recv (data_entry_of (get_data key))) = get_data key.
Proof.
  intros Hk Hkc Ha. pose proof (key_entry_check_ok area key Hk Hkc Ha) as [_ _ [Hsz Hsz2]]. unfold TAIR_MAX_KEY_SIZE in Hsz2.
  destruct (data_entry_of_owned (get_data key)) as (Ho & E1 & E2); [destruct (get_data key); [cbn in Hsz; lia|done]|].
  destruct (recv_owned _ Ho) as (Hro & Hrd & Hrs). split; [apply take_ge; lia|]. split; [lia|]. split; [|by rewrite Hrd].
  constructor; [done|by destruct Hro|]. rewrite Hrd, Hrs, E1, E2. unfold TAIR_MAX_KEY_SIZE. lia.
Qed.

(** The get of the same key *)
Lemma add_key_run area key expired version data :
  owned key -> key_entry_check key = true -> 0 <= area < TAIR_MAX_AREA_COUNT ->
  exists g0 g, add_key key (mk_request_get 0 area 0 None None) = Ret g0
    /\ received_of (General (REQ_GET g0)) = General (REQ_GET g) /\ gets_key (arrived_put area key data expired version) g.
Proof.
  intros Hk Hkc Ha. destruct (sent_key_ok area key Hk Hkc Ha) as (Ht & Hlen & Hck & Hd).
  unfold add_key, request_get_add_key, oassert. rewrite Ht, (proj2 (Z.leb_le _ 2000)) by done.
  set (g0 := mk_request_get 0 area 1 (Some (data_entry_of (get_data key))) None). exists g0, (request_get_received g0).
  split; [reflexivity|]. split; [reflexivity|]. split; [done|]. split; [done|].
  exists (recv (data_entry_of (get_data key))). split; [reflexivity|]. split; [done|].
  destruct (recv_copied key Hk) as (_ & Hkd & _). rewrite Hd. symmetry. exact Hkd.
Qed.

(** ** Whom the client asks *)

Section agreement.
Context {St : Type} `{storage_manager St}.

(** C4: the client and the data servers agree on who has a key.  With the table
    the server has, the client finds for a key, in this order, the master of
    the key's bucket and exactly the slaves to which that master copies a
    client's write. *)
Theorem client_and_master_agree (c : tair_client) (tm : tair_manager St) (t : list Z) (key : data_entry) :
  same_table c tm t -> let b := bucket_of c key in let ip := cell t b in
  ip <> 0 -> bs_test (tm_done tm) b = Ret false ->
  get_bucket_number key tm = Ret b /\ is_master ip b TAIR_SERVERFLAG_CLIENT (tm_table tm) = Ret true
  /\ exists slaves, get_server_id key c = Ret (ip :: slaves) /\ get_slaves ip TAIR_SERVERFLAG_CLIENT b tm = Ret slaves.
Proof.
  intros Hs b ip H0 Hdone. destruct (same_table_routes c tm t key ip Hs eq_refl H0 Hdone) as (slaves & E1 & E2 & E3 & _).
  split; [done|]. split; [|by exists slaves]. destruct Hs as [_ Ht Hbu Hco _ (H1 & H2 & Hmax) Hlen]. unfold is_master. rewrite Ht. cbn.
  assert (0 <= b < cl_bucket_count c) as Hb by (apply Z.mod_pos_bound; lia). rewrite at_cell by nia. cbn [obind]. by rewrite Z.eqb_refl.
Qed.
End agreement.

(** ** The client and its cluster *)

Section acknowledged.
Context {St : Type} `{Hlaws : KeyValueLaws St} {Htimed : timed St} {Htime : TimedLaws St} (uninit : Z) (remote_sync : bool)
  (arrange : list (data_entry * data_entry) -> list (data_entry * data_entry))
  (uncompress : list Z -> Z -> option (list Z)).
#[local] Instance net : network (cluster St) := cluster_network uninit remote_sync arrange.
Local Abbreviation yes := (fun _ : Z => true).

(** Nothing is in flight, no server waits for slaves; the client and the master
    [M] of the key have the table [t], the bucket is not migrating and has one
    or two slaves, which are other servers; all of them that are up work, have a
    place for the item and a clock between [since] and [until]. *)
Record cluster_ready (tc : tair_client) (c : cluster St) (p : request_put) (key : data_entry) (M : Z) (slaves t : list Z)
    (ds0 : data_server St) (d0 : dup_sync_sender_manager) (since until : Z) : Prop := {
  cr_wait : 0 <= wait_seq tc /\ wait_seq tc + cl_copy_count tc + 1 <= 2 ^ 31 - 1;
  cr_table : same_table tc (ds_manager ds0) t;
  cr_sizes : cl_bucket_count tc <= TAIR_MAX_BUCKET_NUMBER /\ cl_copy_count tc <= 3;
  cr_master : cell t (bucket_of tc key) = M /\ M <> 0;
  cr_settled : bs_test (tm_done (ds_manager ds0)) (bucket_of tc key) = Ret false;
  cr_route : get_server_id key tc = Ret (M :: slaves) /\ slaves <> [] /\ M ∉ slaves;
  cr_quiet : cs_flights c = [];
  cr_up : up c M (fun ds => ds = ds0);
  cr_idle : forall sv, sv <> M -> up c sv not_waiting;
  cr_duplicator : ds_duplicator ds0 = Some d0 /\ sender_ok d0 /\ m_PkgWaitMap (packets_mgr d0) = ∅;
  cr_serves : slave_ready p since until ds0;
  cr_slaves : forall sv, sv ∈ slaves -> up c sv (slave_ready p since until)
}.

Section ready.
Context (tc : tair_client) (c : cluster St) (area : Z) (key data : data_entry) (expired version M : Z) (slaves t : list Z)
  (ds0 : data_server St) (d0 : dup_sync_sender_manager) (since until : Z).
Let p : request_put := arrived_put area key data expired version.
Let p0 : request_put := sent_put area key data expired version.
Context (Hready : cluster_ready tc c p key M slaves t ds0 d0 since until) (Hkey : owned key) (Hdata : owned data)
  (Hlife : lifetime p since until) (Htimes : on_time since until c).
Let w : Z := next_wait tc.
Let bucket : Z := bucket_of tc key.
Let id : Z := next_id slaves d0.
Let ver : Z := ds_client_version ds0.

Lemma ready_slaves :
  get_bucket_number key (ds_manager ds0) = Ret bucket
  /\ TairManager.get_slaves M TAIR_SERVERFLAG_CLIENT bucket (ds_manager ds0) = Ret slaves
  /\ Forall (fun sv => sv <> 0) slaves /\ Z.of_nat (length slaves) < cl_copy_count tc.
Proof.
  destruct Hready. destruct cr_master0 as [Hm H0], cr_route0 as (Hr & _).
  destruct (same_table_routes tc (ds_manager ds0) t key M cr_table0 Hm H0 cr_settled0) as (slaves' & E & Hb & Hs & Hnz & Hlen).
  rewrite Hr in E. by injection E as <-.
Qed.

Lemma ready_bucket : 0 <= bucket < TAIR_MAX_BUCKET_NUMBER.
Proof.
  destruct Hready. destruct (tt_sizes _ _ _ cr_table0) as (H1 & _).
  pose proof (Z.mod_pos_bound (mur_mur_hash (get_data key)) (cl_bucket_count tc)) as Hb. fold (bucket_of tc key) in Hb. unfold bucket. lia.
Qed.

Lemma ready_copies : take MAX_DUP_COUNT slaves = slaves.
Proof. destruct ready_slaves as (_ & _ & _ & Hlen), Hready. apply take_ge. unfold MAX_DUP_COUNT. lia. Qed.

Lemma ready_master : get_data (put_key p) = get_data key -> master_of M yes ds0 d0 p bucket slaves.
Proof.
  intros Hkd. destruct ready_slaves as (Hb & Hs & Hnz & _), Hready. destruct cr_duplicator0 as (Hd & Hok & Hm), cr_route0 as (_ & Hne & _).
  constructor; [done|done| |done|].
  - unfold get_bucket_number in *. by rewrite Hkd.
  - constructor; [by rewrite Hm|rewrite Hm; by vm_compute| |by apply ready_bucket].
    split; [done|]. eapply list.Forall_impl; [exact Hnz|]. done.
Qed.

Lemma ready_before : get_data (put_key p) = get_data key -> before p M w bucket ver slaves since until d0 p0 c.
Proof.
  intros Hkd. pose proof (ready_master Hkd) as Hm. destruct Hready. constructor; [|done|done|by left].
  intros ds Hl. rewrite (cr_up0 ds Hl). by split.
Qed.

Lemma put_checks_ok :
  put_checks area key data expired version = true ->
  key_entry_check key = true /\ data_entry_check data = true /\ area_check area = true /\ 0 <= area < TAIR_MAX_AREA_COUNT.
Proof.
  intros [[[Hkc Hdc]%andb_true_iff _]%andb_true_iff [[Hac _]%andb_true_iff _]%andb_true_iff]%andb_true_iff.
  split; [done|]. split; [done|]. split; [done|]. unfold area_check in Hac.
  apply negb_true_iff, orb_false_iff in Hac as [H1%Z.ltb_ge H2%Z.leb_gt]. lia.
Qed.

(** The put of the client *)
Lemma client_put_run :
  exists ret tc1 c1, Client.put uncompress area key data expired version (tc, c) = Ret (ret, (tc1, c1))
    /\ (ret = TAIR_RETURN_SUCCESS ->
          wait_seq tc1 = w /\ same_routes tc tc1 /\ settled p M w bucket id ver slaves since until c1
          /\ put_checks area key data expired version = true).
Proof.
  destruct (put_checks area key data expired version) eqn:Hchk.
  2:{ destruct (put_refused uncompress area key data expired version (tc, c) Hchk) as (ret & E & Hret).
      exists ret, tc, c. split; [done|]. intros ->. done. }
  destruct (put_checks_ok Hchk) as (Hkc & Hdc & _ & Ha).
  destruct (arrived_put_ok area key data expired version Hkey Hdata Hkc Hdc Ha) as (Hp & Hkd & Hdd). fold p in Hp, Hkd, Hdd.
  pose proof ready_bucket as Hb. pose proof (ready_master Hkd) as Hm. destruct ready_slaves as (_ & _ & Hnz & Hlen).
  pose proof (ready_before Hkd) as Hbef. destruct Hready.
  destruct cr_wait0 as [Hw1 Hw2], cr_master0 as [_ HM0], cr_route0 as (Hr & Hne & HM), cr_duplicator0 as (_ & _ & Hidle).
  destruct (ask_put uninit remote_sync arrange p M w bucket id ver slaves Hp HM0 HM Hb Hnz since until Hlife d0 p0 Hidle
              eq_refl eq_refl uncompress tc c) as (r & tc1 & c1 & E & Hseq & Hsr & Hi & _ & Hr1); try done.
  { unfold w, next_wait. lia. } { unfold can_wait. lia. }
  destruct (client_put_asks uncompress area key data expired version tc c M slaves r tc1 c1 Hchk Hr E) as (tc2 & E2 & Hseq2 & Hsr2).
  exists (put_code r), tc2, c1. split; [done|].
  destruct Hr1 as [[->| ->]|(v & code & -> & Hs)]; [done|done|]. intros Hcode.
  split; [congruence|]. split; [by eapply same_routes_trans|]. by split; [apply Hs|].
Qed.

(** The get of a client after the put: the copies are asked in turn. *)
Lemma client_get_after tc1 c1 :
  wait_seq tc1 = w -> same_routes tc tc1 -> settled p M w bucket id ver slaves since until c1 -> on_time since until c1 ->
  put_checks area key data expired version = true -> 0 < put_expired p ->
  exists ret r tc2 c2, Client.get uncompress area key (tc1, c1) = Ret ((ret, r), (tc2, c2))
    /\ (ret = TAIR_RETURN_SUCCESS /\ (exists value, r = Some value /\ get_data value = get_data data)
        \/ r = None /\ (ret = TAIR_RETURN_TIMEOUT \/ ret = TAIR_RETURN_SEND_FAILED)).
Proof.
  intros Hseq Hsr Hset Htimes1 Hchk Hpos. destruct (put_checks_ok Hchk) as (Hkc & Hdc & Hac & Ha).
  destruct (arrived_put_ok area key data expired version Hkey Hdata Hkc Hdc Ha) as (Hp & Hkd & Hdd). fold p in Hp, Hkd, Hdd.
  pose proof ready_bucket as Hb. pose proof (ready_master Hkd) as Hm. pose proof ready_copies as Hcop. destruct ready_slaves as (_ & _ & Hnz & Hlen).
  destruct Hready. destruct cr_wait0 as [Hw1 Hw2], cr_master0 as [_ HM0], cr_route0 as (Hr & Hne & HM), cr_duplicator0 as (_ & _ & Hidle).
  destruct (add_key_run area key expired version data Hkey Hkc Ha) as (g0 & g & Eg & Hrec & Hg).
  assert (get_server_id key tc1 = Ret (M :: slaves)) as Hr1.
  { rewrite <- Hr. unfold get_server_id, server_ids_of_hash. destruct Hsr as [-> -> _ -> -> -> _]. done. }
  destruct (get_from_run uninit remote_sync arrange p M w bucket id ver slaves Hp HM0 HM Hb Hnz since until Hlife d0 p0 Hidle
              eq_refl eq_refl uncompress (M :: slaves) TAIR_RETURN_SEND_FAILED tc1 c1 (General (REQ_GET g0)) g)
    as (r & tc2 & c2 & E & _ & _ & Hres); try done.
  { unfold w, next_wait. lia. } { by rewrite Hseq. }
  { rewrite Hseq. unfold w, next_wait. cbn [length]. lia. }
  { unfold copies. rewrite Hcop. by apply list.Forall_forall. } { by left. }
  pose proof (client_get_asks uncompress area key tc1 c1 (M :: slaves) g0 r tc2 c2) as Hget. unfold get_checks in Hget.
  rewrite Hkc, Hac in Hget. specialize (Hget eq_refl Hr1 ltac:(done) Eg E).
  destruct Hres as [[Hnone Hun]|(v & -> & Hcode & k & d & Hs & Hd & _)].
  - destruct r as [ret tp]. cbn in Hnone, Hun. subst tp. exists ret, None, tc2, c2. split; [done|]. right. split; [done|]. by destruct Hun; [right|left].
  - destruct (Hget Hcode (k, d) Hs) as (tc3 & E3 & _). exists TAIR_RETURN_SUCCESS, (Some d), tc3, c2. split; [done|]. left.
    split; [done|]. exists d. split; [done|]. by rewrite Hd, Hdd.
Qed.

(** A put that nothing disturbs *)
Lemma client_put_undisturbed next rest :
  put_checks area key data expired version = true -> version = 0 -> base.NoDup slaves ->
  (forall sv, sv ∈ M :: slaves -> is_Some (cs_servers c !! sv)) ->
  cs_schedule c = (replicate (2 + 2 * length slaves) (Deliver 0) ++ next) :: rest ->
  exists tc1 c1, Client.put uncompress area key data expired version (tc, c) = Ret (TAIR_RETURN_SUCCESS, (tc1, c1)).
Proof.
  intros Hchk Hz Hnd Hlive Hsch. destruct (put_checks_ok Hchk) as (Hkc & Hdc & _ & Ha).
  destruct (arrived_put_ok area key data expired version Hkey Hdata Hkc Hdc Ha) as (Hp & Hkd & Hdd). fold p in Hp, Hkd, Hdd.
  pose proof ready_bucket as Hb. pose proof (ready_master Hkd) as Hm. pose proof ready_copies as Hcop. destruct ready_slaves as (_ & _ & Hnz & Hlen).
  pose proof (ready_before Hkd) as Hbef. destruct Hready.
  destruct cr_wait0 as [Hw1 Hw2], cr_master0 as [_ HM0], cr_route0 as (Hr & Hne & HM), cr_duplicator0 as (_ & _ & Hidle).
  set (c1 := set_flights (fun l => l ++ [put_request M w p0]) c).
  assert (before p M w bucket ver slaves since until d0 p0 c1) as Hb1.
  { apply before_fewer; [|done]. intros _. right. by rewrite cr_quiet0. }
  set (c2 := reschedule rest c1).
  assert (before p M w bucket ver slaves since until d0 p0 c2) as Hb2 by (destruct Hb1; by constructor).
  destruct (deliver_all uninit remote_sync arrange p M w bucket id ver slaves Hp HM0 HM Hb Hnz since until Hlife d0 p0 Hidle
              eq_refl eq_refl c2 next Hb2) as (c3 & Eplay); try done.
  { cbn. by rewrite cr_quiet0. } { cbn. by rewrite Hz. }
  destruct (play_all uninit remote_sync arrange next c3) as [c4 more] eqn:Enext.
  destruct (ask_run uncompress M (General (REQ_PUT p0)) tc c true c1 HM0 ltac:(unfold can_wait; lia)) with (n2 := c4)
    (l := (w, RegularPacket (General (RESP_RETURN (mk_response_return ver 0 [])))) :: more) as (tc1 & E & _ & _).
  { unfold sendPacket, net, cluster_network, cluster_send. rewrite bool_decide_eq_true_2 by (apply Hlive; by left). done. }
  { unfold arrivals, net, cluster_network, cluster_wait. change (cs_schedule c1) with (cs_schedule c). rewrite Hsch.
    change (mk_cluster (cs_servers c1) (cs_flights c1) rest) with c2. by rewrite Eplay. }
  unfold packets_for in E. cbn [omap list_omap] in E. fold w in E. rewrite Z.eqb_refl in E.
  destruct (client_put_asks uncompress area key data expired version tc c M slaves _ tc1 c4 Hchk Hr E) as (tc2 & E2 & _).
  by exists tc2, c4.
Qed.
End ready.

(** C2: a put that the client was told has succeeded is not lost.  The bucket
    has one or two slaves, and the clocks of the servers go on, each on its own,
    from [since] to at most [until].  Whatever the network does while the client
    waits - packets overtake each other, come too late or not at all, servers
    crash -, [put] returns; and if it returns success, then the master and every
    slave of the key's bucket that is still up hold the bytes of the put.  If
    the put has a positive time to live that is not over at [until] ([lifetime]),
    then whatever the network and the servers do from then on until that time, a
    [get] of the key returns the bytes of the put, or tells that none of the
    copies has answered: it never says that the key is absent or expired and
    never returns another value. *)
Theorem acknowledged_put_survives (tc : tair_client) (c : cluster St) (area : Z) (key data : data_entry)
    (expired version M : Z) (slaves t : list Z) (ds0 : data_server St) (d0 : dup_sync_sender_manager) (since until : Z) :
  let p := arrived_put area key data expired version in
  cluster_ready tc c p key M slaves t ds0 d0 since until -> owned key -> owned data ->
  lifetime p since until -> on_time since until c ->
  exists ret tc1 c1, Client.put uncompress area key data expired version (tc, c) = Ret (ret, (tc1, c1))
    /\ (ret = TAIR_RETURN_SUCCESS ->
          (forall sv ds, sv ∈ M :: slaves -> cs_servers c1 !! sv = Some ds -> exists st, server_keeps until p ds st)
          /\ (0 < put_expired p -> forall l, Forall (Forall (timely since until)) l ->
               exists ret2 r tc2 c2, Client.get uncompress area key (tc1, reschedule l c1) = Ret ((ret2, r), (tc2, c2))
               /\ (ret2 = TAIR_RETURN_SUCCESS /\ (exists value, r = Some value /\ get_data value = get_data data)
                   \/ r = None /\ (ret2 = TAIR_RETURN_TIMEOUT \/ ret2 = TAIR_RETURN_SEND_FAILED)))).
Proof.
  intros p Hready Hkey Hdata Hlife Htimes.
  destruct (client_put_run tc c area key data expired version M slaves t ds0 d0 since until Hready Hkey Hdata Hlife Htimes)
    as (ret & tc1 & c1 & E & Hok).
  exists ret, tc1, c1. split; [exact E|]. intros Hret. destruct (Hok Hret) as (Hseq & Hsr & Hset & Hchk). split.
  - intros sv ds Hsv Hl. destruct Hset as [_ Hall]. destruct (Hall sv) with (ds := ds) as [Hh _]; [|done|done].
    unfold copies. by rewrite (ready_copies tc c area key data expired version M slaves t ds0 d0 since until Hready).
  - intros Hpos l Hl. apply (client_get_after tc c area key data expired version M slaves t ds0 d0 since until Hready Hkey Hdata Hlife);
      try done. by apply settled_reschedule.
Qed.

(** C3: a put that nothing disturbs succeeds.  From a cluster that is ready,
    where the bucket has one or two slaves (a bucket with a single copy is
    never answered), with all copies of the bucket on servers that are up, and
    with the packets delivered in the order in which they were sent, a client's
    [put] of an area, key and value that pass the client's checks, with the
    version 0, and with no time to live or one that is over on none of the
    servers' clocks ([lifetime]), returns success: the request, the copies, the
    answers of the slaves and the answer to the client are all the packets there
    are. *)
Theorem undisturbed_put_succeeds (tc : tair_client) (c : cluster St) (area : Z) (key data : data_entry)
    (expired M : Z) (slaves t : list Z) (ds0 : data_server St) (d0 : dup_sync_sender_manager)
    (since until : Z) (next : list choice) (rest : list (list choice)) :
  cluster_ready tc c (arrived_put area key data expired 0) key M slaves t ds0 d0 since until -> owned key -> owned data ->
  lifetime (arrived_put area key data expired 0) since until ->
  put_checks area key data expired 0 = true -> base.NoDup slaves ->
  (forall sv, sv ∈ M :: slaves -> is_Some (cs_servers c !! sv)) ->
  cs_schedule c = (replicate (2 + 2 * length slaves) (Deliver 0) ++ next) :: rest ->
  exists tc1 c1, Client.put uncompress area key data expired 0 (tc, c) = Ret (TAIR_RETURN_SUCCESS, (tc1, c1)).
Proof.
  intros Hready Hkey Hdata Hlife Hchk Hnd Hlive Hsch.
  by apply (client_put_undisturbed tc c area key data expired 0 M slaves t ds0 d0 since until Hready Hkey Hdata Hlife next rest).
Qed.
End acknowledged.

(** ** An example: a client of three servers with memory engines *)

#[local] Instance demo_storage : storage_manager mdb_manager := mdb_storage (fun _ _ _ => 0) zero_meta.
#[local] Instance demo_laws : KeyValueLaws mdb_manager := mdb_laws (fun _ _ _ => 0) zero_meta.

Definition demo_client : tair_client :=
  mk_tair_client true false false 0 2000 1 1 0 1 3 [1; 2; 3] [] [] new_wait_object_manager.
Definition demo_cluster (e : mdb) (schedule : list (list choice)) : cluster mdb_manager :=
  mk_cluster (list_to_map (map (fun sv => (sv, demo_data_server e)) [1; 2; 3])) [] schedule.
Definition demo_key : data_entry := data_entry_of [107].
Definition demo_data : data_entry := data_entry_of [7; 8].

Lemma demo_up e schedule sv ds : cs_servers (demo_cluster e schedule) !! sv = Some ds -> ds = demo_data_server e.
Proof.
  cbn. intros Hl. repeat (apply lookup_insert_Some in Hl as [[_ <-]|[_ Hl]]; [done|]). by rewrite lookup_empty in Hl.
Qed.

Lemma demo_lifetime : lifetime (arrived_put 3 demo_key demo_data 100 0) 9 100.
Proof. by vm_compute. Qed.

Lemma demo_ready schedule :
  exists e, cluster_ready demo_client (demo_cluster e schedule) (arrived_put 3 demo_key demo_data 100 0) demo_key 1 [2; 3]
              [1; 2; 3; 1; 2; 3] (demo_data_server e) new_dup_sender 9 100.
Proof.
  destruct started_serves as (e & _ & Hs & Hclock & Hroom). exists e. set (ds := demo_data_server e).
  assert (server_serves ds ∅) as Hserves by (destruct Hs; by split).
  assert (server_clock ds = 9) as Hck by exact Hclock.
  set (p := arrived_put 3 demo_key demo_data 100 0).
  assert (slave_ready p 9 100 ds) as Hslave.
  { split; [by exists ∅|]. split; [by apply Hroom|]. unfold in_time. rewrite Hck. lia. }
  constructor; try done.
  - split; [by vm_compute|]. split; [done|]. rewrite !elem_of_cons, elem_of_nil. by intros [?|[?|[]]].
  - intros ds' Hl. by apply demo_up in Hl.
  - intros sv _ ds' Hl. apply demo_up in Hl. by subst ds'.
  - intros sv _ ds' Hl. apply demo_up in Hl. by subst ds'.
Qed.

Lemma demo_owned : owned demo_key /\ owned demo_data.
Proof. split; by constructor; vm_compute. Qed.

Lemma client_and_master_agree_witness :
  exists e, get_bucket_number demo_key (ds_manager (demo_data_server e)) = Ret 0
    /\ exists slaves, get_server_id demo_key demo_client = Ret (1 :: slaves)
         /\ TairManager.get_slaves 1 TAIR_SERVERFLAG_CLIENT 0 (ds_manager (demo_data_server e)) = Ret slaves.
Proof.
  destruct (demo_ready []) as (e & Hr). exists e.
  destruct (client_and_master_agree demo_client (ds_manager (demo_data_server e)) _ demo_key (cr_table _ _ _ _ _ _ _ _ _ _ _ Hr))
    as (H1 & _ & H2); [by vm_compute|by vm_compute|]. by split.
Defined.

Lemma demo_live e schedule sv : sv ∈ [1; 2; 3] -> is_Some (cs_servers (demo_cluster e schedule) !! sv).
Proof.
  intros Hsv. exists (demo_data_server e). cbn. rewrite !elem_of_cons, elem_of_nil in Hsv.
  destruct Hsv as [->|[->|[->|[]]]]; by rewrite ?lookup_insert_eq, ?lookup_insert_ne by done.
Qed.

Lemma demo_slaves : base.NoDup [2; 3].
Proof. repeat constructor; set_solver. Qed.

(** The put is stored, time passes on the master and on a slave, and the other
    slave crashes; the first get is lost, then the clock of the slave goes on to
    the last second of the entry, and the master crashes. *)
Definition demo_troubles : list (list choice) :=
  [replicate 6 (Deliver 0) ++ [Tick 1 60; Tick 2 80; Crash 3]].
Definition demo_later : list (list choice) := [[Lose 0; Tick 2 100; Crash 1]; [Deliver 0; Deliver 0]].

Lemma acknowledged_put_survives_witness :
  exists e tc1 c1 ret2 r tc2 c2,
    @Client.put _ (cluster_network 0 false (fun l => l)) (fun _ _ => None) 3 demo_key demo_data 100 0
      (demo_client, demo_cluster e demo_troubles) = Ret (TAIR_RETURN_SUCCESS, (tc1, c1))
    /\ @Client.get _ (cluster_network 0 false (fun l => l)) (fun _ _ => None) 3 demo_key (tc1, reschedule demo_later c1)
       = Ret ((ret2, r), (tc2, c2))
    /\ (ret2 = TAIR_RETURN_SUCCESS /\ (exists value, r = Some value /\ get_data value = [7; 8])
        \/ r = None /\ (ret2 = TAIR_RETURN_TIMEOUT \/ ret2 = TAIR_RETURN_SEND_FAILED)).
Proof.
  destruct (demo_ready demo_troubles) as (e & Hready). destruct demo_owned as [Hk Hd].
  destruct (client_put_undisturbed 0 false (fun l => l) (fun _ _ => None) demo_client _ 3 demo_key demo_data 100 0 1 [2; 3] [1; 2; 3; 1; 2; 3]
              (demo_data_server e) new_dup_sender 9 100 Hready Hk Hd demo_lifetime [Tick 1 60; Tick 2 80; Crash 3] [])
    as (tc0 & c0 & E0); [by vm_compute|done|apply demo_slaves|by apply demo_live|done|].
  destruct (acknowledged_put_survives 0 false (fun l => l) (fun _ _ => None) demo_client (demo_cluster e demo_troubles) 3
              demo_key demo_data 100 0 1 [2; 3] [1; 2; 3; 1; 2; 3] (demo_data_server e) new_dup_sender 9 100 Hready Hk Hd demo_lifetime)
    as (ret & tc1 & c1 & E & Hok); [by repeat constructor|].
  assert (ret = TAIR_RETURN_SUCCESS) as -> by congruence.
  destruct (Hok eq_refl) as [_ Hget]. destruct (Hget eq_refl demo_later) as (ret2 & r & tc2 & c2 & E2 & Hr); [by repeat constructor|].
  by exists e, tc1, c1, ret2, r, tc2, c2.
Defined.

Lemma undisturbed_put_succeeds_witness :
  exists e tc1 c1,
    @Client.put _ (cluster_network 0 false (fun l => l)) (fun _ _ => None) 3 demo_key demo_data 100 0
      (demo_client, demo_cluster e [replicate 6 (Deliver 0) ++ []]) = Ret (TAIR_RETURN_SUCCESS, (tc1, c1)).
Proof.
  destruct (demo_ready [replicate 6 (Deliver 0) ++ []]) as (e & Hready). destruct demo_owned as [Hk Hd]. exists e.
  by apply (undisturbed_put_succeeds 0 false (fun l => l) (fun _ _ => None) demo_client _ 3
              demo_key demo_data 100 1 [2; 3] [1; 2; 3; 1; 2; 3] (demo_data_server e) new_dup_sender 9 100 [] [] Hready Hk Hd demo_lifetime);
    [vm_compute|apply demo_slaves|apply demo_live|].
Defined.
