(* ===== verification/ClientErrors.v ===== *)
(** * What goes wrong at a client when its servers do not answer as expected

    Three ways for a caller to be misled or brought down: a removal of many keys
    that nobody has answered counts as a success; a server that is starting up
    brings down the clients that ask it for a list; and asking for several keys
    that a server does not have aborts the client. *)

From S2P Require Import Prelude PacketCodes Util DataBuffer DataEntry MemCache MdbItem EngineState MdbManager Engine TableManager Storage TairManager TairService BasePacket KvPackets ConfPackets KeyPackets ListPackets HashPackets SetPackets ZsetPackets PacketFactory CopyPackets DupSync DupSyncTheorems RequestProcessor TairServer Replication WaitObject ServerList Client ClientTheorems Cluster ClusterTheorems AcknowledgedPut.

(** ** Nobody answers *)

Lemma server_ids_nonzero table buckets hash n i servers :
  server_ids table buckets hash n i = Ret servers -> Forall (fun s => s <> 0) servers.
Proof.
  revert i servers. induction n as [|n IH]; intros i servers; cbn [server_ids]; [by intros [= <-]|].
  destruct (at_ table _) as [s| | | |]; try done. cbn [obind]. destruct (server_ids table buckets hash n (i + 1)) as [l| | | |] eqn:E; try done.
  cbn [obind]. intros [= <-]. specialize (IH _ _ E). destruct (Z.eqb_spec s 0); [done|]. by constructor.
Qed.

Lemma get_server_id_nonzero key c servers :
  cl_direct c = false -> get_server_id key c = Ret servers -> Forall (fun s => s <> 0) servers.
Proof.
  intros Hd. unfold get_server_id, server_ids_of_hash. rewrite Hd. unfold oassert. destruct (negb _); [|done]. apply server_ids_nonzero.
Qed.

Lemma server_insert_elem {A} s (a : A) m x : x ∈ server_insert s a m -> x = (s, a) \/ x ∈ m.
Proof.
  induction m as [|[s' b] m IH]; cbn [server_insert]; [intros ?%list_elem_of_singleton; by left|].
  rewrite elem_of_cons. destruct (Z.ltb_spec s s'); [rewrite !elem_of_cons; tauto|].
  destruct (Z.ltb_spec s' s); rewrite elem_of_cons; [|replace s' with s by lia; tauto]. intros [->|Hx]; [tauto|]. destruct (IH Hx) as [->|Hm]; tauto.
Qed.

(** Every request goes to a server of the table. *)
Lemma request_map_servers c area select keys m m' :
  cl_direct c = false -> Forall (fun r => r.1 <> 0) m -> request_map c area select keys m = Ret (inr m') ->
  Forall (fun r => r.1 <> 0) m'.
Proof.
  intros Hd. revert m. induction keys as [|key keys IH]; intros m Hm; cbn [request_map]; [by intros [= <-]|].
  destruct (negb (key_entry_check key)); [done|]. destruct (get_server_id key c) as [servers| | | |] eqn:Es; try done. cbn [obind].
  destruct servers as [|first rest]; [done|]. pose proof (get_server_id_nonzero _ _ _ Hd Es) as Hnz.
  destruct (add_key key _) as [p| | | |]; try done. cbn [obind]. apply IH. apply list.Forall_forall. intros [s r] [[= -> ->]|Hin]%server_insert_elem.
  - cbn [fst]. destruct ((first :: rest) !! Z.to_nat select) as [x|] eqn:Ex; cbn; [|by inversion Hnz].
    by apply (Forall_lookup_1 _ _ _ _ Hnz Ex).
  - rewrite list.Forall_forall in Hm. by apply (Hm (s, r)).
Qed.

Section silence.
Context {N : Type} `{network N} (uncompress : list Z -> Z -> option (list Z)).

(** Sending ends, and nothing arrives. *)
Definition sends : Prop := forall server q a n, exists b n', sendPacket server q a n = Ret (b, n').
Definition silent : Prop := forall k timeout n, arrivals k timeout n = Ret ([], n).
Context (Hsends : sends) (Hsilent : silent).

Lemma send_request_run server q a (s : tair_client * N) :
  server <> 0 -> 0 <= a -> exists ret s', send_request server q a s = Ret (ret, s') /\ cl_waiting s'.1 = cl_waiting s.1
    /\ (ret = 0 \/ ret = TAIR_RETURN_SEND_FAILED).
Proof.
  intros H0 Ha. destruct s as [tc n]. unfold send_request, sassert. rewrite (proj2 (Z.eqb_neq server 0) H0), (proj2 (Z.leb_le 0 a) Ha). cbn [negb andb].
  destruct (Hsends server q a n) as (b & n' & E). unfold on_network, sbind. rewrite E. cbn. destruct b; eexists _, _; (split; [reflexivity|]); auto.
Qed.

Lemma send_all_run a requests ret sent (s : tair_client * N) :
  0 <= a -> 0 <= sent -> Forall (fun r => r.1 <> 0) requests ->
  exists ret' sent' s', send_all a requests ret sent s = Ret ((ret', sent'), s') /\ cl_waiting s'.1 = cl_waiting s.1 /\ 0 <= sent'.
Proof.
  intros Ha. revert ret sent s. induction requests as [|[server q] requests IH]; intros ret sent s Hsent Hr; cbn [send_all]; [by eexists _, _, s|].
  apply list.Forall_cons in Hr as [H0 Hr]. destruct (send_request_run server q a s H0 Ha) as (ret1 & s1 & E & Hw & _). step_with E.
  destruct (IH ret1 (if ret1 <? 0 then sent else sent + 1) s1) as (r2 & sent2 & s2 & E2 & Hw2 & Hs2); [by destruct (ret1 <? 0); lia|done|].
  exists r2, sent2, s2. split; [done|]. split; [congruence|done].
Qed.

(** Waiting ends with the waiter as it was. *)
Lemma wait_done_silent cwo count tc (n : N) w :
  0 <= count -> wait_object_map (cl_waiting tc) !! cwo = Some w ->
  wait_done uncompress cwo count (tc, n) = Ret (w, (tc, n)).
Proof.
  intros Hs Hw. unfold wait_done, sassert. rewrite (proj2 (Z.leb_le 0 count) Hs). cbn [negb].
  step_with (eq_refl : get_client (tc, n) = Ret (tc, (tc, n))).
  assert (on_network (arrivals count (cl_timeout tc)) (tc, n) = Ret ([], (tc, n))) as E by (unfold on_network; by rewrite Hsilent).
  step_with E. step_with (eq_refl : update (handle_all uncompress []) (tc, n) = Ret (tt, (tc, n))).
  step_with (eq_refl : get_client (tc, n) = Ret (tc, (tc, n))). by rewrite Hw.
Qed.

(** A question to many servers that nobody answers *)
Lemma ask_all_unheard requests tc (n : N) :
  can_wait tc -> Forall (fun r => r.1 <> 0) requests -> exists s', ask_all uncompress requests (tc, n) = Ret ((0, []), s').
Proof.
  intros Hc Hr. destruct (create_wait_run tc n Hc) as (m & Ec & _ & Hm). unfold ask_all. step_with Ec.
  destruct (send_all_run (next_wait tc) requests TAIR_RETURN_SEND_FAILED 0 (set_waiting (fun _ => m) tc, n)) as (r & sent & [tc2 n2] & E & Hw & Hs);
    [unfold next_wait, can_wait in *; lia|lia|done|]. step_with E. cbn [fst] in Hw.
  assert (wait_object_map (cl_waiting tc2) !! next_wait tc = Some (new_wait_object null_pcode ∅)) as Hm2 by (by rewrite Hw).
  assert (get_responses uncompress (next_wait tc) sent (tc2, n2) = Ret ((0, []), (tc2, n2))) as E2.
  { unfold get_responses. step_with (wait_done_silent _ _ _ n2 _ Hs Hm2). cbn. by rewrite Z.min_l by lia. }
  step_with E2. by eexists.
Qed.

(** C11: a removal of many keys that no server has heard of is a success.  Over
    a network on which sending ends, with or without success, and nothing
    arrives, [mdelete] of keys that the client can place returns
    TAIR_RETURN_SUCCESS: the number of the answers, 0, is taken for the code. *)
Theorem unheard_mdelete_succeeds (tc : tair_client) (n : N) (area : Z) (keys : list data_entry) requests :
  can_wait tc -> cl_direct tc = false -> init_request_map area keys 0 tc = Ret (inr requests) ->
  exists s', mdelete uncompress area keys (tc, n) = Ret (TAIR_RETURN_SUCCESS, s').
Proof.
  intros Hc Hd Hi. unfold mdelete. step_with (eq_refl : get_client (tc, n) = Ret (tc, (tc, n))). step_with (slift_run _ (inr requests) (tc, n) Hi).
  assert (Forall (fun r => r.1 <> 0) requests) as Hr.
  { unfold init_request_map in Hi. destruct (negb _); [done|]. by apply (request_map_servers _ _ _ _ _ _ Hd) in Hi. }
  destruct (ask_all_unheard (map (fun r => (r.1, General (REQ_REMOVE r.2))) requests) tc n Hc) as (s' & E).
  { apply Forall_map. by eapply list.Forall_impl; [exact Hr|]. }
  exists s'. by step_with E.
Qed.
End silence.

(** A network that takes everything and brings nothing *)
Definition black_hole : network unit := {| sendPacket := fun _ _ _ n => Ret (true, n); arrivals := fun _ _ n => Ret ([], n) |}.

Lemma unheard_mdelete_succeeds_witness :
  exists s', @mdelete _ black_hole (fun _ _ => None) 3 [demo_key; demo_data] (demo_client, tt) = Ret (TAIR_RETURN_SUCCESS, s').
Proof.
  eapply (@unheard_mdelete_succeeds _ black_hole (fun _ _ => None)); [by intros server q a n; eexists _, _|done|by vm_compute|done|by vm_compute].
Defined.

(** ** One request and its answer *)

Section one_answer.
Context {N : Type} `{network N} (uncompress : list Z -> Z -> option (list Z)).

(** A question to many servers that is for one of them *)
Lemma ask_all_one server q tc (n n1 n2 : N) l a rest :
  server <> 0 -> can_wait tc -> sendPacket server q (next_wait tc) n = Ret (true, n1) ->
  arrivals 1 (cl_timeout tc) n1 = Ret (l, n2) -> packets_for (next_wait tc) l = a :: rest ->
  exists tc', ask_all uncompress [(server, q)] (tc, n) = Ret ((1, [a]), (tc', n2)).
Proof.
  intros H0 Hc Hs Ha Hp. destruct (create_wait_run tc n Hc) as (m & Ec & Hseq & Hm). unfold ask_all. step_with Ec.
  set (w := next_wait tc) in *. assert (0 < w) as Hw by (unfold w, next_wait, can_wait in *; lia). set (c1 := set_waiting (fun _ => m) tc) in *.
  assert (send_request server q w (c1, n) = Ret (0, (c1, n1))) as Es.
  { unfold send_request, sassert. rewrite (proj2 (Z.eqb_neq server 0) H0), (proj2 (Z.leb_le 0 w)) by lia. cbn [negb andb].
    unfold on_network, sbind. by rewrite Hs. }
  assert (send_all w [(server, q)] TAIR_RETURN_SEND_FAILED 0 (c1, n) = Ret ((0, 1), (c1, n1))) as Esa
    by (cbn [send_all]; by step_with Es).
  step_with Esa. destruct (handle_all_waits uncompress l c1 w _ ltac:(lia) Hm eq_refl eq_refl) as (_ & _ & wo & Hwo & Har).
  change (arrived wo = packets_for w l) in Har. rewrite Hp in Har.
  assert (wait_done uncompress w 1 (c1, n1) = Ret (wo, (handle_all uncompress l c1, n2))) as Ewd.
  { unfold wait_done, sassert. cbn [Z.leb Z.compare]. unfold get_client, on_network, update, sbind. cbn.
    change (cl_timeout c1) with (cl_timeout tc). rewrite Ha. cbn. by rewrite Hwo. }
  assert (get_responses uncompress w 1 (c1, n1) = Ret ((1, [a]), (handle_all uncompress l c1, n2))) as Egr.
  { unfold get_responses. step_with Ewd. rewrite get_packet_count_arrived, Har, Z.min_r by (cbn [length]; lia).
    change (seqZ 0 1) with [0]. cbn [omap list_omap]. by rewrite (get_packet_first wo _ Har). }
  step_with Egr. by eexists.
Qed.
End one_answer.

Section exchange.
Context {St : Type} `{Hst : storage_manager St} {Htimed : timed St} (uninit : Z) (remote_sync : bool)
  (arrange : list (data_entry * data_entry) -> list (data_entry * data_entry)).
#[local] Instance exchange_net : network (cluster St) := cluster_network uninit remote_sync arrange.

(** With nothing else in flight, the request and the answer are delivered. *)
Lemma exchange (c : cluster St) server ds ds' q a w next rest count timeout :
  cs_flights c = [] -> cs_schedule c = (Deliver 0 :: Deliver 0 :: next) :: rest -> cs_servers c !! server = Some ds ->
  on_request uninit remote_sync arrange server 0 w q ds = Ret (ds', [Post 0 w (Plain a)]) ->
  exists c1 more c2, sendPacket server q w c = Ret (true, c1)
    /\ arrivals count timeout c1 = Ret ((w, RegularPacket (received_of a)) :: more, c2).
Proof.
  intros Hfl Hsch Hl Hr. set (c2 := mk_cluster (<[server := ds']> (cs_servers c)) [Answer server 0 w a] rest).
  assert (server_steps server (on_request uninit remote_sync arrange server 0 w q) (mk_cluster (cs_servers c) [] rest) = c2) as Estep
    by (unfold server_steps; cbn [cs_servers]; by rewrite Hl, Hr).
  destruct (play_all uninit remote_sync arrange next (mk_cluster (cs_servers c2) [] rest)) as [c4 more] eqn:Enext.
  exists (set_flights (fun l => l ++ [Request 0 server w q]) c), more, c4. split.
  - unfold sendPacket, exchange_net, cluster_network, cluster_send. by rewrite bool_decide_eq_true_2 by (by exists ds).
  - unfold arrivals, exchange_net, cluster_network, cluster_wait. cbn [set_flights cs_schedule cs_servers cs_flights].
    rewrite Hsch, Hfl. cbn [app play_all play cs_flights lookup list_lookup]. unfold set_flights at 1.
    cbn [deliver cs_servers cs_flights cs_schedule delete list_delete]. rewrite Estep.
    cbn [play cs_flights c2 lookup list_lookup deliver Z.eqb]. unfold set_flights. cbn in *. by rewrite Enext.
Qed.
End exchange.

(** ** A server that is starting up *)

Section starting.
Context {St : Type} `{Hst : storage_manager St} {Htimed : timed St} (uninit : Z) (remote_sync : bool)
  (arrange : list (data_entry * data_entry) -> list (data_entry * data_entry))
  (uncompress : list Z -> Z -> option (list Z)).
#[local] Instance starting_net : network (cluster St) := cluster_network uninit remote_sync arrange.
Local Abbreviation yes := (fun _ : Z => true).

(** The packets whose handlers look at the status of the server and leave the
    answer to the dispatcher *)
Definition left_to_dispatcher (q : packet) : Prop :=
  forall ip o (ds : data_server St), is_working (ds_manager ds) = false ->
    process ip uninit yes yes remote_sync arrange o true (received_of q) (ds, [])
    = Ret ((TAIR_RETURN_SERVER_CAN_NOT_WORK, true), (ds, [])).

Lemma process_before_starting hash_code sr k (ds : data_server St) out ip :
  is_working (ds_manager ds) = false ->
  process_before ip hash_code sr k (ds, out) = Ret ((TAIR_RETURN_SERVER_CAN_NOT_WORK, sr), (ds, out)).
Proof.
  intros Hw. unfold process_before, if_working. step_with (eq_refl : sget (ds, out) = Ret ((ds, out), (ds, out))).
  by rewrite Hw.
Qed.

Lemma lindex_left p : left_to_dispatcher (List (REQ_LINDEX p)).
Proof. intros ip o ds Hw. by apply process_before_starting. Qed.
Lemma lrange_left p : left_to_dispatcher (List (REQ_LRANGE p)).
Proof. intros ip o ds Hw. by apply process_before_starting. Qed.
Lemma llen_left p : left_to_dispatcher (List (REQ_LLEN p)).
Proof. intros ip o ds Hw. by apply process_before_starting. Qed.

(** The request and its answer are the packets in flight. *)
Record asks_starting (tc : tair_client) (c : cluster St) (area : Z) (key : data_entry) : Prop := {
  as_wait : can_wait tc;
  as_checks : key_entry_check key = true /\ area_check area = true;
  as_server : exists server rest ds, get_server_id key tc = Ret (server :: rest) /\ server <> 0
    /\ cs_servers c !! server = Some ds /\ is_working (ds_manager ds) = false;
  as_flights : cs_flights c = [];
  as_schedule : exists next rest, cs_schedule c = (Deliver 0 :: Deliver 0 :: next) :: rest
}.

Lemma ask_starting tc c area key server rest q :
  asks_starting tc c area key -> get_server_id key tc = Ret (server :: rest) -> left_to_dispatcher q ->
  exists r s', ask uncompress server q (tc, c) = Ret ((0, Some (General (RESP_RETURN r))), s')
    /\ ret_code r = TAIR_RETURN_SERVER_CAN_NOT_WORK.
Proof.
  intros [Hw _ (sv & rest' & ds & Er & H0 & Hl & Hwk) Hfl (next & rest2 & Hsch)] Hr Hq. rewrite Hr in Er. injection Er as <- <-.
  set (r := mk_response_return (ds_client_version ds) TAIR_RETURN_SERVER_CAN_NOT_WORK []).
  destruct (exchange uninit remote_sync arrange c server ds ds q (General (RESP_RETURN r)) (next_wait tc) next rest2 1 (cl_timeout tc) Hfl Hsch Hl)
    as (c1 & more & c2 & Es & Ea).
  { unfold on_request, handlePacketQueue.
    by rewrite (sbind_run _ _ (ds, []) _ _ (Hq server (mk_origin 0 (next_wait tc) (pcode_of (received_of q))) ds Hwk)). }
  destruct (ask_run uncompress server q tc c true c1 H0 Hw Es _ c2 Ea) as (tc1 & E & _).
  unfold packets_for in E. cbn [omap list_omap] in E. rewrite Z.eqb_refl in E. by exists r, (tc1, c2).
Qed.

(** The older operations read the version from an answer that is not there. *)
Lemma strict_crash {R} pick (out : R) server q (s s' : tair_client * cluster St) r :
  ask uncompress server q s = Ret ((0, Some (General (RESP_RETURN r))), s') ->
  ret_code r = TAIR_RETURN_SERVER_CAN_NOT_WORK -> pick (General (RESP_RETURN r)) = None ->
  (let* answer := ask uncompress server q in strict_answer pick out answer) s = Overrun.
Proof. intros E Hc Hp. step_with E. unfold strict_answer. by rewrite Hp, Hc. Qed.

(** C12: a data server that is starting up brings down the clients that ask it
    for a list.  When the first server of a key is up but does not work yet, and
    its answer arrives, [lindex], [lrange] and [llen] of the key go through the
    NULL pointer of the answer they have expected. *)
Theorem starting_server_crashes_clients (tc : tair_client) (c : cluster St) (area : Z) (key value : data_entry)
    (values : list data_entry) (i j : Z) :
  asks_starting tc c area key ->
  lindex uncompress area key i value (tc, c) = Overrun
  /\ lrange uncompress area key i j values (tc, c) = Overrun
  /\ llen uncompress area key (tc, c) = Overrun.
Proof.
  intros H. pose proof (as_server _ _ _ _ H) as (server & rest & ds & Hr & _). destruct (as_checks _ _ _ _ H) as [H1 H2].
  unfold lindex, lrange, llen, refuse_unless. rewrite H1, H2. split; [|split].
  - rewrite (to_server_run _ _ _ _ _ _ _ _ Hr).
    destruct (ask_starting tc c area key server rest _ H Hr (lindex_left (mk_request_lindex 0 area i (copied key)))) as (r & s' & E & Hc).
    by eapply strict_crash.
  - rewrite (to_server_run _ _ _ _ _ _ _ _ Hr).
    destruct (ask_starting tc c area key server rest _ H Hr (lrange_left (mk_request_lrange 0 area i j (copied key)))) as (r & s' & E & Hc).
    by eapply strict_crash.
  - rewrite (to_server_run _ _ _ _ _ _ _ _ Hr).
    destruct (ask_starting tc c area key server rest _ H Hr (llen_left (mk_request_llen 0 area (copied key)))) as (r & s' & E & Hc).
    by eapply strict_crash.
Qed.
End starting.

Definition starting_server : data_server mdb_manager :=
  mk_data_server (mk_tair_manager false STATUS_INITED (mk_mdb_manager 1 demo_full) (demo_table 3 [1; 2; 3])
    (mk_bitset 1 ∅) ∅) None 0.
Definition starting_cluster : cluster mdb_manager := mk_cluster {[1 := starting_server]} [] [[Deliver 0; Deliver 0]].
#[local] Instance demo_storage : storage_manager mdb_manager := mdb_storage (fun _ _ _ => 0) zero_meta.

Lemma starting_server_crashes_clients_witness :
  @lindex _ (cluster_network 0 false (fun l => l)) (fun _ _ => None) 3 demo_key 0 demo_data (demo_client, starting_cluster)
  = Overrun.
Proof.
  refine (proj1 (starting_server_crashes_clients 0 false (fun l => l) (fun _ _ => None) demo_client starting_cluster 3
                   demo_key demo_data [] 0 0 _)).
  constructor; [by vm_compute|by vm_compute| |done|by exists [], []].
  exists 1, [2; 3], starting_server. by vm_compute.
Defined.

(** ** Many keys of one server *)

Section absent.
Context {St : Type} `{Hlaws : KeyValueLaws St} {Htimed : timed St} (uninit : Z) (remote_sync : bool)
  (arrange : list (data_entry * data_entry) -> list (data_entry * data_entry))
  (uncompress : list Z -> Z -> option (list Z)).
#[local] Instance absent_net : network (cluster St) := cluster_network uninit remote_sync arrange.
Local Abbreviation yes := (fun _ : Z => true).

Lemma set_insert_elem x y l : y ∈ set_insert x l -> y = x \/ y ∈ l.
Proof.
  induction l as [|z l IH]; cbn [set_insert]; [intros ?%list_elem_of_singleton; by left|].
  destruct (entry_lt x z); [rewrite elem_of_cons; tauto|]. destruct (entry_lt z x); [|tauto].
  rewrite !elem_of_cons. intros [->|Hy]; [tauto|]. destruct (IH Hy); tauto.
Qed.

(** A key that the server does not have *)
Definition absent (area : Z) (st : gmap (list Z) entry) (key : data_entry) : Prop :=
  client_key area key /\ st !! area_key area (get_data key) = None.

Lemma get_each_absent area keys data count g (ds : data_server St) st :
  server_serves ds st -> Forall (absent area st) keys ->
  exists ds', get_each area keys data count g (ds, []) = Ret ((count, g), (ds', [])) /\ server_serves ds' st
    /\ ds_client_version ds' = ds_client_version ds.
Proof.
  intros Hs. revert ds data Hs. induction keys as [|key keys IH]; intros ds data Hs Hk; cbn [get_each]; [by exists ds|].
  apply list.Forall_cons in Hk as [[Hk Hn] Hks].
  destruct (get_run (ds_manager ds) st area key data Hs Hk) as (rc & key' & data' & r & tm' & c' & E & Hs' & Hsame & Hg & _).
  assert (rc = TAIR_RETURN_DATA_NOT_EXIST /\ c' = st) as [-> ->] by (inversion Hg; subst; (done || congruence)).
  step_with (on_manager_run _ ds [] _ _ E). cbn [negb Z.eqb].
  destruct (IH (mk_data_server tm' (ds_duplicator ds) (ds_client_version ds)) data' Hs' Hks) as (ds' & E2 & Hs2 & Hv).
  by exists ds'.
Qed.

(** The answer to a request for keys that are all absent has no map. *)
Lemma server_has_none ip conn chid keys g (ds : data_server St) st :
  server_serves ds st -> get_key_list g = Some keys -> Forall (absent (get_area g) st) keys -> get_key_count g <> 0 ->
  exists ds', handlePacketQueue ip uninit yes yes remote_sync arrange conn chid true (General (REQ_GET g)) (ds, [])
    = Ret (true, (ds', [Post conn chid (Plain (General (RESP_GET
        (mk_response_get (ds_client_version ds) TAIR_RETURN_PARTIAL_SUCCESS 0 None None None))))])).
Proof.
  intros Hs Hl Hk Hc. destruct (get_each_absent (get_area g) keys new_data_entry 0 (mk_getting 0 None None) ds st Hs Hk)
    as (ds' & E & Hs' & Hv). exists ds'. rewrite <- Hv.
  unfold handlePacketQueue. cbn [process process_general]. rewrite sbind_assoc. unfold process_get at 1.
  rewrite (sbind_run _ _ (ds, []) (TAIR_RETURN_PARTIAL_SUCCESS, false) (ds', [Post conn chid (Plain (General (RESP_GET
      (mk_response_get (ds_client_version ds') TAIR_RETURN_PARTIAL_SUCCESS 0 None None None))))])); [done|].
  rewrite (if_working_run ds [] st) by done. rewrite Hl. cbv zeta. rewrite sbind_assoc. step_with E.
  rewrite (proj2 (Z.eqb_neq 0 (get_key_count g))) by done. done.
Qed.

(** Two different keys make a set of two. *)
Lemma set_insert_two l1 l2 :
  l1 <> [] -> l2 <> [] -> l1 <> l2 -> length (set_insert (data_entry_of l2) [data_entry_of l1]) = 2%nat.
Proof.
  intros H1 H2 D. destruct (data_entry_of_owned l1 H1) as (_ & E1 & S1). destruct (data_entry_of_owned l2 H2) as (_ & E2 & S2).
  unfold get_size in *. cbn [set_insert].
  pose proof (entry_lt_lex (data_entry_of l1) (data_entry_of l2)) as H12. pose proof (entry_lt_lex (data_entry_of l2) (data_entry_of l1)) as H21.
  rewrite E1, E2 in *. destruct (lex_lt_total l1 l2) as [Hlt|[?|Hlt]]; [|done|].
  - rewrite (proj2 (H12 S1 S2 H1 H2) Hlt). by destruct (entry_lt (data_entry_of l2) _).
  - by rewrite (proj2 (H21 S2 S1 H2 H1) Hlt).
Qed.

(** One request for two keys of the same server *)
Lemma two_keys_request tc area k1 k2 server r1 r2 st :
  owned k1 -> owned k2 -> key_entry_check k1 = true -> key_entry_check k2 = true -> area_check area = true ->
  get_data k1 <> get_data k2 ->
  get_server_id k1 tc = Ret (server :: r1) -> get_server_id k2 tc = Ret (server :: r2) ->
  st !! area_key area (get_data k1) = None -> st !! area_key area (get_data k2) = None ->
  exists g l, init_request_map area [k1; k2] 0 tc = Ret (inr [(server, g)])
    /\ get_area g = area /\ get_area (request_get_received g) = area /\ get_key_count (request_get_received g) <> 0
    /\ get_key_list (request_get_received g) = Some l /\ Forall (absent area st) l.
Proof.
  intros Ho1 Ho2 Hc1 Hc2 Hac D Hr1 Hr2 Hn1 Hn2. assert (0 <= area < TAIR_MAX_AREA_COUNT) as Ha.
  { unfold area_check in Hac. apply negb_true_iff, orb_false_iff in Hac as [H1%Z.ltb_ge H2%Z.leb_gt]. lia. }
  destruct (sent_key_ok area k1 Ho1 Hc1 Ha) as (Ht1 & Hl1 & Hk1 & Hd1). destruct (sent_key_ok area k2 Ho2 Hc2 Ha) as (Ht2 & Hl2 & Hk2 & Hd2).
  assert (forall k, owned k -> get_data k <> []) as Hne.
  { intros k [Hd Hs Hp _] E. rewrite E in *. cbn in *. lia. }
  pose proof (set_insert_two (get_data k1) (get_data k2) (Hne k1 Ho1) (Hne k2 Ho2) D) as Htwo.
  set (e1 := data_entry_of (get_data k1)) in *. set (e2 := data_entry_of (get_data k2)) in *.
  assert (add_key k1 (mk_request_get 0 area 0 None None) = Ret (mk_request_get 0 area 1 (Some e1) None)) as E1
    by (unfold add_key, request_get_add_key, oassert; by rewrite Ht1, (proj2 (Z.leb_le _ 2000) Hl1)).
  assert (add_key k2 (mk_request_get 0 area 1 (Some e1) None) = Ret (mk_request_get 0 area 2 None (Some (set_insert e2 [e1])))) as E2.
  { unfold add_key, request_get_add_key, oassert. rewrite Ht2, (proj2 (Z.leb_le _ 2000) Hl2).
    cbn [get_key_count Z.eqb get_key_list get_key set_insert length]. fold e2.
    change (match entry_lt e2 e1 with true => _ | false => _ end) with (set_insert e2 [e1]).
    rewrite decide_False by (rewrite Htwo; done). done. }
  exists (mk_request_get 0 area 2 None (Some (set_insert e2 [e1]))), (map (fun e => recv e) (set_insert e2 [e1])).
  split; [|split; [done|split; [done|split; [done|split; [done|]]]]].
  - unfold init_request_map. rewrite Hac. cbn [negb andb Z.leb Z.compare request_map]. rewrite Hc1, Hr1. cbn [negb obind].
    cbn [server_find default from_option id get_server_flag get_key_count get_key get_key_list]. change (default server _) with server. rewrite E1. cbn [obind request_map server_insert].
    rewrite Hc2, Hr2. cbn [negb obind]. change (default server _) with server. cbn [server_find]. rewrite Z.eqb_refl.
    cbn [default from_option id get_server_flag get_key_count get_key get_key_list]. rewrite E2. cbn [obind request_map server_insert].
    by rewrite Z.ltb_irrefl.
  - apply Forall_map, list.Forall_forall. intros e [->|He%list_elem_of_singleton]%set_insert_elem.
    + split; [done|]. by rewrite Hd2.
    + subst e. split; [done|]. by rewrite Hd1.
Qed.

(** C13: a client that asks a server for several keys aborts when the server has
    none of them.  For two different keys with the same first server, which works and has
    neither, the answer that arrives has the code of a partial success and no
    map of values, and the assertion that there is one stops the client. *)
Theorem mget_of_absent_keys_aborts (tc : tair_client) (c : cluster St) (area : Z) (k1 k2 : data_entry)
    (found : list (data_entry * data_entry)) (server : Z) (r1 r2 : list Z) (ds : data_server St)
    (st : gmap (list Z) entry) (next : list choice) (rest : list (list choice)) :
  can_wait tc -> owned k1 -> owned k2 -> key_entry_check k1 = true -> key_entry_check k2 = true ->
  area_check area = true -> get_data k1 <> get_data k2 -> server <> 0 ->
  get_server_id k1 tc = Ret (server :: r1) -> get_server_id k2 tc = Ret (server :: r2) ->
  cs_servers c !! server = Some ds -> server_serves ds st ->
  st !! area_key area (get_data k1) = None -> st !! area_key area (get_data k2) = None ->
  cs_flights c = [] -> cs_schedule c = (Deliver 0 :: Deliver 0 :: next) :: rest ->
  mget uncompress area [k1; k2] found (tc, c) = Abort.
Proof.
  intros Hw Ho1 Ho2 Hc1 Hc2 Hac D H0 Hr1 Hr2 Hl Hs Hn1 Hn2 Hfl Hsch.
  destruct (two_keys_request tc area k1 k2 server r1 r2 st) as (g & l & Ei & Eg & Ea & Hn & Hkl & Hk); try done.
  destruct (server_has_none server 0 (next_wait tc) l (request_get_received g) ds st) as (ds' & Eh); [done|done|by rewrite <- Ea in Hk|done|].
  destruct (exchange uninit remote_sync arrange c server ds ds' (General (REQ_GET g)) (General (RESP_GET (mk_response_get
    (ds_client_version ds) TAIR_RETURN_PARTIAL_SUCCESS 0 None None None))) (next_wait tc) next rest 1 (cl_timeout tc) Hfl Hsch Hl)
    as (c1 & more & c2 & Es & Ear).
  { unfold on_request. change (received_of (General (REQ_GET g))) with (General (REQ_GET (request_get_received g))). by rewrite Eh. }
  destruct (ask_all_one uncompress server (General (REQ_GET g)) tc c c1 c2 _ (General (RESP_GET (mk_response_get
    (ds_client_version ds) TAIR_RETURN_PARTIAL_SUCCESS 0 None None None))) (packets_for (next_wait tc) more) H0 Hw Es Ear) as (tc1 & E);
    [unfold packets_for; cbn [omap list_omap]; by rewrite Z.eqb_refl|].
  unfold mget, mget_impl. step_with (eq_refl : get_client (tc, c) = Ret (tc, (tc, c))). step_with (slift_run _ _ (tc, c) Ei).
  cbn [map fst snd]. step_with E. done.
Qed.
End absent.

(** Two keys that a fresh server does not have *)
Lemma mget_of_absent_keys_aborts_witness :
  exists e, @mget _ (cluster_network 0 false (fun l => l)) (fun _ _ => None) 3 [demo_key; demo_data] []
      (demo_client, demo_cluster e [[Deliver 0; Deliver 0]]) = Abort.
Proof.
  destruct started_serves as (e & _ & Hs & _). exists e. destruct demo_owned as [Hk Hd].
  eapply (@mget_of_absent_keys_aborts mdb_manager demo_storage (mdb_laws (fun _ _ _ => 0) zero_meta) mdb_timed 0 false (fun l => l) (fun _ _ => None) demo_client
            (demo_cluster e [[Deliver 0; Deliver 0]]) 3 demo_key demo_data [] 1 [2; 3] [2; 3] (demo_data_server e) ∅ [] []);
    try done; try (by vm_compute).
Defined.
