(* ===== verification/FdbFile.v ===== *)
(** * The files of the disk engine (storage/fdb/file_op.cpp, mmap_file.hpp,
      free_blocks_manager.cpp)

    [file C] is a [file_operation] on an open file with the contents [C]: its
    length and, when it is mapped, the size of the mapping.  Reads and writes
    that lie in the mapping go through it, the others to the file; what is
    mapped and what is in the file are the same bytes.  Whether the kernel can
    grow a mapping in place ([mremap_ok]) and whether a read of the file or a
    write to it succeeds ([read_ok], [write_ok], by offset and size) are
    arguments.

    [free_blocks_manager] keeps the extents of the data file that are free. *)

From S2P Require Import Prelude.

(** ** Files *)

Record file (C : Type) := mk_file { content : C; file_size : Z; mapped : Z; max_size : Z }.
Arguments mk_file {C}. Arguments content {C}. Arguments file_size {C}. Arguments mapped {C}. Arguments max_size {C}.

Definition MB_SIZE : Z := 2 ^ 20.

Section file.
Context {C : Type} (mremap_ok : Z -> bool) (read_ok write_ok : Z -> Z -> bool).

(** [mmap_file::map_file] *)
Definition map_file (map_size : Z) (f : file C) : option (file C) :=
  if map_size =? 0 then None
  else
    let n := if map_size <=? 1024 * MB_SIZE then map_size else 1 * MB_SIZE in
    Some (mk_file (content f) (Z.max (file_size f) n) n map_size).
(** [file_operation::mmap] *)
Definition file_mmap (map_size : Z) (f : file C) : bool * file C :=
  if map_size =? 0 then (true, f)
  else if 0 <? mapped f then (true, f)
  else match map_file map_size f with Some f' => (true, f') | None => (false, f) end.
(** [mmap_file::remap] *)
Definition remap (f : file C) : file C :=
  if mapped f =? max_size f then f
  else
    let new_size := Z.min (mapped f * 2) (max_size f) in
    mk_file (content f) (Z.max (file_size f) new_size) (if mremap_ok new_size then new_size else mapped f) (max_size f).
(** The mapping is grown once when it does not reach as far as needed. *)
Definition reach (n : Z) (f : file C) : file C :=
  if (0 <? mapped f) && (mapped f <? n) then remap f else f.

(** [pread] and [pwrite], with [get] and [put] for what they move *)
Definition file_pread {A} (get : C -> A) (size offset : Z) (f : file C) : option A * file C :=
  let f := reach (offset + size) f in
  if offset + size <=? mapped f then (Some (get (content f)), f)
  else if (offset + size <=? file_size f) && read_ok offset size then (Some (get (content f)), f) else (None, f).
Definition file_pwrite (put : C -> C) (size offset : Z) (f : file C) : bool * file C :=
  let f := reach (offset + size) f in
  if offset + size <=? mapped f then (true, mk_file (put (content f)) (file_size f) (mapped f) (max_size f))
  else if write_ok offset size then
    (true, mk_file (put (content f)) (Z.max (file_size f) (offset + size)) (mapped f) (max_size f))
  else (false, f).
End file.

(** A file of bytes; what lies between the end and the place of a write is
    zero. *)
Definition bytes_at (offset size : Z) (l : list Z) : list Z := take (Z.to_nat size) (drop (Z.to_nat offset) l).
Definition put_bytes (b : list Z) (offset : Z) (l : list Z) : list Z :=
  let o := Z.to_nat offset in
  resize o 0 l ++ b ++ drop (o + length b) l.

Lemma length_put_bytes b offset l :
  0 <= offset -> Z.of_nat (length (put_bytes b offset l)) = Z.max (Z.of_nat (length l)) (offset + Z.of_nat (length b)).
Proof. intros Ho. unfold put_bytes. rewrite !length_app, length_resize, length_drop. lia. Qed.

(** What is read where nothing has been written *)
Lemma bytes_at_put_other b offset l o n :
  0 <= offset -> 0 <= o -> 0 <= n -> o + n <= Z.of_nat (length l) ->
  o + n <= offset \/ offset + Z.of_nat (length b) <= o ->
  bytes_at o n (put_bytes b offset l) = bytes_at o n l.
Proof.
  intros H1 H2 H3 H4 H5. unfold bytes_at, put_bytes. apply list_eq. intros i.
  destruct (decide (i < Z.to_nat n)%nat) as [Hi|Hi]; [|by rewrite !lookup_take_ge by lia].
  rewrite !lookup_take_lt, !lookup_drop by done. destruct H5 as [H5|H5].
  - rewrite lookup_app_l by (rewrite length_resize; lia). rewrite lookup_resize by lia.
    done.
  - rewrite lookup_app_r by (rewrite length_resize; lia). rewrite length_resize, lookup_app_r by lia.
    rewrite lookup_drop. f_equal. lia.
Qed.

(** What is read of what has just been written *)
Lemma bytes_at_put b offset l o n :
  0 <= offset -> offset <= o -> 0 <= n -> o + n <= offset + Z.of_nat (length b) ->
  bytes_at o n (put_bytes b offset l) = bytes_at (o - offset) n b.
Proof.
  intros H1 H2 H3 H4. unfold bytes_at, put_bytes. apply list_eq. intros i.
  destruct (decide (i < Z.to_nat n)%nat) as [Hi|Hi]; [|by rewrite !lookup_take_ge by lia].
  rewrite !lookup_take_lt, !lookup_drop by done. rewrite lookup_app_r by (rewrite length_resize; lia).
  rewrite length_resize, lookup_app_l by lia. f_equal. lia.
Qed.

(** ** Free extents *)

Record free_block := mk_free_block { fb_size : Z; fb_offset : Z }.

(** [free_pool] is the array in the index file; the multimap is in the order of
    the sizes, equal ones in the order in which they came; the back of
    [available_pos] is its head here. *)
Record free_blocks_manager := mk_free_blocks_manager {
  free_pool : list free_block;
  free_blocks_map : list (free_block * Z);
  available_pos : list Z
}.

Fixpoint multimap_insert (b : free_block) (i : Z) (m : list (free_block * Z)) : list (free_block * Z) :=
  match m with
  | [] => [(b, i)]
  | (b', i') :: m' => if fb_size b <? fb_size b' then (b, i) :: m else (b', i') :: multimap_insert b i m'
  end.

Definition pool_set (i : Z) (b : free_block) (pool : list free_block) : list free_block := <[Z.to_nat i := b]> pool.
Definition no_block : free_block := mk_free_block 0 0.

(** [remove_block(it)] *)
Definition remove_block (b : free_block) (i : Z) (rest : list (free_block * Z)) (m : free_blocks_manager)
    : free_blocks_manager :=
  mk_free_blocks_manager (pool_set i (mk_free_block 0 (fb_offset b)) (free_pool m)) rest (i :: available_pos m).

(** The constructor: a new pool is empty, an old one is read. *)
Fixpoint load_blocks (i : Z) (pool : list free_block) (m : list (free_block * Z)) (available : list Z)
    : list (free_block * Z) * list Z :=
  match pool with
  | [] => (m, available)
  | b :: rest =>
      if fb_size b =? 0 then load_blocks (i + 1) rest m (i :: available)
      else load_blocks (i + 1) rest (multimap_insert b i m) available
  end.
Definition new_free_blocks_manager (pool : list free_block) (max_block_size : Z) : free_blocks_manager :=
  let pool := if 0 <? max_block_size then replicate (Z.to_nat max_block_size) no_block else pool in
  let '(m, available) := load_blocks 0 pool [] [] in
  mk_free_blocks_manager pool m available.

(** [insert]: the smallest block goes when there is no place. *)
Definition insert_block (block : free_block) (m : free_blocks_manager) : outcome free_blocks_manager :=
  if fb_size block <=? 0 then Ret m
  else
    let! m := match available_pos m, free_blocks_map m with
              | [], (b, i) :: rest => Ret (remove_block b i rest m)
              | [], [] => Overrun
              | _, _ => Ret m
              end in
    match available_pos m with
    | [] => Overrun
    | index :: rest =>
        Ret (mk_free_blocks_manager (pool_set index block (free_pool m)) (multimap_insert block index (free_blocks_map m)) rest)
    end.

(** [search]: the first block that is large enough *)
Fixpoint lower_bound (size : Z) (m : list (free_block * Z)) : option (list (free_block * Z) * (free_block * Z) * list (free_block * Z)) :=
  match m with
  | [] => None
  | (b, i) :: m' =>
      if size <=? fb_size b then Some ([], (b, i), m')
      else match lower_bound size m' with
           | Some (before, x, after) => Some ((b, i) :: before, x, after)
           | None => None
           end
  end.
Definition search_block (size : Z) (m : free_blocks_manager) : option free_block * free_blocks_manager :=
  match lower_bound size (free_blocks_map m) with
  | None => (None, m)
  | Some (before, (b, i), after) => (Some b, remove_block b i (before ++ after) m)
  end.
