(* ===== verification/FdbItems.v ===== *)
(** * The items of the disk engine (storage/fdb/fdb_item.hpp,
      fdb_item_manager.cpp)

    A bucket is two files.  The index file starts with a header, an array of
    roots and the pool of free extents, which the program reaches through
    pointers into the mapping, and goes on with records of 24 bytes, the nodes
    of binary search trees ([item_index]); the data file has the keys, values
    and metadata as bytes.  The index file's records are modelled by their
    offsets, the data file byte by byte. *)

From S2P Require Import Prelude DataBuffer Util DataEntry MemPool MdbItem MemCache MdbManager TableManager Storage TairManager FdbFile.

Definition FDB_ITEM_META_SIZE : Z := 24.
Definition FDB_ITEM_DATA_SIZE : Z := sizeof_item_meta_info.
Definition FDB_BUCKET_NUMBER : Z := 10223.
Definition DBHEADER_MAGIC_SIZE : Z := 16.
Definition DATA_PADDING_SIZE : Z := 128.
Definition TAIR_DATA_MAGIC_NUMBER : Z := 0xAC9B.
Definition FREEBLOCK_SIZE : Z := 8.

(** A node: [size] has 24 bits and [offset] 40. *)
Record item_index := mk_item_index { left_ : Z; right_ : Z; ix_size : Z; ix_offset : Z; ix_hashcode : Z }.
Definition zero_index : item_index := mk_item_index 0 0 0 0 0.

Record fdb_item := mk_fdb_item {
  meta_offset : Z; bucket_index : Z; parent_off : Z; is_right : bool; is_new : bool;
  fmeta : item_index; fdata : item_meta_info; fkey : list Z; fvalue : list Z
}.
Definition new_fdb_item : fdb_item := mk_fdb_item 0 0 0 false false zero_index zero_meta [] [].
Definition set_fmeta (m : item_index) (i : fdb_item) : fdb_item :=
  mk_fdb_item (meta_offset i) (bucket_index i) (parent_off i) (is_right i) (is_new i) m (fdata i) (fkey i) (fvalue i).
Definition set_fdata (d : item_meta_info) (i : fdb_item) : fdb_item :=
  mk_fdb_item (meta_offset i) (bucket_index i) (parent_off i) (is_right i) (is_new i) (fmeta i) d (fkey i) (fvalue i).
Definition set_meta_offset (o : Z) (i : fdb_item) : fdb_item :=
  mk_fdb_item o (bucket_index i) (parent_off i) (is_right i) (is_new i) (fmeta i) (fdata i) (fkey i) (fvalue i).
Definition set_left (o : Z) (m : item_index) : item_index := mk_item_index o (right_ m) (ix_size m) (ix_offset m) (ix_hashcode m).
Definition set_right (o : Z) (m : item_index) : item_index := mk_item_index (left_ m) o (ix_size m) (ix_offset m) (ix_hashcode m).
Definition set_extent (size offset : Z) (m : item_index) : item_index :=
  mk_item_index (left_ m) (right_ m) (wrap 24 size) (wrap 40 offset) (ix_hashcode m).

(** [tair_pstat], and the header without its constant magic *)
Record tair_pstat := mk_tair_pstat { ps_data_size : Z; ps_use_size : Z; ps_item_count : Z }.
Record db_header := mk_db_header {
  fb_power : Z; item_count : Z; idx_file_size : Z; dat_file_size : Z; free_idx_head : Z; stat : list tair_pstat
}.
Definition sizeof_tair_pstat : Z := 24.
Definition DBHEADER_SIZE : Z := 48 + TAIR_MAX_AREA_COUNT * sizeof_tair_pstat.

Record fdb_store := mk_fdb_store {
  index_file : file (gmap Z item_index);
  data_file : file (list Z);
  fb_manager : free_blocks_manager;
  header : db_header;
  buckets : list Z
}.
Definition set_index (f : file (gmap Z item_index)) (s : fdb_store) : fdb_store :=
  mk_fdb_store f (data_file s) (fb_manager s) (header s) (buckets s).
Definition set_data_file (f : file (list Z)) (s : fdb_store) : fdb_store :=
  mk_fdb_store (index_file s) f (fb_manager s) (header s) (buckets s).
Definition set_fb_manager (m : free_blocks_manager) (s : fdb_store) : fdb_store :=
  mk_fdb_store (index_file s) (data_file s) m (header s) (buckets s).
Definition set_header (h : db_header) (s : fdb_store) : fdb_store :=
  mk_fdb_store (index_file s) (data_file s) (fb_manager s) h (buckets s).
Definition set_buckets (b : list Z) (s : fdb_store) : fdb_store :=
  mk_fdb_store (index_file s) (data_file s) (fb_manager s) (header s) b.
Definition set_idx_file_size (n : Z) (h : db_header) : db_header :=
  mk_db_header (fb_power h) (item_count h) (u32 n) (dat_file_size h) (free_idx_head h) (stat h).
Definition set_dat_file_size (n : Z) (h : db_header) : db_header :=
  mk_db_header (fb_power h) (item_count h) (idx_file_size h) (u64 n) (free_idx_head h) (stat h).
Definition set_free_idx_head (n : Z) (h : db_header) : db_header :=
  mk_db_header (fb_power h) (item_count h) (idx_file_size h) (dat_file_size h) n (stat h).
Definition set_stat (l : list tair_pstat) (h : db_header) : db_header :=
  mk_db_header (fb_power h) (item_count h) (idx_file_size h) (dat_file_size h) (free_idx_head h) l.

Abbreviation fdbM := (stM fdb_store).

(** What the kernel decides: whether mappings grow, and whether reads of the two
    files and writes to them succeed *)
Record system := mk_system {
  mremap_ok : Z -> bool;
  index_read_ok : Z -> Z -> bool; data_read_ok : Z -> Z -> bool;
  index_write_ok : Z -> Z -> bool; data_write_ok : Z -> Z -> bool
}.

Section items.
Context (sys : system).

(** ** Records and data *)

Definition read_meta (offset : Z) : fdbM (option item_index) := fun s =>
  let '(r, f) := file_pread (mremap_ok sys) (index_read_ok sys) (fun c => default zero_index (c !! offset)) FDB_ITEM_META_SIZE offset (index_file s) in
  Ret (r, set_index f s).
Definition pwrite_meta (offset : Z) (m : item_index) : fdbM bool := fun s =>
  let '(rc, f) := file_pwrite (mremap_ok sys) (index_write_ok sys) (<[offset := m]>) FDB_ITEM_META_SIZE offset (index_file s) in
  Ret (rc, set_index f s).
Definition set_bucket (i off : Z) : fdbM unit := fun s =>
  let! b := set_at (buckets s) i off in Ret (tt, set_buckets b s).

(** A new item is linked to its parent, or to its bucket. *)
Definition write_meta (old_item : fdb_item) : fdbM bool :=
  need* 0 <? meta_offset old_item in
  let* rc := pwrite_meta (meta_offset old_item) (fmeta old_item) in
  if rc && is_new old_item then
    if 0 <? parent_off old_item then
      let* parent := read_meta (parent_off old_item) in
      match parent with
      | None => sret false
      | Some parent =>
          pwrite_meta (parent_off old_item)
            (if is_right old_item then set_right (meta_offset old_item) parent else set_left (meta_offset old_item) parent)
      end
    else let* _ := set_bucket (bucket_index old_item) (meta_offset old_item) in sret rc
  else sret rc.

Definition pread_data (size offset : Z) : fdbM (option (list Z)) :=
  need* negb (size =? 0) in fun s =>
  let '(r, f) := file_pread (mremap_ok sys) (data_read_ok sys) (bytes_at offset size) size offset (data_file s) in
  Ret (r, set_data_file f s).
Definition pwrite_data (b : list Z) (offset : Z) : fdbM bool := fun s =>
  let '(rc, f) := file_pwrite (mremap_ok sys) (data_write_ok sys) (put_bytes b offset) (Z.of_nat (length b)) offset (data_file s) in
  Ret (rc, set_data_file f s).

(** [read_data] for the three parts of an item *)
Definition read_data_meta (m : item_index) : fdbM (option item_meta_info) :=
  let* r := pread_data FDB_ITEM_DATA_SIZE (ix_offset m) in sret (meta_of_raw <$> r).
Definition read_data_key (m : item_index) (d : item_meta_info) : fdbM (option (list Z)) :=
  pread_data (keysize d) (ix_offset m + FDB_ITEM_DATA_SIZE).
Definition read_data_value (m : item_index) (d : item_meta_info) : fdbM (option (list Z)) :=
  pread_data (valsize d) (ix_offset m + FDB_ITEM_DATA_SIZE + keysize d).

(** The buffer that is written for an item *)
Definition with_magic (d : item_meta_info) : item_meta_info :=
  mk_item_meta_info TAIR_DATA_MAGIC_NUMBER 0 (keysize d) (mversion d) (padsize d) (valsize d) (flag d) (cdate d) (mdate d) (edate d).
Definition item_buffer (old_item : fdb_item) : outcome (list Z) :=
  let d := fdata old_item in
  let b := meta_raw (with_magic d) ++ take (Z.to_nat (keysize d)) (fkey old_item)
           ++ take (Z.to_nat (valsize d)) (fvalue old_item) in
  if ix_size (fmeta old_item) <? Z.of_nat (length b) then Overrun
  else Ret (resize (Z.to_nat (ix_size (fmeta old_item))) 0 b).
Definition write_data (old_item : fdb_item) : fdbM (bool * fdb_item) :=
  need* 0 <? ix_offset (fmeta old_item) in
  let* b := slift (item_buffer old_item) in
  let* rc := pwrite_data b (ix_offset (fmeta old_item)) in
  sret (rc, set_fdata (with_magic (fdata old_item)) old_item).

(** ** Items *)

(** The walk down the tree of a bucket; [hash] is the key's. *)
Fixpoint find_item (fuel : nat) (key : data_entry) (ret_item : fdb_item) (off parent : Z) (right_side : bool)
    : fdbM (Z * fdb_item) :=
  match fuel with
  | O => slift Diverge
  | S fuel' =>
      let at_place (i : fdb_item) := mk_fdb_item (meta_offset i) (bucket_index i) parent right_side (is_new i) (fmeta i) (fdata i)
                                       (fkey i) (fvalue i) in
      if negb (0 <? off) then sret (TAIR_RETURN_DATA_NOT_EXIST, at_place ret_item)
      else
        let* temp := read_meta off in
        match temp with
        | None => sret (TAIR_RETURN_FAILED, ret_item)
        | Some m =>
            let go_right := find_item fuel' key ret_item (right_ m) off true in
            let go_left := find_item fuel' key ret_item (left_ m) off false in
            if ix_hashcode m <? ix_hashcode (fmeta ret_item) then go_right
            else if ix_hashcode (fmeta ret_item) <? ix_hashcode m then go_left
            else
              let* d := read_data_meta m in
              match d with
              | None => sret (TAIR_RETURN_FAILED, ret_item)
              | Some d =>
                  if keysize d <? get_size key then go_right
                  else if get_size key <? keysize d then go_left
                  else
                    let* k := read_data_key m d in
                    match k with
                    | None => sret (TAIR_RETURN_FAILED, ret_item)
                    | Some k =>
                        match memcmp (get_data key) k (Z.to_nat (get_size key)) with
                        | Gt => go_right
                        | Lt => go_left
                        | Eq =>
                            let ret_item := at_place (set_meta_offset off (set_fmeta m (set_fdata d ret_item))) in
                            let* v := read_data_value m d in
                            match v with
                            | None => sret (TAIR_RETURN_FAILED, ret_item)
                            | Some v =>
                                sret (TAIR_RETURN_SUCCESS,
                                      mk_fdb_item (meta_offset ret_item) (bucket_index ret_item) (parent_off ret_item)
                                        (is_right ret_item) (is_new ret_item) (fmeta ret_item) (fdata ret_item) (fkey ret_item) v)
                            end
                        end
                    end
              end
        end
  end.
(** The fuel is one turn more than the file has records. *)
Definition get_item (key : data_entry) (ret_item : fdb_item) : fdbM (Z * fdb_item) := fun s =>
  (let* off := slift (at_ (buckets s) (bucket_index ret_item)) in
   find_item (S (base.size (content (index_file s)))) key ret_item off 0 false) s.

Definition update_item (up_item : fdb_item) : fdbM (Z * fdb_item) :=
  let* rc := write_meta up_item in
  if negb rc then sret (TAIR_RETURN_FAILED, up_item)
  else
    let* (rc, up_item) := write_data up_item in
    sret (if rc : bool then TAIR_RETURN_SUCCESS else TAIR_RETURN_FAILED, up_item).

(** The node from which [right] leads no further; a failed read leaves the
    record as it was. *)
Fixpoint rightmost (fuel : nat) (off : Z) (m : item_index) : fdbM (Z * item_index) :=
  match fuel with
  | O => slift Diverge
  | S fuel' =>
      if 0 <? right_ m then
        let* r := read_meta (right_ m) in
        rightmost fuel' (right_ m) (default m r)
      else sret (off, m)
  end.

Definition meta_item (off : Z) (m : item_index) : fdb_item := set_meta_offset off (set_fmeta m new_fdb_item).
(** The left subtree takes the place of the item, with the right one at the
    end of its right spine. *)
Definition joined_children (m : item_index) : fdbM Z :=
  let l := left_ m in
  let r := right_ m in
  if (0 <? l) && (r <? 1) then sret l
  else if (l <? 1) && (0 <? r) then sret r
  else if (l <? 1) && (r <? 1) then sret 0
  else
    let* s := sget in
    let* (off, m) := rightmost (S (base.size (content (index_file s)))) 0 (set_right l zero_index) in
    let* _ := write_meta (meta_item off (set_right r m)) in
    sret l.
Definition relink_parent (old_item : fdb_item) (child_off : Z) : fdbM unit :=
  if 0 <? parent_off old_item then
    let* p := read_meta (parent_off old_item) in
    let p := default zero_index p in
    let* _ := write_meta (meta_item (parent_off old_item)
                (if is_right old_item then set_right (u32 child_off) p else set_left (u32 child_off) p)) in
    sret tt
  else set_bucket (bucket_index old_item) (u32 child_off).
Definition free_meta (old_item : fdb_item) : fdbM unit :=
  let* child_off := joined_children (fmeta old_item) in
  let* _ := relink_parent old_item child_off in
  let* s := sget in
  let fitem := meta_item (meta_offset old_item) (set_left (free_idx_head (header s)) zero_index) in
  let* _ := smodify (set_header (set_free_idx_head (meta_offset old_item) (header s))) in
  let* _ := write_meta fitem in
  sret tt.

Definition deleted_data (d : item_meta_info) : item_meta_info :=
  mk_item_meta_info (magic d) (checksum d) (keysize d) (mversion d) (padsize d) (valsize d) TAIR_ITEM_FLAG_DELETED (cdate d)
    (mdate d) (edate d).
Definition free_data (old_item : fdb_item) : fdbM fdb_item :=
  let* s := sget in
  let* m := slift (insert_block (mk_free_block (ix_size (fmeta old_item)) (ix_offset (fmeta old_item))) (fb_manager s)) in
  let* _ := smodify (set_fb_manager m) in
  let old_item := set_fdata (deleted_data (fdata old_item)) old_item in
  let* _ := pwrite_data (meta_raw (fdata old_item)) (ix_offset (fmeta old_item)) in
  sret old_item.
Definition free_item (old_item : fdb_item) : fdbM fdb_item :=
  let* _ := free_meta old_item in free_data old_item.

(** Room for the data: a free extent, taken whole, or the end of the file *)
Definition new_data (ret_item : fdb_item) : fdbM fdb_item :=
  let* s := sget in
  let m := fmeta ret_item in
  let '(b, fb) := search_block (ix_size m) (fb_manager s) in
  match b with
  | Some b =>
      let* _ := smodify (set_fb_manager fb) in
      sret (set_fmeta (set_extent (fb_size b) (fb_offset b) m) ret_item)
  | None =>
      let h := header s in
      let* _ := smodify (set_header (set_dat_file_size (dat_file_size h + ix_size m) h)) in
      sret (set_fmeta (set_extent (ix_size m) (dat_file_size h) m) ret_item)
  end.
(** Room for the record: a free one, or the end of the file *)
Definition new_item (ret_item : fdb_item) : fdbM fdb_item :=
  let* s := sget in
  let h := header s in
  let* off :=
    (if negb (free_idx_head h =? 0) then
       let* m := read_meta (free_idx_head h) in
       match m with
       | Some m =>
           if ix_size m =? 0 then
             let* s := sget in
             let* _ := smodify (set_header (set_free_idx_head (left_ m) (header s))) in sret (free_idx_head h)
           else sret 0
       | None => sret 0
       end
     else sret 0) in
  let* off :=
    (if off =? 0 then
       let* s := sget in
       let* _ := smodify (set_header (set_idx_file_size (idx_file_size (header s) + FDB_ITEM_META_SIZE) (header s))) in
       sret (idx_file_size (header s))
     else sret off) in
  new_data (set_meta_offset off ret_item).

(** ** Statistics *)

Definition stat_change (area : Z) (f : tair_pstat -> tair_pstat) : fdbM unit :=
  need* area <? TAIR_MAX_AREA_COUNT in fun s =>
  if (area <? 0) || (Z.of_nat (length (stat (header s))) <=? area) then Overrun
  else Ret (tt, set_header (set_stat (alter f (Z.to_nat area) (stat (header s))) (header s)) s).
Definition stat_add (area data_size use_size : Z) : fdbM unit :=
  stat_change area (fun p => mk_tair_pstat (u64 (ps_data_size p + data_size)) (u64 (ps_use_size p + use_size)) (u64 (ps_item_count p + 1))).
Definition stat_sub (area data_size use_size : Z) : fdbM unit :=
  stat_change area (fun p => mk_tair_pstat (u64 (ps_data_size p - data_size)) (u64 (ps_use_size p - use_size)) (u64 (ps_item_count p - 1))).
Definition fdb_get_stat : fdbM (list tair_pstat) := fun s => Ret (stat (header s), s).

(** ** Opening the files *)

(** What comes before the records: the header, the roots and the pool *)
Definition index_head_size (power : Z) : Z := DBHEADER_SIZE + FDB_BUCKET_NUMBER * 4 + 2 * 4 + Z.shiftl 1 power * FREEBLOCK_SIZE.

(** The statistics' constructor has cleared them. *)
Definition dump_default_db_header (power : Z) : db_header :=
  mk_db_header power 0 (index_head_size power) DBHEADER_MAGIC_SIZE 0 (replicate (Z.to_nat TAIR_MAX_AREA_COUNT) (mk_tair_pstat 0 0 0)).

(** The mapping, through whose pointers what comes before the records is reached *)
Definition map_index (map_size power : Z) (f : file (gmap Z item_index)) : outcome (file (gmap Z item_index)) :=
  let '(ok, f) := file_mmap (map_size * MB_SIZE) f in
  if negb ok then Fail else if index_head_size power <=? mapped f then Ret f else Overrun.

(** TAIR_DAT_200 *)
Definition DATA_MAGIC : list Z := [84; 65; 73; 82; 95; 68; 65; 84; 95; 50; 48; 48].

(** [initialize] on the two files of a bucket that has not been opened before;
    [Fail] is INIT_FAILED.  [stack] is what lies behind the magic of the data
    file; the size of the mapping in bytes is within an int. *)
Definition initialize_new (power map_size : Z) (stack : list Z) : outcome fdb_store :=
  let h := dump_default_db_header power in
  let '(ok, index) := file_pwrite (mremap_ok sys) (index_write_ok sys) (fun c : gmap Z item_index => c) (idx_file_size h) 0
                        (mk_file ∅ 0 0 0) in
  if negb ok then Fail
  else
    let '(ok, data) := file_pwrite (mremap_ok sys) (data_write_ok sys) (put_bytes (DATA_MAGIC ++ 0 :: stack) 0) DBHEADER_MAGIC_SIZE 0
                         (mk_file [] 0 0 0) in
    if negb ok then Fail
    else
      let! index := map_index map_size power index in
      Ret (mk_fdb_store index data (new_free_blocks_manager [] (Z.shiftl 1 power)) h (replicate (Z.to_nat FDB_BUCKET_NUMBER) 0)).

(** [initialize] on the files of a bucket that has been: the mapping is made
    anew, and the free extents are read from their array. *)
Definition initialize_old (map_size : Z) (s : fdb_store) : outcome fdb_store :=
  let i := index_file s in
  let d := data_file s in
  let! index := map_index map_size (fb_power (header s)) (mk_file (content i) (file_size i) 0 0) in
  Ret (mk_fdb_store index (mk_file (content d) (file_size d) 0 0) (new_free_blocks_manager (free_pool (fb_manager s)) 0)
         (header s) (buckets s)).
End items.
