(* ===== verification/FdbBucket.v ===== *)
(** * A bucket of the disk engine (storage/fdb/fdb_bucket.cpp)

    put, get and remove on the two files of a bucket.  The clock ([now]) is an
    argument; the locks, one per tree, are taken and released within each
    operation and are not modelled. *)

From S2P Require Import Prelude DataBuffer Util DataEntry MemPool MdbItem MemCache MdbManager TableManager Storage TairManager FdbFile FdbItems.

Section bucket.
Context (sys : system) (now : Z).

Definition pad_size (data_size : Z) : Z :=
  let psize := Z.rem data_size DATA_PADDING_SIZE in
  if psize =? 0 then psize else DATA_PADDING_SIZE - psize.
Definition is_item_expired (item : fdb_item) : bool :=
  negb (edate (fdata item) =? 0) && (edate (fdata item) <? u32 now).

(** The item an operation starts with *)
Definition item_for (key : data_entry) : fdb_item * data_entry :=
  let '(h, key) := get_hashcode key in
  (mk_fdb_item 0 (h mod FDB_BUCKET_NUMBER) 0 false false (mk_item_index 0 0 0 0 h) zero_meta [] [], key).

(** [data_size - (item.meta.size - item.data.padsize)], an unsigned difference
    taken for an int *)
Definition data_size_change (data_size : Z) (item : fdb_item) : Z :=
  s32 (data_size - (ix_size (fmeta item) - padsize (fdata item))).

(** The dates of a put before it looks for an old item *)
Definition put_dates (key : data_entry) (version_care : bool) (expire_time : Z) : Z * Z * Z :=
  let expire_time := u32 expire_time in
  if (cdate (data_meta key) =? 0) || version_care then
    let mdate := s32 now in
    (mdate, mdate, if 0 <? expire_time then s32 (if u32 mdate <? expire_time then expire_time else mdate + expire_time) else 0)
  else (s32 (cdate (data_meta key)), s32 (mdate (data_meta key)), s32 (edate (data_meta key))).

(** An old item found: its version is checked unless it has expired, and it
    keeps its extent when that is large enough. *)
Definition put_over (key : data_entry) (version_care : bool) (data_size total_size cdate0 : Z) (item : fdb_item)
    : fdbM (option (fdb_item * Z * Z * Z)) :=
  let live := negb (is_item_expired item) in
  if live && (version_care && negb (get_version key =? 0) && negb (get_version key =? mversion (fdata item))) then sret None
  else
    let created := if live then s32 (cdate (fdata item)) else cdate0 in
    let stat_data_size := data_size_change data_size item in
    if ix_size (fmeta item) <? total_size then
      let stat_use_size := s32 (total_size - ix_size (fmeta item)) in
      let* item := free_data sys item in
      let m := fmeta item in
      let* item := new_data (set_fmeta (mk_item_index (left_ m) (right_ m) (wrap 24 total_size) (ix_offset m) (ix_hashcode m)) item) in
      sret (Some (item, created, stat_data_size, stat_use_size))
    else sret (Some (item, created, stat_data_size, 0)).
(** Anything else than an old item found *)
Definition put_fresh (data_size total_size cdate0 : Z) (item : fdb_item) : fdbM (option (fdb_item * Z * Z * Z)) :=
  let m := fmeta item in
  let* item := new_item sys (mk_fdb_item (meta_offset item) (bucket_index item) (parent_off item) (is_right item) true
                               (mk_item_index (left_ m) (right_ m) (wrap 24 total_size) (ix_offset m) (ix_hashcode m))
                               (fdata item) (fkey item) (fvalue item)) in
  sret (Some (item, cdate0, s32 (data_size + FDB_ITEM_META_SIZE), s32 (total_size + FDB_ITEM_META_SIZE))).

(** The item as it is written *)
Definition put_item (key value : data_entry) (version_care : bool) (psize cdate mdate edate : Z) (item : fdb_item) : fdb_item :=
  mk_fdb_item (meta_offset item) (bucket_index item) (parent_off item) (is_right item) (is_new item) (fmeta item)
    (mk_item_meta_info (magic (fdata item)) (checksum (fdata item)) (u16 (get_size key))
       (if version_care then u16 (mversion (fdata item) + 1) else get_version key)
       (u32 psize) (wrap 24 (get_size value)) (flag (data_meta value)) (u32 cdate) (u32 mdate) (u32 edate))
    (get_data key) (get_data value).

(** The item is written, and counted when that has succeeded. *)
Definition put_commit (key value : data_entry) (version_care : bool) (psize total_size mdate edate : Z) (r : fdb_item * Z * Z * Z)
    : fdbM (Z * data_entry) :=
  let '(item, cdate, stat_data_size, stat_use_size) := r in
  let psize := psize + (ix_size (fmeta item) - total_size) in
  let* (rc, item) := update_item sys (put_item key value version_care psize cdate mdate edate item) in
  let key := set_meta (fdata item) key in
  let* _ := (if rc =? TAIR_RETURN_SUCCESS then stat_add (s32 (area key)) stat_data_size stat_use_size else sret tt) in
  sret (rc, key).

Definition bucket_put (key value : data_entry) (version_care : bool) (expire_time : Z) : fdbM (Z * data_entry) :=
  let '(item, key) := item_for key in
  let data_size := get_size key + get_size value + FDB_ITEM_DATA_SIZE in
  let psize := pad_size data_size in
  let total_size := data_size + psize in
  let '(cdate, mdate, edate) := put_dates key version_care expire_time in
  let* (rc, item) := get_item sys key item in
  let* r := (if rc =? TAIR_RETURN_SUCCESS then put_over key version_care data_size total_size cdate item
             else put_fresh data_size total_size cdate item) in
  match r with
  | None => sret (TAIR_RETURN_VERSION_ERROR, key)
  | Some r => put_commit key value version_care psize total_size mdate edate r
  end.

Definition bucket_remove (key : data_entry) (version_care : bool) : fdbM (Z * data_entry) :=
  let '(item, key) := item_for key in
  let* (rc, item) := get_item sys key item in
  if rc =? TAIR_RETURN_SUCCESS then
    if version_care && negb (get_version key =? 0) && negb (get_version key =? mversion (fdata item)) then
      sret (TAIR_RETURN_VERSION_ERROR, key)
    else
      let key := set_meta (fdata item) key in
      let* item := free_item sys item in
      let stat_data_size := s32 (ix_size (fmeta item) + FDB_ITEM_META_SIZE) in
      let* _ := stat_sub (s32 (area key)) (s32 (stat_data_size - padsize (fdata item))) stat_data_size in
      sret (rc, key)
  else sret (rc, key).

Definition bucket_get (key value : data_entry) : fdbM (Z * data_entry * data_entry) :=
  let '(item, key) := item_for key in
  let* (rc, item) := get_item sys key item in
  if rc =? TAIR_RETURN_SUCCESS then
    if is_item_expired item then
      let* (_, key) := bucket_remove key false in
      sret (TAIR_RETURN_DATA_EXPIRED, key, value)
    else
      sret (rc, set_meta (fdata item) key,
            set_alloced_data (fvalue item) (valsize (fdata item)) (set_meta (fdata item) value))
  else sret (rc, key, value).
End bucket.
