(* ===== verification/FdbTree.v ===== *)
(** * The binary search trees of the disk engine

    The order in which [get_item] compares keys - hash code, length, bytes - is
    total.  A [tree] is what the records of a bucket's tree stand for; [in_index]
    says that the records of an index file are those of a tree.  A search splits
    a tree into a subtree and its surroundings ([frame]s, innermost first), and
    each operation changes the subtree. *)

From S2P Require Import Prelude DataBuffer Util DataEntry FdbFile FdbItems.
From Stdlib Require Import Sorting.Sorted.

(** ** The order of keys *)

Definition key_hash (l : list Z) : Z := Z.lor (Z.shiftl (mhash1 l) 32) (mhash2 l).
Definition key_cmp (a b : list Z) : comparison :=
  match key_hash a ?= key_hash b with
  | Eq => match Z.of_nat (length a) ?= Z.of_nat (length b) with
          | Eq => memcmp a b (length a)
          | c => c
          end
  | c => c
  end.
Definition key_lt (a b : list Z) : Prop := key_cmp a b = Lt.

Lemma memcmp_eq a b : length a = length b -> memcmp a b (length a) = Eq -> a = b.
Proof.
  revert b. induction a as [|x a IH]; intros [|y b]; cbn; try done. intros [= Hl].
  destruct (Z.compare_spec x y) as [->|?|?]; try done. intros E. by rewrite (IH b).
Qed.

Lemma memcmp_opp a b n : memcmp b a n = CompOpp (memcmp a b n).
Proof.
  revert a b. induction n as [|n IH]; intros [|x a] [|y b]; cbn; try done.
  rewrite (Z.compare_antisym x y). destruct (x ?= y); cbn; auto.
Qed.

Lemma memcmp_trans a b c n : memcmp a b n = Lt -> memcmp b c n = Lt -> length a = length b -> length b = length c -> memcmp a c n = Lt.
Proof.
  revert a b c. induction n as [|n IH]; intros [|x a] [|y b] [|z c]; cbn; try done. intros H1 H2 [= H3] [= H4].
  destruct (Z.compare_spec x y) as [->|?|?]; [|destruct (Z.compare_spec y z) as [->|?|?]; try done|done].
  - destruct (y ?= z); [|done|done]. by apply (IH a b c).
  - by rewrite (proj2 (Z.compare_lt_iff x z)).
  - by rewrite (proj2 (Z.compare_lt_iff x z)) by lia.
Qed.

Lemma key_cmp_eq a b : key_cmp a b = Eq -> a = b.
Proof.
  unfold key_cmp. destruct (_ ?= _); try done. destruct (Z.compare_spec (Z.of_nat (length a)) (Z.of_nat (length b))); try done.
  apply memcmp_eq. lia.
Qed.

Lemma key_cmp_refl a : key_cmp a a = Eq.
Proof. unfold key_cmp. by rewrite !Z.compare_refl, memcmp_refl. Qed.

Lemma key_cmp_opp a b : key_cmp b a = CompOpp (key_cmp a b).
Proof.
  unfold key_cmp. rewrite (Z.compare_antisym (key_hash a)). destruct (key_hash a ?= key_hash b); try done. cbn.
  rewrite (Z.compare_antisym (Z.of_nat (length a))). destruct (Z.compare_spec (Z.of_nat (length a)) (Z.of_nat (length b))) as [E| |]; try done. cbn.
  apply Nat2Z.inj in E. rewrite <- E. apply memcmp_opp.
Qed.

Lemma key_lt_gt a b : key_cmp a b = Gt <-> key_lt b a.
Proof. unfold key_lt. rewrite (key_cmp_opp a b). by destruct (key_cmp a b). Qed.

Lemma key_lt_irrefl a : ~ key_lt a a.
Proof. unfold key_lt. by rewrite key_cmp_refl. Qed.

Lemma key_lt_trans a b c : key_lt a b -> key_lt b c -> key_lt a c.
Proof.
  unfold key_lt, key_cmp. destruct (Z.compare_spec (key_hash a) (key_hash b)) as [->|?|?]; intros H1; try done.
  - destruct (key_hash b ?= key_hash c); try done.
    destruct (Z.compare_spec (Z.of_nat (length a)) (Z.of_nat (length b))) as [E|?|?]; try done.
    + apply Nat2Z.inj in E. rewrite E. destruct (Z.compare_spec (Z.of_nat (length b)) (Z.of_nat (length c))) as [E2|?|?]; intros H2; try done.
      apply Nat2Z.inj in E2. rewrite E in H1. by apply (memcmp_trans a b c).
    + intros H2. destruct (Z.compare_spec (Z.of_nat (length b)) (Z.of_nat (length c))) as [E2|?|?]; try done.
      * by rewrite (proj2 (Z.compare_lt_iff _ _)) by lia.
      * by rewrite (proj2 (Z.compare_lt_iff _ _)) by lia.
  - destruct (Z.compare_spec (key_hash b) (key_hash c)); intros H2; try done; by rewrite (proj2 (Z.compare_lt_iff _ _)) by lia.
Qed.

(** ** Trees *)

(** A record with its data: where the record is, the key, the value and the
    metadata, and the extent of the data file they are in *)
Record node := mk_node { n_off : Z; n_key : list Z; n_value : list Z; n_data : item_meta_info; n_size : Z; n_ext : Z }.

Inductive tree := Leaf | Node (l : tree) (n : node) (r : tree).

Definition root (t : tree) : Z := match t with Leaf => 0 | Node _ n _ => n_off n end.
Fixpoint nodes (t : tree) : list node := match t with Leaf => [] | Node l n r => nodes l ++ n :: nodes r end.
Definition offs (t : tree) : list Z := map n_off (nodes t).

Definition index_of (l r : Z) (n : node) : item_index := mk_item_index l r (n_size n) (n_ext n) (key_hash (n_key n)).
Fixpoint in_index (idx : gmap Z item_index) (t : tree) : Prop :=
  match t with
  | Leaf => True
  | Node l n r => 0 < n_off n /\ idx !! n_off n = Some (index_of (root l) (root r) n) /\ in_index idx l /\ in_index idx r
  end.

Lemma in_index_frame idx idx' t : (forall o, o ∈ offs t -> idx' !! o = idx !! o) -> in_index idx t -> in_index idx' t.
Proof.
  unfold offs. induction t as [|l IHl n r IHr]; cbn; [done|]. rewrite map_app. cbn. intros Hf (H0 & Hn & Hl & Hr).
  split; [done|]. split; [rewrite Hf by set_solver; done|]. split; [apply IHl|apply IHr]; (done || (intros o Ho; apply Hf; set_solver)).
Qed.

Lemma in_index_insert idx o m t : o ∉ offs t -> in_index idx t -> in_index (<[o := m]> idx) t.
Proof. intros Ho. apply in_index_frame. intros o' Ho'. apply lookup_insert_ne. congruence. Qed.

Lemma in_index_dom idx t o : in_index idx t -> o ∈ offs t -> is_Some (idx !! o) /\ 0 < o.
Proof.
  unfold offs. induction t as [|l IHl n r IHr]; cbn; [by intros _ ?%elem_of_nil|]. rewrite map_app. cbn.
  intros (H0 & Hn & Hl & Hr) Ho. rewrite elem_of_app, elem_of_cons in Ho. destruct Ho as [Ho|[->|Ho]]; eauto.
Qed.

Lemma root_pos idx t : in_index idx t -> root t = 0 <-> t = Leaf.
Proof. destruct t; cbn; [done|]. intros [H _]. split; [lia|done]. Qed.

(** ** A subtree and what is around it *)

(** The node above, whether the subtree is its right one, and the other one *)
Record frame := mk_frame { f_right : bool; f_node : node; f_other : tree }.

Definition plug1 (f : frame) (t : tree) : tree :=
  if f_right f then Node (f_other f) (f_node f) t else Node t (f_node f) (f_other f).
Fixpoint plug (c : list frame) (t : tree) : tree :=
  match c with [] => t | f :: c' => plug c' (plug1 f t) end.

Definition parent (c : list frame) : Z * bool :=
  match c with [] => (0, false) | f :: _ => (n_off (f_node f), f_right f) end.
Fixpoint before (c : list frame) : list node :=
  match c with
  | [] => []
  | f :: c' => if f_right f then before c' ++ nodes (f_other f) ++ [f_node f] else before c'
  end.
Fixpoint after (c : list frame) : list node :=
  match c with
  | [] => []
  | f :: c' => if f_right f then after c' else f_node f :: nodes (f_other f) ++ after c'
  end.

Lemma nodes_plug c t : nodes (plug c t) = before c ++ nodes t ++ after c.
Proof.
  revert t. induction c as [|f c IH]; intros t; cbn; [by rewrite app_nil_r|].
  rewrite IH. unfold plug1. destruct (f_right f); cbn; rewrite <- !app_assoc; [done|]. by rewrite <- app_comm_cons.
Qed.

(** What the index has around a subtree with the root [o] *)
Fixpoint around (idx : gmap Z item_index) (c : list frame) (o : Z) : Prop :=
  match c with
  | [] => True
  | f :: c' =>
      0 < n_off (f_node f)
      /\ idx !! n_off (f_node f) = Some (if f_right f then index_of (root (f_other f)) o (f_node f) else index_of o (root (f_other f)) (f_node f))
      /\ in_index idx (f_other f) /\ around idx c' (n_off (f_node f))
  end.

Lemma in_index_plug idx c t : in_index idx (plug c t) <-> around idx c (root t) /\ in_index idx t.
Proof.
  revert t. induction c as [|f c IH]; intros t; cbn; [tauto|]. rewrite IH. unfold plug1. destruct (f_right f); cbn; tauto.
Qed.

Definition ctx_offs (c : list frame) : list Z := map n_off (before c ++ after c).

Lemma around_frame idx idx' c o : (forall o', o' ∈ ctx_offs c -> idx' !! o' = idx !! o') -> around idx c o -> around idx' c o.
Proof.
  unfold ctx_offs. revert o. induction c as [|f c IH]; intros o; cbn; [done|]. intros Hf (H0 & Hn & Ho & Hc).
  assert (forall o', o' = n_off (f_node f) \/ o' ∈ offs (f_other f) \/ o' ∈ map n_off (before c ++ after c) -> idx' !! o' = idx !! o') as Hf'.
  { intros o' Ho'. apply Hf. unfold offs in *. destruct (f_right f); rewrite !map_app, ?map_cons, ?map_app; cbn [map];
      rewrite !map_app in Ho'; set_solver. }
  split; [done|]. split; [rewrite Hf' by auto; done|]. split; [by apply (in_index_frame idx); auto|apply IH; auto].
Qed.

(** The link to the subtree is changed. *)
Definition relink (right : bool) (o : Z) (m : item_index) : item_index := if right then set_right o m else set_left o m.
Definition hang (c : list frame) (o : Z) (idx : gmap Z item_index) : gmap Z item_index :=
  match c with
  | [] => idx
  | f :: _ => alter (relink (f_right f) o) (n_off (f_node f)) idx
  end.

Lemma around_hang idx c o o' : base.NoDup (ctx_offs c) -> around idx c o -> around (hang c o' idx) c o'.
Proof.
  destruct c as [|f c]; cbn; [done|]. unfold ctx_offs. intros Hnd (H0 & Hn & Ho & Hc). rewrite lookup_alter_eq, Hn. cbn.
  split; [done|]. split; [by destruct (f_right f)|].
  assert ((n_off (f_node f) ∉ offs (f_other f)) /\ (n_off (f_node f) ∉ ctx_offs c)) as [H1 H2].
  { unfold offs, ctx_offs. cbn [before after] in Hnd. destruct (f_right f); rewrite !map_app in *; cbn [map] in Hnd; rewrite ?map_app in Hnd.
    - rewrite !list.NoDup_app in Hnd. set_solver.
    - rewrite list.NoDup_app, list.NoDup_cons in Hnd. set_solver. }
  split; [apply (in_index_frame idx)|apply (around_frame idx)]; try done; intros x Hx; apply lookup_alter_ne; congruence.
Qed.

Lemma hang_other idx c o x : x ∉ ctx_offs c -> hang c o idx !! x = idx !! x.
Proof.
  destruct c as [|f c]; cbn; [done|]. unfold ctx_offs. cbn [before after]. intros Hx. apply lookup_alter_ne. intros Heq. apply Hx. rewrite <- Heq.
  destruct (f_right f); rewrite !map_app; cbn [map]; set_solver.
Qed.

(** ** Searching *)

Fixpoint search (k : list Z) (t : tree) (c : list frame) : list frame * tree :=
  match t with
  | Leaf => (c, Leaf)
  | Node l n r =>
      match key_cmp k (n_key n) with
      | Eq => (c, t)
      | Lt => search k l (mk_frame false n r :: c)
      | Gt => search k r (mk_frame true n l :: c)
      end
  end.

Lemma search_plug k t c : let '(c', t') := search k t c in plug c' t' = plug c t.
Proof.
  revert c. induction t as [|l IHl n r IHr]; intros c; cbn; [done|]. destruct (key_cmp k (n_key n)); [done| |].
  - specialize (IHl (mk_frame false n r :: c)). by destruct (search k l _).
  - specialize (IHr (mk_frame true n l :: c)). by destruct (search k r _).
Qed.

Definition sorted (l : list node) : Prop := StronglySorted key_lt (map n_key l).

Lemma sorted_app l1 l2 :
  sorted (l1 ++ l2) <-> sorted l1 /\ sorted l2 /\ forall n1 n2, n1 ∈ l1 -> n2 ∈ l2 -> key_lt (n_key n1) (n_key n2).
Proof.
  unfold sorted. induction l1 as [|n l1 IH]; cbn.
  { split; [intros H; split; [constructor|split; [done|intros ? ? []%elem_of_nil]]|tauto]. }
  split.
  - intros [H1 H2]%StronglySorted_inv. rewrite map_app, Forall_app in H2. destruct H2 as [H2 H3]. apply IH in H1 as (Ha & Hb & Hc).
    split; [by constructor|]. split; [done|]. intros n1 n2 [->|Hn1]%elem_of_cons Hn2; [|by apply Hc].
    rewrite list.Forall_forall in H3. apply H3, list_elem_of_fmap. eauto.
  - intros (H1 & H2 & H3). apply StronglySorted_inv in H1 as [H1 H4]. constructor.
    + apply IH. split; [done|]. split; [done|]. intros n1 n2 Hn1. apply H3. by right.
    + rewrite map_app, Forall_app. split; [done|]. apply list.Forall_forall. intros k (n2 & -> & Hn2)%list_elem_of_fmap. apply H3; [by left|done].
Qed.

(** The found subtree is empty or has the key at its root, and the key lies
    between what comes before and what comes after. *)
Lemma search_found k t c :
  sorted (nodes (plug c t)) -> Forall (fun n => key_lt (n_key n) k) (before c) -> Forall (fun n => key_lt k (n_key n)) (after c) ->
  let '(c', t') := search k t c in
  match t' with Leaf => True | Node _ n _ => n_key n = k end
  /\ Forall (fun n => key_lt (n_key n) k) (before c') /\ Forall (fun n => key_lt k (n_key n)) (after c').
Proof.
  revert c. induction t as [|l IHl n r IHr]; intros c Hs Hb Ha; cbn; [done|].
  pose proof Hs as Hs'. rewrite nodes_plug in Hs'. apply sorted_app in Hs' as (_ & Hs' & _). apply sorted_app in Hs' as (Hs' & _ & _).
  cbn in Hs'. apply sorted_app in Hs' as (_ & Hnr & Hln). change (n :: nodes r) with ([n] ++ nodes r) in Hnr. apply sorted_app in Hnr as (_ & _ & Hnr).
  destruct (key_cmp k (n_key n)) eqn:E.
  - split; [symmetry; by apply key_cmp_eq|done].
  - apply (IHl (mk_frame false n r :: c)); [done|done|]. cbn. constructor; [done|]. apply Forall_app. split; [|done].
    apply list.Forall_forall. intros n' Hn'. eapply key_lt_trans; [exact E|]. apply Hnr; [by left|done].
  - apply key_lt_gt in E. apply (IHr (mk_frame true n l :: c)); [done| |done]. cbn. apply Forall_app. split; [done|]. apply Forall_app. split; [|by repeat constructor].
    apply list.Forall_forall. intros n' Hn'. eapply key_lt_trans; [|exact E]. apply Hln; [done|by left].
Qed.

(** ** Taking a node away *)

Fixpoint join (l r : tree) : tree := match l with Leaf => r | Node a n b => Node a n (join b r) end.

Lemma nodes_join l r : nodes (join l r) = nodes l ++ nodes r.
Proof. induction l as [|a _ n b IH]; cbn; [done|]. by rewrite IH, <- app_assoc. Qed.

Lemma join_leaf l : join l Leaf = l.
Proof. induction l as [|a _ n b IH]; cbn; [done|]. by rewrite IH. Qed.

Lemma root_join l r : root (join l r) = match l with Leaf => root r | Node _ n _ => n_off n end.
Proof. by destruct l. Qed.

(** The right spine of a tree, as surroundings of the empty tree at its end *)
Fixpoint spine (t : tree) (c : list frame) : list frame :=
  match t with Leaf => c | Node a n b => spine b (mk_frame true n a :: c) end.

Lemma plug_spine l r c : plug (spine l c) r = plug c (join l r).
Proof. revert c. induction l as [|a _ n b IH]; intros c; cbn; [done|]. by rewrite IH. Qed.

Lemma spine_frame l c : l <> Leaf -> exists n' a' c', spine l c = mk_frame true n' a' :: c'.
Proof.
  revert c. induction l as [|a0 _ n0 b IH]; intros c; [done|]. intros _. cbn.
  destruct b as [|a1 n1 b1]; [cbn; by eexists _, _, _|]. by apply IH.
Qed.

Lemma nodes_spine l c : before (spine l c) ++ after (spine l c) ≡ₚ before c ++ after c ++ nodes l.
Proof.
  pose proof (nodes_plug (spine l c) Leaf) as E. rewrite plug_spine, join_leaf, nodes_plug in E. cbn in E.
  rewrite <- E. rewrite (Permutation_app_comm (nodes l)). done.
Qed.

(** A key that is not there is between what comes before and after. *)
Lemma nodes_sorted_insert c n :
  sorted (before c ++ after c) -> Forall (fun m => key_lt (n_key m) (n_key n)) (before c) ->
  Forall (fun m => key_lt (n_key n) (n_key m)) (after c) -> sorted (before c ++ n :: after c).
Proof.
  rewrite !sorted_app. intros (Hb & Ha & Hba) H1 H2. rewrite list.Forall_forall in H1, H2. split; [done|]. split.
  - change (n :: after c) with ([n] ++ after c). apply sorted_app. split; [by repeat constructor|]. split; [done|].
    intros n1 n2 ->%list_elem_of_singleton. apply H2.
  - intros n1 n2 Hn1 [->|Hn2]%elem_of_cons; [by apply H1|by apply Hba].
Qed.

Lemma sorted_key_inj l n1 n2 : sorted l -> n1 ∈ l -> n2 ∈ l -> n_key n1 = n_key n2 -> n1 = n2.
Proof.
  induction l as [|n l IH]; [by intros _ ?%elem_of_nil|]. change (n :: l) with ([n] ++ l). intros (_ & Hl & Hn)%sorted_app.
  intros [->%list_elem_of_singleton|H1]%elem_of_app [->%list_elem_of_singleton|H2]%elem_of_app E; [done|..|by apply IH].
  - exfalso. apply (key_lt_irrefl (n_key n2)). rewrite <- E at 1. apply Hn; [by left|done].
  - exfalso. apply (key_lt_irrefl (n_key n1)). rewrite E at 1. apply Hn; [by left|done].
Qed.

Lemma sorted_NoDup l : sorted l -> base.NoDup l.
Proof.
  induction l as [|n l IH]; [constructor|]. change (n :: l) with ([n] ++ l). intros (_ & Hl & Hn)%sorted_app.
  apply list.NoDup_cons. split; [|by apply IH]. intros Hin. apply (key_lt_irrefl (n_key n)). apply Hn; [by left|done].
Qed.
