(* ===== verification/FdbLayout.v ===== *)
(** * The layout of a bucket's files

    [layout s T fl x]: the files of [s] hold the trees [T] (by the number of the
    tree in the bucket) and the chain [fl] of free records; extents of the data
    file that are in use or free do not overlap, and the bytes of every item are
    in its extent - except those of the record [x], which is being worked on.
    The steps of the operations preserve it. *)

From S2P Require Import Prelude DataBuffer Util DataEntry MemPool MdbItem MemCache MdbManager TableManager Storage TairManager FdbFile FdbItems FdbBucket FdbTree.

(** ** Files that are mapped whole *)

Definition index_geo (f : file (gmap Z item_index)) : Prop := 0 < mapped f <= file_size f /\ max_size f = mapped f.
Definition data_geo (f : file (list Z)) : Prop := mapped f = 0 /\ file_size f = Z.of_nat (length (content f)).

Definition idx (s : fdb_store) : gmap Z item_index := content (index_file s).
Definition dat (s : fdb_store) : list Z := content (data_file s).

Definition write_index (o : Z) (m : item_index) (s : fdb_store) : fdb_store :=
  let f := index_file s in
  set_index (mk_file (<[o := m]> (content f)) (if o + FDB_ITEM_META_SIZE <=? mapped f then file_size f
                                               else Z.max (file_size f) (o + FDB_ITEM_META_SIZE)) (mapped f) (max_size f)) s.
Definition write_bytes (b : list Z) (o : Z) (s : fdb_store) : fdb_store :=
  let f := data_file s in
  set_data_file (mk_file (put_bytes b o (content f)) (Z.max (file_size f) (o + Z.of_nat (length b))) (mapped f) (max_size f)) s.

Lemma write_index_geo o m s : index_geo (index_file s) ->
  index_geo (index_file (write_index o m s)) /\ file_size (index_file s) <= file_size (index_file (write_index o m s))
  /\ o + FDB_ITEM_META_SIZE <= file_size (index_file (write_index o m s)).
Proof. unfold index_geo, write_index. cbn. intros (H1 & H2). destruct (Z.leb_spec (o + FDB_ITEM_META_SIZE) (mapped (index_file s))); lia. Qed.

Lemma write_bytes_geo b o s : 0 <= o -> data_geo (data_file s) -> data_geo (data_file (write_bytes b o s)).
Proof. unfold data_geo, write_bytes. cbn. intros Ho [H1 H2]. split; [done|]. by rewrite length_put_bytes, H2. Qed.

(** Reads of the files and writes to them succeed. *)
Class io_succeeds (sys : system) : Prop := {
  index_reads : forall o n, index_read_ok sys o n = true;
  data_reads : forall o n, data_read_ok sys o n = true;
  index_writes : forall o n, index_write_ok sys o n = true;
  data_writes : forall o n, data_write_ok sys o n = true
}.

Section steps.
Context (sys : system) `{io_succeeds sys}.

Lemma reach_whole (f : file (gmap Z item_index)) n : index_geo f -> reach (mremap_ok sys) n f = f.
Proof. intros (H1 & H2). unfold reach. case_match; [|done]. unfold remap. by rewrite H2, Z.eqb_refl. Qed.

Lemma read_meta_run o s :
  index_geo (index_file s) -> o + FDB_ITEM_META_SIZE <= file_size (index_file s) ->
  read_meta sys o s = Ret (Some (default zero_index (idx s !! o)), s).
Proof.
  intros Hg Ho. unfold read_meta, file_pread. rewrite reach_whole by done. rewrite (proj2 (Z.leb_le _ (file_size _))), index_reads by lia.
  destruct (_ <=? mapped _); by destruct s.
Qed.

Lemma pwrite_meta_run o m s : index_geo (index_file s) -> pwrite_meta sys o m s = Ret (true, write_index o m s).
Proof.
  intros Hg. unfold pwrite_meta, file_pwrite, write_index. rewrite reach_whole by done. rewrite index_writes. by destruct (_ <=? _).
Qed.

Lemma reach_bytes (f : file (list Z)) n : data_geo f -> reach (mremap_ok sys) n f = f.
Proof. intros [H1 _]. unfold reach. by rewrite H1. Qed.

Lemma pread_data_run n o s :
  data_geo (data_file s) -> 0 < n -> 0 <= o -> o + n <= Z.of_nat (length (dat s)) ->
  pread_data sys n o s = Ret (Some (bytes_at o n (dat s)), s).
Proof.
  intros Hg Hn Ho Hl. unfold pread_data, sassert, file_pread. rewrite (proj2 (Z.eqb_neq n 0)) by lia. cbn [negb].
  rewrite reach_bytes by done. destruct Hg as [H1 H2]. unfold dat in *. rewrite (proj2 (Z.leb_gt _ (mapped _))) by lia.
  rewrite (proj2 (Z.leb_le _ (file_size _))), data_reads by lia. by destruct s.
Qed.

Lemma pwrite_data_run b o s :
  data_geo (data_file s) -> 0 <= o -> (0 < length b)%nat -> pwrite_data sys b o s = Ret (true, write_bytes b o s).
Proof.
  intros Hg Ho Hb. unfold pwrite_data, file_pwrite, write_bytes. rewrite reach_bytes by done. destruct Hg as [H1 H2].
  rewrite (proj2 (Z.leb_gt _ (mapped _))) by lia. by rewrite data_writes.
Qed.
End steps.

(** ** Extents *)

Definition apart (o1 n1 o2 n2 : Z) : Prop := o1 + n1 <= o2 \/ o2 + n2 <= o1.

Definition node_bytes (n : node) : list Z := meta_raw (n_data n) ++ n_key n ++ n_value n.
Definition stored_at (l : list Z) (n : node) : Prop :=
  bytes_at (n_ext n) (Z.of_nat (length (node_bytes n))) l = node_bytes n /\ n_ext n + n_size n <= Z.of_nat (length l).
Record node_fits (n : node) : Prop := {
  nf_meta : meta_ok (n_data n);
  nf_key : keysize (n_data n) = Z.of_nat (length (n_key n)) /\ 3 <= Z.of_nat (length (n_key n));
  nf_value : valsize (n_data n) = Z.of_nat (length (n_value n)) /\ 1 <= Z.of_nat (length (n_value n));
  nf_size : Z.of_nat (length (node_bytes n)) <= n_size n < 2 ^ 24;
  nf_pad : padsize (n_data n) = n_size n - Z.of_nat (length (node_bytes n))
}.

Lemma length_node_bytes n : Z.of_nat (length (node_bytes n)) = FDB_ITEM_DATA_SIZE + Z.of_nat (length (n_key n)) + Z.of_nat (length (n_value n)).
Proof. unfold node_bytes. rewrite !length_app, length_meta_raw. unfold FDB_ITEM_DATA_SIZE, sizeof_item_meta_info. lia. Qed.

(** Records lie one after the other behind the header. *)
Definition records_start (h : db_header) : Z := index_head_size (fb_power h).
Definition record_at (h : db_header) (o : Z) : Prop :=
  records_start h <= o /\ (o - records_start h) mod FDB_ITEM_META_SIZE = 0 /\ o + FDB_ITEM_META_SIZE <= idx_file_size h.

Definition record_in (s : fdb_store) (o : Z) : Prop :=
  record_at (header s) o /\ o + FDB_ITEM_META_SIZE <= file_size (index_file s).

(** The chain of free records *)
Fixpoint free_chain (i : gmap Z item_index) (fl : list Z) (o : Z) : Prop :=
  match fl with
  | [] => o = 0
  | o' :: fl' => o = o' /\ o <> 0 /\ exists m, i !! o = Some m /\ ix_size m = 0 /\ free_chain i fl' (left_ m)
  end.

(** Every place of the pool is free or has the block that the map has for it. *)
Record pool_ok (m : free_blocks_manager) : Prop := {
  po_places : map snd (free_blocks_map m) ++ available_pos m ≡ₚ seqZ 0 (Z.of_nat (length (free_pool m)));
  po_some : free_pool m <> [];
  po_blocks : forall b i, (b, i) ∈ free_blocks_map m -> free_pool m !! Z.to_nat i = Some b /\ 0 < fb_size b;
  po_free : forall i, i ∈ available_pos m -> exists b, free_pool m !! Z.to_nat i = Some b /\ fb_size b = 0
}.
Definition in_pool (m : free_blocks_manager) (b : free_block) : Prop := exists i, (b, i) ∈ free_blocks_map m.

Definition present (T : Z -> tree) (n : node) : Prop := exists b, n ∈ nodes (T b).
(** Nothing else is in the extent. *)
Record free_extent (s : fdb_store) (T : Z -> tree) (x : Z) (size off : Z) : Prop := {
  fe_range : DBHEADER_MAGIC_SIZE <= off /\ 0 < size < 2 ^ 24 /\ off + size <= dat_file_size (header s);
  fe_nodes : forall n, present T n -> n_off n <> x -> apart off size (n_ext n) (n_size n);
  fe_blocks : forall b, in_pool (fb_manager s) b -> apart off size (fb_offset b) (fb_size b)
}.

Record layout (s : fdb_store) (T : Z -> tree) (fl : list Z) (x : Z) : Prop := {
  ly_index : index_geo (index_file s);
  ly_data : data_geo (data_file s);
  ly_pool : pool_ok (fb_manager s);
  ly_buckets : Z.of_nat (length (buckets s)) = FDB_BUCKET_NUMBER;
  ly_roots : forall b, 0 <= b < FDB_BUCKET_NUMBER -> cell (buckets s) b = root (T b);
  ly_trees : forall b, in_index (idx s) (T b) /\ sorted (nodes (T b));
  ly_hash : forall b n, n ∈ nodes (T b) -> key_hash (n_key n) mod FDB_BUCKET_NUMBER = b;
  ly_offs : forall n1 n2, present T n1 -> present T n2 -> n_off n1 = n_off n2 -> n1 = n2;
  ly_records : forall n, present T n -> record_in s (n_off n);
  ly_fits : forall n, present T n -> n_off n <> x ->
    node_fits n /\ stored_at (dat s) n /\ DBHEADER_MAGIC_SIZE <= n_ext n /\ n_ext n + n_size n <= dat_file_size (header s);
  ly_apart : forall n1 n2, present T n1 -> present T n2 -> n_off n1 <> n_off n2 -> n_off n1 <> x -> n_off n2 <> x ->
    apart (n_ext n1) (n_size n1) (n_ext n2) (n_size n2);
  ly_pooled : forall b i, (b, i) ∈ free_blocks_map (fb_manager s) ->
    DBHEADER_MAGIC_SIZE <= fb_offset b /\ 0 < fb_size b < 2 ^ 24 /\ fb_offset b + fb_size b <= dat_file_size (header s)
    /\ (forall n, present T n -> n_off n <> x -> apart (fb_offset b) (fb_size b) (n_ext n) (n_size n))
    /\ (forall b' i', (b', i') ∈ free_blocks_map (fb_manager s) -> i <> i' -> apart (fb_offset b) (fb_size b) (fb_offset b') (fb_size b'));
  ly_free : free_chain (idx s) fl (free_idx_head (header s)) /\ base.NoDup fl;
  ly_free_records : forall o, o ∈ fl -> record_in s o /\ forall n, present T n -> n_off n <> o;
  ly_sizes : records_start (header s) <= idx_file_size (header s) < 2 ^ 32
    /\ (idx_file_size (header s) - records_start (header s)) mod FDB_ITEM_META_SIZE = 0
    /\ 0 <= fb_power (header s) /\ DBHEADER_MAGIC_SIZE <= dat_file_size (header s) < 2 ^ 40;
  ly_stat : Z.of_nat (length (stat (header s))) = TAIR_MAX_AREA_COUNT
}.

Lemma records_start_pos h : 0 <= fb_power h -> 0 < records_start h.
Proof.
  intros Hp. unfold records_start, index_head_size. rewrite Z.shiftl_mul_pow2 by done. pose proof (Z.pow_pos_nonneg 2 (fb_power h)).
  unfold DBHEADER_SIZE, FDB_BUCKET_NUMBER, FREEBLOCK_SIZE, TAIR_MAX_AREA_COUNT, sizeof_tair_pstat. lia.
Qed.

Section layout.
Context (s : fdb_store) (T : Z -> tree) (fl : list Z) (x : Z) (Hly : layout s T fl x).

Lemma record_readable o : record_in s o -> o + FDB_ITEM_META_SIZE <= file_size (index_file s) /\ 0 < o /\ o < 2 ^ 32.
Proof.
  destruct Hly. intros ((H1 & _ & H2) & H5). destruct ly_sizes0 as (H3 & _ & H4 & _). pose proof (records_start_pos (header s) H4).
  unfold FDB_ITEM_META_SIZE in *. lia.
Qed.

Lemma node_off_pos n : present T n -> 0 < n_off n < 2 ^ 32.
Proof. intros Hn. pose proof (record_readable _ (ly_records _ _ _ _ Hly n Hn)). lia. Qed.

(** Within one tree *)
Lemma tree_offs_NoDup b : base.NoDup (offs (T b)).
Proof.
  unfold offs. apply NoDup_fmap_2_strong; [|apply sorted_NoDup, (proj2 (ly_trees _ _ _ _ Hly b))].
  intros n1 n2 H1 H2. apply (ly_offs _ _ _ _ Hly); by exists b.
Qed.

Lemma tree_size b : (length (nodes (T b)) <= base.size (idx s))%nat.
Proof.
  pose proof (tree_offs_NoDup b) as Hnd. unfold offs in Hnd. rewrite <- (length_map n_off). fold (offs (T b)) in *.
  rewrite <- size_dom, <- (size_list_to_set (C := gset Z)) by done. apply subseteq_size. intros o Ho%elem_of_list_to_set.
  apply elem_of_dom. by apply (in_index_dom _ _ _ (proj1 (ly_trees _ _ _ _ Hly b)) Ho).
Qed.

(** Offsets of other trees and of free records are others. *)
Lemma other_tree_offs b b' o : b <> b' -> o ∈ offs (T b) -> o ∉ offs (T b').
Proof.
  unfold offs. intros Hb (n & -> & Hn)%list_elem_of_fmap (n' & E & Hn')%list_elem_of_fmap.
  assert (n = n') as <- by (apply (ly_offs _ _ _ _ Hly); [by exists b|by exists b'|done]).
  apply Hb. rewrite <- (ly_hash _ _ _ _ Hly b n Hn). by apply (ly_hash _ _ _ _ Hly b').
Qed.

Lemma free_not_in_tree o b : o ∈ fl -> o ∉ offs (T b).
Proof. unfold offs. intros Ho (n & -> & Hn)%list_elem_of_fmap. destruct (ly_free_records _ _ _ _ Hly _ Ho) as [_ Hf]. apply (Hf n); [by exists b|done]. Qed.
End layout.
