(* ===== verification/FdbSteps.v ===== *)
(** * What the steps of the disk engine do to the layout

    Looking an item up finds the place in the tree; taking and giving back
    records and extents, linking and unlinking nodes and writing data lead from
    one layout to the next. *)

From S2P Require Import Prelude DataBuffer Util DataEntry MemPool MdbItem MemCache MdbManager TableManager Storage TairManager FdbFile FdbItems FdbBucket FdbTree FdbLayout.

Lemma bytes_at_sub o n l b i m :
  bytes_at o n l = b -> 0 <= o -> 0 <= i -> 0 <= m -> i + m <= n -> bytes_at (o + i) m l = bytes_at i m b.
Proof.
  intros <- Ho Hi Hm Hn. unfold bytes_at. apply list_eq. intros j.
  destruct (decide (j < Z.to_nat m)%nat) as [Hj|Hj]; [|by rewrite !lookup_take_ge by lia].
  rewrite !lookup_take_lt, !lookup_drop, lookup_take_lt, lookup_drop by lia. f_equal. lia.
Qed.

Lemma bytes_at_app_l b1 b2 : bytes_at 0 (Z.of_nat (length b1)) (b1 ++ b2) = b1.
Proof. unfold bytes_at. cbn. by rewrite drop_0, Nat2Z.id, take_app_length. Qed.

Lemma bytes_at_app_r b1 b2 n : bytes_at (Z.of_nat (length b1)) n (b1 ++ b2) = take (Z.to_nat n) b2.
Proof. unfold bytes_at. by rewrite Nat2Z.id, drop_app_length. Qed.

(** A key as the engine is given it, with its area in the first two bytes *)
Record fdb_key (key : data_entry) : Prop := {
  fk_data : DataEntry.data key = Some (get_data key);
  fk_size : get_size key = Z.of_nat (length (get_data key)) /\ 3 <= get_size key < 2 ^ 16;
  fk_hash : fst (get_hashcode key) = key_hash (get_data key)
}.

Section steps.
Context (sys : system) `{io_succeeds sys}.

Section reading.
Context (s : fdb_store) (T : Z -> tree) (fl : list Z) (x : Z) (Hly : layout s T fl x).
Context (n : node) (Hn : present T n) (Hx : n_off n <> x).

Lemma read_node l r :
  let m := index_of l r n in
  read_data_meta sys m s = Ret (Some (n_data n), s) /\ read_data_key sys m (n_data n) s = Ret (Some (n_key n), s)
  /\ read_data_value sys m (n_data n) s = Ret (Some (n_value n), s).
Proof.
  intros m. destruct (ly_fits _ _ _ _ Hly n Hn Hx) as ([Hm [Hk Hk1] [Hv Hv1] Hs Hp] & [Hb He] & Ho & Hd).
  rewrite length_node_bytes in Hs. unfold DBHEADER_MAGIC_SIZE in Ho. pose proof (length_node_bytes n) as Hl.
  unfold FDB_ITEM_DATA_SIZE, sizeof_item_meta_info in *. pose proof (ly_data _ _ _ _ Hly) as Hg.
  assert (forall i k, 0 <= i -> 0 < k -> i + k <= Z.of_nat (length (node_bytes n)) ->
            pread_data sys k (n_ext n + i) s = Ret (Some (bytes_at i k (node_bytes n)), s)) as Hr.
  { intros i k Hi Hk2 Hik. rewrite (pread_data_run sys) by (done || lia). by rewrite (bytes_at_sub _ _ _ _ i k Hb) by lia. }
  unfold read_data_meta, read_data_key, read_data_value, FDB_ITEM_DATA_SIZE, sizeof_item_meta_info. cbn [ix_offset m index_of].
  rewrite Hk, Hv. split; [|split].
  - specialize (Hr 0 28 ltac:(lia) ltac:(lia) ltac:(lia)). rewrite Z.add_0_r in Hr. step_with Hr.
    change (Ret (Some (meta_of_raw (bytes_at 0 28 (node_bytes n))), s) = Ret (Some (n_data n), s)). do 3 f_equal.
    replace 28 with (Z.of_nat (length (meta_raw (n_data n)))) by (by rewrite length_meta_raw). unfold node_bytes. rewrite bytes_at_app_l.
    pose proof (meta_raw_roundtrip (n_data n) [] Hm) as E. by rewrite app_nil_r in E.
  - rewrite Hr by lia. f_equal. f_equal. f_equal. replace 28 with (Z.of_nat (length (meta_raw (n_data n)))) by (by rewrite length_meta_raw).
    unfold node_bytes. by rewrite bytes_at_app_r, Nat2Z.id, take_app_length.
  - replace (n_ext n + 28 + Z.of_nat (length (n_key n))) with (n_ext n + Z.of_nat (length (meta_raw (n_data n) ++ n_key n)))
      by (rewrite length_app, length_meta_raw; lia).
    rewrite Hr by (rewrite ?length_app, ?length_meta_raw; lia). f_equal. f_equal. f_equal. unfold node_bytes. rewrite app_assoc.
    rewrite bytes_at_app_r. by apply take_ge; rewrite Nat2Z.id.
Qed.
End reading.

(** ** Looking up *)

Section finding.
Context (s : fdb_store) (T : Z -> tree) (fl : list Z) (Hly : layout s T fl 0).
Context (key : data_entry) (Hkey : fdb_key key).

Definition at_frame (c : list frame) (i : fdb_item) : fdb_item :=
  mk_fdb_item (meta_offset i) (bucket_index i) (parent c).1 (parent c).2 (is_new i) (fmeta i) (fdata i) (fkey i) (fvalue i).
Definition at_node (c : list frame) (l : tree) (n : node) (r : tree) (i : fdb_item) : fdb_item :=
  mk_fdb_item (n_off n) (bucket_index i) (parent c).1 (parent c).2 (is_new i) (index_of (root l) (root r) n) (n_data n) (fkey i) (n_value n).

Lemma find_item_run fuel t c item :
  in_index (idx s) t -> (forall n, n ∈ nodes t -> present T n) -> ix_hashcode (fmeta item) = key_hash (get_data key) ->
  (length (nodes t) < fuel)%nat ->
  find_item sys fuel key item (root t) (parent c).1 (parent c).2 s
  = Ret (match search (get_data key) t c with
         | (c', Leaf) => (TAIR_RETURN_DATA_NOT_EXIST, at_frame c' item)
         | (c', Node l n r) => (TAIR_RETURN_SUCCESS, at_node c' l n r item)
         end, s).
Proof.
  intros Hi Hp Hh. revert fuel c Hi Hp. induction t as [|l IHl n r IHr]; intros fuel c Hi Hp Hf; destruct fuel as [|fuel]; try (cbn in Hf; lia); [done|].
  destruct Hi as (H0 & Hn & Hl & Hr). cbn [nodes] in Hf, Hp. rewrite length_app in Hf. cbn [length] in Hf.
  assert (present T n) as Hpn by (apply Hp; set_solver).
  destruct (record_readable s T fl 0 Hly _ (ly_records _ _ _ _ Hly n Hpn)) as (Hrd & _ & _).
  specialize (IHl fuel (mk_frame false n r :: c) Hl ltac:(intros; apply Hp; set_solver) ltac:(lia)).
  specialize (IHr fuel (mk_frame true n l :: c) Hr ltac:(intros; apply Hp; set_solver) ltac:(lia)). cbn [parent f_node f_right fst snd] in IHl, IHr.
  cbn [find_item root]. rewrite (proj2 (Z.ltb_lt 0 _) H0). cbn [negb].
  step_with (read_meta_run sys _ s (ly_index _ _ _ _ Hly) Hrd). rewrite Hn. cbn [default from_option id ix_hashcode index_of left_ right_].
  rewrite Hh. cbn [search]. unfold key_cmp.
  destruct (Z.compare_spec (key_hash (get_data key)) (key_hash (n_key n))) as [E|E|E].
  2:{ rewrite (proj2 (Z.ltb_ge _ _)), (proj2 (Z.ltb_lt _ _)) by lia. exact IHl. }
  2:{ rewrite (proj2 (Z.ltb_lt _ _)) by lia. exact IHr. }
  rewrite !(proj2 (Z.ltb_ge _ _)) by lia. clear E.
  destruct (read_node s T fl 0 Hly n Hpn ltac:(lia) (root l) (root r)) as (R1 & R2 & R3).
  destruct (ly_fits _ _ _ _ Hly n Hpn ltac:(lia)) as ([_ [Hk _] _ _ _] & _). destruct (fk_size _ Hkey) as [Hsz _].
  step_with R1. rewrite Hk, Hsz.
  destruct (Z.compare_spec (Z.of_nat (length (get_data key))) (Z.of_nat (length (n_key n)))) as [E|E|E].
  2:{ rewrite (proj2 (Z.ltb_ge _ _)), (proj2 (Z.ltb_lt _ _)) by lia. exact IHl. }
  2:{ rewrite (proj2 (Z.ltb_lt _ _)) by lia. exact IHr. }
  rewrite !(proj2 (Z.ltb_ge _ _)) by lia. step_with R2. rewrite Nat2Z.id.
  destruct (memcmp (get_data key) (n_key n) (length (get_data key))); [|exact IHl|exact IHr]. by step_with R3.
Qed.

(** The item an operation starts with, and where it finds it *)
Lemma item_for_run : item_for key = (mk_fdb_item 0 (key_hash (get_data key) mod FDB_BUCKET_NUMBER) 0 false false
    (mk_item_index 0 0 0 0 (key_hash (get_data key))) zero_meta [] [], snd (get_hashcode key)).
Proof. unfold item_for. destruct Hkey as [_ _ Hh]. destruct (get_hashcode key) as [h key']. cbn in *. by subst h. Qed.

Lemma hashcode_same : let key' := snd (get_hashcode key) in
  get_data key' = get_data key /\ get_size key' = get_size key /\ data_meta key' = data_meta key /\ area key' = area key
  /\ fdb_key key'.
Proof.
  destruct Hkey as [Hd Hs Hh]. cbv zeta. unfold get_hashcode in *. rewrite Hd in *. case_match; cbn in *.
  - split; [done|]. split; [done|]. split; [done|]. split; [done|]. constructor; [done|done|]. cbn. case_match; cbn; done.
  - split; [done|]. split; [done|]. split; [done|]. split; [done|]. by constructor; [done|done|]; unfold get_hashcode; rewrite Hd; rewrite H0.
Qed.

Lemma key_bucket_range : 0 <= key_hash (get_data key) mod FDB_BUCKET_NUMBER < FDB_BUCKET_NUMBER.
Proof. by apply Z.mod_pos_bound. Qed.

Lemma found_item_run item :
  bucket_index item = key_hash (get_data key) mod FDB_BUCKET_NUMBER -> ix_hashcode (fmeta item) = key_hash (get_data key) ->
  get_item sys key item s
  = Ret (match search (get_data key) (T (bucket_index item)) [] with
         | (c', Leaf) => (TAIR_RETURN_DATA_NOT_EXIST, at_frame c' item)
         | (c', Node l n r) => (TAIR_RETURN_SUCCESS, at_node c' l n r item)
         end, s).
Proof.
  intros Hb Hh. pose proof key_bucket_range as Hr. unfold get_item. rewrite Hb. set (b := key_hash (get_data key) mod FDB_BUCKET_NUMBER) in *.
  assert (at_ (buckets s) b = Ret (root (T b))) as E by (rewrite at_cell by (rewrite (ly_buckets _ _ _ _ Hly); lia); f_equal; by apply (ly_roots _ _ _ _ Hly)).
  unfold sbind, slift. rewrite E. cbn [obind]. apply (find_item_run _ (T b) [] item); [apply (ly_trees _ _ _ _ Hly)|by exists b|done|].
  pose proof (tree_size s T fl 0 Hly b). fold (idx s). lia.
Qed.
End finding.
End steps.
