(* ===== verification/FdbTiles.v ===== *)
(** * What lies in the data file, from end to end

    Behind its magic the data file is a sequence of extents, each with a header
    that says how long it is.  Extents that are free, or that have been dropped
    from the full pool, are marked as deleted; the others belong to the nodes of
    the trees.  A migration reads the file from its start and relies on this. *)

From S2P Require Import Prelude DataBuffer Util DataEntry MemPool MdbItem MemCache MdbManager TableManager Storage TairManager FdbFile FdbItems FdbBucket FdbTree FdbLayout FdbSteps.

Definition header_at (o : Z) (l : list Z) : item_meta_info := meta_of_raw (bytes_at o FDB_ITEM_DATA_SIZE l).
(** [total_size] of an extent *)
Definition item_total (d : item_meta_info) : Z := u32 (FDB_ITEM_DATA_SIZE + keysize d + valsize d + padsize d).
Definition deleted (d : item_meta_info) : bool := negb (Z.land (flag d) TAIR_ITEM_FLAG_DELETED =? 0).

(** Where extents of these sizes lie *)
Fixpoint places (o : Z) (ts : list Z) : list (Z * Z) :=
  match ts with [] => [] | n :: ts => (o, n) :: places (o + n) ts end.
Definition sum (ts : list Z) : Z := foldr Z.add 0 ts.

Record tiled (l : list Z) (ts : list Z) : Prop := {
  td_length : Z.of_nat (length l) = DBHEADER_MAGIC_SIZE + sum ts;
  td_sizes : Forall (fun n => FDB_ITEM_DATA_SIZE <= n) ts;
  td_headers : forall o n, (o, n) ∈ places DBHEADER_MAGIC_SIZE ts -> item_total (header_at o l) = n /\ 2 < keysize (header_at o l)
}.

Lemma sum_app ts1 ts2 : sum (ts1 ++ ts2) = sum ts1 + sum ts2.
Proof. unfold sum. induction ts1 as [|n ts IH]; cbn; [done|]. rewrite IH. lia. Qed.

Lemma places_app o ts1 ts2 : places o (ts1 ++ ts2) = places o ts1 ++ places (o + sum ts1) ts2.
Proof.
  unfold sum. revert o. induction ts1 as [|n ts IH]; intros o; cbn; [by rewrite Z.add_0_r|]. rewrite IH. do 2 f_equal. by rewrite Z.add_assoc.
Qed.

Lemma places_range ts : Forall (fun n => FDB_ITEM_DATA_SIZE <= n) ts -> forall o o' n, (o', n) ∈ places o ts ->
  o <= o' /\ FDB_ITEM_DATA_SIZE <= n /\ o' + n <= o + sum ts.
Proof.
  unfold sum, FDB_ITEM_DATA_SIZE, sizeof_item_meta_info.
  induction 1 as [|n ts Hn Hts IH]; intros o o' n'; cbn; [by intros ?%elem_of_nil|]. intros [[= -> ->]|Hin]%elem_of_cons.
  - assert (0 <= foldr Z.add 0 ts) by (clear IH; induction Hts; cbn; lia). lia.
  - destruct (IH _ _ _ Hin). lia.
Qed.

(** Two extents are apart, or the same. *)
Lemma places_apart ts o : Forall (fun n => FDB_ITEM_DATA_SIZE <= n) ts -> forall o1 n1 o2 n2,
  (o1, n1) ∈ places o ts -> (o2, n2) ∈ places o ts -> (o1 = o2 /\ n1 = n2) \/ apart o1 n1 o2 n2.
Proof.
  intros Hts. revert o. unfold apart. induction Hts as [|n ts Hn Hts IH]; intros o o1 n1 o2 n2; cbn; [by intros ?%elem_of_nil|].
  intros [[= -> ->]|H1]%elem_of_cons [[= -> ->]|H2]%elem_of_cons.
  - by left.
  - right. destruct (places_range ts Hts _ _ _ H2). lia.
  - right. destruct (places_range ts Hts _ _ _ H1). lia.
  - by apply (IH (o + n)).
Qed.

Lemma header_at_other b o l o' n' :
  0 <= o -> 0 <= o' -> FDB_ITEM_DATA_SIZE <= n' -> o' + n' <= Z.of_nat (length l) -> apart o (Z.of_nat (length b)) o' n' ->
  header_at o' (put_bytes b o l) = header_at o' l.
Proof.
  intros H1 H2 H3 H4 H5. unfold header_at, apart, FDB_ITEM_DATA_SIZE, sizeof_item_meta_info in *. by rewrite bytes_at_put_other by lia.
Qed.

Lemma header_at_written d b o l : meta_ok d -> 0 <= o -> header_at o (put_bytes (meta_raw d ++ b) o l) = d.
Proof.
  intros Hd Ho. unfold header_at. rewrite bytes_at_put; [|lia|lia|done|rewrite length_app, length_meta_raw; unfold FDB_ITEM_DATA_SIZE, sizeof_item_meta_info; lia].
  rewrite Z.sub_diag. replace FDB_ITEM_DATA_SIZE with (Z.of_nat (length (meta_raw d))) by (by rewrite length_meta_raw).
  rewrite bytes_at_app_l. pose proof (meta_raw_roundtrip d [] Hd) as E. by rewrite app_nil_r in E.
Qed.

(** An extent is written, or its header alone. *)
Lemma tiled_write l ts o n d b :
  tiled l ts -> (o, n) ∈ places DBHEADER_MAGIC_SIZE ts -> meta_ok d -> item_total d = n -> 2 < keysize d -> Z.of_nat (length (meta_raw d ++ b)) <= n ->
  tiled (put_bytes (meta_raw d ++ b) o l) ts.
Proof.
  intros [T1 T2 T3] Hin Hd Hn Hk Hb. destruct (places_range ts T2 _ _ _ Hin) as (R1 & R2 & R3). unfold DBHEADER_MAGIC_SIZE in *. constructor; [|done|].
  - rewrite length_put_bytes by lia. unfold DBHEADER_MAGIC_SIZE. lia.
  - intros o' n' Hin'. destruct (places_range ts T2 _ _ _ Hin') as (R1' & R2' & R3').
    unfold DBHEADER_MAGIC_SIZE in *.
    destruct (places_apart ts 16 T2 _ _ _ _ Hin Hin') as [[<- <-]|Hap]; [by rewrite header_at_written by (done || lia)|].
    rewrite (header_at_other _ _ _ _ n') by (lia || (unfold apart in *; lia)). by apply T3.
Qed.

Lemma tiled_append l ts n d b :
  tiled l ts -> meta_ok d -> item_total d = n -> 2 < keysize d -> Z.of_nat (length (meta_raw d ++ b)) = n ->
  tiled (put_bytes (meta_raw d ++ b) (Z.of_nat (length l)) l) (ts ++ [n]).
Proof.
  intros [T1 T2 T3] Hd Hn Hk Hb. assert (FDB_ITEM_DATA_SIZE <= n) as Hn28
    by (rewrite length_app, length_meta_raw in Hb; unfold FDB_ITEM_DATA_SIZE, sizeof_item_meta_info; lia).
  constructor.
  - rewrite length_put_bytes, sum_app by lia. change (sum [n]) with (n + 0). lia.
  - apply Forall_app. split; [done|]. by repeat constructor.
  - intros o' n'. rewrite places_app. unfold DBHEADER_MAGIC_SIZE in *. rewrite <- T1. intros [Hin|Hin]%elem_of_app.
    + destruct (places_range ts T2 _ _ _ Hin) as (R1' & R2' & R3'). unfold DBHEADER_MAGIC_SIZE in *. rewrite (header_at_other _ _ _ _ n') by (lia || (unfold apart; lia)). by apply T3.
    + cbn in Hin. apply list_elem_of_singleton in Hin as [= -> ->]. by rewrite header_at_written by (done || lia).
Qed.

Lemma deleted_data_ok d :
  meta_ok d -> meta_ok (deleted_data d) /\ item_total (deleted_data d) = item_total d /\ deleted (deleted_data d) = true.
Proof. intros (M1 & M2 & M3 & M4 & M5 & M6 & M7 & M8 & M9 & M10). split; [|done]. by repeat (split; [done|]). Qed.

(** ** Who the extents belong to *)

(** [e] is an extent that is being worked on: one of those in the file, or one
    that will be appended. *)
Definition tiling (s : fdb_store) (T : Z -> tree) (x : Z) (e : option (Z * Z)) : Prop := exists ts,
  tiled (dat s) ts
  /\ (forall n, present T n -> n_off n <> x -> (n_ext n, n_size n) ∈ places DBHEADER_MAGIC_SIZE ts)
  /\ (forall b, in_pool (fb_manager s) b ->
        (fb_offset b, fb_size b) ∈ places DBHEADER_MAGIC_SIZE ts /\ deleted (header_at (fb_offset b) (dat s)) = true)
  /\ (forall o k, (o, k) ∈ places DBHEADER_MAGIC_SIZE ts -> deleted (header_at o (dat s)) = false ->
        (exists n, present T n /\ n_off n <> x /\ n_ext n = o) \/ exists k', e = Some (o, k'))
  /\ match e with
     | None => dat_file_size (header s) = Z.of_nat (length (dat s))
     | Some (o, k) => (o, k) ∈ places DBHEADER_MAGIC_SIZE ts /\ dat_file_size (header s) = Z.of_nat (length (dat s))
                      \/ o = Z.of_nat (length (dat s)) /\ dat_file_size (header s) = o + k
     end.

(** A header is marked as deleted, or an extent is written: the other headers
    stay. *)
Lemma headers_stay l ts o n b : tiled l ts -> (o, n) ∈ places DBHEADER_MAGIC_SIZE ts -> Z.of_nat (length b) <= n ->
  forall o' n', (o', n') ∈ places DBHEADER_MAGIC_SIZE ts -> o' = o \/ header_at o' (put_bytes b o l) = header_at o' l.
Proof.
  intros Ht Hin Hb o' n' Hin'. destruct (places_apart ts _ (td_sizes _ _ Ht) _ _ _ _ Hin Hin') as [[<- _]|Hap]; [by left|right].
  destruct (places_range ts (td_sizes _ _ Ht) _ _ _ Hin) as (R1 & R2 & R3). destruct (places_range ts (td_sizes _ _ Ht) _ _ _ Hin') as (R1' & R2' & R3').
  pose proof (td_length _ _ Ht) as Hl. unfold DBHEADER_MAGIC_SIZE in *. apply (header_at_other _ _ _ _ n'); [lia|lia|done|lia|unfold apart in *; lia].
Qed.

Lemma tiling_free s s' T x size off d :
  tiling s T x (Some (off, size)) -> off + size <= Z.of_nat (length (dat s)) -> meta_ok d -> item_total d = size -> 2 < keysize d -> FDB_ITEM_DATA_SIZE <= size ->
  deleted d = true -> dat s' = put_bytes (meta_raw d) off (dat s) -> header s' = header s ->
  (forall b, in_pool (fb_manager s') b -> in_pool (fb_manager s) b \/ b = mk_free_block size off) ->
  tiling s' T x None.
Proof.
  intros (ts & Ht & Hn & Hp & Hl & He) Hlen Hd Htot Hk H28 Hdel Ed Eh Hpool. unfold FDB_ITEM_DATA_SIZE, sizeof_item_meta_info in H28.
  destruct He as [[Hin Hsz]|[-> _]]; [|lia]. assert (Z.of_nat (length (meta_raw d)) <= size) as Hb by (rewrite length_meta_raw; lia).
  destruct (places_range ts (td_sizes _ _ Ht) _ _ _ Hin) as (R1 & _). unfold DBHEADER_MAGIC_SIZE in R1.
  pose proof (headers_stay _ _ _ _ _ Ht Hin Hb) as Hst. pose proof (header_at_written d [] off (dat s) Hd ltac:(lia)) as Hw. rewrite app_nil_r in Hw.
  exists ts. rewrite Ed, Eh. split; [|split; [done|split; [|split]]].
  - pose proof (tiled_write _ _ _ _ d [] Ht Hin Hd Htot Hk) as H. rewrite app_nil_r in H. by apply H.
  - intros b Hb'. destruct (Hpool b Hb') as [Hold| ->]; [|cbn [fb_offset fb_size]; by rewrite Hw]. destruct (Hp b Hold) as [P1 P2]. split; [done|].
    destruct (Hst _ _ P1) as [->| ->]; [by rewrite Hw|done].
  - intros o k Ho Hlive. left. destruct (Hst _ _ Ho) as [->|E]; [by rewrite Hw, Hdel in Hlive|]. rewrite E in Hlive.
    destruct (Hl o k Ho Hlive) as [?|[k' [= -> ->]]]; [done|]. rewrite <- E, Hw, Hdel in Hlive. done.
  - rewrite length_put_bytes by lia. rewrite Hsz. lia.
Qed.

Lemma tiling_take s s' T x size off :
  tiling s T x None -> dat s' = dat s -> (forall b, in_pool (fb_manager s') b -> in_pool (fb_manager s) b) ->
  (in_pool (fb_manager s) (mk_free_block size off) /\ dat_file_size (header s') = dat_file_size (header s)
   \/ off = dat_file_size (header s) /\ dat_file_size (header s') = off + size) ->
  tiling s' T x (Some (off, size)).
Proof.
  intros (ts & Ht & Hn & Hp & Hl & He) Ed Hpool Hcase. exists ts. rewrite Ed. split; [done|]. split; [done|]. split; [auto|]. split.
  - intros o k Ho Hlive. destruct (Hl o k Ho Hlive) as [?|(? & [=])]. by left.
  - destruct Hcase as [[Hin ->]|[-> ->]]; [left|right; split; [done|lia]]. split; [by apply (Hp _ Hin)|done].
Qed.

(** A node is opened to be worked on, or taken out. *)
Lemma tiling_open s s' T T' x n :
  tiling s T 0 None -> present T n -> n_off n <> 0 -> dat s' = dat s -> fb_manager s' = fb_manager s -> dat_file_size (header s') = dat_file_size (header s) ->
  (forall m, present T' m -> n_off m <> x -> present T m /\ n_off m <> 0) ->
  (forall m, present T m -> m = n \/ present T' m /\ n_off m <> x) ->
  tiling s' T' x (Some (n_ext n, n_size n)).
Proof.
  intros (ts & Ht & Hn & Hp & Hl & He) Hpn H0 Ed Ep Eh H1 H2. exists ts. rewrite Ed, Ep, Eh. split; [done|]. split; [|split; [done|split]].
  - intros m Hm Hx. destruct (H1 m Hm Hx). by apply Hn.
  - intros o k Ho Hlive. destruct (Hl o k Ho Hlive) as [(m & M1 & M2 & M3)|(? & [=])].
    destruct (H2 m M1) as [->|[M4 M5]]; [right; exists (n_size n); by rewrite M3|left; by exists m].
  - left. split; [by apply Hn|done].
Qed.

(** The extent stays with the one record while links are set. *)
Lemma tiling_relink s s' T T' x x' e :
  tiling s T x e -> dat s' = dat s -> fb_manager s' = fb_manager s -> dat_file_size (header s') = dat_file_size (header s) ->
  (forall m, present T' m -> n_off m <> x' -> present T m /\ n_off m <> x) ->
  (forall m, present T m -> n_off m <> x -> present T' m /\ n_off m <> x') ->
  tiling s' T' x' e.
Proof.
  intros (ts & Ht & Hn & Hp & Hl & He) Ed Ep Eh H1 H2. exists ts. rewrite Ed, Ep, Eh. split; [done|]. split; [|split; [done|split; [|done]]].
  - intros m Hm Hx. destruct (H1 m Hm Hx). by apply Hn.
  - intros o k Ho Hlive. destruct (Hl o k Ho Hlive) as [(m & M1 & M2 & M3)|?]; [left|by right]. destruct (H2 m M1 M2). by exists m.
Qed.

Lemma tiling_same s s' T x e :
  tiling s T x e -> dat s' = dat s -> fb_manager s' = fb_manager s -> dat_file_size (header s') = dat_file_size (header s) -> tiling s' T x e.
Proof. intros Ht Ed Ep Eh. by apply (tiling_relink s s' T T x x e). Qed.

Lemma tiling_pool s s' T x e :
  tiling s T x e -> dat s' = dat s -> (forall b, in_pool (fb_manager s') b -> in_pool (fb_manager s) b) ->
  dat_file_size (header s') = dat_file_size (header s) -> tiling s' T x e.
Proof.
  intros (ts & Ht & Hn & Hp & Hl & He) Ed Ep Eh. exists ts. rewrite Ed, Eh. split; [done|]. split; [done|]. split; [auto|]. by split.
Qed.

Lemma node_item_total n : node_fits n -> item_total (n_data n) = n_size n.
Proof.
  intros [Hm [Hk _] [Hv _] Hs Hp]. unfold item_total. rewrite Hk, Hv, Hp. rewrite length_node_bytes in *.
  replace (_ + _) with (n_size n) by lia. apply wrap_id. unfold in_u, FDB_ITEM_DATA_SIZE, sizeof_item_meta_info in *. lia.
Qed.

(** The data of the record is written. *)
Lemma tiling_write s s' T n :
  tiling s T (n_off n) (Some (n_ext n, n_size n)) -> present T n -> node_fits n -> free_extent s T (n_off n) (n_size n) (n_ext n) ->
  (forall m, present T m -> n_off m <> 0) -> (forall m, present T m -> n_off m = n_off n -> m = n) ->
  dat s' = put_bytes (resize (Z.to_nat (n_size n)) 0 (node_bytes n)) (n_ext n) (dat s) -> fb_manager s' = fb_manager s -> header s' = header s ->
  tiling s' T 0 None.
Proof.
  intros (ts & Ht & Hn & Hp & Hl & He) Hpn Hfit Hfe H0 Huni Ed Ep Eh. pose proof (node_item_total n Hfit) as Htot.
  pose proof (fe_range _ _ _ _ _ Hfe) as (R1 & R2 & _). unfold DBHEADER_MAGIC_SIZE in R1. pose proof (nf_size _ Hfit) as Hsz. pose proof (nf_meta _ Hfit) as Hm.
  assert (2 < keysize (n_data n)) as Hk by (destruct (nf_key _ Hfit); lia).
  set (b := resize (Z.to_nat (n_size n)) 0 (node_bytes n)) in *. assert (Z.of_nat (length b) = n_size n) as Hb by (unfold b; rewrite length_resize; lia).
  assert (b = meta_raw (n_data n) ++ drop 28 b) as Eb.
  { unfold b. rewrite resize_ge by lia. unfold node_bytes. rewrite <- !app_assoc.
    by rewrite (drop_app_length' (meta_raw (n_data n))) by (by rewrite length_meta_raw). }
  assert (forall m, present T m -> n_off m <> 0 -> m = n \/ n_off m <> n_off n) as Hcase by (intros m Hm' _; destruct (decide (n_off m = n_off n)); auto).
  pose proof (header_at_written (n_data n) (drop 28 b) (n_ext n) (dat s) Hm ltac:(lia)) as Hw. rewrite <- Eb in Hw.
  destruct He as [[Hin Hlen]|[Eoff Hlen]].
  - pose proof (headers_stay _ _ _ _ b Ht Hin ltac:(lia)) as Hst. exists ts. rewrite Ed, Ep, Eh. split; [|split; [|split; [|split]]].
    + rewrite Eb. apply (tiled_write _ _ _ _ _ _ Ht Hin Hm Htot Hk). rewrite <- Eb. lia.
    + intros m Hm' Hx. destruct (Hcase m Hm' Hx) as [->|?]; [done|by apply Hn].
    + intros bl Hbl. destruct (Hp bl Hbl) as [P1 P2]. split; [done|]. destruct (Hst _ _ P1) as [E| ->]; [exfalso|done].
      pose proof (fe_blocks _ _ _ _ _ Hfe bl Hbl) as Hap. destruct (places_range ts (td_sizes _ _ Ht) _ _ _ P1) as (_ & B2 & _).
      unfold apart, FDB_ITEM_DATA_SIZE, sizeof_item_meta_info in *. lia.
    + intros o k Ho Hlive. left. destruct (Hst _ _ Ho) as [->|E]; [exists n; auto|]. rewrite E in Hlive.
      destruct (Hl o k Ho Hlive) as [(m & M1 & M2 & M3)|[k' [= <- <-]]]; [exists m; auto|exists n; auto].
    + rewrite length_put_bytes by lia. destruct (places_range ts (td_sizes _ _ Ht) _ _ _ Hin) as (_ & _ & B3). pose proof (td_length _ _ Ht). lia.
  - exists (ts ++ [n_size n]).
    assert (forall o k, (o, k) ∈ places DBHEADER_MAGIC_SIZE ts -> header_at o (put_bytes b (n_ext n) (dat s)) = header_at o (dat s)) as Hst.
    { intros o k Ho. destruct (places_range ts (td_sizes _ _ Ht) _ _ _ Ho) as (B1 & B2 & B3). pose proof (td_length _ _ Ht). unfold DBHEADER_MAGIC_SIZE in *.
      apply (header_at_other _ _ _ _ k); [lia|lia|done|lia|unfold apart; lia]. }
    assert (places DBHEADER_MAGIC_SIZE (ts ++ [n_size n]) = places DBHEADER_MAGIC_SIZE ts ++ [(n_ext n, n_size n)]) as Epl
      by (rewrite places_app, <- (td_length _ _ Ht), <- Eoff; done).
    rewrite Epl, Ed, Ep, Eh. split; [|split; [|split; [|split]]].
    + rewrite Eb, Eoff. apply (tiled_append _ _ _ _ _ Ht Hm Htot Hk). rewrite <- Eb. lia.
    + intros m Hm' Hx. apply elem_of_app. destruct (Hcase m Hm' Hx) as [->|?]; [right; by left|left; by apply Hn].
    + intros bl Hbl. destruct (Hp bl Hbl) as [P1 P2]. split; [apply elem_of_app; by left|]. by rewrite (Hst _ _ P1).
    + intros o k [Ho|Ho]%elem_of_app Hlive; left.
      * rewrite (Hst _ _ Ho) in Hlive. destruct (Hl o k Ho Hlive) as [(m & M1 & M2 & M3)|[k' [= <- <-]]]; [exists m; auto|exists n; auto].
      * apply list_elem_of_singleton in Ho as [= -> ->]. exists n. auto.
    + rewrite length_put_bytes by lia. lia.
Qed.
