(* ===== verification/FdbSpace.v ===== *)
(** * Free extents and free records of a bucket's files

    Extents go into the pool and come out of it, or off the end of the data
    file; records come off the chain of free ones, or off the end of the index
    file. *)

From S2P Require Import Prelude DataBuffer Util DataEntry MemPool MdbItem MemCache MdbManager TableManager Storage TairManager FdbFile FdbItems FdbBucket FdbTree FdbLayout FdbSteps FdbTiles.

(** ** The pool *)

Lemma multimap_insert_perm b i m : multimap_insert b i m ≡ₚ (b, i) :: m.
Proof.
  induction m as [|[b' i'] m IH]; cbn; [done|]. destruct (_ <? _); [done|]. rewrite IH. apply Permutation_swap.
Qed.

Lemma pool_places m b i : pool_ok m -> (b, i) ∈ free_blocks_map m -> 0 <= i < Z.of_nat (length (free_pool m)).
Proof.
  intros Hm Hi. rewrite <- (Z.add_0_l (Z.of_nat _)). apply elem_of_seqZ. rewrite <- (po_places _ Hm). apply elem_of_app. left.
  apply list_elem_of_fmap. by exists (b, i).
Qed.

Lemma pool_NoDup m : pool_ok m -> base.NoDup (map snd (free_blocks_map m) ++ available_pos m).
Proof. intros Hm. rewrite (po_places _ Hm). apply NoDup_seqZ. Qed.

Lemma pool_index_inj m b b' i : pool_ok m -> (b, i) ∈ free_blocks_map m -> (b', i) ∈ free_blocks_map m -> b = b'.
Proof.
  intros Hm H1 H2. destruct (po_blocks _ Hm b i H1) as [E1 _]. destruct (po_blocks _ Hm b' i H2) as [E2 _]. congruence.
Qed.

Lemma remove_block_ok m l1 l2 b i :
  pool_ok m -> free_blocks_map m = l1 ++ (b, i) :: l2 ->
  let m' := remove_block b i (l1 ++ l2) m in
  pool_ok m' /\ (exists rest, available_pos m' = i :: rest)
  /\ forall b' i', (b', i') ∈ free_blocks_map m' -> (b', i') ∈ free_blocks_map m /\ i' <> i.
Proof.
  intros Hm E m'. assert ((b, i) ∈ free_blocks_map m) as Hin by (rewrite E; set_solver). pose proof (pool_places m b i Hm Hin) as Hi.
  pose proof (pool_NoDup m Hm) as Hnd. rewrite E, map_app in Hnd. cbn [map snd] in Hnd. rewrite <- app_assoc, <- app_comm_cons in Hnd.
  rewrite <- Permutation_middle in Hnd. apply list.NoDup_cons in Hnd as [Hni Hnd]. rewrite app_assoc, <- map_app in Hni.
  assert (forall b' i', (b', i') ∈ l1 ++ l2 -> (b', i') ∈ free_blocks_map m /\ i' <> i) as Hold.
  { intros b' i' H1. split; [rewrite E; set_solver|]. intros ->. apply Hni, elem_of_app. left. apply list_elem_of_fmap. by exists (b', i). }
  split; [|split; [by eexists|done]]. constructor; cbn.
  - unfold pool_set. rewrite length_insert, <- (po_places _ Hm), E, !map_app. cbn [map snd]. rewrite <- !app_assoc. f_equiv.
    rewrite <- app_comm_cons. by rewrite <- Permutation_middle.
  - pose proof (po_some _ Hm). unfold pool_set. destruct (free_pool m); [done|]. by destruct (Z.to_nat i).
  - intros b' i' H1. destruct (Hold b' i' H1) as [H2 H3]. pose proof (pool_places m b' i' Hm H2).
    unfold pool_set. rewrite list_lookup_insert_ne by lia. by apply (po_blocks _ Hm).
  - intros j [->|Hj]%elem_of_cons.
    + eexists. split; [unfold pool_set; apply list_lookup_insert_eq; lia|done].
    + destruct (po_free _ Hm j Hj) as (b' & Hb & H0). exists b'. split; [|done]. unfold pool_set.
      destruct (decide (Z.to_nat i = Z.to_nat j)) as [D|D]; [|by rewrite list_lookup_insert_ne].
      exfalso. rewrite <- D in Hb. destruct (po_blocks _ Hm b i Hin) as [Hb' Hp]. rewrite Hb in Hb'. injection Hb' as ->. lia.
Qed.

Lemma insert_block_ok b m :
  pool_ok m -> 0 < fb_size b ->
  exists m' i, insert_block b m = Ret m' /\ pool_ok m'
    /\ forall b' i', (b', i') ∈ free_blocks_map m' -> (b', i') = (b, i) \/ ((b', i') ∈ free_blocks_map m /\ i' <> i).
Proof.
  intros Hm Hb.
  assert (exists m1, (match available_pos m, free_blocks_map m with
                      | [], (b, i) :: rest => Ret (remove_block b i rest m) | [], [] => Overrun | _, _ => Ret m end) = Ret m1
            /\ pool_ok m1 /\ (exists i rest, available_pos m1 = i :: rest)
            /\ forall b' i', (b', i') ∈ free_blocks_map m1 -> (b', i') ∈ free_blocks_map m) as (m1 & E1 & Hm1 & (i & rest & E2) & Hsub).
  { destruct (available_pos m) as [|i rest] eqn:Ea.
    - destruct (free_blocks_map m) as [|[b' i'] l] eqn:El.
      + pose proof (po_places _ Hm) as Hp. rewrite El, Ea in Hp. apply Permutation_nil_l, (f_equal length) in Hp. rewrite length_seqZ in Hp.
        pose proof (po_some _ Hm). destruct (free_pool m); [done|]. cbn in Hp. lia.
      + destruct (remove_block_ok m [] l b' i' Hm El) as (H1 & (rest & H2) & H3). eexists. split; [reflexivity|]. split; [done|].
        split; [by eexists _, _|]. intros b2 i2 Hi2. rewrite <- El. by apply H3.
    - exists m. split; [done|]. split; [done|]. split; [by eexists _, _|done]. }
  unfold insert_block. rewrite (proj2 (Z.leb_gt _ _)) by done. rewrite E1. cbn [obind]. rewrite E2.
  eexists _, i. split; [reflexivity|]. pose proof (pool_NoDup m1 Hm1) as Hnd. rewrite E2, <- Permutation_middle in Hnd.
  apply list.NoDup_cons in Hnd as [Hni _].
  assert (forall b' i', (b', i') ∈ free_blocks_map m1 -> i' <> i) as Hne.
  { intros b' i' H1 ->. apply Hni, elem_of_app. left. apply list_elem_of_fmap. by exists (b', i). }
  assert (0 <= i < Z.of_nat (length (free_pool m1))) as Hi.
  { rewrite <- (Z.add_0_l (Z.of_nat _)). apply elem_of_seqZ. rewrite <- (po_places _ Hm1), E2. set_solver. }
  split; [constructor; cbn|].
  - unfold pool_set. rewrite length_insert, <- (po_places _ Hm1), E2, multimap_insert_perm. cbn [map snd]. by rewrite <- Permutation_middle.
  - pose proof (po_some _ Hm1). unfold pool_set. destruct (free_pool m1); [done|]. by destruct (Z.to_nat i).
  - intros b' i'. rewrite multimap_insert_perm. unfold pool_set. intros [[= -> ->]|H1]%elem_of_cons; [by rewrite list_lookup_insert_eq by lia|].
    pose proof (pool_places m1 b' i' Hm1 H1). pose proof (Hne _ _ H1). rewrite list_lookup_insert_ne by lia. by apply (po_blocks _ Hm1).
  - intros j Hj. destruct (po_free _ Hm1 j) as (b' & Hb' & H0); [rewrite E2; by right|]. exists b'. split; [|done]. unfold pool_set.
    pose proof (pool_NoDup m1 Hm1) as Hnd. rewrite E2 in Hnd. apply list.NoDup_app in Hnd as (_ & _ & Hnd).
    apply list.NoDup_cons in Hnd as [Hij _]. assert (0 <= j < Z.of_nat (length (free_pool m1))).
    { rewrite <- (Z.add_0_l (Z.of_nat _)). apply elem_of_seqZ. rewrite <- (po_places _ Hm1), E2. set_solver. }
    rewrite list_lookup_insert_ne; [done|]. intros D. apply Hij. by replace i with j by lia.
  - intros b' i'. cbn. rewrite multimap_insert_perm. intros [?|H1]%elem_of_cons; [by left|]. right. split; [by apply Hsub|by eapply Hne].
Qed.

Lemma lower_bound_ok size m :
  match lower_bound size m with
  | Some (l1, (b, i), l2) => m = l1 ++ (b, i) :: l2 /\ size <= fb_size b
  | None => True
  end.
Proof.
  induction m as [|[b i] m IH]; cbn; [done|]. destruct (Z.leb_spec size (fb_size b)); [done|].
  destruct (lower_bound size m) as [[[l1 [b' i']] l2]|]; [|done]. destruct IH as [-> ?]. done.
Qed.

(** ** The data file *)

(** What only concerns the pool and the sizes *)
Record same_trees (s s' : fdb_store) : Prop := {
  sm_index : index_file s' = index_file s;
  sm_buckets : buckets s' = buckets s;
  sm_chain : free_idx_head (header s') = free_idx_head (header s) /\ idx_file_size (header s') = idx_file_size (header s)
             /\ fb_power (header s') = fb_power (header s) /\ stat (header s') = stat (header s)
}.

Section space.
Context (sys : system) `{io_succeeds sys}.

Lemma record_at_same h h' o :
  idx_file_size h' = idx_file_size h -> fb_power h' = fb_power h -> record_at h o -> record_at h' o.
Proof. unfold record_at, records_start. by intros -> ->. Qed.

Lemma stored_other l n b o size :
  0 <= o -> stored_at l n -> DBHEADER_MAGIC_SIZE <= n_ext n -> Z.of_nat (length b) <= size -> Z.of_nat (length (node_bytes n)) <= n_size n ->
  apart o size (n_ext n) (n_size n) -> stored_at (put_bytes b o l) n.
Proof.
  intros Ho [H1 H2] Hm Hs Hn Hap. unfold DBHEADER_MAGIC_SIZE, apart in *. split.
  - rewrite bytes_at_put_other by lia. done.
  - rewrite length_put_bytes by done. lia.
Qed.

Definition block_ok (s : fdb_store) (T : Z -> tree) (x size off : Z) : Prop :=
  (DBHEADER_MAGIC_SIZE <= off /\ 0 < size < 2 ^ 24 /\ off + size <= dat_file_size (header s))
  /\ forall n, present T n -> n_off n <> x -> apart off size (n_ext n) (n_size n).

(** The layout when only the pool, the data file's size and its free bytes
    change *)
Lemma layout_same_trees s s' T fl x :
  layout s T fl x -> same_trees s s' -> data_geo (data_file s') -> pool_ok (fb_manager s') ->
  dat_file_size (header s) <= dat_file_size (header s') < 2 ^ 40 ->
  (forall n, present T n -> n_off n <> x -> stored_at (dat s') n) ->
  (forall b i, (b, i) ∈ free_blocks_map (fb_manager s') -> (b, i) ∈ free_blocks_map (fb_manager s)
     \/ block_ok s' T x (fb_size b) (fb_offset b)
        /\ forall b' i', (b', i') ∈ free_blocks_map (fb_manager s') -> i <> i' -> apart (fb_offset b) (fb_size b) (fb_offset b') (fb_size b')) ->
  layout s' T fl x.
Proof.
  intros Hl [Hi Hb (Hc1 & Hc2 & Hc3 & Hc4)] Hg Hpool Hd Hst Hbl. destruct Hl. unfold idx in *.
  assert (forall b i b' i', (b, i) ∈ free_blocks_map (fb_manager s') -> (b', i') ∈ free_blocks_map (fb_manager s') -> i <> i' ->
            apart (fb_offset b) (fb_size b) (fb_offset b') (fb_size b')) as Hap.
  { intros b i b' i' H1 H2 Hne. destruct (Hbl _ _ H1) as [O1|[_ O1]]; [|by apply (O1 b' i')].
    destruct (Hbl _ _ H2) as [O2|[_ O2]].
    - destruct (ly_pooled b i O1) as (_ & _ & _ & _ & O3). by apply (O3 b' i').
    - specialize (O2 b i H1 ltac:(done)). unfold apart in *. tauto. }
  constructor; rewrite ?Hi, ?Hb, ?Hc1, ?Hc2, ?Hc4; try done.
  - unfold idx. by rewrite Hi.
  - intros n Hn. destruct (ly_records n Hn) as [H1 H2]. split; [by apply (record_at_same (header s))|by rewrite Hi].
  - intros n Hn Hx. destruct (ly_fits n Hn Hx) as (H1 & _ & H2 & H3). split; [done|]. split; [auto|]. split; [done|lia].
  - intros b i Hbi. destruct (Hbl _ _ Hbi) as [O|[[Hr Hno] O]].
    + destruct (ly_pooled b i O) as (O1 & O2 & O3 & O4 & _). split; [done|]. split; [done|]. split; [lia|]. split; [done|]. intros b2 i2. by apply Hap.
    + destruct Hr as (R1 & R2 & R3). split; [done|]. split; [done|]. split; [done|]. split; [done|]. intros b2 i2. by apply Hap.
  - unfold idx. by rewrite Hi.
  - intros o Ho. destruct (ly_free_records o Ho) as [[H1 H2] H3]. split; [|done]. split; [by apply (record_at_same (header s))|by rewrite Hi].
  - unfold records_start in *. rewrite Hc3. destruct ly_sizes as (? & ? & ? & ?). split; [done|]. split; [done|]. split; [done|]. lia.
Qed.

Lemma free_data_ok s T fl x item :
  let size := ix_size (fmeta item) in let off := ix_offset (fmeta item) in
  layout s T fl x -> free_extent s T x size off -> FDB_ITEM_DATA_SIZE <= size ->
  exists s', free_data sys item s = Ret (set_fdata (deleted_data (fdata item)) item, s') /\ layout s' T fl x /\ same_trees s s'
    /\ header s' = header s /\ dat s' = put_bytes (meta_raw (deleted_data (fdata item))) off (dat s)
    /\ forall b, in_pool (fb_manager s') b -> in_pool (fb_manager s) b \/ b = mk_free_block size off.
Proof.
  intros size off Hly Hfe Hsz. pose proof (fe_range _ _ _ _ _ Hfe) as (Hr1 & Hr2 & Hr3). unfold DBHEADER_MAGIC_SIZE in Hr1.
  destruct (insert_block_ok (mk_free_block size off) (fb_manager s) (ly_pool _ _ _ _ Hly) ltac:(cbn; lia)) as (m' & i & E & Hm' & Hsub).
  set (b := meta_raw (deleted_data (fdata item))). set (s1 := set_fb_manager m' s). set (s2 := write_bytes b off s1).
  assert (length b = 28%nat) as Hlb by apply length_meta_raw.
  exists s2. split; [|split; [|split; [by constructor|split; [done|split; [done|]]]]].
  - unfold free_data. step_with (eq_refl : sget s = Ret (s, s)). step_with (slift_run _ m' s E).
    step_with (eq_refl : smodify (set_fb_manager m') s = Ret (tt, s1)). cbn [fdata set_fdata].
    rewrite (sbind_run _ _ s1 true s2); [done|]. apply (pwrite_data_run sys); [apply (ly_data _ _ _ _ Hly)|change (0 <= off); lia|rewrite length_meta_raw; lia].
  - apply (layout_same_trees s); [done|by constructor| |done| | |].
    + apply write_bytes_geo; [lia|]. apply (ly_data _ _ _ _ Hly).
    + destruct (ly_sizes _ _ _ _ Hly) as (_ & _ & _ & ? & ?). done.
    + intros n Hn Hx. destruct (ly_fits _ _ _ _ Hly n Hn Hx) as (Hf & Hs & Hm & _). change (stored_at (put_bytes b off (dat s)) n).
      apply (stored_other _ _ _ _ size); [lia|done|done| |apply (nf_size _ Hf)|by apply (fe_nodes _ _ _ _ _ Hfe)].
      rewrite Hlb. unfold FDB_ITEM_DATA_SIZE, sizeof_item_meta_info in Hsz. lia.
    + intros b' i' Hi'. destruct (Hsub b' i' Hi') as [[= -> ->]|[Ho Hne]]; [right|by left].
      assert (forall b'' i'', (b'', i'') ∈ free_blocks_map (fb_manager s2) -> i <> i'' -> apart off size (fb_offset b'') (fb_size b'')) as Hap.
      { intros b'' i'' Hi'' Hne. destruct (Hsub b'' i'' Hi'') as [[= -> ->]|[Ho _]]; [done|]. apply (fe_blocks _ _ _ _ _ Hfe). by exists i''. }
      split; [|exact Hap]. by split; [|apply (fe_nodes _ _ _ _ _ Hfe)].
  - intros b' [i' Hi']. destruct (Hsub b' i' Hi') as [[= -> ->]|[Ho _]]; [by right|left; by exists i'].
Qed.

(** An extent has been taken out of the pool, or off the end of the file. *)
Definition took (s s' : fdb_store) (size off : Z) : Prop :=
  dat s' = dat s /\ (forall b, in_pool (fb_manager s') b -> in_pool (fb_manager s) b)
  /\ (in_pool (fb_manager s) (mk_free_block size off) /\ dat_file_size (header s') = dat_file_size (header s)
      \/ off = dat_file_size (header s) /\ dat_file_size (header s') = off + size).

(** Room for data *)
Lemma new_data_ok s T fl x item :
  let m := fmeta item in
  layout s T fl x -> 0 < ix_size m < 2 ^ 24 -> dat_file_size (header s) + ix_size m < 2 ^ 40 ->
  exists size off s', new_data item s = Ret (set_fmeta (mk_item_index (left_ m) (right_ m) size off (ix_hashcode m)) item, s')
    /\ ix_size m <= size /\ layout s' T fl x /\ free_extent s' T x size off /\ same_trees s s'
    /\ dat_file_size (header s') <= dat_file_size (header s) + ix_size m
    /\ took s s' size off.
Proof.
  intros m Hly Hm Hroom. unfold new_data. step_with (eq_refl : sget s = Ret (s, s)). fold m. unfold search_block.
  pose proof (lower_bound_ok (ix_size m) (free_blocks_map (fb_manager s))) as Hlb. pose proof (ly_sizes _ _ _ _ Hly) as (_ & _ & _ & Hd1 & Hd2).
  destruct (lower_bound _ _) as [[[l1 [b i]] l2]|].
  - destruct Hlb as [E Hsz]. destruct (remove_block_ok _ l1 l2 b i (ly_pool _ _ _ _ Hly) E) as (Hp & _ & Hsub).
    assert ((b, i) ∈ free_blocks_map (fb_manager s)) as Hin by (rewrite E; set_solver).
    destruct (ly_pooled _ _ _ _ Hly b i Hin) as (R1 & R2 & R3 & R4 & R5).
    set (s1 := set_fb_manager (remove_block b i (l1 ++ l2) (fb_manager s)) s). exists (fb_size b), (fb_offset b), s1.
    split; [|split; [done|split; [|split; [|split; [by constructor|split; [cbn; lia|]]]]]].
    + unfold sbind, smodify, sret. cbn [obind]. fold s1. unfold set_extent. unfold DBHEADER_MAGIC_SIZE in R1. by rewrite !wrap_id by (unfold in_u; lia).
    + apply (layout_same_trees s); [done|by constructor|apply (ly_data _ _ _ _ Hly)|done|done|by apply (ly_fits _ _ _ _ Hly)|].
      intros b' i' H1. left. by apply Hsub.
    + constructor; [done|done|]. intros b' [i' H1]. destruct (Hsub b' i' H1) as [H2 H3]. by apply (R5 b' i').
    + split; [done|]. split; [intros b' [i' H1]; exists i'; by apply Hsub|]. left. split; [|done]. exists i. by destruct b.
  - set (s1 := set_header (set_dat_file_size (dat_file_size (header s) + ix_size m) (header s)) s).
    assert (dat_file_size (header s1) = dat_file_size (header s) + ix_size m) as Ed
      by (cbn; unfold DBHEADER_MAGIC_SIZE in Hd1; rewrite wrap_id by (unfold in_u; lia); done).
    exists (ix_size m), (dat_file_size (header s)), s1. split; [|split; [lia|split; [|split; [|split; [by constructor|split; [lia|]]]]]].
    + unfold sbind, smodify, sret. cbn [obind]. fold s1. unfold set_extent. unfold DBHEADER_MAGIC_SIZE in Hd1. by rewrite !wrap_id by (unfold in_u; lia).
    + apply (layout_same_trees s); [done|by constructor|apply (ly_data _ _ _ _ Hly)|apply (ly_pool _ _ _ _ Hly)|lia|by apply (ly_fits _ _ _ _ Hly)|].
      intros b' i' H1. by left.
    + constructor; [lia| |].
      * intros n Hn Hx. destruct (ly_fits _ _ _ _ Hly n Hn Hx) as (_ & _ & _ & ?). unfold apart. right. done.
      * intros b [i Hb]. right. by destruct (ly_pooled _ _ _ _ Hly b i Hb) as (_ & _ & ? & _).
    + split; [done|]. split; [done|]. right. split; [done|]. by rewrite Ed.
Qed.
End space.
