(* ===== verification/FdbLink.v ===== *)
(** * Linking and unlinking nodes, and writing their data

    The steps that change a tree of a bucket: a new node is hung where the
    search has ended, a node gets another extent, a node is taken out and its
    record goes to the free ones. *)

From S2P Require Import Prelude DataBuffer Util DataEntry MemPool MdbItem MemCache MdbManager TableManager Storage TairManager FdbFile FdbItems FdbBucket FdbTree FdbLayout FdbSteps FdbSpace.

Definition upd (T : Z -> tree) (b : Z) (t : tree) : Z -> tree := fun b' => if decide (b' = b) then t else T b'.

Lemma present_upd T b t n : present (upd T b t) n <-> n ∈ nodes t \/ exists b', b' <> b /\ n ∈ nodes (T b').
Proof.
  unfold present, upd. split.
  - intros [b' Hn]. case_decide; [by left|right; by exists b'].
  - intros [Hn|(b' & Hb & Hn)]; [exists b; by rewrite decide_True|exists b'; by rewrite decide_False].
Qed.

Lemma free_chain_frame i i' fl o : (forall o', o' ∈ fl -> i' !! o' = i !! o') -> free_chain i fl o -> free_chain i' fl o.
Proof.
  revert o. induction fl as [|o' fl IH]; intros o; cbn; [done|]. intros Hf (-> & H0 & m & Hm & Hs & Hc).
  split; [done|]. split; [done|]. exists m. rewrite Hf by set_solver. split; [done|]. split; [done|]. apply IH; [|done]. set_solver.
Qed.

Lemma in_offs n t : n ∈ nodes t -> n_off n ∈ offs t.
Proof. intros Hn. apply list_elem_of_fmap. by exists n. Qed.

(** ** One tree is changed *)

Record changed (s s' : fdb_store) (b o : Z) : Prop := {
  ch_index : index_geo (index_file s') /\ file_size (index_file s) <= file_size (index_file s');
  ch_data : data_file s' = data_file s;
  ch_pool : fb_manager s' = fb_manager s;
  ch_header : exists h, header s' = set_free_idx_head h (header s);
  ch_buckets : length (buckets s') = length (buckets s)
    /\ forall j, 0 <= j < FDB_BUCKET_NUMBER -> cell (buckets s') j = if decide (j = b) then o else cell (buckets s) j
}.

Lemma changed_record s s' b o r : changed s s' b o -> record_in s r -> record_in s' r.
Proof. intros [[_ Hi] _ _ [h Hh] _] [H1 H2]. split; [|lia]. rewrite Hh. apply H1. Qed.

Lemma layout_upd s s' T fl fl' x0 x b t' :
  layout s T fl x0 -> x0 = 0 \/ x0 = x -> changed s s' b (root t') ->
  in_index (idx s') t' -> sorted (nodes t') -> base.NoDup (offs t') ->
  (forall b' o, b' <> b -> o ∈ offs (T b') -> idx s' !! o = idx s !! o /\ (o ∉ offs t')) ->
  (forall n, n ∈ nodes t' -> key_hash (n_key n) mod FDB_BUCKET_NUMBER = b /\ record_in s' (n_off n) /\ (n_off n <> x -> n ∈ nodes (T b))) ->
  free_chain (idx s') fl' (free_idx_head (header s')) -> base.NoDup fl' ->
  (forall o, o ∈ fl' -> record_in s' o /\ (o ∉ offs t') /\ forall b', b' <> b -> o ∉ offs (T b')) ->
  layout s' (upd T b t') fl' x.
Proof.
  intros Hly Hx0 Hch Hi Hso Hnd Hother Hnodes Hfc Hfn Hfl. pose proof Hch as [[Hg Hsz] Hd Hp [h Hh] [Hbl Hbc]].
  assert (forall n, present (upd T b t') n -> n_off n <> x -> present T n /\ n_off n <> x0) as Hold.
  { intros n Hn Hx. apply present_upd in Hn. assert (present T n) as Hpn.
    { destruct Hn as [Hn|(b' & _ & Hn)]; [exists b; by apply (Hnodes n Hn)|by exists b']. }
    split; [done|]. pose proof (node_off_pos s T fl x0 Hly n Hpn). destruct Hx0 as [->| ->]; [lia|done]. }
  constructor; rewrite ?Hd, ?Hp, ?Hbl; try done.
  - apply (ly_data _ _ _ _ Hly).
  - apply (ly_pool _ _ _ _ Hly).
  - apply (ly_buckets _ _ _ _ Hly).
  - intros j Hj. rewrite Hbc by done. unfold upd. case_decide; [done|]. by apply (ly_roots _ _ _ _ Hly).
  - intros b'. unfold upd. case_decide as D; [done|]. destruct (ly_trees _ _ _ _ Hly b') as [H1 H2]. split; [|done].
    apply (in_index_frame (idx s)); [|done]. intros o Ho. by apply (Hother b').
  - intros b' n. unfold upd. case_decide as D; [subst; apply Hnodes|]. apply (ly_hash _ _ _ _ Hly).
  - intros n1 n2 H1 H2 E. apply present_upd in H1, H2. destruct H1 as [H1|(b1 & B1 & H1)], H2 as [H2|(b2 & B2 & H2)].
    + apply list_elem_of_lookup in H1 as [i1 H1], H2 as [i2 H2]. unfold offs in Hnd.
      assert (i1 = i2) as ->; [|congruence]. apply (NoDup_lookup _ i1 i2 (n_off n1) Hnd); [by rewrite list_lookup_fmap, H1|by rewrite list_lookup_fmap, H2, E].
    + exfalso. destruct (Hother b2 (n_off n2) B2 (in_offs _ _ H2)) as [_ Hf]. apply Hf. rewrite <- E. by apply in_offs.
    + exfalso. destruct (Hother b1 (n_off n1) B1 (in_offs _ _ H1)) as [_ Hf]. apply Hf. rewrite E. by apply in_offs.
    + apply (ly_offs _ _ _ _ Hly); [by exists b1|by exists b2|done].
  - intros n Hn. apply present_upd in Hn as [Hn|(b' & _ & Hn)]; [by apply Hnodes|]. apply (changed_record s _ b (root t')); [done|].
    apply (ly_records _ _ _ _ Hly). by exists b'.
  - intros n Hn Hx. destruct (Hold n Hn Hx) as [H1 H2]. destruct (ly_fits _ _ _ _ Hly n H1 H2) as (F1 & F2 & F3 & F4).
    unfold dat in *. rewrite Hd, Hh. done.
  - intros n1 n2 H1 H2 Ho X1 X2. destruct (Hold n1 H1 X1) as [P1 Y1], (Hold n2 H2 X2) as [P2 Y2]. by apply (ly_apart _ _ _ _ Hly).
  - intros bl i Hi'. destruct (ly_pooled _ _ _ _ Hly bl i Hi') as (P1 & P2 & P3 & P4 & P5). rewrite Hh.
    split; [done|]. split; [done|]. split; [done|]. split; [|done]. intros n Hn Hx. destruct (Hold n Hn Hx). by apply P4.
  - intros o Ho. destruct (Hfl o Ho) as (F1 & F2 & F3). split; [done|]. intros n Hn <-. apply present_upd in Hn as [Hn|(b' & B' & Hn)].
    + by apply F2, in_offs.
    + by apply (F3 b' B'), in_offs.
  - rewrite Hh. apply (ly_sizes _ _ _ _ Hly).
  - rewrite Hh. apply (ly_stat _ _ _ _ Hly).
Qed.

(** A record may be declared to be worked on. *)
Lemma layout_open s T fl n :
  layout s T fl 0 -> present T n ->
  layout s T fl (n_off n) /\ free_extent s T (n_off n) (n_size n) (n_ext n).
Proof.
  intros Hly Hn. pose proof (node_off_pos s T fl 0 Hly n Hn) as Hpos. pose proof Hly as Hl.
  assert (forall n', present T n' -> n_off n' <> 0) as H0 by (intros n' Hn'; pose proof (node_off_pos s T fl 0 Hl n' Hn'); lia).
  destruct (ly_fits _ _ _ _ Hl n Hn ltac:(lia)) as (F1 & F2 & F3 & F4). split.
  - destruct Hly. constructor; try done; [intros n' Hn' _; apply ly_fits; auto|intros; apply ly_apart; auto|].
    intros b i Hb. destruct (ly_pooled b i Hb) as (P1 & P2 & P3 & P4 & P5). split; [done|]. split; [done|]. split; [done|]. split; [|done]. auto.
  - constructor.
    + split; [done|]. split; [|done]. pose proof (nf_size _ F1) as Hs. rewrite length_node_bytes in Hs.
      unfold FDB_ITEM_DATA_SIZE, sizeof_item_meta_info in Hs. lia.
    + intros n' Hn' Hne. apply (ly_apart _ _ _ _ Hl); auto.
    + intros b [i Hb]. destruct (ly_pooled _ _ _ _ Hl b i Hb) as (_ & _ & _ & P4 & _). specialize (P4 n Hn ltac:(lia)). unfold apart in *. tauto.
Qed.

Lemma free_extent_upd s s' T b t' x0 x size off :
  free_extent s T x0 size off -> fb_manager s' = fb_manager s -> dat_file_size (header s') = dat_file_size (header s) ->
  (forall n, present (upd T b t') n -> n_off n <> x -> present T n /\ n_off n <> x0) -> free_extent s' (upd T b t') x size off.
Proof.
  intros [Hr Hn Hb] Hp Hh Hold. constructor; [by rewrite Hh| |by rewrite Hp].
  intros n Hn' Hx. destruct (Hold n Hn' Hx). by apply Hn.
Qed.

(** ** Places in a tree *)

Lemma offs_plug c t : offs (plug c t) ≡ₚ ctx_offs c ++ offs t.
Proof.
  unfold offs, ctx_offs. rewrite nodes_plug, !map_app, <- app_assoc. f_equiv. apply Permutation_app_comm.
Qed.

Lemma root_plug_cons f c t t' : root (plug (f :: c) t) = root (plug (f :: c) t').
Proof.
  cbn. assert (root (plug1 f t) = root (plug1 f t')) as E by (unfold plug1; by destruct (f_right f)). revert E.
  generalize (plug1 f t) (plug1 f t'). induction c as [|f' c IH]; intros u u' E; [done|]. cbn. apply IH.
  unfold plug1. destruct (f_right f'); cbn; done.
Qed.

(** The link from above is set. *)
Definition link_state (c : list frame) (b o : Z) (s : fdb_store) : fdb_store :=
  match c with
  | [] => set_buckets (<[Z.to_nat b := o]> (buckets s)) s
  | f :: _ => write_index (n_off (f_node f)) (relink (f_right f) o (default zero_index (idx s !! n_off (f_node f)))) s
  end.

Lemma link_state_idx c b o o0 s : around (idx s) c o0 -> idx (link_state c b o s) = hang c o (idx s).
Proof.
  destruct c as [|f c]; cbn; [done|]. intros (_ & E & _). rewrite E. apply map_eq. intros i. cbn.
  destruct (decide (i = n_off (f_node f))) as [->|D]; [by rewrite lookup_insert_eq, lookup_alter_eq, E|].
  by rewrite lookup_insert_ne, lookup_alter_ne.
Qed.

Lemma link_state_rest c b o s :
  index_geo (index_file s) ->
  index_geo (index_file (link_state c b o s)) /\ file_size (index_file s) <= file_size (index_file (link_state c b o s))
  /\ data_file (link_state c b o s) = data_file s /\ fb_manager (link_state c b o s) = fb_manager s
  /\ header (link_state c b o s) = header s.
Proof.
  intros Hg. destruct c as [|f c]; cbn; [done|]. by destruct (write_index_geo (n_off (f_node f))
    (relink (f_right f) o (default zero_index (idx s !! n_off (f_node f)))) s Hg) as (H1 & H2 & _).
Qed.

Section links.
Context (sys : system) `{io_succeeds sys}.
Context (s : fdb_store) (T : Z -> tree) (fl : list Z) (b : Z) (c : list frame) (t0 : tree).
Context (Hb : 0 <= b < FDB_BUCKET_NUMBER) (Ht : T b = plug c t0).

Lemma link_buckets x t' s1 :
  layout s T fl x -> buckets s1 = buckets s ->
  length (buckets (link_state c b (root t') s1)) = length (buckets s)
  /\ forall j, 0 <= j < FDB_BUCKET_NUMBER ->
       cell (buckets (link_state c b (root t') s1)) j = if decide (j = b) then root (plug c t') else cell (buckets s) j.
Proof.
  intros Hly E. pose proof (ly_buckets _ _ _ _ Hly) as Hl. destruct c as [|f c']; cbn [link_state].
  - cbn. rewrite E, length_insert. split; [done|]. intros j Hj. rewrite cell_insert by lia. repeat case_decide; congruence.
  - change (buckets (write_index _ _ s1)) with (buckets s1). rewrite E. split; [done|]. intros j Hj. case_decide as D; [|done]. subst j.
    rewrite (ly_roots _ _ _ _ Hly b Hb), Ht. apply root_plug_cons.
Qed.

(** The node above can be read. *)
Lemma parent_in x f c' : layout s T fl x -> c = f :: c' -> record_in s (n_off (f_node f)) /\ 0 < n_off (f_node f) < 2 ^ 32.
Proof.
  intros Hly ->. assert (present T (f_node f)) as Hp.
  { exists b. rewrite Ht, nodes_plug. cbn. destruct (f_right f); rewrite !elem_of_app; [rewrite list_elem_of_singleton|rewrite elem_of_cons]; tauto. }
  split; [by apply (ly_records _ _ _ _ Hly)|by apply (node_off_pos s T fl x Hly)].
Qed.

Lemma place_around x : layout s T fl x -> around (idx s) c (root t0) /\ in_index (idx s) t0 /\ base.NoDup (ctx_offs c ++ offs t0).
Proof.
  intros Hly. pose proof (proj1 (ly_trees _ _ _ _ Hly b)) as Hi. rewrite Ht in Hi. apply in_index_plug in Hi as [H1 H2].
  split; [done|]. split; [done|]. rewrite <- offs_plug, <- Ht. by apply (tree_offs_NoDup s T fl x).
Qed.

Lemma place_offs o : o ∈ ctx_offs c -> o ∈ offs (T b).
Proof. intros Ho. rewrite Ht, offs_plug, elem_of_app. by left. Qed.

Lemma set_bucket_run o s1 : length (buckets s1) = length (buckets s) -> Z.of_nat (length (buckets s)) = FDB_BUCKET_NUMBER ->
  set_bucket b o s1 = Ret (tt, set_buckets (<[Z.to_nat b := o]> (buckets s1)) s1).
Proof. intros E1 E2. unfold set_bucket. by rewrite set_at_run by lia. Qed.

(** A new node: its record is written and linked. *)
Lemma write_meta_new x item :
  layout s T fl x -> 0 < meta_offset item -> is_new item = true -> bucket_index item = b ->
  (parent_off item, is_right item) = parent c -> meta_offset item ∉ ctx_offs c ->
  write_meta sys item s = Ret (true, link_state c b (meta_offset item) (write_index (meta_offset item) (fmeta item) s)).
Proof.
  intros Hly H0 Hnew Hbi Hpar Hfresh. unfold write_meta, sassert. rewrite (proj2 (Z.ltb_lt 0 _) H0).
  set (s1 := write_index (meta_offset item) (fmeta item) s). pose proof (ly_index _ _ _ _ Hly) as Hg.
  destruct (write_index_geo (meta_offset item) (fmeta item) s Hg) as (Hg1 & Hsz & _). fold s1 in Hg1, Hsz.
  step_with (pwrite_meta_run sys (meta_offset item) (fmeta item) s Hg). rewrite Hnew. cbn [andb]. fold s1.
  pose proof (fun f c' => parent_in x f c' Hly) as Hpi. pose proof (fun o => set_bucket_run o s1 eq_refl (ly_buckets _ _ _ _ Hly)) as Hsb.
  destruct c as [|f c']; cbn [parent] in Hpar; injection Hpar as E1 E2; rewrite E1, ?E2, ?Hbi.
  - cbn [Z.ltb Z.compare]. by step_with (Hsb (meta_offset item)).
  - destruct (Hpi f c' eq_refl) as [[_ Hrd] Hpos]. rewrite (proj2 (Z.ltb_lt 0 _)) by lia.
    assert (n_off (f_node f) + FDB_ITEM_META_SIZE <= file_size (index_file s1)) as Hrd1 by lia.
    step_with (read_meta_run sys _ s1 Hg1 Hrd1). rewrite (pwrite_meta_run sys _ _ s1 Hg1). unfold link_state, relink. by destruct (f_right f).
Qed.
End links.

Lemma header_same h : h = set_free_idx_head (free_idx_head h) h.
Proof. by destruct h. Qed.

Lemma changed_links s T fl x b c t0 t' s1 :
  layout s T fl x -> 0 <= b < FDB_BUCKET_NUMBER -> T b = plug c t0 ->
  index_geo (index_file s1) -> file_size (index_file s) <= file_size (index_file s1) ->
  data_file s1 = data_file s -> fb_manager s1 = fb_manager s -> (exists h, header s1 = set_free_idx_head h (header s)) -> buckets s1 = buckets s ->
  changed s (link_state c b (root t') s1) b (root (plug c t')).
Proof.
  intros Hly Hb Ht Hg Hsz Hd Hp [h Hh] Hbk. destruct (link_state_rest c b (root t') s1 Hg) as (G1 & G2 & G3 & G4 & G5).
  destruct (link_buckets s T fl b c t0 Hb Ht x t' s1 Hly Hbk) as [B1 B2].
  constructor; [split; [done|lia]|congruence|congruence|exists h; congruence|done].
Qed.

(** What the trees of the other buckets and the free records see *)
Lemma hang_elsewhere s T fl x b c t0 o s1 :
  layout s T fl x -> T b = plug c t0 ->
  (forall b' o', b' <> b -> o' ∈ offs (T b') -> hang c o s1 !! o' = s1 !! o')
  /\ (forall o', o' ∈ fl -> hang c o s1 !! o' = s1 !! o').
Proof.
  intros Hly Ht. split.
  - intros b' o' Hb' Ho'. apply hang_other. intros Hc. apply (other_tree_offs s T fl x Hly b b' o' ltac:(done) (place_offs T b c t0 Ht _ Hc) Ho').
  - intros o' Ho'. apply hang_other. intros Hc. apply (free_not_in_tree s T fl x Hly o' b Ho' (place_offs T b c t0 Ht _ Hc)).
Qed.

Section new_node.
Context (sys : system) `{io_succeeds sys}.

Lemma link_new_ok s T fl b c n item :
  layout s T fl 0 -> 0 <= b < FDB_BUCKET_NUMBER -> T b = plug c Leaf ->
  Forall (fun m => key_lt (n_key m) (n_key n)) (before c) -> Forall (fun m => key_lt (n_key n) (n_key m)) (after c) ->
  key_hash (n_key n) mod FDB_BUCKET_NUMBER = b -> record_at (header s) (n_off n) -> 0 < n_off n ->
  (forall n', present T n' -> n_off n' <> n_off n) -> n_off n ∉ fl ->
  meta_offset item = n_off n -> fmeta item = index_of 0 0 n -> is_new item = true -> bucket_index item = b ->
  (parent_off item, is_right item) = parent c ->
  let T' := upd T b (plug c (Node Leaf n Leaf)) in
  exists s', write_meta sys item s = Ret (true, s') /\ layout s' T' fl (n_off n)
    /\ data_file s' = data_file s /\ fb_manager s' = fb_manager s /\ header s' = header s
    /\ forall m, present T' m -> n_off m <> n_off n -> present T m.
Proof.
  intros Hly Hb Ht Hbe Haf Hh Hrec H0 Hfresh Hfl E1 E2 E3 E4 E5 T'. pose proof (ly_index _ _ _ _ Hly) as Hg.
  destruct (place_around s T fl b c Leaf Ht 0 Hly) as (Har & _ & Hnd). cbn in Hnd. rewrite app_nil_r in Hnd.
  assert (forall b', n_off n ∉ offs (T b')) as Hno by (intros b' (n' & E & Hn')%list_elem_of_fmap; by apply (Hfresh n'); [exists b'|]).
  assert (n_off n ∉ ctx_offs c) as Hnc by (intros Hc; by apply (Hno b), (place_offs T b c Leaf Ht)).
  set (s1 := write_index (n_off n) (index_of 0 0 n) s). destruct (write_index_geo (n_off n) (index_of 0 0 n) s Hg) as (Hg1 & Hs1 & Hs2). fold s1 in Hg1, Hs1, Hs2.
  exists (link_state c b (n_off n) s1). split.
  { rewrite (write_meta_new sys s T fl b c Leaf Hb Ht 0 item Hly) by (congruence || (rewrite E1; done)). by rewrite E1, E2. }
  assert (around (idx s1) c 0) as Har1.
  { apply (around_frame (idx s)); [|done]. intros o Ho. change (idx s1) with (<[n_off n := index_of 0 0 n]> (idx s)). apply lookup_insert_ne. congruence. }
  assert (forall o, o ∈ offs (plug c (Node Leaf n Leaf)) <-> o ∈ ctx_offs c \/ o = n_off n) as Hoffs
    by (intros o; rewrite offs_plug, elem_of_app; unfold offs; cbn; rewrite list_elem_of_singleton; tauto).
  assert (forall o, o <> n_off n -> idx s1 !! o = idx s !! o) as Hidx1 by (intros o Ho; apply lookup_insert_ne; congruence).
  destruct (link_state_rest c b (n_off n) s1 Hg1) as (_ & Hfs & R3 & R4 & R5). destruct (hang_elsewhere s T fl 0 b c Leaf (n_off n) (idx s1) Hly Ht) as [Hel1 Hel2].
  assert (forall m, present T' m -> n_off m <> n_off n -> present T m) as Hold.
  { intros m Hm Hne. apply present_upd in Hm as [Hm|(b' & _ & Hm)]; [|by exists b']. exists b. rewrite Ht. rewrite nodes_plug in *. cbn in *.
    rewrite elem_of_app, elem_of_cons in *. destruct Hm as [?|[->|?]]; [by left|done|by right]. }
  split; [|by split; [|split; [|split]]]. pose proof (changed_links s T fl 0 b c Leaf (Node Leaf n Leaf) s1 Hly Hb Ht Hg1 Hs1 eq_refl eq_refl
    (ex_intro _ _ (header_same (header s))) eq_refl) as Hch. cbn [root] in Hch.
  apply (layout_upd s _ T fl fl 0 (n_off n) b); [done|by left|done| | | | | | | |]; rewrite ?(link_state_idx c b (n_off n) 0 s1 Har1), ?R5.
  - apply in_index_plug. split; [by apply (around_hang _ _ 0)|]. cbn. split; [done|]. split; [|done].
    rewrite hang_other by done. apply lookup_insert_eq.
  - rewrite nodes_plug. cbn. apply nodes_sorted_insert; [|done|done]. pose proof (proj2 (ly_trees _ _ _ _ Hly b)) as Hso. by rewrite Ht, nodes_plug in Hso.
  - rewrite offs_plug. unfold offs. cbn. apply list.NoDup_app. split; [done|]. split; [set_solver|]. repeat constructor. set_solver.
  - intros b' o Hb' Ho. rewrite (Hel1 b' o) by done. assert (o <> n_off n) by (intros ->; by apply (Hno b')). split; [by apply Hidx1|].
    rewrite Hoffs. intros [Hc| ->]; [|done]. by apply (other_tree_offs s T fl 0 Hly b b' o ltac:(done) (place_offs T b c Leaf Ht _ Hc)).
  - intros m Hm. rewrite nodes_plug in Hm. cbn in Hm. rewrite elem_of_app, elem_of_cons in Hm.
    assert (m = n \/ m ∈ nodes (T b)) as [->|Hm'] by (rewrite Ht, nodes_plug; cbn; set_solver).
    + split; [done|]. split; [|done]. split; [by rewrite R5|lia].
    + split; [by apply (ly_hash _ _ _ _ Hly)|]. split; [|done]. apply (changed_record s _ b _ _ Hch), (ly_records _ _ _ _ Hly). by exists b.
  - apply (free_chain_frame (idx s)); [|apply (ly_free _ _ _ _ Hly)]. intros o Ho. rewrite Hel2 by done. apply Hidx1. congruence.
  - apply (ly_free _ _ _ _ Hly).
  - intros o Ho. destruct (ly_free_records _ _ _ _ Hly o Ho) as [F1 F2]. split; [by apply (changed_record s _ b _ _ Hch)|].
    split; [|intros b' _; by apply (free_not_in_tree s T fl 0 Hly)]. rewrite Hoffs. intros [Hc| ->]; [|done].
    by apply (free_not_in_tree s T fl 0 Hly o b Ho), (place_offs T b c Leaf Ht).
Qed.
End new_node.
