(* ===== verification/FdbUnlink.v ===== *)
(** * Items rewritten, taken and given back

    A node gets another extent; data is written; a new item gets a record and
    an extent; a node is taken out of its tree. *)

From S2P Require Import Prelude DataBuffer Util DataEntry MemPool MdbItem MemCache MdbManager TableManager Storage TairManager FdbFile FdbItems FdbBucket FdbTree FdbLayout FdbSteps FdbTiles FdbSpace FdbLink.

Section update.
Context (sys : system) `{io_succeeds sys}.

(** ** Another extent for a node *)

Lemma update_meta_ok s T fl b c l n n' r item :
  layout s T fl (n_off n) -> 0 <= b < FDB_BUCKET_NUMBER -> T b = plug c (Node l n r) ->
  n_off n' = n_off n -> n_key n' = n_key n ->
  meta_offset item = n_off n -> fmeta item = index_of (root l) (root r) n' -> is_new item = false ->
  let T' := upd T b (plug c (Node l n' r)) in
  exists s', write_meta sys item s = Ret (true, s') /\ layout s' T' fl (n_off n)
    /\ data_file s' = data_file s /\ fb_manager s' = fb_manager s /\ header s' = header s
    /\ forall m, present T' m -> n_off m <> n_off n -> present T m.
Proof.
  intros Hly Hb Ht Eo Ek E1 E2 E3 T'. set (x := n_off n) in *. pose proof (ly_index _ _ _ _ Hly) as Hg.
  assert (n ∈ nodes (T b)) as Hn by (rewrite Ht, nodes_plug; cbn; set_solver).
  assert (present T n) as Hpn by by exists b. pose proof (node_off_pos s T fl x Hly n Hpn) as Hpos.
  destruct (place_around s T fl b c (Node l n r) Ht x Hly) as (Har & (_ & Hrec & Hil & Hir) & Hnd).
  set (s1 := write_index x (index_of (root l) (root r) n') s). destruct (write_index_geo x (index_of (root l) (root r) n') s Hg) as (Hg1 & Hs1 & Hs2).
  fold s1 in Hg1, Hs1, Hs2. exists s1. split.
  { unfold write_meta, sassert. rewrite E1, E2, (proj2 (Z.ltb_lt 0 _)) by (fold x in Hpos; lia). step_with (pwrite_meta_run sys x (index_of (root l) (root r) n') s Hg).
    rewrite E3. by rewrite andb_false_r. }
  assert (offs (plug c (Node l n' r)) ≡ₚ offs (T b)) as Hoffs.
  { rewrite Ht, !offs_plug. unfold offs. cbn. rewrite !map_app. cbn. by rewrite Eo. }
  assert (forall o, o <> x -> idx s1 !! o = idx s !! o) as Hidx by (intros o Ho; apply lookup_insert_ne; congruence).
  assert ((x ∉ ctx_offs c) /\ (x ∉ offs l) /\ (x ∉ offs r)) as (Hxc & Hxl & Hxr).
  { apply list.NoDup_app in Hnd as (_ & Hd & Hnd). unfold offs in Hd, Hnd |- *. cbn in Hd, Hnd. rewrite map_app in Hd, Hnd. cbn in Hd, Hnd.
    apply list.NoDup_app in Hnd as (_ & Hl & [Hr _]%list.NoDup_cons). split; [|split]; [intros Hc; by apply (Hd x Hc); set_solver|intros Hc; by apply (Hl x Hc); left|done]. }
  assert (forall m, present T' m -> n_off m <> x -> present T m) as Hold.
  { intros m Hm Hne. apply present_upd in Hm as [Hm|(b' & _ & Hm)]; [|by exists b']. exists b. rewrite Ht. rewrite nodes_plug in *. cbn in *.
    rewrite !elem_of_app, !elem_of_cons in *. destruct Hm as [?|[[?|[->|?]]|?]]; [tauto|tauto|congruence|tauto|tauto]. }
  split; [|done]. apply (layout_upd s s1 T fl fl x x b); [done|by right| | | | | | | | |].
  - constructor; [done|done|done|eexists; by apply header_same|]. split; [done|]. intros j Hj. case_decide as D; [|done]. subst j.
    change (buckets s1) with (buckets s). rewrite (ly_roots _ _ _ _ Hly b Hb), Ht. destruct c as [|f c']; [cbn; by rewrite Eo|apply root_plug_cons].
  - apply in_index_plug. split.
    + cbn [root]. rewrite Eo. apply (around_frame (idx s)); [|done]. intros o Ho. apply Hidx. congruence.
    + cbn. rewrite Eo. split; [apply Hpos|]. split; [apply lookup_insert_eq|]. split; (apply (in_index_frame (idx s)); [|done]; intros o Ho; apply Hidx; congruence).
  - pose proof (proj2 (ly_trees _ _ _ _ Hly b)) as Hso. rewrite Ht, nodes_plug in Hso. rewrite nodes_plug. unfold sorted in *. cbn in *.
    rewrite !map_app in *. cbn in *. by rewrite Ek.
  - rewrite Hoffs. by apply (tree_offs_NoDup s T fl x).
  - intros b' o Hb' Ho. assert (o ∉ offs (T b)) as Hno by (by apply (other_tree_offs s T fl x Hly b')). rewrite Hoffs. split; [|done].
    apply Hidx. intros ->. by apply Hno, in_offs.
  - intros m Hm. rewrite nodes_plug in Hm. cbn in Hm. rewrite !elem_of_app, elem_of_cons in Hm.
    assert (m = n' \/ m ∈ nodes (T b)) as [->|Hm'] by (rewrite Ht, nodes_plug; cbn; rewrite !elem_of_app, elem_of_cons; tauto).
    + rewrite Ek, Eo. split; [by apply (ly_hash _ _ _ _ Hly)|]. split; [|done]. destruct (ly_records _ _ _ _ Hly n Hpn). split; [done|]. fold x. lia.
    + split; [by apply (ly_hash _ _ _ _ Hly)|]. split; [|done]. destruct (ly_records _ _ _ _ Hly m) as [? ?]; [by exists b|]. split; [done|]. lia.
  - apply (free_chain_frame (idx s)); [|apply (ly_free _ _ _ _ Hly)]. intros o Ho. apply Hidx. intros ->.
    apply (free_not_in_tree s T fl x Hly x b Ho). by apply in_offs.
  - apply (ly_free _ _ _ _ Hly).
  - intros o Ho. destruct (ly_free_records _ _ _ _ Hly o Ho) as [[F1 F1'] F2]. split; [split; [done|lia]|]. rewrite Hoffs.
    split; [by apply (free_not_in_tree s T fl x Hly)|]. intros b' _. by apply (free_not_in_tree s T fl x Hly).
Qed.

(** ** Data *)

Lemma write_data_ok s T fl n item :
  layout s T fl (n_off n) -> present T n -> free_extent s T (n_off n) (n_size n) (n_ext n) -> node_fits n ->
  ix_size (fmeta item) = n_size n -> ix_offset (fmeta item) = n_ext n -> with_magic (fdata item) = n_data n ->
  fkey item = n_key n -> fvalue item = n_value n ->
  exists s', write_data sys item s = Ret ((true, set_fdata (n_data n) item), s') /\ layout s' T fl 0 /\ same_trees s s' /\ header s' = header s
    /\ dat s' = put_bytes (resize (Z.to_nat (n_size n)) 0 (node_bytes n)) (n_ext n) (dat s) /\ fb_manager s' = fb_manager s.
Proof.
  intros Hly Hn Hfe Hfit E1 E2 E3 E4 E5. pose proof (fe_range _ _ _ _ _ Hfe) as (R1 & R2 & R3). unfold DBHEADER_MAGIC_SIZE in R1.
  destruct (nf_key _ Hfit) as [K1 K2], (nf_value _ Hfit) as [V1 V2]. pose proof (nf_size _ Hfit) as Hsz.
  assert (keysize (fdata item) = keysize (n_data n) /\ valsize (fdata item) = valsize (n_data n)) as [Ek Ev] by (rewrite <- E3; done).
  set (b := resize (Z.to_nat (n_size n)) 0 (node_bytes n)).
  assert (length b = Z.to_nat (n_size n)) as Hlb by apply length_resize.
  assert (item_buffer item = Ret b) as Eb.
  { unfold item_buffer. rewrite E3, E4, E5, Ek, Ev, K1, V1, E1, !Nat2Z.id, !firstn_all. fold (node_bytes n). by rewrite (proj2 (Z.ltb_ge _ _)) by lia. }
  set (s1 := write_bytes b (n_ext n) s). exists s1. split; [|split; [|split; [by constructor|split; [done|split; done]]]].
  { unfold write_data, sassert. rewrite E2, (proj2 (Z.ltb_lt 0 _)) by lia. step_with (slift_run _ b s Eb).
    rewrite (sbind_run _ _ s true s1); [by rewrite E3|]. apply (pwrite_data_run sys); [apply (ly_data _ _ _ _ Hly)|lia|lia]. }
  assert (stored_at (dat s1) n) as Hst.
  { split.
    - change (dat s1) with (put_bytes b (n_ext n) (dat s)). rewrite bytes_at_put by lia. rewrite Z.sub_diag. unfold bytes_at. rewrite drop_0, Nat2Z.id.
      unfold b. rewrite resize_ge by lia. by rewrite take_app_length.
    - change (dat s1) with (put_bytes b (n_ext n) (dat s)). rewrite length_put_bytes by lia. lia. }
  assert (forall m, present T m -> n_off m <> n_off n -> stored_at (dat s1) m) as Hst2.
  { intros m Hm Hne. destruct (ly_fits _ _ _ _ Hly m Hm Hne) as (Hf & Hs & Ho & _). change (dat s1) with (put_bytes b (n_ext n) (dat s)).
    apply (stored_other _ _ _ _ (n_size n)); [lia|done|done|lia|apply (nf_size _ Hf)|by apply (fe_nodes _ _ _ _ _ Hfe)]. }
  pose proof (write_bytes_geo b (n_ext n) s ltac:(lia) (ly_data _ _ _ _ Hly)) as Hg.
  pose proof (fe_nodes _ _ _ _ _ Hfe) as Hap. pose proof (fe_blocks _ _ _ _ _ Hfe) as Hbl.
  assert (forall m, present T m -> n_off m = n_off n -> m = n) as Hsame by (intros m Hm Ho; by apply (ly_offs _ _ _ _ Hly)).
  destruct Hly. constructor; try done.
  - intros m Hm _. destruct (decide (n_off m = n_off n)) as [D|D]; [rewrite (Hsame m Hm D); done|].
    destruct (ly_fits m Hm D) as (F1 & _ & F3 & F4). split; [done|]. split; [by apply Hst2|done].
  - intros n1 n2 H1 H2 Hne _ _. destruct (decide (n_off n1 = n_off n)) as [D1|D1].
    + rewrite (Hsame n1 H1 D1) in *. by apply Hap.
    + destruct (decide (n_off n2 = n_off n)) as [D2|D2]; [|by apply ly_apart]. rewrite (Hsame n2 H2 D2) in *. specialize (Hap n1 H1 D1). unfold apart in *. tauto.
  - intros bl i Hi. destruct (ly_pooled bl i Hi) as (P1 & P2 & P3 & P4 & P5). split; [done|]. split; [done|]. split; [done|]. split; [|done].
    intros m Hm _. destruct (decide (n_off m = n_off n)) as [D|D]; [|by apply P4]. rewrite (Hsame m Hm D).
    assert (in_pool (fb_manager s) bl) as Hin by by exists i. specialize (Hbl bl Hin). unfold apart in *. tauto.
Qed.

(** ** Room for a new item *)

(** The files have grown by at most so much. *)
Definition grows (s s' : fdb_store) (d i : Z) : Prop :=
  dat_file_size (header s') <= dat_file_size (header s) + d /\ idx_file_size (header s') <= idx_file_size (header s) + i
  /\ fb_power (header s') = fb_power (header s).

Lemma grows_trans s1 s2 s3 d i d' i' : grows s1 s2 d i -> grows s2 s3 d' i' -> grows s1 s3 (d + d') (i + i').
Proof. unfold grows. lia. Qed.

Lemma grows_refl s d i : 0 <= d -> 0 <= i -> grows s s d i.
Proof. unfold grows. lia. Qed.

Lemma grows_le s s' d i d' i' : grows s s' d i -> d <= d' -> i <= i' -> grows s s' d' i'.
Proof. unfold grows. lia. Qed.

Lemma new_item_ok s T fl item :
  let m := fmeta item in
  layout s T fl 0 -> 0 < ix_size m < 2 ^ 24 -> dat_file_size (header s) + ix_size m < 2 ^ 40 ->
  idx_file_size (header s) + FDB_ITEM_META_SIZE < 2 ^ 32 ->
  exists o size off s' fl',
    new_item sys item s = Ret (set_fmeta (mk_item_index (left_ m) (right_ m) size off (ix_hashcode m)) (set_meta_offset o item), s')
    /\ ix_size m <= size /\ layout s' T fl' 0 /\ free_extent s' T 0 size off
    /\ record_at (header s') o /\ 0 < o /\ (forall n, present T n -> n_off n <> o) /\ (o ∉ fl')
    /\ grows s s' (ix_size m) FDB_ITEM_META_SIZE /\ took s s' size off.
Proof.
  intros m Hly Hm Hroom Hroom2. pose proof (ly_sizes _ _ _ _ Hly) as ((Z1 & Z2) & Z3 & Z4 & Z5). pose proof (records_start_pos _ Z4) as Hpos.
  assert (exists o h fl', (forall it, new_item sys it s = new_data (set_meta_offset o it) (set_header h s)) /\ layout (set_header h s) T fl' 0
    /\ record_at h o /\ 0 < o /\ (forall n, present T n -> n_off n <> o) /\ (o ∉ fl') /\ dat_file_size h = dat_file_size (header s)
    /\ idx_file_size h <= idx_file_size (header s) + FDB_ITEM_META_SIZE /\ fb_power h = fb_power (header s))
    as (o & h & fl' & E & Hly' & Hrec & H0 & Hfresh & Hfl & Hd & Hi & Hpw).
  { destruct (ly_free _ _ _ _ Hly) as [Hfc Hfn]. destruct fl as [|o fl'].
    - cbn in Hfc. exists (idx_file_size (header s)), (set_idx_file_size (idx_file_size (header s) + FDB_ITEM_META_SIZE) (header s)), [].
      assert (u32 (idx_file_size (header s) + FDB_ITEM_META_SIZE) = idx_file_size (header s) + FDB_ITEM_META_SIZE) as Ew
        by (apply wrap_id; unfold in_u, FDB_ITEM_META_SIZE in *; lia).
      split; [|split; [|split; [|split; [lia|split; [|split; [set_solver|split; [done|split; [cbn; lia|done]]]]]]]].
      + intros it. unfold new_item. step_with (eq_refl : sget s = Ret (s, s)). rewrite Hfc. cbn [negb Z.eqb]. unfold sbind at 1, sret at 1. cbn [obind Z.eqb].
        unfold sbind, sget, smodify, sret. cbn [obind]. by destruct s.
      + destruct Hly. constructor; try done.
        * intros n Hn. destruct (ly_records n Hn) as [(A1 & A2 & A3) A4]. split; [|done]. split; [done|]. split; [done|]. cbn. rewrite Ew. unfold FDB_ITEM_META_SIZE in *. lia.
        * intros o' Ho'. by apply elem_of_nil in Ho'.
        * cbn. rewrite Ew. unfold records_start in *. cbn. split; [unfold FDB_ITEM_META_SIZE in *; lia|]. split; [|done].
          unfold FDB_ITEM_META_SIZE in *. rewrite Z.add_sub_swap, <- Zplus_mod_idemp_r, Z.mod_same, Z.add_0_r by lia. done.
      + split; [done|]. split; [done|]. cbn. rewrite Ew. lia.
      + intros n Hn Heq. destruct (ly_records _ _ _ _ Hly n Hn) as [(_ & _ & A3) _]. unfold FDB_ITEM_META_SIZE in A3. lia.
    - cbn in Hfc. destruct Hfc as (Eo & Hne & rec & Hrec & Hsz & Hch). rewrite Eo in Hrec. destruct (ly_free_records _ _ _ _ Hly o ltac:(by left)) as [Hri Hno].
      destruct (record_readable s T _ 0 Hly o Hri) as (Hrd & Hop & _). apply list.NoDup_cons in Hfn as [Hnof Hfn].
      exists o, (set_free_idx_head (left_ rec) (header s)), fl'.
      split; [|split; [|split; [apply Hri|split; [done|split; [done|split; [done|split; [done|split; [cbn; unfold FDB_ITEM_META_SIZE; lia|done]]]]]]]].
      + intros it. unfold new_item. step_with (eq_refl : sget s = Ret (s, s)). rewrite Eo, (proj2 (Z.eqb_neq o 0)) by lia. cbn [negb].
        rewrite (sbind_run _ _ s o (set_header (set_free_idx_head (left_ rec) (header s)) s)).
        * rewrite (proj2 (Z.eqb_neq o 0)) by lia. done.
        * step_with (read_meta_run sys o s (ly_index _ _ _ _ Hly) Hrd). rewrite Hrec. cbn [default from_option id]. rewrite Hsz, Z.eqb_refl. done.
      + destruct Hly. constructor; try done. intros o' Ho'. apply ly_free_records. by right. }
  destruct (new_data_ok sys (set_header h s) T fl' 0 (set_meta_offset o item) Hly') as (size & off & s' & E2 & Hsz & Hl2 & Hfe & Hsm & Hdat & Htook); [done|cbn; rewrite Hd; done|].
  exists o, size, off, s', fl'. destruct (sm_chain _ _ Hsm) as (C1 & C2 & C3 & C4). cbn in C1, C2, C3, C4, Hdat, Hsz.
  split; [by rewrite E|]. split; [done|]. split; [done|]. split; [done|]. split; [by apply (record_at_same h)|]. split; [done|]. split; [done|]. split; [done|].
  split; [unfold m, grows in *; lia|]. unfold took in *. cbn in Htook. by rewrite Hd in Htook.
Qed.

(** ** Taking a node out *)

Lemma rightmost_run s t : index_geo (index_file s) -> forall fuel f m,
  in_index (idx s) t -> (forall o, o ∈ offs t -> o + FDB_ITEM_META_SIZE <= file_size (index_file s)) -> (length (nodes t) < fuel)%nat ->
  f_right f = true -> m = index_of (root (f_other f)) (root t) (f_node f) ->
  exists f' c', spine t [f] = f' :: c' /\ f_right f' = true
    /\ rightmost sys fuel (n_off (f_node f)) m s = Ret ((n_off (f_node f'), index_of (root (f_other f')) 0 (f_node f')), s).
Proof.
  intros Hg. cut (forall fuel f c m, in_index (idx s) t -> (forall o, o ∈ offs t -> o + FDB_ITEM_META_SIZE <= file_size (index_file s)) ->
    (length (nodes t) < fuel)%nat -> f_right f = true -> m = index_of (root (f_other f)) (root t) (f_node f) ->
    exists f' c', spine t (f :: c) = f' :: c' /\ f_right f' = true
      /\ rightmost sys fuel (n_off (f_node f)) m s = Ret ((n_off (f_node f'), index_of (root (f_other f')) 0 (f_node f')), s)).
  { intros Hc fuel f m. apply (Hc fuel f []). }
  induction t as [|a _ n r IH]; intros fuel f c m Hi Hrd Hf Hr ->; (destruct fuel as [|fuel]; [cbn in Hf; lia|]).
  - exists f, c. done.
  - destruct Hi as (H0 & Hn & Ha & Hir). unfold offs in *. cbn [nodes] in *. rewrite map_app in Hrd. cbn [map] in Hrd.
    rewrite length_app in Hf. cbn [length] in Hf.
    destruct (IH fuel (mk_frame true n a) (f :: c) _ Hir ltac:(intros; apply Hrd; set_solver) ltac:(lia) eq_refl eq_refl) as (f' & c' & E1 & E2 & E3).
    exists f', c'. split; [done|]. split; [done|]. cbn [rightmost index_of right_ root]. rewrite (proj2 (Z.ltb_lt 0 _) H0).
    step_with (read_meta_run sys (n_off n) s Hg (Hrd (n_off n) ltac:(set_solver))). rewrite Hn. exact E3.
Qed.

(** The subtrees become one. *)
Lemma joined_children_ok s T fl b c l n r :
  layout s T fl 0 -> T b = plug c (Node l n r) ->
  exists s', joined_children sys (index_of (root l) (root r) n) s = Ret (root (join l r), s')
    /\ in_index (idx s') (join l r) /\ (forall o, o ∉ offs l -> idx s' !! o = idx s !! o)
    /\ index_geo (index_file s') /\ file_size (index_file s) <= file_size (index_file s')
    /\ data_file s' = data_file s /\ fb_manager s' = fb_manager s /\ header s' = header s /\ buckets s' = buckets s.
Proof.
  intros Hly Ht. pose proof (ly_index _ _ _ _ Hly) as Hg. destruct (place_around s T fl b c _ Ht 0 Hly) as (_ & (H0 & Hn & Hil & Hir) & Hnd).
  apply list.NoDup_app in Hnd as (_ & _ & Hnd). unfold offs in Hnd. cbn in Hnd. rewrite map_app in Hnd. cbn in Hnd.
  apply list.NoDup_app in Hnd as (Hndl & Hlr & _). fold (offs l) in *.
  assert (forall o, o ∈ offs l -> o + FDB_ITEM_META_SIZE <= file_size (index_file s)) as Hrd.
  { intros o (n' & -> & Hn')%list_elem_of_fmap. apply (ly_records _ _ _ _ Hly). exists b. rewrite Ht, nodes_plug. cbn. set_solver. }
  assert (length (nodes l) <= base.size (idx s))%nat as Hsz.
  { etrans; [|apply (tree_size s T fl 0 Hly b)]. rewrite Ht, nodes_plug. cbn. rewrite !length_app. lia. }
  unfold joined_children. cbn [index_of left_ right_]. destruct l as [|a n0 r0].
  { exists s. cbn [root join Z.ltb Z.compare andb]. split; [|done]. destruct r as [|a n' r']; [done|]. destruct Hir as [Hp _]. cbn [root].
    by rewrite (proj2 (Z.ltb_lt 0 _) Hp). }
  pose proof Hil as (Hp & Hn0 & Ha & Hr0). cbn [root]. rewrite (proj2 (Z.ltb_lt 0 _) Hp), (proj2 (Z.ltb_ge (n_off n0) 1)) by lia.
  destruct r as [|a' n' r'].
  { exists s. by rewrite join_leaf. }
  pose proof Hir as [Hp' _]. cbn [root]. rewrite (proj2 (Z.ltb_ge (n_off n') 1)) by lia. cbn [andb]. set (r := Node a' n' r') in *. change (n_off n') with (root r).
  cbn [nodes] in Hsz. rewrite length_app in Hsz. cbn [length] in Hsz. set (l := Node a n0 r0) in *.
  assert (forall o, o ∈ offs r0 \/ o = n_off n0 -> o ∈ offs l) as Hsub by (unfold offs, l; cbn; rewrite map_app; cbn; set_solver).
  destruct (rightmost_run s r0 Hg (base.size (idx s)) (mk_frame true n0 a) (index_of (root a) (root r0) n0) Hr0 ltac:(auto) ltac:(lia) eq_refl eq_refl)
    as (f' & c' & E1 & E2 & E3).
  pose proof (proj1 (in_index_plug (idx s) (spine l []) Leaf)) as Har. rewrite plug_spine, join_leaf in Har. destruct (Har Hil) as [Har' _]. clear Har.
  assert (ctx_offs (spine l []) ≡ₚ offs l) as Hctx by (unfold ctx_offs; rewrite nodes_spine; done).
  pose proof (around_hang _ _ _ (root r) (ltac:(rewrite Hctx; done) : base.NoDup (ctx_offs (spine l []))) Har') as Har.
  change (spine l []) with (spine r0 [mk_frame true n0 a]) in *. rewrite E1 in *.
  assert (n_off (f_node f') ∈ offs l) as Hof.
  { rewrite <- Hctx. unfold ctx_offs. cbn. rewrite E2, !map_app, !elem_of_app. set_solver. }
  set (s1 := link_state (f' :: c') b (root r) s). destruct (link_state_rest (f' :: c') b (root r) s Hg) as (G1 & G2 & G3 & G4 & G5). fold s1 in G1, G2, G3, G4, G5.
  pose proof (link_state_idx (f' :: c') b (root r) 0 s Har') as Ei. fold s1 in Ei. exists s1. split.
  { step_with (eq_refl : sget s = Ret (s, s)). fold (idx s).
    rewrite (sbind_run _ _ s (n_off (f_node f'), index_of (root (f_other f')) 0 (f_node f')) s).
    - destruct Har' as (Hp1 & Hm & _). rewrite E2 in Hm. rewrite (sbind_run _ _ s true s1); [done|]. unfold write_meta, sassert. cbn [meta_offset meta_item set_meta_offset].
      rewrite (proj2 (Z.ltb_lt 0 _) Hp1). step_with (pwrite_meta_run sys (n_off (f_node f')) (set_right (root r) (index_of (root (f_other f')) 0 (f_node f'))) s Hg).
      cbn. unfold s1, link_state, relink. by rewrite Hm, E2.
    - cbn [rightmost set_right right_ zero_index left_ ix_size ix_offset ix_hashcode]. rewrite (proj2 (Z.ltb_lt 0 _) Hp).
      step_with (read_meta_run sys (n_off n0) s Hg (Hrd _ (Hsub _ (or_intror eq_refl)))). rewrite Hn0. exact E3. }
  rewrite Ei. split; [|split; [|done]].
  - change (join l r) with (plug [] (join l r)). rewrite <- plug_spine. change (spine l []) with (spine r0 [mk_frame true n0 a]). rewrite E1. apply in_index_plug. split; [done|].
    apply (in_index_frame (idx s)); [|done]. intros o Ho. apply hang_other. rewrite Hctx. intros Hol. apply (Hlr o Hol). by right.
  - intros o Ho. apply hang_other. by rewrite Hctx.
Qed.

Lemma write_old_meta_run s o m : index_geo (index_file s) -> 0 < o -> write_meta sys (meta_item o m) s = Ret (true, write_index o m s).
Proof.
  intros Hg Ho. unfold write_meta, sassert. cbn [meta_item meta_offset set_meta_offset fmeta set_fmeta is_new new_fdb_item].
  rewrite (proj2 (Z.ltb_lt 0 _) Ho). step_with (pwrite_meta_run sys o m s Hg). done.
Qed.

Lemma relink_parent_run s s1 T fl b c t0 o item :
  layout s T fl 0 -> 0 <= b < FDB_BUCKET_NUMBER -> T b = plug c t0 ->
  index_geo (index_file s1) -> file_size (index_file s) <= file_size (index_file s1) -> buckets s1 = buckets s ->
  bucket_index item = b -> (parent_off item, is_right item) = parent c -> 0 <= o < 2 ^ 32 ->
  relink_parent sys item o s1 = Ret (tt, link_state c b o s1).
Proof.
  intros Hly Hb Ht Hg Hsz Hbk Hbi Hpar Ho. unfold relink_parent. rewrite (wrap_id 32 o) by (unfold in_u; lia). rewrite Hbi.
  pose proof (fun f c' => parent_in s T fl b c t0 Hb Ht 0 f c' Hly) as Hpi.
  pose proof (set_bucket_run s b Hb o s1 ltac:(congruence) (ly_buckets _ _ _ _ Hly)) as Hsb.
  destruct c as [|f c']; cbn [parent] in Hpar; injection Hpar as E1 E2; rewrite E1, ?E2; [exact Hsb|].
  destruct (Hpi f c' eq_refl) as [[_ Hrd] Hpos]. rewrite (proj2 (Z.ltb_lt 0 _)) by lia.
  step_with (read_meta_run sys (n_off (f_node f)) s1 Hg ltac:(lia)).
  rewrite (sbind_run _ _ s1 true (link_state (f :: c') b o s1)); [done|]. rewrite write_old_meta_run by (done || lia).
  cbn [link_state]. unfold relink. by destruct (f_right f).
Qed.

Lemma sorted_remove c l n r :
  sorted (nodes (plug c (Node l n r))) -> sorted (nodes (plug c (join l r))).
Proof.
  rewrite !nodes_plug, nodes_join. cbn. change (n :: nodes r) with ([n] ++ nodes r).
  rewrite !sorted_app. intros (Hb & ((Hl & ((_ & Hr & _) & Hlr)) & Ha & Hna) & Hbn).
  split; [done|]. split.
  - split; [|split; [done|]].
    + split; [done|]. split; [done|]. intros n1 n2 H1 H2. apply Hlr; [done|]. by right.
    + intros n1 n2 H1 H2. apply Hna; [|done]. set_solver.
  - intros n1 n2 H1 H2. apply Hbn; [done|]. set_solver.
Qed.

Lemma unlink_ok s T fl b c l n r item :
  layout s T fl 0 -> 0 <= b < FDB_BUCKET_NUMBER -> T b = plug c (Node l n r) ->
  meta_offset item = n_off n -> fmeta item = index_of (root l) (root r) n -> bucket_index item = b ->
  (parent_off item, is_right item) = parent c ->
  let T' := upd T b (plug c (join l r)) in
  exists s', free_meta sys item s = Ret (tt, s') /\ layout s' T' (n_off n :: fl) 0 /\ free_extent s' T' 0 (n_size n) (n_ext n)
    /\ data_file s' = data_file s /\ fb_manager s' = fb_manager s /\ header s' = set_free_idx_head (n_off n) (header s).
Proof.
  intros Hly Hb Ht E1 E2 E3 E4 T'. set (x := n_off n) in *.
  assert (n ∈ nodes (T b)) as Hn by (rewrite Ht, nodes_plug; cbn; set_solver).
  assert (present T n) as Hpn by by exists b. pose proof (node_off_pos s T fl 0 Hly n Hpn) as Hpos. fold x in Hpos.
  destruct (joined_children_ok s T fl b c l n r Hly Ht) as (s1 & Ej & Hi1 & Hother & Hg1 & Hs1 & Hd1 & Hp1 & Hh1 & Hb1).
  destruct (place_around s T fl b c _ Ht 0 Hly) as (Har & _ & Hnd). cbn [root] in Har. fold x in Har.
  assert (offs (Node l n r) = offs l ++ x :: offs r) as Eoffs by (unfold offs; cbn; by rewrite map_app).
  assert (offs (join l r) = offs l ++ offs r) as Ejoffs by (unfold offs; by rewrite nodes_join, map_app).
  rewrite Eoffs in Hnd. apply list.NoDup_app in Hnd as (Hndc & Hcd & Hnd). apply list.NoDup_app in Hnd as (Hndl & Hlr & [Hxr Hndr]%list.NoDup_cons).
  assert (x ∉ ctx_offs c) as Hxc by (intros Hc; apply (Hcd x Hc); set_solver).
  assert (x ∉ offs l) as Hxl by (intros Hl; apply (Hlr x Hl); set_solver).
  assert (0 <= root (join l r) < 2 ^ 32) as Hroot.
  { destruct (join l r) as [|a n' d] eqn:E; cbn [root]; [lia|].
    assert (n' ∈ nodes (join l r)) as Hn' by (rewrite E; cbn; set_solver). rewrite nodes_join in Hn'.
    assert (present T n') as Hp' by (exists b; rewrite Ht, nodes_plug; cbn; set_solver).
    pose proof (node_off_pos s T fl 0 Hly n' Hp'). lia. }
  pose proof (relink_parent_run s s1 T fl b c _ (root (join l r)) item Hly Hb Ht Hg1 Hs1 Hb1 E3 E4 Hroot) as Er.
  pose proof (changed_links s T fl 0 b c _ (join l r) s1 Hly Hb Ht Hg1 Hs1 Hd1 Hp1
    (ex_intro _ _ (eq_trans Hh1 (header_same (header s)))) Hb1) as Hch.
  assert (around (idx s1) c x) as Har1.
  { apply (around_frame (idx s)); [|done]. intros o Ho. apply Hother. intros Hol. apply (Hcd o Ho). set_solver. }
  pose proof (link_state_idx c b (root (join l r)) x s1 Har1) as Ei.
  destruct (link_state_rest c b (root (join l r)) s1 Hg1) as (Hg2 & Hs2 & Hd2 & Hp2 & Hh2).
  set (s2 := link_state c b (root (join l r)) s1) in *. set (s3 := set_header (set_free_idx_head x (header s2)) s2).
  set (rec := set_left (free_idx_head (header s)) zero_index).
  destruct (write_index_geo x rec s3 Hg2) as (Hg4 & Hs4 & _). set (s4 := write_index x rec s3) in *.
  assert (header s4 = set_free_idx_head x (header s)) as Hh4 by (change (header s4) with (set_free_idx_head x (header s2)); congruence).
  assert (idx s4 = <[x := rec]> (hang c (root (join l r)) (idx s1))) as Ei4 by (rewrite <- Ei; done).
  assert (forall o, o ∈ offs (plug c (join l r)) <-> o ∈ ctx_offs c \/ o ∈ offs l \/ o ∈ offs r) as Hoffs
    by (intros o; rewrite offs_plug, elem_of_app, Ejoffs, elem_of_app; done).
  assert (forall o, o ∈ offs (plug c (join l r)) -> o ∈ offs (T b) /\ o <> x) as Hoffs2.
  { intros o Ho%Hoffs. rewrite Ht, offs_plug, Eoffs. split; [set_solver|]. intros ->. tauto. }
  assert (forall m, m ∈ nodes (plug c (join l r)) -> m ∈ nodes (T b) /\ n_off m <> x) as Hnodes.
  { intros m Hm. split; [|by apply Hoffs2, in_offs]. rewrite Ht, nodes_plug in *. rewrite nodes_join in Hm. cbn. set_solver. }
  destruct (hang_elsewhere s T fl 0 b c _ (root (join l r)) (idx s1) Hly Ht) as [Hel1 Hel2].
  assert (forall o, o ∈ offs l -> o ∈ offs (T b)) as Hlb by (intros o Ho; rewrite Ht, offs_plug, Eoffs; set_solver).
  assert (forall m, present T' m -> n_off m <> 0 -> present T m /\ n_off m <> x) as Hold.
  { intros m Hm _. apply present_upd in Hm as [Hm|(b' & Hb' & Hm)].
    - destruct (Hnodes m Hm). split; [by exists b|done].
    - split; [by exists b'|]. intros Hx. apply (other_tree_offs s T fl 0 Hly b' b (n_off m) Hb' (in_offs _ _ Hm)). rewrite Hx. by apply in_offs. }
  exists s4. split; [|split; [|split; [|split; [|split]]]]; [| | | | |done].
  { unfold free_meta. rewrite E2. step_with Ej. step_with Er. step_with (eq_refl : sget s2 = Ret (s2, s2)). rewrite E1.
    step_with (eq_refl : smodify (set_header (set_free_idx_head x (header s2))) s2 = Ret (tt, s3)).
    rewrite Hh2, Hh1. fold rec. by step_with (write_old_meta_run s3 x rec Hg2 ltac:(lia)). }
  - apply (layout_upd s s4 T fl (x :: fl) 0 0 b); [done|by left| | | | | | | | |].
    + destruct Hch as [[_ Hs] Hd Hp [h Hh] [Hb1' Hb2]]. constructor; [split; [done|]|done|done|by exists x|done].
      change (file_size (index_file s2)) with (file_size (index_file s3)) in *. lia.
    + rewrite Ei4. apply in_index_insert; [intros Hx; by apply Hoffs2 in Hx as [_ ?]|]. apply in_index_plug. split; [by apply (around_hang _ _ x)|].
      apply (in_index_frame (idx s1)); [|done]. intros o Ho. apply hang_other. intros Hc. apply (Hcd o Hc). rewrite Ejoffs in Ho. set_solver.
    + apply (sorted_remove c l n r). rewrite <- Ht. apply (ly_trees _ _ _ _ Hly).
    + rewrite offs_plug, Ejoffs. apply list.NoDup_app. split; [done|]. split; [intros o Ho; specialize (Hcd o Ho); set_solver|].
      apply list.NoDup_app. split; [done|]. split; [intros o Ho; specialize (Hlr o Ho); set_solver|done].
    + intros b' o Hb' Ho. assert (o ∉ offs (T b)) as Hno by (by apply (other_tree_offs s T fl 0 Hly b')). split.
      * rewrite Ei4, lookup_insert_ne by (intros <-; by apply Hno, in_offs). rewrite (Hel1 b' o Hb' Ho). apply Hother. intros Hl. by apply Hno, Hlb.
      * intros Hf. by apply Hoffs2 in Hf as [? _].
    + intros m Hm. destruct (Hnodes m Hm) as [Hm' Hmx]. split; [by apply (ly_hash _ _ _ _ Hly)|]. split; [|done].
      destruct (ly_records _ _ _ _ Hly m) as [? ?]; [by exists b|]. split; [by rewrite Hh4|]. change (file_size (index_file s3)) with (file_size (index_file s2)) in *. lia.
    + rewrite Hh4, Ei4. cbn. split; [done|]. split; [lia|]. exists rec. split; [apply lookup_insert_eq|]. split; [done|].
      apply (free_chain_frame (idx s)); [|apply (ly_free _ _ _ _ Hly)]. intros o Ho. pose proof (free_not_in_tree s T fl 0 Hly o b Ho) as Hnb.
      rewrite lookup_insert_ne by (intros <-; by apply Hnb, in_offs). rewrite (Hel2 o Ho). apply Hother. intros Hl. by apply Hnb, Hlb.
    + apply list.NoDup_cons. split; [|apply (ly_free _ _ _ _ Hly)]. intros Hx. apply (free_not_in_tree s T fl 0 Hly x b Hx). by apply in_offs.
    + intros o Ho. assert (record_in s o /\ (o ∉ offs (plug c (join l r))) /\ (forall b', b' <> b -> o ∉ offs (T b'))) as ([R1 R2] & R3 & R4).
      { apply elem_of_cons in Ho as [->|Ho].
        - split; [by apply (ly_records _ _ _ _ Hly)|]. split; [intros Hf; by apply Hoffs2 in Hf as [_ ?]|].
          intros b' Hb' Hf. by apply (other_tree_offs s T fl 0 Hly b' b x Hb' Hf), in_offs.
        - destruct (ly_free_records _ _ _ _ Hly o Ho) as [F1 _]. split; [done|].
          split; [intros Hf; apply Hoffs2 in Hf as [Hf _]; by apply (free_not_in_tree s T fl 0 Hly o b Ho)|].
          intros b' _. by apply (free_not_in_tree s T fl 0 Hly). }
      split; [|done]. split; [by rewrite Hh4|]. change (file_size (index_file s3)) with (file_size (index_file s2)) in *. lia.
  - apply (free_extent_upd s s4 T b _ (n_off n) 0 _ _ (proj2 (layout_open s T fl n Hly Hpn))); [| |done].
    + change (fb_manager s4) with (fb_manager s2). congruence.
    + by rewrite Hh4.
  - change (data_file s4) with (data_file s2). congruence.
  - change (fb_manager s4) with (fb_manager s2). congruence.
Qed.
End update.
