(* ===== verification/FdbEngine.v ===== *)
(** * What a bucket of the disk engine promises

    The entries of a bucket are a map from keys to values with their version,
    flag and dates; put, get and remove of [FdbBucket] do to the files what
    [spec_put], [spec_get] and [spec_remove] do to the map. *)

From S2P Require Import Prelude DataBuffer Util DataEntry MemPool MdbItem MemCache MdbManager TableManager Storage TairManager FdbFile FdbItems FdbBucket FdbTree FdbLayout FdbSteps FdbTiles FdbSpace FdbLink FdbUnlink.

(** ** Entries *)

Record fdb_entry := mk_fdb_entry { e_value : list Z; e_version : Z; e_flag : Z; e_cdate : Z; e_mdate : Z; e_edate : Z }.

Definition entry_of (n : node) : fdb_entry :=
  mk_fdb_entry (n_value n) (mversion (n_data n)) (flag (n_data n)) (cdate (n_data n)) (mdate (n_data n)) (edate (n_data n)).
Definition entry_expired (now : Z) (e : fdb_entry) : bool := negb (e_edate e =? 0) && (e_edate e <? u32 now).

Definition holds (T : Z -> tree) (m : gmap (list Z) fdb_entry) : Prop :=
  forall k e, m !! k = Some e <-> exists n, present T n /\ n_key n = k /\ entry_of n = e.

(** The version a client presents is not the stored one. *)
Definition version_refused (version_care : bool) (key : data_entry) (e : fdb_entry) : bool :=
  version_care && negb (get_version key =? 0) && negb (get_version key =? e_version e).

Definition spec_get (now : Z) (key : data_entry) (m : gmap (list Z) fdb_entry) : Z * option fdb_entry * gmap (list Z) fdb_entry :=
  match m !! get_data key with
  | None => (TAIR_RETURN_DATA_NOT_EXIST, None, m)
  | Some e => if entry_expired now e then (TAIR_RETURN_DATA_EXPIRED, None, delete (get_data key) m)
              else (TAIR_RETURN_SUCCESS, Some e, m)
  end.

Definition spec_remove (key : data_entry) (version_care : bool) (m : gmap (list Z) fdb_entry) : Z * gmap (list Z) fdb_entry :=
  match m !! get_data key with
  | None => (TAIR_RETURN_DATA_NOT_EXIST, m)
  | Some e => if version_refused version_care key e then (TAIR_RETURN_VERSION_ERROR, m)
              else (TAIR_RETURN_SUCCESS, delete (get_data key) m)
  end.

(** An expired entry is overwritten whatever the version; what is written goes
    on from its version all the same, but is created anew. *)
Definition spec_put (now : Z) (key value : data_entry) (version_care : bool) (expire_time : Z) (m : gmap (list Z) fdb_entry)
    : Z * gmap (list Z) fdb_entry :=
  let '(created, modified, expires) := put_dates now key version_care expire_time in
  let written (old : Z) (created : Z) : fdb_entry :=
    mk_fdb_entry (get_data value) (if version_care then u16 (old + 1) else get_version key) (flag (data_meta value))
      (u32 created) (u32 modified) (u32 expires) in
  match m !! get_data key with
  | None => (TAIR_RETURN_SUCCESS, <[get_data key := written 0 created]> m)
  | Some e =>
      if negb (entry_expired now e) && version_refused version_care key e then (TAIR_RETURN_VERSION_ERROR, m)
      else (TAIR_RETURN_SUCCESS,
            <[get_data key := written (e_version e) (if entry_expired now e then created else s32 (e_cdate e))]> m)
  end.

(** ** Files that hold a map *)

(** [whole]: every extent of the data file is accounted for, too. *)
Definition engine_state (whole : bool) (s : fdb_store) (m : gmap (list Z) fdb_entry) : Prop :=
  exists T fl, layout s T fl 0 /\ holds T m /\ (whole = true -> tiling s T 0 None).

Section holding.
Context (s : fdb_store) (T : Z -> tree) (fl : list Z) (Hly : layout s T fl 0).

Lemma key_place k :
  let b := key_hash k mod FDB_BUCKET_NUMBER in
  let '(c, t) := search k (T b) [] in
  T b = plug c t /\ Forall (fun n => key_lt (n_key n) k) (before c) /\ Forall (fun n => key_lt k (n_key n)) (after c)
  /\ match t with
     | Leaf => forall n, present T n -> n_key n <> k
     | Node _ n _ => n_key n = k /\ forall n', present T n' -> n_key n' = k -> n' = n
     end.
Proof.
  intros b. pose proof (search_plug k (T b) []) as Hp. pose proof (proj2 (ly_trees _ _ _ _ Hly b)) as Hso.
  pose proof (search_found k (T b) [] Hso ltac:(constructor) ltac:(constructor)) as Hf. destruct (search k (T b) []) as [c t].
  destruct Hf as (Hk & Hb & Ha). cbn in Hp. split; [done|]. split; [done|]. split; [done|].
  assert (forall n, present T n -> n_key n = k -> n ∈ nodes (T b)) as Hin.
  { intros n [b' Hn] E. pose proof (ly_hash _ _ _ _ Hly b' n Hn) as Hh. rewrite E in Hh. by rewrite <- Hh in Hn. }
  destruct t as [|l n r].
  - intros n Hn E. pose proof (Hin n Hn E) as H'. rewrite <- Hp, nodes_plug in H'. cbn in H'. rewrite list.Forall_forall in Hb, Ha.
    apply (key_lt_irrefl k). rewrite <- E at 1 || rewrite <- E. apply elem_of_app in H' as [H'|H']; [specialize (Hb n H')|specialize (Ha n H')]; congruence.
  - split; [done|]. intros n' Hn' E. apply (sorted_key_inj (nodes (T b))); [done|by apply Hin| |congruence]. rewrite <- Hp, nodes_plug. cbn. set_solver.
Qed.

Lemma holds_present m n : holds T m -> present T n -> m !! n_key n = Some (entry_of n).
Proof. intros Hh Hn. apply Hh. by exists n. Qed.

Lemma holds_absent m k : holds T m -> (forall n, present T n -> n_key n <> k) -> m !! k = None.
Proof. intros Hh Hn. destruct (m !! k) as [e|] eqn:E; [|done]. apply Hh in E as (n & Hp & Hk & _). by destruct (Hn n Hp). Qed.
End holding.

Lemma holds_insert T T' m n :
  (forall n', present T' n' <-> n' = n \/ present T n' /\ n_key n' <> n_key n) -> holds T m -> holds T' (<[n_key n := entry_of n]> m).
Proof.
  intros Hp Hh k e. destruct (decide (k = n_key n)) as [->|D].
  - rewrite lookup_insert_eq. split.
    + intros [= <-]. exists n. split; [apply Hp; by left|done].
    + intros (n' & [->|[_ ?]]%Hp & E & <-); [done|congruence].
  - rewrite lookup_insert_ne by done. rewrite (Hh k e). split; intros (n' & H1 & H2 & H3); exists n'.
    + split; [apply Hp; right; split; [done|congruence]|done].
    + apply Hp in H1 as [->|[H1 _]]; [congruence|done].
Qed.

Lemma holds_delete T T' m k :
  (forall n', present T' n' <-> present T n' /\ n_key n' <> k) -> holds T m -> holds T' (delete k m).
Proof.
  intros Hp Hh k' e. destruct (decide (k' = k)) as [->|D].
  - rewrite lookup_delete_eq. split; [done|]. intros (n' & [_ ?]%Hp & ? & _). done.
  - rewrite lookup_delete_ne by done. rewrite (Hh k' e). split; intros (n' & H1 & H2 & H3); exists n'.
    + split; [apply Hp; split; [done|congruence]|done].
    + apply Hp in H1 as [H1 _]. done.
Qed.

(** ** Statistics do not matter for what is held *)

Lemma layout_stat s T fl x l :
  layout s T fl x -> Z.of_nat (length l) = TAIR_MAX_AREA_COUNT -> layout (set_header (set_stat l (header s)) s) T fl x.
Proof. intros Hly Hl. destruct Hly. by constructor. Qed.

Lemma stat_change_ok s T fl x area f :
  layout s T fl x -> 0 <= area < TAIR_MAX_AREA_COUNT ->
  exists s', stat_change area f s = Ret (tt, s') /\ layout s' T fl x
    /\ grows s s' 0 0 /\ dat s' = dat s /\ fb_manager s' = fb_manager s /\ dat_file_size (header s') = dat_file_size (header s).
Proof.
  intros Hly Ha. pose proof (ly_stat _ _ _ _ Hly) as Hs.
  exists (set_header (set_stat (alter f (Z.to_nat area) (stat (header s))) (header s)) s). split; [|split; [|split; [unfold grows; cbn; lia|done]]].
  - unfold stat_change, sassert. rewrite (proj2 (Z.ltb_lt _ _)) by lia. by rewrite (proj2 (Z.ltb_ge area 0)), (proj2 (Z.leb_gt _ area)) by lia.
  - apply layout_stat; [done|]. by rewrite length_alter.
Qed.

(** ** Room in the files *)

Definition room (s : fdb_store) (d i : Z) : Prop :=
  dat_file_size (header s) + d < 2 ^ 40 /\ idx_file_size (header s) + i < 2 ^ 32.

Section engine.
Context (sys : system) `{io_succeeds sys} (now : Z).
Context (key : data_entry) (Hkey : fdb_key key).

Let b : Z := key_hash (get_data key) mod FDB_BUCKET_NUMBER.
Let item0 : fdb_item := mk_fdb_item 0 b 0 false false (mk_item_index 0 0 0 0 (key_hash (get_data key))) zero_meta [] [].

(** The search that every operation starts with *)
Lemma looked_up s T fl :
  layout s T fl 0 ->
  exists c t, T b = plug c t /\ 0 <= b < FDB_BUCKET_NUMBER
    /\ Forall (fun n => key_lt (n_key n) (get_data key)) (before c) /\ Forall (fun n => key_lt (get_data key) (n_key n)) (after c)
    /\ match t with
       | Leaf => get_item sys (snd (get_hashcode key)) item0 s = Ret ((TAIR_RETURN_DATA_NOT_EXIST, at_frame c item0), s)
                 /\ forall n, present T n -> n_key n <> get_data key
       | Node l n r => get_item sys (snd (get_hashcode key)) item0 s = Ret ((TAIR_RETURN_SUCCESS, at_node c l n r item0), s)
                 /\ n_key n = get_data key /\ present T n /\ forall n', present T n' -> n_key n' = get_data key -> n' = n
       end.
Proof.
  intros Hly. destruct (hashcode_same key Hkey) as (Ek & _ & _ & _ & Hk'). pose proof (key_place s T fl Hly (get_data key)) as Hp. cbv zeta in Hp. fold b in Hp.
  pose proof (found_item_run sys s T fl Hly _ Hk' item0) as Hg. rewrite Ek in Hg. specialize (Hg eq_refl eq_refl). cbn [bucket_index item0] in Hg.
  destruct (search (get_data key) (T b) []) as [c t]. destruct Hp as (H1 & H2 & H3 & H4). exists c, t.
  split; [done|]. split; [by apply Z.mod_pos_bound|]. split; [done|]. split; [done|]. destruct t as [|l n r]; [done|].
  destruct H4 as [H4 H5]. split; [done|]. split; [done|]. split; [|done]. exists b. rewrite H1, nodes_plug. cbn. set_solver.
Qed.

Lemma spec_of_found s T fl m n :
  layout s T fl 0 -> holds T m -> present T n -> n_key n = get_data key -> m !! get_data key = Some (entry_of n).
Proof. intros Hly Hh Hn <-. by apply (holds_present T). Qed.

Lemma upd_join T c l n r m :
  T b = plug c (Node l n r) ->
  (present (upd T b (plug c (join l r))) m -> present T m) /\ (present T m -> m <> n -> present (upd T b (plug c (join l r))) m).
Proof.
  intros Ht. rewrite present_upd, nodes_plug, nodes_join. split.
  - intros [Hm|(b' & _ & Hm)]; [|by exists b']. exists b. rewrite Ht, nodes_plug. cbn. rewrite !elem_of_app, elem_of_cons in *. tauto.
  - intros [b' Hm] Hne. destruct (decide (b' = b)) as [->|D]; [left|right; by exists b']. rewrite Ht, nodes_plug in Hm. cbn in Hm.
    rewrite !elem_of_app, elem_of_cons in *. tauto.
Qed.

Lemma upd_keeps T c t0 t' m :
  T b = plug c t0 -> (m ∈ nodes t0 -> m ∈ nodes t') -> present T m -> present (upd T b (plug c t')) m.
Proof.
  intros Ht Hsub [b' Hm]. rewrite present_upd, nodes_plug. destruct (decide (b' = b)) as [->|D]; [left|right; by exists b'].
  rewrite Ht, nodes_plug in Hm. rewrite !elem_of_app in *. tauto.
Qed.

Lemma free_item_ok s T fl c l n r :
  layout s T fl 0 -> T b = plug c (Node l n r) -> 0 <= b < FDB_BUCKET_NUMBER ->
  let item := at_node c l n r item0 in
  exists s', free_item sys item s = Ret (set_fdata (deleted_data (n_data n)) item, s')
    /\ layout s' (upd T b (plug c (join l r))) (n_off n :: fl) 0
    /\ grows s s' 0 0 /\ (tiling s T 0 None -> tiling s' (upd T b (plug c (join l r))) 0 None).
Proof.
  intros Hly Ht Hb item. assert (present T n) as Hn by (exists b; rewrite Ht, nodes_plug; cbn; set_solver).
  destruct (unlink_ok sys s T fl b c l n r item Hly Hb Ht eq_refl eq_refl eq_refl (eq_sym (surjective_pairing (parent c))))
    as (s1 & E1 & Hl1 & Hfe & Ed1 & Ep1 & Hh1).
  pose proof (node_off_pos s T fl 0 Hly n Hn) as Hpos. destruct (ly_fits _ _ _ _ Hly n Hn ltac:(lia)) as (Hfit & [_ Hst] & _).
  pose proof (nf_size _ Hfit) as Hsz. rewrite length_node_bytes in Hsz.
  destruct (free_data_ok sys s1 _ _ 0 item Hl1 Hfe) as (s2 & E2 & Hl2 & _ & Hh2 & Ed2 & Ep2); [cbn; lia|].
  exists s2. split; [unfold free_item; by step_with E1|]. split; [done|]. split; [unfold grows; rewrite Hh2, Hh1; cbn; lia|]. intros Htl.
  destruct (deleted_data_ok (n_data n) (nf_meta _ Hfit)) as (M1 & M2 & M3).
  apply (tiling_free s1 s2 _ 0 (n_size n) (n_ext n) (deleted_data (n_data n))); [| |done|by rewrite M2, (node_item_total n Hfit)|cbn; destruct (nf_key _ Hfit); lia|lia|done|done|done|done].
  - apply (tiling_open s s1 T); [done|done|lia|unfold dat; by rewrite Ed1|done|by rewrite Hh1| |].
    + intros m Hm _. pose proof (proj1 (upd_join T c l n r m Ht) Hm) as H1. split; [done|]. pose proof (node_off_pos s T fl 0 Hly m H1). lia.
    + intros m Hm. destruct (decide (n_off m = n_off n)) as [D|D]; [left; by apply (ly_offs _ _ _ _ Hly)|right].
      split; [apply (upd_join T c l n r); [done|done|congruence]|]. pose proof (node_off_pos s T fl 0 Hly m Hm). lia.
  - unfold dat. rewrite Ed1. unfold dat in Hst. lia.
Qed.

Lemma key_lt_ne k1 k2 : key_lt k1 k2 -> k1 <> k2.
Proof. intros Hlt ->. by apply (key_lt_irrefl k2). Qed.

Lemma sides_differ l n r m : sorted (nodes l ++ n :: nodes r) -> m ∈ nodes l \/ m ∈ nodes r -> n_key m <> n_key n.
Proof.
  change (n :: nodes r) with ([n] ++ nodes r). rewrite !sorted_app. intros (_ & (_ & _ & Hr) & Hl) [Hm|Hm].
  - apply key_lt_ne, Hl; [done|]. by left.
  - apply not_eq_sym, key_lt_ne, Hr; [by left|done].
Qed.

(** The nodes after the subtree of a key has been changed *)
Lemma present_changed s T fl x c t0 t' (Q : node -> Prop) m :
  layout s T fl x -> T b = plug c t0 ->
  Forall (fun n => key_lt (n_key n) (get_data key)) (before c) -> Forall (fun n => key_lt (get_data key) (n_key n)) (after c) ->
  (forall m, m ∈ nodes t' <-> Q m \/ m ∈ nodes t0 /\ n_key m <> get_data key) ->
  present (upd T b (plug c t')) m <-> Q m \/ present T m /\ n_key m <> get_data key.
Proof.
  intros Hly Ht Hbe Haf Hn. rewrite list.Forall_forall in Hbe, Haf. rewrite present_upd, nodes_plug, !elem_of_app, Hn. split.
  - intros [[Hm|[[Hm|[Hm Hk]]|Hm]]|(b' & Hb' & Hm)].
    + right. split; [exists b; rewrite Ht, nodes_plug, !elem_of_app; tauto|]. by apply key_lt_ne, Hbe.
    + by left.
    + right. split; [exists b; rewrite Ht, nodes_plug, !elem_of_app; tauto|done].
    + right. split; [exists b; rewrite Ht, nodes_plug, !elem_of_app; tauto|]. by apply not_eq_sym, key_lt_ne, Haf.
    + right. split; [by exists b'|]. intros E. apply Hb'. rewrite <- (ly_hash _ _ _ _ Hly b' m Hm), E. done.
  - intros [Hm|[[b' Hm] Hk]]; [tauto|]. destruct (decide (b' = b)) as [->|D]; [|right; by exists b'].
    rewrite Ht, nodes_plug, !elem_of_app in Hm. tauto.
Qed.

(** ** Removing *)

Context (Harea : 0 <= s32 (area key) < TAIR_MAX_AREA_COUNT).

Lemma key_out k' : get_data (set_meta k' (snd (get_hashcode key))) = get_data key.
Proof. destruct (hashcode_same key Hkey) as (E & _). done. Qed.

Lemma bucket_remove_ok w s m version_care :
  engine_state w s m ->
  exists key' s', bucket_remove sys key version_care s = Ret ((fst (spec_remove key version_care m), key'), s')
    /\ engine_state w s' (snd (spec_remove key version_care m)) /\ grows s s' 0 0.
Proof.
  intros (T & fl & Hly & Hh & Hw). destruct (looked_up s T fl Hly) as (c & t & Ht & Hb & Hbe & Haf & Hget).
  unfold bucket_remove. rewrite (item_for_run key Hkey). fold b item0. cbv zeta. unfold spec_remove. destruct t as [|l n r].
  - destruct Hget as [Hget Hno]. rewrite (holds_absent T m _ Hh Hno). step_with Hget.
    eexists _, s. split; [done|]. split; [by exists T, fl|by apply grows_refl].
  - destruct Hget as (Hget & Hk & Hn & Huni). rewrite (spec_of_found s T fl m n Hly Hh Hn Hk). step_with Hget. cbn [Z.eqb TAIR_RETURN_SUCCESS].
    destruct (hashcode_same key Hkey) as (_ & _ & Em & Ea & _). unfold get_version. rewrite Em. unfold version_refused, get_version.
    cbn [fdata at_node entry_of e_version]. destruct (_ && _) eqn:Ev; [eexists _, s; split; [done|]; split; [by exists T, fl|by apply grows_refl]|].
    destruct (free_item_ok s T fl c l n r Hly Ht Hb) as (s1 & E1 & Hl1 & Hg1 & Ht1). step_with E1.
    destruct (stat_change_ok s1 _ _ 0 (s32 (area key)) (fun p => mk_tair_pstat
      (u64 (ps_data_size p - s32 (s32 (n_size n + FDB_ITEM_META_SIZE) - padsize (n_data n)))) (u64 (ps_use_size p - s32 (n_size n + FDB_ITEM_META_SIZE)))
      (u64 (ps_item_count p - 1))) Hl1 Harea) as (s2 & E2 & Hl2 & Hg2 & Ed2 & Ep2 & Eh2).
    rewrite (sbind_run _ _ s1 tt s2) by (cbn [area set_meta]; rewrite Ea; exact E2).
    eexists _, s2. split; [done|]. split; [|by apply (grows_trans _ _ _ _ _ _ _ Hg1 Hg2)].
    exists (upd T b (plug c (join l r))), (n_off n :: fl). split; [done|]. split; [|intros Ew; apply (tiling_same s1); [by apply Ht1, Hw|done..]].
    apply (holds_delete T); [|done]. intros n'.
    rewrite (present_changed s T fl 0 c (Node l n r) (join l r) (fun _ => False)); [tauto|done..|].
    intros n''. rewrite nodes_join. pose proof (proj2 (ly_trees _ _ _ _ Hly b)) as Hso. rewrite Ht, nodes_plug, !sorted_app in Hso.
    destruct Hso as (_ & (Hso & _) & _). pose proof (sides_differ l n r n'' Hso) as Hs. cbn. rewrite !elem_of_app, elem_of_cons, <- Hk.
    split; [intros [?|?]; right; tauto|]. intros [[]|[[?|[->|?]] ?]]; tauto.
Qed.

(** ** Getting *)

Definition meta_entry (value : list Z) (d : item_meta_info) : fdb_entry :=
  mk_fdb_entry value (mversion d) (flag d) (cdate d) (mdate d) (edate d).

Lemma hashcode_kept : get_hashcode (snd (get_hashcode key)) = get_hashcode key.
Proof.
  unfold get_hashcode. rewrite (fk_data _ Hkey). destruct ((hashcode key =? 0) && (0 <? size key)) eqn:E; cbn [snd data hashcode size].
  - cbn. by case_match.
  - by rewrite (fk_data _ Hkey), E.
Qed.

Lemma bucket_get_ok w s m value :
  engine_state w s m ->
  let '(rc, e, m') := spec_get now key m in
  exists key' value' s', bucket_get sys now key value s = Ret ((rc, key', value'), s')
    /\ engine_state w s' m' /\ grows s s' 0 0
    /\ match e with
       | Some e => meta_entry (e_value e) (data_meta value') = e /\ meta_ok (data_meta value')
                   /\ key' = set_meta (data_meta value') (snd (get_hashcode key))
                   /\ value' = set_alloced_data (e_value e) (Z.of_nat (length (e_value e))) (set_meta (data_meta value') value)
       | None => value' = value
       end.
Proof.
  intros Hs. pose proof Hs as (T & fl & Hly & Hh & Hw). pose proof (looked_up s T fl Hly) as (c & t & Ht & Hb & Hbe & Haf & Hget).
  unfold bucket_get. rewrite (item_for_run key Hkey). fold b item0. cbv zeta. unfold spec_get. destruct t as [|l n r].
  - destruct Hget as [Hget Hno]. rewrite (holds_absent T m _ Hh Hno). step_with Hget.
    eexists _, _, s. split; [done|]. split; [done|]. split; [by apply grows_refl|done].
  - destruct Hget as (Hget & Hk & Hn & Huni). pose proof (spec_of_found s T fl m n Hly Hh Hn Hk) as Em. rewrite Em. step_with Hget. cbn [Z.eqb TAIR_RETURN_SUCCESS].
    change (is_item_expired now (at_node c l n r item0)) with (entry_expired now (entry_of n)). destruct (entry_expired now (entry_of n)).
    + destruct (bucket_remove_ok w s m false Hs) as (key' & s' & E & Hs' & Hr).
      assert (bucket_remove sys (snd (get_hashcode key)) false = bucket_remove sys key false) as -> by (unfold bucket_remove, item_for; by rewrite hashcode_kept).
      unfold spec_remove in E, Hs'. rewrite Em in E, Hs'. cbn [version_refused andb fst snd] in E, Hs'. step_with E.
      eexists _, _, s'. by split.
    + pose proof (node_off_pos s T fl 0 Hly n Hn). destruct (ly_fits _ _ _ _ Hly n Hn ltac:(lia)) as ([Hm _ [Hv _] _ _] & _).
      eexists _, _, s. split; [done|]. split; [done|]. split; [by apply grows_refl|]. split; [done|]. split; [done|]. split; [done|].
      cbn [at_node fvalue fdata entry_of e_value]. by rewrite Hv.
Qed.
End engine.
