(* ===== verification/FdbPut.v ===== *)
(** * Putting an item into a bucket of the disk engine

    [bucket_put] refines [spec_put]: a new item gets a record and an extent, an
    old one keeps its record and gets another extent when its own is too small. *)

From S2P Require Import Prelude DataBuffer Util DataEntry MemPool MdbItem MemCache MdbManager TableManager Storage TairManager FdbFile FdbItems FdbBucket FdbTree FdbLayout FdbSteps FdbTiles FdbSpace FdbLink FdbUnlink FdbEngine.

(** A value as the engine is given it *)
Record fdb_value (value : data_entry) : Prop := {
  fv_size : get_size value = Z.of_nat (length (get_data value)) /\ 1 <= get_size value < 2 ^ 23;
  fv_flag : in_u 8 (flag (data_meta value))
}.

Lemma pad_size_range n : 0 < n -> 0 <= pad_size n < DATA_PADDING_SIZE.
Proof.
  intros Hn. unfold pad_size. pose proof (Z.rem_bound_pos n DATA_PADDING_SIZE ltac:(lia) ltac:(done)) as Hr.
  destruct (Z.eqb_spec (Z.rem n DATA_PADDING_SIZE) 0); lia.
Qed.

Section commit.
Context (sys : system) `{io_succeeds sys} (now : Z) (version_care : bool) (modified expires : Z).
Context (key value : data_entry) (Hkey : fdb_key key) (Hval : fdb_value value) (Harea : 0 <= s32 (area key) < TAIR_MAX_AREA_COUNT)
  (Hver : in_u 16 (get_version key)).

Let data_size : Z := get_size key + get_size value + FDB_ITEM_DATA_SIZE.
Let total_size : Z := data_size + pad_size data_size.

Lemma total_size_range : data_size <= total_size < 2 ^ 24 - 1 /\ 28 < data_size /\ total_size < data_size + DATA_PADDING_SIZE.
Proof.
  destruct (fk_size _ Hkey) as [_ ?], (fv_size _ Hval) as [_ ?]. unfold total_size.
  assert (28 < data_size) by (unfold data_size, FDB_ITEM_DATA_SIZE, sizeof_item_meta_info; lia).
  pose proof (pad_size_range data_size ltac:(lia)) as Hp. unfold data_size, FDB_ITEM_DATA_SIZE, sizeof_item_meta_info, DATA_PADDING_SIZE in *. lia.
Qed.

(** The item that is written, and its node *)
Definition put_node (created : Z) (item : fdb_item) : node :=
  mk_node (meta_offset item) (get_data key) (get_data value)
    (with_magic (fdata (put_item key value version_care (pad_size data_size + (ix_size (fmeta item) - total_size)) created modified expires item)))
    (ix_size (fmeta item)) (ix_offset (fmeta item)).

Lemma put_node_fits created item : total_size <= ix_size (fmeta item) < 2 ^ 24 -> node_fits (put_node created item).
Proof.
  intros Hs. destruct (fk_size _ Hkey) as [Ek ?], (fv_size _ Hval) as [Ev ?]. pose proof total_size_range as (Ht1 & Ht2 & Ht3).
  pose proof (length_node_bytes (put_node created item)) as Hl. cbn [put_node n_key n_value] in Hl. rewrite <- Ek, <- Ev in Hl.
  replace (FDB_ITEM_DATA_SIZE + get_size key + get_size value) with data_size in Hl by (unfold data_size; lia).
  assert (in_u 16 (get_size key)) as Hk16 by (unfold in_u; lia). assert (in_u 24 (get_size value)) as Hv24 by (unfold in_u; lia).
  pose proof (pad_size_range data_size ltac:(lia)) as Hp. unfold DATA_PADDING_SIZE in *.
  assert (pad_size data_size + (ix_size (fmeta item) - total_size) = ix_size (fmeta item) - data_size) as Epad by (unfold total_size; lia).
  constructor; cbn [put_node n_data n_key n_value n_size with_magic put_item fdata keysize valsize padsize].
  - unfold meta_ok. cbn. rewrite !(wrap_id 16 (get_size key)), (wrap_id 24) by done. pose proof (fv_flag _ Hval).
    split; [done|]. split; [done|]. split; [done|]. split; [case_match; [by apply wrap_bound|done]|]. split; [by apply wrap_bound|]. split; [done|].
    split; [done|]. split; [by apply wrap_bound|]. split; by apply wrap_bound.
  - rewrite wrap_id by done. lia.
  - rewrite wrap_id by done. lia.
  - lia.
  - rewrite Epad. rewrite wrap_id by (unfold in_u; lia). lia.
Qed.

Lemma put_commit_ok s s1 T fl item created sd su :
  let n := put_node created item in
  write_meta sys (put_item key value version_care (pad_size data_size + (ix_size (fmeta item) - total_size)) created modified expires item) s
    = Ret (true, s1) ->
  layout s1 T fl (n_off n) -> present T n -> free_extent s1 T (n_off n) (n_size n) (n_ext n) -> total_size <= n_size n < 2 ^ 24 ->
  exists s', put_commit sys key value version_care (pad_size data_size) total_size modified expires (item, created, sd, su) s
             = Ret ((TAIR_RETURN_SUCCESS, set_meta (n_data n) key), s')
    /\ layout s' T fl 0 /\ grows s1 s' 0 0 /\ (tiling s1 T (n_off n) (Some (n_ext n, n_size n)) -> tiling s' T 0 None).
Proof.
  intros n Ew Hly Hn Hfe Hs. set (it := put_item _ _ _ _ _ _ _ item) in *. destruct (write_data_ok sys s1 T fl n it Hly Hn Hfe (put_node_fits created item Hs) eq_refl eq_refl eq_refl eq_refl eq_refl)
    as (s2 & E2 & Hl2 & _ & Hh2 & Ed2 & Ep2).
  destruct (stat_change_ok s2 T fl 0 (s32 (area key)) (fun p => mk_tair_pstat (u64 (ps_data_size p + sd)) (u64 (ps_use_size p + su))
    (u64 (ps_item_count p + 1))) Hl2 Harea) as (s3 & E3 & Hl3 & Hg3 & Ed3 & Ep3 & Eh3).
  exists s3. split; [|split; [done|split; [unfold grows in *; by rewrite Hh2 in Hg3|]]].
  2:{ intros Htl. apply (tiling_same s2); [|done..]. apply (tiling_write s1 s2 T n); try done.
      - by apply put_node_fits.
      - intros m Hm. pose proof (node_off_pos s1 T fl _ Hly m Hm). lia.
      - intros m Hm Em. by apply (ly_offs _ _ _ _ Hly). }
  unfold put_commit.
  rewrite (sbind_run _ _ s (TAIR_RETURN_SUCCESS, set_fdata (n_data n) it) s2).
  - cbn [Z.eqb TAIR_RETURN_SUCCESS]. by step_with E3.
  - unfold update_item. step_with Ew. cbn [negb]. by step_with E2.
Qed.
End commit.

Section put.
Context (sys : system) `{io_succeeds sys} (now : Z) (version_care : bool) (created modified expires : Z).
Context (key value : data_entry) (Hkey : fdb_key key) (Hval : fdb_value value) (Harea : 0 <= s32 (area key) < TAIR_MAX_AREA_COUNT)
  (Hver : in_u 16 (get_version key)).

Let data_size : Z := get_size key + get_size value + FDB_ITEM_DATA_SIZE.
Let total_size : Z := data_size + pad_size data_size.
Let b : Z := key_hash (get_data key) mod FDB_BUCKET_NUMBER.
Let item0 : fdb_item := mk_fdb_item 0 b 0 false false (mk_item_index 0 0 0 0 (key_hash (get_data key))) zero_meta [] [].

(** What is stored for the key *)
Definition written (old created : Z) : fdb_entry :=
  mk_fdb_entry (get_data value) (if version_care then u16 (old + 1) else get_version key) (flag (data_meta value))
    (u32 created) (u32 modified) (u32 expires).

(** What a successful put leads to *)
Definition put_done (w : bool) (s s' : fdb_store) (m : gmap (list Z) fdb_entry) (e : fdb_entry) (r : Z * data_entry) : Prop :=
  fst r = TAIR_RETURN_SUCCESS /\ meta_entry (get_data value) (data_meta (snd r)) = e /\ engine_state w s' (<[get_data key := e]> m)
  /\ grows s s' total_size FDB_ITEM_META_SIZE.

Lemma put_fresh_ok w s T fl m c :
  layout s T fl 0 -> holds T m -> (w = true -> tiling s T 0 None) -> T b = plug c Leaf -> 0 <= b < FDB_BUCKET_NUMBER ->
  Forall (fun n => key_lt (n_key n) (get_data key)) (before c) -> Forall (fun n => key_lt (get_data key) (n_key n)) (after c) ->
  room s total_size FDB_ITEM_META_SIZE ->
  exists r item s1 s', put_fresh sys data_size total_size created (at_frame c item0) s = Ret (Some item, s1)
    /\ put_commit sys key value version_care (pad_size data_size) total_size modified expires item s1 = Ret (r, s')
    /\ (is_new (fst (fst (fst item))) = true /\ parent_off (fst (fst (fst item))) = (parent c).1 /\ bucket_index (fst (fst (fst item))) = b)
    /\ put_done w s s' m (written 0 created) r.
Proof.
  intros Hly Hh Hw Ht Hb Hbe Haf [Hr1 Hr2]. destruct (total_size_range key value Hkey Hval) as (Ht1 & Ht2 & Ht3).
  fold data_size in Ht1, Ht2, Ht3. fold total_size in Ht1, Ht3.
  set (i1 := mk_fdb_item 0 b (parent c).1 (parent c).2 true (mk_item_index 0 0 (wrap 24 total_size) 0 (key_hash (get_data key))) zero_meta [] []).
  assert (wrap 24 total_size = total_size) as Ew by (apply wrap_id; unfold in_u; lia).
  destruct (new_item_ok sys s T fl i1 Hly) as (o & size & off & s1 & fl' & E1 & Hsz & Hl1 & Hfe & Hrec & H0 & Hfresh & Hfl & Hg1 & Htook);
    [cbn; lia|cbn; rewrite Ew; done|done|]. cbn [i1 fmeta ix_size left_ right_ ix_hashcode] in *. rewrite Ew in *.
  set (item := set_fmeta _ _) in E1. set (n := put_node version_care modified expires key value created item).
  set (T' := upd T b (plug c (Node Leaf n Leaf))). pose proof (fe_range _ _ _ _ _ Hfe) as (_ & Hs24 & _).
  destruct (link_new_ok sys s1 T fl' b c n (put_item key value version_care (pad_size data_size + (size - total_size)) created modified expires item)
    Hl1 Hb Ht Hbe Haf eq_refl Hrec H0 Hfresh Hfl eq_refl eq_refl eq_refl eq_refl (eq_sym (surjective_pairing (parent c))))
    as (s2 & E2 & Hl2 & Hd2 & Hp2 & Hh2 & Hold).
  fold T' in Hl2, Hold. assert (n ∈ nodes (plug c (Node Leaf n Leaf))) as Hn by (rewrite nodes_plug; cbn; set_solver).
  assert (present T' n) as Hpn by (apply present_upd; by left).
  assert (free_extent s2 T' (n_off n) (n_size n) (n_ext n)) as Hfe2.
  { apply (free_extent_upd s1 s2 T b _ 0 (n_off n)); [exact Hfe|done|by rewrite Hh2|]. intros m' Hm' Hne. split; [by apply Hold|].
    pose proof (node_off_pos s2 T' fl' _ Hl2 m' Hm'). lia. }
  destruct (put_commit_ok sys version_care modified expires key value Hkey Hval Harea Hver s1 s2 T' fl' item created (s32 (data_size + FDB_ITEM_META_SIZE))
    (s32 (total_size + FDB_ITEM_META_SIZE)) E2 Hl2 Hpn Hfe2) as (s3 & E3 & Hl3 & Hg3 & Htl3); [split; [exact Hsz|apply Hs24]|].
  eexists _, _, s1, s3. split; [|split; [exact E3|split; [done|]]].
  { unfold put_fresh. change (mk_fdb_item _ _ _ _ true _ _ _ _) with i1. by step_with E1. }
  split; [done|]. split; [done|]. split.
  - exists T', fl'. split; [done|]. split; [|intros Ew2; apply Htl3; apply (tiling_relink s1 s2 T T' 0 (n_off n)); [|unfold dat; by rewrite Hd2|done|by rewrite Hh2|..];
      [by apply (tiling_take s); [apply Hw|apply Htook..]| |]].
    2:{ intros m' Hm' Hne. split; [by apply Hold|]. pose proof (node_off_pos s2 T' fl' _ Hl2 m' Hm'). lia. }
    2:{ intros m' Hm' _. split; [|by apply Hfresh]. apply (upd_keeps key T c Leaf); [done|by intros ?%elem_of_nil|done]. }
    change (get_data key) with (n_key n). change (written 0 created) with (entry_of n).
    apply (holds_insert T); [|done]. intros n'. unfold T', b. rewrite (present_changed key s T fl 0 c Leaf (Node Leaf n Leaf) (fun n' => n' = n)); [done..|].
    intros n''. cbn. rewrite list_elem_of_singleton, elem_of_nil. tauto.
  - unfold grows in *. rewrite Hh2 in Hg3. lia.
Qed.

(** The node has got its extent: it is written. *)
Lemma put_over_commit w s T fl m c l n r s1 it cr sd su :
  layout s1 T fl (n_off n) -> holds T m -> (w = true -> tiling s1 T (n_off n) (Some (ix_offset (fmeta it), ix_size (fmeta it)))) -> T b = plug c (Node l n r) -> 0 <= b < FDB_BUCKET_NUMBER ->
  Forall (fun n => key_lt (n_key n) (get_data key)) (before c) -> Forall (fun n => key_lt (get_data key) (n_key n)) (after c) ->
  n_key n = get_data key ->
  meta_offset it = n_off n -> is_new it = false -> bucket_index it = b -> mversion (fdata it) = mversion (n_data n) ->
  fmeta it = mk_item_index (root l) (root r) (ix_size (fmeta it)) (ix_offset (fmeta it)) (key_hash (n_key n)) ->
  free_extent s1 T (n_off n) (ix_size (fmeta it)) (ix_offset (fmeta it)) -> total_size <= ix_size (fmeta it) ->
  grows s s1 total_size 0 ->
  exists r s', put_commit sys key value version_care (pad_size data_size) total_size modified expires (it, cr, sd, su) s1 = Ret (r, s')
    /\ put_done w s s' m (written (mversion (n_data n)) cr) r.
Proof.
  intros Hly Hh Hw Ht Hb Hbe Haf Hk E1 E2 E3 E4 E5 Hfe Hsz Hg1. pose proof (fe_range _ _ _ _ _ Hfe) as (_ & Hs24 & _).
  set (n' := put_node version_care modified expires key value cr it). set (T' := upd T b (plug c (Node l n' r))).
  destruct (update_meta_ok sys s1 T fl b c l n n' r
    (put_item key value version_care (pad_size data_size + (ix_size (fmeta it) - total_size)) cr modified expires it) Hly Hb Ht E1 (eq_sym Hk))
    as (s2 & W & Hl2 & Hd2 & Hp2 & Hh2 & Hold); [done|cbn [put_item fmeta]; rewrite E5 at 1; by rewrite Hk|done|]. fold T' in Hl2, Hold.
  assert (n' ∈ nodes (plug c (Node l n' r))) as Hn by (rewrite nodes_plug; cbn; set_solver).
  assert (present T' n') as Hpn by (apply present_upd; by left).
  rewrite <- E1 in Hl2. change (meta_offset it) with (n_off n') in Hl2.
  destruct (put_commit_ok sys version_care modified expires key value Hkey Hval Harea Hver s1 s2 T' fl it cr sd su W Hl2 Hpn) as (s3 & E & Hl3 & Hg3 & Htl3).
  { apply (free_extent_upd s1 s2 T b _ (n_off n) (n_off n')); [exact Hfe|done|by rewrite Hh2|]. intros m' Hm' Hne. change (n_off n') with (meta_offset it) in Hne.
    rewrite E1 in Hne. split; [by apply Hold|done]. }
  { split; [exact Hsz|apply Hs24]. }
  eexists _, s3. split; [exact E|]. split; [done|]. split; [|split].
  - cbn. by rewrite E4.
  - exists T', fl. split; [done|]. split.
    2:{ intros Ew. apply Htl3, (tiling_relink s1 s2 T T' (n_off n) (n_off n')); [by apply Hw|unfold dat; by rewrite Hd2|done|by rewrite Hh2| |];
        intros m' Hm' Hne; cbn [put_node n_off n'] in *; rewrite E1 in *; (split; [|done]).
        - by apply Hold.
        - apply (upd_keeps key T c (Node l n r)); [done| |done]. cbn. rewrite !elem_of_app, !elem_of_cons. intros [?|[->|?]]; tauto. }
    assert (written (mversion (n_data n)) cr = entry_of n') as -> by (unfold written, entry_of; cbn; by rewrite E4).
    change (get_data key) with (n_key n'). apply (holds_insert T); [|done]. intros m'. unfold T', b.
    rewrite (present_changed key s1 T fl (n_off n) c (Node l n r) (Node l n' r) (fun m' => m' = n')); [done..|].
    intros m''. pose proof (proj2 (ly_trees _ _ _ _ Hly b)) as Hso. rewrite Ht, nodes_plug, !sorted_app in Hso.
    destruct Hso as (_ & (Hso & _) & _). pose proof (sides_differ l n r m'' Hso) as Hs. cbn. rewrite !elem_of_app, !elem_of_cons, <- Hk.
    split; [intros [?|[?|?]]; [right|left|right]; tauto|]. intros [?|[[?|[->|?]] ?]]; tauto.
  - unfold grows, FDB_ITEM_META_SIZE in *. rewrite Hh2 in Hg3. lia.
Qed.

Lemma put_over_ok w s T fl m c l n r :
  layout s T fl 0 -> holds T m -> (w = true -> tiling s T 0 None) -> T b = plug c (Node l n r) -> 0 <= b < FDB_BUCKET_NUMBER ->
  Forall (fun n => key_lt (n_key n) (get_data key)) (before c) -> Forall (fun n => key_lt (get_data key) (n_key n)) (after c) ->
  n_key n = get_data key -> room s total_size FDB_ITEM_META_SIZE ->
  let e := entry_of n in
  if negb (entry_expired now e) && version_refused version_care key e then
    put_over sys now key version_care data_size total_size created (at_node c l n r item0) s = Ret (None, s)
  else exists res item s1 s', put_over sys now key version_care data_size total_size created (at_node c l n r item0) s = Ret (Some item, s1)
    /\ put_commit sys key value version_care (pad_size data_size) total_size modified expires item s1 = Ret (res, s')
    /\ put_done w s s' m (written (e_version e) (if entry_expired now e then created else s32 (e_cdate e))) res.
Proof.
  intros Hly Hh Hw Ht Hb Hbe Haf Hk [Hr1 Hr2] e. set (it := at_node c l n r item0). unfold put_over.
  change (is_item_expired now it) with (entry_expired now e). change (version_care && negb (get_version key =? 0) && negb (get_version key =? mversion (fdata it)))
    with (version_refused version_care key e).
  destruct (negb (entry_expired now e) && version_refused version_care key e); [done|].
  replace (if negb (entry_expired now e) then s32 (cdate (fdata it)) else created) with (if entry_expired now e then created else s32 (e_cdate e))
    by (by destruct (entry_expired now e)).
  set (cr := if entry_expired now e then created else s32 (e_cdate e)).
  assert (present T n) as Hn by (exists b; rewrite Ht, nodes_plug; cbn; set_solver).
  destruct (layout_open s T fl n Hly Hn) as [Hl1 Hfe1]. destruct (total_size_range key value Hkey Hval) as (Ht1 & Ht2 & Ht3).
  fold data_size in Ht1, Ht2, Ht3. fold total_size in Ht1, Ht3.
  assert (tiling s T 0 None -> tiling s T (n_off n) (Some (n_ext n, n_size n))) as Hopen.
  { intros Htl. pose proof (fun m Hm => node_off_pos s T fl 0 Hly m Hm) as Hpos.
    apply (tiling_open s s T T); [done|done|specialize (Hpos n Hn); lia|done|done|done| |].
    - intros m' Hm' _. split; [done|]. specialize (Hpos m' Hm'). lia.
    - intros m' Hm'. destruct (decide (n_off m' = n_off n)); [left; by apply (ly_offs _ _ _ _ Hly)|by right]. }
  cbn [fmeta it at_node index_of ix_size]. destruct (Z.ltb_spec (n_size n) total_size) as [Hlt|Hge].
  - pose proof (node_off_pos s T fl 0 Hly n Hn) as Hpos. destruct (ly_fits _ _ _ _ Hly n Hn ltac:(lia)) as (Hfit & [_ Hst] & _).
    pose proof (nf_size _ Hfit) as Hsz. rewrite length_node_bytes in Hsz.
    destruct (free_data_ok sys s T fl (n_off n) it Hl1 Hfe1) as (s1 & E1 & Hl2 & _ & Hh1 & Ed1 & Ep1); [cbn; lia|].
    set (it1 := set_fdata (deleted_data (fdata it)) it) in E1.
    set (it2 := set_fmeta (mk_item_index (root l) (root r) (wrap 24 total_size) (n_ext n) (key_hash (n_key n))) it1).
    assert (wrap 24 total_size = total_size) as Ew by (apply wrap_id; unfold in_u; lia).
    destruct (new_data_ok sys s1 T fl (n_off n) it2 Hl2) as (size & off & s2 & E2 & Hs2 & Hl3 & Hfe3 & Hsm & Hd2 & Htook);
      [cbn; lia|cbn; rewrite Ew, Hh1; done|]. cbn [it2 fmeta set_fmeta ix_size left_ right_ ix_hashcode] in E2, Hs2, Hd2. rewrite Ew in Hs2, Hd2.
    set (it3 := set_fmeta (mk_item_index (root l) (root r) size off (key_hash (n_key n))) it2) in E2.
    destruct (sm_chain _ _ Hsm) as (_ & C2 & C3 & _).
    assert (w = true -> tiling s2 T (n_off n) (Some (off, size))) as Hw3.
    { intros Ew2. apply (tiling_take s1); [|apply Htook..]. destruct (deleted_data_ok (n_data n) (nf_meta _ Hfit)) as (M1 & M2 & M3).
      apply (tiling_free s s1 T (n_off n) (n_size n) (n_ext n) (deleted_data (n_data n))); [by apply Hopen, Hw|done|done|by rewrite M2, (node_item_total n Hfit)|cbn; destruct (nf_key _ Hfit); lia|lia|done..]. }
    destruct (put_over_commit w s T fl m c l n r s2 it3 cr (data_size_change data_size it) (s32 (total_size - n_size n)) Hl3 Hh Hw3 Ht Hb Hbe Haf Hk) as (res & s' & E3 & Hdone);
      [done|done|done|done|done|done|done|unfold grows; rewrite C2, C3, <- Hh1; lia|].
    exists res, (it3, cr, data_size_change data_size it, s32 (total_size - n_size n)), s2, s'.
    split; [|done]. step_with E1. change (set_fmeta _ it1) with it2. by step_with E2.
  - destruct (put_over_commit w s T fl m c l n r s it cr (data_size_change data_size it) 0 Hl1 Hh (fun Ew => Hopen (Hw Ew)) Ht Hb Hbe Haf Hk) as (res & s' & E3 & Hdone);
      [done|done|done|done|done|done|done|apply grows_refl; lia|].
    exists res, (it, cr, data_size_change data_size it, 0), s, s'. done.
Qed.
End put.

Section bucket_put.
Context (sys : system) `{io_succeeds sys} (now : Z) (version_care : bool) (expire_time : Z).
Context (key value : data_entry) (Hkey : fdb_key key) (Hval : fdb_value value) (Harea : 0 <= s32 (area key) < TAIR_MAX_AREA_COUNT)
  (Hver : in_u 16 (get_version key)).

(** The most that a put takes of the data file *)
Definition put_room : Z := let data_size := get_size key + get_size value + FDB_ITEM_DATA_SIZE in data_size + pad_size data_size.

Lemma bucket_put_kept w s m :
  snd (get_hashcode key) = key -> engine_state w s m -> room s put_room FDB_ITEM_META_SIZE ->
  let '(rc, m') := spec_put now key value version_care expire_time m in
  exists key' s', bucket_put sys now key value version_care expire_time s = Ret ((rc, key'), s')
    /\ engine_state w s' m' /\ grows s s' put_room FDB_ITEM_META_SIZE
    /\ (rc = TAIR_RETURN_SUCCESS -> m' !! get_data key = Some (meta_entry (get_data value) (data_meta key'))).
Proof.
  intros Hkept Hs Hroom. pose proof Hs as (T & fl & Hly & Hh & Hw). pose proof (looked_up sys key Hkey s T fl Hly) as (c & t & Ht & Hb & Hbe & Haf & Hget).
  unfold bucket_put, spec_put. rewrite (item_for_run key Hkey). cbv zeta. rewrite Hkept in Hget |- *.
  destruct (put_dates now key version_care expire_time) as [[created modified] expires].
  destruct (total_size_range key value Hkey Hval) as (P1 & P2 & P3). fold put_room in P1, P3.
  destruct t as [|l n r].
  - destruct Hget as [Hget Hno]. rewrite (holds_absent T m _ Hh Hno). step_with Hget. cbn [Z.eqb TAIR_RETURN_DATA_NOT_EXIST TAIR_RETURN_SUCCESS].
    destruct (put_fresh_ok sys version_care created modified expires key value Hkey Hval Harea Hver w s T fl m c Hly Hh Hw Ht Hb Hbe Haf Hroom)
      as ([rc key'] & item & s1 & s' & E1 & E2 & _ & D1 & D2 & D3 & D4). cbn in D1, D2. subst rc. step_with E1.
    exists key', s'. split; [exact E2|]. split; [done|]. split; [done|]. intros _. by rewrite lookup_insert_eq, D2.
  - destruct Hget as (Hget & Hk & Hn & Huni). rewrite (spec_of_found key s T fl m n Hly Hh Hn Hk). step_with Hget. cbn [Z.eqb TAIR_RETURN_SUCCESS].
    pose proof (put_over_ok sys now version_care created modified expires key value Hkey Hval Harea Hver w s T fl m c l n r Hly Hh Hw Ht Hb Hbe Haf Hk Hroom) as Ho.
    cbv zeta in Ho. destruct (negb _ && version_refused _ _ _).
    + step_with Ho. exists key, s. split; [done|]. split; [done|]. split; [|done]. apply grows_refl; [lia|done].
    + destruct Ho as ([rc key'] & item & s1 & s' & E1 & E2 & D1 & D2 & D3 & D4). cbn in D1, D2. subst rc. step_with E1.
      exists key', s'. split; [exact E2|]. split; [done|]. split; [done|]. intros _. by rewrite lookup_insert_eq, D2.
Qed.
End bucket_put.

(** The hash code that the key gets does not matter. *)
Lemma bucket_put_ok sys `{io_succeeds sys} now version_care expire_time key value w s m :
  fdb_key key -> fdb_value value -> 0 <= s32 (area key) < TAIR_MAX_AREA_COUNT -> in_u 16 (get_version key) ->
  engine_state w s m -> room s (put_room key value) FDB_ITEM_META_SIZE ->
  let '(rc, m') := spec_put now key value version_care expire_time m in
  exists key' s', bucket_put sys now key value version_care expire_time s = Ret ((rc, key'), s')
    /\ engine_state w s' m' /\ grows s s' (put_room key value) FDB_ITEM_META_SIZE
    /\ (rc = TAIR_RETURN_SUCCESS -> m' !! get_data key = Some (meta_entry (get_data value) (data_meta key'))).
Proof.
  intros Hkey Hval Harea Hver Hs Hr. destruct (hashcode_same key Hkey) as (E1 & E2 & E3 & E4 & Hk').
  pose proof (hashcode_kept key Hkey) as Hkept. set (k := snd (get_hashcode key)) in *.
  assert (bucket_put sys now key value version_care expire_time = bucket_put sys now k value version_care expire_time) as ->
    by (unfold bucket_put, item_for; by rewrite Hkept).
  assert (spec_put now key value version_care expire_time m = spec_put now k value version_care expire_time m) as ->
    by (unfold spec_put, put_dates, version_refused, get_version; by rewrite E1, E3).
  assert (put_room key value = put_room k value) as Er by (unfold put_room; by rewrite E2). rewrite Er in *. rewrite <- E1.
  apply bucket_put_kept; [done..|by rewrite E4|unfold get_version; by rewrite E3|by rewrite Hkept|done|done].
Qed.
