(* ===== verification/FdbOpen.v ===== *)
(** * Opening the files of a bucket, and running operations on it

    New files hold nothing; files that are opened again hold what they held,
    with the free extents read from their array.  A run of operations on a
    bucket gives the results that the map of its entries gives. *)

From S2P Require Import Prelude DataBuffer Util DataEntry MemPool MdbItem MemCache MdbManager TableManager Storage TairManager FdbFile FdbItems FdbBucket FdbTree FdbLayout FdbSteps FdbTiles FdbSpace FdbLink FdbUnlink FdbEngine FdbPut.

(** ** The pool *)

Lemma load_blocks_ok pool : forall i m av, 0 <= i ->
  let '(m', av') := load_blocks i pool m av in
  map snd m' ++ av' ≡ₚ map snd m ++ av ++ seqZ i (Z.of_nat (length pool))
  /\ (forall b j, (b, j) ∈ m' -> (b, j) ∈ m \/ (i <= j /\ pool !! Z.to_nat (j - i) = Some b /\ fb_size b <> 0))
  /\ (forall j, j ∈ av' -> j ∈ av \/ (i <= j /\ exists b, pool !! Z.to_nat (j - i) = Some b /\ fb_size b = 0)).
Proof.
  induction pool as [|b pool IH]; intros i m av Hi; cbn [load_blocks length].
  - rewrite app_nil_r. split; [done|]. split; [by left|by left].
  - assert (seqZ i (Z.of_nat (S (length pool))) = i :: seqZ (i + 1) (Z.of_nat (length pool))) as ->
      by (rewrite (seqZ_cons i) by lia; f_equal; f_equal; lia).
    assert (forall (b' : free_block) j, i + 1 <= j -> pool !! Z.to_nat (j - (i + 1)) = Some b' -> (b :: pool) !! Z.to_nat (j - i) = Some b') as Hsh.
    { intros b' j Hj Hl. replace (Z.to_nat (j - i)) with (S (Z.to_nat (j - (i + 1)))) by lia. done. }
    assert ((b :: pool) !! Z.to_nat (i - i) = Some b) as H0 by (by rewrite Z.sub_diag).
    destruct (Z.eqb_spec (fb_size b) 0) as [E|E].
    + specialize (IH (i + 1) m (i :: av) ltac:(lia)). destruct (load_blocks _ _ _ _) as [m' av']. destruct IH as (P1 & P2 & P3).
      split; [rewrite P1; cbn; by rewrite Permutation_middle|]. split.
      * intros b' j Hj. destruct (P2 b' j Hj) as [?|(? & ? & ?)]; [by left|right]. split; [lia|]. eauto.
      * intros j Hj. destruct (P3 j Hj) as [[->|?]%elem_of_cons|(? & b' & ? & ?)]; [right; split; [lia|by exists b]|by left|right].
        split; [lia|]. exists b'. eauto.
    + specialize (IH (i + 1) (multimap_insert b i m) av ltac:(lia)). destruct (load_blocks _ _ _ _) as [m' av']. destruct IH as (P1 & P2 & P3).
      rewrite multimap_insert_perm in P1. split; [rewrite P1; cbn; rewrite <- !Permutation_middle; done|]. split.
      * intros b' j Hj. destruct (P2 b' j Hj) as [Hin|(? & ? & ?)].
        -- rewrite multimap_insert_perm in Hin. apply elem_of_cons in Hin as [[= -> ->]|?]; [right; split; [lia|done]|by left].
        -- right. split; [lia|]. eauto.
      * intros j Hj. destruct (P3 j Hj) as [?|(? & b' & ? & ?)]; [by left|right]. split; [lia|]. exists b'. eauto.
Qed.

Lemma pool_entry m j b :
  pool_ok m -> free_pool m !! Z.to_nat j = Some b -> 0 <= j -> fb_size b = 0 \/ (b, j) ∈ free_blocks_map m.
Proof.
  intros Hm Hb Hj. assert (j ∈ map snd (free_blocks_map m) ++ available_pos m) as Hin.
  { rewrite (po_places _ Hm). apply elem_of_seqZ. apply lookup_lt_Some in Hb. lia. }
  apply elem_of_app in Hin as [([b' j'] & -> & Hin)%list_elem_of_fmap|Hin].
  - destruct (po_blocks _ Hm _ _ Hin) as [E _]. cbn in Hb. right. cbn. congruence.
  - destruct (po_free _ Hm _ Hin) as (b' & E & H0). left. congruence.
Qed.

Lemma reload_ok m :
  pool_ok m ->
  let m' := new_free_blocks_manager (free_pool m) 0 in
  pool_ok m' /\ forall b i, (b, i) ∈ free_blocks_map m' -> (b, i) ∈ free_blocks_map m.
Proof.
  intros Hm m'. unfold m', new_free_blocks_manager. cbn [Z.ltb Z.compare]. pose proof (load_blocks_ok (free_pool m) 0 [] [] ltac:(lia)) as Hl.
  destruct (load_blocks _ _ _ _) as [bm av]. destruct Hl as (P1 & P2 & P3). cbn in P1.
  assert (forall b i, (b, i) ∈ bm -> free_pool m !! Z.to_nat i = Some b /\ (b, i) ∈ free_blocks_map m) as Hin.
  { intros b i Hi. destruct (P2 b i Hi) as [?%elem_of_nil|(H0 & E & Hne)]; [done|]. rewrite Z.sub_0_r in E. split; [done|].
    by destruct (pool_entry m i b Hm E H0). }
  split; [|intros b i Hi; by apply Hin]. constructor; cbn.
  - done.
  - apply (po_some _ Hm).
  - intros b i Hi. destruct (Hin b i Hi) as [_ H2]. by apply (po_blocks _ Hm).
  - intros i Hi. destruct (P3 i Hi) as [?%elem_of_nil|(H0 & b & E & Hz)]; [done|]. rewrite Z.sub_0_r in E. by exists b.
Qed.

Lemma new_pool_ok n : 0 < n -> pool_ok (new_free_blocks_manager [] n) /\ free_blocks_map (new_free_blocks_manager [] n) = [].
Proof.
  intros Hn. unfold new_free_blocks_manager. rewrite (proj2 (Z.ltb_lt 0 n) Hn). set (pool := replicate _ _).
  pose proof (load_blocks_ok pool 0 [] [] ltac:(lia)) as Hl. destruct (load_blocks _ _ _ _) as [bm av]. destruct Hl as (P1 & P2 & P3). cbn in P1.
  assert (bm = []) as ->.
  { destruct bm as [|[b i] bm]; [done|]. exfalso. destruct (P2 b i ltac:(by left)) as [?%elem_of_nil|(_ & E & Hne)]; [done|].
    apply lookup_replicate in E as [-> _]. done. }
  split; [|done]. constructor; cbn.
  - done.
  - intros E. apply (f_equal length) in E. unfold pool in E. rewrite length_replicate in E. cbn in E. lia.
  - intros b i Hi. by apply elem_of_nil in Hi.
  - intros i Hi. destruct (P3 i Hi) as [?%elem_of_nil|(H0 & b & E & Hz)]; [done|]. rewrite Z.sub_0_r in E. by exists b.
Qed.

(** ** Opening *)

(** The configured size of the mapping, in megabytes, that reaches the records *)
Definition map_size_ok (power n : Z) : Prop := index_head_size power <= n * MB_SIZE /\ n <= 1024.

Lemma map_index_ok n power c size :
  0 <= power -> map_size_ok power n -> 0 <= size ->
  exists f, map_index n power (mk_file c size 0 0) = Ret f /\ index_geo f /\ content f = c /\ size <= file_size f.
Proof.
  intros Hp [Hn1 Hn2] Hs. pose proof (records_start_pos (mk_db_header power 0 0 0 0 []) Hp) as H0. unfold records_start in H0. cbn [fb_power] in H0.
  unfold map_index, file_mmap, map_file, MB_SIZE in *. cbn [mapped content file_size].
  rewrite (proj2 (Z.eqb_neq (n * 2 ^ 20) 0)) by lia. cbn [Z.ltb Z.compare].
  rewrite (proj2 (Z.leb_le (n * 2 ^ 20) _)) by lia. cbn [negb mapped].
  rewrite (proj2 (Z.leb_le _ _)) by lia. eexists. split; [done|]. split; [|split; [done|cbn; lia]]. split; cbn; [lia|done].
Qed.

Section opening.
Context (sys : system) `{io_succeeds sys}.

Lemma initialize_old_ok s T fl n :
  layout s T fl 0 -> map_size_ok (fb_power (header s)) n ->
  exists s', initialize_old n s = Ret s' /\ layout s' T fl 0 /\ header s' = header s /\ (tiling s T 0 None -> tiling s' T 0 None).
Proof.
  intros Hly Hn. pose proof (ly_index _ _ _ _ Hly) as Hg. pose proof (ly_data _ _ _ _ Hly) as [_ Hd].
  destruct (ly_sizes _ _ _ _ Hly) as (_ & _ & Hpow & _).
  destruct (map_index_ok n _ (content (index_file s)) (file_size (index_file s)) Hpow Hn) as (f & E & Hf & Ec & Hs); [unfold index_geo in Hg; lia|].
  destruct (reload_ok (fb_manager s) (ly_pool _ _ _ _ Hly)) as [Hp Hsub]. unfold initialize_old. rewrite E. cbn [obind]. eexists. split; [done|].
  split; [|split; [done|intros Htl; apply (tiling_pool s); [done|done|intros b [i Hb]; exists i; by apply Hsub|done]]].
  destruct Hly. unfold idx, dat in *. constructor; unfold idx, dat; cbn; rewrite ?Ec; try done.
  - intros n' Hn'. destruct (ly_records n' Hn') as [? ?]. split; [done|]. cbn. lia.
  - intros b i Hb. destruct (ly_pooled b i (Hsub _ _ Hb)) as (P1 & P2 & P3 & P4 & P5). split; [done|]. split; [done|]. split; [done|].
    split; [done|]. intros b' i' Hb'. by apply (P5 b' i'), Hsub.
  - intros o Ho. destruct (ly_free_records o Ho) as [[? ?] ?]. split; [|done]. split; [done|]. cbn. lia.
Qed.

(** A pool of at most 2 ^ 24 places *)
Lemma initialize_new_ok power n stack :
  0 <= power <= 24 -> map_size_ok power n -> length stack = 3%nat ->
  exists s, initialize_new sys power n stack = Ret s /\ engine_state true s ∅
    /\ dat_file_size (header s) = DBHEADER_MAGIC_SIZE /\ idx_file_size (header s) = records_start (header s) /\ fb_power (header s) = power.
Proof.
  intros Hpow Hn Hst. unfold initialize_new. set (h := dump_default_db_header power).
  assert (length (DATA_MAGIC ++ 0 :: stack) = 16%nat) as Hdh by (cbn; by rewrite Hst).
  assert (idx_file_size h = records_start h) as Er by done. pose proof (records_start_pos h ltac:(cbn; lia)) as Hr.
  assert (records_start h < 2 ^ 32) as Hr2.
  { unfold records_start, index_head_size. cbn [fb_power h dump_default_db_header]. rewrite Z.shiftl_mul_pow2 by lia.
    assert (2 ^ power <= 2 ^ 24) by (apply Z.pow_le_mono_r; lia).
    unfold DBHEADER_SIZE, FDB_BUCKET_NUMBER, FREEBLOCK_SIZE, TAIR_MAX_AREA_COUNT, sizeof_tair_pstat. lia. }
  unfold file_pwrite at 1. cbn [reach mapped andb Z.ltb Z.compare]. rewrite (proj2 (Z.leb_gt (0 + idx_file_size h) 0)), index_writes by lia.
  cbn [negb content file_size mapped max_size]. unfold file_pwrite at 1. cbn [reach mapped andb Z.ltb Z.compare].
  rewrite (proj2 (Z.leb_gt (0 + DBHEADER_MAGIC_SIZE) 0)), data_writes by done. cbn [negb content file_size mapped max_size].
  destruct (map_index_ok n power (∅ : gmap Z item_index) (Z.max 0 (0 + idx_file_size h)) ltac:(lia) Hn ltac:(lia)) as (f & E & Hf & Ec & Hs). rewrite E. cbn [obind].
  eexists. split; [done|]. split; [|done]. exists (fun _ => Leaf), [].
  assert (forall n', ~ present (fun _ => Leaf) n') as Hno by (intros n' (b & []%elem_of_nil)).
  destruct (new_pool_ok (Z.shiftl 1 power)) as [Hp Hm]; [rewrite Z.shiftl_mul_pow2 by lia; pose proof (Z.pow_pos_nonneg 2 power); lia|].
  split; [constructor; unfold idx, dat; cbn [index_file data_file fb_manager header buckets]; rewrite ?Ec, ?Hm; try done|].
  - split; [done|]. cbn [content file_size]. rewrite length_put_bytes, Hdh by done. done.
  - intros b Hb. unfold cell. rewrite lookup_replicate_2; [done|]. unfold FDB_BUCKET_NUMBER in *. lia.
  - intros b. split; [done|constructor].
  - intros b n' []%elem_of_nil.
  - intros n1 n2 H1. by destruct (Hno n1).
  - intros n1 H1. by destruct (Hno n1).
  - intros n1 H1. by destruct (Hno n1).
  - intros n1 n2 H1. by destruct (Hno n1).
  - intros b i []%elem_of_nil.
  - split; [done|constructor].
  - intros o []%elem_of_nil.
  - rewrite Er, Z.sub_diag. split; [lia|]. split; [done|]. split; [cbn; lia|done].
  - split.
    2:{ intros _. exists []. cbn [places]. split; [|split; [|split; [|split]]].
      - constructor; [|constructor|intros o k []%elem_of_nil]. unfold dat. cbn [data_file content]. rewrite length_put_bytes, Hdh by done. done.
      - intros n' Hn'. by destruct (Hno n').
      - intros b [i Hb]. cbn [fb_manager] in Hb. rewrite Hm in Hb. by apply elem_of_nil in Hb.
      - intros o k []%elem_of_nil.
      - unfold dat. cbn [data_file content header h]. rewrite length_put_bytes, Hdh by done. done. }
    intros k e. rewrite lookup_empty. split; [done|]. intros (n' & Hn' & _). by destruct (Hno n').
Qed.
End opening.
