(* ===== verification/FdbLost.v ===== *)
(** * A put whose look-up could not read

    [fdb_bucket::put] treats whatever [get_item] gives other than an item as a
    new key; after a failed read there is no parent, and the new record takes
    the place of the whole tree. *)

From S2P Require Import Prelude DataBuffer Util DataEntry MemPool MdbItem MemCache MdbManager TableManager Storage TairManager FdbFile FdbItems FdbBucket FdbTree FdbLayout FdbSteps FdbTiles FdbSpace FdbLink FdbUnlink FdbEngine FdbPut FdbOpen.

(** The same system without the failed reads *)
Definition reading (sys : system) : system :=
  mk_system (mremap_ok sys) (fun _ _ => true) (fun _ _ => true) (index_write_ok sys) (data_write_ok sys).

(** Only the record at [r] cannot be read. *)
Record unreadable (sys : system) (r : Z) : Prop := {
  ur_record : forall n, index_read_ok sys r n = false;
  ur_others : forall o n, o <> r -> index_read_ok sys o n = true;
  ur_writes : (forall o n, index_write_ok sys o n = true) /\ (forall o n, data_write_ok sys o n = true)
}.

Lemma reading_succeeds sys r : unreadable sys r -> io_succeeds (reading sys).
Proof. intros [_ _ [H1 H2]]. by constructor. Qed.

(** The entries in the other trees of the bucket *)
Definition other_trees (k : list Z) (m : gmap (list Z) fdb_entry) : gmap (list Z) fdb_entry :=
  filter (fun p => key_hash (fst p) mod FDB_BUCKET_NUMBER <> key_hash k mod FDB_BUCKET_NUMBER) m.

Lemma layout_cut s T fl b :
  layout s T fl 0 -> 0 <= b < FDB_BUCKET_NUMBER -> layout (set_buckets (<[Z.to_nat b := 0]> (buckets s)) s) (upd T b Leaf) fl 0.
Proof.
  intros Hly Hb. assert (forall n, present (upd T b Leaf) n -> present T n) as Hp.
  { intros n [[]%elem_of_nil|(b' & _ & Hn)]%present_upd. by exists b'. }
  pose proof (ly_buckets _ _ _ _ Hly) as Hl. destruct Hly. constructor; cbn; try done; eauto.
  - by rewrite length_insert.
  - intros j Hj. rewrite cell_insert by lia. unfold upd. repeat case_decide; try done; by apply ly_roots.
  - intros b'. unfold upd. case_decide; [split; [done|constructor]|apply ly_trees].
  - intros b' n. unfold upd. case_decide; [intros []%elem_of_nil|apply ly_hash].
  - intros b' i Hi. destruct (ly_pooled b' i Hi) as (P1 & P2 & P3 & P4 & P5). split; [done|]. split; [done|]. split; [done|]. split; [|done].
    eauto.
  - intros o Ho. destruct (ly_free_records o Ho). eauto.
Qed.

Lemma holds_cut s T fl m k :
  let b := key_hash k mod FDB_BUCKET_NUMBER in
  layout s T fl 0 -> holds T m -> holds (upd T b Leaf) (other_trees k m).
Proof.
  intros b Hly Hh k' e. unfold other_trees. rewrite map_lookup_filter_Some, (Hh k' e). cbn. fold b. split.
  - intros [(n & [b' Hn] & Hk & He) Hne]. exists n. split; [|done]. apply present_upd. right. exists b'. split; [|done].
    intros ->. apply Hne. rewrite <- Hk. by apply (ly_hash _ _ _ _ Hly).
  - intros (n & [[]%elem_of_nil|(b' & Hb' & Hn)]%present_upd & Hk & He). split; [exists n; split; [by exists b'|done]|].
    rewrite <- Hk, (ly_hash _ _ _ _ Hly b' n Hn). done.
Qed.

(** ** What does not look at the roots *)

(** [m] does with other roots what [m'] does. *)
Definition same_but_roots {A} (l : list Z) (m m' : fdbM A) (s : fdb_store) : Prop :=
  m (set_buckets l s) = (let! (a, s') := m' s in Ret (a, set_buckets l s')).

Lemma roots_bind {A B} l (m m' : fdbM A) (k k' : A -> fdbM B) s :
  same_but_roots l m m' s -> (forall a s', m' s = Ret (a, s') -> same_but_roots l (k a) (k' a) s') ->
  same_but_roots l (sbind m k) (sbind m' k') s.
Proof.
  unfold same_but_roots, sbind. intros -> Hk. destruct (m' s) as [[a s']| | | |] eqn:E; try done. cbn. by apply Hk.
Qed.

Lemma roots_ret {A} l (a : A) s : same_but_roots l (sret a) (sret a) s.
Proof. done. Qed.

Lemma roots_get {A} l (k k' : fdb_store -> fdbM A) s :
  same_but_roots l (k (set_buckets l s)) (k' s) s -> same_but_roots l (sbind sget k) (sbind sget k') s.
Proof. done. Qed.

Lemma read_meta_roots sys l o s :
  (forall n, index_read_ok sys o n = true) -> same_but_roots l (read_meta sys o) (read_meta (reading sys) o) s.
Proof.
  intros Ho. unfold same_but_roots, read_meta, file_pread. cbn. rewrite Ho. by repeat case_match.
Qed.

Lemma new_data_roots it l s : same_but_roots l (new_data it) (new_data it) s.
Proof.
  unfold same_but_roots, new_data, sbind, sget. cbn. destruct (search_block _ _) as [[b|] m]; done.
Qed.

Lemma new_item_roots sys it l s :
  (forall n, index_read_ok sys (free_idx_head (header s)) n = true) -> same_but_roots l (new_item sys it) (new_item (reading sys) it) s.
Proof.
  intros Hr. unfold new_item. apply roots_get. change (header (set_buckets l s)) with (header s). apply roots_bind.
  - destruct (negb _); [|apply roots_ret]. apply roots_bind; [by apply read_meta_roots|]. intros [m|] s' _; [|apply roots_ret].
    destruct (_ =? _); [|apply roots_ret]. by apply roots_get.
  - intros off s' _. apply roots_bind; [|intros off' s2 _; apply new_data_roots]. destruct (off =? 0); [by apply roots_get|apply roots_ret].
Qed.

Lemma put_fresh_roots sys d n created it l s :
  (forall n, index_read_ok sys (free_idx_head (header s)) n = true) ->
  same_but_roots l (put_fresh sys d n created it) (put_fresh (reading sys) d n created it) s.
Proof. intros Hr. unfold put_fresh. apply roots_bind; [by apply new_item_roots|]. intros ? ? _. apply roots_ret. Qed.

(** ** The put *)

Section lost.
Context (sys : system) (r : Z) (Hur : unreadable sys r).

Lemma write_meta_roots it s l l' :
  is_new it = true -> parent_off it = 0 -> <[Z.to_nat (bucket_index it) := meta_offset it]> l = <[Z.to_nat (bucket_index it) := meta_offset it]> l' ->
  length l = length l' -> write_meta sys it (set_buckets l s) = write_meta (reading sys) it (set_buckets l' s).
Proof.
  intros H1 H2 Hl Hlen. unfold write_meta, sassert. destruct (0 <? meta_offset it); [|done]. unfold sbind, pwrite_meta, file_pwrite. cbn.
  rewrite H1, H2, (proj1 (ur_writes _ _ Hur)). cbn. destruct (_ <=? _); cbn; unfold set_bucket, set_at; cbn; rewrite Hlen, Hl; done.
Qed.

Lemma put_commit_roots key value care psize total mdate edate it cr sd su s l l' :
  is_new it = true -> parent_off it = 0 -> <[Z.to_nat (bucket_index it) := meta_offset it]> l = <[Z.to_nat (bucket_index it) := meta_offset it]> l' ->
  length l = length l' ->
  put_commit sys key value care psize total mdate edate (it, cr, sd, su) (set_buckets l s)
  = put_commit (reading sys) key value care psize total mdate edate (it, cr, sd, su) (set_buckets l' s).
Proof.
  intros H1 H2 Hl Hlen. unfold put_commit, update_item, sbind. by rewrite (write_meta_roots _ s l l').
Qed.

(** The record above the tree cannot be read. *)
Lemma lookup_fails key s T fl :
  layout s T fl 0 -> fdb_key key -> snd (get_hashcode key) = key ->
  let b := key_hash (get_data key) mod FDB_BUCKET_NUMBER in
  cell (buckets s) b = r -> 0 < r -> mapped (index_file s) < r + FDB_ITEM_META_SIZE ->
  let item := mk_fdb_item 0 b 0 false false (mk_item_index 0 0 0 0 (key_hash (get_data key))) zero_meta [] [] in
  get_item sys key item s = Ret ((TAIR_RETURN_FAILED, item), s).
Proof.
  intros Hly Hkey Hkept b Hr H0 Hm item. unfold get_item. cbn [bucket_index item].
  assert (0 <= b < FDB_BUCKET_NUMBER) as Hb by by apply Z.mod_pos_bound.
  assert (at_ (buckets s) b = Ret r) as E by (rewrite at_cell by (rewrite (ly_buckets _ _ _ _ Hly); lia); by rewrite Hr).
  unfold sbind, slift. rewrite E. cbn [obind find_item]. rewrite (proj2 (Z.ltb_lt 0 r) H0). cbn [negb]. unfold sbind, read_meta, file_pread.
  rewrite (reach_whole sys) by apply (ly_index _ _ _ _ Hly). rewrite (proj2 (Z.leb_gt _ _)) by lia. rewrite (ur_record _ _ Hur), andb_false_r.
  by destruct s.
Qed.

Lemma failed_put key value version_care now expire_time s T fl m :
  fdb_key key -> fdb_value value -> 0 <= s32 (area key) < TAIR_MAX_AREA_COUNT -> in_u 16 (get_version key) -> snd (get_hashcode key) = key ->
  layout s T fl 0 -> holds T m -> room s (put_room key value) FDB_ITEM_META_SIZE ->
  cell (buckets s) (key_hash (get_data key) mod FDB_BUCKET_NUMBER) = r -> 0 < r -> mapped (index_file s) < r + FDB_ITEM_META_SIZE ->
  let '(created, modified, expires) := put_dates now key version_care expire_time in
  exists res s', bucket_put sys now key value version_care expire_time s = Ret (res, s') /\ fst res = TAIR_RETURN_SUCCESS
    /\ engine_state false s' (<[get_data key := written version_care modified expires key value 0 created]> (other_trees (get_data key) m)).
Proof.
  intros Hkey Hval Harea Hver Hkept Hly Hh Hroom Hr H0 Hm. pose proof (lookup_fails key s T fl Hly Hkey Hkept Hr H0 Hm) as Hget.
  unfold bucket_put. rewrite (item_for_run key Hkey). cbv zeta. rewrite Hkept in *. set (b := key_hash (get_data key) mod FDB_BUCKET_NUMBER) in *.
  assert (0 <= b < FDB_BUCKET_NUMBER) as Hb by by apply Z.mod_pos_bound.
  destruct (put_dates now key version_care expire_time) as [[created modified] expires].
  pose proof (reading_succeeds sys r Hur) as Hio. pose proof (layout_cut s T fl b Hly Hb) as Hly0. pose proof (holds_cut s T fl m (get_data key) Hly Hh) as Hh0.
  fold b in Hh0. set (l' := <[Z.to_nat b := 0]> (buckets s)) in *.
  assert (upd T b Leaf b = plug [] Leaf) as Ht by (unfold upd; by rewrite decide_True).
  destruct (put_fresh_ok (reading sys) version_care created modified expires key value Hkey Hval Harea Hver false _ _ fl _ [] Hly0 Hh0 ltac:(done) Ht Hb
    ltac:(constructor) ltac:(constructor) Hroom) as (res & [[[it cr] sd] su] & s1 & s' & E1 & E2 & (I1 & I2 & I3) & D1 & D2 & D3 & D4).
  cbn in I1, I2, I3. exists res, s'. split; [|done]. step_with Hget. cbn [Z.eqb TAIR_RETURN_FAILED TAIR_RETURN_SUCCESS].
  assert (free_idx_head (header s) <> r) as Hf.
  { destruct (ly_free _ _ _ _ Hly) as [Hc _]. destruct fl as [|o fl]; cbn in Hc; [lia|]. destruct Hc as (-> & Ho & _). intros ->.
    apply (free_not_in_tree s T (r :: fl) 0 Hly r b ltac:(by left)). rewrite <- Hr, (ly_roots _ _ _ _ Hly b Hb).
    rewrite (ly_roots _ _ _ _ Hly b Hb) in Hr. destruct (T b) as [|lt n rt]; [cbn in Hr; lia|]. unfold offs. cbn. rewrite map_app. set_solver. }
  set (s0 := set_buckets l' s) in *. assert (set_buckets (buckets s) s0 = s) as Es by (by destruct s).
  change (at_frame [] ?i) with i in E1. fold b in E1.
  match type of E1 with put_fresh _ ?d ?tot ?c ?i _ = _ =>
    pose proof (put_fresh_roots sys d tot c i (buckets s) s0 (fun n => ur_others _ _ Hur _ n Hf)) as Hsame;
    pose proof (put_fresh_roots (reading sys) d tot c i l' s0 (fun n => eq_refl)) as Hl
  end.
  unfold same_but_roots in Hsame. rewrite Es, E1 in Hsame. cbn [obind] in Hsame. step_with Hsame.
  unfold same_but_roots in Hl. change (reading (reading sys)) with (reading sys) in Hl. change (set_buckets l' s0) with s0 in Hl. rewrite E1 in Hl. injection Hl as Hl. rewrite Hl in E2 |- *.
  rewrite <- E2. change (set_buckets (buckets s) (set_buckets l' s1)) with (set_buckets (buckets s) s1).
  apply put_commit_roots; [done|done| |]; rewrite ?I3; unfold l'.
  - by rewrite list_insert_insert_eq.
  - by rewrite length_insert.
Qed.
End lost.
