(* ===== verification/FdbTheorems.v ===== *)
(** * The disk engine: properties

    A bucket that is opened on new files and then written, read, emptied and
    opened again gives at every step what the map of its entries gives; a put
    whose look-up could not read a record throws the bucket's tree away. *)

From S2P Require Import Prelude DataBuffer Util DataEntry MemPool MdbItem MemCache MdbManager TableManager Storage TairManager FdbFile FdbItems FdbBucket FdbTree FdbLayout FdbSteps FdbTiles FdbSpace FdbLink FdbUnlink FdbEngine FdbPut FdbOpen FdbLost.

(** ** Runs *)

Inductive fdb_op :=
| FdbPut (now : Z) (key value : data_entry) (version_care : bool) (expire_time : Z)
| FdbGet (now : Z) (key value : data_entry)
| FdbRemove (key : data_entry) (version_care : bool)
| FdbReopen (map_size : Z).

(** The answer: the code and, when an entry is written or read, what the caller
    is told of it *)
Definition fdb_answer : Type := Z * option fdb_entry.

Definition op_run (sys : system) (op : fdb_op) : fdbM fdb_answer :=
  match op with
  | FdbPut now key value version_care expire_time =>
      let* (rc, key) := bucket_put sys now key value version_care expire_time in
      sret (rc, if rc =? TAIR_RETURN_SUCCESS then Some (meta_entry (get_data value) (data_meta key)) else None)
  | FdbGet now key value =>
      let* (rc, _, value) := bucket_get sys now key value in
      sret (rc, if rc =? TAIR_RETURN_SUCCESS then Some (meta_entry (get_data value) (data_meta value)) else None)
  | FdbRemove key version_care => let* (rc, _) := bucket_remove sys key version_care in sret (rc, None)
  | FdbReopen map_size => fun s => let! s := initialize_old map_size s in Ret ((TAIR_RETURN_SUCCESS, None), s)
  end.
Fixpoint fdb_run (sys : system) (ops : list fdb_op) : fdbM (list fdb_answer) :=
  match ops with
  | [] => sret []
  | op :: ops => let* a := op_run sys op in let* l := fdb_run sys ops in sret (a :: l)
  end.

Definition op_spec (op : fdb_op) (m : gmap (list Z) fdb_entry) : fdb_answer * gmap (list Z) fdb_entry :=
  match op with
  | FdbPut now key value version_care expire_time =>
      let '(rc, m') := spec_put now key value version_care expire_time m in
      ((rc, if rc =? TAIR_RETURN_SUCCESS then m' !! get_data key else None), m')
  | FdbGet now key _ => spec_get now key m
  | FdbRemove key version_care => let '(rc, m') := spec_remove key version_care m in ((rc, None), m')
  | FdbReopen _ => ((TAIR_RETURN_SUCCESS, None), m)
  end.
Fixpoint fdb_spec (ops : list fdb_op) (m : gmap (list Z) fdb_entry) : list fdb_answer * gmap (list Z) fdb_entry :=
  match ops with
  | [] => ([], m)
  | op :: ops => let '(a, m) := op_spec op m in let '(l, m) := fdb_spec ops m in (a :: l, m)
  end.

(** The arguments the server passes, and the room an operation may take *)
Definition key_ok (key : data_entry) : Prop :=
  fdb_key key /\ 0 <= s32 (area key) < TAIR_MAX_AREA_COUNT /\ in_u 16 (get_version key).
Definition op_ok (power : Z) (op : fdb_op) : Prop :=
  match op with
  | FdbPut _ key value _ _ => key_ok key /\ fdb_value value
  | FdbGet _ key _ | FdbRemove key _ => key_ok key
  | FdbReopen map_size => map_size_ok power map_size
  end.
Definition op_data (op : fdb_op) : Z := match op with FdbPut _ key value _ _ => put_room key value | _ => 0 end.
Definition op_index (op : fdb_op) : Z := match op with FdbPut _ _ _ _ _ => FDB_ITEM_META_SIZE | _ => 0 end.
Definition total (f : fdb_op -> Z) (ops : list fdb_op) : Z := foldr Z.add 0 (map f ops).

Section runs.
Context (sys : system) `{io_succeeds sys} (power : Z).

Lemma op_room_pos op : op_ok power op -> 0 <= op_data op /\ 0 <= op_index op.
Proof.
  destruct op; cbn; try lia. intros [[Hk _] Hv]. destruct (total_size_range key value Hk Hv) as (H1 & H2 & _). fold (put_room key value) in H1. unfold FDB_ITEM_META_SIZE. lia.
Qed.

Lemma total_pos ops : Forall (op_ok power) ops -> 0 <= total op_data ops /\ 0 <= total op_index ops.
Proof. induction 1 as [|op ops Hop _ IH]; cbn; [done|]. unfold total in *. pose proof (op_room_pos op Hop). lia. Qed.

Lemma op_refines op s m :
  op_ok power op -> engine_state true s m -> fb_power (header s) = power -> room s (op_data op) (op_index op) ->
  exists s', op_run sys op s = Ret (fst (op_spec op m), s') /\ engine_state true s' (snd (op_spec op m))
    /\ grows s s' (op_data op) (op_index op).
Proof.
  intros Hop Hs Hpw Hr. destruct op as [now key value care expire|now key value|key care|n]; cbn [op_run op_spec op_data op_index].
  - destruct Hop as [(Hk & Ha & Hv) Hval]. pose proof (bucket_put_ok sys now care expire key value true s m Hk Hval Ha Hv Hs Hr) as Hput.
    destruct (spec_put now key value care expire m) as [rc m']. destruct Hput as (key' & s' & E & Hs' & Hr' & He). step_with E.
    exists s'. split; [|done]. cbn [fst]. destruct (Z.eqb_spec rc TAIR_RETURN_SUCCESS) as [D|D]; [by rewrite (He D)|done].
  - destruct Hop as (Hk & Ha & Hv). pose proof (bucket_get_ok sys now key Hk Ha true s m value Hs) as Hget.
    destruct (spec_get now key m) as [[rc e] m'] eqn:Es. destruct Hget as (key' & value' & s' & E & Hs' & Hr' & He). step_with E. exists s'.
    split; [|by split]. cbn [fst snd]. unfold spec_get in Es. destruct (m !! get_data key) as [e0|];
      [destruct (entry_expired now e0)|]; injection Es as <- <- <-; try done.
    destruct He as (He & _ & _ & ->). cbn in *. by rewrite He.
  - destruct Hop as (Hk & Ha & Hv). destruct (bucket_remove_ok sys key Hk Ha true s m care Hs) as (key' & s' & E & Hs' & Hr').
    destruct (spec_remove key care m) as [rc m']. step_with E. exists s'. by split; [|split].
  - destruct Hs as (T & fl & Hly & Hh & Ht). rewrite <- Hpw in Hop. destruct (initialize_old_ok s T fl n Hly Hop) as (s' & E & Hly' & Hh' & Ht').
    exists s'. rewrite E. split; [done|]. split; [exists T, fl; auto|]. unfold grows. rewrite Hh'. cbn. lia.
Qed.

Lemma run_refines ops : forall s m,
  Forall (op_ok power) ops -> engine_state true s m -> fb_power (header s) = power -> room s (total op_data ops) (total op_index ops) ->
  exists s', fdb_run sys ops s = Ret (fst (fdb_spec ops m), s') /\ engine_state true s' (snd (fdb_spec ops m)).
Proof.
  induction ops as [|op ops IH]; intros s m Hops Hs Hpw Hr; [by exists s|]. apply list.Forall_cons in Hops as [Hop Hops].
  destruct (total_pos ops Hops) as [T1 T2]. destruct (op_room_pos op Hop) as [T3 T4].
  change (total op_data (op :: ops)) with (op_data op + total op_data ops) in Hr. change (total op_index (op :: ops)) with (op_index op + total op_index ops) in Hr.
  destruct (op_refines op s m Hop Hs Hpw) as (s1 & E & Hs1 & Hg1); [unfold room in *; lia|].
  cbn [fdb_run fdb_spec]. destruct (op_spec op m) as [a m1]. cbn [fst snd] in *. destruct (IH s1 m1 Hops Hs1) as (s2 & E2 & Hs2);
    [unfold grows in Hg1; lia|unfold grows, room in *; lia|].
  destruct (fdb_spec ops m1) as [l m2]. cbn [fst snd] in *. step_with E. step_with E2. by exists s2.
Qed.
End runs.

(** C33: whatever is put, got and removed in a bucket, with its files closed and
    opened again in between, every operation answers what the map of the
    bucket's entries answers, as long as the requests fit the 40 and 32 bits
    that offsets have in the two files. *)
Theorem disk_bucket_is_a_map sys power map_size stack ops :
  io_succeeds sys -> 0 <= power <= 24 -> map_size_ok power map_size ->
  length stack = 3%nat ->
  Forall (op_ok power) ops -> DBHEADER_MAGIC_SIZE + total op_data ops < 2 ^ 40 ->
  records_start (dump_default_db_header power) + total op_index ops < 2 ^ 32 ->
  exists s s', initialize_new sys power map_size stack = Ret s
    /\ fdb_run sys ops s = Ret (fst (fdb_spec ops ∅), s') /\ engine_state true s' (snd (fdb_spec ops ∅)).
Proof.
  intros Hio Hp Hn Hst Hops Hr1 Hr2. destruct (initialize_new_ok sys power map_size stack Hp Hn Hst) as (s & E & Hs & E1 & E2 & E3).
  exists s. destruct (run_refines sys power ops s ∅ Hops Hs E3) as (s' & E' & Hs').
  - unfold room. rewrite E1, E2. unfold records_start in *. rewrite E3. cbn [fb_power dump_default_db_header] in Hr2. done.
  - by exists s'.
Qed.

(** ** An example *)

Definition sample_meta (version : Z) : item_meta_info := mk_item_meta_info 0 0 0 version 0 0 0 0 0 0.
Definition sample_key (version : Z) (k : list Z) : data_entry :=
  mk_data_entry (Z.of_nat (length k)) (Some k) false 0 true false 1 0 (sample_meta version).
Definition sample_value (v : list Z) : data_entry :=
  mk_data_entry (Z.of_nat (length v)) (Some v) false 0 false false 0 0 (sample_meta 0).

(** Two keys of one tree *)
Definition key_a : list Z := [1; 0; 97; 180].
Definition key_b : list Z := [1; 0; 97; 203].

Definition sound_system : system := mk_system (fun _ => true) (fun _ _ => true) (fun _ _ => true) (fun _ _ => true) (fun _ _ => true).

Lemma sample_key_ok version k :
  3 <= Z.of_nat (length k) < 2 ^ 16 -> in_u 16 version -> key_ok (sample_key version k).
Proof.
  intros Hk Hv. split; [|by split]. constructor; [done|done|].
  unfold get_hashcode. cbn [data size sample_key hashcode Z.eqb]. by rewrite (proj2 (Z.ltb_lt 0 _)) by lia.
Qed.

Definition sample_ops : list fdb_op :=
  [FdbPut 100 (sample_key 0 key_a) (sample_value [1; 2; 3]) true 0; FdbPut 101 (sample_key 0 key_b) (sample_value [4]) true 7;
   FdbReopen 128; FdbGet 102 (sample_key 0 key_a) (sample_value []); FdbPut 103 (sample_key 9 key_a) (sample_value [5]) true 0;
   FdbRemove (sample_key 1 key_a) true; FdbGet 104 (sample_key 0 key_b) (sample_value []); FdbGet 109 (sample_key 0 key_b) (sample_value []);
   FdbGet 110 (sample_key 0 key_a) (sample_value [])].

#[export] Instance sound_system_io : io_succeeds sound_system.
Proof. by constructor. Qed.

Lemma sample_ops_ok : Forall (op_ok 8) sample_ops.
Proof.
  repeat constructor; try (by apply sample_key_ok); try done.
Qed.

Lemma disk_bucket_is_a_map_witness : exists s s',
  initialize_new sound_system 8 128 [0; 0; 0] = Ret s
  /\ fdb_run sound_system sample_ops s = Ret
    ([(TAIR_RETURN_SUCCESS, Some (mk_fdb_entry [1; 2; 3] 1 0 100 100 0)); (TAIR_RETURN_SUCCESS, Some (mk_fdb_entry [4] 1 0 101 101 108));
      (TAIR_RETURN_SUCCESS, None); (TAIR_RETURN_SUCCESS, Some (mk_fdb_entry [1; 2; 3] 1 0 100 100 0)); (TAIR_RETURN_VERSION_ERROR, None);
      (TAIR_RETURN_SUCCESS, None); (TAIR_RETURN_SUCCESS, Some (mk_fdb_entry [4] 1 0 101 101 108)); (TAIR_RETURN_DATA_EXPIRED, None);
      (TAIR_RETURN_DATA_NOT_EXIST, None)], s')
  /\ engine_state true s' ∅.
Proof.
  apply (disk_bucket_is_a_map sound_system 8 128 [0; 0; 0] sample_ops);
    [apply sound_system_io|done|by split|done|apply sample_ops_ok|by vm_compute|by vm_compute].
Defined.

(** ** A failed read *)

(** C35: a put whose look-up cannot read the record at the root of the key's tree
    succeeds, without a look at the stored version, and puts a tree with one
    node in the place of the old one: every other key of that tree is gone. *)
Theorem failed_read_loses_tree sys r now key value version_care expire_time s m :
  unreadable sys r -> key_ok key -> fdb_value value -> engine_state false s m -> room s (put_room key value) FDB_ITEM_META_SIZE ->
  cell (buckets s) (key_hash (get_data key) mod FDB_BUCKET_NUMBER) = r -> 0 < r -> mapped (index_file s) < r + FDB_ITEM_META_SIZE ->
  exists e key' s', bucket_put sys now key value version_care expire_time s = Ret ((TAIR_RETURN_SUCCESS, key'), s')
    /\ e_value e = get_data value /\ engine_state false s' (<[get_data key := e]> (other_trees (get_data key) m)).
Proof.
  intros Hur (Hkey & Harea & Hver) Hval (T & fl & Hly & Hh & _) Hroom Hr H0 Hm. destruct (hashcode_same key Hkey) as (E1 & E2 & E3 & E4 & Hk').
  pose proof (hashcode_kept key Hkey) as Hkept. set (k := snd (get_hashcode key)) in *.
  assert (bucket_put sys now key value version_care expire_time = bucket_put sys now k value version_care expire_time) as ->
    by (unfold bucket_put, item_for; by rewrite Hkept).
  rewrite <- E1 in *. assert (put_room key value = put_room k value) as Er by (unfold put_room; by rewrite E2). rewrite Er in Hroom.
  pose proof (failed_put sys r Hur k value version_care now expire_time s T fl m Hk' Hval ltac:(by rewrite E4) ltac:(unfold get_version; by rewrite E3)
    ltac:(by rewrite Hkept) Hly Hh Hroom Hr H0 Hm) as Hput.
  destruct (put_dates _ _ _ _) as [[c d] e]. destruct Hput as ([rc key'] & s' & E & Hrc & Hs). cbn in Hrc. subst rc.
  eexists _, key', s'. split; [exact E|]. by split; [|exact Hs].
Qed.

(** A bucket from which many records have been taken, so that the next one lies
    behind a mapping of one megabyte *)
Lemma layout_allocated s T fl x n :
  layout s T fl x -> idx_file_size (header s) <= n < 2 ^ 32 -> (n - records_start (header s)) mod FDB_ITEM_META_SIZE = 0 ->
  layout (set_header (set_idx_file_size n (header s)) s) T fl x.
Proof.
  intros Hly Hn Hmod. assert (wrap 32 n = n) as E.
  { apply wrap_id. destruct (ly_sizes _ _ _ _ Hly) as ((H1 & _) & _ & Hp & _). pose proof (records_start_pos _ Hp). unfold in_u. lia. }
  assert (forall o, record_in s o -> record_in (set_header (set_idx_file_size n (header s)) s) o) as Hrec.
  { intros o ((R1 & R2 & R3) & R4). split; [|done]. split; [done|]. split; [done|]. cbn. rewrite E. lia. }
  destruct Hly. constructor; try done; eauto.
  - intros o Ho. destruct (ly_free_records o Ho). eauto.
  - cbn. rewrite E. destruct ly_sizes as ((? & ?) & ? & ? & ?). change (records_start (set_idx_file_size n (header s))) with (records_start (header s)).
    split; [lia|done].
Qed.

Definition far_record : Z := index_head_size 8 + 24 * 50000.
Definition far_store : outcome fdb_store :=
  let! s := initialize_new sound_system 8 1 [0; 0; 0] in
  let! (_, s) := bucket_put sound_system 100 (sample_key 0 key_a) (sample_value [1; 2; 3]) true 0
                   (set_header (set_idx_file_size far_record (header s)) s) in
  Ret s.
Definition far_entries : gmap (list Z) fdb_entry :=
  snd (spec_put 100 (sample_key 0 key_a) (sample_value [1; 2; 3]) true 0 ∅).

Lemma far_store_ok : exists s, far_store = Ret s /\ engine_state false s far_entries
  /\ dat_file_size (header s) <= 1000 /\ idx_file_size (header s) <= 2 ^ 24.
Proof.
  destruct (initialize_new_ok sound_system 8 1 [0; 0; 0]) as (s & E & (T & fl & Hly & Hh & _) & E1 & E2 & E3);
    [done|by split|done|].
  assert (records_start (header s) = index_head_size 8) as E4 by (unfold records_start; by rewrite E3).
  pose proof (layout_allocated s T fl 0 far_record Hly) as Hl. rewrite E2, E4 in Hl. specialize (Hl ltac:(done) ltac:(done)).
  destruct (bucket_put_ok sound_system 100 true 0 (sample_key 0 key_a) (sample_value [1; 2; 3])
    false (set_header (set_idx_file_size far_record (header s)) s) ∅) as (key' & s' & Ep & Hs & Hg & _).
  - by apply sample_key_ok.
  - by repeat constructor.
  - done.
  - done.
  - by exists T, fl.
  - unfold room. cbn. rewrite E1. done.
  - exists s'. unfold far_store. rewrite E. cbn [obind]. rewrite Ep. split; [done|]. split; [exact Hs|].
    destruct Hg as (G1 & G2 & _). cbn [header set_header dat_file_size idx_file_size set_idx_file_size] in G1, G2. rewrite E1 in G1.
    assert (DBHEADER_MAGIC_SIZE + put_room (sample_key 0 key_a) (sample_value [1; 2; 3]) <= 1000) as B1 by done.
    assert (u32 far_record + FDB_ITEM_META_SIZE <= 2 ^ 24) as B2 by done. lia.
Qed.

Definition failing_system : system :=
  mk_system (fun _ => true) (fun o _ => negb (o =? far_record)) (fun _ _ => true) (fun _ _ => true) (fun _ _ => true).

Lemma failing_system_unreadable : unreadable failing_system far_record.
Proof.
  constructor; [intros n; cbn; by rewrite Z.eqb_refl|intros o n Ho; cbn; by rewrite (proj2 (Z.eqb_neq _ _) Ho)|done].
Qed.

Lemma failed_read_loses_tree_witness : exists s e key' s',
  far_store = Ret s /\ engine_state false s far_entries /\ is_Some (far_entries !! key_a)
  /\ bucket_put failing_system 200 (sample_key 7 key_b) (sample_value [4]) true 0 s = Ret ((TAIR_RETURN_SUCCESS, key'), s')
  /\ engine_state false s' (<[key_b := e]> (other_trees key_b far_entries)) /\ <[key_b := e]> (other_trees key_b far_entries) !! key_a = None.
Proof.
  assert (key_ok (sample_key 7 key_b)) as Hk by by apply sample_key_ok.
  assert (fdb_value (sample_value [4])) as Hv by by repeat constructor.
  assert (put_room (sample_key 7 key_b) (sample_value [4]) = 128) as Hroom by done.
  assert (0 < far_record /\ 2 ^ 20 < far_record + FDB_ITEM_META_SIZE) as [Hf1 Hf2] by done.
  assert (is_Some (far_entries !! key_a)) as Ha by by eexists.
  assert (forall e, <[key_b := e]> (other_trees key_b far_entries) !! key_a = None) as Hb by (intros e; rewrite lookup_insert_ne by done; reflexivity).
  destruct far_store_ok as (s & E & Hs & Hd & Hi).
  assert ((let! s := far_store in Ret (cell (buckets s) (key_hash key_b mod FDB_BUCKET_NUMBER), mapped (index_file s))) = Ret (far_record, 2 ^ 20)) as Ec
    by (vm_compute; reflexivity).
  rewrite E in Ec. injection Ec as Ec Em. rewrite <- Em in Hf2.
  destruct (failed_read_loses_tree failing_system far_record 200 (sample_key 7 key_b) (sample_value [4]) true 0 s far_entries
    failing_system_unreadable Hk Hv Hs) as (e & key' & s' & Ep & _ & Hs'); [|exact Ec|exact Hf1|exact Hf2|].
  - unfold room. rewrite Hroom. unfold FDB_ITEM_META_SIZE. clear - Hd Hi. lia.
  - exists s, e, key', s'. exact (conj E (conj Hs (conj Ha (conj Ep (conj Hs' (Hb e)))))).
Defined.
