(* ===== verification/FdbScan.v ===== *)
(** * Reading a data file from end to end (storage/fdb/data_file_reader.cpp,
      fdb_manager.cpp)

    A migration or a duplication opens the data file of a bucket again and reads
    it, 64 KB at a time, as the sequence of extents that it is; every call gives
    the next item that is neither deleted nor expired.  The reader's length is
    the one its file had when the scan began.  Reads are taken to succeed: they
    give what the file has from the offset on, at most as much as is asked for. *)

From S2P Require Import Prelude DataBuffer Util DataEntry MemPool MdbItem MemCache MdbManager TableManager Storage TairManager FdbFile FdbItems FdbBucket FdbTree FdbLayout FdbSteps FdbTiles.

Definition SYNC_READ_FILE_LEN : Z := 64 * 1024.
Definition ITEM_HEADER_LEN : Z := sizeof_item_meta_info.

(** [buffer] is what the last read has put into the memory of [capacity] bytes. *)
Record data_reader := mk_data_reader {
  has_read : bool; want_length : Z; rd_file_size : Z; rd_offset : Z; read_length : Z; buffer_offset : Z; capacity : Z; buffer : list Z
}.

(** [set_length]; the length is that of [file_operation::get_size], an int. *)
Definition get_size_int (l : list Z) : Z := s32 (Z.of_nat (length l)).
Definition new_data_reader (l : list Z) : data_reader := mk_data_reader false 0 (u64 (get_size_int l)) 0 0 0 0 [].

Section reader.
Context (now : Z) (l : list Z).

(** [malloc] of another buffer when the size wanted is another *)
Definition want (n : Z) (r : data_reader) : data_reader :=
  mk_data_reader (has_read r) n (rd_file_size r) (rd_offset r) (read_length r) (buffer_offset r)
    (if n =? want_length r then capacity r else n) (buffer r).
Definition seek (o : Z) (r : data_reader) : data_reader :=
  mk_data_reader (has_read r) (want_length r) (rd_file_size r) (u64 o) (read_length r) (buffer_offset r) (capacity r) (buffer r).
Definition at_buffer (o : Z) (r : data_reader) : data_reader :=
  mk_data_reader (has_read r) (want_length r) (rd_file_size r) (rd_offset r) (read_length r) o (capacity r) (buffer r).

(** [read_file_by_lock] with the assignment of its result *)
Definition read_file_by_lock (size : Z) (r : data_reader) : outcome data_reader :=
  if rd_file_size r <=? rd_offset r then
    Ret (mk_data_reader true (want_length r) (rd_file_size r) (rd_offset r) 0 (buffer_offset r) (capacity r) (buffer r))
  else
    let rest := rd_file_size r - rd_offset r in
    let want_length := if rest <? want_length r then (if u32 rest <? size then size else u32 rest) else want_length r in
    let data := bytes_at (rd_offset r) want_length l in
    if capacity r <? Z.of_nat (length data) then Overrun
    else Ret (mk_data_reader true want_length (rd_file_size r) (rd_offset r) (Z.of_nat (length data)) (buffer_offset r) (capacity r) data).

(** From [_Restart] on *)
Fixpoint restart (fuel : nat) (r : data_reader) : outcome (option (list Z) * data_reader) :=
  match fuel with
  | O => Diverge
  | S fuel' =>
      if read_length r =? 0 then Ret (None, r)
      else if ITEM_HEADER_LEN <=? u64 (read_length r - buffer_offset r) then
        let header := header_at (buffer_offset r) (buffer r) in
        if keysize header <=? 2 then Abort
        else
          let total_size := item_total header in
          if total_size <=? u64 (read_length r - buffer_offset r) then
            let r' := at_buffer (buffer_offset r + total_size) r in
            if negb (deleted header) && negb (negb (edate header =? 0) && (edate header <? u32 now)) then
              Ret (Some (bytes_at (buffer_offset r) total_size (buffer r)), r')
            else restart fuel' r'
          else
            let r' := want (if deleted header then SYNC_READ_FILE_LEN
                            else if SYNC_READ_FILE_LEN <? total_size then total_size else SYNC_READ_FILE_LEN)
                        (seek (rd_offset r + buffer_offset r + (if deleted header then total_size else 0)) r) in
            let! r' := read_file_by_lock total_size r' in
            restart fuel' (at_buffer 0 r')
      else
        let! r' := read_file_by_lock ITEM_HEADER_LEN (want SYNC_READ_FILE_LEN (seek (rd_offset r + buffer_offset r) r)) in
        restart fuel' (at_buffer 0 r')
  end.

(** Three turns for every extent there can be in the file *)
Definition scan_fuel : nat := 3 * length l + 3.
Definition get_next_item (r : data_reader) : outcome (option (list Z) * data_reader) :=
  let! r := (if has_read r then Ret r
             else read_file_by_lock SYNC_READ_FILE_LEN
                    (mk_data_reader false SYNC_READ_FILE_LEN (rd_file_size r) (if rd_offset r =? 0 then DBHEADER_MAGIC_SIZE else rd_offset r)
                       (read_length r) (buffer_offset r) SYNC_READ_FILE_LEN [])) in
  if rd_file_size r <=? u64 (rd_offset r + buffer_offset r) then Ret (None, r)
  else restart scan_fuel r.

(** [begin_scan], and [get_next_items] until it has no more *)
Fixpoint next_items (fuel : nat) (r : data_reader) : outcome (list (list Z)) :=
  match fuel with
  | O => Diverge
  | S fuel' =>
      let! (i, r) := get_next_item r in
      match i with
      | None => Ret []
      | Some i => let! rest := next_items fuel' r in Ret (i :: rest)
      end
  end.
Definition scan : outcome (list (list Z)) := next_items (S (length l)) (new_data_reader l).
End reader.
