(* ===== verification/FdbScanTheorems.v ===== *)
(** * Scans of data files

    A scan of the file of a bucket gives every live entry once; one that ends
    in the middle of an extent is read for ever, and one of four gigabytes is
    taken for an empty one. *)

From S2P Require Import Prelude DataBuffer Util DataEntry MemPool MdbItem MemCache MdbManager TableManager Storage TairManager FdbFile FdbItems FdbBucket FdbTree FdbLayout FdbSteps FdbTiles FdbSpace FdbLink FdbUnlink FdbEngine FdbPut FdbOpen FdbLost FdbTheorems FdbScan.

Lemma sum_pos ts : Forall (fun n => FDB_ITEM_DATA_SIZE <= n) ts -> 0 <= sum ts.
Proof. unfold FDB_ITEM_DATA_SIZE, sizeof_item_meta_info, sum. induction 1; cbn; lia. Qed.

Section scans.
Context (now : Z) (l : list Z).

Let len : Z := Z.of_nat (length l).

(** ** What a scan is to give *)

Definition scanned (d : item_meta_info) : bool := negb (deleted d) && negb (negb (edate d =? 0) && (edate d <? u32 now)).
Fixpoint live_items (o : Z) (ts : list Z) : list (list Z) :=
  match ts with
  | [] => []
  | n :: ts => if scanned (header_at o l) then bytes_at o n l :: live_items (o + n) ts else live_items (o + n) ts
  end.

(** The rest of the file from [o] on *)
Record tiles_from (o : Z) (ts : list Z) : Prop := {
  tf_start : DBHEADER_MAGIC_SIZE <= o;
  tf_end : o + sum ts = len;
  tf_sizes : Forall (fun n => FDB_ITEM_DATA_SIZE <= n) ts;
  tf_headers : forall o' n, (o', n) ∈ places o ts -> item_total (header_at o' l) = n /\ 2 < keysize (header_at o' l)
}.

Lemma tiles_tail o n ts : tiles_from o (n :: ts) -> tiles_from (o + n) ts.
Proof.
  intros [H1 H2 H3 H4]. apply list.Forall_cons in H3 as [Hn H3]. unfold FDB_ITEM_DATA_SIZE, sizeof_item_meta_info, sum in *. cbn in H2.
  constructor; [lia|unfold sum; lia|done|]. intros o' n' Hin. apply H4. cbn. by right.
Qed.

(** ** The reader at a place of the file *)

Record placed_at (r : data_reader) (p : Z) : Prop := {
  ra_file : has_read r = true /\ rd_file_size r = len;
  ra_place : 0 <= rd_offset r /\ 0 <= buffer_offset r <= read_length r /\ p = rd_offset r + buffer_offset r;
  ra_buffer : read_length r = 0 \/ buffer r = bytes_at (rd_offset r) (read_length r) l /\ rd_offset r + read_length r <= len;
  ra_capacity : want_length r = capacity r \/ want_length r < SYNC_READ_FILE_LEN
    \/ (SYNC_READ_FILE_LEN < want_length r /\ len - rd_offset r < SYNC_READ_FILE_LEN)
}.
Record reading_at (r : data_reader) (p : Z) : Prop := { ra_placed : placed_at r p; ra_some : p < len -> 0 < read_length r }.

Hypothesis Hlen : len < 2 ^ 31.

Lemma fill_run r p q n size :
  placed_at r p -> 0 <= q < len -> p <= q ->
  n = SYNC_READ_FILE_LEN \/ (SYNC_READ_FILE_LEN < n /\ q + n <= len) -> 0 < size -> size <= n \/ n = SYNC_READ_FILE_LEN ->
  exists r', read_file_by_lock l size (want n (seek q r)) = Ret r' /\ reading_at (at_buffer 0 r') q /\ Z.min n (len - q) <= read_length r'.
Proof.
  intros [[I1 I2] (I3 & I4 & I5) I6 I8] Hq Hpq Hn Hs Hsn. unfold read_file_by_lock, want, seek.
  cbn [has_read want_length rd_file_size rd_offset read_length buffer_offset capacity buffer]. rewrite I2.
  assert (wrap 64 q = q) as -> by (apply wrap_id; unfold in_u; lia). rewrite (proj2 (Z.leb_gt len q)) by lia.
  assert (wrap 32 (len - q) = len - q) as -> by (apply wrap_id; unfold in_u; lia).
  set (w := if len - q <? n then if len - q <? size then size else len - q else n).
  set (cap := if n =? want_length r then capacity r else n).
  assert (Z.of_nat (length (bytes_at q w l)) = Z.min w (len - q)) as Hdl.
  { unfold bytes_at. rewrite length_take, length_drop. unfold w, len in *. unfold SYNC_READ_FILE_LEN in *.
    destruct (_ <? n); [destruct (_ <? size)|]; lia. }
  assert (SYNC_READ_FILE_LEN <= n) as Hsn2 by (unfold SYNC_READ_FILE_LEN in *; lia).
  assert (cap = n) as Hcap.
  { unfold cap. destruct (Z.eqb_spec n (want_length r)) as [E|E]; [|done]. unfold SYNC_READ_FILE_LEN in *. destruct I8 as [E'|[?|[? ?]]]; lia. }
  assert (Z.min w (len - q) <= n) as Hwn by (unfold w; destruct (Z.ltb_spec (len - q) n); [destruct (_ <? size)|]; lia).
  rewrite Hdl, Hcap, (proj2 (Z.ltb_ge n _)) by lia. eexists. split; [done|].
  assert (0 < w) as Hw by (unfold w, SYNC_READ_FILE_LEN in *; destruct (_ <? n); [destruct (_ <? size)|]; lia).
  assert (Z.min n (len - q) <= Z.min w (len - q)) as Hmin
    by (unfold w; destruct (Z.ltb_spec (len - q) n); [destruct (Z.ltb_spec (len - q) size)|]; lia).
  split; [|exact Hmin]. constructor; [constructor|]; cbn [at_buffer has_read want_length rd_file_size rd_offset read_length buffer_offset capacity buffer].
  - done.
  - lia.
  - right. split; [|lia]. destruct (Z.min_spec w (len - q)) as [[H1 ->]|[H1 ->]]; [done|]. unfold bytes_at, len in *. by rewrite !take_ge by (rewrite length_drop; lia).
  - unfold w. destruct (Z.ltb_spec (len - q) n) as [H1|H1]; [|by left]. destruct (Z.ltb_spec (len - q) size) as [H2|H2].
    + unfold SYNC_READ_FILE_LEN in *. destruct Hn as [->|?]; [|lia]. destruct (Z.compare_spec size (64 * 1024)); [left; lia|right; left; lia|right; right; lia].
    + right. left. lia.
  - lia.
Qed.

Lemma at_end r o : reading_at r o -> o = len -> read_length r = buffer_offset r.
Proof. intros [[_ (H1 & H2 & H3) [H4|[_ H4]] _] _] ->; lia. Qed.

Lemma left_over r o : reading_at r o -> wrap 64 (read_length r - buffer_offset r) = read_length r - buffer_offset r /\ read_length r - buffer_offset r <= len - o
  \/ read_length r = 0 /\ buffer_offset r = 0.
Proof. intros [[_ (H1 & H2 & H3) H4 _] _]. destruct H4 as [H4|[_ H4]]; [right; lia|left]. split; [apply wrap_id; unfold in_u; lia|lia]. Qed.

Lemma in_buffer r o n : reading_at r o -> 0 < n -> n <= read_length r - buffer_offset r ->
  bytes_at (buffer_offset r) n (buffer r) = bytes_at o n l /\ (FDB_ITEM_DATA_SIZE <= n -> header_at (buffer_offset r) (buffer r) = header_at o l).
Proof.
  intros [[_ (H1 & H2 & ->) H4 _] _] Hn Hle. destruct H4 as [H4|[-> H4]]; [lia|].
  assert (forall k, 0 <= k <= n -> bytes_at (buffer_offset r) k (bytes_at (rd_offset r) (read_length r) l) = bytes_at (rd_offset r + buffer_offset r) k l) as Hp
    by (intros k Hk; by rewrite <- (bytes_at_sub _ (read_length r) l _ _ _ eq_refl) by lia).
  split; [apply Hp; lia|]. intros H28. unfold header_at, FDB_ITEM_DATA_SIZE, sizeof_item_meta_info in *. by rewrite Hp by lia.
Qed.

(** The end of the file is reached. *)
Lemma fill_end r p size : placed_at r p ->
  exists r', read_file_by_lock l size (want SYNC_READ_FILE_LEN (seek len r)) = Ret r' /\ reading_at (at_buffer 0 r') len /\ read_length r' = 0.
Proof.
  intros [[I1 I2] (I3 & I4 & I5) I6 I8].
  unfold read_file_by_lock, want, seek. cbn [has_read want_length rd_file_size rd_offset read_length buffer_offset capacity buffer]. rewrite I2.
  assert (wrap 64 len = len) as -> by (apply wrap_id; unfold in_u, len; lia). rewrite Z.leb_refl. eexists. split; [done|]. split; [|done].
  constructor; [constructor|]; cbn [at_buffer has_read want_length rd_file_size rd_offset read_length buffer_offset capacity buffer]; [done|unfold len; lia|by left| |lia].
  destruct (Z.eqb_spec SYNC_READ_FILE_LEN (want_length r)) as [E|E]; [|by left]. destruct I8 as [?|[?|?]]; [left; lia|lia|lia].
Qed.

Section tile.
Context (n : Z) (ts : list Z) (o : Z) (Ht : tiles_from o (n :: ts)) (r : data_reader) (Hr : reading_at r o).

Let tile : FDB_ITEM_DATA_SIZE <= n /\ DBHEADER_MAGIC_SIZE <= o /\ o + n <= len /\ item_total (header_at o l) = n /\ 2 < keysize (header_at o l).
Proof.
  pose proof (tiles_tail _ _ _ Ht) as Htl. destruct Ht as [H1 H2 H3 H4]. apply list.Forall_cons in H3 as [Hn H3].
  pose proof (sum_pos ts H3).
  cbn in H2. destruct (H4 o n) as [H5 H6]; [by left|]. unfold sum in *. repeat split; lia.
Qed.

Lemma turn_header fuel : read_length r - buffer_offset r < FDB_ITEM_DATA_SIZE -> exists r', restart now l (S fuel) r = restart now l fuel r'
  /\ reading_at r' o /\ FDB_ITEM_DATA_SIZE <= read_length r' - buffer_offset r'.
Proof.
  intros Hs. destruct tile as (T1 & T2 & T3 & T4 & T5). unfold FDB_ITEM_DATA_SIZE, sizeof_item_meta_info, DBHEADER_MAGIC_SIZE in *.
  pose proof (ra_some _ _ Hr ltac:(lia)) as Hpos. pose proof (ra_place _ _ (ra_placed _ _ Hr)) as (P1 & P2 & P3).
  destruct (left_over r o Hr) as [[Hw Hle]|]; [|lia].
  destruct (fill_run r o o SYNC_READ_FILE_LEN ITEM_HEADER_LEN (ra_placed _ _ Hr)) as (r' & E & Hr' & Hmin); [lia|lia|by left|done|by right|].
  exists (at_buffer 0 r'). cbn [restart]. rewrite (proj2 (Z.eqb_neq _ 0)) by lia. unfold ITEM_HEADER_LEN, sizeof_item_meta_info in *.
  rewrite Hw, (proj2 (Z.leb_gt 28 _)) by lia. rewrite <- P3, E. cbn [obind]. split; [done|]. split; [done|]. cbn. unfold SYNC_READ_FILE_LEN in *. lia.
Qed.

(** The header is there, the extent is not: it is read as a whole, or skipped. *)
Lemma turn_total fuel :
  FDB_ITEM_DATA_SIZE <= read_length r - buffer_offset r < n -> exists r', restart now l (S fuel) r = restart now l fuel r'
  /\ (reading_at r' o /\ n <= read_length r' - buffer_offset r'
      \/ scanned (header_at o l) = false /\ reading_at r' (o + n)).
Proof.
  intros [Hs1 Hs2]. destruct tile as (T1 & T2 & T3 & T4 & T5). destruct (left_over r o Hr) as [[Hw Hle]|[H0 H0']];
    [|unfold FDB_ITEM_DATA_SIZE, sizeof_item_meta_info in *; lia]. pose proof (ra_place _ _ (ra_placed _ _ Hr)) as (P1 & P2 & P3).
  destruct (in_buffer r o FDB_ITEM_DATA_SIZE Hr) as [_ Hh]; [unfold FDB_ITEM_DATA_SIZE, sizeof_item_meta_info in *; lia|lia|]. specialize (Hh ltac:(lia)).
  unfold FDB_ITEM_DATA_SIZE, sizeof_item_meta_info, DBHEADER_MAGIC_SIZE in *.
  cbn [restart]. rewrite (proj2 (Z.eqb_neq _ 0)) by lia. unfold ITEM_HEADER_LEN, sizeof_item_meta_info. rewrite Hw, (proj2 (Z.leb_le 28 _)) by lia.
  rewrite Hh, T4, (proj2 (Z.leb_gt _ 2)), (proj2 (Z.leb_gt n _)), <- P3 by lia. destruct (deleted (header_at o l)) eqn:Hdel.
  - assert (exists r', read_file_by_lock l n (want SYNC_READ_FILE_LEN (seek (o + n) r)) = Ret r' /\ reading_at (at_buffer 0 r') (o + n)) as (r' & -> & Hr').
    { destruct (decide (o + n = len)) as [->|D]; [destruct (fill_end r o n (ra_placed _ _ Hr)) as (r' & ? & ? & _); by exists r'|].
      destruct (fill_run r o (o + n) SYNC_READ_FILE_LEN n (ra_placed _ _ Hr)) as (r' & ? & ? & _); [lia|lia|by left|lia|by right|by exists r']. }
    exists (at_buffer 0 r'). split; [done|]. right. unfold scanned. by rewrite Hdel.
  - rewrite Z.add_0_r. set (w := if SYNC_READ_FILE_LEN <? n then n else SYNC_READ_FILE_LEN).
    assert (w = SYNC_READ_FILE_LEN \/ SYNC_READ_FILE_LEN < w /\ o + w <= len) as Hwl
      by (unfold w; destruct (Z.ltb_spec SYNC_READ_FILE_LEN n); [right|left]; lia).
    assert (n <= w) as Hnw by (unfold w; destruct (Z.ltb_spec SYNC_READ_FILE_LEN n); lia).
    destruct (fill_run r o o w n (ra_placed _ _ Hr)) as (r' & -> & Hr' & Hmin); [lia|lia|done|lia|by left|].
    exists (at_buffer 0 r'). split; [done|]. left. split; [done|]. cbn. lia.
Qed.

(** The extent is there: it is handed out or passed over. *)
Lemma turn_take fuel :
  n <= read_length r - buffer_offset r -> exists r', reading_at r' (o + n)
  /\ restart now l (S fuel) r = if scanned (header_at o l) then Ret (Some (bytes_at o n l), r') else restart now l fuel r'.
Proof.
  intros Hs. destruct tile as (T1 & T2 & T3 & T4 & T5). destruct (left_over r o Hr) as [[Hw Hle]|[H0 H0']];
    [|unfold FDB_ITEM_DATA_SIZE, sizeof_item_meta_info in *; lia]. pose proof (ra_place _ _ (ra_placed _ _ Hr)) as (P1 & P2 & P3).
  destruct (in_buffer r o n Hr) as [Hb Hh]; [unfold FDB_ITEM_DATA_SIZE, sizeof_item_meta_info in *; lia|lia|]. specialize (Hh T1).
  unfold FDB_ITEM_DATA_SIZE, sizeof_item_meta_info, DBHEADER_MAGIC_SIZE in *. exists (at_buffer (buffer_offset r + n) r). split.
  - destruct Hr as [[I1 (I3 & I4 & I5) I6 I8] I9]. constructor; [constructor; [done| |done|done]|]; cbn; lia.
  - cbn [restart]. rewrite (proj2 (Z.eqb_neq _ 0)) by lia. unfold ITEM_HEADER_LEN, sizeof_item_meta_info. rewrite Hw, (proj2 (Z.leb_le 28 _)) by lia.
    rewrite Hh, T4, (proj2 (Z.leb_gt _ 2)), (proj2 (Z.leb_le n _)), Hb by lia. done.
Qed.
End tile.

Lemma restart_end fuel r o : reading_at r o -> o = len -> exists r', restart now l (S (S fuel)) r = Ret (None, r').
Proof.
  intros Hr ->. cbn [restart]. destruct (Z.eqb_spec (read_length r) 0) as [E|E]; [by eexists|]. pose proof (at_end r len Hr eq_refl) as Ee.
  rewrite Ee, Z.sub_diag. cbn. pose proof (ra_place _ _ (ra_placed _ _ Hr)) as (P1 & P2 & P3). rewrite <- P3.
  destruct (fill_end r len ITEM_HEADER_LEN (ra_placed _ _ Hr)) as (r' & -> & _ & E'). cbn. rewrite E'. by eexists.
Qed.

(** The first extent that is to be given *)
Fixpoint first_live (o : Z) (ts : list Z) : Z * list Z :=
  match ts with
  | [] => (o, [])
  | n :: ts' => if scanned (header_at o l) then (o, ts) else first_live (o + n) ts'
  end.

Lemma restart_run ts : forall o r fuel, tiles_from o ts -> reading_at r o -> (3 * length ts + 2 <= fuel)%nat ->
  exists r', match first_live o ts with
             | (_, []) => restart now l fuel r = Ret (None, r')
             | (o', n :: ts') => restart now l fuel r = Ret (Some (bytes_at o' n l), r') /\ reading_at r' (o' + n) /\ tiles_from (o' + n) ts'
             end.
Proof.
  induction ts as [|n ts IH]; intros o r fuel Ht Hr Hf; cbn [first_live].
  - destruct fuel as [|[|fuel]]; [cbn in Hf; lia..|]. apply (restart_end fuel r o); [done|]. pose proof (tf_end _ _ Ht) as He. cbn in He. lia.
  - destruct fuel as [|[|[|fuel]]]; [cbn in Hf; lia..|]. assert (3 * length ts + 2 <= fuel)%nat as Hf' by (cbn in Hf; lia). clear Hf.
    pose proof (tiles_tail _ _ _ Ht) as Htl.
    (* the extent is in the buffer *)
    assert (forall r k, reading_at r o -> n <= read_length r - buffer_offset r -> (fuel <= k)%nat -> exists r',
      match (if scanned (header_at o l) then (o, n :: ts) else first_live (o + n) ts) with
      | (_, []) => restart now l (S k) r = Ret (None, r')
      | (o', n :: ts') => restart now l (S k) r = Ret (Some (bytes_at o' n l), r') /\ reading_at r' (o' + n) /\ tiles_from (o' + n) ts'
      end) as Htake.
    { intros r1 k Hr1 Hn Hk. destruct (turn_take n ts o Ht r1 Hr1 k Hn) as (r2 & Hr2 & E). rewrite E.
      destruct (scanned _); [by exists r2|]. apply IH; [done|done|lia]. }
    assert (forall r k, reading_at r o -> FDB_ITEM_DATA_SIZE <= read_length r - buffer_offset r -> (S fuel <= k)%nat -> exists r',
      match (if scanned (header_at o l) then (o, n :: ts) else first_live (o + n) ts) with
      | (_, []) => restart now l (S k) r = Ret (None, r')
      | (o', n :: ts') => restart now l (S k) r = Ret (Some (bytes_at o' n l), r') /\ reading_at r' (o' + n) /\ tiles_from (o' + n) ts'
      end) as Hhead.
    { intros r1 k Hr1 Hn Hk. destruct (Z_le_gt_dec n (read_length r1 - buffer_offset r1)) as [D|D]; [apply Htake; [done|done|lia]|].
      destruct (turn_total n ts o Ht r1 Hr1 k) as (r2 & -> & [[Hr2 Hn2]|[-> Hr2]]); [lia| |apply IH; [done|done|lia]].
      destruct k as [|k]; [lia|]. apply Htake; [done|done|lia]. }
    destruct (Z_le_gt_dec FDB_ITEM_DATA_SIZE (read_length r - buffer_offset r)) as [D|D]; [apply Hhead; [done|done|lia]|].
    destruct (turn_header n ts o Ht r Hr (S (S fuel)) ltac:(lia)) as (r1 & -> & Hr1 & Hn1). apply Hhead; [done|done|lia].
Qed.

Lemma live_items_first o ts : live_items o ts = match first_live o ts with (_, []) => [] | (o', n :: ts') => bytes_at o' n l :: live_items (o' + n) ts' end.
Proof. revert o. induction ts as [|n ts IH]; intros o; cbn; [done|]. by destruct (scanned _). Qed.

Lemma tiles_count o ts : tiles_from o ts -> (28 * length ts <= length l)%nat.
Proof.
  intros [H1 H2 H3 _]. unfold DBHEADER_MAGIC_SIZE, len in *. assert (28 * Z.of_nat (length ts) <= sum ts); [|lia].
  clear -H3. unfold FDB_ITEM_DATA_SIZE, sizeof_item_meta_info, sum in *. induction H3; cbn; lia.
Qed.

Lemma live_items_count ts : forall o, (length (live_items o ts) <= length ts)%nat.
Proof. induction ts as [|n ts IH]; intros o; cbn; [done|]. specialize (IH (o + n)). destruct (scanned _); cbn; lia. Qed.

Lemma get_next_run o ts r : tiles_from o ts -> reading_at r o -> exists r',
  match first_live o ts with
  | (_, []) => get_next_item now l r = Ret (None, r')
  | (o', n :: ts') => get_next_item now l r = Ret (Some (bytes_at o' n l), r') /\ reading_at r' (o' + n) /\ tiles_from (o' + n) ts'
  end.
Proof.
  intros Ht Hr. pose proof (ra_file _ _ (ra_placed _ _ Hr)) as [F1 F2]. pose proof (ra_place _ _ (ra_placed _ _ Hr)) as (P1 & P2 & P3).
  pose proof (tiles_count o ts Ht) as Hc.
  pose proof (sum_pos ts (tf_sizes _ _ Ht)) as Hsum.
  pose proof (tf_end _ _ Ht) as He. unfold get_next_item. rewrite F1. cbn [obind]. rewrite F2, <- P3.
  assert (wrap 64 o = o) as -> by (apply wrap_id; unfold in_u; lia). destruct (Z.leb_spec len o) as [D|D].
  - destruct ts as [|n ts]; [by eexists|]. pose proof (tiles_tail _ _ _ Ht) as Htl. pose proof (tf_sizes _ _ Ht) as H3. apply list.Forall_cons in H3 as [Hn H3].
    pose proof (sum_pos ts H3).
    pose proof (tf_end _ _ Htl). unfold FDB_ITEM_DATA_SIZE, sizeof_item_meta_info in *. lia.
  - apply restart_run; [done|done|unfold scan_fuel; lia].
Qed.

Lemma next_items_run fuel : forall o ts r, tiles_from o ts -> reading_at r o -> (length (live_items o ts) < fuel)%nat ->
  next_items now l fuel r = Ret (live_items o ts).
Proof.
  induction fuel as [|fuel IH]; intros o ts r Ht Hr Hf; [lia|]. destruct (get_next_run o ts r Ht Hr) as (r' & H). rewrite live_items_first in *.
  cbn [next_items]. destruct (first_live o ts) as [o' [|n ts']]; [by rewrite H|]. destruct H as (-> & Hr' & Ht'). cbn [obind].
  by rewrite (IH _ _ _ Ht' Hr') by (cbn in Hf; lia).
Qed.

Lemma buffer_offset_stays size r r' : read_file_by_lock l size r = Ret r' -> at_buffer (buffer_offset r) r' = r'.
Proof. unfold read_file_by_lock. case_match; [by intros [= <-]|]. cbv zeta. case_match; [done|by intros [= <-]]. Qed.

Lemma start_run ts : tiles_from DBHEADER_MAGIC_SIZE ts ->
  exists r, read_file_by_lock l SYNC_READ_FILE_LEN (mk_data_reader false SYNC_READ_FILE_LEN len DBHEADER_MAGIC_SIZE 0 0 SYNC_READ_FILE_LEN []) = Ret r
    /\ reading_at r DBHEADER_MAGIC_SIZE.
Proof.
  intros Ht. pose proof (sum_pos ts (tf_sizes _ _ Ht)) as Hsum.
  pose proof (tf_end _ _ Ht) as He. set (r0 := mk_data_reader true SYNC_READ_FILE_LEN len DBHEADER_MAGIC_SIZE 0 0 SYNC_READ_FILE_LEN []).
  assert (placed_at r0 DBHEADER_MAGIC_SIZE) as Hp by (constructor; [done|done|by left|by left]).
  change (read_file_by_lock l SYNC_READ_FILE_LEN _) with (read_file_by_lock l SYNC_READ_FILE_LEN (want SYNC_READ_FILE_LEN (seek DBHEADER_MAGIC_SIZE r0))).
  assert (exists r', read_file_by_lock l SYNC_READ_FILE_LEN (want SYNC_READ_FILE_LEN (seek DBHEADER_MAGIC_SIZE r0)) = Ret r'
    /\ reading_at (at_buffer 0 r') DBHEADER_MAGIC_SIZE) as (r' & E & Hr').
  { unfold DBHEADER_MAGIC_SIZE in *. destruct (decide (len = 16)) as [D|D].
    - destruct (fill_end r0 16 SYNC_READ_FILE_LEN Hp) as (r' & E & Hr' & _). rewrite D in *. by exists r'.
    - destruct (fill_run r0 16 16 SYNC_READ_FILE_LEN SYNC_READ_FILE_LEN Hp) as (r' & E & Hr' & _); [lia|lia|by left|done|by right|]. by exists r'. }
  exists r'. pose proof (buffer_offset_stays _ _ _ E) as Eb. cbn in Eb. by rewrite Eb in Hr'.
Qed.

Lemma scan_run ts : tiles_from DBHEADER_MAGIC_SIZE ts -> scan now l = Ret (live_items DBHEADER_MAGIC_SIZE ts).
Proof.
  intros Ht. pose proof (tiles_count _ ts Ht) as Hc. pose proof (live_items_count ts DBHEADER_MAGIC_SIZE) as Hlc.
  destruct (start_run ts Ht) as (r & E & Hr). unfold scan. rewrite <- (next_items_run (S (length l)) _ _ _ Ht Hr) by lia.
  assert (get_next_item now l (new_data_reader l) = get_next_item now l r) as Eg; [|cbn [next_items]; by rewrite Eg].
  pose proof (ra_file _ _ (ra_placed _ _ Hr)) as [F1 _]. unfold get_next_item at 2. rewrite F1. cbn [obind].
  unfold get_next_item, new_data_reader, get_size_int. fold len. cbn [has_read rd_offset rd_file_size read_length buffer_offset Z.eqb].
  assert (wrap 64 (swrap 32 len) = len) as -> by (rewrite swrap_id by (unfold in_s, len; lia); apply wrap_id; unfold in_u, len; lia).
  by rewrite E.
Qed.
End scans.

(** ** The entries of a bucket *)

Definition item_meta (i : list Z) : item_meta_info := header_at 0 i.
Definition item_key (i : list Z) : list Z := bytes_at ITEM_HEADER_LEN (keysize (item_meta i)) i.
Definition item_entry (i : list Z) : fdb_entry :=
  let d := item_meta i in
  mk_fdb_entry (bytes_at (ITEM_HEADER_LEN + keysize d) (valsize d) i) (mversion d) (flag d) (cdate d) (mdate d) (edate d).

Lemma elem_of_live_items now l i ts : forall o,
  i ∈ live_items now l o ts <-> exists o' n, (o', n) ∈ places o ts /\ scanned now (header_at o' l) = true /\ i = bytes_at o' n l.
Proof.
  induction ts as [|n ts IH]; intros o; cbn.
  - split; [by intros ?%elem_of_nil|]. by intros (o' & n' & ?%elem_of_nil & _).
  - assert ((exists o' n', (o', n') ∈ (o, n) :: places (o + n) ts /\ scanned now (header_at o' l) = true /\ i = bytes_at o' n' l)
      <-> scanned now (header_at o l) = true /\ i = bytes_at o n l \/ i ∈ live_items now l (o + n) ts) as ->.
    { rewrite IH. split.
      - intros (o' & n' & [[= -> ->]|Hin]%elem_of_cons & H); [by left|right; by exists o', n'].
      - intros [H|(o' & n' & Hin & H)]; [exists o, n|exists o', n']; (split; [apply elem_of_cons; auto|done]). }
    destruct (scanned now (header_at o l)); [rewrite elem_of_cons|]; naive_solver.
Qed.

Lemma item_of_node s T fl n :
  layout s T fl 0 -> present T n ->
  let i := bytes_at (n_ext n) (n_size n) (dat s) in
  header_at (n_ext n) (dat s) = n_data n /\ item_key i = n_key n /\ item_entry i = entry_of n.
Proof.
  intros Hly Hn i. assert (n_off n <> 0) as Hx by (pose proof (node_off_pos _ _ _ _ Hly n Hn); lia).
  destruct (ly_fits _ _ _ _ Hly n Hn Hx) as ([Hm [Hk Hk1] [Hv Hv1] Hs Hp] & [Hb He] & Ho & Hd).
  pose proof (length_node_bytes n) as Hl. unfold FDB_ITEM_DATA_SIZE, sizeof_item_meta_info, DBHEADER_MAGIC_SIZE in *.
  assert (forall j k, 0 <= j -> 0 <= k -> j + k <= Z.of_nat (length (node_bytes n)) -> bytes_at (n_ext n + j) k (dat s) = bytes_at j k (node_bytes n)) as Hr
    by (intros; apply (bytes_at_sub _ (Z.of_nat (length (node_bytes n)))); [done|lia..]).
  assert (forall j k, 0 <= j -> 0 <= k -> j + k <= Z.of_nat (length (node_bytes n)) -> bytes_at j k i = bytes_at j k (node_bytes n)) as Hi
    by (intros j k Hj Hk2 Hjk; rewrite <- (bytes_at_sub _ _ _ i j k eq_refl) by lia; by apply Hr).
  assert (meta_of_raw (bytes_at 0 28 (node_bytes n)) = n_data n) as Emeta.
  { replace 28 with (Z.of_nat (length (meta_raw (n_data n)))) by (by rewrite length_meta_raw). unfold node_bytes. rewrite bytes_at_app_l.
    pose proof (meta_raw_roundtrip (n_data n) [] Hm) as E. by rewrite app_nil_r in E. }
  assert (item_meta i = n_data n) as Eim by (unfold item_meta, header_at; by rewrite Hi by (unfold FDB_ITEM_DATA_SIZE, sizeof_item_meta_info; lia)).
  split; [|split].
  - change (meta_of_raw (bytes_at (n_ext n) 28 (dat s)) = n_data n). specialize (Hr 0 28 ltac:(lia) ltac:(lia) ltac:(lia)). rewrite Z.add_0_r in Hr. by rewrite Hr.
  - unfold item_key, ITEM_HEADER_LEN, sizeof_item_meta_info. rewrite Eim, Hk, Hi by lia.
    replace 28 with (Z.of_nat (length (meta_raw (n_data n)))) by (by rewrite length_meta_raw).
    unfold node_bytes. by rewrite bytes_at_app_r, Nat2Z.id, take_app_length.
  - unfold item_entry, entry_of, ITEM_HEADER_LEN, sizeof_item_meta_info. rewrite Eim, Hk, Hv, Hi by lia. f_equal.
    replace (28 + Z.of_nat (length (n_key n))) with (Z.of_nat (length (meta_raw (n_data n) ++ n_key n))) by (rewrite length_app, length_meta_raw; lia).
    unfold node_bytes. rewrite app_assoc, bytes_at_app_r. by apply take_ge; rewrite Nat2Z.id.
Qed.

Lemma same_key s T fl n1 n2 : layout s T fl 0 -> present T n1 -> present T n2 -> n_key n1 = n_key n2 -> n1 = n2.
Proof.
  intros Hly [b1 H1] [b2 H2] E. pose proof (ly_hash _ _ _ _ Hly b1 n1 H1) as E1. pose proof (ly_hash _ _ _ _ Hly b2 n2 H2) as E2. rewrite E, E2 in E1. subst b2.
  by apply (sorted_key_inj (nodes (T b1)) n1 n2 (proj2 (ly_trees _ _ _ _ Hly b1))).
Qed.

(** What a scan passes over: entries that have expired, and those whose flag,
    which a client may choose, has the bit of deleted extents *)
Definition entry_scanned (now : Z) (e : fdb_entry) : bool :=
  negb (entry_expired now e) && (Z.land (e_flag e) TAIR_ITEM_FLAG_DELETED =? 0).

Lemma scanned_entry now n : scanned now (n_data n) = entry_scanned now (entry_of n).
Proof. unfold scanned, entry_scanned, entry_expired, deleted. cbn. rewrite negb_involutive. apply andb_comm. Qed.

Lemma live_items_NoDup now l ts o :
  Forall (fun n => FDB_ITEM_DATA_SIZE <= n) ts ->
  (forall o1 n1 o2 n2, (o1, n1) ∈ places o ts -> (o2, n2) ∈ places o ts -> scanned now (header_at o1 l) = true -> scanned now (header_at o2 l) = true ->
     item_key (bytes_at o1 n1 l) = item_key (bytes_at o2 n2 l) -> o1 = o2) ->
  base.NoDup (item_key <$> live_items now l o ts).
Proof.
  intros Hts. revert o. induction Hts as [|n ts Hn Hts IH]; intros o Hinj; cbn; [constructor|].
  assert (base.NoDup (item_key <$> live_items now l (o + n) ts)) as Hnd
    by (apply IH; intros o1 n1 o2 n2 H1 H2; apply Hinj; cbn; by apply elem_of_cons; right).
  destruct (scanned now (header_at o l)) eqn:Es; [|done]. cbn. apply list.NoDup_cons. split; [|done].
  intros (i & E & (o2 & n2 & Hin & Es2 & ->)%elem_of_live_items)%list_elem_of_fmap.
  assert (o = o2) as <- by (apply (Hinj o n o2 n2); [by left|by right|done..]).
  destruct (places_range ts Hts _ _ _ Hin) as (H1 & _). unfold FDB_ITEM_DATA_SIZE, sizeof_item_meta_info in *. lia.
Qed.

(** C39: a scan of the data file of a bucket gives every entry of the bucket that
    has not expired and has no mark of deletion in its flag, and each once, as
    long as the file is shorter than two gigabytes. *)
Theorem scan_gives_the_live_entries now s m :
  engine_state true s m -> Z.of_nat (length (dat s)) < 2 ^ 31 ->
  exists items, scan now (dat s) = Ret items /\ base.NoDup (item_key <$> items)
    /\ forall k e, (exists i, i ∈ items /\ item_key i = k /\ item_entry i = e) <-> m !! k = Some e /\ entry_scanned now e = true.
Proof.
  intros (T & fl & Hly & Hh & Ht) Hlen. destruct (Ht eq_refl) as (ts & [T1 T2 T3] & Hn & _ & Hl & _).
  assert (forall n, present T n -> n_off n <> 0) as Hoff by (intros n H; pose proof (node_off_pos _ _ _ _ Hly n H); lia).
  assert (forall o k, (o, k) ∈ places DBHEADER_MAGIC_SIZE ts -> scanned now (header_at o (dat s)) = true ->
    exists n, present T n /\ n_ext n = o /\ n_size n = k /\ entry_scanned now (entry_of n) = true) as Hnode.
  { intros o k Hin Hs. assert (deleted (header_at o (dat s)) = false) as Hd by (unfold scanned in Hs; by destruct (deleted _)).
    destruct (Hl o k Hin Hd) as [(n & Hp & Hx & <-)|(? & [=])]. exists n. split; [done|]. split; [done|].
    rewrite <- scanned_entry, <- (proj1 (item_of_node s T fl n Hly Hp)). split; [|done].
    destruct (places_apart ts _ T2 _ _ _ _ Hin (Hn n Hp Hx)) as [[_ ?]|Hap]; [done|].
    destruct (places_range ts T2 _ _ _ Hin) as (_ & ? & _), (places_range ts T2 _ _ _ (Hn n Hp Hx)) as (_ & ? & _).
    unfold apart, FDB_ITEM_DATA_SIZE, sizeof_item_meta_info in *. lia. }
  exists (live_items now (dat s) DBHEADER_MAGIC_SIZE ts). split; [|split].
  - apply scan_run; [done|]. constructor; [done|by rewrite T1|done|done].
  - apply live_items_NoDup; [done|]. intros o1 k1 o2 k2 H1 H2 S1 S2 E. destruct (Hnode _ _ H1 S1) as (n1 & P1 & <- & <- & _), (Hnode _ _ H2 S2) as (n2 & P2 & <- & <- & _).
    rewrite (proj1 (proj2 (item_of_node s T fl n1 Hly P1))), (proj1 (proj2 (item_of_node s T fl n2 Hly P2))) in E. by rewrite (same_key s T fl n1 n2 Hly P1 P2 E).
  - intros k e. rewrite (Hh k e). split.
    + intros (i & (o & c & Hin & Hs & ->)%elem_of_live_items & <- & <-). destruct (Hnode _ _ Hin Hs) as (n & Hp & <- & <- & He).
      destruct (item_of_node s T fl n Hly Hp) as (_ & -> & ->). split; [by exists n|done].
    + intros [(n & Hp & <- & <-) He]. destruct (item_of_node s T fl n Hly Hp) as (I1 & I2 & I3). exists (bytes_at (n_ext n) (n_size n) (dat s)). split; [|done].
      apply elem_of_live_items. exists (n_ext n), (n_size n). split; [by apply Hn; auto|]. split; [|done]. by rewrite I1, scanned_entry.
Qed.

Definition scan_ops : list fdb_op :=
  [FdbPut 100 (sample_key 0 key_a) (sample_value [1; 2; 3]) true 0; FdbPut 101 (sample_key 0 key_b) (sample_value [4]) true 7;
   FdbPut 102 (sample_key 0 [1; 0; 98]) (sample_value [5]) true 0; FdbRemove (sample_key 0 [1; 0; 98]) true].
Definition scan_store : outcome fdb_store :=
  let! s := initialize_new sound_system 8 128 [0; 0; 0] in let! (_, s) := fdb_run sound_system scan_ops s in Ret s.

Lemma scan_ops_ok : Forall (op_ok 8) scan_ops.
Proof. repeat constructor; try (by apply sample_key_ok); try done. Qed.

Lemma scan_store_ok : exists s, scan_store = Ret s /\ engine_state true s (snd (fdb_spec scan_ops ∅)).
Proof.
  destruct (initialize_new_ok sound_system 8 128 [0; 0; 0]) as (s & E & Hs & E1 & E2 & E3); [done|by split|done|].
  destruct (run_refines sound_system 8 scan_ops s ∅ scan_ops_ok Hs E3) as (s' & E' & Hs').
  - unfold room. rewrite E1, E2. unfold records_start. rewrite E3. by vm_compute.
  - exists s'. unfold scan_store. rewrite E. cbn [obind]. by rewrite E'.
Qed.

(** Only the first key is left when the second has expired. *)
Lemma scan_gives_the_live_entries_witness : exists s items,
  scan_store = Ret s /\ engine_state true s (snd (fdb_spec scan_ops ∅)) /\ scan 109 (dat s) = Ret items /\ length items = 1%nat
  /\ base.NoDup (item_key <$> items) /\ exists i, i ∈ items /\ item_key i = key_a /\ item_entry i = mk_fdb_entry [1; 2; 3] 1 0 100 100 0.
Proof.
  destruct scan_store_ok as (s & E & Hs).
  assert ((let! s := scan_store in let! items := scan 109 (dat s) in Ret (Z.of_nat (length (dat s)) <? 2 ^ 31, length items)) = Ret (true, 1%nat)) as Ec
    by (vm_compute; reflexivity).
  assert (snd (fdb_spec scan_ops ∅) !! key_a = Some (mk_fdb_entry [1; 2; 3] 1 0 100 100 0)
    /\ entry_scanned 109 (mk_fdb_entry [1; 2; 3] 1 0 100 100 0) = true) as He by (vm_compute; by split).
  rewrite E in Ec. cbn [obind] in Ec.
  destruct (scan_gives_the_live_entries 109 s (snd (fdb_spec scan_ops ∅)) Hs) as (items & Ei & Hnd & Hin).
  - apply Z.ltb_lt. destruct (scan 109 (dat s)); [|discriminate Ec..]. cbn [obind] in Ec. congruence.
  - rewrite Ei in Ec. cbn [obind] in Ec. exists s, items. split; [exact E|]. split; [exact Hs|]. split; [exact Ei|]. split; [congruence|].
    split; [exact Hnd|]. exact (proj2 (Hin key_a _) He).
Defined.

(** ** Files of four gigabytes *)

(** C40: a file of four gigabytes and up to 16 bytes, or a multiple of that, is
    scanned as an empty one, whatever is in it. *)
Theorem scan_of_four_gigabytes_is_empty now l :
  Z.of_nat (length l) mod 2 ^ 32 <= DBHEADER_MAGIC_SIZE -> scan now l = Ret [].
Proof.
  intros Hl. pose proof (Z.mod_pos_bound (Z.of_nat (length l)) (2 ^ 32) ltac:(lia)) as Hp. unfold DBHEADER_MAGIC_SIZE in *.
  assert (u64 (get_size_int l) = Z.of_nat (length l) mod 2 ^ 32) as E.
  { unfold get_size_int. rewrite <- swrap_wrap. change (wrap 32 (Z.of_nat (length l))) with (Z.of_nat (length l) mod 2 ^ 32).
    rewrite swrap_id by (unfold in_s; lia). apply wrap_id. unfold in_u. lia. }
  unfold scan, new_data_reader. rewrite E. cbn [next_items]. unfold get_next_item. cbn [has_read rd_offset rd_file_size read_length buffer_offset].
  change (if 0 =? 0 then DBHEADER_MAGIC_SIZE else 0) with 16. unfold read_file_by_lock. cbn [rd_file_size rd_offset].
  rewrite (proj2 (Z.leb_le _ 16)) by done. cbn [obind rd_file_size rd_offset buffer_offset]. change (u64 (16 + 0)) with 16.
  by rewrite (proj2 (Z.leb_le _ 16)) by done.
Qed.

(** The beginning of a file, and what is behind it *)
Definition huge_file (b : list Z) : list Z := b ++ replicate (Z.to_nat (2 ^ 32 + 16 - Z.of_nat (length b))) 0.

Lemma length_huge_file b : Z.of_nat (length b) <= 2 ^ 32 -> Z.of_nat (length (huge_file b)) = 2 ^ 32 + 16.
Proof. intros Hb. unfold huge_file. rewrite length_app, length_replicate. lia. Qed.

Lemma scan_of_four_gigabytes_is_empty_witness :
  Z.of_nat (length (huge_file DATA_MAGIC)) = 2 ^ 32 + 16 /\ scan 0 (huge_file DATA_MAGIC) = Ret [].
Proof.
  assert (Z.of_nat (length (huge_file DATA_MAGIC)) = 2 ^ 32 + 16) as E by (apply length_huge_file; by vm_compute). split; [exact E|].
  apply (scan_of_four_gigabytes_is_empty 0 (huge_file DATA_MAGIC)). rewrite E. apply Z.leb_le. vm_compute. reflexivity.
Defined.
