(* ===== verification/FdbManager.v ===== *)
(** * The disk engine (storage/fdb/fdb_manager.cpp)

    An open bucket has its own pair of files ([buckets_map]); in front of all of
    them is a memory cache, which is another storage engine: any one that has
    the interface [storage_manager].  [disk] has the files of the data directory
    as they were when a bucket was last opened; it is only looked at for buckets
    that are not open.  A put and a remove drop the key from the cache first; a
    get that has gone to the bucket puts what it has found into the cache, in a
    step of its own ([get_fill]), since no lock is held over the two. *)

From S2P Require Import Prelude DataBuffer Util DataEntry MemPool MdbItem MemCache MdbManager TableManager Storage TairManager FdbFile FdbItems FdbBucket.

Definition EXIT_SUCCESS : Z := 0.
Definition EXIT_FAILURE : Z := 1.

Record fdb_manager (C : Type) := mk_fdb_manager {
  memory_cache : C; buckets_map : gmap Z fdb_store; disk : gmap Z fdb_store
}.
Arguments mk_fdb_manager {C}. Arguments memory_cache {C}. Arguments buckets_map {C}. Arguments disk {C}.

Section manager.
Context {C : Type} `{storage_manager C} (sys : system).

Abbreviation managerM := (stM (fdb_manager C)).

Definition get_bucket (bucket_number : Z) (s : fdb_manager C) : option fdb_store := buckets_map s !! bucket_number.

Definition with_cache {A} (f : stM C A) : managerM A := fun s =>
  let! (a, c) := f (memory_cache s) in Ret (a, mk_fdb_manager c (buckets_map s) (disk s)).
(** An operation of a bucket, or [absent] when it is not open *)
Definition with_bucket {A} (bucket_number : Z) (absent : A) (f : fdbM A) : managerM A := fun s =>
  match get_bucket bucket_number s with
  | None => Ret (absent, s)
  | Some b => let! (a, b) := f b in Ret (a, mk_fdb_manager (memory_cache s) (<[bucket_number := b]> (buckets_map s)) (disk s))
  end.

(** The operations take the clock ([now]) as the bucket's do. *)
Definition fdb_put (now bucket_number : Z) (key value : data_entry) (version_care : bool) (expire_time : Z) : managerM (Z * data_entry) :=
  fun s =>
  match get_bucket bucket_number s with
  | None => Ret ((TAIR_RETURN_FAILED, key), s)
  | Some _ =>
      (let* (rc, key) := with_cache (st_remove bucket_number key false) in
       if rc =? EXIT_FAILURE then sret (TAIR_RETURN_FAILED, key)
       else with_bucket bucket_number (TAIR_RETURN_FAILED, key) (bucket_put sys now key value version_care expire_time)) s
  end.

(** [get] up to what it does with an entry of the bucket; the last component
    says whether it goes on with [get_fill]. *)
Definition get_read (now bucket_number : Z) (key value : data_entry) : managerM (Z * data_entry * data_entry * bool) := fun s =>
  match get_bucket bucket_number s with
  | None => Ret ((TAIR_RETURN_FAILED, key, value, false), s)
  | Some _ =>
      (let* (rc, key, value) := with_cache (st_get bucket_number key value) in
       if rc =? EXIT_SUCCESS then
         let* value := slift (decode_meta true value) in
         sret (TAIR_RETURN_SUCCESS, set_meta (data_meta value) key, value, false)
       else
         let* (rc, key, value) := with_bucket bucket_number (TAIR_RETURN_FAILED, key, value) (bucket_get sys now key value) in
         sret (rc, key, value, rc =? TAIR_RETURN_SUCCESS)) s
  end.
(** The entry goes into the cache with its metadata in front of its value. *)
Definition get_fill (bucket_number : Z) (r : Z * data_entry * data_entry * bool) : managerM (Z * data_entry * data_entry) :=
  let '(rc, key, value, fill) := r in
  if fill then
    let temp_value := merge_meta (assign_data_entry value new_data_entry) in
    let* (_, key) := with_cache (st_put bucket_number key temp_value false (s32 (edate (data_meta key)))) in
    sret (rc, key, value)
  else sret (rc, key, value).
Definition fdb_get (now bucket_number : Z) (key value : data_entry) : managerM (Z * data_entry * data_entry) :=
  let* r := get_read now bucket_number key value in get_fill bucket_number r.

Definition fdb_remove (bucket_number : Z) (key : data_entry) (version_care : bool) : managerM (Z * data_entry) := fun s =>
  match get_bucket bucket_number s with
  | None => Ret ((TAIR_RETURN_FAILED, key), s)
  | Some _ =>
      (let* (rc, key) := with_cache (st_remove bucket_number key false) in
       if rc =? EXIT_FAILURE then sret (TAIR_RETURN_FAILED, key)
       else with_bucket bucket_number (TAIR_RETURN_FAILED, key) (bucket_remove sys key version_care)) s
  end.

Definition fdb_clear (area : Z) : managerM Z := sret TAIR_RETURN_SUCCESS.

(** ** Opening and closing buckets *)

Section files.
Context (power map_size : Z) (stack : list Z).

(** [fdb_bucket::start] *)
Definition start (bucket_number : Z) (files : gmap Z fdb_store) : outcome fdb_store :=
  match files !! bucket_number with
  | Some s => initialize_old map_size s
  | None => initialize_new sys power map_size stack
  end.
(** The loop of [init_buckets]: [open] is the map the manager still has,
    [temp_buckets_map] the one it will have. *)
Fixpoint start_buckets (open : gmap Z fdb_store) (buckets : list Z) (temp_buckets_map files : gmap Z fdb_store)
    : outcome (bool * gmap Z fdb_store * gmap Z fdb_store) :=
  match buckets with
  | [] => Ret (true, temp_buckets_map, files)
  | n :: buckets =>
      match open !! n with
      | Some _ => start_buckets open buckets temp_buckets_map files
      | None =>
          match start n files with
          | Ret b => start_buckets open buckets (<[n := b]> temp_buckets_map) (<[n := b]> files)
          | Fail => Ret (false, temp_buckets_map, files)
          | Abort => Abort | Overrun => Overrun | Diverge => Diverge
          end
      end
  end.
Definition fdb_init_buckets (buckets : list Z) : managerM bool := fun s =>
  let! (ok, temp_buckets_map, files) := start_buckets (buckets_map s) buckets (buckets_map s) (disk s) in
  Ret (ok, mk_fdb_manager (memory_cache s) (if ok : bool then temp_buckets_map else buckets_map s) files).
End files.

(** The files of the closed buckets get other names; one that is named twice is
    deleted twice. *)
Definition fdb_close_buckets (buckets : list Z) : managerM unit := fun s =>
  let rm_buckets := filter (fun n => is_Some (get_bucket n s)) buckets in
  if bool_decide (base.NoDup rm_buckets) then
    Ret (tt, mk_fdb_manager (memory_cache s) (foldr delete (buckets_map s) rm_buckets) (foldr delete (disk s) rm_buckets))
  else Overrun.

(** ** Statistics *)

(** [fdb_bucket::get_stat] adds the bucket's numbers, area by area. *)
Definition bucket_get_stat (b : fdb_store) (l : list (Z * Z * Z)) : list (Z * Z * Z) :=
  zip_with (fun '(d, u, n) p => (u64 (d + ps_data_size p), u64 (u + ps_use_size p), u64 (n + ps_item_count p))) l (stat (header b)).
Definition fdb_get_stats (l : list (Z * Z * Z)) : managerM (list (Z * Z * Z)) := fun s =>
  Ret (map_fold (fun _ b l => bucket_get_stat b l) l (buckets_map s), s).
End manager.
