(* ===== verification/FdbCache.v ===== *)
(** * The disk engine behind its cache

    The cache keeps the laws of an engine and those of [CacheLaws]; the memory
    engine is one.  [manager_state]: every open bucket stands for its part of one
    map, and what the cache has for a key is that key's entry.  Every operation
    keeps this and answers as the map does. *)

From S2P Require Import Prelude DataBuffer Util DataEntry MemPool MdbItem MemCache EngineState MdbManager Engine EngineInit EngineRun TableManager Storage TairManager FdbFile FdbItems FdbBucket FdbTree FdbLayout FdbSteps FdbTiles FdbSpace FdbLink FdbUnlink FdbEngine FdbPut FdbOpen FdbLost FdbTheorems FdbManager.

(** ** Caches *)

(** Only the size of the key changes in what a removal gives back. *)
Definition removed_key (key key' : data_entry) : Prop :=
  exists n, key' = set_meta_fields same_field same_field same_field (fun _ => n) same_field key.

(** What else the manager needs of its cache: time passes without a change, a
    smaller entry fits where a larger one does *)
Class CacheLaws (C : Type) `{KeyValueLaws C} := {
  set_clock : Z -> C -> C;
  set_clock_law : forall t s c, Storage.holds s c -> Storage.holds (set_clock t s) c /\ clock (set_clock t s) = u32 t
    /\ forall n, Storage.room s n -> Storage.room (set_clock t s) n;
  room_less : forall s n n', Storage.room s n -> n' <= n -> Storage.room s n';
  remove_keeps_key : forall s a key care rc key' s', st_remove a key care s = Ret ((rc, key'), s') -> removed_key key key'
}.

(** The memory engine is such a cache. *)
Section mdb_cache.
Context (share : Z -> Z -> Z -> Z) (malloced : item_meta_info).

#[export] Program Instance mdb_cache : @CacheLaws mdb_manager (mdb_storage share malloced) (mdb_laws share malloced) := {
  set_clock t s := mk_mdb_manager (mdb_bucket_count s) (set_now t (mdb_engine s))
}.
Next Obligation.
  intros t s c (m & vs & Hck & <-). split; [|done]. exists m, vs. split; [by apply cache_ok_now|done].
Qed.
Next Obligation. intros s n n' (z & Hz & Hn) Hle. exists z. split; [done|lia]. Qed.
Next Obligation.
  intros s a key care rc key' s' E. cbn in E. unfold with_engine in E. apply obind_Ret_inv in E as ([[rc1 key1] e] & E & E').
  injection E' as <- <- <-. unfold do_remove in E. exists (u16 (get_size key)).
  repeat (apply obind_Ret_inv in E as ([? ?] & _ & E)). by injection E as _ <- _.
Qed.
End mdb_cache.

(** ** One bucket's part of the map *)

Section part.
Context (bucket_of : list Z -> Z).

Definition part (n : Z) (m : gmap (list Z) fdb_entry) : gmap (list Z) fdb_entry := filter (fun kv => bucket_of kv.1 = n) m.

Lemma part_lookup m k : part (bucket_of k) m !! k = m !! k.
Proof.
  unfold part. destruct (m !! k) as [e|] eqn:E; [by apply map_lookup_filter_Some|]. apply map_lookup_filter_None. by left.
Qed.

Lemma part_insert n m k e : part n (<[k := e]> m) = if decide (bucket_of k = n) then <[k := e]> (part n m) else part n m.
Proof.
  unfold part. case_decide as D; [by apply map_filter_insert_True|]. rewrite map_filter_insert_False by done. by rewrite map_filter_delete_not by (cbn; naive_solver).
Qed.

Lemma part_delete n m k : part n (delete k m) = if decide (bucket_of k = n) then delete k (part n m) else part n m.
Proof. unfold part. case_decide as D; [by apply map_filter_delete|]. apply map_filter_delete_not. cbn. naive_solver. Qed.

(** [m'] is [m] but for the key [k]. *)
Definition but_for (k : list Z) (m m' : gmap (list Z) fdb_entry) : Prop := m' = m \/ (exists e, m' = <[k := e]> m) \/ m' = delete k m.

Lemma but_for_part k m m' n : but_for k m m' -> bucket_of k <> n -> part n m' = part n m.
Proof. intros [->|[[e ->]| ->]] D; rewrite ?part_insert, ?part_delete; by rewrite ?decide_False. Qed.

Lemma but_for_other k m m' k' : but_for k m m' -> k' <> k -> m' !! k' = m !! k'.
Proof. intros [->|[[e ->]| ->]] D; by rewrite ?lookup_insert_ne, ?lookup_delete_ne by done. Qed.

Lemma spec_put_part now key value care expire m :
  spec_put now key value care expire (part (bucket_of (get_data key)) m)
  = (let '(rc, m') := spec_put now key value care expire m in (rc, part (bucket_of (get_data key)) m'))
  /\ but_for (get_data key) m (snd (spec_put now key value care expire m)).
Proof.
  unfold spec_put, but_for. destruct (put_dates _ _ _ _) as [[a b] c]. rewrite part_lookup.
  destruct (m !! get_data key); [destruct (_ && _)|]; rewrite ?part_insert, ?decide_True by done; eauto.
Qed.

Lemma spec_get_part now key m :
  spec_get now key (part (bucket_of (get_data key)) m)
  = (let '(rc, e, m') := spec_get now key m in (rc, e, part (bucket_of (get_data key)) m'))
  /\ but_for (get_data key) m (snd (spec_get now key m)).
Proof.
  unfold spec_get, but_for. rewrite part_lookup. destruct (m !! get_data key); [destruct (entry_expired _ _)|]; rewrite ?part_delete, ?decide_True by done; eauto.
Qed.

Lemma spec_remove_part key care m :
  spec_remove key care (part (bucket_of (get_data key)) m)
  = (let '(rc, m') := spec_remove key care m in (rc, part (bucket_of (get_data key)) m'))
  /\ but_for (get_data key) m (snd (spec_remove key care m)).
Proof.
  unfold spec_remove, but_for. rewrite part_lookup. destruct (m !! get_data key); [destruct (version_refused _ _ _)|]; rewrite ?part_delete, ?decide_True by done; eauto.
Qed.
End part.

(** ** Runs *)

Inductive mgr_op :=
| MPut (key value : data_entry) (version_care : bool) (expire_time : Z)
| MGet (key : data_entry)
| MRemove (key : data_entry) (version_care : bool).

Section runs.
Context {C : Type} `{Hcache : CacheLaws C} (sys : system) (bucket_of : list Z -> Z).

Definition mgr_op_run (now : Z) (op : mgr_op) : stM (fdb_manager C) fdb_answer :=
  match op with
  | MPut key value version_care expire_time =>
      let* (rc, key) := fdb_put sys now (bucket_of (get_data key)) key value version_care expire_time in
      sret (rc, if rc =? TAIR_RETURN_SUCCESS then Some (meta_entry (get_data value) (data_meta key)) else None)
  | MGet key =>
      let* (rc, _, value) := fdb_get sys now (bucket_of (get_data key)) key new_data_entry in
      sret (rc, if rc =? TAIR_RETURN_SUCCESS then Some (meta_entry (get_data value) (data_meta value)) else None)
  | MRemove key version_care => let* (rc, _) := fdb_remove sys (bucket_of (get_data key)) key version_care in sret (rc, None)
  end.
Definition tick (now : Z) (s : fdb_manager C) : fdb_manager C := mk_fdb_manager (set_clock now (memory_cache s)) (buckets_map s) (disk s).
(** Operations with the times at which they are made *)
Fixpoint mgr_run (ops : list (Z * mgr_op)) : stM (fdb_manager C) (list fdb_answer) :=
  match ops with
  | [] => sret []
  | (now, op) :: ops =>
      let* _ := smodify (tick now) in
      let* a := mgr_op_run now op in
      let* l := mgr_run ops in
      sret (a :: l)
  end.
End runs.

(** The same operations on the map *)
Definition at_time (op : Z * mgr_op) : fdb_op :=
  match op with
  | (now, MPut key value version_care expire_time) => FdbPut now key value version_care expire_time
  | (now, MGet key) => FdbGet now key new_data_entry
  | (now, MRemove key version_care) => FdbRemove key version_care
  end.
(** No entry is read in the second in which it expires; dates of expiry are
    those an int can have. *)
Definition served_in_time (now : Z) (e : fdb_entry) : bool := (e_edate e =? 0) || (negb (e_edate e =? u32 now) && (e_edate e <? 2 ^ 31)).
Fixpoint in_time (ops : list (Z * mgr_op)) (m : gmap (list Z) fdb_entry) : bool :=
  match ops with
  | [] => true
  | (now, op) :: ops =>
      match op with MGet key => from_option (served_in_time now) true (m !! get_data key) | _ => true end
      && in_time ops (snd (FdbTheorems.op_spec (at_time (now, op)) m))
  end.

(** ** The state of the manager *)

(** What the cache has for an entry: the metadata and the value, until the entry
    expires *)
Definition cached (e : fdb_entry) (ce : entry) : Prop :=
  (exists d, meta_ok d /\ meta_entry (e_value e) d = e /\ EngineState.e_value ce = meta_raw d ++ e_value e)
  /\ (e_edate e <> 0 -> e_exptime ce = e_edate e).

(** An entry as the cache takes it: keys have less than 2^12 bytes. *)
Definition cache_room (limit : Z) : Z := 2 ^ 12 + limit + sizeof_item_meta_info + sizeof_mdb_item.

Section manager.
Context {C : Type} `{Hcache : CacheLaws C} (sys : system) `{Hio : io_succeeds sys} (bucket_of : list Z -> Z) (limit : Z).
Hypothesis Hlimit : limit + sizeof_item_meta_info < 2 ^ 20.

Record manager_state (s : fdb_manager C) (m : gmap (list Z) fdb_entry) (c : gmap (list Z) entry) : Prop := {
  ms_cache : Storage.holds (memory_cache s) c;
  ms_room : Storage.room (memory_cache s) (cache_room limit);
  ms_buckets : forall n b, buckets_map s !! n = Some b -> engine_state true b (part bucket_of n m);
  ms_cached : forall k ce, c !! k = Some ce -> exists e, m !! k = Some e /\ cached e ce;
  ms_values : forall k e, m !! k = Some e -> 1 <= Z.of_nat (length (e_value e)) <= limit
}.
Definition manager_ok (s : fdb_manager C) (m : gmap (list Z) fdb_entry) : Prop := exists c, manager_state s m c.

(** Keys as the data server passes them *)
Record mgr_key (s : fdb_manager C) (key : data_entry) : Prop := {
  mk_fdb : FdbTheorems.key_ok key;
  mk_area : area key = KEY_AREA (get_data key) /\ 0 <= area key < TAIR_MAX_AREA_COUNT;
  mk_size : get_size key < 2 ^ 12;
  mk_open : is_Some (buckets_map s !! bucket_of (get_data key))
}.

Lemma mgr_key_cache s key : mgr_key s key -> EngineRun.key_ok key.
Proof.
  intros [[[_ [H1 H2] _] _] H3 _ _]. split; [|done]. intros E. rewrite E in H1. cbn in H1. lia.
Qed.

Definition buckets_room (s : fdb_manager C) (d i : Z) : Prop := forall n b, buckets_map s !! n = Some b -> room b d i.
(** The operations leave the set of open buckets as it is. *)
Definition advances (s s' : fdb_manager C) (d i : Z) : Prop :=
  clock (memory_cache s') = clock (memory_cache s)
  /\ forall n, match buckets_map s !! n, buckets_map s' !! n with
               | Some b, Some b' => grows b b' d i
               | None, None => True
               | _, _ => False
               end.

Lemma advances_open s s' d i n : advances s s' d i -> is_Some (buckets_map s !! n) -> is_Some (buckets_map s' !! n).
Proof. intros [_ H'] [b E]. specialize (H' n). rewrite E in H'. by destruct (buckets_map s' !! n). Qed.

Lemma advances_key s s' d i key : advances s s' d i -> mgr_key s key -> mgr_key s' key.
Proof. intros Ha [H1 H2 H3 H4]. constructor; [done..|]. by apply (advances_open s s' d i). Qed.

Lemma advances_room s s' d i d' i' : advances s s' d i -> buckets_room s (d + d') (i + i') -> buckets_room s' d' i'.
Proof.
  intros [_ Ha] Hr n b' E'. specialize (Ha n). rewrite E' in Ha. destruct (buckets_map s !! n) as [b|] eqn:E; [|done]. specialize (Hr n b E).
  unfold room, grows in *. lia.
Qed.

Lemma advances_refl s d i : 0 <= d -> 0 <= i -> advances s s d i.
Proof. intros Hd Hi. split; [done|]. intros n. destruct (buckets_map s !! n); [|done]. unfold grows. lia. Qed.

(** The cache and one bucket have moved on. *)
Definition moved_on (s : fdb_manager C) (c : C) (n : Z) (b : fdb_store) : fdb_manager C :=
  mk_fdb_manager c (<[n := b]> (buckets_map s)) (disk s).

Lemma moved_advances s c n b b' d i :
  buckets_map s !! n = Some b -> grows b b' d i -> 0 <= d -> 0 <= i -> clock c = clock (memory_cache s) -> advances s (moved_on s c n b') d i.
Proof.
  intros E Hg Hd Hi Hc. split; [done|]. intros n'. cbn. destruct (decide (n = n')) as [<-|D]; [by rewrite E, lookup_insert_eq|].
  rewrite lookup_insert_ne by done. destruct (buckets_map s !! n'); [|done]. unfold grows. lia.
Qed.

Lemma moved_state s c c1 cc cc' k b m m' :
  manager_state s m c -> but_for k m m' -> Storage.holds cc' c1 -> cc = memory_cache s ->
  (forall n, Storage.room cc n -> Storage.room cc' n) ->
  engine_state true b (part bucket_of (bucket_of k) m') ->
  (forall k' ce, c1 !! k' = Some ce -> k' <> k -> c !! k' = Some ce) ->
  (forall ce, c1 !! k = Some ce -> exists e, m' !! k = Some e /\ cached e ce) ->
  (forall e, m' !! k = Some e -> 1 <= Z.of_nat (length (e_value e)) <= limit) ->
  manager_state (moved_on s cc' (bucket_of k) b) m' c1.
Proof.
  intros [S1 S2 S3 S4 S5] Hbut Hc1 -> Hroom Hb Hother Hk Hv. constructor; cbn.
  - done.
  - by apply Hroom.
  - intros n b'. destruct (decide (bucket_of k = n)) as [<-|D]; [rewrite lookup_insert_eq; by intros [= <-]|].
    rewrite lookup_insert_ne by done. rewrite (but_for_part bucket_of k m m' n Hbut D). apply S3.
  - intros k' ce E. destruct (decide (k' = k)) as [->|D]; [by apply Hk|]. rewrite (but_for_other k m m' k' Hbut D). by apply S4, Hother.
  - intros k' e. destruct (decide (k' = k)) as [->|D]; [by apply Hv|]. rewrite (but_for_other k m m' k' Hbut D). apply S5.
Qed.

(** ** Removal from the cache, with which puts and removes begin *)

Lemma cache_remove_run s m c n key :
  manager_state s m c -> mgr_key s key -> exists rc key' cc, with_cache (st_remove n key false) s = Ret ((rc, key'), mk_fdb_manager cc (buckets_map s) (disk s))
    /\ rc <> EXIT_FAILURE /\ removed_key key key' /\ Storage.holds cc (delete (get_data key) c) /\ clock cc = clock (memory_cache s)
    /\ forall n, Storage.room (memory_cache s) n -> Storage.room cc n.
Proof.
  intros Hs Hk. destruct (remove_law (memory_cache s) c n key false (ms_cache _ _ _ Hs) (mgr_key_cache s key Hk)) as (rc & key' & cc & c' & E & Hc & Hcl & Hr & Hsp).
  exists rc, key', cc. unfold with_cache. rewrite E. split; [done|]. split; [by destruct Hsp|]. split; [by apply (remove_keeps_key _ _ _ _ _ _ _ E)|].
  split; [|done]. destruct Hsp as [e He|He]; [done|]. by rewrite delete_id.
Qed.

Lemma removed_key_same now key key' value care expire m :
  removed_key key key' -> FdbTheorems.key_ok key ->
  FdbTheorems.key_ok key' /\ get_data key' = get_data key /\ put_room key' value = put_room key value
  /\ spec_put now key' value care expire m = spec_put now key value care expire m /\ spec_remove key' care m = spec_remove key care m.
Proof.
  intros [n ->] ([K1 K2 K3] & Ha & Hv). split; [|done]. split; [|done]. constructor; [done|done|].
  transitivity (fst (get_hashcode key)); [|exact K3]. unfold get_hashcode. cbn. destruct (DataEntry.data key); [|done]. by destruct (_ && _).
Qed.

(** ** The operations *)

Lemma put_room_pos key value : FdbTheorems.key_ok key -> fdb_value value -> 0 <= put_room key value.
Proof. intros [Hk _] Hv. destruct (total_size_range key value Hk Hv) as (H1 & H2 & _). fold (put_room key value) in H1. lia. Qed.

Lemma spec_put_value now key value care expire m e rc m' :
  spec_put now key value care expire m = (rc, m') -> m' !! get_data key = Some e -> m !! get_data key = Some e \/ e_value e = get_data value.
Proof.
  unfold spec_put. destruct (put_dates _ _ _ _) as [[a b] d]. destruct (m !! get_data key) as [e0|] eqn:Em; [destruct (_ && _)|];
    intros [= <- <-]; rewrite ?lookup_insert_eq; [rewrite Em; auto|intros [= <-]; by right..].
Qed.

Lemma fdb_put_ok now key value care expire s m c :
  manager_state s m c -> mgr_key s key -> fdb_value value -> get_size value <= limit -> buckets_room s (put_room key value) FDB_ITEM_META_SIZE ->
  let '(rc, m') := spec_put now key value care expire m in
  exists key' s' c', fdb_put sys now (bucket_of (get_data key)) key value care expire s = Ret ((rc, key'), s')
    /\ manager_state s' m' c' /\ advances s s' (put_room key value) FDB_ITEM_META_SIZE /\ c' !! get_data key = None
    /\ (rc = TAIR_RETURN_SUCCESS -> m' !! get_data key = Some (meta_entry (get_data value) (data_meta key'))).
Proof.
  intros Hs Hk Hval Hl Hroom. destruct (mk_open _ _ Hk) as [b Eb]. destruct (cache_remove_run s m c (bucket_of (get_data key)) key Hs Hk)
    as (rc0 & k1 & cc & E1 & Hrc0 & Hk1 & Hcc & Hclk & Hrm).
  destruct (removed_key_same now key k1 value care expire (part bucket_of (bucket_of (get_data key)) m) Hk1 (mk_fdb _ _ Hk)) as ((Kf & Ka & Kv) & Ed & Er & Esp & _).
  pose proof (bucket_put_ok sys now care expire k1 value true b _ Kf Hval Ka Kv (ms_buckets _ _ _ Hs _ b Eb) ltac:(rewrite Er; by apply (Hroom _ b Eb))) as Hput.
  rewrite Esp, Er, Ed in Hput. destruct (spec_put_part bucket_of now key value care expire m) as [Epart Hbut]. rewrite Epart in Hput.
  pose proof (spec_put_value now key value care expire m) as Hvals.
  destruct (spec_put now key value care expire m) as [rc m'] eqn:Em. cbn [snd] in Hbut. destruct Hput as (key' & b' & E2 & Hb' & Hg & He).
  exists key', (moved_on s cc (bucket_of (get_data key)) b'), (delete (get_data key) c). split; [|split; [|split; [|split]]].
  - unfold fdb_put, get_bucket. rewrite Eb. step_with E1. rewrite (proj2 (Z.eqb_neq _ _) Hrc0). unfold with_bucket, get_bucket. cbn [buckets_map]. rewrite Eb, E2. done.
  - apply (moved_state s c _ (memory_cache s) cc (get_data key) b' m m'); try done.
    + intros k' ce [_ ?]%lookup_delete_Some _. done.
    + intros ce. by rewrite lookup_delete_eq.
    + intros e He'. destruct (Hvals e rc m' eq_refl He') as [Hold| ->]; [by apply (ms_values _ _ _ Hs _ e Hold)|]. destruct (fv_size _ Hval) as [Hsz ?]. lia.
  - apply (moved_advances s cc _ b b'); [done|done|by apply put_room_pos; [apply (mk_fdb _ _ Hk)|]|done|done].
  - apply lookup_delete_eq.
  - intros Hrc. specialize (He Hrc). by rewrite part_lookup in He.
Qed.

Lemma fdb_remove_ok key care s m c :
  manager_state s m c -> mgr_key s key ->
  let '(rc, m') := spec_remove key care m in
  exists key' s' c', fdb_remove sys (bucket_of (get_data key)) key care s = Ret ((rc, key'), s') /\ manager_state s' m' c' /\ advances s s' 0 0.
Proof.
  intros Hs Hk. destruct (mk_open _ _ Hk) as [b Eb]. destruct (cache_remove_run s m c (bucket_of (get_data key)) key Hs Hk)
    as (rc0 & k1 & cc & E1 & Hrc0 & Hk1 & Hcc & Hclk & Hrm).
  destruct (removed_key_same 0 key k1 key care 0 (part bucket_of (bucket_of (get_data key)) m) Hk1 (mk_fdb _ _ Hk)) as ((Kf & Ka & Kv) & Ed & _ & _ & Esp).
  destruct (bucket_remove_ok sys k1 Kf Ka true b _ care (ms_buckets _ _ _ Hs _ b Eb)) as (key' & b' & E2 & Hb' & Hg).
  rewrite Esp in E2, Hb'. destruct (spec_remove_part bucket_of key care m) as [Epart Hbut]. rewrite Epart in E2, Hb'.
  assert (forall e, snd (spec_remove key care m) !! get_data key = Some e -> m !! get_data key = Some e) as Hold.
  { intros e. unfold spec_remove. destruct (m !! get_data key) as [e0|] eqn:Em; [destruct (version_refused _ _ _)|]; cbn; rewrite ?lookup_delete_eq, ?Em; done. }
  destruct (spec_remove key care m) as [rc m'] eqn:Em. cbn [fst snd] in *.
  exists key', (moved_on s cc (bucket_of (get_data key)) b'), (delete (get_data key) c). split; [|split].
  - unfold fdb_remove, get_bucket. rewrite Eb. step_with E1. rewrite (proj2 (Z.eqb_neq _ _) Hrc0). unfold with_bucket, get_bucket. cbn [buckets_map]. rewrite Eb, E2. done.
  - apply (moved_state s c _ (memory_cache s) cc (get_data key) b' m m'); try done.
    + intros k' ce [_ ?]%lookup_delete_Some _. done.
    + intros ce. by rewrite lookup_delete_eq.
    + intros e He'. apply (ms_values _ _ _ Hs _ e (Hold e He')).
  - by apply (moved_advances s cc _ b b').
Qed.

(** What a get has from the bucket *)
Record found (key : data_entry) (e : fdb_entry) (key' value' : data_entry) : Prop := {
  fo_key : key' = set_meta (data_meta value') (snd (get_hashcode key));
  fo_value : value' = set_alloced_data (e_value e) (Z.of_nat (length (e_value e))) (set_meta (data_meta value') new_data_entry);
  fo_meta : meta_ok (data_meta value') /\ meta_entry (e_value e) (data_meta value') = e
}.

Lemma found_same key e key' value' : FdbTheorems.key_ok key -> found key e key' value' ->
  get_data key' = get_data key /\ get_size key' = get_size key /\ data_meta key' = data_meta value' /\ get_data value' = e_value e
  /\ has_meta_merged value' = false /\ get_size value' = Z.of_nat (length (e_value e)) /\ edate (data_meta value') = e_edate e.
Proof.
  intros [Hk _] [-> E2 [_ E3]]. destruct (hashcode_same key Hk) as (H1 & H2 & _). split; [exact H1|]. split; [exact H2|]. split; [done|].
  rewrite E2 at 1 2 3. split; [done|]. split; [done|]. split; [done|]. by rewrite <- E3.
Qed.

Lemma merge_meta_run e : has_meta_merged e = false -> 0 < size e ->
  get_data (merge_meta e) = meta_raw (data_meta e) ++ get_data e /\ get_size (merge_meta e) = size e + sizeof_item_meta_info.
Proof. intros H1 H2. unfold merge_meta. by rewrite H1, (proj2 (Z.ltb_lt 0 _) H2). Qed.

(** The value with its metadata in front *)
Lemma merged_value key e key' value' : found key e key' value' -> e_value e <> [] ->
  let temp := merge_meta (assign_data_entry value' new_data_entry) in
  get_data temp = meta_raw (data_meta value') ++ e_value e /\ get_size temp = Z.of_nat (length (get_data temp)).
Proof.
  intros [_ E2 _] Hne. cbv zeta. set (d := data_meta value') in *. rewrite E2. clear E2.
  assert (0 < Z.of_nat (length (e_value e))) as Hpos by (destruct (e_value e); [done|cbn; lia]).
  set (copy := assign_data_entry _ _).
  assert (has_meta_merged copy = false /\ size copy = Z.of_nat (length (e_value e)) /\ data_meta copy = d /\ get_data copy = e_value e) as (C1 & C2 & C3 & C4).
  { unfold copy, assign_data_entry, set_alloced_data, DataEntry.set_data. cbn. rewrite (proj2 (Z.ltb_lt 0 _) Hpos). unfold get_data. cbn.
    by rewrite Nat2Z.id, firstn_all. }
  destruct (merge_meta_run copy C1 ltac:(lia)) as [-> ->]. rewrite C2, C3, C4. split; [done|].
  rewrite length_app, length_meta_raw. unfold sizeof_item_meta_info. lia.
Qed.

Lemma get_fill_run n rc key e key' value' s c :
  Storage.holds (memory_cache s) c -> Storage.room (memory_cache s) (cache_room limit) ->
  FdbTheorems.key_ok key -> 0 <= KEY_AREA (get_data key) < TAIR_MAX_AREA_COUNT -> get_size key < 2 ^ 12 ->
  found key e key' value' -> 1 <= Z.of_nat (length (e_value e)) <= limit ->
  exists key'' cc ce c0, get_fill n (rc, key', value', true) s = Ret ((rc, key'', value'), mk_fdb_manager cc (buckets_map s) (disk s))
    /\ Storage.holds cc (<[get_data key := ce]> c0) /\ (c0 = c \/ exists victim, c0 = delete victim c)
    /\ clock cc = clock (memory_cache s) /\ (forall n, Storage.room (memory_cache s) n -> Storage.room cc n)
    /\ EngineState.e_value ce = meta_raw (data_meta value') ++ e_value e
    /\ (0 < s32 (e_edate e) -> e_exptime ce = put_exptime (s32 (e_edate e)) (clock (memory_cache s)) 0).
Proof.
  intros Hc Hroom Hk Harea Hsz Hf Hlen. destruct (found_same key e key' value' Hk Hf) as (F1 & F2 & F3 & F4 & F5 & F6 & F7).
  destruct (merged_value key e key' value' Hf) as [M1 M2]; [intros E; rewrite E in Hlen; cbn in Hlen; lia|]. destruct Hk as [[_ [K1 K2] _] _].
  set (temp := merge_meta (assign_data_entry value' new_data_entry)) in *.
  assert (get_size temp = 28 + Z.of_nat (length (e_value e))) as Esz by (rewrite M2, M1, length_app, length_meta_raw; lia).
  unfold sizeof_item_meta_info in *. unfold get_fill. fold temp. rewrite F3, F7.
  destruct (put_law (memory_cache s) c n key' temp false (s32 (e_edate e)) Hc) as (rc1 & key'' & cc & c' & E & Hc' & Hcl & Hr & Hsp).
  - constructor; rewrite ?F1, ?F2; [split; [done|lia]|split; [done|lia]|done].
  - apply (room_less _ (cache_room limit)); [done|]. unfold cache_room, sizeof_item_meta_info. rewrite F2. lia.
  - inversion Hsp as [Hst E1 E2|base ce c0 Hst Hce Hc0 E1 E2].
    + exfalso. revert Hst. unfold put_base. cbn [andb]. by repeat case_match.
    + rewrite <- E2, F1 in Hc'. exists key'', cc, ce, c0. unfold with_cache, sbind. rewrite E. cbn [obind]. split; [done|]. split; [done|]. split; [done|]. split; [done|]. split; [done|].
      split; [by rewrite (st_value _ _ _ _ _ _ _ Hce)|]. intros Hpos. rewrite (st_exptime _ _ _ _ _ _ _ Hce) by lia. f_equal. lia.
Qed.

Lemma decode_run x d v : get_data x = meta_raw d ++ v -> get_size x = Z.of_nat (length (get_data x)) -> meta_ok d -> v <> [] ->
  exists x', decode_meta true x = Ret x' /\ get_data x' = v /\ data_meta x' = d.
Proof.
  intros E1 E2 Hd Hv. assert (28 < size x) as Hs.
  { unfold get_size in E2. rewrite E2, E1, length_app, length_meta_raw. destruct v; [done|]. cbn [length]. lia. }
  unfold decode_meta. rewrite orb_true_r. unfold sizeof_item_meta_info. rewrite (proj2 (Z.ltb_lt 28 _) Hs). cbn [oassert]. rewrite E1.
  eexists. split; [done|]. rewrite meta_raw_roundtrip by done. split; [|done].
  unfold get_data, set_alloced_data. cbn [DataEntry.data default]. by apply drop_app_length'; rewrite length_meta_raw.
Qed.

Lemma cached_live now e ce : cached e ce -> Engine.entry_expired (u32 now) ce = false -> entry_expired now e = false.
Proof.
  intros [_ Hx]. unfold Engine.entry_expired, entry_expired. destruct (Z.eqb_spec (e_edate e) 0) as [E|E]; [done|]. rewrite (Hx E).
  by rewrite (proj2 (Z.eqb_neq _ 0) E).
Qed.

(** The cache alone has moved on. *)
Lemma cache_state s m c cc c1 :
  manager_state s m c -> Storage.holds cc c1 -> (forall n, Storage.room (memory_cache s) n -> Storage.room cc n) ->
  (forall k ce, c1 !! k = Some ce -> exists e, m !! k = Some e /\ cached e ce) ->
  manager_state (mk_fdb_manager cc (buckets_map s) (disk s)) m c1.
Proof. intros [S1 S2 S3 S4 S5] Hc Hr Hk. constructor; [done|by apply Hr|done|done|done]. Qed.

Lemma cache_advances s cc : clock cc = clock (memory_cache s) -> advances s (mk_fdb_manager cc (buckets_map s) (disk s)) 0 0.
Proof. intros Hc. split; [done|]. intros n. cbn. destruct (buckets_map s !! n); [|done]. unfold grows. lia. Qed.

(** What a cache answers a get with *)
Definition cache_has (cc : C) (c : gmap (list Z) entry) (k : list Z) : option entry :=
  ce ← c !! k; if Engine.entry_expired (clock cc) ce then None else Some ce.

Lemma cache_has_live cc c k ce : cache_has cc c k = Some ce -> c !! k = Some ce /\ Engine.entry_expired (clock cc) ce = false.
Proof. unfold cache_has. destruct (c !! k) as [ce'|]; [|done]. cbn. destruct (Engine.entry_expired _ ce') eqn:E; [done|]. by intros [= <-]. Qed.

Lemma read_hit now n key s c ce d v :
  Storage.holds (memory_cache s) c -> EngineRun.key_ok key -> is_Some (buckets_map s !! n) -> c !! get_data key = Some ce ->
  Engine.entry_expired (clock (memory_cache s)) ce = false -> EngineState.e_value ce = meta_raw d ++ v -> meta_ok d -> v <> [] ->
  exists key' value' cc, get_read sys now n key new_data_entry s = Ret ((TAIR_RETURN_SUCCESS, key', value', false), mk_fdb_manager cc (buckets_map s) (disk s))
    /\ Storage.holds cc c /\ clock cc = clock (memory_cache s) /\ (forall n, Storage.room (memory_cache s) n -> Storage.room cc n)
    /\ get_data value' = v /\ data_meta value' = d.
Proof.
  intros Hc Hk [b Eb] Hce Hlive Ev Hd Hv. destruct (get_law (memory_cache s) c n key new_data_entry Hc Hk)
    as (rc0 & k0 & v0 & r & cc & c1 & E1 & Hc1 & Hcl & Hr & Hsp & Hrv & Hrk).
  destruct Hsp as [Hno|ce' Hce' Hx|ce' Hce' Hx]; [by rewrite Hno in Hce|rewrite Hce in Hce'; injection Hce' as <-; by rewrite Hx in Hlive|].
  rewrite Hce in Hce'. injection Hce' as <-. cbn in Hrv. destruct Hrv as (V1 & V2 & _).
  destruct (decode_run v0 d v) as (v1 & Edec & D1 & D2); [by rewrite V1|by rewrite V1, V2|done|done|].
  exists (set_meta (data_meta v1) k0), v1, cc. split; [|done]. unfold get_read, get_bucket. rewrite Eb.
  assert (with_cache (st_get n key new_data_entry) s = Ret ((TAIR_RETURN_SUCCESS, k0, v0), mk_fdb_manager cc (buckets_map s) (disk s))) as E1'
    by (unfold with_cache; by rewrite E1).
  rewrite (sbind_run _ _ _ _ _ E1'). cbn [Z.eqb TAIR_RETURN_SUCCESS EXIT_SUCCESS]. unfold slift, sbind. by rewrite Edec.
Qed.

Lemma get_read_ok now key s m c :
  manager_state s m c -> mgr_key s key -> clock (memory_cache s) = u32 now ->
  let '(rc, e, m') := spec_get now key m in
  exists key' value' fill s' c', get_read sys now (bucket_of (get_data key)) key new_data_entry s = Ret ((rc, key', value', fill), s')
    /\ manager_state s' m' c' /\ advances s s' 0 0
    /\ (rc = TAIR_RETURN_SUCCESS <-> is_Some e)
    /\ (forall e0, e = Some e0 -> meta_entry (get_data value') (data_meta value') = e0)
    /\ (fill = true -> exists e0, e = Some e0 /\ found key e0 key' value')
    /\ (c !! get_data key = None -> forall e0, e = Some e0 -> fill = true).
Proof.
  intros Hs Hk Hclk. destruct (mk_open _ _ Hk) as [b Eb]. pose proof (mk_fdb _ _ Hk) as (Kf & Ka & Kv).
  destruct (cache_has (memory_cache s) c (get_data key)) as [ce|] eqn:Hhas.
  - apply cache_has_live in Hhas as [Hce Hlive]. destruct (ms_cached _ _ _ Hs _ _ Hce) as (e & Em & Hca).
    pose proof (cached_live now e ce Hca) as Hl. rewrite <- Hclk in Hl. specialize (Hl Hlive).
    unfold spec_get. rewrite Em, Hl. destruct Hca as [(d & Hd & Hmd & Ev) Hx]. pose proof (ms_values _ _ _ Hs _ e Em) as [Hlen _].
    destruct (read_hit now (bucket_of (get_data key)) key s c ce d (e_value e) (ms_cache _ _ _ Hs) (mgr_key_cache s key Hk) (mk_open _ _ Hk) Hce Hlive Ev Hd)
      as (key' & value' & cc & E & Hc1 & Hcl & Hr & D1 & D2); [intros E; rewrite E in Hlen; cbn in Hlen; lia|].
    exists key', value', false, (mk_fdb_manager cc (buckets_map s) (disk s)), c. split; [done|].
    split; [apply (cache_state s m c); [done..|apply (ms_cached _ _ _ Hs)]|].
    split; [by apply cache_advances|]. split; [by eauto|]. split; [intros e0 [= <-]; by rewrite D1, D2|]. split; [done|]. intros Hno. by rewrite Hno in Hce.
  - destruct (get_law (memory_cache s) c (bucket_of (get_data key)) key new_data_entry (ms_cache _ _ _ Hs) (mgr_key_cache s key Hk))
      as (rc0 & k0 & v0 & r & cc & c1 & E1 & Hc1 & Hcl & Hr & Hsp & Hrv & Hrk).
    unfold get_read, get_bucket. rewrite Eb.
    assert (with_cache (st_get (bucket_of (get_data key)) key new_data_entry) s = Ret ((rc0, k0, v0), mk_fdb_manager cc (buckets_map s) (disk s))) as E1'
      by (unfold with_cache; by rewrite E1).
    assert (r = None /\ rc0 <> EXIT_SUCCESS /\ c1 !! get_data key = None /\ (forall k' ce, c1 !! k' = Some ce -> c !! k' = Some ce)) as (Hnone & Hrc & Hgone & Hsub).
    { unfold cache_has in Hhas. destruct Hsp as [?|? ? ?|ce Hce Hx]; [done| |by rewrite Hce in Hhas; cbn in Hhas; rewrite Hx in Hhas]. split; [done|]. split; [done|].
      split; [apply lookup_delete_eq|]. by intros k' ce [_ ?]%lookup_delete_Some. }
    rewrite Hnone in Hrv, Hrk. cbn in Hrv, Hrk. subst v0 k0. rewrite (sbind_run _ _ _ _ _ E1'). rewrite (proj2 (Z.eqb_neq _ _) Hrc).
    pose proof (bucket_get_ok sys now key Kf Ka true b _ new_data_entry (ms_buckets _ _ _ Hs _ b Eb)) as Hget.
    destruct (spec_get_part bucket_of now key m) as [Epart Hbut]. rewrite Epart in Hget.
    assert (forall e, snd (spec_get now key m) !! get_data key = Some e -> m !! get_data key = Some e) as Hold.
    { intros e. unfold spec_get. destruct (m !! get_data key) as [e0|] eqn:Em; [destruct (entry_expired _ _)|]; cbn; rewrite ?lookup_delete_eq, ?Em; done. }
    assert (fst (fst (spec_get now key m)) = TAIR_RETURN_SUCCESS <-> is_Some (snd (fst (spec_get now key m)))) as Hsome.
    { unfold spec_get. destruct (m !! get_data key); [destruct (entry_expired _ _)|]; cbn; (split; [by eauto|by intros [? [=]]]). }
    destruct (spec_get now key m) as [[rc e] m']. cbn [fst snd] in *. destruct Hget as (key' & value' & b' & E2 & Hb' & Hg & He).
    exists key', value', (rc =? TAIR_RETURN_SUCCESS), (moved_on s cc (bucket_of (get_data key)) b'), c1.
    split; [|split; [|split; [|split; [|split; [|split]]]]].
    + unfold with_bucket, get_bucket, sbind. cbn [buckets_map]. rewrite Eb, E2. done.
    + apply (moved_state s c _ (memory_cache s) cc (get_data key) b' m m'); try done.
      * intros k' ce Hce _. by apply Hsub.
      * intros ce. by rewrite Hgone.
      * intros e' He'. apply (ms_values _ _ _ Hs _ e' (Hold e' He')).
    + by apply (moved_advances s cc _ b b').
    + done.
    + intros e0 ->. destruct He as (He & _ & _ & ->). by rewrite <- He.
    + intros Hf%Z.eqb_eq. apply Hsome in Hf as [e0 ->]. exists e0. split; [done|]. by destruct He as (H1 & H2 & H3 & H4).
    + intros _ e0 ->. apply Z.eqb_eq. apply Hsome. by eexists.
Qed.

Lemma fdb_get_ok now key s m c :
  manager_state s m c -> mgr_key s key -> clock (memory_cache s) = u32 now -> from_option (served_in_time now) true (m !! get_data key) = true ->
  let '(rc, e, m') := spec_get now key m in
  exists key' value' s' c', fdb_get sys now (bucket_of (get_data key)) key new_data_entry s = Ret ((rc, key', value'), s')
    /\ manager_state s' m' c' /\ advances s s' 0 0 /\ (rc = TAIR_RETURN_SUCCESS <-> is_Some e)
    /\ (forall e0, e = Some e0 -> meta_entry (get_data value') (data_meta value') = e0).
Proof.
  intros Hs Hk Hclk Htime. pose proof (get_read_ok now key s m c Hs Hk Hclk) as Hread.
  assert (forall e0, snd (fst (spec_get now key m)) = Some e0 ->
            m !! get_data key = Some e0 /\ entry_expired now e0 = false /\ snd (spec_get now key m) = m) as Hsame.
  { intros e0. unfold spec_get. destruct (m !! get_data key) as [e1|]; [destruct (entry_expired now e1) eqn:Ex|]; cbn; by intros [= <-]. }
  destruct (spec_get now key m) as [[rc e] m']. cbn [fst snd] in Hsame.
  destruct Hread as (key' & value' & fill & s1 & c1 & E & Hs1 & Ha & Hrc & He & Hfill & _). unfold fdb_get. destruct fill.
  - destruct (Hfill eq_refl) as (e0 & -> & Hf). destruct (Hsame e0 eq_refl) as (Em & Hlive & ->). rewrite Em in Htime.
    destruct (get_fill_run (bucket_of (get_data key)) rc key e0 key' value' s1 c1 (ms_cache _ _ _ Hs1) (ms_room _ _ _ Hs1) (mk_fdb _ _ Hk))
      as (key'' & cc & ce & c0 & E2 & Hc & Hc0 & Hcl & Hr & Ev & Ex);
      [destruct (mk_area _ _ Hk) as [<- ?]; done|by apply (mk_size _ _ Hk)|done|by apply (ms_values _ _ _ Hs _ e0 Em)|].
    step_with E. rewrite E2. eexists key'', value', _, _. split; [done|]. split; [|split; [|split; [done|done]]].
    + apply (cache_state s1 m c1 cc (<[get_data key := ce]> c0) Hs1 Hc Hr). intros k ce'. destruct (decide (get_data key = k)) as [<-|D].
      * rewrite lookup_insert_eq. intros [= <-]. exists e0. split; [done|]. destruct (fo_meta _ _ _ _ Hf) as [Hmo Hme]. split; [by exists (data_meta value')|].
        intros Hne. destruct (found_same key e0 key' value' (mk_fdb _ _ Hk) Hf) as (_ & _ & _ & _ & _ & _ & Hed).
        destruct Hmo as (_ & _ & _ & _ & _ & _ & _ & _ & _ & Hu). rewrite Hed in Hu. unfold in_u in Hu.
        cbn in Htime. unfold served_in_time in Htime. rewrite (proj2 (Z.eqb_neq _ 0) Hne) in Htime. cbn [orb] in Htime.
        apply andb_true_iff in Htime as [Hn1 Hn2]. apply negb_true_iff, Z.eqb_neq in Hn1. apply Z.ltb_lt in Hn2.
        unfold entry_expired in Hlive. rewrite (proj2 (Z.eqb_neq _ 0) Hne) in Hlive. cbn [negb andb] in Hlive. apply Z.ltb_ge in Hlive.
        assert (s32 (e_edate e0) = e_edate e0) as Es by (apply swrap_id; [lia|unfold in_s; lia]).
        rewrite Ex by (rewrite Es; lia). rewrite Es. unfold put_exptime. rewrite (proj2 (Z.ltb_lt 0 _)) by lia.
        assert (wrap 32 (e_edate e0) = e_edate e0) as -> by (apply wrap_id; unfold in_u; lia).
        destruct Ha as [Hcl1 _]. rewrite Hcl1, Hclk, (proj2 (Z.ltb_lt _ _)) by lia. done.
      * rewrite lookup_insert_ne by done. intros Hce'. apply (ms_cached _ _ _ Hs1). destruct Hc0 as [->|[v ->]]; [done|].
        by apply lookup_delete_Some in Hce' as [_ ?].
    + destruct Ha as [Ha1 Ha2]. split; [cbn; by rewrite Hcl|exact Ha2].
  - step_with E. exists key', value', s1, c1. by unfold get_fill.
Qed.

(** ** Runs *)

(** The arguments of an operation *)
Definition mgr_op_ok (s : fdb_manager C) (op : mgr_op) : Prop :=
  match op with
  | MPut key value _ _ => mgr_key s key /\ fdb_value value /\ get_size value <= limit
  | MGet key | MRemove key _ => mgr_key s key
  end.

Lemma mgr_op_ok_pos s op now : mgr_op_ok s op -> 0 <= op_data (at_time (now, op)) /\ 0 <= op_index (at_time (now, op)).
Proof.
  destruct op as [key value care expire|key|key care]; cbn; try lia. intros (Hk & Hv & _). pose proof (put_room_pos key value (mk_fdb _ _ Hk) Hv).
  unfold FDB_ITEM_META_SIZE. lia.
Qed.

Lemma mgr_op_ok_after s s' d i op : advances s s' d i -> mgr_op_ok s op -> mgr_op_ok s' op.
Proof. intros Ha. destruct op; cbn; try (by apply (advances_key s s' d i)). intros (? & ? & ?). split; [by apply (advances_key s s' d i)|done]. Qed.

Lemma mgr_op_refines now op s m c :
  manager_state s m c -> mgr_op_ok s op -> clock (memory_cache s) = u32 now -> in_time [(now, op)] m = true ->
  buckets_room s (op_data (at_time (now, op))) (op_index (at_time (now, op))) ->
  exists s' c', mgr_op_run sys bucket_of now op s = Ret (fst (FdbTheorems.op_spec (at_time (now, op)) m), s')
    /\ manager_state s' (snd (FdbTheorems.op_spec (at_time (now, op)) m)) c'
    /\ advances s s' (op_data (at_time (now, op))) (op_index (at_time (now, op))).
Proof.
  intros Hs Hop Hclk Htime Hroom. destruct op as [key value care expire|key|key care]; cbn [mgr_op_run at_time FdbTheorems.op_spec op_data op_index mgr_op_ok] in *.
  - destruct Hop as (Hk & Hv & Hl). pose proof (fdb_put_ok now key value care expire s m c Hs Hk Hv Hl Hroom) as Hput.
    destruct (spec_put now key value care expire m) as [rc m']. destruct Hput as (key' & s' & c' & E & Hs' & Ha & _ & He). step_with E.
    exists s', c'. split; [|done]. cbn [fst]. destruct (Z.eqb_spec rc TAIR_RETURN_SUCCESS) as [D|D]; [by rewrite (He D)|done].
  - cbn [in_time] in Htime. rewrite andb_true_r in Htime. pose proof (fdb_get_ok now key s m c Hs Hop Hclk Htime) as Hget.
    destruct (spec_get now key m) as [[rc e] m']. destruct Hget as (key' & value' & s' & c' & E & Hs' & Ha & Hrc & He). step_with E.
    exists s', c'. split; [|done]. cbn [fst]. destruct e as [e|].
    + rewrite (proj2 (Z.eqb_eq _ _) (proj2 Hrc ltac:(by eexists))). by rewrite (He e eq_refl).
    + destruct (Z.eqb_spec rc TAIR_RETURN_SUCCESS) as [D|D]; [|done]. by apply Hrc in D as [? [=]].
  - pose proof (fdb_remove_ok key care s m c Hs Hop) as Hrem. destruct (spec_remove key care m) as [rc m'].
    destruct Hrem as (key' & s' & c' & E & Hs' & Ha). step_with E. by exists s', c'.
Qed.

Lemma tick_state now s m c : manager_state s m c -> manager_state (tick now s) m c /\ clock (memory_cache (tick now s)) = u32 now.
Proof.
  intros Hs. destruct (set_clock_law now (memory_cache s) c (ms_cache _ _ _ Hs)) as (H1 & H2 & H3). split; [|done].
  apply (cache_state s m c _ c Hs H1 H3 (ms_cached _ _ _ Hs)).
Qed.

Lemma tick_ok now s op : mgr_op_ok s op -> mgr_op_ok (tick now s) op.
Proof. destruct op; cbn; [intros ([] & ? & ?)|intros []..]; done. Qed.

Definition mgr_total (f : fdb_op -> Z) (ops : list (Z * mgr_op)) : Z := total f (map at_time ops).

Lemma mgr_run_refines ops : forall s m c,
  manager_state s m c -> Forall (fun op => mgr_op_ok s op.2) ops -> in_time ops m = true ->
  buckets_room s (mgr_total op_data ops) (mgr_total op_index ops) ->
  exists s' c', mgr_run sys bucket_of ops s = Ret (fst (fdb_spec (map at_time ops) m), s')
    /\ manager_state s' (snd (fdb_spec (map at_time ops) m)) c'.
Proof.
  induction ops as [|[now op] ops IH]; intros s m c Hs Hops Htime Hroom; [by exists s, c|]. apply list.Forall_cons in Hops as [Hop Hops]. cbn [snd] in Hop.
  assert (0 <= mgr_total op_data ops /\ 0 <= mgr_total op_index ops) as [P1 P2].
  { clear -Hops. unfold mgr_total, total. induction Hops as [|[n o] ops Ho _ IHo]; cbn; [done|]. destruct (mgr_op_ok_pos s o n Ho). cbn in *. lia. }
  change (mgr_total op_data ((now, op) :: ops)) with (op_data (at_time (now, op)) + mgr_total op_data ops) in Hroom.
  change (mgr_total op_index ((now, op) :: ops)) with (op_index (at_time (now, op)) + mgr_total op_index ops) in Hroom.
  destruct (tick_state now s m c Hs) as [Hs0 Hclk]. cbn [in_time] in Htime. apply andb_true_iff in Htime as [Ht1 Ht2].
  destruct (mgr_op_refines now op (tick now s) m c Hs0 (tick_ok now s op Hop) Hclk) as (s1 & c1 & E & Hs1 & Ha);
    [cbn [in_time]; by rewrite Ht1|intros n b Eb; specialize (Hroom n b Eb); unfold room in *; lia|].
  cbn [mgr_run map fdb_spec]. step_with (eq_refl : smodify (tick now) s = Ret (tt, tick now s)).
  destruct (FdbTheorems.op_spec (at_time (now, op)) m) as [a m1]. cbn [fst snd] in *.
  destruct (IH s1 m1 c1 Hs1) as (s2 & c2 & E2 & Hs2); [|done|by apply (advances_room (tick now s) s1 (op_data (at_time (now, op))) (op_index (at_time (now, op))))|].
  - eapply list.Forall_impl; [exact Hops|]. intros o Ho. eapply mgr_op_ok_after; [exact Ha|by apply tick_ok].
  - destruct (fdb_spec (map at_time ops) m1) as [l m2]. cbn [fst snd] in *. step_with E. step_with E2. by exists s2, c2.
Qed.
End manager.
