(* ===== verification/FdbManagerTheorems.v ===== *)
(** * The disk engine behind its cache: properties

    With any cache that keeps the laws of an engine, the manager answers every
    operation as one map from keys to entries does, as time goes on - unless an
    entry is read in the very second in which it expires.  That entry is then
    served for ever; so is an old entry when a put overtakes a get, and one of a
    bucket that was closed and opened again. *)

From S2P Require Import Prelude DataBuffer Util DataEntry MemPool MdbItem MemCache EngineState MdbManager Engine EngineInit EngineRun TableManager Storage TairManager FdbFile FdbItems FdbBucket FdbTree FdbLayout FdbSteps FdbTiles FdbSpace FdbLink FdbUnlink FdbEngine FdbPut FdbOpen FdbLost FdbTheorems FdbManager FdbCache.

Section theorems.
Context {C : Type} `{Hcache : CacheLaws C} (sys : system) `{Hio : io_succeeds sys} (bucket_of : list Z -> Z) (limit : Z).
Hypothesis Hlimit : limit + sizeof_item_meta_info < 2 ^ 20.
Context (power map_size : Z) (stack : list Z).
Hypotheses (Hpower : 0 <= power <= 24) (Hmap : map_size_ok power map_size) (Hstack : length stack = 3%nat).

(** ** Opening *)

Definition fresh (b : fdb_store) : Prop :=
  engine_state true b ∅ /\ dat_file_size (header b) = DBHEADER_MAGIC_SIZE
  /\ idx_file_size (header b) = records_start (dump_default_db_header power) /\ fb_power (header b) = power.

Lemma start_new n files : files !! n = None -> exists b, start sys power map_size stack n files = Ret b /\ fresh b.
Proof.
  intros Hn. unfold start. rewrite Hn. destruct (initialize_new_ok sys power map_size stack Hpower Hmap Hstack) as (b & E & Hb & E1 & E2 & E3).
  exists b. split; [done|]. split; [done|]. split; [done|]. split; [|done]. rewrite E2. unfold records_start. by rewrite E3.
Qed.

Lemma start_fresh n files : (forall b, files !! n = Some b -> fresh b) -> exists b, start sys power map_size stack n files = Ret b /\ fresh b.
Proof.
  intros Hf. destruct (files !! n) as [b|] eqn:E; [|by apply start_new]. destruct (Hf b eq_refl) as ((T & fl & Hly & Hh & Ht) & E1 & E2 & E3).
  unfold start. rewrite E. destruct (initialize_old_ok b T fl map_size Hly ltac:(by rewrite E3)) as (b' & E' & Hly' & Hh' & Ht').
  exists b'. split; [done|]. split; [exists T, fl; auto|]. by rewrite Hh'.
Qed.

Lemma start_buckets_run l : forall temp files,
  (forall n b, temp !! n = Some b -> fresh b) -> (forall n b, files !! n = Some b -> fresh b) ->
  exists temp' files', start_buckets sys power map_size stack ∅ l temp files = Ret (true, temp', files')
    /\ (forall n b, temp' !! n = Some b -> fresh b) /\ (forall n, is_Some (temp !! n) \/ n ∈ l -> is_Some (temp' !! n)).
Proof.
  induction l as [|n l IH]; intros temp files Ht Hf; cbn [start_buckets].
  - exists temp, files. split; [done|]. split; [done|]. by intros n [?|?%elem_of_nil].
  - rewrite lookup_empty. destruct (start_fresh n files (Hf n)) as (b & -> & Hb).
    destruct (IH (<[n := b]> temp) (<[n := b]> files)) as (temp' & files' & E & H1 & H2).
    + intros n' b'. destruct (decide (n = n')) as [<-|D]; [rewrite lookup_insert_eq; by intros [= <-]|rewrite lookup_insert_ne by done; apply Ht].
    + intros n' b'. destruct (decide (n = n')) as [<-|D]; [rewrite lookup_insert_eq; by intros [= <-]|rewrite lookup_insert_ne by done; apply Hf].
    + exists temp', files'. split; [done|]. split; [done|]. intros n' Hn'. apply H2. destruct (decide (n = n')) as [<-|D]; [left; rewrite lookup_insert_eq; by eexists|].
      rewrite lookup_insert_ne by done. destruct Hn' as [?|[?|?]%elem_of_cons]; auto. congruence.
Qed.

(** A manager with these buckets and nothing in its cache *)
Lemma opened cache buckets :
  Storage.holds cache ∅ -> Storage.room cache (cache_room limit) ->
  exists s, fdb_init_buckets sys power map_size stack buckets (mk_fdb_manager cache ∅ ∅) = Ret (true, s)
    /\ manager_state bucket_of limit s ∅ ∅ /\ (forall n, n ∈ buckets -> is_Some (buckets_map s !! n))
    /\ (forall n b, buckets_map s !! n = Some b -> fresh b) /\ memory_cache s = cache.
Proof.
  intros Hc Hr. destruct (start_buckets_run buckets ∅ ∅) as (temp & files & E & H1 & H2);
    [intros n b; by rewrite lookup_empty..|]. unfold fdb_init_buckets. cbn [buckets_map disk memory_cache]. rewrite E. cbn [obind].
  eexists. split; [done|]. split; [|split; [by auto|done]]. constructor; cbn; [done|done| | |].
  - intros n b Hb. unfold part. rewrite map_filter_empty. by apply (H1 n b Hb).
  - intros k ce. by rewrite lookup_empty.
  - intros k e. by rewrite lookup_empty.
Qed.

(** ** The manager is a map *)

(** The requests a data server makes of the open buckets *)
Record server_key (buckets : list Z) (key : data_entry) : Prop := {
  sk_fdb : FdbTheorems.key_ok key;
  sk_area : area key = KEY_AREA (get_data key) /\ 0 <= area key < TAIR_MAX_AREA_COUNT;
  sk_size : get_size key < 2 ^ 12;
  sk_bucket : bucket_of (get_data key) ∈ buckets
}.
Definition server_op (buckets : list Z) (op : mgr_op) : Prop :=
  match op with
  | MPut key value _ _ => server_key buckets key /\ fdb_value value /\ get_size value <= limit
  | MGet key | MRemove key _ => server_key buckets key
  end.

Lemma server_key_open buckets (s : fdb_manager C) key : (forall n, n ∈ buckets -> is_Some (buckets_map s !! n)) -> server_key buckets key -> mgr_key bucket_of s key.
Proof. intros Ho [? ? ? ?]. constructor; auto. Qed.

(** C34: over any cache that keeps the laws, a manager that opens its buckets
    answers every sequence of puts, gets and removes, at whatever times, as one
    map from keys to entries does - if no entry is read in the very second in
    which it expires or with a date of expiry of 2^31 or later ([served_in_time]),
    the values fit the cache and the offsets fit the files. *)
Theorem disk_engine_is_a_map cache buckets ops :
  Storage.holds cache ∅ -> Storage.room cache (cache_room limit) ->
  Forall (fun op => server_op buckets op.2) ops -> in_time ops ∅ = true ->
  DBHEADER_MAGIC_SIZE + mgr_total op_data ops < 2 ^ 40 ->
  records_start (dump_default_db_header power) + mgr_total op_index ops < 2 ^ 32 ->
  exists s s', fdb_init_buckets sys power map_size stack buckets (mk_fdb_manager cache ∅ ∅) = Ret (true, s)
    /\ mgr_run sys bucket_of ops s = Ret (fst (fdb_spec (map at_time ops) ∅), s')
    /\ manager_ok bucket_of limit s' (snd (fdb_spec (map at_time ops) ∅)).
Proof.
  intros Hc Hr Hops Ht Hd Hi. destruct (opened cache buckets Hc Hr) as (s & E & Hs & Hopen & Hfresh & _). exists s.
  destruct (mgr_run_refines sys bucket_of limit Hlimit ops s ∅ ∅ Hs) as (s' & c' & E' & Hs').
  - eapply list.Forall_impl; [exact Hops|]. intros [now [key value care expire|key|key care]]; cbn; [intros (? & ? & ?); split; [|done]|..];
      by apply (server_key_open buckets).
  - done.
  - intros n b Hb. destruct (Hfresh n b Hb) as (_ & E1 & E2 & _). unfold room. by rewrite E1, E2.
  - exists s'. split; [done|]. split; [done|]. by exists c'.
Qed.

End theorems.

(** ** Entries that stay in the cache *)

Section entries.
Context {C : Type} `{Hcache : CacheLaws C} (sys : system) `{Hio : io_succeeds sys} (bucket_of : list Z -> Z) (limit : Z).
Hypothesis Hlimit : limit + sizeof_item_meta_info < 2 ^ 20.

Section stale.
Context (now : Z) (key : data_entry) (s : fdb_manager C) (m : gmap (list Z) fdb_entry) (c : gmap (list Z) entry) (e : fdb_entry).
Hypotheses (Hs : manager_state bucket_of limit s m c) (Hk : mgr_key bucket_of s key) (Hclk : clock (memory_cache s) = u32 now)
  (Hm : m !! get_data key = Some e) (Hc : c !! get_data key = None) (Hlive : entry_expired now e = false) (Hdate : 0 < e_edate e < 2 ^ 31).

Let n : Z := bucket_of (get_data key).

Lemma edate_int : s32 (e_edate e) = e_edate e.
Proof. apply swrap_id; [lia|unfold in_s; lia]. Qed.

(** The first half of a get: the entry is read, and is to be put into the cache. *)
Lemma read_entry : exists key' value' s' c', get_read sys now n key new_data_entry s = Ret ((TAIR_RETURN_SUCCESS, key', value', true), s')
  /\ manager_state bucket_of limit s' m c' /\ advances s s' 0 0 /\ found key e key' value'.
Proof.
  pose proof (get_read_ok sys bucket_of limit now key s m c Hs Hk Hclk) as Hread. unfold spec_get in Hread. rewrite Hm, Hlive in Hread.
  destruct Hread as (key' & value' & fill & s1 & c1 & E & Hs1 & Ha & _ & _ & Hfill & Hf). rewrite (Hf Hc e eq_refl) in *.
  destruct (Hfill eq_refl) as (e0 & [= <-] & Hfo). by exists key', value', s1, c1.
Qed.

(** The second half, whatever has happened in between *)
Lemma fill_entry rc key' value' s' m' c' :
  manager_state bucket_of limit s' m' c' -> found key e key' value' -> clock (memory_cache s') = u32 now ->
  exists key'' cc c'' ce d, get_fill n (rc, key', value', true) s' = Ret ((rc, key'', value'), mk_fdb_manager cc (buckets_map s') (disk s'))
    /\ Storage.holds cc c'' /\ clock cc = u32 now /\ Storage.room cc (cache_room limit)
    /\ c'' !! get_data key = Some ce /\ meta_ok d /\ meta_entry (e_value e) d = e
    /\ EngineState.e_value ce = meta_raw d ++ e_value e /\ e_exptime ce = put_exptime (e_edate e) (u32 now) 0.
Proof.
  intros Hs' Hfo Hclk'.
  destruct (get_fill_run limit Hlimit n rc key e key' value' s' c' (ms_cache _ _ _ _ _ Hs') (ms_room _ _ _ _ _ Hs') (mk_fdb _ _ _ Hk))
    as (key'' & cc & ce & c0 & E & Hcc & _ & Hcl & Hr & Ev & Ex);
    [destruct (mk_area _ _ _ Hk) as [<- ?]; done|by apply (mk_size _ _ _ Hk)|done|by apply (ms_values _ _ _ _ _ Hs _ e Hm)|].
  destruct (fo_meta _ _ _ _ Hfo) as [Hmo Hme]. rewrite edate_int in Ex.
  exists key'', cc, (<[get_data key := ce]> c0), ce, (data_meta value'). split; [done|]. split; [done|]. split; [by rewrite Hcl|].
  split; [apply Hr, (ms_room _ _ _ _ _ Hs')|]. split; [apply lookup_insert_eq|]. split; [done|]. split; [done|]. split; [done|]. rewrite Ex by lia. by rewrite Hclk'.
Qed.

(** What the cache has is given, whatever is in the bucket. *)
Lemma serve_entry t s' c' ce d :
  Storage.holds (memory_cache s') c' -> is_Some (buckets_map s' !! n) -> c' !! get_data key = Some ce -> meta_ok d -> meta_entry (e_value e) d = e ->
  EngineState.e_value ce = meta_raw d ++ e_value e -> Engine.entry_expired (clock (memory_cache s')) ce = false ->
  exists key' value' cc, fdb_get sys t n key new_data_entry s' = Ret ((TAIR_RETURN_SUCCESS, key', value'), mk_fdb_manager cc (buckets_map s') (disk s'))
    /\ meta_entry (get_data value') (data_meta value') = e.
Proof.
  intros Hc' Hopen Hce Hd Hme Ev Hx. destruct (ms_values _ _ _ _ _ Hs _ e Hm) as [Hlen _].
  destruct (read_hit sys t n key s' c' ce d (e_value e) Hc' (mgr_key_cache bucket_of s key Hk) Hopen Hce Hx Ev Hd)
    as (key' & value' & cc & E & _ & _ & _ & D1 & D2); [intros E; rewrite E in Hlen; cbn in Hlen; lia|].
  exists key', value', cc. rewrite D1, D2. split; [|done]. unfold fdb_get. by step_with E.
Qed.
End stale.

(** C37: an entry that is read in the very second in which it expires is cached
    with the date of its expiry for its time to live, and is served for as many
    seconds again as have passed since 1970. *)
Theorem last_second_entry_is_served_for_ever s m c now key e t :
  manager_state bucket_of limit s m c -> mgr_key bucket_of s key -> clock (memory_cache s) = now ->
  m !! get_data key = Some e -> c !! get_data key = None -> e_edate e = now -> 0 < now < 2 ^ 31 -> now < t <= 2 * now ->
  exists key1 value1 s1 key2 value2 s2,
    fdb_get sys now (bucket_of (get_data key)) key new_data_entry s = Ret ((TAIR_RETURN_SUCCESS, key1, value1), s1)
    /\ fdb_get sys t (bucket_of (get_data key)) key new_data_entry (tick t s1) = Ret ((TAIR_RETURN_SUCCESS, key2, value2), s2)
    /\ meta_entry (get_data value2) (data_meta value2) = e /\ entry_expired t e = true.
Proof.
  intros Hs Hk Hclk Hm Hc He Hnow Ht. assert (u32 now = now) as En by (apply wrap_id; unfold in_u; lia).
  assert (u32 t = t) as Et by (apply wrap_id; unfold in_u; lia). rewrite <- En in Hclk.
  assert (entry_expired now e = false) as Hlive by (unfold entry_expired; rewrite En, He, Z.ltb_irrefl; apply andb_false_r).
  assert (0 < e_edate e < 2 ^ 31) as Hdate by lia.
  destruct (read_entry now key s m c e Hs Hk Hclk Hm Hc Hlive) as (key1 & value1 & s1 & c1 & E1 & Hs1 & Ha & Hfo).
  destruct (fill_entry now key s m c e Hs Hk Hm Hdate TAIR_RETURN_SUCCESS key1 value1 s1 m c1 Hs1 Hfo) as (key2 & cc & c2 & ce & d & E2 & Hcc & Hcl & _ & Hce & Hd & Hme & Ev & Ex);
    [by destruct Ha as [-> _]|].
  destruct (set_clock_law t cc c2 Hcc) as (H1 & H2 & _).
  destruct (serve_entry key s m c e Hs Hk Hm t (tick t (mk_fdb_manager cc (buckets_map s1) (disk s1))) c2 ce d) as (key3 & value3 & cc3 & E3 & He3); try done.
  - apply (advances_open s s1 0 0); [done|]. apply (mk_open _ _ _ Hk).
  - cbn [memory_cache tick]. rewrite H2, Et. unfold Engine.entry_expired. rewrite Ex, He, En. unfold put_exptime. rewrite (proj2 (Z.ltb_lt 0 now)), En, Z.ltb_irrefl by lia.
    assert (wrap 32 (now + now) = now + now) as -> by (apply wrap_id; unfold in_u; lia). rewrite (proj2 (Z.ltb_ge _ t)) by lia. apply andb_false_r.
  - exists key2, value1, (mk_fdb_manager cc (buckets_map s1) (disk s1)), key3, value3. eexists. split; [unfold fdb_get; by step_with E1|]. split; [exact E3|]. split; [done|].
    unfold entry_expired. rewrite Et, He, (proj2 (Z.eqb_neq now 0)), (proj2 (Z.ltb_lt now t)) by lia. done.
Qed.

(** C36: a put between the two halves of a get of the same key succeeds, and the
    get then puts the old entry into the cache: later gets are answered with it,
    although the bucket has the new one. *)
Theorem overtaken_get_keeps_the_old_entry s m c now key e value version_care expire_time m' :
  manager_state bucket_of limit s m c -> mgr_key bucket_of s key -> clock (memory_cache s) = u32 now ->
  m !! get_data key = Some e -> c !! get_data key = None -> u32 now < e_edate e < 2 ^ 31 ->
  fdb_value value -> get_size value <= limit -> buckets_room s (put_room key value) FDB_ITEM_META_SIZE ->
  spec_put now key value version_care expire_time m = (TAIR_RETURN_SUCCESS, m') ->
  exists r1 s1 key2 s2 r3 s3 key4 value4 s4 b,
    get_read sys now (bucket_of (get_data key)) key new_data_entry s = Ret (r1, s1)
    /\ fdb_put sys now (bucket_of (get_data key)) key value version_care expire_time s1 = Ret ((TAIR_RETURN_SUCCESS, key2), s2)
    /\ get_fill (bucket_of (get_data key)) r1 s2 = Ret (r3, s3)
    /\ fdb_get sys now (bucket_of (get_data key)) key new_data_entry s3 = Ret ((TAIR_RETURN_SUCCESS, key4, value4), s4)
    /\ meta_entry (get_data value4) (data_meta value4) = e
    /\ buckets_map s4 !! bucket_of (get_data key) = Some b /\ engine_state true b (part bucket_of (bucket_of (get_data key)) m')
    /\ e_value <$> m' !! get_data key = Some (get_data value).
Proof.
  intros Hs Hk Hclk Hm Hc He Hval Hl Hroom Hput. assert (0 <= u32 now) as Hpos by (apply Z.mod_pos_bound; lia).
  assert (entry_expired now e = false) as Hlive by (unfold entry_expired; rewrite (proj2 (Z.ltb_ge (e_edate e) _)) by lia; apply andb_false_r).
  assert (0 < e_edate e < 2 ^ 31) as Hdate by lia.
  destruct (read_entry now key s m c e Hs Hk Hclk Hm Hc Hlive) as (key1 & value1 & s1 & c1 & E1 & Hs1 & Ha1 & Hfo).
  pose proof (advances_key bucket_of s s1 0 0 key Ha1 Hk) as Hk1.
  pose proof (fdb_put_ok sys bucket_of limit now key value version_care expire_time s1 m c1 Hs1 Hk1 Hval Hl) as Hp. rewrite Hput in Hp.
  destruct Hp as (key2 & s2 & c2 & E2 & Hs2 & Ha2 & _ & He2); [by apply (advances_room s s1 0 0)|].
  assert (clock (memory_cache s2) = u32 now) as Hclk2 by (destruct Ha1 as [Q1 _], Ha2 as [Q2 _]; by rewrite Q2, Q1).
  destruct (fill_entry now key s m c e Hs Hk Hm Hdate TAIR_RETURN_SUCCESS key1 value1 s2 m' c2 Hs2 Hfo Hclk2)
    as (key3 & cc & c3 & ce & d & E3 & Hcc & Hcl & _ & Hce & Hd & Hme & Ev & Ex).
  destruct (advances_open s1 s2 _ _ (bucket_of (get_data key)) Ha2 (mk_open _ _ _ Hk1)) as [b Eb].
  destruct (serve_entry key s m c e Hs Hk Hm now (mk_fdb_manager cc (buckets_map s2) (disk s2)) c3 ce d) as (key4 & value4 & cc4 & E4 & He4); try done.
  - cbn [memory_cache]. rewrite Hcl. unfold Engine.entry_expired. rewrite Ex. unfold put_exptime.
    assert (wrap 32 (e_edate e) = e_edate e) as -> by (apply wrap_id; unfold in_u; lia).
    rewrite (proj2 (Z.ltb_lt 0 (e_edate e))), (proj2 (Z.ltb_lt (u32 now) (e_edate e))), (proj2 (Z.ltb_ge (e_edate e) (u32 now))) by lia. apply andb_false_r.
  - exists (TAIR_RETURN_SUCCESS, key1, value1, true), s1, key2, s2. eexists _, _, key4, value4, _, b. split; [exact E1|]. split; [exact E2|]. split; [exact E3|].
    split; [exact E4|]. split; [done|]. split; [done|]. split; [by apply (ms_buckets _ _ _ _ _ Hs2)|]. by rewrite (He2 eq_refl).
Qed.

(** C38: closing a bucket leaves its entries in the cache; when the bucket comes
    back, with new files, they are served again. *)
Theorem reopened_bucket_serves_old_entries s m c now key e power map_size stack :
  0 <= power <= 24 -> map_size_ok power map_size -> length stack = 3%nat ->
  manager_state bucket_of limit s m c -> mgr_key bucket_of s key -> clock (memory_cache s) = u32 now ->
  m !! get_data key = Some e -> c !! get_data key = None -> u32 now < e_edate e < 2 ^ 31 ->
  exists r1 s1 s2 s3 b key4 value4 s4,
    fdb_get sys now (bucket_of (get_data key)) key new_data_entry s = Ret (r1, s1)
    /\ fdb_close_buckets [bucket_of (get_data key)] s1 = Ret (tt, s2)
    /\ fdb_init_buckets sys power map_size stack [bucket_of (get_data key)] s2 = Ret (true, s3)
    /\ buckets_map s3 !! bucket_of (get_data key) = Some b /\ engine_state true b ∅
    /\ fdb_get sys now (bucket_of (get_data key)) key new_data_entry s3 = Ret ((TAIR_RETURN_SUCCESS, key4, value4), s4)
    /\ meta_entry (get_data value4) (data_meta value4) = e.
Proof.
  intros Hpower Hmap Hstack Hs Hk Hclk Hm Hc He. assert (0 <= u32 now) as Hpos by (apply Z.mod_pos_bound; lia).
  assert (entry_expired now e = false) as Hlive by (unfold entry_expired; rewrite (proj2 (Z.ltb_ge (e_edate e) _)) by lia; apply andb_false_r).
  assert (0 < e_edate e < 2 ^ 31) as Hdate by lia. set (n := bucket_of (get_data key)).
  destruct (read_entry now key s m c e Hs Hk Hclk Hm Hc Hlive) as (key1 & value1 & s1 & c1 & E1 & Hs1 & Ha1 & Hfo).
  destruct (fill_entry now key s m c e Hs Hk Hm Hdate TAIR_RETURN_SUCCESS key1 value1 s1 m c1 Hs1 Hfo)
    as (key2 & cc & c2 & ce & d & E2 & Hcc & Hcl & _ & Hce & Hd & Hme & Ev & Ex); [by destruct Ha1 as [-> _]|].
  destruct (advances_open s s1 _ _ n Ha1 (mk_open _ _ _ Hk)) as [b1 Eb1].
  destruct (start_new sys power map_size stack Hpower Hmap Hstack n (delete n (disk s1)) (lookup_delete_eq _ _)) as (b & Eb & Hb & _).
  destruct (serve_entry key s m c e Hs Hk Hm now (mk_fdb_manager cc (<[n := b]> (delete n (buckets_map s1))) (<[n := b]> (delete n (disk s1)))) c2 ce d)
    as (key4 & value4 & cc4 & E4 & He4); try done.
  - cbn [buckets_map]. fold n. rewrite lookup_insert_eq. by exists b.
  - cbn [memory_cache]. rewrite Hcl. unfold Engine.entry_expired. rewrite Ex. unfold put_exptime.
    assert (wrap 32 (e_edate e) = e_edate e) as -> by (apply wrap_id; unfold in_u; lia).
    rewrite (proj2 (Z.ltb_lt 0 (e_edate e))), (proj2 (Z.ltb_lt (u32 now) (e_edate e))), (proj2 (Z.ltb_ge (e_edate e) (u32 now))) by lia. apply andb_false_r.
  - exists (TAIR_RETURN_SUCCESS, key2, value1), (mk_fdb_manager cc (buckets_map s1) (disk s1)), (mk_fdb_manager cc (delete n (buckets_map s1)) (delete n (disk s1))).
    eexists _, b, key4, value4, _. split; [unfold fdb_get; by step_with E1|]. split; [|split; [|split; [|split; [exact Hb|split; [exact E4|exact He4]]]]].
    + unfold fdb_close_buckets, get_bucket. cbn [buckets_map memory_cache disk]. rewrite filter_cons_True by (by exists b1). cbn [filter list_filter].
      rewrite bool_decide_true by (repeat constructor; by intros ?%elem_of_nil). done.
    + unfold fdb_init_buckets. cbn [buckets_map memory_cache disk start_buckets]. rewrite lookup_delete_eq, Eb. done.
    + cbn [buckets_map]. apply lookup_insert_eq.
Qed.
End entries.

(** ** An example: the memory engine as the cache, two buckets *)

#[local] Instance sample_storage : storage_manager mdb_manager := mdb_storage (fun _ _ _ => 0) zero_meta.
#[local] Instance sample_laws : KeyValueLaws mdb_manager := mdb_laws (fun _ _ _ => 0) zero_meta.
#[local] Instance sample_cache_laws : CacheLaws mdb_manager := mdb_cache (fun _ _ _ => 0) zero_meta.

Definition sample_limit : Z := 64.
Definition sample_bucket (k : list Z) : Z := nth 3 k 0 mod 2.

Lemma sample_cache : exists cache, Storage.holds cache ∅ /\ Storage.room cache (cache_room sample_limit) /\ clock cache = 100.
Proof.
  destruct (mdb_manager_initialize_ok 4096 (200 * 2 ^ 20) 10 64 demo_scale 100 demo_params) as (e & vs & E & Hck & Hsz & Hnow).
  exists (mk_mdb_manager 16 e). split; [|split].
  - exists ∅, vs. split; [done|]. unfold EngineState.content. by rewrite omap_empty.
  - assert (exists z, z ∈ engine_sizes demo_scale 64 /\ cache_room sample_limit <= z) as (z & Hz & Hle).
    { assert (exists z, find (fun z => cache_room sample_limit <=? z) (engine_sizes demo_scale 64) = Some z) as [z Hz] by (vm_compute; by eexists).
      apply find_some in Hz as [Hz Hle%Z.leb_le]. exists z. split; [exact (proj2 (list_elem_of_In _ _) Hz)|exact Hle]. }
    exists z. cbn [mdb_engine]. rewrite Hsz. exact (conj Hz Hle).
  - cbn. by rewrite Hnow.
Qed.

Lemma sample_server_key version k :
  3 <= Z.of_nat (length k) < 2 ^ 12 -> in_u 16 version -> KEY_AREA k = 1 -> server_key sample_bucket [0; 1] (sample_key version k).
Proof.
  intros Hk Hv Ha. constructor; [apply sample_key_ok; [lia|done]|by split|cbn; lia|].
  change (sample_bucket k ∈ [0; 1]). unfold sample_bucket. pose proof (Z.mod_pos_bound (nth 3 k 0) 2 ltac:(lia)).
  assert (nth 3 k 0 mod 2 = 0 \/ nth 3 k 0 mod 2 = 1) as [-> | ->] by lia; set_solver.
Qed.

Definition sample_mgr_ops : list (Z * mgr_op) :=
  [(100, MPut (sample_key 0 key_a) (sample_value [1; 2; 3]) true 0); (101, MPut (sample_key 0 key_b) (sample_value [4]) true 7);
   (102, MGet (sample_key 0 key_b)); (103, MGet (sample_key 0 key_b)); (109, MGet (sample_key 0 key_b));
   (110, MGet (sample_key 0 key_a)); (111, MPut (sample_key 1 key_a) (sample_value [5]) true 0); (112, MGet (sample_key 0 key_a));
   (113, MRemove (sample_key 0 key_a) true); (114, MGet (sample_key 0 key_a))].

Lemma sample_mgr_ops_ok : Forall (fun op => server_op sample_bucket sample_limit [0; 1] op.2) sample_mgr_ops.
Proof. repeat constructor; try (by apply sample_server_key); try done. Qed.

Lemma disk_engine_is_a_map_witness : exists cache s s',
  fdb_init_buckets sound_system 8 128 [0; 0; 0] [0; 1] (mk_fdb_manager cache ∅ ∅) = Ret (true, s)
  /\ mgr_run sound_system sample_bucket sample_mgr_ops s = Ret
    ([(TAIR_RETURN_SUCCESS, Some (mk_fdb_entry [1; 2; 3] 1 0 100 100 0)); (TAIR_RETURN_SUCCESS, Some (mk_fdb_entry [4] 1 0 101 101 108));
      (TAIR_RETURN_SUCCESS, Some (mk_fdb_entry [4] 1 0 101 101 108)); (TAIR_RETURN_SUCCESS, Some (mk_fdb_entry [4] 1 0 101 101 108));
      (TAIR_RETURN_DATA_EXPIRED, None); (TAIR_RETURN_SUCCESS, Some (mk_fdb_entry [1; 2; 3] 1 0 100 100 0));
      (TAIR_RETURN_SUCCESS, Some (mk_fdb_entry [5] 2 0 100 111 0)); (TAIR_RETURN_SUCCESS, Some (mk_fdb_entry [5] 2 0 100 111 0));
      (TAIR_RETURN_SUCCESS, None); (TAIR_RETURN_DATA_NOT_EXIST, None)], s')
  /\ manager_ok sample_bucket sample_limit s' ∅.
Proof.
  destruct sample_cache as (cache & Hc & Hr & _). exists cache.
  apply (disk_engine_is_a_map sound_system sample_bucket sample_limit ltac:(done) 8 128 [0; 0; 0] ltac:(done) ltac:(by split) ltac:(done) cache [0; 1] sample_mgr_ops Hc Hr);
    [apply sample_mgr_ops_ok|by vm_compute|by vm_compute|by vm_compute].
Defined.

(** One key that expires at 107, not in the cache *)
Definition sample_entries : gmap (list Z) fdb_entry := snd (spec_put 100 (sample_key 0 key_a) (sample_value [1; 2; 3]) true 7 ∅).
Definition sample_entry : fdb_entry := mk_fdb_entry [1; 2; 3] 1 0 100 100 107.

Lemma sample_state t : exists s c, manager_state sample_bucket sample_limit s sample_entries c /\ c !! key_a = None /\ clock (memory_cache s) = u32 t
  /\ mgr_key sample_bucket s (sample_key 0 key_a) /\ buckets_room s 1000 1000.
Proof.
  destruct sample_cache as (cache & Hc & Hr & Hclk).
  destruct (opened sound_system sample_bucket sample_limit 8 128 [0; 0; 0] ltac:(done) ltac:(by split) ltac:(done) cache [0; 1] Hc Hr)
    as (s & _ & Hs & Hopen & Hfresh & Ecache).
  pose proof (server_key_open sample_bucket [0; 1] s (sample_key 0 key_a) Hopen ltac:(by apply sample_server_key)) as Hk.
  assert (buckets_room s (put_room (sample_key 0 key_a) (sample_value [1; 2; 3]) + 1000) (FDB_ITEM_META_SIZE + 1000)) as Hroom.
  { intros n b Hb. destruct (Hfresh n b Hb) as (_ & E1 & E2 & _). unfold room. rewrite E1, E2. by split; vm_compute. }
  pose proof (fdb_put_ok sound_system sample_bucket sample_limit 100 (sample_key 0 key_a) (sample_value [1; 2; 3]) true 7 s ∅ ∅ Hs Hk
    ltac:(by repeat constructor) ltac:(done)) as Hput.
  assert (spec_put 100 (sample_key 0 key_a) (sample_value [1; 2; 3]) true 7 ∅ = (TAIR_RETURN_SUCCESS, sample_entries)) as Ep by done. rewrite Ep in Hput.
  destruct Hput as (key' & s1 & c1 & _ & Hs1 & Ha & Hno & _); [intros n b Hb; specialize (Hroom n b Hb); unfold room in *; lia|].
  destruct (tick_state sample_bucket sample_limit t s1 sample_entries c1 Hs1) as [Hs2 Hclk2].
  exists (tick t s1), c1. split; [done|]. split; [exact Hno|]. split; [done|]. split.
  - destruct (advances_key sample_bucket s s1 _ _ _ Ha Hk). by constructor.
  - apply (advances_room s s1 _ _ 1000 1000 Ha Hroom).
Qed.

Lemma sample_entry_there : sample_entries !! key_a = Some sample_entry.
Proof. by vm_compute. Qed.

Lemma last_second_entry_is_served_for_ever_witness : exists s (key1 value1 : data_entry) s1 key2 value2 s2,
  fdb_get sound_system 107 0 (sample_key 0 key_a) new_data_entry s = Ret ((TAIR_RETURN_SUCCESS, key1, value1), s1)
  /\ fdb_get sound_system 200 0 (sample_key 0 key_a) new_data_entry (tick 200 s1) = Ret ((TAIR_RETURN_SUCCESS, key2, value2), s2)
  /\ meta_entry (get_data value2) (data_meta value2) = sample_entry /\ entry_expired 200 sample_entry = true.
Proof.
  destruct (sample_state 107) as (s & c & Hs & Hc & Hclk & Hk & _). exists s.
  apply (last_second_entry_is_served_for_ever sound_system sample_bucket sample_limit ltac:(done) s sample_entries c 107 (sample_key 0 key_a) sample_entry 200 Hs Hk Hclk
    sample_entry_there Hc eq_refl); lia.
Defined.

Lemma overtaken_get_keeps_the_old_entry_witness : exists s m' r1 s1 key2 s2 r3 s3 key4 value4 s4 b,
  get_read sound_system 101 0 (sample_key 0 key_a) new_data_entry s = Ret (r1, s1)
  /\ fdb_put sound_system 101 0 (sample_key 0 key_a) (sample_value [9]) true 0 s1 = Ret ((TAIR_RETURN_SUCCESS, key2), s2)
  /\ get_fill 0 r1 s2 = Ret (r3, s3)
  /\ fdb_get sound_system 101 0 (sample_key 0 key_a) new_data_entry s3 = Ret ((TAIR_RETURN_SUCCESS, key4, value4), s4)
  /\ meta_entry (get_data value4) (data_meta value4) = sample_entry
  /\ buckets_map s4 !! 0 = Some b /\ engine_state true b (part sample_bucket 0 m') /\ e_value <$> m' !! key_a = Some [9].
Proof.
  destruct (sample_state 101) as (s & c & Hs & Hc & Hclk & Hk & Hr). exists s, (snd (spec_put 101 (sample_key 0 key_a) (sample_value [9]) true 0 sample_entries)).
  apply (overtaken_get_keeps_the_old_entry sound_system sample_bucket sample_limit ltac:(done) s sample_entries c 101 (sample_key 0 key_a) sample_entry (sample_value [9]) true 0
    _ Hs Hk Hclk sample_entry_there Hc); [by vm_compute|by repeat constructor|done| |by vm_compute].
  intros n b Hb. specialize (Hr n b Hb). assert (put_room (sample_key 0 key_a) (sample_value [9]) <= 1000) by by vm_compute. unfold room, FDB_ITEM_META_SIZE in *. lia.
Defined.

Lemma reopened_bucket_serves_old_entries_witness : exists s r1 s1 s2 s3 b key4 value4 s4,
  fdb_get sound_system 101 0 (sample_key 0 key_a) new_data_entry s = Ret (r1, s1)
  /\ fdb_close_buckets [0] s1 = Ret (tt, s2)
  /\ fdb_init_buckets sound_system 8 128 [0; 0; 0] [0] s2 = Ret (true, s3)
  /\ buckets_map s3 !! 0 = Some b /\ engine_state true b ∅
  /\ fdb_get sound_system 101 0 (sample_key 0 key_a) new_data_entry s3 = Ret ((TAIR_RETURN_SUCCESS, key4, value4), s4)
  /\ meta_entry (get_data value4) (data_meta value4) = sample_entry.
Proof.
  destruct (sample_state 101) as (s & c & Hs & Hc & Hclk & Hk & _). exists s.
  apply (reopened_bucket_serves_old_entries sound_system sample_bucket sample_limit ltac:(done)
    s sample_entries c 101 (sample_key 0 key_a) sample_entry 8 128 [0; 0; 0] ltac:(done) ltac:(by split) ltac:(done) Hs Hk Hclk sample_entry_there Hc). by vm_compute.
Defined.
